(* ===== verification/_CoqProject ===== *)
-Q . S2P
Prelude.v
PyStd.v
Domain.v
Rows.v
PyJson.v
PyUrl.v
ControlledActions.v
FleetIdentity.v
FrozenShapes.v
TaskOps.v
History.v
ControlPlane.v
Claim.v
Companion.v
ControlStream.v
ActionLedger.v
TaskIntake.v
Fencing.v
ControlDb.v
Accounts.v
ControlHistory.v
Publishing.v
PublishRules.v
Outbox.v
TaskMachine.v
Temporal.v
PublishWorkflow.v
PublishRuns.v
DebugSessions.v
DebugRules.v
EdgeMessages.v
EdgeSpool.v
EdgeHub.v
EdgeRunner.v
EdgeControl.v
EdgeLink.v
DebugDelivery.v
DebugRelay.v
RelayRules.v
DeviceLock.v
