(* ===== verification/Prelude.v ===== *)
(** * CloudCtl: a verification library (root file)

    CloudCtl runs automation tasks on Android phones. This library models the
    parts of it that decide who may act on a phone, when, and how often, and
    proves what makes them correct. Paths are relative to [src/].

    ** The program

    - control-api ([services/control-api/src/cloudctl_api]) holds the database.
      An operator or an API client creates a mobile task; the Companion app on
      a phone claims the oldest task of its device under a lease, reports
      progress, asks for permission before every irreversible click, and
      reports the outcome. Operators cancel, pause, resume, mark unknown and
      reconcile tasks; a Companion learns of it by a control stream. The same
      service keeps accounts and their bindings to devices, device leases, and
      publish plans from creation over approval to the commit intents.
    - The outbox dispatcher ([services/outbox-dispatcher]) delivers the events
      the service writes next to its rows; the temporal worker
      ([services/temporal-worker]) runs a workflow per publish plan and target.
    - The edge gateway ([edge/gateway/src/cloudctl_edge]) runs next to a rack
      of phones. It keeps a durable spool, runs one command per device, and
      talks to the cloud over one stream.
    - The edge hub ([services/edge-hub/src/cloudctl_edge_hub]) is the cloud end
      of that stream: it keeps the messages of every edge in a store and
      replays what an edge has not acknowledged.
    - packages/domain holds the errors, permissions, publish states and value
      objects the services share.

    ** The files

    The foundation: Prelude (results, guards, keyed tables, generic lemmas and
    tactics), PyStd (the standard library functions the program computes
    with: SHA-256 over bytes, decimal numerals, the regular expressions),
    PyJson (canonical JSON text and the size of the escaped one), PyUrl
    ([urlsplit]), Domain (packages/domain), Rows (the tables
    and unique indexes of db.py and the unit of work).

    The control plane, one file per part, each handler a definition:
    - ControlledActions: controlled_actions.py, [action_identity] and
      [canonical_steps] of mobile_actions.py;
    - FleetIdentity: fleet_identity.py;
    - FrozenShapes: the step shapes of mobile_actions.py;
    - TaskOps: the helpers of platform_tasks.py and mobile_service.py on task
      rows, [settle_reply_delivery] of im_service.py, the delivery identity of
      order_delivery.py;
    - History: the relation [db_le], what every handler preserves;
    - ControlPlane: the operator handlers of platform_tasks.py;
    - Claim: [claim] and [release] of mobile_service.py;
    - Companion: [heartbeat], [event], [finish], [control_ack];
    - ControlStream: control pull, reconcile snapshot, device heartbeat,
      [authenticate], [unbind];
    - ActionLedger: [MobileActionService] of mobile_actions.py;
    - TaskIntake: [create_task] and [_insert_task];
    - Fencing: what every one of these handlers does to leases and fencing
      counters.

    The control service of services.py and repository.py:
    - ControlDb: all its tables, their indexes, the unit of work and the
      lookups of [ControlRepository];
    - Accounts: accounts, bindings, maintenance, device leases;
    - ControlHistory: the relation [control_le], what those handlers promise;
    - Publishing: [create_plan], [submit_plan], [decide_approval],
      [cancel_plan], [create_commit_intent], [update_target_state];
    - PublishRules: what those promise;
    - Outbox: store.py and dispatcher.py of the dispatcher;
    - TaskMachine: executions of the handlers of the whole service, tasks,
      administration, publishing and outbox, interleaved freely.

    The workflows of the temporal worker:
    - Temporal: the runtime, a free monad of activities with retries, lost
      answers, signals and interference; the class [ActivityBackend] is what a
      workflow needs of a backend, [BackendLaws] what its theorems need;
    - PublishWorkflow: workflows.py and [InMemoryActivityBackend];
    - PublishRuns: [ControlPlaneBackend], runs against TaskMachine.

    Debug sessions:
    - DebugSessions: debug_service.py and debug_repository.py, the handlers
      over the tables of the service and the two of their own;
    - DebugRules: the machine that interleaves them with every step of the
      service, and what a session may do when.

    The edge, from the phone rack to the cloud:
    - EdgeMessages: the messages of edge-control.proto;
    - EdgeSpool: spool.py, every durable operation, [apply_op] and [run_ops];
    - EdgeHub: session.py and sqlite_hub_store.py; the class [HubStore] is the
      protocol class of session.py, the class [HubStoreSpec] what a store
      promises on an abstract stream, with both stores as instances;
    - EdgeRunner: scheduler.py and runner.py;
    - EdgeControl: control_stream.py, [DebugSessionManager] of remote_proxy.py,
      operator_actions.py and the restart in runtime.py;
    - EdgeLink: the composition of an edge and the hub, for any store that
      meets [HubStoreSpec], over connections that can fail at any moment
      (grpc_service.py, [_outbound] and [run_once]);
    - DebugDelivery: debug_delivery.py, sqlite_debug_store.py and relay.py, the
      grants and revocations on their way to an edge, behind the class
      [DeliveryStore] with both stores as instances; [DeliverDebugEvent];
    - DebugRelay: debug_relay.py, the WebSocket of a browser;
    - RelayRules: the machine of the hub's debug part, for any hub store, and
      what a browser can make an edge do.

    Operations: DeviceLock, the lock table operators share when they test on a
    phone (scripts/device_lock.py), each command and any history of them.

    ** What is proved

    - At most once. An action of a task is authorised at most once in any
      execution of the control plane (TaskMachine), because an intent is
      granted only under full control of the lease and against an empty ledger
      row (ActionLedger), identities name their inputs (ControlledActions) and
      an outcome is reported once.
    - History. Every handler continues the history of the database
      ([execution_keeps_history]); every spool operation that of the spool
      ([spool_keeps_history]).
    - Who runs what. A claim grants one device one task under a fresh lease
      (Claim), completion, release, cancel and resume take the right away
      (Companion, ControlPlane), and on the edge a superseded lease is fenced
      off and its runner canceled (EdgeSpool, EdgeControl).
    - Publishing. A plan is scheduled only when approved
      ([scheduled_plans_were_approved]), canceled for good
      ([canceled_plan_never_publishes]), frozen when submitted; a commit
      intent is registered once, under the fence ([commit_intent_fenced]); a
      workflow has the edge commit at most once ([target_commits_once]), all
      workflows of all time under one intent ([commits_share_one_intent]), and
      says what happened ([outcome_is_honest]).
    - Leases. However devices are leased, later tokens are larger
      ([leases_are_fenced]); no two workflows hold a device
      ([acquire_lease_exclusive]); binding and unbinding an account stop the
      work it no longer owns ([bind_takes_over], [unbind_stops_the_account]).
    - Debugging. A relay token works only for the session that exchanged it,
      once, under the session's own lease ([relay_needs_its_exchange]); a dead
      session stays dead ([dead_session_stays_dead]), a created one works
      ([created_session_works]), evidence is safe ([evidence_is_safe]). At the
      hub a browser's frame follows a grant of its session to the same edge and
      a token of that grant ([relay_commands_are_authorised]), a revocation
      closes the ingress ([revocation_closes_the_ingress]) and the router's
      handles ([router_revocation_is_final]), budgets hold
      ([relay_stays_within_budget]), the delivery stores are interchangeable
      ([delivery_stores_agree]).
    - The acceptance lock of a phone ([lock_is_kept], [lost_lock_is_dead],
      [audit_tells_the_locks]).
    - Events. Only what was sent is marked published, nothing is lost and
      everything can be published (Outbox).
    - Handlers, branch by branch: cancel, resume, reconcile, the read-only
      window (ControlPlane), claim, heartbeat, event, finish, acknowledgement,
      intent, outcome, creation, command validation.
    - Steps. Accepted maintenance steps strike the irreversible click exactly
      once, accepted order collection only reads (FrozenShapes).
    - Streams. Cursors and sequences of the device control stream are
      monotone and miss nothing retained (ControlStream, FleetIdentity); the
      two hub stores are interchangeable (EdgeHub); the edge link refines two
      reliable first-in first-out channels, never reports a protocol error and
      can always deliver everything it holds (EdgeLink).
    - Shortcomings the proofs brought out are theorems too, for example
      [expired_grant_wedges_the_edge], [interrupted_command_is_never_resumed],
      [rebuilt_hub_refuses_the_edge], [resume_breaks_account_mutex],
      [claim_fails_committed_task], [control_pull_skips_compacted],
      [commit_without_approval], [approval_resets_commit],
      [failed_validation_is_not_recorded], [lease_outlived],
      [open_socket_outlives_revocation] and [redelivered_grant_is_refused].

    ** How the code is modelled

    A handler of control-api is a function of the database that returns the
    answer and the database it leaves, or an error; [unit_of_work] checks the
    unique indexes at commit and keeps the database when the handler raises.
    Each transaction is atomic: the services lock the rows they change, and
    SQLite serialises writers. Clocks, uuids and random bytes are arguments,
    one per time the code reads them. A datetime is its microseconds since
    the epoch in UTC; a string is its UTF-8 bytes; a row has the source's
    columns except identifiers and texts nothing reads. A task's steps are a
    header record and the list of the steps proper; a JSON number that stands
    for a datetime in a request document is its microseconds. A transition
    matrix lookup that has no entry is the KeyError. What a step
    package or a built-in recipe holds, what [live_service.has_remote] answers
    and the repr of a float are parameters. Request bodies arrive with the
    types pydantic gives them.

    On the edge, sequences are unbounded integers (the wire has 64 bits; the
    hub's SQLite store refuses those from 2^63 on, [fits]), a serialized message is the message itself, and a coroutine is atomic
    between two awaits. An exception that escapes [handle_cloud] ends the
    process; [restart] is the next one, over the same spool. The executor of
    a command is any of the outcomes [_run] distinguishes; the device target
    resolver and the debug driver are parameters. The contents of a live
    queue are kept with the store that fills it. A link also records, for the
    statements only, the bodies sent to and taken by the edge.

    A workflow is a tree of activities, so its runs are finite; an activity is
    attempted as often as its retry policy allows, the only numeric bounds of
    the model, and they are the source's. No definition has fuel: recursion is
    structural throughout, and executions are finite sequences of steps of any
    length.

    ** Not modelled

    Sockets, certificates, files, object stores, brokers and third-party
    clients (live streaming, WeChat, classifiers, the LAMDA driver, the
    Temporal service); request routing, settings and views that only format
    rows; tools and code in other languages. Not modelled although it is
    logic: schedules and APK releases, enrollment of Companions and edges,
    media and content of services.py, the platform command vocabulary,
    built-in recipes and the operation catalog, which build or file away what
    the modelled parts then act on. *)

From stdpp Require Import base gmap strings list fin_maps pretty.
From Stdlib Require Import ZArith Lia Sorting.Sorted Ascii.

(** ** Results: a Python call either returns or raises *)

Inductive result (E A : Type) : Type :=
| Ok (value : A)
| Err (error : E).
Arguments Ok {E A} value.
Arguments Err {E A} error.

Definition is_ok {E A} (r : result E A) : bool :=
  match r with Ok _ => true | Err _ => false end.

(** The state a call leaves behind: a transaction commits when the call
    returns and rolls back when it raises. *)
Definition committed {E A S} (s : S) (r : result E (A * S)) : S :=
  match r with Ok (_, s') => s' | Err _ => s end.

Declare Scope cc_scope.
Delimit Scope cc_scope with cc.

Notation "'let?' p ':=' e 'in' k" :=
  (match e with Ok p => k | Err err_ => Err err_ end)
  (at level 10, p pattern, e at level 200, k at level 200) : cc_scope.
Notation "'need' x ':=' o 'orelse' e 'in' k" :=
  (match o with Some x => k | None => Err e end)
  (at level 10, x name, o at level 200, e at level 200, k at level 200) : cc_scope.
Notation "'raise_if' c 'with' e 'in' k" :=
  (if decide c then Err e else k)
  (at level 10, c at level 200, e at level 200, k at level 200) : cc_scope.
Open Scope cc_scope.

(** ** Record update *)

(** [Eta R] lists the fields of a record once; the setter of a field is then
    built from it, and [r <| field := v |>] reduces under [cbn] to a record
    whose other projections are those of [r]. *)
Class Eta (R : Type) := eta : R -> R.
Class Setter {R T : Type} (get : R -> T) := set_with : (T -> T) -> R -> R.

Ltac build_setter R get :=
  let body := constr:(fun r : R => ltac:(
    let e := constr:(_ : Eta R) in
    let b := eval hnf in e in
    let b' := eval cbv beta in (b r) in exact b')) in
  exact (fun u (r : R) => ltac:(
    let b := eval cbv beta in (body r) in
    let g := constr:(get r) in
    match b with
    | context C [g] => let b' := context C [u g] in exact b'
    end)).

#[export] Hint Extern 1 (@Setter ?R _ ?get) => build_setter R get : typeclass_instances.

Notation "r <| f := v |>" := (set_with (get := f) (fun _ => v) r)
  (at level 1, left associativity, f at level 1, v at level 200,
   format "r  <| f  :=  v |>").

(** ** Tactics *)

(** [ok_inv H] walks a hypothesis [body = Ok _] (or [= Err _], [= Some _])
    through the guards of [body], leaving one goal per path that reaches the
    stated result, each guard recorded as a hypothesis. *)
Ltac ok_step H :=
  lazymatch type of H with
  | Ok _ = Ok _ => injection H as H
  | Err _ = Err _ => injection H as H
  | Some _ = Some _ => injection H as H
  | Ok _ = Err _ => discriminate H
  | Err _ = Ok _ => discriminate H
  | None = Some _ => discriminate H
  | Some _ = None => discriminate H
  | (if decide ?P then _ else _) = _ =>
      let D := fresh "D" in destruct (decide P) as [D|D]
  | (match (if ?y then _ else _) with _ => _ end) = _ =>
      let E := fresh "E" in destruct y eqn:E
  | (match ?x with _ => _ end) = _ =>
      let E := fresh "E" in destruct x eqn:E
  end; try discriminate H.
Ltac ok_inv H := repeat (cbv beta iota zeta in H; ok_step H); simplify_eq.

(** [by_cases] splits every conditional of the goal. *)
Ltac by_cases := repeat (case_match || case_decide); simplify_eq/=.

(** ** Facts found by computing *)

Lemma not_in_computed {A} `{EqDecision A} (x : A) (l : list A) : bool_decide (x ∈ l) = false -> x ∉ l.
Proof. by intros ?%bool_decide_eq_false. Qed.
Lemma some_computed {A} (o : option A) : bool_decide (is_Some o) = true -> is_Some o.
Proof. by intros ?%bool_decide_eq_true. Qed.
Lemma none_computed {A} (o : option A) : bool_decide (is_Some o) = false -> o = None.
Proof. by destruct o. Qed.

(** ** Tables: rows of a relation in insertion order *)

Section Table.
Context {R : Type} (key : R -> string).

(** [session.get(Row, k)] on a table kept as a list. *)
Fixpoint tget (k : string) (l : list R) : option R :=
  match l with
  | [] => None
  | r :: l' => if decide (key r = k) then Some r else tget k l'
  end.

(** Writing a row back under its own primary key. *)
Definition tput (r : R) (l : list R) : list R :=
  map (fun x => if decide (key x = key r) then r else x) l.

Lemma tget_Some k l r : tget k l = Some r -> r ∈ l /\ key r = k.
Proof.
  induction l as [|x l IH]; cbn; [done|].
  case_decide; intros ?; simplify_eq; [by split; [left|]|].
  destruct IH; [done|]. split; [by right|done].
Qed.

Lemma tget_None k l : tget k l = None <-> k ∉ map key l.
Proof.
  induction l as [|x l IH]; cbn; [set_solver|].
  case_decide; set_solver.
Qed.

Lemma tget_In l r : NoDup (map key l) -> r ∈ l -> tget (key r) l = Some r.
Proof.
  induction l as [|x l IH]; cbn; [set_solver|].
  intros [Hx Hd]%NoDup_cons [->|Hin]%elem_of_cons; [by rewrite decide_True|].
  rewrite decide_False; [by apply IH|].
  intros E; apply Hx. rewrite E. by apply list_elem_of_fmap_2.
Qed.

Lemma tput_keys r l : map key (tput r l) = map key l.
Proof.
  unfold tput. rewrite map_map. apply map_ext_in. intros x _. by case_decide.
Qed.

Lemma elem_of_tput r l x :
  x ∈ tput r l ->
  (x = r /\ exists y, y ∈ l /\ key y = key r) \/ (x ∈ l /\ key x <> key r).
Proof.
  unfold tput. intros (y & -> & Hy)%list_elem_of_fmap_1.
  case_decide; [left; eauto|by right].
Qed.

Lemma elem_of_tput_other r l x : x ∈ l -> key x <> key r -> x ∈ tput r l.
Proof.
  intros Hx Hk. unfold tput. apply list_elem_of_fmap. exists x.
  by rewrite decide_False.
Qed.

Lemma elem_of_tput_self r l : key r ∈ map key l -> r ∈ tput r l.
Proof.
  intros (y & Hk & Hy)%list_elem_of_fmap_1. unfold tput.
  apply list_elem_of_fmap. exists y. by rewrite decide_True.
Qed.

Lemma tget_tput r l k :
  tget k (tput r l) =
  if decide (key r = k) then (if decide (k ∈ map key l) then Some r else None)
  else tget k l.
Proof.
  induction l as [|x l IH]; cbn.
  { destruct (decide (key r = k)); [|done]. rewrite decide_False; [done|set_solver]. }
  fold (tput r l). rewrite IH. clear IH.
  destruct (decide (key x = key r)) as [E|E].
  - destruct (decide (key r = k)) as [Ek|Ek].
    + rewrite decide_True; [done|set_solver].
    + rewrite decide_False by congruence. done.
  - destruct (decide (key r = k)) as [Ek|Ek].
    + rewrite (decide_False (P := key x = k)) by congruence.
      apply decide_ext. set_solver.
    + done.
Qed.

Lemma tget_tput_same r l : key r ∈ map key l -> tget (key r) (tput r l) = Some r.
Proof. intros H. rewrite tget_tput, decide_True by done. by rewrite decide_True. Qed.

Lemma tget_tput_ne r l k : key r <> k -> tget k (tput r l) = tget k l.
Proof. intros H. by rewrite tget_tput, decide_False. Qed.

Lemma tget_key_In k l r : tget k l = Some r -> key r ∈ map key l.
Proof. intros [H _]%tget_Some. by apply list_elem_of_fmap_2. Qed.

Lemma tput_absent r l : key r ∉ map key l -> tput r l = l.
Proof.
  induction l as [|x l IH]; [done|]. cbn. rewrite not_elem_of_cons. intros [Hx Hl].
  rewrite decide_False by done. f_equal. by apply IH.
Qed.

(** Writing back the rows a query selected is mapping over the table. *)
Lemma foldl_tput (f : R -> R) (P : R -> Prop) `{!forall r, Decision (P r)} l :
  (forall r, key (f r) = key r) -> NoDup (map key l) ->
  foldl (fun m r => tput (f r) m) l (filter P l) = map (fun r => if decide (P r) then f r else r) l.
Proof.
  intros Hf Hnd.
  assert (forall pre, NoDup (map key (pre ++ l)) ->
    foldl (fun m r => tput (f r) m) (pre ++ l) (filter P l) = pre ++ map (fun r => if decide (P r) then f r else r) l) as Hg;
    [|exact (Hg [] Hnd)].
  clear Hnd. induction l as [|x l IH]; intros pre Hnd; [done|].
  rewrite filter_cons. case_decide as D; cbn [foldl map]; rewrite ?(decide_True _ _ D), ?(decide_False _ _ D).
  - assert (tput (f x) (pre ++ x :: l) = (pre ++ [f x]) ++ l) as ->.
    { rewrite map_app in Hnd. apply NoDup_app in Hnd as (_ & Hpre & [Hx _]%NoDup_cons).
      unfold tput at 1. rewrite map_app. fold (tput (f x) pre). rewrite tput_absent, <- app_assoc.
      - cbn. fold (tput (f x) l). rewrite tput_absent by (by rewrite Hf). by rewrite Hf, decide_True.
      - rewrite Hf. intros Hp. apply (Hpre _ Hp). by left. }
    rewrite IH; [by rewrite <- app_assoc|]. rewrite !map_app in *. cbn in *. by rewrite Hf, <- app_assoc.
  - change (pre ++ x :: l) with (pre ++ [x] ++ l). rewrite app_assoc, IH; [by rewrite <- app_assoc|]. by rewrite <- app_assoc.
Qed.

Lemma tget_app k l l' :
  tget k (l ++ l') = match tget k l with Some r => Some r | None => tget k l' end.
Proof. induction l as [|x l IH]; cbn; [done|]. by case_decide. Qed.

Lemma Forall_tput (P : R -> Prop) r l : Forall P l -> P r -> Forall P (tput r l).
Proof.
  rewrite !Forall_forall. intros Hl Hr x [[-> _]|[Hx _]]%elem_of_tput; auto.
Qed.

End Table.

(** ** Stable insertion sort ([ORDER BY], [sorted]) *)

Section Sort.
Context {A : Type} (leb : A -> A -> bool).

Fixpoint insert_sorted (x : A) (l : list A) : list A :=
  match l with
  | [] => [x]
  | y :: l' => if leb x y then x :: l else y :: insert_sorted x l'
  end.

Definition isort (l : list A) : list A := foldr insert_sorted [] l.

Lemma insert_sorted_Permutation x l : insert_sorted x l ≡ₚ x :: l.
Proof.
  induction l as [|y l IH]; cbn; [done|]. case_match; [done|].
  rewrite IH. by apply perm_swap.
Qed.

Lemma isort_Permutation l : isort l ≡ₚ l.
Proof. induction l as [|x l IH]; cbn; [done|]. by rewrite insert_sorted_Permutation, IH. Qed.

Lemma elem_of_isort x l : x ∈ isort l <-> x ∈ l.
Proof. by rewrite isort_Permutation. Qed.

Lemma isort_sorted_id l : StronglySorted (fun a b => leb a b = true) l -> isort l = l.
Proof.
  induction 1 as [|x l Hs IH Hx]; cbn; [done|]. fold (isort l). rewrite IH.
  destruct Hx as [|y l Hy _]; cbn; [done|by rewrite Hy].
Qed.

Context (leb_total : forall x y, leb x y = false -> leb y x = true).

Lemma insert_sorted_Sorted x l :
  Sorted (fun a b => leb a b = true) l -> Sorted (fun a b => leb a b = true) (insert_sorted x l).
Proof.
  induction 1 as [|y l Hs IH Hh]; cbn; [by repeat constructor|].
  destruct (leb x y) eqn:E; [by repeat constructor|].
  constructor; [done|]. destruct Hh as [|z l Hz]; cbn; [by constructor; apply leb_total|].
  destruct (leb x z); constructor; auto.
Qed.

Lemma isort_Sorted l : Sorted (fun a b => leb a b = true) (isort l).
Proof. induction l; cbn; [constructor|by apply insert_sorted_Sorted]. Qed.

End Sort.

(** [session.scalar(...)]: the first row of a query, if any. *)
Definition scalar {A} (l : list A) : option A := head l.

Lemma scalar_Some {A} (l : list A) x : scalar l = Some x -> x ∈ l.
Proof. destruct l; cbn; [done|]. intros ?; simplify_eq. by left. Qed.

Lemma scalar_filter_Some {A} (P : A -> Prop) `{!forall x, Decision (P x)} l x :
  scalar (filter P l) = Some x -> P x /\ x ∈ l.
Proof. intros Hs%scalar_Some. by apply list_elem_of_filter in Hs. Qed.

Lemma scalar_filter_None {A} (P : A -> Prop) `{!forall x, Decision (P x)} l :
  scalar (filter P l) = None -> forall x, x ∈ l -> ~ P x.
Proof.
  intros Hs x Hx HP. assert (x ∈ filter P l) as Hf by (by apply list_elem_of_filter).
  destruct (filter P l); [by apply elem_of_nil in Hf|done].
Qed.

Lemma filter_none {A} (P : A -> Prop) `{!forall x, Decision (P x)} l :
  (forall x, x ∈ l -> ~ P x) -> filter P l = [].
Proof.
  intros Hn. destruct (filter P l) as [|x r] eqn:E; [done|].
  assert (x ∈ filter P l) as Hx by (rewrite E; by left).
  apply list_elem_of_filter in Hx as [Hx Hl]. by destruct (Hn x Hl).
Qed.

Lemma filter_ext_In {A} (P Q : A -> Prop) `{!forall x, Decision (P x), !forall x, Decision (Q x)} (l : list A) :
  (forall x, x ∈ l -> P x <-> Q x) -> filter P l = filter Q l.
Proof.
  induction l as [|x l IH]; intros Hi; [done|]. rewrite !filter_cons.
  rewrite (decide_ext (P x) (Q x)) by (apply Hi; by left).
  rewrite IH; [done|]. intros y Hy. apply Hi. by right.
Qed.

Lemma fmap_filter_key {A B} (f : A -> B) (P : B -> Prop) `{!forall x, Decision (P x)} (l : list A) :
  f <$> filter (fun x => P (f x)) l = filter P (f <$> l).
Proof.
  induction l as [|x l IH]; [done|]. rewrite fmap_cons, !filter_cons. case_decide; cbn; by rewrite IH.
Qed.

Lemma StronglySorted_filter {A} (R : A -> A -> Prop) (P : A -> Prop) `{!forall x, Decision (P x)} (l : list A) :
  StronglySorted R l -> StronglySorted R (filter P l).
Proof.
  induction 1 as [|x l Hs IH Hx]; [constructor|]. rewrite filter_cons. case_decide; [|done].
  constructor; [done|]. rewrite Forall_forall in *. intros y Hy. apply Hx. by apply list_elem_of_filter in Hy as [_ Hy].
Qed.

Lemma StronglySorted_snoc {A} (R : A -> A -> Prop) (l : list A) x :
  StronglySorted R l -> Forall (fun y => R y x) l -> StronglySorted R (l ++ [x]).
Proof.
  induction 1 as [|y l Hs IH Hy]; cbn; intros Hx; [by repeat constructor|].
  apply Forall_cons in Hx as [Hyx Hx]. constructor; [by apply IH|]. apply Forall_app. by split; [|apply Forall_singleton].
Qed.

Lemma StronglySorted_impl {A} (R R' : A -> A -> Prop) (l : list A) :
  (forall x y, R x y -> R' x y) -> StronglySorted R l -> StronglySorted R' l.
Proof. intros Hi. induction 1 as [|x l Hs IH Hx]; constructor; [done|]. eapply Forall_impl; [exact Hx|]. apply Hi. Qed.

Lemma seqZ_snoc (m n : Z) : (0 <= n)%Z -> seqZ m (n + 1) = seqZ m n ++ [(m + n)%Z].
Proof. intros Hn. rewrite seqZ_app by lia. done. Qed.

(** The entries above [k] of a log numbered 1, 2, ..., [n]. *)
Lemma filter_seqZ_above (k n : Z) :
  (0 <= n)%Z -> filter (fun i => k < i)%Z (seqZ 1 n) = seqZ (Z.max 0 k + 1) (n - Z.max 0 k).
Proof.
  intros Hn. pattern n. apply natlike_ind; [by rewrite !seqZ_nil by lia| |done].
  clear n Hn. intros n Hn IH. replace (Z.succ n) with (n + 1)%Z by lia.
  rewrite seqZ_snoc, filter_app, IH, filter_cons, filter_nil by lia. case_decide as D.
  - replace (n + 1 - Z.max 0 k)%Z with ((n - Z.max 0 k) + 1)%Z by lia. rewrite seqZ_snoc by lia. do 2 f_equal. lia.
  - rewrite !seqZ_nil by lia. done.
Qed.

(** ** Python strings

    A Python [str] is modelled by its UTF-8 bytes, so that [.encode()] is the
    identity, comparison of code points is comparison of bytes, and the
    characters of a string are its lead bytes. *)

Definition continuation_byte (c : ascii) : bool :=
  let n := nat_of_ascii c in Nat.leb 128 n && Nat.ltb n 192.

(** [len(s)]: the number of code points. *)
Fixpoint str_len (s : string) : Z :=
  match s with
  | "" => 0
  | String c s' => (if continuation_byte c then 0 else 1) + str_len s'
  end%Z%string.

(** [s[:n]]: the first [n] code points. *)
Fixpoint str_take (n : nat) (s : string) : string :=
  match s with
  | "" => ""
  | String c s' =>
      if continuation_byte c then String c (str_take n s')
      else match n with O => "" | S n' => String c (str_take n' s') end
  end%string.

Fixpoint str_contains_char (c : ascii) (s : string) : bool :=
  match s with
  | "" => false
  | String d s' => Ascii.eqb c d || str_contains_char c s'
  end%string.

Fixpoint str_all (p : ascii -> bool) (s : string) : bool :=
  match s with "" => true | String c s' => p c && str_all p s' end%string.

(** [sep.join(l)]. *)
Fixpoint str_join (sep : string) (l : list string) : string :=
  match l with
  | [] => ""
  | [x] => x
  | x :: l' => x +:+ sep +:+ str_join sep l'
  end%string.

Definition str_lines : list string -> string := str_join (String "010" "").

(** [a or b] on an optional string: [None] and the empty string are falsy. *)
Definition str_or (a : option string) (b : string) : string :=
  match a with Some s => if decide (s = ""%string) then b else s | None => b end.

Definition truthy_str (a : option string) : bool :=
  match a with Some s => negb (bool_decide (s = ""%string)) | None => false end.

Lemma str_len_nonneg s : (0 <= str_len s)%Z.
Proof. induction s as [|c s IH]; cbn; [done|]. destruct (continuation_byte c); lia. Qed.

Lemma append_String d s t : String d s +:+ t = String d (s +:+ t).
Proof. reflexivity. Qed.

Lemma append_nil t : "" +:+ t = t.
Proof. reflexivity. Qed.

Lemma append_assoc s t u : (s +:+ t) +:+ u = s +:+ (t +:+ u).
Proof. induction s as [|d s IH]; [done|]. by rewrite !append_String, IH. Qed.

Lemma str_contains_char_app c s t :
  str_contains_char c (s +:+ t) = str_contains_char c s || str_contains_char c t.
Proof.
  induction s as [|d s IH]; [done|]. rewrite append_String; cbn. by rewrite IH, orb_assoc.
Qed.

Lemma str_all_app p s t : str_all p (s +:+ t) = str_all p s && str_all p t.
Proof.
  induction s as [|d s IH]; [done|]. rewrite append_String; cbn. by rewrite IH, andb_assoc.
Qed.

Lemma str_all_not_contains p c s : p c = false -> str_all p s = true -> str_contains_char c s = false.
Proof.
  intros Hc. induction s as [|d s IH]; cbn; [done|].
  rewrite andb_true_iff, orb_false_iff. intros [Hd Hs]. split; [|by apply IH].
  destruct (Ascii.eqb_spec c d); [congruence|done].
Qed.

(** A separator cuts a text in one place only: two texts that start with a
    [c]-free field followed by [c] have the same field and the same rest. *)
Lemma str_cut_inj c s t s' t' :
  str_contains_char c s = false -> str_contains_char c t = false ->
  s +:+ String c s' = t +:+ String c t' -> s = t /\ s' = t'.
Proof.
  revert t. induction s as [|d s IH]; intros [|e t]; rewrite ?append_String, ?append_nil; cbn; intros Hs Ht H.
  - by injection H.
  - injection H as -> _. by rewrite Ascii.eqb_refl in Ht.
  - injection H as -> _. by rewrite Ascii.eqb_refl in Hs.
  - apply orb_false_iff in Hs as [_ Hs], Ht as [_ Ht]. injection H as -> H.
    by destruct (IH t Hs Ht H) as [-> ->].
Qed.

(** ** Blocks that start at a marked element *)

Section Headed.
Context {A : Type} (P : A -> Prop).

Definition headed (b : list A) : Prop := exists x r, b = x :: r /\ P x /\ Forall (fun y => ~ P y) r.

Lemma headed_split r r' bs bs' :
  Forall (fun y => ~ P y) r -> Forall (fun y => ~ P y) r' ->
  Forall headed bs -> Forall headed bs' ->
  r ++ concat bs = r' ++ concat bs' -> r = r' /\ concat bs = concat bs'.
Proof.
  assert (forall y r bs l, ~ P y -> Forall headed bs -> concat bs <> y :: r ++ concat l) as Hno.
  { intros y t cs l Hy Hcs E. destruct Hcs as [|c cs (x & q & -> & Hx & _) _]; [done|].
    injection E as -> _. done. }
  intros Hr. revert r'. induction Hr as [|y r Hy Hr IH]; intros r' Hr' Hb Hb' E.
  - destruct Hr' as [|y r' Hy Hr']; [done|]. exfalso. by apply (Hno y r' bs bs').
  - destruct Hr' as [|y' r' Hy' Hr'].
    + exfalso. by apply (Hno y r bs' bs).
    + injection E as -> E. by destruct (IH r' Hr' Hb Hb' E) as [-> ->].
Qed.

Lemma concat_headed_inj bs bs' :
  Forall headed bs -> Forall headed bs' -> concat bs = concat bs' -> bs = bs'.
Proof.
  intros Hb. revert bs'. induction Hb as [|b bs (x & r & -> & Hx & Hr) Hb IH]; intros bs' Hb' E.
  - by destruct Hb' as [|b' bs' (x & r & -> & _) _].
  - destruct Hb' as [|b' bs' (x' & r' & -> & Hx' & Hr') Hb']; [done|].
    injection E as -> E. apply headed_split in E as [-> E]; [|done..].
    f_equal. by apply IH.
Qed.

End Headed.

(** ** Searches *)

Lemma NoDup_fmap_eq {A B} (f : A -> B) l x y : NoDup (f <$> l) -> x ∈ l -> y ∈ l -> f x = f y -> x = y.
Proof.
  induction l as [|z l IH]; [by intros _ ?%elem_of_nil|].
  rewrite fmap_cons, NoDup_cons. intros [Hz Hnd] [->|Hx]%elem_of_cons [->|Hy]%elem_of_cons E; [done| | |by apply IH].
  - destruct Hz. rewrite E. by apply list_elem_of_fmap_2.
  - destruct Hz. rewrite <- E. by apply list_elem_of_fmap_2.
Qed.

Lemma sublist_fmap {A B} (f : A -> B) l l' : sublist l l' -> sublist (f <$> l) (f <$> l').
Proof. induction 1; cbn; by constructor. Qed.

Lemma sublist_NoDup_fmap {A B} (f : A -> B) l l' : sublist l l' -> NoDup (f <$> l') -> NoDup (f <$> l).
Proof. intros H Hn. eapply sublist_NoDup; [exact Hn|]. by apply sublist_fmap. Qed.

Lemma find_Some_In {A} (f : A -> bool) l x : List.find f l = Some x -> x ∈ l /\ f x = true.
Proof. intros H. apply List.find_some in H as [H1 H2]. split; [by apply list_elem_of_In|done]. Qed.

Section Find.
Context {A : Type} (P : A -> Prop) `{!forall x, Decision (P x)}.

Lemma find_bool_Some l x : List.find (fun y => bool_decide (P y)) l = Some x -> x ∈ l /\ P x.
Proof. intros [E1 E2]%List.find_some. split; [by apply list_elem_of_In|by apply bool_decide_eq_true in E2]. Qed.

Lemma find_bool_None l x : List.find (fun y => bool_decide (P y)) l = None -> x ∈ l -> ~ P x.
Proof. intros HF Hx HP. eapply List.find_none in HF; [|by apply list_elem_of_In]. by apply bool_decide_eq_false in HF. Qed.

Lemma find_unique l x : x ∈ l -> P x -> (forall y, y ∈ l -> P y -> y = x) -> List.find (fun y => bool_decide (P y)) l = Some x.
Proof.
  intros Hx HP Hu. destruct (List.find _ l) as [y|] eqn:E.
  - apply find_bool_Some in E as [Hy HPy]. by rewrite (Hu y).
  - by destruct (find_bool_None _ _ E Hx).
Qed.
End Find.

Create HintDb cc.
#[export] Hint Resolve tget_key_In scalar_Some : cc.
