(* ===== verification/PyStd.v ===== *)
(** * The part of Python's standard library the program computes with

    [hashlib.sha256(...).hexdigest()], the two regular expressions of the
    action identity, [str(int)] and the comparison of strings. These are
    definitions of the language's library, not of the repository; the
    theorems here state the facts the components use (a digest is 64 lower
    case hexadecimal characters; a decimal numeral has no line break). *)

From stdpp Require Import base list strings pretty numbers.
From Stdlib Require Import ZArith Lia Ascii.
From S2P Require Import Prelude.

Open Scope Z_scope.

(** ** SHA-256 (FIPS 180-4) on words kept at 32 bits *)

Module Sha256.

Definition w32 (x : Z) : Z := Z.land x 4294967295.
Definition add32 (a b : Z) : Z := w32 (a + b).
Definition rotr (n x : Z) : Z := Z.lor (Z.shiftr x n) (w32 (Z.shiftl x (32 - n))).
Definition ch x y z := Z.lxor (Z.land x y) (Z.land (Z.lxor x 4294967295) z).
Definition maj x y z := Z.lxor (Z.lxor (Z.land x y) (Z.land x z)) (Z.land y z).
Definition bsig0 x := Z.lxor (Z.lxor (rotr 2 x) (rotr 13 x)) (rotr 22 x).
Definition bsig1 x := Z.lxor (Z.lxor (rotr 6 x) (rotr 11 x)) (rotr 25 x).
Definition ssig0 x := Z.lxor (Z.lxor (rotr 7 x) (rotr 18 x)) (Z.shiftr x 3).
Definition ssig1 x := Z.lxor (Z.lxor (rotr 17 x) (rotr 19 x)) (Z.shiftr x 10).

(** The constants are the first 32 bits of the fractional parts of the cube
    roots (rounds) and square roots (initial value) of the first primes. *)
Definition primes : list Z :=
  filter (fun n => forallb (fun d => negb (n mod d =? 0)) (seqZ 2 (Z.sqrt n - 1)) = true)
    (seqZ 2 310).

Definition cube_root (n : Z) : Z :=
  foldr (fun i r => if (r + 2 ^ i) ^ 3 <=? n then r + 2 ^ i else r) 0 (seqZ 0 36).

Definition round_constants : list Z :=
  Eval vm_compute in map (fun p => w32 (cube_root (p * 2 ^ 96))) primes.

Definition initial : list Z :=
  Eval vm_compute in map (fun p => w32 (Z.sqrt (p * 2 ^ 64))) (take 8 primes).

(** The message schedule, newest word first. *)
Fixpoint schedule (n : nat) (w : list Z) : list Z :=
  match n with
  | O => w
  | S n' =>
      let t := add32 (add32 (ssig1 (List.nth 1 w 0)) (List.nth 6 w 0))
                     (add32 (ssig0 (List.nth 14 w 0)) (List.nth 15 w 0)) in
      schedule n' (t :: w)
  end.

Fixpoint rounds (ks ws : list Z) (a b c d e f g h : Z) : list Z :=
  match ks, ws with
  | k :: ks', w :: ws' =>
      let t1 := add32 (add32 h (bsig1 e)) (add32 (ch e f g) (add32 k w)) in
      let t2 := add32 (bsig0 a) (maj a b c) in
      rounds ks' ws' (add32 t1 t2) a b c (add32 d t1) e f g
  | _, _ => [a; b; c; d; e; f; g; h]
  end.

Definition compress (h m : list Z) : list Z :=
  match h with
  | [a; b; c; d; e; f; g; i] =>
      zip_with add32 h (rounds round_constants (rev (schedule 48 (rev m))) a b c d e f g i)
  | _ => h
  end.

Fixpoint words (l : list Z) : list Z :=
  match l with
  | a :: b :: c :: d :: r => (a * 16777216 + b * 65536 + c * 256 + d) :: words r
  | _ => []
  end.

Fixpoint blocks (n : nat) (h ws : list Z) : list Z :=
  match n with
  | O => h
  | S n' => blocks n' (compress h (take 16 ws)) (drop 16 ws)
  end.

Definition pad (m : list Z) : list Z :=
  let n := Z.of_nat (length m) in
  m ++ [128] ++ replicate (Z.to_nat ((55 - n) mod 64)) 0
    ++ map (fun i => Z.land (Z.shiftr (8 * n) i) 255) [56; 48; 40; 32; 24; 16; 8; 0].

Definition digest (m : list Z) : list Z :=
  let p := pad m in blocks (Nat.div (length p) 64) initial (words p).

Definition hex_digit (x : Z) : ascii :=
  List.nth (Z.to_nat x) ["0"; "1"; "2"; "3"; "4"; "5"; "6"; "7"; "8"; "9";
    "a"; "b"; "c"; "d"; "e"; "f"]%char "0"%char.

Definition hex_word (x : Z) (rest : string) : string :=
  foldr (fun i r => String (hex_digit (Z.land (Z.shiftr x i) 15)) r) rest [28; 24; 20; 16; 12; 8; 4; 0].

Fixpoint str_bytes (s : string) : list Z :=
  match s with
  | EmptyString => []
  | String c s' => Z.of_N (N_of_ascii c) :: str_bytes s'
  end.

Definition hexdigest (s : string) : string := foldr hex_word "" (digest (str_bytes s)).

Lemma rounds_length ks ws a b c d e f g h : length (rounds ks ws a b c d e f g h) = 8%nat.
Proof.
  revert ws a b c d e f g h.
  induction ks as [|k ks IH]; intros [|w ws] *; cbn; auto.
Qed.

Lemma compress_length h m : length h = 8%nat -> length (compress h m) = 8%nat.
Proof.
  intros H. do 8 (destruct h as [|? h]; [discriminate H|]). destruct h; [|discriminate H].
  unfold compress. by rewrite length_zip_with, rounds_length.
Qed.

Lemma blocks_length n h ws : length h = 8%nat -> length (blocks n h ws) = 8%nat.
Proof.
  revert h ws. induction n as [|n IH]; intros h ws H; cbn; [done|].
  apply IH. by apply compress_length.
Qed.

End Sha256.
Abbreviation hexdigest := Sha256.hexdigest.

(** The published vectors for the empty message, one block and two blocks. *)
Example hexdigest_empty :
  hexdigest "" = "e3b0c44298fc1c149afbf4c8996fb92427ae41e4649b934ca495991b7852b855".
Proof. vm_compute. reflexivity. Qed.

Example hexdigest_abc :
  hexdigest "abc" = "ba7816bf8f01cfea414140de5dae2223b00361a396177a9cb410ff61f20015ad".
Proof. vm_compute. reflexivity. Qed.

Example hexdigest_two_blocks :
  hexdigest "abcdbcdecdefdefgefghfghighijhijkijkljklmklmnlmnomnopnopq"
  = "248d6a61d20638b8e5c026930c3e6039a33ce45964ff2167f6ecedd419db06c1".
Proof. vm_compute. reflexivity. Qed.

(** ** Character classes and the regular expressions of the action identity *)

Definition char_in (lo hi c : ascii) : bool :=
  Nat.leb (nat_of_ascii lo) (nat_of_ascii c) && Nat.leb (nat_of_ascii c) (nat_of_ascii hi).

Definition is_digit : ascii -> bool := char_in "0" "9".
Definition is_hex (c : ascii) : bool := is_digit c || char_in "a" "f" c.
Definition is_alnum (c : ascii) : bool := is_digit c || char_in "A" "Z" c || char_in "a" "z" c.

(** [re.fullmatch(r"[a-f0-9]{64}", v)]. *)
Definition match_digest (v : string) : bool :=
  Nat.eqb (String.length v) 64 && str_all is_hex v.

Definition id_char (c : ascii) : bool :=
  is_alnum c || Ascii.eqb c "." || Ascii.eqb c "_" || Ascii.eqb c ":" || Ascii.eqb c "-".

(** [re.fullmatch(r"[A-Za-z0-9][A-Za-z0-9._:-]{0,127}", v)]. *)
Definition match_action_id (v : string) : bool :=
  match v with
  | EmptyString => false
  | String c v' => is_alnum c && Nat.leb (String.length v') 127 && str_all id_char v'
  end.

Lemma hex_digit_hex x : is_hex (Sha256.hex_digit x) = true.
Proof.
  unfold Sha256.hex_digit. generalize (Z.to_nat x) as n. intros n.
  do 16 (destruct n as [|n]; [reflexivity|]). destruct n; reflexivity.
Qed.

Lemma hex_word_spec x r :
  String.length (Sha256.hex_word x r) = (8 + String.length r)%nat
  /\ str_all is_hex (Sha256.hex_word x r) = str_all is_hex r.
Proof. unfold Sha256.hex_word; cbn [foldr str_all String.length]. by rewrite !hex_digit_hex. Qed.

(** Every digest passes the check [[a-f0-9]{64}] of the identity function. *)
Lemma hexdigest_match s : match_digest (hexdigest s) = true.
Proof.
  unfold match_digest, Sha256.hexdigest, Sha256.digest.
  set (p := Sha256.pad _). set (h := Sha256.blocks _ _ _).
  assert (length h = 8%nat) as Hl by (by apply Sha256.blocks_length).
  clearbody h. revert h Hl.
  assert (forall n h, length h = n ->
    String.length (foldr Sha256.hex_word "" h) = (8 * n)%nat
    /\ str_all is_hex (foldr Sha256.hex_word "" h) = true) as Hg.
  { induction n as [|n IH]; intros [|x h] Hh; try discriminate Hh; cbn [foldr]; [done|].
    injection Hh as Hh. destruct (IH h Hh) as [H1 H2]. destruct (hex_word_spec x (foldr Sha256.hex_word "" h)) as [W1 W2].
    rewrite W1, W2, H1. split; [lia|done]. }
  intros h Hl. destruct (Hg 8%nat h Hl) as [-> ->]. reflexivity.
Qed.

Definition newline : ascii := "010"%char.
Definition carriage_return : ascii := "013"%char.

(** ["\n" in v or "\r" in v]. *)
Definition has_line_break (v : string) : bool :=
  str_contains_char newline v || str_contains_char carriage_return v.

Lemma match_digest_no_break v : match_digest v = true -> has_line_break v = false.
Proof.
  intros [_ H]%andb_true_iff. apply orb_false_iff.
  split; by apply (str_all_not_contains is_hex).
Qed.

(** ** [str(int)] *)

Definition py_str_int (n : Z) : string := pretty n.

Lemma pretty_N_char_digit x : is_digit (pretty_N_char x) = true.
Proof. unfold pretty_N_char. repeat case_match; reflexivity. Qed.

Lemma pretty_N_go_digits x s :
  str_all is_digit s = true -> str_all is_digit (pretty_N_go x s) = true.
Proof.
  revert s. induction (N.lt_wf_0 x) as [x _ IH]; intros s Hs.
  destruct (decide (x = 0%N)) as [->|Hx]; [by rewrite pretty_N_go_0|].
  rewrite pretty_N_go_step by lia. apply IH; [by apply N.div_lt; lia|].
  cbn. by rewrite pretty_N_char_digit, Hs.
Qed.

Lemma pretty_N_digits (x : N) : str_all is_digit (pretty x) = true.
Proof.
  unfold pretty, pretty_N. case_decide; [done|]. by apply pretty_N_go_digits.
Qed.

Definition numeral_char (c : ascii) : bool := is_digit c || Ascii.eqb c "-".

Lemma py_str_int_chars n : str_all numeral_char (py_str_int n) = true.
Proof.
  assert (forall s, str_all is_digit s = true -> str_all numeral_char s = true) as Hm.
  { induction s as [|c s IH]; cbn; [done|]. intros [Hc Hs]%andb_true_iff.
    rewrite (IH Hs), andb_true_r. unfold numeral_char. by rewrite Hc. }
  unfold py_str_int, pretty, pretty_Z. destruct n as [|p|p]; [done| |].
  - apply Hm, pretty_N_digits.
  - rewrite str_all_app. apply andb_true_iff. split; [done|]. apply Hm, pretty_N_digits.
Qed.

Lemma py_str_int_no_break n : str_contains_char newline (py_str_int n) = false.
Proof. apply (str_all_not_contains numeral_char); [done|apply py_str_int_chars]. Qed.

Lemma py_str_int_inj a b : py_str_int a = py_str_int b -> a = b.
Proof. apply (inj pretty). Qed.

(** ** Ordering of strings by code point *)

Definition str_leb : string -> string -> bool := String.leb.

Lemma str_leb_total x y : str_leb x y = false -> str_leb y x = true.
Proof. destruct (String.leb_total x y); unfold str_leb; congruence. Qed.

(** [sorted(strings)]. *)
Definition str_sorted : list string -> list string := isort str_leb.

(** ** Texts made of lines *)

Definition one_line (v : string) : bool := negb (str_contains_char newline v).

Lemma one_line_break v : has_line_break v = false -> one_line v = true.
Proof. unfold one_line. intros [-> _]%orb_false_iff. done. Qed.

Lemma str_lines_cons x y l : str_lines (x :: y :: l) = x +:+ String newline (str_lines (y :: l)).
Proof. reflexivity. Qed.

(** Lines without line breaks are recovered from their text. *)
Lemma str_lines_inj l l' :
  l <> [] -> l' <> [] ->
  Forall (fun v => one_line v = true) l -> Forall (fun v => one_line v = true) l' ->
  str_lines l = str_lines l' -> l = l'.
Proof.
  assert (forall x y z, one_line x = true -> x <> y +:+ String newline z) as Hcut.
  { intros x y z Hx ->. unfold one_line in Hx.
    rewrite str_contains_char_app in Hx; cbn in Hx. by rewrite orb_true_r in Hx. }
  revert l'. induction l as [|x l IH]; intros l' Hl Hl' F F' E; [done|].
  destruct l' as [|x' l']; [done|].
  inversion F as [|?? Hx Fl]; inversion F' as [|?? Hx' Fl']; subst.
  destruct l as [|y l], l' as [|y' l'].
  - cbn in E. by subst.
  - exfalso. by apply (Hcut x x' (str_lines (y' :: l'))).
  - exfalso. by apply (Hcut x' x (str_lines (y :: l))).
  - rewrite !str_lines_cons in E. apply str_cut_inj in E as [-> E].
    + f_equal. by apply IH.
    + by apply negb_true_iff in Hx.
    + by apply negb_true_iff in Hx'.
Qed.

Lemma str_lines_app l l' :
  l <> [] -> l' <> [] -> str_lines (l ++ l') = str_lines l +:+ String newline (str_lines l').
Proof.
  induction l as [|x l IH]; intros Hl Hl'; [done|]. destruct l as [|y l].
  - destruct l'; [done|]. reflexivity.
  - rewrite str_lines_cons. change ((x :: y :: l) ++ l') with (x :: y :: (l ++ l')).
    rewrite str_lines_cons. change (y :: (l ++ l')) with ((y :: l) ++ l').
    rewrite IH by done. by rewrite append_assoc.
Qed.

(** The text of several non-empty blocks of lines is the text of all their lines. *)
Lemma str_lines_concat (bs : list (list string)) :
  Forall (fun b => b <> []) bs -> str_lines (str_lines <$> bs) = str_lines (concat bs).
Proof.
  induction 1 as [|b bs Hb Hbs IH]; [done|]. destruct bs as [|b' bs]; cbn [fmap list_fmap concat].
  - by rewrite app_nil_r.
  - change (str_lines (str_lines b :: (str_lines <$> b' :: bs)) = str_lines (b ++ concat (b' :: bs))).
    rewrite str_lines_app; [|done|].
    2:{ inversion Hbs; subst. cbn. by destruct b'. }
    rewrite <- IH. reflexivity.
Qed.

(** ** [str.strip] and [str.split] *)

(** The rest of [s] after one white space character, if it starts with one:
    U+0009-000D, U+001C-0020, U+0085, U+00A0, U+1680, U+2000-200A, U+2028,
    U+2029, U+202F, U+205F, U+3000. *)
Definition after_space (s : string) : option string :=
  let byte c := Z.of_nat (nat_of_ascii c) in
  match s with
  | String a s1 =>
      if decide (9 <= byte a <= 13 \/ 28 <= byte a <= 32) then Some s1 else
      match s1 with
      | String b s2 =>
          if decide (byte a = 194 /\ (byte b = 133 \/ byte b = 160)) then Some s2 else
          match s2 with
          | String c s3 =>
              if decide (byte a = 225 /\ byte b = 154 /\ byte c = 128
                         \/ byte a = 226 /\ byte b = 128 /\ (128 <= byte c <= 138 \/ byte c = 168 \/ byte c = 169 \/ byte c = 175)
                         \/ byte a = 226 /\ byte b = 129 /\ byte c = 159
                         \/ byte a = 227 /\ byte b = 128 /\ byte c = 128)
              then Some s3 else None
          | "" => None
          end
      | "" => None
      end
  | "" => None
  end%string%Z.

(** [s.lstrip()] drops at most [length s] characters. *)
Fixpoint lstrip_upto (n : nat) (s : string) : string :=
  match n with
  | O => s
  | S n => match after_space s with Some s' => lstrip_upto n s' | None => s end
  end.
Definition py_lstrip (s : string) : string := lstrip_upto (String.length s) s.
Fixpoint py_rstrip (s : string) : string :=
  match s with
  | "" => ""
  | String c s' => if decide (py_lstrip s = "") then "" else String c (py_rstrip s')
  end%string.
Definition py_strip (s : string) : string := py_rstrip (py_lstrip s).

(** [s.split(sep)] for a one-byte separator. *)
Fixpoint py_split (sep : ascii) (s : string) : list string :=
  match s with
  | "" => [""]
  | String c s' =>
      match py_split sep s' with
      | [] => []
      | x :: xs => if Ascii.eqb c sep then "" :: x :: xs else String c x :: xs
      end
  end%string.

Example py_strip_spaces : py_strip "  a b	 " = "a b"%string /\ py_strip "   " = ""%string.
Proof. vm_compute. done. Qed.
Example py_split_colons : py_split ":" "a::b" = ["a"; ""; "b"]%string /\ py_split ":" "" = [""]%string.
Proof. vm_compute. done. Qed.

(** ** [str.lower] *)

(** [s.lower()] on ASCII letters. *)
Definition lower_char (c : ascii) : ascii :=
  if char_in "A" "Z" c then ascii_of_nat (nat_of_ascii c + 32) else c.
Fixpoint str_lower (s : string) : string :=
  match s with "" => "" | String c s => String (lower_char c) (str_lower s) end%string.

(** [s.lower()] as far as a search for ASCII text sees it: beside the ASCII
    letters only U+212A (to "k") and U+0130 (to "i", U+0307) have ASCII in
    their lower case; other letters are left as they are. *)
Fixpoint lower_seen (s : string) : string :=
  let byte c := Z.of_nat (nat_of_ascii c) in
  match s with
  | "" => ""
  | String a s1 =>
      match s1 with
      | String b s2 =>
          if decide (byte a = 196 /\ byte b = 176) then String "i" (String "204"%char (String "135"%char (lower_seen s2)))
          else match s2 with
               | String c s3 => if decide (byte a = 226 /\ byte b = 132 /\ byte c = 170) then String "k" (lower_seen s3)
                                else String (lower_char a) (lower_seen s1)
               | "" => String (lower_char a) (lower_seen s1)
               end
      | "" => String (lower_char a) ""
      end
  end%string%Z.

(** [sub in s]. *)
Fixpoint str_in (sub s : string) : bool :=
  String.prefix sub s || match s with "" => false | String _ s' => str_in sub s' end%string.

(** The characters of [s] that satisfy [p]; [s.replace(c, "")] keeps those
    that are not [c]. *)
Fixpoint str_filter (p : ascii -> bool) (s : string) : string :=
  match s with "" => "" | String c s' => if p c then String c (str_filter p s') else str_filter p s' end%string.
Definition str_remove (c : ascii) : string -> string := str_filter (fun d => negb (Ascii.eqb d c)).

Example lower_seen_kelvin : lower_seen "TOâªEN" = "toâªen"%string.
Proof. vm_compute. done. Qed.
