(* ===== verification/Domain.v ===== *)
(** * packages/domain: errors, roles and permissions, publish states, identifiers

    Models [errors.py], [rbac.py], [states.py], [events.py] ([new_uuid7]) and
    the two guarded value objects of [models.py]. *)

From stdpp Require Import base gmap strings list countable pretty.
From Stdlib Require Import ZArith Lia.
From S2P Require Import Prelude PyStd.

Open Scope Z_scope.

(** ** errors.py, and the subclasses declared by control-api

    One constructor per exception class, carrying [detail]. *)
Inductive error : Type :=
| DomainError (detail : string)
| ValidationError (detail : string)
| NotFoundError (detail : string)
| ConflictError (detail : string)
| ForbiddenError (detail : string)
| AuthenticationError (detail : string)
| AccountBusyError (detail : string)
| ReconcileRequiredError (detail : string)
| AuthorizationEnvelopeStaleError (detail : string)
| IneligibleCapabilityError (detail : string)
| CursorTooOldError (detail : string)
| ControlSeqInvalidError (detail : string)
| IntegrityError (detail : string)
| ValueError (detail : string)
| KeyError (detail : string)
| RuntimeError (detail : string).

#[export] Instance error_eq_dec : EqDecision error.
Proof. solve_decision. Defined.

(** [code] and [status] of each class, overrides included. *)
Definition error_code (e : error) : string :=
  match e with
  | DomainError _ => "DOMAIN_ERROR"
  | ValidationError _ => "VALIDATION_ERROR"
  | NotFoundError _ => "NOT_FOUND"
  | ConflictError _ => "CONFLICT"
  | ForbiddenError _ => "FORBIDDEN"
  | AuthenticationError _ => "AUTHENTICATION_REQUIRED"
  | AccountBusyError _ => "ACCOUNT_BUSY"
  | ReconcileRequiredError _ => "RECONCILE_REQUIRED"
  | AuthorizationEnvelopeStaleError _ => "AUTHORIZATION_ENVELOPE_STALE"
  | IneligibleCapabilityError _ => "INELIGIBLE_CAPABILITY"
  | CursorTooOldError _ => "CURSOR_TOO_OLD"
  | ControlSeqInvalidError _ => "CONTROL_SEQ_INVALID"
  | IntegrityError _ => "INTERNAL"
  | ValueError _ => "INTERNAL"
  | KeyError _ | RuntimeError _ => "INTERNAL"
  end.

Definition error_status (e : error) : Z :=
  match e with
  | DomainError _ => 400
  | ValidationError _ | IneligibleCapabilityError _ | ControlSeqInvalidError _ => 422
  | NotFoundError _ => 404
  | ConflictError _ | AccountBusyError _ | ReconcileRequiredError _
  | AuthorizationEnvelopeStaleError _ => 409
  | CursorTooOldError _ => 410
  | ForbiddenError _ => 403
  | AuthenticationError _ => 401
  | IntegrityError _ | ValueError _ | KeyError _ | RuntimeError _ => 500
  end.

(** ** rbac.py *)

Inductive Permission : Type :=
| TENANT_ADMIN | CONTENT_READ | CONTENT_WRITE | PUBLISH_READ | PUBLISH_CREATE
| PUBLISH_APPROVE | DEVICE_READ | DEVICE_CONTROL | DEVICE_MAINTAIN | APK_MANAGE
| AUTOMATION_MANAGE | RECIPE_PUBLISH | DATA_DELETE | TASK_CREATE
| DEBUG_SESSION_MANAGE | OPERATION_APPROVE | AUDIT_READ.

#[export] Instance Permission_eq_dec : EqDecision Permission.
Proof. solve_decision. Defined.

Definition all_permissions : list Permission :=
  [TENANT_ADMIN; CONTENT_READ; CONTENT_WRITE; PUBLISH_READ; PUBLISH_CREATE;
   PUBLISH_APPROVE; DEVICE_READ; DEVICE_CONTROL; DEVICE_MAINTAIN; APK_MANAGE;
   AUTOMATION_MANAGE; RECIPE_PUBLISH; DATA_DELETE; TASK_CREATE;
   DEBUG_SESSION_MANAGE; OPERATION_APPROVE; AUDIT_READ].

Definition permission_value (p : Permission) : string :=
  match p with
  | TENANT_ADMIN => "tenant.admin"
  | CONTENT_READ => "content.read"
  | CONTENT_WRITE => "content.write"
  | PUBLISH_READ => "publish.read"
  | PUBLISH_CREATE => "publish.create"
  | PUBLISH_APPROVE => "publish.approve"
  | DEVICE_READ => "device.read"
  | DEVICE_CONTROL => "device.control"
  | DEVICE_MAINTAIN => "device.maintain"
  | APK_MANAGE => "apk.manage"
  | AUTOMATION_MANAGE => "automation.manage"
  | RECIPE_PUBLISH => "recipe.publish"
  | DATA_DELETE => "data.delete"
  | TASK_CREATE => "task.create"
  | DEBUG_SESSION_MANAGE => "debug_session.manage"
  | OPERATION_APPROVE => "operation.approve"
  | AUDIT_READ => "audit.read"
  end.

Definition permission_of_value (s : string) : option Permission :=
  List.find (fun p => String.eqb (permission_value p) s) all_permissions.

#[export] Program Instance Permission_countable : Countable Permission :=
  inj_countable permission_value permission_of_value _.
Next Obligation. by intros []. Qed.

Inductive Role : Type :=
| VIEWER | CONTENT_EDITOR | PUBLISHER | APPROVER | AUTOMATION_DEVELOPER
| DEVICE_OPERATOR | SECURITY_ADMIN | SYSTEM_SERVICE.

#[export] Instance Role_eq_dec : EqDecision Role.
Proof. solve_decision. Defined.

Definition ROLE_PERMISSIONS (r : Role) : gset Permission :=
  match r with
  | VIEWER => {[CONTENT_READ; PUBLISH_READ; DEVICE_READ]}
  | CONTENT_EDITOR => {[CONTENT_READ; CONTENT_WRITE; DATA_DELETE]}
  | PUBLISHER => {[CONTENT_READ; PUBLISH_READ; PUBLISH_CREATE; TASK_CREATE]}
  | APPROVER => {[PUBLISH_READ; PUBLISH_APPROVE; OPERATION_APPROVE; DEVICE_READ]}
  | AUTOMATION_DEVELOPER =>
      {[AUTOMATION_MANAGE; RECIPE_PUBLISH; DEBUG_SESSION_MANAGE; DEVICE_READ]}
  | DEVICE_OPERATOR =>
      {[DEVICE_READ; DEVICE_CONTROL; DEVICE_MAINTAIN; DEBUG_SESSION_MANAGE;
        PUBLISH_READ; TASK_CREATE]}
  | SECURITY_ADMIN => list_to_set all_permissions
  | SYSTEM_SERVICE =>
      {[DEVICE_READ; DEVICE_CONTROL; DEVICE_MAINTAIN; PUBLISH_READ; PUBLISH_CREATE;
        TASK_CREATE; DEBUG_SESSION_MANAGE; AUDIT_READ]}
  end.

Fixpoint effective_permissions (roles : list Role) : gset Permission :=
  match roles with
  | [] => ∅
  | r :: roles' => ROLE_PERMISSIONS r ∪ effective_permissions roles'
  end.

Definition require_permissions (roles : list Role) (required : list Permission) : result error () :=
  let missing := (list_to_set required : gset Permission) ∖ effective_permissions roles in
  raise_if missing <> ∅
    with ForbiddenError
           ("missing permissions: " +:+
            str_join ", " (str_sorted (permission_value <$> elements missing)))
  in Ok tt.

(** ** states.py *)

Inductive PublishState : Type :=
| DRAFT | AWAITING_APPROVAL | SCHEDULED | QUEUED | RUNNING | WAITING_CONFIRMATION
| COMMITTING | RECONCILING | SUCCEEDED | FAILED | UNKNOWN | CANCELED.

#[export] Instance PublishState_eq_dec : EqDecision PublishState.
Proof. solve_decision. Defined.

Definition publish_state_value (s : PublishState) : string :=
  match s with
  | DRAFT => "DRAFT" | AWAITING_APPROVAL => "AWAITING_APPROVAL"
  | SCHEDULED => "SCHEDULED" | QUEUED => "QUEUED" | RUNNING => "RUNNING"
  | WAITING_CONFIRMATION => "WAITING_CONFIRMATION" | COMMITTING => "COMMITTING"
  | RECONCILING => "RECONCILING" | SUCCEEDED => "SUCCEEDED" | FAILED => "FAILED"
  | UNKNOWN => "UNKNOWN" | CANCELED => "CANCELED"
  end.

Definition TERMINAL_STATES : list PublishState := [SUCCEEDED; FAILED; UNKNOWN; CANCELED].

Definition SAFE_CANCEL_STATES : list PublishState :=
  [DRAFT; AWAITING_APPROVAL; SCHEDULED; QUEUED; RUNNING; WAITING_CONFIRMATION].

Definition ALLOWED_TRANSITIONS (s : PublishState) : list PublishState :=
  match s with
  | DRAFT => [AWAITING_APPROVAL; SCHEDULED]
  | AWAITING_APPROVAL => [SCHEDULED; FAILED; CANCELED]
  | SCHEDULED => [QUEUED; CANCELED]
  | QUEUED => [RUNNING; FAILED; CANCELED]
  | RUNNING => [WAITING_CONFIRMATION; COMMITTING; FAILED; CANCELED]
  | WAITING_CONFIRMATION => [COMMITTING; FAILED; CANCELED]
  | COMMITTING => [RECONCILING]
  | RECONCILING => [SUCCEEDED; FAILED; UNKNOWN]
  | SUCCEEDED => []
  | FAILED => []
  | UNKNOWN => [SUCCEEDED; FAILED]
  | CANCELED => []
  end.

Definition assert_publish_transition (current requested : PublishState) : result error () :=
  raise_if requested ∉ ALLOWED_TRANSITIONS current
    with ConflictError ("invalid publish transition: " +:+ publish_state_value current
                        +:+ " -> " +:+ publish_state_value requested)
  in Ok tt.

Definition assert_safe_cancel (current : PublishState) : result error () :=
  raise_if current ∉ SAFE_CANCEL_STATES
    with ConflictError ("publish cannot be canceled safely while " +:+ publish_state_value current)
  in Ok tt.

(** ** models.py: the two value objects that check themselves *)

Record Approval := mkApproval {
  approval_plan_id : string;
  creator_id : string;
  approver_id : string;
  decision : string;
}.

Definition Approval_post_init (a : Approval) : result error Approval :=
  raise_if creator_id a = approver_id a
    with ValueError "creator and approver must be different users" in Ok a.

Record CommitIntent := mkCommitIntent {
  intent_tenant_id : string;
  intent_target_id : string;
  intent_fencing_token : Z;
  before_commit_evidence_id : string;
  attempt_no : Z;
}.

Definition CommitIntent_post_init (c : CommitIntent) : result error CommitIntent :=
  raise_if attempt_no c <> 1
    with ValueError "commit intent only supports attempt_no=1" in Ok c.

(** ** events.py: [new_uuid7]

    The clock and [secrets.randbits(74)] are arguments; the identifier is its
    128-bit integer. *)
Definition new_uuid7 (unix_ms random_bits : Z) : result error Z :=
  raise_if ~ (0 <= unix_ms < Z.shiftl 1 48)
    with ValueError "timestamp is outside UUIDv7 range" in
  let value := Z.shiftl unix_ms 80 in
  let value := Z.lor value (Z.shiftl 0x7 76) in
  let value := Z.lor value (Z.shiftl (Z.shiftr random_bits 62) 64) in
  let value := Z.lor value (Z.shiftl 2 62) in
  let value := Z.lor value (Z.land random_bits (Z.shiftl 1 62 - 1)) in
  Ok value.

(** ** Roles: lemmas and theorems *)

Lemma elem_of_effective_permissions p roles :
  p ∈ effective_permissions roles <-> exists r, r ∈ roles /\ p ∈ ROLE_PERMISSIONS r.
Proof.
  induction roles as [|r roles IH]; cbn; [set_solver|].
  rewrite elem_of_union, IH. set_solver.
Qed.

Lemma effective_permissions_mono roles roles' :
  roles ⊆ roles' -> effective_permissions roles ⊆ effective_permissions roles'.
Proof. intros H p. rewrite !elem_of_effective_permissions. set_solver. Qed.

(** The guard of every entry point admits a caller exactly when each
    required permission is granted by one of its roles, whatever their order
    or multiplicity; in every other case it raises [FORBIDDEN], status 403. *)
Theorem require_permissions_exact roles required :
  (require_permissions roles required = Ok tt <->
   forall p, p ∈ required -> exists r, r ∈ roles /\ p ∈ ROLE_PERMISSIONS r)
  /\ (require_permissions roles required = Ok tt \/
      exists detail, require_permissions roles required = Err (ForbiddenError detail)).
Proof.
  unfold require_permissions. split; [|case_decide; eauto].
  case_decide as D; split; try done.
  - intros H. exfalso. apply D, set_eq. intros p.
    rewrite elem_of_difference, elem_of_list_to_set, elem_of_effective_permissions.
    set_solver.
  - intros _ p Hp. apply elem_of_effective_permissions.
    destruct (decide (p ∈ effective_permissions roles)); [done|].
    exfalso. apply (not_elem_of_empty (C := gset Permission) p). rewrite <- D. set_solver.
Qed.

(** Only the security administrator holds both sides of the four-eyes rule
    or the tenant-wide permissions. *)
Lemma role_separation r :
  (PUBLISH_CREATE ∈ ROLE_PERMISSIONS r /\ PUBLISH_APPROVE ∈ ROLE_PERMISSIONS r)
  \/ TENANT_ADMIN ∈ ROLE_PERMISSIONS r \/ APK_MANAGE ∈ ROLE_PERMISSIONS r ->
  r = SECURITY_ADMIN.
Proof.
  intros H%(bool_decide_eq_true_2 _).
  destruct r; try reflexivity; vm_compute in H; discriminate H.
Qed.

(** ** Publish states: lemmas and theorems *)

(** The states a target passes through when every change of state is guarded
    by [assert_publish_transition]. *)
Fixpoint publish_history (s : PublishState) (later : list PublishState) : bool :=
  match later with
  | [] => true
  | s' :: l => is_ok (assert_publish_transition s s') && publish_history s' l
  end.

Definition publish_rank (s : PublishState) : nat :=
  match s with
  | DRAFT => 9 | AWAITING_APPROVAL => 8 | SCHEDULED => 7 | QUEUED => 6 | RUNNING => 5
  | WAITING_CONFIRMATION => 4 | COMMITTING => 3 | RECONCILING => 2 | UNKNOWN => 1
  | SUCCEEDED | FAILED | CANCELED => 0
  end.

Lemma transition_rank s s' :
  is_ok (assert_publish_transition s s') = true -> (publish_rank s' < publish_rank s)%nat.
Proof. destruct s, s'; vm_compute; lia. Qed.

Lemma publish_history_cons s s' l :
  publish_history s (s' :: l) = true ->
  is_ok (assert_publish_transition s s') = true /\ publish_history s' l = true.
Proof. apply andb_true_iff. Qed.

Lemma publish_history_length s l :
  publish_history s l = true -> (length l <= publish_rank s)%nat.
Proof.
  revert s. induction l as [|s' l IH]; intros s; cbn; [lia|].
  intros [Ht Hl]%andb_true_iff. apply transition_rank in Ht. apply IH in Hl. lia.
Qed.

Definition after_commit : list PublishState := [RECONCILING; SUCCEEDED; FAILED; UNKNOWN].

Lemma after_commit_closed s l :
  s = COMMITTING \/ s ∈ after_commit -> publish_history s l = true ->
  Forall (fun x => x ∈ after_commit) l.
Proof.
  revert s. induction l as [|s' l IH]; intros s Hs H; [by constructor|].
  apply publish_history_cons in H as [Ht Hl].
  assert (s' ∈ after_commit) as Hs'.
  { apply (bool_decide_eq_true_1 _). destruct Hs as [->|Hs%(bool_decide_eq_true_2 _)];
      [destruct s'; done|destruct s; try done; destruct s'; done]. }
  constructor; [done|]. apply (IH s'); auto.
Qed.

Lemma publish_history_from s before x after :
  publish_history s (before ++ x :: after) = true -> publish_history x after = true.
Proof.
  revert s. induction before as [|s' before IH]; intros s [_ H]%publish_history_cons; eauto.
Qed.

(** C40. The publish state machine: a guarded history that goes through
    COMMITTING makes at most nine changes of state, enters COMMITTING once,
    and from there on visits RECONCILING, SUCCEEDED, FAILED and UNKNOWN only:
    the target is never queued, run or canceled again; a safe cancel is
    refused in all of these states. *)
Theorem publish_history_commit_once s before after :
  publish_history s (before ++ COMMITTING :: after) = true ->
  (length before + S (length after) <= 9)%nat
  /\ (COMMITTING ∉ before)
  /\ Forall (fun x => x ∈ after_commit) after
  /\ Forall (fun x => is_ok (assert_safe_cancel x) = false) (COMMITTING :: after).
Proof.
  intros H. assert (Forall (fun x => x ∈ after_commit) after) as Ha.
  { apply (after_commit_closed COMMITTING); [by left|]. by apply publish_history_from in H. }
  split; [|split; [|split; [done|]]].
  - apply publish_history_length in H. rewrite length_app in H. cbn in H.
    assert (publish_rank s <= 9)%nat by (destruct s; cbn; lia). lia.
  - intros (b1 & b2 & ->)%list_elem_of_split.
    rewrite <- app_assoc in H. apply publish_history_from, after_commit_closed in H; [|by left].
    apply Forall_app in H as [_ H]. inversion H as [|?? Hc _]; subst.
    by apply (bool_decide_eq_true_2 _) in Hc.
  - constructor; [done|]. eapply Forall_impl; [exact Ha|]. intros x Hx.
    apply (bool_decide_eq_true_2 _) in Hx. by destruct x.
Qed.

Lemma publish_history_commit_once_witness :
  (2 + S 2 <= 9)%nat /\ (COMMITTING ∉ [QUEUED; RUNNING])
  /\ Forall (fun x => x ∈ after_commit) [RECONCILING; UNKNOWN]
  /\ Forall (fun x => is_ok (assert_safe_cancel x) = false) [COMMITTING; RECONCILING; UNKNOWN].
Proof.
  apply (publish_history_commit_once SCHEDULED [QUEUED; RUNNING] [RECONCILING; UNKNOWN]).
  reflexivity.
Defined.

(** ** [new_uuid7]: lemmas and theorems *)

Section Uuid7.
Context (ms r : Z) (Hms : 0 <= ms < 2 ^ 48) (Hr : 0 <= r < 2 ^ 74).

(** The identifier as a sum of its five disjoint fields. *)
Definition uuid7_sum : Z :=
  ms * 2 ^ 80 + 7 * 2 ^ 76 + (r / 2 ^ 62) * 2 ^ 64 + 2 * 2 ^ 62 + r mod 2 ^ 62.

Lemma lor_low (a b n : Z) : 0 <= n -> 0 <= b < 2 ^ n -> Z.lor (a * 2 ^ n) b = a * 2 ^ n + b.
Proof.
  intros Hn Hb. rewrite <- Z.lxor_lor, <- Z.add_nocarry_lxor; try reflexivity;
    rewrite <- Z.shiftl_mul_pow2 by done; apply Z.bits_inj'; intros i Hi;
    rewrite Z.land_spec, Z.bits_0, Z.shiftl_spec by done;
    (destruct (decide (i < n)); [rewrite (Z.testbit_neg_r a) by lia; reflexivity|]);
    rewrite <- (Z.mod_small b (2 ^ n)) by done;
    rewrite Z.mod_pow2_bits_high by lia; apply andb_false_r.
Qed.

Lemma new_uuid7_sum : new_uuid7 ms r = Ok uuid7_sum.
Proof.
  unfold new_uuid7, uuid7_sum. rewrite decide_False.
  2:{ intros H; apply H. exact Hms. }
  f_equal. change (Z.shiftl 1 62 - 1) with (Z.ones 62).
  rewrite Z.land_ones, !Z.shiftr_div_pow2, !Z.shiftl_mul_pow2 by lia.
  assert (0 <= r / 2 ^ 62 < 2 ^ 12).
  { split; [apply Z.div_pos; lia|]. apply Z.div_lt_upper_bound; lia. }
  assert (0 <= r mod 2 ^ 62 < 2 ^ 62) by (apply Z.mod_pos_bound; lia).
  rewrite (lor_low ms _ 80) by lia.
  replace (ms * 2 ^ 80 + 7 * 2 ^ 76) with ((ms * 2 ^ 4 + 7) * 2 ^ 76) by lia.
  rewrite (lor_low _ _ 76) by lia.
  replace ((ms * 2 ^ 4 + 7) * 2 ^ 76 + r / 2 ^ 62 * 2 ^ 64)
    with ((ms * 2 ^ 16 + 7 * 2 ^ 12 + r / 2 ^ 62) * 2 ^ 64) by lia.
  rewrite (lor_low _ _ 64) by lia.
  replace ((ms * 2 ^ 16 + 7 * 2 ^ 12 + r / 2 ^ 62) * 2 ^ 64 + 2 * 2 ^ 62)
    with (((ms * 2 ^ 16 + 7 * 2 ^ 12 + r / 2 ^ 62) * 4 + 2) * 2 ^ 62) by lia.
  rewrite (lor_low _ _ 62) by lia. lia.
Qed.

Lemma uuid7_fields :
  Z.shiftr uuid7_sum 80 = ms
  /\ Z.land (Z.shiftr uuid7_sum 76) 15 = 7
  /\ Z.land (Z.shiftr uuid7_sum 62) 3 = 2
  /\ Z.shiftl (Z.land (Z.shiftr uuid7_sum 64) 4095) 62 + Z.land uuid7_sum (Z.ones 62) = r.
Proof.
  change 15 with (Z.ones 4). change 3 with (Z.ones 2). change 4095 with (Z.ones 12).
  rewrite !Z.land_ones, !Z.shiftr_div_pow2, !Z.shiftl_mul_pow2 by lia. unfold uuid7_sum.
  pose proof (Z.div_mod r (2 ^ 62) ltac:(lia)) as Hdm.
  assert (0 <= r / 2 ^ 62 < 2 ^ 12).
  { split; [apply Z.div_pos; lia|]. apply Z.div_lt_upper_bound; lia. }
  assert (0 <= r mod 2 ^ 62 < 2 ^ 62) by (apply Z.mod_pos_bound; lia).
  set (hi := r / 2 ^ 62) in *. set (lo := r mod 2 ^ 62) in *. clearbody hi lo.
  split; [|split; [|split]].
  - symmetry. apply Z.div_unique with (7 * 2 ^ 76 + hi * 2 ^ 64 + 2 * 2 ^ 62 + lo); lia.
  - replace (_ / 2 ^ 76) with (ms * 16 + 7).
    2:{ apply Z.div_unique with (hi * 2 ^ 64 + 2 * 2 ^ 62 + lo); lia. }
    symmetry. apply Z.mod_unique with ms; lia.
  - replace (_ / 2 ^ 62) with ((ms * 2 ^ 16 + 7 * 2 ^ 12 + hi) * 4 + 2).
    2:{ apply Z.div_unique with lo; lia. }
    symmetry. apply Z.mod_unique with (ms * 2 ^ 16 + 7 * 2 ^ 12 + hi); lia.
  - replace (_ / 2 ^ 64) with (ms * 2 ^ 16 + 7 * 2 ^ 12 + hi).
    2:{ apply Z.div_unique with (2 * 2 ^ 62 + lo); lia. }
    replace ((ms * 2 ^ 16 + 7 * 2 ^ 12 + hi) mod 2 ^ 12) with hi.
    2:{ apply Z.mod_unique with (ms * 2 ^ 4 + 7); lia. }
    replace ((_ + lo) mod 2 ^ 62) with lo; [lia|].
    apply Z.mod_unique with ((ms * 2 ^ 16 + 7 * 2 ^ 12 + hi) * 4 + 2); lia.
Qed.

End Uuid7.

(** [new_uuid7] returns an identifier for every 48-bit millisecond stamp
    and 74 random bits: a 128-bit integer whose version nibble is 7 and whose
    variant is 0b10, from which the stamp and the random bits are read back;
    identifiers of later milliseconds are larger. Any other stamp raises. *)
Theorem new_uuid7_correct (ms r : Z) :
  0 <= r < 2 ^ 74 ->
  (0 <= ms < 2 ^ 48 ->
    exists v, new_uuid7 ms r = Ok v /\ 0 <= v < 2 ^ 128
      /\ Z.shiftr v 80 = ms
      /\ Z.land (Z.shiftr v 76) 15 = 7 /\ Z.land (Z.shiftr v 62) 3 = 2
      /\ Z.shiftl (Z.land (Z.shiftr v 64) 4095) 62 + Z.land v (Z.ones 62) = r
      /\ forall ms' r' v', 0 <= r' < 2 ^ 74 -> ms < ms' -> new_uuid7 ms' r' = Ok v' -> v < v')
  /\ (~ 0 <= ms < 2 ^ 48 -> is_ok (new_uuid7 ms r) = false).
Proof.
  intros Hr. split.
  - intros Hms. exists (uuid7_sum ms r). split; [by apply new_uuid7_sum|].
    destruct (uuid7_fields ms r Hr) as (F1 & F2 & F3 & F4).
    assert (0 <= uuid7_sum ms r) as Hpos.
    { unfold uuid7_sum. pose proof (Z.div_pos r (2 ^ 62)). pose proof (Z.mod_pos_bound r (2 ^ 62)). lia. }
    split; [|do 4 (split; [done|])].
    { split; [done|]. rewrite Z.shiftr_div_pow2 in F1 by lia.
      pose proof (Z.mul_succ_div_gt (uuid7_sum ms r) (2 ^ 80)). nia. }
    intros ms' r' v' Hr' Hlt Hv'.
    destruct (decide (0 <= ms' < 2 ^ 48)) as [Hms'|Hms'].
    2:{ unfold new_uuid7 in Hv'. by rewrite decide_True in Hv'. }
    rewrite new_uuid7_sum in Hv' by done. injection Hv' as <-.
    destruct (uuid7_fields ms' r' Hr') as (F1' & _).
    apply Z.nle_gt. intros Hle. rewrite Z.shiftr_div_pow2 in F1, F1' by lia.
    pose proof (Z.div_le_mono (uuid7_sum ms' r') (uuid7_sum ms r) (2 ^ 80)). lia.
  - intros H. unfold new_uuid7. by rewrite decide_True.
Qed.

Lemma new_uuid7_correct_witness :
  is_ok (new_uuid7 (2 ^ 48) 5) = false.
Proof.
  apply (new_uuid7_correct (2 ^ 48) 5); lia.
Defined.
