(* ===== verification/Rows.v ===== *)
(** * The database of control-api: rows, tables and transactions

    Models the tables of [db.py] (and [fleet_device_session] of
    [fleet_identity.py]) the mobile-task control plane works on. A row is a
    record with the source's columns. Tables read by primary key are finite
    maps, tables scanned by queries are lists in insertion order, which is
    the order of a query without ORDER BY. A datetime is its number of
    microseconds since the Unix epoch in UTC, so that [_aware] is the identity.
    A request is a function of the database: when it returns, the unique
    indexes are checked and its writes are kept, when it raises they are not. *)

From stdpp Require Import base gmap strings list.
From Stdlib Require Import ZArith QArith_base Lia.
From S2P Require Import Prelude PyStd Domain.

Open Scope Z_scope.

(** ** JSON columns and Python equality of JSON values *)

Inductive json : Type :=
| JNull
| JBool (b : bool)
| JInt (n : Z)
| JFloat (q : Q)
| JStr (s : string)
| JArr (l : list json)
| JObj (o : list (string * json)).

(** [o.get(k)] on an object. *)
Fixpoint jget (k : string) (o : list (string * json)) : option json :=
  match o with
  | [] => None
  | (k', v) :: o' => if decide (k' = k) then Some v else jget k o'
  end.

(** [o[k] = v]: in place when the key is present, else appended. *)
Fixpoint jset (k : string) (v : json) (o : list (string * json)) : list (string * json) :=
  match o with
  | [] => [(k, v)]
  | (k', v') :: o' => if decide (k' = k) then (k, v) :: o' else (k', v') :: jset k v o'
  end.

(** [bool(v)]. *)
Definition jtruthy (v : json) : bool :=
  match v with
  | JNull => false
  | JBool b => b
  | JInt n => negb (Z.eqb n 0)
  | JFloat q => negb (Qeq_bool q 0)
  | JStr s => negb (String.eqb s "")
  | JArr l => match l with [] => false | _ => true end
  | JObj o => match o with [] => false | _ => true end
  end.

Definition jnumber (v : json) : option Q :=
  match v with
  | JBool b => Some (if b then 1 else 0)%Q
  | JInt n => Some (inject_Z n)
  | JFloat q => Some q
  | _ => None
  end.

(** [a == b]: numbers by value ([True == 1 == 1.0]), objects as mappings. *)
Fixpoint json_eqb (a b : json) {struct a} : bool :=
  match jnumber a, jnumber b with
  | Some x, Some y => Qeq_bool x y
  | _, _ =>
    match a, b with
    | JNull, JNull => true
    | JStr s, JStr t => String.eqb s t
    | JArr l, JArr m =>
        (fix go l m := match l, m with
         | [], [] => true
         | x :: l', y :: m' => json_eqb x y && go l' m'
         | _, _ => false
         end) l m
    | JObj o, JObj p =>
        Nat.eqb (length o) (length p)
        && (fix go (o : list (string * json)) := match o with
            | [] => true
            | (k, x) :: o' =>
                match jget k p with Some y => json_eqb x y | None => false end && go o'
            end) o
    | _, _ => false
    end
  end.

Definition payload_eqb (o p : list (string * json)) : bool := json_eqb (JObj o) (JObj p).

(** ** Step documents: the values of [mobile_schemas] are strings, integers
    and booleans *)

Inductive scalar_value : Type :=
| SStr (s : string)
| SInt (n : Z)
| SBool (b : bool).

#[export] Instance scalar_value_eq_dec : EqDecision scalar_value.
Proof. solve_decision. Defined.

Definition step := list (string * scalar_value).

Fixpoint sget (k : string) (s : step) : option scalar_value :=
  match s with
  | [] => None
  | (k', v) :: s' => if decide (k' = k) then Some v else sget k s'
  end.

(** [step.get(k) == "v"]. *)
Definition step_is (k v : string) (s : step) : bool := bool_decide (sget k s = Some (SStr v)).

(** ** The dynamic header that precedes the steps of a task *)

Inductive ControlKind : Type :=
| K_CANCEL_REQUESTED | K_CANCELLED | K_CANCEL_ACKED | K_CANCEL_DEFERRED_RECONCILING
| K_PAUSE_REQUESTED | K_PAUSE_ACKED | K_PAUSE_ACKED_RECONCILING | K_RESUMED
| K_MARKED_UNKNOWN | K_RECONCILED_APPLIED | K_RECONCILED_NOT_SUBMITTED
| K_RECONCILED_KEEP_WAITING.

#[export] Instance ControlKind_eq_dec : EqDecision ControlKind.
Proof. solve_decision. Defined.

Definition control_kind_value (k : ControlKind) : string :=
  match k with
  | K_CANCEL_REQUESTED => "CANCEL_REQUESTED" | K_CANCELLED => "CANCELLED"
  | K_CANCEL_ACKED => "CANCEL_ACKED"
  | K_CANCEL_DEFERRED_RECONCILING => "CANCEL_DEFERRED_RECONCILING"
  | K_PAUSE_REQUESTED => "PAUSE_REQUESTED" | K_PAUSE_ACKED => "PAUSE_ACKED"
  | K_PAUSE_ACKED_RECONCILING => "PAUSE_ACKED_RECONCILING" | K_RESUMED => "RESUMED"
  | K_MARKED_UNKNOWN => "MARKED_UNKNOWN" | K_RECONCILED_APPLIED => "RECONCILED_APPLIED"
  | K_RECONCILED_NOT_SUBMITTED => "RECONCILED_NOT_SUBMITTED"
  | K_RECONCILED_KEEP_WAITING => "RECONCILED_KEEP_WAITING"
  end.

(** [issuedAt] is [now.isoformat()]; [None] is a stamp [fromisoformat] rejects. *)
Record control_event := mkControlEvent {
  ce_revision : Z;
  ce_event : ControlKind;
  ce_reason : string;
  ce_actor : string;
  ce_issuedAt : option Z;
}.

Record order_collection := mkOrderCollection {
  oc_deliveryProtocol : option string;
  oc_mobileBindingId : option string;
}.

Record task_header := mkHeader {
  h_totalTimeoutMs : Z;
  h_mediaDelivery : json;
  h_orderCollection : option order_collection;
  h_controlEpoch : option Z;
  h_fleetSessionId : option string;
  h_fleetBootId : option string;
  h_payloadIdentity : option string;
  h_commandRegistryVersion : option string;
  h_controlRevision : option Z;
  h_controlEvents : list control_event;
}.
#[export] Instance task_header_eta : Eta task_header := fun h => mkHeader
  (h_totalTimeoutMs h) (h_mediaDelivery h) (h_orderCollection h) (h_controlEpoch h)
  (h_fleetSessionId h) (h_fleetBootId h) (h_payloadIdentity h)
  (h_commandRegistryVersion h) (h_controlRevision h) (h_controlEvents h).

(** ** Task states *)

(** [status]: the runner's view. *)
Inductive RunnerStatus : Type := R_QUEUED | R_CLAIMED | R_RUNNING | R_SUCCEEDED | R_FAILED.

#[export] Instance RunnerStatus_eq_dec : EqDecision RunnerStatus.
Proof. solve_decision. Defined.

Definition runner_status_value (s : RunnerStatus) : string :=
  match s with
  | R_QUEUED => "QUEUED" | R_CLAIMED => "CLAIMED" | R_RUNNING => "RUNNING"
  | R_SUCCEEDED => "SUCCEEDED" | R_FAILED => "FAILED"
  end.

(** [business_state]: the thirteen states of [platform_tasks.BUSINESS_STATES];
    [B_RAW] is any other text of the column, such as the legacy CANCELED. *)
Inductive BusinessState : Type :=
| B_QUEUED | B_WAITING_MATERIALS | B_PREFLIGHT | B_RUNNING | B_PAUSE_REQUESTED
| B_PAUSED_WAITING_USER | B_RESUME_CHECK | B_RECONCILING | B_CANCEL_REQUESTED
| B_SUCCEEDED | B_FAILED | B_CANCELLED | B_EXPIRED
| B_RAW (text : string).

#[export] Instance BusinessState_eq_dec : EqDecision BusinessState.
Proof. solve_decision. Defined.

(** ** Rows *)

Record DeviceRow := mkDevice {
  d_tenant_id : string;
  d_edge_id : option string;
  d_android_version : option string;
  d_capabilities : list (string * json);
  d_maintenance : bool;
  d_last_seen_at : option Z;
  d_fencing_counter : Z;
  d_control_epoch : Z;
  d_active_binding_id : option string;
  d_version : Z;
}.
#[export] Instance DeviceRow_eta : Eta DeviceRow := fun d => mkDevice
  (d_tenant_id d) (d_edge_id d) (d_android_version d) (d_capabilities d) (d_maintenance d)
  (d_last_seen_at d) (d_fencing_counter d) (d_control_epoch d) (d_active_binding_id d)
  (d_version d).

Record MobileBindingRow := mkBinding {
  b_id : string;
  b_tenant_id : string;
  b_device_id : string;
  b_token_digest : string;
  b_companion_version : string;
  b_last_seen_at : option Z;
  b_revoked_at : option Z;
}.
#[export] Instance MobileBindingRow_eta : Eta MobileBindingRow := fun b => mkBinding
  (b_id b) (b_tenant_id b) (b_device_id b) (b_token_digest b) (b_companion_version b)
  (b_last_seen_at b) (b_revoked_at b).

Record PlatformAccountRow := mkAccount {
  pa_tenant_id : string;
  pa_platform : string;
  pa_status : string;
  pa_expires_at : option Z;
  pa_revoked_at : option Z;
  pa_external_subject_ref : string;
  pa_version : Z;
}.
#[export] Instance PlatformAccountRow_eta : Eta PlatformAccountRow := fun a => mkAccount
  (pa_tenant_id a) (pa_platform a) (pa_status a) (pa_expires_at a) (pa_revoked_at a)
  (pa_external_subject_ref a) (pa_version a).

Record AccountDeviceBindingRow := mkAccountBinding {
  ab_tenant_id : string;
  ab_account_id : string;
  ab_device_id : string;
  ab_status : string;
  ab_binding_version : Z;
  ab_platform : string;
}.
#[export] Instance AccountDeviceBindingRow_eta : Eta AccountDeviceBindingRow := fun b => mkAccountBinding
  (ab_tenant_id b) (ab_account_id b) (ab_device_id b) (ab_status b) (ab_binding_version b)
  (ab_platform b).

Inductive OwnerType : Type := AUTO | REMOTE.
#[export] Instance OwnerType_eq_dec : EqDecision OwnerType.
Proof. solve_decision. Defined.

Record DeviceLeaseRow := mkLease {
  l_tenant_id : string;
  l_lease_id : string;
  l_owner_workflow_id : string;
  l_fencing_token : Z;
  l_expires_at : Z;
  l_canceled_at : option Z;
  l_owner_type : OwnerType;
}.
#[export] Instance DeviceLeaseRow_eta : Eta DeviceLeaseRow := fun l => mkLease
  (l_tenant_id l) (l_lease_id l) (l_owner_workflow_id l) (l_fencing_token l)
  (l_expires_at l) (l_canceled_at l) (l_owner_type l).

Record MobileTaskRow := mkTask {
  t_id : string;
  t_tenant_id : string;
  t_device_id : string;
  t_idempotency_key : string;
  t_request_sha256 : string;
  t_requested_by : string;
  t_target_package : string;
  t_account_id : option string;
  t_binding_version : option Z;
  t_device_id_at_execution : option string;
  t_operation_id : option string;
  t_command_type : option string;
  t_command_payload : list (string * json);
  t_recipe_pin : option json;
  t_business_state : BusinessState;
  t_control_mode : OwnerType;
  t_stall_reason : option string;
  t_attempt_id : option string;
  t_resume_count : Z;
  t_pause_ack_at : option Z;
  t_reconciliation : list (string * json);
  t_header : task_header;
  t_steps : list step;
  t_status : RunnerStatus;
  t_lease_id : option string;
  t_lease_expires_at : option Z;
  t_attempt : Z;
  t_last_sequence : Z;
  t_current_step : option Z;
  t_result : list (string * json);
  t_error_code : option string;
  t_detail : option string;
  t_started_at : option Z;
  t_completed_at : option Z;
  t_created_at : Z;
}.
#[export] Instance MobileTaskRow_eta : Eta MobileTaskRow := fun t => mkTask
  (t_id t) (t_tenant_id t) (t_device_id t) (t_idempotency_key t) (t_request_sha256 t)
  (t_requested_by t) (t_target_package t) (t_account_id t) (t_binding_version t)
  (t_device_id_at_execution t) (t_operation_id t) (t_command_type t)
  (t_command_payload t) (t_recipe_pin t) (t_business_state t) (t_control_mode t)
  (t_stall_reason t) (t_attempt_id t) (t_resume_count t) (t_pause_ack_at t)
  (t_reconciliation t) (t_header t) (t_steps t) (t_status t) (t_lease_id t)
  (t_lease_expires_at t) (t_attempt t) (t_last_sequence t) (t_current_step t)
  (t_result t) (t_error_code t) (t_detail t) (t_started_at t) (t_completed_at t)
  (t_created_at t).

Inductive ActionStatus : Type := A_INTENT | A_APPLIED | A_UNKNOWN | A_NOT_SUBMITTED.
#[export] Instance ActionStatus_eq_dec : EqDecision ActionStatus.
Proof. solve_decision. Defined.

Definition action_status_value (s : ActionStatus) : string :=
  match s with
  | A_INTENT => "INTENT" | A_APPLIED => "APPLIED" | A_UNKNOWN => "UNKNOWN"
  | A_NOT_SUBMITTED => "NOT_SUBMITTED"
  end.

(** The columns of [mobile_action_commit] frozen when the intent is written. *)
Record action_identity_columns := mkActionColumns {
  ac_action_key : string;
  ac_tenant_id : string;
  ac_task_id : string;
  ac_device_id : string;
  ac_account_id : option string;
  ac_binding_version : option Z;
  ac_recipe_version_id : string;
  ac_recipe_sha256 : string;
  ac_snapshot_sha256 : string;
  ac_action_id : string;
  ac_parameter_hash : string;
}.
#[export] Instance action_identity_columns_eq_dec : EqDecision action_identity_columns.
Proof. solve_decision. Defined.

Record MobileActionCommitRow := mkAction {
  a_identity : action_identity_columns;
  a_platform_account_id : option string;
  a_lease_id : string;
  a_status : ActionStatus;
  a_before_evidence : string;
  a_reported_evidence : option string;
  a_resolution_revision : Z;
  a_resolution_evidence : option string;
  a_resolved_at : option Z;
  a_created_at : Z;
  a_updated_at : Z;
}.
#[export] Instance MobileActionCommitRow_eta : Eta MobileActionCommitRow := fun a => mkAction
  (a_identity a) (a_platform_account_id a) (a_lease_id a) (a_status a)
  (a_before_evidence a) (a_reported_evidence a) (a_resolution_revision a)
  (a_resolution_evidence a) (a_resolved_at a) (a_created_at a) (a_updated_at a).

Definition a_action_key (a : MobileActionCommitRow) : string := ac_action_key (a_identity a).
Definition a_task_id (a : MobileActionCommitRow) : string := ac_task_id (a_identity a).
Definition a_tenant_id (a : MobileActionCommitRow) : string := ac_tenant_id (a_identity a).
Definition a_device_id (a : MobileActionCommitRow) : string := ac_device_id (a_identity a).
Definition a_action_id (a : MobileActionCommitRow) : string := ac_action_id (a_identity a).

Record MobileTaskEventRow := mkTaskEvent {
  e_task_id : string;
  e_sequence : Z;
  e_event_type : string;
  e_step_index : option Z;
  e_step_id : option string;
  e_attempt_id : option string;
  e_payload : list (string * json);
  e_occurred_at : Z;
}.

(** An entry of the normalized capability table: the only shape
    [normalize_capabilities] writes. *)
Record capability := mkCapability { cap_supported : bool; cap_engineMin : option Z }.

Record FleetSessionRow := mkSession {
  fs_session_id : string;
  fs_tenant_id : string;
  fs_device_id : string;
  fs_binding_id : string;
  fs_boot_id : option string;
  fs_companion_version : option string;
  fs_engine_version : option Z;
  fs_capabilities : option (list (string * capability));
  fs_accessibility_enabled : option bool;
  fs_accessibility_active : option bool;
  fs_ime_ready : option bool;
  fs_screen_unlocked : option bool;
  fs_last_seen_at : option Z;
  fs_revoked_at : option Z;
  fs_created_at : Z;
}.
#[export] Instance FleetSessionRow_eta : Eta FleetSessionRow := fun s => mkSession
  (fs_session_id s) (fs_tenant_id s) (fs_device_id s) (fs_binding_id s) (fs_boot_id s)
  (fs_companion_version s) (fs_engine_version s) (fs_capabilities s)
  (fs_accessibility_enabled s) (fs_accessibility_active s) (fs_ime_ready s)
  (fs_screen_unlocked s) (fs_last_seen_at s) (fs_revoked_at s) (fs_created_at s).

Inductive DeliveryState : Type := PENDING | DELIVERED | DELIVERY_FAILED.
#[export] Instance DeliveryState_eq_dec : EqDecision DeliveryState.
Proof. solve_decision. Defined.

Record ImMessageRow := mkMessage {
  m_id : string;
  m_reply_task_id : option string;
  m_delivery_state : DeliveryState;
}.
#[export] Instance ImMessageRow_eta : Eta ImMessageRow := fun m => mkMessage
  (m_id m) (m_reply_task_id m) (m_delivery_state m).

Record AuditEventRow := mkAudit {
  au_tenant_id : string;
  au_actor_type : string;
  au_actor_id : string;
  au_action : string;
  au_resource_type : string;
  au_resource_id : string;
  au_device_id : option string;
  au_result : string;
  au_metadata : list (string * json);
  au_occurred_at : Z;
}.

(** A published recipe of a device for a command type, and its package. *)
Record RecipeDeploymentRow := mkDeployment {
  rd_tenant_id : string;
  rd_version_id : string;
  rd_device_id : string;
  rd_command_type : string;
  rd_status : string;
}.

Record AutomationVersionRow := mkPackageVersion {
  av_id : string;
  av_tenant_id : string;
  av_manifest : list (string * json);
  av_artifact_sha256 : string;
  av_name : string;
  av_version : string;
  av_production_qualified : bool;
}.

Record MediaAssetRow := mkMedia { ma_id : string; ma_tenant_id : string }.

Record db := mkDb {
  devices : gmap string DeviceRow;
  mobile_bindings : gmap string MobileBindingRow;
  accounts : gmap string PlatformAccountRow;
  account_bindings : list AccountDeviceBindingRow;
  leases : gmap string DeviceLeaseRow;
  tasks : list MobileTaskRow;
  task_events : list MobileTaskEventRow;
  actions : list MobileActionCommitRow;
  fleet_sessions : list FleetSessionRow;
  messages : list ImMessageRow;
  audits : list AuditEventRow;
  deployments : list RecipeDeploymentRow;
  package_versions : list AutomationVersionRow;
  media_assets : list MediaAssetRow;
}.
#[export] Instance db_eta : Eta db := fun d => mkDb
  (devices d) (mobile_bindings d) (accounts d) (account_bindings d) (leases d)
  (tasks d) (task_events d) (actions d) (fleet_sessions d) (messages d) (audits d)
  (deployments d) (package_versions d) (media_assets d).

(** [models.Actor]. *)
Record Actor := mkActor {
  actor_tenant_id : string;
  actor_user_id : string;
  actor_roles : list Role;
  actor_mfa : bool;
}.

(** ** Unique indexes and transactions *)

Definition task_active (t : MobileTaskRow) : Prop := t_status t = R_CLAIMED \/ t_status t = R_RUNNING.
#[export] Instance task_active_dec t : Decision (task_active t).
Proof. unfold task_active. apply _. Defined.

(** The rows of the partial index [uq_mobile_task_device_active]. *)
Definition active_devices (l : list MobileTaskRow) : list string :=
  t_device_id <$> filter task_active l.

Definition event_key (e : MobileTaskEventRow) : string * Z := (e_task_id e, e_sequence e).
Definition action_task_key (a : MobileActionCommitRow) : string * string := (a_task_id a, a_action_id a).

Definition task_key (t : MobileTaskRow) : string * string := (t_tenant_id t, t_idempotency_key t).
(** [lease_id] of [mobile_task] is unique where it is not NULL. *)
Definition task_leases (l : list MobileTaskRow) : list string := omap t_lease_id l.
(** A unique column of a table kept as a finite map. *)
Definition map_index {V} (f : V -> string) (m : gmap string V) : Prop := NoDup (f <$> (map_to_list m).*2).
#[export] Instance map_index_dec {V} (f : V -> string) m : Decision (map_index f m).
Proof. unfold map_index. apply _. Defined.

(** The primary keys and unique indexes over the modelled columns. *)
Definition unique_indexes (d : db) : Prop :=
  NoDup (t_id <$> tasks d) /\ NoDup (active_devices (tasks d))
  /\ NoDup (event_key <$> task_events d)
  /\ NoDup (a_action_key <$> actions d) /\ NoDup (action_task_key <$> actions d)
  /\ NoDup (task_key <$> tasks d) /\ NoDup (task_leases (tasks d))
  /\ map_index l_lease_id (leases d)
  /\ NoDup (fs_session_id <$> fleet_sessions d) /\ map_index b_token_digest (mobile_bindings d).
#[export] Instance unique_indexes_dec d : Decision (unique_indexes d).
Proof. unfold unique_indexes. apply _. Defined.

(** [async with database.unit_of_work()]: the body runs in one transaction
    whose commit checks the unique indexes. *)
Definition unit_of_work {A} (body : db -> result error (A * db)) (d : db) : result error (A * db) :=
  match body d with
  | Ok (a, d') =>
      raise_if ~ unique_indexes d' with IntegrityError "UNIQUE constraint failed" in Ok (a, d')
  | Err e => Err e
  end.

Definition get_task (d : db) (k : string) : option MobileTaskRow := tget t_id k (tasks d).
Definition put_task (t : MobileTaskRow) (d : db) : db := d <| tasks := tput t_id t (tasks d) |>.
Definition put_device (k : string) (r : DeviceRow) (d : db) : db := d <| devices := <[k := r]> (devices d) |>.
Definition put_lease (k : string) (r : DeviceLeaseRow) (d : db) : db := d <| leases := <[k := r]> (leases d) |>.
Definition delete_lease (k : string) (d : db) : db := d <| leases := delete k (leases d) |>.
Definition get_action (d : db) (k : string) : option MobileActionCommitRow := tget a_action_key k (actions d).
Definition put_action (a : MobileActionCommitRow) (d : db) : db :=
  d <| actions := tput a_action_key a (actions d) |>.
Definition add_audit (a : AuditEventRow) (d : db) : db := d <| audits := audits d ++ [a] |>.

Lemma unit_of_work_Ok {A} (body : db -> result error (A * db)) d a d' :
  unit_of_work body d = Ok (a, d') -> body d = Ok (a, d') /\ unique_indexes d'.
Proof.
  unfold unit_of_work. destruct (body d) as [[a0 d0]|]; [|done].
  case_decide; [done|]. by intros [= <- <-].
Qed.

(** ** Active rows of the device index *)

Lemma active_devices_app l l' : active_devices (l ++ l') = active_devices l ++ active_devices l'.
Proof. unfold active_devices. by rewrite filter_app, fmap_app. Qed.

Lemma elem_of_active_devices l k :
  k ∈ active_devices l <-> exists t, t ∈ l /\ task_active t /\ t_device_id t = k.
Proof.
  unfold active_devices. rewrite list_elem_of_fmap. setoid_rewrite list_elem_of_filter.
  split; intros (t & ?); exists t; naive_solver.
Qed.

(** Writing back an inactive row, or a row whose activity and device are
    those of the row it replaces, keeps the device index a set. *)
Lemma active_devices_tput_le t l :
  NoDup (active_devices l) ->
  (forall x, x ∈ l -> t_id x = t_id t -> task_active t -> task_active x /\ t_device_id x = t_device_id t) ->
  NoDup (active_devices (tput t_id t l)).
Proof.
  induction l as [|x l IH]; intros Hnd Hx; [done|].
  change (x :: l) with ([x] ++ l) in Hnd. rewrite active_devices_app in Hnd.
  apply NoDup_app in Hnd as (H1 & H2 & H3).
  assert (forall k, k ∈ active_devices (tput t_id t l) -> k ∈ active_devices l) as Hsub.
  { intros k (y & Hy & Ha & <-)%elem_of_active_devices.
    apply elem_of_active_devices.
    apply elem_of_tput in Hy as [[-> (z & Hz & Hk)]|[Hy _]]; [|by exists y].
    exists z. destruct (Hx z) as [? ?]; [by right|done|done|done]. }
  change (tput t_id t (x :: l)) with ([if decide (t_id x = t_id t) then t else x] ++ tput t_id t l).
  rewrite active_devices_app. apply NoDup_app. split; [|split].
  - unfold active_devices. rewrite filter_cons, filter_nil.
    destruct (decide (task_active _)); cbn; [apply NoDup_singleton|apply NoDup_nil_2].
  - intros k Hk Hk'. apply (H2 k); [|by apply Hsub].
    apply elem_of_active_devices in Hk as (y & Hy & Ha & <-). apply list_elem_of_singleton in Hy as ->.
    apply elem_of_active_devices. exists x. split; [by left|].
    revert Ha. case_decide; [|done]. intros Ha. apply Hx; [by left|done|done].
  - apply IH; [done|]. intros y Hy. apply Hx. by right.
Qed.

(** ** Keeping the indexes *)

Lemma tput_fmap {B} (f : MobileTaskRow -> B) r l :
  (forall x, x ∈ l -> t_id x = t_id r -> f x = f r) -> f <$> tput t_id r l = f <$> l.
Proof.
  induction l as [|x l IH]; intros Hx; [done|]. cbn. fold (tput t_id r l). f_equal.
  - case_decide as D; [|done]. symmetry. apply Hx; [by left|done].
  - apply IH. intros y Hy. apply Hx. by right.
Qed.

Lemma elem_of_task_leases l x : x ∈ task_leases l <-> exists t, t ∈ l /\ t_lease_id t = Some x.
Proof. unfold task_leases. apply list_elem_of_omap. Qed.

Lemma task_leases_tput r l :
  NoDup (t_id <$> l) -> NoDup (task_leases l) ->
  (forall x, t_lease_id r = Some x -> forall y, y ∈ l -> t_id y <> t_id r -> t_lease_id y <> Some x) ->
  NoDup (task_leases (tput t_id r l)).
Proof.
  induction l as [|y l IH]; intros Hid Hnd Hr; [done|].
  apply NoDup_cons in Hid as [Hy Hid].
  assert (NoDup (task_leases l)) as Hnd'.
  { unfold task_leases in *. cbn in Hnd. destruct (t_lease_id y); [by apply NoDup_cons in Hnd as [_ ?]|done]. }
  assert (NoDup (task_leases (tput t_id r l))) as IH'.
  { apply IH; [done|done|]. intros x Hx z Hz. apply Hr; [done|by right]. }
  change (tput t_id r (y :: l)) with ((if decide (t_id y = t_id r) then r else y) :: tput t_id r l).
  set (h := if decide (t_id y = t_id r) then r else y).
  unfold task_leases in *. cbn. destruct (t_lease_id h) as [x|] eqn:Ex; [|done].
  apply NoDup_cons. split; [|done]. intros (z & Hz & Ez)%elem_of_task_leases.
  unfold h in Ex. revert Ex. case_decide as D; intros Ex.
  - apply elem_of_tput in Hz as [[-> (w & Hw & Hk)]|[Hz Hne]].
    + apply Hy. rewrite D, <- Hk. by apply list_elem_of_fmap_2.
    + apply (Hr x Ex z); [by right|done|done].
  - apply elem_of_tput in Hz as [[-> _]|[Hz _]].
    + apply (Hr x Ez y); [by left|done|done].
    + cbn in Hnd. rewrite Ex in Hnd. apply NoDup_cons in Hnd as [Hn _]. apply Hn.
      apply elem_of_task_leases. by exists z.
Qed.

Lemma map_index_iff {V} (f : V -> string) (m : gmap string V) :
  map_index f m <-> forall k1 k2 x1 x2, m !! k1 = Some x1 -> m !! k2 = Some x2 -> f x1 = f x2 -> k1 = k2.
Proof.
  unfold map_index. pose proof (NoDup_fst_map_to_list m) as Hk.
  assert (forall l : list (string * V), NoDup l.*1 ->
    NoDup (f <$> l.*2) <-> forall k1 k2 x1 x2, (k1, x1) ∈ l -> (k2, x2) ∈ l -> f x1 = f x2 -> k1 = k2) as Hl.
  { induction l as [|[k x] l IH]; cbn [fmap list_fmap fst snd]; intros Hn.
    { split; [intros _ k1 k2 x1 x2 H; by apply elem_of_nil in H|intros _; apply NoDup_nil_2]. }
    apply NoDup_cons in Hn as [Hn Hn']. rewrite NoDup_cons, IH by done. split.
    - intros [Hx Hin] k1 k2 x1 x2 [E|H1]%elem_of_cons [E2|H2]%elem_of_cons Heq; simplify_eq; [done| | |by eapply Hin].
      + destruct Hx. rewrite Heq. apply list_elem_of_fmap_2. by apply (list_elem_of_fmap_2' snd _ (k2, x2)).
      + destruct Hx. rewrite <- Heq. apply list_elem_of_fmap_2. by apply (list_elem_of_fmap_2' snd _ (k1, x1)).
    - intros Hall. split.
      + intros (y & Hy & ([k2 z] & -> & Hz)%list_elem_of_fmap)%list_elem_of_fmap. cbn in Hy.
        assert (k = k2) as <- by (apply (Hall k k2 x z); [by left|by right|done]).
        apply Hn. by apply (list_elem_of_fmap_2' fst _ (k, z)).
      + intros k1 k2 x1 x2 H1 H2. apply Hall; by right. }
  rewrite Hl by done. setoid_rewrite elem_of_map_to_list. done.
Qed.

Lemma map_index_insert {V} (f : V -> string) m k x :
  map_index f m -> (forall k' y, k' <> k -> m !! k' = Some y -> f y <> f x) -> map_index f (<[k := x]> m).
Proof.
  rewrite !map_index_iff. intros Hm Hx k1 k2 x1 x2. rewrite !lookup_insert.
  repeat case_decide; intros ? ? ?; simplify_eq; [done| | |by eapply Hm].
  - destruct (Hx k2 x2); [congruence|done|congruence].
  - destruct (Hx k1 x1); [congruence|done|congruence].
Qed.

Lemma map_index_update {V} (f : V -> string) m k x y :
  map_index f m -> m !! k = Some y -> f x = f y -> map_index f (<[k := x]> m).
Proof.
  intros Hm Hy Hf. apply map_index_insert; [done|]. rewrite map_index_iff in Hm.
  intros k' z Hne Hz Heq. apply Hne. eapply Hm; [exact Hz|exact Hy|congruence].
Qed.

Lemma get_task_put d k row r0 : get_task d k = Some r0 -> t_id row = k -> get_task (put_task row d) k = Some row.
Proof.
  intros Hg <-. unfold get_task; cbn. apply tget_tput_same.
  pose proof (tget_Some _ _ _ _ Hg) as [_ E]. rewrite <- E. exact (tget_key_In _ _ _ _ Hg).
Qed.

Lemma get_task_put_ne d k row : t_id row <> k -> get_task (put_task row d) k = get_task d k.
Proof. intros Hne. unfold get_task; cbn. by apply tget_tput_ne. Qed.
