(* ===== verification/PyJson.v ===== *)
(** * [json.dumps(value, sort_keys=True, separators=(",", ":"), ensure_ascii=False)]

    The canonical text whose digest identifies a request document. The repr
    of a float is the interpreter's and is a parameter; the documents of the
    services hold none. *)

From stdpp Require Import base strings list.
From Stdlib Require Import ZArith QArith_base Ascii.
From S2P Require Import Prelude PyStd Rows.

Open Scope Z_scope.

Definition quote_char : ascii := "034"%char.
Definition backslash : ascii := "092"%char.

(** The escape of one character of a JSON string. *)
Definition escape_char (c : ascii) : string :=
  let n := nat_of_ascii c in
  if Ascii.eqb c quote_char then String backslash (String quote_char "")
  else if Ascii.eqb c backslash then String backslash (String backslash "")
  else if Nat.eqb n 8 then String backslash "b"
  else if Nat.eqb n 9 then String backslash "t"
  else if Nat.eqb n 10 then String backslash "n"
  else if Nat.eqb n 12 then String backslash "f"
  else if Nat.eqb n 13 then String backslash "r"
  else if Nat.ltb n 32
  then String backslash ("u00" +:+ String (Sha256.hex_digit (Z.of_nat (n / 16)))
                                      (String (Sha256.hex_digit (Z.of_nat (n mod 16))) ""))
  else String c "".

Fixpoint escape_string (s : string) : string :=
  match s with "" => "" | String c s' => escape_char c +:+ escape_string s' end%string.

Definition dump_string (s : string) : string :=
  String quote_char "" +:+ escape_string s +:+ String quote_char "".

Definition item_leb (a b : string * string) : bool := str_leb a.1 b.1.

Section Dumps.
Context (float_repr : Q -> string).

Fixpoint json_dumps (v : json) : string :=
  match v with
  | JNull => "null"
  | JBool b => if b then "true" else "false"
  | JInt n => py_str_int n
  | JFloat q => float_repr q
  | JStr s => dump_string s
  | JArr l => "[" +:+ str_join "," (json_dumps <$> l) +:+ "]"
  | JObj o =>
      "{" +:+ str_join "," ((fun kv => dump_string kv.1 +:+ ":" +:+ kv.2)
                              <$> isort item_leb ((fun kv => (kv.1, json_dumps kv.2)) <$> o)) +:+ "}"
  end.
End Dumps.

Definition no_float : Q -> string := fun _ => "".

Example dumps_sorted :
  json_dumps no_float (JObj [("b", JArr [JInt (-1); JBool true; JNull]); ("a", JStr (String quote_char "x"))])
  = "{" +:+ dump_string "a" +:+ ":" +:+ dump_string (String quote_char "x") +:+ "," +:+ dump_string "b" +:+ ":[-1,true,null]}".
Proof. vm_compute. reflexivity. Qed.

(** A string literal holds no bare quote: escaping is injective. *)
Lemma escape_char_cases c :
  (escape_char c = String c "" /\ c <> quote_char /\ c <> backslash)
  \/ exists d r, escape_char c = String backslash (String d r).
Proof.
  unfold escape_char. destruct (Ascii.eqb_spec c quote_char); [right; eauto|].
  destruct (Ascii.eqb_spec c backslash); [right; eauto|].
  repeat case_match; try (right; by eauto). by left.
Qed.

(** ** The length of [json.dumps(value, separators=(",", ":"))]

    With [ensure_ascii], the default, every character outside printable ASCII
    is escaped: as [\uXXXX], or as two of them from U+10000 on. *)
Definition ascii_char_size (c : ascii) : Z :=
  let n := Z.of_nat (nat_of_ascii c) in
  if decide (n = 34 \/ n = 92 \/ n = 8 \/ n = 9 \/ n = 10 \/ n = 12 \/ n = 13) then 2
  else if decide (n < 32 \/ n = 127) then 6
  else if decide (n < 127) then 1
  else if decide (n < 192) then 0
  else if decide (n < 240) then 6 else 12.
Fixpoint ascii_text_size (s : string) : Z :=
  match s with "" => 0 | String c s' => ascii_char_size c + ascii_text_size s' end%string.
Definition ascii_string_size (s : string) : Z := 2 + ascii_text_size s.

(** The brackets and commas around [n] members. *)
Definition frame_size (n : nat) : Z := 2 + Z.max 0 (Z.of_nat n - 1).
Definition sum_Z : list Z -> Z := foldr Z.add 0.

Section DumpSize.
Context (float_repr : Q -> string).
Fixpoint ascii_size (v : json) : Z :=
  match v with
  | JNull => 4
  | JBool b => if b then 4 else 5
  | JInt n => str_len (py_str_int n)
  | JFloat q => str_len (float_repr q)
  | JStr s => ascii_string_size s
  | JArr l => frame_size (length l) + sum_Z (ascii_size <$> l)
  | JObj o => frame_size (length o) + sum_Z ((fun kv => ascii_string_size kv.1 + 1 + ascii_size kv.2) <$> o)
  end.
End DumpSize.

(** [len('{"a":[1,-22,null],"\u00e9":"\ud83d\ude00"}')]. *)
Example ascii_size_sample :
  ascii_size no_float (JObj [("a", JArr [JInt 1; JInt (-22); JNull]); ("é", JStr "😀")]) = 42.
Proof. vm_compute. reflexivity. Qed.

(** ** [json.dumps(value, separators=(",", ":"), ensure_ascii=False)]

    The members in the order of the object. *)
Section Text.
Context (float_repr : Q -> string).
Fixpoint json_text (v : json) : string :=
  match v with
  | JNull => "null"
  | JBool b => if b then "true" else "false"
  | JInt n => py_str_int n
  | JFloat q => float_repr q
  | JStr s => dump_string s
  | JArr l => "[" +:+ str_join "," (json_text <$> l) +:+ "]"
  | JObj o => "{" +:+ str_join "," ((fun kv => dump_string kv.1 +:+ ":" +:+ json_text kv.2) <$> o) +:+ "}"
  end.
End Text.
