(* ===== verification/PyUrl.v ===== *)
(** * [urllib.parse.urlsplit]: the scheme and the network location

    The parts of a URL the services look at. What the library asks of a
    network location in brackets (the ipaddress module) or outside ASCII
    (Unicode normalisation) is the parameter [netloc_accepted]. *)

From stdpp Require Import base strings list.
From Stdlib Require Import ZArith Ascii.
From S2P Require Import Prelude PyStd.

Open Scope Z_scope.

Definition control_or_space (c : ascii) : bool := Nat.leb (nat_of_ascii c) 32.
Fixpoint lstrip_control (s : string) : string :=
  match s with "" => "" | String c s' => if control_or_space c then lstrip_control s' else s end%string.

(** [_UNSAFE_URL_BYTES_TO_REMOVE]. *)
Definition unsafe_byte (c : ascii) : bool := let n := nat_of_ascii c in Nat.eqb n 9 || Nat.eqb n 10 || Nat.eqb n 13.
Definition scheme_char (c : ascii) : bool := is_alnum c || Ascii.eqb c "+" || Ascii.eqb c "-" || Ascii.eqb c ".".
Definition is_alpha (c : ascii) : bool := char_in "A" "Z" c || char_in "a" "z" c.

(** The text before the first character of [stop], and the rest from there. *)
Fixpoint str_break (stop : ascii -> bool) (s : string) : string * string :=
  match s with
  | "" => ("", "")
  | String c s' => if stop c then ("", s) else let '(a, b) := str_break stop s' in (String c a, b)
  end%string.

Definition netloc_end (c : ascii) : bool := Ascii.eqb c "/" || Ascii.eqb c "?" || Ascii.eqb c "#".
Definition non_ascii (s : string) : bool := negb (str_all (fun c => Nat.ltb (nat_of_ascii c) 128) s).

Record split_url := mkSplit { url_scheme : string; url_netloc : string }.

(** A scheme is cut off when it is made of scheme characters, a letter first. *)
Definition cut_scheme (url : string) : string * string :=
  match str_break (fun c => Ascii.eqb c ":") url with
  | (String c scheme, String _ rest) =>
      if is_alpha c && str_all scheme_char scheme then (str_lower (String c scheme), rest) else ("", url)
  | _ => ("", url)
  end%string.

(** [SplitResult.username is not None]: there is user information before the host. *)
Definition has_userinfo (netloc : string) : bool := str_contains_char "@" netloc.

Section Urlsplit.
Context (netloc_accepted : string -> bool).

(** [None] is the ValueError. *)
Definition urlsplit (url : string) : option split_url :=
  let '(scheme, rest) := cut_scheme (str_filter (fun c => negb (unsafe_byte c)) (lstrip_control url)) in
  match rest with
  | String "/" (String "/" rest) =>
      let netloc := (str_break netloc_end rest).1 in
      let opens := str_contains_char "[" netloc in
      let closes := str_contains_char "]" netloc in
      if xorb opens closes then None
      else if (opens || non_ascii netloc) && negb (netloc_accepted netloc) then None
      else Some (mkSplit scheme netloc)
  | _ => Some (mkSplit scheme "")
  end%string.
End Urlsplit.

Example urlsplit_https : urlsplit (fun _ => false) " HTTPS://user@Host:8443/a?b#c" = Some (mkSplit "https" "user@Host:8443").
Proof. vm_compute. reflexivity. Qed.
Example urlsplit_relative : urlsplit (fun _ => false) "/a:b//c" = Some (mkSplit "" "").
Proof. vm_compute. reflexivity. Qed.
Example urlsplit_bracket : urlsplit (fun _ => true) "s3://[bucket/x" = None.
Proof. vm_compute. reflexivity. Qed.
