(* ===== verification/ControlledActions.v ===== *)
(** * Identity, phases and outcome decision of controlled actions

    Models [action_identity] and [canonical_steps] of [mobile_actions.py] and
    the pure helpers of [controlled_actions.py]: the frozen identity vectors,
    the ledger phases INTENT < REPORTED < RESOLVED, the outcome guard, the
    evidence binding and the proof of a platform result. *)

From stdpp Require Import base gmap strings list.
From Stdlib Require Import ZArith Lia Ascii.
From S2P Require Import Prelude PyStd Domain Rows.

Open Scope Z_scope.

(** ** The frozen identity formula *)

(** The text hashed into [actionKey]. *)
Definition action_key_text (task_id recipe_sha256 action_id : string) : string :=
  str_lines ["cloudctl.action/v1"; task_id; recipe_sha256; action_id].

(** The text hashed into [parameterHash]. *)
Definition action_parameters_text (task_id command_type account_id : string) (binding_version : Z)
    (snapshot_sha256 recipe_sha256 : string) : string :=
  str_lines ["cloudctl.action-parameters/v1"; task_id; command_type; account_id;
             py_str_int binding_version; snapshot_sha256; recipe_sha256].

Definition invalid_field (v : string) : bool := String.eqb v "" || has_line_break v.

Definition action_identity (task_id command_type account_id : string) (binding_version : Z)
    (snapshot_sha256 recipe_sha256 action_id : string) : result error (string * string) :=
  let fields := [task_id; command_type; account_id; snapshot_sha256; recipe_sha256; action_id] in
  raise_if existsb invalid_field fields = true with ConflictError "invalid action identity" in
  raise_if match_action_id action_id = false with ConflictError "invalid action ID" in
  raise_if existsb (fun v => negb (match_digest v)) [snapshot_sha256; recipe_sha256] = true
    with ConflictError "invalid frozen hash" in
  Ok (hexdigest (action_key_text task_id recipe_sha256 action_id),
      hexdigest (action_parameters_text task_id command_type account_id binding_version
                   snapshot_sha256 recipe_sha256)).

(** ** The frozen text of a list of steps *)

Definition canonical_scalar (v : scalar_value) : string :=
  match v with
  | SBool b => if b then "true" else "false"
  | SInt n => py_str_int n
  | SStr s => s
  end.

Definition key_leb (a b : string * scalar_value) : bool := str_leb a.1 b.1.

(** [f"{key}={scalar(step[key])}" for key in sorted(step)]. *)
Definition step_lines (s : step) : list string :=
  (fun kv => kv.1 +:+ "=" +:+ canonical_scalar kv.2) <$> isort key_leb s.

Definition canonical_steps (steps : list step) : string :=
  str_lines (str_lines ∘ step_lines <$> steps).

(** ** Ledger phases *)

Inductive ActionPhase : Type := PHASE_INTENT | PHASE_REPORTED | PHASE_RESOLVED.
#[export] Instance ActionPhase_eq_dec : EqDecision ActionPhase.
Proof. solve_decision. Defined.

Definition phase_from (status : ActionStatus) (resolution_revision : Z) : ActionPhase :=
  if decide (resolution_revision <> 0) then PHASE_RESOLVED
  else if decide (status = A_INTENT) then PHASE_INTENT
  else PHASE_REPORTED.

Definition action_phase (row : MobileActionCommitRow) : ActionPhase :=
  phase_from (a_status row) (a_resolution_revision row).

Definition phase_index (p : ActionPhase) : nat :=
  match p with PHASE_INTENT => 0 | PHASE_REPORTED => 1 | PHASE_RESOLVED => 2 end.

Definition phase_transition_allowed (current target : ActionPhase) : bool :=
  Nat.leb (phase_index current) (phase_index target).

(** ** The outcome decision *)

Inductive OutcomeDecision : Type := OUTCOME_APPLY | OUTCOME_REPLAY.

Definition outcome_guard (row_status : ActionStatus) (row_parameter_hash row_lease_id : string)
    (row_reported_evidence : option string) (row_resolution_revision : Z)
    (row_before_evidence : string) (task_business_state : BusinessState)
    (body_parameter_hash body_lease_id : string) (body_status : ActionStatus)
    (body_evidence : string) : result error OutcomeDecision :=
  raise_if body_parameter_hash <> row_parameter_hash \/ body_lease_id <> row_lease_id
    with ConflictError "outcome identity mismatch" in
  raise_if row_resolution_revision <> 0 \/ task_business_state <> B_RECONCILING
    with ConflictError "action already resolved or task not reconciling" in
  if decide (row_status <> A_INTENT) then
    raise_if row_status <> body_status \/ row_reported_evidence <> Some body_evidence
      with ConflictError "outcome replay differs" in
    Ok OUTCOME_REPLAY
  else
    raise_if body_status = A_APPLIED /\ body_evidence = row_before_evidence
      with ConflictError "independent postcondition evidence required" in
    Ok OUTCOME_APPLY.

(** ** Evidence binding and platform results *)

Record evidence := mkEvidence {
  ev_taskId : string; ev_deviceId : string; ev_accountId : option string;
  ev_accountSource : string; ev_leaseId : string; ev_bindingVersion : option Z;
  ev_recipeVersionId : string; ev_recipeSha256 : string; ev_actionId : string;
  ev_createdAt : Z; ev_updatedAt : Z; ev_resolvedAt : option Z;
}.

Definition evidence_binding (row : MobileActionCommitRow) : evidence :=
  let id := a_identity row in
  let platform := truthy_str (a_platform_account_id row) in
  {| ev_taskId := ac_task_id id; ev_deviceId := ac_device_id id;
     ev_accountId := if platform then a_platform_account_id row else ac_account_id id;
     ev_accountSource := if platform then "platform_account_id" else "legacy_account_id";
     ev_leaseId := a_lease_id row; ev_bindingVersion := ac_binding_version id;
     ev_recipeVersionId := ac_recipe_version_id id; ev_recipeSha256 := ac_recipe_sha256 id;
     ev_actionId := ac_action_id id; ev_createdAt := a_created_at row;
     ev_updatedAt := a_updated_at row; ev_resolvedAt := a_resolved_at row |}.

Definition terminal_action_status (s : ActionStatus) : Prop := s = A_APPLIED \/ s = A_NOT_SUBMITTED.
#[export] Instance terminal_action_status_dec s : Decision (terminal_action_status s).
Proof. unfold terminal_action_status. apply _. Defined.

Definition platform_result_proven (row : MobileActionCommitRow) : bool :=
  bool_decide (a_resolution_revision row > 0)
  && bool_decide (terminal_action_status (a_status row))
  && bool_decide (is_Some (a_resolved_at row))
  && truthy_str (a_resolution_evidence row).

(** [identity_inputs_free_of_envelope], on the names of the identity inputs. *)
Definition AUTHORIZATION_ENVELOPE_FIELDS : list string :=
  ["controlEpoch"; "fencingToken"; "leaseExpiresAt"; "sessionId"; "bootId"].

Definition identity_inputs_free_of_envelope (identity_inputs : list string) : list string :=
  filter (fun name => name ∈ identity_inputs) AUTHORIZATION_ENVELOPE_FIELDS.

(** ** The six frozen identity vectors *)

Record golden := mkGolden {
  g_taskId : string; g_commandType : string; g_accountId : string; g_bindingVersion : Z;
  g_snapshotSha256 : string; g_recipeSha256 : string; g_actionId : string;
  g_actionKey : string; g_parameterHash : string;
}.

Definition STABLE_IDENTITY_GOLDENS : list (string * golden) := [
  ("probe", mkGolden
    "00000000-0000-7000-8000-000000000101" "device.probe_capabilities.v1"
    "00000000-0000-7000-8000-000000000202" 3
    "bbbbbbbbbbbbbbbbbbbbbbbbbbbbbbbbbbbbbbbbbbbbbbbbbbbbbbbbbbbbbbbb"
    "aaaaaaaaaaaaaaaaaaaaaaaaaaaaaaaaaaaaaaaaaaaaaaaaaaaaaaaaaaaaaaaa"
    "probe"
    "9f0109e8eff18337aff6a1d410d4c4f4ecff01bdc1808cad8710202c22470e17"
    "c9257b2eb7ed1a1eece57e9f9a50c24920701f08aa0e7af56e8d263a7bf283d4");
  ("xianyu-steps", mkGolden
    "0a1b2c3d-1111-2222-3333-444455556666" "xianyu.publish_listing.steps.v1"
    "5d6e7f80-9999-8888-7777-666655554444" 0
    "ce231034efd1b3fae0c93a5ef37279544825ca233a833b86fdcdd57f298d81dd"
    "ce231034efd1b3fae0c93a5ef37279544825ca233a833b86fdcdd57f298d81dd"
    "click-publish"
    "9f63c5cb30b2918dae74db0fdb091e62fd9ae4449eed530fafa216cdacdd39f0"
    "af8ca357334d7ed7afb5ca173ffe9be49cf98cfb5aaf6e21e15174cf8df5b91f");
  ("xhs", mkGolden
    "0a1b2c3d-1111-2222-3333-444455557703" "xhs.publish_note.steps.v1"
    "1d2e3f40-7777-6666-5555-444433332222" 0
    "77af08b5c368bfcc57a112b4cbd7dee1d4cdb8283c8902d5f39ef9418bff3848"
    "77af08b5c368bfcc57a112b4cbd7dee1d4cdb8283c8902d5f39ef9418bff3848"
    "click-publish"
    "dfae61d8ed494a7188ab0ef0f6d7cf102b0b5bc8e4fd35ccf7656bfc32c89c6d"
    "490397de17860bb45c0b05ced5031b6a91856b8628db3fada1ae03a4ef3280b9");
  ("douyin", mkGolden
    "0a1b2c3d-1111-2222-3333-444455557704" "douyin.publish_note.steps.v1"
    "2d3e4f50-8888-7777-6666-555544443333" 2
    "29a47ca1389dca198fab583eb6f49db707476aad17ec6fd768c388595b9b6e17"
    "29a47ca1389dca198fab583eb6f49db707476aad17ec6fd768c388595b9b6e17"
    "click-publish"
    "2105c2c856ab8b56edd61acc6483a7ee5b607b4f24cc933c8dff9391d70712cb"
    "277f269cf00cfe00d592d754d39e0a4f20ac5f5ba36789885debba7df35e73d6");
  ("maintenance-v1", mkGolden
    "0a1b2c3d-1111-2222-3333-444455557705" "xianyu.delist.steps.v1"
    "3d4e5f60-9999-8888-7777-666655554444" 0
    "3b8e7002e4d19ddf0615b6cd34ddca8e0a2a4e22ca90f8163cefd81091b3e2f5"
    "3b8e7002e4d19ddf0615b6cd34ddca8e0a2a4e22ca90f8163cefd81091b3e2f5"
    "confirm-delist"
    "55ddeb7c0789531196dd8838973d85ff04ecf70881f12466f8eac9e1672d709a"
    "671c174495f661794914ece1b6cc1fe6a03016f5315e67018c6e3168db40d1ab");
  ("maintenance-v2", mkGolden
    "0a1b2c3d-1111-2222-3333-444455557706" "xianyu.delist.steps.v2"
    "3d4e5f60-9999-8888-7777-666655554444" 0
    "003b2571c218c788cff64303f45febdc8c9fa7dcb3b3a5dc20bdf9f856a6b854"
    "003b2571c218c788cff64303f45febdc8c9fa7dcb3b3a5dc20bdf9f856a6b854"
    "confirm-delist"
    "89f3dad3299d47c3af6d007fecc15ebe85d6fccee54a621eb98771538c8ff99e"
    "6c7ded1cec7b217774b1268990d0572553823ecbbe4fc08274d999c79fdfc9a3")].

Definition golden_holds (g : golden) : bool :=
  match action_identity (g_taskId g) (g_commandType g) (g_accountId g) (g_bindingVersion g)
          (g_snapshotSha256 g) (g_recipeSha256 g) (g_actionId g) with
  | Ok (k, p) => String.eqb k (g_actionKey g) && String.eqb p (g_parameterHash g)
  | Err _ => false
  end.

(** ** Identity: lemmas and theorems *)

(** The six identity vectors frozen with the mobile client are the values
    of the formula: SHA-256 included, nothing has drifted. *)
Theorem stable_identity_goldens_hold :
  forallb (fun kg => golden_holds kg.2) STABLE_IDENTITY_GOLDENS = true.
Proof. vm_compute. reflexivity. Qed.

Lemma one_line_numeral n : one_line (py_str_int n) = true.
Proof. unfold one_line. by rewrite py_str_int_no_break. Qed.

Lemma valid_fields l :
  existsb invalid_field l = false -> Forall (fun v => one_line v = true) l.
Proof.
  induction l as [|v l IH]; cbn; [by constructor|].
  intros [[_ Hv]%orb_false_iff Hl]%orb_false_iff. constructor; [|by apply IH].
  by apply one_line_break.
Qed.

Lemma action_identity_Ok t c a b s r i k p :
  action_identity t c a b s r i = Ok (k, p) ->
  Forall (fun v => one_line v = true) [t; c; a; s; r; i]
  /\ k = hexdigest (action_key_text t r i)
  /\ p = hexdigest (action_parameters_text t c a b s r).
Proof.
  unfold action_identity. intros H. case_decide as D; [done|]. do 2 (case_decide; [done|]).
  injection H as <- <-. split; [|done]. apply valid_fields. by apply not_true_is_false.
Qed.

(** The identity freezes what it names. When two accepted identities have
    the same [actionKey] they are about the same task, recipe and action, and
    when they have the same [parameterHash] they have the same task, command,
    account, binding version, snapshot and recipe — or the two hashed texts
    are a SHA-256 collision. *)
Theorem action_identity_frozen t c a b s r i t' c' a' b' s' r' i' k p k' p' :
  action_identity t c a b s r i = Ok (k, p) ->
  action_identity t' c' a' b' s' r' i' = Ok (k', p') ->
  (k = k' -> (t, r, i) = (t', r', i')
     \/ (action_key_text t r i <> action_key_text t' r' i'
         /\ hexdigest (action_key_text t r i) = hexdigest (action_key_text t' r' i')))
  /\ (p = p' -> (t, c, a, b, s, r) = (t', c', a', b', s', r')
     \/ (action_parameters_text t c a b s r <> action_parameters_text t' c' a' b' s' r'
         /\ hexdigest (action_parameters_text t c a b s r)
            = hexdigest (action_parameters_text t' c' a' b' s' r'))).
Proof.
  intros (F & -> & ->)%action_identity_Ok (F' & -> & ->)%action_identity_Ok.
  rewrite !Forall_cons in F, F'. destruct_and!. pose proof one_line_numeral.
  split; intros E.
  - destruct (decide (action_key_text t r i = action_key_text t' r' i')) as [E'|]; [left|by right].
    apply str_lines_inj in E'; [congruence|done|done|by repeat constructor..].
  - destruct (decide (action_parameters_text t c a b s r = action_parameters_text t' c' a' b' s' r'))
      as [E'|]; [left|by right].
    apply str_lines_inj in E'; [|done|done|by repeat constructor..].
    injection E' as -> -> -> Hb -> ->. by apply py_str_int_inj in Hb as ->.
Qed.

Definition digest_a : string := hexdigest "a".

Lemma action_identity_frozen_witness :
  exists k p,
    action_identity "task" "cmd" "acct" 3 digest_a digest_a "probe" = Ok (k, p)
    /\ (("task", digest_a, "probe") = ("task", digest_a, "probe")
        \/ (action_key_text "task" digest_a "probe" <> action_key_text "task" digest_a "probe"
            /\ hexdigest (action_key_text "task" digest_a "probe")
               = hexdigest (action_key_text "task" digest_a "probe"))).
Proof.
  eexists _, _. split; [vm_compute; reflexivity|].
  eapply (action_identity_frozen "task" "cmd" "acct" 3 digest_a digest_a "probe"
            "task" "cmd" "acct" 3 digest_a digest_a "probe");
    [vm_compute; reflexivity|vm_compute; reflexivity|reflexivity].
Defined.

(** ** The canonical text of steps: lemmas and theorems *)

(** What the text keeps of a step: its keys, in order, with the text of
    their values. *)
Definition step_fields (s : step) : list (string * string) :=
  (fun kv => (kv.1, canonical_scalar kv.2)) <$> isort key_leb s.

Definition field_line (f : string * string) : string := f.1 +:+ String "=" f.2.

Definition good_field (f : string * string) : bool :=
  negb (str_contains_char "=" f.1) && one_line f.1 && one_line f.2.

(** A step with one [action] key, sorted first, and fields on one line each;
    the keys of [mobile_schemas] are identifiers no smaller than [action]. *)
Definition good_step (s : step) : bool :=
  match step_fields s with
  | f :: rest =>
      String.eqb f.1 "action" && forallb (fun g => negb (String.eqb g.1 "action")) rest
      && forallb good_field (f :: rest)
  | [] => false
  end.

Lemma step_lines_fields s : step_lines s = field_line <$> step_fields s.
Proof. unfold step_lines, step_fields. rewrite <- list_fmap_compose. reflexivity. Qed.

Lemma good_step_spec s :
  good_step s = true ->
  headed (fun f : string * string => f.1 = "action") (step_fields s)
  /\ Forall (fun f => good_field f = true) (step_fields s).
Proof.
  unfold good_step. destruct (step_fields s) as [|f r]; [done|].
  rewrite !andb_true_iff. intros [[Hf Hr] Hg]. split.
  - exists f, r. split; [done|]. split; [by apply String.eqb_eq|].
    apply Forall_forall. intros g Hg'. rewrite forallb_forall in Hr.
    specialize (Hr g ltac:(by apply list_elem_of_In)).
    apply negb_true_iff, String.eqb_neq in Hr. done.
  - apply Forall_forall. intros g Hg'. rewrite forallb_forall in Hg. by apply Hg, list_elem_of_In.
Qed.

Lemma field_line_inj f g :
  good_field f = true -> good_field g = true -> field_line f = field_line g -> f = g.
Proof.
  destruct f as [k v], g as [k' v']. unfold good_field, field_line; cbn [fst snd].
  rewrite !andb_true_iff, !negb_true_iff. intros [[Hf _] _] [[Hg _] _] E.
  by apply str_cut_inj in E as [-> ->].
Qed.

Lemma field_line_one_line f : good_field f = true -> one_line (field_line f) = true.
Proof.
  unfold good_field, one_line, field_line. rewrite !andb_true_iff, !negb_true_iff.
  intros [[_ H1] H2]. rewrite str_contains_char_app, H1. cbn. done.
Qed.

Lemma field_lines_inj fs gs :
  Forall (fun f => good_field f = true) fs -> Forall (fun f => good_field f = true) gs ->
  field_line <$> fs = field_line <$> gs -> fs = gs.
Proof.
  intros Hf. revert gs. induction Hf as [|f fs Hf Hfs IH]; intros gs Hg E.
  - by destruct gs.
  - destruct Hg as [|g gs Hg Hgs]; [done|]. injection E as E1 E2.
    apply field_line_inj in E1 as ->; [|done..]. f_equal. by apply IH.
Qed.

Lemma canonical_steps_lines steps :
  Forall (fun s => good_step s = true) steps ->
  canonical_steps steps = str_lines (field_line <$> concat (step_fields <$> steps)).
Proof.
  intros H. unfold canonical_steps.
  rewrite list_fmap_compose, str_lines_concat.
  - f_equal. induction H as [|s l Hs Hl IH]; [done|].
    cbn [fmap list_fmap concat]. rewrite fmap_app, <- IH. by rewrite step_lines_fields.
  - apply Forall_fmap. eapply Forall_impl; [exact H|]. intros s Hs; cbn.
    rewrite step_lines_fields. apply good_step_spec in Hs as [(f & r & -> & _) _]. done.
Qed.

Lemma good_steps_fields steps :
  Forall (fun s => good_step s = true) steps ->
  Forall (headed (fun f : string * string => f.1 = "action")) (step_fields <$> steps)
  /\ Forall (fun f => good_field f = true) (concat (step_fields <$> steps)).
Proof.
  induction 1 as [|s l Hs Hl IH]; cbn; [by split; constructor|].
  apply good_step_spec in Hs as [H1 H2]. destruct IH as [I1 I2].
  split; [by constructor|]. by apply Forall_app.
Qed.

(** The text the payload identity hashes determines the steps: two lists
    of steps whose keys and values stay on one line, one [action] per step
    and first in order, have the same text only when they have the same
    fields with the same printed values, step by step. *)
Theorem canonical_steps_injective steps steps' :
  Forall (fun s => good_step s = true) steps ->
  Forall (fun s => good_step s = true) steps' ->
  steps <> [] -> steps' <> [] ->
  canonical_steps steps = canonical_steps steps' ->
  step_fields <$> steps = step_fields <$> steps'.
Proof.
  intros H H' Hne Hne'. rewrite !canonical_steps_lines by done. intros E.
  destruct (good_steps_fields _ H) as [G1 G2], (good_steps_fields _ H') as [G1' G2'].
  assert (forall l, l <> [] -> Forall (headed (fun f : string * string => f.1 = "action")) (step_fields <$> l) ->
    field_line <$> concat (step_fields <$> l) <> []) as Hn.
  { intros [|s l] Hl Hd; [done|]. inversion Hd as [|?? (f & r & Hs & _) _]; subst.
    cbn. by rewrite Hs. }
  apply (concat_headed_inj _ _ _ G1 G1'). apply field_lines_inj; [done..|].
  apply str_lines_inj; [by apply Hn..| | |done].
  all: apply Forall_fmap; eapply Forall_impl; [eassumption|apply field_line_one_line].
Qed.

Lemma canonical_steps_injective_witness :
  step_fields <$> [[("stepId", SStr "s1"); ("action", SStr "ui.tap")]]
  = step_fields <$> [[("action", SStr "ui.tap"); ("stepId", SStr "s1")]].
Proof.
  apply (canonical_steps_injective [[("stepId", SStr "s1"); ("action", SStr "ui.tap")]]
           [[("action", SStr "ui.tap"); ("stepId", SStr "s1")]]);
    [by repeat constructor|by repeat constructor|done|done|vm_compute; reflexivity].
Defined.

(** A value with a line break escapes its field: typing one text and typing
    two texts in two steps have the same canonical text. *)
Definition one_input : list step :=
  [[("action", SStr "ui.input");
    ("value", SStr ("a" +:+ String newline "action=ui.input" +:+ String newline "value=b"))]].
Definition two_inputs : list step :=
  [[("action", SStr "ui.input"); ("value", SStr "a")];
   [("action", SStr "ui.input"); ("value", SStr "b")]].

Lemma canonical_steps_collision :
  one_input <> two_inputs /\ canonical_steps one_input = canonical_steps two_inputs.
Proof. split; [discriminate|vm_compute; reflexivity]. Qed.

(** ** Phases and outcomes: lemmas and theorems *)

(** The ledger row after an applied outcome report. *)
Definition reported (row : MobileActionCommitRow) (status : ActionStatus) (evidence : string)
    (now : Z) : MobileActionCommitRow :=
  row <| a_status := status |> <| a_reported_evidence := Some evidence |> <| a_updated_at := now |>.

(** The row after an operator resolved it. *)
Definition resolved (row : MobileActionCommitRow) (status : ActionStatus) (evidence : string)
    (now : Z) : MobileActionCommitRow :=
  row <| a_status := status |> <| a_resolution_revision := a_resolution_revision row + 1 |>
      <| a_resolution_evidence := Some evidence |> <| a_resolved_at := Some now |>
      <| a_updated_at := now |>.

Lemma phase_transition_refl p : phase_transition_allowed p p = true.
Proof. by destruct p. Qed.

Lemma phase_transition_trans p q r :
  phase_transition_allowed p q = true -> phase_transition_allowed q r = true ->
  phase_transition_allowed p r = true.
Proof. by destruct p, q, r. Qed.

Definition guard_row (row : MobileActionCommitRow) (task_state : BusinessState)
    (parameter_hash lease_id : string) (status : ActionStatus) (ev : string)
    : result error OutcomeDecision :=
  outcome_guard (a_status row) (ac_parameter_hash (a_identity row)) (a_lease_id row)
    (a_reported_evidence row) (a_resolution_revision row) (a_before_evidence row)
    task_state parameter_hash lease_id status ev.

Definition pinned (row : MobileActionCommitRow) (ph lease : string) (st : BusinessState) : Prop :=
  ph = ac_parameter_hash (a_identity row) /\ lease = a_lease_id row /\ st = B_RECONCILING.

Lemma guard_row_apply row st ph lease status ev :
  guard_row row st ph lease status ev = Ok OUTCOME_APPLY <->
  pinned row ph lease st /\ a_resolution_revision row = 0 /\ a_status row = A_INTENT
  /\ ~ (status = A_APPLIED /\ ev = a_before_evidence row).
Proof.
  unfold guard_row, outcome_guard, pinned. split.
  - intros H. ok_inv H. apply Decidable.not_or in D as [? ?], D0 as [? ?].
    repeat match goal with Hn : ~ _ <> _ |- _ => apply dec_stable in Hn end. done.
  - intros ((-> & -> & ->) & -> & -> & H). repeat (rewrite decide_False; [|tauto]). done.
Qed.

Lemma guard_row_replay row st ph lease status ev :
  guard_row row st ph lease status ev = Ok OUTCOME_REPLAY <->
  pinned row ph lease st /\ a_resolution_revision row = 0 /\ a_status row <> A_INTENT
  /\ status = a_status row /\ a_reported_evidence row = Some ev.
Proof.
  unfold guard_row, outcome_guard, pinned. split.
  - intros H. ok_inv H. apply Decidable.not_or in D as [? ?], D0 as [? ?], D2 as [? ?].
    repeat match goal with Hn : ~ _ <> _ |- _ => apply dec_stable in Hn end. done.
  - intros ((-> & -> & ->) & -> & Hs & -> & ->). do 2 (rewrite decide_False; [|tauto]).
    rewrite decide_True by done. rewrite decide_False; [done|tauto].
Qed.

Lemma guard_row_cases row st ph lease status ev :
  guard_row row st ph lease status ev = Ok OUTCOME_APPLY
  \/ guard_row row st ph lease status ev = Ok OUTCOME_REPLAY
  \/ is_ok (guard_row row st ph lease status ev) = false.
Proof. destruct (guard_row row st ph lease status ev) as [[]|]; auto. Qed.

Lemma action_phase_spec row :
  match action_phase row with
  | PHASE_RESOLVED => a_resolution_revision row <> 0
  | PHASE_INTENT => a_resolution_revision row = 0 /\ a_status row = A_INTENT
  | PHASE_REPORTED => a_resolution_revision row = 0 /\ a_status row <> A_INTENT
  end.
Proof. unfold action_phase, phase_from. repeat case_decide; naive_solver. Qed.

(** The outcome decision on a ledger row: a resolved row accepts
    nothing; the first report is applied exactly when it names the row's
    parameters and lease, the task is reconciling and an APPLIED claim brings
    evidence of its own; after it the same report is replayed without a write
    and every other one is refused. *)
Theorem outcome_guard_decides row st ph lease status ev now :
  status = A_APPLIED \/ status = A_UNKNOWN ->
  let decision := guard_row row st ph lease status ev in
  match action_phase row with
  | PHASE_RESOLVED => is_ok decision = false
  | PHASE_INTENT =>
      if decide (pinned row ph lease st /\ ~ (status = A_APPLIED /\ ev = a_before_evidence row))
      then decision = Ok OUTCOME_APPLY
           /\ action_phase (reported row status ev now) = PHASE_REPORTED
           /\ guard_row (reported row status ev now) st ph lease status ev = Ok OUTCOME_REPLAY
      else is_ok decision = false
  | PHASE_REPORTED =>
      if decide (pinned row ph lease st /\ status = a_status row /\ a_reported_evidence row = Some ev)
      then decision = Ok OUTCOME_REPLAY else is_ok decision = false
  end.
Proof.
  intros Hst. cbn zeta. pose proof (action_phase_spec row) as Hp.
  destruct (guard_row_cases row st ph lease status ev) as [H|[H|H]].
  - pose proof H as H'. apply guard_row_apply in H' as (Hpin & Hr & Hs & He).
    destruct (action_phase row); [|naive_solver|naive_solver].
    rewrite decide_True by done. split; [done|].
    assert (status <> A_INTENT) by naive_solver.
    split; [|by apply guard_row_replay].
    unfold action_phase, phase_from; cbn. rewrite Hr, decide_False by tauto. by rewrite decide_False.
  - pose proof H as H'. apply guard_row_replay in H' as (Hpin & Hr & Hs & He).
    destruct (action_phase row); [naive_solver| |naive_solver]. by rewrite decide_True.
  - assert (forall o, guard_row row st ph lease status ev <> Ok o) as Hno by (intros o E; by rewrite E in H).
    destruct (action_phase row); [..|done].
    + case_decide as D; [|done]. exfalso. apply (Hno OUTCOME_APPLY), guard_row_apply. naive_solver.
    + case_decide as D; [|done]. exfalso. apply (Hno OUTCOME_REPLAY), guard_row_replay. naive_solver.
Qed.

Definition sample_columns : action_identity_columns :=
  mkActionColumns "key" "tenant" "task" "device" (Some "device") (Some 0) "steps" "d" "d"
    "click-publish" "params".
Definition sample_action : MobileActionCommitRow :=
  mkAction sample_columns None "lease" A_INTENT "before" None 0 None None 10 10.

Lemma outcome_guard_decides_witness :
  guard_row sample_action B_RECONCILING "params" "lease" A_APPLIED "after" = Ok OUTCOME_APPLY
  /\ action_phase (reported sample_action A_APPLIED "after" 20) = PHASE_REPORTED
  /\ guard_row (reported sample_action A_APPLIED "after" 20) B_RECONCILING "params" "lease" A_APPLIED "after"
     = Ok OUTCOME_REPLAY.
Proof.
  exact (outcome_guard_decides sample_action B_RECONCILING "params" "lease" A_APPLIED "after" 20
           (or_introl eq_refl)).
Defined.
