(* ===== verification/FleetIdentity.v ===== *)
(** * fleet_identity.py: capabilities, executable gates, sessions, control sequence

    One definition per function of the module. The session queries work on
    the tables of [Rows]; the views that only build a response are left out,
    except [session_envelope]'s decision. *)

From stdpp Require Import base gmap strings list.
From Stdlib Require Import ZArith Lia Sorting.Sorted.
From S2P Require Import Prelude PyStd Domain Rows ControlledActions.

Open Scope Z_scope.

Definition CAPABILITY_KEYS : list string :=
  ["accessibility"; "ime"; "screen_capture"; "media_projection"; "flutter_anchors"; "im_listen"].

Definition EXECUTABLE_GATE_ORDER : list string :=
  ["transport"; "accessibility-enabled"; "accessibility-active"; "ime"; "screen-unlocked"; "engine>=min"].

Definition seconds (n : Z) : Z := n * 1000000.

Definition ONLINE_GRACE_SECONDS : Z := 90.

Definition device_online (last_seen_at : option Z) (now : Z) : bool :=
  match last_seen_at with
  | Some t => bool_decide (t > now - seconds ONLINE_GRACE_SECONDS)
  | None => false
  end.

(** ** Stable identity against dynamic envelope *)

Definition action_key (task_id recipe_sha256 action_id : string) : result error string :=
  let? (key, _) := action_identity task_id "fleet.v1" "fleet" 1 recipe_sha256 recipe_sha256 action_id in
  Ok key.

Definition parameter_hash (task_id command_type account_id : string) (binding_version : Z)
    (snapshot_sha256 recipe_sha256 : string) : result error string :=
  let? (_, parameters) :=
    action_identity task_id command_type account_id binding_version snapshot_sha256 recipe_sha256 "fleet" in
  Ok parameters.

Record authorization_envelope := mkEnvelope {
  env_controlEpoch : Z; env_fencingToken : Z; env_leaseExpiresAt : string;
  env_sessionId : string; env_bootId : option string;
}.

Definition build_authorization_envelope (control_epoch fencing_token : Z) (lease_expires_at session_id : string)
    (boot_id : option string) : authorization_envelope :=
  mkEnvelope control_epoch fencing_token lease_expires_at session_id boot_id.

(** ** Capability table *)

(** The [repr] of a list of keys without quotes or escapes. *)
Definition repr_keys (l : list string) : string :=
  "[" +:+ str_join ", " ((fun k => "'" +:+ k +:+ "'") <$> l) +:+ "]".

Definition unknown_keys (value : list (string * json)) : list string :=
  str_sorted (filter (fun k => k ∉ CAPABILITY_KEYS) (value.*1)).

Definition normalize_entry (key : string) (entry : option json) : result error capability :=
  match entry with
  | None | Some JNull => Ok (mkCapability false None)
  | Some (JObj o) =>
      match jget "supported" o with
      | Some (JBool supported) =>
          match jget "engineMin" o with
          | None | Some JNull => Ok (mkCapability supported None)
          | Some (JInt n) =>
              raise_if n < 1
                with ValidationError ("capability " +:+ key +:+ " engineMin must be a positive integer")
              in Ok (mkCapability supported (Some n))
          | Some _ =>
              Err (ValidationError ("capability " +:+ key +:+ " engineMin must be a positive integer"))
          end
      | _ => Err (ValidationError ("capability " +:+ key +:+ " requires a boolean 'supported'"))
      end
  | Some _ => Err (ValidationError ("capability " +:+ key +:+ " must be an object"))
  end.

Fixpoint normalize_keys (keys : list string) (value : list (string * json))
    : result error (list (string * capability)) :=
  match keys with
  | [] => Ok []
  | key :: keys' =>
      let? item := normalize_entry key (jget key value) in
      let? rest := normalize_keys keys' value in
      Ok ((key, item) :: rest)
  end.

Definition normalize_capabilities (value : option json)
    : result error (option (list (string * capability))) :=
  match value with
  | None | Some JNull => Ok None
  | Some (JObj o) =>
      raise_if unknown_keys o <> []
        with ValidationError ("unknown capability keys (closed set v1): " +:+ repr_keys (unknown_keys o)) in
      let? normalized := normalize_keys CAPABILITY_KEYS o in Ok (Some normalized)
  | Some _ => Err (ValidationError "capabilities must be an object keyed by capability name")
  end.

Definition cap_lookup (key : string) (caps : list (string * capability)) : option capability :=
  snd <$> List.find (fun kc => String.eqb kc.1 key) caps.

Definition max_list (l : list Z) : option Z :=
  match l with [] => None | x :: l' => Some (foldl Z.max x l') end.

Definition negotiated_engine_min (capabilities : option (list (string * capability))) : option Z :=
  match capabilities with
  | None | Some [] => None
  | Some caps =>
      max_list ((fun kc => default 1 (cap_engineMin kc.2)) <$> filter (fun kc => cap_supported kc.2 = true) caps)
  end.

(** ** Executable gates *)

Definition reported_gate (name : string) (value : option bool) : list (string * bool) :=
  match value with Some b => [(name, b)] | None => [] end.

Definition evaluated_gates (online : bool)
    (accessibility_enabled accessibility_active ime_ready screen_unlocked : option bool)
    (engine_version engine_min : option Z) : list (string * bool) :=
  [("transport", online)]
  ++ reported_gate "accessibility-enabled" accessibility_enabled
  ++ reported_gate "accessibility-active" accessibility_active
  ++ reported_gate "ime" ime_ready
  ++ reported_gate "screen-unlocked" screen_unlocked
  ++ match engine_version, engine_min with
     | Some v, Some m => [("engine>=min", bool_decide (v >= m))]
     | _, _ => []
     end.

Fixpoint position (x : string) (l : list string) : nat :=
  match l with [] => 0 | y :: l' => if String.eqb x y then 0 else S (position x l') end.

Definition gate_leb (x y : string) : bool :=
  Nat.leb (position x EXECUTABLE_GATE_ORDER) (position y EXECUTABLE_GATE_ORDER).

Definition evaluate_executable (online : bool)
    (accessibility_enabled accessibility_active ime_ready screen_unlocked : option bool)
    (engine_version engine_min : option Z) : bool * list string * list string :=
  let evaluated := evaluated_gates online accessibility_enabled accessibility_active ime_ready
                     screen_unlocked engine_version engine_min in
  (forallb snd evaluated,
   isort gate_leb ((filter (fun g => g.2 = true) evaluated).*1),
   isort gate_leb ((filter (fun g => g.2 = false) evaluated).*1)).

(** ** Required capabilities *)

Definition FLEET_REQUIRED_CAPABILITIES : list (string * list string) := [
  ("xianyu.publish_listing.v1", ["accessibility"; "ime"; "screen_capture"]);
  ("xianyu.publish_listing.steps.v1", ["accessibility"; "ime"; "screen_capture"]);
  ("xiaohongshu.publish_note.v1", ["accessibility"; "ime"; "screen_capture"]);
  ("xhs.publish_note.steps.v1", ["accessibility"; "ime"; "screen_capture"; "flutter_anchors"]);
  ("douyin.publish_note.steps.v1", ["accessibility"; "ime"; "screen_capture"]);
  ("xianyu.collect_orders.v1", ["accessibility"; "screen_capture"]);
  ("xianyu.collect_orders.steps.v1", ["accessibility"; "screen_capture"]);
  ("xianyu.collect_orders.steps.v2", ["accessibility"; "screen_capture"]);
  ("device.probe_capabilities.v1", ["accessibility"]);
  ("xianyu.polish.steps.v1", ["accessibility"; "screen_capture"]);
  ("xianyu.delist.steps.v1", ["accessibility"; "screen_capture"]);
  ("xianyu.delete_delisted.steps.v1", ["accessibility"; "screen_capture"]);
  ("xianyu.delist.steps.v2", ["accessibility"; "screen_capture"]);
  ("xianyu.delete_delisted.steps.v2", ["accessibility"; "screen_capture"])].

Definition LEGACY_STEPS_PACKAGE_CAPABILITIES : list (string * list string) := [
  ("com.taobao.idlefish", ["accessibility"; "ime"; "screen_capture"]);
  ("com.xingin.xhs", ["accessibility"; "ime"; "screen_capture"; "flutter_anchors"]);
  ("com.ss.android.ugc.aweme", ["accessibility"; "ime"; "screen_capture"])].

Fixpoint assoc {A} (k : string) (l : list (string * A)) : option A :=
  match l with [] => None | (k', v) :: l' => if String.eqb k' k then Some v else assoc k l' end.

Definition required_capability_keys (task : MobileTaskRow) : list string :=
  if truthy_str (t_command_type task)
  then default [] (assoc (default "" (t_command_type task)) FLEET_REQUIRED_CAPABILITIES)
  else default [] (assoc (t_target_package task) LEGACY_STEPS_PACKAGE_CAPABILITIES).

Definition supports (caps : list (string * capability)) (key : string) : bool :=
  match cap_lookup key caps with Some c => cap_supported c | None => false end.

Definition capability_shortfall (task : MobileTaskRow) (caps : list (string * capability)) : list string :=
  filter (fun key => supports caps key = false) (required_capability_keys task).

(** ** Account write mutex and open UNKNOWN actions *)

Definition READ_COMMAND_TYPES : list string :=
  ["xianyu.collect_orders.v1"; "xianyu.collect_orders.steps.v1"; "xianyu.collect_orders.steps.v2";
   "device.probe_capabilities.v1"].

Definition task_write_effect (task : MobileTaskRow) : bool :=
  if truthy_str (t_command_type task)
  then negb (bool_decide (default "" (t_command_type task) ∈ READ_COMMAND_TYPES))
  else true.

Definition account_write_conflict (d : db) (tenant_id account_id exclude_task_id : string) : option MobileTaskRow :=
  let rows := filter (fun row => t_tenant_id row = tenant_id /\ t_account_id row = Some account_id
                                 /\ task_active row) (tasks d) in
  List.find (fun row => negb (String.eqb (t_id row) exclude_task_id) && task_write_effect row) rows.

Definition open_unknown_actions (d : db) (tenant_id device_id : string) : list MobileActionCommitRow :=
  let task_ids := t_id <$> filter (fun t => t_tenant_id t = tenant_id /\ t_device_id t = device_id) (tasks d) in
  filter (fun a => a_tenant_id a = tenant_id /\ a_status a = A_UNKNOWN /\ a_resolved_at a = None
                   /\ a_task_id a ∈ task_ids) (actions d).

(** ** Session registry *)

(** [sess-] followed by 32 random hexadecimal digits, given as an argument. *)
Definition new_session_id (hex : string) : string := "sess-" +:+ hex.

Record session_profile := mkProfile {
  pr_boot_id : option string; pr_companion_version : option string; pr_capabilities : option json;
  pr_accessibility_enabled : option bool; pr_accessibility_active : option bool;
  pr_ime_ready : option bool; pr_screen_unlocked : option bool; pr_engine_version : option Z;
}.

Definition revoke_session (device_id : string) (now : Z) (s : FleetSessionRow) : FleetSessionRow :=
  if decide (fs_device_id s = device_id /\ fs_revoked_at s = None)
  then s <| fs_revoked_at := Some now |> else s.

Definition register_session_row (hex tenant_id device_id binding_id : string) (now : Z) (p : session_profile)
    (d : db) : result error (FleetSessionRow * db) :=
  let others := revoke_session device_id now <$> fleet_sessions d in
  let? capabilities := normalize_capabilities (pr_capabilities p) in
  let row := mkSession (new_session_id hex) tenant_id device_id binding_id (pr_boot_id p)
               (pr_companion_version p) (pr_engine_version p) capabilities
               (pr_accessibility_enabled p) (pr_accessibility_active p) (pr_ime_ready p)
               (pr_screen_unlocked p) (Some now) None now in
  Ok (row, d <| fleet_sessions := others ++ [row] |>).

(** [order_by(created_at.desc())]. *)
Definition newer_session (a b : FleetSessionRow) : bool := bool_decide (fs_created_at b <= fs_created_at a).

Definition active_session (d : db) (tenant_id binding_id : string) : option FleetSessionRow :=
  scalar (isort newer_session
    (filter (fun s => fs_tenant_id s = tenant_id /\ fs_binding_id s = binding_id /\ fs_revoked_at s = None)
       (fleet_sessions d))).

Definition session_envelope (row : option FleetSessionRow) (online : bool) : bool * list string * list string :=
  match row with
  | None => (online, if online then ["transport"] else [], if online then [] else ["transport"])
  | Some s =>
      evaluate_executable online (fs_accessibility_enabled s) (fs_accessibility_active s) (fs_ime_ready s)
        (fs_screen_unlocked s) (fs_engine_version s) (negotiated_engine_min (fs_capabilities s))
  end.

Definition lease_envelope_stale (recorded_session_id recorded_boot_id : option string)
    (current : option FleetSessionRow) : bool :=
  match recorded_session_id, recorded_boot_id with
  | None, None => false
  | _, _ =>
      match current with
      | None => true
      | Some c =>
          if decide (is_Some recorded_session_id /\ Some (fs_session_id c) <> recorded_session_id) then true
          else if decide (is_Some recorded_boot_id /\ is_Some (fs_boot_id c)
                          /\ fs_boot_id c <> recorded_boot_id) then true
          else false
      end
  end.

(** ** Device control sequence *)

Definition control_wire_type (k : ControlKind) : string :=
  match k with
  | K_CANCEL_REQUESTED => "CANCEL" | K_CANCELLED => "TERMINAL" | K_CANCEL_ACKED => "TERMINAL"
  | K_CANCEL_DEFERRED_RECONCILING => "CANCEL_DEFERRED_RECONCILING"
  | K_PAUSE_REQUESTED => "PAUSE_REQUESTED" | K_PAUSE_ACKED => "PAUSE_ACKED"
  | K_PAUSE_ACKED_RECONCILING => "PAUSE_ACKED_RECONCILING" | K_RESUMED => "RESUME"
  | K_MARKED_UNKNOWN => "MARKED_UNKNOWN" | K_RECONCILED_APPLIED => "TERMINAL"
  | K_RECONCILED_NOT_SUBMITTED => "TERMINAL" | K_RECONCILED_KEEP_WAITING => "RECONCILED_KEEP_WAITING"
  end.

Definition CONTROL_SEQ_TIE_WIDTH : Z := 1024.

Definition control_event_epoch_ms (issued_at : Z) : Z := issued_at / 1000.

Fixpoint compose_from (previous_ms : option Z) (rank : Z) (entries : list (Z * string * Z)) : list Z :=
  match entries with
  | [] => []
  | (issued_at, _, _) :: entries' =>
      let epoch_ms := control_event_epoch_ms issued_at in
      let rank := if decide (previous_ms = Some epoch_ms) then rank else 0 in
      (epoch_ms * CONTROL_SEQ_TIE_WIDTH + rank) :: compose_from (Some epoch_ms) (rank + 1) entries'
  end.

Definition compose_device_control_seqs (entries : list (Z * string * Z)) : list Z :=
  compose_from None 0 entries.

(** ** Executable gates: theorems *)

Definition gate_verdict (g : string) (evaluated : list (string * bool)) : option bool := assoc g evaluated.

Lemma forallb_app_split {A} (f : A -> bool) l l' : forallb f (l ++ l') = forallb f l && forallb f l'.
Proof. apply forallb_app. Qed.

Lemma reported_gate_passes name v : forallb snd (reported_gate name v) = true <-> v <> Some false.
Proof. destruct v as [[]|]; cbn; naive_solver. Qed.

(** A device is executable exactly when it is online and no gate it has
    reported is false (with both engine versions known, the engine is new
    enough); every evaluated gate is listed, in the frozen order, under its
    own verdict, and an unreported gate under neither. *)
Theorem evaluate_executable_exact online ae aa ime su ev em :
  let evaluated := evaluated_gates online ae aa ime su ev em in
  let '(executable, passed, failed) := evaluate_executable online ae aa ime su ev em in
  (executable = true <->
     online = true /\ ae <> Some false /\ aa <> Some false /\ ime <> Some false /\ su <> Some false
     /\ forall v m, ev = Some v -> em = Some m -> m <= v)
  /\ passed = filter (fun g => gate_verdict g evaluated = Some true) EXECUTABLE_GATE_ORDER
  /\ failed = filter (fun g => gate_verdict g evaluated = Some false) EXECUTABLE_GATE_ORDER.
Proof.
  cbn zeta. unfold evaluate_executable. split.
  - unfold evaluated_gates. rewrite !forallb_app, !andb_true_iff, !reported_gate_passes.
    assert (forallb snd [("transport", online)] = true <-> online = true) as ->
      by (cbn; rewrite andb_true_r; done).
    assert (forallb snd (match ev, em with Some v, Some m => [("engine>=min", bool_decide (v >= m))]
                         | _, _ => [] end) = true
            <-> forall v m, ev = Some v -> em = Some m -> m <= v) as ->; [|tauto].
    destruct ev as [v|], em as [m|]; cbn; [|by split..].
    rewrite andb_true_r, bool_decide_eq_true. split; [intros ???[= <-][= <-]; lia|].
    intros Hall. specialize (Hall v m eq_refl eq_refl). lia.
  - unfold evaluated_gates.
    destruct ev as [v|], em as [m|]; try (generalize (bool_decide (v >= m)); intros []);
      destruct online, ae as [[]|], aa as [[]|], ime as [[]|], su as [[]|]; split; reflexivity.
Qed.

(** ** Capability table: theorems *)

Lemma unknown_keys_nil o :
  unknown_keys o = [] -> forall k, k ∈ o.*1 -> k ∈ CAPABILITY_KEYS.
Proof.
  unfold unknown_keys, str_sorted. intros E k Hk.
  destruct (decide (k ∈ CAPABILITY_KEYS)) as [|Hn]; [done|exfalso].
  assert (k ∈ isort str_leb (filter (fun k => k ∉ CAPABILITY_KEYS) (o.*1))) as H.
  { apply elem_of_isort, list_elem_of_filter. done. }
  rewrite E in H. by apply elem_of_nil in H.
Qed.

Lemma normalize_keys_spec keys o caps :
  normalize_keys keys o = Ok caps ->
  caps.*1 = keys /\ forall k, k ∈ keys ->
    exists c, cap_lookup k caps = Some c /\ normalize_entry k (jget k o) = Ok c.
Proof.
  revert caps. induction keys as [|key keys IH]; intros caps H; cbn in H.
  - injection H as <-. split; [done|]. set_solver.
  - destruct (normalize_entry key _) as [c|] eqn:En; [|done].
    destruct (normalize_keys keys o) as [rest|]; [|done]. injection H as <-.
    destruct (IH rest eq_refl) as [<- Hk]. split; [done|].
    intros k. unfold cap_lookup. cbn. destruct (String.eqb_spec key k) as [->|Hne]; intros Hin.
    + exists c. done.
    + apply elem_of_cons in Hin as [->|Hin]; [done|]. by apply Hk.
Qed.

Lemma normalize_entry_supported key entry c :
  normalize_entry key entry = Ok c ->
  (cap_supported c = true <-> exists o, entry = Some (JObj o) /\ jget "supported" o = Some (JBool true))
  /\ (forall n, cap_engineMin c = Some n -> 1 <= n).
Proof.
  unfold normalize_entry. intros H. ok_inv H; cbn; (split; [|naive_solver lia]); naive_solver.
Qed.

(** C39. A negotiated capability table is closed and fails closed: its keys
    are the six of the contract, in order; a table with any other key is
    refused; a capability counts as supported exactly when the device
    reported an object whose [supported] is [true], and engine minima are
    positive. *)
Theorem normalize_capabilities_closed o caps :
  normalize_capabilities (Some (JObj o)) = Ok (Some caps) ->
  caps.*1 = CAPABILITY_KEYS
  /\ (forall k, k ∈ o.*1 -> k ∈ CAPABILITY_KEYS)
  /\ (forall k, supports caps k = true <->
        k ∈ CAPABILITY_KEYS
        /\ exists e, jget k o = Some (JObj e) /\ jget "supported" e = Some (JBool true))
  /\ (forall k c n, cap_lookup k caps = Some c -> cap_engineMin c = Some n -> 1 <= n).
Proof.
  unfold normalize_capabilities. intros H. case_decide as D; [done|].
  destruct (normalize_keys CAPABILITY_KEYS o) as [caps'|] eqn:E; [|done]. injection H as ->.
  destruct (normalize_keys_spec _ _ _ E) as [Hkeys Hk].
  assert (forall k c, cap_lookup k caps = Some c -> k ∈ CAPABILITY_KEYS) as Hin.
  { intros k c Hc. rewrite <- Hkeys. unfold cap_lookup in Hc.
    destruct (List.find _ caps) as [[k' c']|] eqn:Ef; [|done].
    apply List.find_some in Ef as [Ef Ek]. apply String.eqb_eq in Ek; cbn in Ek; subst.
    apply list_elem_of_fmap. exists (k, c'). split; [done|]. by apply list_elem_of_In. }
  split; [done|]. split; [by apply unknown_keys_nil|]. split.
  - intros k. unfold supports. split.
    + destruct (cap_lookup k caps) as [c|] eqn:Ec; [|done]. intros Hs.
      pose proof (Hin k c Ec) as Hki. split; [done|].
      destruct (Hk k Hki) as (c' & Ec' & En). rewrite Ec in Ec'. injection Ec' as <-.
      by apply (normalize_entry_supported _ _ _ En).
    + intros [Hki He]. destruct (Hk k Hki) as (c & -> & En).
      by apply (normalize_entry_supported _ _ _ En).
  - intros k c n Hc Hn. destruct (Hk k (Hin k c Hc)) as (c' & Ec' & En).
    rewrite Hc in Ec'. injection Ec' as <-. by apply (normalize_entry_supported _ _ _ En).
Qed.

Definition sample_report : list (string * json) :=
  [("ime", JObj [("supported", JBool true); ("engineMin", JInt 4)]);
   ("accessibility", JObj [("supported", JBool false)])].
Definition sample_table : list (string * capability) :=
  [("accessibility", mkCapability false None); ("ime", mkCapability true (Some 4));
   ("screen_capture", mkCapability false None); ("media_projection", mkCapability false None);
   ("flutter_anchors", mkCapability false None); ("im_listen", mkCapability false None)].

Lemma normalize_capabilities_closed_witness :
  normalize_capabilities (Some (JObj sample_report)) = Ok (Some sample_table)
  /\ sample_table.*1 = CAPABILITY_KEYS.
Proof.
  split; [reflexivity|].
  apply (normalize_capabilities_closed sample_report sample_table). reflexivity.
Defined.

(** ** Sessions: theorems *)

Lemma active_session_Some d tenant binding s :
  active_session d tenant binding = Some s ->
  s ∈ fleet_sessions d /\ fs_tenant_id s = tenant /\ fs_binding_id s = binding /\ fs_revoked_at s = None.
Proof.
  unfold active_session. intros Hs%scalar_Some. apply elem_of_isort, list_elem_of_filter in Hs. naive_solver.
Qed.

(** Registering a Companion process supersedes every earlier one of the
    device: the new row becomes the binding's active session, every other
    row of the device is revoked (none is deleted), and a lease stamped with
    an earlier session, or with another boot when the new one reports its
    boot, is stale from then on. *)
Theorem register_session_supersedes hex tenant device binding now p d row d' :
  (forall s, s ∈ fleet_sessions d -> fs_binding_id s = binding -> fs_device_id s = device) ->
  register_session_row hex tenant device binding now p d = Ok (row, d') ->
  active_session d' tenant binding = Some row
  /\ (forall s, s ∈ fleet_sessions d' -> fs_device_id s = device -> s = row \/ is_Some (fs_revoked_at s))
  /\ length (fleet_sessions d') = S (length (fleet_sessions d))
  /\ (forall old boot, old <> new_session_id hex ->
        lease_envelope_stale (Some old) boot (active_session d' tenant binding) = true)
  /\ (forall boot new_boot, pr_boot_id p = Some new_boot -> boot <> new_boot ->
        lease_envelope_stale (Some (new_session_id hex)) (Some boot) (active_session d' tenant binding) = true).
Proof.
  unfold register_session_row. intros Hdev H.
  destruct (normalize_capabilities (pr_capabilities p)) as [caps|]; [|done].
  injection H as <- <-. set (row := mkSession _ _ _ _ _ _ _ _ _ _ _ _ _ _ _).
  assert (forall s, s ∈ revoke_session device now <$> fleet_sessions d ->
    fs_device_id s = device -> is_Some (fs_revoked_at s)) as Hrev.
  { intros s (s0 & -> & Hs0)%list_elem_of_fmap_1. unfold revoke_session. case_decide as D; cbn; [done|].
    intros E. destruct (fs_revoked_at s0) eqn:Er; [done|]. exfalso; apply D. done. }
  assert (forall s, s ∈ revoke_session device now <$> fleet_sessions d ->
    fs_binding_id s = binding -> fs_device_id s = device) as Hdev'.
  { intros s (s0 & -> & Hs0)%list_elem_of_fmap_1. unfold revoke_session. case_decide; cbn; auto. }
  assert (active_session (d <| fleet_sessions := (revoke_session device now <$> fleet_sessions d) ++ [row] |>)
            tenant binding = Some row) as Hact.
  { unfold active_session; cbn. rewrite filter_app.
    assert (filter (fun s => fs_tenant_id s = tenant /\ fs_binding_id s = binding /\ fs_revoked_at s = None)
              (revoke_session device now <$> fleet_sessions d) = []) as ->.
    { apply filter_none. intros s Hs (_ & Hb & Hr).
      destruct (Hrev s Hs (Hdev' s Hs Hb)) as [t Ht]. congruence. }
    rewrite filter_cons_True by done. reflexivity. }
  rewrite Hact. split; [done|]. split; [|split; [|split]].
  - intros s [Hs|Hs]%elem_of_app; [right; auto|left]. by apply list_elem_of_singleton in Hs.
  - cbn. rewrite length_app, length_map. cbn. lia.
  - intros old boot Hold. unfold lease_envelope_stale. rewrite decide_True; [done|].
    split; [done|]. cbn. congruence.
  - intros boot nb Hp Hb. unfold lease_envelope_stale. case_decide; [done|].
    rewrite decide_True; [done|]. subst row; cbn. rewrite Hp. split; [done|]. split; [done|congruence].
Qed.

Definition empty_db : db := mkDb ∅ ∅ ∅ [] ∅ [] [] [] [] [] [] [] [] [].
Definition empty_profile : session_profile := mkProfile (Some "boot-2") None None None None None None None.
Definition old_session : FleetSessionRow :=
  mkSession "sess-old" "tenant" "device" "binding" (Some "boot-1") None None None None None None None None None 5.

Lemma register_session_supersedes_witness :
  exists row d',
    register_session_row "new" "tenant" "device" "binding" 9 empty_profile
      (empty_db <| fleet_sessions := [old_session] |>) = Ok (row, d')
    /\ active_session d' "tenant" "binding" = Some row.
Proof.
  eexists _, _. split; [reflexivity|].
  eapply (register_session_supersedes "new" "tenant" "device" "binding" 9 empty_profile
            (empty_db <| fleet_sessions := [old_session] |>)); [|reflexivity].
  intros s Hs _. apply list_elem_of_singleton in Hs as ->. reflexivity.
Defined.

(** ** Device control sequence: theorems *)

Definition entry_ms (e : Z * string * Z) : Z := control_event_epoch_ms e.1.1.

(** How many events share a millisecond. *)
Definition ms_count (ms : Z) (entries : list (Z * string * Z)) : Z :=
  Z.of_nat (length (filter (fun e => entry_ms e = ms) entries)).

Definition times_sorted (entries : list (Z * string * Z)) : Prop :=
  StronglySorted (fun a b => a.1.1 <= b.1.1) entries.

Lemma entry_ms_mono (a b : Z * string * Z) : a.1.1 <= b.1.1 -> entry_ms a <= entry_ms b.
Proof. intros H. unfold entry_ms, control_event_epoch_ms. by apply Z.div_le_mono. Qed.

Lemma ms_count_cons ms e l :
  ms_count ms (e :: l) = (if decide (entry_ms e = ms) then 1 else 0) + ms_count ms l.
Proof. unfold ms_count. rewrite filter_cons. case_decide; cbn [length]; lia. Qed.

Lemma ms_count_nonneg ms l : 0 <= ms_count ms l.
Proof. unfold ms_count. lia. Qed.

Lemma compose_from_bounds entries previous rank :
  times_sorted entries ->
  (forall ms, ms_count ms entries <= CONTROL_SEQ_TIE_WIDTH) ->
  0 <= rank ->
  (forall p, previous = Some p -> rank + ms_count p entries <= CONTROL_SEQ_TIE_WIDTH
     /\ Forall (fun e => p <= entry_ms e) entries) ->
  StronglySorted Z.lt (compose_from previous rank entries)
  /\ Forall (fun s => forall p, previous = Some p -> p * CONTROL_SEQ_TIE_WIDTH + rank <= s)
       (compose_from previous rank entries)
  /\ Forall2 (fun e s => s / CONTROL_SEQ_TIE_WIDTH = entry_ms e) entries (compose_from previous rank entries).
Proof.
  intros Hs. revert previous rank.
  induction Hs as [|[[t k] r] l Hl IH Ht]; intros previous rank Hc Hr Hp; cbn; [by repeat constructor|].
  set (ms := control_event_epoch_ms t) in *.
  set (rank' := if decide (previous = Some ms) then rank else 0).
  assert (0 <= rank') by (unfold rank'; case_decide; lia).
  assert (Hms : forall m, ms_count m l <= CONTROL_SEQ_TIE_WIDTH).
  { intros m. specialize (Hc m). rewrite ms_count_cons in Hc. case_decide; lia. }
  assert (Hcur : rank' + 1 + ms_count ms l <= CONTROL_SEQ_TIE_WIDTH).
  { unfold rank'. case_decide as D.
    - destruct (Hp ms D) as [Hp1 _]. rewrite ms_count_cons, decide_True in Hp1 by done. lia.
    - specialize (Hc ms). rewrite ms_count_cons, decide_True in Hc by done. lia. }
  destruct (IH (Some ms) (rank' + 1)) as (IS & IB & IF); [done|lia| |].
  { intros p [= <-]. split; [lia|]. eapply Forall_impl; [exact Ht|].
    intros e He. by apply (entry_ms_mono (t, k, r)). }
  pose proof (ms_count_nonneg ms l). unfold CONTROL_SEQ_TIE_WIDTH in *. split; [|split].
  - constructor; [done|]. eapply Forall_impl; [exact IB|]. intros s Hsq.
    specialize (Hsq ms eq_refl). lia.
  - assert (forall p, previous = Some p -> p * 1024 + rank <= ms * 1024 + rank') as Hhead.
    { intros p Hprev. destruct (Hp p Hprev) as [Hp1 Hp2]. inversion Hp2 as [|?? Hle _]; subst.
      change (entry_ms (t, k, r)) with ms in Hle. unfold rank'. case_decide as D; [injection D; lia|].
      pose proof (ms_count_nonneg p ((t, k, r) :: l)). assert (p <> ms) by congruence. lia. }
    constructor; [done|]. eapply Forall_impl; [exact IB|]. intros s Hsq p Hprev.
    specialize (Hsq ms eq_refl). specialize (Hhead p Hprev). lia.
  - constructor; [|done]. rewrite Z.div_add_l by lia.
    rewrite (Z.div_small rank') by lia. unfold entry_ms, ms. cbn. lia.
Qed.

(** While no millisecond carries more than 1024 control events of a
    device, the composed sequence numbers are strictly increasing (hence
    unique) in the order of the events, and each one carries the millisecond
    of its event. *)
Theorem compose_device_control_seqs_monotone entries :
  times_sorted entries ->
  (forall ms, ms_count ms entries <= CONTROL_SEQ_TIE_WIDTH) ->
  StronglySorted Z.lt (compose_device_control_seqs entries)
  /\ Forall2 (fun e s => s / CONTROL_SEQ_TIE_WIDTH = entry_ms e) entries (compose_device_control_seqs entries).
Proof.
  intros Hs Hc. destruct (compose_from_bounds entries None 0) as (H1 & _ & H2); auto; done.
Qed.

Lemma compose_device_control_seqs_monotone_witness :
  compose_device_control_seqs [(1000, "a", 1); (1500, "a", 2); (2000, "b", 1)] = [1024; 1025; 2048]
  /\ StronglySorted Z.lt (compose_device_control_seqs [(1000, "a", 1); (1500, "a", 2); (2000, "b", 1)]).
Proof.
  split; [reflexivity|].
  apply (compose_device_control_seqs_monotone [(1000, "a", 1); (1500, "a", 2); (2000, "b", 1)]).
  - repeat constructor; cbn; lia.
  - intros ms. unfold ms_count, CONTROL_SEQ_TIE_WIDTH.
    etransitivity; [apply inj_le, length_filter|cbn; lia].
Defined.

(** A later event of the same millisecond and a smaller task identifier takes
    the number already given to an earlier one, which moves up: a client that
    has applied number 1024 never sees event [a]. *)
Lemma compose_seq_reused :
  compose_device_control_seqs [(1000, "b", 1)] = [1024]
  /\ compose_device_control_seqs [(1000, "a", 1); (1000, "b", 1)] = [1024; 1025].
Proof. split; reflexivity. Qed.
