(* ===== verification/FrozenShapes.v ===== *)
(** * Frozen step shapes of [mobile_actions.py]

    The shapes a steps task must match at creation, the identity of its one
    ledger-gated action, and the theorems that say what an accepted list of
    steps can do. A checker returns the first violation, [None] on a match. *)

From stdpp Require Import base gmap strings list.
From Stdlib Require Import ZArith Lia.
From S2P Require Import Prelude PyStd Domain Rows ControlledActions.

Open Scope Z_scope.

Definition XIANYU_PACKAGE : string := "com.taobao.idlefish".
Definition XHS_PACKAGE : string := "com.xingin.xhs".
Definition DOUYIN_PACKAGE : string := "com.ss.android.ugc.aweme".
Definition COMPANION_PACKAGE : string := "com.company.cloudctl.companion".

(** ** Values read from a step *)

(** A Python number, booleans included. *)
Definition scalar_num (v : scalar_value) : option Z :=
  match v with SInt n => Some n | SBool b => Some (if b then 1 else 0) | SStr _ => None end.

(** [a == b] on step values. *)
Definition scalar_eqb (a b : option scalar_value) : bool :=
  match a, b with
  | None, None => true
  | Some x, Some y =>
      match scalar_num x, scalar_num y with
      | Some m, Some n => Z.eqb m n
      | None, None => bool_decide (x = y)
      | _, _ => false
      end
  | _, _ => false
  end.

Definition sget_str (k : string) (s : step) : option string :=
  match sget k s with Some (SStr v) => Some v | _ => None end.

(** An integer that is not a boolean. *)
Definition sget_int (k : string) (s : step) : option Z :=
  match sget k s with Some (SInt n) => Some n | _ => None end.

(** [str(step.get(k))]. *)
Definition sget_text (k : string) (s : step) : string :=
  match sget k s with
  | None => "None"
  | Some (SStr v) => v
  | Some (SInt n) => py_str_int n
  | Some (SBool b) => if b then "True" else "False"
  end.

Definition has_action (a : string) (s : step) : bool := step_is "action" a s.
Definition with_action (a : string) (steps : list step) : list step :=
  filter (fun s => has_action a s = true) steps.

Definition is_tap (ref : string) (s : step) : bool := has_action "ui.tap" s && step_is "locatorRef" ref s.

Fixpoint first_error {A} (f : A -> option string) (l : list A) : option string :=
  match l with
  | [] => None
  | x :: l' => match f x with Some e => Some e | None => first_error f l' end
  end.

(** Checks in sequence: the first violation is returned. *)
Definition and_then (a b : option string) : option string :=
  match a with Some e => Some e | None => b end.
Definition reject (c : bool) (message : string) : option string := if c then Some message else None.

Fixpoint positions_from (n : nat) (p : step -> bool) (steps : list step) : list nat :=
  match steps with
  | [] => []
  | s :: l => if p s then n :: positions_from (S n) p l else positions_from (S n) p l
  end.
Definition positions (p : step -> bool) (steps : list step) : list nat := positions_from 0 p steps.

Definition step_index (steps : list step) (p : step -> bool) : option nat := head (positions p steps).

Definition is_layout (layout : string) (s : step) : bool :=
  has_action "ui.tapLayout" s && step_is "layoutAction" layout s.
Definition layout_index (steps : list step) (layout : string) : option nat := step_index steps (is_layout layout).

(** ** Publish shapes *)

Record publish_shape := mkPublishShape {
  ps_command_type : string; ps_publish_button : string; ps_postcondition : string; ps_content_input : string;
}.

Definition STEPS_SHAPES (package : string) : option publish_shape :=
  if String.eqb package XIANYU_PACKAGE then
    Some (mkPublishShape "xianyu.publish_listing.steps.v1" "xianyu_publish_button"
            "xianyu_publish_success" "xianyu_description")
  else if String.eqb package XHS_PACKAGE then
    Some (mkPublishShape "xhs.publish_note.steps.v1" "xhs_publish_button" "xhs_publish_success" "xhs_note_body")
  else if String.eqb package DOUYIN_PACKAGE then
    Some (mkPublishShape "douyin.publish_note.steps.v1" "dy_publish_button" "dy_publish_success" "dy_note_body")
  else None.

Definition STEPS_ACTION_ID : string := "click-publish".

Definition publish_shape_matches (shape : publish_shape) (steps : list step) : bool :=
  Nat.eqb (length (filter (fun s => is_tap (ps_publish_button shape) s = true) steps)) 1
  && existsb (step_is "locatorRef" (ps_postcondition shape)) steps
  && existsb (fun s => has_action "ui.input" s && step_is "locatorRef" (ps_content_input shape) s) steps.

(** ** Maintenance shapes, first generation *)

Record layout_rule := mkLayoutRule { lr_count : nat; lr_tab : string; lr_max_card : Z }.

Inductive screenshot_rule : Type :=
| BetweenLayouts (low high : string)
| AfterLayout (layout : string)
| AfterBadge.

Record maintenance_shape := mkMaintenance {
  ms_package : string; ms_action : string; ms_action_id : option string;
  ms_navigation : list string; ms_layout_taps : list (string * layout_rule);
  ms_gated_layout : option string; ms_badge : option (string * Z);
  ms_screenshot_rules : list screenshot_rule; ms_log_code : string;
}.

Definition XIANYU_MAINTENANCE_SHAPES : list (string * maintenance_shape) := [
  ("xianyu.polish.steps.v1",
   {| ms_package := XIANYU_PACKAGE; ms_action := "polish"; ms_action_id := None;
      ms_navigation := ["xianyu_profile_tab"; "xianyu_my_published"];
      ms_layout_taps := [("polish_all", mkLayoutRule 1 "onsale" 0)];
      ms_gated_layout := None; ms_badge := None;
      ms_screenshot_rules := [AfterLayout "polish_all"]; ms_log_code := "XIANYU_POLISH_DONE" |});
  ("xianyu.delist.steps.v1",
   {| ms_package := XIANYU_PACKAGE; ms_action := "delist"; ms_action_id := Some "confirm-delist";
      ms_navigation := ["xianyu_profile_tab"; "xianyu_my_published"];
      ms_layout_taps := [("more", mkLayoutRule 1 "onsale" 0);
                         ("delist_menu_item", mkLayoutRule 1 "onsale" 0);
                         ("confirm_delist", mkLayoutRule 1 "onsale" 0)];
      ms_gated_layout := Some "confirm_delist"; ms_badge := Some ("xianyu_pub_tab_onsale", -1);
      ms_screenshot_rules := [BetweenLayouts "more" "delist_menu_item";
                              BetweenLayouts "delist_menu_item" "confirm_delist"; AfterBadge];
      ms_log_code := "XIANYU_DELIST_DONE" |});
  ("xianyu.delete_delisted.steps.v1",
   {| ms_package := XIANYU_PACKAGE; ms_action := "delete"; ms_action_id := Some "confirm-delete";
      ms_navigation := ["xianyu_profile_tab"; "xianyu_my_published"; "xianyu_pub_tab_delisted"];
      ms_layout_taps := [("delete_card", mkLayoutRule 1 "delisted" 2);
                         ("confirm_delete", mkLayoutRule 1 "delisted" 0)];
      ms_gated_layout := Some "confirm_delete"; ms_badge := None;
      ms_screenshot_rules := [BetweenLayouts "delete_card" "confirm_delete"; AfterBadge];
      ms_log_code := "XIANYU_DELETE_DELISTED_DONE" |})].

Definition maintenance_command (shape : maintenance_shape) : string :=
  ms_action shape +:+ " (" +:+ ms_package shape +:+ ")".

Definition check_navigation (command : string) (steps : list step) (ref : string) : option string :=
  reject (negb (Nat.eqb (length (filter (fun s => is_tap ref s = true) steps)) 1))
    (command +:+ ": navigation tap " +:+ ref +:+ " must appear exactly once").

Definition listed (x : option string) (l : list string) : bool :=
  match x with Some v => bool_decide (v ∈ l) | None => false end.

Definition check_tap (command : string) (navigation : list string) (s : step) : option string :=
  reject (negb (listed (sget_str "locatorRef" s) navigation))
    (command +:+ ": ui.tap to " +:+ sget_text "locatorRef" s +:+ " is not part of the shape").

Definition check_layout_hit (command layout : string) (rule : layout_rule) (hit : step) : option string :=
  and_then
    (reject (negb (step_is "tab" (lr_tab rule) hit))
       (command +:+ ": tapLayout(" +:+ layout +:+ ") requires tab " +:+ lr_tab rule))
    (reject (match sget "cardIndex" hit ≫= scalar_num with
             | Some card => negb (bool_decide (0 <= card <= lr_max_card rule))
             | None => true
             end)
       (command +:+ ": tapLayout(" +:+ layout +:+ ") cardIndex must be 0.." +:+ py_str_int (lr_max_card rule))).

Definition check_layout_rule (command : string) (steps : list step) (lr : string * layout_rule) : option string :=
  let '(layout, rule) := lr in
  let hits := filter (fun s => is_layout layout s = true) steps in
  and_then
    (reject (negb (Nat.eqb (length hits) (lr_count rule)))
       (command +:+ ": tapLayout(" +:+ layout +:+ ") must appear exactly "
        +:+ py_str_int (Z.of_nat (lr_count rule)) +:+ " time(s)"))
    (first_error (check_layout_hit command layout rule) hits).

Definition check_layout_listed (command : string) (layouts : list string) (s : step) : option string :=
  reject (negb (listed (sget_str "layoutAction" s) layouts))
    (command +:+ ": tapLayout(" +:+ sget_text "layoutAction" s +:+ ") is not part of the shape").

Definition check_badge (command : string) (steps : list step) (badge : option (string * Z)) : option string :=
  match badge, with_action "ui.assertBadge" steps with
  | None, [] => None
  | None, _ => Some (command +:+ ": badge assertions are not part of this shape")
  | Some (locator, delta), [b] =>
      reject (negb (step_is "locatorRef" locator b && scalar_eqb (sget "expectedDelta" b) (Some (SInt delta))))
        (command +:+ ": badge assertion must verify " +:+ locator +:+ " delta " +:+ py_str_int delta)
  | Some _, _ => Some (command +:+ ": exactly one ui.assertBadge step is required")
  end.

(** [next(...)] on an exhausted generator raises. *)
Definition with_index (o : option nat) (k : nat -> option string) : option string :=
  match o with Some n => k n | None => Some "StopIteration" end.

Definition check_navigation_first (command : string) (navigation : list string) (steps : list step) : option string :=
  match step_index steps (has_action "ui.tapLayout") with
  | None => None
  | Some first_layout =>
      first_error (fun ref => with_index (step_index steps (is_tap ref)) (fun n =>
        reject (Nat.ltb first_layout n)
          (command +:+ ": navigation must complete before the first layout tap"))) navigation
  end.

Definition check_badge_after (command : string) (steps : list step) (gated : option string)
    (badge : option (string * Z)) : option string :=
  match gated, badge with
  | Some layout, Some _ =>
      with_index (layout_index steps layout) (fun gated_index =>
      with_index (step_index steps (has_action "ui.assertBadge")) (fun badge_index =>
        reject (Nat.ltb badge_index gated_index)
          (command +:+ ": badge assertion must follow the gated confirm tap")))
  | _, _ => None
  end.

Definition check_screenshot (command : string) (steps : list step) (gated : option string)
    (rule : screenshot_rule) : option string :=
  let shots := positions (has_action "ui.screenshot") steps in
  match rule with
  | BetweenLayouts l h =>
      with_index (layout_index steps l) (fun low =>
      with_index (layout_index steps h) (fun high =>
        reject (negb (existsb (fun shot => Nat.ltb low shot && Nat.ltb shot high) shots))
          (command +:+ ": a screenshot is required between " +:+ l +:+ " and " +:+ h)))
  | AfterLayout l =>
      with_index (layout_index steps l) (fun low =>
        reject (negb (existsb (fun shot => Nat.ltb low shot) shots))
          (command +:+ ": a screenshot is required after " +:+ l))
  | AfterBadge =>
      let after anchor :=
        reject (negb (existsb (fun shot => Nat.ltb anchor shot) shots))
          (command +:+ ": a screenshot is required after the verification anchor") in
      match positions (has_action "ui.assertBadge") steps with
      | anchor :: _ => after anchor
      | [] =>
          match gated with
          | Some layout => with_index (layout_index steps layout) after
          | None => Some (command +:+ ": a gated layout is required for the verification anchor")
          end
      end
  end.

Definition is_log (code : string) (s : step) : bool := has_action "run.log" s && step_is "messageCode" code s.

Definition maintenance_shape_error (shape : maintenance_shape) (steps : list step) : option string :=
  let command := maintenance_command shape in
  let layouts := (ms_layout_taps shape).*1 in
  and_then (first_error (check_navigation command steps) (ms_navigation shape))
  (and_then (first_error (check_tap command (ms_navigation shape)) (with_action "ui.tap" steps))
  (and_then (first_error (check_layout_rule command steps) (ms_layout_taps shape))
  (and_then (first_error (check_layout_listed command layouts) (with_action "ui.tapLayout" steps))
  (and_then (check_badge command steps (ms_badge shape))
  (and_then (check_navigation_first command (ms_navigation shape) steps)
  (and_then (check_badge_after command steps (ms_gated_layout shape) (ms_badge shape))
  (and_then (first_error (check_screenshot command steps (ms_gated_layout shape)) (ms_screenshot_rules shape))
  (reject (negb (existsb (is_log (ms_log_code shape)) steps))
     (command +:+ ": closing run.log " +:+ ms_log_code shape +:+ " is required"))))))))).

(** ** Maintenance shapes, second generation: one exact sequence *)

Inductive gated_step : Type :=
| GatedLayout (layoutAction tab : string)
| GatedTap (stepId locatorRef : string).

Record maintenance_v2_shape := mkMaintenanceV2 {
  m2_package : string; m2_action : string; m2_action_id : string; m2_navigation : list string;
  m2_card_tab : string; m2_manage_taps : string * string; m2_gated_step : gated_step; m2_log_code : string;
}.

Definition XIANYU_MAINTENANCE_V2_SHAPES : list (string * maintenance_v2_shape) := [
  ("xianyu.delist.steps.v2",
   {| m2_package := XIANYU_PACKAGE; m2_action := "delist"; m2_action_id := "confirm-delist";
      m2_navigation := ["xianyu_profile_tab"; "xianyu_my_published"]; m2_card_tab := "onsale";
      m2_manage_taps := ("xianyu_detail_manage", "xianyu_manage_delist");
      m2_gated_step := GatedLayout "confirm_delist" "onsale"; m2_log_code := "XIANYU_DELIST_DONE" |});
  ("xianyu.delete_delisted.steps.v2",
   {| m2_package := XIANYU_PACKAGE; m2_action := "delete"; m2_action_id := "confirm-delete";
      m2_navigation := ["xianyu_profile_tab"; "xianyu_my_published"; "xianyu_pub_tab_delisted"];
      m2_card_tab := "delisted";
      m2_manage_taps := ("xianyu_detail_manage", "xianyu_manage_delete");
      m2_gated_step := GatedTap "confirm-delete" "xianyu_delete_confirm";
      m2_log_code := "XIANYU_DELETE_DELISTED_DONE" |})].

Inductive v2_rule : Type :=
| RTap (locatorRef : string) (stepId : option string)
| RCard (tab : string)
| RShot
| RLayout (layoutAction tab : string)
| RLog (messageCode : string).

Definition v2_expected (shape : maintenance_v2_shape) : list v2_rule :=
  ((fun ref => RTap ref None) <$> m2_navigation shape)
  ++ [RCard (m2_card_tab shape); RTap (m2_manage_taps shape).1 None; RShot;
      RTap (m2_manage_taps shape).2 None; RShot;
      match m2_gated_step shape with
      | GatedLayout l t => RLayout l t
      | GatedTap i r => RTap r (Some i)
      end;
      RShot; RLog (m2_log_code shape)].

Definition check_v2_rule (command : string) (position : nat) (s : step) (rule : v2_rule) : option string :=
  let at_step := command +:+ ": step " +:+ py_str_int (Z.of_nat position) in
  match rule with
  | RTap ref id =>
      and_then (reject (negb (is_tap ref s)) (at_step +:+ " must be ui.tap on " +:+ ref))
        match id with
        | Some i => reject (negb (step_is "stepId" i s)) (command +:+ ": gated tap must keep stepId " +:+ i)
        | None => None
        end
  | RCard tab =>
      and_then (reject (negb (has_action "ui.tapCardByTitle" s)) (at_step +:+ " must be the ui.tapCardByTitle step"))
      (and_then (reject (negb (step_is "tab" tab s)) (command +:+ ": ui.tapCardByTitle requires tab " +:+ tab))
        (reject (match sget_str "titleContains" s with
                 | Some title => negb (bool_decide (1 <= str_len title <= 64))
                 | None => true
                 end)
           (command +:+ ": ui.tapCardByTitle titleContains must be 1..64 characters")))
  | RShot => reject (negb (has_action "ui.screenshot" s)) (at_step +:+ " must be the evidence ui.screenshot")
  | RLayout layout tab =>
      and_then (reject (negb (is_layout layout s)) (at_step +:+ " must be the gated tapLayout " +:+ layout))
        (reject (negb (step_is "tab" tab s && scalar_eqb (sget "cardIndex" s) (Some (SInt 0))))
           (command +:+ ": gated confirm requires tab " +:+ tab +:+ " and cardIndex 0"))
  | RLog code => reject (negb (is_log code s)) (command +:+ ": closing run.log " +:+ code +:+ " is required")
  end.

Fixpoint check_v2_rules (command : string) (position : nat) (steps : list step) (rules : list v2_rule)
    : option string :=
  match steps, rules with
  | s :: steps', r :: rules' =>
      and_then (check_v2_rule command position s r) (check_v2_rules command (S position) steps' rules')
  | _, _ => None
  end.

Definition maintenance_v2_shape_error (shape : maintenance_v2_shape) (steps : list step) : option string :=
  let command := m2_action shape +:+ " v2 (" +:+ m2_package shape +:+ ")" in
  let expected := v2_expected shape in
  and_then
    (reject (negb (Nat.eqb (length steps) (length expected)))
       (command +:+ ": steps must be exactly navigation taps -> one ui.tapCardByTitle -> "
        +:+ "ui.tap(detail manage) -> screenshot -> ui.tap(menu action) -> screenshot -> "
        +:+ "the gated confirm step -> screenshot -> closing run.log"))
    (check_v2_rules command 0 steps expected).

Definition MAINTENANCE_COMMAND_TYPES : list string :=
  (XIANYU_MAINTENANCE_SHAPES.*1) ++ (XIANYU_MAINTENANCE_V2_SHAPES.*1).

Definition MAINTENANCE_STEP_ACTIONS : list string := ["ui.tapLayout"; "ui.assertBadge"; "ui.tapCardByTitle"].

Definition uses_actions (actions : list string) (steps : list step) : bool :=
  existsb (fun s => existsb (fun a => has_action a s) actions) steps.
Definition uses_maintenance_step_actions : list step -> bool := uses_actions MAINTENANCE_STEP_ACTIONS.

Definition is_none {A} (o : option A) : bool := match o with None => true | Some _ => false end.

Definition maintenance_matches (package : string) (steps : list step) : list string :=
  (filter (fun cs => (String.eqb (ms_package cs.2) package
                      && is_none (maintenance_shape_error cs.2 steps)) = true) XIANYU_MAINTENANCE_SHAPES).*1
  ++ (filter (fun cs => (String.eqb (m2_package cs.2) package
                         && is_none (maintenance_v2_shape_error cs.2 steps)) = true) XIANYU_MAINTENANCE_V2_SHAPES).*1.

Definition validate_maintenance_steps (package : string) (steps : list step) : result error string :=
  raise_if uses_maintenance_step_actions steps = false
    with ValidationError "maintenance step actions are required for this validation" in
  match maintenance_matches package steps with
  | [command] => Ok command
  | _ => Err (ValidationError
      ("xianyu maintenance steps must match exactly one frozen command shape "
       +:+ "(one gated confirm tap, post-badge assertion, required screenshots)"))
  end.

(** ** Order collection *)

Definition ORDERS_COMMAND_TYPE : string := "xianyu.collect_orders.steps.v1".
Definition ORDERS_COMMAND_TYPE_V2 : string := "xianyu.collect_orders.steps.v2".
Definition ORDERS_STEP_ACTIONS : list string := ["ui.readOrders"; "ui.swipeUp"].
Definition ORDERS_READ_LOCATOR : string := "xianyu_orders_container".
Definition ORDERS_PROFILE_NAV : string := "xianyu_profile_tab".
Definition ORDERS_LOG_CODE : string := "XIANYU_COLLECT_ORDERS_DONE".
Definition ORDERS_MAX_SCREENS : nat := 3.

Definition ORDERS_ENTRY_LOCATORS (direction : option string) : option string :=
  match direction with
  | Some d => if String.eqb d "SOLD" then Some "xianyu_order_list_sold"
              else if String.eqb d "BOUGHT" then Some "xianyu_order_list_bought" else None
  | None => None
  end.

Definition uses_orders_step_actions : list step -> bool := uses_actions ORDERS_STEP_ACTIONS.

(** One expected (action, locator) pair per step, in order. *)
Fixpoint check_sequence (command : string) (steps : list step) (expected : list (string * option string))
    : option string :=
  match steps, expected with
  | s :: steps', (action, locator) :: expected' =>
      and_then (reject (negb (has_action action s))
                  (command +:+ ": step " +:+ sget_text "stepId" s +:+ " must use action " +:+ action))
      (and_then (match locator with
                 | Some l => reject (negb (step_is "locatorRef" l s))
                     (command +:+ ": step " +:+ sget_text "stepId" s +:+ " must target " +:+ l)
                 | None => None
                 end)
        (check_sequence command steps' expected'))
  | _, _ => None
  end.

Definition check_closing_log (command code : string) (steps : list step) : option string :=
  reject (match last steps with Some s => negb (step_is "messageCode" code s) | None => true end)
    (command +:+ ": closing run.log " +:+ code +:+ " is required").

Definition int_between (lo hi : Z) (o : option Z) : bool :=
  match o with Some n => bool_decide (lo <= n <= hi) | None => false end.

Definition orders_shape_error (steps : list step) : option string :=
  let command := ORDERS_COMMAND_TYPE in
  match with_action "ui.readOrders" steps with
  | [read] =>
      match ORDERS_ENTRY_LOCATORS (sget_str "direction" read) with
      | None => Some (command +:+ ": ui.readOrders direction must be SOLD or BOUGHT")
      | Some entry =>
          let expected := [("ui.tap", Some ORDERS_PROFILE_NAV); ("ui.tap", Some entry);
                           ("ui.readOrders", None); ("ui.screenshot", None); ("run.log", None)] in
          and_then (reject (negb (int_between 1 10 (sget_int "maxRows" read)))
                      (command +:+ ": ui.readOrders maxRows must be an integer in 1..10"))
          (and_then (reject (negb (step_is "locatorRef" ORDERS_READ_LOCATOR read))
                       (command +:+ ": ui.readOrders must read from " +:+ ORDERS_READ_LOCATOR))
          (and_then (reject (negb (Nat.eqb (length steps) (length expected)))
                       (command +:+ ": steps must be exactly navigation taps -> one ui.readOrders -> "
                        +:+ "one ui.screenshot -> closing run.log"))
          (and_then (check_sequence command steps expected)
                    (check_closing_log command ORDERS_LOG_CODE steps))))
      end
  | _ => Some (command +:+ ": exactly one ui.readOrders step is required")
  end.

Fixpoint extra_screens (n : nat) : list (string * option string) :=
  match n with
  | O => []
  | S n' => ("ui.swipeUp", Some ORDERS_READ_LOCATOR) :: ("ui.readOrders", Some ORDERS_READ_LOCATOR) :: extra_screens n'
  end.

Definition orders_v2_expected (entry : string) (screens : nat) : list (string * option string) :=
  [("ui.tap", Some ORDERS_PROFILE_NAV); ("ui.tap", Some entry); ("ui.readOrders", Some ORDERS_READ_LOCATOR)]
  ++ extra_screens (screens - 1) ++ [("ui.screenshot", None); ("run.log", None)].

Definition orders_shape_error_v2 (steps : list step) : option string :=
  let command := ORDERS_COMMAND_TYPE_V2 in
  let reads := with_action "ui.readOrders" steps in
  let swipes := with_action "ui.swipeUp" steps in
  let screens := length reads in
  and_then (reject (negb (Nat.leb 2 screens && Nat.leb screens ORDERS_MAX_SCREENS))
              (command +:+ ": v2 requires 2..3 ui.readOrders screens (screens=1 must use the v1 shape)"))
  (and_then (reject (negb (Nat.eqb (length swipes) (screens - 1)))
               (command +:+ ": each extra screen needs exactly one ui.swipeUp before its ui.readOrders"))
  match reads with
  | [] => None
  | first :: others =>
      match ORDERS_ENTRY_LOCATORS (sget_str "direction" first) with
      | None => Some (command +:+ ": ui.readOrders direction must be SOLD or BOUGHT")
      | Some entry =>
          and_then (reject (negb (int_between 1 10 (sget_int "maxRows" first)))
                      (command +:+ ": ui.readOrders maxRows must be an integer in 1..10"))
          (and_then (first_error (fun read =>
                       and_then
                         (reject (negb (scalar_eqb (sget "direction" read) (sget "direction" first)))
                            (command +:+ ": every ui.readOrders step must read the same direction"))
                         (reject (negb (scalar_eqb (sget "maxRows" read) (sget "maxRows" first)))
                            (command +:+ ": every ui.readOrders step must use the same maxRows"))) others)
          (and_then (reject (negb (Nat.eqb (length steps) (length (orders_v2_expected entry screens))))
                       (command +:+ ": steps must be exactly navigation taps -> per-screen "
                        +:+ "ui.readOrders (extra screens preceded by one ui.swipeUp on the list "
                        +:+ "container) -> one ui.screenshot -> closing run.log"))
          (and_then (check_sequence command steps (orders_v2_expected entry screens))
                    (check_closing_log command ORDERS_LOG_CODE steps))))
      end
  end).

Definition validate_orders_steps (package : string) (steps : list step) : result error string :=
  raise_if uses_orders_step_actions steps = false
    with ValidationError "order collection step actions are required for this validation" in
  raise_if package <> XIANYU_PACKAGE
    with ValidationError "order collection is only defined for the xianyu package" in
  if is_none (orders_shape_error steps) then Ok ORDERS_COMMAND_TYPE
  else if is_none (orders_shape_error_v2 steps) then Ok ORDERS_COMMAND_TYPE_V2
  else Err (ValidationError
    ("xianyu order steps must match exactly one frozen command shape: "
     +:+ "v1 (screens=1, one ui.readOrders) or v2 (2..3 readOrders screens, "
     +:+ "each extra screen preceded by one ui.swipeUp on the list container)")).

(** ** Auto-review *)

Definition REVIEW_COMMAND_TYPE : string := "xianyu.review_orders.steps.v1".
Definition REVIEW_STEP_ACTION : string := "xianyu.reviewOrders".
Definition REVIEW_NAVIGATION : list string :=
  ["xianyu_profile_tab"; "xianyu_order_list_sold"; "xianyu_orders_tab_pending"].
Definition REVIEW_LOG_CODE : string := "XIANYU_REVIEW_DONE".

Definition UNPINNED_STEPS_COMMANDS : list string :=
  MAINTENANCE_COMMAND_TYPES ++ [ORDERS_COMMAND_TYPE; ORDERS_COMMAND_TYPE_V2; REVIEW_COMMAND_TYPE].

Definition uses_review_step_actions : list step -> bool := uses_actions [REVIEW_STEP_ACTION].

Definition review_expected : list (string * option string) :=
  ((fun ref => ("ui.tap", Some ref)) <$> REVIEW_NAVIGATION)
  ++ [(REVIEW_STEP_ACTION, None); ("ui.screenshot", None); ("run.log", None)].

Definition nul : Ascii.ascii := Ascii.zero.

Definition review_shape_error (steps : list step) : option string :=
  let command := REVIEW_COMMAND_TYPE in
  match with_action REVIEW_STEP_ACTION steps with
  | [loop] =>
      and_then (reject (negb (int_between 1 50 (sget_int "maxOrders" loop)))
                  (command +:+ ": xianyu.reviewOrders maxOrders must be an integer in 1..50"))
      (and_then (reject (match sget_str "comment" loop with
                         | Some comment => negb (bool_decide (1 <= str_len comment <= 200))
                                           || str_contains_char nul comment
                         | None => true
                         end)
                   (command +:+ ": xianyu.reviewOrders comment must be 1..200 characters"))
      (and_then (reject (match sget "dryRun" loop with Some (SBool _) => false | _ => true end)
                   (command +:+ ": xianyu.reviewOrders dryRun must be a boolean"))
      (and_then (reject (negb (Nat.eqb (length steps) (length review_expected)))
                   (command +:+ ": steps must be exactly navigation taps (profile -> sold "
                    +:+ "orders -> 待评价 tab) -> one xianyu.reviewOrders -> one "
                    +:+ "ui.screenshot -> closing run.log"))
      (and_then (check_sequence command steps review_expected)
                (check_closing_log command REVIEW_LOG_CODE steps)))))
  | _ => Some (command +:+ ": exactly one xianyu.reviewOrders step is required")
  end.

Definition validate_review_steps (package : string) (steps : list step) : result error string :=
  raise_if uses_review_step_actions steps = false
    with ValidationError "review step actions are required for this validation" in
  raise_if package <> XIANYU_PACKAGE
    with ValidationError "auto-review is only defined for the xianyu package" in
  match review_shape_error steps with
  | None => Ok REVIEW_COMMAND_TYPE
  | Some e => Err (ValidationError e)
  end.

(** The classification of [_insert_task]. *)
Definition frozen_command_type (package : string) (steps : list step) : result error (option string) :=
  if uses_maintenance_step_actions steps then
    let? c := validate_maintenance_steps package steps in Ok (Some c)
  else if uses_orders_step_actions steps then
    let? c := validate_orders_steps package steps in Ok (Some c)
  else if uses_review_step_actions steps then
    let? c := validate_review_steps package steps in Ok (Some c)
  else Ok None.

(** ** The ledger identity of a steps task *)

Definition scalar_truthy (v : scalar_value) : bool :=
  match v with SStr s => negb (String.eqb s "") | SInt n => negb (Z.eqb n 0) | SBool b => b end.

(** [[step for step in steps if step.get("action")]]. *)
Definition real_steps (steps : list step) : list step :=
  filter (fun s => from_option scalar_truthy false (sget "action" s) = true) steps.

Definition steps_action_row (command_type action_id : string) (task : MobileTaskRow) (steps : list step)
    : result error action_identity_columns :=
  let digest := hexdigest (canonical_steps steps) in
  let binding_version := default 0 (t_binding_version task) in
  let? (key, parameters) :=
    action_identity (t_id task) command_type (t_device_id task) binding_version digest digest action_id in
  Ok {| ac_action_key := key; ac_tenant_id := t_tenant_id task; ac_task_id := t_id task;
        ac_device_id := t_device_id task; ac_account_id := Some (t_device_id task);
        ac_binding_version := Some binding_version; ac_recipe_version_id := "steps";
        ac_recipe_sha256 := digest; ac_snapshot_sha256 := digest; ac_action_id := action_id;
        ac_parameter_hash := parameters |}.

(** The commands whose gated click has a ledger identity, in lookup order. *)
Definition gated_command (steps : list step) : option (string * string) :=
  match List.find (fun cs => match ms_action_id cs.2 with
                             | Some _ => is_none (maintenance_shape_error cs.2 steps)
                             | None => false
                             end) XIANYU_MAINTENANCE_SHAPES with
  | Some (command, shape) => Some (command, default "" (ms_action_id shape))
  | None =>
      match List.find (fun cs => is_none (maintenance_v2_shape_error cs.2 steps)) XIANYU_MAINTENANCE_V2_SHAPES with
      | Some (command, shape) => Some (command, m2_action_id shape)
      | None => None
      end
  end.

Definition steps_action_identity (task : MobileTaskRow) : result error action_identity_columns :=
  let steps := real_steps (t_steps task) in
  let maintenance :=
    match gated_command steps with
    | Some (command, action_id) => steps_action_row command action_id task steps
    | None => Err (ConflictError "G3_NOT_ACCEPTED")
    end in
  match STEPS_SHAPES (t_target_package task) with
  | Some shape =>
      if publish_shape_matches shape steps
      then steps_action_row (ps_command_type shape) STEPS_ACTION_ID task steps
      else maintenance
  | None => maintenance
  end.

(** ** Lemmas on checks and positions *)

Lemma and_then_None a b : and_then a b = None <-> a = None /\ b = None.
Proof. destruct a; cbn; naive_solver. Qed.

Lemma reject_None c m : reject c m = None <-> c = false.
Proof. by destruct c. Qed.

Lemma first_error_None {A} (f : A -> option string) l : first_error f l = None <-> Forall (fun x => f x = None) l.
Proof.
  induction l as [|x l IH]; cbn; [by split; constructor|].
  rewrite Forall_cons, <- IH. destruct (f x); naive_solver.
Qed.

Lemma with_index_None o k : with_index o k = None <-> exists n, o = Some n /\ k n = None.
Proof. destruct o; cbn; naive_solver. Qed.

Lemma step_is_true k v s : step_is k v s = true <-> sget k s = Some (SStr v).
Proof. apply bool_decide_eq_true. Qed.

Lemma step_is_other k v w s : step_is k v s = true -> v <> w -> step_is k w s = false.
Proof. intros H%step_is_true Hne. apply bool_decide_eq_false. rewrite H. congruence. Qed.

Lemma elem_of_positions_from p steps k n :
  n ∈ positions_from k p steps <-> exists i s, n = (k + i)%nat /\ steps !! i = Some s /\ p s = true.
Proof.
  revert k. induction steps as [|x l IH]; intros k; cbn; [set_solver|].
  assert ((exists i s, n = (k + i)%nat /\ (x :: l) !! i = Some s /\ p s = true) <->
          (n = k /\ p x = true) \/ exists i s, n = (S k + i)%nat /\ l !! i = Some s /\ p s = true) as ->.
  { split.
    - intros ([|i] & s & -> & Hi & Hp); cbn in Hi; [left; split; [lia|congruence]|].
      right. exists i, s. split; [lia|done].
    - intros [[-> Hp]|(i & s & -> & Hi & Hp)]; [exists 0%nat, x; split; [lia|done]|].
      exists (S i), s. split; [lia|done]. }
  rewrite <- IH. destruct (p x) eqn:Hp; [rewrite elem_of_cons|]; naive_solver.
Qed.

Lemma elem_of_positions p steps n :
  n ∈ positions p steps <-> exists s, steps !! n = Some s /\ p s = true.
Proof.
  unfold positions. rewrite elem_of_positions_from.
  split; [intros (i & s & -> & H); by exists s|intros [s H]; by exists n, s].
Qed.

Lemma positions_from_length p steps k :
  length (positions_from k p steps) = length (filter (fun s => p s = true) steps).
Proof.
  revert k. induction steps as [|x l IH]; intros k; [done|]. cbn [positions_from].
  destruct (p x) eqn:Hp; [rewrite filter_cons_True by done|rewrite filter_cons_False by congruence].
  - cbn [length]. by rewrite IH.
  - apply IH.
Qed.

(** The one step a predicate selects, with what stands before and after it. *)
Definition only_step (p : step -> bool) (steps before : list step) (s : step) (after : list step) : Prop :=
  steps = before ++ s :: after /\ p s = true
  /\ Forall (fun x => p x = false) before /\ Forall (fun x => p x = false) after.

Lemma unique_step p steps :
  length (filter (fun s => p s = true) steps) = 1%nat ->
  exists i s, step_index steps p = Some i /\ only_step p steps (take i steps) s (drop (S i) steps).
Proof.
  intros H. unfold step_index. rewrite <- (positions_from_length p steps 0) in H.
  change (positions_from 0 p steps) with (positions p steps) in H.
  destruct (positions p steps) as [|i [|]] eqn:E; try discriminate H.
  assert (forall j, j ∈ positions p steps <-> j = i) as Hi.
  { intros j. rewrite E. apply list_elem_of_singleton. }
  assert (i ∈ positions p steps) as (s & Hs & Hp)%elem_of_positions by by apply Hi.
  exists i, s. split; [done|]. split; [by rewrite take_drop_middle|]. split; [done|].
  split; apply Forall_lookup; intros j x Hj; apply not_true_is_false; intros Hx.
  - apply lookup_take_Some in Hj as [Hj Hlt].
    assert (j = i); [|lia]. apply Hi, elem_of_positions. eauto.
  - rewrite lookup_drop in Hj.
    assert (S i + j = i)%nat; [|lia]. apply Hi, elem_of_positions. eauto.
Qed.

Lemma shot_before q steps low i :
  existsb (fun shot => Nat.ltb low shot && Nat.ltb shot i) (positions q steps) = true ->
  existsb q (take i steps) = true.
Proof.
  rewrite existsb_exists. intros (n & Hn & [_ Hlt%Nat.ltb_lt]%andb_true_iff).
  apply list_elem_of_In, elem_of_positions in Hn as (s & Hs & Hq).
  apply existsb_exists. exists s. split; [|done]. apply list_elem_of_In, list_elem_of_lookup.
  exists n. by rewrite lookup_take_lt.
Qed.

Lemma shot_after q steps anchor i :
  (i <= anchor)%nat -> existsb (fun shot => Nat.ltb anchor shot) (positions q steps) = true ->
  existsb q (drop (S i) steps) = true.
Proof.
  intros Hi. rewrite existsb_exists. intros (n & Hn & Hlt%Nat.ltb_lt).
  apply list_elem_of_In, elem_of_positions in Hn as (s & Hs & Hq).
  apply existsb_exists. exists s. split; [|done]. apply list_elem_of_In, list_elem_of_lookup.
  exists (n - S i)%nat. rewrite lookup_drop. by replace (S i + (n - S i))%nat with n by lia.
Qed.

Ltac open_checks H :=
  repeat first [rewrite and_then_None in H | rewrite first_error_None in H
               | rewrite reject_None in H | rewrite negb_false_iff in H];
  rewrite ?Forall_cons in H; destruct_and? H.

(** ** Maintenance: one gated strike *)

(** The irreversible step of a maintenance command. *)
Definition gated_strike (command : string) : option (step -> bool) :=
  snd <$> List.find (fun cs => String.eqb cs.1 command)
    [("xianyu.delist.steps.v1", is_layout "confirm_delist");
     ("xianyu.delete_delisted.steps.v1", is_layout "confirm_delete");
     ("xianyu.delist.steps.v2", is_layout "confirm_delist");
     ("xianyu.delete_delisted.steps.v2", is_tap "xianyu_delete_confirm")].

Definition shot : step -> bool := has_action "ui.screenshot".

(** One strike, with evidence captured before and after it. *)
Definition struck_once (p : step -> bool) (steps : list step) : Prop :=
  exists before s after, only_step p steps before s after
    /\ existsb shot before = true /\ existsb shot after = true.

Lemma maintenance_v1_struck shape steps layout low :
  maintenance_shape_error shape steps = None ->
  ms_gated_layout shape = Some layout ->
  layout ∈ (ms_layout_taps shape).*1 ->
  (forall lr, lr ∈ ms_layout_taps shape -> lr_count lr.2 = 1%nat) ->
  BetweenLayouts low layout ∈ ms_screenshot_rules shape -> AfterBadge ∈ ms_screenshot_rules shape ->
  struck_once (is_layout layout) steps.
Proof.
  unfold maintenance_shape_error. intros H Hg Hl Hone Hb Ha.
  rewrite !and_then_None, !first_error_None in H.
  destruct H as (_ & _ & Hrules & _ & Hbadge & _ & Hafter & Hshots & _).
  rewrite Forall_forall in Hrules. rewrite Forall_forall in Hshots.
  apply list_elem_of_fmap in Hl as ([l rule] & E & Hl). cbn in E; subst l.
  specialize (Hrules _ Hl). specialize (Hone _ Hl). unfold check_layout_rule in Hrules.
  apply and_then_None in Hrules as [Hc _]. apply reject_None, negb_false_iff, Nat.eqb_eq in Hc.
  cbn in Hone. rewrite Hone in Hc.
  destruct (unique_step _ _ Hc) as (i & s & Hi & Hs).
  exists (take i steps), s, (drop (S i) steps). split; [done|]. split.
  - specialize (Hshots _ Hb). unfold check_screenshot in Hshots.
    apply with_index_None in Hshots as (lo & _ & Hshots). apply with_index_None in Hshots as (hi & Hhi & Hshots).
    unfold layout_index in Hhi. rewrite Hi in Hhi. injection Hhi as <-.
    apply reject_None, negb_false_iff in Hshots. by apply shot_before in Hshots.
  - specialize (Hshots _ Ha). unfold check_screenshot in Hshots. rewrite Hg in Hshots, Hafter.
    destruct (positions (has_action "ui.assertBadge") steps) as [|anchor r] eqn:Eb.
    + apply with_index_None in Hshots as (j & Hj & Hshots). unfold layout_index in Hj. rewrite Hi in Hj.
      injection Hj as <-. apply reject_None, negb_false_iff in Hshots. by apply (shot_after _ _ i).
    + apply reject_None, negb_false_iff in Hshots. apply (shot_after _ _ anchor); [|done].
      unfold check_badge_after in Hafter. destruct (ms_badge shape) as [b|].
      * apply with_index_None in Hafter as (j & Hj & Hafter). unfold layout_index in Hj. rewrite Hi in Hj.
        injection Hj as <-. apply with_index_None in Hafter as (k & Hk & Hafter).
        unfold step_index in Hk. rewrite Eb in Hk. injection Hk as <-.
        apply reject_None, Nat.ltb_ge in Hafter. done.
      * exfalso. unfold check_badge in Hbadge.
        destruct (with_action "ui.assertBadge" steps) eqn:Ew; [|done].
        assert (length (positions (has_action "ui.assertBadge") steps) = 0%nat) as E0.
        { unfold positions. rewrite positions_from_length. unfold with_action in Ew. by rewrite Ew. }
        by rewrite Eb in E0.
Qed.

Lemma is_tap_facts ref s : is_tap ref s = true ->
  has_action "ui.tap" s = true /\ step_is "locatorRef" ref s = true.
Proof. apply andb_true_iff. Qed.

Lemma check_v2_rules_Forall2 command n steps rules :
  length steps = length rules -> check_v2_rules command n steps rules = None ->
  Forall2 (fun s r => exists k, check_v2_rule command k s r = None) steps rules.
Proof.
  revert n rules. induction steps as [|s steps IH]; intros n [|r rules] Hl H; try discriminate Hl; [constructor|].
  cbn in H. apply and_then_None in H as [H1 H2]. constructor; [eauto|]. apply (IH (S n)); [|done].
  by injection Hl.
Qed.

(** What a matching step satisfies. *)
Definition v2_rule_holds (s : step) (r : v2_rule) : Prop :=
  match r with
  | RTap ref id => is_tap ref s = true /\ (forall i, id = Some i -> step_is "stepId" i s = true)
  | RCard tab => has_action "ui.tapCardByTitle" s = true /\ step_is "tab" tab s = true
      /\ exists title, sget_str "titleContains" s = Some title /\ 1 <= str_len title <= 64
  | RShot => shot s = true
  | RLayout layout tab => is_layout layout s = true /\ step_is "tab" tab s = true
      /\ scalar_eqb (sget "cardIndex" s) (Some (SInt 0)) = true
  | RLog code => is_log code s = true
  end.

Lemma check_v2_rule_holds command k s r : check_v2_rule command k s r = None -> v2_rule_holds s r.
Proof.
  destruct r as [ref id|tab| |layout tab|code]; cbn;
    rewrite ?and_then_None, ?reject_None, ?negb_false_iff, ?andb_true_iff; try tauto.
  - intros [H1 H2]. split; [done|]. intros i ->. by apply reject_None, negb_false_iff in H2.
  - intros (H1 & H2 & H3). split; [done|]. split; [done|].
    destruct (sget_str "titleContains" s) as [t|]; [|done]. exists t. split; [done|].
    by apply negb_false_iff, bool_decide_eq_true in H3.
Qed.

Lemma maintenance_v2_exact shape steps :
  maintenance_v2_shape_error shape steps = None <-> Forall2 v2_rule_holds steps (v2_expected shape).
Proof.
  unfold maintenance_v2_shape_error. rewrite and_then_None, reject_None, negb_false_iff, Nat.eqb_eq. split.
  - intros [Hl H]. apply check_v2_rules_Forall2 in H; [|done].
    eapply Forall2_impl; [exact H|]. intros s r [k Hk]. by apply check_v2_rule_holds in Hk.
  - intros H. split; [by apply Forall2_length in H|].
    generalize (m2_action shape +:+ " v2 (" +:+ m2_package shape +:+ ")") as command; intros command.
    generalize 0%nat as n. induction H as [|s r ss rs Hr _ IH]; intros n; [done|].
    cbn [check_v2_rules]. apply and_then_None. split; [|apply IH]. clear IH.
    destruct r as [ref id|tab| |layout tab|code]; cbn in Hr |- *;
      rewrite ?and_then_None, ?reject_None, ?negb_false_iff, ?andb_true_iff; try tauto.
    + destruct Hr as [H1 H2]. split; [done|]. destruct id as [i|]; [|done]. by rewrite (H2 i).
    + destruct Hr as (H1 & H2 & t & -> & Ht). split; [done|]. split; [done|]. by rewrite bool_decide_eq_true_2.
Qed.

Lemma has_action_other a b s : has_action a s = true -> a <> b -> has_action b s = false.
Proof. apply step_is_other. Qed.

(** No step satisfies two rules that name different actions or targets. *)
Lemma v2_not_layout layout s r :
  v2_rule_holds s r -> (forall l t, r <> RLayout l t) -> is_layout layout s = false.
Proof.
  intros H Hr. unfold is_layout.
  assert (exists a, has_action a s = true /\ a <> "ui.tapLayout") as (a & Ha & Hne).
  { destruct r as [ref id|tab| |l t|code]; cbn in H.
    - exists "ui.tap". destruct H as [[H _]%is_tap_facts _]. done.
    - exists "ui.tapCardByTitle". by destruct H.
    - exists "ui.screenshot". done.
    - by destruct (Hr l t).
    - exists "run.log". apply andb_true_iff in H as [H _]. done. }
  by rewrite (has_action_other a "ui.tapLayout" s Ha Hne).
Qed.

Lemma v2_not_tap ref s r :
  v2_rule_holds s r -> (forall i, r <> RTap ref i) -> is_tap ref s = false.
Proof.
  intros H Hr. unfold is_tap. destruct r as [ref' id|tab| |l t|code]; cbn in H.
  - destruct H as [[_ H]%is_tap_facts _]. apply andb_false_iff. right.
    apply (step_is_other _ ref'); [done|]. intros ->. by apply (Hr id).
  - rewrite (has_action_other "ui.tapCardByTitle" "ui.tap"); by destruct H.
  - by rewrite (has_action_other "ui.screenshot" "ui.tap").
  - destruct H as [[H _]%andb_true_iff _]. by rewrite (has_action_other "ui.tapLayout" "ui.tap").
  - apply andb_true_iff in H as [H _]. by rewrite (has_action_other "run.log" "ui.tap").
Qed.

Lemma v2_struck p before r after steps :
  Forall (fun r' => forall s, v2_rule_holds s r' -> p s = false) (before ++ after) ->
  (forall s, v2_rule_holds s r -> p s = true) -> RShot ∈ before -> RShot ∈ after ->
  Forall2 v2_rule_holds steps (before ++ r :: after) -> struck_once p steps.
Proof.
  intros [Nb Na]%Forall_app Hyes Sb Sa H.
  apply Forall2_app_inv_r in H as (ss1 & rest & H1 & H2 & ->).
  apply Forall2_cons_inv_r in H2 as (s & ss2 & Hs & H2 & ->).
  assert (forall l rs, Forall2 v2_rule_holds l rs ->
    Forall (fun r' => forall s, v2_rule_holds s r' -> p s = false) rs -> Forall (fun x => p x = false) l) as Hf.
  { intros l rs HF. induction HF as [|x y l rs Hxy HF IH]; intros Hn; [constructor|].
    inversion Hn; subst. constructor; auto. }
  assert (forall l rs, Forall2 v2_rule_holds l rs -> RShot ∈ rs -> existsb shot l = true) as Hsh.
  { intros l rs HF. induction HF as [|x y l rs Hxy HF IH]; intros Hn; [by apply elem_of_nil in Hn|].
    cbn. apply elem_of_cons in Hn as [<-|Hn]; [cbn in Hxy; by rewrite Hxy|]. rewrite IH by done.
    by rewrite orb_true_r. }
  exists ss1, s, ss2. split; [|split; [by apply (Hsh _ before)|by apply (Hsh _ after)]].
  split; [done|]. split; [by apply Hyes|]. split; [by apply (Hf _ before)|by apply (Hf _ after)].
Qed.

Lemma maintenance_matches_inv package steps c :
  c ∈ maintenance_matches package steps ->
  package = XIANYU_PACKAGE
  /\ ((exists shape, (c, shape) ∈ XIANYU_MAINTENANCE_SHAPES /\ maintenance_shape_error shape steps = None)
      \/ exists shape, (c, shape) ∈ XIANYU_MAINTENANCE_V2_SHAPES /\ maintenance_v2_shape_error shape steps = None).
Proof.
  unfold maintenance_matches. rewrite elem_of_app, !list_elem_of_fmap.
  assert (forall cs, cs ∈ XIANYU_MAINTENANCE_SHAPES -> ms_package cs.2 = XIANYU_PACKAGE) as P1.
  { apply Forall_forall. repeat constructor. }
  assert (forall cs, cs ∈ XIANYU_MAINTENANCE_V2_SHAPES -> m2_package cs.2 = XIANYU_PACKAGE) as P2.
  { apply Forall_forall. repeat constructor. }
  intros [([c' shape] & E & [Hm Hin]%list_elem_of_filter)|([c' shape] & E & [Hm Hin]%list_elem_of_filter)];
    cbn in E; subst c'; cbn in Hm; apply andb_true_iff in Hm as [Hp%String.eqb_eq He];
    [specialize (P1 _ Hin)|specialize (P2 _ Hin)]; cbn in *; (split; [congruence|]);
    [left|right]; exists shape; (split; [done|]);
    [destruct (maintenance_shape_error shape steps)|destruct (maintenance_v2_shape_error shape steps)]; done.
Qed.

Lemma validate_maintenance_Ok package steps c :
  validate_maintenance_steps package steps = Ok c -> maintenance_matches package steps = [c].
Proof.
  unfold validate_maintenance_steps. case_decide as D; [done|]. intros H.
  destruct (maintenance_matches package steps) as [|x [|]]; try discriminate H. by injection H as ->.
Qed.

Ltac in_list := cbn; rewrite ?elem_of_cons; tauto.

(** The shapes of the tables, one by one. *)
Lemma v1_cases c shape :
  (c, shape) ∈ XIANYU_MAINTENANCE_SHAPES ->
  Some (c, shape) = XIANYU_MAINTENANCE_SHAPES !! 0%nat
  \/ Some (c, shape) = XIANYU_MAINTENANCE_SHAPES !! 1%nat
  \/ Some (c, shape) = XIANYU_MAINTENANCE_SHAPES !! 2%nat.
Proof.
  intros (i & Hi)%list_elem_of_lookup. do 3 (destruct i as [|i]; [auto|]). done.
Qed.

Lemma v2_cases c shape :
  (c, shape) ∈ XIANYU_MAINTENANCE_V2_SHAPES ->
  Some (c, shape) = XIANYU_MAINTENANCE_V2_SHAPES !! 0%nat
  \/ Some (c, shape) = XIANYU_MAINTENANCE_V2_SHAPES !! 1%nat.
Proof.
  intros (i & Hi)%list_elem_of_lookup. do 2 (destruct i as [|i]; [auto|]). done.
Qed.

Lemma v1_accepted_strike c shape steps p :
  (c, shape) ∈ XIANYU_MAINTENANCE_SHAPES -> maintenance_shape_error shape steps = None ->
  gated_strike c = Some p -> struck_once p steps.
Proof.
  intros [H|[H|H]]%v1_cases He Hp; injection H as -> ->; try discriminate Hp; injection Hp as <-.
  - eapply maintenance_v1_struck with (low := "delist_menu_item"); [exact He|done|in_list| |in_list|in_list].
    apply Forall_forall; repeat constructor.
  - eapply maintenance_v1_struck with (low := "delete_card"); [exact He|done|in_list| |in_list|in_list].
    apply Forall_forall; repeat constructor.
Qed.

Lemma v2_accepted_strike c shape steps p :
  (c, shape) ∈ XIANYU_MAINTENANCE_V2_SHAPES -> Forall2 v2_rule_holds steps (v2_expected shape) ->
  gated_strike c = Some p -> struck_once p steps.
Proof.
  intros [H|H]%v2_cases HF Hp; injection H as -> ->; injection Hp as <-.
  - unshelve refine (v2_struck _ [_; _; _; _; _; _; _] _ [_; _] _ _ _ _ _ HF); [|by intros s (? & _)|in_list|in_list].
    cbn; repeat first [apply Forall_nil_2 | apply Forall_cons_2];
      intros s Hr; (eapply v2_not_layout; [exact Hr|done]).
  - unshelve refine (v2_struck _ [_; _; _; _; _; _; _; _] _ [_; _] _ _ _ _ _ HF); [|by intros s (? & _)|in_list|in_list].
    cbn; repeat first [apply Forall_nil_2 | apply Forall_cons_2];
      intros s Hr; (eapply v2_not_tap; [exact Hr|intros; congruence]).
Qed.

(** Steps accepted as maintenance are for the Xianyu package and strike
    once: the irreversible confirm of the command occurs exactly once, with a
    screenshot among the steps before it and one among the steps after it;
    and a second-generation command is step by step its frozen sequence,
    with the title fragment (1 to 64 characters) as its only freedom. *)
Theorem maintenance_strikes_once package steps c :
  validate_maintenance_steps package steps = Ok c ->
  package = XIANYU_PACKAGE /\ c ∈ MAINTENANCE_COMMAND_TYPES
  /\ (forall p, gated_strike c = Some p -> struck_once p steps)
  /\ (forall shape, (c, shape) ∈ XIANYU_MAINTENANCE_V2_SHAPES -> Forall2 v2_rule_holds steps (v2_expected shape)).
Proof.
  intros H%validate_maintenance_Ok.
  assert (c ∈ maintenance_matches package steps) as Hc by (rewrite H; by left).
  destruct (maintenance_matches_inv _ _ _ Hc) as [-> Hs]. split; [done|].
  destruct Hs as [(shape & Hin & He)|(shape & Hin & He)].
  - split; [|split].
    + apply elem_of_app. left. apply list_elem_of_fmap. by exists (c, shape).
    + intros p. by apply (v1_accepted_strike c shape).
    + intros shape' Hin'. exfalso.
      destruct (v1_cases _ _ Hin) as [E|[E|E]]; injection E as -> ->;
        by destruct (v2_cases _ _ Hin') as [E'|E'].
  - split; [|split].
    + apply elem_of_app. right. apply list_elem_of_fmap. by exists (c, shape).
    + intros p. apply (v2_accepted_strike c shape); [done|]. by apply maintenance_v2_exact.
    + intros shape' Hin'. apply maintenance_v2_exact in He.
      destruct (v2_cases _ _ Hin) as [E|E]; injection E as -> ->;
        destruct (v2_cases _ _ Hin') as [E'|E']; first [by injection E' as -> | done].
Qed.

Definition str_step (fields : list (string * string)) : step := (fun kv => (kv.1, SStr kv.2)) <$> fields.
Definition tap_step (ref : string) : step := str_step [("action", "ui.tap"); ("locatorRef", ref)].
Definition shot_step : step := str_step [("action", "ui.screenshot")].
Definition log_step (code : string) : step := str_step [("action", "run.log"); ("messageCode", code)].

Definition delist_v2_steps : list step :=
  [tap_step "xianyu_profile_tab"; tap_step "xianyu_my_published";
   str_step [("action", "ui.tapCardByTitle"); ("tab", "onsale"); ("titleContains", "lamp")];
   tap_step "xianyu_detail_manage"; shot_step; tap_step "xianyu_manage_delist"; shot_step;
   str_step [("action", "ui.tapLayout"); ("layoutAction", "confirm_delist"); ("tab", "onsale")]
     ++ [("cardIndex", SInt 0)];
   shot_step; log_step "XIANYU_DELIST_DONE"].

Lemma maintenance_strikes_once_witness :
  validate_maintenance_steps XIANYU_PACKAGE delist_v2_steps = Ok "xianyu.delist.steps.v2"
  /\ struck_once (is_layout "confirm_delist") delist_v2_steps.
Proof.
  assert (validate_maintenance_steps XIANYU_PACKAGE delist_v2_steps = Ok "xianyu.delist.steps.v2") as H
    by (vm_compute; reflexivity).
  split; [exact H|].
  exact (proj1 (proj2 (proj2 (maintenance_strikes_once _ _ _ H))) _ eq_refl).
Defined.

(** ** Order collection: read-only *)

Definition sequence_holds (s : step) (e : string * option string) : Prop :=
  has_action e.1 s = true /\ forall l, e.2 = Some l -> step_is "locatorRef" l s = true.

Lemma check_sequence_holds command steps expected :
  length steps = length expected -> check_sequence command steps expected = None ->
  Forall2 sequence_holds steps expected.
Proof.
  revert expected. induction steps as [|s steps IH]; intros [|[a l] expected] Hl H; try discriminate Hl; [constructor|].
  cbn in H. rewrite !and_then_None, reject_None, negb_false_iff in H. destruct H as (H1 & H2 & H3).
  constructor; [|apply IH; [by injection Hl|done]]. split; [done|].
  intros l' E; cbn in E; subst l. by apply reject_None, negb_false_iff in H2.
Qed.

Lemma sequence_actions steps expected :
  Forall2 sequence_holds steps expected -> sget_str "action" <$> steps = Some <$> expected.*1.
Proof.
  induction 1 as [|s [a l] ss es [Ha _] _ IH]; [done|]. cbn. f_equal; [|apply IH].
  unfold sget_str. cbn in Ha. by apply step_is_true in Ha as ->.
Qed.

Definition screen_pair : list string := ["ui.swipeUp"; "ui.readOrders"].

Fixpoint screens_after (n : nat) : list string :=
  match n with O => [] | S n' => screen_pair ++ screens_after n' end.

Lemma extra_screens_actions n : (extra_screens n).*1 = screens_after n.
Proof. induction n as [|n IH]; [done|]. cbn [extra_screens fmap list_fmap fst screens_after app screen_pair]. by rewrite <- IH. Qed.

Definition order_actions (n : nat) : list string :=
  ["ui.tap"; "ui.tap"; "ui.readOrders"] ++ screens_after n ++ ["ui.screenshot"; "run.log"].

Lemma orders_v1_accepted steps :
  orders_shape_error steps = None ->
  exists entry, entry ∈ ["xianyu_order_list_sold"; "xianyu_order_list_bought"]
  /\ Forall2 sequence_holds steps
       [("ui.tap", Some ORDERS_PROFILE_NAV); ("ui.tap", Some entry); ("ui.readOrders", None);
        ("ui.screenshot", None); ("run.log", None)].
Proof.
  unfold orders_shape_error. destruct (with_action _ steps) as [|read [|]]; try done.
  destruct (ORDERS_ENTRY_LOCATORS _) as [entry|] eqn:En; [|done].
  rewrite !and_then_None, !reject_None, !negb_false_iff, Nat.eqb_eq. intros (_ & _ & Hl & Hs & _).
  exists entry. split; [|by apply check_sequence_holds in Hs].
  unfold ORDERS_ENTRY_LOCATORS in En. destruct (sget_str _ _); [|done]. repeat case_match; set_solver.
Qed.

Lemma orders_v2_accepted steps :
  orders_shape_error_v2 steps = None ->
  exists entry n, entry ∈ ["xianyu_order_list_sold"; "xianyu_order_list_bought"]
  /\ (1 <= n <= 2)%nat /\ Forall2 sequence_holds steps (orders_v2_expected entry (S n)).
Proof.
  unfold orders_shape_error_v2. rewrite !and_then_None, !reject_None, negb_false_iff, andb_true_iff, !Nat.leb_le.
  unfold ORDERS_MAX_SCREENS. intros ([H1 H2] & _ & H).
  destruct (with_action "ui.readOrders" steps) as [|read reads]; [cbn in H1; lia|].
  destruct (ORDERS_ENTRY_LOCATORS _) as [entry|] eqn:En; [|done].
  rewrite !and_then_None, !reject_None, !negb_false_iff, Nat.eqb_eq in H. destruct H as (_ & _ & Hl & Hs & _).
  exists entry, (length reads). cbn [length] in H1, H2. split; [|split; [lia|by apply check_sequence_holds in Hs]].
  unfold ORDERS_ENTRY_LOCATORS in En. destruct (sget_str _ _); [|done]. repeat case_match; set_solver.
Qed.

(** Steps accepted as order collection only read: they are, in order,
    the tap on the profile tab, the tap on the sold or bought list, one read
    of the list, at most two more reads each preceded by one swipe, one
    screenshot and the closing log; one screen is the first-generation
    command, two or three the second. *)
Theorem orders_steps_read_only package steps c :
  validate_orders_steps package steps = Ok c ->
  package = XIANYU_PACKAGE
  /\ exists n entry, (n <= 2)%nat
     /\ c = (if decide (n = 0%nat) then ORDERS_COMMAND_TYPE else ORDERS_COMMAND_TYPE_V2)
     /\ sget_str "action" <$> steps = Some <$> order_actions n
     /\ entry ∈ ["xianyu_order_list_sold"; "xianyu_order_list_bought"]
     /\ (exists s0 s1, steps !! 0%nat = Some s0 /\ is_tap ORDERS_PROFILE_NAV s0 = true
                       /\ steps !! 1%nat = Some s1 /\ is_tap entry s1 = true).
Proof.
  unfold validate_orders_steps. intros H. ok_inv H; (split; [by apply dec_stable|]).
  - assert (orders_shape_error steps = None) as (entry & Hin & HF)%orders_v1_accepted
      by (by destruct (orders_shape_error steps)).
    exists 0%nat, entry. split; [lia|]. split; [done|]. split; [by apply sequence_actions in HF|].
    split; [done|]. inversion HF as [|s0 ? ss ? [A0 L0] HF']; subst.
    inversion HF' as [|s1 ? ? ? [A1 L1] _]; subst. exists s0, s1.
    unfold is_tap. cbn in A0, A1. by rewrite A0, A1, (L0 _ eq_refl), (L1 _ eq_refl).
  - assert (orders_shape_error_v2 steps = None) as (entry & n & Hin & Hn & HF)%orders_v2_accepted
      by (by destruct (orders_shape_error_v2 steps)).
    exists n, entry. split; [lia|]. split; [by rewrite decide_False by lia|]. split.
    { apply sequence_actions in HF. rewrite HF. f_equal. unfold orders_v2_expected, order_actions.
      replace (S n - 1)%nat with n by lia. by rewrite !fmap_app, extra_screens_actions. }
    split; [done|]. inversion HF as [|s0 ? ss ? [A0 L0] HF']; subst.
    inversion HF' as [|s1 ? ? ? [A1 L1] _]; subst. exists s0, s1.
    unfold is_tap. cbn in A0, A1. by rewrite A0, A1, (L0 _ eq_refl), (L1 _ eq_refl).
Qed.

Definition read_step : step :=
  str_step [("action", "ui.readOrders"); ("locatorRef", "xianyu_orders_container"); ("direction", "SOLD")]
  ++ [("maxRows", SInt 10)].
Definition orders_steps : list step :=
  [tap_step "xianyu_profile_tab"; tap_step "xianyu_order_list_sold"; read_step;
   str_step [("action", "ui.swipeUp"); ("locatorRef", "xianyu_orders_container")]; read_step;
   shot_step; log_step "XIANYU_COLLECT_ORDERS_DONE"].

Lemma orders_steps_read_only_witness :
  validate_orders_steps XIANYU_PACKAGE orders_steps = Ok ORDERS_COMMAND_TYPE_V2
  /\ XIANYU_PACKAGE = XIANYU_PACKAGE.
Proof.
  assert (validate_orders_steps XIANYU_PACKAGE orders_steps = Ok ORDERS_COMMAND_TYPE_V2) as H
    by (vm_compute; reflexivity).
  split; [exact H|]. exact (proj1 (orders_steps_read_only _ _ _ H)).
Defined.

(** ** The creation class and the ledger identity agree *)

Lemma gated_command_sound steps c action :
  gated_command steps = Some (c, action) ->
  (exists shape, (c, shape) ∈ XIANYU_MAINTENANCE_SHAPES /\ ms_action_id shape = Some action
     /\ maintenance_shape_error shape steps = None)
  \/ (exists shape, (c, shape) ∈ XIANYU_MAINTENANCE_V2_SHAPES /\ m2_action_id shape = action
     /\ maintenance_v2_shape_error shape steps = None).
Proof.
  unfold gated_command.
  destruct (List.find _ XIANYU_MAINTENANCE_SHAPES) as [[c' shape]|] eqn:E1.
  - intros [= -> <-]. apply List.find_some in E1 as [Hin Hm]. left. exists shape. cbn in Hm.
    apply list_elem_of_In in Hin. split; [done|].
    destruct (ms_action_id shape); [|done]. split; [done|]. by destruct (maintenance_shape_error shape steps).
  - destruct (List.find _ XIANYU_MAINTENANCE_V2_SHAPES) as [[c' shape]|] eqn:E2; [|done].
    intros [= -> <-]. apply List.find_some in E2 as [Hin Hm]. right. exists shape. cbn in Hm.
    apply list_elem_of_In in Hin. split; [done|]. split; [done|].
    by destruct (maintenance_v2_shape_error shape steps).
Qed.

Lemma gated_command_matches steps c action :
  gated_command steps = Some (c, action) -> c ∈ maintenance_matches XIANYU_PACKAGE steps.
Proof.
  intros [(shape & Hin & _ & He)|(shape & Hin & _ & He)]%gated_command_sound;
    apply elem_of_app; [left|right]; apply list_elem_of_fmap; exists (c, shape); (split; [done|]);
    apply list_elem_of_filter; (split; [|done]); cbn; rewrite He, andb_true_r; apply String.eqb_eq.
  - by destruct (v1_cases _ _ Hin) as [E|[E|E]]; injection E as -> ->.
  - by destruct (v2_cases _ _ Hin) as [E|E]; injection E as -> ->.
Qed.

Lemma gated_command_complete steps c :
  c ∈ maintenance_matches XIANYU_PACKAGE steps -> c <> "xianyu.polish.steps.v1" ->
  is_Some (gated_command steps).
Proof.
  intros [_ Hc]%maintenance_matches_inv Hne. unfold gated_command.
  destruct (List.find _ XIANYU_MAINTENANCE_SHAPES) as [[c' shape']|] eqn:E1; [by eexists|].
  destruct (List.find _ XIANYU_MAINTENANCE_V2_SHAPES) as [[c' shape']|] eqn:E2; [by eexists|]. exfalso.
  destruct Hc as [(shape & Hin & He)|(shape & Hin & He)].
  - pose proof (List.find_none _ _ E1 (c, shape) ltac:(by apply list_elem_of_In)) as Hn. cbn in Hn.
    rewrite He in Hn. by destruct (v1_cases _ _ Hin) as [E|[E|E]]; injection E as -> ->.
  - pose proof (List.find_none _ _ E2 (c, shape) ltac:(by apply list_elem_of_In)) as Hn. cbn in Hn.
    by rewrite He in Hn.
Qed.

Definition publish_button_tap : step -> bool := is_tap "xianyu_publish_button".

Lemma maintenance_no_publish_tap steps c :
  c ∈ maintenance_matches XIANYU_PACKAGE steps -> Forall (fun s => publish_button_tap s = false) steps.
Proof.
  intros [_ [(shape & Hin & He)|(shape & Hin & He)]]%maintenance_matches_inv.
  - unfold maintenance_shape_error in He. rewrite !and_then_None, !first_error_None in He.
    destruct He as (_ & Ht & _). rewrite Forall_forall in Ht. apply Forall_forall. intros s Hs.
    apply not_true_is_false. intros Htap. pose proof Htap as [Ha Hr]%is_tap_facts.
    specialize (Ht s). unfold with_action in Ht. rewrite list_elem_of_filter in Ht.
    specialize (Ht (conj Ha Hs)). apply reject_None, negb_false_iff in Ht.
    apply step_is_true in Hr. unfold sget_str in Ht. rewrite Hr in Ht. cbn in Ht.
    apply bool_decide_eq_true in Ht. revert Ht.
    destruct (v1_cases _ _ Hin) as [E|[E|E]]; injection E as -> ->; cbn; rewrite !elem_of_cons, elem_of_nil; naive_solver.
  - apply maintenance_v2_exact in He.
    assert (Forall (fun r => forall i, r <> RTap "xianyu_publish_button" i) (v2_expected shape)) as Hr.
    { destruct (v2_cases _ _ Hin) as [E|E]; injection E as -> ->; repeat constructor; done. }
    clear Hin. induction He as [|s r ss rs Hs _ IH]; [constructor|].
    inversion Hr; subst. constructor; [|by apply IH]. by apply (v2_not_tap _ _ r).
Qed.

(** The frozen action of each command; polish has no gated click. *)
Definition frozen_action (command : string) : option string :=
  snd <$> List.find (fun ca => String.eqb ca.1 command)
    [("xianyu.delist.steps.v1", "confirm-delist"); ("xianyu.delete_delisted.steps.v1", "confirm-delete");
     ("xianyu.delist.steps.v2", "confirm-delist"); ("xianyu.delete_delisted.steps.v2", "confirm-delete")].

Lemma gated_command_frozen steps c action :
  gated_command steps = Some (c, action) -> frozen_action c = Some action.
Proof.
  intros [(shape & Hin & Ha & _)|(shape & Hin & Ha & _)]%gated_command_sound.
  - by destruct (v1_cases _ _ Hin) as [E|[E|E]]; injection E as -> ->; cbn in Ha; simplify_eq.
  - by destruct (v2_cases _ _ Hin) as [E|E]; injection E as -> ->; cbn in Ha; simplify_eq.
Qed.

(** The class a maintenance task is created under is the class of its
    ledger identity: for accepted steps the identity is computed with the
    accepted command and its frozen action (and polish, which has no gated
    click, has none), never as a publish or as another command. *)
Theorem accepted_identity_agrees task c :
  validate_maintenance_steps (t_target_package task) (t_steps task) = Ok c ->
  real_steps (t_steps task) = t_steps task ->
  steps_action_identity task =
    match frozen_action c with
    | Some action => steps_action_row c action task (t_steps task)
    | None => Err (ConflictError "G3_NOT_ACCEPTED")
    end.
Proof.
  intros Hm%validate_maintenance_Ok Hreal.
  assert (c ∈ maintenance_matches (t_target_package task) (t_steps task)) as Hc by (rewrite Hm; by left).
  pose proof (maintenance_matches_inv _ _ _ Hc) as [Hp _]. rewrite Hp in Hm, Hc.
  unfold steps_action_identity. rewrite Hreal, Hp. cbn [STEPS_SHAPES].
  assert (publish_shape_matches (mkPublishShape "xianyu.publish_listing.steps.v1" "xianyu_publish_button"
            "xianyu_publish_success" "xianyu_description") (t_steps task) = false) as Hpub.
  { unfold publish_shape_matches. rewrite filter_none; [done|].
    pose proof (maintenance_no_publish_tap _ _ Hc) as Hn. rewrite Forall_forall in Hn.
    intros s Hs Ht. specialize (Hn s Hs). unfold publish_button_tap in Hn. cbn in Ht. congruence. }
  assert (STEPS_SHAPES XIANYU_PACKAGE = Some (mkPublishShape "xianyu.publish_listing.steps.v1"
    "xianyu_publish_button" "xianyu_publish_success" "xianyu_description")) as -> by reflexivity.
  rewrite Hpub. destruct (gated_command (t_steps task)) as [[c' action]|] eqn:Eg.
  - pose proof (gated_command_matches _ _ _ Eg) as Hc'. rewrite Hm in Hc'.
    apply list_elem_of_singleton in Hc' as ->. by rewrite (gated_command_frozen _ _ _ Eg).
  - destruct (decide (c = "xianyu.polish.steps.v1")) as [->|Hne]; [done|].
    destruct (gated_command_complete _ _ Hc Hne) as [? E]. congruence.
Qed.

Definition sample_header : task_header := mkHeader 1000 JNull None None None None None None None [].
Definition sample_task (package : string) (steps : list step) : MobileTaskRow :=
  mkTask "task-1" "tenant" "device" "key" "sha" "user" package None None None None None [] None B_QUEUED
    AUTO None (Some "attempt") 0 None [] sample_header steps R_QUEUED None None 0 0 None [] None None
    None None 0.

Lemma accepted_identity_agrees_witness :
  frozen_action "xianyu.delist.steps.v2" = Some "confirm-delist"
  /\ steps_action_identity (sample_task XIANYU_PACKAGE delist_v2_steps)
     = match frozen_action "xianyu.delist.steps.v2" with
       | Some action => steps_action_row "xianyu.delist.steps.v2" action
                          (sample_task XIANYU_PACKAGE delist_v2_steps)
                          (t_steps (sample_task XIANYU_PACKAGE delist_v2_steps))
       | None => Err (ConflictError "G3_NOT_ACCEPTED")
       end.
Proof.
  split; [reflexivity|].
  apply (accepted_identity_agrees (sample_task XIANYU_PACKAGE delist_v2_steps) "xianyu.delist.steps.v2");
    vm_compute; reflexivity.
Defined.

(** A first-generation delist that also types text passes its checks: only
    taps, layout taps, badges, screenshots and the log are constrained. *)
Definition delist_v1_steps : list step :=
  let layout l := str_step [("action", "ui.tapLayout"); ("layoutAction", l); ("tab", "onsale")]
                    ++ [("cardIndex", SInt 0)] in
  [tap_step "xianyu_profile_tab"; tap_step "xianyu_my_published"; layout "more"; shot_step;
   layout "delist_menu_item"; shot_step; layout "confirm_delist";
   str_step [("action", "ui.assertBadge"); ("locatorRef", "xianyu_pub_tab_onsale")] ++ [("expectedDelta", SInt (-1))];
   shot_step; log_step "XIANYU_DELIST_DONE"].
Definition typing_step : step := str_step [("action", "ui.input"); ("locatorRef", "any"); ("value", "text")].

Lemma v1_shape_not_exact :
  validate_maintenance_steps XIANYU_PACKAGE delist_v1_steps = Ok "xianyu.delist.steps.v1"
  /\ validate_maintenance_steps XIANYU_PACKAGE (delist_v1_steps ++ [typing_step]) = Ok "xianyu.delist.steps.v1".
Proof. split; vm_compute; reflexivity. Qed.
