(* ===== verification/TaskOps.v ===== *)
(** * Operations on task rows shared by the control plane and the companion API

    Models the helpers of [platform_tasks.py] (states, control events,
    occupation, audit), of [mobile_service.py] (ownership, lease, commit
    window, account binding), [settle_reply_delivery] of [im_service.py] and
    the delivery identity of [order_delivery.py]. *)

From stdpp Require Import base gmap strings list.
From Stdlib Require Import ZArith Lia Sorting.Sorted.
From S2P Require Import Prelude PyStd Domain Rows ControlledActions FleetIdentity FrozenShapes.

Open Scope Z_scope.

(** ** States *)

Definition business_state_value (s : BusinessState) : string :=
  match s with
  | B_QUEUED => "QUEUED" | B_WAITING_MATERIALS => "WAITING_MATERIALS" | B_PREFLIGHT => "PREFLIGHT"
  | B_RUNNING => "RUNNING" | B_PAUSE_REQUESTED => "PAUSE_REQUESTED"
  | B_PAUSED_WAITING_USER => "PAUSED_WAITING_USER" | B_RESUME_CHECK => "RESUME_CHECK"
  | B_RECONCILING => "RECONCILING" | B_CANCEL_REQUESTED => "CANCEL_REQUESTED"
  | B_SUCCEEDED => "SUCCEEDED" | B_FAILED => "FAILED" | B_CANCELLED => "CANCELLED"
  | B_EXPIRED => "EXPIRED" | B_RAW text => text
  end.

Definition TERMINAL_BUSINESS : list BusinessState := [B_SUCCEEDED; B_FAILED; B_CANCELLED; B_EXPIRED].

Definition BLOCKING_BUSINESS_STATES : list BusinessState :=
  [B_PAUSE_REQUESTED; B_PAUSED_WAITING_USER; B_RESUME_CHECK; B_CANCEL_REQUESTED; B_WAITING_MATERIALS; B_RECONCILING].

Definition RUNNER_TO_BUSINESS (s : RunnerStatus) : BusinessState :=
  match s with
  | R_QUEUED => B_QUEUED | R_CLAIMED => B_PREFLIGHT | R_RUNNING => B_RUNNING
  | R_SUCCEEDED => B_SUCCEEDED | R_FAILED => B_FAILED
  end.

Definition business_state_of (row : MobileTaskRow) : BusinessState :=
  match t_business_state row with
  | B_RAW text =>
      if String.eqb text "" then RUNNER_TO_BUSINESS (t_status row)
      else if String.eqb text "CANCELED" then B_CANCELLED else B_RAW text
  | s => s
  end.

(** [_normalized_business_state] of [mobile_service.py] is the same function. *)
Definition normalized_business_state : MobileTaskRow -> BusinessState := business_state_of.

Definition has_commit_intent (row : MobileTaskRow) : bool :=
  bool_decide (is_Some (jget "commitIntent" (t_command_payload row))).

(** [(row.command_payload or {}).get("commitIntent")] as a condition. *)
Definition truthy_commit_intent (row : MobileTaskRow) : bool :=
  from_option jtruthy false (jget "commitIntent" (t_command_payload row)).

(** ** Transition matrices: [None] is a state outside the table (KeyError) *)

Inductive ControlOutcome : Type :=
| CANCELLED_NOW | DO_CANCEL_REQUEST | DO_PAUSE_REQUEST | DO_PAUSED_WAITING_USER | DO_RESUME_CHECK
| IDEMPOTENT_RETURN | REJECTED_RECONCILE_FIRST | REJECTED_TERMINAL | REJECTED_CANCEL_WINS
| REJECTED_SUPERSEDED | REJECTED_REQUIRES_PAUSE_ACK.

#[export] Instance ControlOutcome_eq_dec : EqDecision ControlOutcome.
Proof. solve_decision. Defined.

Definition CANCEL_TRANSITIONS (s : BusinessState) : option ControlOutcome :=
  match s with
  | B_QUEUED | B_WAITING_MATERIALS | B_PREFLIGHT | B_PAUSE_REQUESTED | B_PAUSED_WAITING_USER => Some CANCELLED_NOW
  | B_RUNNING | B_RESUME_CHECK => Some DO_CANCEL_REQUEST
  | B_CANCEL_REQUESTED => Some IDEMPOTENT_RETURN
  | B_RECONCILING => Some REJECTED_RECONCILE_FIRST
  | B_SUCCEEDED | B_FAILED => Some REJECTED_TERMINAL
  | B_CANCELLED => Some IDEMPOTENT_RETURN
  | B_EXPIRED => Some REJECTED_TERMINAL
  | B_RAW _ => None
  end.

Definition PAUSE_TRANSITIONS (s : BusinessState) : option ControlOutcome :=
  match s with
  | B_QUEUED | B_WAITING_MATERIALS | B_PREFLIGHT | B_RUNNING | B_RESUME_CHECK => Some DO_PAUSE_REQUEST
  | B_PAUSE_REQUESTED | B_PAUSED_WAITING_USER => Some IDEMPOTENT_RETURN
  | B_CANCEL_REQUESTED => Some REJECTED_CANCEL_WINS
  | B_RECONCILING => Some REJECTED_RECONCILE_FIRST
  | B_SUCCEEDED | B_FAILED | B_CANCELLED | B_EXPIRED => Some REJECTED_TERMINAL
  | B_RAW _ => None
  end.

Definition ACK_PAUSED_TRANSITIONS (s : BusinessState) : option ControlOutcome :=
  match s with
  | B_QUEUED | B_WAITING_MATERIALS | B_PREFLIGHT | B_RUNNING | B_PAUSE_REQUESTED => Some DO_PAUSED_WAITING_USER
  | B_PAUSED_WAITING_USER => Some IDEMPOTENT_RETURN
  | B_RESUME_CHECK => Some REJECTED_SUPERSEDED
  | B_CANCEL_REQUESTED => Some REJECTED_CANCEL_WINS
  | B_RECONCILING => Some REJECTED_RECONCILE_FIRST
  | B_SUCCEEDED | B_FAILED | B_CANCELLED | B_EXPIRED => Some REJECTED_TERMINAL
  | B_RAW _ => None
  end.

Definition RESUME_TRANSITIONS (s : BusinessState) : option ControlOutcome :=
  match s with
  | B_PAUSED_WAITING_USER => Some DO_RESUME_CHECK
  | B_QUEUED | B_WAITING_MATERIALS | B_PREFLIGHT | B_RUNNING | B_PAUSE_REQUESTED | B_RESUME_CHECK =>
      Some REJECTED_REQUIRES_PAUSE_ACK
  | B_CANCEL_REQUESTED => Some REJECTED_CANCEL_WINS
  | B_RECONCILING => Some REJECTED_RECONCILE_FIRST
  | B_SUCCEEDED | B_FAILED => Some REJECTED_REQUIRES_PAUSE_ACK
  | B_CANCELLED => Some REJECTED_CANCEL_WINS
  | B_EXPIRED => Some REJECTED_REQUIRES_PAUSE_ACK
  | B_RAW _ => None
  end.

(** ** Persisted control events *)

Definition MAX_CONTROL_EVENTS : nat := 50.

Definition protected_kind (k : ControlKind) : Prop :=
  k ∈ [K_MARKED_UNKNOWN; K_RECONCILED_APPLIED; K_RECONCILED_NOT_SUBMITTED; K_RECONCILED_KEEP_WAITING].
#[export] Instance protected_kind_dec k : Decision (protected_kind k).
Proof. unfold protected_kind. apply _. Defined.

Definition retain_control_events (events : list control_event) : list control_event :=
  let cut := (length events - MAX_CONTROL_EVENTS)%nat in
  let retained := drop cut events in
  let protected := filter (fun e => protected_kind (ce_event e)) (take cut events) in
  protected ++ retained.

Definition control_revision (row : MobileTaskRow) : Z := default 0 (h_controlRevision (t_header row)).

(** [_record_control_event], and [_append_control_event] which mirrors it. *)
Definition record_control_event (row : MobileTaskRow) (kind : ControlKind) (reason actor : string) (now : Z)
    : MobileTaskRow * Z :=
  let header := t_header row in
  let revision := default 0 (h_controlRevision header) + 1 in
  let event := mkControlEvent revision kind (str_take 160 reason) (str_take 128 actor) (Some now) in
  (row <| t_header := header <| h_controlRevision := Some revision |>
                             <| h_controlEvents := retain_control_events (h_controlEvents header ++ [event]) |> |>,
   revision).

Definition control_view (row : MobileTaskRow) : option Z * list control_event :=
  (h_controlRevision (t_header row), h_controlEvents (t_header row)).

(** ** Audit *)

(** A datetime inside a JSON document, standing for its ISO text. *)
Definition json_time (t : Z) : json := JInt t.

Definition audit_control_event (row : MobileTaskRow) (action : string) (revision : Z) (actor_id actor_type : string)
    (extra : list (string * json)) (now : Z) : AuditEventRow :=
  {| au_tenant_id := t_tenant_id row; au_actor_type := actor_type; au_actor_id := str_take 255 actor_id;
     au_action := "platform.task." +:+ action; au_resource_type := "mobile_task"; au_resource_id := t_id row;
     au_device_id := Some (t_device_id row); au_result := "SUCCEEDED";
     au_metadata := [("taskId", JStr (t_id row)); ("controlRevision", JInt revision);
                     ("businessState", JStr (business_state_value (t_business_state row)))] ++ extra;
     au_occurred_at := now |}.

Definition audit_companion_control (row : MobileTaskRow) (action : string) (revision : Z)
    (extra : list (string * json)) (now : Z) : AuditEventRow :=
  audit_control_event row action revision "companion" "companion" extra now.

Definition json_opt (o : option string) : json := match o with Some s => JStr s | None => JNull end.
Definition json_opt_time (o : option Z) : json := match o with Some t => json_time t | None => JNull end.

Definition json_evidence (e : evidence) : json :=
  JObj [("contract", JStr "p09-ledger/20260910.1"); ("taskId", JStr (ev_taskId e));
        ("deviceId", JStr (ev_deviceId e)); ("accountId", json_opt (ev_accountId e));
        ("accountSource", JStr (ev_accountSource e)); ("leaseId", JStr (ev_leaseId e));
        ("bindingVersion", match ev_bindingVersion e with Some v => JInt v | None => JNull end);
        ("recipeVersionId", JStr (ev_recipeVersionId e)); ("recipeSha256", JStr (ev_recipeSha256 e));
        ("actionId", JStr (ev_actionId e)); ("createdAt", json_time (ev_createdAt e));
        ("updatedAt", json_time (ev_updatedAt e)); ("resolvedAt", json_opt_time (ev_resolvedAt e))].

Definition audit_action (row : MobileActionCommitRow) (actor_id kind : string) (now : Z) : AuditEventRow :=
  {| au_tenant_id := a_tenant_id row;
     au_actor_type := if String.eqb kind "resolved" then "operator" else "companion";
     au_actor_id := actor_id; au_action := "mobile.action." +:+ kind;
     au_resource_type := "mobile_action_commit"; au_resource_id := a_action_key row;
     au_device_id := Some (a_device_id row); au_result := "SUCCESS";
     au_metadata := [("taskId", JStr (a_task_id row)); ("actionKey", JStr (a_action_key row));
                     ("status", JStr (action_status_value (a_status row)));
                     ("resolutionRevision", JInt (a_resolution_revision row));
                     ("resolutionEvidence", json_opt (a_resolution_evidence row));
                     ("evidenceBinding", json_evidence (evidence_binding row))];
     au_occurred_at := now |}.

(** ** Occupation, replies, ownership, leases *)

Definition auto_workflow (row : MobileTaskRow) : string := "auto/" +:+ t_id row.

(** [_release_occupation]: cancels the device lease when it is the task's own. *)
Definition release_occupation (row : MobileTaskRow) (now : Z) (d : db) : bool * db :=
  match leases d !! t_device_id row with
  | None => (false, d)
  | Some lease =>
      if decide (l_canceled_at lease <> None \/ l_tenant_id lease <> t_tenant_id row
                 \/ l_owner_type lease <> AUTO \/ l_owner_workflow_id lease <> auto_workflow row)
      then (false, d)
      else (true, put_lease (t_device_id row) (lease <| l_canceled_at := Some now |>) d)
  end.

Definition TASK_TERMINAL_DELIVERY (s : BusinessState) : option DeliveryState :=
  match s with
  | B_SUCCEEDED => Some DELIVERED
  | B_FAILED | B_CANCELLED | B_EXPIRED => Some DELIVERY_FAILED
  | _ => None
  end.

Definition settle_message (task_id : string) (target : DeliveryState) (m : ImMessageRow) : ImMessageRow :=
  if decide (m_reply_task_id m = Some task_id) then
    if decide (m_delivery_state m = DELIVERED) then m else m <| m_delivery_state := target |>
  else m.

Definition settle_reply_delivery (task_id : string) (business_state : BusinessState) (d : db) : db :=
  match TASK_TERMINAL_DELIVERY business_state with
  | None => d
  | Some target => d <| messages := settle_message task_id target <$> messages d |>
  end.

Definition validate_owned_task (row : option MobileTaskRow) (binding : MobileBindingRow) : result error MobileTaskRow :=
  match row with
  | None => Err (NotFoundError "mobile task was not found")
  | Some t =>
      raise_if t_tenant_id t <> b_tenant_id binding \/ t_device_id t <> b_device_id binding
        with NotFoundError "mobile task was not found" in Ok t
  end.

(** [t is None or t <= now]. *)
Definition expired (t : option Z) (now : Z) : Prop := match t with Some x => x <= now | None => True end.
#[export] Instance expired_dec t now : Decision (expired t now).
Proof. unfold expired. destruct t; apply _. Defined.

Definition validate_active_lease (row : MobileTaskRow) (lease_id : string) (now : Z) : result error () :=
  raise_if t_business_state row ∈ TERMINAL_BUSINESS
    with ConflictError "terminal mobile task cannot accept runner updates" in
  raise_if ~ task_active row \/ t_lease_id row <> Some lease_id
    with ConflictError "mobile task lease does not match" in
  raise_if expired (t_lease_expires_at row) now
    with ConflictError "mobile task lease has expired" in
  Ok tt.

Definition steps_payload_identity (row : MobileTaskRow) : string :=
  hexdigest (canonical_steps (real_steps (t_steps row))).

Definition post_commit_pending (d : db) (task : MobileTaskRow) : bool :=
  has_commit_intent task || bool_decide (is_Some (scalar (filter (fun a => a_task_id a = t_id task) (actions d)))).

Definition live_account_binding (d : db) (tenant_id account_id device_id : string) : option AccountDeviceBindingRow :=
  scalar (filter (fun r => ab_tenant_id r = tenant_id /\ ab_account_id r = account_id
                           /\ ab_device_id r = device_id /\ ab_status r = "BOUND") (account_bindings d)).

Definition account_binding_mismatch (d : db) (task : MobileTaskRow) : option string :=
  if truthy_str (t_account_id task) then
    match live_account_binding d (t_tenant_id task) (default "" (t_account_id task)) (t_device_id task) with
    | None => Some "account is no longer bound to this device"
    | Some live =>
        if decide (t_binding_version task <> None /\ Some (ab_binding_version live) <> t_binding_version task)
        then Some "account binding version changed" else None
    end
  else None.

(** ** Order delivery *)

Definition ORDER_DELIVERY_PROTOCOL : string := "order-delivery/1".

Definition delivery_metadata (task : MobileTaskRow) : option order_collection :=
  match h_orderCollection (t_header task) with
  | Some meta => if decide (oc_deliveryProtocol meta = Some ORDER_DELIVERY_PROTOCOL) then Some meta else None
  | None => None
  end.

Definition delivery_identity_error (d : db) (task : MobileTaskRow) (device : DeviceRow) (now : Z) : option string :=
  match delivery_metadata task with
  | None => Some "ORDER_DELIVERY_PROTOCOL_REQUIRED"
  | Some meta =>
      if decide (d_active_binding_id device <> oc_mobileBindingId meta) then Some "MOBILE_BINDING_CHANGED"
      else
        let live_mobile := d_active_binding_id device ≫= fun k => mobile_bindings d !! k in
        if (match live_mobile with Some b => bool_decide (b_revoked_at b <> None) | None => true end : bool)
        then Some "MOBILE_BINDING_CHANGED"
        else
          let account := if truthy_str (t_account_id task)
                         then t_account_id task ≫= fun k => accounts d !! k else None in
          match account with
          | None => Some "ACCOUNT_BINDING_CHANGED"
          | Some a =>
              if decide (pa_tenant_id a <> t_tenant_id task \/ pa_platform a <> "xianyu"
                         \/ pa_status a <> "AUTHORIZED" \/ pa_revoked_at a <> None)
              then Some "ACCOUNT_BINDING_CHANGED"
              else if decide (pa_expires_at a <> None /\ expired (pa_expires_at a) now)
              then Some "ACCOUNT_BINDING_CHANGED"
              else match live_account_binding d (t_tenant_id task) (default "" (t_account_id task))
                           (t_device_id task) with
                   | None => Some "ACCOUNT_BINDING_CHANGED"
                   | Some bound =>
                       if decide (Some (ab_binding_version bound) <> t_binding_version task)
                       then Some "ACCOUNT_BINDING_CHANGED" else None
                   end
          end
  end.

(** ** Control events: lemmas and theorems *)

(** Revisions grow along the retained events and the header holds the last. *)
Definition well_numbered (row : MobileTaskRow) : Prop :=
  StronglySorted Z.lt (ce_revision <$> h_controlEvents (t_header row))
  /\ Forall (fun e => ce_revision e <= control_revision row) (h_controlEvents (t_header row)).

Lemma retain_sublist events : sublist (retain_control_events events) events.
Proof.
  unfold retain_control_events. set (cut := (length events - MAX_CONTROL_EVENTS)%nat).
  rewrite <- (take_drop cut events) at 3. apply sublist_app; [apply sublist_filter|done].
Qed.

Lemma retain_protected events e :
  e ∈ events -> protected_kind (ce_event e) -> e ∈ retain_control_events events.
Proof.
  unfold retain_control_events. set (cut := (length events - MAX_CONTROL_EVENTS)%nat).
  rewrite <- (take_drop cut events) at 1. rewrite !elem_of_app, list_elem_of_filter. tauto.
Qed.

Lemma retain_recent events l e :
  events = l ++ [e] -> exists l', retain_control_events events = l' ++ [e].
Proof.
  intros ->. unfold retain_control_events. rewrite length_app. cbn [length]. unfold MAX_CONTROL_EVENTS.
  rewrite drop_app_le by lia. rewrite app_assoc. eauto.
Qed.

Lemma retain_length events :
  (length (retain_control_events events)
   <= MAX_CONTROL_EVENTS + length (filter (fun e => protected_kind (ce_event e)) events))%nat.
Proof.
  unfold retain_control_events. set (cut := (length events - MAX_CONTROL_EVENTS)%nat).
  rewrite length_app, length_drop.
  rewrite <- (take_drop cut events) at 3. rewrite filter_app, length_app. lia.
Qed.

Lemma sublist_Forall {A} (P : A -> Prop) l l' : sublist l l' -> Forall P l' -> Forall P l.
Proof. rewrite !Forall_forall. intros Hs Hf x Hx. apply Hf. by apply (elem_of_sublist l). Qed.

Lemma sublist_StronglySorted (R : Z -> Z -> Prop) l l' :
  sublist l l' -> StronglySorted R l' -> StronglySorted R l.
Proof.
  induction 1 as [|x l l' H IH|x l l' H IH]; intros S; [done| |].
  - inversion S; subst. constructor; [by apply IH|]. eapply sublist_Forall; [exact H|done].
  - inversion S; subst. by apply IH.
Qed.

(** Recording a control decision takes the next revision of the task and
    appends one event that carries it; revisions stay strictly increasing;
    compaction keeps the newest fifty events and never loses a verdict on an
    uncertain result, so an UNKNOWN mark or a reconciliation decision stays
    on the task for good. *)
Theorem record_control_event_retains row kind reason actor now :
  well_numbered row ->
  let '(row', revision) := record_control_event row kind reason actor now in
  let old := h_controlEvents (t_header row) in
  let new := h_controlEvents (t_header row') in
  revision = control_revision row + 1 /\ control_revision row' = revision /\ well_numbered row'
  /\ (exists l e, new = l ++ [e] /\ ce_revision e = revision /\ ce_event e = kind /\ ce_issuedAt e = Some now)
  /\ sublist (drop (length old - 49) old) new
  /\ (forall e, e ∈ old -> protected_kind (ce_event e) -> e ∈ new)
  /\ (length new <= 51 + length (filter (fun e => protected_kind (ce_event e)) old))%nat.
Proof.
  intros [Hs Hf]. unfold record_control_event.
  set (rev := default 0 (h_controlRevision (t_header row)) + 1).
  set (e := mkControlEvent rev kind (str_take 160 reason) (str_take 128 actor) (Some now)). cbn.
  set (old := h_controlEvents (t_header row)) in *.
  assert (Hlt : Forall (fun y => y < rev) (ce_revision <$> old)).
  { apply Forall_fmap. eapply Forall_impl; [exact Hf|]. intros x Hx; cbn. unfold control_revision in Hx. lia. }
  split; [done|]. split; [done|]. split; [|split; [|split; [|split]]].
  - split; cbn.
    + eapply sublist_StronglySorted; [apply sublist_fmap, retain_sublist|].
      rewrite fmap_app. by apply StronglySorted_snoc.
    + eapply sublist_Forall; [apply retain_sublist|]. unfold control_revision; cbn. apply Forall_app.
      split; [|by repeat constructor]. eapply Forall_impl; [exact Hf|]. intros x Hx. unfold control_revision in Hx. lia.
  - destruct (retain_recent _ old e eq_refl) as [l' ->]. exists l', e. done.
  - unfold retain_control_events, MAX_CONTROL_EVENTS. rewrite length_app; cbn [length].
    replace (length old + 1 - 50)%nat with (length old - 49)%nat by lia.
    apply sublist_inserts_l. rewrite drop_app_le by lia. by apply sublist_inserts_r.
  - intros x Hx Hp. apply retain_protected; [|done]. apply elem_of_app. by left.
  - etransitivity; [apply retain_length|]. rewrite filter_app, length_app.
    pose proof (length_filter (fun e => protected_kind (ce_event e)) [e]). cbn [length] in *.
    unfold MAX_CONTROL_EVENTS. lia.
Qed.

Lemma record_control_event_retains_witness :
  well_numbered (sample_task XIANYU_PACKAGE [])
  /\ let '(row', revision) := record_control_event (sample_task XIANYU_PACKAGE []) K_MARKED_UNKNOWN "r" "a" 5 in
     revision = control_revision (sample_task XIANYU_PACKAGE []) + 1 /\ control_revision row' = revision.
Proof.
  assert (H : well_numbered (sample_task XIANYU_PACKAGE [])) by (repeat constructor).
  split; [exact H|].
  pose proof (record_control_event_retains (sample_task XIANYU_PACKAGE []) K_MARKED_UNKNOWN "r" "a" 5 H) as (H1 & H2 & _).
  split; [exact H1|exact H2].
Defined.

(** ** Settling replies *)

Lemma settle_message_delivered task_id target m :
  m_delivery_state m = DELIVERED -> settle_message task_id target m = m.
Proof. intros H. unfold settle_message. by_cases; done. Qed.

Lemma settle_message_idem task_id target m :
  settle_message task_id target (settle_message task_id target m) = settle_message task_id target m.
Proof. unfold settle_message. destruct m as [i r s]; cbn. by_cases; done. Qed.

(** ** Occupation *)

(** [same_history d d']: the two databases differ at most in leases and messages. *)
Definition same_history (d d' : db) : Prop :=
  tasks d' = tasks d /\ actions d' = actions d /\ task_events d' = task_events d
  /\ audits d' = audits d /\ devices d' = devices d.

Lemma release_occupation_frame row now d b d' :
  release_occupation row now d = (b, d') -> same_history d d'.
Proof. unfold release_occupation. intros H. repeat case_match; simplify_eq; done. Qed.

Lemma settle_reply_frame k s d : same_history d (settle_reply_delivery k s d).
Proof. unfold settle_reply_delivery. by case_match. Qed.

Lemma settle_reply_leases k s d : leases (settle_reply_delivery k s d) = leases d.
Proof. unfold settle_reply_delivery. by case_match. Qed.

(** After a terminal state is forwarded no reply of the task is pending. *)
Lemma settle_reply_messages k s d m :
  s ∈ TERMINAL_BUSINESS -> m ∈ messages (settle_reply_delivery k s d) -> m_reply_task_id m = Some k ->
  m_delivery_state m <> PENDING.
Proof.
  unfold settle_reply_delivery. intros Hs Hm Hr.
  destruct (TASK_TERMINAL_DELIVERY s) as [target|] eqn:Et.
  - cbn in Hm. apply list_elem_of_fmap in Hm as (m0 & -> & _). revert Hr. unfold settle_message.
    assert (target <> PENDING) by (destruct s; cbn in Et; congruence).
    by_cases; cbn in *; congruence.
  - revert Hs. unfold TERMINAL_BUSINESS. rewrite !elem_of_cons, elem_of_nil. destruct s; naive_solver.
Qed.
