(* ===== verification/History.v ===== *)
(** * What every operation preserves

    [db_le d d'] says that [d'] continues the history of [d]: the frozen
    columns of a task never change and its counters never go back, a settled
    task keeps its outcome, ledger rows keep their identity and only move
    forward in phase, task events and audit rows are only appended, and a
    device's fencing counter never goes back. Each operation is proved to
    continue the history in the file that models it. *)

From stdpp Require Import base gmap strings list.
From Stdlib Require Import ZArith Lia.
From S2P Require Import Prelude PyStd Domain Rows ControlledActions FleetIdentity FrozenShapes TaskOps.

Open Scope Z_scope.

(** ** Tasks *)

(** The task reached one of the terminal business states. *)
Definition settled (t : MobileTaskRow) : Prop := t_business_state t ∈ TERMINAL_BUSINESS.
#[export] Instance settled_dec t : Decision (settled t).
Proof. unfold settled. apply _. Defined.

Definition runner_done (t : MobileTaskRow) : Prop := t_status t = R_SUCCEEDED \/ t_status t = R_FAILED.
#[export] Instance runner_done_dec t : Decision (runner_done t).
Proof. unfold runner_done. apply _. Defined.

(** The runner status and the business state agree on whether the task is over. *)
Definition consistent (t : MobileTaskRow) : Prop := settled t <-> runner_done t.

Definition frozen_columns (t : MobileTaskRow) :=
  (t_id t, t_tenant_id t, t_device_id t, (t_idempotency_key t, t_request_sha256 t, t_requested_by t),
   (t_target_package t, t_account_id t, t_binding_version t, t_operation_id t, t_command_type t),
   (t_command_payload t, t_steps t, t_attempt_id t, t_created_at t)).

Definition outcome_columns (t : MobileTaskRow) :=
  (t_business_state t, t_status t, t_result t, t_error_code t, t_detail t, t_completed_at t).

Record task_le (t t' : MobileTaskRow) : Prop := mkTaskLe {
  le_frozen : frozen_columns t' = frozen_columns t;
  le_attempt : t_attempt t <= t_attempt t';
  le_sequence : t_last_sequence t <= t_last_sequence t';
  le_revision : control_revision t <= control_revision t';
  le_resume : t_resume_count t <= t_resume_count t';
  le_consistent : consistent t -> consistent t';
  le_outcome : consistent t -> settled t -> outcome_columns t' = outcome_columns t;
}.

#[export] Instance task_le_refl : Reflexive task_le.
Proof. intros t. by split; try lia. Qed.

#[export] Instance task_le_trans : Transitive task_le.
Proof.
  intros t u v [F1 A1 S1 R1 C1 K1 O1] [F2 A2 S2 R2 C2 K2 O2].
  split; try lia; try congruence; [auto|].
  intros Hc Hs. specialize (O1 Hc Hs). rewrite <- O1. apply O2; [auto|].
  unfold settled. injection O1 as -> _ _ _ _ _. exact Hs.
Qed.

Lemma task_le_id t t' : task_le t t' -> t_id t' = t_id t.
Proof. intros [F _ _ _ _ _ _]. by injection F. Qed.

(** ** Ledger rows *)

Record action_le (a a' : MobileActionCommitRow) : Prop := mkActionLe {
  ale_identity : a_identity a' = a_identity a;
  ale_lease : a_lease_id a' = a_lease_id a;
  ale_before : a_before_evidence a' = a_before_evidence a;
  ale_account : a_platform_account_id a' = a_platform_account_id a;
  ale_revision : a_resolution_revision a <= a_resolution_revision a';
  ale_phase : 0 <= a_resolution_revision a -> phase_transition_allowed (action_phase a) (action_phase a') = true;
}.

#[export] Instance action_le_refl : Reflexive action_le.
Proof. intros a. split; auto using phase_transition_refl. lia. Qed.

#[export] Instance action_le_trans : Transitive action_le.
Proof.
  intros a b c [I1 L1 B1 P1 R1 H1] [I2 L2 B2 P2 R2 H2]. split; try congruence; [lia|].
  intros H. eapply phase_transition_trans; [by apply H1|]. apply H2. lia.
Qed.

(** The revision counter of a ledger row starts at 0 and only goes up. *)
Definition revised (a : MobileActionCommitRow) : Prop := 0 <= a_resolution_revision a.

(** ** Growing lists and the whole database *)

(** [l'] is [l] with its elements evolved by [R] and new ones appended, each
    of which satisfies [N]. *)
Definition grows {A} (R : A -> A -> Prop) (N : A -> Prop) (l l' : list A) : Prop :=
  exists l1 new, l' = l1 ++ new /\ Forall2 R l l1 /\ Forall N new.

Definition anything {A} (_ : A) : Prop := True.

Lemma grows_refl {A} (R : A -> A -> Prop) N `{!Reflexive R} l : grows R N l l.
Proof. exists l, []. by rewrite app_nil_r. Qed.

(** [N] has to survive the evolution of the element. *)
Class Stable {A} (R : A -> A -> Prop) (N : A -> Prop) : Prop := stable : forall x y, R x y -> N x -> N y.

#[export] Instance anything_stable {A} (R : A -> A -> Prop) : Stable R anything.
Proof. done. Qed.
#[export] Instance revised_stable : Stable action_le revised.
Proof. intros a a' [_ _ _ _ H _]. unfold revised. lia. Qed.
#[export] Instance consistent_stable : Stable task_le consistent.
Proof. intros t t' H. exact (le_consistent _ _ H). Qed.

Lemma stable_Forall2 {A} (R : A -> A -> Prop) N `{!Stable R N} l l' : Forall2 R l l' -> Forall N l -> Forall N l'.
Proof. induction 1 as [|x y l l' HR HF IH]; [done|]. intros [Hx Hl]%Forall_cons. constructor; [by apply (stable x)|auto]. Qed.

Lemma grows_trans {A} (R : A -> A -> Prop) N `{!Reflexive R} `{!Transitive R} `{!Stable R N} l m n :
  grows R N l m -> grows R N m n -> grows R N l n.
Proof.
  intros (l1 & new1 & -> & H1 & N1) (l2 & new2 & -> & H2 & N2).
  apply Forall2_app_inv_l in H2 as (k1 & k2 & Hk1 & Hk2 & ->).
  exists k1, (k2 ++ new2). split; [by rewrite app_assoc|]. split; [by transitivity l1|].
  apply Forall_app. split; [|done]. by apply (stable_Forall2 R N new1).
Qed.

Lemma grows_app {A} (R : A -> A -> Prop) (N : A -> Prop) `{!Reflexive R} l new : Forall N new -> grows R N l (l ++ new).
Proof. intros H. by exists l, new. Qed.

Lemma anything_all {A} (l : list A) : Forall anything l.
Proof. by apply Forall_true. Qed.

Lemma grows_snoc {A} (R : A -> A -> Prop) (N : A -> Prop) `{!Reflexive R} l x : N x -> grows R N l (l ++ [x]).
Proof. intros H. apply grows_app; [done|by repeat constructor]. Qed.

Lemma grows_Forall2 {A} (R : A -> A -> Prop) N l l' : Forall2 R l l' -> grows R N l l'.
Proof. intros H. exists l', []. by rewrite app_nil_r. Qed.

Lemma grows_Forall {A} (R : A -> A -> Prop) N `{!Stable R N} l l' : grows R N l l' -> Forall N l -> Forall N l'.
Proof. intros (l1 & new & -> & HF & Hn) H. apply Forall_app. split; [by apply (stable_Forall2 R N l)|done]. Qed.

Lemma grows_In {A} (R : A -> A -> Prop) N l l' x : grows R N l l' -> x ∈ l -> exists y, y ∈ l' /\ R x y.
Proof.
  intros (l1 & new & -> & HF & _) Hx. apply list_elem_of_lookup in Hx as [i Hi].
  destruct (Forall2_lookup_l _ _ _ _ _ HF Hi) as (y & Hy & Hr). exists y. split; [|done].
  apply elem_of_app. left. by eapply list_elem_of_lookup_2.
Qed.

Record device_le (x y : DeviceRow) : Prop := mkDeviceLe {
  dl_tenant : d_tenant_id y = d_tenant_id x;
  dl_fence : d_fencing_counter x <= d_fencing_counter y;
  dl_epoch : d_control_epoch x <= d_control_epoch y;
}.

#[export] Instance device_le_refl : Reflexive device_le.
Proof. intros x. by split. Qed.

#[export] Instance device_le_trans : Transitive device_le.
Proof. intros x y z [] []. split; [congruence|lia|lia]. Qed.

Definition devices_le (m m' : gmap string DeviceRow) : Prop :=
  forall k x, m !! k = Some x -> exists y, m' !! k = Some y /\ device_le x y.

Record db_le (d d' : db) : Prop := mkDbLe {
  dle_tasks : grows task_le consistent (tasks d) (tasks d');
  dle_actions : grows action_le revised (actions d) (actions d');
  dle_events : grows eq anything (task_events d) (task_events d');
  dle_audits : grows eq anything (audits d) (audits d');
  dle_devices : devices_le (devices d) (devices d');
}.

#[export] Instance devices_le_refl : Reflexive devices_le.
Proof. intros m k x H. by exists x. Qed.

#[export] Instance devices_le_trans : Transitive devices_le.
Proof.
  intros m n o H1 H2 k x Hx. destruct (H1 k x Hx) as (y & Hy & L1).
  destruct (H2 k y Hy) as (z & Hz & L2). exists z. split; [done|]. by transitivity y.
Qed.

#[export] Instance db_le_refl : Reflexive db_le.
Proof. intros d. split; try apply grows_refl; try apply _; reflexivity. Qed.

#[export] Instance db_le_trans : Transitive db_le.
Proof.
  intros d e f [T1 A1 E1 U1 D1] [T2 A2 E2 U2 D2].
  split; [by eapply grows_trans; eauto; apply _..|by transitivity (devices e)].
Qed.

(** ** How single updates continue the history *)

Lemma tput_Forall2 {R} (key : R -> string) (P : R -> R -> Prop) `{!Reflexive P} (row row' : R) l :
  NoDup (key <$> l) -> tget key (key row') l = Some row -> P row row' -> Forall2 P l (tput key row' l).
Proof.
  intros Hnd Hg HP.
  assert (forall m, m ⊆ l -> Forall2 P m (tput key row' m)) as Hm; [|by apply Hm].
  induction m as [|x m IH]; intros Hsub; cbn; [constructor|].
  constructor; [|apply IH; set_solver].
  case_decide as E; [|reflexivity].
  pose proof (tget_In key l x Hnd ltac:(set_solver)) as Hx. rewrite E, Hg in Hx. by injection Hx as <-.
Qed.

Lemma put_task_le d d0 row row' :
  NoDup (t_id <$> tasks d) -> get_task d (t_id row') = Some row -> task_le row row' ->
  tasks d0 = tasks d -> grows task_le consistent (tasks d) (tasks (put_task row' d0)).
Proof.
  intros Hnd Hg Hle E. apply grows_Forall2. cbn. rewrite E. by apply (tput_Forall2 t_id task_le row).
Qed.

Lemma devices_le_put m k x y : m !! k = Some x -> device_le x y -> devices_le m (<[k := y]> m).
Proof.
  intros Hx Hle k' z Hz. destruct (decide (k = k')) as [->|Hne].
  - exists y. rewrite lookup_insert_eq. split; [done|]. congruence.
  - exists z. by rewrite lookup_insert_ne.
Qed.

(** The same rows, and devices that continue their history. *)
Lemma tables_le d d' :
  tasks d' = tasks d -> actions d' = actions d -> task_events d' = task_events d -> audits d' = audits d ->
  devices_le (devices d) (devices d') -> db_le d d'.
Proof. intros Ht Ha He Hu Hd. split; rewrite ?Ht, ?Ha, ?He, ?Hu; try apply grows_refl; try apply _; done. Qed.

Lemma not_settled_live s : business_state_of s ∈ TERMINAL_BUSINESS -> settled s \/ exists x, t_business_state s = B_RAW x.
Proof. unfold settled, business_state_of. destruct (t_business_state s); auto. eauto. Qed.

Lemma settled_business t : settled t -> business_state_of t = t_business_state t.
Proof.
  unfold settled, business_state_of, TERMINAL_BUSINESS. rewrite !elem_of_cons, elem_of_nil.
  destruct (t_business_state t); naive_solver.
Qed.

Lemma live_consistent t : ~ settled t -> ~ runner_done t -> consistent t.
Proof. unfold consistent. tauto. Qed.

Lemma done_consistent t : settled t -> runner_done t -> consistent t.
Proof. unfold consistent. tauto. Qed.

(** A step of a task that is not over: the new row must only agree with
    itself on whether it is over. *)
Lemma task_le_live t t' :
  frozen_columns t' = frozen_columns t -> t_attempt t <= t_attempt t' -> t_last_sequence t <= t_last_sequence t' ->
  control_revision t <= control_revision t' -> t_resume_count t <= t_resume_count t' ->
  ~ settled t -> (~ runner_done t -> consistent t') -> task_le t t'.
Proof.
  intros HF HA HS HR HC Hns Hcons. split; try done.
  intros Hc. apply Hcons. unfold consistent in Hc. tauto.
Qed.

Lemma get_task_id d k row : get_task d k = Some row -> t_id row = k.
Proof. by intros [_ H]%tget_Some. Qed.

Lemma record_inv row kind reason actor now m z :
  record_control_event row kind reason actor now = (m, z) ->
  z = control_revision row + 1
  /\ exists evs, m = row <| t_header := (t_header row) <| h_controlRevision := Some z |> <| h_controlEvents := evs |> |>.
Proof. unfold record_control_event. intros [= <- <-]. split; [done|]. by eexists. Qed.

Lemma matrix_live (f : BusinessState -> option ControlOutcome) t o :
  Forall (fun s => f s <> Some o) TERMINAL_BUSINESS -> f (business_state_of t) = Some o -> ~ settled t.
Proof.
  intros HF Hf Hs. rewrite (settled_business t Hs) in Hf. rewrite Forall_forall in HF. by apply (HF _ Hs).
Qed.

Ltac not_terminal := repeat constructor; cbn; first [congruence | intros [= ?]; subst; tauto].

(** Closes [consistent t'] for rows whose states are literal. *)
Ltac states_agree :=
  unfold consistent, settled, runner_done, TERMINAL_BUSINESS in *; cbn in *;
  rewrite ?elem_of_cons, ?elem_of_nil in *; intuition congruence.

Ltac record_events :=
  repeat match goal with
  | E : record_control_event _ _ _ _ _ = _ |- _ => apply record_inv in E as [? [? ?]]; subst
  end.

Ltac live_task :=
  apply task_le_live; [reflexivity|cbn; lia|cbn; lia|unfold control_revision in *; cbn; lia|cbn; lia| |].
