(* ===== verification/ControlPlane.v ===== *)
(** * Operator control plane: [PlatformTaskService] of platform_tasks.py

    Cancel, pause, pause acknowledgement, resume, mark-unknown, reconcile,
    the guard of retry and the read-only window proof. Every handler is one
    transaction on the database; [now] is the clock it reads first,
    [audited_at] the clock read by its audit row. *)

From stdpp Require Import base gmap strings list.
From Stdlib Require Import ZArith Lia.
From S2P Require Import Prelude PyStd Domain Rows ControlledActions FleetIdentity FrozenShapes TaskOps History.

Open Scope Z_scope.

Definition operator (actor : Actor) : string := "operator:" +:+ actor_user_id actor.

(** [session.get(MobileTaskRow, task_id)] scoped to the actor's tenant. *)
Definition platform_task (d : db) (actor : Actor) (task_id : string) : result error MobileTaskRow :=
  need row := get_task d task_id orelse NotFoundError "platform task was not found" in
  raise_if t_tenant_id row <> actor_tenant_id actor with NotFoundError "platform task was not found" in
  Ok row.

Definition platform_device (d : db) (actor : Actor) (device_id : string) : result error DeviceRow :=
  need device := devices d !! device_id orelse NotFoundError "device was not found" in
  raise_if d_tenant_id device <> actor_tenant_id actor with NotFoundError "device was not found" in
  Ok device.

Definition reconcile_first : error := ConflictError "uncertain result must be reconciled before cancellation".

Definition cancel (actor : Actor) (task_id reason : string) (now audited_at : Z) (d : db)
    : result error (MobileTaskRow * db) :=
  let? _ := require_permissions (actor_roles actor) [TASK_CREATE] in
  unit_of_work (fun d =>
    let? located := platform_task d actor task_id in
    let device_id := t_device_id located in
    let? device := platform_device d actor device_id in
    let? row := platform_task d actor task_id in
    raise_if t_device_id row <> device_id with NotFoundError "platform task was not found" in
    need outcome := CANCEL_TRANSITIONS (business_state_of row) orelse KeyError "business_state" in
    if decide (outcome = IDEMPOTENT_RETURN) then Ok (row, d) else
    raise_if outcome = REJECTED_TERMINAL with ConflictError "terminal platform task cannot be canceled" in
    raise_if outcome = REJECTED_RECONCILE_FIRST with reconcile_first in
    raise_if has_commit_intent row = true with reconcile_first in
    if decide (outcome = DO_CANCEL_REQUEST) then
      let '(row, revision) := record_control_event row K_CANCEL_REQUESTED reason (operator actor) now in
      let row := row <| t_business_state := B_CANCEL_REQUESTED |> <| t_stall_reason := Some (str_take 160 reason) |> in
      Ok (row, add_audit (audit_control_event row "cancel_requested" revision (actor_user_id actor) "operator"
                            [("reason", JStr (str_take 160 reason))] audited_at) (put_task row d))
    else
      let row := row <| t_status := R_FAILED |> <| t_business_state := B_CANCELLED |>
                     <| t_error_code := Some "CANCELLED" |> <| t_detail := Some reason |>
                     <| t_completed_at := Some now |> <| t_lease_id := None |> <| t_lease_expires_at := None |> in
      let '(occupation_released, d) := release_occupation row now d in
      let '(row, revision) := record_control_event row K_CANCELLED reason (operator actor) now in
      let d := add_audit (audit_control_event row "cancelled" revision (actor_user_id actor) "operator"
                            [("occupationReleased", JBool occupation_released)] audited_at) (put_task row d) in
      Ok (row, settle_reply_delivery (t_id row) B_CANCELLED d)) d.

Definition pause (actor : Actor) (task_id reason : string) (now audited_at : Z) (d : db)
    : result error (MobileTaskRow * db) :=
  let? _ := require_permissions (actor_roles actor) [DEVICE_CONTROL] in
  unit_of_work (fun d =>
    let? row := platform_task d actor task_id in
    need outcome := PAUSE_TRANSITIONS (business_state_of row) orelse KeyError "business_state" in
    if decide (outcome = IDEMPOTENT_RETURN) then Ok (row, d) else
    raise_if outcome = REJECTED_TERMINAL with ConflictError "terminal platform task cannot be paused" in
    raise_if outcome = REJECTED_RECONCILE_FIRST
      with ConflictError "uncertain result must be reconciled before pause" in
    raise_if outcome = REJECTED_CANCEL_WINS with ConflictError "cancelled task cannot be paused" in
    let '(row, revision) := record_control_event row K_PAUSE_REQUESTED reason (operator actor) now in
    let row := row <| t_business_state := B_PAUSE_REQUESTED |> <| t_stall_reason := Some (str_take 160 reason) |> in
    Ok (row, add_audit (audit_control_event row "pause_requested" revision (actor_user_id actor) "operator" []
                          audited_at) (put_task row d))) d.

(** [a and b and b != a] on optional strings. *)
Definition both_differ (a b : option string) : bool :=
  truthy_str a && truthy_str b && bool_decide (b <> a).

Definition ack_paused (task_id : string) (lease_id : option string) (now audited_at : Z) (d : db)
    : result error (MobileTaskRow * db) :=
  unit_of_work (fun d =>
    need row := get_task d task_id orelse NotFoundError "platform task was not found" in
    need outcome := ACK_PAUSED_TRANSITIONS (business_state_of row) orelse KeyError "business_state" in
    raise_if outcome = REJECTED_TERMINAL \/ t_status row = R_SUCCEEDED \/ t_status row = R_FAILED
      with ConflictError "terminal platform task cannot be pause-acked" in
    raise_if outcome = REJECTED_RECONCILE_FIRST
      with ConflictError "uncertain result must be reconciled before pause acknowledgement" in
    raise_if outcome = REJECTED_CANCEL_WINS with ConflictError "cancelled task cannot be pause-acked" in
    raise_if outcome = REJECTED_SUPERSEDED
      with ConflictError "task already resumed; late pause acknowledgement is superseded" in
    raise_if both_differ lease_id (t_lease_id row) = true with ConflictError "pause ack lease does not match" in
    if decide (outcome = IDEMPOTENT_RETURN) then Ok (row, d) else
    let '(row, kind) :=
      if has_commit_intent row
      then (row <| t_business_state := B_RECONCILING |>
                <| t_stall_reason := Some (str_or (t_stall_reason row) "commit intent already written") |>,
            K_PAUSE_ACKED_RECONCILING)
      else (row <| t_business_state := B_PAUSED_WAITING_USER |>, K_PAUSE_ACKED) in
    let row := row <| t_pause_ack_at := Some now |> <| t_control_mode := REMOTE |> in
    let '(row, revision) :=
      record_control_event row kind (str_or (t_stall_reason row) "pause acknowledged") "companion" now in
    Ok (row, add_audit (audit_control_event row "pause_acked" revision "companion" "companion" [] audited_at)
               (put_task row d))) d.

Record resume_request := mkResume { page_verified : bool; resume_reason : string }.

Definition binding_changed (d : db) (row : MobileTaskRow) : bool :=
  truthy_str (t_account_id row) &&
  match live_account_binding d (t_tenant_id row) (default "" (t_account_id row)) (t_device_id row) with
  | None => true
  | Some live => bool_decide (t_binding_version row <> None /\ Some (ab_binding_version live) <> t_binding_version row)
  end.

Definition resume (actor : Actor) (task_id : string) (request : resume_request) (new_lease_id : string)
    (now audited_at : Z) (d : db) : result error (MobileTaskRow * db) :=
  let? _ := require_permissions (actor_roles actor) [DEVICE_CONTROL] in
  unit_of_work (fun d =>
    let? located := platform_task d actor task_id in
    let device_id := t_device_id located in
    let? device := platform_device d actor device_id in
    let? row := platform_task d actor task_id in
    raise_if t_device_id row <> device_id with NotFoundError "platform task was not found" in
    need outcome := RESUME_TRANSITIONS (business_state_of row) orelse KeyError "business_state" in
    raise_if outcome = REJECTED_CANCEL_WINS with ConflictError "cancelled task cannot be resumed" in
    raise_if outcome = REJECTED_RECONCILE_FIRST
      with ConflictError "reconciling tasks must be decided before resume" in
    raise_if outcome <> DO_RESUME_CHECK
      with ConflictError "resume requires pause ack before the original task can continue" in
    raise_if page_verified request = false
      with ValidationError "resume requires pageVerified=true after resumeGuard" in
    raise_if truthy_commit_intent row = true
      with ConflictError "reconciling tasks must be decided before resume" in
    raise_if binding_changed d row = true
      with ConflictError "account or binding changed; original task cannot continue" in
    let d := delete_lease (t_device_id row) d in
    let device := device <| d_fencing_counter := d_fencing_counter device + 1 |>
                         <| d_control_epoch := d_control_epoch device + 1 |> in
    let expires := now + seconds 60 in
    let row := row <| t_lease_id := Some new_lease_id |> <| t_lease_expires_at := Some expires |> in
    let row := row <| t_status := if decide (t_status row = R_QUEUED \/ t_status row = R_CLAIMED
                                             \/ t_status row = R_RUNNING)
                                  then R_RUNNING else t_status row |> in
    let row := row <| t_business_state := B_RESUME_CHECK |> <| t_control_mode := AUTO |>
                   <| t_resume_count := t_resume_count row + 1 |>
                   <| t_stall_reason := Some (resume_reason request) |> in
    let lease := mkLease (t_tenant_id row) new_lease_id (auto_workflow row) (d_fencing_counter device)
                   expires None AUTO in
    let d := put_lease device_id lease (put_device device_id device d) in
    let row := row <| t_header := (t_header row) <| h_controlEpoch := Some (d_fencing_counter device) |> |> in
    let '(row, revision) := record_control_event row K_RESUMED (resume_reason request) (operator actor) now in
    Ok (row, add_audit (audit_control_event row "resumed" revision (actor_user_id actor) "operator"
                          [("pageVerified", JBool true); ("controlEpoch", JInt (d_fencing_counter device))]
                          audited_at) (put_task row d))) d.

Definition reconciliation_history (row : MobileTaskRow) : list json :=
  match jget "history" (t_reconciliation row) with Some (JArr l) => l | _ => [] end.

Definition mark_unknown (actor : Actor) (task_id reason : string) (now audited_at : Z) (d : db)
    : result error (MobileTaskRow * db) :=
  let? _ := require_permissions (actor_roles actor) [TASK_CREATE] in
  unit_of_work (fun d =>
    let? row := platform_task d actor task_id in
    raise_if business_state_of row ∈ TERMINAL_BUSINESS \/ t_status row = R_SUCCEEDED
      with ConflictError "terminal tasks cannot enter reconciliation" in
    let reconciliation :=
      jset "history" (JArr (reconciliation_history row))
        (jset "reason" (JStr reason) (jset "status" (JStr "UNKNOWN") (t_reconciliation row))) in
    let row := row <| t_business_state := B_RECONCILING |> <| t_stall_reason := Some (str_take 160 reason) |>
                   <| t_reconciliation := reconciliation |> in
    let '(row, revision) := record_control_event row K_MARKED_UNKNOWN reason (operator actor) now in
    Ok (row, add_audit (audit_control_event row "marked_unknown" revision (actor_user_id actor) "operator" []
                          audited_at) (put_task row d))) d.

(** ** Reconciliation *)

Inductive ReconcileDecision : Type := CONFIRMED_APPLIED | CONFIRMED_NOT_SUBMITTED | KEEP_WAITING.
#[export] Instance ReconcileDecision_eq_dec : EqDecision ReconcileDecision.
Proof. solve_decision. Defined.

Definition decision_value (x : ReconcileDecision) : string :=
  match x with
  | CONFIRMED_APPLIED => "CONFIRMED_APPLIED" | CONFIRMED_NOT_SUBMITTED => "CONFIRMED_NOT_SUBMITTED"
  | KEEP_WAITING => "KEEP_WAITING"
  end.

Record reconcile_request := mkReconcile {
  rq_decision : ReconcileDecision; rq_evidence : string; rq_platform_item_id : option string;
}.

Definition task_actions (d : db) (task_id : string) : list MobileActionCommitRow :=
  filter (fun a => a_task_id a = task_id) (actions d).

Definition resolution_status (x : ReconcileDecision) : ActionStatus :=
  if decide (x = CONFIRMED_APPLIED) then A_APPLIED else A_NOT_SUBMITTED.

(** Every ledger row of the task is resolved with the decision, and audited. *)
Definition resolve_actions (task_id : string) (request : reconcile_request) (actor : Actor) (now audited_at : Z)
    (d : db) : db :=
  if decide (rq_decision request = KEEP_WAITING) then d else
  let resolve a := resolved a (resolution_status (rq_decision request)) (rq_evidence request) now in
  d <| actions := (fun a => if decide (a_task_id a = task_id) then resolve a else a) <$> actions d |>
    <| audits := audits d ++ ((fun a => audit_action (resolve a) (actor_user_id actor) "resolved" audited_at)
                                <$> task_actions d task_id) |>.

Definition history_entry (row : MobileTaskRow) (request : reconcile_request) (actor : Actor) (now : Z) : json :=
  JObj [("decision", JStr (decision_value (rq_decision request))); ("evidence", JStr (rq_evidence request));
        ("platformItemId", json_opt (rq_platform_item_id request)); ("actorId", JStr (actor_user_id actor));
        ("occurredAt", json_time now); ("attemptId", json_opt (t_attempt_id row))].

Definition reconcile (actor : Actor) (task_id : string) (request : reconcile_request) (now audited_at : Z) (d : db)
    : result error (MobileTaskRow * db) :=
  let? _ := require_permissions (actor_roles actor) [TASK_CREATE] in
  unit_of_work (fun d =>
    let? row := platform_task d actor task_id in
    raise_if t_business_state row ∈ TERMINAL_BUSINESS
      with ConflictError "terminal tasks cannot be reconciled again" in
    raise_if t_business_state row <> B_RECONCILING /\ t_error_code row <> Some "COMMIT_UNKNOWN"
             /\ t_error_code row <> Some "RECONCILING"
      with ConflictError "only RECONCILING tasks can be reconciled" in
    raise_if rq_decision request = CONFIRMED_NOT_SUBMITTED
             /\ Exists (fun a => a_status a = A_APPLIED) (task_actions d (t_id row))
      with ConflictError "reported APPLIED evidence contradicts NOT_SUBMITTED" in
    let d := resolve_actions (t_id row) request actor now audited_at d in
    let history := JArr (reconciliation_history row ++ [history_entry row request actor now]) in
    match rq_decision request with
    | KEEP_WAITING =>
        let row := row <| t_business_state := B_RECONCILING |>
                       <| t_stall_reason := Some "waiting for unique platform result" |>
                       <| t_reconciliation := [("status", JStr "KEEP_WAITING"); ("history", history)] |> in
        let '(row, revision) :=
          record_control_event row K_RECONCILED_KEEP_WAITING (rq_evidence request) (operator actor) now in
        Ok (row, add_audit (audit_control_event row "reconciled_keep_waiting" revision (actor_user_id actor)
                              "operator" [("evidence", JStr (str_take 160 (rq_evidence request)))] audited_at)
                   (put_task row d))
    | CONFIRMED_APPLIED =>
        raise_if truthy_str (rq_platform_item_id request) = false
          with ConflictError "CONFIRMED_APPLIED requires a unique platformItemId" in
        let result := jset "platformItemId" (json_opt (rq_platform_item_id request))
                        (jset "outcome" (JStr "applied") (t_result row)) in
        let row := row <| t_status := R_SUCCEEDED |> <| t_business_state := B_SUCCEEDED |>
                       <| t_error_code := None |> <| t_detail := Some (rq_evidence request) |>
                       <| t_completed_at := Some now |> <| t_result := result |>
                       <| t_reconciliation := [("status", JStr "APPLIED"); ("history", history)] |> in
        let '(row, revision) :=
          record_control_event row K_RECONCILED_APPLIED (rq_evidence request) (operator actor) now in
        let d := add_audit (audit_control_event row "reconciled_applied" revision (actor_user_id actor)
                              "operator" [("platformItemId", json_opt (rq_platform_item_id request))] audited_at)
                   (put_task row d) in
        Ok (row, settle_reply_delivery (t_id row) B_SUCCEEDED d)
    | CONFIRMED_NOT_SUBMITTED =>
        let row := row <| t_status := R_FAILED |> <| t_business_state := B_FAILED |>
                       <| t_error_code := Some "CONFIRMED_NOT_SUBMITTED" |>
                       <| t_detail := Some (rq_evidence request) |> <| t_completed_at := Some now |>
                       <| t_reconciliation := [("status", JStr "NOT_SUBMITTED"); ("history", history)] |> in
        let '(row, revision) :=
          record_control_event row K_RECONCILED_NOT_SUBMITTED (rq_evidence request) (operator actor) now in
        let d := add_audit (audit_control_event row "reconciled_not_submitted" revision (actor_user_id actor)
                              "operator" [("evidence", JStr (str_take 160 (rq_evidence request)))] audited_at)
                   (put_task row d) in
        Ok (row, settle_reply_delivery (t_id row) B_FAILED d)
    end) d.

(** ** Retry: the guard and the request it builds *)

Definition SAFE_RETRY_CODES : list string :=
  ["LOCATOR_NOT_FOUND"; "STEP_TIMEOUT"; "APP_NOT_FOREGROUND"; "NETWORK_UNAVAILABLE"; "PREFLIGHT_FAILED"].
Definition UNSAFE_RETRY_CODES : list string :=
  ["ACCOUNT_CHANGED"; "COMMIT_UNKNOWN"; "XIANYU_PUBLISH_SUCCESS"; "RECONCILING"].

(** [a or b or c] on payload values. *)
Definition json_or (a b : option json) : option json :=
  match a with Some v => if jtruthy v then a else b | None => b end.
Definition json_of (o : option string) : option json := JStr <$> o.

Definition retry_body (source : MobileTaskRow) : list (string * option json) :=
  let payload := t_command_payload source in
  [("deviceId", Some (JStr (t_device_id source)));
   ("commandType", json_or (json_of (t_command_type source))
      (json_or (jget "commandType" payload) (Some (JStr "device.probe_capabilities.v1"))));
   ("accountId", json_or (json_of (t_account_id source)) (jget "accountId" payload));
   ("expectedBindingVersion", JInt <$> t_binding_version source);
   ("parameters", json_or (jget "parameters" payload) (Some (JObj [])));
   ("publishTargetId", jget "publishTargetId" payload);
   ("productId", jget "productId" payload);
   ("mediaDeliveryId", jget "mediaDeliveryId" payload);
   ("operationId", json_or (json_of (t_operation_id source)) (jget "operationId" payload));
   ("templateRevision", jget "templateRevision" payload)].

(** The first transaction of [retry]: it admits the retry and returns the
    idempotency key and the body passed to [create]. *)
Definition retry_request (actor : Actor) (task_id reason : string) (d : db)
    : result error (string * list (string * option json)) :=
  let? _ := require_permissions (actor_roles actor) [TASK_CREATE] in
  let? source := platform_task d actor task_id in
  raise_if t_business_state source = B_RECONCILING
    with ConflictError "uncertain result must be reconciled before retry" in
  raise_if t_business_state source <> B_FAILED /\ t_status source <> R_FAILED
    with ConflictError "only a failed task can be retried" in
  raise_if from_option (fun c => bool_decide (c ∈ UNSAFE_RETRY_CODES)) false (t_error_code source) = true
    with ConflictError "uncertain or binding-changed failures must be reconciled first" in
  raise_if truthy_str (t_error_code source) = true /\ default "" (t_error_code source) ∉ SAFE_RETRY_CODES
    with ConflictError "this failure is not classified as safely retryable" in
  Ok ("retry:" +:+ t_id source +:+ ":" +:+ py_str_int (t_attempt source + 1) +:+ ":" +:+ str_take 24 reason,
      retry_body source).

(** ** The read-only window *)

Inductive WindowVerdict : Type := ALLOWED | BLOCKED_EXECUTOR_LIVE | BLOCKED_OCCUPANCY_LIVE.

Definition lease_live (moment : Z) (expires_at : option Z) : Prop := ~ expired expires_at moment.
#[export] Instance lease_live_dec m e : Decision (lease_live m e).
Proof. unfold lease_live. apply _. Defined.

Definition executor_live (d : db) (tenant_id device_id : string) (moment : Z) : list MobileTaskRow :=
  filter (fun t => t_tenant_id t = tenant_id /\ t_device_id t = device_id
                   /\ (t_status t = R_CLAIMED \/ (t_status t = R_RUNNING /\ lease_live moment (t_lease_expires_at t))))
    (tasks d).

Definition live_leases (d : db) (tenant_id device_id : string) (moment : Z) : list DeviceLeaseRow :=
  match leases d !! device_id with
  | Some l => if decide (l_tenant_id l = tenant_id /\ l_canceled_at l = None /\ l_expires_at l > moment)
              then [l] else []
  | None => []
  end.

Definition evaluate_readonly_window (d : db) (tenant_id device_id : string) (moment : Z)
    : WindowVerdict * list MobileTaskRow * list DeviceLeaseRow * nat * list string :=
  let executor := executor_live d tenant_id device_id moment in
  let live := live_leases d tenant_id device_id moment in
  let verdict := match executor, live with
                 | _ :: _, _ => BLOCKED_EXECUTOR_LIVE
                 | [], _ :: _ => BLOCKED_OCCUPANCY_LIVE
                 | [], [] => ALLOWED
                 end in
  (verdict, executor, live, length (open_unknown_actions d tenant_id device_id),
   str_sorted (t_id <$> filter (fun t => t_tenant_id t = tenant_id /\ t_device_id t = device_id
                                         /\ business_state_of t = B_RECONCILING) (tasks d))).

(** ** Every control decision continues the history *)

Lemma platform_task_Ok d actor k row :
  platform_task d actor k = Ok row -> get_task d k = Some row /\ t_id row = k.
Proof.
  unfold platform_task. intros H. ok_inv H. split; [done|].
  by apply tget_Some in E as [_ E].
Qed.

Lemma platform_device_Ok d actor k x : platform_device d actor k = Ok x -> devices d !! k = Some x.
Proof. unfold platform_device. intros H. by ok_inv H. Qed.

Ltac located_rows :=
  repeat match goal with
  | E : platform_task _ _ _ = Ok _ |- _ => apply platform_task_Ok in E as [? ?]
  | E : platform_device _ _ _ = Ok _ |- _ => apply platform_device_Ok in E
  | E : ~ (_ <> _) |- _ => apply dec_stable in E
  | E : get_task _ ?k = Some ?r |- _ =>
      lazymatch k with t_id r => fail | _ => pose proof (get_task_id _ _ _ E); subst k end
  end; simplify_eq.

(** A handler that wrote one task row and left the rest of the history. *)
Lemma put_one_le d d' k row row' new_audits :
  unique_indexes d -> get_task d k = Some row -> tasks d' = tput t_id row' (tasks d) ->
  t_id row' = k -> task_le row row' -> actions d' = actions d -> task_events d' = task_events d ->
  audits d' = audits d ++ new_audits -> devices_le (devices d) (devices d') -> db_le d d'.
Proof.
  intros [Hnd _] Hg Ht <- Hle Ha He Hu Hd. split; rewrite ?Ht, ?Ha, ?He, ?Hu.
  - by apply (put_task_le d d row row').
  - apply grows_refl, _.
  - apply grows_refl, _.
  - apply grows_app; [apply _|apply anything_all].
  - done.
Qed.

(** The same when leases and messages were also written, before or after. *)
Lemma put_one_le_frame d d1 d2 d' k row row' new_audits :
  unique_indexes d -> get_task d k = Some row -> same_history d d1 -> same_history d2 d' ->
  tasks d2 = tput t_id row' (tasks d1) -> t_id row' = k -> task_le row row' ->
  actions d2 = actions d1 -> task_events d2 = task_events d1 ->
  audits d2 = audits d1 ++ new_audits -> devices d2 = devices d1 -> db_le d d'.
Proof.
  intros Hu Hg (T1 & A1 & E1 & U1 & D1) (T3 & A3 & E3 & U3 & D3) T2 Hk Hle A2 E2 U2 D2.
  eapply (put_one_le d d' k row row' new_audits); try done; try congruence.
  rewrite D3, D2, D1. reflexivity.
Qed.

Lemma cancel_le actor k reason now at_ d row' d' :
  unique_indexes d -> cancel actor k reason now at_ d = Ok (row', d') -> db_le d d'.
Proof.
  unfold cancel. intros Hu H. destruct (require_permissions _ _); [|done].
  apply unit_of_work_Ok in H as [H _]. ok_inv H; [reflexivity| |]; located_rows; record_events.
  - eapply put_one_le; [done|eassumption|reflexivity|done| |reflexivity..]. live_task; [|states_agree].
    eapply matrix_live; [|eassumption]. not_terminal.
  - eapply put_one_le_frame; [done|eassumption|by eapply release_occupation_frame|apply settle_reply_frame
      |reflexivity|done| |reflexivity..].
    live_task; [|states_agree]. eapply matrix_live; [|eassumption]. not_terminal.
Qed.

Lemma pause_le actor k reason now at_ d row' d' :
  unique_indexes d -> pause actor k reason now at_ d = Ok (row', d') -> db_le d d'.
Proof.
  unfold pause. intros Hu H. destruct (require_permissions _ _); [|done].
  apply unit_of_work_Ok in H as [H _]. ok_inv H; [reflexivity|]; located_rows; record_events.
  eapply put_one_le; [done|eassumption|reflexivity|done| |reflexivity..]. live_task; [|states_agree].
  eapply matrix_live; [|eassumption]. not_terminal.
Qed.

Lemma ack_paused_le k lease now at_ d row' d' :
  unique_indexes d -> ack_paused k lease now at_ d = Ok (row', d') -> db_le d d'.
Proof.
  unfold ack_paused. intros Hu H. apply unit_of_work_Ok in H as [H _].
  ok_inv H; [reflexivity| |]; located_rows; record_events;
    (eapply put_one_le; [done|eassumption|reflexivity|done| |reflexivity..]);
    (live_task; [|states_agree]); (eapply matrix_live; [|eassumption]); not_terminal.
Qed.

Lemma resume_le actor k request lease now at_ d row' d' :
  unique_indexes d -> resume actor k request lease now at_ d = Ok (row', d') -> db_le d d'.
Proof.
  unfold resume. intros Hu H. destruct (require_permissions _ _); [|done].
  apply unit_of_work_Ok in H as [H _]. ok_inv H; located_rows; record_events.
  eapply put_one_le; [done|eassumption|reflexivity|done| |reflexivity|reflexivity|reflexivity|].
  - live_task; [eapply matrix_live; [|eassumption]; not_terminal|].
    case_decide; states_agree.
  - eapply devices_le_put; [eassumption|split; [done|cbn; lia..]].
Qed.

Lemma mark_unknown_le actor k reason now at_ d row' d' :
  unique_indexes d -> mark_unknown actor k reason now at_ d = Ok (row', d') -> db_le d d'.
Proof.
  unfold mark_unknown. intros Hu H. destruct (require_permissions _ _); [|done].
  apply unit_of_work_Ok in H as [H _]. ok_inv H; located_rows; record_events.
  eapply put_one_le; [done|eassumption|reflexivity|done| |reflexivity..].
  assert (~ settled value0) by (intros Hs; apply D; left; by rewrite settled_business).
  live_task; [done|states_agree].
Qed.

Lemma resolved_le a status evidence now : action_le a (resolved a status evidence now).
Proof.
  split; try reflexivity; [cbn; lia|]. intros H.
  assert (action_phase (resolved a status evidence now) = PHASE_RESOLVED) as ->.
  { unfold action_phase, phase_from; cbn. rewrite decide_True; [done|lia]. }
  by destruct (action_phase a).
Qed.

Lemma resolve_actions_history k request actor now at_ d :
  let d' := resolve_actions k request actor now at_ d in
  tasks d' = tasks d /\ task_events d' = task_events d /\ devices d' = devices d /\ leases d' = leases d
  /\ grows action_le revised (actions d) (actions d') /\ exists new, audits d' = audits d ++ new.
Proof.
  unfold resolve_actions. case_decide; cbn; repeat (split; [done|]).
  - split; [apply grows_refl, _|]. exists []. by rewrite app_nil_r.
  - split; [|by eexists]. apply grows_Forall2, Forall2_fmap_r, Forall_Forall2_diag, Forall_true.
    intros a; cbn. case_decide; [apply resolved_le|reflexivity].
Qed.

Lemma reconcile_le actor k request now at_ d row' d' :
  unique_indexes d -> reconcile actor k request now at_ d = Ok (row', d') -> db_le d d'.
Proof.
  unfold reconcile. intros Hu H. destruct (require_permissions _ _); [|done].
  apply unit_of_work_Ok in H as [H _].
  destruct (platform_task d actor k) as [row|] eqn:Ep; [|done]. apply platform_task_Ok in Ep as [Hg Hk].
  do 3 (case_decide; [done|]).
  destruct (resolve_actions_history (t_id row) request actor now at_ d) as (Rt & Re & Rd & _ & Ra & new & Rn).
  set (d1 := resolve_actions _ _ _ _ _ _) in *. clearbody d1.
  assert (forall row2 d2 d3 au, same_history d2 d3 -> tasks d2 = tput t_id row2 (tasks d1) -> t_id row2 = k ->
    task_le row row2 -> actions d2 = actions d1 -> task_events d2 = task_events d1 ->
    audits d2 = audits d1 ++ [au] -> devices d2 = devices d1 -> db_le d d3) as Hput.
  { intros row2 d2 d3 au (T3 & A3 & E3 & U3 & D3) T2 K2 L2 A2 E2 U2 D2. destruct Hu as [Hnd _]. subst k. split.
    - rewrite T3, T2. rewrite <- K2 in Hg. by apply (put_task_le d d1 row row2).
    - by rewrite A3, A2.
    - rewrite E3, E2, Re. apply grows_refl, _.
    - rewrite U3, U2, Rn, <- app_assoc. apply grows_app; [apply _|apply anything_all].
    - rewrite D3, D2, Rd. reflexivity. }
  assert (Hl : ~ settled row) by done.
  destruct (rq_decision request); ok_inv H; record_events;
    (eapply Hput; [first [apply settle_reply_frame | by repeat split]|reflexivity|reflexivity| |reflexivity..]);
    (live_task; [done|states_agree]).
Qed.

(** ** What each decision does *)

Lemma require_one roles p : require_permissions roles [p] = Ok tt -> exists r, r ∈ roles /\ p ∈ ROLE_PERMISSIONS r.
Proof.
  unfold require_permissions. intros H. case_decide as D; [done|].
  apply elem_of_effective_permissions.
  destruct (decide (p ∈ effective_permissions roles)) as [|Hn]; [done|]. exfalso.
  apply (not_elem_of_empty (C := gset Permission) p). rewrite <- D. set_solver.
Qed.

(** The device lease a task's own AUTO workflow holds. *)
Definition own_lease (d : db) (row : MobileTaskRow) (l : DeviceLeaseRow) : Prop :=
  leases d !! t_device_id row = Some l /\ l_tenant_id l = t_tenant_id row /\ l_owner_type l = AUTO
  /\ l_owner_workflow_id l = auto_workflow row /\ l_canceled_at l = None.

Lemma release_occupation_spec row now d b d' :
  release_occupation row now d = (b, d') ->
  (b = true /\ exists l, own_lease d row l
     /\ leases d' = <[t_device_id row := l <| l_canceled_at := Some now |>]> (leases d))
  \/ (b = false /\ d' = d /\ forall l, ~ own_lease d row l).
Proof.
  unfold release_occupation, own_lease. intros H. destruct (leases d !! t_device_id row) as [l|]; simplify_eq.
  - case_decide as D; simplify_eq; [right|left].
    + split; [done|]. split; [done|]. naive_solver.
    + split; [done|]. exists l. split; [|done]. split; [done|].
      repeat split; apply dec_stable; intros Hn; apply D; tauto.
  - right. split; [done|]. split; [done|]. naive_solver.
Qed.

Lemma cancel_row_states s c :
  CANCEL_TRANSITIONS s = Some c -> c <> IDEMPOTENT_RETURN -> c <> REJECTED_TERMINAL ->
  c <> REJECTED_RECONCILE_FIRST -> c <> DO_CANCEL_REQUEST -> c = CANCELLED_NOW.
Proof. destruct s; cbn; naive_solver. Qed.

(** C29. Cancel reads its decision from the matrix. It is accepted only for a
    task of the actor's tenant, never while the task reconciles, is over or
    carries a commit intent. A live executor keeps its status and lease and
    is only asked to cancel; a task with no live executor is settled as
    CANCELLED at once, loses its lease, frees the device lease of its own
    AUTO workflow and no other; a repeated cancel writes nothing. *)
Theorem cancel_decides actor k reason now at_ d row' d' :
  cancel actor k reason now at_ d = Ok (row', d') ->
  exists row, get_task d k = Some row /\ t_tenant_id row = actor_tenant_id actor
  /\ (exists r, r ∈ actor_roles actor /\ TASK_CREATE ∈ ROLE_PERMISSIONS r)
  /\ match CANCEL_TRANSITIONS (business_state_of row) with
     | Some IDEMPOTENT_RETURN => row' = row /\ d' = d
     | Some DO_CANCEL_REQUEST =>
         has_commit_intent row = false /\ t_business_state row' = B_CANCEL_REQUESTED
         /\ t_status row' = t_status row /\ t_lease_id row' = t_lease_id row
         /\ control_revision row' = control_revision row + 1 /\ leases d' = leases d
     | Some CANCELLED_NOW =>
         has_commit_intent row = false /\ t_business_state row' = B_CANCELLED /\ t_status row' = R_FAILED
         /\ t_lease_id row' = None /\ control_revision row' = control_revision row + 1
         /\ (forall l, own_lease d row l -> leases d' = <[t_device_id row := l <| l_canceled_at := Some now |>]> (leases d))
         /\ ((forall l, ~ own_lease d row l) -> leases d' = leases d)
         /\ (forall m, m ∈ messages d' -> m_reply_task_id m = Some k -> m_delivery_state m <> PENDING)
     | _ => False
     end.
Proof.
  unfold cancel. intros H. destruct (require_permissions _ _) as [[]|] eqn:Er; [|done].
  apply require_one in Er. apply unit_of_work_Ok in H as [H _].
  destruct (platform_task d actor k) as [row|] eqn:Ep; [|done]. exists row.
  assert (t_tenant_id row = actor_tenant_id actor) as Ht.
  { unfold platform_task in Ep. by ok_inv Ep; apply dec_stable. }
  pose proof (platform_task_Ok _ _ _ _ Ep) as [Hg Hk].
  split; [done|]. split; [done|]. split; [done|].
  destruct (platform_device _ _ _); [|done]. case_decide; [done|].
  destruct (CANCEL_TRANSITIONS (business_state_of row)) as [c|] eqn:Ec; [|done].
  case_decide as D1; [subst c; by injection H as -> ->|]. do 2 (case_decide; [done|]).
  case_decide as D2; [done|]. apply not_true_is_false in D2.
  case_decide as D3; [subst c; ok_inv H; by record_events|].
  apply cancel_row_states in Ec as ->; [|done..].
  destruct (release_occupation _ _ _) as [b d1] eqn:El. ok_inv H. record_events.
  split; [done|]. split; [done|]. split; [done|]. split; [done|]. split; [done|].
  rewrite settle_reply_leases. split; [|split].
  - intros l Hl. destruct (release_occupation_spec _ _ _ _ _ El) as [(_ & l' & Hl' & E)|(_ & _ & Hno)].
    + change (leases d1 = <[t_device_id row := l <| l_canceled_at := Some now |>]> (leases d)).
      rewrite E. unfold own_lease in *. destruct Hl as [Hl _], Hl' as [Hl' _]. cbn in Hl'. by simplify_eq.
    + by destruct (Hno l).
  - intros Hno. destruct (release_occupation_spec _ _ _ _ _ El) as [(_ & l' & Hl' & E)|(_ & -> & _)]; [|done].
    by destruct (Hno l').
  - intros m Hm Hr. eapply settle_reply_messages; [|exact Hm|exact Hr]. vm_compute. set_solver.
Qed.

(** A database with one device, one task and the task's own lease. *)
Definition sample_operator : Actor := mkActor "tenant" "user" [DEVICE_OPERATOR] true.
Definition sample_device : DeviceRow := mkDevice "tenant" (Some "edge") None [] false (Some 100) 3 0 (Some "binding") 0.
Definition sample_lease : DeviceLeaseRow := mkLease "tenant" "lease" "auto/task-1" 3 9000 None AUTO.
Definition task_in (s : BusinessState) (r : RunnerStatus) : MobileTaskRow :=
  (sample_task XIANYU_PACKAGE []) <| t_business_state := s |> <| t_status := r |>
    <| t_lease_id := Some "lease" |> <| t_lease_expires_at := Some 9000 |>.
Definition sample_db (t : MobileTaskRow) : db :=
  empty_db <| devices := {["device" := sample_device]} |> <| leases := {["device" := sample_lease]} |>
           <| tasks := [t] |> <| messages := [mkMessage "m" (Some "task-1") PENDING] |>.

Lemma cancel_decides_witness :
  exists row' d', cancel sample_operator "task-1" "stop" 50 60 (sample_db (task_in B_PREFLIGHT R_CLAIMED)) = Ok (row', d')
  /\ exists row, get_task (sample_db (task_in B_PREFLIGHT R_CLAIMED)) "task-1" = Some row
                 /\ t_tenant_id row = actor_tenant_id sample_operator.
Proof.
  eexists _, _. split; [vm_compute; reflexivity|].
  edestruct (cancel_decides sample_operator "task-1" "stop" 50 60 (sample_db (task_in B_PREFLIGHT R_CLAIMED)))
    as (row & Hg & Ht & _); [vm_compute; reflexivity|].
  exists row. split; [exact Hg|exact Ht].
Defined.

(** Resume continues a task only from an acknowledged pause: the task of
    the actor's tenant was PAUSED_WAITING_USER, the page was verified, no
    commit intent was written and its account is still bound as frozen. It
    re-fences the device: the fencing counter and control epoch grow by one
    and the only lease left on the device is a fresh AUTO lease of this task
    carrying the new counter, which the task and its header carry too. *)
Theorem resume_refences actor k request lease now at_ d row' d' :
  resume actor k request lease now at_ d = Ok (row', d') ->
  exists row device, get_task d k = Some row /\ t_tenant_id row = actor_tenant_id actor
  /\ devices d !! t_device_id row = Some device
  /\ t_business_state row = B_PAUSED_WAITING_USER /\ page_verified request = true
  /\ truthy_commit_intent row = false /\ binding_changed d row = false
  /\ let counter := d_fencing_counter device + 1 in
     devices d' !! t_device_id row =
       Some (device <| d_fencing_counter := counter |> <| d_control_epoch := d_control_epoch device + 1 |>)
     /\ leases d' !! t_device_id row =
       Some (mkLease (t_tenant_id row) lease (auto_workflow row) counter (now + seconds 60) None AUTO)
     /\ (forall k', k' <> t_device_id row -> leases d' !! k' = leases d !! k')
     /\ t_lease_id row' = Some lease /\ h_controlEpoch (t_header row') = Some counter
     /\ t_business_state row' = B_RESUME_CHECK /\ t_resume_count row' = t_resume_count row + 1
     /\ control_revision row' = control_revision row + 1.
Proof.
  unfold resume. intros H. destruct (require_permissions _ _) as [[]|]; [|done].
  apply unit_of_work_Ok in H as [H _].
  destruct (platform_task d actor k) as [row|] eqn:Ep; [|done].
  assert (t_tenant_id row = actor_tenant_id actor) as Ht.
  { unfold platform_task in Ep. by ok_inv Ep; apply dec_stable. }
  pose proof (platform_task_Ok _ _ _ _ Ep) as [Hg Hk].
  destruct (platform_device _ _ _) as [device|] eqn:Ed; [|done]. apply platform_device_Ok in Ed.
  case_decide; [done|]. destruct (RESUME_TRANSITIONS (business_state_of row)) as [c|] eqn:Ec; [|done].
  do 2 (case_decide; [done|]). case_decide as Dc; [done|]. subst c.
  case_decide as Dp; [done|]. case_decide as Di; [done|]. case_decide as Db; [done|].
  apply not_false_is_true in Dp. apply not_true_is_false in Di, Db.
  ok_inv H. record_events. exists row, device.
  assert (t_business_state row = B_PAUSED_WAITING_USER) as Hs.
  { unfold business_state_of in Ec. destruct (t_business_state row); try discriminate Ec; [done|].
    repeat case_match; try discriminate Ec. unfold RUNNER_TO_BUSINESS in Ec. by destruct (t_status row). }
  do 7 (split; [done|]). cbn.
  split; [by rewrite lookup_insert_eq|]. split; [by rewrite lookup_insert_eq|].
  split; [|done]. intros k' Hk'. by rewrite lookup_insert_ne, lookup_delete_ne.
Qed.

Lemma resume_refences_witness :
  exists row' d',
    resume sample_operator "task-1" (mkResume true "go") "lease-2" 50 60
      (sample_db (task_in B_PAUSED_WAITING_USER R_RUNNING)) = Ok (row', d')
    /\ exists row device, get_task (sample_db (task_in B_PAUSED_WAITING_USER R_RUNNING)) "task-1" = Some row
       /\ t_tenant_id row = "tenant"
       /\ devices (sample_db (task_in B_PAUSED_WAITING_USER R_RUNNING)) !! t_device_id row = Some device.
Proof.
  eexists _, _. split; [vm_compute; reflexivity|].
  edestruct (resume_refences sample_operator "task-1" (mkResume true "go") "lease-2" 50 60
     (sample_db (task_in B_PAUSED_WAITING_USER R_RUNNING))) as (row & device & H1 & H2 & H3 & _);
    [vm_compute; reflexivity|].
  exists row, device. split; [exact H1|]. split; [exact H2|exact H3].
Defined.

Lemma resolved_proven a status evidence now :
  terminal_action_status status -> evidence <> "" -> 0 <= a_resolution_revision a ->
  platform_result_proven (resolved a status evidence now) = true.
Proof.
  intros Hs He Hr. unfold platform_result_proven; cbn.
  rewrite !andb_true_iff, !bool_decide_eq_true. split; [split; [split; [lia|done]|by eexists]|].
  by rewrite bool_decide_eq_false_2.
Qed.

Lemma resolution_terminal x : terminal_action_status (resolution_status x).
Proof. unfold terminal_action_status, resolution_status. case_decide; auto. Qed.

Lemma elem_of_resolve_actions k request actor now at_ d a :
  rq_decision request <> KEEP_WAITING -> a ∈ actions (resolve_actions k request actor now at_ d) ->
  (a_task_id a = k /\ exists a0, a0 ∈ actions d /\ a_task_id a0 = k
     /\ a = resolved a0 (resolution_status (rq_decision request)) (rq_evidence request) now)
  \/ (a_task_id a <> k /\ a ∈ actions d).
Proof.
  unfold resolve_actions. intros Hd. rewrite decide_False by done. cbn.
  intros (a0 & -> & Ha0)%list_elem_of_fmap. case_decide as D; [left|right]; [|done].
  split; [done|]. by exists a0.
Qed.

(** C30. Reconciliation is the only way out of an uncertain result, and its
    three verdicts do what they say. KEEP_WAITING leaves the ledger exactly as
    it was and the task reconciling. A confirmed verdict closes every ledger
    row of the task as a proven platform result (revision above 0, terminal
    status, evidence and time) and no row of another task; APPLIED needs the
    platform's item identifier and ends SUCCEEDED; NOT_SUBMITTED is refused
    when a row reported APPLIED and ends FAILED. *)
Theorem reconcile_decides actor k request now at_ d row' d' :
  reconcile actor k request now at_ d = Ok (row', d') ->
  exists row, get_task d k = Some row /\ ~ settled row
  /\ (t_business_state row = B_RECONCILING \/ t_error_code row ∈ [Some "COMMIT_UNKNOWN"; Some "RECONCILING"])
  /\ match rq_decision request with
     | KEEP_WAITING => actions d' = actions d /\ t_business_state row' = B_RECONCILING /\ t_status row' = t_status row
     | CONFIRMED_APPLIED =>
         truthy_str (rq_platform_item_id request) = true
         /\ t_business_state row' = B_SUCCEEDED /\ t_status row' = R_SUCCEEDED
     | CONFIRMED_NOT_SUBMITTED =>
         Forall (fun a => a_status a <> A_APPLIED) (task_actions d k)
         /\ t_business_state row' = B_FAILED /\ t_status row' = R_FAILED
     end
  /\ (rq_decision request <> KEEP_WAITING ->
      (forall a, a ∈ actions d -> a_task_id a <> k -> a ∈ actions d')
      /\ forall a, a ∈ actions d' ->
         if decide (a_task_id a = k)
         then a_status a = resolution_status (rq_decision request) /\ a_resolved_at a = Some now
              /\ (rq_evidence request <> "" -> Forall (fun b => 0 <= a_resolution_revision b) (actions d) ->
                  platform_result_proven a = true)
         else a ∈ actions d).
Proof.
  unfold reconcile. intros H. destruct (require_permissions _ _) as [[]|]; [|done].
  apply unit_of_work_Ok in H as [H _].
  destruct (platform_task d actor k) as [row|] eqn:Ep; [|done]. apply platform_task_Ok in Ep as [Hg Hk].
  subst k. case_decide as D1; [done|]. case_decide as D2; [done|]. case_decide as D3; [done|].
  exists row. split; [done|]. split; [done|]. split.
  { rewrite !elem_of_cons, elem_of_nil. destruct (decide (t_business_state row = B_RECONCILING)); [by left|right].
    destruct (decide (t_error_code row = Some "COMMIT_UNKNOWN")); [by left|right]. left. apply dec_stable. tauto. }
  assert (exists d1, d1 = resolve_actions (t_id row) request actor now at_ d /\ actions d' = actions d1
    /\ match rq_decision request with
       | KEEP_WAITING => t_business_state row' = B_RECONCILING /\ t_status row' = t_status row
       | CONFIRMED_APPLIED => truthy_str (rq_platform_item_id request) = true
           /\ t_business_state row' = B_SUCCEEDED /\ t_status row' = R_SUCCEEDED
       | CONFIRMED_NOT_SUBMITTED => t_business_state row' = B_FAILED /\ t_status row' = R_FAILED
       end) as (d1 & -> & Ha & Hm).
  { exists (resolve_actions (t_id row) request actor now at_ d). split; [done|].
    destruct (rq_decision request); ok_inv H; record_events; cbn;
      rewrite ?(proj1 (proj2 (settle_reply_frame _ _ _))); repeat split.
    by apply not_false_is_true. }
  split.
  - destruct (rq_decision request) eqn:Er; [done| |].
    + split; [|done]. apply Forall_forall. intros a Ha0 Hs. apply D3. split; [done|]. apply Exists_exists. eauto.
    + split; [|done]. rewrite Ha. unfold resolve_actions. by rewrite Er.
  - intros Hnk. rewrite Ha. split.
    + intros a Ha0 Hk. unfold resolve_actions. rewrite decide_False by done. cbn.
      apply list_elem_of_fmap. exists a. by rewrite decide_False.
    + intros a Hin. destruct (elem_of_resolve_actions _ _ _ _ _ _ _ Hnk Hin)
        as [[Hk (a0 & Ha0 & _ & ->)]|[Hk Ha0]]; [rewrite decide_True by done|by rewrite decide_False].
      do 2 (split; [done|]). intros He Hf. rewrite Forall_forall in Hf.
      apply resolved_proven; [apply resolution_terminal|done|by apply Hf].
Qed.

Definition reconciling_db : db :=
  (sample_db (task_in B_RECONCILING R_RUNNING)) <| actions := [mkAction
    (mkActionColumns "key" "tenant" "task-1" "device" (Some "device") (Some 0) "steps" "d" "d" "click-publish" "p")
    None "lease" A_UNKNOWN "before" (Some "lost") 0 None None 10 10] |>.

Lemma reconcile_decides_witness :
  exists row' d',
    reconcile sample_operator "task-1" (mkReconcile CONFIRMED_APPLIED "seen" (Some "item")) 50 60 reconciling_db
      = Ok (row', d')
    /\ exists row, get_task reconciling_db "task-1" = Some row /\ ~ settled row.
Proof.
  eexists _, _. split; [vm_compute; reflexivity|].
  edestruct (reconcile_decides sample_operator "task-1" (mkReconcile CONFIRMED_APPLIED "seen" (Some "item")) 50 60
               reconciling_db) as (row & H1 & H2 & _); [vm_compute; reflexivity|].
  exists row. split; [exact H1|exact H2].
Defined.

Lemma executor_live_iff d tenant device moment t :
  t ∈ executor_live d tenant device moment <->
  t ∈ tasks d /\ t_tenant_id t = tenant /\ t_device_id t = device
  /\ (t_status t = R_CLAIMED \/ (t_status t = R_RUNNING /\ lease_live moment (t_lease_expires_at t))).
Proof. unfold executor_live. rewrite list_elem_of_filter. tauto. Qed.

Lemma expired_later t moment now : expired t moment -> moment <= now -> expired t now.
Proof. unfold expired. destruct t; lia. Qed.

Lemma idle_refuses d tenant device moment :
  (forall t, t ∈ [] <->
     t ∈ tasks d /\ t_tenant_id t = tenant /\ t_device_id t = device
     /\ (t_status t = R_CLAIMED \/ (t_status t = R_RUNNING /\ lease_live moment (t_lease_expires_at t)))) ->
  forall t lease now, t ∈ tasks d -> t_tenant_id t = tenant -> t_device_id t = device -> moment <= now ->
    is_ok (validate_active_lease t lease now) = false.
Proof.
  intros Hno t lease now Ht Hte Hde Hm. unfold validate_active_lease.
  case_decide; [done|]. case_decide as Da; [done|]. case_decide as De; [done|]. exfalso.
  apply (not_elem_of_nil t). apply Hno. do 3 (split; [done|]).
  destruct (decide (task_active t)) as [[Hc|Hr]|]; [by left|right|tauto].
  split; [done|]. intros He. apply De. by eapply expired_later.
Qed.

(** The read-only window is a proof. When the verdict is ALLOWED at a
    moment, no task of the device has a lease the runner could use then or
    later: every runner update (heartbeat, event, finish, intent, outcome)
    fails its lease check, and no live device lease of any owner remains;
    otherwise the proof names a task or a lease that blocks. *)
Theorem readonly_window_sound d tenant device moment verdict executor live unknown reconciling :
  evaluate_readonly_window d tenant device moment = (verdict, executor, live, unknown, reconciling) ->
  match verdict with
  | ALLOWED =>
      (forall t lease now, t ∈ tasks d -> t_tenant_id t = tenant -> t_device_id t = device -> moment <= now ->
         is_ok (validate_active_lease t lease now) = false)
      /\ (forall l, leases d !! device = Some l -> l_tenant_id l = tenant ->
            l_canceled_at l <> None \/ l_expires_at l <= moment)
  | BLOCKED_EXECUTOR_LIVE => exists t, t ∈ tasks d /\ t ∈ executor /\ t_device_id t = device /\ task_active t
  | BLOCKED_OCCUPANCY_LIVE => executor = [] /\ exists l, leases d !! device = Some l /\ live = [l] /\ l_canceled_at l = None
  end.
Proof.
  unfold evaluate_readonly_window. intros [= <- <- <- _ _].
  pose proof (executor_live_iff d tenant device moment) as Hex.
  destruct (executor_live d tenant device moment) as [|t r] eqn:Ee.
  2:{ exists t. destruct (proj1 (Hex t)) as (? & ? & ? & Ha); [by left|].
      unfold task_active. split; [done|]. split; [by left|]. split; [done|]. tauto. }
  unfold live_leases. destruct (leases d !! device) as [l|] eqn:El; [case_decide as Dl|].
  - split; [done|]. exists l. naive_solver.
  - split; [by apply idle_refuses|]. intros l' [= <-] Ht.
    destruct (decide (l_canceled_at l = None)); [right|by left].
    destruct (decide (l_expires_at l <= moment)); [done|]. destruct Dl. repeat split; try done. lia.
  - split; [by apply idle_refuses|done].
Qed.

Lemma readonly_window_sound_witness :
  evaluate_readonly_window (sample_db (task_in B_RUNNING R_RUNNING)) "tenant" "device" 9000 = (ALLOWED, [], [], 0%nat, [])
  /\ forall l, leases (sample_db (task_in B_RUNNING R_RUNNING)) !! "device" = Some l -> l_tenant_id l = "tenant" ->
       l_canceled_at l <> None \/ l_expires_at l <= 9000.
Proof.
  assert (H : evaluate_readonly_window (sample_db (task_in B_RUNNING R_RUNNING)) "tenant" "device" 9000
              = (ALLOWED, [], [], 0%nat, [])) by (vm_compute; reflexivity).
  split; [exact H|].
  exact (proj2 (readonly_window_sound (sample_db (task_in B_RUNNING R_RUNNING)) "tenant" "device" 9000
                  ALLOWED [] [] 0%nat [] H)).
Defined.
