(* ===== verification/Claim.v ===== *)
(** * Claiming and releasing work: [claim] and [release] of mobile_service.py

    A companion claims the oldest dispatchable task of its device under a
    fresh lease. [remote_live] is what [live_service.has_remote] answered for
    the device, [new_lease_id] the uuid drawn for the lease, [checked_at] the
    clock [delivery_identity_error] reads for each candidate, and
    [builtin_recipe_ref] the reference of the recipe built into the
    application for a command type ([None]: no such recipe, KeyError). *)

From stdpp Require Import base gmap strings list sorting.
From Stdlib Require Import ZArith Lia Sorting.Sorted.
From S2P Require Import Prelude PyStd Domain Rows ControlledActions FleetIdentity FrozenShapes TaskOps History ControlPlane.

Open Scope Z_scope.

Definition CLAIM_CANDIDATE_LIMIT : nat := 64.
Definition COMMAND_REGISTRY_VERSION : string := "steps-registry/20260916.1".

(** ** Recipe references *)

Definition recipe_ref (version_id sha256 : string) (engine_min : json) : json :=
  JObj [("versionId", JStr version_id); ("sha256", JStr sha256); ("engineMinVersion", engine_min)].

(** [package.manifest.get("manifest", {}).get("minEngineVersion", 1)]. *)
Definition min_engine_version (manifest : list (string * json)) : json :=
  match jget "manifest" manifest with
  | Some (JObj m) => default (JInt 1) (jget "minEngineVersion" m)
  | _ => JInt 1
  end.

Definition published_recipe_ref (d : db) (tenant_id device_id command_type : string) : option json :=
  if decide (command_type = "") then None else
  match scalar (filter (fun r => rd_tenant_id r = tenant_id /\ rd_device_id r = device_id
                                 /\ rd_command_type r = command_type /\ rd_status r = "PUBLISHED")
                  (deployments d)) with
  | None => None
  | Some deployment =>
      match scalar (filter (fun v => av_tenant_id v = tenant_id /\ av_id v = rd_version_id deployment)
                      (package_versions d)) with
      | None => None
      | Some package => Some (recipe_ref (av_id package) (av_artifact_sha256 package)
                                (min_engine_version (av_manifest package)))
      end
  end.

(** ** Queries *)

(** [order_by(created_at)]. *)
Definition older_task (a b : MobileTaskRow) : bool := bool_decide (t_created_at a <= t_created_at b).

Definition device_tasks (d : db) (tenant_id device_id : string) : list MobileTaskRow :=
  filter (fun t => t_tenant_id t = tenant_id /\ t_device_id t = device_id) (tasks d).

Definition blocking_task (d : db) (tenant_id device_id : string) : option MobileTaskRow :=
  scalar (isort older_task (filter (fun t => t_business_state t ∈ BLOCKING_BUSINESS_STATES)
                              (device_tasks d tenant_id device_id))).

Definition active_task (d : db) (tenant_id device_id : string) : option MobileTaskRow :=
  scalar (isort older_task (filter task_active (device_tasks d tenant_id device_id))).

Definition queued_candidates (d : db) (tenant_id device_id : string) : list MobileTaskRow :=
  take CLAIM_CANDIDATE_LIMIT
    (isort older_task (filter (fun t => t_status t = R_QUEUED) (device_tasks d tenant_id device_id))).

(** ** One candidate *)

Inductive candidate_verdict : Type :=
| C_SKIP
| C_DELIVERY_ERROR (reason : string)
| C_ACCOUNT_CHANGED (mismatch : string)
| C_INELIGIBLE (missing : list string)
| C_RECONCILE
| C_TAKE.

Definition json_str (o : option json) : option string := match o with Some (JStr s) => Some s | _ => None end.

(** The session whose capability profile was negotiated, if any. *)
Definition negotiated (fleet : option FleetSessionRow) : option (list (string * capability)) :=
  fleet ≫= fs_capabilities.

(** The capability shortfall, when a profile was negotiated. *)
Definition negotiated_shortfall (fleet : option FleetSessionRow) (candidate : MobileTaskRow) : list string :=
  match negotiated fleet with Some caps => capability_shortfall candidate caps | None => [] end.

Definition judge_candidate (d : db) (device : DeviceRow) (fleet : option FleetSessionRow)
    (order_delivery_protocol : option string) (checked_at : Z) (candidate : MobileTaskRow) : candidate_verdict :=
  let delivery :=
    match delivery_metadata candidate with
    | None => None
    | Some _ =>
        if decide (order_delivery_protocol <> Some ORDER_DELIVERY_PROTOCOL
                   \/ json_str (jget "orderDeliveryProtocol" (d_capabilities device)) <> Some ORDER_DELIVERY_PROTOCOL)
        then Some C_SKIP
        else C_DELIVERY_ERROR <$> delivery_identity_error d candidate device checked_at
    end in
  match delivery with
  | Some v => v
  | None =>
      match account_binding_mismatch d candidate with
      | Some mismatch => C_ACCOUNT_CHANGED mismatch
      | None =>
          match negotiated_shortfall fleet candidate with
          | [] => if post_commit_pending d candidate then C_RECONCILE else C_TAKE
          | missing => C_INELIGIBLE missing
          end
      end
  end.

Definition fail_candidate (candidate : MobileTaskRow) (code : string) (now : Z) : MobileTaskRow :=
  candidate <| t_status := R_FAILED |> <| t_business_state := B_FAILED |> <| t_error_code := Some code |>
            <| t_completed_at := Some now |> <| t_lease_id := None |> <| t_lease_expires_at := None |>.

Definition hold_for_reconciliation (candidate : MobileTaskRow) : MobileTaskRow :=
  candidate <| t_business_state := B_RECONCILING |>
            <| t_stall_reason := Some (str_or (t_stall_reason candidate) "post-commit recovery pending") |>.

(** The candidate loop: it writes the candidates it passes over and stops at
    the first one it can take. *)
Fixpoint scan_candidates (device : DeviceRow) (fleet : option FleetSessionRow)
    (order_delivery_protocol : option string) (now : Z) (checked_at : string -> Z)
    (queued : list MobileTaskRow) (ineligible : list (string * list string)) (d : db)
    : db * list (string * list string) * option MobileTaskRow :=
  match queued with
  | [] => (d, ineligible, None)
  | candidate :: queued' =>
      let continue := scan_candidates device fleet order_delivery_protocol now checked_at queued' in
      match judge_candidate d device fleet order_delivery_protocol (checked_at (t_id candidate)) candidate with
      | C_SKIP => continue ineligible d
      | C_DELIVERY_ERROR reason => continue ineligible (put_task (fail_candidate candidate reason now) d)
      | C_ACCOUNT_CHANGED mismatch =>
          continue ineligible
            (settle_reply_delivery (t_id candidate) B_FAILED
               (put_task ((fail_candidate candidate "ACCOUNT_CHANGED" now) <| t_detail := Some mismatch |>) d))
      | C_INELIGIBLE missing => continue (ineligible ++ [(t_id candidate, missing)]) d
      | C_RECONCILE => continue ineligible (put_task (hold_for_reconciliation candidate) d)
      | C_TAKE => (d, ineligible, Some candidate)
      end
  end.

(** ** Claim *)

Definition remote_lease_live (lease : option DeviceLeaseRow) (now : Z) : Prop :=
  match lease with
  | Some l => l_canceled_at l = None /\ l_expires_at l > now /\ l_owner_type l = REMOTE
  | None => False
  end.
#[export] Instance remote_lease_live_dec l now : Decision (remote_lease_live l now).
Proof. unfold remote_lease_live. destruct l; apply _. Defined.

(** A negotiated session decides whether the device is executable. *)
Definition claim_executable (fleet : option FleetSessionRow) (device : DeviceRow) (now : Z) : bool :=
  match fleet, negotiated fleet with
  | Some s, Some caps =>
      (evaluate_executable (device_online (d_last_seen_at device) now) (fs_accessibility_enabled s)
         (fs_accessibility_active s) (fs_ime_ready s) (fs_screen_unlocked s) (fs_engine_version s)
         (negotiated_engine_min (Some caps))).1.1
  | _, _ => true
  end.

Definition requeue (active : MobileTaskRow) : MobileTaskRow :=
  active <| t_status := R_QUEUED |> <| t_lease_id := None |> <| t_lease_expires_at := None |>.

Definition requeue_active (active : option MobileTaskRow) (d : db) : db :=
  match active with Some a => put_task (requeue a) d | None => d end.

Definition unpinned (row : MobileTaskRow) : Prop := default "" (t_command_type row) ∈ UNPINNED_STEPS_COMMANDS.
#[export] Instance unpinned_dec row : Decision (unpinned row).
Proof. unfold unpinned. apply _. Defined.

(** The guard of a re-claim: the frozen identity of the task must not have changed. *)
Definition reclaim_guard (row : MobileTaskRow) : result error () :=
  if decide (truthy_str (t_command_type row) = true /\ t_attempt row > 0 /\ t_recipe_pin row = None) then
    raise_if ~ unpinned row
      with ConflictError "legacy task has no persisted recipe pin; reconcile before continuing" in
    raise_if truthy_str (h_payloadIdentity (t_header row)) = false
             \/ truthy_str (h_commandRegistryVersion (t_header row)) = false
      with ConflictError "frozen steps task has no persisted payload identity; reconcile before continuing" in
    raise_if h_payloadIdentity (t_header row) <> Some (steps_payload_identity row)
      with ConflictError "frozen steps payload identity changed; reconcile before continuing" in
    raise_if h_commandRegistryVersion (t_header row) <> Some COMMAND_REGISTRY_VERSION
      with ConflictError "frozen steps command registry version changed; reconcile before continuing" in
    Ok tt
  else Ok tt.

(** The authorization envelope stamped on the header of a claimed task. *)
Definition stamp_envelope (row : MobileTaskRow) (fencing_counter : Z) (fleet : option FleetSessionRow) : MobileTaskRow :=
  let header := (t_header row) <| h_controlEpoch := Some fencing_counter |> in
  let header :=
    match fleet with
    | Some s =>
        let header := header <| h_fleetSessionId := Some (fs_session_id s) |> in
        if truthy_str (fs_boot_id s) then header <| h_fleetBootId := fs_boot_id s |> else header
    | None => header
    end in
  let header :=
    if decide (unpinned row)
    then header <| h_payloadIdentity := Some (str_or (h_payloadIdentity header) (steps_payload_identity row)) |>
                <| h_commandRegistryVersion := Some COMMAND_REGISTRY_VERSION |>
    else header in
  row <| t_header := header |>.

Definition pin_audit (binding : MobileBindingRow) (row : MobileTaskRow) (extra : list (string * json)) (now : Z)
    : AuditEventRow :=
  {| au_tenant_id := b_tenant_id binding; au_actor_type := "companion"; au_actor_id := b_id binding;
     au_action := "recipe.task.pinned"; au_resource_type := "mobile_task"; au_resource_id := t_id row;
     au_device_id := Some (b_device_id binding); au_result := "SUCCEEDED";
     au_metadata := ("deviceId", JStr (b_device_id binding)) :: extra; au_occurred_at := now |}.

Section Claim.
Context (builtin_recipe_ref : string -> option json).

(** Pins the recipe of a task that has none, and audits it. *)
Definition pin_recipe (binding : MobileBindingRow) (row : MobileTaskRow) (now : Z) (d : db)
    : result error (MobileTaskRow * db) :=
  if decide (t_recipe_pin row = None /\ truthy_str (t_command_type row) = true) then
    if decide (unpinned row) then
      let row := row <| t_recipe_pin := None |> in
      if decide (t_attempt row = 1)
      then Ok (row, add_audit (pin_audit binding row
                                 [("stepsIdentity", JStr (steps_payload_identity row));
                                  ("commandRegistryVersion", JStr COMMAND_REGISTRY_VERSION)] now) d)
      else Ok (row, d)
    else
      let command_type := default "" (t_command_type row) in
      let? pin :=
        match published_recipe_ref d (b_tenant_id binding) (b_device_id binding) command_type with
        | Some ref => Ok ref
        | None => match builtin_recipe_ref command_type with
                  | Some ref => Ok ref
                  | None => Err (KeyError command_type)
                  end
        end in
      let row := row <| t_recipe_pin := Some pin |> in
      Ok (row, add_audit (pin_audit binding row [("recipe", pin)] now) d)
  else Ok (row, d).

(** The dispatch of the chosen candidate. *)
Definition dispatch (binding : MobileBindingRow) (device : DeviceRow) (fleet : option FleetSessionRow)
    (lease_seconds : Z) (new_lease_id : string) (now : Z) (row : MobileTaskRow) (d : db)
    : result error (MobileTaskRow * db) :=
  let device_id := b_device_id binding in
  let expires := now + seconds lease_seconds in
  let row := row <| t_status := R_CLAIMED |> <| t_business_state := B_PREFLIGHT |>
                 <| t_lease_id := Some new_lease_id |> <| t_lease_expires_at := Some expires |>
                 <| t_attempt := t_attempt row + 1 |> <| t_started_at := Some now |>
                 <| t_device_id_at_execution := Some device_id |> in
  let device := device <| d_fencing_counter := d_fencing_counter device + 1 |> in
  let lease := mkLease (b_tenant_id binding) new_lease_id (auto_workflow row) (d_fencing_counter device)
                 expires None AUTO in
  let d := put_lease device_id lease (put_device device_id device (delete_lease device_id d)) in
  let row := stamp_envelope row (d_fencing_counter device) fleet in
  let? (row, d) := pin_recipe binding row now d in
  Ok (row, put_task row d).

Definition claim_body (binding : MobileBindingRow) (lease_seconds : Z) (order_delivery_protocol : option string)
    (remote_live : bool) (new_lease_id : string) (now : Z) (checked_at : string -> Z) (d : db)
    : result error (option MobileTaskRow * db) :=
  let device_id := b_device_id binding in
  let tenant_id := b_tenant_id binding in
  need device := devices d !! device_id orelse NotFoundError "device was not found" in
  raise_if d_tenant_id device <> tenant_id with NotFoundError "device was not found" in
  raise_if d_maintenance device = true with ConflictError "device is in maintenance and cannot claim tasks" in
  raise_if remote_live = true with ConflictError "DEVICE_REMOTE" in
  raise_if truthy_str (d_active_binding_id device) = true /\ d_active_binding_id device <> Some (b_id binding)
    with AuthenticationError "companion instance is no longer the active binding" in
  raise_if open_unknown_actions d tenant_id device_id <> []
    with ReconcileRequiredError
      "device has open UNKNOWN action ledger rows; reconcile them before claiming new work" in
  let fleet := active_session d tenant_id (b_id binding) in
  if decide (claim_executable fleet device now = false) then Ok (None, d) else
  if decide (is_Some (blocking_task d tenant_id device_id)) then Ok (None, d) else
  let active := active_task d tenant_id device_id in
  raise_if remote_lease_live (leases d !! device_id) now
    with ConflictError "device write lease is held by remote control" in
  if decide (is_Some active /\ ~ expired (active ≫= t_lease_expires_at) now) then Ok (None, d) else
  let d := requeue_active active d in
  let queued := queued_candidates d tenant_id device_id in
  let '(d, ineligible, chosen) :=
    scan_candidates device fleet order_delivery_protocol now checked_at queued [] d in
  match chosen with
  | None =>
      match ineligible with
      | [] => Ok (None, d)
      | (task_id, missing) :: _ =>
          Err (IneligibleCapabilityError ("task " +:+ task_id +:+ " requires unsupported fleet capabilities: "
                                          +:+ str_join ", " missing))
      end
  | Some row =>
      let conflict :=
        if truthy_str (t_account_id row) && task_write_effect row
        then account_write_conflict d tenant_id (default "" (t_account_id row)) (t_id row) else None in
      match conflict with
      | Some c => Err (AccountBusyError ("account already has an active write task " +:+ t_id c
                                         +:+ " on device " +:+ t_device_id c))
      | None =>
          let? _ := reclaim_guard row in
          let? (row, d) := dispatch binding device fleet lease_seconds new_lease_id now row d in
          Ok (Some row, d)
      end
  end.

Definition claim (binding : MobileBindingRow) (lease_seconds : Z) (order_delivery_protocol : option string)
    (remote_live : bool) (new_lease_id : string) (now : Z) (checked_at : string -> Z) (d : db)
    : result error (option MobileTaskRow * db) :=
  unit_of_work (claim_body binding lease_seconds order_delivery_protocol remote_live new_lease_id now checked_at) d.

End Claim.

(** ** Release *)

(** The device lease of the task is the live AUTO lease [lease_id]. *)
Definition lease_held (lease : DeviceLeaseRow) (task : MobileTaskRow) (lease_id : string) (now : Z) : Prop :=
  l_tenant_id lease = t_tenant_id task /\ l_lease_id lease = lease_id /\ l_owner_type lease = AUTO
  /\ l_owner_workflow_id lease = auto_workflow task /\ l_canceled_at lease = None /\ ~ l_expires_at lease <= now.
#[export] Instance lease_held_dec lease task k now : Decision (lease_held lease task k now).
Proof. unfold lease_held. apply _. Defined.

Definition release (binding : MobileBindingRow) (task_id lease_id reason : string) (now : Z) (d : db)
    : result error (MobileTaskRow * db) :=
  raise_if reason ∉ ["ACCESSIBILITY_NOT_ENABLED"; "ACCESSIBILITY_NOT_ACTIVE"]
    with ValidationError "unsupported task release reason" in
  unit_of_work (fun d =>
    need device := devices d !! b_device_id binding orelse NotFoundError "device was not found" in
    raise_if d_tenant_id device <> b_tenant_id binding with NotFoundError "device was not found" in
    need stored := mobile_bindings d !! b_id binding
      orelse AuthenticationError "invalid or revoked Companion bearer token" in
    raise_if b_revoked_at stored <> None \/ b_tenant_id stored <> b_tenant_id binding
             \/ b_device_id stored <> b_device_id binding
      with AuthenticationError "invalid or revoked Companion bearer token" in
    raise_if d_active_binding_id device <> Some (b_id stored)
      with AuthenticationError "companion instance is no longer the active binding" in
    let? task := validate_owned_task (get_task d task_id) stored in
    raise_if t_status task <> R_CLAIMED \/ t_business_state task <> B_PREFLIGHT
      with ConflictError "only a claimed task in PREFLIGHT can be released" in
    raise_if t_lease_id task <> Some lease_id with ConflictError "mobile task lease does not match" in
    raise_if expired (t_lease_expires_at task) now with ConflictError "mobile task lease has expired" in
    raise_if has_commit_intent task = true
      with ConflictError "task has a legacy commit intent and cannot be released" in
    need lease := leases d !! b_device_id binding
      orelse ConflictError "matching active device lease is required" in
    raise_if ~ lease_held lease task lease_id now
      with ConflictError "matching active device lease is required" in
    raise_if task_actions d (t_id task) <> []
      with ConflictError "task has an action commit row and cannot be released" in
    let d := put_lease (b_device_id binding) (lease <| l_canceled_at := Some now |>) d in
    let task := task <| t_status := R_QUEUED |> <| t_business_state := B_QUEUED |>
                     <| t_lease_id := None |> <| t_lease_expires_at := None |> in
    Ok (task, put_task task d)) d.

(** ** The candidate loop *)

(** Tables the loop reads but never writes. *)
Definition same_facts (d d' : db) : Prop :=
  (devices d', mobile_bindings d', accounts d', account_bindings d', leases d', task_events d', actions d',
   fleet_sessions d', audits d', deployments d', package_versions d')
  = (devices d, mobile_bindings d, accounts d, account_bindings d, leases d, task_events d, actions d,
     fleet_sessions d, audits d, deployments d, package_versions d).

Lemma same_facts_put t d : same_facts d (put_task t d).
Proof. reflexivity. Qed.

Lemma same_facts_settle k s d : same_facts d (settle_reply_delivery k s d).
Proof. unfold settle_reply_delivery. by case_match. Qed.

Lemma judge_facts d d' device fleet protocol now c :
  same_facts d d' -> judge_candidate d' device fleet protocol now c = judge_candidate d device fleet protocol now c.
Proof.
  intros [= E1 E2 E3 E4 E5 E6 E7 E8 E9 E10 E11]. unfold judge_candidate, delivery_identity_error,
    account_binding_mismatch, live_account_binding, post_commit_pending.
  by rewrite E2, E3, E4, E7.
Qed.

(** A queued task the loop passed over: failed, or held for reconciliation. *)
Definition passed_over (t t' : MobileTaskRow) : Prop :=
  t' = t \/
  t_status t = R_QUEUED /\ exists s b e dt ca li le sr,
    t' = t <| t_status := s |> <| t_business_state := b |> <| t_error_code := e |> <| t_detail := dt |>
           <| t_completed_at := ca |> <| t_lease_id := li |> <| t_lease_expires_at := le |> <| t_stall_reason := sr |>
    /\ ((s = R_FAILED /\ b = B_FAILED) \/ (s = R_QUEUED /\ b = B_RECONCILING)) /\ (li = None \/ li = t_lease_id t).

#[export] Instance passed_over_refl : Reflexive passed_over.
Proof. by left. Qed.

#[export] Instance passed_over_trans : Transitive passed_over.
Proof.
  intros t u v [->|[Hq (s & b & e & dt & ca & li & le & sr & -> & Hs & Hli)]] H2; [done|].
  destruct H2 as [->|[Hq2 (s' & b' & e' & dt' & ca' & li' & le' & sr' & -> & Hs' & Hli')]]; right; (split; [done|]).
  - by exists s, b, e, dt, ca, li, le, sr.
  - exists s', b', e', dt', ca', li', le', sr'. split; [done|]. split; [done|]. destruct Hli' as [-> | ->]; auto.
Qed.

Lemma passed_over_id t t' : passed_over t t' -> t_id t' = t_id t.
Proof. by intros [->|[_ (? & ? & ? & ? & ? & ? & ? & ? & -> & _)]]. Qed.

Lemma passed_over_active t t' : passed_over t t' -> task_active t' -> t' = t.
Proof.
  intros [->|[_ (s & b & e & dt & ca & li & le & sr & -> & Hs & _)]] Ha; [done|].
  unfold task_active in Ha; cbn in Ha. naive_solver.
Qed.

Lemma passed_failed t code dt now :
  t_status t = R_QUEUED -> passed_over t ((fail_candidate t code now) <| t_detail := dt |>).
Proof.
  intros H. right. split; [done|].
  exists R_FAILED, B_FAILED, (Some code), dt, (Some now), None, None, (t_stall_reason t). split; [reflexivity|by auto].
Qed.

Lemma passed_failed' t code now : t_status t = R_QUEUED -> passed_over t (fail_candidate t code now).
Proof.
  intros H. right. split; [done|].
  exists R_FAILED, B_FAILED, (Some code), (t_detail t), (Some now), None, None, (t_stall_reason t).
  split; [reflexivity|by auto].
Qed.

Lemma passed_held t : t_status t = R_QUEUED -> passed_over t (hold_for_reconciliation t).
Proof.
  intros H. right. split; [done|].
  exists (t_status t), B_RECONCILING, (t_error_code t), (t_detail t), (t_completed_at t), (t_lease_id t), (t_lease_expires_at t). eexists.
  split; [reflexivity|by auto].
Qed.

Lemma settle_reply_tasks k s d : tasks (settle_reply_delivery k s d) = tasks d.
Proof. unfold settle_reply_delivery. by case_match. Qed.

(** A row of the loop: still in the table, and queued. *)
Definition pending_candidate (d : db) (c : MobileTaskRow) : Prop :=
  get_task d (t_id c) = Some c /\ t_status c = R_QUEUED.

Lemma pending_put d c x : t_id x <> t_id c -> pending_candidate d c -> pending_candidate (put_task x d) c.
Proof. intros Hne [Hg Hs]. split; [|done]. unfold get_task; cbn. by rewrite tget_tput_ne. Qed.

(** What the loop established when it stopped. *)
Record scan_result (judge : MobileTaskRow -> candidate_verdict) (queued : list MobileTaskRow) (d d' : db)
    (chosen : option MobileTaskRow) : Prop := mkScan {
  scan_facts : same_facts d d';
  scan_tasks : Forall2 passed_over (tasks d) (tasks d');
  scan_chosen :
    match chosen with
    | Some row => pending_candidate d' row /\ judge row = C_TAKE
        /\ exists before after, queued = before ++ row :: after /\ Forall (fun c => judge c <> C_TAKE) before
    | None => Forall (fun c => judge c <> C_TAKE) queued
    end;
}.

Lemma scan_step judge c queued d d1 d' chosen :
  judge c <> C_TAKE -> same_facts d d1 -> Forall2 passed_over (tasks d) (tasks d1) ->
  scan_result judge queued d1 d' chosen -> scan_result judge (c :: queued) d d' chosen.
Proof.
  intros Hj Hf Ht [Hf' Ht' Hc]. split.
  - unfold same_facts in *. congruence.
  - by transitivity (tasks d1).
  - destruct chosen as [row|]; [|by constructor].
    destruct Hc as (Hp & Hk & before & after & -> & Hb). split; [done|]. split; [done|].
    exists (c :: before), after. split; [done|by constructor].
Qed.

Lemma put_passed d c c' :
  NoDup (t_id <$> tasks d) -> get_task d (t_id c) = Some c -> passed_over c c' ->
  Forall2 passed_over (tasks d) (tasks (put_task c' d)).
Proof.
  intros Hnd Hg Hp. cbn. apply (tput_Forall2 t_id passed_over c); [done| |done].
  by rewrite (passed_over_id _ _ Hp).
Qed.

Lemma scan_candidates_spec device fleet protocol now at_ queued inel d d' inel' chosen :
  NoDup (t_id <$> tasks d) -> NoDup (t_id <$> queued) -> Forall (pending_candidate d) queued ->
  scan_candidates device fleet protocol now at_ queued inel d = (d', inel', chosen) ->
  scan_result (fun c => judge_candidate d device fleet protocol (at_ (t_id c)) c) queued d d' chosen.
Proof.
  revert inel d. induction queued as [|c queued IH]; intros inel d Hnd Hq Hp H; cbn [scan_candidates] in H.
  { injection H as <- <- <-. by split; [|reflexivity|]. }
  apply NoDup_cons in Hq as [Hc Hq]. apply Forall_cons in Hp as [[Hg Hs] Hp].
  assert (Hgo : forall d1 inel1, same_facts d d1 -> Forall2 passed_over (tasks d) (tasks d1) ->
            Forall (pending_candidate d1) queued ->
            judge_candidate d device fleet protocol (at_ (t_id c)) c <> C_TAKE ->
            scan_candidates device fleet protocol now at_ queued inel1 d1 = (d', inel', chosen) ->
            scan_result (fun c => judge_candidate d device fleet protocol (at_ (t_id c)) c) (c :: queued) d d' chosen).
  { intros d1 inel1 Hf Ht Hp1 Hj Hscan. eapply scan_step; [exact Hj|exact Hf|exact Ht|].
    assert (NoDup (t_id <$> tasks d1)) as Hnd1.
    { replace (t_id <$> tasks d1) with (t_id <$> tasks d); [done|].
      clear -Ht. induction Ht as [|x y l l' Hx _ IH]; cbn; [done|]. by rewrite IH, (passed_over_id _ _ Hx). }
    destruct (IH inel1 d1 Hnd1 Hq Hp1 Hscan) as [R1 R2 R3]. split; [done|done|].
    destruct chosen as [row|].
    - destruct R3 as (? & Hj' & before & after & ? & Hb). rewrite (judge_facts d d1) in Hj' by done.
      split; [done|]. split; [done|]. exists before, after. split; [done|].
      eapply Forall_impl; [exact Hb|]. intros x; cbn. by rewrite (judge_facts d d1).
    - eapply Forall_impl; [exact R3|]. intros x; cbn. by rewrite (judge_facts d d1). }
  assert (Hput : forall c', passed_over c c' -> Forall (pending_candidate (put_task c' d)) queued).
  { intros c' Hc'. rewrite Forall_forall. intros x Hx. apply pending_put.
    - rewrite (passed_over_id _ _ Hc'). intros E. apply Hc. rewrite E. by apply list_elem_of_fmap_2.
    - rewrite Forall_forall in Hp. by apply Hp. }
  destruct (judge_candidate _ _ _ _ _ c) as [|reason|mismatch|missing| |] eqn:Ej.
  - eapply (Hgo d); [done|reflexivity|done|done|exact H].
  - refine (Hgo _ _ _ _ _ _ H); [done| | |done].
    + apply (put_passed d c); [done|done|by apply passed_failed'].
    + by apply Hput, passed_failed'.
  - refine (Hgo _ _ _ _ _ _ H); [exact (same_facts_settle _ _ (put_task _ d))| | |done].
    + rewrite settle_reply_tasks. apply (put_passed d c); [done|done|by apply passed_failed].
    + eapply Forall_impl; [apply Hput, passed_failed, Hs|]. intros x [Hx1 Hx2]. split; [|done].
      unfold get_task. by rewrite settle_reply_tasks.
  - eapply (Hgo d); [done|reflexivity|done|done|exact H].
  - refine (Hgo _ _ _ _ _ _ H); [done| | |done].
    + apply (put_passed d c); [done|done|by apply passed_held].
    + by apply Hput, passed_held.
  - injection H as <- <- <-. split; [done|reflexivity|]. split; [done|]. split; [done|].
    by exists [], queued.
Qed.

(** ** The queue *)

Lemma elem_of_device_tasks d tenant k t :
  t ∈ device_tasks d tenant k <-> t ∈ tasks d /\ t_tenant_id t = tenant /\ t_device_id t = k.
Proof. unfold device_tasks. rewrite list_elem_of_filter. tauto. Qed.

Lemma get_task_In d t : NoDup (t_id <$> tasks d) -> t ∈ tasks d -> get_task d (t_id t) = Some t.
Proof. apply (tget_In t_id). Qed.

Lemma queued_candidates_NoDup d tenant k :
  NoDup (t_id <$> tasks d) -> NoDup (t_id <$> queued_candidates d tenant k).
Proof.
  intros Hnd. unfold queued_candidates. eapply sublist_NoDup_fmap; [apply sublist_take|].
  rewrite isort_Permutation. eapply sublist_NoDup_fmap; [|exact Hnd].
  unfold device_tasks. etransitivity; apply sublist_filter.
Qed.

Lemma elem_of_queued_candidates d tenant k t :
  t ∈ queued_candidates d tenant k -> t ∈ device_tasks d tenant k /\ t_status t = R_QUEUED.
Proof.
  unfold queued_candidates. intros Ht%elem_of_take. destruct Ht as (i & Ht & _).
  apply list_elem_of_lookup_2 in Ht. rewrite elem_of_isort, list_elem_of_filter in Ht. tauto.
Qed.

Lemma queued_candidates_pending d tenant k :
  NoDup (t_id <$> tasks d) -> Forall (pending_candidate d) (queued_candidates d tenant k).
Proof.
  intros Hnd. rewrite Forall_forall. intros t [Ht Hs]%elem_of_queued_candidates.
  split; [|done]. apply elem_of_device_tasks in Ht as (Ht & _). by apply get_task_In.
Qed.

Lemma older_task_total x y : older_task x y = false -> older_task y x = true.
Proof. unfold older_task. rewrite bool_decide_eq_false, bool_decide_eq_true. lia. Qed.

Lemma scalar_isort_Some {A} (leb : A -> A -> bool) l x : scalar (isort leb l) = Some x -> x ∈ l.
Proof. intros H%scalar_Some. by apply elem_of_isort in H. Qed.

Lemma scalar_isort_None {A} (leb : A -> A -> bool) l : scalar (isort leb l) = None -> l = [].
Proof.
  intros H. apply Permutation_nil. rewrite <- (isort_Permutation leb l). by destruct (isort leb l).
Qed.

Lemma active_task_Some d tenant k a :
  active_task d tenant k = Some a -> a ∈ tasks d /\ t_tenant_id a = tenant /\ t_device_id a = k /\ task_active a.
Proof.
  unfold active_task. intros H%scalar_isort_Some. rewrite list_elem_of_filter, elem_of_device_tasks in H. tauto.
Qed.

Lemma active_task_None d tenant k t :
  active_task d tenant k = None -> t ∈ tasks d -> t_tenant_id t = tenant -> t_device_id t = k -> ~ task_active t.
Proof.
  unfold active_task. intros H%scalar_isort_None Ht Hte Hk Ha.
  apply (not_elem_of_nil t). rewrite <- H. apply list_elem_of_filter. split; [done|]. by apply elem_of_device_tasks.
Qed.

(** Every task of a device belongs to the tenant of the device. *)
Definition tasks_follow_devices (d : db) : Prop :=
  forall t x, t ∈ tasks d -> devices d !! t_device_id t = Some x -> t_tenant_id t = d_tenant_id x.

(** The device index holds one row per device. *)
Lemma one_active_per_device d t u :
  unique_indexes d -> t ∈ tasks d -> u ∈ tasks d -> task_active t -> task_active u ->
  t_device_id t = t_device_id u -> t = u.
Proof.
  intros (_ & Hnd & _) Ht Hu Ha Hb E. unfold active_devices in Hnd.
  apply (NoDup_fmap_eq _ _ _ _ Hnd); [| |done]; by apply list_elem_of_filter.
Qed.

(** After the requeue no task of the device is active. *)
Lemma requeue_active_idle d tenant k device t :
  unique_indexes d -> tasks_follow_devices d -> devices d !! k = Some device -> d_tenant_id device = tenant ->
  t ∈ tasks (requeue_active (active_task d tenant k) d) -> t_device_id t = k -> ~ task_active t.
Proof.
  intros Hu Hf Hd Ht Hin Hk Ha. destruct (active_task d tenant k) as [a|] eqn:Ea; cbn in Hin.
  - apply active_task_Some in Ea as (Hal & _ & Hak & Haa).
    apply elem_of_tput in Hin as [[-> _]|[Hin Hne]]; [unfold task_active in Ha; cbn in Ha; naive_solver|].
    apply Hne; cbn. f_equal. by apply (one_active_per_device d); rewrite ?Hk, ?Hak.
  - eapply active_task_None; [exact Ea|exact Hin| |exact Hk|exact Ha].
    rewrite <- Ht. apply Hf; [done|by rewrite Hk].
Qed.

(** ** Claim, by cases *)

Section ClaimCases.
Context (builtin_recipe_ref : string -> option json).
Context (binding : MobileBindingRow) (lease_seconds : Z) (protocol : option string) (remote_live : bool)
        (new_lease_id : string) (now : Z) (checked_at : string -> Z).
Abbreviation tenant := (b_tenant_id binding).
Abbreviation dev := (b_device_id binding).

(** The state after the requeue, and the verdicts the loop reads in it. *)
Definition requeued (d : db) : db := requeue_active (active_task d tenant dev) d.
Definition claim_judge (d : db) (device : DeviceRow) (c : MobileTaskRow) : candidate_verdict :=
  judge_candidate d device (active_session d tenant (b_id binding)) protocol (checked_at (t_id c)) c.

(** The gates every claim that reaches the queue has passed. *)
Record claim_gates (d : db) (device : DeviceRow) : Prop := mkGates {
  cg_device : devices d !! dev = Some device;
  cg_tenant : d_tenant_id device = tenant;
  cg_maintenance : d_maintenance device = false;
  cg_remote : remote_live = false /\ ~ remote_lease_live (leases d !! dev) now;
  cg_unknown : open_unknown_actions d tenant dev = [];
  cg_executable : claim_executable (active_session d tenant (b_id binding)) device now = true;
  cg_blocking : blocking_task d tenant dev = None;
  cg_active : forall a, active_task d tenant dev = Some a -> expired (t_lease_expires_at a) now;
}.

Definition account_conflict (d : db) (row : MobileTaskRow) : option MobileTaskRow :=
  if truthy_str (t_account_id row) && task_write_effect row
  then account_write_conflict d tenant (default "" (t_account_id row)) (t_id row) else None.

Lemma requeue_same_facts d : same_facts d (requeued d).
Proof. unfold requeued, requeue_active. by destruct (active_task d tenant dev). Qed.

Lemma requeued_ids d : t_id <$> tasks (requeued d) = t_id <$> tasks d.
Proof. unfold requeued, requeue_active. destruct (active_task d tenant dev); [|done]. apply (tput_keys t_id). Qed.

Lemma claim_scan d device d2 inel chosen :
  NoDup (t_id <$> tasks d) ->
  scan_candidates device (active_session d tenant (b_id binding)) protocol now checked_at
    (queued_candidates (requeued d) tenant dev) [] (requeued d) = (d2, inel, chosen) ->
  scan_result (claim_judge d device) (queued_candidates (requeued d) tenant dev) (requeued d) d2 chosen.
Proof.
  intros Hnd H. pose proof (requeued_ids d) as Hids.
  assert (NoDup (t_id <$> tasks (requeued d))) as Hnd1 by (by rewrite Hids).
  apply scan_candidates_spec in H as [F T C];
    [|done|by apply queued_candidates_NoDup|by apply queued_candidates_pending].
  assert (Hj : forall c, judge_candidate (requeued d) device (active_session d tenant (b_id binding)) protocol
                           (checked_at (t_id c)) c = claim_judge d device c).
  { intros c. apply judge_facts, requeue_same_facts. }
  split; [done|done|]. destruct chosen as [row|].
  - destruct C as (Hp & Hk & before & after & E & Hb). rewrite Hj in Hk. do 2 (split; [done|]).
    exists before, after. split; [done|]. eapply Forall_impl; [exact Hb|]. intros c; cbn. by rewrite Hj.
  - eapply Forall_impl; [exact C|]. intros c; cbn. by rewrite Hj.
Qed.

(** Every outcome of the body of [claim]: an early refusal or nothing to do,
    an empty scan, or the dispatch of the chosen candidate. *)
Lemma claim_cases d r :
  NoDup (t_id <$> tasks d) ->
  claim_body builtin_recipe_ref binding lease_seconds protocol remote_live new_lease_id now checked_at d = r ->
  (r = Ok (None, d) \/ exists e, r = Err e /\ forall s, e <> IntegrityError s)
  \/ exists device d2 chosen, claim_gates d device
     /\ scan_result (claim_judge d device) (queued_candidates (requeued d) tenant dev) (requeued d) d2 chosen
     /\ match chosen with
        | None => r = Ok (None, d2)
        | Some row => account_conflict d2 row = None /\ reclaim_guard row = Ok tt
            /\ r = (let? (row, d) := dispatch builtin_recipe_ref binding device
                      (active_session d tenant (b_id binding)) lease_seconds new_lease_id now row d2 in Ok (Some row, d))
        end.
Proof.
  intros Hnd <-. unfold claim_body.
  destruct (devices d !! dev) as [device|] eqn:Ed; [|left; right; by eexists].
  case_decide as Dt; [left; right; by eexists|].
  case_decide as Dm; [left; right; by eexists|]. apply not_true_is_false in Dm.
  case_decide as Dr; [left; right; by eexists|]. apply not_true_is_false in Dr.
  case_decide as Db; [left; right; by eexists|].
  case_decide as Du; [left; right; by eexists|].
  case_decide as De; [by left; left|]. apply not_false_is_true in De.
  case_decide as Dk; [by left; left|].
  case_decide as Dl; [left; right; by eexists|].
  case_decide as Da; [by left; left|].
  assert (claim_gates d device) as Hg.
  { split; try done. { by destruct (blocking_task d tenant dev); [destruct Dk|]. }
    intros a Ea. rewrite Ea in Da. apply dec_stable. intros Hn. by apply Da. }
  change (requeue_active (active_task d tenant dev) d) with (requeued d).
  destruct (scan_candidates _ _ _ _ _ _ _ _) as [[d2 inel] chosen] eqn:Es.
  apply claim_scan in Es; [|done].
  destruct chosen as [row|].
  - change (if truthy_str (t_account_id row) && task_write_effect row
      then account_write_conflict d2 tenant (default "" (t_account_id row)) (t_id row) else None)
      with (account_conflict d2 row).
    destruct (account_conflict d2 row) as [c|] eqn:Ec; [left; right; by eexists|].
    destruct (reclaim_guard row) as [[]|e] eqn:Er.
    + right. by exists device, d2, (Some row).
    + left; right. exists e. split; [done|]. unfold reclaim_guard in Er. by ok_inv Er.
  - destruct inel as [|[k missing] inel]; [|left; right; by eexists].
    right. by exists device, d2, None.
Qed.

End ClaimCases.

(** What a dispatched row looks like. *)
Record dispatched (binding : MobileBindingRow) (lease_seconds : Z) (new_lease_id : string) (now counter : Z)
    (row row' : MobileTaskRow) : Prop := mkDispatched {
  dp_frozen : frozen_columns row' = frozen_columns row;
  dp_status : t_status row' = R_CLAIMED;
  dp_state : t_business_state row' = B_PREFLIGHT;
  dp_lease : t_lease_id row' = Some new_lease_id;
  dp_expires : t_lease_expires_at row' = Some (now + seconds lease_seconds);
  dp_attempt : t_attempt row' = t_attempt row + 1;
  dp_counters : (t_last_sequence row', t_resume_count row', control_revision row')
                = (t_last_sequence row, t_resume_count row, control_revision row);
  dp_epoch : h_controlEpoch (t_header row') = Some counter;
  dp_device : t_device_id_at_execution row' = Some (b_device_id binding);
}.

Lemma dispatched_pin binding s k now counter row row' pin :
  dispatched binding s k now counter row row' -> dispatched binding s k now counter row (row' <| t_recipe_pin := pin |>).
Proof. by intros []; split. Qed.

Lemma pin_recipe_Ok builtin binding row now d row' d' :
  pin_recipe builtin binding row now d = Ok (row', d') ->
  (exists pin, row' = row <| t_recipe_pin := pin |>) /\ exists new, d' = d <| audits := audits d ++ new |>.
Proof.
  unfold pin_recipe, add_audit. intros H.
  assert (d <| audits := audits d ++ [] |> = d) as Hd by (rewrite app_nil_r; by destruct d).
  assert (row <| t_recipe_pin := t_recipe_pin row |> = row) as Hr by (by destruct row).
  repeat case_decide; [|..]; ok_inv H; (split; [eauto|eauto]).
Qed.

Lemma pin_recipe_Err builtin binding row now d e :
  pin_recipe builtin binding row now d = Err e -> exists k, e = KeyError k.
Proof. unfold pin_recipe. intros H. repeat case_decide; ok_inv H. by ok_inv E; eauto. Qed.

Lemma dispatch_Ok builtin binding device fleet ls k now row d row' d' :
  dispatch builtin binding device fleet ls k now row d = Ok (row', d') ->
  let counter := d_fencing_counter device + 1 in
  dispatched binding ls k now counter row row'
  /\ tasks d' = tput t_id row' (tasks d)
  /\ devices d' = <[b_device_id binding := device <| d_fencing_counter := counter |>]> (devices d)
  /\ leases d' = <[b_device_id binding :=
       mkLease (b_tenant_id binding) k (auto_workflow row) counter (now + seconds ls) None AUTO]> (leases d)
  /\ (actions d', task_events d', mobile_bindings d', fleet_sessions d')
     = (actions d, task_events d, mobile_bindings d, fleet_sessions d)
  /\ exists new, audits d' = audits d ++ new.
Proof.
  unfold dispatch. intros H. cbv beta zeta in H.
  destruct (pin_recipe _ _ _ _ _) as [[row1 d1]|] eqn:E; [|done]. injection H as <- <-.
  apply pin_recipe_Ok in E as [[pin ->] [new ->]]. split; [|split; [|split; [|split; [|split]]]].
  - apply dispatched_pin. unfold stamp_envelope.
    split; unfold control_revision; cbn; repeat case_match; cbn; repeat case_match; try done; by case_decide.
  - reflexivity.
  - reflexivity.
  - cbn. by rewrite insert_delete_eq.
  - reflexivity.
  - by exists new.
Qed.

Lemma dispatch_accounts builtin binding device fleet ls k now row d row' d' :
  dispatch builtin binding device fleet ls k now row d = Ok (row', d') ->
  accounts d' = accounts d /\ account_bindings d' = account_bindings d.
Proof.
  unfold dispatch. intros H. cbv beta zeta in H.
  destruct (pin_recipe _ _ _ _ _) as [[row1 d1]|] eqn:E; [|done]. injection H as <- <-.
  by apply pin_recipe_Ok in E as [_ [new ->]].
Qed.

Lemma dispatch_Err builtin binding device fleet ls k now row d e :
  dispatch builtin binding device fleet ls k now row d = Err e -> exists x, e = KeyError x.
Proof.
  unfold dispatch. cbv beta zeta. destruct (pin_recipe _ _ _ _ _) as [[row1 d1]|e1] eqn:E; [done|].
  intros [= <-]. by apply pin_recipe_Err in E.
Qed.

(** ** Claim continues the history *)

Lemma task_le_open t t' :
  frozen_columns t' = frozen_columns t -> t_attempt t <= t_attempt t' -> t_last_sequence t <= t_last_sequence t' ->
  control_revision t <= control_revision t' -> t_resume_count t <= t_resume_count t' ->
  ~ runner_done t -> (~ settled t -> consistent t') -> task_le t t'.
Proof.
  intros HF HA HS HR HC Hns Hcons. split; try done.
  - intros Hc. apply Hcons. unfold consistent in Hc. tauto.
  - intros Hc Hs. unfold consistent in Hc. tauto.
Qed.

Lemma queued_open t : t_status t = R_QUEUED -> ~ runner_done t.
Proof. unfold runner_done. intros ->. naive_solver. Qed.

Lemma active_open t : task_active t -> ~ runner_done t.
Proof. unfold task_active, runner_done. intros [-> | ->]; naive_solver. Qed.

Lemma passed_over_le t t' : passed_over t t' -> task_le t t'.
Proof.
  intros [->|[Hq (s & b & e & dt & ca & li & le & sr & -> & Hs & _)]]; [reflexivity|].
  apply task_le_open; try reflexivity; [by apply queued_open|]. intros _.
  destruct Hs as [[-> ->]|[-> ->]]; states_agree.
Qed.

Lemma requeue_le t : task_active t -> task_le t (requeue t).
Proof.
  intros Ha. apply task_le_open; try reflexivity; [by apply active_open|]. intros Hn. revert Hn. states_agree.
Qed.

Lemma dispatched_le binding ls k now counter row row' :
  t_status row = R_QUEUED -> dispatched binding ls k now counter row row' -> task_le row row'.
Proof.
  intros Hq [F S B L E A C _ _]. injection C as C1 C2 C3.
  apply task_le_open; [done|lia|lia|lia|lia|by apply queued_open|].
  intros _. unfold consistent, settled, runner_done. rewrite S, B. unfold TERMINAL_BUSINESS.
  rewrite !elem_of_cons, elem_of_nil. intuition congruence.
Qed.

Lemma frozen_id t t' : frozen_columns t' = frozen_columns t -> t_id t' = t_id t.
Proof. intros F. by injection F. Qed.

Lemma requeued_le binding d :
  NoDup (t_id <$> tasks d) -> grows task_le consistent (tasks d) (tasks (requeued binding d)).
Proof.
  intros Hnd. unfold requeued, requeue_active. destruct (active_task d _ _) as [a|] eqn:Ea; [|apply grows_refl, _].
  apply active_task_Some in Ea as (Ha & _ & _ & Hact).
  apply (put_task_le d d a); [done|exact (get_task_In d a Hnd Ha)|by apply requeue_le|done].
Qed.

Lemma claim_le builtin binding ls protocol remote k now at_ d row' d' :
  unique_indexes d -> claim builtin binding ls protocol remote k now at_ d = Ok (row', d') -> db_le d d'.
Proof.
  intros [Hnd Hu] H. apply unit_of_work_Ok in H as [H _].
  apply claim_cases in H as [[H|(e & He & _)]|(device & d2 & chosen & G & [F T C] & H)]; [|done| |done].
  { injection H as -> ->. reflexivity. }
  assert (grows task_le consistent (tasks d) (tasks d2)) as Hgr.
  { eapply grows_trans; [apply _|apply _|apply _|by apply (requeued_le binding)|]. apply grows_Forall2.
    eapply Forall2_impl; [exact T|apply passed_over_le]. }
  assert (same_facts d d2) as F2.
  { pose proof (requeue_same_facts binding d). unfold same_facts in *. congruence. }
  injection F2 as E1 E2 E3 E4 E5 E6 E7 E8 E9 E10 E11.
  destruct chosen as [row|].
  - destruct H as (_ & _ & H). destruct (dispatch _ _ _ _ _ _ _ _ _) as [[row1 d1]|] eqn:Ed; [|done].
    injection H as -> ->. apply dispatch_Ok in Ed as (Hdp & Ht & Hde & Hl & [= Ha He _ _] & new & Hn).
    destruct C as [[Hg Hq] _]. pose proof (frozen_id _ _ (dp_frozen _ _ _ _ _ _ _ Hdp)) as Hid.
    split.
    + eapply grows_trans; [apply _|apply _|apply _|exact Hgr|]. rewrite Ht.
      apply (put_task_le d2 d2 row); [|by rewrite Hid|by eapply dispatched_le|done].
      replace (t_id <$> tasks d2) with (t_id <$> tasks d); [done|].
      rewrite <- (requeued_ids binding d). clear -T.
      induction T as [|x y l l' Hx _ IH]; cbn; [done|]. by rewrite IH, (passed_over_id _ _ Hx).
    + rewrite Ha, E7. apply grows_refl, _.
    + rewrite He, E6. apply grows_refl, _.
    + rewrite Hn, E9. apply grows_app; [apply _|apply anything_all].
    + rewrite Hde, E1. eapply devices_le_put; [by destruct G|split; [done|cbn; lia..]].
  - injection H as -> ->. split; [done|rewrite E7|rewrite E6|rewrite E9|by rewrite E1]; apply grows_refl, _.
Qed.

(** ** What a claim grants *)

Lemma elem_of_Forall2_r {A B} (R : A -> B -> Prop) l l' y :
  Forall2 R l l' -> y ∈ l' -> exists x, x ∈ l /\ R x y.
Proof.
  induction 1 as [|x z l l' Hx _ IH]; [by intros ?%elem_of_nil|].
  intros [->|Hy]%elem_of_cons; [exists x; split; [by left|done]|].
  destruct (IH Hy) as (w & Hw & Hr). exists w. split; [by right|done].
Qed.

(** A task of the requeued state, and the task of the claim's own state it comes from. *)
Lemma requeued_row binding d row :
  NoDup (t_id <$> tasks d) -> row ∈ tasks (requeued binding d) ->
  row ∈ tasks d \/ exists a, active_task d (b_tenant_id binding) (b_device_id binding) = Some a
                             /\ a ∈ tasks d /\ row = requeue a.
Proof.
  intros Hnd. unfold requeued, requeue_active. destruct (active_task d _ _) as [a|] eqn:Ea; [|by left].
  intros [[-> _]|[H _]]%elem_of_tput; [right|by left].
  exists a. split; [done|]. by apply active_task_Some in Ea as [Ha _].
Qed.

Lemma blocking_None d tenant k t :
  blocking_task d tenant k = None -> t ∈ tasks d -> t_tenant_id t = tenant -> t_device_id t = k ->
  t_business_state t ∉ BLOCKING_BUSINESS_STATES.
Proof.
  unfold blocking_task. intros H%scalar_isort_None Ht Hte Hk Hb.
  apply (not_elem_of_nil t). rewrite <- H. apply list_elem_of_filter. split; [done|]. by apply elem_of_device_tasks.
Qed.

Lemma judge_take d device fleet protocol now c :
  judge_candidate d device fleet protocol now c = C_TAKE ->
  account_binding_mismatch d c = None /\ post_commit_pending d c = false /\ negotiated_shortfall fleet c = []
  /\ (is_Some (delivery_metadata c) -> delivery_identity_error d c device now = None).
Proof.
  unfold judge_candidate. intros H.
  destruct (delivery_metadata c) as [meta|] eqn:Em.
  - case_decide; [done|]. destruct (delivery_identity_error _ _ _ _) eqn:Ed; [done|]. cbn in H.
    destruct (account_binding_mismatch d c); [done|]. destruct (negotiated_shortfall fleet c); [|done].
    by destruct (post_commit_pending d c).
  - destruct (account_binding_mismatch d c); [done|]. destruct (negotiated_shortfall fleet c); [|done].
    destruct (post_commit_pending d c); [done|]. repeat split; try done; by intros [? ?].
Qed.

Lemma claim_granted builtin binding ls protocol remote k now at_ d row' d' :
  unique_indexes d -> claim builtin binding ls protocol remote k now at_ d = Ok (Some row', d') ->
  exists device row,
    devices d !! b_device_id binding = Some device /\ d_tenant_id device = b_tenant_id binding
    /\ get_task d (t_id row') = Some row
    /\ t_tenant_id row = b_tenant_id binding /\ t_device_id row = b_device_id binding
    /\ (t_status row = R_QUEUED \/ (task_active row /\ expired (t_lease_expires_at row) now))
    /\ (t_business_state row ∉ BLOCKING_BUSINESS_STATES)
    /\ post_commit_pending d row = false /\ account_binding_mismatch d row = None
    /\ open_unknown_actions d (b_tenant_id binding) (b_device_id binding) = []
    /\ ~ remote_lease_live (leases d !! b_device_id binding) now
    /\ (actions d', mobile_bindings d') = (actions d, mobile_bindings d)
    /\ let counter := d_fencing_counter device + 1 in
       dispatched binding ls k now counter row row' /\ get_task d' (t_id row') = Some row'
       /\ devices d' !! b_device_id binding = Some (device <| d_fencing_counter := counter |>)
       /\ leases d' !! b_device_id binding =
            Some (mkLease (b_tenant_id binding) k (auto_workflow row') counter (now + seconds ls) None AUTO).
Proof.
  intros [Hnd Hu] H. apply unit_of_work_Ok in H as [H _].
  apply claim_cases in H as [[H|(e & He & _)]|(device & d2 & chosen & G & [F T C] & H)]; try done.
  destruct chosen as [row|]; [|done]. destruct H as (_ & _ & H).
  destruct (dispatch _ _ _ _ _ _ _ _ _) as [[row1 d1]|] eqn:Ed; [|done]. injection H as -> ->.
  apply dispatch_Ok in Ed as (Hdp & Ht & Hde & Hl & [= Hac _ Hmb _] & _).
  assert (same_facts d d2) as F2.
  { pose proof (requeue_same_facts binding d). unfold same_facts in *. congruence. }
  injection F2 as _ E2 _ _ _ _ E7 _ _ _ _. rewrite E7 in Hac. rewrite E2 in Hmb. rewrite Hac, Hmb.
  destruct C as ([Hg Hq] & Hj & before & after & Hqueue & _).
  assert (row ∈ queued_candidates (requeued binding d) (b_tenant_id binding) (b_device_id binding)) as Hin
    by (rewrite Hqueue; set_solver).
  apply elem_of_queued_candidates in Hin as [(Hin & Hte & Hdv)%elem_of_device_tasks _].
  pose proof (frozen_id _ _ (dp_frozen _ _ _ _ _ _ _ Hdp)) as Hid.
  apply judge_take in Hj as (Hm & Hp & _). destruct G as [G1 G2 G3 [G4 G5] G6 G7 G8 G9].
  assert (auto_workflow row1 = auto_workflow row) as Hw by (unfold auto_workflow; by rewrite Hid).
  rewrite Hw, Hde, Hl, !lookup_insert_eq.
  assert (get_task d1 (t_id row1) = Some row1) as Hg1.
  { unfold get_task. rewrite Ht. apply tget_tput_same. rewrite Hid. by eapply tget_key_In. }
  destruct (requeued_row binding d row Hnd Hin) as [Hold|(a & Ea & Hold & ->)].
  - exists device, row.
    assert (get_task d (t_id row1) = Some row) by (rewrite Hid; by apply get_task_In).
    do 5 (split; [done|]). split; [by left|].
    split; [by eapply blocking_None|]. repeat (split; [done|]). done.
  - exists device, a.
    assert (get_task d (t_id row1) = Some a) by (rewrite Hid; by apply (get_task_In d a)).
    pose proof (active_task_Some _ _ _ _ Ea) as (_ & _ & _ & Hact).
    do 5 (split; [done|]). split; [right; split; [done|by apply G9]|].
    split; [by eapply blocking_None|]. do 5 (split; [done|]).
    split; [destruct Hdp; by split|]. repeat (split; [done|]). done.
Qed.

(** C7. A claim that hands out a task hands out a right to run it. The task
    is one of the companion's own device and tenant that was queued, or whose
    lease had run out, and is in no blocking state; it never entered its
    commit window, its account is still bound as frozen, no action of the
    device is open UNKNOWN, no live remote lease holds the device. The
    fencing counter of the device grows by one, and the task, its header and
    the only lease of the device carry the new lease and counter. *)
Theorem claim_grants builtin binding ls protocol remote k now at_ d row' d' :
  unique_indexes d -> claim builtin binding ls protocol remote k now at_ d = Ok (Some row', d') ->
  exists device row,
    devices d !! b_device_id binding = Some device /\ d_tenant_id device = b_tenant_id binding
    /\ get_task d (t_id row') = Some row
    /\ t_tenant_id row = b_tenant_id binding /\ t_device_id row = b_device_id binding
    /\ (t_status row = R_QUEUED \/ (task_active row /\ expired (t_lease_expires_at row) now))
    /\ (t_business_state row ∉ BLOCKING_BUSINESS_STATES)
    /\ post_commit_pending d row = false /\ account_binding_mismatch d row = None
    /\ open_unknown_actions d (b_tenant_id binding) (b_device_id binding) = []
    /\ ~ remote_lease_live (leases d !! b_device_id binding) now
    /\ let counter := d_fencing_counter device + 1 in
       dispatched binding ls k now counter row row' /\ get_task d' (t_id row') = Some row'
       /\ devices d' !! b_device_id binding = Some (device <| d_fencing_counter := counter |>)
       /\ leases d' !! b_device_id binding =
            Some (mkLease (b_tenant_id binding) k (auto_workflow row') counter (now + seconds ls) None AUTO).
Proof.
  intros Hu H. destruct (claim_granted _ _ _ _ _ _ _ _ _ _ _ Hu H)
    as (device & row & ? & ? & ? & ? & ? & ? & ? & ? & ? & ? & ? & _ & ?).
  exists device, row. do 11 (split; [assumption|]). assumption.
Qed.

Lemma isort_before (l before after : list MobileTaskRow) row t :
  isort older_task l = before ++ row :: after -> t ∈ l -> t_created_at t < t_created_at row -> t ∈ before.
Proof.
  intros E Ht Hlt. pose proof (isort_Sorted older_task older_task_total l) as Hs.
  apply Sorted_StronglySorted in Hs.
  2:{ intros x y z. unfold older_task. rewrite !bool_decide_eq_true. lia. }
  rewrite <- (elem_of_isort older_task), E in Ht. rewrite E in Hs.
  apply elem_of_app in Ht as [Ht|[->|Ht]%elem_of_cons]; [done|lia|].
  apply StronglySorted_app_1_r in Hs. apply StronglySorted_inv in Hs as [_ Hs].
  rewrite Forall_forall in Hs. specialize (Hs t Ht). unfold older_task in Hs.
  rewrite bool_decide_eq_true in Hs. lia.
Qed.

(** The queue of a device is served in order of creation: when a claim
    hands out a task, every older queued task of the device was looked at
    first and refused, by its delivery identity, its account binding, a
    missing capability or its commit window. *)
Theorem claim_oldest_first builtin binding ls protocol remote k now at_ d row' d' t device :
  unique_indexes d -> claim builtin binding ls protocol remote k now at_ d = Ok (Some row', d') ->
  devices d !! b_device_id binding = Some device ->
  t ∈ device_tasks d (b_tenant_id binding) (b_device_id binding) -> t_status t = R_QUEUED ->
  t_created_at t < t_created_at row' ->
  claim_judge binding protocol at_ d device t <> C_TAKE.
Proof.
  intros [Hnd Hu] H Hd Ht Hq Hlt. apply unit_of_work_Ok in H as [H _].
  apply claim_cases in H as [[H|(e & He & _)]|(device' & d2 & chosen & G & [F T C] & H)]; try done.
  destruct chosen as [row|]; [|done]. destruct H as (_ & _ & H).
  destruct (dispatch _ _ _ _ _ _ _ _ _) as [[row1 d1]|] eqn:Ed; [|done]. injection H as -> ->.
  apply dispatch_Ok in Ed as (Hdp & _). destruct C as (_ & _ & before & after & Hqueue & Hb).
  assert (device' = device) as -> by (pose proof (cg_device _ _ _ _ _ G); congruence).
  rewrite Forall_forall in Hb. apply Hb. clear Hb.
  assert (t_created_at row1 = t_created_at row) as Hc by (pose proof (dp_frozen _ _ _ _ _ _ _ Hdp) as X; by injection X).
  unfold queued_candidates in Hqueue.
  pose proof (take_drop CLAIM_CANDIDATE_LIMIT (isort older_task
     (filter (fun t => t_status t = R_QUEUED) (device_tasks (requeued binding d) (b_tenant_id binding) (b_device_id binding))))) as E.
  rewrite Hqueue, <- app_assoc in E. cbn [app] in E. symmetry in E.
  eapply isort_before; [exact E| |lia].
  apply list_elem_of_filter. split; [done|]. apply elem_of_device_tasks in Ht as (Ht & Hte & Hdv).
  apply elem_of_device_tasks. split; [|done].
  unfold requeued, requeue_active. destruct (active_task d _ _) as [a|] eqn:Ea; [|done].
  apply elem_of_tput_other; [done|]. cbn. intros Eid.
  apply active_task_Some in Ea as (Ha & _ & _ & Hact).
  assert (t = a) as -> by (by apply (NoDup_fmap_eq t_id (tasks d))).
  unfold task_active in Hact. rewrite Hq in Hact. naive_solver.
Qed.

(** ** Claim keeps the indexes *)

Lemma passed_over_ids l l' : Forall2 passed_over l l' -> t_id <$> l' = t_id <$> l.
Proof. induction 1 as [|x y l l' Hx _ IH]; cbn; [done|]. by rewrite IH, (passed_over_id _ _ Hx). Qed.

Lemma passed_over_actives l l' : Forall2 passed_over l l' -> sublist (filter task_active l') (filter task_active l).
Proof.
  induction 1 as [|x y l l' Hx _ IH]; [done|]. rewrite !filter_cons.
  destruct (decide (task_active y)) as [Hy|Hy].
  - apply passed_over_active in Hx as ->; [|done]. rewrite decide_True by done. by apply sublist_skip.
  - case_decide; [by apply sublist_cons|done].
Qed.

Lemma active_devices_tput_new r l :
  NoDup (t_id <$> l) -> NoDup (active_devices l) -> t_device_id r ∉ active_devices l ->
  NoDup (active_devices (tput t_id r l)).
Proof.
  induction l as [|x l IH]; intros Hid Hnd Hr; [done|].
  apply NoDup_cons in Hid as [Hx Hid].
  change (x :: l) with ([x] ++ l) in Hnd, Hr. rewrite active_devices_app in Hnd, Hr.
  apply NoDup_app in Hnd as (H1 & H2 & H3).
  change (tput t_id r (x :: l)) with ([if decide (t_id x = t_id r) then r else x] ++ tput t_id r l).
  rewrite active_devices_app.
  destruct (decide (t_id x = t_id r)) as [E|E].
  - assert (tput t_id r l = l) as ->.
    { clear -Hx E. induction l as [|y l IH]; cbn; [done|]. fold (tput t_id r l).
      rewrite IH by set_solver. rewrite decide_False; [done|]. intros E'. apply Hx. rewrite E, <- E'. by left. }
    apply NoDup_app. split; [|split; [|done]].
    + unfold active_devices. rewrite filter_cons, filter_nil. case_decide; [apply NoDup_singleton|apply NoDup_nil_2].
    + intros k Hk Hk'. apply elem_of_active_devices in Hk as (y & ->%list_elem_of_singleton & _ & <-). set_solver.
  - apply NoDup_app. split; [done|]. split; [|apply IH; [done|done|set_solver]].
    intros k Hk Hk'. apply elem_of_active_devices in Hk' as (y & Hy & Ha & <-).
    apply elem_of_tput in Hy as [[-> _]|[Hy _]]; [set_solver|].
    apply (H2 (t_device_id y) Hk). apply elem_of_active_devices. by exists y.
Qed.

Lemma passed_over_lease t t' x : passed_over t t' -> t_lease_id t' = Some x -> t_lease_id t = Some x.
Proof. intros [->|[_ (s & b & e & dt & ca & li & le & sr & -> & _ & [-> | ->])]]; done. Qed.

Lemma passed_over_key t t' : passed_over t t' -> task_key t' = task_key t.
Proof. by intros [->|[_ (? & ? & ? & ? & ? & ? & ? & ? & -> & _)]]. Qed.

Lemma passed_over_keys l l' : Forall2 passed_over l l' -> task_key <$> l' = task_key <$> l.
Proof. induction 1 as [|x y l l' Hx _ IH]; cbn; [done|]. by rewrite IH, (passed_over_key _ _ Hx). Qed.

Lemma passed_over_leases l l' : Forall2 passed_over l l' -> sublist (task_leases l') (task_leases l).
Proof.
  induction 1 as [|x y l l' Hx _ IH]; [done|]. unfold task_leases in *. cbn.
  destruct (t_lease_id y) as [k|] eqn:Ey.
  - rewrite (passed_over_lease _ _ _ Hx Ey). by apply sublist_skip.
  - destruct (t_lease_id x); [by apply sublist_cons|done].
Qed.

Lemma requeued_keys binding d : NoDup (t_id <$> tasks d) -> task_key <$> tasks (requeued binding d) = task_key <$> tasks d.
Proof.
  intros Hnd. unfold requeued, requeue_active. destruct (active_task d _ _) as [a|] eqn:Ea; [|done].
  apply active_task_Some in Ea as (Ha & _). apply tput_fmap. intros x Hx Hid. cbn in Hid.
  by rewrite (NoDup_fmap_eq t_id (tasks d) x a).
Qed.

Lemma requeued_leases binding d : NoDup (t_id <$> tasks d) -> NoDup (task_leases (tasks d)) ->
  NoDup (task_leases (tasks (requeued binding d)))
  /\ forall x, x ∈ task_leases (tasks (requeued binding d)) -> x ∈ task_leases (tasks d).
Proof.
  intros Hnd Hl. unfold requeued, requeue_active. destruct (active_task d _ _) as [a|] eqn:Ea; [|done].
  split; [by apply task_leases_tput|]. intros x (t & Ht & Hx)%elem_of_task_leases.
  apply elem_of_tput in Ht as [[-> _]|[Ht _]]; [done|]. apply elem_of_task_leases. by exists t.
Qed.

Lemma requeued_unique binding d : unique_indexes d -> NoDup (active_devices (tasks (requeued binding d))).
Proof.
  intros (Hid & Hnd & _). unfold requeued, requeue_active. destruct (active_task d _ _) as [a|]; [|done].
  apply active_devices_tput_le; [done|]. intros x _ _ Ha. unfold task_active in Ha; cbn in Ha. naive_solver.
Qed.

(** A claim never trips over a unique index: from a database whose
    indexes hold and whose tasks belong to the tenant of their device, no
    claim that draws a fresh lease identifier fails with an integrity error,
    whatever its other arguments. In particular it never leaves a device with
    two active tasks. *)
Theorem claim_no_integrity_error builtin binding ls protocol remote k now at_ d s :
  unique_indexes d -> tasks_follow_devices d ->
  (k ∉ task_leases (tasks d)) -> (forall x l, leases d !! x = Some l -> l_lease_id l <> k) ->
  claim builtin binding ls protocol remote k now at_ d <> Err (IntegrityError s).
Proof.
  intros Hu Hf Hk1 Hk2 H. pose proof Hu as (Hid & Hnd & Hev & Hak & Hat & Hkey & Hlease & Hdl & Hfs & Htok). unfold claim, unit_of_work in H.
  destruct (claim_body builtin binding ls protocol remote k now at_ d) as [[o d']|e] eqn:Eb.
  2:{ injection H as ->. apply claim_cases in Eb as [[?|(e & [= <-] & He)]|(device & d2 & chosen & _ & _ & Hc)];
        [done|by eapply He| |done].
      destruct chosen as [row|]; [|done]. destruct Hc as (_ & _ & Hc).
      destruct (dispatch _ _ _ _ _ _ _ _ _) as [[]|] eqn:Ed; [done|].
      injection Hc as <-. by apply dispatch_Err in Ed as [? ?]. }
  case_decide as Dn; [|done]. clear H. apply Dn. clear Dn.
  apply claim_cases in Eb as [[Hr|(e & He & _)]|(device & d2 & chosen & G & [F T C] & Hc)];
    [by injection Hr as -> ->|done| |done].
  assert (NoDup (active_devices (tasks d2))) as Hnd2.
  { eapply sublist_NoDup; [by apply (requeued_unique binding d)|]. by apply sublist_fmap, passed_over_actives. }
  assert (NoDup (t_id <$> tasks d2)) as Hid2 by (by rewrite (passed_over_ids _ _ T), requeued_ids).
  assert (same_facts d d2) as F2.
  { pose proof (requeue_same_facts binding d). unfold same_facts in *. congruence. }
  injection F2 as E1 E2 E3 E4 E5 E6 E7 E8 E9 E10 E11.
  destruct (requeued_leases binding d Hid Hlease) as [Hrl Hrl2].
  assert (NoDup (task_leases (tasks d2))) as Hlease2
    by (eapply sublist_NoDup; [exact Hrl|by apply passed_over_leases]).
  assert (task_key <$> tasks d2 = task_key <$> tasks d) as Hkey2
    by (by rewrite (passed_over_keys _ _ T), requeued_keys).
  destruct chosen as [row|].
  2:{ injection Hc as -> ->. unfold unique_indexes. by rewrite E2, E5, E6, E7, E8, Hkey2. }
  destruct Hc as (_ & _ & Hc). destruct (dispatch _ _ _ _ _ _ _ _ _) as [[row1 d1]|] eqn:Ed; [|done].
  injection Hc as -> ->. apply dispatch_Ok in Ed as (Hdp & Ht & _ & Hleases & [= Ha He Hm Hs] & _).
  pose proof (dp_frozen _ _ _ _ _ _ _ Hdp) as X. injection X as Xid Xte Xdev Xkey _ _ _ _ _ _ _ _ _ _ _.
  destruct C as ([Hg Hq] & _ & before & after & Hqueue & _).
  unfold unique_indexes. rewrite Ht, Ha, He, Hm, Hs, Hleases, E2, E5, E6, E7, E8.
  split; [by rewrite (tput_keys t_id : forall r l, t_id <$> tput t_id r l = t_id <$> l)|].
  split; [|do 3 (split; [done|]); split; [|split; [|split; [|done]]]].
  - apply active_devices_tput_new; [done|done|].
    assert (row ∈ queued_candidates (requeued binding d) (b_tenant_id binding) (b_device_id binding)) as Hin
      by (rewrite Hqueue; set_solver).
    apply elem_of_queued_candidates in Hin as [(_ & _ & Hdv)%elem_of_device_tasks _].
    rewrite Xdev, Hdv. intros (t & Htin & Hact & Hk)%elem_of_active_devices.
    destruct (elem_of_Forall2_r _ _ _ _ T Htin) as (t0 & Ht0 & Hp).
    apply passed_over_active in Hp as ->; [|done]. destruct G as [G1 G2 _ _ _ _ _ _].
    by eapply (requeue_active_idle d (b_tenant_id binding) (b_device_id binding) device).
  - rewrite tput_fmap, Hkey2; [done|]. intros x Hx Hxid.
    assert (x = row) as ->.
    { apply tget_Some in Hg as [Hin _]. apply (NoDup_fmap_eq t_id (tasks d2)); congruence. }
    unfold task_key. by rewrite Xte, Xkey.
  - apply task_leases_tput; [done|done|]. rewrite (dp_lease _ _ _ _ _ _ _ Hdp). intros x [= <-] y Hy _ Hyk.
    apply Hk1, Hrl2. eapply elem_of_sublist; [|by apply passed_over_leases].
    apply elem_of_task_leases. by exists y.
  - apply map_index_insert; [done|]. intros k' y _ Hy. by apply (Hk2 k').
Qed.

(** ** The account write mutex *)

(** At most one active write task per tenant and account, across devices. *)
Definition account_exclusive (d : db) : Prop :=
  forall t u, t ∈ tasks d -> u ∈ tasks d -> task_active t -> task_active u ->
    task_write_effect t = true -> task_write_effect u = true ->
    t_tenant_id t = t_tenant_id u -> truthy_str (t_account_id t) = true -> t_account_id t = t_account_id u ->
    t_id t = t_id u.

Lemma account_exclusive_sub d d' :
  account_exclusive d -> (forall t, t ∈ tasks d' -> task_active t -> t ∈ tasks d) -> account_exclusive d'.
Proof. intros He Hs t u Ht Hu Hat Hau. apply He; auto. Qed.

Lemma account_write_conflict_None d tenant account k t :
  account_write_conflict d tenant account k = None -> t ∈ tasks d -> t_tenant_id t = tenant ->
  t_account_id t = Some account -> task_active t -> task_write_effect t = true -> t_id t = k.
Proof.
  unfold account_write_conflict. intros H Ht Hte Ha Hact Hw.
  apply (find_none _ _) with (x := t) in H.
  - rewrite Hw, andb_true_r in H. apply negb_false_iff, String.eqb_eq in H. done.
  - apply list_elem_of_In, list_elem_of_filter. done.
Qed.

Lemma truthy_default o : truthy_str o = true -> o = Some (default "" o).
Proof. by destruct o. Qed.

(** Claiming preserves the account write mutex: if at most one write
    task per account is active before a claim, at most one is after it,
    whatever device the claim comes from. *)
Theorem claim_keeps_account_mutex builtin binding ls protocol remote k now at_ d o d' :
  unique_indexes d -> account_exclusive d ->
  claim builtin binding ls protocol remote k now at_ d = Ok (o, d') -> account_exclusive d'.
Proof.
  intros [Hnd Hu] Hex H. apply unit_of_work_Ok in H as [H _].
  apply claim_cases in H as [[H|(e & He & _)]|(device & d2 & chosen & G & [F T C] & H)]; [|done| |done].
  { by injection H as -> ->. }
  assert (forall t, t ∈ tasks d2 -> task_active t -> t ∈ tasks d) as Hsub.
  { intros t Ht Ha. destruct (elem_of_Forall2_r _ _ _ _ T Ht) as (t0 & Ht0 & Hp).
    apply passed_over_active in Hp as ->; [|done].
    destruct (requeued_row binding d t0 Hnd Ht0) as [?|(a & _ & _ & ->)]; [done|].
    unfold task_active in Ha; cbn in Ha. naive_solver. }
  apply (account_exclusive_sub d) in Hsub; [|done].
  destruct chosen as [row|]; [|by injection H as -> ->].
  destruct H as (Hc & _ & H). destruct (dispatch _ _ _ _ _ _ _ _ _) as [[row1 d1]|] eqn:Ed; [|done].
  injection H as -> ->. apply dispatch_Ok in Ed as (Hdp & Ht & _).
  pose proof (dp_frozen _ _ _ _ _ _ _ Hdp) as X. injection X as Xid Xte _ _ _ _ _ Xacc _ _ Xcmd _ _ _ _.
  destruct C as (_ & _ & before & after & Hqueue & _).
  assert (row ∈ queued_candidates (requeued binding d) (b_tenant_id binding) (b_device_id binding)) as Hin
    by (rewrite Hqueue; set_solver).
  apply elem_of_queued_candidates in Hin as [(_ & Hrt & _)%elem_of_device_tasks _].
  assert (task_write_effect row1 = task_write_effect row) as Xw by (unfold task_write_effect; by rewrite Xcmd).
  assert (forall u, u ∈ tasks d2 -> task_active u -> task_write_effect row1 = true -> task_write_effect u = true ->
            t_tenant_id row1 = t_tenant_id u -> truthy_str (t_account_id row1) = true ->
            t_account_id row1 = t_account_id u -> t_id row1 = t_id u) as Hrow.
  { intros u Hu2 Hau Hw Hwu Hte Hacc Heq. unfold account_conflict in Hc.
    rewrite <- Xacc, <- Xw, Hacc, Hw in Hc. cbn in Hc. rewrite Xid. symmetry.
    eapply account_write_conflict_None; [exact Hc|done|congruence| |done|done].
    rewrite <- Heq. by apply truthy_default. }
  intros t u. rewrite Ht. intros [[-> _]|[Ht1 _]]%elem_of_tput [[-> _]|[Hu1 _]]%elem_of_tput; [done| | |].
  - intros _. by apply Hrow.
  - intros Hat _ Hwt Hw Hte Hacc Heq. symmetry. rewrite Heq in Hacc. by apply Hrow.
  - by apply Hsub.
Qed.

(** ** Release *)

Lemma validate_owned_Ok o b t :
  validate_owned_task o b = Ok t -> o = Some t /\ t_tenant_id t = b_tenant_id b /\ t_device_id t = b_device_id b.
Proof.
  unfold validate_owned_task. intros H. destruct o as [x|]; [|done]. case_decide as D; [done|].
  injection H as ->. split; [done|]. split; apply dec_stable; tauto.
Qed.

Lemma release_inv binding k lease_id reason now d row' d' :
  release binding k lease_id reason now d = Ok (row', d') ->
  exists task device stored lease, get_task d k = Some task /\ devices d !! b_device_id binding = Some device
    /\ (mobile_bindings d !! b_id binding = Some stored /\ b_revoked_at stored = None
        /\ d_active_binding_id device = Some (b_id stored))
    /\ t_status task = R_CLAIMED /\ t_business_state task = B_PREFLIGHT /\ t_lease_id task = Some lease_id
    /\ ~ expired (t_lease_expires_at task) now /\ post_commit_pending d task = false
    /\ t_tenant_id task = b_tenant_id binding /\ t_device_id task = b_device_id binding
    /\ leases d !! b_device_id binding = Some lease /\ lease_held lease task lease_id now
    /\ row' = (task <| t_status := R_QUEUED |> <| t_business_state := B_QUEUED |>
                   <| t_lease_id := None |> <| t_lease_expires_at := None |>)
    /\ d' = put_task row' (put_lease (b_device_id binding) (lease <| l_canceled_at := Some now |>) d).
Proof.
  unfold release. intros H. case_decide; [done|]. apply unit_of_work_Ok in H as [H _].
  destruct (devices d !! _) as [device|] eqn:Ed; [|done]. case_decide; [done|].
  destruct (mobile_bindings d !! _) as [stored|] eqn:Es; [|done]. case_decide as Ds; [done|].
  case_decide as Da; [done|].
  destruct (validate_owned_task _ _) as [task|] eqn:Eo; [|done]. apply validate_owned_Ok in Eo as (Hg & Hte & Hdv).
  case_decide as D1; [done|]. case_decide as D2; [done|]. case_decide as D3; [done|]. case_decide as D4; [done|].
  destruct (leases d !! _) as [lease|] eqn:El; [|done]. case_decide as D5; [done|].
  case_decide as D6; [done|]. injection H as <- <-.
  assert (b_revoked_at stored = None /\ b_tenant_id stored = b_tenant_id binding
          /\ b_device_id stored = b_device_id binding) as (? & ? & ?) by (repeat split; apply dec_stable; tauto).
  exists task, device, stored, lease. do 3 (split; [done|]).
  split; [apply dec_stable; tauto|]. split; [apply dec_stable; tauto|]. do 2 (split; [done|]).
  split; [|split; [congruence|split; [congruence|done]]].
  unfold post_commit_pending, task_actions in *. rewrite D6.
  apply orb_false_iff. split; [by apply not_true_is_false|done].
Qed.

Lemma release_le binding k lease_id reason now d row' d' :
  unique_indexes d -> release binding k lease_id reason now d = Ok (row', d') -> db_le d d'.
Proof.
  intros [Hnd _] (task & device & stored & lease & Hg & _ & _ & Hs & Hb & _ & _ & _ & _ & _ & _ & _ & -> & ->)%release_inv.
  pose proof (get_task_id _ _ _ Hg) as <-.
  split; try apply grows_refl, _; [|reflexivity].
  apply (put_task_le d _ task); [done|done| |done].
  apply task_le_open; try reflexivity; [unfold runner_done; rewrite Hs; naive_solver|]. intros _. states_agree.
Qed.

Lemma unique_put_inactive d d0 row old :
  unique_indexes d -> (tasks d0, task_events d0, actions d0, fleet_sessions d0, mobile_bindings d0)
                      = (tasks d, task_events d, actions d, fleet_sessions d, mobile_bindings d) ->
  map_index l_lease_id (leases d0) -> get_task d (t_id row) = Some old -> task_key row = task_key old ->
  ~ task_active row -> t_lease_id row = None -> unique_indexes (put_task row d0).
Proof.
  intros (H1 & H2 & H3 & H4 & H5 & H6 & H7 & H8 & H9) [= Ht He Ha Hf Hm] Hl Hg Hk Hn Hr.
  assert (forall x, x ∈ tasks d -> t_id x = t_id row -> x = old) as Hold.
  { intros x Hx Hid. pose proof (get_task_In d x H1 Hx) as E. rewrite Hid, Hg in E. congruence. }
  unfold unique_indexes; cbn. rewrite Ht, He, Ha, Hf, Hm.
  split; [by rewrite (tput_keys t_id : forall r l, t_id <$> tput t_id r l = t_id <$> l)|].
  split; [by apply active_devices_tput_le|]. do 3 (split; [done|]).
  split; [|split; [|by split]].
  - rewrite tput_fmap; [done|]. intros x Hx Hid. by rewrite (Hold x).
  - apply task_leases_tput; [done|done|]. rewrite Hr. done.
Qed.

(** C38. Releasing undoes a claim. A companion that is the active binding of
    its device and gives back the task it was just granted, within the lease
    and before any commit, is never refused: the task is queued again with no
    lease and its attempt counted, its device lease is canceled, every other
    task is as the claim left it, and the fencing counter keeps the claim's
    increment, so the returned lease stays dead. *)
Theorem claim_release_roundtrip builtin binding ls protocol remote k now at_ d row' d1 stored device reason later :
  unique_indexes d -> claim builtin binding ls protocol remote k now at_ d = Ok (Some row', d1) ->
  mobile_bindings d !! b_id binding = Some stored -> b_revoked_at stored = None ->
  b_tenant_id stored = b_tenant_id binding -> b_device_id stored = b_device_id binding ->
  devices d !! b_device_id binding = Some device -> d_active_binding_id device = Some (b_id stored) ->
  reason ∈ ["ACCESSIBILITY_NOT_ENABLED"; "ACCESSIBILITY_NOT_ACTIVE"] -> later < now + seconds ls ->
  exists row'' d2 lease, release binding (t_id row') k reason later d1 = Ok (row'', d2)
    /\ get_task d2 (t_id row') = Some row'' /\ t_status row'' = R_QUEUED /\ t_business_state row'' = B_QUEUED
    /\ t_lease_id row'' = None /\ t_attempt row'' = t_attempt row'
    /\ (forall x, x <> t_id row' -> get_task d2 x = get_task d1 x)
    /\ leases d2 !! b_device_id binding = Some lease /\ l_canceled_at lease = Some later /\ l_lease_id lease = k
    /\ devices d2 !! b_device_id binding = Some (device <| d_fencing_counter := d_fencing_counter device + 1 |>).
Proof.
  intros Hu Hc Hs Hr Hst Hsd Hd Hb Hreason Hlater.
  assert (unique_indexes d1) as Hu1 by (by apply unit_of_work_Ok in Hc as [_ ?]).
  destruct (claim_granted _ _ _ _ _ _ _ _ _ _ _ Hu Hc) as (device' & row & Hd' & Hdt & Hg & Hte & Hdv & _ & _ & Hp & _
    & _ & _ & [= Hact Hmb] & [F S B L E A _ _ _] & Hg1 & Hde & Hl).
  assert (device' = device) as -> by congruence. injection F as Xid Xte Xdv _ _ _ _ _ _ _ _ Xpay _ _ _.
  unfold post_commit_pending in Hp. apply orb_false_iff in Hp as [Hci Hta].
  apply bool_decide_eq_false in Hta. rewrite <- eq_None_not_Some in Hta.
  unfold release. rewrite decide_False by (by intros ?).
  unfold unit_of_work. rewrite Hde, Hmb, Hs. cbn [d_tenant_id set_with].
  rewrite decide_False by (cbn; congruence). rewrite decide_False by (intros [?|[?|?]]; congruence).
  rewrite decide_False by (cbn; congruence). rewrite Hg1. unfold validate_owned_task.
  rewrite decide_False by (intros [?|?]; congruence). rewrite decide_False by (intros [?|?]; congruence).
  rewrite decide_False by congruence. rewrite E. rewrite decide_False by (cbn; lia).
  rewrite decide_False by (unfold has_commit_intent in *; rewrite Xpay; congruence).
  rewrite Hl. rewrite decide_False by (intros Hn; apply Hn; repeat split; cbn; try congruence; lia).
  rewrite decide_False.
  2:{ intros Hn. apply Hn. unfold task_actions. rewrite Hact, Xid.
      destruct (filter (fun a => a_task_id a = t_id row) (actions d)); [done|discriminate Hta]. }
  rewrite decide_False.
  2:{ intros Hn. apply Hn. apply (unique_put_inactive d1 _ _ row'); try done.
      - cbn. eapply map_index_update; [|exact Hl|done]. by destruct Hu1 as (_ & _ & _ & _ & _ & _ & _ & ? & _).
      - unfold task_active; cbn. naive_solver. }
  do 3 eexists. split; [reflexivity|]. split; [by eapply get_task_put|].
  do 4 (split; [done|]). split; [intros x Hx; refine (get_task_put_ne (put_lease _ _ d1) x _ _); exact (not_eq_sym Hx)|]. cbn.
  rewrite lookup_insert_eq. split; [reflexivity|]. done.
Qed.

(** ** Witnesses *)

(** A companion bound to the sample device, and a database with one queued
    task for it and no live lease. *)
Definition sample_binding : MobileBindingRow := mkBinding "binding" "tenant" "device" "digest" "1" None None.
Definition queued_task : MobileTaskRow :=
  (sample_task XIANYU_PACKAGE []) <| t_lease_id := None |> <| t_lease_expires_at := None |>
    <| t_account_id := None |> <| t_business_state := B_QUEUED |> <| t_status := R_QUEUED |>.
Definition queued_db : db :=
  empty_db <| devices := {["device" := sample_device]} |> <| tasks := [queued_task] |>
           <| mobile_bindings := {["binding" := sample_binding]} |>.
Definition no_builtin : string -> option json := fun _ => None.
Definition sample_claim (d : db) : result error (option MobileTaskRow * db) :=
  claim no_builtin sample_binding 60 None false "lease-1" 200 (fun _ => 200) d.

Definition claimed_task : MobileTaskRow :=
  match sample_claim queued_db with Ok (Some t, _) => t | _ => queued_task end.
Definition claimed_db : db := match sample_claim queued_db with Ok (_, d) => d | _ => queued_db end.

Lemma sample_claim_Ok : sample_claim queued_db = Ok (Some claimed_task, claimed_db).
Proof. vm_compute. reflexivity. Qed.

Lemma queued_db_unique : unique_indexes queued_db.
Proof. apply (bool_decide_unpack _). vm_compute. exact I. Qed.

Lemma queued_db_follows : tasks_follow_devices queued_db.
Proof. intros t x [->|Ht]%elem_of_cons Hx; [|by apply elem_of_nil in Ht]. cbn in Hx. by injection Hx as <-. Qed.

Lemma claim_grants_witness :
  unique_indexes queued_db /\ exists device, devices claimed_db !! "device" = Some device /\ d_fencing_counter device = 4.
Proof.
  split; [exact queued_db_unique|].
  destruct (claim_grants no_builtin sample_binding 60 None false "lease-1" 200 (fun _ => 200) queued_db
              claimed_task claimed_db queued_db_unique sample_claim_Ok)
    as (device & row & H1 & _ & _ & _ & _ & _ & _ & _ & _ & _ & _ & _ & _ & H2 & _).
  eexists. split; [exact H2|]. cbn in H1. injection H1 as <-. reflexivity.
Defined.

(** A device whose oldest queued task already has a ledger row. *)
Definition stuck_task : MobileTaskRow := queued_task <| t_id := "task-0" |> <| t_idempotency_key := "key-0" |> <| t_created_at := 0 |>.
Definition fresh_task : MobileTaskRow := queued_task <| t_created_at := 5 |>.
Definition stuck_db : db :=
  queued_db <| tasks := [stuck_task; fresh_task] |> <| actions := [mkAction
    (mkActionColumns "key" "tenant" "task-0" "device" None (Some 0) "steps" "d" "d" "click-publish" "p")
    None "lease" A_APPLIED "before" (Some "seen") 0 None None 10 10] |>.
Definition stuck_result := match sample_claim stuck_db with Ok (Some t, d) => (t, d) | _ => (queued_task, stuck_db) end.

Lemma claim_oldest_first_witness :
  sample_claim stuck_db = Ok (Some stuck_result.1, stuck_result.2)
  /\ claim_judge sample_binding None (fun _ => 200) stuck_db sample_device stuck_task <> C_TAKE.
Proof.
  assert (H : sample_claim stuck_db = Ok (Some stuck_result.1, stuck_result.2)) by (vm_compute; reflexivity).
  split; [exact H|].
  apply (claim_oldest_first no_builtin sample_binding 60 None false "lease-1" 200 (fun _ => 200) stuck_db
           stuck_result.1 stuck_result.2 stuck_task sample_device).
  - apply (bool_decide_unpack _). vm_compute. exact I.
  - exact H.
  - reflexivity.
  - apply elem_of_device_tasks. split; [left|split; reflexivity].
  - reflexivity.
  - vm_compute. reflexivity.
Defined.

Lemma queued_db_no_lease x l : leases queued_db !! x = Some l -> l_lease_id l <> "lease-1".
Proof. change (leases queued_db) with (∅ : gmap string DeviceLeaseRow). by rewrite lookup_empty. Qed.

Lemma claim_no_integrity_error_witness :
  unique_indexes queued_db /\ sample_claim queued_db <> Err (IntegrityError "UNIQUE constraint failed").
Proof.
  split; [exact queued_db_unique|].
  exact (claim_no_integrity_error no_builtin sample_binding 60 None false "lease-1" 200 (fun _ => 200) queued_db
           "UNIQUE constraint failed" queued_db_unique queued_db_follows (not_elem_of_nil _) queued_db_no_lease).
Defined.

Lemma queued_db_exclusive : account_exclusive queued_db.
Proof.
  intros t u [->|Ht]%elem_of_cons [->|Hu]%elem_of_cons; [done|by apply elem_of_nil in Hu| |];
    by apply elem_of_nil in Ht.
Qed.

Lemma claim_keeps_account_mutex_witness :
  sample_claim queued_db = Ok (Some claimed_task, claimed_db) /\ account_exclusive claimed_db.
Proof.
  split; [exact sample_claim_Ok|].
  exact (claim_keeps_account_mutex no_builtin sample_binding 60 None false "lease-1" 200 (fun _ => 200) queued_db
           (Some claimed_task) claimed_db queued_db_unique queued_db_exclusive sample_claim_Ok).
Defined.

Lemma claim_release_roundtrip_witness :
  exists row d lease, release sample_binding (t_id claimed_task) "lease-1" "ACCESSIBILITY_NOT_ACTIVE" 300 claimed_db
                        = Ok (row, d) /\ t_status row = R_QUEUED /\ l_canceled_at lease = Some 300.
Proof.
  destruct (claim_release_roundtrip no_builtin sample_binding 60 None false "lease-1" 200 (fun _ => 200) queued_db
              claimed_task claimed_db sample_binding sample_device "ACCESSIBILITY_NOT_ACTIVE" 300
              queued_db_unique sample_claim_Ok)
    as (row & d & lease & H1 & _ & H2 & _ & _ & _ & _ & _ & H3 & _);
    [reflexivity..|set_solver|vm_compute; reflexivity|].
  exists row, d, lease. split; [exact H1|]. split; [exact H2|exact H3].
Defined.

(** ** Two behaviours worth a finding *)

(** A task in its commit window whose account is no longer bound: the claim
    looks at the account first and settles it FAILED instead of holding it
    for reconciliation. *)
Definition committed_task : MobileTaskRow :=
  queued_task <| t_account_id := Some "account" |> <| t_command_payload := [("commitIntent", JStr "sent")] |>.

Lemma claim_fails_committed_task :
  post_commit_pending (queued_db <| tasks := [committed_task] |>) committed_task = true
  /\ (match sample_claim (queued_db <| tasks := [committed_task] |>) with
      | Ok (None, d) => t_business_state <$> get_task d (t_id committed_task)
      | _ => None
      end) = Some B_FAILED.
Proof. split; vm_compute; reflexivity. Qed.

(** A paused task whose device stays on its account, while the account's next
    task runs on another device: resuming it leaves the account with two
    active write tasks. *)
Definition account_task (k device : string) (s : BusinessState) (r : RunnerStatus) : MobileTaskRow :=
  (task_in s r) <| t_id := k |> <| t_idempotency_key := k |> <| t_lease_id := Some k |> <| t_device_id := device |> <| t_account_id := Some "account" |>
                <| t_binding_version := Some 1 |>.
Definition shared_account_db : db :=
  queued_db <| tasks := [account_task "task-1" "device" B_PAUSED_WAITING_USER R_QUEUED;
                         account_task "task-2" "device-2" B_RUNNING R_RUNNING] |>
            <| account_bindings := [mkAccountBinding "tenant" "account" "device" "BOUND" 1 "xianyu"] |>.

Lemma resume_breaks_account_mutex :
  account_exclusive shared_account_db
  /\ exists row d, resume sample_operator "task-1" (mkResume true "go") "lease-9" 50 60 shared_account_db = Ok (row, d)
                   /\ ~ account_exclusive d.
Proof.
  split.
  - intros t u Ht Hu. unfold shared_account_db in Ht, Hu. cbn in Ht, Hu.
    apply elem_of_cons in Ht as [->|Ht]; [|apply list_elem_of_singleton in Ht as ->];
    (apply elem_of_cons in Hu as [->|Hu]; [|apply list_elem_of_singleton in Hu as ->]); try done;
    unfold task_active; cbn; intros Ha Hb; naive_solver.
  - eexists _, _. split; [vm_compute; reflexivity|]. intros Hex.
    assert (("task-1" : string) = "task-2") as E; [|discriminate E].
    match type of Hex with account_exclusive ?d => set (d1 := d) in Hex end.
    pose (l := tasks d1).
    apply (Hex (nth 0 l queued_task) (nth 1 l queued_task)); try (vm_compute; reflexivity);
      [by left|by right; left|by right|by right].
Qed.
