(* ===== verification/Companion.v ===== *)
(** * Companion updates: [heartbeat], [event], [finish] and [control_ack] of
    mobile_service.py

    Everything a companion reports about the task it runs goes through these
    four handlers. [checked_at] is the clock [_validate_active_lease] reads,
    [now] the clock the handler itself reads. *)

From stdpp Require Import base gmap strings list.
From Stdlib Require Import ZArith QArith_base Lia.
From S2P Require Import Prelude PyStd Domain Rows ControlledActions FleetIdentity FrozenShapes TaskOps History ControlPlane Claim.

Open Scope Z_scope.

(** ** Heartbeat *)

Definition heartbeat_state (s : BusinessState) : BusinessState :=
  if decide (s = B_RESUME_CHECK) then B_RUNNING
  else if decide (s ∉ [B_PAUSE_REQUESTED; B_CANCEL_REQUESTED; B_PAUSED_WAITING_USER; B_RECONCILING])
  then B_RUNNING else s.

(** [lease is not None and lease.lease_id == row.lease_id], then [f]. *)
Definition update_own_lease (device_id : string) (row : MobileTaskRow) (f : DeviceLeaseRow -> DeviceLeaseRow) (d : db) : db :=
  match leases d !! device_id with
  | Some lease => if decide (Some (l_lease_id lease) = t_lease_id row) then put_lease device_id (f lease) d else d
  | None => d
  end.

Definition heartbeat (binding : MobileBindingRow) (task_id lease_id : string) (current_step : option Z)
    (lease_seconds checked_at now : Z) (d : db) : result error (MobileTaskRow * db) :=
  unit_of_work (fun d =>
    let? stored := validate_owned_task (get_task d task_id) binding in
    raise_if lease_envelope_stale (h_fleetSessionId (t_header stored)) (h_fleetBootId (t_header stored))
               (active_session d (t_tenant_id stored) (b_id binding)) = true
      with AuthorizationEnvelopeStaleError "task lease was minted under a superseded fleet session or boot" in
    let? _ := validate_active_lease stored lease_id checked_at in
    let expires := now + seconds lease_seconds in
    let stored := stored <| t_status := R_RUNNING |>
                         <| t_business_state := heartbeat_state (t_business_state stored) |>
                         <| t_current_step := current_step |>
                         <| t_lease_expires_at := Some expires |> in
    let d := update_own_lease (b_device_id binding) stored (fun l => l <| l_expires_at := expires |>) d in
    Ok (stored, put_task stored d)) d.

(** ** Events *)

Record event_report := mkReport {
  rp_sequence : Z; rp_event_type : string; rp_step_index : option Z; rp_payload : list (string * json);
}.

Definition event_effect (task : MobileTaskRow) (event_type : string) (now : Z) : MobileTaskRow :=
  if String.eqb event_type "PAUSE_REQUESTED" then task <| t_business_state := B_PAUSE_REQUESTED |>
  else if String.eqb event_type "PAUSED_WAITING_USER" then
    let task :=
      if truthy_commit_intent task
      then task <| t_business_state := B_RECONCILING |>
                <| t_stall_reason := Some (str_or (t_stall_reason task) "commit intent already written") |>
      else task <| t_business_state := B_PAUSED_WAITING_USER |> in
    task <| t_control_mode := REMOTE |> <| t_pause_ack_at := Some now |>
  else if String.eqb event_type "RESUME_CHECK" then task <| t_business_state := B_RESUME_CHECK |>
  else if String.eqb event_type "RECONCILING" then task <| t_business_state := B_RECONCILING |>
  else task.

Definition find_event (d : db) (task_id : string) (sequence : Z) : option MobileTaskEventRow :=
  scalar (filter (fun e => e_task_id e = task_id /\ e_sequence e = sequence) (task_events d)).

(** The stored event is the reported one. *)
Definition same_report (e : MobileTaskEventRow) (r : event_report) : Prop :=
  e_event_type e = rp_event_type r /\ e_step_index e = rp_step_index r /\ payload_eqb (e_payload e) (rp_payload r) = true.
#[export] Instance same_report_dec e r : Decision (same_report e r).
Proof. unfold same_report. apply _. Defined.

Definition new_event (task : MobileTaskRow) (r : event_report) (now : Z) : MobileTaskEventRow :=
  mkTaskEvent (t_id task) (rp_sequence r) (rp_event_type r) (rp_step_index r)
    (json_str (jget "stepId" (rp_payload r))) (t_attempt_id task) (rp_payload r) now.

Definition event (binding : MobileBindingRow) (task_id lease_id : string) (r : event_report) (checked_at now : Z)
    (d : db) : result error ((MobileTaskEventRow * bool) * db) :=
  unit_of_work (fun d =>
    let? task := validate_owned_task (get_task d task_id) binding in
    let? _ := validate_active_lease task lease_id checked_at in
    if decide (rp_sequence r <= t_last_sequence task) then
      need existing := find_event d task_id (rp_sequence r)
        orelse ConflictError "event sequence was replayed with different content" in
      raise_if ~ same_report existing r
        with ConflictError "event sequence was replayed with different content" in
      Ok ((existing, false), d)
    else
      raise_if rp_sequence r <> t_last_sequence task + 1
        with ConflictError "mobile task event sequence has a gap" in
      raise_if t_business_state task = B_RECONCILING
               /\ rp_event_type r ∈ ["PAUSE_REQUESTED"; "PAUSED_WAITING_USER"; "RESUME_CHECK"]
        with ConflictError "uncertain result must be reconciled before changing task state" in
      let task := event_effect task (rp_event_type r) now in
      let row := new_event task r now in
      let d := d <| task_events := task_events d ++ [row] |> in
      let task := task <| t_last_sequence := rp_sequence r |> <| t_current_step := rp_step_index r |> in
      Ok ((row, true), put_task task d)) d.

(** ** Finish *)

Definition RESULT_TYPES : list (string * string) :=
  [("xianyu.publish_listing.v1", "XianyuPublishListingResult");
   ("xianyu.collect_orders.v1", "XianyuCollectOrdersResult");
   ("xiaohongshu.publish_note.v1", "XiaohongshuPublishNoteResult");
   ("device.probe_capabilities.v1", "DeviceProbeResult")].

(** The two reports a companion can close a task with. *)
Inductive finish_status : Type := FINISH_SUCCEEDED | FINISH_FAILED.
#[export] Instance finish_status_eq_dec : EqDecision finish_status.
Proof. solve_decision. Defined.
Definition finish_runner (s : finish_status) : RunnerStatus :=
  match s with FINISH_SUCCEEDED => R_SUCCEEDED | FINISH_FAILED => R_FAILED end.

Record finish_report := mkFinish {
  fr_status : finish_status; fr_result : list (string * json);
  fr_error_code : option string; fr_detail : option string;
}.

Definition same_outcome (row : MobileTaskRow) (r : finish_report) : Prop :=
  t_status row = finish_runner (fr_status r) /\ payload_eqb (t_result row) (fr_result r) = true
  /\ t_error_code row = fr_error_code r /\ t_detail row = fr_detail r.
#[export] Instance same_outcome_dec row r : Decision (same_outcome row r).
Proof. unfold same_outcome. apply _. Defined.

Definition result_type_error (row : MobileTaskRow) (report : list (string * json)) : result error () :=
  let expected := if truthy_str (t_command_type row)
                  then assoc (default "" (t_command_type row)) RESULT_TYPES else None in
  match jget "resultType" report with
  | None => Ok tt
  | Some incoming =>
      if jtruthy incoming then
        match expected with
        | Some e => raise_if json_eqb incoming (JStr e) = false
                      with ValidationError "resultType does not match commandType" in Ok tt
        | None => raise_if truthy_str (t_command_type row) = true
                    with ValidationError "resultType is not defined for this command" in Ok tt
        end
      else Ok tt
  end.

Definition finish (binding : MobileBindingRow) (task_id lease_id : string) (r : finish_report) (checked_at now : Z)
    (d : db) : result error (MobileTaskRow * db) :=
  unit_of_work (fun d =>
    let? row := validate_owned_task (get_task d task_id) binding in
    raise_if t_business_state row = B_RECONCILING
      with ConflictError "uncertain result must be resolved by explicit reconciliation" in
    if decide (runner_done row) then
      raise_if ~ same_outcome row r with ConflictError "mobile task already has a different terminal result" in
      Ok (row, d)
    else
      let? _ := validate_active_lease row lease_id checked_at in
      let? _ := result_type_error row (fr_result r) in
      let row := row <| t_status := finish_runner (fr_status r) |> <| t_result := fr_result r |>
                     <| t_error_code := fr_error_code r |> <| t_detail := fr_detail r |>
                     <| t_business_state := RUNNER_TO_BUSINESS (finish_runner (fr_status r)) |>
                     <| t_completed_at := Some now |> <| t_lease_expires_at := None |> in
      let d := settle_reply_delivery (t_id row) (t_business_state row) (put_task row d) in
      Ok (row, update_own_lease (b_device_id binding) row (fun l => l <| l_canceled_at := Some now |>) d)) d.

(** ** Acknowledging a cancel *)

Inductive AckResult : Type := CANCEL_APPLIED | CANCEL_DEFERRED_RECONCILING.
#[export] Instance AckResult_eq_dec : EqDecision AckResult.
Proof. solve_decision. Defined.

Record control_ack_request := mkAck {
  ack_task_id : string; ack_task_revision : option Z; ack_result : AckResult; ack_reason : option string;
}.

(** [_ack_view]: task, revision, result and whether it is terminal. *)
Record ack_view := mkAckView {
  ak_task : MobileTaskRow; ak_revision : Z; ak_result : AckResult; ak_terminal : bool;
}.

Definition stale_ack (body : control_ack_request) (revision : Z) : Prop :=
  ack_task_revision body <> None /\ ack_task_revision body <> Some revision.
#[export] Instance stale_ack_dec b r : Decision (stale_ack b r).
Proof. unfold stale_ack. apply _. Defined.

Definition control_ack (binding : MobileBindingRow) (body : control_ack_request) (now audited_at : Z) (d : db)
    : result error (ack_view * db) :=
  unit_of_work (fun d =>
    let? task := validate_owned_task (get_task d (ack_task_id body)) binding in
    let state := normalized_business_state task in
    let revision := control_revision task in
    raise_if state ∈ TERMINAL_BUSINESS /\ state <> B_CANCELLED
      with ConflictError "terminal platform task cannot be cancel-acked" in
    if decide (ack_result body = CANCEL_APPLIED) then
      if decide (state = B_CANCELLED) then Ok (mkAckView task revision CANCEL_APPLIED true, d) else
      raise_if stale_ack body revision with ConflictError "cancel ack task revision does not match" in
      raise_if state = B_RECONCILING
        with ConflictError "uncertain result must be reconciled before cancel acknowledgement" in
      raise_if state <> B_CANCEL_REQUESTED
        with ConflictError "cancel acknowledgement requires a pending CANCEL" in
      let reason := str_or (ack_reason body) "cancel applied by device" in
      let task := task <| t_status := R_FAILED |> <| t_business_state := B_CANCELLED |>
                       <| t_error_code := Some "CANCELLED" |> <| t_detail := Some reason |>
                       <| t_completed_at := Some now |> <| t_lease_id := None |> <| t_lease_expires_at := None |> in
      let '(occupation_released, d) := release_occupation task now d in
      let '(task, revision) := record_control_event task K_CANCELLED reason "companion" now in
      let d := add_audit (audit_companion_control task "cancel_acked" revision
                            [("occupationReleased", JBool occupation_released)] audited_at) (put_task task d) in
      Ok (mkAckView task revision CANCEL_APPLIED true, settle_reply_delivery (t_id task) B_CANCELLED d)
    else
      if decide (state = B_RECONCILING) then Ok (mkAckView task revision CANCEL_DEFERRED_RECONCILING false, d) else
      raise_if stale_ack body revision with ConflictError "cancel ack task revision does not match" in
      raise_if state = B_CANCELLED with ConflictError "cancelled task cannot defer a cancel ack" in
      raise_if state <> B_CANCEL_REQUESTED
        with ConflictError "cancel acknowledgement requires a pending CANCEL" in
      let reason := str_or (ack_reason body) "cancel deferred by device" in
      let task := task <| t_business_state := B_RECONCILING |> <| t_stall_reason := Some (str_take 160 reason) |> in
      let '(task, revision) := record_control_event task K_CANCEL_DEFERRED_RECONCILING reason "companion" now in
      Ok (mkAckView task revision CANCEL_DEFERRED_RECONCILING false,
          add_audit (audit_companion_control task "cancel_deferred_reconciling" revision
                       [("reason", JStr (str_take 160 (default "" (ack_reason body))))] audited_at)
            (put_task task d))) d.

(** ** Shared lemmas *)

Lemma validate_active_lease_Ok t lease_id now :
  validate_active_lease t lease_id now = Ok tt ->
  ~ settled t /\ task_active t /\ t_lease_id t = Some lease_id /\ ~ expired (t_lease_expires_at t) now.
Proof.
  unfold validate_active_lease. case_decide as D1; [done|]. case_decide as D2; [done|]. case_decide as D3; [done|].
  intros _. split; [done|]. split; [apply dec_stable; tauto|]. split; [apply dec_stable; tauto|done].
Qed.

Lemma validate_active_lease_intro t lease_id now :
  ~ settled t -> task_active t -> t_lease_id t = Some lease_id -> ~ expired (t_lease_expires_at t) now ->
  validate_active_lease t lease_id now = Ok tt.
Proof.
  intros H1 H2 H3 H4. unfold validate_active_lease.
  rewrite decide_False by done. rewrite decide_False by tauto. by rewrite decide_False.
Qed.

Lemma update_own_lease_history k row f d : same_history d (update_own_lease k row f d).
Proof. unfold update_own_lease. by_cases; done. Qed.

Lemma update_own_lease_spec k row f d :
  leases (update_own_lease k row f d) !! k =
    (fun l => if decide (Some (l_lease_id l) = t_lease_id row) then f l else l) <$> leases d !! k
  /\ forall k', k' <> k -> leases (update_own_lease k row f d) !! k' = leases d !! k'.
Proof.
  unfold update_own_lease. destruct (leases d !! k) as [l|] eqn:El; cbn.
  - case_decide; cbn; [|by rewrite El]. rewrite lookup_insert_eq. split; [done|].
    intros k' Hk. by rewrite lookup_insert_ne.
  - by rewrite El.
Qed.

Lemma owned_task_Ok d k binding t :
  validate_owned_task (get_task d k) binding = Ok t ->
  get_task d k = Some t /\ t_id t = k /\ t_tenant_id t = b_tenant_id binding /\ t_device_id t = b_device_id binding.
Proof.
  intros (Hg & Ht & Hd)%validate_owned_Ok. split; [done|]. split; [by eapply get_task_id|done].
Qed.

(** A handler that wrote one task and, besides, only leases and messages. *)
Lemma put_frame_le d d1 d' row row' :
  unique_indexes d -> get_task d (t_id row) = Some row -> task_le row row' ->
  same_history d d1 -> same_history (put_task row' d1) d' -> db_le d d'.
Proof.
  intros Hu Hg Hle H1 H2. eapply (put_one_le_frame d d1 (put_task row' d1) d' (t_id row) row row' []); try done.
  - by apply task_le_id.
  - cbn. by rewrite app_nil_r.
Qed.

Lemma same_history_refl d : same_history d d.
Proof. done. Qed.

Lemma same_history_trans d e f : same_history d e -> same_history e f -> same_history d f.
Proof. intros (A1 & A2 & A3 & A4 & A5) (B1 & B2 & B3 & B4 & B5). repeat split; congruence. Qed.

Lemma heartbeat_state_live s : s ∉ TERMINAL_BUSINESS -> heartbeat_state s ∉ TERMINAL_BUSINESS.
Proof.
  assert (B_RUNNING ∉ TERMINAL_BUSINESS) by (apply (bool_decide_unpack _); exact I).
  unfold heartbeat_state. intros H0. by repeat case_decide.
Qed.

Lemma validate_owned_Err o b e : validate_owned_task o b = Err e -> exists s, e = NotFoundError s.
Proof. unfold validate_owned_task. intros H. destruct o; [case_decide|]; simplify_eq; eauto. Qed.

Lemma validate_lease_Err t k now e : validate_active_lease t k now = Err e -> exists s, e = ConflictError s.
Proof. unfold validate_active_lease. intros H. repeat case_decide; simplify_eq; eauto. Qed.

(** ** Heartbeat: theorems *)

Lemma heartbeat_inv binding k lease_id step ls c now d row' d' :
  heartbeat binding k lease_id step ls c now d = Ok (row', d') ->
  exists row, validate_owned_task (get_task d k) binding = Ok row
    /\ lease_envelope_stale (h_fleetSessionId (t_header row)) (h_fleetBootId (t_header row))
         (active_session d (t_tenant_id row) (b_id binding)) = false
    /\ validate_active_lease row lease_id c = Ok tt
    /\ row' = (row <| t_status := R_RUNNING |> <| t_business_state := heartbeat_state (t_business_state row) |>
                   <| t_current_step := step |> <| t_lease_expires_at := Some (now + seconds ls) |>)
    /\ d' = put_task row' (update_own_lease (b_device_id binding) row
                             (fun l => l <| l_expires_at := now + seconds ls |>) d).
Proof.
  unfold heartbeat. intros [H _]%unit_of_work_Ok.
  destruct (validate_owned_task _ _) as [row|]; [|done]. case_decide as Ds; [done|].
  destruct (validate_active_lease _ _ _) as [[]|] eqn:Ev; [|done]. cbv beta zeta in H. injection H as <- <-.
  exists row. apply not_true_is_false in Ds. done.
Qed.

Lemma heartbeat_le binding k lease_id step ls c now d row' d' :
  unique_indexes d -> heartbeat binding k lease_id step ls c now d = Ok (row', d') -> db_le d d'.
Proof.
  intros Hu (row & Ho & _ & Hv & -> & ->)%heartbeat_inv.
  apply owned_task_Ok in Ho as (Hg & <- & _). apply validate_active_lease_Ok in Hv as (Hs & _).
  eapply put_frame_le; [done|exact Hg| |apply update_own_lease_history|apply same_history_refl].
  live_task; [done|]. intros _. apply live_consistent; [by apply heartbeat_state_live|].
  unfold runner_done; cbn. naive_solver.
Qed.

(** A heartbeat renews only a lease its companion may still use: the
    task is its own, not over, held under that lease, the lease has not run
    out and was minted under the current fleet session and boot. It keeps the
    task running and moves the deadline of the task, and of the device lease
    if it is the task's, to the same moment; a pending pause or cancel and a
    reconciliation survive it; no other device lease changes. *)
Theorem heartbeat_renews binding k lease_id step ls c now d row' d' :
  heartbeat binding k lease_id step ls c now d = Ok (row', d') ->
  exists row, get_task d k = Some row /\ t_tenant_id row = b_tenant_id binding /\ t_device_id row = b_device_id binding
    /\ ~ settled row /\ task_active row /\ t_lease_id row = Some lease_id /\ ~ expired (t_lease_expires_at row) c
    /\ lease_envelope_stale (h_fleetSessionId (t_header row)) (h_fleetBootId (t_header row))
         (active_session d (t_tenant_id row) (b_id binding)) = false
    /\ t_status row' = R_RUNNING /\ t_lease_id row' = Some lease_id
    /\ t_lease_expires_at row' = Some (now + seconds ls)
    /\ (t_business_state row' = t_business_state row
          /\ t_business_state row ∈ [B_PAUSE_REQUESTED; B_CANCEL_REQUESTED; B_PAUSED_WAITING_USER; B_RECONCILING]
        \/ t_business_state row' = B_RUNNING
          /\ (t_business_state row ∉ [B_PAUSE_REQUESTED; B_CANCEL_REQUESTED; B_PAUSED_WAITING_USER; B_RECONCILING]))
    /\ (forall l, leases d !! b_device_id binding = Some l -> l_lease_id l = lease_id ->
          leases d' !! b_device_id binding = Some (l <| l_expires_at := now + seconds ls |>))
    /\ (forall x l, leases d !! x = Some l -> x <> b_device_id binding \/ l_lease_id l <> lease_id ->
          leases d' !! x = Some l).
Proof.
  intros (row & Ho & Hst & Hv & -> & ->)%heartbeat_inv.
  apply owned_task_Ok in Ho as (Hg & <- & Ht & Hd). apply validate_active_lease_Ok in Hv as (Hs & Ha & Hl & He).
  exists row. do 8 (split; [done|]). split; [done|]. split; [done|]. split; [done|]. split.
  { cbn. unfold heartbeat_state. case_decide as D; [right|case_decide; [by right|left]].
    - split; [done|]. rewrite D. vm_compute. set_solver.
    - by split. }
  destruct (update_own_lease_spec (b_device_id binding) row (fun l => l <| l_expires_at := now + seconds ls |>) d)
    as [E1 E2]. split.
  - intros l El Hk. change (leases (update_own_lease (b_device_id binding) row
      (fun l => l <| l_expires_at := now + seconds ls |>) d) !! b_device_id binding = Some (l <| l_expires_at := now + seconds ls |>)).
    rewrite E1, El. cbn. rewrite decide_True; [done|congruence].
  - intros x l El Hx. change (leases (update_own_lease (b_device_id binding) row
      (fun l => l <| l_expires_at := now + seconds ls |>) d) !! x = Some l).
    destruct (decide (x = b_device_id binding)) as [->|Hne]; [|by rewrite E2].
    rewrite E1, El. cbn. rewrite decide_False; [done|]. destruct Hx; congruence.
Qed.

(** ** Events: theorems *)

(** The sequence numbers stored for a task. *)
Definition task_sequences (d : db) (k : string) : list Z :=
  e_sequence <$> filter (fun e => e_task_id e = k) (task_events d).

(** Every task has stored the events 1, 2, ..., up to its last sequence, in
    that order. *)
Definition events_gapless (d : db) : Prop :=
  (forall t, t ∈ tasks d -> 0 <= t_last_sequence t /\ task_sequences d (t_id t) = seqZ 1 (t_last_sequence t)).

Lemma event_inv binding k lease_id r c now d e created d' :
  event binding k lease_id r c now d = Ok ((e, created), d') ->
  exists task, validate_owned_task (get_task d k) binding = Ok task /\ validate_active_lease task lease_id c = Ok tt
    /\ ((created = false /\ d' = d /\ rp_sequence r <= t_last_sequence task
           /\ find_event d k (rp_sequence r) = Some e /\ same_report e r)
        \/ (created = true /\ rp_sequence r = t_last_sequence task + 1
           /\ (t_business_state task = B_RECONCILING ->
                 rp_event_type r ∉ ["PAUSE_REQUESTED"; "PAUSED_WAITING_USER"; "RESUME_CHECK"])
           /\ e = new_event (event_effect task (rp_event_type r) now) r now
           /\ d' = put_task ((event_effect task (rp_event_type r) now) <| t_last_sequence := rp_sequence r |>
                               <| t_current_step := rp_step_index r |>)
                     (d <| task_events := task_events d ++ [e] |>))).
Proof.
  unfold event. intros [H _]%unit_of_work_Ok.
  destruct (validate_owned_task _ _) as [task|]; [|done].
  destruct (validate_active_lease _ _ _) as [[]|] eqn:Ev; [|done]. exists task. do 2 (split; [done|]).
  case_decide as D; [left|right].
  - destruct (find_event _ _ _) as [x|]; [|done]. case_decide as Dr; [done|]. injection H as <- <- <-. done.
  - case_decide as Dq; [done|]. case_decide as Db; [done|]. cbv beta zeta in H. injection H as <- <- <-.
    repeat split; try done. intros Hb Hin. by apply Db.
Qed.

Lemma event_effect_frame task ty now :
  let t := event_effect task ty now in
  frozen_columns t = frozen_columns task /\ t_status t = t_status task /\ t_header t = t_header task
  /\ t_attempt t = t_attempt task /\ t_resume_count t = t_resume_count task
  /\ t_last_sequence t = t_last_sequence task /\ t_lease_id t = t_lease_id task
  /\ t_lease_expires_at t = t_lease_expires_at task
  /\ (t_business_state task ∉ TERMINAL_BUSINESS -> t_business_state t ∉ TERMINAL_BUSINESS).
Proof.
  cbn zeta. unfold event_effect.
  assert (forall s, s ∈ [B_PAUSE_REQUESTED; B_RECONCILING; B_PAUSED_WAITING_USER; B_RESUME_CHECK] ->
                    s ∉ TERMINAL_BUSINESS) as Hn by (vm_compute; set_solver).
  repeat case_match; cbn; repeat (split; [done|]); try (intros _; apply Hn; set_solver). done.
Qed.

Lemma event_le binding k lease_id r c now d o d' :
  unique_indexes d -> event binding k lease_id r c now d = Ok (o, d') -> db_le d d'.
Proof.
  destruct o as [e created]. intros Hu (task & Ho & Hv & [(_ & -> & _)|(_ & Hq & _ & -> & ->)])%event_inv; [reflexivity|].
  apply owned_task_Ok in Ho as (Hg & <- & _). apply validate_active_lease_Ok in Hv as (Hs & Ha & _).
  destruct (event_effect_frame task (rp_event_type r) now) as (F & S & Hh & A & R & L & _ & _ & B).
  assert (task_le task ((event_effect task (rp_event_type r) now) <| t_last_sequence := rp_sequence r |>
                               <| t_current_step := rp_step_index r |>)) as Hle.
  { revert F S Hh A R L B. generalize (event_effect task (rp_event_type r) now). intros t1 F S Hh A R L B.
    apply task_le_live; [done|cbn; lia|cbn; lia|unfold control_revision; cbn; by rewrite Hh|cbn; lia|done|].
    intros Hn. apply live_consistent; [by apply B|]. unfold runner_done in *; cbn. by rewrite S. }
  destruct Hu as [Hnd _]. split; try reflexivity; try apply grows_refl, _.
  - apply (put_task_le d _ task); [done|by rewrite (task_le_id _ _ Hle)|done|done].
  - cbn. by (apply grows_snoc; [apply _|]; try done).
Qed.

Lemma task_sequences_snoc d e k :
  task_sequences (d <| task_events := task_events d ++ [e] |>) k =
  task_sequences d k ++ (if decide (e_task_id e = k) then [e_sequence e] else []).
Proof.
  unfold task_sequences; cbn. rewrite filter_app, fmap_app, filter_cons, filter_nil. by case_decide.
Qed.

Lemma find_event_None d k n : find_event d k n = None -> n ∉ task_sequences d k.
Proof.
  unfold find_event, task_sequences. intros H (e & -> & He)%list_elem_of_fmap.
  apply list_elem_of_filter in He as [Hk He]. by apply (scalar_filter_None _ _ H e).
Qed.

Lemma gapless_put d e task row :
  unique_indexes d -> events_gapless d -> get_task d (t_id task) = Some task -> t_id row = t_id task ->
  t_last_sequence row = t_last_sequence task + 1 -> e_task_id e = t_id task ->
  e_sequence e = t_last_sequence task + 1 ->
  events_gapless (put_task row (d <| task_events := task_events d ++ [e] |>)).
Proof.
  intros Hu Hgap Hg Hid Hl Ek Es t Ht. cbn in Ht.
  change (task_sequences (put_task row (d <| task_events := task_events d ++ [e] |>)) (t_id t))
    with (task_sequences (d <| task_events := task_events d ++ [e] |>) (t_id t)).
  rewrite task_sequences_snoc, Ek, Es.
  apply elem_of_tput in Ht as [[-> _]|[Ht Hne]].
  - destruct (Hgap task) as [H0 H1]; [by apply tget_Some in Hg as [? _]|].
    rewrite Hid, Hl, decide_True by done. rewrite H1, seqZ_snoc, (Z.add_comm 1) by done. split; [lia|done].
  - destruct (Hgap t Ht) as [H0 H1]. rewrite decide_False by congruence. by rewrite app_nil_r.
Qed.

Lemma gapless_fresh d task n :
  events_gapless d -> get_task d (t_id task) = Some task -> n = t_last_sequence task + 1 ->
  (t_id task, n) ∉ (event_key <$> task_events d).
Proof.
  intros Hgap [Hin _]%tget_Some -> (e & [= Hk Hs] & He)%list_elem_of_fmap.
  destruct (Hgap task Hin) as [H0 H1].
  assert (t_last_sequence task + 1 ∈ task_sequences d (t_id task)) as Hx.
  { unfold task_sequences. apply list_elem_of_fmap. exists e. split; [done|]. by apply list_elem_of_filter. }
  rewrite H1, elem_of_seqZ in Hx. lia.
Qed.

Lemma unique_event_put d e row task :
  unique_indexes d -> event_key e ∉ (event_key <$> task_events d) -> get_task d (t_id row) = Some task ->
  (t_status row, t_device_id row, t_lease_id row, task_key row)
  = (t_status task, t_device_id task, t_lease_id task, task_key task) ->
  unique_indexes (put_task row (d <| task_events := task_events d ++ [e] |>)).
Proof.
  intros (H1 & H2 & H3 & H4 & H5 & H6 & H7 & H8) He Hg [= Hs Hd Hl Hkt Hki].
  assert (forall x, x ∈ tasks d -> t_id x = t_id row -> x = task) as Hold.
  { intros x Hx Hid. pose proof (get_task_In d x H1 Hx) as E. rewrite Hid, Hg in E. congruence. }
  unfold unique_indexes; cbn.
  split; [exact (eq_ind_r (fun l => NoDup l) H1 (tput_keys t_id row (tasks d)))|].
  split; [|split; [|do 2 (split; [done|]); split; [|split; [|done]]]].
  - apply active_devices_tput_le; [done|]. intros x Hx Hid Ha. rewrite (Hold x Hx Hid).
    unfold task_active in *. by rewrite <- Hs.
  - rewrite fmap_app, NoDup_app. split; [done|]. split; [|apply NoDup_singleton].
    intros x Hx ->%list_elem_of_singleton. done.
  - refine (eq_ind_r (fun l => NoDup l) H6 (tput_fmap task_key row (tasks d) _)).
    intros x Hx Hid. rewrite (Hold x Hx Hid). unfold task_key. congruence.
  - apply task_leases_tput; [done|done|]. intros x Hx y Hy Hne Hyx. apply Hne.
    apply tget_Some in Hg as [Hin Hid]. rewrite <- Hid. f_equal.
    clear -H7 Hy Hin Hx Hyx Hl. rewrite Hl in Hx.
    induction (tasks d) as [|z l IH]; [by apply elem_of_nil in Hy|].
    unfold task_leases in H7. cbn in H7.
    assert (forall w, w ∈ l -> t_lease_id w = Some x -> t_lease_id z <> Some x) as Hz.
    { intros w Hw Hwx Hzx. rewrite Hzx in H7. apply NoDup_cons in H7 as [Hn _]. apply Hn.
      apply elem_of_task_leases. by exists w. }
    apply elem_of_cons in Hy as [->|Hy], Hin as [->|Hin]; [done|by destruct (Hz task)|by destruct (Hz y)|].
    apply IH; [|done|done]. destruct (t_lease_id z); [by apply NoDup_cons in H7 as [_ ?]|done].
Qed.

(** C34. Events are recorded without gaps or duplicates. If every task of a
    database has stored exactly its events 1 to last sequence, it is so after
    any event report, a rejected one included; a report that is accepted is
    stored under the next number; a replay returns the stored event and
    writes nothing; no report ever trips over the index of the table. *)
Theorem event_gapless binding k lease_id r c now d :
  unique_indexes d -> events_gapless d ->
  match event binding k lease_id r c now d with
  | Ok ((e, created), d') =>
      events_gapless d' /\ e_task_id e = k /\ e_sequence e = rp_sequence r
      /\ (if created : bool
          then task_sequences d' k = task_sequences d k ++ [rp_sequence r]
               /\ (e_event_type e, e_step_index e, e_payload e) = (rp_event_type r, rp_step_index r, rp_payload r)
          else d' = d /\ e ∈ task_events d /\ same_report e r)
  | Err (IntegrityError _) => False
  | Err _ => True
  end.
Proof.
  intros Hu Hgap. destruct (event _ _ _ _ _ _ _) as [[[e created] d']|x] eqn:H.
  - apply event_inv in H as (task & Ho & Hv & [(-> & -> & _ & Hf & Hr)|(-> & Hq & _ & -> & ->)]).
    + apply scalar_filter_Some in Hf as [[Hk Hs] Hin]. done.
    + apply owned_task_Ok in Ho as (Hg & <- & _).
      destruct (event_effect_frame task (rp_event_type r) now) as (F & _). injection F as Fid _.
      split; [by apply (gapless_put d _ task)|]. split; [exact Fid|]. split; [done|]. split; [|done].
      change (task_sequences (d <| task_events := task_events d ++ [new_event (event_effect task (rp_event_type r) now) r now] |>) (t_id task)
                = task_sequences d (t_id task) ++ [rp_sequence r]).
      rewrite task_sequences_snoc. by rewrite decide_True.
  - destruct x; try done. unfold event, unit_of_work in H.
    destruct (validate_owned_task _ _) as [task|] eqn:Ho; [|injection H as ->; by apply validate_owned_Err in Ho as [? ?]].
    apply owned_task_Ok in Ho as (Hg & <- & _).
    destruct (validate_active_lease _ _ _) as [[]|] eqn:Hv; [|injection H as ->; by apply validate_lease_Err in Hv as [? ?]].
    case_decide as D.
    + destruct (find_event _ _ _); [|done]. case_decide; [done|]. cbv beta iota zeta in H. case_decide; [tauto|done].
    + case_decide as Dq; [done|]. case_decide; [done|]. cbv beta zeta in H. case_decide as Du; [|done]. apply Du.
      destruct (event_effect_frame task (rp_event_type r) now) as (F & S & _ & _ & _ & _ & L & _).
      injection F as Fid Fte Fdev Fkey.
      apply (unique_event_put d _ _ task); [done| |cbn; by rewrite Fid|unfold task_key; cbn; congruence].
      unfold event_key; cbn. rewrite Fid. by apply gapless_fresh.
Qed.

(** The payloads the API accepts: an object of scalars. *)
Definition json_scalar (v : json) : Prop := match v with JArr _ | JObj _ => False | _ => True end.
Definition flat_payload (o : list (string * json)) : Prop := NoDup o.*1 /\ Forall (fun kv => json_scalar kv.2) o.

Lemma json_eqb_scalar_refl v : json_scalar v -> json_eqb v v = true.
Proof.
  destruct v as [|b|n|q|s|l|o]; cbn; try done; intros _.
  - apply Qeq_bool_iff. reflexivity.
  - apply Qeq_bool_iff. reflexivity.
  - apply Qeq_bool_iff. reflexivity.
  - apply String.eqb_refl.
Qed.

Lemma jget_In o k v : NoDup o.*1 -> (k, v) ∈ o -> jget k o = Some v.
Proof.
  induction o as [|[k' v'] o IH]; [by intros _ ?%elem_of_nil|]. cbn.
  intros [Hk Hnd]%NoDup_cons [E|Hin]%elem_of_cons; [injection E as -> ->; by rewrite decide_True|].
  rewrite decide_False; [by apply IH|]. intros ->. apply Hk. by apply (list_elem_of_fmap_2' fst _ (k, v)).
Qed.

Lemma payload_eqb_refl o : flat_payload o -> payload_eqb o o = true.
Proof.
  intros [Hnd Hs]. unfold payload_eqb. cbn [json_eqb jnumber]. rewrite Nat.eqb_refl. cbn [andb].
  assert (forall p, (forall kv, kv ∈ p -> kv ∈ o) ->
    (fix go (o0 : list (string * json)) : bool := match o0 with
       | [] => true
       | (k, x) :: o' => match jget k o with Some y => json_eqb x y | None => false end && go o'
       end) p = true) as Hp; [|by apply Hp].
  induction p as [|[k x] p IH]; intros Hsub; [done|].
  rewrite (jget_In o k x) by (try done; apply Hsub; by left).
  rewrite Forall_forall in Hs. rewrite json_eqb_scalar_refl by (apply (Hs (k, x)), Hsub; by left).
  apply IH. intros kv Hkv. apply Hsub. by right.
Qed.

(** Reporting an event is idempotent: sending again a report that was
    just stored, while the lease is still good, is answered with the stored
    event, marked as a replay, and writes nothing. *)
Theorem event_replay binding k lease_id r c now d e d' c2 now2 :
  unique_indexes d -> events_gapless d -> flat_payload (rp_payload r) ->
  event binding k lease_id r c now d = Ok ((e, true), d') ->
  (forall t, get_task d k = Some t -> ~ expired (t_lease_expires_at t) c2) ->
  event binding k lease_id r c2 now2 d' = Ok ((e, false), d').
Proof.
  intros Hu Hgap Hflat H Hlease. pose proof H as H'. unfold event, finish in H'. apply unit_of_work_Ok in H' as [_ Hu'].
  apply event_inv in H as (task & Ho & Hv & [(? & _)|(_ & Hq & _ & He & Hd')]); [done|].
  apply owned_task_Ok in Ho as (Hg & <- & Hte & Hdv). apply validate_active_lease_Ok in Hv as (Hs & Ha & Hl & _).
  specialize (Hlease task Hg).
  destruct (event_effect_frame task (rp_event_type r) now) as (F & S & _ & _ & _ & _ & L & X & B).
  injection F as Fid Fte Fdv _ _ _ _ _ _ _ _ _ _ _ _.
  set (row := (event_effect task (rp_event_type r) now) <| t_last_sequence := rp_sequence r |>
                 <| t_current_step := rp_step_index r |>) in *.
  assert (get_task d' (t_id task) = Some row) as Hg'.
  { rewrite Hd'. by apply (get_task_put (d <| task_events := task_events d ++ [e] |>) _ row task). }
  assert (find_event d' (t_id task) (rp_sequence r) = Some e) as Hf.
  { unfold find_event. rewrite Hd'. cbn. rewrite filter_app, filter_none.
    - rewrite filter_cons, decide_True; [done|]. rewrite He. by split.
    - intros x Hx [Hk Hsq]. apply (gapless_fresh d task (rp_sequence r) Hgap Hg Hq).
      apply list_elem_of_fmap. exists x. unfold event_key. by rewrite Hk, Hsq. }
  unfold event, unit_of_work. rewrite Hg'. unfold validate_owned_task.
  rewrite decide_False by (unfold row; cbn; rewrite Fte, Fdv; tauto).
  rewrite validate_active_lease_intro; [|by apply B|unfold task_active, row; cbn; by rewrite S
    |unfold row; cbn; by rewrite L|unfold row; cbn; by rewrite X].
  rewrite decide_True by (unfold row; cbn; lia). rewrite Hf.
  rewrite decide_False by (intros Hn; apply Hn; rewrite He; repeat split; cbn; by apply payload_eqb_refl).
  by rewrite decide_False by tauto.
Qed.

(** ** Finish: theorems *)

Lemma finish_inv binding k lease_id r c now d row' d' :
  finish binding k lease_id r c now d = Ok (row', d') ->
  exists row, validate_owned_task (get_task d k) binding = Ok row /\ t_business_state row <> B_RECONCILING
    /\ ((runner_done row /\ same_outcome row r /\ row' = row /\ d' = d)
        \/ (validate_active_lease row lease_id c = Ok tt /\ result_type_error row (fr_result r) = Ok tt
           /\ row' = (row <| t_status := finish_runner (fr_status r) |> <| t_result := fr_result r |>
                     <| t_error_code := fr_error_code r |> <| t_detail := fr_detail r |>
                     <| t_business_state := RUNNER_TO_BUSINESS (finish_runner (fr_status r)) |>
                     <| t_completed_at := Some now |> <| t_lease_expires_at := None |>)
           /\ d' = update_own_lease (b_device_id binding) row' (fun l => l <| l_canceled_at := Some now |>)
                     (settle_reply_delivery (t_id row') (t_business_state row') (put_task row' d)))).
Proof.
  unfold finish. intros [H _]%unit_of_work_Ok.
  destruct (validate_owned_task _ _) as [row|]; [|done]. case_decide as D; [done|]. exists row. do 2 (split; [done|]).
  case_decide as Dd; [left|right].
  - case_decide as Ds; [done|]. injection H as <- <-. done.
  - destruct (validate_active_lease _ _ _) as [[]|] eqn:Ev; [|done].
    destruct (result_type_error _ _) as [[]|] eqn:Et; [|done]. cbv beta zeta in H. injection H as <- <-. done.
Qed.

Lemma finish_terminal s : RUNNER_TO_BUSINESS (finish_runner s) ∈ TERMINAL_BUSINESS.
Proof. destruct s; apply (bool_decide_unpack _); exact I. Qed.

Lemma finish_le binding k lease_id r c now d row' d' :
  unique_indexes d -> finish binding k lease_id r c now d = Ok (row', d') -> db_le d d'.
Proof.
  intros Hu (row & Ho & _ & [(_ & _ & _ & ->)|(Hv & _ & Hr & ->)])%finish_inv; [reflexivity|].
  apply owned_task_Ok in Ho as (Hg & <- & _). apply validate_active_lease_Ok in Hv as (Hs & _).
  eapply (put_frame_le d d); [done|exact Hg| |apply same_history_refl|].
  2:{ eapply same_history_trans; [apply settle_reply_frame|apply update_own_lease_history]. }
  rewrite Hr. live_task; [done|]. intros _. apply done_consistent; [apply finish_terminal|].
  unfold runner_done; cbn. destruct (fr_status r); auto.
Qed.

Lemma update_own_lease_messages k row f d : messages (update_own_lease k row f d) = messages d.
Proof. unfold update_own_lease. by_cases; done. Qed.


(** ** Acknowledging a cancel: theorems *)

Lemma cancel_requested_raw t : business_state_of t = B_CANCEL_REQUESTED -> t_business_state t = B_CANCEL_REQUESTED.
Proof.
  unfold business_state_of. destruct (t_business_state t) as [| | | | | | | | | | | | |text]; try done.
  destruct (String.eqb text ""); [by destruct (t_status t)|]. by destruct (String.eqb text "CANCELED").
Qed.

Definition applied_row (task : MobileTaskRow) (reason : string) (now : Z) : MobileTaskRow :=
  task <| t_status := R_FAILED |> <| t_business_state := B_CANCELLED |>
       <| t_error_code := Some "CANCELLED" |> <| t_detail := Some reason |>
       <| t_completed_at := Some now |> <| t_lease_id := None |> <| t_lease_expires_at := None |>.

Lemma control_ack_inv binding body now at_ d v d' :
  control_ack binding body now at_ d = Ok (v, d') ->
  exists task, validate_owned_task (get_task d (ack_task_id body)) binding = Ok task
    /\ let state := business_state_of task in
       (d' = d /\ ak_task v = task /\ ak_revision v = control_revision task
          /\ ((ack_result body = CANCEL_APPLIED /\ state = B_CANCELLED)
              \/ (ack_result body = CANCEL_DEFERRED_RECONCILING /\ state = B_RECONCILING)))
       \/ (t_business_state task = B_CANCEL_REQUESTED /\ ~ stale_ack body (control_revision task)
          /\ match ack_result body with
             | CANCEL_APPLIED =>
                 let reason := str_or (ack_reason body) "cancel applied by device" in
                 exists released d1 row, release_occupation (applied_row task reason now) now d = (released, d1)
                   /\ record_control_event (applied_row task reason now) K_CANCELLED reason "companion" now
                      = (row, control_revision task + 1)
                   /\ ak_task v = row /\ ak_revision v = control_revision task + 1
                   /\ d' = settle_reply_delivery (t_id row) B_CANCELLED
                             (add_audit (audit_companion_control row "cancel_acked" (control_revision task + 1)
                                [("occupationReleased", JBool released)] at_) (put_task row d1))
             | CANCEL_DEFERRED_RECONCILING =>
                 let reason := str_or (ack_reason body) "cancel deferred by device" in
                 exists row extra, record_control_event
                     (task <| t_business_state := B_RECONCILING |> <| t_stall_reason := Some (str_take 160 reason) |>)
                     K_CANCEL_DEFERRED_RECONCILING reason "companion" now = (row, control_revision task + 1)
                   /\ ak_task v = row /\ ak_revision v = control_revision task + 1
                   /\ d' = add_audit (audit_companion_control row "cancel_deferred_reconciling"
                                        (control_revision task + 1) extra at_) (put_task row d)
             end).
Proof.
  unfold control_ack, normalized_business_state. intros [H _]%unit_of_work_Ok.
  destruct (validate_owned_task _ _) as [task|]; [|done]. exists task. split; [done|]. cbn zeta.
  cbv beta iota zeta in H. case_decide as D; [done|].
  destruct (ack_result body) eqn:Er; [rewrite decide_True in H by done|rewrite decide_False in H by done].
  - case_decide as D1; [left; injection H as <- <-; split; [done|]; by auto|right].
    case_decide as D2; [done|]. case_decide as D3; [done|]. case_decide as D4; [done|].
    split; [by apply cancel_requested_raw|]. split; [done|].
    change (task <| t_status := R_FAILED |> <| t_business_state := B_CANCELLED |> <| t_error_code := Some "CANCELLED" |>
        <| t_detail := Some (str_or (ack_reason body) "cancel applied by device") |> <| t_completed_at := Some now |>
        <| t_lease_id := None |> <| t_lease_expires_at := None |>)
      with (applied_row task (str_or (ack_reason body) "cancel applied by device") now) in H.
    destruct (release_occupation _ _ _) as [released d1]. destruct (record_control_event _ _ _ _ _) as [row rev] eqn:Ec.
    cbv beta iota zeta in H. injection H as <- <-.
    pose proof (record_inv _ _ _ _ _ _ _ Ec) as [Erev _]. change (rev = control_revision task + 1) in Erev. subst rev.
    by exists released, d1, row.
  - case_decide as D1; [left; injection H as <- <-; split; [done|]; by auto|right].
    case_decide as D2; [done|]. case_decide as D3; [done|]. case_decide as D4; [done|].
    split; [by apply cancel_requested_raw|]. split; [done|].
    destruct (record_control_event _ _ _ _ _) as [row rev] eqn:Ec. cbv beta iota zeta in H. injection H as <- <-.
    pose proof (record_inv _ _ _ _ _ _ _ Ec) as [Erev _]. change (rev = control_revision task + 1) in Erev. subst rev.
    by exists row, [("reason", JStr (str_take 160 (default "" (ack_reason body))))].
Qed.

Lemma control_ack_le binding body now at_ d v d' :
  unique_indexes d -> control_ack binding body now at_ d = Ok (v, d') -> db_le d d'.
Proof.
  intros Hu (task & Ho & [(-> & _)|(Hs & _ & Hr)])%control_ack_inv; [reflexivity|].
  apply owned_task_Ok in Ho as (Hg & Hk & _).
  assert (~ settled task) as Hns by (unfold settled; rewrite Hs; vm_compute; set_solver).
  destruct (ack_result body).
  - destruct Hr as (released & d1 & row & Hrel & Hrec & _ & _ & ->). record_events.
    eapply put_one_le_frame; [done|exact Hg|by eapply release_occupation_frame|apply settle_reply_frame
      |reflexivity|done| |reflexivity..].
    live_task; [done|states_agree].
  - destruct Hr as (row & extra & Hrec & _ & _ & ->). record_events.
    eapply put_one_le; [done|exact Hg|reflexivity|done| |reflexivity..]. live_task; [done|states_agree].
Qed.

(** A cancel is done only when the device says so, once, under the view
    the server still holds. An accepted acknowledgement is of a task of the
    companion's device. Only a task whose cancel is pending, acknowledged at
    its current control revision, changes: APPLIED settles it CANCELLED with
    no lease, frees the device lease of its own workflow and closes its
    pending replies; DEFERRED holds it RECONCILING and leaves status and
    lease alone. A repeated acknowledgement of a cancel already applied (or
    already deferred) writes nothing. *)
Theorem control_ack_decides binding body now at_ d v d' :
  control_ack binding body now at_ d = Ok (v, d') ->
  exists task, get_task d (ack_task_id body) = Some task
    /\ t_tenant_id task = b_tenant_id binding /\ t_device_id task = b_device_id binding
    /\ ((d' = d /\ ak_revision v = control_revision task
           /\ business_state_of task = match ack_result body with CANCEL_APPLIED => B_CANCELLED | _ => B_RECONCILING end)
        \/ (t_business_state task = B_CANCEL_REQUESTED
            /\ (forall r, ack_task_revision body = Some r -> r = control_revision task)
            /\ ak_revision v = control_revision task + 1
            /\ exists row, get_task d' (ack_task_id body) = Some row /\ control_revision row = control_revision task + 1
               /\ match ack_result body with
                  | CANCEL_APPLIED =>
                      t_business_state row = B_CANCELLED /\ t_status row = R_FAILED /\ t_lease_id row = None
                      /\ (forall l, own_lease d task l ->
                            leases d' = <[t_device_id task := l <| l_canceled_at := Some now |>]> (leases d))
                      /\ (forall m, m ∈ messages d' -> m_reply_task_id m = Some (ack_task_id body) ->
                            m_delivery_state m <> PENDING)
                  | CANCEL_DEFERRED_RECONCILING =>
                      t_business_state row = B_RECONCILING /\ t_status row = t_status task
                      /\ t_lease_id row = t_lease_id task /\ leases d' = leases d
                  end)).
Proof.
  intros (task & Ho & Hc)%control_ack_inv. exists task.
  apply owned_task_Ok in Ho as (Hg & Hk & Hte & Hdv). do 3 (split; [done|]).
  destruct Hc as [(-> & _ & Hr & Hs)|(Hs & Hst & Hr)]; [left|right].
  { split; [done|]. split; [done|]. by destruct Hs as [[-> ->]|[-> ->]]. }
  split; [done|]. split.
  { intros r Er. apply dec_stable. intros Hne. apply Hst. split; congruence. }
  destruct (ack_result body).
  - destruct Hr as (released & d1 & row & Hrel & Hrec & _ & Hrev & ->). split; [done|]. record_events.
    eexists. split.
    + unfold get_task. rewrite settle_reply_tasks.
      pose proof (release_occupation_frame _ _ _ _ _ Hrel) as (Ht & _).
      refine (get_task_put d1 _ _ task _ _); [unfold get_task in *; by rewrite Ht|exact Hk].
    + do 4 (split; [done|]). rewrite settle_reply_leases. split.
      * intros l Hl. destruct (release_occupation_spec _ _ _ _ _ Hrel) as [(_ & l' & Hl' & E)|(_ & _ & Hno)].
        -- cbn in E |- *. rewrite E. destruct Hl as [Hl _], Hl' as [Hl' _]. cbn in Hl'. by simplify_eq.
        -- by destruct (Hno l).
      * intros m Hm Hr. eapply settle_reply_messages; [|exact Hm|rewrite Hr; by rewrite <- Hk]. vm_compute. set_solver.
  - destruct Hr as (row & extra & Hrec & _ & Hrev & ->). split; [done|]. record_events.
    eexists. split; [by refine (get_task_put d _ _ task _ _)|done].
Qed.

(** ** Witnesses *)

Definition sample_report_1 : event_report := mkReport 1 "LOG" (Some 0) [("stepId", JStr "s1")].
Definition sample_event (d : db) : result error ((MobileTaskEventRow * bool) * db) :=
  event sample_binding "task-1" "lease-1" sample_report_1 300 301 d.
Definition reported_event : MobileTaskEventRow :=
  match sample_event claimed_db with Ok ((e, _), _) => e | _ => new_event queued_task sample_report_1 0 end.
Definition reported_db : db := match sample_event claimed_db with Ok (_, d) => d | _ => claimed_db end.

Lemma claimed_db_unique : unique_indexes claimed_db.
Proof. apply (bool_decide_unpack _). vm_compute. exact I. Qed.

Lemma claimed_db_gapless : events_gapless claimed_db.
Proof.
  assert (tasks claimed_db = [claimed_task]) as Ht by (vm_compute; reflexivity).
  intros t Hin. rewrite Ht in Hin. apply list_elem_of_singleton in Hin as ->. vm_compute. split; [congruence|reflexivity].
Qed.

Lemma sample_event_Ok : sample_event claimed_db = Ok ((reported_event, true), reported_db).
Proof. vm_compute. reflexivity. Qed.

Lemma heartbeat_renews_witness :
  exists row d, heartbeat sample_binding "task-1" "lease-1" (Some 1) 30 300 301 claimed_db = Ok (row, d)
    /\ t_lease_expires_at row = Some (301 + seconds 30).
Proof.
  eexists _, _. split; [vm_compute; reflexivity|].
  edestruct (heartbeat_renews sample_binding "task-1" "lease-1" (Some 1) 30 300 301 claimed_db)
    as (row & _ & _ & _ & _ & _ & _ & _ & _ & _ & _ & He & _); [vm_compute; reflexivity|].
  exact He.
Defined.

Lemma event_gapless_witness :
  unique_indexes claimed_db /\ events_gapless claimed_db /\ events_gapless reported_db.
Proof.
  split; [exact claimed_db_unique|]. split; [exact claimed_db_gapless|].
  pose proof (event_gapless sample_binding "task-1" "lease-1" sample_report_1 300 301 claimed_db
                claimed_db_unique claimed_db_gapless) as H.
  pose proof sample_event_Ok as E. unfold sample_event in E. rewrite E in H. exact (proj1 H).
Defined.

Lemma sample_report_flat : flat_payload (rp_payload sample_report_1).
Proof. split; [apply NoDup_singleton|by repeat constructor]. Qed.

Lemma event_replay_witness :
  sample_event claimed_db = Ok ((reported_event, true), reported_db)
  /\ event sample_binding "task-1" "lease-1" sample_report_1 400 401 reported_db = Ok ((reported_event, false), reported_db).
Proof.
  split; [exact sample_event_Ok|].
  apply (event_replay sample_binding "task-1" "lease-1" sample_report_1 300 301 claimed_db reported_event reported_db 400 401
           claimed_db_unique claimed_db_gapless sample_report_flat sample_event_Ok).
  assert (get_task claimed_db "task-1" = Some claimed_task) as Hg by (vm_compute; reflexivity).
  intros t. rewrite Hg. intros H. apply (inj Some) in H as <-. vm_compute. tauto.
Defined.

Definition sample_finish : finish_report := mkFinish FINISH_SUCCEEDED [("outcome", JStr "ok")] None None.


Definition canceling_db : db := sample_db (task_in B_CANCEL_REQUESTED R_RUNNING).

Lemma control_ack_decides_witness :
  exists v d, control_ack sample_binding (mkAck "task-1" None CANCEL_APPLIED None) 50 60 canceling_db = Ok (v, d)
    /\ exists task, get_task canceling_db "task-1" = Some task /\ t_tenant_id task = "tenant".
Proof.
  eexists _, _. split; [vm_compute; reflexivity|].
  edestruct (control_ack_decides sample_binding (mkAck "task-1" None CANCEL_APPLIED None) 50 60 canceling_db)
    as (task & H1 & H2 & _); [vm_compute; reflexivity|].
  exists task. split; [exact H1|exact H2].
Defined.
