(* ===== verification/ControlStream.v ===== *)
(** * The control stream of a device: derived entries, cursor pull,
    reconcile snapshot and device heartbeat of mobile_service.py

    The stream of a device is derived on each read from the control events
    retained on its tasks. It is only an accelerator: the snapshot carries
    the current truth. *)

From stdpp Require Import base gmap strings list sorting.
From Stdlib Require Import ZArith Lia Sorting.Sorted.
From S2P Require Import Prelude PyStd Domain Rows ControlledActions FleetIdentity FrozenShapes TaskOps History ControlPlane Claim Companion.

Open Scope Z_scope.

(** ** Entries *)

Record DeviceControlEntry := mkEntry {
  en_seq : Z; en_task_id : string; en_task_revision : Z; en_wire_type : string;
  en_issued_at : Z; en_reason : string;
}.
#[export] Instance DeviceControlEntry_eq_dec : EqDecision DeviceControlEntry.
Proof. solve_decision. Defined.

(** One collected tuple: issue time, task, revision and the event. *)
Definition collected_entry : Type := (Z * string * Z) * control_event.

(** Tuple order on [(issuedAt, taskId, revision)]. *)
Definition triple_leb (a b : Z * string * Z) : bool :=
  let '(t, k, r) := a in
  let '(t', k', r') := b in
  Z.ltb t t' || (Z.eqb t t' && (negb (str_leb k' k) || (String.eqb k k' && Z.leb r r'))).

Definition collect_task (row : MobileTaskRow) : list collected_entry :=
  omap (fun e => (fun issued => ((issued, t_id row, ce_revision e), e)) <$> ce_issuedAt e)
    (h_controlEvents (t_header row)).

Definition collect_entries (d : db) (tenant_id device_id : string) : list collected_entry :=
  isort (fun a b => triple_leb a.1 b.1) (concat (collect_task <$> device_tasks d tenant_id device_id)).

Definition make_entry (seq : Z) (c : collected_entry) : DeviceControlEntry :=
  mkEntry seq c.1.1.2 c.1.2 (control_wire_type (ce_event c.2)) c.1.1.1 (ce_reason c.2).

Definition device_control_entries (d : db) (tenant_id device_id : string) : list DeviceControlEntry :=
  let collected := collect_entries d tenant_id device_id in
  zip_with make_entry (compose_device_control_seqs (fst <$> collected)) collected.

(** ** Cursor pull *)

Record control_page := mkPage {
  pg_from : Z; pg_through : Z; pg_high_watermark : Z; pg_events : list DeviceControlEntry;
}.

Definition high_watermark (entries : list DeviceControlEntry) : Z := default 0 (en_seq <$> last entries).

(** The cursor precedes the first retained entry, or every entry is gone. *)
Definition cursor_too_old (entries : list DeviceControlEntry) (after : Z) : bool :=
  match entries with [] => Z.ltb 0 after | first :: _ => Z.ltb after (en_seq first) end.

Definition control_pull (binding : MobileBindingRow) (after : Z) (limit : nat) (d : db) : result error control_page :=
  raise_if after < 0 with ControlSeqInvalidError "after must be a non-negative deviceControlSeq" in
  let entries := device_control_entries d (b_tenant_id binding) (b_device_id binding) in
  raise_if cursor_too_old entries after = true
    with CursorTooOldError "control cursor precedes the device retention floor; converge via the reconcile snapshot" in
  let page := take limit (filter (fun e => en_seq e > after) entries) in
  Ok (mkPage (default (after + 1) (en_seq <$> head page)) (default after (en_seq <$> last page))
        (high_watermark entries) page).

(** ** Reconcile snapshot *)

Definition CONTROL_SNAPSHOT_TASK_LIMIT : nat := 200.

Record snapshot_task := mkSnapshotTask {
  sn_task_id : string; sn_status : RunnerStatus; sn_business_state : BusinessState;
  sn_task_revision : Z; sn_terminal : bool; sn_ledger_blocks : bool;
}.

(** [order_by(created_at.desc())]. *)
Definition newer_task (a b : MobileTaskRow) : bool := bool_decide (t_created_at b <= t_created_at a).

Definition open_unknown_task_ids (d : db) (tenant_id device_id : string) : list string :=
  a_task_id <$> filter (fun a => a_tenant_id a = tenant_id /\ a_device_id a = device_id
                                 /\ a_status a = A_UNKNOWN /\ a_resolved_at a = None) (actions d).

Definition snapshot_of (blocked : list string) (row : MobileTaskRow) : snapshot_task :=
  mkSnapshotTask (t_id row) (t_status row) (business_state_of row) (control_revision row)
    (bool_decide (business_state_of row ∈ TERMINAL_BUSINESS)) (bool_decide (t_id row ∈ blocked)).

Definition reconcile_snapshot (binding : MobileBindingRow) (d : db) : Z * list snapshot_task :=
  let tenant_id := b_tenant_id binding in
  let device_id := b_device_id binding in
  (high_watermark (device_control_entries d tenant_id device_id),
   snapshot_of (open_unknown_task_ids d tenant_id device_id)
     <$> take CONTROL_SNAPSHOT_TASK_LIMIT (isort newer_task (device_tasks d tenant_id device_id))).

(** ** The stream is ordered *)

Lemma triple_leb_total a b : triple_leb a b = false -> triple_leb b a = true.
Proof.
  destruct a as [[t k] r], b as [[t' k'] r']. cbn.
  rewrite !orb_false_iff, !andb_false_iff, !orb_true_iff, !andb_true_iff, !orb_false_iff, !orb_true_iff, !andb_true_iff,
    !andb_false_iff, !negb_true_iff, !negb_false_iff.
  rewrite Z.ltb_ge, Z.ltb_lt, !Z.eqb_eq, Z.eqb_neq, Z.leb_gt, Z.leb_le, String.eqb_neq, !String.eqb_eq.
  intros [Ht Hr]. destruct (decide (t' < t)); [by left|right]. split; [lia|].
  destruct Hr as [Hr|[Hk Hr]]; [lia|].
  destruct (decide (k = k')) as [->|Hne].
  - right. split; [done|]. destruct Hr; [done|lia].
  - left. destruct (str_leb k k') eqn:E; [|done]. exfalso. apply Hne.
    unfold str_leb in *. by apply String.leb_antisym.
Qed.

Lemma triple_leb_time a b : triple_leb a b = true -> a.1.1 <= b.1.1.
Proof.
  destruct a as [[t k] r], b as [[t' k'] r']. cbn.
  rewrite orb_true_iff, andb_true_iff, Z.ltb_lt, Z.eqb_eq. lia.
Qed.

Lemma Sorted_fmap_times (l : list collected_entry) :
  Sorted (fun a b => triple_leb a.1 b.1 = true) l -> times_sorted (fst <$> l).
Proof.
  intros Hs. apply Sorted_StronglySorted; [intros x y z; cbn; lia|].
  induction Hs as [|x l Hs IH Hh]; cbn; constructor; [done|].
  destruct Hh as [|y l Hy]; cbn; constructor. by apply triple_leb_time.
Qed.

Lemma compose_from_length previous rank entries : length (compose_from previous rank entries) = length entries.
Proof.
  revert previous rank. induction entries as [|[[t k] r] l IH]; intros previous rank; cbn; [done|]. by rewrite IH.
Qed.

Lemma entries_seqs d tenant k :
  en_seq <$> device_control_entries d tenant k = compose_device_control_seqs (fst <$> collect_entries d tenant k).
Proof.
  unfold device_control_entries.
  assert (length (compose_device_control_seqs (fst <$> collect_entries d tenant k)) = length (collect_entries d tenant k))
    as Hl by (unfold compose_device_control_seqs; by rewrite compose_from_length, length_fmap).
  revert Hl. generalize (compose_device_control_seqs (fst <$> collect_entries d tenant k)).
  generalize (collect_entries d tenant k). intros cs seqs. revert cs.
  induction seqs as [|q seqs IH]; intros [|c cs] Hl; cbn in *; try done. f_equal. apply IH. lia.
Qed.

(** No millisecond carries more than 1024 control events of the device. *)
Definition sparse_stream (d : db) (tenant_id device_id : string) : Prop :=
  forall ms, ms_count ms (fst <$> collect_entries d tenant_id device_id) <= CONTROL_SEQ_TIE_WIDTH.

Definition seq_sorted (l : list DeviceControlEntry) : Prop := StronglySorted (fun a b => en_seq a < en_seq b) l.

Lemma entries_sorted d tenant k : sparse_stream d tenant k -> seq_sorted (device_control_entries d tenant k).
Proof.
  intros Hsp.
  destruct (compose_from_bounds (fst <$> collect_entries d tenant k) None 0) as (H & _); [| done|done|done|].
  { apply Sorted_fmap_times, isort_Sorted. intros a b. apply triple_leb_total. }
  change (StronglySorted Z.lt (compose_device_control_seqs (fst <$> collect_entries d tenant k))) in H.
  rewrite <- entries_seqs in H. revert H. generalize (device_control_entries d tenant k).
  induction l as [|x l IH]; intros H; [constructor|].
  rewrite fmap_cons in H. apply StronglySorted_inv in H as [H1 H2]. constructor; [by apply IH|].
  by rewrite Forall_fmap in H2.
Qed.

Lemma seq_sorted_filter (P : DeviceControlEntry -> Prop) `{!forall x, Decision (P x)} l :
  seq_sorted l -> seq_sorted (filter P l).
Proof.
  induction 1 as [|x l Hs IH Hx]; [constructor|]. rewrite filter_cons. case_decide; [|done].
  constructor; [done|]. rewrite Forall_forall in Hx |- *. intros y [_ Hy]%list_elem_of_filter. by apply Hx.
Qed.

(** Cutting a sorted stream at an entry leaves exactly what follows it. *)
Lemma filter_after_cut before after x :
  seq_sorted (before ++ x :: after) -> filter (fun e => en_seq e > en_seq x) (before ++ x :: after) = after.
Proof.
  intros Hs. rewrite filter_app, filter_cons, decide_False by lia.
  rewrite filter_none.
  - apply StronglySorted_app_1_r in Hs. apply StronglySorted_inv in Hs as [_ Hx]. cbn.
    induction Hx as [|y l Hy _ IH]; [done|]. rewrite filter_cons, decide_True by lia. by rewrite IH.
  - intros y Hy. assert (en_seq y < en_seq x); [|lia].
    apply (StronglySorted_app_1_elem_of _ _ _ y x Hs Hy). by left.
Qed.

Lemma filter_filter_gt (l : list DeviceControlEntry) (a x : Z) :
  a < x -> filter (fun e => en_seq e > x) (filter (fun e => en_seq e > a) l) = filter (fun e => en_seq e > x) l.
Proof.
  intros Ha. induction l as [|y l IH]; [done|]. rewrite (filter_cons _ y l). case_decide.
  - rewrite !filter_cons, IH. done.
  - rewrite (filter_cons _ y l), (decide_False (P := en_seq y > x)) by lia. done.
Qed.

Lemma last_take_split {A} n (l : list A) x : last (take n l) = Some x -> exists b, take n l = b ++ [x] /\ l = b ++ x :: drop n l.
Proof.
  intros H. apply last_Some in H as [b Hb]. exists b. split; [done|].
  rewrite <- (take_drop n l) at 1. by rewrite Hb, <- app_assoc.
Qed.

Lemma seq_sorted_last (c : list DeviceControlEntry) x y : seq_sorted (c ++ [y]) -> x ∈ c ++ [y] -> en_seq x <= en_seq y.
Proof.
  intros Hs [Hx|Hx%list_elem_of_singleton]%elem_of_app; [|subst; lia].
  pose proof (StronglySorted_app_1_elem_of _ _ _ x y Hs Hx). specialize (H (list_elem_of_here _ _)). cbn in H. lia.
Qed.

Lemma watermark_of_last (l : list DeviceControlEntry) after b x :
  seq_sorted l -> filter (fun e => en_seq e > after) l = b ++ [x] -> en_seq x = default 0 (en_seq <$> last l).
Proof.
  intros Hs Hf. pose proof (seq_sorted_filter (fun e => en_seq e > after) l Hs) as Hsr.
  assert (x ∈ filter (fun e => en_seq e > after) l) as Hx by (rewrite Hf; set_solver).
  apply list_elem_of_filter in Hx as [Hxa Hxl].
  destruct l as [|z l0 _] using rev_ind; [by apply elem_of_nil in Hxl|]. rewrite last_snoc. cbn.
  pose proof (seq_sorted_last _ _ _ Hs Hxl).
  assert (z ∈ filter (fun e => en_seq e > after) (l0 ++ [z])) as Hz.
  { apply list_elem_of_filter. split; [lia|set_solver]. }
  rewrite Hf in Hz, Hsr. pose proof (seq_sorted_last _ _ _ Hsr Hz). lia.
Qed.

(** Following the cursor misses nothing that the stream still holds: an
    accepted pull returns the oldest entries after the cursor, at most
    [limit] of them, and the pull from the cursor it returns is accepted and
    continues exactly where it stopped; once nothing is left the cursor is
    the high watermark. *)
Theorem control_pull_continues binding after limit d page :
  sparse_stream d (b_tenant_id binding) (b_device_id binding) -> (0 < limit)%nat ->
  control_pull binding after limit d = Ok page ->
  let rest := filter (fun e => en_seq e > after)
                (device_control_entries d (b_tenant_id binding) (b_device_id binding)) in
  pg_events page = take limit rest
  /\ (rest <> [] -> drop limit rest = [] -> pg_through page = pg_high_watermark page)
  /\ forall limit2, exists page2, control_pull binding (pg_through page) limit2 d = Ok page2
                                  /\ pg_events page2 = take limit2 (drop limit rest).
Proof.
  intros Hsp Hl H. cbn zeta. unfold control_pull in H. case_decide as D1; [done|]. cbv zeta in H.
  case_decide as D2; [done|]. injection H as <-. cbn [pg_events pg_through pg_high_watermark].
  pose proof (entries_sorted d _ _ Hsp) as Hs.
  set (l := device_control_entries d (b_tenant_id binding) (b_device_id binding)) in *.
  pose proof (seq_sorted_filter (fun e => en_seq e > after) l Hs) as Hsr.
  set (rest := filter (fun e => en_seq e > after) l) in *. split; [done|].
  destruct (last (take limit rest)) as [x|] eqn:Ex.
  - destruct (last_take_split _ _ _ Ex) as (b & Hb & Hrest).
    assert (x ∈ rest) as Hx by (rewrite Hrest; set_solver).
    apply list_elem_of_filter in Hx as [Hxa Hxl]. cbn [default fmap option_fmap option_map from_option].
    split.
    + intros _ Hnil. rewrite Hnil in Hrest. unfold high_watermark. by apply (watermark_of_last l after b).
    + intros limit2. unfold control_pull. fold l. rewrite decide_False by (cbn; lia).
      rewrite decide_False.
      2:{ unfold cursor_too_old in *. destruct l as [|y l0]; [by apply elem_of_nil in Hxl|]. cbn. lia. }
      eexists. split; [reflexivity|]. cbn [pg_events]. f_equal. cbn.
      rewrite <- (filter_filter_gt l after) by lia. fold rest. rewrite Hrest at 1. apply filter_after_cut.
      by rewrite <- Hrest.
  - assert (rest = []) as Hnil.
    { destruct rest as [|y r]; [done|]. apply last_None in Ex. destruct limit; [lia|done]. }
    split; [by rewrite Hnil|]. intros limit2. cbn [default fmap option_fmap option_map from_option].
    unfold control_pull. fold l. rewrite decide_False, decide_False by done.
    eexists. split; [reflexivity|]. cbn [pg_events]. fold rest. by rewrite Hnil, drop_nil.
Qed.

(** The snapshot tells the truth about the device. Every line is a task
    of the device with its current status, state and control revision;
    [terminal] says whether the state is final, [ledgerBlocks] whether the
    ledger holds an unresolved UNKNOWN action of that task on this device,
    whatever the task's own state; no line is repeated; and as long as the
    device has at most 200 tasks none is missing. *)
Theorem reconcile_snapshot_truth binding d :
  NoDup (t_id <$> tasks d) ->
  let lines := (reconcile_snapshot binding d).2 in
  let mine := device_tasks d (b_tenant_id binding) (b_device_id binding) in
  (forall s, s ∈ lines -> exists t, t ∈ mine /\ sn_task_id s = t_id t /\ sn_status s = t_status t
     /\ sn_business_state s = business_state_of t /\ sn_task_revision s = control_revision t
     /\ (sn_terminal s = true <-> business_state_of t ∈ TERMINAL_BUSINESS)
     /\ (sn_ledger_blocks s = true <->
         exists a, a ∈ actions d /\ a_task_id a = t_id t /\ a_device_id a = b_device_id binding
                   /\ a_tenant_id a = b_tenant_id binding /\ a_status a = A_UNKNOWN /\ a_resolved_at a = None))
  /\ NoDup (sn_task_id <$> lines)
  /\ ((length mine <= 200)%nat -> forall t, t ∈ mine -> t_id t ∈ (sn_task_id <$> lines)).
Proof.
  intros Hnd. cbn zeta. unfold reconcile_snapshot; cbn [snd].
  set (mine := device_tasks d (b_tenant_id binding) (b_device_id binding)).
  set (blocked := open_unknown_task_ids d (b_tenant_id binding) (b_device_id binding)).
  assert (sn_task_id <$> (snapshot_of blocked <$> take CONTROL_SNAPSHOT_TASK_LIMIT (isort newer_task mine))
          = t_id <$> take CONTROL_SNAPSHOT_TASK_LIMIT (isort newer_task mine)) as Hids.
  { rewrite <- list_fmap_compose. apply list_fmap_ext. intros i t _. reflexivity. }
  split; [|split].
  - intros s (t & -> & Ht)%list_elem_of_fmap. exists t.
    apply elem_of_take in Ht as (i & Hi & _). apply list_elem_of_lookup_2, elem_of_isort in Hi.
    split; [done|]. do 4 (split; [done|]). unfold snapshot_of; cbn [sn_terminal sn_ledger_blocks].
    rewrite !bool_decide_eq_true. split; [done|].
    unfold blocked, open_unknown_task_ids. rewrite list_elem_of_fmap. setoid_rewrite list_elem_of_filter.
    split; intros (a & H); exists a; naive_solver.
  - rewrite Hids. eapply sublist_NoDup_fmap; [apply sublist_take|]. rewrite isort_Permutation.
    eapply sublist_NoDup_fmap; [apply sublist_filter|exact Hnd].
  - intros Hl t Ht. rewrite Hids, take_ge.
    + rewrite isort_Permutation. by apply list_elem_of_fmap_2.
    + by rewrite isort_Permutation.
Qed.

(** ** Device heartbeat, authentication, unbinding *)

Definition MAX_INLINE_CONTROL_EVENTS : nat := 2.

(** [l[-n:]]. *)
Definition last_n {A} (n : nat) (l : list A) : list A := drop (length l - n) l.

(** The body of a device heartbeat; [hb_health] is the dumped health object. *)
Record device_heartbeat_body := mkHeartbeat {
  hb_companion_version : string; hb_android_version : option string; hb_accessibility_enabled : bool;
  hb_runner_state : string; hb_order_delivery_protocol : option string;
  hb_battery_optimization_ignored : option bool; hb_safety_barrier : option string;
  hb_health : option (list (string * json)); hb_last_applied_control_seq : option Z;
}.

Fixpoint jremove (k : string) (o : list (string * json)) : list (string * json) :=
  match o with [] => [] | (k', v) :: o' => if decide (k' = k) then o' else (k', v) :: jremove k o' end.

(** [int(x or 0)] for the stored counter. *)
Definition json_int (o : option json) : Z := match o with Some (JInt n) => n | _ => 0 end.

Definition set_when {A} (k : string) (o : option A) (f : A -> json) (caps : list (string * json)) : list (string * json) :=
  match o with Some x => jset k (f x) caps | None => caps end.

Definition set_when_truthy (k : string) (health caps : list (string * json)) : list (string * json) :=
  match jget k health with Some v => if jtruthy v then jset k v caps else caps | None => caps end.

Definition normalize_health (health : list (string * json)) : list (string * json) :=
  match jget "network" health with
  | None | Some JNull => health
  | Some (JStr n) => if decide (n ∈ ["WIFI"; "CELLULAR"; "UNKNOWN"]) then health
                     else jset "network" (JStr "UNKNOWN") health
  | Some _ => jset "network" (JStr "UNKNOWN") health
  end.

Definition health_capabilities (health caps : list (string * json)) : list (string * json) :=
  let health := normalize_health health in
  let caps := jset "health" (JObj health) caps in
  let caps := match jget "sdkInt" health with
              | None | Some JNull => caps
              | Some v => jset "sdkInt" v caps
              end in
  set_when_truthy "mediaProjection" health
    (set_when_truthy "manufacturer" health (set_when_truthy "model" health caps)).

Definition heartbeat_capabilities (body : device_heartbeat_body) (caps : list (string * json)) : list (string * json) :=
  let caps := jset "mobileDirect" (JBool true) caps in
  let caps := jset "companionVersion" (JStr (hb_companion_version body)) caps in
  let caps := jset "accessibilityEnabled" (JBool (hb_accessibility_enabled body)) caps in
  let caps := jset "runnerState" (JStr (hb_runner_state body)) caps in
  let caps := jremove "orderDeliveryProtocol" caps in
  let caps := set_when "orderDeliveryProtocol" (hb_order_delivery_protocol body) JStr caps in
  let caps := jset "capabilitiesVersion" (JInt (json_int (jget "capabilitiesVersion" caps) + 1)) caps in
  let caps := set_when "batteryOptimizationIgnored" (hb_battery_optimization_ignored body) JBool caps in
  let caps := set_when "safetyBarrier" (hb_safety_barrier body) JStr caps in
  match hb_health body with Some health => health_capabilities health caps | None => caps end.

(** [body.health is not None and body.health.input_method]. *)
Definition ime_reported (body : device_heartbeat_body) : bool :=
  match hb_health body ≫= jget "inputMethod" with Some v => jtruthy v | None => false end.

(** Refreshes the current session of the binding; other sessions stay as they are. *)
Definition refresh_session (body : device_heartbeat_body) (now : Z) (s : FleetSessionRow) : FleetSessionRow :=
  let s := s <| fs_last_seen_at := Some now |> <| fs_companion_version := Some (hb_companion_version body) |>
             <| fs_accessibility_enabled := Some (hb_accessibility_enabled body) |> in
  if ime_reported body then s <| fs_ime_ready := Some true |> else s.

Definition put_session (s : FleetSessionRow) (d : db) : db :=
  d <| fleet_sessions := tput fs_session_id s (fleet_sessions d) |>.

Record heartbeat_reply := mkReply {
  hr_resume : option MobileTaskRow; hr_high_watermark : Z;
  hr_inline_events : list DeviceControlEntry; hr_blocking_task : option MobileTaskRow;
}.

Definition inline_events (entries : list DeviceControlEntry) (applied : option Z) : list DeviceControlEntry :=
  last_n MAX_INLINE_CONTROL_EVENTS
    (match applied with None => entries | Some n => filter (fun e => en_seq e > n) entries end).

Definition resume_task (d : db) (tenant_id device_id : string) : option MobileTaskRow :=
  scalar (isort newer_task (filter (fun t => t_business_state t = B_RESUME_CHECK) (device_tasks d tenant_id device_id))).

Definition device_heartbeat (binding : MobileBindingRow) (body : device_heartbeat_body) (now : Z) (d : db)
    : result error (heartbeat_reply * db) :=
  unit_of_work (fun d =>
    need stored := mobile_bindings d !! b_id binding
      orelse AuthenticationError "invalid or revoked Companion bearer token" in
    raise_if b_revoked_at stored <> None with AuthenticationError "invalid or revoked Companion bearer token" in
    let stored := stored <| b_last_seen_at := Some now |> <| b_companion_version := hb_companion_version body |> in
    let tenant_id := b_tenant_id stored in
    let device_id := b_device_id stored in
    need device := devices d !! device_id orelse NotFoundError "device was not found" in
    raise_if d_tenant_id device <> tenant_id with NotFoundError "device was not found" in
    let device := device <| d_last_seen_at := Some now |>
                         <| d_android_version := if truthy_str (hb_android_version body)
                                                 then hb_android_version body else d_android_version device |>
                         <| d_capabilities := heartbeat_capabilities body (d_capabilities device) |> in
    let d := put_device device_id device (d <| mobile_bindings := <[b_id binding := stored]> (mobile_bindings d) |>) in
    let d := match active_session d tenant_id (b_id stored) with
             | Some fleet => put_session (refresh_session body now fleet) d
             | None => d
             end in
    let entries := device_control_entries d tenant_id device_id in
    Ok (mkReply (resume_task d tenant_id device_id) (high_watermark entries)
          (inline_events entries (hb_last_applied_control_seq body)) (blocking_task d tenant_id device_id), d)) d.

Definition token_digest (kind value : string) : string :=
  hexdigest ("cloudctl-mobile:" +:+ kind +:+ ":" +:+ value).

Definition find_binding (d : db) (digest : string) : option (string * MobileBindingRow) :=
  scalar (filter (fun kb => b_token_digest kb.2 = digest /\ b_revoked_at kb.2 = None) (map_to_list (mobile_bindings d))).

Definition see_device (k : string) (seen : option Z) (d : db) : db :=
  match devices d !! k with
  | Some device => put_device k (device <| d_last_seen_at := seen |>) d
  | None => d
  end.

Definition authenticate (token : string) (now : Z) (d : db) : result error (MobileBindingRow * db) :=
  raise_if ~ (32 <= str_len token <= 512) with AuthenticationError "invalid Companion bearer token" in
  unit_of_work (fun d =>
    match find_binding d (token_digest "binding" token) with
    | None => Err (AuthenticationError "invalid or revoked Companion bearer token")
    | Some (k, row) =>
        let row := row <| b_last_seen_at := Some now |> in
        Ok (row, see_device (b_device_id row) (Some now)
                   (d <| mobile_bindings := <[k := row]> (mobile_bindings d) |>))
    end) d.

Definition unbind (binding : MobileBindingRow) (now : Z) (d : db) : result error (unit * db) :=
  unit_of_work (fun d =>
    need row := mobile_bindings d !! b_id binding orelse AuthenticationError "binding is already revoked" in
    raise_if b_revoked_at row <> None with AuthenticationError "binding is already revoked" in
    let row := row <| b_revoked_at := Some now |> in
    Ok (tt, see_device (b_device_id row) None
              (d <| mobile_bindings := <[b_id binding := row]> (mobile_bindings d) |>))) d.

Lemma find_binding_None d digest :
  find_binding d digest = None <->
  forall k b, mobile_bindings d !! k = Some b -> b_token_digest b = digest -> b_revoked_at b <> None.
Proof.
  unfold find_binding. split.
  - intros Hn k b Hb Hd Hr.
    apply (scalar_filter_None _ _ Hn (k, b)); [by apply elem_of_map_to_list|done].
  - intros Hall. destruct (scalar _) as [[k b]|] eqn:Es; [|done].
    apply scalar_filter_Some in Es as [[Hd Hr] Hin%elem_of_map_to_list]. by destruct (Hall k b).
Qed.

Lemma find_binding_Some d digest k b :
  find_binding d digest = Some (k, b) ->
  mobile_bindings d !! k = Some b /\ b_token_digest b = digest /\ b_revoked_at b = None.
Proof.
  unfold find_binding. intros [[Hd Hr] Hin%elem_of_map_to_list]%scalar_filter_Some. done.
Qed.

Lemma see_device_history k seen d :
  let d' := see_device k seen d in
  tasks d' = tasks d /\ actions d' = actions d /\ task_events d' = task_events d /\ audits d' = audits d
  /\ mobile_bindings d' = mobile_bindings d /\ devices_le (devices d) (devices d').
Proof.
  cbn zeta. unfold see_device. destruct (devices d !! k) as [x|] eqn:Ex; [|done].
  repeat (split; [done|]). by eapply devices_le_put.
Qed.

Lemma see_device_other k seen d :
  let d' := see_device k seen d in leases d' = leases d /\ fleet_sessions d' = fleet_sessions d.
Proof. cbn zeta. unfold see_device. by case_match. Qed.

(** Writing a binding back under its key with the same digest. *)
Lemma unique_put_binding d k b b' j seen :
  unique_indexes d -> mobile_bindings d !! k = Some b -> b_token_digest b' = b_token_digest b ->
  unique_indexes (see_device j seen (d <| mobile_bindings := <[k := b']> (mobile_bindings d) |>)).
Proof.
  intros (H1 & H2 & H3 & H4 & H5 & H6 & H7 & H8 & H9 & H10) Hb Hd.
  destruct (see_device_history j seen (d <| mobile_bindings := <[k := b']> (mobile_bindings d) |>)) as (A & B & C & _ & M & _).
  destruct (see_device_other j seen (d <| mobile_bindings := <[k := b']> (mobile_bindings d) |>)) as (L & F).
  unfold unique_indexes. rewrite A, B, C, M, L, F. repeat (split; [done|]). cbn.
  by eapply map_index_update.
Qed.

Lemma authenticate_le token now d row d' : authenticate token now d = Ok (row, d') -> db_le d d'.
Proof.
  unfold authenticate. intros H. case_decide; [done|]. apply unit_of_work_Ok in H as [H _].
  destruct (find_binding _ _) as [[k b]|]; [|done]. cbv beta zeta in H. injection H as _ <-.
  destruct (see_device_history (b_device_id (b <| b_last_seen_at := Some now |>)) (Some now)
    (d <| mobile_bindings := <[k := b <| b_last_seen_at := Some now |>]> (mobile_bindings d) |>)) as (A & B & C & D & _ & E).
  by apply tables_le.
Qed.

Lemma unbind_inv binding now d d' :
  unbind binding now d = Ok (tt, d') ->
  exists row, mobile_bindings d !! b_id binding = Some row /\ b_revoked_at row = None
    /\ d' = see_device (b_device_id row) None
              (d <| mobile_bindings := <[b_id binding := row <| b_revoked_at := Some now |>]> (mobile_bindings d) |>).
Proof.
  unfold unbind. intros [H _]%unit_of_work_Ok. destruct (mobile_bindings d !! _) as [row|]; [|done].
  case_decide as D; [done|]. cbv beta zeta in H. injection H as <-. exists row. done.
Qed.

Lemma unbind_le binding now d d' : unbind binding now d = Ok (tt, d') -> db_le d d'.
Proof.
  intros (row & _ & _ & ->)%unbind_inv.
  destruct (see_device_history (b_device_id row) None
    (d <| mobile_bindings := <[b_id binding := row <| b_revoked_at := Some now |>]> (mobile_bindings d) |>)) as (A & B & C & D & _ & E).
  by apply tables_le.
Qed.

Lemma device_heartbeat_inv binding body now d r d' :
  device_heartbeat binding body now d = Ok (r, d') ->
  exists stored device, mobile_bindings d !! b_id binding = Some stored /\ b_revoked_at stored = None
    /\ devices d !! b_device_id stored = Some device /\ d_tenant_id device = b_tenant_id stored
    /\ (tasks d', actions d', task_events d', audits d', leases d') = (tasks d, actions d, task_events d, audits d, leases d)
    /\ mobile_bindings d' = <[b_id binding := stored <| b_last_seen_at := Some now |>
                                 <| b_companion_version := hb_companion_version body |>]> (mobile_bindings d)
    /\ (exists x, devices d' = <[b_device_id stored := x]> (devices d) /\ d_last_seen_at x = Some now
          /\ (d_tenant_id x, d_fencing_counter x, d_control_epoch x, d_maintenance x, d_active_binding_id x)
             = (d_tenant_id device, d_fencing_counter device, d_control_epoch device, d_maintenance device,
                d_active_binding_id device))
    /\ fleet_sessions d' = match active_session d (b_tenant_id stored) (b_id stored) with
                           | Some s => tput fs_session_id (refresh_session body now s) (fleet_sessions d)
                           | None => fleet_sessions d
                           end
    /\ r = mkReply (resume_task d (b_tenant_id stored) (b_device_id stored))
             (high_watermark (device_control_entries d (b_tenant_id stored) (b_device_id stored)))
             (inline_events (device_control_entries d (b_tenant_id stored) (b_device_id stored))
                (hb_last_applied_control_seq body))
             (blocking_task d (b_tenant_id stored) (b_device_id stored)).
Proof.
  unfold device_heartbeat. intros [H _]%unit_of_work_Ok.
  destruct (mobile_bindings d !! _) as [stored|]; [|done]. case_decide as D1; [done|].
  cbv zeta in H. cbn [b_tenant_id b_device_id b_id set_with] in H.
  destruct (devices d !! _) as [device|] eqn:Ed; [|done]. case_decide as D2; [done|].
  injection H as <- <-. exists stored, device.
  change (active_session (put_device _ _ _) (b_tenant_id stored) (b_id stored))
    with (active_session d (b_tenant_id stored) (b_id stored)).
  destruct (active_session d (b_tenant_id stored) (b_id stored)) as [s|];
    (do 6 (split; [done|]); split; [by eexists|done]).
Qed.

Lemma device_heartbeat_le binding body now d r d' : device_heartbeat binding body now d = Ok (r, d') -> db_le d d'.
Proof.
  intros (stored & device & _ & _ & Ed & _ & [= A B C D _] & _ & (x & Hx & _ & Hc) & _)%device_heartbeat_inv.
  injection Hc as E1 E2 E3 _ _. apply tables_le; try done. rewrite Hx.
  eapply devices_le_put; [exact Ed|]. split; [done|lia..].
Qed.

Lemma last_n_suffix {A} n (l : list A) : last_n n l `suffix_of` l.
Proof. unfold last_n. exists (take (length l - n) l). by rewrite take_drop. Qed.

(** A device heartbeat is transport state, never control: it needs an
    unrevoked binding and its device, it changes no task, action, event or
    lease and neither fencing counter nor control epoch; it refreshes the
    current fleet session of the binding and leaves every revoked session and
    every other session as it was. Its reply carries at most two control
    events, the newest of those after the client's cursor. *)
Theorem device_heartbeat_is_transport binding body now d r d' :
  NoDup (fs_session_id <$> fleet_sessions d) ->
  device_heartbeat binding body now d = Ok (r, d') ->
  exists stored, mobile_bindings d !! b_id binding = Some stored /\ b_revoked_at stored = None
    /\ (tasks d', actions d', task_events d', leases d') = (tasks d, actions d, task_events d, leases d)
    /\ (forall k x, devices d !! k = Some x -> exists y, devices d' !! k = Some y
          /\ d_fencing_counter y = d_fencing_counter x /\ d_control_epoch y = d_control_epoch x
          /\ (k = b_device_id stored -> d_last_seen_at y = Some now))
    /\ (forall s, s ∈ fleet_sessions d ->
          active_session d (b_tenant_id stored) (b_id stored) <> Some s -> s ∈ fleet_sessions d')
    /\ (forall s, s ∈ fleet_sessions d -> fs_revoked_at s <> None -> s ∈ fleet_sessions d')
    /\ (length (hr_inline_events r) <= 2)%nat
    /\ (forall e, e ∈ hr_inline_events r ->
          e ∈ device_control_entries d (b_tenant_id stored) (b_device_id stored)
          /\ (forall n, hb_last_applied_control_seq body = Some n -> n < en_seq e)).
Proof.
  intros Hnd (stored & device & Hs & Hr & Ed & _ & [= A B C _ E] & _ & (x & Hx & Hseen & Hc) & Hf & ->)%device_heartbeat_inv.
  injection Hc as _ E2 E3 _ _. exists stored. do 2 (split; [done|]). split; [by rewrite A, B, C, E|].
  assert (forall s, s ∈ fleet_sessions d ->
    active_session d (b_tenant_id stored) (b_id stored) <> Some s -> s ∈ fleet_sessions d') as Hkeep.
  { intros s Hin Hns. rewrite Hf. destruct (active_session d _ _) as [a|] eqn:Ea; [|done].
    apply elem_of_tput_other; [done|]. intros Heq. apply Hns. f_equal.
    assert (a ∈ fleet_sessions d) as Ha.
    { unfold active_session in Ea. apply scalar_isort_Some, list_elem_of_filter in Ea. tauto. }
    apply (NoDup_fmap_eq fs_session_id (fleet_sessions d)); [done..|].
    rewrite Heq. unfold refresh_session. by case_match. }
  split; [|split; [done|split; [|split]]].
  - intros k y Hy. rewrite Hx. destruct (decide (b_device_id stored = k)) as [<-|Hne].
    + exists x. rewrite lookup_insert_eq. rewrite Ed in Hy. injection Hy as <-. done.
    + exists y. rewrite lookup_insert_ne by done. split; [done|]. split; [done|]. split; [done|].
      intros ->. done.
  - intros s Hin Hrev. apply Hkeep; [done|]. intros Ha.
    unfold active_session in Ha. apply scalar_isort_Some, list_elem_of_filter in Ha. tauto.
  - cbn. unfold inline_events, last_n, MAX_INLINE_CONTROL_EVENTS. rewrite length_drop. lia.
  - cbn. intros e He. unfold inline_events in He.
    assert (e ∈ match hb_last_applied_control_seq body with
                | None => device_control_entries d (b_tenant_id stored) (b_device_id stored)
                | Some n => filter (fun e => en_seq e > n) (device_control_entries d (b_tenant_id stored) (b_device_id stored))
                end) as Hin.
    { destruct (last_n_suffix MAX_INLINE_CONTROL_EVENTS (match hb_last_applied_control_seq body with
                | None => device_control_entries d (b_tenant_id stored) (b_device_id stored)
                | Some n => filter (fun e => en_seq e > n) (device_control_entries d (b_tenant_id stored) (b_device_id stored))
                end)) as [p Hp]. rewrite Hp. apply elem_of_app. by right. }
    destruct (hb_last_applied_control_seq body) as [n|]; [|split; [done|by intros]].
    apply list_elem_of_filter in Hin as [Hgt Hin]. split; [done|]. intros m [= <-]. lia.
Qed.

Lemma see_device_bindings k seen d : mobile_bindings (see_device k seen d) = mobile_bindings d.
Proof. unfold see_device. by case_match. Qed.

Lemma authenticate_is_ok token now d :
  unique_indexes d ->
  is_ok (authenticate token now d) = bool_decide (32 <= str_len token <= 512)
                                     && bool_decide (is_Some (find_binding d (token_digest "binding" token))).
Proof.
  intros Hu. unfold authenticate. case_decide as D; [by rewrite bool_decide_eq_false_2|].
  rewrite (bool_decide_eq_true_2 (32 <= str_len token <= 512)) by done.
  unfold unit_of_work. destruct (find_binding _ _) as [[k b]|] eqn:Ef; [|done]. cbv zeta.
  apply find_binding_Some in Ef as (Hb & _). rewrite decide_False; [done|]. intros Hn. apply Hn.
  by eapply unique_put_binding.
Qed.

(** Unbinding revokes the credential for good: after it no bearer token
    of that binding authenticates, at any time, the device is no longer seen,
    and every other token is accepted exactly as before. *)
Theorem unbind_revokes_token binding now d d' row token later :
  unique_indexes d ->
  unbind binding now d = Ok (tt, d') -> mobile_bindings d !! b_id binding = Some row ->
  (forall x, devices d' !! b_device_id row = Some x -> d_last_seen_at x = None)
  /\ if decide (token_digest "binding" token = b_token_digest row)
     then is_ok (authenticate token later d') = false
     else is_ok (authenticate token later d') = is_ok (authenticate token later d).
Proof.
  intros Hu Hub Hrow. assert (map_index b_token_digest (mobile_bindings d)) as Huniq by apply Hu.
  rewrite map_index_iff in Huniq. pose proof Hub as H'. unfold unbind in H'. apply unit_of_work_Ok in H' as [_ Hu'].
  apply unbind_inv in Hub as (row' & Hrow' & Hrev & ->).
  assert (row' = row) as -> by congruence. split.
  { intros x. unfold see_device. cbn. destruct (devices d !! b_device_id row) as [y|] eqn:Ey; cbn.
    - rewrite lookup_insert_eq. by intros [= <-].
    - by rewrite Ey. }
  assert (forall digest, find_binding (see_device (b_device_id row) None
       (d <| mobile_bindings := <[b_id binding := row <| b_revoked_at := Some now |>]> (mobile_bindings d) |>)) digest = None
     <-> (digest = b_token_digest row \/ find_binding d digest = None)) as Hfind.
  { intros digest. rewrite !find_binding_None, see_device_bindings. cbn. split.
    - intros Hall. destruct (decide (digest = b_token_digest row)); [by left|right]. intros k b Hb Hd.
      apply (Hall k); [|done]. rewrite lookup_insert_ne; [done|]. intros <-. congruence.
    - intros [->|Hall] k b; destruct (decide (b_id binding = k)) as [<-|Hne].
      + rewrite lookup_insert_eq. by intros [= <-].
      + rewrite lookup_insert_ne by done. intros Hb Hd. destruct Hne. by apply (Huniq _ _ row b).
      + rewrite lookup_insert_eq. by intros [= <-].
      + rewrite lookup_insert_ne by done. apply Hall. }
  specialize (Hfind (token_digest "binding" token)).
  rewrite !authenticate_is_ok by done. case_decide as D.
  - rewrite (proj2 Hfind) by (by left). by rewrite andb_false_r.
  - f_equal. apply bool_decide_ext. rewrite <- !not_eq_None_Some. tauto.
Qed.

(** ** Witnesses and a finding *)

(** Two seconds of control decisions on one task, one millisecond apart. *)
Fixpoint record_many (n : nat) (now : Z) (row : MobileTaskRow) : MobileTaskRow :=
  match n with
  | O => row
  | S n => record_many n (now + 1000) (record_control_event row K_PAUSE_REQUESTED "r" "a" now).1
  end.
Definition stream_db (n : nat) : db :=
  empty_db <| tasks := [(record_control_event stuck_task K_PAUSE_REQUESTED "r" "a" 500).1;
                        record_many n 1000 queued_task] |>.
Definition task_1_event (n : Z) (e : DeviceControlEntry) : bool :=
  String.eqb (en_task_id e) "task-1" && Z.eqb (en_task_revision e) n.

(** Once fifty newer events push the first events of one task out of its
    history, a client that had applied nothing but an older event of another
    task of the device is not told that its cursor is too old: it is served a
    page from which events 1 to 10 are missing, though it never saw them. *)
Lemma control_pull_skips_compacted :
  existsb (task_1_event 1) (device_control_entries (stream_db 50) "tenant" "device") = true
  /\ match control_pull sample_binding 0 100 (stream_db 60) with
     | Ok page => existsb (task_1_event 1) (pg_events page) = false /\ existsb (task_1_event 11) (pg_events page) = true
     | Err _ => False
     end.
Proof. split; [vm_compute; reflexivity|vm_compute; split; reflexivity]. Qed.

Lemma stream_db_sparse : sparse_stream (stream_db 3) "tenant" "device".
Proof.
  intros ms. unfold ms_count, CONTROL_SEQ_TIE_WIDTH.
  etransitivity; [apply inj_le, length_filter|]. vm_compute. congruence.
Qed.

Lemma control_pull_continues_witness :
  exists page page2, control_pull sample_binding 0 2 (stream_db 3) = Ok page
    /\ control_pull sample_binding (pg_through page) 2 (stream_db 3) = Ok page2 /\ length (pg_events page) = 2%nat.
Proof.
  eexists. edestruct (control_pull_continues sample_binding 0 2 (stream_db 3)) as (H1 & _ & H2);
    [exact stream_db_sparse|lia|vm_compute; reflexivity|].
  destruct (H2 2%nat) as (page2 & H3 & _). exists page2.
  split; [vm_compute; reflexivity|]. split; [exact H3|reflexivity].
Defined.

Lemma reconcile_snapshot_truth_witness :
  NoDup (t_id <$> tasks (stream_db 3)) /\ NoDup (sn_task_id <$> (reconcile_snapshot sample_binding (stream_db 3)).2).
Proof.
  assert (H : NoDup (t_id <$> tasks (stream_db 3))) by (apply (bool_decide_unpack _); vm_compute; exact I).
  split; [exact H|]. exact (proj1 (proj2 (reconcile_snapshot_truth sample_binding (stream_db 3) H))).
Defined.

Definition sample_heartbeat : device_heartbeat_body := mkHeartbeat "2" None true "IDLE" None None None None None.

Lemma device_heartbeat_is_transport_witness :
  exists r d, device_heartbeat sample_binding sample_heartbeat 500 queued_db = Ok (r, d) /\ tasks d = tasks queued_db.
Proof.
  eexists _, _. split; [vm_compute; reflexivity|].
  edestruct (device_heartbeat_is_transport sample_binding sample_heartbeat 500 queued_db) as (s & _ & _ & E & _);
    [apply NoDup_nil_2|vm_compute; reflexivity|].
  exact (f_equal (fun x => x.1.1.1) E).
Defined.

Definition sample_token : string := "0123456789012345678901234567890123456789".
Definition token_db (digest : string) : db :=
  queued_db <| mobile_bindings := {["binding" := sample_binding <| b_token_digest := digest |>]} |>.

Lemma token_db_unique digest : unique_indexes (token_db digest).
Proof.
  destruct queued_db_unique as (H1 & H2 & H3 & H4 & H5 & H6 & H7 & H8 & H9 & _).
  repeat (split; [assumption|]).
  change (mobile_bindings (token_db digest))
    with ({["binding" := sample_binding <| b_token_digest := digest |>]} : gmap string MobileBindingRow).
  apply map_index_iff. intros k1 k2 b1 b2 [<- _]%lookup_singleton_Some [<- _]%lookup_singleton_Some. done.
Qed.

Lemma token_unbind digest : exists d, unbind sample_binding 500 (token_db digest) = Ok (tt, d).
Proof.
  eexists. vm_compute. reflexivity.
Qed.

Lemma unbind_revokes_token_witness :
  exists digest d, digest = token_digest "binding" sample_token
    /\ unbind sample_binding 500 (token_db digest) = Ok (tt, d) /\ is_ok (authenticate sample_token 600 d) = false.
Proof.
  remember (token_digest "binding" sample_token) as digest eqn:E. exists digest.
  destruct (token_unbind digest) as [d H]. exists d. split; [reflexivity|]. split; [exact H|].
  destruct (unbind_revokes_token sample_binding 500 (token_db digest) d
    (sample_binding <| b_token_digest := digest |>) sample_token 600 (token_db_unique digest)) as [_ Hr].
  - exact H.
  - reflexivity.
  - destruct (decide _) as [_|Hn] in Hr; [exact Hr|]. destruct Hn. symmetry. exact E.
Defined.
