(* ===== verification/ActionLedger.v ===== *)
(** * The action ledger: [MobileActionService] of mobile_actions.py

    An irreversible click of a task is guarded by a ledger row: the companion
    first declares its intent, is authorised at most once, and then reports
    the outcome. [lease_checked_at] is the clock [_validate_active_lease]
    reads, [device_checked_at] the clock the device lease is compared to. *)

From stdpp Require Import base gmap strings list.
From Stdlib Require Import ZArith Lia.
From S2P Require Import Prelude PyStd Domain Rows ControlledActions FleetIdentity FrozenShapes TaskOps History ControlPlane Claim Companion.

Open Scope Z_scope.

(** What the ledger reads of a recipe package that the automation SDK parsed
    and whose signature it verified. *)
Record parsed_recipe := mkParsed {
  rc_app : string; rc_hash : string; rc_signing_key_id : string; rc_signature_key_id : string;
  rc_command_types : list string; rc_state_ids : list string; rc_commit_action_id : option string;
}.

Record intent_request := mkIntent {
  in_action_id : string; in_action_key : string; in_parameter_hash : string;
  in_lease_id : string; in_before_evidence : string;
}.

(** The outcome a companion may report. *)
Inductive outcome_status : Type := OUT_APPLIED | OUT_UNKNOWN.
#[export] Instance outcome_status_eq_dec : EqDecision outcome_status.
Proof. solve_decision. Defined.
Definition outcome_action_status (s : outcome_status) : ActionStatus :=
  match s with OUT_APPLIED => A_APPLIED | OUT_UNKNOWN => A_UNKNOWN end.

Record outcome_request := mkOutcome {
  ou_lease_id : string; ou_parameter_hash : string; ou_status : outcome_status; ou_evidence : string;
}.

Inductive intent_decision : Type := AUTHORIZED | RECONCILE_REQUIRED.
#[export] Instance intent_decision_eq_dec : EqDecision intent_decision.
Proof. solve_decision. Defined.

(** ** Guards *)

Definition action_owned (d : db) (binding : MobileBindingRow) (task_id : string) : result error MobileTaskRow :=
  need device := devices d !! b_device_id binding orelse ConflictError "Companion binding is no longer active" in
  raise_if d_active_binding_id device <> Some (b_id binding)
    with ConflictError "Companion binding is no longer active" in
  need current := mobile_bindings d !! b_id binding orelse ConflictError "Companion binding is no longer active" in
  raise_if b_revoked_at current <> None with ConflictError "Companion binding is no longer active" in
  validate_owned_task (get_task d task_id) current.

Definition action_lease (d : db) (binding : MobileBindingRow) (task : MobileTaskRow) (lease_id : string)
    (lease_checked_at device_checked_at : Z) : result error () :=
  raise_if lease_envelope_stale (h_fleetSessionId (t_header task)) (h_fleetBootId (t_header task))
             (active_session d (t_tenant_id task) (b_id binding)) = true
    with AuthorizationEnvelopeStaleError "action lease was minted under a superseded fleet session or boot" in
  let? _ := validate_active_lease task lease_id lease_checked_at in
  need lease := leases d !! t_device_id task
    orelse ConflictError "current device lease does not authorize this action" in
  raise_if ~ lease_held lease task lease_id device_checked_at
    with ConflictError "current device lease does not authorize this action" in
  Ok tt.

Definition pin_field (k : string) (task : MobileTaskRow) : option json :=
  match t_recipe_pin task with Some (JObj pin) => jget k pin | _ => None end.

Definition get_package (d : db) (k : string) : option AutomationVersionRow := tget av_id k (package_versions d).

(** [value.get("signature", {}).get("keyId")]. *)
Definition signature_key_id (manifest : list (string * json)) : string :=
  match jget "signature" manifest with Some (JObj s) => default "" (json_str (jget "keyId" s)) | _ => "" end.

Section Ledger.
Context (public_keys : list (string * string))
        (validate_recipe_package : list (string * json) -> string -> option parsed_recipe).

(** The identity of an action of a signed probe recipe. *)
Definition probe_identity (d : db) (task : MobileTaskRow) (action_id : string) : result error action_identity_columns :=
  need package := get_package d (default "" (json_str (pin_field "versionId" task)))
    orelse ConflictError "signed pinned recipe required" in
  raise_if av_tenant_id package <> t_tenant_id task with ConflictError "signed pinned recipe required" in
  let key := assoc (signature_key_id (av_manifest package)) public_keys in
  raise_if truthy_str key = false with ConflictError "signed pinned recipe required" in
  need parsed := validate_recipe_package (av_manifest package) (default "" key)
    orelse ConflictError "signed pinned recipe invalid" in
  raise_if rc_app parsed <> COMPANION_PACKAGE \/ t_target_package task <> COMPANION_PACKAGE
    with ConflictError "G3_NOT_ACCEPTED" in
  raise_if json_str (pin_field "sha256" task) <> Some (rc_hash parsed)
           \/ av_artifact_sha256 package <> rc_hash parsed
           \/ rc_signing_key_id parsed <> rc_signature_key_id parsed
           \/ default "" (t_command_type task) ∉ rc_command_types parsed
           \/ action_id ∉ rc_state_ids parsed
           \/ (rc_commit_action_id parsed <> None /\ rc_commit_action_id parsed <> Some action_id)
    with ConflictError "action does not match signed claim pin" in
  let live := scalar (filter (fun r => ab_tenant_id r = t_tenant_id task /\ Some (ab_account_id r) = t_account_id task
                                       /\ ab_device_id r = t_device_id task /\ ab_status r = "BOUND")
                        (account_bindings d)) in
  raise_if (ab_binding_version <$> live) = None \/ (ab_binding_version <$> live) <> t_binding_version task
    with ConflictError "account binding changed" in
  let snapshot := default "" (json_str (jget "snapshotSha256" (t_command_payload task))) in
  let? (key, parameters) :=
    action_identity (t_id task) (default "" (t_command_type task)) (default "" (t_account_id task))
      (default 0 (t_binding_version task)) snapshot (rc_hash parsed) action_id in
  Ok {| ac_action_key := key; ac_tenant_id := t_tenant_id task; ac_task_id := t_id task;
        ac_device_id := t_device_id task; ac_account_id := t_account_id task;
        ac_binding_version := t_binding_version task; ac_recipe_version_id := av_id package;
        ac_recipe_sha256 := rc_hash parsed; ac_snapshot_sha256 := snapshot; ac_action_id := action_id;
        ac_parameter_hash := parameters |}.

(** Maintenance commands, and legacy tasks of a package with a publish shape. *)
Definition uses_steps_identity (task : MobileTaskRow) : bool :=
  match t_command_type task with
  | Some c => bool_decide (c ∈ MAINTENANCE_COMMAND_TYPES)
  | None => bool_decide (is_Some (STEPS_SHAPES (t_target_package task)))
  end.

Definition task_identity (d : db) (task : MobileTaskRow) (action_id : string) : result error action_identity_columns :=
  if uses_steps_identity task then
    let? frozen := steps_action_identity task in
    raise_if action_id <> ac_action_id frozen with ConflictError "G3_NOT_ACCEPTED" in
    Ok frozen
  else
    raise_if t_command_type task <> Some "device.probe_capabilities.v1" with ConflictError "G3_NOT_ACCEPTED" in
    probe_identity d task action_id.

(** ** Intent and outcome *)

Definition find_action (d : db) (task_id action_id : string) : option MobileActionCommitRow :=
  scalar (filter (fun a => a_task_id a = task_id /\ a_action_id a = action_id) (actions d)).

Definition new_action (frozen : action_identity_columns) (task : MobileTaskRow) (body : intent_request) (now : Z)
    : MobileActionCommitRow :=
  mkAction frozen (t_account_id task) (in_lease_id body) A_INTENT (in_before_evidence body) None 0 None None now now.

Definition intent (binding : MobileBindingRow) (task_id : string) (body : intent_request)
    (lease_checked_at device_checked_at now audited_at : Z) (d : db)
    : result error ((intent_decision * MobileActionCommitRow) * db) :=
  unit_of_work (fun d =>
    let? task := action_owned d binding task_id in
    let? frozen := task_identity d task (in_action_id body) in
    let? _ := action_lease d binding task (in_lease_id body) lease_checked_at device_checked_at in
    raise_if in_action_key body <> ac_action_key frozen \/ in_parameter_hash body <> ac_parameter_hash frozen
      with ConflictError "action identity mismatch" in
    match find_action d (t_id task) (in_action_id body) with
    | Some row =>
        raise_if a_identity row <> frozen with ConflictError "immutable action identity changed" in
        raise_if a_before_evidence row <> in_before_evidence body \/ a_lease_id row <> in_lease_id body
          with ConflictError "intent replay differs" in
        Ok ((RECONCILE_REQUIRED, row), d)
    | None =>
        raise_if t_status task <> R_RUNNING \/ t_business_state task <> B_RUNNING
          with ConflictError "new intent requires RUNNING task" in
        let row := new_action frozen task body now in
        let d := d <| actions := actions d ++ [row] |> in
        let task := task <| t_business_state := B_RECONCILING |> in
        Ok ((AUTHORIZED, row), add_audit (audit_action row (b_id binding) "intent" audited_at) (put_task task d))
    end) d.

(** [session.get(MobileActionCommitRow, key)] of the task. *)
Definition owned_action (d : db) (task : MobileTaskRow) (key : string) : result error MobileActionCommitRow :=
  need row := get_action d key orelse NotFoundError "action was not found" in
  raise_if a_task_id row <> t_id task \/ a_tenant_id row <> t_tenant_id task
    with NotFoundError "action was not found" in
  Ok row.

Definition outcome (binding : MobileBindingRow) (task_id key : string) (body : outcome_request)
    (lease_checked_at device_checked_at now audited_at : Z) (d : db) : result error (MobileActionCommitRow * db) :=
  unit_of_work (fun d =>
    let? task := action_owned d binding task_id in
    let? row := owned_action d task key in
    let? frozen := task_identity d task (a_action_id row) in
    let? _ := action_lease d binding task (ou_lease_id body) lease_checked_at device_checked_at in
    raise_if a_identity row <> frozen with ConflictError "immutable action identity changed" in
    let status := outcome_action_status (ou_status body) in
    let? decision :=
      outcome_guard (a_status row) (ac_parameter_hash (a_identity row)) (a_lease_id row) (a_reported_evidence row)
        (a_resolution_revision row) (a_before_evidence row) (t_business_state task)
        (ou_parameter_hash body) (ou_lease_id body) status (ou_evidence body) in
    match decision with
    | OUTCOME_REPLAY => Ok (row, d)
    | OUTCOME_APPLY =>
        let row := row <| a_status := status |> <| a_reported_evidence := Some (ou_evidence body) |>
                       <| a_updated_at := now |> in
        Ok (row, add_audit (audit_action row (b_id binding) "outcome" audited_at) (put_action row d))
    end) d.

Definition get_owned_action (binding : MobileBindingRow) (task_id key : string) (d : db)
    : result error MobileActionCommitRow :=
  let? task := action_owned d binding task_id in
  owned_action d task key.

End Ledger.

(** ** Inversion lemmas *)

Section LedgerFacts.
Context (public_keys : list (string * string))
        (validate_recipe_package : list (string * json) -> string -> option parsed_recipe).
Abbreviation task_identity_of := (task_identity public_keys validate_recipe_package).
Abbreviation intent_of := (intent public_keys validate_recipe_package).
Abbreviation outcome_of := (outcome public_keys validate_recipe_package).

Lemma steps_action_row_Ok c action task steps f :
  steps_action_row c action task steps = Ok f ->
  ac_task_id f = t_id task /\ ac_tenant_id f = t_tenant_id task /\ ac_device_id f = t_device_id task
  /\ ac_action_id f = action.
Proof.
  unfold steps_action_row. destruct (action_identity _ _ _ _ _ _ _) as [[a b]|]; [|done]. by intros [= <-].
Qed.

Lemma task_identity_Ok d task action f :
  task_identity_of d task action = Ok f ->
  ac_task_id f = t_id task /\ ac_tenant_id f = t_tenant_id task /\ ac_device_id f = t_device_id task
  /\ ac_action_id f = action.
Proof.
  unfold task_identity. destruct (uses_steps_identity task).
  - destruct (steps_action_identity task) as [f0|] eqn:E; [|done]. case_decide as D; [done|]. intros [= ->].
    assert (exists c a steps, steps_action_row c a task steps = Ok f) as (c & a & steps & Hr).
    { unfold steps_action_identity in E.
      destruct (STEPS_SHAPES _) as [shape|]; [destruct (publish_shape_matches _ _); [by do 3 eexists|]|];
        (destruct (gated_command _) as [[c a]|]; [by do 3 eexists|done]). }
    apply steps_action_row_Ok in Hr as (H1 & H2 & H3 & H4). repeat (split; [done|]). congruence.
  - case_decide as D0; [done|]. unfold probe_identity. intros H.
    destruct (get_package _ _); [|done]. case_decide as D1; [done|]. cbv zeta in H. case_decide as D2; [done|].
    destruct (validate_recipe_package _ _); [|done]. case_decide as D3; [done|]. case_decide as D4; [done|].
    case_decide as D5; [done|].
    destruct (action_identity _ _ _ _ _ _ _) as [[x0 y0]|]; [|done]. by injection H as <-.
Qed.

Lemma action_owned_Ok d binding k task :
  action_owned d binding k = Ok task ->
  exists device current, devices d !! b_device_id binding = Some device
    /\ d_active_binding_id device = Some (b_id binding)
    /\ mobile_bindings d !! b_id binding = Some current /\ b_revoked_at current = None
    /\ get_task d k = Some task /\ t_id task = k
    /\ t_tenant_id task = b_tenant_id current /\ t_device_id task = b_device_id current.
Proof.
  unfold action_owned. intros H. destruct (devices d !! _) as [device|]; [|done]. case_decide as D1; [done|].
  destruct (mobile_bindings d !! _) as [current|]; [|done]. case_decide as D2; [done|].
  apply owned_task_Ok in H as (Hg & Hk & Hte & Hdv). exists device, current. done.
Qed.

(** What the lease check of the ledger established. *)
Record lease_live_for (d : db) (binding : MobileBindingRow) (task : MobileTaskRow) (lease_id : string) (c1 c2 : Z) : Prop := mkLive {
  ll_open : ~ settled task;
  ll_active : task_active task;
  ll_lease : t_lease_id task = Some lease_id;
  ll_deadline : ~ expired (t_lease_expires_at task) c1;
  ll_device : exists lease, leases d !! t_device_id task = Some lease /\ lease_held lease task lease_id c2;
  ll_session : lease_envelope_stale (h_fleetSessionId (t_header task)) (h_fleetBootId (t_header task))
                 (active_session d (t_tenant_id task) (b_id binding)) = false;
}.

Lemma action_lease_Ok d binding task lease_id c1 c2 :
  action_lease d binding task lease_id c1 c2 = Ok tt -> lease_live_for d binding task lease_id c1 c2.
Proof.
  unfold action_lease. case_decide as D1; [done|]. apply not_true_is_false in D1.
  destruct (validate_active_lease _ _ _) as [[]|] eqn:Ev; [|done].
  destruct (leases d !! _) as [lease|] eqn:El; [|done]. case_decide as D2; [done|]. intros _.
  apply validate_active_lease_Ok in Ev as (? & ? & ? & ?). by split; [..|exists lease|].
Qed.

Lemma intent_inv binding k body c1 c2 now at_ d dec row d' :
  intent_of binding k body c1 c2 now at_ d = Ok ((dec, row), d') ->
  exists task frozen, action_owned d binding k = Ok task
    /\ task_identity_of d task (in_action_id body) = Ok frozen
    /\ lease_live_for d binding task (in_lease_id body) c1 c2
    /\ in_action_key body = ac_action_key frozen /\ in_parameter_hash body = ac_parameter_hash frozen
    /\ match dec with
       | RECONCILE_REQUIRED => d' = d /\ find_action d k (in_action_id body) = Some row /\ a_identity row = frozen
       | AUTHORIZED => find_action d k (in_action_id body) = None
           /\ t_status task = R_RUNNING /\ t_business_state task = B_RUNNING
           /\ row = new_action frozen task body now
           /\ d' = add_audit (audit_action row (b_id binding) "intent" at_)
                     (put_task (task <| t_business_state := B_RECONCILING |>) (d <| actions := actions d ++ [row] |>))
       end.
Proof.
  unfold intent. intros [H _]%unit_of_work_Ok.
  destruct (action_owned _ _ _) as [task|] eqn:Eo; [|done].
  destruct (task_identity _ _ _ _ _) as [frozen|] eqn:Ei; [|done].
  destruct (action_lease _ _ _ _ _ _) as [[]|] eqn:El; [|done]. apply action_lease_Ok in El.
  case_decide as D1; [done|]. apply action_owned_Ok in Eo as Ho.
  destruct Ho as (device & current & _ & _ & _ & _ & _ & Hk & _). rewrite Hk in H.
  exists task, frozen. do 3 (split; [done|]). split; [apply dec_stable; tauto|]. split; [apply dec_stable; tauto|].
  destruct (find_action _ _ _) as [row0|].
  - case_decide as D2; [done|]. case_decide as D3; [done|]. injection H as <- <- <-. done.
  - case_decide as D2; [done|]. cbv zeta in H. injection H as <- <- <-.
    split; [done|]. split; [apply dec_stable; tauto|]. split; [apply dec_stable; tauto|]. done.
Qed.

Lemma outcome_inv binding k key body c1 c2 now at_ d row' d' :
  outcome_of binding k key body c1 c2 now at_ d = Ok (row', d') ->
  exists task row frozen, action_owned d binding k = Ok task /\ get_action d key = Some row
    /\ a_task_id row = k /\ task_identity_of d task (a_action_id row) = Ok frozen /\ a_identity row = frozen
    /\ lease_live_for d binding task (ou_lease_id body) c1 c2
    /\ let status := outcome_action_status (ou_status body) in
       ((guard_row row (t_business_state task) (ou_parameter_hash body) (ou_lease_id body) status (ou_evidence body)
           = Ok OUTCOME_REPLAY /\ row' = row /\ d' = d)
        \/ (guard_row row (t_business_state task) (ou_parameter_hash body) (ou_lease_id body) status (ou_evidence body)
           = Ok OUTCOME_APPLY /\ row' = reported row status (ou_evidence body) now
           /\ d' = add_audit (audit_action row' (b_id binding) "outcome" at_) (put_action row' d))).
Proof.
  unfold outcome. intros [H _]%unit_of_work_Ok.
  destruct (action_owned _ _ _) as [task|] eqn:Eo; [|done].
  apply action_owned_Ok in Eo as Ho. destruct Ho as (device & current & _ & _ & _ & _ & _ & Hk & _).
  destruct (owned_action d task key) as [row|] eqn:Ew; [|done].
  unfold owned_action in Ew. destruct (get_action d key) as [row0|]; [|done]. case_decide as D0; [done|].
  injection Ew as ->.
  destruct (task_identity _ _ _ _ _) as [frozen|] eqn:Ei; [|done].
  destruct (action_lease _ _ _ _ _ _) as [[]|] eqn:El; [|done]. apply action_lease_Ok in El.
  case_decide as D1; [done|].
  exists task, row, frozen. do 2 (split; [done|]). split; [rewrite <- Hk; apply dec_stable; tauto|].
  split; [done|]. split; [done|]. split; [done|]. cbv zeta in H |- *.
  change (outcome_guard (a_status row) (ac_parameter_hash (a_identity row)) (a_lease_id row) (a_reported_evidence row)
        (a_resolution_revision row) (a_before_evidence row) (t_business_state task)
        (ou_parameter_hash body) (ou_lease_id body) (outcome_action_status (ou_status body)) (ou_evidence body))
    with (guard_row row (t_business_state task) (ou_parameter_hash body) (ou_lease_id body)
            (outcome_action_status (ou_status body)) (ou_evidence body)) in H.
  destruct (guard_row _ _ _ _ _ _) as [[]|]; [right|left|done]; injection H as <- <-; done.
Qed.

(** ** The ledger continues the history *)

Lemma intent_le binding k body c1 c2 now at_ d o d' :
  unique_indexes d -> intent_of binding k body c1 c2 now at_ d = Ok (o, d') -> db_le d d'.
Proof.
  destruct o as [[] row]; intros Hu (task & frozen & Ho & _ & Hl & _ & _ & Hr)%intent_inv; [|by destruct Hr as [-> _]].
  destruct Hr as (_ & Hst & Hb & -> & ->). destruct Hu as [Hnd _].
  apply action_owned_Ok in Ho as (_ & _ & _ & _ & _ & _ & Hg & Hk & _). rewrite <- Hk in Hg.
  split; try apply grows_refl, _; [| |cbn|reflexivity].
  - apply (put_task_le d _ task); [done|exact Hg| |done].
    live_task; [exact (ll_open _ _ _ _ _ _ Hl)|states_agree].
  - cbn. by (apply grows_snoc; [apply _|]; try done).
  - by (apply grows_snoc; [apply _|]; try done).
Qed.

Lemma reported_le row status ev now :
  status <> A_INTENT -> action_le row (reported row status ev now).
Proof.
  intros Hs. split; try reflexivity. intros Hr. unfold action_phase, phase_from; cbn.
  repeat case_decide; try done.
Qed.

Lemma outcome_le binding k key body c1 c2 now at_ d row' d' :
  unique_indexes d -> outcome_of binding k key body c1 c2 now at_ d = Ok (row', d') -> db_le d d'.
Proof.
  intros Hu (task & row & frozen & Ho & Hg & _ & _ & _ & _ & [(_ & _ & ->)|(_ & -> & ->)])%outcome_inv; [reflexivity|].
  destruct Hu as (_ & _ & _ & Hnd & _).
  split; try apply grows_refl, _; [|cbn; by by apply grows_app, anything_all; apply _|reflexivity].
  apply grows_Forall2. cbn. apply (tput_Forall2 a_action_key action_le row); [done| |].
  - pose proof (tget_Some _ _ _ _ Hg) as [_ E]. unfold get_action in Hg. rewrite <- Hg. f_equal. exact E.
  - apply reported_le. by destruct (ou_status body).
Qed.

End LedgerFacts.

(** ** Theorems *)

Lemma find_action_None d k action :
  find_action d k action = None <-> forall a, a ∈ actions d -> ~ (a_task_id a = k /\ a_action_id a = action).
Proof.
  unfold find_action. split; [apply scalar_filter_None|]. intros H. by rewrite filter_none.
Qed.

(** C6. Authorisation is given under full control only. When an intent is
    AUTHORIZED the companion is the active, unrevoked binding of its device;
    the task is its own, RUNNING in both views, under a lease that is live on
    the task and on the device, of the task's own AUTO workflow and of the
    current fleet session; the key and parameter hash it sent are those
    recomputed from the task; and no ledger row for that task and action
    existed. It leaves exactly one such row, an open intent under that lease,
    and the task RECONCILING. *)
Theorem intent_authorizes pk v binding k body c1 c2 now at_ d row d' :
  intent pk v binding k body c1 c2 now at_ d = Ok ((AUTHORIZED, row), d') ->
  exists task device current, get_task d k = Some task
    /\ devices d !! b_device_id binding = Some device /\ d_active_binding_id device = Some (b_id binding)
    /\ mobile_bindings d !! b_id binding = Some current /\ b_revoked_at current = None
    /\ t_tenant_id task = b_tenant_id current /\ t_device_id task = b_device_id current
    /\ t_status task = R_RUNNING /\ t_business_state task = B_RUNNING
    /\ lease_live_for d binding task (in_lease_id body) c1 c2
    /\ task_identity pk v d task (in_action_id body) = Ok (a_identity row)
    /\ a_action_key row = in_action_key body /\ ac_parameter_hash (a_identity row) = in_parameter_hash body
    /\ (forall a, a ∈ actions d -> ~ (a_task_id a = k /\ a_action_id a = in_action_id body))
    /\ actions d' = actions d ++ [row] /\ a_task_id row = k /\ a_action_id row = in_action_id body
    /\ action_phase row = PHASE_INTENT /\ a_lease_id row = in_lease_id body /\ a_platform_account_id row = t_account_id task
    /\ get_task d' k = Some (task <| t_business_state := B_RECONCILING |>).
Proof.
  intros (task & frozen & Ho & Hi & Hl & Hk & Hp & Hf & Hst & Hb & -> & ->)%intent_inv.
  apply action_owned_Ok in Ho as (device & current & H1 & H2 & H3 & H4 & Hg & Hid & Hte & Hdv).
  pose proof (task_identity_Ok _ _ _ _ _ _ Hi) as (E1 & E2 & E3 & E4).
  exists task, device, current. do 9 (split; [done|]). split; [done|]. split; [done|]. split; [done|].
  split; [done|]. split; [by apply find_action_None|]. split; [done|]. split; [by rewrite <- Hid|]. split; [done|].
  do 3 (split; [done|]). by refine (get_task_put (d <| actions := _ |>) _ _ task _ _).
Qed.

(** An action of a task is authorised at most once, ever. After an
    AUTHORIZED intent, in every database that continues that history,
    whatever ran in between, an accepted intent for the same task and action
    is answered RECONCILE_REQUIRED with the row of the first one, by any
    companion, under any lease and at any time. *)
Theorem intent_at_most_once pk v pk2 v2 binding k body c1 c2 now at_ d row d' d1
    binding2 body2 c3 c4 now2 at2 dec row2 d2 :
  intent pk v binding k body c1 c2 now at_ d = Ok ((AUTHORIZED, row), d') -> db_le d' d1 -> unique_indexes d1 ->
  in_action_id body2 = in_action_id body ->
  intent pk2 v2 binding2 k body2 c3 c4 now2 at2 d1 = Ok ((dec, row2), d2) ->
  dec = RECONCILE_REQUIRED /\ d2 = d1 /\ a_identity row2 = a_identity row /\ a_lease_id row2 = a_lease_id row.
Proof.
  intros (task & frozen & Ho & Hi & _ & _ & _ & _ & _ & _ & -> & ->)%intent_inv Hle Hu Haction H2.
  apply action_owned_Ok in Ho as (_ & _ & _ & _ & _ & _ & _ & Hid & _).
  pose proof (task_identity_Ok _ _ _ _ _ _ Hi) as (E1 & _ & _ & E4).
  assert (exists a, a ∈ actions d1 /\ a_identity a = frozen /\ a_lease_id a = in_lease_id body) as (a & Ha & Ea & El).
  { destruct (grows_In _ _ _ _ (new_action frozen task body now) (dle_actions _ _ Hle)) as (a & Ha & La); [cbn; set_solver|].
    exists a. split; [done|]. split; [exact (ale_identity _ _ La)|exact (ale_lease _ _ La)]. }
  apply intent_inv in H2 as (task2 & frozen2 & _ & _ & _ & _ & _ & Hr).
  assert (a_task_id a = k /\ a_action_id a = in_action_id body2) as [Hak Haa].
  { unfold a_task_id, a_action_id. rewrite Ea. split; congruence. }
  destruct dec; [destruct Hr as (Hf & _); by destruct (proj1 (find_action_None _ _ _) Hf a Ha)|].
  destruct Hr as (-> & Hf & _). do 2 (split; [done|]).
  unfold find_action in Hf. apply scalar_filter_Some in Hf as [[Hk2 Ha2] Hin].
  assert (row2 = a) as ->; [|done].
  destruct Hu as (_ & _ & _ & _ & Hnd & _). apply (NoDup_fmap_eq action_task_key (actions d1)); [done..|].
  unfold action_task_key. congruence.
Qed.

(** C28. An outcome is reported once. An accepted report belongs to a ledger
    row of the companion's own reconciling task, under the live lease and
    parameter hash of the row, and never touches the task or a lease. It
    either repeats what the row already says and writes nothing, or closes
    an open intent with the reported status (with evidence of its own when
    it claims APPLIED); from then on every accepted report for the row says
    the same and writes nothing. *)
Theorem outcome_reported_once pk v binding k key body c1 c2 now at_ d row' d' :
  outcome pk v binding k key body c1 c2 now at_ d = Ok (row', d') ->
  exists row task, get_action d key = Some row /\ a_task_id row = k /\ a_identity row' = a_identity row
    /\ get_task d k = Some task /\ t_business_state task = B_RECONCILING
    /\ lease_live_for d binding task (a_lease_id row) c1 c2
    /\ tasks d' = tasks d /\ leases d' = leases d /\ get_action d' key = Some row'
    /\ ((row' = row /\ d' = d /\ action_phase row = PHASE_REPORTED)
        \/ (action_phase row = PHASE_INTENT
            /\ (ou_status body = OUT_APPLIED -> ou_evidence body <> a_before_evidence row)))
    /\ action_phase row' = PHASE_REPORTED /\ a_status row' = outcome_action_status (ou_status body)
    /\ a_reported_evidence row' = Some (ou_evidence body)
    /\ forall pk2 v2 binding2 body2 c3 c4 now2 at2 row2 d2,
         outcome pk2 v2 binding2 k key body2 c3 c4 now2 at2 d' = Ok (row2, d2) ->
         row2 = row' /\ d2 = d' /\ ou_status body2 = ou_status body /\ ou_evidence body2 = ou_evidence body.
Proof.
  intros (task & row & frozen & Ho & Hg & Hk & Hi & Hid & Hl & Hc)%outcome_inv. exists row, task.
  apply action_owned_Ok in Ho as (_ & _ & _ & _ & _ & _ & Ht & _).
  assert (outcome_action_status (ou_status body) <> A_INTENT) as Hsi by (by destruct (ou_status body)).
  assert (pinned row (ou_parameter_hash body) (ou_lease_id body) (t_business_state task)
          /\ a_resolution_revision row = 0) as [(Hph & Hle & Hb) Hrev].
  { destruct Hc as [(H & _)|(H & _)]; [apply guard_row_replay in H|apply guard_row_apply in H]; tauto. }
  assert (a_identity row' = a_identity row /\ tasks d' = tasks d /\ leases d' = leases d /\ get_action d' key = Some row'
    /\ a_resolution_revision row' = 0 /\ a_status row' = outcome_action_status (ou_status body)
    /\ a_reported_evidence row' = Some (ou_evidence body)) as (R1 & R2 & R3 & R4 & R5 & R6 & R7).
  { destruct Hc as [(H & -> & ->)|(H & -> & ->)].
    - apply guard_row_replay in H as (_ & _ & _ & Hs & He). done.
    - do 3 (split; [done|]). split; [|done]. unfold get_action; cbn.
      pose proof (tget_Some _ _ _ _ Hg) as [_ E]. rewrite <- E.
      apply (tget_tput_same a_action_key (reported row _ _ now)). exact (tget_key_In _ _ _ _ Hg). }
  assert (action_phase row' = PHASE_REPORTED) as Hph'.
  { unfold action_phase, phase_from. rewrite R5, R6. by rewrite decide_False, decide_False by tauto. }
  split; [done|]. split; [done|]. split; [done|]. split; [done|]. split; [done|]. split; [by rewrite <- Hle|].
  do 3 (split; [done|]). split; [|split; [done|split; [done|split; [done|]]]].
  - destruct Hc as [(H & -> & ->)|(H & -> & ->)]; [by left|right].
    apply guard_row_apply in H as (_ & _ & Hs & He). split.
    + unfold action_phase, phase_from. rewrite Hrev, Hs. by rewrite decide_False by tauto.
    + intros Ha Heq. apply He. by rewrite Ha.
  - intros pk2 v2 binding2 body2 c3 c4 now2 at2 row2 d2 H2.
    apply outcome_inv in H2 as (task2 & row0 & frozen2 & _ & Hg2 & _ & _ & _ & _ & Hc2).
    assert (row0 = row') as -> by congruence.
    destruct Hc2 as [(H2 & -> & ->)|(H2 & _)].
    + apply guard_row_replay in H2 as (_ & _ & _ & Hs2 & He2). rewrite R6 in Hs2. rewrite R7 in He2.
      do 2 (split; [done|]). split; [by destruct (ou_status body), (ou_status body2)|congruence].
    + apply guard_row_apply in H2 as (_ & _ & Hs2 & _). congruence.
Qed.

(** ** Witnesses *)

(** A running delist task of the sample device, holding its lease. *)
Definition delist_task : MobileTaskRow :=
  (sample_task XIANYU_PACKAGE delist_v2_steps)
    <| t_command_type := Some "xianyu.delist.steps.v2" |> <| t_business_state := B_RUNNING |> <| t_status := R_RUNNING |>
    <| t_lease_id := Some "lease" |> <| t_lease_expires_at := Some 9000 |>.
Definition delist_db : db :=
  (sample_db delist_task) <| mobile_bindings := {["binding" := sample_binding]} |>.
Definition delist_frozen : action_identity_columns :=
  match steps_action_identity delist_task with Ok f => f | Err _ => sample_columns end.
Definition delist_intent : intent_request :=
  mkIntent (ac_action_id delist_frozen) (ac_action_key delist_frozen) (ac_parameter_hash delist_frozen) "lease" "before".
Definition no_recipe : list (string * json) -> string -> option parsed_recipe := fun _ _ => None.
Definition run_intent (d : db) := intent [] no_recipe sample_binding "task-1" delist_intent 100 100 100 100 d.
Definition intent_row : MobileActionCommitRow :=
  match run_intent delist_db with Ok ((_, r), _) => r | Err _ => sample_action end.
Definition intent_db : db := match run_intent delist_db with Ok (_, d) => d | Err _ => delist_db end.

Lemma run_intent_Ok : run_intent delist_db = Ok ((AUTHORIZED, intent_row), intent_db).
Proof. vm_compute. reflexivity. Qed.

Lemma intent_authorizes_witness :
  run_intent delist_db = Ok ((AUTHORIZED, intent_row), intent_db) /\ actions intent_db = actions delist_db ++ [intent_row].
Proof.
  split; [exact run_intent_Ok|].
  destruct (intent_authorizes [] no_recipe sample_binding "task-1" delist_intent 100 100 100 100 delist_db
              intent_row intent_db run_intent_Ok)
    as (task & device & current & _ & _ & _ & _ & _ & _ & _ & _ & _ & _ & _ & _ & _ & _ & H & _).
  exact H.
Defined.

Lemma intent_replayed : run_intent intent_db = Ok ((RECONCILE_REQUIRED, intent_row), intent_db).
Proof. vm_compute. reflexivity. Qed.

Lemma intent_db_unique : unique_indexes intent_db.
Proof. apply (bool_decide_unpack _). vm_compute. exact I. Qed.

Lemma intent_at_most_once_witness :
  run_intent intent_db = Ok ((RECONCILE_REQUIRED, intent_row), intent_db) /\ a_lease_id intent_row = a_lease_id intent_row.
Proof.
  split; [exact intent_replayed|].
  destruct (intent_at_most_once [] no_recipe [] no_recipe sample_binding "task-1" delist_intent 100 100 100 100 delist_db
              intent_row intent_db intent_db sample_binding delist_intent 100 100 100 100 RECONCILE_REQUIRED intent_row
              intent_db run_intent_Ok (db_le_refl _) intent_db_unique eq_refl intent_replayed) as (_ & _ & _ & H).
  exact H.
Defined.

Definition run_outcome (d : db) :=
  outcome [] no_recipe sample_binding "task-1" (ac_action_key delist_frozen)
    (mkOutcome "lease" (ac_parameter_hash delist_frozen) OUT_UNKNOWN "lost") 200 200 200 200 d.
Definition outcome_row : MobileActionCommitRow := match run_outcome intent_db with Ok (r, _) => r | Err _ => sample_action end.
Definition outcome_db : db := match run_outcome intent_db with Ok (_, d) => d | Err _ => intent_db end.

Lemma run_outcome_Ok : run_outcome intent_db = Ok (outcome_row, outcome_db).
Proof. vm_compute. reflexivity. Qed.

Lemma outcome_reported_once_witness :
  run_outcome intent_db = Ok (outcome_row, outcome_db) /\ action_phase outcome_row = PHASE_REPORTED.
Proof.
  split; [exact run_outcome_Ok|].
  destruct (outcome_reported_once [] no_recipe sample_binding "task-1" (ac_action_key delist_frozen)
    (mkOutcome "lease" (ac_parameter_hash delist_frozen) OUT_UNKNOWN "lost") 200 200 200 200 intent_db
    outcome_row outcome_db run_outcome_Ok)
    as (row & task & _ & _ & _ & _ & _ & _ & _ & _ & _ & _ & H & _).
  exact H.
Defined.
