(* ===== verification/TaskIntake.v ===== *)
(** * Task creation: [create_task] and [_insert_task] of mobile_service.py

    A task is created once per tenant and idempotency key. [new_id] and
    [new_attempt_id] are the uuids drawn, [now] the clock, [checked_at] the
    clock [resolve_order_account] reads. *)

From stdpp Require Import base gmap strings list.
From Stdlib Require Import ZArith QArith_base Lia.
From S2P Require Import Prelude PyStd Domain Rows PyJson ControlledActions FleetIdentity FrozenShapes TaskOps History ControlPlane Claim Companion.

Open Scope Z_scope.

Definition ALLOWED_PACKAGES : list string := [COMPANION_PACKAGE; XIANYU_PACKAGE; XHS_PACKAGE; DOUYIN_PACKAGE].

Record media_delivery := mkDelivery { md_delivery_id : string; md_asset_ids : list string }.

(** [MobileTaskCreate]. *)
Record task_create := mkCreate {
  tc_device_id : string; tc_target_package : string; tc_total_timeout_ms : Z; tc_steps : list step;
  tc_media_delivery : option media_delivery; tc_account_id : option string; tc_expected_binding_version : option Z;
}.

(** ** The request document *)

Definition json_scalar_value (v : scalar_value) : json :=
  match v with SStr s => JStr s | SInt n => JInt n | SBool b => JBool b end.
Definition json_step (s : step) : json := JObj ((fun kv => (kv.1, json_scalar_value kv.2)) <$> s).
Definition json_delivery (m : media_delivery) : json :=
  JObj [("deliveryId", JStr (md_delivery_id m)); ("assetIds", JArr (JStr <$> md_asset_ids m))].
Definition opt_field (k : string) (v : option json) : list (string * json) :=
  match v with Some x => [(k, x)] | None => [] end.

(** [body.model_dump(mode="json", by_alias=True, exclude_none=True)], with the
    order collection of the request when there is one. *)
Definition task_document (body : task_create) (order_collection : option (list (string * json))) : json :=
  JObj ([("deviceId", JStr (tc_device_id body)); ("targetPackage", JStr (tc_target_package body));
         ("totalTimeoutMs", JInt (tc_total_timeout_ms body)); ("steps", JArr (json_step <$> tc_steps body))]
        ++ opt_field "mediaDelivery" (json_delivery <$> tc_media_delivery body)
        ++ opt_field "accountId" (JStr <$> tc_account_id body)
        ++ opt_field "expectedBindingVersion" (JInt <$> tc_expected_binding_version body)
        ++ opt_field "orderCollection" (JObj <$> order_collection)).

Definition document_digest (body : task_create) (order_collection : option (list (string * json))) : string :=
  hexdigest (json_dumps no_float (task_document body order_collection)).

(** ** Accounts *)

(** [resolve_order_account] of order_delivery.py. *)
Definition resolve_order_account (d : db) (device_id : string) (device : DeviceRow) (checked_at : Z)
    : result error AccountDeviceBindingRow :=
  raise_if json_str (jget "orderDeliveryProtocol" (d_capabilities device)) <> Some ORDER_DELIVERY_PROTOCOL
    with ConflictError "ORDER_DELIVERY_CAPABILITY_REQUIRED" in
  let mobile := if truthy_str (d_active_binding_id device)
                then mobile_bindings d !! default "" (d_active_binding_id device) else None in
  need m := mobile orelse ConflictError "MOBILE_BINDING_CHANGED" in
  raise_if b_revoked_at m <> None \/ b_device_id m <> device_id \/ b_tenant_id m <> d_tenant_id device
    with ConflictError "MOBILE_BINDING_CHANGED" in
  match filter (fun r => ab_tenant_id r = d_tenant_id device /\ ab_device_id r = device_id
                         /\ ab_platform r = "xianyu" /\ ab_status r = "BOUND") (account_bindings d) with
  | [bound] =>
      need account := accounts d !! ab_account_id bound orelse ConflictError "ACCOUNT_BINDING_CHANGED" in
      raise_if pa_tenant_id account <> d_tenant_id device \/ pa_platform account <> "xianyu"
               \/ pa_status account <> "AUTHORIZED" \/ pa_revoked_at account <> None
               \/ (pa_expires_at account <> None /\ expired (pa_expires_at account) checked_at)
        with ConflictError "ACCOUNT_BINDING_CHANGED" in
      Ok bound
  | _ => Err (ConflictError "ORDER_ACCOUNT_BINDING_REQUIRED")
  end.

(** The account, binding version and order header frozen on the new task. *)
Definition frozen_account (d : db) (tenant_id : string) (body : task_create) (device : DeviceRow)
    (order_collection : option (list (string * json))) (checked_at : Z)
    : result error (option string * option Z * option Rows.order_collection) :=
  match order_collection with
  | Some meta =>
      let? bound := resolve_order_account d (tc_device_id body) device checked_at in
      Ok (Some (ab_account_id bound), Some (ab_binding_version bound),
          Some (mkOrderCollection (json_str (jget "deliveryProtocol" meta)) (d_active_binding_id device)))
  | None =>
      if truthy_str (tc_account_id body) then
        need bound := live_account_binding d tenant_id (default "" (tc_account_id body)) (tc_device_id body)
          orelse ConflictError "account is not bound to the selected device" in
        raise_if tc_expected_binding_version body <> None
                 /\ tc_expected_binding_version body <> Some (ab_binding_version bound)
          with ConflictError "binding version does not match expectedBindingVersion" in
        Ok (tc_account_id body, Some (ab_binding_version bound), None)
      else Ok (tc_account_id body, None, None)
  end.

Definition tenant_media (d : db) (tenant_id : string) (ids : list string) : list MediaAssetRow :=
  filter (fun m => ma_tenant_id m = tenant_id /\ ma_id m ∈ ids) (media_assets d).

(** ** Insertion *)

Definition find_key (d : db) (tenant_id key : string) : option MobileTaskRow :=
  scalar (filter (fun t => t_tenant_id t = tenant_id /\ t_idempotency_key t = key) (tasks d)).

Record insert_request := mkInsert {
  ir_tenant_id : string; ir_requested_by : string; ir_key : string; ir_body : task_create;
  ir_order_collection : option (list (string * json));
}.

Definition new_task (r : insert_request) (digest : string) (command_type : option string)
    (account : option string * option Z * option order_collection) (new_id new_attempt_id : string) (now : Z)
    : MobileTaskRow :=
  let body := ir_body r in
  {| t_id := new_id; t_tenant_id := ir_tenant_id r; t_device_id := tc_device_id body;
     t_idempotency_key := ir_key r; t_request_sha256 := digest; t_requested_by := ir_requested_by r;
     t_target_package := tc_target_package body; t_account_id := account.1.1; t_binding_version := account.1.2;
     t_device_id_at_execution := None; t_operation_id := None; t_command_type := command_type;
     t_command_payload := []; t_recipe_pin := None; t_business_state := B_QUEUED; t_control_mode := AUTO;
     t_stall_reason := None; t_attempt_id := Some new_attempt_id; t_resume_count := 0; t_pause_ack_at := None;
     t_reconciliation := [];
     t_header := mkHeader (tc_total_timeout_ms body) (from_option json_delivery JNull (tc_media_delivery body))
                   account.2 None None None None None None [];
     t_steps := tc_steps body; t_status := R_QUEUED; t_lease_id := None; t_lease_expires_at := None;
     t_attempt := 0; t_last_sequence := 0; t_current_step := None; t_result := []; t_error_code := None;
     t_detail := None; t_started_at := None; t_completed_at := None; t_created_at := now |}.

(** The answer when the key exists already. *)
Definition existing_task (existing : MobileTaskRow) (digest : string) : result error MobileTaskRow :=
  raise_if t_request_sha256 existing <> digest
    with ConflictError "Idempotency-Key was reused with different task content" in Ok existing.

(** The device lock serialises creations, so that the recheck under the lock
    reads the rows the first lookup read. *)
Definition insert_task_in_session (r : insert_request) (digest : string) (command_type : option string)
    (recheck_after_device_lock : bool) (new_id new_attempt_id : string) (now checked_at : Z) (d : db)
    : result error ((MobileTaskRow * bool) * db) :=
  let body := ir_body r in
  match find_key d (ir_tenant_id r) (ir_key r) with
  | Some existing => let? row := existing_task existing digest in Ok ((row, false), d)
  | None =>
      need device := devices d !! tc_device_id body orelse NotFoundError "device was not found" in
      raise_if d_tenant_id device <> ir_tenant_id r with NotFoundError "device was not found" in
      let again := if recheck_after_device_lock then find_key d (ir_tenant_id r) (ir_key r) else None in
      match again with
      | Some existing => let? row := existing_task existing digest in Ok ((row, false), d)
      | None =>
          let? account := frozen_account d (ir_tenant_id r) body device (ir_order_collection r) checked_at in
          let missing := match tc_media_delivery body with
                         | Some m => negb (Nat.eqb (length (tenant_media d (ir_tenant_id r) (md_asset_ids m)))
                                                   (length (md_asset_ids m)))
                         | None => false
                         end in
          raise_if missing = true with NotFoundError "one or more media assets were not found in tenant" in
          let row := new_task r digest command_type account new_id new_attempt_id now in
          Ok ((row, true), d <| tasks := tasks d ++ [row] |>)
      end
  end.

(** [_insert_task] in a transaction of its own. *)
Definition insert_task (r : insert_request) (new_id new_attempt_id : string) (now checked_at : Z) (d : db)
    : result error ((MobileTaskRow * bool) * db) :=
  raise_if tc_target_package (ir_body r) ∉ ALLOWED_PACKAGES
    with ValidationError "targetPackage must be an allowlisted application" in
  raise_if ir_key r = "" \/ str_len (ir_key r) > 128
    with ValidationError "Idempotency-Key is required and must be at most 128 characters" in
  let? command_type := frozen_command_type (tc_target_package (ir_body r)) (tc_steps (ir_body r)) in
  let digest := document_digest (ir_body r) (ir_order_collection r) in
  let recheck := match ir_order_collection r with Some _ => true | None => false end in
  match unit_of_work (insert_task_in_session r digest command_type recheck new_id new_attempt_id now checked_at) d with
  | Err (IntegrityError _) =>
      match ir_order_collection r, find_key d (ir_tenant_id r) (ir_key r) with
      | Some _, Some existing =>
          if decide (t_request_sha256 existing = digest) then Ok ((existing, false), d)
          else Err (ConflictError "task idempotency conflict")
      | _, _ => Err (ConflictError "task idempotency conflict")
      end
  | r => r
  end.

Definition create_task (actor : Actor) (key : string) (body : task_create) (new_id new_attempt_id : string)
    (now checked_at : Z) (d : db) : result error ((MobileTaskRow * bool) * db) :=
  let? _ := require_permissions (actor_roles actor) [DEVICE_MAINTAIN] in
  insert_task (mkInsert (actor_tenant_id actor) (actor_user_id actor) key body None) new_id new_attempt_id now checked_at d.

(** ** Lemmas *)

Lemma insert_task_inv r new_id att now c d row created d' :
  insert_task r new_id att now c d = Ok ((row, created), d') ->
  (created = false /\ d' = d /\ find_key d (ir_tenant_id r) (ir_key r) = Some row
     /\ t_request_sha256 row = document_digest (ir_body r) (ir_order_collection r))
  \/ (created = true /\ unique_indexes d' /\ find_key d (ir_tenant_id r) (ir_key r) = None
     /\ (tc_target_package (ir_body r) ∈ ALLOWED_PACKAGES) /\ ir_key r <> "" /\ str_len (ir_key r) <= 128
     /\ exists device account command_type,
          devices d !! tc_device_id (ir_body r) = Some device /\ d_tenant_id device = ir_tenant_id r
          /\ frozen_command_type (tc_target_package (ir_body r)) (tc_steps (ir_body r)) = Ok command_type
          /\ frozen_account d (ir_tenant_id r) (ir_body r) device (ir_order_collection r) c = Ok account
          /\ (forall m, tc_media_delivery (ir_body r) = Some m ->
                length (tenant_media d (ir_tenant_id r) (md_asset_ids m)) = length (md_asset_ids m))
          /\ row = new_task r (document_digest (ir_body r) (ir_order_collection r)) command_type account new_id att now
          /\ d' = d <| tasks := tasks d ++ [row] |>).
Proof.
  unfold insert_task. case_decide as D1; [done|]. case_decide as D2; [done|].
  destruct (frozen_command_type _ _) as [command_type|] eqn:Ec; [|done]. cbv zeta.
  set (digest := document_digest (ir_body r) (ir_order_collection r)).
  destruct (unit_of_work _ _) as [[[row0 created0] d0]|e] eqn:Eu.
  2:{ destruct e; try done. destruct (ir_order_collection r), (find_key d _ _) as [existing|] eqn:Ek; try done.
      case_decide as De; [|done]. intros [= <- <- <-]. by left. }
  intros [= -> -> ->]. apply unit_of_work_Ok in Eu as [H Hu]. unfold insert_task_in_session in H.
  destruct (find_key d _ _) as [existing|] eqn:Ek.
  { unfold existing_task in H. case_decide as De; [done|]. injection H as <- <- <-. by left. }
  destruct (devices d !! _) as [device|] eqn:Ed; [|done]. case_decide as Dt; [done|].
  replace (if (match ir_order_collection r with Some _ => true | None => false end : bool)
           then (None : option MobileTaskRow) else None) with (None : option MobileTaskRow) in H by (by destruct (ir_order_collection r)).
  destruct (frozen_account _ _ _ _ _ _) as [account|] eqn:Ea; [|done]. cbv zeta in H. case_decide as Dm; [done|].
  injection H as <- <- <-. right. split; [done|]. split; [done|]. split; [done|].
  split; [done|]. split; [tauto|]. split; [lia|].
  exists device, account, command_type. do 4 (split; [done|]). split; [|done].
  intros m Hm. rewrite Hm in Dm. apply not_true_is_false, negb_false_iff, Nat.eqb_eq in Dm. done.
Qed.

Lemma insert_task_le r new_id att now c d o d' :
  insert_task r new_id att now c d = Ok (o, d') -> db_le d d'.
Proof.
  destruct o as [row created]. intros [(_ & -> & _)|(_ & _ & _ & _ & _ & _ & x & y & z & _ & _ & _ & _ & _ & -> & ->)]%insert_task_inv;
    [reflexivity|].
  split; try apply grows_refl, _; [cbn; apply grows_snoc; [apply _|]|reflexivity].
  states_agree.
Qed.

Lemma find_key_Some d tenant key t :
  find_key d tenant key = Some t -> t ∈ tasks d /\ t_tenant_id t = tenant /\ t_idempotency_key t = key.
Proof. unfold find_key. intros [[H1 H2] H3]%scalar_filter_Some. done. Qed.

Lemma find_key_In d t :
  unique_indexes d -> t ∈ tasks d -> find_key d (t_tenant_id t) (t_idempotency_key t) = Some t.
Proof.
  intros (_ & _ & _ & _ & _ & Hk & _) Ht.
  destruct (find_key d (t_tenant_id t) (t_idempotency_key t)) as [x|] eqn:Ef.
  - apply find_key_Some in Ef as (Hx & H1 & H2). f_equal.
    apply (NoDup_fmap_eq task_key (tasks d)); [done..|]. unfold task_key. congruence.
  - exfalso. by apply (scalar_filter_None _ _ Ef t).
Qed.

Lemma insert_existing r new_id att now c d x :
  find_key d (ir_tenant_id r) (ir_key r) = Some x -> unique_indexes d ->
  (tc_target_package (ir_body r) ∈ ALLOWED_PACKAGES) -> ir_key r <> "" -> str_len (ir_key r) <= 128 ->
  is_ok (frozen_command_type (tc_target_package (ir_body r)) (tc_steps (ir_body r))) = true ->
  insert_task r new_id att now c d =
    if decide (t_request_sha256 x = document_digest (ir_body r) (ir_order_collection r))
    then Ok ((x, false), d)
    else Err (ConflictError "Idempotency-Key was reused with different task content").
Proof.
  intros Hf Hu Hp Hk Hl Hc. unfold insert_task. rewrite decide_False by tauto.
  rewrite decide_False by (intros [?|?]; [done|lia]).
  destruct (frozen_command_type _ _) as [ct|]; [|done]. cbv zeta.
  unfold unit_of_work, insert_task_in_session. rewrite Hf. unfold existing_task.
  destruct (decide (t_request_sha256 x = document_digest (ir_body r) (ir_order_collection r))) as [E|E].
  - rewrite decide_False by (intros Hn; by apply Hn). by rewrite decide_False by (intros Hn; by apply Hn).
  - by rewrite decide_True.
Qed.

(** C37. Creation is idempotent for good. Once a request created a task,
    sending the same request again, at any later point of the history and
    whatever happened to the task meanwhile, is answered with that task and
    writes nothing; a request that reuses its key with other content is
    refused. *)
Theorem insert_task_idempotent r new_id att now c d row d1 d2 :
  insert_task r new_id att now c d = Ok ((row, true), d1) -> db_le d1 d2 -> unique_indexes d2 ->
  (forall id2 att2 now2 c2, exists row2,
     insert_task r id2 att2 now2 c2 d2 = Ok ((row2, false), d2) /\ frozen_columns row2 = frozen_columns row)
  /\ (forall r2 id2 att2 now2 c2,
        ir_tenant_id r2 = ir_tenant_id r -> ir_key r2 = ir_key r ->
        document_digest (ir_body r2) (ir_order_collection r2) <> document_digest (ir_body r) (ir_order_collection r) ->
        is_ok (insert_task r2 id2 att2 now2 c2 d2) = false).
Proof.
  intros [(? & _)|(_ & _ & Hn & Hp & Hk & Hl & device & account & ct & _ & _ & Hct & _ & _ & Hrow & Hd1)]%insert_task_inv
    Hle Hu; [done|].
  destruct (grows_In _ _ _ _ row (dle_tasks _ _ Hle)) as (row2 & Hin & Htl).
  { rewrite Hd1. cbn. set_solver. }
  pose proof (le_frozen _ _ Htl) as F. pose proof F as F'. injection F' as _ Fte _ Fkey Fsha _ _ _ _ _ _ _ _ _ _.
  pose proof (find_key_In d2 row2 Hu Hin) as Hf. rewrite Fte, Fkey in Hf.
  assert (t_tenant_id row = ir_tenant_id r /\ t_idempotency_key row = ir_key r
          /\ t_request_sha256 row = document_digest (ir_body r) (ir_order_collection r)) as (E1 & E2 & E3) by (by rewrite Hrow).
  rewrite E1, E2 in Hf. split.
  - intros id2 att2 now2 c2. exists row2. split; [|done].
    rewrite (insert_existing r id2 att2 now2 c2 d2 row2) by (rewrite ?Hct; done).
    rewrite decide_True; [done|congruence].
  - intros r2 id2 att2 now2 c2 Ht2 Hk2 Hdg.
    destruct (insert_task r2 id2 att2 now2 c2 d2) as [[[x created] d3]|] eqn:E; [|done]. exfalso.
    apply insert_task_inv in E as [(_ & _ & Hf2 & Hs)|(_ & _ & Hf2 & _)]; rewrite Ht2, Hk2, Hf in Hf2; [|done].
    injection Hf2 as <-. apply Hdg. congruence.
Qed.

(** What creation admits. A created task is of an allowlisted package,
    for a device of the caller's tenant, classified by its steps, with every
    media asset owned by the tenant; a named account is BOUND to that device
    now, at the version the caller expected, and that version is frozen on
    the task, as is the sole authorised account of an order collection; the
    task is queued, unclaimed, never run, and it is the only row written. *)
Theorem insert_task_admits r new_id att now c d row d1 :
  insert_task r new_id att now c d = Ok ((row, true), d1) ->
  let body := ir_body r in
  (tc_target_package body ∈ ALLOWED_PACKAGES)
  /\ (exists device, devices d !! tc_device_id body = Some device /\ d_tenant_id device = ir_tenant_id r)
  /\ frozen_command_type (tc_target_package body) (tc_steps body) = Ok (t_command_type row)
  /\ (forall m, tc_media_delivery body = Some m ->
        length (tenant_media d (ir_tenant_id r) (md_asset_ids m)) = length (md_asset_ids m))
  /\ (truthy_str (t_account_id row) = true -> exists b, b ∈ account_bindings d
        /\ Some (ab_account_id b) = t_account_id row /\ ab_tenant_id b = ir_tenant_id r
        /\ ab_device_id b = tc_device_id body /\ ab_status b = "BOUND"
        /\ t_binding_version row = Some (ab_binding_version b)
        /\ (forall v, ir_order_collection r = None -> tc_expected_binding_version body = Some v ->
              v = ab_binding_version b))
  /\ t_status row = R_QUEUED /\ t_business_state row = B_QUEUED /\ t_attempt row = 0 /\ t_lease_id row = None
  /\ t_steps row = tc_steps body /\ t_last_sequence row = 0
  /\ d1 = d <| tasks := tasks d ++ [row] |> /\ get_task d (t_id row) = None.
Proof.
  intros [(? & _)|(_ & Hu & Hn & Hp & Hk & Hl & device & account & ct & Hd & Hdt & Hct & Ha & Hm & Hrow & Hd1)]%insert_task_inv;
    [done|]. cbn zeta.
  assert (get_task d (t_id row) = None) as Hnew.
  { apply tget_None. destruct Hu as [Hu _]. rewrite Hd1 in Hu. cbn [tasks set_with] in Hu.
    change (tasks (d <| tasks := tasks d ++ [row] |>)) with (tasks d ++ [row]) in Hu.
    rewrite fmap_app, NoDup_app in Hu. destruct Hu as (_ & Hu & _). intros Hin. apply (Hu (t_id row) Hin). by left. }
  split; [done|]. split; [by exists device|]. split; [by rewrite Hrow|]. split; [done|].
  split; [|do 6 (split; [by rewrite Hrow|]); by split].
  rewrite Hrow. cbn [t_account_id t_binding_version new_task]. intros Hacc. clear Hrow Hd1 Hnew.
  unfold frozen_account in Ha. destruct (ir_order_collection r) as [meta|].
  - destruct (resolve_order_account _ _ _ _) as [bound|] eqn:Er; [|done]. injection Ha as <-.
    unfold resolve_order_account in Er. case_decide; [done|]. cbv zeta in Er.
    destruct (if truthy_str (d_active_binding_id device) then _ else _) as [m|]; [|done]. case_decide; [done|].
    destruct (filter _ _) as [|b [|]] eqn:Ef; try done.
    assert (b ∈ account_bindings d /\ ab_tenant_id b = d_tenant_id device /\ ab_device_id b = tc_device_id (ir_body r)
            /\ ab_platform b = "xianyu" /\ ab_status b = "BOUND") as (B1 & B2 & B3 & B4 & B5).
    { assert (b ∈ [b]) as Hb by (by left). rewrite <- Ef in Hb. apply list_elem_of_filter in Hb. tauto. }
    destruct (accounts d !! ab_account_id b) as [account|]; [|done]. case_decide; [done|]. injection Er as ->.
    exists bound. repeat (split; [first [done|congruence]|]). done.
  - destruct (truthy_str (tc_account_id (ir_body r))) eqn:Et; [|injection Ha as <-; cbn in Hacc; congruence].
    destruct (live_account_binding _ _ _ _) as [b|] eqn:Eb; [|done]. case_decide as De; [done|]. injection Ha as <-.
    unfold live_account_binding in Eb. apply scalar_filter_Some in Eb as [(B1 & B2 & B3 & B4) Hin].
    exists b. split; [done|]. split; [rewrite B2; symmetry; by apply truthy_default|].
    do 4 (split; [done|]). intros v _ Hv. rewrite Hv in De.
    assert (Some v = Some (ab_binding_version b)) as [=] by (apply dec_stable; intros Hne; apply De; by split). done.
Qed.

(** ** Witnesses *)

Definition sample_request : insert_request :=
  mkInsert "tenant" "user" "key-9" (mkCreate "device" XIANYU_PACKAGE 60000 delist_v2_steps None None None) None.
Definition run_insert (r : insert_request) (d : db) := insert_task r "task-9" "attempt-9" 500 500 d.
Definition inserted_task : MobileTaskRow :=
  match run_insert sample_request queued_db with Ok (t, _, _) => t | Err _ => queued_task end.
Definition inserted_db : db := match run_insert sample_request queued_db with Ok (_, d) => d | Err _ => queued_db end.

Lemma run_insert_Ok : run_insert sample_request queued_db = Ok ((inserted_task, true), inserted_db).
Proof. vm_compute. reflexivity. Qed.

Lemma inserted_db_unique : unique_indexes inserted_db.
Proof. apply (bool_decide_unpack _). vm_compute. exact I. Qed.

Lemma insert_task_idempotent_witness :
  run_insert sample_request queued_db = Ok ((inserted_task, true), inserted_db)
  /\ exists row2, insert_task sample_request "task-10" "attempt-10" 900 900 inserted_db = Ok ((row2, false), inserted_db).
Proof.
  split; [exact run_insert_Ok|].
  destruct (insert_task_idempotent sample_request "task-9" "attempt-9" 500 500 queued_db inserted_task inserted_db
              inserted_db run_insert_Ok (db_le_refl _) inserted_db_unique) as [H _].
  destruct (H "task-10" "attempt-10" 900 900) as (row2 & H2 & _). exists row2. exact H2.
Defined.

Lemma insert_task_admits_witness :
  run_insert sample_request queued_db = Ok ((inserted_task, true), inserted_db)
  /\ get_task queued_db (t_id inserted_task) = None.
Proof.
  split; [exact run_insert_Ok|].
  destruct (insert_task_admits sample_request "task-9" "attempt-9" 500 500 queued_db inserted_task inserted_db run_insert_Ok)
    as (_ & _ & _ & _ & _ & _ & _ & _ & _ & _ & _ & _ & H).
  exact H.
Defined.

(** An account named by the request is frozen with its binding version. *)
Example account_is_frozen :
  let d := queued_db <| account_bindings := [mkAccountBinding "tenant" "account" "device" "BOUND" 7 "xianyu"] |> in
  let r := mkInsert "tenant" "user" "key-9"
             (mkCreate "device" XIANYU_PACKAGE 60000 delist_v2_steps None (Some "account") (Some 7)) None in
  match run_insert r d with Ok (t, true, _) => t_binding_version t = Some 7 | _ => False end.
Proof. vm_compute. reflexivity. Qed.
