(* ===== verification/Fencing.v ===== *)
(** * Where device leases come from

    Every handler of the mobile control plane leaves the accounts and their
    bindings alone, and a lease it leaves on a device is either the one that
    was there, perhaps renewed or canceled, or a new one whose token is above
    every fencing counter the device had before. *)

From stdpp Require Import base gmap strings list.
From Stdlib Require Import ZArith Lia.
From S2P Require Import Prelude PyStd Domain Rows ControlledActions FleetIdentity FrozenShapes TaskOps History ControlPlane Claim Companion ControlStream ActionLedger TaskIntake.

Open Scope Z_scope.

(** What a lease keeps for as long as it is there. *)
Definition lease_frozen (l : DeviceLeaseRow) :=
  (l_tenant_id l, l_lease_id l, l_owner_workflow_id l, l_fencing_token l, l_owner_type l).

(** The lease [l'] of [k] was granted after [d]. *)
Definition granted_since (d d' : db) (k : string) (l' : DeviceLeaseRow) : Prop :=
  (exists x', devices d' !! k = Some x' /\ l_fencing_token l' <= d_fencing_counter x')
  /\ forall x, devices d !! k = Some x -> d_fencing_counter x < l_fencing_token l'.

Definition leases_from (d d' : db) : Prop :=
  forall k l', leases d' !! k = Some l' ->
    (exists l, leases d !! k = Some l /\ lease_frozen l' = lease_frozen l) \/ granted_since d d' k l'.

(** No lease is ahead of the counter of its device. *)
Definition fences (d : db) : Prop :=
  forall k l, leases d !! k = Some l -> exists x, devices d !! k = Some x /\ l_fencing_token l <= d_fencing_counter x.

Lemma leases_from_trans d e f : devices_le (devices d) (devices e) -> devices_le (devices e) (devices f) ->
  leases_from d e -> leases_from e f -> leases_from d f.
Proof.
  intros De Df H1 H2 k l' Hl'. destruct (H2 k l' Hl') as [(l & Hl & E)|[Hx Hf]].
  - destruct (H1 k l Hl) as [(l0 & Hl0 & E0)|[(y & Hy & Hle) Hf]]; [left; exists l0; split; [done|congruence]|].
    right. unfold lease_frozen in E. injection E as _ _ _ E _. unfold granted_since. rewrite E. split; [|done].
    destruct (Df k y Hy) as (z & Hz & [_ Hyz _]). exists z. split; [done|lia].
  - right. split; [done|]. intros x Hxd. destruct (De k x Hxd) as (y & Hy & [_ Hxy _]). specialize (Hf y Hy). lia.
Qed.

Lemma leases_from_fences d d' : devices_le (devices d) (devices d') -> leases_from d d' -> fences d -> fences d'.
Proof.
  intros Hd Hl Hf k l' Hl'. destruct (Hl k l' Hl') as [(l & Hk & E)|[Hx _]]; [|done].
  destruct (Hf k l Hk) as (x & Hx & Hle). destruct (Hd k x Hx) as (y & Hy & [_ Hxy _]).
  unfold lease_frozen in E. injection E as _ _ _ E _. exists y. split; [done|lia].
Qed.

Lemma leases_from_same d d' : leases d' = leases d -> leases_from d d'.
Proof. intros E k l'. rewrite E. intros H. left. by exists l'. Qed.

(** One lease rewritten, or a new one under a raised counter. *)
Lemma leases_from_update d d' k l l' : leases d !! k = Some l -> leases d' = <[k := l']> (leases d) ->
  lease_frozen l' = lease_frozen l -> leases_from d d'.
Proof.
  intros Hl E Hf k1 l1. rewrite E. destruct (decide (k = k1)) as [<-|Hne].
  - rewrite lookup_insert_eq. intros [= <-]. left. by exists l.
  - rewrite lookup_insert_ne by done. intros H. left. by exists l1.
Qed.

Lemma leases_from_grant d d' k x n l' : devices d !! k = Some x -> d_fencing_counter x < n ->
  leases d' = <[k := l']> (leases d) -> l_fencing_token l' = n ->
  (exists x', devices d' !! k = Some x' /\ n <= d_fencing_counter x') -> leases_from d d'.
Proof.
  intros Hx Hn E Et Hx' k1 l1. rewrite E. destruct (decide (k = k1)) as [<-|Hne].
  - rewrite lookup_insert_eq. intros [= <-]. right. unfold granted_since. rewrite Et. split; [done|]. intros y Hy. congruence.
  - rewrite lookup_insert_ne by done. intros H. left. by exists l1.
Qed.

(** ** What a handler of the mobile control plane leaves of both *)

Record fence_le (d d' : db) : Prop := mkFenceLe {
  fl_accounts : accounts d' = accounts d;
  fl_bindings : account_bindings d' = account_bindings d;
  fl_leases : leases_from d d';
}.

Lemma fence_le_same d d' : accounts d' = accounts d -> account_bindings d' = account_bindings d -> leases d' = leases d -> fence_le d d'.
Proof. intros. split; [done|done|by apply leases_from_same]. Qed.

Lemma fence_le_refl d : fence_le d d.
Proof. by apply fence_le_same. Qed.

(** Writes that touch neither before or after. *)
Lemma fence_le_then d e f : fence_le d e -> accounts f = accounts e -> account_bindings f = account_bindings e ->
  leases f = leases e -> devices f = devices e -> fence_le d f.
Proof.
  intros [A B L] EA EB EL ED. split; [congruence|congruence|]. intros k l'. rewrite EL. intros H.
  destruct (L k l' H) as [?|[Hx Hf]]; [by left|]. right. split; [by rewrite ED|done].
Qed.

Lemma settle_fence k s d : accounts (settle_reply_delivery k s d) = accounts d
  /\ account_bindings (settle_reply_delivery k s d) = account_bindings d
  /\ leases (settle_reply_delivery k s d) = leases d /\ devices (settle_reply_delivery k s d) = devices d.
Proof. unfold settle_reply_delivery. by case_match. Qed.

Lemma fence_le_settle d e k s : fence_le d e -> fence_le d (settle_reply_delivery k s e).
Proof. intros H. destruct (settle_fence k s e) as (E1 & E2 & E3 & E4). by eapply fence_le_then. Qed.

Lemma release_occupation_fence row now d b d' : release_occupation row now d = (b, d') -> fence_le d d'.
Proof.
  unfold release_occupation. intros H. case_match; [|simplify_eq; apply fence_le_refl].
  case_decide; simplify_eq; [apply fence_le_refl|]. split; [done|done|]. by eapply leases_from_update.
Qed.

Lemma update_own_lease_fence k row f d : (forall l, lease_frozen (f l) = lease_frozen l) -> fence_le d (update_own_lease k row f d).
Proof.
  intros Hf. unfold update_own_lease. case_match; [|apply fence_le_refl]. case_decide; [|apply fence_le_refl].
  split; [done|done|]. eapply leases_from_update; [done|reflexivity|apply Hf].
Qed.

Ltac opened H :=
  unfold cancel, pause, ack_paused, resume, mark_unknown, reconcile, claim, release, heartbeat, event, finish,
    control_ack, device_heartbeat, authenticate, unbind, intent, outcome in H;
  try (destruct (require_permissions _ _); [|discriminate H]);
  try (case_decide; [discriminate H|]);
  apply unit_of_work_Ok in H as [H _].
(** Handlers that never touch leases, accounts or bindings. *)
Ltac leases_untouched H :=
  opened H; ok_inv H; unfold resolve_actions, see_device; repeat case_match; by apply fence_le_same.

Lemma cancel_fence actor k reason now at_ d r d' : cancel actor k reason now at_ d = Ok (r, d') -> fence_le d d'.
Proof.
  intros H. opened H. ok_inv H; try by apply fence_le_same. apply fence_le_settle.
  by eapply fence_le_then; [eapply release_occupation_fence|..].
Qed.

Lemma pause_fence actor k reason now at_ d r d' : pause actor k reason now at_ d = Ok (r, d') -> fence_le d d'.
Proof. intros H. leases_untouched H. Qed.

Lemma ack_paused_fence k lease now at_ d r d' : ack_paused k lease now at_ d = Ok (r, d') -> fence_le d d'.
Proof. intros H. leases_untouched H. Qed.

Lemma fence_le_grant d d' k x x' l' : devices d !! k = Some x -> devices d' !! k = Some x' ->
  leases d' = <[k := l']> (leases d) -> d_fencing_counter x < d_fencing_counter x' ->
  l_fencing_token l' = d_fencing_counter x' -> accounts d' = accounts d -> account_bindings d' = account_bindings d -> fence_le d d'.
Proof.
  intros Hx Hx' Hl Hlt Ht Ha Hb. split; [done|done|]. eapply (leases_from_grant _ _ k x); [done|exact Hlt|done|done|].
  exists x'. split; [done|lia].
Qed.

Lemma resume_fence actor k request lease now at_ d r d' : resume actor k request lease now at_ d = Ok (r, d') -> fence_le d d'.
Proof.
  intros H. opened H. ok_inv H.
  match goal with P : platform_device _ _ _ = Ok _ |- _ => unfold platform_device in P; ok_inv P end.
  eapply fence_le_grant; [eassumption|cbn; apply lookup_insert_eq|cbn; apply insert_delete_eq|cbn; lia|reflexivity|reflexivity|reflexivity].
Qed.

Lemma mark_unknown_fence actor k reason now at_ d r d' : mark_unknown actor k reason now at_ d = Ok (r, d') -> fence_le d d'.
Proof. intros H. leases_untouched H. Qed.

Lemma reconcile_fence actor k request now at_ d r d' : reconcile actor k request now at_ d = Ok (r, d') -> fence_le d d'.
Proof.
  intros H. opened H. ok_inv H; unfold resolve_actions; repeat case_match; try apply fence_le_settle; by apply fence_le_same.
Qed.

Lemma claim_fence builtin binding ls protocol remote k now at_ d r d' :
  unique_indexes d -> claim builtin binding ls protocol remote k now at_ d = Ok (r, d') -> fence_le d d'.
Proof.
  intros [Hnd _] H. apply unit_of_work_Ok in H as [H _].
  apply claim_cases in H as [[H|(e & He & _)]|(device & d2 & chosen & G & [F _ _] & H)]; [|done| |done].
  { injection H as -> ->. apply fence_le_refl. }
  assert (same_facts d d2) as F2.
  { pose proof (requeue_same_facts binding d). unfold same_facts in *. congruence. }
  injection F2 as E1 E2 E3 E4 E5 _ _ _ _ _ _.
  destruct chosen as [row|]; [|injection H as -> ->; by apply fence_le_same].
  destruct H as (_ & _ & H). destruct (dispatch _ _ _ _ _ _ _ _ _) as [[row1 d1]|] eqn:Ed; [|done]. injection H as -> ->.
  pose proof (dispatch_accounts _ _ _ _ _ _ _ _ _ _ _ Ed) as [A B]. apply dispatch_Ok in Ed as (_ & _ & Hde & Hl & _).
  eapply (fence_le_grant d _ (b_device_id binding) device); [by destruct G|by rewrite Hde, lookup_insert_eq|by rewrite Hl, E5|
    cbn; lia|reflexivity|congruence|congruence].
Qed.

Lemma release_fence binding k lease reason now d r d' : release binding k lease reason now d = Ok (r, d') -> fence_le d d'.
Proof. intros H. opened H. ok_inv H. split; [done|done|]. by eapply leases_from_update. Qed.

Lemma heartbeat_fence binding k lease i ls c now d r d' : heartbeat binding k lease i ls c now d = Ok (r, d') -> fence_le d d'.
Proof.
  intros H. opened H. ok_inv H.
  match goal with |- fence_le _ (put_task _ ?e) => eapply (fence_le_then _ e); [by apply update_own_lease_fence|done..] end.
Qed.

Lemma event_fence binding k lease report c now d r d' : event binding k lease report c now d = Ok (r, d') -> fence_le d d'.
Proof. intros H. leases_untouched H. Qed.

Lemma finish_fence binding k lease report c now d r d' : finish binding k lease report c now d = Ok (r, d') -> fence_le d d'.
Proof.
  intros H. opened H. ok_inv H; try apply fence_le_refl.
  match goal with |- fence_le _ (update_own_lease ?k ?row ?f ?e) => pose proof (update_own_lease_fence k row f e ltac:(done)) as [A B L] end.
  match type of L with leases_from (settle_reply_delivery ?k ?s ?e) _ => destruct (settle_fence k s e) as (S1 & S2 & S3 & S4) end.
  split; [by rewrite A, S1|by rewrite B, S2|]. intros k' l' Hl. destruct (L k' l' Hl) as [(l & Hl0 & Hfr)|[Hx Hf]].
  - left. exists l. by rewrite S3 in Hl0.
  - right. split; [done|]. by rewrite S4 in Hf.
Qed.

Lemma control_ack_fence binding body now at_ d r d' : control_ack binding body now at_ d = Ok (r, d') -> fence_le d d'.
Proof.
  intros H. opened H. ok_inv H; try by apply fence_le_same. apply fence_le_settle.
  by eapply fence_le_then; [eapply release_occupation_fence|..].
Qed.

Lemma device_heartbeat_fence binding body now d r d' : device_heartbeat binding body now d = Ok (r, d') -> fence_le d d'.
Proof. intros H. leases_untouched H. Qed.

Lemma authenticate_fence token now d r d' : authenticate token now d = Ok (r, d') -> fence_le d d'.
Proof. intros H. leases_untouched H. Qed.

Lemma unbind_fence binding now d d' : unbind binding now d = Ok (tt, d') -> fence_le d d'.
Proof. intros H. leases_untouched H. Qed.

Lemma intent_fence keys validate binding k body c1 c2 now at_ d r d' :
  intent keys validate binding k body c1 c2 now at_ d = Ok (r, d') -> fence_le d d'.
Proof. intros H. leases_untouched H. Qed.

Lemma outcome_fence keys validate binding k key body c1 c2 now at_ d r d' :
  outcome keys validate binding k key body c1 c2 now at_ d = Ok (r, d') -> fence_le d d'.
Proof. intros H. leases_untouched H. Qed.

Lemma insert_task_fence request id att now c d r d' : insert_task request id att now c d = Ok (r, d') -> fence_le d d'.
Proof.
  intros H. destruct r as [row created]. pose proof (insert_task_inv _ _ _ _ _ _ _ _ _ H) as Hi.
  destruct Hi as [(_ & -> & _)|Hi]; [apply fence_le_refl|].
  destruct Hi as (_ & _ & _ & _ & _ & _ & device & account & ct & _ & _ & _ & _ & _ & _ & ->). by apply fence_le_same.
Qed.
