(* ===== verification/ControlDb.v ===== *)
(** * The database of the control service: repository.py and the tables of
    db.py it works on

    [control_db] is the database of the mobile tasks ([core]) and the tables of
    publishing, schedules and the outbox. [ControlRepository] scopes every
    lookup to the tenant of the caller; [emit] and [audit] add the rows of one
    event. Identifiers are the canonical text of a UUID, drawn by the caller. *)

From stdpp Require Import base gmap strings list.
From Stdlib Require Import ZArith QArith_base Lia.
From S2P Require Import Prelude PyStd Domain Rows PyJson ControlledActions FleetIdentity FrozenShapes TaskOps.

Open Scope Z_scope.

(** ** Rows *)

(** A document with the columns of a revision that are read. *)
Record ContentRevisionRow := mkRevision {
  cv_id : string;
  cv_tenant_id : string;
  cv_payload : json;
  cv_payload_sha256 : string;
}.

Record ProductRow := mkProduct { pr_id : string; pr_tenant_id : string; pr_status : string }.

Inductive ApprovalPolicy : Type := AP_NONE | AP_BEFORE_START | AP_BEFORE_COMMIT.
#[export] Instance ApprovalPolicy_eq_dec : EqDecision ApprovalPolicy.
Proof. solve_decision. Defined.
Definition approval_policy_value (p : ApprovalPolicy) : string :=
  match p with AP_NONE => "NONE" | AP_BEFORE_START => "BEFORE_START" | AP_BEFORE_COMMIT => "BEFORE_COMMIT" end.

Record PublishPlanRow := mkPlan {
  pl_id : string;
  pl_tenant_id : string;
  pl_idempotency_key : string;
  pl_request_sha256 : string;
  pl_creator_id : string;
  pl_content_revision_id : string;
  pl_product_id : option string;
  pl_automation_package_version_id : string;
  pl_platform : string;
  pl_schedule : list (string * json);
  pl_execution : list (string * json);
  pl_approval_policy : ApprovalPolicy;
  pl_targets : list (list (string * json));
  pl_state : PublishState;
  pl_cancel_requested : bool;
  pl_workflow_id : option string;
  pl_version : Z;
}.
#[export] Instance PublishPlanRow_eta : Eta PublishPlanRow := fun p => mkPlan
  (pl_id p) (pl_tenant_id p) (pl_idempotency_key p) (pl_request_sha256 p) (pl_creator_id p)
  (pl_content_revision_id p) (pl_product_id p) (pl_automation_package_version_id p) (pl_platform p)
  (pl_schedule p) (pl_execution p) (pl_approval_policy p) (pl_targets p) (pl_state p)
  (pl_cancel_requested p) (pl_workflow_id p) (pl_version p).

Record PublishSnapshotRow := mkSnapshot {
  sn_id : string;
  sn_tenant_id : string;
  sn_plan_id : string;
  sn_content_revision_id : string;
  sn_automation_package_version_id : string;
  sn_payload : json;
  sn_payload_sha256 : string;
}.

Record PublishTargetRow := mkTarget {
  pt_id : string;
  pt_tenant_id : string;
  pt_plan_id : string;
  pt_snapshot_id : string;
  pt_account_id : string;
  pt_device_id : option string;
  pt_binding_version : option Z;
  pt_state : PublishState;
  pt_result_detail : option string;
  pt_cancel_requested : bool;
}.
#[export] Instance PublishTargetRow_eta : Eta PublishTargetRow := fun t => mkTarget
  (pt_id t) (pt_tenant_id t) (pt_plan_id t) (pt_snapshot_id t) (pt_account_id t) (pt_device_id t)
  (pt_binding_version t) (pt_state t) (pt_result_detail t) (pt_cancel_requested t).

Inductive ApprovalDecision : Type := APPROVED | REJECTED.
#[export] Instance ApprovalDecision_eq_dec : EqDecision ApprovalDecision.
Proof. solve_decision. Defined.

Record ApprovalRow := mkApproval {
  ap_id : string;
  ap_tenant_id : string;
  ap_plan_id : string;
  ap_creator_id : string;
  ap_approver_id : string;
  ap_decision : ApprovalDecision;
  ap_reason : option string;
}.

Record CommitIntentRow := mkCommitIntent {
  ci_id : string;
  ci_tenant_id : string;
  ci_target_id : string;
  ci_attempt_no : Z;
  ci_fencing_token : Z;
  ci_before_commit_evidence_id : string;
}.

Record TaskScheduleRow := mkSchedule {
  ts_id : string;
  ts_tenant_id : string;
  ts_account_id : string;
  ts_enabled : bool;
  ts_paused_reason : option string;
}.
#[export] Instance TaskScheduleRow_eta : Eta TaskScheduleRow := fun s => mkSchedule
  (ts_id s) (ts_tenant_id s) (ts_account_id s) (ts_enabled s) (ts_paused_reason s).

Record OutboxEventRow := mkOutboxEvent {
  oe_id : string;
  oe_tenant_id : string;
  oe_aggregate_type : string;
  oe_aggregate_id : string;
  oe_event_type : string;
  oe_payload : list (string * json);
  oe_occurred_at : Z;
  oe_published_at : option Z;
  oe_claimed_at : option Z;
  oe_claim_owner : option string;
  oe_attempts : Z;
  oe_last_error : option string;
}.
#[export] Instance OutboxEventRow_eta : Eta OutboxEventRow := fun e => mkOutboxEvent
  (oe_id e) (oe_tenant_id e) (oe_aggregate_type e) (oe_aggregate_id e) (oe_event_type e) (oe_payload e)
  (oe_occurred_at e) (oe_published_at e) (oe_claimed_at e) (oe_claim_owner e) (oe_attempts e) (oe_last_error e).

Record control_db := mkControlDb {
  core : db;
  revisions : list ContentRevisionRow;
  products : list ProductRow;
  plans : list PublishPlanRow;
  snapshots : list PublishSnapshotRow;
  targets : list PublishTargetRow;
  approvals : list ApprovalRow;
  intents : list CommitIntentRow;
  schedules : list TaskScheduleRow;
  outbox : list OutboxEventRow;
}.
#[export] Instance control_db_eta : Eta control_db := fun c => mkControlDb
  (core c) (revisions c) (products c) (plans c) (snapshots c) (targets c) (approvals c) (intents c)
  (schedules c) (outbox c).

Definition with_core (f : db -> db) (c : control_db) : control_db := c <| core := f (core c) |>.
Definition put_plan (p : PublishPlanRow) (c : control_db) : control_db := c <| plans := tput pl_id p (plans c) |>.
Definition put_target (t : PublishTargetRow) (c : control_db) : control_db := c <| targets := tput pt_id t (targets c) |>.

(** ** Unique indexes and transactions *)

(** The rows of the partial index [uq_account_device_binding_device_platform_bound]. *)
Definition ab_bound (b : AccountDeviceBindingRow) : Prop := ab_status b = "BOUND".
#[export] Instance ab_bound_dec b : Decision (ab_bound b).
Proof. unfold ab_bound. apply _. Defined.
Definition bound_slot (b : AccountDeviceBindingRow) : string * string := (ab_device_id b, ab_platform b).
Definition binding_key (b : AccountDeviceBindingRow) : string * string := (ab_account_id b, ab_device_id b).
Definition account_key (a : PlatformAccountRow) : string * string * string :=
  (pa_tenant_id a, pa_platform a, pa_external_subject_ref a).
Definition plan_key (p : PublishPlanRow) : string * string := (pl_tenant_id p, pl_idempotency_key p).
Definition intent_key (i : CommitIntentRow) : string * Z := (ci_target_id i, ci_attempt_no i).

Record control_indexes (c : control_db) : Prop := mkControlIndexes {
  ix_bound : NoDup (bound_slot <$> filter ab_bound (account_bindings (core c)));
  ix_bindings : NoDup (binding_key <$> account_bindings (core c));
  ix_accounts : NoDup (account_key <$> (map_to_list (accounts (core c))).*2);
  ix_plan_ids : NoDup (pl_id <$> plans c);
  ix_plan_keys : NoDup (plan_key <$> plans c);
  ix_snapshot_ids : NoDup (sn_id <$> snapshots c);
  ix_snapshot_plans : NoDup (sn_plan_id <$> snapshots c);
  ix_target_ids : NoDup (pt_id <$> targets c);
  ix_approval_ids : NoDup (ap_id <$> approvals c);
  ix_intent_ids : NoDup (ci_id <$> intents c);
  ix_intents : NoDup (intent_key <$> intents c);
  ix_outbox : NoDup (oe_id <$> outbox c);
}.
#[export] Instance control_indexes_dec c : Decision (control_indexes c).
Proof.
  refine (cast_if (decide (
    NoDup (bound_slot <$> filter ab_bound (account_bindings (core c)))
    /\ NoDup (binding_key <$> account_bindings (core c))
    /\ NoDup (account_key <$> (map_to_list (accounts (core c))).*2)
    /\ NoDup (pl_id <$> plans c) /\ NoDup (plan_key <$> plans c)
    /\ NoDup (sn_id <$> snapshots c) /\ NoDup (sn_plan_id <$> snapshots c)
    /\ NoDup (pt_id <$> targets c) /\ NoDup (ap_id <$> approvals c)
    /\ NoDup (ci_id <$> intents c) /\ NoDup (intent_key <$> intents c) /\ NoDup (oe_id <$> outbox c)))).
  all: abstract (first [split; tauto | intros []; tauto]).
Defined.

(** [async with database.unit_of_work()] over all the tables. *)
Definition control_unit_of_work {A} (body : control_db -> result error (A * control_db)) (c : control_db)
    : result error (A * control_db) :=
  match body c with
  | Ok (a, c') =>
      raise_if ~ (unique_indexes (core c') /\ control_indexes c')
        with IntegrityError "UNIQUE constraint failed" in Ok (a, c')
  | Err e => Err e
  end.

Lemma control_unit_of_work_Ok {A} (body : control_db -> result error (A * control_db)) c a c' :
  control_unit_of_work body c = Ok (a, c') -> body c = Ok (a, c') /\ unique_indexes (core c') /\ control_indexes c'.
Proof.
  unfold control_unit_of_work. destruct (body c) as [[a0 c0]|]; [|done].
  case_decide as D; [done|]. intros [= <- <-]. split; [done|]. by destruct (decide (unique_indexes (core c0) /\ control_indexes c0)).
Qed.

Lemma control_unit_of_work_intro {A} (body : control_db -> result error (A * control_db)) c a c' :
  body c = Ok (a, c') -> unique_indexes (core c') -> control_indexes c' -> control_unit_of_work body c = Ok (a, c').
Proof. intros H Hu Hi. unfold control_unit_of_work. rewrite H. by rewrite decide_False by tauto. Qed.

(** ** ControlRepository *)

(** [_one_for_tenant]: the row selected, if it is of the caller's tenant. *)
Definition one_for_tenant {R} (row : option R) (tenant_id : R -> string) (actor : Actor) (resource : string)
    : result error R :=
  need r := row orelse NotFoundError (resource +:+ " was not found") in
  raise_if tenant_id r <> actor_tenant_id actor with NotFoundError (resource +:+ " was not found") in
  Ok r.

Definition device (actor : Actor) (device_id : string) (c : control_db) : result error DeviceRow :=
  one_for_tenant (devices (core c) !! device_id) d_tenant_id actor "device".
Definition account (actor : Actor) (account_id : string) (c : control_db) : result error PlatformAccountRow :=
  one_for_tenant (accounts (core c) !! account_id) pa_tenant_id actor "platform account".
Definition content_revision (actor : Actor) (revision_id : string) (c : control_db) : result error ContentRevisionRow :=
  one_for_tenant (tget cv_id revision_id (revisions c)) cv_tenant_id actor "content revision".
Definition automation_version (actor : Actor) (version_id : string) (c : control_db) : result error AutomationVersionRow :=
  one_for_tenant (tget av_id version_id (package_versions (core c))) av_tenant_id actor "automation package version".
Definition plan (actor : Actor) (plan_id : string) (c : control_db) : result error PublishPlanRow :=
  one_for_tenant (tget pl_id plan_id (plans c)) pl_tenant_id actor "publish plan".
Definition target (actor : Actor) (target_id : string) (c : control_db) : result error PublishTargetRow :=
  one_for_tenant (tget pt_id target_id (targets c)) pt_tenant_id actor "publish target".

Definition plan_by_idempotency (actor : Actor) (key : string) (c : control_db) : option PublishPlanRow :=
  List.find (fun p => bool_decide (plan_key p = (actor_tenant_id actor, key))) (plans c).
Definition snapshot_for_plan (actor : Actor) (plan_id : string) (c : control_db) : option PublishSnapshotRow :=
  List.find (fun s => bool_decide (sn_plan_id s = plan_id /\ sn_tenant_id s = actor_tenant_id actor)) (snapshots c).
Definition targets_for_plan (actor : Actor) (plan_id : string) (c : control_db) : list PublishTargetRow :=
  filter (fun t => pt_plan_id t = plan_id /\ pt_tenant_id t = actor_tenant_id actor) (targets c).
Definition lease_for_device (actor : Actor) (device_id : string) (c : control_db) : option DeviceLeaseRow :=
  match leases (core c) !! device_id with
  | Some l => if decide (l_tenant_id l = actor_tenant_id actor) then Some l else None
  | None => None
  end.
Definition intent_for_target (actor : Actor) (target_id : string) (c : control_db) : option CommitIntentRow :=
  List.find (fun i => bool_decide (ci_target_id i = target_id /\ ci_tenant_id i = actor_tenant_id actor
                                   /\ ci_attempt_no i = 1)) (intents c).
Definition bound_binding (tenant_id account_id device_id : string) (c : control_db) : option AccountDeviceBindingRow :=
  List.find (fun b => bool_decide (ab_tenant_id b = tenant_id /\ ab_account_id b = account_id
                                   /\ ab_device_id b = device_id /\ ab_status b = "BOUND")) (account_bindings (core c)).

(** [emit] of [event(...)]: the id and the clock are the event's own. *)
Definition emit (actor : Actor) (event_id : string) (occurred_at : Z) (aggregate_type aggregate_id event_type : string)
    (payload : list (string * json)) (c : control_db) : control_db :=
  c <| outbox := outbox c ++ [mkOutboxEvent event_id (actor_tenant_id actor) aggregate_type aggregate_id event_type
                                payload occurred_at None None None 0 None] |>.

Definition actor_type (actor : Actor) : string :=
  if decide (SYSTEM_SERVICE ∈ actor_roles actor) then "service" else "user".
Definition audit (actor : Actor) (action resource_type resource_id : string) (device_id : option string)
    (metadata : list (string * json)) (at_ : Z) (c : control_db) : control_db :=
  with_core (add_audit {| au_tenant_id := actor_tenant_id actor; au_actor_type := actor_type actor;
    au_actor_id := actor_user_id actor; au_action := action; au_resource_type := resource_type;
    au_resource_id := resource_id; au_device_id := device_id; au_result := "SUCCEEDED"; au_metadata := metadata;
    au_occurred_at := at_ |}) c.

Lemma one_for_tenant_Ok {R} (row : option R) tenant actor resource r :
  one_for_tenant row tenant actor resource = Ok r -> row = Some r /\ tenant r = actor_tenant_id actor.
Proof. unfold one_for_tenant. destruct row; [|done]. case_decide as D; [done|]. intros [= <-]. split; [done|]. by destruct (decide (tenant r0 = actor_tenant_id actor)). Qed.

(** [canonical_hash] of events.py; [float_repr] is the repr of a float. *)
Definition canonical_hash (float_repr : Q -> string) (value : json) : string := hexdigest (json_dumps float_repr value).
