(* ===== verification/Accounts.v ===== *)
(** * Accounts, devices and their leases: the administration of services.py

    [ControlService]'s handlers that decide which account works on which
    device: authorisation, binding and unbinding, suspension, maintenance and
    the device lease of a workflow. [now] is the clock the guards read, the
    remaining clocks and identifiers are those of the rows written. *)

From stdpp Require Import base gmap strings list.
From Stdlib Require Import ZArith QArith_base Lia.
From S2P Require Import Prelude PyStd Domain Rows PyJson ControlledActions FleetIdentity FrozenShapes TaskOps History ControlPlane ControlDb.

Open Scope Z_scope.

(** The clocks and identifiers of the audit row and of the event of a request. *)
Record stamps := mkStamps { st_event_id : string; st_event_at : Z; st_audited_at : Z }.

(** ** Work that a binding change makes stale *)

Definition CLOSED_STATES : list PublishState := [DRAFT; AWAITING_APPROVAL; SCHEDULED; QUEUED].

(** A queued task of one of the accounts on the device. *)
Definition stale_task (tenant_id device_id : string) (account_ids : list string) (t : MobileTaskRow) : Prop :=
  t_tenant_id t = tenant_id /\ t_device_id t = device_id /\ t_status t = R_QUEUED
  /\ from_option (fun a => a ∈ account_ids) False (t_account_id t).
#[export] Instance stale_task_dec tenant device ids t : Decision (stale_task tenant device ids t).
Proof. unfold stale_task. destruct (t_account_id t); cbn; apply _. Defined.

Definition stale_row (reason : string) (now : Z) (t : MobileTaskRow) : MobileTaskRow :=
  t <| t_status := R_FAILED |> <| t_business_state := B_FAILED |> <| t_error_code := Some reason |>
    <| t_detail := Some "account binding changed before execution" |> <| t_completed_at := Some now |>
    <| t_lease_id := None |> <| t_lease_expires_at := None |>.
Definition fail_stale_task (reason : string) (now : Z) (d : db) (t : MobileTaskRow) : db :=
  settle_reply_delivery (t_id t) B_FAILED (put_task (stale_row reason now t) d).

(** A target that names one of the accounts, on this device or on none. The
    service only stores targets whose [deviceId] is a text or null. *)
Definition target_device_in (device_id : string) (target : list (string * json)) : Prop :=
  match jget "deviceId" target with
  | None | Some JNull => True
  | Some (JStr d) => d = device_id
  | Some _ => False
  end.
Definition names_account (account_ids : list string) (device_id : string) (target : list (string * json)) : Prop :=
  match jget "accountId" target with
  | Some (JStr a) => a ∈ account_ids /\ target_device_in device_id target
  | _ => False
  end.
#[export] Instance target_device_in_dec device target : Decision (target_device_in device target).
Proof. unfold target_device_in. repeat case_match; apply _. Defined.
#[export] Instance names_account_dec ids device target : Decision (names_account ids device target).
Proof. unfold names_account. repeat case_match; apply _. Defined.

Definition plan_open (p : PublishPlanRow) : Prop := pl_state p ∈ CLOSED_STATES.
Definition stale_plan (tenant_id device_id : string) (account_ids : list string) (p : PublishPlanRow) : Prop :=
  pl_tenant_id p = tenant_id /\ plan_open p /\ Exists (names_account account_ids device_id) (pl_targets p).
#[export] Instance stale_plan_dec tenant device ids p : Decision (stale_plan tenant device ids p).
Proof. unfold stale_plan, plan_open. apply _. Defined.

Definition block_plan (reason : string) (now : Z) (p : PublishPlanRow) : PublishPlanRow :=
  p <| pl_state := CANCELED |> <| pl_cancel_requested := true |> <| pl_version := pl_version p + 1 |>
    <| pl_execution := jset "pausedAt" (json_time now) (jset "pausedReason" (JStr reason) (pl_execution p)) |>.

(** [_block_stale_account_work]. *)
Definition block_stale_account_work (tenant_id device_id : string) (account_ids : list string) (reason : string)
    (now : Z) (c : control_db) : control_db :=
  if decide (account_ids = []) then c else
  let queued := filter (stale_task tenant_id device_id account_ids) (tasks (core c)) in
  let c := with_core (fun d => foldl (fail_stale_task reason now) d queued) c in
  c <| plans := (fun p => if decide (stale_plan tenant_id device_id account_ids p) then block_plan reason now p else p)
                  <$> plans c |>.

Definition unbind_row (b : AccountDeviceBindingRow) : AccountDeviceBindingRow := b <| ab_status := "UNBOUND" |>.
Definition unbind_where (P : AccountDeviceBindingRow -> Prop) `{!forall b, Decision (P b)} (c : control_db) : control_db :=
  with_core (fun d => d <| account_bindings := (fun b => if decide (P b) then unbind_row b else b) <$> account_bindings d |>) c.

(** ** Platform accounts *)

Record platform_account_create := mkAccountCreate {
  pc_platform : string; pc_external_subject_ref : string; pc_expires_at : option Z }.

Definition pc_expired (request : platform_account_create) (now : Z) : Prop := from_option (fun e => e <= now) False (pc_expires_at request).
#[export] Instance pc_expired_dec request now : Decision (pc_expired request now).
Proof. unfold pc_expired. destruct (pc_expires_at request); cbn; apply _. Defined.

Definition create_platform_account (actor : Actor) (request : platform_account_create) (new_id : string)
    (now : Z) (st : stamps) (c : control_db) : result error (PlatformAccountRow * control_db) :=
  let? _ := require_permissions (actor_roles actor) [DEVICE_MAINTAIN] in
  raise_if pc_expired request now
    with ValidationError "account authorization expiry must be in the future" in
  control_unit_of_work (fun c =>
    let key := (actor_tenant_id actor, pc_platform request, pc_external_subject_ref request) in
    raise_if key ∈ account_key <$> (map_to_list (accounts (core c))).*2
      with ConflictError "platform account authorization already exists" in
    raise_if is_Some (accounts (core c) !! new_id) with IntegrityError "UNIQUE constraint failed" in
    let row := mkAccount (actor_tenant_id actor) (pc_platform request) "AUTHORIZED" (pc_expires_at request) None
                 (pc_external_subject_ref request) 0 in
    let c := with_core (fun d => d <| accounts := <[new_id := row]> (accounts d) |>) c in
    let c := audit actor "account.authorization.created" "platform_account" new_id None [] (st_audited_at st) c in
    Ok (row, emit actor (st_event_id st) (st_event_at st) "platform_account" new_id "account.authorization.created"
               [("accountId", JStr new_id); ("platform", JStr (pa_platform row))] c)) c.

Definition account_usable (a : PlatformAccountRow) (now : Z) : Prop := from_option (fun e => now < e) True (pa_expires_at a).
#[export] Instance account_usable_dec a now : Decision (account_usable a now).
Proof. unfold account_usable. destruct (pa_expires_at a); cbn; apply _. Defined.

(** The bound accounts of the platform on the device, but for the account
    itself. *)
Definition displaced_by (actor : Actor) (account_id device_id platform : string) (c : control_db)
    (b : AccountDeviceBindingRow) : Prop :=
  ab_tenant_id b = actor_tenant_id actor /\ ab_device_id b = device_id /\ ab_status b = "BOUND"
  /\ pa_platform <$> accounts (core c) !! ab_account_id b = Some platform /\ ab_account_id b <> account_id.
#[export] Instance displaced_by_dec actor a dev p c b : Decision (displaced_by actor a dev p c b).
Proof. unfold displaced_by. apply _. Defined.

Definition pause_schedules (tenant_id : string) (account_ids : list string) (reason : string) (c : control_db) : control_db :=
  c <| schedules := (fun s => if decide (ts_tenant_id s = tenant_id /\ ts_account_id s ∈ account_ids /\ ts_enabled s = true)
                              then s <| ts_enabled := false |> <| ts_paused_reason := Some reason |> else s) <$> schedules c |>.

(** The binding of the account to the device, new or taken up again. *)
Definition own_binding (actor : Actor) (account_id device_id : string) (b : AccountDeviceBindingRow) : Prop :=
  ab_tenant_id b = actor_tenant_id actor /\ ab_account_id b = account_id /\ ab_device_id b = device_id.
#[export] Instance own_binding_dec actor a dev b : Decision (own_binding actor a dev b).
Proof. unfold own_binding. apply _. Defined.

Definition rebind_row (platform : string) (b : AccountDeviceBindingRow) : AccountDeviceBindingRow :=
  let next_version := ab_binding_version b + (if decide (ab_status b <> "BOUND") then 1 else 0) in
  b <| ab_status := "BOUND" |> <| ab_binding_version := if decide (next_version = 0) then 1 else next_version |>
    <| ab_platform := platform |>.

Definition write_binding (actor : Actor) (account_id device_id platform : string) (c : control_db)
    : AccountDeviceBindingRow * control_db :=
  match List.find (fun b => bool_decide (own_binding actor account_id device_id b)) (account_bindings (core c)) with
  | None =>
      let b := mkAccountBinding (actor_tenant_id actor) account_id device_id "BOUND" 1 platform in
      (b, with_core (fun d => d <| account_bindings := account_bindings d ++ [b] |>) c)
  | Some b =>
      (rebind_row platform b,
       with_core (fun d => d <| account_bindings := (fun x => if decide (own_binding actor account_id device_id x)
                                                            then rebind_row platform x else x) <$> account_bindings d |>) c)
  end.

Definition put_account (account_id : string) (a : PlatformAccountRow) (c : control_db) : control_db :=
  with_core (fun d => d <| accounts := <[account_id := a]> (accounts d) |>) c.

Definition bind_account_device (actor : Actor) (account_id device_id : string) (checked_at now : Z) (st : stamps)
    (c : control_db) : result error (AccountDeviceBindingRow * control_db) :=
  let? _ := require_permissions (actor_roles actor) [DEVICE_MAINTAIN] in
  control_unit_of_work (fun c =>
    let? a := account actor account_id c in
    let? dev := device actor device_id c in
    raise_if pa_status a <> "AUTHORIZED" with ConflictError "only an authorized account can be bound" in
    raise_if ~ account_usable a checked_at with ConflictError "account authorization has expired" in
    let displaced := filter (displaced_by actor account_id device_id (pa_platform a) c) (account_bindings (core c)) in
    let ids := ab_account_id <$> displaced in
    let c1 := unbind_where (displaced_by actor account_id device_id (pa_platform a) c) c in
    let c1 := block_stale_account_work (actor_tenant_id actor) device_id ids "ACCOUNT_CHANGED" now c1 in
    let c1 := pause_schedules (actor_tenant_id actor) ids "ACCOUNT_CHANGED" c1 in
    let '(binding, c1) := write_binding actor account_id device_id (pa_platform a) c1 in
    let c1 := put_account account_id (a <| pa_version := pa_version a + 1 |>) c1 in
    Ok (binding, audit actor "account.device.bound" "platform_account" account_id (Some device_id) [] (st_audited_at st) c1)) c.

Definition unbind_account_device (actor : Actor) (account_id device_id : string) (now : Z) (st : stamps) (c : control_db)
    : result error (() * control_db) :=
  let? _ := require_permissions (actor_roles actor) [DEVICE_MAINTAIN] in
  control_unit_of_work (fun c =>
    let? a := account actor account_id c in
    let? dev := device actor device_id c in
    need binding := List.find (fun b => bool_decide (own_binding actor account_id device_id b)) (account_bindings (core c))
      orelse ConflictError "account is not actively bound to this device" in
    raise_if ab_status binding <> "BOUND" with ConflictError "account is not actively bound to this device" in
    let c := unbind_where (own_binding actor account_id device_id) c in
    let c := put_account account_id (a <| pa_version := pa_version a + 1 |>) c in
    let c := block_stale_account_work (actor_tenant_id actor) device_id [account_id] "ACCOUNT_CHANGED" now c in
    Ok (tt, audit actor "account.device.unbound" "platform_account" account_id (Some device_id) [] (st_audited_at st) c)) c.

Inductive account_status : Type := AUTHORIZED_STATUS | SUSPENDED | REVOKED.
Definition account_status_value (s : account_status) : string :=
  match s with AUTHORIZED_STATUS => "AUTHORIZED" | SUSPENDED => "SUSPENDED" | REVOKED => "REVOKED" end.
Record account_status_update := mkStatusUpdate { us_status : account_status; us_expected_version : option Z }.

(** A bound binding of the account. *)
Definition account_bound (actor : Actor) (account_id : string) (b : AccountDeviceBindingRow) : Prop :=
  ab_account_id b = account_id /\ ab_tenant_id b = actor_tenant_id actor /\ ab_status b = "BOUND".
#[export] Instance account_bound_dec actor a b : Decision (account_bound actor a b).
Proof. unfold account_bound. apply _. Defined.

Definition expected (version : option Z) (actual : Z) : Prop := version = None \/ version = Some actual.
#[export] Instance expected_dec version actual : Decision (expected version actual).
Proof. unfold expected. apply _. Defined.

Definition update_account_status (actor : Actor) (account_id : string) (request : account_status_update)
    (revoked_at now : Z) (st : stamps) (c : control_db) : result error (PlatformAccountRow * control_db) :=
  let? _ := require_permissions (actor_roles actor) [DEVICE_MAINTAIN] in
  control_unit_of_work (fun c =>
    let? a := account actor account_id c in
    raise_if ~ expected (us_expected_version request) (pa_version a)
      with ConflictError "account version does not match expectedVersion" in
    let a := a <| pa_status := account_status_value (us_status request) |>
               <| pa_revoked_at := match us_status request with REVOKED => Some revoked_at | _ => None end |>
               <| pa_version := pa_version a + 1 |> in
    let c := put_account account_id a c in
    let c := match us_status request with
             | AUTHORIZED_STATUS => c
             | _ =>
                 let bound := filter (account_bound actor account_id) (account_bindings (core c)) in
                 foldl (fun c b =>
                   block_stale_account_work (actor_tenant_id actor) (ab_device_id b) [account_id] "ACCOUNT_CHANGED" now c)
                   (unbind_where (account_bound actor account_id) c) bound
             end in
    Ok (a, audit actor "account.authorization.status_changed" "platform_account" account_id None [] (st_audited_at st) c)) c.

(** ** Devices and their leases *)

Definition lease_live (l : DeviceLeaseRow) (now : Z) : Prop := l_canceled_at l = None /\ now < l_expires_at l.
#[export] Instance lease_live_dec l now : Decision (lease_live l now).
Proof. unfold lease_live. apply _. Defined.

Definition leased (l : option DeviceLeaseRow) (now : Z) : Prop := from_option (fun l => lease_live l now) False l.
#[export] Instance leased_dec l now : Decision (leased l now).
Proof. unfold leased. destruct l; cbn; apply _. Defined.

Record maintenance_request := mkMaintenance { mr_enabled : bool; mr_reason : string; mr_expected_version : option Z }.

Definition set_maintenance (actor : Actor) (device_id : string) (request : maintenance_request) (now : Z) (st : stamps)
    (c : control_db) : result error (DeviceRow * control_db) :=
  let? _ := require_permissions (actor_roles actor) [DEVICE_MAINTAIN] in
  control_unit_of_work (fun c =>
    let? dev := device actor device_id c in
    raise_if leased (lease_for_device actor device_id c) now
      with ConflictError "device maintenance cannot change while a lease is active" in
    raise_if ~ expected (mr_expected_version request) (d_version dev)
      with ConflictError "device version does not match If-Match expectation" in
    let dev := dev <| d_maintenance := mr_enabled request |> <| d_version := d_version dev + 1 |> in
    let c := with_core (put_device device_id dev) c in
    let c := audit actor "device.maintenance.changed" "device" device_id (Some device_id)
               [("reason", JStr (mr_reason request))] (st_audited_at st) c in
    Ok (dev, emit actor (st_event_id st) (st_event_at st) "device" device_id "device.maintenance.updated"
               [("deviceId", JStr device_id); ("enabled", JBool (d_maintenance dev))] c)) c.

Definition acquire_lease (actor : Actor) (device_id owner_workflow_id : string) (ttl_seconds : Z) (new_lease_id : string)
    (now : Z) (st : stamps) (c : control_db) : result error (DeviceLeaseRow * control_db) :=
  let? _ := require_permissions (actor_roles actor) [DEVICE_MAINTAIN] in
  control_unit_of_work (fun c =>
    let? dev := device actor device_id c in
    raise_if d_maintenance dev = true with ConflictError "device is in maintenance mode" in
    let existing := lease_for_device actor device_id c in
    let grant :=
      let dev := dev <| d_fencing_counter := d_fencing_counter dev + 1 |> in
      let lease := mkLease (actor_tenant_id actor) new_lease_id owner_workflow_id (d_fencing_counter dev)
                     (now + seconds ttl_seconds) None AUTO in
      let c := with_core (put_device device_id dev) c in
      let c := with_core (put_lease device_id lease) c in
      Ok (lease, audit actor "device.lease.acquired" "device_lease" new_lease_id (Some device_id) [] (st_audited_at st) c) in
    match existing with
    | Some l =>
        if decide (lease_live l now) then
          raise_if l_owner_workflow_id l <> owner_workflow_id with ConflictError "device is leased by another workflow" in
          Ok (l, c)
        else grant
    | None =>
        (* a row of another tenant would still hold the primary key *)
        raise_if is_Some (leases (core c) !! device_id) with IntegrityError "UNIQUE constraint failed" in grant
    end) c.

Definition release_lease (actor : Actor) (device_id lease_id : string) (now : Z) (st : stamps) (c : control_db)
    : result error (() * control_db) :=
  let? _ := require_permissions (actor_roles actor) [DEVICE_MAINTAIN] in
  control_unit_of_work (fun c =>
    let? dev := device actor device_id c in
    need lease := lease_for_device actor device_id c orelse ConflictError "lease does not match the active device lease" in
    raise_if l_lease_id lease <> lease_id with ConflictError "lease does not match the active device lease" in
    let c := with_core (put_lease device_id (lease <| l_canceled_at := Some now |>)) c in
    Ok (tt, audit actor "device.lease.released" "device_lease" lease_id (Some device_id) [] (st_audited_at st) c)) c.

(** ** What blocking stale work changes *)

(** The databases differ at most in tasks and messages. *)
Record beside_tasks (d d' : db) : Prop := mkBeside {
  bt_ids : t_id <$> tasks d' = t_id <$> tasks d;
  bt_actions : actions d' = actions d;
  bt_events : task_events d' = task_events d;
  bt_audits : audits d' = audits d;
  bt_devices : devices d' = devices d;
  bt_leases : leases d' = leases d;
  bt_accounts : accounts d' = accounts d;
  bt_bindings : account_bindings d' = account_bindings d;
}.
#[export] Instance beside_tasks_preorder : PreOrder beside_tasks.
Proof. split; [by intros d|]. intros d e f [] []. split; congruence. Qed.

Lemma fail_stale_task_beside reason now d t : beside_tasks d (fail_stale_task reason now d t).
Proof.
  unfold fail_stale_task, settle_reply_delivery, put_task. cbn [TASK_TERMINAL_DELIVERY]. split; try reflexivity. apply tput_keys.
Qed.

Lemma fail_stale_task_tasks reason now d t : tasks (fail_stale_task reason now d t) = tput t_id (stale_row reason now t) (tasks d).
Proof. reflexivity. Qed.

Section Block.
Context (tenant dev : string) (ids : list string) (reason : string) (now : Z).

Definition blocked_row (t : MobileTaskRow) : MobileTaskRow :=
  if decide (stale_task tenant dev ids t) then stale_row reason now t else t.
Definition blocked_plan (p : PublishPlanRow) : PublishPlanRow :=
  if decide (stale_plan tenant dev ids p) then block_plan reason now p else p.

Lemma fail_stale_tasks l : forall d, beside_tasks d (foldl (fail_stale_task reason now) d l)
  /\ tasks (foldl (fail_stale_task reason now) d l) = foldl (fun ts t => tput t_id (stale_row reason now t) ts) (tasks d) l.
Proof.
  induction l as [|t l IH]; intros d; cbn [foldl]; [by split|].
  destruct (IH (fail_stale_task reason now d t)) as [Hb Ht]. split; [|by rewrite Ht, fail_stale_task_tasks].
  etransitivity; [apply fail_stale_task_beside|exact Hb].
Qed.

Record blocked (c c' : control_db) : Prop := mkBlocked {
  bk_beside : beside_tasks (core c) (core c');
  bk_tasks : tasks (core c') = blocked_row <$> tasks (core c);
  bk_plans : plans c' = blocked_plan <$> plans c;
  bk_rest : c' = c <| core := core c' |> <| plans := plans c' |>;
}.

Lemma block_stale_account_work_spec c : NoDup (t_id <$> tasks (core c)) ->
  blocked c (block_stale_account_work tenant dev ids reason now c).
Proof.
  intros Hnd. unfold block_stale_account_work. case_decide as D.
  - assert (forall t, ~ stale_task tenant dev ids t) as Hs.
    { intros t (_ & _ & _ & H). destruct (t_account_id t); [|done]. cbn in H. rewrite D in H. by apply elem_of_nil in H. }
    assert (forall p, ~ stale_plan tenant dev ids p) as Hp.
    { intros p (_ & _ & (x & _ & H)%Exists_exists). unfold names_account in H. repeat case_match; try done.
      destruct H as [H _]. rewrite D in H. by apply elem_of_nil in H. }
    split; [reflexivity| | |by destruct c].
    + symmetry. rewrite <- (list_fmap_id (tasks (core c))) at 2. apply list_fmap_ext. intros i t _.
      unfold blocked_row. by rewrite decide_False.
    + symmetry. rewrite <- (list_fmap_id (plans c)) at 2. apply list_fmap_ext. intros i p _.
      unfold blocked_plan. by rewrite decide_False.
  - destruct (fail_stale_tasks (filter (stale_task tenant dev ids) (tasks (core c))) (core c)) as [Hb Ht].
    split; [exact Hb| |done|by destruct c]. cbn. rewrite Ht. by apply foldl_tput.
Qed.
End Block.
