(* ===== verification/ControlHistory.v ===== *)
(** * What the control service preserves

    [control_le c c'] extends [db_le] to the tables of publishing, accounts
    and the outbox: plans and targets keep what they were created with, a
    closed plan stays closed, approvals, snapshots and commit intents are only
    appended, binding versions never go back. *)

From stdpp Require Import base gmap strings list.
From Stdlib Require Import ZArith Lia.
From S2P Require Import Prelude PyStd Domain Rows PyJson ControlledActions FleetIdentity FrozenShapes TaskOps History ControlPlane ControlDb Accounts.

Open Scope Z_scope.

(** ** Rows *)

Definition plan_frozen (p : PublishPlanRow) :=
  (pl_id p, pl_tenant_id p, pl_idempotency_key p, pl_request_sha256 p, pl_creator_id p, pl_content_revision_id p,
   pl_product_id p, pl_automation_package_version_id p, pl_platform p, pl_schedule p, pl_approval_policy p, pl_targets p).

Definition plan_closed (p : PublishPlanRow) : Prop := pl_state p = CANCELED \/ pl_state p = FAILED.

Record plan_le (p p' : PublishPlanRow) : Prop := mkPlanLe {
  pll_frozen : plan_frozen p' = plan_frozen p;
  pll_version : pl_version p <= pl_version p';
  pll_cancel : pl_cancel_requested p = true -> pl_cancel_requested p' = true;
  pll_closed : plan_closed p -> pl_state p' = pl_state p;
}.
#[export] Instance plan_le_preorder : PreOrder plan_le.
Proof.
  split; [by intros p|]. intros p q r [F V C S] [F' V' C' S']. split; [congruence|lia|auto|].
  intros Hc. rewrite S', S; auto. unfold plan_closed in *. by rewrite (S Hc).
Qed.

Definition target_frozen (t : PublishTargetRow) :=
  (pt_id t, pt_tenant_id t, pt_plan_id t, pt_snapshot_id t, pt_account_id t, pt_device_id t, pt_binding_version t).
Record target_le (t t' : PublishTargetRow) : Prop := mkTargetLe {
  tl_frozen : target_frozen t' = target_frozen t;
  tl_cancel : pt_cancel_requested t = true -> pt_cancel_requested t' = true;
}.
#[export] Instance target_le_preorder : PreOrder target_le.
Proof. split; [by intros t|]. intros t u v [F C] [F' C']. split; [congruence|auto]. Qed.

Definition event_frozen (e : OutboxEventRow) :=
  (oe_id e, oe_tenant_id e, oe_aggregate_type e, oe_aggregate_id e, oe_event_type e, oe_payload e, oe_occurred_at e).
Record event_le (e e' : OutboxEventRow) : Prop := mkEventLe {
  evl_frozen : event_frozen e' = event_frozen e;
  evl_attempts : oe_attempts e <= oe_attempts e';
  evl_published : is_Some (oe_published_at e) -> e' = e;
}.
#[export] Instance event_le_preorder : PreOrder event_le.
Proof.
  split; [by intros e|]. intros e f g [F A P] [F' A' P']. split; [congruence|lia|].
  intros Hp. rewrite P'; [by apply P|]. by rewrite (P Hp).
Qed.

Definition binding_frozen (b : AccountDeviceBindingRow) := (ab_tenant_id b, ab_account_id b, ab_device_id b).
Record binding_le (b b' : AccountDeviceBindingRow) : Prop := mkBindingLe {
  bl_frozen : binding_frozen b' = binding_frozen b;
  bl_version : ab_binding_version b <= ab_binding_version b';
}.
#[export] Instance binding_le_preorder : PreOrder binding_le.
Proof. split; [by intros b|]. intros b1 b2 b3 [F V] [F' V']. split; [congruence|lia]. Qed.

Record account_le (a a' : PlatformAccountRow) : Prop := mkAccountLe {
  al_key : account_key a' = account_key a;
  al_version : pa_version a <= pa_version a';
}.
#[export] Instance account_le_preorder : PreOrder account_le.
Proof. split; [by intros a|]. intros a b c [F V] [F' V']. split; [congruence|lia]. Qed.

(** ** The database *)

Definition maps_le {V} (R : V -> V -> Prop) (m m' : gmap string V) : Prop :=
  forall k x, m !! k = Some x -> exists y, m' !! k = Some y /\ R x y.
#[export] Instance maps_le_preorder {V} (R : V -> V -> Prop) `{!PreOrder R} : PreOrder (maps_le R).
Proof.
  split; [intros m k x Hx; by exists x|]. intros m n o H1 H2 k x Hx.
  destruct (H1 k x Hx) as (y & Hy & R1). destruct (H2 k y Hy) as (z & Hz & R2). exists z. split; [done|by transitivity y].
Qed.
Lemma maps_le_insert {V} (R : V -> V -> Prop) `{!PreOrder R} m k y : (forall x, m !! k = Some x -> R x y) -> maps_le R m (<[k := y]> m).
Proof.
  intros H k' x Hx. destruct (decide (k = k')) as [->|Hne].
  - exists y. rewrite lookup_insert_eq. split; [done|by apply H].
  - exists x. by rewrite lookup_insert_ne.
Qed.

(** What the mobile handlers leave alone, or only extend. *)
Record accounts_le (d d' : db) : Prop := mkAccountsLe {
  acl_accounts : maps_le account_le (accounts d) (accounts d');
  acl_bindings : grows binding_le anything (account_bindings d) (account_bindings d');
}.
#[export] Instance accounts_le_preorder : PreOrder accounts_le.
Proof.
  split; [intros d; split; [reflexivity|apply grows_refl, _]|]. intros d e f [] [].
  split; [by etransitivity|]. eapply grows_trans; eauto; apply _.
Qed.

Record control_le (c c' : control_db) : Prop := mkControlLe {
  cl_core : db_le (core c) (core c');
  cl_accounts : accounts_le (core c) (core c');
  cl_plans : grows plan_le anything (plans c) (plans c');
  cl_snapshots : grows eq anything (snapshots c) (snapshots c');
  cl_targets : grows target_le anything (targets c) (targets c');
  cl_approvals : grows eq anything (approvals c) (approvals c');
  cl_intents : grows eq anything (intents c) (intents c');
  cl_outbox : grows event_le anything (outbox c) (outbox c');
}.
#[export] Instance control_le_preorder : PreOrder control_le.
Proof.
  split.
  - intros c. split; try reflexivity; apply grows_refl, _.
  - intros c1 c2 c3 [] []. split; first [by etransitivity | eapply grows_trans; eauto; apply _].
Qed.

Lemma grows_fmap {A} (R : A -> A -> Prop) N (f : A -> A) l : (forall x, x ∈ l -> R x (f x)) -> grows R N l (f <$> l).
Proof.
  intros H. apply grows_Forall2. apply Forall2_fmap_r. induction l as [|x l IH]; constructor; [apply H; by left|].
  apply IH. intros y Hy. apply H. by right.
Qed.

Lemma grows_tput {A} (R : A -> A -> Prop) `{!Reflexive R} N (key : A -> string) l r0 r :
  NoDup (key <$> l) -> tget key (key r) l = Some r0 -> R r0 r -> grows R N l (tput key r l).
Proof. intros Hn Hg Hr. apply grows_Forall2. by apply (tput_Forall2 key R r0). Qed.

(** ** Single writes *)

Lemma with_core_le f c : db_le (core c) (f (core c)) -> accounts_le (core c) (f (core c)) -> control_le c (with_core f c).
Proof. intros H1 H2. split; cbn; [done..|apply grows_refl, _|apply grows_refl, _|apply grows_refl, _|apply grows_refl, _|apply grows_refl, _|apply grows_refl, _]. Qed.

Lemma accounts_same d d' : accounts d' = accounts d -> account_bindings d' = account_bindings d -> accounts_le d d'.
Proof. intros Ha Hb. split; rewrite ?Ha, ?Hb; [reflexivity|apply grows_refl, _]. Qed.

Lemma audit_control_le actor action rt ri dev m at_ c : control_le c (audit actor action rt ri dev m at_ c).
Proof.
  apply with_core_le; [|by apply accounts_same]. split; cbn; first [apply grows_refl, _|reflexivity|idtac].
  apply grows_snoc; [apply _|done].
Qed.

Lemma emit_control_le actor i at_ ty id et p c : control_le c (emit actor i at_ ty id et p c).
Proof. split; cbn; first [reflexivity|apply grows_refl, _|idtac]. apply grows_snoc; [apply _|done]. Qed.

Lemma put_device_control_le k x y c : devices (core c) !! k = Some x -> device_le x y -> control_le c (with_core (put_device k y) c).
Proof. intros Hx Hle. apply with_core_le; [|by apply accounts_same]. apply tables_le; try done. by eapply devices_le_put. Qed.

Lemma put_lease_control_le k l c : control_le c (with_core (put_lease k l) c).
Proof. apply with_core_le; [|by apply accounts_same]. by apply tables_le. Qed.

Lemma put_account_control_le k a c : (forall x, accounts (core c) !! k = Some x -> account_le x a) -> control_le c (put_account k a c).
Proof.
  intros H. apply with_core_le; [by apply tables_le|]. split; [by apply maps_le_insert; [apply _|]|apply grows_refl, _].
Qed.

Lemma map_bindings_control_le (f : AccountDeviceBindingRow -> AccountDeviceBindingRow) c :
  (forall b, binding_le b (f b)) -> control_le c (with_core (fun d => d <| account_bindings := f <$> account_bindings d |>) c).
Proof.
  intros H. apply with_core_le; [by apply tables_le|]. split; [reflexivity|]. by apply grows_fmap.
Qed.

Lemma unbind_where_control_le P `{!forall b, Decision (P b)} c : control_le c (unbind_where P c).
Proof. apply map_bindings_control_le. intros b. by case_decide. Qed.

Lemma pause_schedules_control_le tenant ids reason c : control_le c (pause_schedules tenant ids reason c).
Proof. split; cbn; first [reflexivity|apply grows_refl, _]. Qed.

Lemma rebind_row_le platform b : binding_le b (rebind_row platform b).
Proof. split; [done|]. unfold rebind_row; cbn. repeat case_decide; lia. Qed.

Lemma write_binding_control_le actor a dev p c b c' : write_binding actor a dev p c = (b, c') -> control_le c c'.
Proof.
  unfold write_binding. intros H. case_match; simplify_eq.
  - apply map_bindings_control_le. intros x. case_decide; [apply rebind_row_le|done].
  - apply with_core_le; [by apply tables_le|]. split; [reflexivity|]. apply grows_snoc; [apply _|done].
Qed.

Lemma stale_row_le tenant dev ids reason now t : stale_task tenant dev ids t -> task_le t (stale_row reason now t).
Proof.
  intros (_ & _ & Hq & _).
  assert (~ runner_done t) as Hn by (unfold runner_done; rewrite Hq; naive_solver).
  split; cbn; try lia; try done; [intros _; states_agree|]. intros Hc Hs. destruct Hn. by apply Hc.
Qed.

Lemma block_plan_le reason now p : plan_open p -> plan_le p (block_plan reason now p).
Proof.
  intros Ho. split; cbn; [done|lia|done|]. unfold plan_open, CLOSED_STATES, plan_closed in *. rewrite !elem_of_cons, elem_of_nil in Ho.
  intros [E|E]; rewrite E in Ho; naive_solver.
Qed.

Lemma block_plan_closed reason now p : ~ plan_open (block_plan reason now p).
Proof. unfold plan_open, CLOSED_STATES; cbn. rewrite !elem_of_cons, elem_of_nil. naive_solver. Qed.

Lemma block_control_le tenant dev ids reason now c :
  NoDup (t_id <$> tasks (core c)) -> control_le c (block_stale_account_work tenant dev ids reason now c).
Proof.
  intros Hnd. destruct (block_stale_account_work_spec tenant dev ids reason now c Hnd) as [[B1 B2 B3 B4 B5 B6 B7 B8] Ht Hp Hr].
  rewrite Hr. split; cbn; first [apply grows_refl, _|idtac].
  - split; rewrite ?Ht, ?B2, ?B3, ?B4, ?B5; first [apply grows_refl, _|reflexivity|idtac].
    apply grows_fmap. intros t _. unfold blocked_row. case_decide; [by eapply stale_row_le|done].
  - by apply accounts_same.
  - rewrite Hp. apply grows_fmap. intros p _. unfold blocked_plan. case_decide as D; [|done].
    apply block_plan_le. by destruct D as (_ & ? & _).
Qed.

Lemma block_unique_ids tenant dev ids reason now c :
  t_id <$> tasks (core (block_stale_account_work tenant dev ids reason now c)) = t_id <$> tasks (core c).
Proof.
  unfold block_stale_account_work. case_decide; [done|]. cbn. by destruct (fail_stale_tasks reason now
    (filter (stale_task tenant dev ids) (tasks (core c))) (core c)) as [[] _].
Qed.

(** ** The handlers of Accounts *)

Ltac control_ok H :=
  let P := fresh "P" in
  match type of H with (match ?e with Ok _ => _ | Err _ => _ end) = _ => destruct e as [P|P]; [|discriminate H] end;
  try (case_decide; [discriminate H|]); apply control_unit_of_work_Ok in H as [H _].

Lemma lookups_le actor k c a : account actor k c = Ok a -> accounts (core c) !! k = Some a.
Proof. by intros [? _]%one_for_tenant_Ok. Qed.
Lemma device_row actor k c x : device actor k c = Ok x -> devices (core c) !! k = Some x.
Proof. by intros [? _]%one_for_tenant_Ok. Qed.

Lemma create_platform_account_le actor r i now st c a c' :
  create_platform_account actor r i now st c = Ok (a, c') -> control_le c c'.
Proof.
  unfold create_platform_account. intros H. control_ok H. ok_inv H.
  etransitivity; [|apply emit_control_le]. etransitivity; [|apply audit_control_le].
  apply put_account_control_le. intros x Hx. by match goal with D : ~ is_Some _ |- _ => destruct D end.
Qed.

Lemma block_accounts tenant dev ids reason now c :
  accounts (core (block_stale_account_work tenant dev ids reason now c)) = accounts (core c)
  /\ devices (core (block_stale_account_work tenant dev ids reason now c)) = devices (core c).
Proof.
  unfold block_stale_account_work. case_decide; [done|]. cbn.
  by destruct (fail_stale_tasks reason now (filter (stale_task tenant dev ids) (tasks (core c))) (core c)) as [[] _].
Qed.

Lemma write_binding_accounts actor a dev p c b c' : write_binding actor a dev p c = (b, c') -> accounts (core c') = accounts (core c).
Proof. unfold write_binding. intros H. case_match; simplify_eq; done. Qed.

Lemma write_binding_rest actor a dev p c b c' : write_binding actor a dev p c = (b, c') ->
  tasks (core c') = tasks (core c) /\ plans c' = plans c /\ schedules c' = schedules c.
Proof. unfold write_binding. intros H. case_match; simplify_eq; done. Qed.

Lemma bind_account_device_le actor k dev checked now st c b c' :
  unique_indexes (core c) -> bind_account_device actor k dev checked now st c = Ok (b, c') -> control_le c c'.
Proof.
  unfold bind_account_device. intros Hu H. control_ok H. ok_inv H.
  match goal with A : account _ _ _ = Ok _, W : write_binding _ _ _ _ _ = _ |- _ =>
    apply lookups_le in A; rename A into Ha; rename W into Hw end.
  etransitivity; [|apply audit_control_le]. etransitivity; [apply (unbind_where_control_le (displaced_by actor k dev (pa_platform value) c))|].
  etransitivity; [by apply block_control_le, Hu|]. etransitivity; [apply pause_schedules_control_le|].
  etransitivity; [by eapply write_binding_control_le|].
  apply put_account_control_le. intros x Hx. rewrite (write_binding_accounts _ _ _ _ _ _ _ Hw) in Hx. cbn in Hx.
  rewrite (proj1 (block_accounts _ _ _ _ _ _)) in Hx. cbn in Hx. rewrite Ha in Hx. injection Hx as <-. split; cbn; [done|lia].
Qed.

Lemma unbind_account_device_le actor k dev now st c r c' :
  unique_indexes (core c) -> unbind_account_device actor k dev now st c = Ok (r, c') -> control_le c c'.
Proof.
  unfold unbind_account_device. intros Hu H. control_ok H. ok_inv H.
  match goal with A : account _ _ _ = Ok _ |- _ => apply lookups_le in A; rename A into Ha end.
  etransitivity; [|apply audit_control_le]. etransitivity; [apply (unbind_where_control_le (own_binding actor k dev))|].
  etransitivity; [apply put_account_control_le|by apply block_control_le, Hu].
  cbn. intros x Hx. rewrite Ha in Hx. injection Hx as <-. split; cbn; [done|lia].
Qed.

(** The bindings of a suspended account are worked off one by one. *)
Lemma block_each_le actor k now l : forall c, NoDup (t_id <$> tasks (core c)) ->
  control_le c (foldl (fun c b => block_stale_account_work (actor_tenant_id actor) (ab_device_id b) [k] "ACCOUNT_CHANGED" now c) c l).
Proof.
  induction l as [|b l IH]; intros c Hu; [done|]. cbn [foldl].
  etransitivity; [by apply block_control_le|]. apply IH. by rewrite block_unique_ids.
Qed.

Lemma update_account_status_le actor k r rev now st c a c' :
  unique_indexes (core c) -> update_account_status actor k r rev now st c = Ok (a, c') -> control_le c c'.
Proof.
  unfold update_account_status. intros Hu H. control_ok H. ok_inv H.
  match goal with A : account _ _ _ = Ok _ |- _ => apply lookups_le in A; rename A into Ha end.
  etransitivity; [|apply audit_control_le]. etransitivity.
  - apply (put_account_control_le k (value <| pa_status := account_status_value (us_status r) |>
      <| pa_revoked_at := match us_status r with REVOKED => Some rev | _ => None end |> <| pa_version := pa_version value + 1 |>)).
    intros x Hx. rewrite Ha in Hx. injection Hx as <-. split; cbn; [done|lia].
  - destruct (us_status r); [done|..]; (etransitivity; [apply (unbind_where_control_le (account_bound actor k))|]);
      apply block_each_le, Hu.
Qed.

Lemma set_maintenance_le actor dev r now st c x c' : set_maintenance actor dev r now st c = Ok (x, c') -> control_le c c'.
Proof.
  unfold set_maintenance. intros H. control_ok H. ok_inv H.
  match goal with A : device _ _ _ = Ok _ |- _ => apply device_row in A; rename A into Hd end.
  etransitivity; [|apply emit_control_le]. etransitivity; [|apply audit_control_le].
  eapply put_device_control_le; [done|]. split; cbn; [done|lia|lia].
Qed.

Lemma acquire_lease_le actor dev owner ttl i now st c l c' :
  acquire_lease actor dev owner ttl i now st c = Ok (l, c') -> control_le c c'.
Proof.
  unfold acquire_lease. intros H. control_ok H. ok_inv H; try reflexivity.
  all: match goal with A : device _ _ _ = Ok _ |- _ => apply device_row in A; rename A into Hd end.
  all: etransitivity; [|apply audit_control_le]; etransitivity; [|apply put_lease_control_le].
  all: eapply put_device_control_le; [done|]; split; cbn; [done|lia|lia].
Qed.

Lemma release_lease_le actor dev i now st c r c' : release_lease actor dev i now st c = Ok (r, c') -> control_le c c'.
Proof.
  unfold release_lease. intros H. control_ok H. ok_inv H.
  etransitivity; [|apply audit_control_le]. apply put_lease_control_le.
Qed.

(** ** Binding and unbinding *)

(** The account is shut out of the device: none of its tasks waits there and
    no open plan of the tenant would use it there. *)
Record shut_out (tenant dev a : string) (c : control_db) : Prop := mkShutOut {
  so_tasks : forall t, t ∈ tasks (core c) -> t_tenant_id t = tenant -> t_device_id t = dev -> t_account_id t = Some a ->
    t_status t <> R_QUEUED;
  so_plans : forall p, p ∈ plans c -> pl_tenant_id p = tenant -> plan_open p -> ~ Exists (names_account [a] dev) (pl_targets p);
}.

Lemma names_account_mono ids ids' dev x : ids ⊆ ids' -> names_account ids dev x -> names_account ids' dev x.
Proof. intros Hs. unfold names_account. repeat case_match; try done. intros [H1 H2]. split; [by apply Hs|done]. Qed.

Lemma block_shuts_out tenant dev ids reason now c a : NoDup (t_id <$> tasks (core c)) -> a ∈ ids ->
  shut_out tenant dev a (block_stale_account_work tenant dev ids reason now c).
Proof.
  intros Hnd Ha. destruct (block_stale_account_work_spec tenant dev ids reason now c Hnd) as [_ Ht Hp _]. split.
  - intros t Hin. rewrite Ht in Hin. apply list_elem_of_fmap in Hin as (t0 & -> & _). unfold blocked_row.
    case_decide as D; [done|]. intros E1 E2 E3 E4. apply D. unfold stale_task. by rewrite E3.
  - intros p Hin. rewrite Hp in Hin. apply list_elem_of_fmap in Hin as (p0 & -> & _). unfold blocked_plan.
    case_decide as D; [intros _ Ho; by apply block_plan_closed in Ho|].
    intros E1 Ho He. apply D. split; [done|]. split; [done|].
    eapply Exists_impl; [exact He|]. intros x. apply names_account_mono. set_solver.
Qed.

Lemma shut_out_same tenant dev a c c' : tasks (core c') = tasks (core c) -> plans c' = plans c ->
  shut_out tenant dev a c -> shut_out tenant dev a c'.
Proof. intros Ht Hp [H1 H2]. split; rewrite ?Ht, ?Hp; done. Qed.

Section Bind.
Context (actor : Actor) (k dev platform : string) (c : control_db).
Let displaced := displaced_by actor k dev platform c.
Let released (b : AccountDeviceBindingRow) := if decide (displaced b) then unbind_row b else b.

(** What [bind_account_device] makes of the binding table. *)
Lemma write_binding_rows c1 b c2 : account_bindings (core c1) = released <$> account_bindings (core c) ->
  control_indexes c -> write_binding actor k dev platform c1 = (b, c2) ->
  b ∈ account_bindings (core c2) /\ ab_status b = "BOUND" /\ binding_key b = (k, dev) /\ ab_tenant_id b = actor_tenant_id actor
  /\ ab_platform b = platform
  /\ (forall x, x ∈ account_bindings (core c2) -> own_binding actor k dev x \/ exists y, y ∈ account_bindings (core c) /\ x = released y)
  /\ ab_binding_version b = match List.find (fun x => bool_decide (own_binding actor k dev x)) (account_bindings (core c)) with
                            | Some o => ab_binding_version (rebind_row platform o)
                            | None => 1
                            end.
Proof.
  intros Hc1 [] Hw. unfold write_binding in Hw.
  assert (forall x, own_binding actor k dev (released x) <-> own_binding actor k dev x) as Hown.
  { intros x. unfold released, own_binding. by case_decide. }
  assert (forall x, own_binding actor k dev x -> released x = x) as Hsame.
  { intros x (_ & Ha & _). unfold released. rewrite decide_False; [done|]. intros (_ & _ & _ & _ & Hn). done. }
  assert (forall l, List.find (fun x => bool_decide (own_binding actor k dev x)) (released <$> l)
                    = List.find (fun x => bool_decide (own_binding actor k dev x)) l) as Hfind.
  { induction l as [|x l IH]; [done|]. cbn. rewrite (bool_decide_ext _ _ (Hown x)).
    case_bool_decide as D; [by rewrite Hsame|done]. }
  rewrite Hc1, Hfind in Hw.
  destruct (List.find _ (account_bindings (core c))) as [o|] eqn:Ef; simplify_eq.
  - apply find_Some_In in Ef as [Hin Ho]. apply bool_decide_eq_true in Ho. pose proof Ho as (T & A & D).
    split; [|split; [done|split; [unfold binding_key; cbn; congruence|split; [done|split; [done|split; [|done]]]]]].
    + cbn. rewrite Hc1. apply list_elem_of_fmap. exists o. rewrite decide_True by done. split; [done|].
      rewrite <- (Hsame o Ho). by apply list_elem_of_fmap_2.
    + cbn. rewrite Hc1. intros x (y & -> & Hy)%list_elem_of_fmap. case_decide as E.
      * left. by destruct E as (? & ? & ?).
      * right. apply list_elem_of_fmap in Hy as (z & -> & Hz). by exists z.
  - split; [cbn; apply elem_of_app; right; by left|].
    do 4 (split; [done|]). split; [|done]. cbn. rewrite Hc1. intros x [Hx|Hx]%elem_of_app.
    + right. apply list_elem_of_fmap in Hx as (z & -> & Hz). by exists z.
    + left. apply list_elem_of_singleton in Hx as ->. done.
Qed.
End Bind.


(** C18. Unbinding shuts the account out of the device: no task of it is left
    queued there and no open plan names the pair any more, no binding of the
    pair is live, and the binding check of a claim refuses every task of the
    account on the device. What has left the queue or its plan by then is not
    touched: a claimed task goes on, a submitted publish target still runs
    ([unbound_target_commits]). *)
Theorem unbind_stops_the_account actor k dev now st c r c'
    (Hu : unique_indexes (core c)) (H : unbind_account_device actor k dev now st c = Ok (r, c')) :
  shut_out (actor_tenant_id actor) dev k c'
  /\ live_account_binding (core c') (actor_tenant_id actor) k dev = None
  /\ (forall t, t_tenant_id t = actor_tenant_id actor -> t_account_id t = Some k -> k <> "" -> t_device_id t = dev ->
        is_Some (account_binding_mismatch (core c') t))
  /\ control_le c c'.
Proof.
  pose proof (unbind_account_device_le _ _ _ _ _ _ _ _ Hu H) as Hle.
  unfold unbind_account_device in H. control_ok H. ok_inv H.
  assert (live_account_binding (core (audit actor "account.device.unbound" "platform_account" k (Some dev) [] (st_audited_at st)
    (block_stale_account_work (actor_tenant_id actor) dev [k] "ACCOUNT_CHANGED" now
      (put_account k (value <| pa_version := pa_version value + 1 |>) (unbind_where (own_binding actor k dev) c)))))
    (actor_tenant_id actor) k dev = None) as Hnone.
  { unfold live_account_binding. cbn.
    destruct (block_stale_account_work_spec (actor_tenant_id actor) dev [k] "ACCOUNT_CHANGED" now
      (put_account k (value <| pa_version := pa_version value + 1 |>) (unbind_where (own_binding actor k dev) c))
      (proj1 Hu)) as [[_ _ _ _ _ _ _ B8] _ _ _].
    rewrite B8, filter_none; [done|].
    intros x (y & -> & _)%(list_elem_of_fmap (fun b => if decide (own_binding actor k dev b) then unbind_row b else b)).
    destruct (decide (own_binding actor k dev y)) as [D9|D9]; [by intros (_ & _ & _ & ?)|]. intros (T & A & D1 & _). by destruct D9. }
  split; [apply (shut_out_same _ _ _ (block_stale_account_work (actor_tenant_id actor) dev [k] "ACCOUNT_CHANGED" now
      (put_account k (value <| pa_version := pa_version value + 1 |>) (unbind_where (own_binding actor k dev) c))));
    [done|done|apply block_shuts_out; [apply Hu|by left]]|].
  split; [exact Hnone|]. split; [|exact Hle].
  intros t Ht Ha Hk Hd. revert Hnone. generalize (core (audit actor "account.device.unbound" "platform_account" k (Some dev) [] (st_audited_at st)
    (block_stale_account_work (actor_tenant_id actor) dev [k] "ACCOUNT_CHANGED" now
      (put_account k (value <| pa_version := pa_version value + 1 |>) (unbind_where (own_binding actor k dev) c))))).
  intros d Hnone. unfold account_binding_mismatch, truthy_str. rewrite Ha, Ht, Hd.
  change (default "" (Some k)) with k. rewrite bool_decide_eq_false_2 by done. cbn [negb]. rewrite Hnone. by eexists.
Qed.

(** ** Leases *)

Lemma lease_row actor k c l : lease_for_device actor k c = Some l -> leases (core c) !! k = Some l /\ l_tenant_id l = actor_tenant_id actor.
Proof. unfold lease_for_device. destruct (leases (core c) !! k); [|done]. case_decide; [|done]. by intros [= <-]. Qed.

Lemma lease_found actor k c l : leases (core c) !! k = Some l -> l_tenant_id l = actor_tenant_id actor -> lease_for_device actor k c = Some l.
Proof. intros E Ht. unfold lease_for_device. rewrite E. by rewrite decide_True. Qed.

(** A device is leased to one workflow at a time. A granted lease is the
    device's lease row afterwards, of the workflow that asked, on a device out
    of maintenance; either it is the live lease the workflow already held, and
    nothing was written, or no live lease was in the way, the fencing counter
    of the device went up by one and is the token of the lease. As long as
    that lease is live, nobody else of the tenant is granted one. *)
Theorem acquire_lease_exclusive actor dev owner ttl i now st c l c'
    (H : acquire_lease actor dev owner ttl i now st c = Ok (l, c')) :
  lease_for_device actor dev c' = Some l /\ l_owner_workflow_id l = owner
  /\ (exists x, device actor dev c = Ok x /\ d_maintenance x = false
      /\ (Accounts.lease_live l now /\ c' = c
          \/ ~ leased (lease_for_device actor dev c) now /\ l_lease_id l = i /\ l_expires_at l = now + seconds ttl
             /\ l_canceled_at l = None /\ l_fencing_token l = d_fencing_counter x + 1
             /\ d_fencing_counter <$> devices (core c') !! dev = Some (l_fencing_token l)))
  /\ (forall actor2 owner2 ttl2 i2 now2 st2 c2,
        leases (core c2) !! dev = Some l -> actor_tenant_id actor2 = actor_tenant_id actor ->
        Accounts.lease_live l now2 -> owner2 <> owner ->
        is_ok (acquire_lease actor2 dev owner2 ttl2 i2 now2 st2 c2) = false).
Proof.
  assert (lease_for_device actor dev c' = Some l /\ l_owner_workflow_id l = owner
    /\ (exists x, device actor dev c = Ok x /\ d_maintenance x = false
      /\ (Accounts.lease_live l now /\ c' = c
          \/ ~ leased (lease_for_device actor dev c) now /\ l_lease_id l = i /\ l_expires_at l = now + seconds ttl
             /\ l_canceled_at l = None /\ l_fencing_token l = d_fencing_counter x + 1
             /\ d_fencing_counter <$> devices (core c') !! dev = Some (l_fencing_token l)))) as (H1 & H2 & H3).
  { unfold acquire_lease in H. control_ok H. ok_inv H.
    all: match goal with D : ~ d_maintenance ?x = true |- _ => apply not_true_is_false in D; rename D into Hm; rename x into row end.
    1: { apply dec_stable in D1. split; [done|]. split; [done|]. exists row. split; [done|]. split; [done|]. by left. }
    all: split; [apply lease_found; cbn; [by rewrite lookup_insert_eq|done]|split; [done|]].
    all: exists row; split; [done|]; split; [done|]; right; split; [rewrite ?E0; cbn; tauto|].
    all: cbn; by rewrite lookup_insert_eq. }
  split; [done|]. split; [done|]. split; [done|].
  intros actor2 owner2 ttl2 i2 now2 st2 c2 Hl Ht Hlive Hne.
  destruct (acquire_lease actor2 dev owner2 ttl2 i2 now2 st2 c2) as [[l2 c3]|] eqn:E; [|done]. exfalso.
  unfold acquire_lease in E. control_ok E. apply lease_row in H1 as [_ Hlt].
  pose proof (lease_found actor2 dev c2 l Hl ltac:(congruence)) as Hf. rewrite Hf in E. ok_inv E.
Qed.

(** ** Witnesses: two accounts of one platform and a device *)

Definition operator_actor : Actor := mkActor "tenant" "operator" [DEVICE_OPERATOR] false.
Definition bindings_db : control_db :=
  mkControlDb
    (empty_db <| devices := {["device" := sample_device]} |>
              <| accounts := {["account" := mkAccount "tenant" "xianyu" "AUTHORIZED" None None "subject" 0;
                               "other" := mkAccount "tenant" "xianyu" "AUTHORIZED" None None "subject 2" 0]} |>
              <| account_bindings := [mkAccountBinding "tenant" "account" "device" "BOUND" 1 "xianyu"] |>)
    [] [] [] [] [] [] [] [mkSchedule "schedule" "tenant" "account" true None] [].
Definition bind_other := bind_account_device operator_actor "other" "device" 100 100 (mkStamps "event" 100 100) bindings_db.
Definition bound_other_db : control_db := match bind_other with Ok (_, c) => c | Err _ => bindings_db end.
Definition unbind_account_run := unbind_account_device operator_actor "account" "device" 100 (mkStamps "event" 100 100) bindings_db.
Definition unbound_db : control_db := match unbind_account_run with Ok (_, c) => c | Err _ => bindings_db end.
Definition lease_run := acquire_lease operator_actor "device" "workflow" 60 "lease" 100 (mkStamps "event" 100 100) bindings_db.
Definition held_db : control_db := match lease_run with Ok (_, c) => c | Err _ => bindings_db end.

Lemma bindings_unique : unique_indexes (core bindings_db).
Proof. apply (bool_decide_unpack _). vm_compute. exact I. Qed.
Lemma bindings_indexes : control_indexes bindings_db.
Proof. apply (bool_decide_unpack _). vm_compute. exact I. Qed.
Lemma bind_other_Ok : exists b, bind_other = Ok (b, bound_other_db).
Proof. eexists. vm_compute. reflexivity. Qed.
Lemma unbind_account_Ok : unbind_account_run = Ok (tt, unbound_db).
Proof. vm_compute. reflexivity. Qed.
Lemma lease_run_Ok : exists l, lease_run = Ok (l, held_db).
Proof. eexists. vm_compute. reflexivity. Qed.


Lemma unbind_stops_the_account_witness : shut_out "tenant" "device" "account" unbound_db.
Proof.
  exact (proj1 (unbind_stops_the_account operator_actor "account" "device" 100 (mkStamps "event" 100 100) bindings_db tt unbound_db
    bindings_unique unbind_account_Ok)).
Defined.

Lemma acquire_lease_exclusive_witness : exists l, lease_run = Ok (l, held_db)
  /\ is_ok (acquire_lease operator_actor "device" "rival" 60 "lease-2" 150 (mkStamps "event" 100 100) held_db) = false.
Proof.
  destruct lease_run_Ok as [l H]. exists l. split; [exact H|].
  pose proof (acquire_lease_exclusive operator_actor "device" "workflow" 60 "lease" 100 (mkStamps "event" 100 100) bindings_db l held_db H)
    as (H1 & _ & _ & H2).
  apply lease_row in H1 as [H1 _]. apply H2; [exact H1|reflexivity| |done].
  assert (leases (core held_db) !! "device" = Some l) as E by exact H1. vm_compute in E. injection E as <-. by split.
Defined.
