(* ===== verification/Publishing.v ===== *)
(** * Publish plans: creation, submission, approval, cancellation and the
    commit intent of services.py

    A plan names the accounts (and devices) a content revision is published
    to. Submission freezes it in a snapshot and makes one target per entry;
    approval schedules it; the workflow that runs a target moves its state and
    registers one commit intent, under the fence of the device, before the
    irreversible click. *)

From stdpp Require Import base gmap strings list.
From Stdlib Require Import ZArith QArith_base Lia.
From S2P Require Import Prelude PyStd Domain Rows PyJson ControlledActions FleetIdentity FrozenShapes TaskOps History ControlPlane ControlDb Accounts ControlHistory.

Open Scope Z_scope.

(** ** Creating a plan *)

Record publish_plan_create := mkPlanCreate {
  ppc_content_revision_id : string;
  ppc_product_id : option string;
  ppc_platform : string;
  ppc_targets : list (list (string * json));
  ppc_schedule : list (string * json);
  ppc_execution : list (string * json);
  ppc_approval_policy : ApprovalPolicy;
  ppc_automation_package_version_id : string;
}.

Section Publishing.
Context (float_repr : Q -> string).

(** [request.model_dump(mode="json", by_alias=True)]. *)
Definition plan_document (r : publish_plan_create) : json :=
  JObj [("contentRevisionId", JStr (ppc_content_revision_id r)); ("productId", json_opt (ppc_product_id r));
        ("platform", JStr (ppc_platform r)); ("targets", JArr (JObj <$> ppc_targets r));
        ("schedule", JObj (ppc_schedule r)); ("execution", JObj (ppc_execution r));
        ("approvalPolicy", JStr (approval_policy_value (ppc_approval_policy r)));
        ("automationPackageVersionId", JStr (ppc_automation_package_version_id r))].

(** [_validate_publish_targets], for one target. *)
Definition validate_target (actor : Actor) (platform : string) (now : Z) (c : control_db) (target : list (string * json))
    : result error () :=
  match jget "accountId" target with
  | Some (JStr account_id) =>
      raise_if account_id = "" with ValidationError "every publish target requires accountId" in
      let? a := account actor account_id c in
      raise_if pa_platform a <> platform with ValidationError "publish target account platform does not match plan" in
      raise_if pa_status a <> "AUTHORIZED" with ConflictError "publish target account is not authorized" in
      raise_if ~ account_usable a now with ConflictError "publish target account authorization has expired" in
      match jget "deviceId" target with
      | None | Some JNull => Ok tt
      | Some (JStr device_id) =>
          raise_if device_id = "" with ValidationError "deviceId must be a non-empty string" in
          raise_if bound_binding (actor_tenant_id actor) account_id device_id c = None
            with ConflictError "publish target account is not bound to the selected device" in Ok tt
      | Some _ => Err (ValidationError "deviceId must be a non-empty string")
      end
  | _ => Err (ValidationError "every publish target requires accountId")
  end.

Fixpoint validate_publish_targets (actor : Actor) (platform : string) (now : Z) (c : control_db)
    (targets : list (list (string * json))) : result error () :=
  match targets with
  | [] => Ok tt
  | t :: ts => let? _ := validate_target actor platform now c t in validate_publish_targets actor platform now c ts
  end.

Definition product_active (actor : Actor) (product_id : option string) (missing archived : error) (c : control_db)
    : result error () :=
  match product_id with
  | None => Ok tt
  | Some p =>
      match tget pr_id p (products c) with
      | Some row =>
          raise_if pr_tenant_id row <> actor_tenant_id actor with missing in
          raise_if pr_status row <> "ACTIVE" with archived in Ok tt
      | None => Err missing
      end
  end.

(** The stored plan, and whether it was created by this request. *)
Definition create_plan (actor : Actor) (idempotency_key : string) (request : publish_plan_create) (new_id : string)
    (now : Z) (st : stamps) (c : control_db) : result error ((PublishPlanRow * bool) * control_db) :=
  let? _ := require_permissions (actor_roles actor) [PUBLISH_CREATE] in
  raise_if idempotency_key = "" \/ 128 < str_len idempotency_key
    with ValidationError "a valid Idempotency-Key header is required" in
  let request_sha256 := canonical_hash float_repr (plan_document request) in
  control_unit_of_work (fun c =>
    match plan_by_idempotency actor idempotency_key c with
    | Some existing =>
        raise_if pl_request_sha256 existing <> request_sha256
          with ConflictError "Idempotency-Key was already used for a different request" in
        Ok ((existing, false), c)
    | None =>
        let? _ := content_revision actor (ppc_content_revision_id request) c in
        let? _ := product_active actor (ppc_product_id request) (NotFoundError "product was not found")
                    (ConflictError "archived product cannot receive a publish plan") c in
        let? automation := automation_version actor (ppc_automation_package_version_id request) c in
        raise_if av_production_qualified automation = false
          with ValidationError "automation package version is not production qualified" in
        let? _ := validate_publish_targets actor (ppc_platform request) now c (ppc_targets request) in
        let row := {| pl_id := new_id; pl_tenant_id := actor_tenant_id actor; pl_idempotency_key := idempotency_key;
          pl_request_sha256 := request_sha256; pl_creator_id := actor_user_id actor;
          pl_content_revision_id := ppc_content_revision_id request; pl_product_id := ppc_product_id request;
          pl_automation_package_version_id := ppc_automation_package_version_id request;
          pl_platform := ppc_platform request; pl_schedule := ppc_schedule request;
          pl_execution := ppc_execution request; pl_approval_policy := ppc_approval_policy request;
          pl_targets := ppc_targets request; pl_state := DRAFT; pl_cancel_requested := false;
          pl_workflow_id := None; pl_version := 0 |} in
        let c := c <| plans := plans c ++ [row] |> in
        let c := audit actor "publish.plan.created" "publish_plan" new_id None [] (st_audited_at st) c in
        Ok ((row, true), emit actor (st_event_id st) (st_event_at st) "publish_plan" new_id "publish.plan.created"
                           [("planId", JStr new_id)] c)
    end) c.

(** ** Submitting it *)

Definition snapshot_document (p : PublishPlanRow) (revision : ContentRevisionRow) (automation : AutomationVersionRow) : json :=
  JObj [("platform", JStr (pl_platform p));
        ("contentRevision", JObj [("id", JStr (cv_id revision)); ("payload", cv_payload revision);
                                  ("sha256", JStr (cv_payload_sha256 revision))]);
        ("automationPackage", JObj [("id", JStr (av_id automation)); ("name", JStr (av_name automation));
                                    ("version", JStr (av_version automation));
                                    ("sha256", JStr (av_artifact_sha256 automation))]);
        ("schedule", JObj (pl_schedule p)); ("execution", JObj (pl_execution p));
        ("targets", JArr (JObj <$> pl_targets p));
        ("approvalPolicy", JStr (approval_policy_value (pl_approval_policy p)))].

(** The row of one entry of the plan; [None]: no device was asked for. *)
Definition submitted_target (actor : Actor) (p : PublishPlanRow) (snapshot_id : string) (state : PublishState)
    (c : control_db) (entry : list (string * json)) (new_id : string) : result error PublishTargetRow :=
  match jget "accountId" entry with
  | Some (JStr account_id) =>
      raise_if account_id = "" with ValidationError "every target requires accountId" in
      let row device version :=
        mkTarget new_id (actor_tenant_id actor) (pl_id p) snapshot_id account_id device version state None false in
      match jget "deviceId" entry with
      | Some (JStr device_id) =>
          if decide (device_id = "") then Ok (row (Some device_id) None) else
          need live := bound_binding (actor_tenant_id actor) account_id device_id c
            orelse ConflictError "publish target account is not bound to the selected device" in
          Ok (row (Some device_id) (Some (ab_binding_version live)))
      | _ => Ok (row None None)
      end
  | _ => Err (ValidationError "every target requires accountId")
  end.

(** [new_id i] is the identifier drawn for the [i]-th target. *)
Fixpoint submitted_targets (actor : Actor) (p : PublishPlanRow) (snapshot_id : string) (state : PublishState)
    (c : control_db) (new_id : nat -> string) (entries : list (list (string * json))) : result error (list PublishTargetRow) :=
  match entries with
  | [] => Ok []
  | e :: es =>
      let? t := submitted_target actor p snapshot_id state c e (new_id 0%nat) in
      let? ts := submitted_targets actor p snapshot_id state c (fun i => new_id (S i)) es in Ok (t :: ts)
  end.

Definition start_state (p : PublishPlanRow) : PublishState :=
  if decide (pl_approval_policy p <> AP_NONE) then AWAITING_APPROVAL else SCHEDULED.
Definition requires_approval (p : PublishPlanRow) : bool := bool_decide (pl_approval_policy p <> AP_NONE).

Definition submit_plan (actor : Actor) (plan_id snapshot_id : string) (new_id : nat -> string) (st : stamps)
    (c : control_db) : result error ((PublishPlanRow * PublishSnapshotRow * list PublishTargetRow) * control_db) :=
  let? _ := require_permissions (actor_roles actor) [PUBLISH_CREATE] in
  control_unit_of_work (fun c =>
    let? p := plan actor plan_id c in
    let archived := ConflictError "publish plan references an archived product" in
    let? _ := product_active actor (pl_product_id p) archived archived c in
    match snapshot_for_plan actor plan_id c with
    | Some existing => Ok ((p, existing, targets_for_plan actor plan_id c), c)
    | None =>
        raise_if pl_state p <> DRAFT with ConflictError "only a DRAFT plan can be submitted" in
        let? revision := content_revision actor (pl_content_revision_id p) c in
        let? automation := automation_version actor (pl_automation_package_version_id p) c in
        let document := snapshot_document p revision automation in
        let snapshot := mkSnapshot snapshot_id (actor_tenant_id actor) plan_id (cv_id revision) (av_id automation)
                          document (canonical_hash float_repr document) in
        let? _ := assert_publish_transition DRAFT (start_state p) in
        let p' := p <| pl_state := start_state p |> <| pl_workflow_id := Some ("publish-plan/" +:+ plan_id) |>
                    <| pl_version := pl_version p + 1 |> in
        let? rows := submitted_targets actor p snapshot_id (start_state p) c new_id (pl_targets p) in
        let c := put_plan p' (c <| snapshots := snapshots c ++ [snapshot] |> <| targets := targets c ++ rows |>) in
        let c := audit actor "publish.plan.submitted" "publish_plan" plan_id None [] (st_audited_at st) c in
        Ok ((p', snapshot, rows),
            emit actor (st_event_id st) (st_event_at st) "publish_plan" plan_id "publish.plan.submitted"
              [("planId", JStr plan_id); ("workflowId", json_opt (pl_workflow_id p'));
               ("snapshotId", JStr snapshot_id); ("requiresApproval", JBool (requires_approval p))] c)
    end) c.

(** ** Approving and canceling it *)

Record approval_request := mkApprovalRequest { ar_decision : ApprovalDecision; ar_reason : option string }.
Definition decision_value (d : ApprovalDecision) : string := match d with APPROVED => "APPROVED" | REJECTED => "REJECTED" end.

(** The targets of a plan, rewritten. *)
Definition on_targets_of (actor : Actor) (plan_id : string) (f : PublishTargetRow -> PublishTargetRow) (c : control_db) : control_db :=
  c <| targets := (fun t => if decide (pt_plan_id t = plan_id /\ pt_tenant_id t = actor_tenant_id actor) then f t else t)
                    <$> targets c |>.

Definition decide_approval (actor : Actor) (plan_id : string) (request : approval_request) (new_id : string) (st : stamps)
    (c : control_db) : result error (PublishPlanRow * control_db) :=
  let? _ := require_permissions (actor_roles actor) [PUBLISH_APPROVE] in
  raise_if actor_mfa actor = false with ForbiddenError "MFA is required for publish approval" in
  control_unit_of_work (fun c =>
    let? p := plan actor plan_id c in
    raise_if pl_creator_id p = actor_user_id actor with ForbiddenError "creator cannot approve their own publish plan" in
    raise_if pl_state p <> AWAITING_APPROVAL with ConflictError "plan is not awaiting approval" in
    let approval := mkApproval new_id (actor_tenant_id actor) plan_id (pl_creator_id p) (actor_user_id actor)
                      (ar_decision request) (ar_reason request) in
    let requested := match ar_decision request with APPROVED => SCHEDULED | REJECTED => FAILED end in
    let? _ := assert_publish_transition AWAITING_APPROVAL requested in
    let p := p <| pl_state := requested |> <| pl_version := pl_version p + 1 |> in
    let c := put_plan p (c <| approvals := approvals c ++ [approval] |>) in
    let c := on_targets_of actor plan_id (fun t =>
               let t := t <| pt_state := requested |> in
               match ar_decision request with
               | REJECTED => t <| pt_result_detail := Some "approval rejected" |>
               | APPROVED => t
               end) c in
    let c := audit actor "publish.approval.decided" "publish_plan" plan_id None
               (match ar_reason request with Some r => if String.eqb r "" then [] else [("reason", JStr r)] | None => [] end)
               (st_audited_at st) c in
    Ok (p, emit actor (st_event_id st) (st_event_at st) "publish_plan" plan_id "publish.plan.approval_decided"
             [("planId", JStr plan_id); ("decision", JStr (decision_value (ar_decision request)));
              ("state", JStr (publish_state_value requested))] c)) c.

Definition UNSAFE_STATES : list PublishState := [COMMITTING; RECONCILING; SUCCEEDED; UNKNOWN].

Definition cancel_target (t : PublishTargetRow) : PublishTargetRow :=
  if decide (pt_state t ∈ UNSAFE_STATES \/ pt_state t = FAILED) then t
  else t <| pt_cancel_requested := true |> <| pt_state := CANCELED |>.

Definition cancel_plan (actor : Actor) (plan_id : string) (st : stamps) (c : control_db)
    : result error (PublishPlanRow * control_db) :=
  let? _ := require_permissions (actor_roles actor) [PUBLISH_CREATE] in
  control_unit_of_work (fun c =>
    let? p := plan actor plan_id c in
    let has_unsafe := bool_decide (Exists (fun t => pt_state t ∈ UNSAFE_STATES) (targets_for_plan actor plan_id c)) in
    let p := p <| pl_cancel_requested := true |> <| pl_version := pl_version p + 1 |> in
    let? p := (if (has_unsafe : bool) then Ok p
               else let? _ := assert_safe_cancel (pl_state p) in Ok (p <| pl_state := CANCELED |>)) in
    let c := on_targets_of actor plan_id cancel_target (put_plan p c) in
    let c := audit actor "publish.plan.cancel_requested" "publish_plan" plan_id None [] (st_audited_at st) c in
    Ok (p, emit actor (st_event_id st) (st_event_at st) "publish_plan" plan_id "publish.plan.cancel_requested"
             [("planId", JStr plan_id); ("deferred", JBool has_unsafe)] c)) c.

(** ** Running a target *)

Definition create_commit_intent (actor : Actor) (target_id : string) (fencing_token : Z) (before_commit_evidence_id new_id : string)
    (now : Z) (st : stamps) (c : control_db) : result error (CommitIntentRow * control_db) :=
  let? _ := require_permissions (actor_roles actor) [PUBLISH_CREATE] in
  control_unit_of_work (fun c =>
    let? t := target actor target_id c in
    match intent_for_target actor target_id c with
    | Some existing =>
        raise_if ci_fencing_token existing <> fencing_token
                 \/ ci_before_commit_evidence_id existing <> before_commit_evidence_id
          with ConflictError "commit intent already exists with different immutable input" in
        Ok (existing, c)
    | None =>
        need device_id := pt_device_id t orelse ConflictError "publish target has no assigned device" in
        let mismatch := ConflictError "active fencing lease does not match commit intent" in
        need lease := lease_for_device actor device_id c orelse mismatch in
        raise_if ~ lease_live lease now \/ l_fencing_token lease <> fencing_token with mismatch in
        raise_if pt_state t <> RUNNING /\ pt_state t <> WAITING_CONFIRMATION
          with ConflictError ("cannot create commit intent while target is " +:+ publish_state_value (pt_state t)) in
        let? _ := assert_publish_transition (pt_state t) COMMITTING in
        let intent := mkCommitIntent new_id (actor_tenant_id actor) target_id 1 fencing_token before_commit_evidence_id in
        let c := put_target (t <| pt_state := COMMITTING |>) (c <| intents := intents c ++ [intent] |>) in
        let c := audit actor "publish.commit_intent.created" "commit_intent" new_id (Some device_id) [] (st_audited_at st) c in
        Ok (intent, emit actor (st_event_id st) (st_event_at st) "publish_target" target_id "publish.target.commit_intent_created"
                      [("targetId", JStr target_id); ("commitIntentId", JStr new_id)] c)
    end) c.

Definition update_target_state (actor : Actor) (target_id : string) (requested : PublishState) (detail : option string)
    (st : stamps) (c : control_db) : result error (PublishTargetRow * control_db) :=
  let? _ := require_permissions (actor_roles actor) [PUBLISH_CREATE] in
  control_unit_of_work (fun c =>
    let? t := target actor target_id c in
    if decide (requested = pt_state t) then Ok (t, c) else
    let? _ := assert_publish_transition (pt_state t) requested in
    raise_if pt_state t = COMMITTING /\ requested <> RECONCILING
      with ConflictError "COMMITTING can only advance to RECONCILING" in
    let t' := t <| pt_state := requested |> <| pt_result_detail := detail |> in
    let c := audit actor "publish.target.state_changed" "publish_target" target_id (pt_device_id t) [] (st_audited_at st)
               (put_target t' c) in
    Ok (t', emit actor (st_event_id st) (st_event_at st) "publish_target" target_id "publish.target.updated"
              [("targetId", JStr target_id); ("state", JStr (publish_state_value requested)); ("detail", json_opt detail)] c)) c.

(** ** What the handlers preserve *)

Lemma plan_row actor k c p : plan actor k c = Ok p -> tget pl_id k (plans c) = Some p /\ pl_id p = k.
Proof. intros [H _]%one_for_tenant_Ok. split; [done|]. by apply tget_Some in H as [_ H]. Qed.
Lemma target_row actor k c t : target actor k c = Ok t -> tget pt_id k (targets c) = Some t /\ pt_id t = k.
Proof. intros [H _]%one_for_tenant_Ok. split; [done|]. by apply tget_Some in H as [_ H]. Qed.

Lemma put_plan_control_le p0 p c : NoDup (pl_id <$> plans c) -> tget pl_id (pl_id p) (plans c) = Some p0 -> plan_le p0 p ->
  control_le c (put_plan p c).
Proof.
  intros Hn Hg Hle. split; cbn; first [reflexivity|apply grows_refl, _|idtac].
  eapply grows_tput; [apply _|exact Hn|exact Hg|done].
Qed.

Lemma put_target_control_le t0 t c : NoDup (pt_id <$> targets c) -> tget pt_id (pt_id t) (targets c) = Some t0 -> target_le t0 t ->
  control_le c (put_target t c).
Proof.
  intros Hn Hg Hle. split; cbn; first [reflexivity|apply grows_refl, _|idtac].
  eapply grows_tput; [apply _|exact Hn|exact Hg|done].
Qed.

Lemma on_targets_control_le actor k f c : (forall t, target_le t (f t)) -> control_le c (on_targets_of actor k f c).
Proof.
  intros H. split; cbn; first [reflexivity|apply grows_refl, _|idtac]. apply grows_fmap. intros t _. by case_decide.
Qed.

Lemma create_plan_le actor key r i now st c o c' : create_plan actor key r i now st c = Ok (o, c') -> control_le c c'.
Proof.
  unfold create_plan. intros H. control_ok H. ok_inv H; [reflexivity|].
  etransitivity; [|apply emit_control_le]. etransitivity; [|apply audit_control_le].
  split; cbn; first [reflexivity|apply grows_refl, _|idtac]. apply grows_snoc; [apply _|done].
Qed.

Lemma submit_plan_le actor k sid ids st c o c' :
  control_indexes c -> submit_plan actor k sid ids st c = Ok (o, c') -> control_le c c'.
Proof.
  unfold submit_plan. intros Hi H. control_ok H. ok_inv H; [reflexivity|].
  match goal with A : plan _ _ _ = Ok _ |- _ => apply plan_row in A as [Hp Hk] end.
  etransitivity; [|apply emit_control_le]. etransitivity; [|apply audit_control_le].
  etransitivity; [|eapply (put_plan_control_le value); [apply Hi|cbn; rewrite Hk; exact Hp|]].
  - split; cbn; first [reflexivity|apply grows_refl, _|idtac]; apply grows_app; try apply _; apply anything_all.
  - split; cbn; [done|lia|done|]. unfold plan_closed.
    match goal with D : ~ pl_state value <> DRAFT |- _ => apply dec_stable in D; rewrite D end. by intros [|].
Qed.

Lemma approval_plan_le (p : PublishPlanRow) requested : pl_state p = AWAITING_APPROVAL ->
  plan_le p (p <| pl_state := requested |> <| pl_version := pl_version p + 1 |>).
Proof. intros E. split; cbn; [done|lia|done|]. unfold plan_closed. rewrite E. by intros [|]. Qed.

Lemma decide_approval_le actor k r i st c p c' :
  control_indexes c -> decide_approval actor k r i st c = Ok (p, c') -> control_le c c'.
Proof.
  unfold decide_approval. intros Hi H. control_ok H. ok_inv H.
  match goal with A : plan _ _ _ = Ok _, D : ~ pl_state _ <> _ |- _ => apply plan_row in A as [Hp Hk]; apply dec_stable in D; rename D into Hs end.
  etransitivity; [|apply emit_control_le]. etransitivity; [|apply audit_control_le].
  etransitivity; [|apply on_targets_control_le; intros t; by destruct (ar_decision r)].
  etransitivity; [|eapply (put_plan_control_le value); [apply Hi|cbn; rewrite Hk; exact Hp|by apply approval_plan_le]].
  split; cbn; first [reflexivity|apply grows_refl, _|idtac]. apply grows_snoc; [apply _|done].
Qed.

Lemma cancel_target_le t : target_le t (cancel_target t).
Proof. unfold cancel_target. case_decide; [done|]. split; cbn; done. Qed.

Lemma assert_safe_cancel_Ok s u : assert_safe_cancel s = Ok u -> s ∈ SAFE_CANCEL_STATES.
Proof. unfold assert_safe_cancel. destruct (decide (s ∉ SAFE_CANCEL_STATES)) as [|D]; [done|]. intros _. by apply dec_stable in D. Qed.

Lemma cancel_plan_le actor k st c p c' : control_indexes c -> cancel_plan actor k st c = Ok (p, c') -> control_le c c'.
Proof.
  unfold cancel_plan. intros Hi H. control_ok H. ok_inv H; [|ok_inv E1].
  all: match goal with A : plan _ _ _ = Ok _ |- _ => apply plan_row in A as [Hp Hk] end.
  all: etransitivity; [|apply emit_control_le]; etransitivity; [|apply audit_control_le].
  all: etransitivity; [|apply on_targets_control_le; intros t; apply cancel_target_le].
  all: eapply put_plan_control_le; [apply Hi|cbn; rewrite Hk; exact Hp|]; split; cbn; [done|lia|done|]; try done.
  intros [E|E]; exfalso; match goal with A : assert_safe_cancel _ = Ok _ |- _ => apply assert_safe_cancel_Ok in A end;
    cbn in *; rewrite E in *; set_solver.
Qed.

Lemma create_commit_intent_le actor k f ev i now st c o c' :
  control_indexes c -> create_commit_intent actor k f ev i now st c = Ok (o, c') -> control_le c c'.
Proof.
  unfold create_commit_intent. intros Hi H. control_ok H. ok_inv H; [reflexivity|].
  match goal with A : target _ _ _ = Ok _ |- _ => apply target_row in A as [Hp Hk] end.
  etransitivity; [|apply emit_control_le]. etransitivity; [|apply audit_control_le].
  etransitivity; [|eapply (put_target_control_le value); [apply Hi|cbn; rewrite Hk; exact Hp|by split]].
  split; cbn; first [reflexivity|apply grows_refl, _|idtac]. apply grows_snoc; [apply _|done].
Qed.

Lemma update_target_state_le actor k s detail st c o c' :
  control_indexes c -> update_target_state actor k s detail st c = Ok (o, c') -> control_le c c'.
Proof.
  unfold update_target_state. intros Hi H. control_ok H. ok_inv H; [reflexivity|].
  match goal with A : target _ _ _ = Ok _ |- _ => apply target_row in A as [Hp Hk] end.
  etransitivity; [|apply emit_control_le]. etransitivity; [|apply audit_control_le].
  eapply (put_target_control_le value); [apply Hi|cbn; rewrite Hk; exact Hp|by split].
Qed.
End Publishing.
