(* ===== verification/PublishRules.v ===== *)
(** * What publishing promises

    The commit intent of a target is registered once, under the live lease of
    its device; a submitted plan is frozen; creating and submitting are
    idempotent for good; cancellation leaves nothing of the plan runnable that
    has not begun to commit. *)

From stdpp Require Import base gmap strings list.
From Stdlib Require Import ZArith QArith_base Decidable Lia.
From S2P Require Import Prelude PyStd Domain Rows PyJson ControlledActions FleetIdentity FrozenShapes TaskOps History ControlPlane ControlDb Accounts ControlHistory Publishing.

Open Scope Z_scope.

(** ** Lookups that later histories repeat *)

Lemma intent_found actor k c i : control_indexes c -> i ∈ intents c -> ci_target_id i = k ->
  ci_tenant_id i = actor_tenant_id actor -> ci_attempt_no i = 1 -> intent_for_target actor k c = Some i.
Proof.
  intros Hi Hin Hk Ht Ha. apply find_unique; [done|done|]. intros y Hy (E1 & E2 & E3).
  apply (NoDup_fmap_eq intent_key (intents c)); [apply Hi|done|done|]. unfold intent_key. congruence.
Qed.

Lemma snapshot_found actor k c s : control_indexes c -> s ∈ snapshots c -> sn_plan_id s = k ->
  sn_tenant_id s = actor_tenant_id actor -> snapshot_for_plan actor k c = Some s.
Proof.
  intros Hi Hin Hk Ht. apply find_unique; [done|done|]. intros y Hy (E1 & E2).
  apply (NoDup_fmap_eq sn_plan_id (snapshots c)); [apply Hi|done|done|]. congruence.
Qed.

Lemma plan_found actor key c p : control_indexes c -> p ∈ plans c -> plan_key p = (actor_tenant_id actor, key) ->
  plan_by_idempotency actor key c = Some p.
Proof.
  intros Hi Hin Hk. apply find_unique; [done|done|]. intros y Hy Ey.
  apply (NoDup_fmap_eq plan_key (plans c)); [apply Hi|done|done|]. congruence.
Qed.

Lemma grows_eq_In {A} (l l' : list A) x : grows eq anything l l' -> x ∈ l -> x ∈ l'.
Proof. intros Hg Hx. by destruct (grows_In _ _ _ _ x Hg Hx) as (y & Hy & <-). Qed.

(** ** The commit intent *)

(** What [create_commit_intent] did when it answered [o]. *)
Inductive intent_answer (actor : Actor) (k : string) (token now : Z) (c : control_db) (o : CommitIntentRow) (c' : control_db) : Prop :=
| intent_repeated : intent_for_target actor k c = Some o -> c' = c -> intent_answer actor k token now c o c'
| intent_registered t dev l :
    target actor k c = Ok t -> intent_for_target actor k c = None ->
    pt_device_id t = Some dev -> lease_for_device actor dev c = Some l -> Accounts.lease_live l now -> l_fencing_token l = token ->
    pt_state t = RUNNING \/ pt_state t = WAITING_CONFIRMATION ->
    intents c' = intents c ++ [o] -> targets c' = tput pt_id (t <| pt_state := COMMITTING |>) (targets c) ->
    leases (core c') = leases (core c) -> intent_answer actor k token now c o c'.

Lemma create_commit_intent_answer actor k token ev i now st c o c' :
  create_commit_intent actor k token ev i now st c = Ok (o, c') ->
  intent_answer actor k token now c o c'
  /\ ci_target_id o = k /\ ci_tenant_id o = actor_tenant_id actor /\ ci_attempt_no o = 1
  /\ ci_fencing_token o = token /\ ci_before_commit_evidence_id o = ev.
Proof.
  unfold create_commit_intent. intros H. control_ok H. ok_inv H.
  - match goal with F : intent_for_target _ _ _ = Some _ |- _ => pose proof F as Hf; apply find_bool_Some in F as (_ & E1 & E2 & E3) end.
    apply Decidable.not_or in D as [D1%dec_stable D2%dec_stable]. split; [by constructor|]. done.
  - apply Decidable.not_or in D as [D1%dec_stable D2%dec_stable]. split; [|done].
    eapply intent_registered; try done. destruct (decide (pt_state value = RUNNING)); [by left|]. right. apply dec_stable. tauto.
Qed.

(** C8. Commit once, under the fence. A commit intent is registered only for a
    target that is running (or was confirmed) and whose device lease is live
    and carries the caller's fencing token; registering it appends one row and
    moves the target to COMMITTING. From then on, in every later history, the
    target has this one intent: a request is answered with it, without a
    write, and only if it repeats the same token and evidence. *)
Theorem commit_intent_fenced actor k token ev i now st c o c'
    (Hi : control_indexes c') (H : create_commit_intent actor k token ev i now st c = Ok (o, c')) :
  intent_answer actor k token now c o c'
  /\ (ci_target_id o, ci_fencing_token o, ci_before_commit_evidence_id o) = (k, token, ev)
  /\ (forall actor2 token2 ev2 i2 now2 st2 c2 o2 c3,
        actor_tenant_id actor2 = actor_tenant_id actor -> control_le c' c2 -> control_indexes c2 ->
        create_commit_intent actor2 k token2 ev2 i2 now2 st2 c2 = Ok (o2, c3) ->
        o2 = o /\ c3 = c2 /\ token2 = token /\ ev2 = ev).
Proof.
  apply create_commit_intent_answer in H as (Ha & E1 & E2 & E3 & E4 & E5). split; [done|]. split; [congruence|].
  assert (o ∈ intents c') as Hin.
  { destruct Ha as [Hf ->|? ? ? ? ? ? ? ? ? ? ->]; [by apply find_bool_Some in Hf as [? _]|set_solver]. }
  intros actor2 token2 ev2 i2 now2 st2 c2 o2 c3 Ht Hle Hi2 H2.
  apply create_commit_intent_answer in H2 as (Ha2 & _ & _ & _ & F4 & F5).
  assert (intent_for_target actor2 k c2 = Some o) as Hf
    by (apply intent_found; try done; [by eapply grows_eq_In, Hin; apply Hle|congruence]).
  destruct Ha2 as [Hf2 ->|? ? ? ? Hf2]; [|congruence]. assert (o2 = o) as -> by congruence.
  split; [done|]. split; [done|]. split; congruence.
Qed.

(** ** Creating and submitting *)

Section Rules.
Context (float_repr : Q -> string).

Lemma create_plan_answer actor key r i now st c p created c' :
  create_plan float_repr actor key r i now st c = Ok ((p, created), c') ->
  pl_request_sha256 p = canonical_hash float_repr (plan_document r) /\ plan_key p = (actor_tenant_id actor, key)
  /\ match created with
     | false => plan_by_idempotency actor key c = Some p /\ c' = c
     | true => plan_by_idempotency actor key c = None /\ plans c' = plans c ++ [p] /\ pl_creator_id p = actor_user_id actor
               /\ pl_state p = DRAFT /\ core c' = core (audit actor "publish.plan.created" "publish_plan" i None [] (st_audited_at st) c)
     end.
Proof.
  unfold create_plan. intros H. control_ok H. ok_inv H; [|done].
  match goal with F : plan_by_idempotency _ _ _ = Some _ |- _ => pose proof F as Hf; apply find_bool_Some in F as (_ & E1) end.
  apply dec_stable in D. done.
Qed.

(** Creating a plan is idempotent per tenant and key, for good: in every later
    history the same request gets the stored plan back without a write, and
    another request under the key is refused. *)
Theorem create_plan_idempotent actor key r i now st c p c' c2
    (H : create_plan float_repr actor key r i now st c = Ok ((p, true), c'))
    (Hle : control_le c' c2) (Hu : unique_indexes (core c2)) (Hi : control_indexes c2) :
  (forall i2 now2 st2, exists p2,
     create_plan float_repr actor key r i2 now2 st2 c2 = Ok ((p2, false), c2) /\ plan_frozen p2 = plan_frozen p)
  /\ (forall actor2 r2 i2 now2 st2 x, actor_tenant_id actor2 = actor_tenant_id actor ->
        create_plan float_repr actor2 key r2 i2 now2 st2 c2 = Ok x ->
        canonical_hash float_repr (plan_document r2) = canonical_hash float_repr (plan_document r)).
Proof.
  pose proof (create_plan_answer _ _ _ _ _ _ _ _ _ _ H) as (E1 & E2 & _ & E3 & _).
  destruct (grows_In _ _ _ _ p (cl_plans _ _ Hle)) as (p2 & Hin & Hp); [rewrite E3; set_solver|].
  pose proof (pll_frozen _ _ Hp) as Hfr. pose proof Hfr as F. injection F as _ F2 F3 F4 _ _ _ _ _ _ _ _.
  assert (forall actor2, actor_tenant_id actor2 = actor_tenant_id actor -> plan_by_idempotency actor2 key c2 = Some p2) as Hf.
  { intros actor2 Ht. apply plan_found; [done|done|]. rewrite Ht, <- E2. unfold plan_key. congruence. }
  split.
  - intros i2 now2 st2. exists p2. split; [|done]. revert H. unfold create_plan.
    destruct (require_permissions _ _); [|done]. case_decide; [done|]. intros _.
    apply control_unit_of_work_intro; [|done..]. rewrite (Hf actor eq_refl). by rewrite decide_False by (intros []; congruence).
  - intros actor2 r2 i2 now2 st2 [[p3 created] c3] Ht H2.
    apply create_plan_answer in H2 as (G1 & _ & G3). rewrite (Hf actor2 Ht) in G3.
    destruct created; [destruct G3 as [G3 _]; discriminate G3|destruct G3 as [[= <-] _]]. congruence.
Qed.

(** The row that submission makes of one entry of the plan. *)
Record target_of (actor : Actor) (p : PublishPlanRow) (snapshot_id : string) (c : control_db) (entry : list (string * json))
    (t : PublishTargetRow) : Prop := mkTargetOf {
  to_account : jget "accountId" entry = Some (JStr (pt_account_id t)) /\ pt_account_id t <> "";
  to_owner : (pt_tenant_id t, pt_plan_id t, pt_snapshot_id t, pt_state t, pt_cancel_requested t)
             = (actor_tenant_id actor, pl_id p, snapshot_id, start_state p, false);
  to_device : pt_device_id t = match jget "deviceId" entry with Some (JStr d) => Some d | _ => None end;
  to_binding : forall d, pt_device_id t = Some d -> d <> "" ->
    exists b, bound_binding (actor_tenant_id actor) (pt_account_id t) d c = Some b
              /\ pt_binding_version t = Some (ab_binding_version b);
}.

Lemma submitted_target_of actor p sid c entry i t :
  submitted_target actor p sid (start_state p) c entry i = Ok t -> target_of actor p sid c entry t.
Proof.
  unfold submitted_target. intros H. destruct (jget "accountId" entry) as [[]|] eqn:Ea; try done. case_decide as D1; [done|].
  destruct (jget "deviceId" entry) as [[]|] eqn:Ed; try (injection H as <-; by split; rewrite ?Ed).
  case_decide as D2; [injection H as <-; split; cbn; rewrite ?Ed; try done; by intros d [= <-]|].
  ok_inv H. split; cbn; rewrite ?Ed; try done. intros d [= <-] _. eauto.
Qed.

Lemma submitted_targets_of actor p sid c entries : forall ids rows,
  submitted_targets actor p sid (start_state p) c ids entries = Ok rows -> Forall2 (target_of actor p sid c) entries rows.
Proof.
  induction entries as [|e es IH]; intros ids rows H; cbn in H; ok_inv H; constructor; [by eapply submitted_target_of|by eapply IH].
Qed.

(** What [submit_plan] did when it answered. *)
Definition submission (actor : Actor) (k sid : string) (c : control_db) (p' : PublishPlanRow) (s : PublishSnapshotRow)
    (rows : list PublishTargetRow) (c' : control_db) : Prop :=
  match snapshot_for_plan actor k c with
  | Some s0 => s = s0 /\ rows = targets_for_plan actor k c /\ c' = c
  | None =>
      exists p r a, plan actor k c = Ok p /\ pl_state p = DRAFT
        /\ content_revision actor (pl_content_revision_id p) c = Ok r
        /\ automation_version actor (pl_automation_package_version_id p) c = Ok a
        /\ s = mkSnapshot sid (actor_tenant_id actor) k (cv_id r) (av_id a) (snapshot_document p r a)
                 (canonical_hash float_repr (snapshot_document p r a))
        /\ pl_state p' = start_state p /\ plan_frozen p' = plan_frozen p /\ plan actor k c' = Ok p'
        /\ snapshots c' = snapshots c ++ [s] /\ targets c' = targets c ++ rows
        /\ Forall2 (target_of actor p sid c) (pl_targets p) rows
  end.

Lemma plan_put actor k c p p' : plan actor k c = Ok p -> pl_id p' = pl_id p -> pl_tenant_id p' = pl_tenant_id p ->
  forall c', plans c' = tput pl_id p' (plans c) -> plan actor k c' = Ok p'.
Proof.
  intros H E1 E2 c' E. pose proof H as Ht. apply one_for_tenant_Ok in Ht as [_ Ht]. apply plan_row in H as [Hg <-].
  unfold plan, one_for_tenant. rewrite E, <- E1, tget_tput_same by (rewrite E1; by eapply tget_key_In).
  rewrite E2, Ht. by rewrite decide_False by tauto.
Qed.

Lemma submit_plan_answer actor k sid ids st c p' s rows c' :
  submit_plan float_repr actor k sid ids st c = Ok ((p', s, rows), c') ->
  submission actor k sid c p' s rows c' /\ sn_plan_id s = k /\ sn_tenant_id s = actor_tenant_id actor
  /\ s ∈ snapshots c'
  /\ (forall t, t ∈ rows -> t ∈ targets c' /\ pt_plan_id t = k /\ pt_tenant_id t = actor_tenant_id actor).
Proof.
  unfold submit_plan, submission. intros H. control_ok H. ok_inv H.
  - match goal with F : snapshot_for_plan _ _ _ = Some _ |- _ => apply find_bool_Some in F as (F1 & F2 & F3) end.
    repeat (split; [done|]). intros t [[] ?]%list_elem_of_filter. done.
  - match goal with F : plan _ _ _ = Ok ?v, S : submitted_targets _ _ _ _ _ _ _ = Ok _, D : ~ pl_state _ <> _ |- _ =>
      pose proof F as Hp; apply plan_row in F as [_ Hk]; apply submitted_targets_of in S; rename S into Hs; apply dec_stable in D;
      rename v into p end.
    split.
    { exists p. eexists _, _. do 4 (split; [first [reflexivity|eassumption]|]). split; [reflexivity|]. do 2 (split; [reflexivity|]). split; [by eapply (plan_put _ _ _ p)|]. split; [reflexivity|]. split; [reflexivity|exact Hs]. }
    do 2 (split; [done|]). split; [apply elem_of_app; right; by left|]. intros t Ht.
    split; [apply elem_of_app; by right|]. apply list_elem_of_lookup in Ht as [j Hj].
    destruct (Forall2_lookup_r _ _ _ _ _ Hs Hj) as (e & _ & [_ E _ _]). split; congruence.
Qed.

(** C26. A submitted plan is frozen. Submission stores one snapshot of the plan,
    its content revision and its automation package under their digest, and
    one target per entry of the plan, in order, on the device that was asked
    for, with the version of the binding the account has on it now; targets
    of a plan that needs approval wait for it. Submitting again, however much
    later, answers with the same snapshot and the same targets and writes
    nothing. *)
Theorem submission_is_frozen actor k sid ids st c p' s rows c'
    (Hi : control_indexes c') (H : submit_plan float_repr actor k sid ids st c = Ok ((p', s, rows), c')) :
  submission actor k sid c p' s rows c'
  /\ (forall actor2 sid2 ids2 st2 c2 p2 s2 rows2 c3,
        actor_tenant_id actor2 = actor_tenant_id actor -> control_le c' c2 -> control_indexes c2 ->
        submit_plan float_repr actor2 k sid2 ids2 st2 c2 = Ok ((p2, s2, rows2), c3) ->
        s2 = s /\ c3 = c2 /\ (forall t, t ∈ rows -> exists t2, t2 ∈ rows2 /\ target_frozen t2 = target_frozen t)).
Proof.
  apply submit_plan_answer in H as (Hs & E1 & E2 & Hin & Hrows). split; [done|].
  intros actor2 sid2 ids2 st2 c2 p2 s2 rows2 c3 Ht Hle Hi2 H2.
  apply submit_plan_answer in H2 as (Hs2 & _). unfold submission in Hs2.
  rewrite (snapshot_found actor2 k c2 s) in Hs2; [|done| |done|congruence]; [|by eapply grows_eq_In, Hin; apply Hle].
  destruct Hs2 as (-> & -> & ->). do 2 (split; [done|]). intros t Hr. destruct (Hrows t Hr) as (Hc & Hk & Hte).
  destruct (grows_In _ _ _ _ t (cl_targets _ _ Hle) Hc) as (t2 & Hin2 & [F _]). exists t2. split; [|done].
  injection F as _ G1 G2 _ _ _ _. apply list_elem_of_filter. split; [split; congruence|done].
Qed.
End Rules.

(** ** Canceling and approving *)

(** Rewriting the rows that satisfy [P], which the rewritten rows still do. *)
Lemma filter_fmap_if {A} (P : A -> Prop) `{!forall x, Decision (P x)} (f : A -> A) (l : list A) :
  (forall x, P x -> P (f x)) -> filter P ((fun x => if decide (P x) then f x else x) <$> l) = f <$> filter P l.
Proof.
  intros Hf. induction l as [|x l IH]; [done|]. rewrite fmap_cons, !filter_cons, IH.
  destruct (decide (P x)) as [D|D]; [rewrite decide_True by auto|rewrite decide_False by done]; done.
Qed.

Lemma on_targets_for_plan actor k f c :
  (forall t, pt_plan_id (f t) = pt_plan_id t /\ pt_tenant_id (f t) = pt_tenant_id t) ->
  targets_for_plan actor k (on_targets_of actor k f c) = f <$> targets_for_plan actor k c.
Proof. intros Hf. apply filter_fmap_if. intros t. by destruct (Hf t) as [-> ->]. Qed.

Lemma on_other_targets actor k f c t :
  ~ (pt_plan_id t = k /\ pt_tenant_id t = actor_tenant_id actor) -> t ∈ targets c -> t ∈ targets (on_targets_of actor k f c).
Proof. intros D Ht. cbn. apply list_elem_of_fmap. exists t. by rewrite decide_False. Qed.

Definition unsafe (t : PublishTargetRow) : Prop := pt_state t ∈ UNSAFE_STATES.

Lemma canceled_target t : unsafe (cancel_target t) /\ cancel_target t = t \/ pt_state (cancel_target t) = FAILED \/ pt_state (cancel_target t) = CANCELED.
Proof. unfold unsafe, cancel_target. case_decide as D; [|right; by right]. destruct D; [by left|right; by left]. Qed.

(** Cancellation is safe and thorough. When a target has begun to commit (or
    its result is known or uncertain) the plan keeps its state and only the
    request is recorded; otherwise the plan, which must be in a state that can
    be canceled, is CANCELED. Either way every target of it that has not begun
    to commit is CANCELED, those that have are untouched, and so are the
    targets of all other plans. *)
Theorem cancel_plan_decides actor k st c p c'
    (Hi : control_indexes c) (H : cancel_plan actor k st c = Ok (p, c')) :
  let ts := targets_for_plan actor k c in
  (exists p0, plan actor k c = Ok p0 /\ plan actor k c' = Ok p /\ pl_cancel_requested p = true
     /\ (Exists unsafe ts -> pl_state p = pl_state p0)
     /\ (~ Exists unsafe ts -> pl_state p0 ∈ SAFE_CANCEL_STATES /\ pl_state p = CANCELED))
  /\ targets_for_plan actor k c' = cancel_target <$> ts
  /\ (forall t, t ∈ targets_for_plan actor k c' ->
        pt_state t = CANCELED \/ pt_state t = FAILED \/ unsafe t /\ t ∈ ts)
  /\ (forall t, t ∈ targets c -> ~ (pt_plan_id t = k /\ pt_tenant_id t = actor_tenant_id actor) -> t ∈ targets c').
Proof.
  intros ts. unfold cancel_plan in H. control_ok H.
  assert (exists p0 p1, plan actor k c = Ok p0 /\ p = p1 /\ plan_frozen p1 = plan_frozen p0 /\ pl_cancel_requested p1 = true
    /\ (Exists unsafe ts -> pl_state p1 = pl_state p0)
    /\ (~ Exists unsafe ts -> pl_state p0 ∈ SAFE_CANCEL_STATES /\ pl_state p1 = CANCELED)
    /\ plans c' = tput pl_id p1 (plans c) /\ targets c' = targets (on_targets_of actor k cancel_target c))
    as (p0 & p1 & Hp & -> & Hfr & Hcr & Hu & Hs & E1 & E2).
  { ok_inv H; [apply bool_decide_eq_true in E0|ok_inv E1; apply bool_decide_eq_false in E0]; eexists _, _;
      repeat (split; [reflexivity|]); (split; [|split; [|by split]]); try done.
    intros _. split; [by eapply assert_safe_cancel_Ok|done]. }
  injection Hfr as F1 F2 _ _ _ _ _ _ _ _ _ _.
  assert (targets_for_plan actor k c' = cancel_target <$> ts) as Ht.
  { unfold targets_for_plan. rewrite E2. apply on_targets_for_plan. intros t. unfold cancel_target. by case_decide. }
  split; [|split; [exact Ht|split]].
  - exists p0. split; [done|]. split; [by apply (plan_put _ _ c p0)|]. done.
  - intros t. rewrite Ht. intros (t0 & -> & Hin)%list_elem_of_fmap.
    destruct (canceled_target t0) as [[U E]|[E|E]]; [right; right; by rewrite E in *|by right; left|by left].
  - intros t Hin Hn. rewrite E2. by apply on_other_targets.
Qed.

(** What an approval decision does: the approver holds MFA and is not the
    creator, the plan was waiting, the decision is on record, and plan and
    targets follow it. *)
Theorem decide_approval_decides actor k r i st c p c'
    (Hi : control_indexes c) (H : decide_approval actor k r i st c = Ok (p, c')) :
  let next := match ar_decision r with APPROVED => SCHEDULED | REJECTED => FAILED end in
  actor_mfa actor = true
  /\ (exists p0, plan actor k c = Ok p0 /\ pl_state p0 = AWAITING_APPROVAL /\ pl_creator_id p0 <> actor_user_id actor
        /\ plan actor k c' = Ok p /\ plan_frozen p = plan_frozen p0 /\ pl_state p = next
        /\ approvals c' = approvals c ++ [mkApproval i (actor_tenant_id actor) k (pl_creator_id p0) (actor_user_id actor)
                                            (ar_decision r) (ar_reason r)])
  /\ Forall2 (fun t t' => target_frozen t' = target_frozen t /\ pt_state t' = next)
       (targets_for_plan actor k c) (targets_for_plan actor k c')
  /\ intents c' = intents c.
Proof.
  intros next. unfold decide_approval in H. destruct (require_permissions _ _); [|done].
  destruct (actor_mfa actor) eqn:Hm; [|done]. split; [done|]. case_decide; [done|]. apply control_unit_of_work_Ok in H as [H _].
  ok_inv H. apply dec_stable in D0. split; [|split].
  - exists value0. split; [done|]. split; [done|]. split; [done|]. split; [|done]. by eapply (plan_put _ _ _ value0).
  - match goal with |- Forall2 _ _ (targets_for_plan _ _ (emit _ _ _ _ _ _ _ (audit _ _ _ _ _ _ _ ?c1))) =>
      change (Forall2 (fun t t' => target_frozen t' = target_frozen t /\ pt_state t' = next)
                (targets_for_plan actor k c) (targets_for_plan actor k c1)) end.
    rewrite on_targets_for_plan by (intros t; by destruct (ar_decision r)).
    apply Forall2_fmap_r, Forall_Forall2_diag, Forall_true. intros t. unfold next. by destruct (ar_decision r).
  - done.
Qed.

(** ** Plans are scheduled only when approved *)

(** The states a plan takes, and the approval a scheduled plan has. *)
Definition plan_admitted (c : control_db) (p : PublishPlanRow) : Prop :=
  pl_state p ∈ [DRAFT; AWAITING_APPROVAL; SCHEDULED; CANCELED; FAILED]
  /\ (pl_state p = SCHEDULED -> pl_approval_policy p <> AP_NONE ->
      exists a, a ∈ approvals c /\ ap_plan_id a = pl_id p /\ ap_decision a = APPROVED
                /\ ap_creator_id a = pl_creator_id p /\ ap_approver_id a <> pl_creator_id p).

Definition plans_evolve (c c' : control_db) : Prop :=
  forall p', p' ∈ plans c' ->
    (exists p, p ∈ plans c /\ plan_frozen p' = plan_frozen p /\ pl_state p' = pl_state p) \/ plan_admitted c' p'.

Lemma plans_evolve_admitted c c' : grows eq anything (approvals c) (approvals c') -> plans_evolve c c' ->
  Forall (plan_admitted c) (plans c) -> Forall (plan_admitted c') (plans c').
Proof.
  rewrite !Forall_forall. intros Hg He Ha p' Hp'. destruct (He p' Hp') as [(p & Hp & F & S)|?]; [|done].
  injection F as F1 _ _ _ F5 _ _ _ _ _ F11 _. destruct (Ha p Hp) as [H1 H2]. split; [by rewrite S|].
  rewrite S, F1, F5, F11. intros E1 E2. destruct (H2 E1 E2) as (a & Hin & Hrest). exists a. split; [by eapply grows_eq_In|done].
Qed.

Lemma plans_evolve_same c c' : plans c' = plans c -> plans_evolve c c'.
Proof. intros E p' Hp'. rewrite E in Hp'. left. by exists p'. Qed.

Lemma plans_evolve_put c c' p : plans c' = tput pl_id p (plans c) ->
  (exists p0, p0 ∈ plans c /\ plan_frozen p = plan_frozen p0 /\ pl_state p = pl_state p0) \/ plan_admitted c' p -> plans_evolve c c'.
Proof.
  intros E Hp p'. rewrite E. intros [[-> _]|[Hin _]]%elem_of_tput; [done|]. left. by exists p'.
Qed.

Lemma not_scheduled c p s : pl_state p = s -> s ∈ [DRAFT; AWAITING_APPROVAL; CANCELED; FAILED] -> plan_admitted c p.
Proof.
  intros <- H. split; [rewrite !elem_of_cons in *; naive_solver|]. intros E. rewrite E in H.
  exfalso. rewrite !elem_of_cons, elem_of_nil in H. naive_solver.
Qed.

Lemma create_plan_evolves fr actor key r i now st c p created c' :
  create_plan fr actor key r i now st c = Ok ((p, created), c') -> plans_evolve c c'.
Proof.
  intros H. apply create_plan_answer in H as (_ & _ & H). destruct created; [|destruct H as [_ ->]; by apply plans_evolve_same].
  destruct H as (_ & E & _ & S & _). intros p' Hp'. rewrite E in Hp'. apply elem_of_app in Hp' as [Hp'|Hp'%list_elem_of_singleton].
  - left. by exists p'.
  - subst p'. right. eapply not_scheduled; [exact S|by left].
Qed.

Lemma submit_plan_evolves fr actor k sid ids st c p s rows c' :
  submit_plan fr actor k sid ids st c = Ok ((p, s, rows), c') -> plans_evolve c c'.
Proof.
  unfold submit_plan. intros H. control_ok H. ok_inv H; [by apply plans_evolve_same|].
  eapply plans_evolve_put; [reflexivity|]. right. unfold plan_admitted; cbn. unfold start_state. destruct (decide (_ <> _)) as [Dn|Dn].
  - split; [right; by left|done].
  - apply dec_stable in Dn. split; [do 2 right; by left|]. by rewrite Dn.
Qed.

Lemma decide_approval_evolves actor k r i st c p c' :
  control_indexes c -> decide_approval actor k r i st c = Ok (p, c') -> plans_evolve c c'.
Proof.
  intros Hi H. unfold decide_approval in H. control_ok H. ok_inv H.
  match goal with F : plan _ _ _ = Ok ?v |- _ => apply plan_row in F as [_ Hk]; rename v into p0 end.
  eapply plans_evolve_put; [reflexivity|]. right. destruct (ar_decision r) eqn:Edec.
  - split; [do 2 right; by left|]. intros _ _. cbn. eexists. split; [apply elem_of_app; right; by left|]. cbn.
    split; [congruence|]. split; [done|]. split; [done|]. intros Eq. by apply D.
  - eapply not_scheduled; [reflexivity|do 3 right; by left].
Qed.

Lemma cancel_plan_evolves actor k st c p c' : cancel_plan actor k st c = Ok (p, c') -> plans_evolve c c'.
Proof.
  unfold cancel_plan. intros H. control_ok H. ok_inv H; [|ok_inv E1]; (eapply plans_evolve_put; [reflexivity|]).
  - match goal with F : plan _ _ _ = Ok ?v |- _ => apply plan_row in F as [[Hin _]%tget_Some _]; left; by exists v end.
  - right. eapply not_scheduled; [reflexivity|do 2 right; by left].
Qed.

Lemma block_evolves tenant dev ids reason now c : NoDup (t_id <$> tasks (core c)) ->
  plans_evolve c (block_stale_account_work tenant dev ids reason now c).
Proof.
  intros Hn p'. destruct (block_stale_account_work_spec tenant dev ids reason now c Hn) as [_ _ Hp _]. rewrite Hp.
  intros (p & -> & Hin)%list_elem_of_fmap. unfold blocked_plan. case_decide; [|left; by exists p].
  right. eapply not_scheduled; [reflexivity|do 2 right; by left].
Qed.

(** Only the plans and approvals matter. *)
Lemma plans_evolve_ext c1 c2 d1 d2 : plans d1 = plans c1 -> plans d2 = plans c2 -> approvals d2 = approvals c2 ->
  plans_evolve c1 c2 -> plans_evolve d1 d2.
Proof.
  intros E1 E2 E3 H p' Hp'. rewrite E2 in Hp'. destruct (H p' Hp') as [(p & Hp & Hs)|Ha].
  - left. exists p. by rewrite E1.
  - right. unfold plan_admitted in *. by rewrite E3.
Qed.

Lemma bind_account_device_evolves actor k dev checked now st c b c' :
  unique_indexes (core c) -> bind_account_device actor k dev checked now st c = Ok (b, c') -> plans_evolve c c'.
Proof.
  intros [Hn _] H. unfold bind_account_device in H. control_ok H. ok_inv H.
  match goal with W : write_binding _ _ _ _ _ = _ |- _ => rename W into Hw end.
  destruct (write_binding_rest _ _ _ _ _ _ _ Hw) as (_ & Epl & _).
  assert (approvals c0 = approvals c) as Ea.
  { transitivity (approvals (pause_schedules (actor_tenant_id actor) (ab_account_id <$> filter (displaced_by actor k dev (pa_platform value) c)
      (account_bindings (core c))) "ACCOUNT_CHANGED" c)); [|done]. revert Hw. unfold write_binding, block_stale_account_work.
    repeat case_match; intros; simplify_eq; done. }
  eapply (plans_evolve_ext c (block_stale_account_work (actor_tenant_id actor) dev
    (ab_account_id <$> filter (displaced_by actor k dev (pa_platform value) c) (account_bindings (core c))) "ACCOUNT_CHANGED" now
      (unbind_where (displaced_by actor k dev (pa_platform value) c) c))); [done|exact Epl|..].
  { unfold block_stale_account_work. case_decide; exact Ea. }
  by apply (block_evolves _ _ _ _ _ (unbind_where _ c)).
Qed.

Lemma unbind_account_device_evolves actor k dev now st c r c' :
  unique_indexes (core c) -> unbind_account_device actor k dev now st c = Ok (r, c') -> plans_evolve c c'.
Proof.
  intros [Hn _] H. unfold unbind_account_device in H. control_ok H. ok_inv H.
  match goal with |- plans_evolve _ (audit _ _ _ _ _ _ _ (block_stale_account_work ?t ?d ?ids ?r ?n ?c1)) =>
    exact (block_evolves t d ids r n c1 Hn) end.
Qed.

Lemma block_each_evolves actor k now l : forall c, NoDup (t_id <$> tasks (core c)) ->
  plans_evolve c (foldl (fun c b => block_stale_account_work (actor_tenant_id actor) (ab_device_id b) [k] "ACCOUNT_CHANGED" now c) c l).
Proof.
  induction l as [|b l IH]; intros c Hn; [by apply plans_evolve_same|]. cbn [foldl].
  set (c1 := block_stale_account_work _ (ab_device_id b) _ _ _ c).
  assert (NoDup (t_id <$> tasks (core c1))) as Hn1 by (by unfold c1; rewrite block_unique_ids).
  intros p' Hp'. destruct (IH c1 Hn1 p' Hp') as [(p & Hp & F & S)|Ha]; [|by right].
  destruct (block_evolves (actor_tenant_id actor) (ab_device_id b) [k] "ACCOUNT_CHANGED" now c Hn p Hp) as [(p0 & Hp0 & F0 & S0)|Ha].
  - left. exists p0. split; [done|]. split; congruence.
  - right. destruct Ha as [H1 H2]. injection F as F1 _ _ _ F5 _ _ _ _ _ F11 _. split; [by rewrite S|].
    rewrite S, F1, F5, F11. intros E1 E2. destruct (H2 E1 E2) as (a & Hin & Hrest). exists a. split; [|done].
    eapply grows_eq_In; [|exact Hin]. apply (block_each_le actor k now l c1 Hn1).
Qed.

Lemma update_account_status_evolves actor k r rev now st c a c' :
  unique_indexes (core c) -> update_account_status actor k r rev now st c = Ok (a, c') -> plans_evolve c c'.
Proof.
  intros [Hn _] H. unfold update_account_status in H. control_ok H. ok_inv H.
  destruct (us_status r); [by apply plans_evolve_same|..];
    match goal with |- plans_evolve _ (audit _ _ _ _ _ _ _ (foldl _ ?c1 ?l)) => exact (block_each_evolves actor k now l c1 Hn) end.
Qed.

(** ** What is canceled stays canceled *)

(** The plan is closed and no target of it is under way. *)
Record shut_down (tenant k : string) (c : control_db) : Prop := mkShutDown {
  sh_plan : exists p, p ∈ plans c /\ pl_id p = k /\ pl_tenant_id p = tenant /\ plan_closed p;
  sh_targets : forall t, t ∈ targets c -> pt_plan_id t = k -> pt_tenant_id t = tenant -> pt_state t = CANCELED \/ pt_state t = FAILED;
}.

(** A later state with no new intent for a target of the plan. *)
Record still_shut (tenant k : string) (c c' : control_db) : Prop := mkStillShut {
  ss_shut : shut_down tenant k c';
  ss_intents : forall i, i ∈ intents c' -> i ∈ intents c
    \/ exists t, tget pt_id (ci_target_id i) (targets c) = Some t /\ ~ (pt_plan_id t = k /\ pt_tenant_id t = tenant);
}.

Lemma shut_plan tenant k c c' : grows plan_le anything (plans c) (plans c') -> shut_down tenant k c ->
  exists p, p ∈ plans c' /\ pl_id p = k /\ pl_tenant_id p = tenant /\ plan_closed p.
Proof.
  intros Hg [(p & Hin & E1 & E2 & Hc) _]. destruct (grows_In _ _ _ _ p Hg Hin) as (p' & Hin' & [F _ _ S]).
  injection F as F1 F2 _ _ _ _ _ _ _ _ _ _. exists p'. split; [done|]. split; [congruence|]. split; [congruence|].
  unfold plan_closed in *. by rewrite (S Hc).
Qed.

Lemma shut_same tenant k c c' : control_le c c' -> targets c' = targets c -> intents c' = intents c ->
  shut_down tenant k c -> still_shut tenant k c c'.
Proof.
  intros Hle Et Ei Hs. split; [|intros i; rewrite Ei; by left]. split; [by eapply shut_plan; [apply Hle|]|].
  rewrite Et. apply Hs.
Qed.

(** The closed plan is the one its number names. *)
Lemma shut_plan_row actor k c p : control_indexes c -> shut_down (actor_tenant_id actor) k c -> plan actor k c = Ok p -> plan_closed p.
Proof.
  intros Hi [(p0 & Hin & E1 & E2 & Hc) _] H. apply plan_row in H as [[Hp Hk]%tget_Some _].
  assert (p = p0) as -> by (apply (NoDup_fmap_eq pl_id (plans c)); [apply Hi|done|done|congruence]). done.
Qed.

Lemma publish_transition_allowed s s' u : assert_publish_transition s s' = Ok u -> s' ∈ ALLOWED_TRANSITIONS s.
Proof. unfold assert_publish_transition. destruct (decide (s' ∉ ALLOWED_TRANSITIONS s)) as [|D]; [done|]. intros _. by apply dec_stable in D. Qed.

Lemma submit_plan_intents fr actor k sid ids st c o c' : submit_plan fr actor k sid ids st c = Ok (o, c') -> intents c' = intents c.
Proof. unfold submit_plan. intros H. control_ok H. by ok_inv H. Qed.

Lemma submit_plan_shut fr tenant k0 actor k sid ids st c p s rows c' : control_indexes c ->
  submit_plan fr actor k sid ids st c = Ok ((p, s, rows), c') -> shut_down tenant k0 c -> still_shut tenant k0 c c'.
Proof.
  intros Hi H Hs. pose proof (submit_plan_le _ _ _ _ _ _ _ _ _ Hi H) as Hle. pose proof (submit_plan_intents _ _ _ _ _ _ _ _ _ H) as Ei.
  apply submit_plan_answer in H as (Ha & _ & _ & _ & Hr).
  unfold submission in Ha. destruct (snapshot_for_plan actor k c); [destruct Ha as (_ & _ & ->); by apply shut_same|].
  destruct Ha as (p0 & r & a & Hp & Hd & _ & _ & _ & _ & _ & _ & _ & Et & _).
  split; [|intros i; rewrite Ei; by left]. split; [by eapply shut_plan; [apply Hle|]|].
  intros t. rewrite Et. intros [Ht|Ht]%elem_of_app E1 E2; [by eapply sh_targets|]. exfalso.
  destruct (Hr t Ht) as (_ & E3 & E4). assert (k0 = k) as -> by congruence. assert (tenant = actor_tenant_id actor) as -> by congruence.
  destruct (shut_plan_row _ _ _ _ Hi Hs Hp) as [E|E]; congruence.
Qed.

Lemma on_targets_shut tenant k0 actor k f c c' : control_le c c' -> targets c' = targets (on_targets_of actor k f c) ->
  intents c' = intents c -> shut_down tenant k0 c ->
  (k = k0 -> actor_tenant_id actor = tenant -> forall t, pt_state t = CANCELED \/ pt_state t = FAILED -> pt_state (f t) = CANCELED \/ pt_state (f t) = FAILED) ->
  (forall t, target_frozen (f t) = target_frozen t) -> still_shut tenant k0 c c'.
Proof.
  intros Hle Et Ei Hs Hf Hfr. split; [|intros i; rewrite Ei; by left]. split; [by eapply shut_plan; [apply Hle|]|].
  intros t. rewrite Et. intros (t0 & -> & Hin)%list_elem_of_fmap. case_decide as D; [|by eapply sh_targets].
  pose proof (Hfr t0) as F. injection F as _ F2 F3 _ _ _ _. rewrite F2, F3. intros E1 E2. destruct D as [D1 D2].
  apply Hf; [congruence|congruence|]. by eapply sh_targets.
Qed.

Lemma decide_approval_shut tenant k0 actor k r i st c p c' : control_indexes c ->
  decide_approval actor k r i st c = Ok (p, c') -> shut_down tenant k0 c -> still_shut tenant k0 c c'.
Proof.
  intros Hi H Hs. pose proof (decide_approval_le _ _ _ _ _ _ _ _ Hi H) as Hle. unfold decide_approval in H. control_ok H. ok_inv H.
  eapply (on_targets_shut tenant k0 actor k); [done|reflexivity|done|done| |by intros t; destruct (ar_decision r)].
  intros <- <-. exfalso. match goal with F : plan _ _ _ = Ok _, G : ~ pl_state _ <> _ |- _ =>
    apply dec_stable in G; destruct (shut_plan_row _ _ _ _ Hi Hs F); congruence end.
Qed.

Lemma cancel_plan_shut tenant k0 actor k st c p c' : control_indexes c ->
  cancel_plan actor k st c = Ok (p, c') -> shut_down tenant k0 c -> still_shut tenant k0 c c'.
Proof.
  intros Hi H Hs. pose proof (cancel_plan_le _ _ _ _ _ _ Hi H) as Hle.
  assert (targets c' = targets (on_targets_of actor k cancel_target c) /\ intents c' = intents c) as [Et Ei].
  { unfold cancel_plan in H. control_ok H. ok_inv H; [|ok_inv E1]; done. }
  eapply (on_targets_shut tenant k0 actor k); [done|exact Et|done|done| |].
  - intros _ _ t Ht. destruct (canceled_target t) as [[_ ->]|[?|?]]; tauto.
  - intros t. unfold cancel_target. by case_decide.
Qed.

Lemma put_target_shut tenant k0 actor k t t' c c' : control_le c c' -> target actor k c = Ok t ->
  targets c' = tput pt_id t' (targets c) -> target_frozen t' = target_frozen t -> shut_down tenant k0 c ->
  (pt_state t = CANCELED \/ pt_state t = FAILED -> pt_state t' = CANCELED \/ pt_state t' = FAILED) -> shut_down tenant k0 c'.
Proof.
  intros Hle Ht Et Hfr Hs Hst. split; [by eapply shut_plan; [apply Hle|]|]. intros x. rewrite Et.
  intros [[-> _]|[Hx _]]%elem_of_tput; [|by eapply sh_targets]. injection Hfr as _ F2 F3 _ _ _ _. rewrite F2, F3. intros E1 E2.
  apply Hst. apply target_row in Ht as [[Hin _]%tget_Some _]. by eapply sh_targets.
Qed.

Lemma create_commit_intent_shut tenant k0 actor k f ev i now st c o c' : control_indexes c ->
  create_commit_intent actor k f ev i now st c = Ok (o, c') -> shut_down tenant k0 c -> still_shut tenant k0 c c'.
Proof.
  intros Hi H Hs. pose proof (create_commit_intent_le _ _ _ _ _ _ _ _ _ _ Hi H) as Hle.
  apply create_commit_intent_answer in H as ([_ ->|t dev l Ht _ Hd _ _ _ Hst Ein Et _] & Ek & _); [by apply shut_same|].
  split; [eapply (put_target_shut tenant k0 actor k t); [done|done|exact Et|done|done|]|].
  - intros [E|E]; rewrite E in Hst; by destruct Hst.
  - intros x. rewrite Ein. intros [Hx|Hx%list_elem_of_singleton]%elem_of_app; [by left|]. subst x. right. exists t.
    pose proof Ht as [Hg Hid]%target_row. rewrite Ek. split; [done|]. intros [E1 E2]. apply tget_Some in Hg as [Hin _].
    destruct (sh_targets _ _ _ Hs t Hin E1 E2) as [E|E]; rewrite E in Hst; by destruct Hst.
Qed.

Lemma update_target_state_shut tenant k0 actor k s detail st c o c' : control_indexes c ->
  update_target_state actor k s detail st c = Ok (o, c') -> shut_down tenant k0 c -> still_shut tenant k0 c c'.
Proof.
  intros Hi H Hs. pose proof (update_target_state_le _ _ _ _ _ _ _ _ Hi H) as Hle. unfold update_target_state in H. control_ok H.
  ok_inv H; [by apply shut_same|]. split; [|intros x Hx; by left].
  match goal with G : assert_publish_transition _ _ = Ok _ |- _ => apply publish_transition_allowed in G; rename G into Hg end.
  match goal with F : target _ _ _ = Ok ?v |- _ => eapply (put_target_shut tenant k0 actor k v); [done|exact F|reflexivity|done|done|] end.
  intros [Hst|Hst]; exfalso; rewrite Hst in Hg; by apply elem_of_nil in Hg.
Qed.

(** ** A plan from creation to its commit intent *)

Definition publisher : Actor := mkActor "tenant" "creator" [PUBLISHER] false.
Definition approver : Actor := mkActor "tenant" "approver" [APPROVER] true.
Definition worker : Actor := mkActor "tenant" "worker" [SYSTEM_SERVICE] false.
Definition demo_stamps (n : Z) : stamps := mkStamps (py_str_int n) n n.

Definition demo_db : control_db :=
  mkControlDb
    (empty_db <| devices := {["device" := sample_device]} |>
              <| accounts := {["account" := mkAccount "tenant" "xianyu" "AUTHORIZED" None None "subject" 0]} |>
              <| account_bindings := [mkAccountBinding "tenant" "account" "device" "BOUND" 1 "xianyu"] |>
              <| package_versions := [mkPackageVersion "package" "tenant" [] "sha" "package" "1.0" true] |>)
    [mkRevision "revision" "tenant" (JObj [("title", JStr "t")]) "sha"] [] [] [] [] [] [] [] [].
Definition demo_request : publish_plan_create :=
  mkPlanCreate "revision" None "xianyu" [[("accountId", JStr "account"); ("deviceId", JStr "device")]] [] [] AP_BEFORE_START "package".

Definition demo_ids (i : nat) : string := "target" +:+ py_str_int (Z.of_nat i).
Definition created_plan := create_plan no_float publisher "key" demo_request "plan" 100 (demo_stamps 1) demo_db.
Definition created_db : control_db := match created_plan with Ok (_, c) => c | Err _ => demo_db end.
Definition submitted_plan := submit_plan no_float publisher "plan" "snapshot" demo_ids (demo_stamps 2) created_db.
Definition submitted_db : control_db := match submitted_plan with Ok (_, c) => c | Err _ => demo_db end.
Definition approved_plan := decide_approval approver "plan" (mkApprovalRequest APPROVED None) "approval" (demo_stamps 3) submitted_db.
Definition approved_db : control_db := match approved_plan with Ok (_, c) => c | Err _ => demo_db end.
Definition leased_result := acquire_lease worker "device" "publish-target/target0" 60 "lease" 200 (demo_stamps 4) approved_db.
Definition leased_db : control_db := match leased_result with Ok (_, c) => c | Err _ => demo_db end.
Definition running_db : control_db :=
  match (let? (_, c) := update_target_state worker "target0" QUEUED None (demo_stamps 5) leased_db in
         update_target_state worker "target0" RUNNING None (demo_stamps 6) c) with Ok (_, c) => c | Err _ => demo_db end.
Definition committed_intent := create_commit_intent worker "target0" 4 "evidence" "intent" 300 (demo_stamps 7) running_db.
Definition committed_db : control_db := match committed_intent with Ok (_, c) => c | Err _ => demo_db end.

Definition answer {A B} (r : result error (A * B)) (a0 : A) : A := match r with Ok (a, _) => a | Err _ => a0 end.

(** Proves a decidable fact about concrete data by computation. *)
Ltac by_computation := apply (bool_decide_unpack _); vm_compute; exact I.

Lemma created_plan_Ok : exists p, created_plan = Ok ((p, true), created_db).
Proof. eexists. vm_compute. reflexivity. Qed.
Lemma created_indexes : unique_indexes (core created_db) /\ control_indexes created_db.
Proof. split; by_computation. Qed.
Lemma submitted_plan_Ok : exists p s rows, submitted_plan = Ok ((p, s, rows), submitted_db).
Proof. do 3 eexists. vm_compute. reflexivity. Qed.
Lemma submitted_indexes : control_indexes submitted_db.
Proof. by_computation. Qed.
Lemma approved_plan_Ok : exists p, approved_plan = Ok (p, approved_db).
Proof. eexists. vm_compute. reflexivity. Qed.
Lemma leased_Ok : exists l, leased_result = Ok (l, leased_db).
Proof. eexists. vm_compute. reflexivity. Qed.
Lemma committed_intent_Ok : committed_intent = Ok (mkCommitIntent "intent" "tenant" "target0" 1 4 "evidence", committed_db).
Proof. vm_compute. reflexivity. Qed.
Lemma committed_indexes : control_indexes committed_db.
Proof. by_computation. Qed.

Lemma commit_intent_fenced_witness :
  committed_intent = Ok (mkCommitIntent "intent" "tenant" "target0" 1 4 "evidence", committed_db)
  /\ intent_answer worker "target0" 4 300 running_db (mkCommitIntent "intent" "tenant" "target0" 1 4 "evidence") committed_db.
Proof.
  split; [exact committed_intent_Ok|].
  exact (proj1 (commit_intent_fenced worker "target0" 4 "evidence" "intent" 300 (demo_stamps 7) running_db _ committed_db
    committed_indexes committed_intent_Ok)).
Defined.

Lemma create_plan_idempotent_witness :
  exists p2, create_plan no_float publisher "key" demo_request "other" 900 (demo_stamps 8) created_db = Ok ((p2, false), created_db).
Proof.
  destruct created_plan_Ok as [p Hp].
  destruct (create_plan_idempotent no_float publisher "key" demo_request "plan" 100 (demo_stamps 1) demo_db p created_db created_db
    Hp (reflexivity _) (proj1 created_indexes) (proj2 created_indexes)) as [H _].
  destruct (H "other" 900 (demo_stamps 8)) as (p2 & H2 & _). exists p2. exact H2.
Defined.

Lemma submission_is_frozen_witness : exists p s rows,
  submitted_plan = Ok ((p, s, rows), submitted_db) /\ submission no_float publisher "plan" "snapshot" created_db p s rows submitted_db.
Proof.
  destruct submitted_plan_Ok as (p & s & rows & H). exists p, s, rows. split; [exact H|].
  exact (proj1 (submission_is_frozen no_float publisher "plan" "snapshot" demo_ids (demo_stamps 2) created_db p s rows submitted_db
    submitted_indexes H)).
Defined.

Definition canceled_plan := cancel_plan publisher "plan" (demo_stamps 9) approved_db.
Definition canceled_db : control_db := match canceled_plan with Ok (_, c) => c | Err _ => demo_db end.
Lemma canceled_plan_Ok : exists p, canceled_plan = Ok (p, canceled_db).
Proof. eexists. vm_compute. reflexivity. Qed.
Lemma approved_indexes : control_indexes approved_db.
Proof. by_computation. Qed.

Lemma cancel_plan_decides_witness :
  targets_for_plan publisher "plan" canceled_db = cancel_target <$> targets_for_plan publisher "plan" approved_db.
Proof.
  destruct canceled_plan_Ok as [p H].
  exact (proj1 (proj2 (cancel_plan_decides publisher "plan" (demo_stamps 9) approved_db p canceled_db approved_indexes H))).
Defined.

Lemma decide_approval_decides_witness : actor_mfa approver = true.
Proof.
  destruct approved_plan_Ok as [p H].
  exact (proj1 (decide_approval_decides approver "plan" (mkApprovalRequest APPROVED None) "approval" (demo_stamps 3) submitted_db p
    approved_db submitted_indexes H)).
Defined.

(** ** What the rules do not reach *)

(** A target taken from where it is to its commit intent. *)
Definition run_target (path : list PublishState) (c : control_db) : result error (CommitIntentRow * control_db) :=
  let? (_, c) := acquire_lease worker "device" "publish-target/target0" 60 "lease" 200 (demo_stamps 4) c in
  let? (_, c) := foldl (fun r s => let? (_, c) := r in
                          let? (_, c) := update_target_state publisher "target0" s None (demo_stamps (10 + str_len (publish_state_value s))) c in Ok (tt, c))
                   (Ok (tt, c)) path in
  create_commit_intent worker "target0" 4 "evidence" "intent" 300 (demo_stamps 7) c.
Definition ran_to (r : result error (CommitIntentRow * control_db)) : control_db :=
  match r with Ok (_, c) => c | Err _ => demo_db end.

(** The creator of a plan that waits for approval can move its target on by
    hand: the intent is registered although nobody approved anything. *)
Lemma commit_without_approval :
  let r := run_target [SCHEDULED; QUEUED; RUNNING] submitted_db in
  is_ok r = true /\ approvals (ran_to r) = [] /\ length (intents (ran_to r)) = 1%nat
  /\ pl_state <$> plans (ran_to r) = [AWAITING_APPROVAL].
Proof. vm_compute. done. Qed.

(** An approval that arrives then puts the committing target back to the
    start: its intent stays, and the target can be run again. *)
Lemma approval_resets_commit :
  let c := ran_to (run_target [SCHEDULED; QUEUED; RUNNING] submitted_db) in
  match decide_approval approver "plan" (mkApprovalRequest APPROVED None) "approval" (demo_stamps 3) c with
  | Ok (_, c) => pt_state <$> targets c = [SCHEDULED] /\ length (intents c) = 1%nat
  | Err _ => False
  end.
Proof. vm_compute. done. Qed.

(** Unbinding the account cancels the approved plan but not its targets, which
    still run to their intent. *)
Lemma unbound_target_commits :
  match unbind_account_device (mkActor "tenant" "op" [DEVICE_OPERATOR] false) "account" "device" 150 (demo_stamps 8) approved_db with
  | Ok (_, c) => pl_state <$> plans c = [CANCELED] /\ pt_state <$> targets c = [SCHEDULED]
                 /\ is_ok (run_target [QUEUED; RUNNING] c) = true
  | Err _ => False
  end.
Proof. vm_compute. done. Qed.
