(* ===== verification/Outbox.v ===== *)
(** * The outbox dispatcher: store.py and dispatcher.py

    The control service writes an event beside the rows it is about;
    dispatchers claim unpublished events, hand them to a sink and mark them.
    [claim], [mark_published] and [mark_failed] are the transactions of
    [OutboxStore]; [dispatch_once] is the program of one round of a dispatcher,
    a tree whose nodes are the calls it awaits; [machine] runs any number of
    these programs call by call, crashing at any point, beside the writers. *)

From stdpp Require Import base gmap strings list.
From Stdlib Require Import ZArith Lia Decidable.
From S2P Require Import Prelude PyStd Domain Rows PyJson FleetIdentity TaskOps History ControlDb Accounts ControlHistory.

Open Scope Z_scope.

(** ** OutboxStore *)

(** Unpublished, and unclaimed or claimed before [stale_before]. *)
Definition pending (stale_before : Z) (e : OutboxEventRow) : Prop :=
  oe_published_at e = None /\ from_option (fun t => t < stale_before) True (oe_claimed_at e).
#[export] Instance pending_dec stale_before e : Decision (pending stale_before e).
Proof. unfold pending. destruct (oe_claimed_at e); cbn; apply _. Defined.

(** [order_by(occurred_at, id)]. *)
Definition earlier_event (a b : OutboxEventRow) : bool :=
  Z.ltb (oe_occurred_at a) (oe_occurred_at b)
  || (Z.eqb (oe_occurred_at a) (oe_occurred_at b) && str_leb (oe_id a) (oe_id b)).

Definition claim_row (owner : string) (now : Z) (e : OutboxEventRow) : OutboxEventRow :=
  e <| oe_claimed_at := Some now |> <| oe_claim_owner := Some owner |> <| oe_attempts := oe_attempts e + 1 |>.

Definition put_event (e : OutboxEventRow) (c : control_db) : control_db := c <| outbox := tput oe_id e (outbox c) |>.

(** The rows selected; [skip_locked] skips none, transactions being serial. *)
Definition claimable (batch_size : nat) (stale_before : Z) (c : control_db) : list OutboxEventRow :=
  firstn batch_size (isort earlier_event (filter (pending stale_before) (outbox c))).

Definition claim (owner : string) (batch_size : nat) (claim_ttl now : Z) (c : control_db)
    : result error (list OutboxEventRow * control_db) :=
  control_unit_of_work (fun c =>
    let rows := claim_row owner now <$> claimable batch_size (now - claim_ttl) c in
    Ok (rows, foldl (fun c e => put_event e c) c rows)) c.

Definition owned (owner : string) (e : OutboxEventRow) : Prop := oe_published_at e = None /\ oe_claim_owner e = Some owner.
#[export] Instance owned_dec owner e : Decision (owned owner e).
Proof. unfold owned. apply _. Defined.

Definition mark_published (event_id owner : string) (now : Z) (c : control_db) : result error (bool * control_db) :=
  control_unit_of_work (fun c =>
    match tget oe_id event_id (outbox c) with
    | Some e =>
        if decide (owned owner e) then
          Ok (true, put_event (e <| oe_published_at := Some now |> <| oe_claimed_at := None |>
                                 <| oe_claim_owner := None |> <| oe_last_error := None |>) c)
        else Ok (false, c)
    | None => Ok (false, c)
    end) c.

Definition mark_failed (event_id owner err : string) (c : control_db) : result error (bool * control_db) :=
  control_unit_of_work (fun c =>
    match tget oe_id event_id (outbox c) with
    | Some e =>
        if decide (owned owner e) then
          Ok (true, put_event (e <| oe_claimed_at := None |> <| oe_claim_owner := None |>
                                 <| oe_last_error := Some (str_take 2000 err) |>) c)
        else Ok (false, c)
    | None => Ok (false, c)
    end) c.

(** ** OutboxDispatcher *)

(** The fields handed to the sink. *)
Definition EventEnvelope (e : OutboxEventRow) := event_frozen e.

(** A round, up to the call it waits for, and what it does with the answer: the
    rows of [store.claim], what [sink.publish] raised ([None]: it returned),
    the booleans of the two marks. *)
Inductive round : Type :=
| Return (delivered : Z)
| Await_claim (k : list OutboxEventRow -> round)
| Await_publish (e : OutboxEventRow) (k : option string -> round)
| Await_mark_failed (event_id err : string) (k : bool -> round)
| Await_mark_published (event_id : string) (k : bool -> round).

(** The loop over the claimed rows. *)
Fixpoint deliver (rows : list OutboxEventRow) (delivered : Z) : round :=
  match rows with
  | [] => Return delivered
  | e :: rows =>
      Await_publish e (fun raised =>
        match raised with
        | Some name => Await_mark_failed (oe_id e) name (fun _ => deliver rows delivered)
        | None => Await_mark_published (oe_id e) (fun marked => deliver rows (if marked then delivered + 1 else delivered))
        end)
  end.

Definition dispatch_once : round := Await_claim (fun rows => deliver rows 0).

Record dispatcher := mkDispatcher { dp_owner : string; dp_batch_size : nat; dp_claim_ttl : Z }.

(** A round that nothing interrupts: at one time, with a sink that answers by
    the event. *)
Fixpoint run_round (d : dispatcher) (sink : OutboxEventRow -> option string) (now : Z) (p : round) (c : control_db)
    : result error (Z * control_db) :=
  match p with
  | Return delivered => Ok (delivered, c)
  | Await_claim k => let? (rows, c) := claim (dp_owner d) (dp_batch_size d) (dp_claim_ttl d) now c in run_round d sink now (k rows) c
  | Await_publish e k => run_round d sink now (k (sink e)) c
  | Await_mark_failed id err k => let? (b, c) := mark_failed id (dp_owner d) err c in run_round d sink now (k b) c
  | Await_mark_published id k => let? (b, c) := mark_published id (dp_owner d) now c in run_round d sink now (k b) c
  end.

(** ** Lemmas *)

(** Only the outbox differs, by bookkeeping of its events. *)
Record bookkeeping (c c' : control_db) : Prop := mkBookkeeping {
  bo_rest : c' = c <| outbox := outbox c' |>;
  bo_events : Forall2 event_le (outbox c) (outbox c');
}.
#[export] Instance bookkeeping_preorder : PreOrder bookkeeping.
Proof.
  split; [intros c; split; [by destruct c|reflexivity]|]. intros c d e [R1 E1] [R2 E2]. split; [|by etransitivity].
  rewrite R2, R1. reflexivity.
Qed.

Lemma bookkeeping_le c c' : bookkeeping c c' -> control_le c c'.
Proof.
  intros [R E]. rewrite R. split; cbn; first [reflexivity|apply grows_refl, _|idtac]. by apply grows_Forall2.
Qed.

Lemma event_le_id e e' : event_le e e' -> oe_id e' = oe_id e.
Proof. intros [F _ _]. by injection F. Qed.

Lemma put_event_bookkeeping e e' c : NoDup (oe_id <$> outbox c) -> tget oe_id (oe_id e') (outbox c) = Some e ->
  event_le e e' -> bookkeeping c (put_event e' c).
Proof. intros Hn Hg Hle. split; [by destruct c|]. cbn. by apply (tput_Forall2 oe_id event_le e). Qed.

Lemma event_ids c c' : bookkeeping c c' -> oe_id <$> outbox c' = oe_id <$> outbox c.
Proof. intros [_ E]. induction E as [|e e' l l' He _ IH]; [done|]. cbn. by rewrite IH, (event_le_id _ _ He). Qed.

Lemma bookkeeping_indexes c c' : bookkeeping c c' -> control_indexes c -> control_indexes c'.
Proof.
  intros Hb []. pose proof (event_ids _ _ Hb) as Hid. destruct Hb as [R _]. rewrite R. split; cbn; try done. by rewrite Hid.
Qed.

Lemma claim_row_le owner now e : oe_published_at e = None -> event_le e (claim_row owner now e).
Proof. intros H. split; cbn; [done|lia|]. rewrite H. by intros []. Qed.

Section Table.
Context (owner : string) (now : Z) (c0 : control_db).
Hypothesis Hn : NoDup (oe_id <$> outbox c0).

(** The events selected by a claim, written one after the other. *)
Lemma foldl_put_spec rows : (forall e, e ∈ rows -> e ∈ outbox c0 /\ oe_published_at e = None) ->
  let c' := foldl (fun c e => put_event e c) c0 (claim_row owner now <$> rows) in
  bookkeeping c0 c'
  /\ outbox c' = (fun e => if decide (oe_id e ∈ oe_id <$> rows) then claim_row owner now e else e) <$> outbox c0.
Proof.
  induction rows as [|e rows IH] using rev_ind; intros Hr.
  { cbn. split; [reflexivity|]. rewrite <- (list_fmap_id (outbox c0)) at 1. apply list_fmap_ext. intros i x _.
    by rewrite decide_False by apply not_elem_of_nil. }
  rewrite fmap_app, foldl_app. cbn [fmap list_fmap foldl]. set (c1 := foldl _ c0 _) in *.
  destruct IH as [Hb E]; [intros x Hx; apply Hr, elem_of_app; by left|].
  destruct (Hr e) as [Hin Hp]; [apply elem_of_app; right; by left|].
  assert (exists e1, tget oe_id (oe_id e) (outbox c1) = Some e1 /\ event_le e1 (claim_row owner now e)) as (e1 & Hg & Hle).
  { exists (if decide (oe_id e ∈ oe_id <$> rows) then claim_row owner now e else e). split.
    - rewrite E. set (g := fun e => if decide (oe_id e ∈ oe_id <$> rows) then claim_row owner now e else e).
      assert (oe_id (g e) = oe_id e) as Eg by (unfold g; by case_decide).
      pose proof (tget_In oe_id (g <$> outbox c0) (g e)) as T. rewrite Eg in T. apply T; [|by apply list_elem_of_fmap_2].
      change (NoDup (oe_id <$> (g <$> outbox c0))). unfold g. by rewrite <- E, (event_ids _ _ Hb).
    - case_decide; [reflexivity|by apply claim_row_le]. }
  assert (NoDup (oe_id <$> outbox c1)) as Hn1 by (by rewrite (event_ids _ _ Hb)).
  split; [etransitivity; [exact Hb|by eapply put_event_bookkeeping]|].
  cbn. rewrite E. unfold tput. rewrite <- list_fmap_compose. apply list_fmap_ext. intros i x Hx. cbn.
  apply list_elem_of_lookup_2 in Hx.
  assert (oe_id (if decide (oe_id x ∈ oe_id <$> rows) then claim_row owner now x else x) = oe_id x) as -> by (by case_decide).
  rewrite fmap_app. destruct (decide (oe_id x = oe_id e)) as [Ex|Ex].
  - assert (x = e) as -> by (by apply (NoDup_fmap_eq oe_id (outbox c0))).
    rewrite decide_True; [done|]. apply elem_of_app. right. by left.
  - destruct (decide (oe_id x ∈ oe_id <$> rows)) as [Hm|Hm].
    + rewrite decide_True; [done|]. apply elem_of_app. by left.
    + rewrite decide_False; [done|]. intros [H|H]%elem_of_app; [done|]. apply list_elem_of_singleton in H. done.
Qed.
End Table.

Lemma claimable_pending n b c e : e ∈ claimable n b c -> e ∈ outbox c /\ pending b e.
Proof.
  intros H. apply (sublist_subseteq _ _ (sublist_take _ n)), elem_of_isort, list_elem_of_filter in H. tauto.
Qed.

Lemma claim_spec owner n ttl now c rows c' : claim owner n ttl now c = Ok (rows, c') ->
  rows = claim_row owner now <$> claimable n (now - ttl) c /\ unique_indexes (core c') /\ control_indexes c'
  /\ (control_indexes c -> bookkeeping c c'
      /\ outbox c' = (fun e => if decide (oe_id e ∈ oe_id <$> claimable n (now - ttl) c) then claim_row owner now e else e)
                       <$> outbox c).
Proof.
  unfold claim. intros [H [Hu Hi]]%control_unit_of_work_Ok. injection H as <- <-. do 3 (split; [done|]). intros Hc.
  apply foldl_put_spec; [apply Hc|]. intros e [? [? _]]%claimable_pending. done.
Qed.

Lemma claim_Ok owner n ttl now c : unique_indexes (core c) -> control_indexes c -> exists rows c', claim owner n ttl now c = Ok (rows, c').
Proof.
  intros Hu Hi. eexists _, _. apply control_unit_of_work_intro; [reflexivity|..].
  all: destruct (foldl_put_spec owner now c (ix_outbox _ Hi) (claimable n (now - ttl) c)) as [Hb _];
    [intros e [? [? _]]%claimable_pending; done|].
  - destruct Hb as [R _]. by rewrite R.
  - by eapply bookkeeping_indexes.
Qed.

(** Marking writes when the caller owns the unpublished event, and only then. *)
Lemma mark_spec (f : OutboxEventRow -> OutboxEventRow) id owner c b c' :
  (forall e, oe_published_at e = None -> event_le e (f e)) ->
  control_unit_of_work (fun c => match tget oe_id id (outbox c) with
    | Some e => if decide (owned owner e) then Ok (true, put_event (f e) c) else Ok (false, c)
    | None => Ok (false, c) end) c = Ok (b, c') ->
  unique_indexes (core c') /\ control_indexes c'
  /\ ((b = true /\ exists e, tget oe_id id (outbox c) = Some e /\ owned owner e /\ c' = put_event (f e) c)
      \/ (b = false /\ c' = c)).
Proof.
  intros Hf [H [Hu Hi]]%control_unit_of_work_Ok. do 2 (split; [done|]). ok_inv H; [left|right; done..]. eauto.
Qed.

Definition published_row (now : Z) (e : OutboxEventRow) : OutboxEventRow :=
  e <| oe_published_at := Some now |> <| oe_claimed_at := None |> <| oe_claim_owner := None |> <| oe_last_error := None |>.
Definition failed_row (err : string) (e : OutboxEventRow) : OutboxEventRow :=
  e <| oe_claimed_at := None |> <| oe_claim_owner := None |> <| oe_last_error := Some (str_take 2000 err) |>.

Lemma published_row_le now e : oe_published_at e = None -> event_le e (published_row now e).
Proof. intros H. split; cbn; [done|lia|]. rewrite H. by intros []. Qed.
Lemma failed_row_le err e : oe_published_at e = None -> event_le e (failed_row err e).
Proof. intros H. split; cbn; [done|lia|]. rewrite H. by intros []. Qed.

Lemma mark_bookkeeping f id owner c b c' : (forall e, oe_published_at e = None -> event_le e (f e)) -> control_indexes c ->
  (b = true /\ exists e, tget oe_id id (outbox c) = Some e /\ owned owner e /\ c' = put_event (f e) c) \/ (b = false /\ c' = c) ->
  bookkeeping c c'.
Proof.
  intros Hf Hi [[_ (e & Hg & [Hp _] & ->)]|[_ ->]]; [|reflexivity].
  eapply put_event_bookkeeping; [apply Hi| |by apply Hf].
  rewrite (event_le_id _ _ (Hf e Hp)). pose proof Hg as [_ E]%tget_Some. rewrite E. exact Hg.
Qed.

(** ** One round of one dispatcher *)

Section Round.
Context (d : dispatcher) (sink : OutboxEventRow -> option string) (now : Z).
Let owner := dp_owner d.

Definition settled_row (e : OutboxEventRow) : OutboxEventRow :=
  match sink e with None => published_row now e | Some err => failed_row err e end.

Lemma settled_row_le e : oe_published_at e = None -> event_le e (settled_row e).
Proof. intros H. unfold settled_row. destruct (sink e); [by apply failed_row_le|by apply published_row_le]. Qed.

Lemma settled_row_id e : oe_id (settled_row e) = oe_id e.
Proof. unfold settled_row. by destruct (sink e). Qed.

Lemma deliver_step e c : unique_indexes (core c) -> control_indexes c -> e ∈ outbox c -> owned owner e ->
  bookkeeping c (put_event (settled_row e) c)
  /\ match sink e with
     | Some err => mark_failed (oe_id e) owner err c = Ok (true, put_event (settled_row e) c)
     | None => mark_published (oe_id e) owner now c = Ok (true, put_event (settled_row e) c)
     end.
Proof.
  intros Hu Hi He Ho. assert (tget oe_id (oe_id e) (outbox c) = Some e) as Hg by (apply tget_In; [apply Hi|done]).
  assert (bookkeeping c (put_event (settled_row e) c)) as Hb.
  { apply (put_event_bookkeeping e); [apply Hi|by rewrite settled_row_id|apply settled_row_le, Ho]. }
  split; [done|]. assert (unique_indexes (core (put_event (settled_row e) c))) as Hu2 by (by destruct c).
  pose proof (bookkeeping_indexes _ _ Hb Hi) as Hi2. unfold settled_row in *.
  destruct (sink e); apply control_unit_of_work_intro; try done; rewrite Hg; by rewrite decide_True.
Qed.

Lemma deliver_spec rows : forall n c, unique_indexes (core c) -> control_indexes c -> NoDup (oe_id <$> rows) ->
  (forall e, e ∈ rows -> e ∈ outbox c /\ owned owner e) ->
  exists c', run_round d sink now (deliver rows n) c = Ok (n + Z.of_nat (length (filter (fun e => sink e = None) rows)), c')
    /\ bookkeeping c c'
    /\ outbox c' = (fun e => if decide (oe_id e ∈ oe_id <$> rows) then settled_row e else e) <$> outbox c.
Proof.
  induction rows as [|e rows IH]; intros n c Hu Hi Hn Hr.
  { exists c. split; [by rewrite Z.add_0_r|]. split; [reflexivity|]. rewrite <- (list_fmap_id (outbox c)) at 1.
    apply list_fmap_ext. intros i x _. by rewrite decide_False by apply not_elem_of_nil. }
  rewrite fmap_cons, NoDup_cons in Hn. destruct Hn as [Hne Hn].
  destruct (Hr e) as [He Ho]; [by left|]. destruct (deliver_step e c Hu Hi He Ho) as [Hb Hm].
  set (c1 := put_event (settled_row e) c) in *.
  assert (unique_indexes (core c1)) as Hu1 by (by destruct c). pose proof (bookkeeping_indexes _ _ Hb Hi) as Hi1.
  destruct (IH (n + (if decide (sink e = None) then 1 else 0)) c1 Hu1 Hi1 Hn) as (c' & H & Hb' & E).
  { intros x Hx. destruct (Hr x) as [Hxo Hxw]; [by right|]. split; [|done]. cbn.
    apply elem_of_tput_other; [done|]. rewrite settled_row_id. intros Ex. apply Hne. rewrite <- Ex. by apply list_elem_of_fmap_2. }
  exists c'. split; [|split; [by etransitivity|]].
  - cbn [deliver run_round]. fold owner. rewrite filter_cons. destruct (sink e) as [err|]; cbn [run_round]; fold owner; rewrite Hm.
    + rewrite decide_False in H by done. rewrite decide_False by done. by rewrite Z.add_0_r in H.
    + rewrite decide_True in H by done. rewrite decide_True by done. cbn [length].
      rewrite H. f_equal. f_equal. lia.
  - rewrite E. cbn. unfold tput. rewrite <- list_fmap_compose. apply list_fmap_ext. intros i x Hx. cbn.
    apply list_elem_of_lookup_2 in Hx. rewrite settled_row_id. destruct (decide (oe_id x = oe_id e)) as [Ex|Ex].
    + assert (x = e) as -> by (apply (NoDup_fmap_eq oe_id (outbox c)); [apply Hi|done..]).
      rewrite settled_row_id, decide_False by done. rewrite decide_True; [done|by left].
    + destruct (decide (oe_id x ∈ oe_id <$> rows)) as [D|D]; [rewrite decide_True; [done|by right]|].
      rewrite decide_False; [done|]. intros [?|?]%elem_of_cons; done.
Qed.
End Round.

(** A round of a dispatcher. It takes the oldest pending events, up to its
    batch size, hands each to the sink once, publishes those the sink took and
    releases the others with the name of the exception, to be claimed again at
    once; every other event is untouched, and the number returned is that of
    the events published. *)
Theorem dispatch_once_round d now sink c (Hu : unique_indexes (core c)) (Hi : control_indexes c) :
  let batch := claimable (dp_batch_size d) (now - dp_claim_ttl d) c in
  exists c', run_round d sink now dispatch_once c
      = Ok (Z.of_nat (length (filter (fun e => sink (claim_row (dp_owner d) now e) = None) batch)), c')
    /\ outbox c' = (fun e => if decide (oe_id e ∈ oe_id <$> batch) then settled_row sink now (claim_row (dp_owner d) now e) else e)
                     <$> outbox c
    /\ c' = c <| outbox := outbox c' |>.
Proof.
  intros batch. set (owner := dp_owner d). destruct (claim_Ok owner (dp_batch_size d) (dp_claim_ttl d) now c Hu Hi) as (rows & c1 & H1).
  unfold dispatch_once. cbn [run_round]. fold owner. rewrite H1.
  pose proof (claim_spec _ _ _ _ _ _ _ H1) as (-> & Hu1 & Hi1 & Hc). destruct (Hc Hi) as [Hb E]. fold batch in E.
  assert (oe_id <$> (claim_row owner now <$> batch) = oe_id <$> batch) as Hid by (rewrite <- list_fmap_compose; reflexivity).
  destruct (deliver_spec d sink now (claim_row owner now <$> batch) 0 c1 Hu1 Hi1) as (c' & H2 & Hb2 & E2).
  { rewrite Hid. apply (sublist_NoDup_fmap oe_id batch (isort earlier_event (filter (pending (now - dp_claim_ttl d)) (outbox c)))); [apply sublist_take|].
    rewrite isort_Permutation. eapply sublist_NoDup_fmap; [apply sublist_filter|apply Hi]. }
  { intros e (e0 & -> & He)%list_elem_of_fmap. pose proof He as [Hin [Hp _]]%claimable_pending. split; [|by split].
    rewrite E. apply list_elem_of_fmap. exists e0. split; [|done]. rewrite decide_True; [done|]. by apply list_elem_of_fmap_2. }
  exists c'. split; [|split].
  - fold batch. rewrite H2. f_equal. f_equal. clear. induction batch as [|e l IH]; [done|].
    rewrite fmap_cons, !filter_cons. case_decide; cbn [length]; lia.
  - rewrite E2, E, <- list_fmap_compose. apply list_fmap_ext. intros i x _. cbn. rewrite Hid.
    destruct (decide (oe_id x ∈ oe_id <$> batch)) as [D|D]; [|by rewrite decide_False]. by rewrite decide_True.
  - destruct (bookkeeping_preorder) as [_ Ht]. by destruct (Ht _ _ _ Hb Hb2) as [R _].
Qed.

(** ** Any number of dispatchers *)

Definition envelope : Type := string * string * string * string * string * list (string * json) * Z.
(** [ds_rounds]: the rounds that are running; [ds_sent]: what the sink has
    accepted. *)
Record machine := mkMachine { ds_db : control_db; ds_rounds : list (dispatcher * round); ds_sent : list envelope }.

(** What other transactions do to the outbox: they add events. *)
Definition emits (c c' : control_db) : Prop :=
  exists new, outbox c' = outbox c ++ new /\ Forall (fun e => oe_published_at e = None) new.

(** The call a round waits for is answered: the store's by its transaction, at
    whatever time it is; the sink accepts the event and returns, or it raises,
    having accepted the event or not. *)
Inductive answers (d : dispatcher) : round -> control_db -> list envelope -> round -> control_db -> list envelope -> Prop :=
| answer_claim k c log now rows c' : claim (dp_owner d) (dp_batch_size d) (dp_claim_ttl d) now c = Ok (rows, c') ->
    answers d (Await_claim k) c log (k rows) c' log
| answer_publish e k c log : answers d (Await_publish e k) c log (k None) c (log ++ [EventEnvelope e])
| answer_raised e k c log name (accepted : bool) :
    answers d (Await_publish e k) c log (k (Some name)) c (if accepted then log ++ [EventEnvelope e] else log)
| answer_mark_failed id err k c log b c' : mark_failed id (dp_owner d) err c = Ok (b, c') ->
    answers d (Await_mark_failed id err k) c log (k b) c' log
| answer_mark_published id k c log now b c' : mark_published id (dp_owner d) now c = Ok (b, c') ->
    answers d (Await_mark_published id k) c log (k b) c' log.

(** Writers commit, a dispatcher begins a round, a round takes a step, a round
    is over: it has returned, or a call of the store raised, or its process
    died. *)
Inductive step : machine -> machine -> Prop :=
| step_write s c' : emits (ds_db s) c' -> unique_indexes (core c') -> control_indexes c' ->
    step s (mkMachine c' (ds_rounds s) (ds_sent s))
| step_begin s d : step s (mkMachine (ds_db s) (ds_rounds s ++ [(d, dispatch_once)]) (ds_sent s))
| step_round l1 l2 d p c log p' c' log' : answers d p c log p' c' log' ->
    step (mkMachine c (l1 ++ (d, p) :: l2) log) (mkMachine c' (l1 ++ (d, p') :: l2) log')
| step_over l1 l2 d p c log : step (mkMachine c (l1 ++ (d, p) :: l2) log) (mkMachine c (l1 ++ l2) log).

(** Before the first dispatcher: nothing is published. *)
Record started (s : machine) : Prop := mkStarted {
  sd_unique : unique_indexes (core (ds_db s));
  sd_indexes : control_indexes (ds_db s);
  sd_unpublished : Forall (fun e => oe_published_at e = None) (outbox (ds_db s));
  sd_idle : ds_rounds s = [];
}.

Definition in_outbox (c : control_db) (e : OutboxEventRow) : Prop := exists r, r ∈ outbox c /\ event_frozen r = event_frozen e.

(** Where a round of the dispatcher can be: before its claim, in front of a
    row, or marking one: publishing one only when it was sent. *)
Inductive at_work (c : control_db) (log : list envelope) : round -> Prop :=
| work_begin : at_work c log dispatch_once
| work_rows rows n : Forall (in_outbox c) rows -> at_work c log (deliver rows n)
| work_failed e err rows n : Forall (in_outbox c) rows -> at_work c log (Await_mark_failed (oe_id e) err (fun _ => deliver rows n))
| work_published e rows n : Forall (in_outbox c) rows -> in_outbox c e -> EventEnvelope e ∈ log ->
    at_work c log (Await_mark_published (oe_id e) (fun marked => deliver rows (if marked then n + 1 else n))).

Record good (s : machine) : Prop := mkGood {
  gd_unique : unique_indexes (core (ds_db s));
  gd_indexes : control_indexes (ds_db s);
  gd_published : forall e, e ∈ outbox (ds_db s) -> is_Some (oe_published_at e) -> EventEnvelope e ∈ ds_sent s;
  gd_rounds : Forall (fun dp => at_work (ds_db s) (ds_sent s) dp.2) (ds_rounds s);
}.

Lemma in_outbox_le c c' e : grows event_le anything (outbox c) (outbox c') -> in_outbox c e -> in_outbox c' e.
Proof.
  intros Hg (r & Hr & E). destruct (grows_In _ _ _ _ r Hg Hr) as (r' & Hr' & [F _ _]). exists r'. split; [done|congruence].
Qed.

Lemma in_outbox_kept c c' e : bookkeeping c c' -> in_outbox c e -> in_outbox c' e.
Proof. intros [_ B]. apply in_outbox_le, grows_Forall2, B. Qed.

Lemma at_work_mono c c' log log' p : (forall e, in_outbox c e -> in_outbox c' e) -> (forall x, x ∈ log -> x ∈ log') ->
  at_work c log p -> at_work c' log' p.
Proof. intros Hc Hl [|rows n H|e err rows n H|e rows n H H1 H2]; constructor; eauto using Forall_impl. Qed.

Lemma event_frozen_id e e' : event_frozen e = event_frozen e' -> oe_id e = oe_id e'.
Proof. intros F. by injection F. Qed.

(** A transaction on the outbox, and what it may publish. *)
Record settles (c : control_db) (log : list envelope) (c' : control_db) : Prop := mkSettles {
  st_unique : unique_indexes (core c');
  st_indexes : control_indexes c';
  st_kept : bookkeeping c c';
  st_published : forall e, e ∈ outbox c' -> is_Some (oe_published_at e) -> EventEnvelope e ∈ log;
}.

Lemma mark_settles f id owner b c c' log : control_indexes c ->
  (forall e, e ∈ outbox c -> is_Some (oe_published_at e) -> EventEnvelope e ∈ log) ->
  (forall e, oe_published_at e = None -> event_le e (f e)) ->
  (forall e, e ∈ outbox c -> oe_id e = id -> is_Some (oe_published_at (f e)) -> EventEnvelope e ∈ log) ->
  control_unit_of_work (fun c => match tget oe_id id (outbox c) with
    | Some e => if decide (owned owner e) then Ok (true, put_event (f e) c) else Ok (false, c)
    | None => Ok (false, c) end) c = Ok (b, c') ->
  settles c log c'.
Proof.
  intros Hi Hp Hf Hs (Hu' & Hi' & H)%(mark_spec f); [|done]. split; [done|done|by eapply mark_bookkeeping|].
  intros e He Hpub. destruct H as [[_ (e0 & Hg & [Hn _] & ->)]|[_ ->]]; [|by apply Hp].
  apply elem_of_tput in He as [[-> _]|[He _]]; [|by apply Hp]. apply tget_Some in Hg as [Hin Hid].
  unfold EventEnvelope. rewrite (evl_frozen _ _ (Hf e0 Hn)). by apply Hs.
Qed.

(** A step of a round keeps it where the dispatcher's program can be. *)
Lemma answers_settle d p c log p' c' log' : unique_indexes (core c) -> control_indexes c ->
  (forall e, e ∈ outbox c -> is_Some (oe_published_at e) -> EventEnvelope e ∈ log) -> at_work c log p ->
  answers d p c log p' c' log' -> settles c log' c' /\ (forall x, x ∈ log -> x ∈ log') /\ at_work c' log' p'.
Proof.
  intros Hu Hi Hp Hw Ha. assert (forall log', (forall x, x ∈ log -> x ∈ log') -> settles c log' c) as Hsame.
  { intros l Hl. split; [done|done|reflexivity|]. intros e He Hpub. apply Hl. by apply Hp. }
  assert (forall e x, x ∈ log -> x ∈ log ++ [EventEnvelope e]) as Hadd by (intros; apply elem_of_app; by left).
  assert (forall e (b : bool) x, x ∈ log -> x ∈ (if b then log ++ [EventEnvelope e] else log)) as Hif by (intros e []; eauto).
  inversion Hw as [E|rows n Hrows E|e err rows n Hrows E|e rows n Hrows He Hsent E]; subst p.
  - unfold dispatch_once in Ha. inversion Ha as [? ? ? now rows ? H| | | |]; subst.
    pose proof (claim_spec _ _ _ _ _ _ _ H) as (-> & Hu' & Hi' & Hc). destruct (Hc Hi) as [Hb E].
    split; [split; [done|done|done|]|split; [done|]].
    + intros e. rewrite E. intros (e0 & -> & He)%list_elem_of_fmap. case_decide; [|by apply Hp]. intros Hpub. exact (Hp e0 He Hpub).
    + apply work_rows, Forall_fmap, Forall_forall. intros e [He _]%claimable_pending.
      apply (in_outbox_kept c); [done|]. exists e. by split.
  - destruct rows as [|e rows]; inversion Ha; subst; apply Forall_cons in Hrows as [He Hrows].
    + split; [apply Hsame, Hadd|]. split; [apply Hadd|]. apply work_published; [done|done|]. apply elem_of_app. right. by left.
    + split; [apply Hsame, Hif|]. split; [apply Hif|]. by apply work_failed.
  - inversion Ha as [| | |? ? ? ? ? ? ? H|]; subst. assert (settles c log' c') as Hs.
    { apply (mark_settles (failed_row err) (oe_id e) (dp_owner d) b); [done|done|apply failed_row_le| |exact H].
      intros e0 He0 _ Hpub. exact (Hp e0 He0 Hpub). }
    split; [done|]. split; [done|]. apply work_rows. eapply Forall_impl; [exact Hrows|]. intros x. apply in_outbox_kept, Hs.
  - inversion Ha as [| | | |? ? ? ? now ? ? H]; subst. assert (settles c log' c') as Hs.
    { apply (mark_settles (published_row now) (oe_id e) (dp_owner d) b); [done|done|apply published_row_le| |exact H].
      intros e0 He0 Hid _. destruct He as (r & Hr & Er). assert (e0 = r) as ->.
      { apply (NoDup_fmap_eq oe_id (outbox c)); [apply Hi|done|done|]. rewrite Hid. symmetry. by apply event_frozen_id. }
      unfold EventEnvelope. by rewrite Er. }
    split; [done|]. split; [done|]. apply work_rows. eapply Forall_impl; [exact Hrows|]. intros x. apply in_outbox_kept, Hs.
Qed.

Lemma rounds_work c c' log log' (l : list (dispatcher * round)) : (forall e, in_outbox c e -> in_outbox c' e) ->
  (forall x, x ∈ log -> x ∈ log') -> Forall (fun dp => at_work c log dp.2) l -> Forall (fun dp => at_work c' log' dp.2) l.
Proof. intros Hc Hl Hw. eapply Forall_impl; [exact Hw|]. intros [d p]. by apply at_work_mono. Qed.

Lemma writers_keep c c' e : emits c c' -> in_outbox c e -> in_outbox c' e.
Proof. intros (new & E & _) (r & Hr & Er). exists r. split; [|done]. rewrite E. apply elem_of_app. by left. Qed.

Lemma good_step s s' : good s -> step s s' -> good s'.
Proof.
  intros [Gu Gi Gp Gr] Hs. destruct Hs as [s c' He Hu Hi|s d|l1 l2 d p c log p' c' log' Ha|l1 l2 d p c log]; cbn in *.
  - split; cbn; [done|done| |].
    + intros e Hin Hp. destruct He as (new & E & Hn). rewrite E in Hin. apply elem_of_app in Hin as [Hin|Hin]; [by apply Gp|].
      rewrite Forall_forall in Hn. rewrite (Hn e Hin) in Hp. by destruct Hp.
    + eapply rounds_work; [|done|exact Gr]. intros e. by apply writers_keep.
  - split; cbn; [done..|]. apply Forall_app. split; [done|]. apply Forall_singleton, work_begin.
  - apply Forall_app in Gr as [G1 [Gw G2]%Forall_cons].
    destruct (answers_settle d p c log p' c' log' Gu Gi Gp Gw Ha) as ([Su Si Sk Sp] & Hl & Hw). split; cbn; [done..|].
    assert (forall e, in_outbox c e -> in_outbox c' e) as Hk by (intros e; by apply in_outbox_kept).
    apply Forall_app. split; [by eapply rounds_work|]. constructor; [done|by eapply rounds_work].
  - split; cbn; [done..|]. apply Forall_app in Gr as [G1 [_ G2]%Forall_cons]. by apply Forall_app.
Qed.

Lemma good_run s s' : good s -> rtc step s s' -> good s'.
Proof. intros G Hr. revert G. induction Hr; [done|]. eauto using good_step. Qed.

Lemma started_good s : started s -> good s.
Proof.
  intros [Hu Hi Hn Hf]. split; try done.
  - intros e He Hp. rewrite Forall_forall in Hn. rewrite (Hn e He) in Hp. by destruct Hp.
  - by rewrite Hf.
Qed.

Lemma step_keeps_events s s' e : good s -> step s s' -> in_outbox (ds_db s) e -> in_outbox (ds_db s') e.
Proof.
  intros [Gu Gi Gp Gr] Hs. destruct Hs as [s c' He Hu Hi|s d|l1 l2 d p c log p' c' log' Ha|l1 l2 d p c log]; cbn in *; try done.
  - by apply writers_keep.
  - apply Forall_app in Gr as [_ [Gw _]%Forall_cons]. apply in_outbox_kept. by eapply answers_settle.
Qed.

(** C15. Delivery before marking, and no event is lost. Whatever writers and
    dispatchers do, and whenever dispatchers crash, an event is published in
    the database only if the sink accepted it, and every event ever written
    is still there. *)
Theorem published_events_were_sent s0 s (Hi : started s0) (Hr : rtc step s0 s) :
  (forall e, e ∈ outbox (ds_db s) -> is_Some (oe_published_at e) -> EventEnvelope e ∈ ds_sent s)
  /\ (forall s1 e, rtc step s0 s1 -> rtc step s1 s -> e ∈ outbox (ds_db s1) -> in_outbox (ds_db s) e).
Proof.
  pose proof (started_good _ Hi) as G. split; [by apply (good_run s0)|].
  intros s1 e H1 H2 He. pose proof (good_run _ _ G H1) as G1.
  assert (in_outbox (ds_db s1) e) as Hin by (by exists e). revert G1 Hin. clear -H2.
  induction H2 as [s|s t u Hs Hr IH]; [done|]. intros G Hin. apply IH; [by eapply good_step|by eapply step_keeps_events].
Qed.

(** A round that nothing interrupts is a run of the machine. *)
Lemma round_runs d sink now p : forall c log n c', run_round d sink now p c = Ok (n, c') ->
  forall l, exists log', rtc step (mkMachine c (l ++ [(d, p)]) log) (mkMachine c' l log').
Proof.
  assert (forall p p' c log c' log' l s, answers d p c log p' c' log' -> rtc step (mkMachine c' (l ++ [(d, p')]) log') s ->
            rtc step (mkMachine c (l ++ [(d, p)]) log) s) as Hstep.
  { intros q q' c log c' log' l s Ha Hr. eapply rtc_l; [by apply step_round|exact Hr]. }
  induction p as [n0|k IH|e k IH|id err k IH|id k IH]; cbn [run_round]; intros c log n c' H l.
  - simplify_eq. exists log. apply rtc_once. pose proof (step_over l [] d (Return n) c' log) as Hs. by rewrite app_nil_r in Hs.
  - destruct (claim _ _ _ _ c) as [[rows c1]|] eqn:E; [|done]. destruct (IH rows c1 log n c' H l) as [log' Hr].
    exists log'. eapply Hstep; [|exact Hr]. by eapply answer_claim.
  - set (log1 := match sink e with Some _ => log | None => log ++ [EventEnvelope e] end).
    destruct (IH (sink e) c log1 n c' H l) as [log' Hr]. exists log'. eapply Hstep; [|exact Hr]. unfold log1.
    destruct (sink e) as [name|]; [exact (answer_raised d e k c log name false)|apply answer_publish].
  - destruct (mark_failed id _ err c) as [[b c1]|] eqn:E; [|done]. destruct (IH b c1 log n c' H l) as [log' Hr].
    exists log'. eapply Hstep; [|exact Hr]. by apply answer_mark_failed.
  - destruct (mark_published id _ now c) as [[b c1]|] eqn:E; [|done]. destruct (IH b c1 log n c' H l) as [log' Hr].
    exists log'. eapply Hstep; [|exact Hr]. by eapply answer_mark_published.
Qed.

Lemma dispatch_runs d sink now s n c' : run_round d sink now dispatch_once (ds_db s) = Ok (n, c') ->
  exists log', rtc step s (mkMachine c' (ds_rounds s) log').
Proof.
  intros H. destruct (round_runs d sink now _ _ (ds_sent s) _ _ H (ds_rounds s)) as [log' Hr]. exists log'.
  eapply rtc_l; [apply (step_begin s d)|exact Hr].
Qed.

(** A time by which every claim is stale. *)
Lemma stale_time ttl l : exists now, Forall (fun e => oe_published_at e = None -> pending (now - ttl) e) l.
Proof.
  induction l as [|e l [now IH]]; [by exists 0|].
  exists (Z.max now (from_option Z.succ 0 (oe_claimed_at e) + ttl)). constructor.
  - intros Hp. split; [done|]. destruct (oe_claimed_at e); cbn; [lia|done].
  - eapply Forall_impl; [exact IH|]. intros x Hx Hp. destruct (Hx Hp) as [_ Hc]. split; [done|].
    destruct (oe_claimed_at x); cbn in *; [lia|done].
Qed.

Lemma claimable_all b c e : e ∈ outbox c -> pending b e -> e ∈ claimable (length (outbox c)) b c.
Proof.
  intros He Hp. unfold claimable. rewrite firstn_all2.
  - by apply elem_of_isort, list_elem_of_filter.
  - rewrite (Permutation_length (isort_Permutation _ _)). apply length_filter.
Qed.


(** ** Witnesses *)

Definition pending_event (k : string) (n : Z) : OutboxEventRow :=
  mkOutboxEvent k "tenant" "device" "device" "device.maintenance.updated" [] n None None None 0 None.
Definition outbox_db : control_db :=
  mkControlDb empty_db [] [] [] [] [] [] [] [] [pending_event "b" 2; pending_event "a" 1].
Definition first_machine : machine := mkMachine outbox_db [] [].

Lemma first_started : started first_machine.
Proof. split; [apply (bool_decide_unpack _); vm_compute; exact I..|by repeat constructor|reflexivity]. Qed.

(** A round over the two events. *)
Lemma outbox_first_round : exists s, rtc step first_machine s
  /\ oe_published_at <$> outbox (ds_db s) = [Some 500; Some 500] /\ event_frozen <$> outbox (ds_db s) = event_frozen <$> outbox outbox_db.
Proof.
  destruct (dispatch_once_round (mkDispatcher "dispatcher" 100 120) 500 (fun _ => None) outbox_db (sd_unique _ first_started) (sd_indexes _ first_started))
    as (c' & H & E & _).
  destruct (dispatch_runs _ _ _ first_machine _ _ H) as [log' Hs]. exists (mkMachine c' [] log'). split; [exact Hs|].
  cbn [ds_db]. rewrite E. split; vm_compute; reflexivity.
Qed.

Lemma published_events_were_sent_witness : exists s, rtc step first_machine s
  /\ EventEnvelope (pending_event "a" 1) ∈ ds_sent s /\ EventEnvelope (pending_event "b" 2) ∈ ds_sent s
  /\ in_outbox (ds_db s) (pending_event "a" 1).
Proof.
  destruct outbox_first_round as (s & Hr & Ep & Ef). exists s. split; [exact Hr|].
  destruct (published_events_were_sent first_machine s first_started Hr) as [Hs Hk].
  destruct (outbox (ds_db s)) as [|b [|a []]] eqn:E; try discriminate Ef. injection Ef as Fb Fa. injection Ep as Pb Pa.
  split; [|split; [|apply (Hk first_machine); [reflexivity|exact Hr|right; left]]].
  - replace (EventEnvelope (pending_event "a" 1)) with (EventEnvelope a) by (unfold EventEnvelope, event_frozen; cbn; congruence).
    apply Hs; [right; left|by eexists].
  - replace (EventEnvelope (pending_event "b" 2)) with (EventEnvelope b) by (unfold EventEnvelope, event_frozen; cbn; congruence).
    apply Hs; [left|by eexists].
Defined.


(** The older event is refused by the sink, the newer one taken. *)
Definition picky (e : OutboxEventRow) : option string := if decide (oe_id e = "a") then Some "TimeoutError" else None.
Lemma dispatch_once_round_witness :
  exists c', run_round (mkDispatcher "dispatcher" 100 120) picky 500 dispatch_once outbox_db = Ok (1, c')
             /\ oe_published_at <$> outbox c' = [Some 500; None].
Proof.
  destruct (dispatch_once_round (mkDispatcher "dispatcher" 100 120) 500 picky outbox_db (sd_unique _ first_started) (sd_indexes _ first_started))
    as (c' & H & E & _). exists c'. split; [exact H|]. rewrite E. vm_compute. reflexivity.
Defined.
