(* ===== verification/TaskMachine.v ===== *)
(** * The task machine: executions of the whole control service

    A step is one transaction of one handler that returned; a handler that
    raises rolls its transaction back and writes nothing. The label of a
    step tells the authorisations it gave. [task_step] is a step of the mobile
    control plane on its tables, [step] a step of the service on the whole
    database, administration, publishing and the outbox included. Everything
    the handlers take from outside (clocks, uuids, callers, requests) is
    universally quantified, so that an execution is any interleaving of
    operators, companions, workflows, dispatchers and the intake. *)

From stdpp Require Import base gmap strings list.
From Stdlib Require Import ZArith QArith_base Lia.
From S2P Require Import Prelude PyStd Domain Rows PyJson ControlledActions FleetIdentity FrozenShapes TaskOps ControlDb Accounts ControlHistory Publishing PublishRules Outbox History ControlPlane Claim Companion ControlStream ActionLedger TaskIntake Fencing.

Open Scope Z_scope.

(** A task and an action of it, when the step answered AUTHORIZED. *)
Definition label : Type := option (string * string).

Section Machine.
Context (builtin_recipe_ref : string -> option json) (public_keys : list (string * string))
        (validate_recipe_package : list (string * json) -> string -> option parsed_recipe)
        (float_repr : Q -> string).

Inductive task_step : label -> db -> db -> Prop :=
| step_cancel actor k reason now at_ d r d' : cancel actor k reason now at_ d = Ok (r, d') -> task_step None d d'
| step_pause actor k reason now at_ d r d' : pause actor k reason now at_ d = Ok (r, d') -> task_step None d d'
| step_ack_paused k lease now at_ d r d' : ack_paused k lease now at_ d = Ok (r, d') -> task_step None d d'
| step_resume actor k request lease now at_ d r d' : resume actor k request lease now at_ d = Ok (r, d') -> task_step None d d'
| step_mark_unknown actor k reason now at_ d r d' : mark_unknown actor k reason now at_ d = Ok (r, d') -> task_step None d d'
| step_reconcile actor k request now at_ d r d' : reconcile actor k request now at_ d = Ok (r, d') -> task_step None d d'
| step_claim binding ls protocol remote id now clocks d r d' :
    claim builtin_recipe_ref binding ls protocol remote id now clocks d = Ok (r, d') -> task_step None d d'
| step_release binding k lease reason now d r d' : release binding k lease reason now d = Ok (r, d') -> task_step None d d'
| step_heartbeat binding k lease i ls c now d r d' : heartbeat binding k lease i ls c now d = Ok (r, d') -> task_step None d d'
| step_event binding k lease report c now d r d' : event binding k lease report c now d = Ok (r, d') -> task_step None d d'
| step_finish binding k lease report c now d r d' : finish binding k lease report c now d = Ok (r, d') -> task_step None d d'
| step_control_ack binding body now at_ d r d' : control_ack binding body now at_ d = Ok (r, d') -> task_step None d d'
| step_device_heartbeat binding body now d r d' : device_heartbeat binding body now d = Ok (r, d') -> task_step None d d'
| step_authenticate token now d r d' : authenticate token now d = Ok (r, d') -> task_step None d d'
| step_unbind binding now d d' : unbind binding now d = Ok (tt, d') -> task_step None d d'
| step_intent binding k body c1 c2 now at_ d dec row d' :
    intent public_keys validate_recipe_package binding k body c1 c2 now at_ d = Ok ((dec, row), d') ->
    task_step (match dec with AUTHORIZED => Some (k, in_action_id body) | RECONCILE_REQUIRED => None end) d d'
| step_outcome binding k key body c1 c2 now at_ d r d' :
    outcome public_keys validate_recipe_package binding k key body c1 c2 now at_ d = Ok (r, d') -> task_step None d d'
| step_insert_task request id att now c d r d' : insert_task request id att now c d = Ok (r, d') -> task_step None d d'.

(** A step of the mobile handlers commits under all the indexes. *)
Inductive step : label -> control_db -> control_db -> Prop :=
| step_task l c d' : task_step l (core c) d' -> control_indexes (c <| core := d' |>) -> step l c (c <| core := d' |>)
| step_create_account actor r i now st c a c' : create_platform_account actor r i now st c = Ok (a, c') -> step None c c'
| step_bind actor k dev checked now st c b c' : bind_account_device actor k dev checked now st c = Ok (b, c') -> step None c c'
| step_unbind_account actor k dev now st c r c' : unbind_account_device actor k dev now st c = Ok (r, c') -> step None c c'
| step_account_status actor k r rev now st c a c' : update_account_status actor k r rev now st c = Ok (a, c') -> step None c c'
| step_maintenance actor dev r now st c x c' : set_maintenance actor dev r now st c = Ok (x, c') -> step None c c'
| step_acquire actor dev owner ttl i now st c l c' : acquire_lease actor dev owner ttl i now st c = Ok (l, c') -> step None c c'
| step_release_lease actor dev i now st c r c' : release_lease actor dev i now st c = Ok (r, c') -> step None c c'
| step_create_plan actor key r i now st c p created c' :
    create_plan float_repr actor key r i now st c = Ok ((p, created), c') -> step None c c'
| step_submit_plan actor k sid ids st c p s rows c' :
    submit_plan float_repr actor k sid ids st c = Ok ((p, s, rows), c') -> step None c c'
| step_approval actor k r i st c p c' : decide_approval actor k r i st c = Ok (p, c') -> step None c c'
| step_cancel_plan actor k st c p c' : cancel_plan actor k st c = Ok (p, c') -> step None c c'
| step_commit_intent actor k token ev i now st c o c' :
    create_commit_intent actor k token ev i now st c = Ok (o, c') -> step None c c'
| step_target_state actor k s detail st c t c' : update_target_state actor k s detail st c = Ok (t, c') -> step None c c'
| step_outbox_claim owner n ttl now c rows c' : Outbox.claim owner n ttl now c = Ok (rows, c') -> step None c c'
| step_published k owner now c b c' : mark_published k owner now c = Ok (b, c') -> step None c c'
| step_publish_failed k owner err c b c' : mark_failed k owner err c = Ok (b, c') -> step None c c'.

(** Sequences of steps, with their labels. *)
Inductive execution : control_db -> list label -> control_db -> Prop :=
| execution_nil c : execution c [] c
| execution_snoc c ls c1 l c2 : execution c ls c1 -> step l c1 c2 -> execution c (ls ++ [l]) c2.

(** What holds of the database between transactions: its unique indexes,
    tasks whose two states agree on whether they are over, ledger rows with
    a revision count, leases not ahead of their device, plans that are
    scheduled only when approved. *)
Record well_formed (c : control_db) : Prop := mkWf {
  wf_unique : unique_indexes (core c);
  wf_indexes : control_indexes c;
  wf_consistent : Forall consistent (tasks (core c));
  wf_revised : Forall revised (actions (core c));
  wf_fences : fences (core c);
  wf_admitted : Forall (plan_admitted c) (plans c);
}.

Definition authorised (ls : list label) : list (string * string) := omap id ls.

(** ** Lemmas *)

(** Every handler that returned has committed its transaction. *)
Ltac committed H :=
  unfold cancel, pause, ack_paused, resume, mark_unknown, reconcile, claim, release, heartbeat, event, finish,
    control_ack, device_heartbeat, authenticate, unbind, intent, outcome in H;
  try (destruct (require_permissions _ _); [|discriminate H]);
  try (case_decide; [discriminate H|]);
  apply unit_of_work_Ok in H as [_ H]; exact H.

Lemma task_step_unique l d d' : task_step l d d' -> unique_indexes d -> unique_indexes d'.
Proof.
  intros Hs Hu. destruct Hs as [? ? ? ? ? ? ? ? H|? ? ? ? ? ? ? ? H|? ? ? ? ? ? ? H|? ? ? ? ? ? ? ? ? H|? ? ? ? ? ? ? ? H
    |? ? ? ? ? ? ? ? H|? ? ? ? ? ? ? ? ? ? H|? ? ? ? ? ? ? ? H|? ? ? ? ? ? ? ? ? ? H|? ? ? ? ? ? ? ? ? H|? ? ? ? ? ? ? ? ? H
    |? ? ? ? ? ? ? H|? ? ? ? ? ? H|? ? ? ? ? H|? ? ? ? H|? ? ? ? ? ? ? ? ? ? ? H|? ? ? ? ? ? ? ? ? ? ? H|? ? ? ? ? ? [row created] ? H].
  all: first [committed H | apply insert_task_inv in H as [(_ & -> & _)|(_ & H & _)]; done].
Qed.

Lemma task_step_le l d d' : task_step l d d' -> unique_indexes d -> db_le d d'.
Proof.
  intros Hs Hu. destruct Hs.
  all: first [by eapply cancel_le | by eapply pause_le | by eapply ack_paused_le | by eapply resume_le | by eapply mark_unknown_le
    | by eapply reconcile_le | by eapply claim_le | by eapply release_le | by eapply heartbeat_le | by eapply event_le
    | by eapply finish_le | by eapply control_ack_le | by eapply device_heartbeat_le | by eapply authenticate_le
    | by eapply unbind_le | by eapply intent_le | by eapply outcome_le | by eapply insert_task_le].
Qed.

Lemma task_step_fence l d d' : task_step l d d' -> unique_indexes d -> fence_le d d'.
Proof.
  intros Hs Hu. destruct Hs.
  all: first [by eapply cancel_fence | by eapply pause_fence | by eapply ack_paused_fence | by eapply resume_fence
    | by eapply mark_unknown_fence | by eapply reconcile_fence | by eapply claim_fence | by eapply release_fence
    | by eapply heartbeat_fence | by eapply event_fence | by eapply finish_fence | by eapply control_ack_fence
    | by eapply device_heartbeat_fence | by eapply authenticate_fence | by eapply unbind_fence | by eapply intent_fence
    | by eapply outcome_fence | by eapply insert_task_fence].
Qed.

(** A transaction of the service has committed under all the indexes. *)
Ltac control_committed H :=
  unfold create_platform_account, bind_account_device, unbind_account_device, update_account_status, set_maintenance,
    acquire_lease, release_lease, create_plan, submit_plan, decide_approval, cancel_plan, create_commit_intent,
    update_target_state in H;
  try (destruct (require_permissions _ _); [|discriminate H]);
  try (case_decide; [discriminate H|]); cbv zeta in H;
  apply control_unit_of_work_Ok in H as [_ H]; exact H.

Lemma step_indexes l c c' : step l c c' -> unique_indexes (core c) -> unique_indexes (core c') /\ control_indexes c'.
Proof.
  intros Hs Hu. destruct Hs as [l c d' Hs Hi|? ? ? ? ? ? ? ? H|? ? ? ? ? ? ? ? ? H|? ? ? ? ? ? ? ? H|? ? ? ? ? ? ? ? ? H|? ? ? ? ? ? ? ? H
    |? ? ? ? ? ? ? ? ? ? H|? ? ? ? ? ? ? ? H|? ? ? ? ? ? ? ? ? ? H|? ? ? ? ? ? ? ? ? ? H|? ? ? ? ? ? ? ? H|? ? ? ? ? ? H
    |? ? ? ? ? ? ? ? ? ? H|? ? ? ? ? ? ? ? H|? ? ? ? ? ? ? H|? ? ? ? ? ? H|? ? ? ? ? ? H].
  1: { split; [by eapply task_step_unique|done]. }
  14: by apply claim_spec in H as (_ & ? & ? & _).
  14: by apply (mark_spec (published_row now)) in H as (? & ? & _); [|apply published_row_le].
  14: by apply (mark_spec (failed_row err)) in H as (? & ? & _); [|apply failed_row_le].
  all: control_committed H.
Qed.

Lemma outbox_bookkeeping_claim owner n ttl now c rows c' : control_indexes c -> Outbox.claim owner n ttl now c = Ok (rows, c') -> bookkeeping c c'.
Proof. intros Hi H. apply claim_spec in H as (_ & _ & _ & H). by apply H. Qed.
Lemma outbox_bookkeeping_published k owner now c b c' : control_indexes c -> mark_published k owner now c = Ok (b, c') -> bookkeeping c c'.
Proof.
  intros Hi H. apply (mark_spec (published_row now)) in H as (_ & _ & H); [|apply published_row_le].
  by eapply mark_bookkeeping; [apply published_row_le|..].
Qed.
Lemma outbox_bookkeeping_failed k owner err c b c' : control_indexes c -> mark_failed k owner err c = Ok (b, c') -> bookkeeping c c'.
Proof.
  intros Hi H. apply (mark_spec (failed_row err)) in H as (_ & _ & H); [|apply failed_row_le].
  by eapply mark_bookkeeping; [apply failed_row_le|..].
Qed.


Lemma step_le l c c' : step l c c' -> unique_indexes (core c) -> control_indexes c -> control_le c c'.
Proof.
  intros Hs Hu Hi. destruct Hs as [l c d' Hs Hi'| | | | | | | | | | | | | | | | ].
  - destruct (task_step_fence _ _ _ Hs Hu) as [A B _]. pose proof (task_step_le _ _ _ Hs Hu) as Hle.
       apply (with_core_le (fun _ => d')); [done|by apply accounts_same].
  - by eapply create_platform_account_le.
  - by eapply bind_account_device_le.
  - by eapply unbind_account_device_le.
  - by eapply update_account_status_le.
  - by eapply set_maintenance_le.
  - by eapply acquire_lease_le.
  - by eapply release_lease_le.
  - by eapply create_plan_le.
  - by eapply submit_plan_le.
  - by eapply decide_approval_le.
  - by eapply cancel_plan_le.
  - by eapply create_commit_intent_le.
  - by eapply update_target_state_le.
  - by eapply bookkeeping_le, outbox_bookkeeping_claim.
  - by eapply bookkeeping_le, outbox_bookkeeping_published.
  - by eapply bookkeeping_le, outbox_bookkeeping_failed.
Qed.

(** Handlers of the service that leave the leases alone. *)
Ltac same_leases H := control_ok H; ok_inv H; by apply leases_from_same.

Lemma block_leases tenant dev ids reason now c :
  leases (core (block_stale_account_work tenant dev ids reason now c)) = leases (core c).
Proof.
  unfold block_stale_account_work. case_decide; [done|]. cbn.
  by destruct (fail_stale_tasks reason now (filter (stale_task tenant dev ids) (tasks (core c))) (core c)) as [[] _].
Qed.

Lemma bind_leases actor k dev checked now st c b c' :
  bind_account_device actor k dev checked now st c = Ok (b, c') -> leases (core c') = leases (core c).
Proof.
  unfold bind_account_device. intros H. control_ok H. ok_inv H.
  match goal with W : write_binding _ _ _ _ ?c1 = (_, ?c2) |- _ =>
    assert (leases (core c2) = leases (core c1)) as Hw by (unfold write_binding in W; case_match; by simplify_eq) end.
  etransitivity; [exact Hw|]. apply (block_leases _ _ _ _ _ (unbind_where _ c)).
Qed.

Lemma update_account_status_leases actor k r rev now st c a c' :
  update_account_status actor k r rev now st c = Ok (a, c') -> leases (core c') = leases (core c).
Proof.
  unfold update_account_status. intros H. control_ok H. ok_inv H. destruct (us_status r); [done|..].
  all: match goal with |- leases (core (audit _ _ _ _ _ _ _ (foldl _ ?c1 ?l))) = _ => transitivity (leases (core c1)); [|done]; generalize c1; induction l as [|x xs IH]; [done|];
    intros c2; cbn [foldl]; etransitivity; [exact (IH _)|apply block_leases] end.
Qed.

Lemma acquire_lease_leases actor dev owner ttl i now st c l c' :
  acquire_lease actor dev owner ttl i now st c = Ok (l, c') -> leases_from (core c) (core c').
Proof.
  unfold acquire_lease. intros H. control_ok H. ok_inv H; try by apply leases_from_same.
  all: match goal with A : device _ _ _ = Ok _ |- _ => apply device_row in A end.
  all: eapply leases_from_grant; [eassumption| |reflexivity|reflexivity|eexists; split; [apply lookup_insert_eq|]]; cbn; lia.
Qed.

Lemma release_lease_leases actor dev i now st c r c' :
  release_lease actor dev i now st c = Ok (r, c') -> leases_from (core c) (core c').
Proof.
  unfold release_lease. intros H. control_ok H. ok_inv H.
  match goal with A : lease_for_device _ _ _ = Some _ |- _ => apply lease_row in A as [A _] end.
  by eapply leases_from_update.
Qed.

Lemma step_leases l c c' : step l c c' -> unique_indexes (core c) -> control_indexes c -> leases_from (core c) (core c').
Proof.
  intros Hs Hu Hi. destruct Hs as [l c d' Hs Hi'|? ? ? ? ? ? ? ? H|? ? ? ? ? ? ? ? ? H|? ? ? ? ? ? ? ? H|? ? ? ? ? ? ? ? ? H|? ? ? ? ? ? ? ? H
    |? ? ? ? ? ? ? ? ? ? H|? ? ? ? ? ? ? ? H|? ? ? ? ? ? ? ? ? ? H|? ? ? ? ? ? ? ? ? ? H|? ? ? ? ? ? ? ? H|? ? ? ? ? ? H
    |? ? ? ? ? ? ? ? ? ? H|? ? ? ? ? ? ? ? H|? ? ? ? ? ? ? H|? ? ? ? ? ? H|? ? ? ? ? ? H].
  - exact (fl_leases _ _ (task_step_fence _ _ _ Hs Hu)).
  - unfold create_platform_account in H. same_leases H.
  - apply leases_from_same. by eapply bind_leases.
  - unfold unbind_account_device in H. control_ok H. ok_inv H. apply leases_from_same.
    apply (block_leases _ _ _ _ _ (put_account _ _ (unbind_where _ c))).
  - apply leases_from_same. by eapply update_account_status_leases.
  - unfold set_maintenance in H. same_leases H.
  - by eapply acquire_lease_leases.
  - by eapply release_lease_leases.
  - unfold create_plan in H. same_leases H.
  - unfold submit_plan in H. same_leases H.
  - unfold decide_approval in H. same_leases H.
  - unfold cancel_plan in H. control_ok H. ok_inv H; [|ok_inv E1]; by apply leases_from_same.
  - unfold create_commit_intent in H. same_leases H.
  - unfold update_target_state in H. same_leases H.
  - destruct (outbox_bookkeeping_claim _ _ _ _ _ _ _ Hi H) as [-> _]. by apply leases_from_same.
  - destruct (outbox_bookkeeping_published _ _ _ _ _ _ Hi H) as [-> _]. by apply leases_from_same.
  - destruct (outbox_bookkeeping_failed _ _ _ _ _ _ Hi H) as [-> _]. by apply leases_from_same.
Qed.

Lemma step_evolves l c c' : step l c c' -> unique_indexes (core c) -> control_indexes c -> plans_evolve c c'.
Proof.
  intros Hs Hu Hi. destruct Hs as [l c d' Hs Hi'|? ? ? ? ? ? ? ? H|? ? ? ? ? ? ? ? ? H|? ? ? ? ? ? ? ? H|? ? ? ? ? ? ? ? ? H|? ? ? ? ? ? ? ? H
    |? ? ? ? ? ? ? ? ? ? H|? ? ? ? ? ? ? ? H|? ? ? ? ? ? ? ? ? ? H|? ? ? ? ? ? ? ? ? ? H|? ? ? ? ? ? ? ? H|? ? ? ? ? ? H
    |? ? ? ? ? ? ? ? ? ? H|? ? ? ? ? ? ? ? H|? ? ? ? ? ? ? H|? ? ? ? ? ? H|? ? ? ? ? ? H].
  - by apply plans_evolve_same.
  - unfold create_platform_account in H. control_ok H. ok_inv H. by apply plans_evolve_same.
  - by eapply bind_account_device_evolves.
  - by eapply unbind_account_device_evolves.
  - by eapply update_account_status_evolves.
  - unfold set_maintenance in H. control_ok H. ok_inv H. by apply plans_evolve_same.
  - unfold acquire_lease in H. control_ok H. ok_inv H; by apply plans_evolve_same.
  - unfold release_lease in H. control_ok H. ok_inv H. by apply plans_evolve_same.
  - by eapply create_plan_evolves.
  - by eapply submit_plan_evolves.
  - by eapply decide_approval_evolves.
  - by eapply cancel_plan_evolves.
  - unfold create_commit_intent in H. control_ok H. ok_inv H; by apply plans_evolve_same.
  - unfold update_target_state in H. control_ok H. ok_inv H; by apply plans_evolve_same.
  - destruct (outbox_bookkeeping_claim _ _ _ _ _ _ _ Hi H) as [-> _]. by apply plans_evolve_same.
  - destruct (outbox_bookkeeping_published _ _ _ _ _ _ Hi H) as [-> _]. by apply plans_evolve_same.
  - destruct (outbox_bookkeeping_failed _ _ _ _ _ _ Hi H) as [-> _]. by apply plans_evolve_same.
Qed.

Lemma write_binding_targets actor a dev p c b c' : write_binding actor a dev p c = (b, c') ->
  targets c' = targets c /\ intents c' = intents c.
Proof. unfold write_binding. intros H. case_match; by simplify_eq. Qed.

Lemma block_targets tenant dev ids reason now c : targets (block_stale_account_work tenant dev ids reason now c) = targets c
  /\ intents (block_stale_account_work tenant dev ids reason now c) = intents c.
Proof. unfold block_stale_account_work. by case_decide. Qed.

Lemma block_each_targets actor k now l : forall c,
  let c' := foldl (fun c b => block_stale_account_work (actor_tenant_id actor) (ab_device_id b) [k] "ACCOUNT_CHANGED" now c) c l in
  targets c' = targets c /\ intents c' = intents c.
Proof.
  induction l as [|b l IH]; intros c; [done|]. cbn [foldl]. destruct (IH (block_stale_account_work (actor_tenant_id actor)
    (ab_device_id b) [k] "ACCOUNT_CHANGED" now c)) as [I1 I2]. destruct (block_targets (actor_tenant_id actor) (ab_device_id b) [k] "ACCOUNT_CHANGED" now c).
  split; congruence.
Qed.

(** Handlers that touch neither targets nor intents. *)
Lemma accounts_publish_nothing l c c' : step l c c' -> control_indexes c ->
  (targets c' = targets c /\ intents c' = intents c)
  \/ (exists actor k sid ids st p s rows, submit_plan float_repr actor k sid ids st c = Ok ((p, s, rows), c'))
  \/ (exists actor k r i st p, decide_approval actor k r i st c = Ok (p, c'))
  \/ (exists actor k st p, cancel_plan actor k st c = Ok (p, c'))
  \/ (exists actor k token ev i now st o, create_commit_intent actor k token ev i now st c = Ok (o, c'))
  \/ (exists actor k s detail st t, update_target_state actor k s detail st c = Ok (t, c')).
Proof.
  intros Hs Hi. pose proof block_targets as Hb.
  destruct Hs as [l c d' Hs Hi'|? ? ? ? ? ? ? ? H|? ? ? ? ? ? ? ? ? H|? ? ? ? ? ? ? ? H|? ? ? ? ? ? ? ? ? H|? ? ? ? ? ? ? ? H
    |? ? ? ? ? ? ? ? ? ? H|? ? ? ? ? ? ? ? H|? ? ? ? ? ? ? ? ? ? H|? ? ? ? ? ? ? ? ? ? H|? ? ? ? ? ? ? ? H|? ? ? ? ? ? H
    |? ? ? ? ? ? ? ? ? ? H|? ? ? ? ? ? ? ? H|? ? ? ? ? ? ? H|? ? ? ? ? ? H|? ? ? ? ? ? H].
  - by left.
  - left. unfold create_platform_account in H. control_ok H. by ok_inv H.
  - left. unfold bind_account_device in H. control_ok H. ok_inv H.
    match goal with W : write_binding _ _ _ _ _ = _ |- _ => apply write_binding_targets in W as [E1 E2] end.
    destruct (Hb (actor_tenant_id actor) dev (ab_account_id <$> filter (displaced_by actor k dev (pa_platform value) c)
      (account_bindings (core c))) "ACCOUNT_CHANGED" now (unbind_where (displaced_by actor k dev (pa_platform value) c) c)) as [F1 F2].
    split; [etransitivity; [exact E1|exact F1]|etransitivity; [exact E2|exact F2]].
  - left. unfold unbind_account_device in H. control_ok H. ok_inv H.
    apply (Hb _ _ _ _ _ (put_account _ _ (unbind_where _ c))).
  - left. unfold update_account_status in H. control_ok H. ok_inv H. destruct (us_status _); [done|..].
    all: match goal with |- targets (audit _ _ _ _ _ _ _ (foldl _ ?c1 ?l)) = _ /\ _ => exact (block_each_targets actor k now l c1) end.
  - left. unfold set_maintenance in H. control_ok H. by ok_inv H.
  - left. unfold acquire_lease in H. control_ok H. by ok_inv H.
  - left. unfold release_lease in H. control_ok H. by ok_inv H.
  - left. unfold create_plan in H. control_ok H. by ok_inv H.
  - right; left. by repeat eexists.
  - do 2 right; left. by repeat eexists.
  - do 3 right; left. by repeat eexists.
  - do 4 right; left. by repeat eexists.
  - do 5 right. by repeat eexists.
  - left. by destruct (outbox_bookkeeping_claim _ _ _ _ _ _ _ Hi H) as [-> _].
  - left. by destruct (outbox_bookkeeping_published _ _ _ _ _ _ Hi H) as [-> _].
  - left. by destruct (outbox_bookkeeping_failed _ _ _ _ _ _ Hi H) as [-> _].
Qed.

Lemma step_shut tenant k l c c' : step l c c' -> unique_indexes (core c) -> control_indexes c -> shut_down tenant k c -> still_shut tenant k c c'.
Proof.
  intros Hs Hu Hi Hd. pose proof (step_le _ _ _ Hs Hu Hi) as Hle.
  destruct (accounts_publish_nothing _ _ _ Hs Hi) as [[Et Ei]|[H|[H|[H|[H|H]]]]]; [by apply shut_same|..].
  - destruct H as (? & ? & ? & ? & ? & ? & ? & ? & H). by eapply submit_plan_shut.
  - destruct H as (? & ? & ? & ? & ? & ? & H). by eapply decide_approval_shut.
  - destruct H as (? & ? & ? & ? & H). by eapply cancel_plan_shut.
  - destruct H as (? & ? & ? & ? & ? & ? & ? & ? & H). by eapply create_commit_intent_shut.
  - destruct H as (? & ? & ? & ? & ? & ? & H). by eapply update_target_state_shut.
Qed.

(** What continues the history under the indexes is well formed again. *)
Lemma control_le_well_formed c c' : control_le c c' -> leases_from (core c) (core c') -> plans_evolve c c' ->
  unique_indexes (core c') -> control_indexes c' -> well_formed c -> well_formed c'.
Proof.
  intros [[Ht Hac _ _ Hd] _ _ _ _ Hap _ _] Hl Hp Hu' Hi' [_ _ Hc Hr Hf Ha]. split; [done|done|..].
  - exact (grows_Forall _ _ _ _ Ht Hc).
  - exact (grows_Forall _ _ _ _ Hac Hr).
  - by eapply leases_from_fences.
  - by eapply plans_evolve_admitted.
Qed.

Lemma step_well_formed l c c' : step l c c' -> well_formed c -> well_formed c'.
Proof.
  intros Hs Hw. pose proof Hw as [Hu Hi _ _ _ _]. destruct (step_indexes _ _ _ Hs Hu) as [Hu' Hi'].
  eapply control_le_well_formed; [by eapply step_le|by eapply step_leases|by eapply step_evolves|done..].
Qed.

Lemma execution_le c ls c' : execution c ls c' -> well_formed c ->
  well_formed c' /\ control_le c c' /\ leases_from (core c) (core c').
Proof.
  intros He Hw. induction He as [c|c ls c1 l c2 _ IH Hs]; [split; [done|split; [reflexivity|by apply leases_from_same]]|].
  destruct (IH Hw) as (Hw1 & Hle & Hl). pose proof (step_le _ _ _ Hs (wf_unique _ Hw1) (wf_indexes _ Hw1)) as Hle2.
  split; [by eapply step_well_formed|]. split; [by etransitivity|].
  eapply leases_from_trans; [apply Hle|apply Hle2|done|]. by eapply step_leases; [|apply Hw1..].
Qed.

(** The ledger has a row for the action [x.2] of the task [x.1]. *)
Definition in_ledger (d : db) (x : string * string) : Prop := exists a, a ∈ actions d /\ action_task_key a = x.

Lemma in_ledger_le d d' x : db_le d d' -> in_ledger d x -> in_ledger d' x.
Proof.
  intros Hle (a & Ha & <-). destruct (grows_In _ _ _ _ a (dle_actions _ _ Hle) Ha) as (a' & Ha' & [Hi _ _ _ _ _]).
  exists a'. split; [done|]. unfold action_task_key, a_task_id, a_action_id. by rewrite Hi.
Qed.

Lemma task_step_authorises x d d' : task_step (Some x) d d' -> ~ in_ledger d x /\ in_ledger d' x.
Proof.
  intros Hs. inversion Hs as [| | | | | | | | | | | | | | |binding k body c1 c2 now at_ d0 dec row d1 H Hl| |]; subst.
  destruct dec; [|done]. injection Hl as <-.
  apply intent_inv in H as (task & frozen & Ho & Hi & _ & _ & _ & Hf & _ & _ & -> & ->).
  apply action_owned_Ok in Ho as (_ & _ & _ & _ & _ & _ & _ & Hid & _).
  pose proof (task_identity_Ok _ _ _ _ _ _ Hi) as (E1 & _ & _ & E4). split.
  - intros (a & Ha & [= Hk Hx]). by destruct (proj1 (find_action_None _ _ _) Hf a Ha).
  - eexists. split; [apply elem_of_app; right; by left|]. unfold action_task_key, a_task_id, a_action_id; cbn. congruence.
Qed.

Lemma step_authorises x c c' : step (Some x) c c' -> ~ in_ledger (core c) x /\ in_ledger (core c') x.
Proof. intros Hs. inversion Hs; subst. by apply task_step_authorises. Qed.

(** ** Executions *)


(** C1. At most once, globally. In an execution of any length, no action of any
    task is authorised twice, none is authorised that the ledger already had,
    and every authorisation given is in the ledger at the end. *)
Theorem authorised_at_most_once c ls c' :
  execution c ls c' -> well_formed c ->
  NoDup (authorised ls) /\ (forall x, x ∈ authorised ls -> ~ in_ledger (core c) x /\ in_ledger (core c') x).
Proof.
  intros He Hw. induction He as [c|c ls c1 l c2 He IH Hs]; [split; [constructor|by intros x ?%elem_of_nil]|].
  destruct (IH Hw) as [Hn Hl]. destruct (execution_le _ _ _ He Hw) as ([Hu Hi _ _ _ _] & [Hle _ _ _ _ _ _ _] & _).
  pose proof (cl_core _ _ (step_le _ _ _ Hs Hu Hi)) as Hle2.
  unfold authorised. rewrite omap_app. fold (authorised ls).
  destruct l as [x|]; cbn; [|rewrite app_nil_r; split; [done|]; intros y Hy; split; [by apply Hl|by eapply in_ledger_le, Hl]].
  destruct (step_authorises _ _ _ Hs) as [Hx Hx2]. split.
  - apply NoDup_app. split; [done|]. split; [|apply NoDup_singleton].
    intros y Hy ->%list_elem_of_singleton. by apply Hx, Hl.
  - intros y [Hy| ->%list_elem_of_singleton]%elem_of_app.
    + split; [by apply Hl|by eapply in_ledger_le, Hl].
    + split; [|done]. intros Hd. by apply Hx, (in_ledger_le (core c)).
Qed.


(** C13. Separation of duties. In every state the service can reach, a plan that
    needs approval is scheduled only if the approvals hold a decision for it
    by somebody other than its creator. *)
Theorem scheduled_plans_were_approved c ls c' p
    (He : execution c ls c') (Hw : well_formed c) (Hp : p ∈ plans c') (Hs : pl_state p = SCHEDULED)
    (Hpol : pl_approval_policy p <> AP_NONE) :
  exists a, a ∈ approvals c' /\ ap_plan_id a = pl_id p /\ ap_decision a = APPROVED
            /\ ap_creator_id a = pl_creator_id p /\ ap_approver_id a <> pl_creator_id p.
Proof.
  destruct (execution_le _ _ _ He Hw) as (Hw' & _). pose proof (wf_admitted _ Hw') as Ha. rewrite Forall_forall in Ha.
  destruct (Ha p Hp) as [_ H]. by apply H.
Qed.

Lemma execution_shut tenant k c ls c' : execution c ls c' -> well_formed c -> shut_down tenant k c ->
  shut_down tenant k c' /\ forall i, i ∈ intents c' -> i ∈ intents c
    \/ exists t, t ∈ targets c' /\ pt_id t = ci_target_id i /\ ~ (pt_plan_id t = k /\ pt_tenant_id t = tenant).
Proof.
  intros He Hw Hs. induction He as [c|c ls c1 l c2 He IH Hst]; [split; [done|by left]|].
  destruct (IH Hw Hs) as [Hs1 Hi1]. destruct (execution_le _ _ _ He Hw) as ([Hu Hix _ _ _ _] & _ & _).
  pose proof (cl_targets _ _ (step_le _ _ _ Hst Hu Hix)) as Hg.
  destruct (step_shut _ _ _ _ _ Hst Hu Hix Hs1) as [Hs2 Hi2]. split; [done|]. intros i Hin.
  assert (forall t, t ∈ targets c1 -> pt_id t = ci_target_id i -> ~ (pt_plan_id t = k /\ pt_tenant_id t = tenant) ->
    exists t', t' ∈ targets c2 /\ pt_id t' = ci_target_id i /\ ~ (pt_plan_id t' = k /\ pt_tenant_id t' = tenant)) as Hup.
  { intros t Ht Hid Hne. destruct (grows_In _ _ _ _ t Hg Ht) as (t' & Ht' & [F _]). injection F as F1 F2 F3 _ _ _ _.
    exists t'. rewrite F1, F2, F3. done. }
  destruct (Hi2 i Hin) as [Hin1|(t & Hg2 & Hne)].
  - destruct (Hi1 i Hin1) as [?|(t & Ht & Hid & Hne)]; [by left|]. right. by eapply Hup.
  - right. apply tget_Some in Hg2 as [Ht Hid]. by eapply Hup.
Qed.

(** C14. A canceled plan never publishes. When a plan is canceled before any target
    of it has begun to commit, no later history of the service moves a target
    of it out of CANCELED or FAILED, or registers a commit intent for one. *)
Theorem canceled_plan_never_publishes actor k st c p c1 ls c2
    (Hw : well_formed c) (H : cancel_plan actor k st c = Ok (p, c1))
    (Hsafe : ~ Exists unsafe (targets_for_plan actor k c)) (He : execution c1 ls c2) :
  pl_state p = CANCELED
  /\ (forall t, t ∈ targets c2 -> pt_plan_id t = k -> pt_tenant_id t = actor_tenant_id actor -> pt_state t = CANCELED \/ pt_state t = FAILED)
  /\ (forall t i, t ∈ targets c1 -> pt_plan_id t = k -> pt_tenant_id t = actor_tenant_id actor ->
        i ∈ intents c2 -> ci_target_id i = pt_id t -> i ∈ intents c1).
Proof.
  assert (well_formed c1) as Hw1 by (eapply step_well_formed; [by eapply step_cancel_plan|done]).
  pose proof (cancel_plan_decides actor k st c p c1 (wf_indexes _ Hw) H) as ((p0 & _ & Hp & _ & _ & Hs) & _ & Ht & _).
  destruct (Hs Hsafe) as [_ Hc]. split; [done|].
  assert (shut_down (actor_tenant_id actor) k c1) as Hsd.
  { pose proof Hp as [[Hin _]%tget_Some Hid]%plan_row. apply one_for_tenant_Ok in Hp as [_ Hte]. split.
    - exists p. repeat (split; [done|]). by left.
    - intros t Hin' E1 E2. destruct (Ht t) as [?|[?|[U Hts]]]; [by apply list_elem_of_filter|by left|by right|].
      exfalso. apply Hsafe, Exists_exists. by exists t. }
  destruct (execution_shut _ _ _ _ _ He Hw1 Hsd) as [Hs2 Hi2]. split; [by apply Hs2|].
  intros t i Hin E1 E2 Hi Hid. destruct (Hi2 i Hi) as [?|(t2 & Ht2 & Hid2 & Hne)]; [done|]. exfalso. apply Hne.
  destruct (execution_le _ _ _ He Hw1) as ([_ Hix _ _ _ _] & Hle & _).
  destruct (grows_In _ _ _ _ t (cl_targets _ _ Hle) Hin) as (t' & Ht' & [F _]). injection F as F1 F2 F3 _ _ _ _.
  assert (t2 = t') as -> by (apply (NoDup_fmap_eq pt_id (targets c2)); [apply Hix|done|done|congruence]). split; congruence.
Qed.
End Machine.

(** ** Witnesses *)

#[export] Instance consistent_dec t : Decision (consistent t).
Proof. unfold consistent. apply _. Defined.
#[export] Instance revised_dec a : Decision (revised a).
Proof. unfold revised. apply _. Defined.

Definition within_counter (d : db) (k : string) (l : DeviceLeaseRow) : Prop :=
  from_option (fun x => l_fencing_token l <= d_fencing_counter x) False (devices d !! k).
#[export] Instance within_counter_dec d k l : Decision (within_counter d k l).
Proof. unfold within_counter. destruct (devices d !! k); cbn; apply _. Defined.

Lemma fences_alt d : fences d <-> map_Forall (within_counter d) (leases d).
Proof.
  split.
  - intros Hf k l Hl. destruct (Hf k l Hl) as (x & E & H). unfold within_counter. by rewrite E.
  - intros Hf k l Hl. pose proof (map_Forall_lookup_1 _ _ k l Hf Hl) as H. unfold within_counter in H.
    destruct (devices d !! k) as [x|]; [by exists x|done].
Qed.
#[export] Instance fences_dec d : Decision (fences d).
Proof.
  destruct (decide (map_Forall (within_counter d) (leases d))) as [H|H];
    [left; by apply fences_alt|right; by intros ?%fences_alt].
Defined.

Lemma plan_admitted_alt c p : plan_admitted c p <->
  pl_state p ∈ [DRAFT; AWAITING_APPROVAL; SCHEDULED; CANCELED; FAILED]
  /\ (pl_state p = SCHEDULED -> pl_approval_policy p <> AP_NONE ->
      Exists (fun a => ap_plan_id a = pl_id p /\ ap_decision a = APPROVED /\ ap_creator_id a = pl_creator_id p
                       /\ ap_approver_id a <> pl_creator_id p) (approvals c)).
Proof. unfold plan_admitted. by setoid_rewrite Exists_exists. Qed.
#[export] Instance plan_admitted_dec c p : Decision (plan_admitted c p).
Proof.
  destruct (decide (pl_state p ∈ [DRAFT; AWAITING_APPROVAL; SCHEDULED; CANCELED; FAILED]
    /\ (pl_state p = SCHEDULED -> pl_approval_policy p <> AP_NONE ->
        Exists (fun a => ap_plan_id a = pl_id p /\ ap_decision a = APPROVED /\ ap_creator_id a = pl_creator_id p
                         /\ ap_approver_id a <> pl_creator_id p) (approvals c)))) as [H|H];
    [left; by apply plan_admitted_alt|right; by intros ?%plan_admitted_alt].
Defined.

(** Proves well-formedness of a concrete database by computation. *)
Ltac compute_well_formed := split; apply (bool_decide_unpack _); vm_compute; exact I.

(** The service with nothing but the tables of the mobile handlers. *)
Definition service (d : db) : control_db := mkControlDb d [] [] [] [] [] [] [] [] [].

Lemma queued_db_well_formed : well_formed (service queued_db).
Proof. compute_well_formed. Qed.
Lemma delist_db_well_formed : well_formed (service delist_db).
Proof. compute_well_formed. Qed.
Lemma approved_db_well_formed : well_formed approved_db.
Proof. compute_well_formed. Qed.

Section Runs.
Abbreviation execution := (execution no_builtin [] no_recipe no_float).
Abbreviation step := (step no_builtin [] no_recipe no_float).

Lemma task_run l d d' : task_step no_builtin [] no_recipe l d d' -> bool_decide (control_indexes (service d')) = true ->
  step l (service d) (service d').
Proof. intros Hs Hi. apply (step_task _ _ _ _ l (service d) d' Hs). by apply bool_decide_eq_true in Hi. Qed.

(** The sample task is claimed, then reports its first event. *)
Lemma claim_then_report : execution (service queued_db) [None; None] (service reported_db).
Proof.
  apply (execution_snoc _ _ _ _ _ [None] (service claimed_db)).
  - apply (execution_snoc _ _ _ _ _ [] (service queued_db)); [constructor|]. apply task_run; [|vm_compute; reflexivity].
    eapply step_claim. exact sample_claim_Ok.
  - apply task_run; [|vm_compute; reflexivity]. eapply step_event. exact sample_event_Ok.
Qed.


(** The companion asks twice for the same action. *)
Lemma intent_twice :
  execution (service delist_db) [Some ("task-1", in_action_id delist_intent); None] (service intent_db).
Proof.
  apply (execution_snoc _ _ _ _ _ [Some ("task-1", in_action_id delist_intent)] (service intent_db)).
  - apply (execution_snoc _ _ _ _ _ [] (service delist_db)); [constructor|]. apply task_run; [|vm_compute; reflexivity].
    exact (step_intent _ _ _ sample_binding "task-1" delist_intent 100 100 100 100 _ _ _ _ run_intent_Ok).
  - apply task_run; [|vm_compute; reflexivity].
    exact (step_intent _ _ _ sample_binding "task-1" delist_intent 100 100 100 100 _ _ _ _ intent_replayed).
Qed.

Lemma authorised_at_most_once_witness :
  well_formed (service delist_db) /\ NoDup (authorised [Some ("task-1", in_action_id delist_intent); None]).
Proof.
  split; [exact delist_db_well_formed|].
  exact (proj1 (authorised_at_most_once _ _ _ _ _ _ _ intent_twice delist_db_well_formed)).
Defined.

(** A workflow takes the device of an approved plan and commits. *)
Lemma lease_after_approval : execution approved_db [None] leased_db.
Proof.
  apply (execution_snoc _ _ _ _ _ [] approved_db); [constructor|].
  destruct leased_Ok as [l H]. exact (step_acquire _ _ _ _ worker "device" "publish-target/target0" 60 "lease" 200 (demo_stamps 4) _ l _ H).
Qed.


Lemma scheduled_plans_were_approved_witness :
  exists a, a ∈ approvals leased_db /\ ap_approver_id a <> "creator".
Proof.
  destruct (plans leased_db) as [|p ps] eqn:E; [exact (False_ind _ ltac:(vm_compute in E; discriminate E))|].
  destruct (scheduled_plans_were_approved _ _ _ _ _ _ _ p lease_after_approval approved_db_well_formed) as (a & Ha & _ & _ & _ & Hne).
  - rewrite E. by left.
  - vm_compute in E. by injection E as <- _.
  - vm_compute in E. by injection E as <- _.
  - exists a. split; [exact Ha|]. vm_compute in E. injection E as <- _. exact Hne.
Defined.

Lemma canceled_plan_never_publishes_witness : exists p, canceled_plan = Ok (p, canceled_db) /\ pl_state p = CANCELED.
Proof.
  destruct canceled_plan_Ok as [p H]. exists p. split; [exact H|].
  refine (proj1 (canceled_plan_never_publishes no_builtin [] no_recipe no_float publisher "plan" (demo_stamps 9) approved_db p canceled_db [] canceled_db
    approved_db_well_formed H _ (execution_nil no_builtin [] no_recipe no_float canceled_db))).
  apply (bool_decide_unpack _). vm_compute. exact I.
Defined.
End Runs.
