(* ===== verification/Temporal.v ===== *)
(** * Durable workflows: the runtime the workflows of the temporal-worker and
    their activities run under

    A workflow is a program of activities, signal checks and waits. Temporal
    persists its progress, so that the program itself never loses its place;
    what can fail is an activity: each attempt may be lost before it runs or
    after, and is retried up to the bound of its retry policy. Between any two
    attempts everybody else may act on the store the activities work on, and
    signals may arrive. *)

From stdpp Require Import base strings list.
From Stdlib Require Import Lia.
From S2P Require Import Prelude.

(** What an implementation of the activities offers: one attempt at an
    activity, answered or not, and what the others do to the store meanwhile. *)
Class ActivityBackend {activity : Type} (reply : activity -> Type) (S : Type) := {
  attempt : forall x : activity, S -> option (reply x) -> S -> Prop;
  others : S -> S -> Prop;
}.

(** An attempt is something the others could see happen. *)
Class BackendLaws {activity : Type} {reply : activity -> Type} {S : Type} (B : ActivityBackend reply S) := {
  others_preorder :: PreOrder others;
  attempt_others x s r s' : attempt x s r s' -> others s s';
}.

(** The signals of a workflow: what more of them may come to. *)
Class Signals (G : Type) := received : G -> G -> Prop.

Section Workflow.
Context {activity : Type} {reply : activity -> Type} {G : Type}.

(** [Act x k]: execute an activity; [k None] is the ActivityError.
    [SetPhase]: assign [_phase]. [Ask]: read the signals. [Wait]: suspend until
    they are ready. [Start g p]: run [p] as a new workflow with signals [g]. *)
Inductive prog (A : Type) : Type :=
| Ret (a : A)
| Act (x : activity) (k : option (reply x) -> prog A)
| SetPhase (s : string) (p : prog A)
| Ask (k : G -> prog A)
| Wait (ready : G -> bool) (p : prog A)
| Start (g : G) (p : prog A).
Arguments Ret {A}. Arguments Act {A}. Arguments SetPhase {A}. Arguments Ask {A}. Arguments Wait {A}. Arguments Start {A}.

Fixpoint bind {A B} (p : prog A) (f : A -> prog B) : prog B :=
  match p with
  | Ret a => f a
  | Act x k => Act x (fun r => bind (k r) f)
  | SetPhase s p => SetPhase s (bind p f)
  | Ask k => Ask (fun g => bind (k g) f)
  | Wait ready p => Wait ready (bind p f)
  | Start g p => Start g (bind p f)
  end.

(** Every activity of the program satisfies [P]. *)
Fixpoint only (P : activity -> Prop) {A} (p : prog A) : Prop :=
  match p with
  | Ret _ => True
  | Act x k => P x /\ forall r, only P (k r)
  | SetPhase _ p | Wait _ p | Start _ p => only P p
  | Ask k => forall g, only P (k g)
  end.

(** ** Runs *)

Section Runs.
Context {S : Type} `{B : !ActivityBackend reply S} `{Sg : !Signals G} (max_attempts : activity -> nat).

Record world := mkWorld { w_store : S; w_signals : G; w_phase : string }.

(** An attempt, the world it started in and what the workflow heard of it. *)
Record trial := mkTrial { ev_world : world; ev_activity : activity; ev_reply : option (reply ev_activity) }.

Definition evolves (w w' : world) : Prop :=
  others (w_store w) (w_store w') /\ received (w_signals w) (w_signals w') /\ w_phase w' = w_phase w.

(** An activity under a policy of at most [n] attempts. *)
Fixpoint performs (x : activity) (n : nat) (w : world) (tr : list trial) (r : option (reply x)) (w' : world) : Prop :=
  match n with
  | O => tr = [] /\ r = None /\ w' = w
  | Datatypes.S n => exists w1 r1 s2, evolves w w1 /\ attempt x (w_store w1) r1 s2 /\
      let w2 := mkWorld s2 (w_signals w1) (w_phase w1) in
      match r1 with
      | Some _ => tr = [mkTrial w1 x r1] /\ r = r1 /\ w' = w2
      | None => exists tr', tr = mkTrial w1 x None :: tr' /\ performs x n w2 tr' r w'
      end
  end.

Fixpoint runs {A} (p : prog A) (w : world) (tr : list trial) (a : A) (w' : world) : Prop :=
  match p with
  | Ret b => tr = [] /\ a = b /\ w' = w
  | Act x k => exists r w1 t1 t2, performs x (max_attempts x) w t1 r w1 /\ runs (k r) w1 t2 a w' /\ tr = t1 ++ t2
  | SetPhase s p => runs p (mkWorld (w_store w) (w_signals w) s) tr a w'
  | Ask k => exists w1, evolves w w1 /\ runs (k (w_signals w1)) w1 tr a w'
  | Wait ready p => exists w1, evolves w w1 /\ ready (w_signals w1) = true /\ runs p w1 tr a w'
  | Start g p => runs p (mkWorld (w_store w) g "CREATED") tr a w'
  end.

Lemma runs_bind {A C} (p : prog A) (f : A -> prog C) : forall w tr c w', runs (bind p f) w tr c w' ->
  exists a w1 t1 t2, runs p w t1 a w1 /\ runs (f a) w1 t2 c w' /\ tr = t1 ++ t2.
Proof.
  induction p as [a|x k IH|s p IH|k IH|ready p IH|g p IH]; intros w tr c w' H; cbn in H |- *.
  - by exists a, w, [], tr.
  - destruct H as (r & w1 & t1 & t2 & Hp & H & ->). apply IH in H as (a & w2 & t3 & t4 & H1 & H2 & ->).
    exists a, w2, (t1 ++ t3), t4. split; [|by rewrite app_assoc]. by exists r, w1, t1, t3.
  - by apply IH.
  - destruct H as (w1 & He & H). apply IH in H as (a & w2 & t3 & t4 & H1 & H2 & ->).
    exists a, w2, t3, t4. split; [by exists w1|done].
  - destruct H as (w1 & He & Hr & H). apply IH in H as (a & w2 & t3 & t4 & H1 & H2 & ->).
    exists a, w2, t3, t4. split; [by exists w1|done].
  - by apply IH.
Qed.

Lemma performs_activity x n : forall w tr r w', performs x n w tr r w' -> Forall (fun e => ev_activity e = x) tr.
Proof.
  induction n as [|n IH]; intros w tr r w' H; cbn in H; [by destruct H as [-> _]|].
  destruct H as (w1 & [v|] & s2 & _ & _ & H); cbn in H.
  - destruct H as (-> & _). by repeat constructor.
  - destruct H as (tr' & -> & H). constructor; [done|by eapply IH].
Qed.

Lemma performs_length x n : forall w tr r w', performs x n w tr r w' -> (length tr <= n)%nat.
Proof.
  induction n as [|n IH]; intros w tr r w' H; cbn in H; [by destruct H as [-> _]|].
  destruct H as (w1 & [v|] & s2 & _ & _ & H); cbn in H.
  - destruct H as (-> & _). cbn. lia.
  - destruct H as (tr' & -> & H). apply IH in H. cbn. lia.
Qed.

Lemma only_runs P {A} (p : prog A) : forall w tr a w', only P p -> runs p w tr a w' -> Forall (fun e => P (ev_activity e)) tr.
Proof.
  induction p as [b|x k IH|s p IH|k IH|ready p IH|g p IH]; intros w tr a w' Ho H; cbn in Ho, H.
  - by destruct H as [-> _].
  - destruct H as (r & w1 & t1 & t2 & Hp & H & ->), Ho as [Hx Hk]. apply Forall_app. split; [|by eapply IH].
    apply performs_activity in Hp. eapply Forall_impl; [exact Hp|]. by intros e ->.
  - by eapply IH.
  - destruct H as (w1 & _ & H). by eapply IH.
  - destruct H as (w1 & _ & _ & H). by eapply IH.
  - by eapply IH.
Qed.

(** *** The world only moves on *)

Context `{!BackendLaws B} `{!PreOrder received}.

#[export] Instance evolves_preorder : PreOrder evolves.
Proof.
  split.
  - intros w. by split.
  - intros w1 w2 w3 (A1 & A2 & A3) (B1 & B2 & B3). split; [by etransitivity|]. split; [by etransitivity|congruence].
Qed.

Lemma attempt_evolves w x r s : attempt x (w_store w) r s -> evolves w (mkWorld s (w_signals w) (w_phase w)).
Proof. intros H. split; [by eapply attempt_others|by split]. Qed.

(** Every attempt was made in a world between the two. *)
Lemma performs_evolves x n : forall w tr r w', performs x n w tr r w' ->
  evolves w w' /\ Forall (fun e => evolves w (ev_world e) /\ evolves (ev_world e) w') tr.
Proof.
  induction n as [|n IH]; intros w tr r w' H; cbn in H; [by destruct H as (-> & _ & ->)|].
  destruct H as (w1 & r1 & s2 & He & Ha & H). apply attempt_evolves in Ha. destruct r1; cbn in H.
  - destruct H as (-> & _ & ->). split; [by etransitivity|]. by apply Forall_singleton.
  - destruct H as (tr' & -> & H). apply IH in H as [H1 H2]. assert (evolves w1 w') as Hw by (by etransitivity).
    split; [by etransitivity|]. constructor; [by split|]. eapply Forall_impl; [exact H2|].
    intros e [G1 G2]. split; [|done]. etransitivity; [exact He|]. etransitivity; [exact Ha|exact G1].
Qed.

(** An attempt at [x] the workflow heard nothing of. *)
Definition failed (x : activity) (e : trial) : Prop := exists w, e = mkTrial w x None.

Lemma performs_None x n : forall w tr w', performs x n w tr None w' -> Forall (failed x) tr.
Proof.
  induction n as [|n IH]; intros w tr w' H; cbn in H; [by destruct H as [-> _]|].
  destruct H as (w1 & [v|] & s2 & _ & _ & H); cbn in H; [by destruct H as (_ & ? & _)|].
  destruct H as (tr' & -> & H). constructor; [by exists w1|by eapply IH].
Qed.

(** The answer is that of the last attempt. *)
Lemma performs_Some x n v : forall w tr w', performs x n w tr (Some v) w' ->
  exists t0 w1, tr = t0 ++ [mkTrial w1 x (Some v)] /\ Forall (failed x) t0
    /\ evolves w w1 /\ attempt x (w_store w1) (Some v) (w_store w') /\ evolves w1 w'.
Proof.
  induction n as [|n IH]; intros w tr w' H; cbn in H; [by destruct H as (_ & ? & _)|].
  destruct H as (w1 & r1 & s2 & He & Ha & H). pose proof (attempt_evolves _ _ _ _ Ha) as Hw. destruct r1 as [u|]; cbn in H.
  - destruct H as (-> & [= ->] & ->). by exists [], w1.
  - destruct H as (tr' & -> & H). apply IH in H as (t0 & w2 & -> & H0 & H1 & H2 & H3). exists (mkTrial w1 x None :: t0), w2.
    split; [done|]. split; [constructor; [by exists w1|done]|]. split; [|by split].
    etransitivity; [exact He|]. etransitivity; [exact Hw|exact H1].
Qed.

(** What a run does to the store, the others do too. *)
Lemma runs_others {A} (p : prog A) : forall w tr a w', runs p w tr a w' ->
  others (w_store w) (w_store w')
  /\ Forall (fun e => others (w_store w) (w_store (ev_world e)) /\ others (w_store (ev_world e)) (w_store w')) tr.
Proof.
  induction p as [b|x k IH|s p IH|k IH|ready p IH|g p IH]; intros w tr a w' H; cbn in H.
  - destruct H as (-> & _ & ->). by split.
  - destruct H as (r & w1 & t1 & t2 & Hp & H & ->). apply performs_evolves in Hp as [[G1 _] G2]. apply IH in H as [H1 H2].
    split; [by etransitivity|]. apply Forall_app. split; (eapply Forall_impl; [eassumption|]).
    + intros e [[E1 _] [E2 _]]. split; [done|by etransitivity].
    + intros e [E1 E2]. split; [by etransitivity|done].
  - by apply IH in H.
  - destruct H as (w1 & [He _] & H). apply IH in H as [H1 H2]. split; [by etransitivity|].
    eapply Forall_impl; [exact H2|]. intros e [E1 E2]. split; [by etransitivity|done].
  - destruct H as (w1 & [He _] & _ & H). apply IH in H as [H1 H2]. split; [by etransitivity|].
    eapply Forall_impl; [exact H2|]. intros e [E1 E2]. split; [by etransitivity|done].
  - by apply IH in H.
Qed.

(** Every attempt of a run took effect, and the rest of the run came after. *)
Lemma performs_attempts x n : forall w tr r w', performs x n w tr r w' ->
  Forall (fun e => exists s, attempt (ev_activity e) (w_store (ev_world e)) (ev_reply e) s /\ others s (w_store w')) tr.
Proof.
  induction n as [|n IH]; intros w tr r w' H; cbn in H; [by destruct H as (-> & _)|].
  destruct H as (w1 & r1 & s2 & He & Ha & H). destruct r1; cbn in H.
  - destruct H as (-> & _ & ->). apply Forall_singleton. exists s2. by split.
  - destruct H as (tr' & -> & H). apply Forall_cons. split; [|by eapply IH].
    exists s2. split; [done|]. by apply performs_evolves in H as [[? _] _].
Qed.

Lemma runs_attempts {A} (p : prog A) : forall w tr a w', runs p w tr a w' ->
  Forall (fun e => exists s, attempt (ev_activity e) (w_store (ev_world e)) (ev_reply e) s /\ others s (w_store w')) tr.
Proof.
  induction p as [b|x k IH|s p IH|k IH|ready p IH|g p IH]; intros w tr a w' H; cbn in H.
  - by destruct H as (-> & _).
  - destruct H as (r & w1 & t1 & t2 & Hp & H & ->). apply Forall_app. split; [|by eapply IH].
    apply runs_others in H as [Ho _]. eapply Forall_impl; [by eapply performs_attempts|].
    intros e (s & Ha & Hs). exists s. split; [done|by etransitivity].
  - by eapply IH.
  - destruct H as (w1 & _ & H). by eapply IH.
  - destruct H as (w1 & _ & _ & H). by eapply IH.
  - by eapply IH.
Qed.

(** ** Simulation: a run that nobody interferes with, computed *)

Section Simulation.
Context (answer : forall x : activity, nat -> S -> option (reply x * S)).

(** [answer x k s] is the [k]-th attempt of the run; [None]: it failed. *)
Fixpoint try (x : activity) (n k : nat) (w : world) : list trial * option (reply x) * world * nat :=
  match n with
  | O => ([], None, w, k)
  | Datatypes.S n =>
      match answer x k (w_store w) with
      | Some (v, s) => ([mkTrial w x (Some v)], Some v, mkWorld s (w_signals w) (w_phase w), Datatypes.S k)
      | None => let '(tr, r, w', k') := try x n (Datatypes.S k) w in (mkTrial w x None :: tr, r, w', k')
      end
  end.

Fixpoint simulate {A} (p : prog A) (k : nat) (w : world) : option (list trial * A * world) :=
  match p with
  | Ret a => Some ([], a, w)
  | Act x c =>
      let '(t1, r, w1, k1) := try x (max_attempts x) k w in
      match simulate (c r) k1 w1 with
      | Some (t2, a, w2) => Some (t1 ++ t2, a, w2)
      | None => None
      end
  | SetPhase s p => simulate p k (mkWorld (w_store w) (w_signals w) s)
  | Ask c => simulate (c (w_signals w)) k w
  | Wait ready p => if ready (w_signals w) then simulate p k w else None
  | Start g p => simulate p k (mkWorld (w_store w) g "CREATED")
  end.

Context (answer_attempt : forall x k s v s', answer x k s = Some (v, s') -> attempt x s (Some v) s')
        (attempt_fails : forall x s, attempt x s None s).

Lemma try_performs x n : forall k w tr r w' k', try x n k w = (tr, r, w', k') -> performs x n w tr r w'.
Proof.
  induction n as [|n IH]; intros k w tr r w' k' H; cbn in H |- *; [by injection H as <- <- <- _|].
  exists w. destruct (answer x k (w_store w)) as [[v s]|] eqn:E.
  - injection H as <- <- <- _. exists (Some v), s. split; [reflexivity|]. split; [by eapply answer_attempt|done].
  - destruct (try x n (Datatypes.S k) w) as [[[tr' r'] w2] k2] eqn:Et. injection H as <- <- <- _.
    exists None, (w_store w). split; [reflexivity|]. split; [done|]. exists tr'. split; [done|].
    apply IH in Et. by destruct w.
Qed.

Lemma simulate_runs {A} (p : prog A) : forall k w tr a w', simulate p k w = Some (tr, a, w') -> runs p w tr a w'.
Proof.
  induction p as [b|x c IH|s p IH|c IH|ready p IH|g p IH]; intros k w tr a w' H; cbn in H |- *.
  - by injection H as <- <- <-.
  - destruct (try x (max_attempts x) k w) as [[[t1 r] w1] k1] eqn:Et.
    destruct (simulate (c r) k1 w1) as [[[t2 a2] w2]|] eqn:Es; [|done]. injection H as <- <- <-.
    exists r, w1, t1, t2. split; [by eapply try_performs|]. split; [by eapply IH|done].
  - by eapply IH.
  - exists w. split; [reflexivity|by eapply IH].
  - destruct (ready (w_signals w)) eqn:Er; [|done]. exists w. split; [reflexivity|]. split; [done|by eapply IH].
  - by eapply IH.
Qed.
End Simulation.
End Runs.
End Workflow.
Arguments prog {activity} reply G A.
Arguments Ret {activity reply G A}.
Arguments Act {activity reply G A}.
Arguments SetPhase {activity reply G A}.
Arguments Ask {activity reply G A}.
Arguments Wait {activity reply G A}.
Arguments Start {activity reply G A}.
Arguments world G S : clear implicits.
Arguments trial {activity} reply G S.
Arguments mkWorld {G S}.
