(* ===== verification/PublishWorkflow.v ===== *)
(** * The publish workflows of the temporal-worker: workflows.py

    [PublishTargetWorkflow] takes one target from its snapshot to a reconciled
    result: it leases the device, prepares on the edge, registers the commit
    intent and has the edge commit, once. [PublishPlanWorkflow] runs the
    targets of a plan one after the other. *)

From stdpp Require Import base gmap strings list sets.
From Stdlib Require Import ZArith Lia.
From S2P Require Import Prelude Domain Temporal.

Open Scope Z_scope.

(** ** contracts.py *)

Record PublishTargetInput := mkTargetInput {
  wi_tenant_id : string;
  wi_plan_id : string;
  wi_target_id : string;
  wi_snapshot_id : string;
  wi_device_id : string;
  wi_requires_human_confirmation : bool;
}.
Record Lease := mkGrant {
  ls_device_id : string;
  ls_lease_id : string;
  ls_owner_workflow_id : string;
  ls_fencing_token : Z;
  ls_expires_at : Z;
}.
(** [CommitIntent] of contracts.py. *)
Record WorkerIntent := mkWorkerIntent {
  wc_id : string;
  wc_target_id : string;
  wc_fencing_token : Z;
  wc_before_commit_evidence_id : string;
}.
Record ReconcileObservation := mkObservation { ob_state : string; ob_detail : option string; ob_evidence_ids : list string }.
Record TargetOutcome := mkOutcome {
  ot_target_id : string;
  ot_state : PublishState;
  ot_detail : option string;
  ot_evidence_ids : list string;
}.
Record PublishPlanInput := mkPlanInput { wp_plan_id : string; wp_targets : list PublishTargetInput; wp_page_size : Z }.
Record PublishPlanOutcome := mkPlanOutcome { op_plan_id : string; op_targets : list TargetOutcome }.

(** ** The activities *)

(** Those of the control service. *)
Inductive control_activity : Type :=
| validate_snapshot (input : PublishTargetInput)
| acquire_device_lease (input : PublishTargetInput) (workflow_id : string)
| write_commit_intent (input : PublishTargetInput) (lease : Lease) (before_commit_evidence_id : string)
| mark_target_state (input : PublishTargetInput) (state : PublishState) (detail : option string)
| release_device_lease (input : PublishTargetInput) (lease : Lease).
(** Those of the edge. *)
Inductive edge_activity : Type :=
| edge_preflight (input : PublishTargetInput) (lease : Lease)
| stage_media (input : PublishTargetInput) (lease : Lease)
| run_prepare_steps (input : PublishTargetInput) (lease : Lease)
| commit_once (input : PublishTargetInput) (lease : Lease) (intent : WorkerIntent)
| reconcile_result (input : PublishTargetInput) (lease : Lease)
| cleanup (input : PublishTargetInput) (lease : option Lease).
Inductive activity : Type := Control (x : control_activity) | Edge (x : edge_activity).

Definition control_reply (x : control_activity) : Type :=
  match x with
  | validate_snapshot _ | mark_target_state _ _ _ | release_device_lease _ _ => ()
  | acquire_device_lease _ _ => Lease
  | write_commit_intent _ _ _ => WorkerIntent
  end.
Definition edge_reply (x : edge_activity) : Type :=
  match x with
  | edge_preflight _ _ | stage_media _ _ | commit_once _ _ _ | cleanup _ _ => ()
  | run_prepare_steps _ _ => string
  | reconcile_result _ _ => ReconcileObservation
  end.
Definition reply (x : activity) : Type := match x with Control x => control_reply x | Edge x => edge_reply x end.

(** The retry policies: READ_RETRY, IDEMPOTENT_WRITE_RETRY, COMMIT_ONCE_RETRY. *)
Definition READ_RETRY : nat := 5.
Definition IDEMPOTENT_WRITE_RETRY : nat := 8.
Definition COMMIT_ONCE_RETRY : nat := 1.
Definition maximum_attempts (x : activity) : nat :=
  match x with
  | Control (validate_snapshot _) | Edge (edge_preflight _ _) | Edge (run_prepare_steps _ _) | Edge (reconcile_result _ _) => READ_RETRY
  | Edge (commit_once _ _ _) => COMMIT_ONCE_RETRY
  | _ => IDEMPOTENT_WRITE_RETRY
  end.

(** ** PublishTargetWorkflow *)

Record signals := mkSignals { sg_approved : bool; sg_cancel_requested : bool }.
#[export] Instance signals_received : Signals signals := fun g g' =>
  (sg_approved g = true -> sg_approved g' = true) /\ (sg_cancel_requested g = true -> sg_cancel_requested g' = true).
#[export] Instance signals_preorder : PreOrder (received (G := signals)).
Proof. split; [by intros g|]. intros g1 g2 g3 [A1 A2] [B1 B2]. split; auto. Qed.

(** The local variables of [run]. *)
Record locals := mkLocals { lc_lease : option Lease; lc_commit_intent_written : bool }.

Abbreviation workflow := (prog reply signals).
(** A body ends with its locals and the outcome it returned; [None]: an
    ActivityError left it. *)
Abbreviation body := (workflow (locals * option TargetOutcome)).

(** Await an activity in the [try] block of [run], whose locals are [l]. *)
Definition await (x : activity) (l : locals) (k : reply x -> body) : body :=
  Act x (fun r => match r with Some v => k v | None => Ret (l, None) end).
Definition mark (input : PublishTargetInput) (state : PublishState) (detail : option string) : activity :=
  Control (mark_target_state input state detail).

Definition CANCELED_DETAIL : string := "canceled at a pre-commit safe point".
Definition cancel_at_safe_point (input : PublishTargetInput) (l : locals) : body :=
  await (mark input CANCELED (Some CANCELED_DETAIL)) l (fun _ =>
    SetPhase "CANCELED" (Ret (l, Some (mkOutcome (wi_target_id input) CANCELED (Some CANCELED_DETAIL) [])))).
(** [if self._cancel_requested: return await self._cancel_at_safe_point(input)] *)
Definition unless_canceled (input : PublishTargetInput) (l : locals) (k : body) : body :=
  Ask (fun g => if sg_cancel_requested g then cancel_at_safe_point input l else k).

Definition UNCERTAIN_DETAIL : string := "commit transport result is uncertain; reconciling without retry".
Definition observed_state (o : ReconcileObservation) : PublishState :=
  if decide (ob_state o = "SUCCEEDED") then SUCCEEDED else if decide (ob_state o = "FAILED") then FAILED else UNKNOWN.
(** [observation.detail or commit_detail] *)
Definition or_detail (d commit_detail : option string) : option string :=
  match d with Some s => if decide (s = "") then commit_detail else d | None => commit_detail end.

(** From RECONCILING to the result. *)
Definition reconciling (input : PublishTargetInput) (lease : Lease) (l : locals) (commit_detail : option string) : body :=
  SetPhase "RECONCILING" (
  await (mark input RECONCILING commit_detail) l (fun _ =>
  await (Edge (reconcile_result input lease)) l (fun observation =>
  let state := observed_state observation in
  let detail := or_detail (ob_detail observation) commit_detail in
  await (mark input state detail) l (fun _ =>
  SetPhase (publish_state_value state)
    (Ret (l, Some (mkOutcome (wi_target_id input) state detail (ob_evidence_ids observation)))))))).

(** From WRITING_COMMIT_INTENT on. *)
Definition committing (input : PublishTargetInput) (lease : Lease) (before_commit_evidence_id : string) (l : locals) : body :=
  SetPhase "WRITING_COMMIT_INTENT" (
  await (Control (write_commit_intent input lease before_commit_evidence_id)) l (fun intent =>
  let l := mkLocals (lc_lease l) true in
  SetPhase "COMMITTING" (
  Act (Edge (commit_once input lease intent)) (fun r =>
    reconciling input lease l (match r with Some _ => None | None => Some UNCERTAIN_DETAIL end))))).

(** From PREFLIGHT to the last point where cancellation is safe. *)
Definition preparing (input : PublishTargetInput) (lease : Lease) (l : locals) : body :=
  SetPhase "PREFLIGHT" (
  await (Edge (edge_preflight input lease)) l (fun _ =>
  unless_canceled input l (
  SetPhase "PREPARING" (
  await (Edge (stage_media input lease)) l (fun _ =>
  await (Edge (run_prepare_steps input lease)) l (fun before_commit_evidence_id =>
  unless_canceled input l (
  if wi_requires_human_confirmation input then
    SetPhase "WAITING_CONFIRMATION" (
    await (mark input WAITING_CONFIRMATION None) l (fun _ =>
    Wait (fun g => sg_approved g || sg_cancel_requested g) (
    unless_canceled input l (committing input lease before_commit_evidence_id l))))
  else committing input lease before_commit_evidence_id l))))))).

(** From ACQUIRING_LEASE on. *)
Definition acquiring (input : PublishTargetInput) (workflow_id : string) (l : locals) : body :=
  SetPhase "ACQUIRING_LEASE" (
  await (mark input QUEUED None) l (fun _ =>
  await (Control (acquire_device_lease input workflow_id)) l (fun lease =>
  let l := mkLocals (Some lease) (lc_commit_intent_written l) in
  await (mark input RUNNING None) l (fun _ => preparing input lease l)))).

(** The [try] block. *)
Definition attempt_publish (input : PublishTargetInput) (workflow_id : string) : body :=
  let l := mkLocals None false in
  SetPhase "VALIDATING" (
  await (Control (validate_snapshot input)) l (fun _ =>
  unless_canceled input l (acquiring input workflow_id l))).

(** [except ActivityError]; [None]: another one left the handler. *)
Definition on_activity_error (input : PublishTargetInput) (l : locals) : workflow (option TargetOutcome) :=
  let state := if lc_commit_intent_written l then UNKNOWN else FAILED in
  let detail := Some (if lc_commit_intent_written l
                      then "activity failed after commit intent; manual reconciliation required"
                      else "activity failed before commit: ActivityError") in
  Act (mark input state detail) (fun r =>
    match r with
    | Some _ => SetPhase (publish_state_value state) (Ret (Some (mkOutcome (wi_target_id input) state detail [])))
    | None => Ret None
    end).

(** [finally]. The phase it starts from is that of a finished outcome exactly
    when there is one. *)
Definition finally (input : PublishTargetInput) (l : locals) (outcome : option TargetOutcome) : workflow (option TargetOutcome) :=
  let rest :=
    Act (Edge (cleanup input (lc_lease l))) (fun r =>
      match r with
      | None => Ret None
      | Some _ =>
          match lc_lease l with
          | None => Ret outcome
          | Some lease => Act (Control (release_device_lease input lease)) (fun r => Ret (match r with Some _ => outcome | None => None end))
          end
      end) in
  match outcome with Some _ => rest | None => SetPhase "CLEANUP" rest end.

(** [None]: the workflow failed. *)
Definition PublishTargetWorkflow (input : PublishTargetInput) (workflow_id : string) : workflow (option TargetOutcome) :=
  bind (attempt_publish input workflow_id) (fun '(l, outcome) =>
  bind (match outcome with Some _ => Ret outcome | None => on_activity_error input l end) (fun outcome =>
  finally input l outcome)).

(** ** PublishPlanWorkflow *)

(** The targets that are left, and the results so far. *)
Fixpoint run_targets (targets : list PublishTargetInput) (results : list TargetOutcome) : workflow (option (list TargetOutcome)) :=
  match targets with
  | [] => Ret (Some results)
  | target :: targets =>
      bind (Start (mkSignals false false) (PublishTargetWorkflow target ("publish-target/" +:+ wi_target_id target))) (fun result =>
      match result with Some r => run_targets targets (results ++ [r]) | None => Ret None end)
  end.
Definition PublishPlanWorkflow (input : PublishPlanInput) : workflow (option PublishPlanOutcome) :=
  bind (run_targets (wp_targets input) []) (fun results =>
  Ret (mkPlanOutcome (wp_plan_id input) <$> results)).

(** ** What a run does, whatever the backend *)

Section Runs.
Context {S : Type} `{B : !ActivityBackend reply S} `{!BackendLaws B}.
Abbreviation world := (world signals S).
Abbreviation trial := (trial reply signals S).
Abbreviation runs := (runs maximum_attempts).
Abbreviation performs := (performs (B := B) (Sg := signals_received)).

(** The commits the edge was asked for. *)
Definition commit_of (e : trial) : option (Lease * WorkerIntent) :=
  match ev_activity e with Edge (commit_once _ lease intent) => Some (lease, intent) | _ => None end.
Definition commits (tr : list trial) : list (Lease * WorkerIntent) := omap commit_of tr.
(** The leases granted, and given back. *)
Definition lease_of (e : trial) : option Lease :=
  match e with mkTrial _ (Control (acquire_device_lease _ _)) r => r | _ => None end.
Definition granted (tr : list trial) : list Lease := omap lease_of tr.

Lemma commits_app t1 t2 : commits (t1 ++ t2) = commits t1 ++ commits t2.
Proof. apply omap_app. Qed.
Lemma granted_app t1 t2 : granted (t1 ++ t2) = granted t1 ++ granted t2.
Proof. apply omap_app. Qed.

Lemma commits_nil tr : Forall (fun e => commit_of e = None) tr -> commits tr = [].
Proof. unfold commits. induction 1 as [|e tr H _ IH]; [done|]. cbn. by rewrite H. Qed.
Lemma performs_commits x n w tr r w' : (forall i l o, x <> Edge (commit_once i l o)) -> performs x n w tr r w' -> commits tr = [].
Proof.
  intros Hx H%performs_activity. apply commits_nil. eapply Forall_impl; [exact H|]. intros e E. unfold commit_of. rewrite E.
  destruct x as [|[]]; try done. by edestruct Hx.
Qed.
Ltac quiet := repeat first [rewrite app_nil_r | rewrite commits_app | match goal with H : Temporal.performs ?x _ _ ?t _ _ |- context [commits ?t] => rewrite (performs_commits x _ _ t _ _ ltac:(done) H) end]; try done.

Lemma performs_granted x n w tr r w' : (forall i o, x <> Control (acquire_device_lease i o)) -> performs x n w tr r w' -> granted tr = [].
Proof.
  intros Hx H%performs_activity. unfold granted. induction H as [|e tr He _ IH]; [done|]. cbn. rewrite IH.
  destruct e as [? y ?]; cbn in *. subst y. destruct x as [[]|]; try done. by edestruct Hx.
Qed.

Lemma runs_await x l k w tr out w' : runs (await x l k) w tr out w' ->
  exists r w1 t1 t2, performs x (maximum_attempts x) w t1 r w1 /\ tr = t1 ++ t2
    /\ match r with Some v => runs (k v) w1 t2 out w' | None => t2 = [] /\ out = (l, None) /\ w' = w1 end.
Proof.
  intros (r & w1 & t1 & t2 & Hp & H & ->). exists r, w1, t1, t2. split; [done|]. split; [done|]. by destruct r.
Qed.

(** The control service took the mark of the outcome. *)
Definition accepted (input : PublishTargetInput) (out : TargetOutcome) (tr : list trial) : Prop :=
  exists w, mkTrial w (mark input (ot_state out) (ot_detail out)) (Some tt) ∈ tr.
(** The outcome is the edge's observation. *)
Definition reconciled (input : PublishTargetInput) (lease : Lease) (out : TargetOutcome) (tr : list trial) : Prop :=
  exists w o, mkTrial w (Edge (reconcile_result input lease)) (Some o) ∈ tr
    /\ ot_state out = observed_state o /\ ot_evidence_ids out = ob_evidence_ids o.
(** The attempt [e] is the commit, under an intent registered before. *)
Record authorised_commit (input : PublishTargetInput) (lease : Lease) (t1 : list trial) (e : trial) : Prop := mkAuthorised {
  au_intent : exists w ev intent s, mkTrial w (Control (write_commit_intent input lease ev)) (Some intent) ∈ t1
    /\ attempt (Control (write_commit_intent input lease ev)) (w_store w) (Some intent) s /\ others s (w_store (ev_world e))
    /\ ev_activity e = Edge (commit_once input lease intent);
  au_confirmed : wi_requires_human_confirmation input = true -> sg_approved (w_signals (ev_world e)) = true;
}.

(** What the [try] block did, from the lease on. *)
Inductive story (input : PublishTargetInput) (lease : Lease) (tr : list trial) : bool -> option TargetOutcome -> Prop :=
| story_stopped : commits tr = [] -> story input lease tr false None
| story_canceled out : commits tr = [] -> accepted input out tr -> ot_state out = CANCELED ->
    ot_target_id out = wi_target_id input -> story input lease tr false (Some out)
| story_committed t1 e t2 o : tr = t1 ++ e :: t2 -> commits t1 = [] -> commits t2 = [] -> authorised_commit input lease t1 e ->
    (forall out, o = Some out -> reconciled input lease out t2 /\ accepted input out t2 /\ ot_target_id out = wi_target_id input) ->
    story input lease tr true o.

Lemma accepted_app input out t1 t2 : accepted input out t2 -> accepted input out (t1 ++ t2).
Proof. intros [w H]. exists w. apply elem_of_app. by right. Qed.
Lemma reconciled_app input lease out t1 t2 : reconciled input lease out t2 -> reconciled input lease out (t1 ++ t2).
Proof. intros (w & o & H & E). exists w, o. split; [apply elem_of_app; by right|done]. Qed.

Lemma story_app input lease t0 tr b o : commits t0 = [] -> story input lease tr b o -> story input lease (t0 ++ tr) b o.
Proof.
  intros H0 [H|out H Ha Hs Ht|t1 e t2 o' -> H1 H2 [(w & ev & i & s & Hin & G) Hc] Ho].
  - apply story_stopped. by rewrite commits_app, H0, H.
  - apply story_canceled; [by rewrite commits_app, H0, H|by apply accepted_app|done..].
  - eapply (story_committed _ _ _ (t0 ++ t1) e t2); [by rewrite <- app_assoc|by rewrite commits_app, H0, H1|done| |done].
    split; [|done]. exists w, ev, i, s. split; [apply elem_of_app; by right|done].
Qed.

(** The body ran to [out] in a phase that says so. *)
Definition phase_of (o : option TargetOutcome) (w : world) : Prop :=
  forall out, o = Some out -> w_phase w = publish_state_value (ot_state out).

Ltac step_await H :=
  apply runs_await in H as ([?v|] & ?w1 & ?t1 & ?t2 & ?Hp & -> & H); [|destruct H as (-> & [= -> ->] & ->)].

Lemma cancel_story input lease l w tr l' o w' : runs (cancel_at_safe_point input l) w tr (l', o) w' -> lc_commit_intent_written l = false ->
  l' = l /\ story input lease tr (lc_commit_intent_written l) o /\ phase_of o w'.
Proof.
  intros H Hl. rewrite Hl. unfold cancel_at_safe_point in H. step_await H.
  - cbn in H. destruct H as (-> & [= -> ->] & ->). rewrite app_nil_r. split; [done|].
    split; [|by intros out [= <-]]. apply story_canceled; [by quiet| |done..].
    apply performs_Some in Hp as (t0 & w0 & -> & _). destruct v. exists w0. apply elem_of_app. right. by left.
  - rewrite app_nil_r. split; [done|]. split; [|done]. apply story_stopped. by quiet.
Qed.

Lemma reconciling_story input lease l d w tr l' o w' : runs (reconciling input lease l d) w tr (l', o) w' ->
  l' = l /\ commits tr = [] /\ phase_of o w'
  /\ forall out, o = Some out -> reconciled input lease out tr /\ accepted input out tr /\ ot_target_id out = wi_target_id input.
Proof.
  unfold reconciling. intros H. cbn [Temporal.runs] in H.
  step_await H; [|by quiet].
  step_await H; [|by quiet].
  step_await H; [|by quiet].
  cbn in H. destruct H as (-> & [= -> ->] & ->). rewrite app_nil_r. split; [done|].
  split; [by quiet|]. split; [by intros out [= <-]|].
  intros out [= <-]. split; [|split; [|done]].
  - apply performs_Some in Hp0 as (t & wx & -> & _). exists wx, v0. split; [|done]. set_solver.
  - apply performs_Some in Hp1 as (t & wx & -> & _). destruct v1. exists wx. cbn. set_solver.
Qed.

Lemma committing_story input lease ev l w tr l' o w' : runs (committing input lease ev l) w tr (l', o) w' ->
  lc_commit_intent_written l = false ->
  (wi_requires_human_confirmation input = true -> sg_approved (w_signals w) = true) ->
  lc_lease l' = lc_lease l /\ story input lease tr (lc_commit_intent_written l') o /\ phase_of o w'.
Proof.
  unfold committing. intros H Hl Hc. cbn [Temporal.runs] in H.
  step_await H; [|rewrite Hl; split; [done|]; split; [|done]; apply story_stopped; by quiet].
  cbn [Temporal.runs] in H. destruct H as (r & w2 & t3 & t4 & Hp2 & H & ->).
  apply reconciling_story in H as (-> & Hq & Hph & Ho). split; [done|]. split; [|done]. cbn [lc_commit_intent_written].
  apply performs_Some in Hp as Hi. destruct Hi as (t0 & wi & E & _ & (He1 & Hs1 & _) & Ha & (He2 & Hs2 & _)).
  cbn in Hp2. destruct Hp2 as (w3 & r3 & s3 & (He3 & Hs3 & _) & _ & Hp2).
  assert (exists e, t3 = [e] /\ ev_activity e = Edge (commit_once input lease v) /\ ev_world e = w3) as (e & -> & Ee & Ew).
  { destruct r3; cbn in Hp2; [destruct Hp2 as [-> _]|destruct Hp2 as (? & -> & -> & _)]; by eexists. }
  apply (story_committed _ _ _ t1 e t4); [done|by quiet|done| |done]. split.
  - exists wi, ev, v, (w_store w1). rewrite Ew. split; [rewrite E; set_solver|done].
  - rewrite Ew. intros Hh. apply Hs3, Hs2, Hs1, Hc, Hh.
Qed.

Lemma unless_canceled_story input lease l k w tr l' o w' : runs (unless_canceled input l k) w tr (l', o) w' ->
  lc_commit_intent_written l = false ->
  l' = l /\ story input lease tr (lc_commit_intent_written l') o /\ phase_of o w'
  \/ exists w1, evolves w w1 /\ sg_cancel_requested (w_signals w1) = false /\ runs k w1 tr (l', o) w'.
Proof.
  intros (w1 & He & H) Hl. destruct (sg_cancel_requested (w_signals w1)) eqn:Ec; [left|right; by exists w1].
  apply (cancel_story _ lease) in H; [|done]. by destruct H as (-> & H).
Qed.

Lemma preparing_story input lease l w tr l' o w' : runs (preparing input lease l) w tr (l', o) w' ->
  lc_commit_intent_written l = false ->
  lc_lease l' = lc_lease l /\ story input lease tr (lc_commit_intent_written l') o /\ phase_of o w'.
Proof.
  unfold preparing. intros H Hl. cbn [Temporal.runs] in H.
  step_await H; [|rewrite Hl; split; [done|]; split; [|done]; apply story_stopped; by quiet].
  enough (lc_lease l' = lc_lease l /\ story input lease t2 (lc_commit_intent_written l') o /\ phase_of o w') as (? & ? & ?)
    by (split; [done|]; split; [apply story_app; [by quiet|done]|done]).
  apply (unless_canceled_story _ lease) in H as [(-> & ? & ?)|(w2 & _ & _ & H)]; [done| |done].
  clear Hp t1 v w1. cbn [Temporal.runs] in H.
  step_await H; [|rewrite Hl; split; [done|]; split; [|done]; apply story_stopped; by quiet].
  step_await H; [|rewrite Hl; split; [done|]; split; [|done]; apply story_stopped; by quiet].
  enough (lc_lease l' = lc_lease l /\ story input lease t3 (lc_commit_intent_written l') o /\ phase_of o w') as (? & ? & ?)
    by (split; [done|]; split; [do 2 (apply story_app; [by quiet|]); done|done]).
  apply (unless_canceled_story _ lease) in H as [(-> & ? & ?)|(w4 & _ & _ & H)]; [done| |done].
  destruct (wi_requires_human_confirmation input) eqn:Eh; [|by eapply committing_story in H; [|done|congruence]].
  clear Hp Hp0. cbn [Temporal.runs] in H.
  step_await H; [|rewrite Hl; split; [done|]; split; [|done]; apply story_stopped; by quiet].
  cbn [Temporal.runs] in H. destruct H as (w5 & _ & Hr & H).
  enough (lc_lease l' = lc_lease l /\ story input lease t4 (lc_commit_intent_written l') o /\ phase_of o w') as (? & ? & ?)
    by (split; [done|]; split; [apply story_app; [by quiet|done]|done]).
  apply (unless_canceled_story _ lease) in H as [(-> & ? & ?)|(w6 & (_ & Hs & _) & Hc & H)]; [done| |done].
  eapply committing_story; [exact H|done|]. intros _.
  apply orb_true_iff in Hr as [Hr|Hr]; [by apply Hs|]. apply Hs in Hr. congruence.
Qed.

(** ** The whole run *)

Definition no_acquire (x : activity) : Prop := match x with Control (acquire_device_lease _ _) => False | _ => True end.
Definition no_commit (x : activity) : Prop := match x with Edge (commit_once _ _ _) => False | _ => True end.

Lemma no_acquire_granted tr : Forall (fun e => no_acquire (ev_activity e)) tr -> granted tr = [].
Proof. unfold granted. induction 1 as [|[? [[]|] ?] tr He _ IH]; cbn in *; done. Qed.
Lemma no_commit_commits tr : Forall (fun e => no_commit (ev_activity e)) tr -> commits tr = [].
Proof. intros H. apply commits_nil. eapply Forall_impl; [exact H|]. intros e. unfold commit_of. by destruct (ev_activity e) as [|[]]. Qed.

Ltac each_activity := cbn; repeat match goal with
  | |- _ /\ _ => split
  | |- forall _, _ => intros ?
  | |- context [match ?r with _ => _ end] => destruct r; cbn
  | |- True => exact I
  end.

Lemma preparing_only input lease l : only no_acquire (preparing input lease l).
Proof. each_activity. Qed.

(** What the [try] block did. *)
Record block_story (input : PublishTargetInput) (workflow_id : string) (w : world) (tr : list trial) (l : locals)
    (o : option TargetOutcome) : Prop := mkBlockStory {
  bs_granted : granted tr = option_list (lc_lease l);
  bs_story : forall lease, lc_lease l = Some lease \/ lc_lease l = None -> story input lease tr (lc_commit_intent_written l) o;
  bs_written : lc_commit_intent_written l = true -> is_Some (lc_lease l);
  bs_owner : forall lease, lc_lease l = Some lease -> exists (wa : world) s,
    attempt (Control (acquire_device_lease input workflow_id)) (w_store wa) (Some lease) s
    /\ others (w_store w) (w_store wa);
}.

(** Activities that neither commit nor acquire. *)
Lemma performs_quiet x n w tr r w' : no_acquire x -> no_commit x -> performs x n w tr r w' ->
  commits tr = [] /\ granted tr = [] /\ others (w_store w) (w_store w').
Proof.
  intros Ha Hc Hp. split; [|split; [|by apply performs_evolves in Hp as [[? _] _]]].
  - apply no_commit_commits. apply performs_activity in Hp. eapply Forall_impl; [exact Hp|]. by intros e ->.
  - apply no_acquire_granted. apply performs_activity in Hp. eapply Forall_impl; [exact Hp|]. by intros e ->.
Qed.

Lemma block_app input workflow_id w w1 t0 tr l o : commits t0 = [] -> granted t0 = [] -> others (w_store w) (w_store w1) ->
  block_story input workflow_id w1 tr l o -> block_story input workflow_id w (t0 ++ tr) l o.
Proof.
  intros Hc Hg Hw [G St Wr Ow]. split; [by rewrite granted_app, Hg, G| |done|].
  - intros lease Hl. apply story_app; [done|by apply St].
  - intros lease Hl. destruct (Ow lease Hl) as (wa & s & ? & ?). exists wa, s. split; [done|by etransitivity].
Qed.

Lemma block_stopped input workflow_id w tr : commits tr = [] -> granted tr = [] ->
  block_story input workflow_id w tr (mkLocals None false) None.
Proof. intros Hc Hg. split; [done| |done|done]. intros lease _. by apply story_stopped. Qed.

Lemma acquire_granted input workflow_id n w tr r w' :
  performs (Control (acquire_device_lease input workflow_id)) n w tr r w' -> granted tr = option_list r.
Proof.
  intros H. assert (forall t, Forall (failed (Control (acquire_device_lease input workflow_id))) t -> granted t = []) as Hf.
  { intros t. unfold granted. induction 1 as [|e t [w0 ->] _ IH]; [done|]. exact IH. }
  destruct r as [v|].
  - apply performs_Some in H as (t0 & w1 & -> & H & _). by rewrite granted_app, (Hf t0 H).
  - by apply performs_None, Hf in H.
Qed.

(** Once there is a lease. *)
Lemma leased_block input workflow_id lease w t0 tr l o w1 w' :
  performs (Control (acquire_device_lease input workflow_id)) IDEMPOTENT_WRITE_RETRY w t0 (Some lease) w1 ->
  lc_lease l = Some lease -> granted tr = [] -> story input lease tr (lc_commit_intent_written l) o -> phase_of o w' ->
  block_story input workflow_id w (t0 ++ tr) l o /\ phase_of o w'.
Proof.
  intros Hp Hl Hg Hs Hph. split; [|done]. split.
  - by rewrite granted_app, Hg, app_nil_r, Hl, (acquire_granted _ _ _ _ _ _ _ Hp).
  - intros lease' [E|E]; rewrite Hl in E; [|done]. injection E as <-. apply story_app; [by quiet|done].
  - by rewrite Hl.
  - intros lease' E. rewrite Hl in E. injection E as <-.
    apply performs_Some in Hp as (t1 & wa & _ & _ & (Ho & _) & Ha & _). by exists wa, (w_store w1).
Qed.

Lemma acquiring_story input workflow_id w tr l o w' :
  runs (acquiring input workflow_id (mkLocals None false)) w tr (l, o) w' -> block_story input workflow_id w tr l o /\ phase_of o w'.
Proof.
  unfold acquiring. intros H. cbn [Temporal.runs] in H.
  step_await H; (apply performs_quiet in Hp as (C1 & G1 & O1); [|done..]); [|rewrite app_nil_r; by split; [apply block_stopped|]].
  enough (block_story input workflow_id w1 t2 l o /\ phase_of o w') as [Hb ?] by (split; [by eapply block_app|done]).
  step_await H; [|pose proof (acquire_granted _ _ _ _ _ _ _ Hp) as G2; rewrite app_nil_r; split; [|done]; apply block_stopped; [by quiet|done]].
  cbn [lc_commit_intent_written] in H. step_await H.
  - eapply (only_runs (B := B) _ no_acquire) in H as Hg; [|apply preparing_only].
    apply preparing_story in H as (Hl & Hs & Hph); [|done]. apply performs_quiet in Hp0 as (C3 & G3 & _); [|done..].
    eapply leased_block; [exact Hp|done|by rewrite granted_app, G3, no_acquire_granted|by apply story_app|done].
  - apply performs_quiet in Hp0 as (C3 & G3 & _); [|done..]. rewrite app_nil_r.
    eapply leased_block; [exact Hp|done|done|by apply story_stopped|done].
Qed.

Lemma attempt_publish_story input workflow_id w tr l o w' :
  runs (attempt_publish input workflow_id) w tr (l, o) w' -> block_story input workflow_id w tr l o /\ phase_of o w'.
Proof.
  unfold attempt_publish. intros H. cbn [Temporal.runs] in H.
  step_await H; (apply performs_quiet in Hp as (C1 & G1 & O1); [|done..]); [|rewrite app_nil_r; by split; [apply block_stopped|]].
  enough (block_story input workflow_id w1 t2 l o /\ phase_of o w') as [Hb ?] by (split; [by eapply block_app|done]).
  destruct H as (w2 & (O2 & _) & H). destruct (sg_cancel_requested (w_signals w2)).
  - eapply (only_runs (B := B) _ no_acquire) in H as Hg; [|by each_activity]. apply no_acquire_granted in Hg.
    assert (forall lease, l = mkLocals None false /\ story input lease t2 false o /\ phase_of o w') as Hc
      by (intros lease; by eapply cancel_story in H).
    destruct (Hc (mkGrant "" "" "" 0 0)) as (-> & _ & ?). split; [|done]. split; [done| |done|done].
    intros lease _. apply Hc.
  - apply acquiring_story in H as [Hb ?]. split; [|done]. by eapply (block_app _ _ _ w2 []).
Qed.

Lemma on_activity_error_story input l w tr o w' : runs (on_activity_error input l) w tr o w' ->
  phase_of o w'
  /\ forall out, o = Some out -> accepted input out tr /\ ot_target_id out = wi_target_id input
       /\ ot_state out = if lc_commit_intent_written l then UNKNOWN else FAILED.
Proof.
  intros (r & w1 & t1 & t2 & Hp & H & ->). destruct r as [v|]; cbn in H; destruct H as (-> & -> & ->); [|done].
  split; [by intros out [= <-]|]. intros out [= <-]. split; [|done].
  apply performs_Some in Hp as (t0 & wx & -> & _). destruct v. exists wx. cbn. set_solver.
Qed.

Lemma performs_phase x n w tr r w' : performs x n w tr r w' -> w_phase w' = w_phase w.
Proof. by intros [(_ & _ & ?) _]%performs_evolves. Qed.

Definition released (input : PublishTargetInput) (lease : Lease) (tr : list trial) : Prop :=
  exists w, mkTrial w (Control (release_device_lease input lease)) (Some tt) ∈ tr.

Lemma finally_story input l o w tr o' w' : runs (finally input l o) w tr o' w' -> phase_of o w ->
  phase_of o' w' /\ forall out, o' = Some out -> o = Some out /\ forall lease, lc_lease l = Some lease -> released input lease tr.
Proof.
  unfold finally. intros H Hph. destruct o as [out|].
  2: { assert (o' = None) as ->; [|done]. destruct H as (r & w1 & t1 & t2 & _ & H & _).
       destruct r; [destruct (lc_lease l); [destruct H as (r2 & ? & ? & ? & _ & (_ & -> & _) & _); by destruct r2|destruct H as (_ & -> & _)]|destruct H as (_ & -> & _)]; done. }
  destruct H as (r & w1 & t1 & t2 & Hp%performs_phase & H & ->). destruct r; [|destruct H as (_ & -> & _); done].
  destruct (lc_lease l) as [lease|].
  - destruct H as (r2 & w2 & t3 & t4 & Hr & (-> & -> & ->) & ->). destruct r2 as [v|]; [|done].
    assert (w_phase w2 = w_phase w1) as E by by eapply performs_phase. split; [intros out' E'; rewrite E, Hp; by apply Hph|].
    intros out' [= <-]. split; [done|]. intros lease' [= <-]. apply performs_Some in Hr as (t0 & wx & -> & _). destruct v.
    exists wx. set_solver.
  - destruct H as (-> & -> & ->). split; [intros out' E'; rewrite Hp; by apply Hph|]. by intros out' [= <-].
Qed.

Lemma finally_only input l o : only no_acquire (finally input l o) /\ only no_commit (finally input l o).
Proof. by split; destruct o; each_activity. Qed.
Lemma on_activity_error_only input l : only no_acquire (on_activity_error input l) /\ only no_commit (on_activity_error input l).
Proof. by split; each_activity. Qed.

(** The parts of a run: the block, the handler if it was reached, the
    clean-up. *)
Lemma run_story input workflow_id w tr o w' : runs (PublishTargetWorkflow input workflow_id) w tr o w' ->
  exists l ob tb te, tr = tb ++ te /\ block_story input workflow_id w tb l ob
    /\ commits te = [] /\ granted te = [] /\ phase_of o w'
    /\ forall out, o = Some out -> (forall lease, lc_lease l = Some lease -> released input lease te)
         /\ (ob = Some out
             \/ ob = None /\ accepted input out te /\ ot_target_id out = wi_target_id input
                /\ ot_state out = if lc_commit_intent_written l then UNKNOWN else FAILED).
Proof.
  unfold PublishTargetWorkflow. intros ([l ob] & w1 & tb & t2 & Hb & H & ->)%runs_bind.
  apply runs_bind in H as (o1 & w2 & te & tf & He & Hf & ->). apply attempt_publish_story in Hb as [Hb Hph].
  exists l, ob, tb, (te ++ tf). split; [done|]. split; [done|].
  eapply (only_runs (B := B) _ no_acquire) in Hf as Ff; [|apply finally_only]. apply no_acquire_granted in Ff.
  eapply (only_runs (B := B) _ no_commit) in Hf as Cf; [|apply finally_only]. apply no_commit_commits in Cf.
  assert (commits te = [] /\ granted te = [] /\ phase_of o1 w2
    /\ forall out, o1 = Some out -> ob = Some out \/ ob = None /\ accepted input out te /\ ot_target_id out = wi_target_id input
                /\ ot_state out = if lc_commit_intent_written l then UNKNOWN else FAILED) as (Ce & Fe & Phe & Ho).
  { destruct ob as [out|]; [destruct He as (-> & -> & ->); split; [done|]; split; [done|]; split; [done|]; by left|].
    split; [eapply no_commit_commits, only_runs, He; apply on_activity_error_only|].
    split; [eapply no_acquire_granted, only_runs, He; apply on_activity_error_only|].
    apply on_activity_error_story in He as [? He]. split; [done|]. intros out E. right. split; [done|by apply He]. }
  apply finally_story in Hf as [Phf Hrel]; [|done].
  split; [by rewrite commits_app, Ce, Cf|]. split; [by rewrite granted_app, Fe, Ff|]. split; [done|].
  intros out E. destruct (Hrel out E) as [E1 Hr]. split; [intros lease El; destruct (Hr lease El) as [wx ?]; exists wx; set_solver|].
  destruct (Ho out E1) as [?|(? & [wx Ha] & ? & ?)]; [by left|]. right. split; [done|]. split; [exists wx; set_solver|done].
Qed.

(** The commit of a run, and the lease it was made under. *)
Lemma run_commit input workflow_id w tr o w'
    (H : runs (PublishTargetWorkflow input workflow_id) w tr o w') :
  (length (commits tr) <= 1)%nat
  /\ (forall e lease intent, e ∈ tr -> commit_of e = Some (lease, intent) ->
        granted tr = [lease]
        /\ (exists (wa : world) s, attempt (Control (acquire_device_lease input workflow_id)) (w_store wa) (Some lease) s
             /\ others (w_store w) (w_store wa))
        /\ exists t1 t2, tr = t1 ++ e :: t2 /\ authorised_commit input lease t1 e).
Proof.
  apply run_story in H as (l & ob & tb & te & -> & [Hg Hs Hw Hown] & Hc & Hge & _ & _).
  assert (forall e x, e ∈ te -> commit_of e = Some x -> False) as Hte.
  { intros e x He Hx. assert (x ∈ commits te) as Hin by (apply list_elem_of_omap; by exists e). rewrite Hc in Hin. by apply elem_of_nil in Hin. }
  destruct (lc_commit_intent_written l) eqn:El.
  - destruct (Hw eq_refl) as [lease Elease]. rewrite commits_app, Hc, app_nil_r.
    specialize (Hs lease (or_introl Elease)). inversion Hs as [| |t1 e t2 o' -> C1 C2 Ha Ho]; subst.
    pose proof (au_intent _ _ _ _ Ha) as (wi & ev & intent & si & _ & _ & _ & Ee).
    assert (commits (e :: t2) = [(lease, intent)]) as Ce by (unfold commits in *; cbn; unfold commit_of; rewrite Ee; f_equal; exact C2).
    rewrite commits_app, C1, Ce. split; [done|]. intros e' lease' intent' Hin E. apply elem_of_app in Hin as [Hin|Hin]; [|by edestruct Hte].
    assert (e' = e) as ->.
    { assert (forall t, e' ∈ t -> commits t <> []) as Hne.
      { intros t Ht C. assert ((lease', intent') ∈ commits t) as Hx by (apply list_elem_of_omap; by exists e'). rewrite C in Hx. by apply elem_of_nil in Hx. }
      apply elem_of_app in Hin as [Hin|[->|Hin]%elem_of_cons]; [by apply Hne in Hin|done|by apply Hne in Hin]. }
    assert (lease' = lease) as -> by (unfold commit_of in E; rewrite Ee in E; congruence).
    rewrite granted_app, Hg, Hge, Elease, app_nil_r. split; [done|]. split; [by apply Hown|]. exists t1, (t2 ++ te). by rewrite <- app_assoc.
  - assert (commits tb = []) as Cb.
    { specialize (Hs (default (mkGrant "" "" "" 0 0) (lc_lease l))). destruct (lc_lease l); [specialize (Hs (or_introl eq_refl))|specialize (Hs (or_intror eq_refl))];
        by inversion Hs. }
    rewrite commits_app, Cb, Hc. split; [cbn; lia|]. intros e lease intent [He|He]%elem_of_app E; [|by edestruct Hte].
    assert ((lease, intent) ∈ commits tb) as Hx by (apply list_elem_of_omap; by exists e). rewrite Cb in Hx. by apply elem_of_nil in Hx.
Qed.

(** C9. Commit once. Whatever fails, is retried or signaled, a run of the
    target workflow asks the edge to commit at most once, and only under a
    commit intent the control service registered before for the lease this
    run holds, and, where a human must confirm, after the confirmation. *)
Theorem target_commits_once input workflow_id w tr o w'
    (H : runs (PublishTargetWorkflow input workflow_id) w tr o w') :
  (length (commits tr) <= 1)%nat
  /\ (forall e lease intent, e ∈ tr -> commit_of e = Some (lease, intent) ->
        granted tr = [lease] /\ exists t1 t2, tr = t1 ++ e :: t2 /\ authorised_commit input lease t1 e).
Proof.
  apply run_commit in H as [Hl He]. split; [done|]. intros e lease intent Hin E. by destruct (He e lease intent Hin E) as (? & _ & ?).
Qed.

Lemma run_accepted input workflow_id w tr out w' : runs (PublishTargetWorkflow input workflow_id) w tr (Some out) w' ->
  accepted input out tr.
Proof.
  intros H. apply run_story in H as (l & ob & tb & te & -> & [_ Hs _ _] & _ & _ & _ & Ho).
  destruct (Ho out eq_refl) as [_ [E|(_ & A & _)]]; [|by apply accepted_app].
  assert (accepted input out tb) as [wx Hx]; [|exists wx; set_solver].
  specialize (Hs (default (mkGrant "" "" "" 0 0) (lc_lease l))). rewrite E in Hs.
  destruct (lc_lease l); [specialize (Hs (or_introl eq_refl))|specialize (Hs (or_intror eq_refl))];
    (inversion Hs as [|out' _ A _ _ E1 E2|t1 e t2 o' Etb _ _ _ Hrec E1 E2]; [done|]).
  all: destruct (Hrec out eq_refl) as (_ & [wy Hy] & _); exists wy; rewrite Etb; set_solver.
Qed.

(** C11. An outcome is what happened. When a run returns an outcome, it is that
    of the target, the control service took it as the state of the target,
    the phase says the same, and every lease whose grant reached the run was
    given back. CANCELED and FAILED without an observation mean that the edge was
    never asked to commit; after a commit the outcome is what the edge was
    observed to have done afterwards, or UNKNOWN. *)
Theorem outcome_is_honest input workflow_id w tr out w'
    (H : runs (PublishTargetWorkflow input workflow_id) w tr (Some out) w') :
  ot_target_id out = wi_target_id input /\ accepted input out tr /\ w_phase w' = publish_state_value (ot_state out)
  /\ (forall lease, lease ∈ granted tr -> released input lease tr)
  /\ (commits tr = [] /\ (ot_state out = CANCELED \/ ot_state out = FAILED)
      \/ exists lease t1 e t2, tr = t1 ++ e :: t2 /\ authorised_commit input lease t1 e
           /\ (ot_state out = UNKNOWN \/ reconciled input lease out t2)).
Proof.
  apply run_story in H as (l & ob & tb & te & -> & [Hg Hs Hw _] & Hc & Hge & Hph & Ho).
  destruct (Ho out eq_refl) as [Hrel Hout]. specialize (Hph out eq_refl).
  assert (forall lease, lease ∈ granted (tb ++ te) -> released input lease (tb ++ te)) as Hr.
  { intros lease. rewrite granted_app, Hg, Hge, app_nil_r. intros Hin. destruct (lc_lease l) as [lease'|]; [|by apply elem_of_nil in Hin].
    apply list_elem_of_singleton in Hin as ->. destruct (Hrel _ eq_refl) as [wx Hx]. exists wx. set_solver. }
  set (lease := default (mkGrant "" "" "" 0 0) (lc_lease l)).
  assert (story input lease tb (lc_commit_intent_written l) ob) as St by (apply Hs; unfold lease; destruct (lc_lease l); [by left|by right]).
  inversion St as [C0 E1 E2|out' C0 A Es Et E1 E2|t1 e t2 o' Etb C1 C2 Ha Hrec E1 E2].
  - destruct Hout as [|(_ & A & Et & Es)]; [congruence|]. rewrite <- E1 in Es.
    do 4 (split; [first [done | by apply accepted_app]|]). left. split; [by rewrite commits_app, C0, Hc|by right].
  - destruct Hout as [Eo|(Eo & _)]; [|congruence]. assert (out' = out) as -> by congruence.
    split; [done|]. split; [destruct A as [wx ?]; exists wx; set_solver|]. repeat (split; [done|]).
    left. split; [by rewrite commits_app, C0, Hc|by left].
  - rewrite <- E1 in Hout. assert (tb ++ te = t1 ++ e :: t2 ++ te) as E by (rewrite Etb; by rewrite <- app_assoc).
    destruct Hout as [Eo|(_ & A & Et & Es)].
    + destruct (Hrec out) as ((wx & o & Hin & G) & (wy & Hin2) & Et); [congruence|]. split; [done|].
      split; [exists wy; rewrite Etb; set_solver|]. repeat (split; [done|]). right. exists lease, t1, e, (t2 ++ te).
      split; [done|]. split; [done|]. right. exists wx, o. split; [set_solver|done].
    + do 4 (split; [first [done | by apply accepted_app]|]). right. exists lease, t1, e, (t2 ++ te).
      split; [done|]. split; [done|]. by left.
Qed.

Definition child_id (t : PublishTargetInput) : string := "publish-target/" +:+ wi_target_id t.
(** A run of the workflow of target [t], from its creation. *)
Definition child_run (t : PublishTargetInput) (r : list trial * option TargetOutcome) : Prop :=
  exists w w', w_signals w = mkSignals false false /\ runs (PublishTargetWorkflow t (child_id t)) w r.1 r.2 w'.

Lemma run_targets_story targets : forall results w tr o w', runs (run_targets targets results) w tr o w' ->
  exists rs : list (list trial * option TargetOutcome),
    tr = concat rs.*1 /\ Forall2 child_run (take (length rs) targets) rs
    /\ match o with
       | Some outs => length rs = length targets /\ exists new, outs = results ++ new /\ Some <$> new = rs.*2
       | None => exists rs0 t, rs = rs0 ++ [(t, None)] /\ Forall (fun r => is_Some r.2) rs0
       end.
Proof.
  induction targets as [|t ts IH]; intros results w tr o w' H; cbn [run_targets] in H.
  - destruct H as (-> & -> & ->). exists []. split; [done|]. split; [done|]. split; [done|]. exists []. by rewrite app_nil_r.
  - apply runs_bind in H as (r & w1 & t1 & t2 & Hr & H & ->). cbn [Temporal.runs] in Hr.
    assert (child_run t (t1, r)) as Hc
      by (by exists (mkWorld (w_store w) (mkSignals false false) "CREATED"), w1). destruct r as [r|].
    + apply IH in H as (rs & -> & Hrs & Ho). exists ((t1, Some r) :: rs). split; [done|]. split; [by constructor|]. destruct o as [outs|].
      * destruct Ho as (El & new & -> & En). cbn. split; [by rewrite El|]. exists (r :: new). rewrite <- app_assoc. cbn. by rewrite En.
      * destruct Ho as (rs0 & tl & -> & Hf). exists ((t1, Some r) :: rs0), tl. split; [done|]. by constructor.
    + destruct H as (-> & -> & ->). exists [(t1, None)]. split; [done|]. split; [cbn; rewrite take_0; by constructor|]. by exists [], t1.
Qed.

(** A plan runs its targets in order. Its trace is that of its targets'
    workflows, one after the other, each to its end and with no signal of
    another; it returns one outcome per target, in order, or fails with the
    first target whose workflow fails. *)
Theorem plan_runs_in_order input w tr o w' (H : runs (PublishPlanWorkflow input) w tr o w') :
  exists rs : list (list trial * option TargetOutcome),
    tr = concat rs.*1 /\ Forall2 child_run (take (length rs) (wp_targets input)) rs
    /\ match o with
       | Some out => op_plan_id out = wp_plan_id input /\ length rs = length (wp_targets input) /\ Some <$> op_targets out = rs.*2
       | None => exists rs0 t, rs = rs0 ++ [(t, None)] /\ Forall (fun r => is_Some r.2) rs0
       end.
Proof.
  apply runs_bind in H as (outs & w1 & t1 & t2 & H & (-> & -> & ->) & ->). apply run_targets_story in H as (rs & -> & Hrs & Ho).
  exists rs. rewrite app_nil_r. split; [done|]. split; [done|]. destruct outs as [outs|]; cbn.
  - destruct Ho as (El & new & -> & En). by split; [|split].
  - exact Ho.
Qed.
End Runs.

(** ** InMemoryActivityBackend *)

(** [reconciliation] is an argument: no activity changes it. *)
Record memory := mkMemory { mm_states : list PublishState; mm_commit_calls : gmap string nat; mm_released : gset string }.

Definition check_lease (input : PublishTargetInput) (lease : Lease) : result error () :=
  raise_if ls_device_id lease <> wi_device_id input \/ ls_fencing_token lease < 1
    with ValueError "invalid fencing lease" in Ok tt.

(** The answer of an activity, and the memory it leaves, also when it raises. *)
Definition memory_control (x : control_activity) (new_id : string) (m : memory) : result error (control_reply x) * memory :=
  match x with
  | validate_snapshot input =>
      (raise_if wi_snapshot_id input = "" \/ wi_target_id input = "" \/ wi_device_id input = ""
         with ValueError "publish target input is incomplete" in Ok tt, m)
  | acquire_device_lease input workflow_id => (Ok (mkGrant (wi_device_id input) new_id workflow_id 1 4070908800000000), m)
  | write_commit_intent input lease evidence_id =>
      (let? _ := check_lease input lease in
       Ok (mkWorkerIntent new_id (wi_target_id input) (ls_fencing_token lease) evidence_id), m)
  | mark_target_state _ state _ => (Ok tt, mkMemory (mm_states m ++ [state]) (mm_commit_calls m) (mm_released m))
  | release_device_lease _ lease => (Ok tt, mkMemory (mm_states m) (mm_commit_calls m) ({[ ls_lease_id lease ]} ∪ mm_released m))
  end.
Definition memory_edge (reconciliation : ReconcileObservation) (x : edge_activity) (new_id : string) (m : memory)
    : result error (edge_reply x) * memory :=
  match x with
  | edge_preflight input lease | stage_media input lease => (check_lease input lease, m)
  | run_prepare_steps input lease => (let? _ := check_lease input lease in Ok new_id, m)
  | commit_once input lease intent =>
      match check_lease input lease with
      | Err e => (Err e, m)
      | Ok _ =>
          if decide (wc_fencing_token intent <> ls_fencing_token lease) then (Err (ValueError "commit intent fencing token mismatch"), m) else
          let calls := (default 0 (mm_commit_calls m !! wi_target_id input) + 1)%nat in
          let m := mkMemory (mm_states m) (<[wi_target_id input := calls]> (mm_commit_calls m)) (mm_released m) in
          (if decide (1 < calls)%nat then Err (RuntimeError "commit_once called more than once") else Ok tt, m)
      end
  | reconcile_result input lease => (let? _ := check_lease input lease in Ok reconciliation, m)
  | cleanup _ _ => (Ok tt, m)
  end.
Definition memory_call (reconciliation : ReconcileObservation) (x : activity) (new_id : string) (m : memory)
    : result error (reply x) * memory :=
  match x with
  | Control x => memory_control x new_id m
  | Edge x => memory_edge reconciliation x new_id m
  end.

(** The targets of the commits that were taken, of a sequence of calls. *)
Fixpoint taken (reconciliation : ReconcileObservation) (calls : list (activity * string)) (m : memory) : list string :=
  match calls with
  | [] => []
  | (x, new_id) :: calls =>
      let '(r, m') := memory_call reconciliation x new_id m in
      match x, r with
      | Edge (commit_once input _ _), Ok _ => [wi_target_id input]
      | _, _ => []
      end ++ taken reconciliation calls m'
  end.

Lemma memory_call_calls o x i m r m' : memory_call o x i m = (r, m') ->
  match x, r with
  | Edge (commit_once input _ _), Ok _ =>
      mm_commit_calls m !! wi_target_id input ∈ [None; Some 0%nat] /\ is_Some (mm_commit_calls m' !! wi_target_id input)
      /\ mm_commit_calls m' !! wi_target_id input <> Some 0%nat
  | _, _ => True
  end
  /\ forall k n, mm_commit_calls m !! k = Some (S n) -> exists n', mm_commit_calls m' !! k = Some (S n').
Proof.
  intros H. destruct x as [[]|[]]; cbn in H; try (injection H as <- <-; split; [done|]; intros k n E; by eexists).
  destruct (check_lease input lease); [|injection H as <- <-; split; [done|]; intros k n E; by eexists].
  case_decide; [injection H as <- <-; split; [done|]; intros k n E; by eexists|]. injection H as <- <-. cbn.
  split.
  - case_decide as D; [done|]. rewrite lookup_insert_eq. split; [|split; [by eexists|intros [= E]; lia]].
    destruct (mm_commit_calls m !! wi_target_id input) as [[|n]|]; cbn in D; [right; left|lia|left].
  - intros k n E. destruct (decide (k = wi_target_id input)) as [->|Hne].
    + rewrite lookup_insert_eq. eexists. f_equal. apply Nat.add_1_r.
    + rewrite lookup_insert_ne by done. by eexists.
Qed.

(** The development backend takes one commit per target, whatever it is
    asked, in whatever order and by however many workflows. *)
Theorem memory_commits_once reconciliation calls m : NoDup (taken reconciliation calls m).
Proof.
  assert (NoDup (taken reconciliation calls m)
          /\ forall k n, mm_commit_calls m !! k = Some (S n) -> k ∉ taken reconciliation calls m) as [H _]; [|exact H].
  revert m. induction calls as [|[x i] calls IH]; intros m; cbn [taken]; [split; [constructor|by intros k n _ ?%elem_of_nil]|].
  destruct (memory_call reconciliation x i m) as [r m'] eqn:E. apply memory_call_calls in E as [Ht Hk]. destruct (IH m') as [Hn Hl].
  assert (forall k n, mm_commit_calls m !! k = Some (S n) -> k ∉ taken reconciliation calls m') as Hl'
    by (intros k n E; destruct (Hk k n E) as [n' E']; by eapply Hl).
  destruct x as [x|[]]; try (split; [done|exact Hl']). destruct r; [|split; [done|exact Hl']].
  destruct Ht as (H1 & [n H2] & H3). cbn. split.
  - constructor; [|done]. destruct n as [|n]; [done|]. by eapply Hl.
  - intros k n' E [->|Hin]%elem_of_cons; [|by eapply Hl']. rewrite E in H1. set_solver.
Qed.

(** One attempt: the activity may fail to start, its answer may be lost. *)
Definition memory_attempt (reconciliation : ReconcileObservation) (x : activity) (m : memory) (r : option (reply x)) (m' : memory) : Prop :=
  r = None /\ m' = m
  \/ exists new_id answer, memory_call reconciliation x new_id m = (answer, m') /\ (r = None \/ exists v, answer = Ok v /\ r = Some v).

(** Other workflows use the same memory. *)
Inductive memory_others (reconciliation : ReconcileObservation) : memory -> memory -> Prop :=
| memory_rest m : memory_others reconciliation m m
| memory_next m1 x r m2 m3 : memory_attempt reconciliation x m1 r m2 -> memory_others reconciliation m2 m3 ->
    memory_others reconciliation m1 m3.

#[export] Instance memory_others_preorder reconciliation : PreOrder (memory_others reconciliation).
Proof.
  split; [by intros m; constructor|]. intros m1 m2 m3 H1 H2. induction H1 as [|m1 x r m2 m4 Ha _ IH]; [done|].
  eapply memory_next; [exact Ha|by apply IH].
Qed.

#[export] Instance InMemoryActivityBackend (reconciliation : ReconcileObservation) : ActivityBackend reply memory := {
  attempt := memory_attempt reconciliation;
  others := memory_others reconciliation;
}.
#[export] Instance memory_laws reconciliation : BackendLaws (InMemoryActivityBackend reconciliation).
Proof. split; [apply _|]. intros x s r s' H. eapply memory_next; [exact H|constructor]. Qed.

(** ** A run on the development backend *)

Definition demo_input : PublishTargetInput := mkTargetInput "tenant" "plan" "target0" "snapshot" "device" false.
Definition demo_workflow : string := "publish-target/target0".
Definition demo_observation : ReconcileObservation := mkObservation "SUCCEEDED" None ["shot"].
Definition demo_outcome : TargetOutcome := mkOutcome "target0" SUCCEEDED None ["shot"].

Definition memory_answers (x : activity) (k : nat) (m : memory) : option (reply x * memory) :=
  match memory_call demo_observation x (if decide (k = 0%nat) then "first" else "other") m with
  | (Ok v, m') => Some (v, m')
  | (Err _, _) => None
  end.
Definition empty_memory : world signals memory := mkWorld (mkMemory [] ∅ ∅) (mkSignals false false) "CREATED".
Definition memory_run := simulate maximum_attempts memory_answers (PublishTargetWorkflow demo_input demo_workflow) 0 empty_memory.
Definition memory_trace : list (trial reply signals memory) := match memory_run with Some (tr, _, _) => tr | None => [] end.
Definition memory_end : world signals memory := match memory_run with Some (_, _, w) => w | None => empty_memory end.

Lemma memory_simulated {A} (p : workflow A) w tr a w' :
  simulate maximum_attempts memory_answers p 0 w = Some (tr, a, w') ->
  runs (B := InMemoryActivityBackend demo_observation) maximum_attempts p w tr a w'.
Proof.
  intros H. apply (simulate_runs (B := InMemoryActivityBackend demo_observation) maximum_attempts memory_answers) with (k := 0%nat);
    [| |exact H].
  - intros x k m v m' E. unfold memory_answers in E. destruct (memory_call _ _ _ _) as [[u|] m2] eqn:Ec; [|done].
    injection E as -> ->. right. eexists _, _. split; [exact Ec|]. right. by eexists.
  - intros x m. by left.
Qed.

Lemma memory_run_Some : memory_run = Some (memory_trace, Some demo_outcome, memory_end).
Proof. vm_compute. reflexivity. Qed.

Lemma target_commits_once_witness : (length (commits memory_trace) <= 1)%nat.
Proof. exact (proj1 (target_commits_once demo_input demo_workflow _ _ _ _ (memory_simulated _ _ _ _ _ memory_run_Some))). Defined.

Lemma outcome_is_honest_witness : accepted demo_input demo_outcome memory_trace.
Proof. exact (proj1 (proj2 (outcome_is_honest demo_input demo_workflow _ _ _ _ (memory_simulated _ _ _ _ _ memory_run_Some)))). Defined.

Definition demo_plan : PublishPlanInput := mkPlanInput "plan" [demo_input] 50.
Definition plan_run := simulate maximum_attempts memory_answers (PublishPlanWorkflow demo_plan) 0 empty_memory.
Lemma plan_run_Some : exists tr w, plan_run = Some (tr, Some (mkPlanOutcome "plan" [demo_outcome]), w).
Proof. do 2 eexists. vm_compute. reflexivity. Qed.

Lemma plan_runs_in_order_witness : exists tr (rs : list (list (trial reply signals memory) * option TargetOutcome)),
  tr = concat rs.*1 /\ rs.*2 = [Some demo_outcome].
Proof.
  destruct plan_run_Some as (tr & w & H).
  destruct (plan_runs_in_order demo_plan _ _ _ _ (memory_simulated _ _ _ _ _ H)) as (rs & E & _ & _ & _ & E2).
  exists tr, rs. split; [exact E|]. symmetry. exact E2.
Defined.
