(* ===== verification/PublishRuns.v ===== *)
(** * The publish workflows against the control service: backend.py

    [ControlPlaneBackend] performs the activities of the workflows by requests
    to the control service, next to everything else the service executes. The
    theorems combine what a run asks for with what the service does. *)

From stdpp Require Import base gmap strings list.
From Stdlib Require Import ZArith QArith_base Lia.
From S2P Require Import Prelude PyStd Domain Rows PyJson ControlledActions FleetIdentity FrozenShapes TaskOps ActionLedger ControlDb Accounts ControlHistory Publishing PublishRules TaskMachine Temporal PublishWorkflow.

Open Scope Z_scope.

(** ** ControlPlaneBackend *)

(** What a request takes from outside. *)
Record draws := mkDraws { dr_now : Z; dr_id : string; dr_stamps : stamps }.

(** [get_plan] of services.py. *)
Definition get_plan (actor : Actor) (plan_id : string) (c : control_db)
    : result error (PublishPlanRow * option PublishSnapshotRow * list PublishTargetRow) :=
  let? _ := require_permissions (actor_roles actor) [PUBLISH_READ] in
  let? p := plan actor plan_id c in
  Ok (p, snapshot_for_plan actor (pl_id p) c, targets_for_plan actor (pl_id p) c).

Definition lease_answer (device_id : string) (l : DeviceLeaseRow) : Lease :=
  mkGrant device_id (l_lease_id l) (l_owner_workflow_id l) (l_fencing_token l) (l_expires_at l).
Definition intent_answered (i : CommitIntentRow) : WorkerIntent :=
  mkWorkerIntent (ci_id i) (ci_target_id i) (ci_fencing_token i) (ci_before_commit_evidence_id i).

(** One request, as the actor [service] of the service headers. *)
Definition control_call (service : Actor) (x : control_activity) (d : draws) (c : control_db)
    : result error (control_reply x * control_db) :=
  match x with
  | validate_snapshot input =>
      let? (found, _) := get_plan service (wi_plan_id input) c in
      need s := found.2 orelse ValueError "workflow input does not match the immutable publish snapshot" in
      raise_if sn_id s <> wi_snapshot_id input
        with ValueError "workflow input does not match the immutable publish snapshot" in
      Ok (tt, c)
  | acquire_device_lease input workflow_id =>
      let? (l, c) := acquire_lease service (wi_device_id input) workflow_id 60 (dr_id d) (dr_now d) (dr_stamps d) c in
      Ok (lease_answer (wi_device_id input) l, c)
  | write_commit_intent input lease evidence_id =>
      let? (i, c) := create_commit_intent service (wi_target_id input) (ls_fencing_token lease) evidence_id (dr_id d) (dr_now d)
                        (dr_stamps d) c in
      Ok (intent_answered i, c)
  | mark_target_state input state detail =>
      let? (_, c) := update_target_state service (wi_target_id input) state detail (dr_stamps d) c in Ok (tt, c)
  | release_device_lease input lease =>
      release_lease service (wi_device_id input) (ls_lease_id lease) (dr_now d) (dr_stamps d) c
  end.

(** One attempt: the request may be lost, its answer too; the edge answers
    whatever it answers. *)
Definition control_plane_attempt (service : Actor) (x : activity) (c : control_db) : option (reply x) -> control_db -> Prop :=
  match x with
  | Control x => fun r c' => r = None /\ c' = c \/ exists d v, control_call service x d c = Ok (v, c') /\ (r = Some v \/ r = None)
  | Edge x => fun _ c' => c' = c
  end.

(** ** Runs against the control service *)

Section ControlPlane.
Context (builtin_recipe_ref : string -> option json) (public_keys : list (string * string))
        (validate_recipe_package : list (string * json) -> string -> option parsed_recipe)
        (float_repr : Q -> string) (service : Actor).
Abbreviation execution := (execution builtin_recipe_ref public_keys validate_recipe_package float_repr).
Abbreviation step := (step builtin_recipe_ref public_keys validate_recipe_package float_repr).
Abbreviation runs := (runs maximum_attempts).
Abbreviation world := (world signals control_db).
Abbreviation trial := (trial reply signals control_db).

(** Between two attempts the service may execute anything. *)
#[local] Instance ControlPlaneBackend : ActivityBackend reply control_db := {
  attempt := control_plane_attempt service;
  others c c' := exists ls, execution c ls c';
}.

Lemma execution_app c1 l1 c2 : execution c1 l1 c2 -> forall l2 c3, execution c2 l2 c3 -> execution c1 (l1 ++ l2) c3.
Proof. intros H l2 c3 H2. induction H2 as [|c2 l2 c3 l c4 H2 IH Hs]; [by rewrite app_nil_r|]. rewrite app_assoc. by eapply execution_snoc; [apply IH|]. Qed.
Lemma step_execution l c c' : step l c c' -> execution c [l] c'.
Proof. intros H. apply (execution_snoc _ _ _ _ c [] c); [constructor|done]. Qed.

(** An accepted request is a step of the service. *)
Lemma control_call_step x d c v c' : control_call service x d c = Ok (v, c') -> c' = c \/ step None c c'.
Proof.
  intros H. destruct x; cbn in H.
  - ok_inv H. by left.
  - ok_inv H. right. by eapply step_acquire.
  - ok_inv H. right. by eapply step_commit_intent.
  - ok_inv H. right. by eapply step_target_state.
  - right. destruct v. by eapply step_release_lease.
Qed.

#[local] Instance control_plane_laws : BackendLaws ControlPlaneBackend.
Proof.
  split.
  - split; [intros c; exists []; constructor|]. intros c1 c2 c3 [l1 H1] [l2 H2]. exists (l1 ++ l2). by eapply execution_app.
  - intros [x|x] c r c' H; cbn in H |- *; [|subst; exists []; constructor].
    destruct H as [[_ ->]|(d & v & H & _)]; [exists []; constructor|].
    apply control_call_step in H as [->|H]; [exists []; constructor|exists [None]; by apply step_execution].
Qed.

Lemma attempt_Some x c v c' : attempt (Control x) c (Some v) c' -> exists d, control_call service x d c = Ok (v, c').
Proof. cbn. intros [[? _]|(d & u & H & [E|E])]; [done| |done]. exists d. injection E as ->. done. Qed.

Lemma target_put actor k c t t' c' : target actor k c = Ok t -> pt_id t' = pt_id t -> pt_tenant_id t' = pt_tenant_id t ->
  targets c' = tput pt_id t' (targets c) -> target actor k c' = Ok t'.
Proof.
  intros H E1 E2 E. pose proof H as Ht. apply one_for_tenant_Ok in Ht as [_ Ht]. apply target_row in H as [Hg <-].
  unfold target, one_for_tenant. rewrite E, <- E1, tget_tput_same by (rewrite E1; by eapply tget_key_In).
  rewrite E2, Ht. by rewrite decide_False by tauto.
Qed.

Lemma update_target_state_row actor k s detail st c t c' : update_target_state actor k s detail st c = Ok (t, c') ->
  target actor k c' = Ok t /\ pt_state t = s.
Proof.
  unfold update_target_state. intros H. control_ok H. ok_inv H; [done|]. split; [|done].
  match goal with A : target _ _ _ = Ok _ |- _ => by eapply (target_put _ _ _ _ _ _ A) end.
Qed.

(** The intent a commit is asked under, and the only one there will be. *)
Record backed (input : PublishTargetInput) (workflow_id : string) (lease : Lease) (intent : WorkerIntent) (c : control_db)
    (row : CommitIntentRow) : Prop := mkBacked {
  bk_row : row ∈ intents c /\ intent_answered row = intent;
  bk_key : (ci_target_id row, ci_tenant_id row, ci_attempt_no row) = (wi_target_id input, actor_tenant_id service, 1);
  bk_token : ci_fencing_token row = ls_fencing_token lease;
  bk_owner : ls_owner_workflow_id lease = workflow_id;
}.

Lemma intent_unique c i j : control_indexes c -> i ∈ intents c -> j ∈ intents c -> intent_key i = intent_key j -> i = j.
Proof. intros Hi H1 H2 E. by apply (NoDup_fmap_eq intent_key (intents c)); [apply Hi|..]. Qed.

Lemma acquire_lease_owner actor dev owner ttl i now st c l c' :
  acquire_lease actor dev owner ttl i now st c = Ok (l, c') -> l_owner_workflow_id l = owner.
Proof. unfold acquire_lease. intros H. control_ok H. ok_inv H; try done. match goal with D : ~ l_owner_workflow_id _ <> _ |- _ => by apply dec_stable in D end. Qed.

Lemma execution_well_formed c ls c' : execution c ls c' -> well_formed c -> well_formed c'.
Proof. intros H Hw. by apply (execution_le _ _ _ _ _ _ _ H Hw). Qed.

(** An intent is still there, and still the one of its target, however much
    later. *)
Lemma intent_kept c ls c' i : execution c ls c' -> well_formed c -> i ∈ intents c ->
  i ∈ intents c' /\ forall j, j ∈ intents c' -> intent_key j = intent_key i -> j = i.
Proof.
  intros H Hw Hi. destruct (execution_le _ _ _ _ _ _ _ H Hw) as (Hw' & Hle & _).
  assert (i ∈ intents c') as Hi' by (by eapply grows_eq_In, Hi; apply Hle). split; [done|].
  intros j Hj E. eapply intent_unique; [apply Hw'|done..].
Qed.

Lemma commit_backed input workflow_id w tr o w' e lease intent : well_formed (w_store w) ->
  runs (PublishTargetWorkflow input workflow_id) w tr o w' -> e ∈ tr -> commit_of e = Some (lease, intent) ->
  well_formed (w_store (ev_world e)) /\ exists row, backed input workflow_id lease intent (w_store (ev_world e)) row.
Proof.
  intros Hw H Hin E. pose proof (runs_others _ _ _ _ _ _ H) as [_ Hx]. rewrite Forall_forall in Hx.
  destruct (Hx e Hin) as [[ls He] _]. split; [by eapply execution_well_formed|].
  apply run_commit in H as [_ H]. destruct (H e lease intent Hin E) as (_ & (wa & s & Ha & _) & t1 & t2 & -> & [(wi & ev & i & s2 & Hiin & Hi & (ls2 & He2) & Ee) _]).
  assert (i = intent) as -> by (unfold commit_of in E; rewrite Ee in E; congruence).
  destruct (Hx _ (proj2 (elem_of_app _ _ _) (or_introl Hiin))) as [[lsi Hei] _]. cbn in Hei.
  pose proof (execution_well_formed _ _ _ Hei Hw) as Hwi.
  apply attempt_Some in Ha as [d1 Ha], Hi as [d2 Hi]. cbn in Ha, Hi. ok_inv Ha. ok_inv Hi.
  assert (well_formed s2) as Hw2 by (eapply execution_well_formed; [eapply step_execution, step_commit_intent, E1|done]).
  apply create_commit_intent_answer in E1 as (A & K1 & K2 & K3 & K4 & K5). exists c. split; [split; [|done]|by rewrite K1, K2, K3|done|by eapply acquire_lease_owner].
  apply (intent_kept _ _ _ _ He2 Hw2). destruct A as [Hf ->|? ? ? ? ? ? ? ? ? ? ->]; [by apply find_bool_Some in Hf as [? _]|set_solver].
Qed.

(** C10. One intent. Every commit the edge is asked for, in any run of a
    target's workflow against the control service, carries the registered
    intent of the target, under the token of the lease that the service gave
    to this workflow; and two commits for a target, in runs of however
    different workflows, inputs and times of one history, carry the same
    intent, so that an edge that remembers intents commits once. *)
Theorem commits_share_one_intent input workflow_id w tr o w' e lease intent
    (Hw : well_formed (w_store w)) (H : runs (PublishTargetWorkflow input workflow_id) w tr o w')
    (Hin : e ∈ tr) (Hc : commit_of e = Some (lease, intent)) :
  (exists row, backed input workflow_id lease intent (w_store (ev_world e)) row)
  /\ (forall input2 workflow_id2 w2 tr2 o2 w2' e2 lease2 intent2 ls,
        wi_target_id input2 = wi_target_id input -> well_formed (w_store w2) ->
        runs (PublishTargetWorkflow input2 workflow_id2) w2 tr2 o2 w2' -> e2 ∈ tr2 -> commit_of e2 = Some (lease2, intent2) ->
        execution (w_store (ev_world e)) ls (w_store (ev_world e2)) ->
        intent2 = intent /\ ls_fencing_token lease2 = ls_fencing_token lease).
Proof.
  destruct (commit_backed _ _ _ _ _ _ _ _ _ Hw H Hin Hc) as (Hwe & row & B). split; [by exists row|].
  intros input2 workflow_id2 w2 tr2 o2 w2' e2 lease2 intent2 ls Et Hw2 H2 Hin2 Hc2 He.
  destruct (commit_backed _ _ _ _ _ _ _ _ _ Hw2 H2 Hin2 Hc2) as (_ & row2 & B2).
  destruct B as [[Hr Ei] K T _], B2 as [[Hr2 Ei2] K2 T2 _].
  destruct (intent_kept _ _ _ _ He Hwe Hr) as [_ Hu]. injection K as F1 F2 F3. injection K2 as G1 G2 G3.
  assert (row2 = row) as -> by (apply Hu; [done|]; unfold intent_key; congruence). split; congruence.
Qed.

(** The outcome a run returns was the state of the target's row. *)
Theorem outcome_is_recorded input workflow_id w tr out w'
    (H : runs (PublishTargetWorkflow input workflow_id) w tr (Some out) w') :
  exists c t ls1 ls2, execution (w_store w) ls1 c /\ execution c ls2 (w_store w')
    /\ target service (wi_target_id input) c = Ok t /\ pt_state t = ot_state out.
Proof.
  pose proof (runs_others _ _ _ _ _ _ H) as [_ Hx]. pose proof (runs_attempts _ _ _ _ _ _ H) as Ha.
  assert (accepted input out tr) as [wm Hm] by (by eapply run_accepted).
  rewrite Forall_forall in Hx, Ha. destruct (Hx _ Hm) as [[ls1 H1] _], (Ha _ Hm) as (s & Hs & [ls2 H2]). cbn in H1.
  apply (attempt_Some (mark_target_state input (ot_state out) (ot_detail out))) in Hs as [d Hs]. cbn in Hs. ok_inv Hs. pose proof (step_target_state builtin_recipe_ref public_keys validate_recipe_package
    float_repr _ _ _ _ _ _ _ _ E) as Hst. apply update_target_state_row in E as [E1 E2].
  exists s, p, (ls1 ++ [None]), ls2. split; [by eapply execution_snoc|]. done.
Qed.

(** ** A run, computed *)

(** What the edge answers to every attempt; [None]: it fails. *)
Definition edge_script : Type := forall x : edge_activity, option (edge_reply x).
Definition answers (draw : nat -> draws) (edge : edge_script) (x : activity) (k : nat) (c : control_db) : option (reply x * control_db) :=
  match x with
  | Control x => match control_call service x (draw k) c with Ok r => Some r | Err _ => None end
  | Edge x => match edge x with Some v => Some (v, c) | None => None end
  end.

Lemma simulated_run {A} draw edge (p : workflow A) w tr a w' :
  simulate maximum_attempts (answers draw edge) p 0 w = Some (tr, a, w') -> runs p w tr a w'.
Proof.
  intros H. apply (simulate_runs maximum_attempts (answers draw edge)) with (k := 0%nat); [|..|exact H].
  - intros [x|x] k c v c' E; cbn in E |- *; [|by destruct (edge x); simplify_eq].
    right. destruct (control_call service x (draw k) c) as [r|] eqn:Er; [|done]. injection E as ->. exists (draw k), v. by split; [|left].
  - intros [x|x] c; cbn; [by left|done].
Qed.
End ControlPlane.

(** The clock moves [pace] seconds from one request to the next. *)
Definition demo_draw (pace : Z) (k : nat) : draws :=
  let n := Z.of_nat k in mkDraws (seconds (200 + pace * n)) ("row" +:+ py_str_int n) (mkStamps ("request" +:+ py_str_int n) n n).
Definition demo_edge (x : edge_activity) : option (edge_reply x) :=
  match x with
  | edge_preflight _ _ | stage_media _ _ | commit_once _ _ _ | cleanup _ _ => Some tt
  | run_prepare_steps _ _ => Some "evidence"
  | reconcile_result _ _ => Some (mkObservation "SUCCEEDED" None ["shot"])
  end.
Definition start_world (c : control_db) : world signals control_db := mkWorld c (mkSignals false false) "CREATED".
Definition demo_run (pace : Z) (edge : edge_script) (input : PublishTargetInput) (c : control_db) :=
  simulate maximum_attempts (answers worker (demo_draw pace) edge) (PublishTargetWorkflow input demo_workflow) 0 (start_world c).
Definition demo_result := demo_run 1 demo_edge demo_input approved_db.
Definition demo_trace : list (trial reply signals control_db) := match demo_result with Some (tr, _, _) => tr | None => [] end.
Definition demo_end : world signals control_db := match demo_result with Some (_, _, w) => w | None => start_world demo_db end.
Definition demo_lease : Lease := mkGrant "device" "row2" demo_workflow 4 (seconds 262).
Definition demo_intent : WorkerIntent := mkWorkerIntent "row7" "target0" 4 "evidence".

Lemma demo_result_Some : demo_result = Some (demo_trace, Some demo_outcome, demo_end).
Proof. vm_compute. reflexivity. Qed.

Section Demo.
#[local] Instance demo_backend : ActivityBackend reply control_db := ControlPlaneBackend Claim.no_builtin [] ActionLedger.no_recipe no_float worker.
#[local] Instance demo_laws : BackendLaws demo_backend := control_plane_laws Claim.no_builtin [] ActionLedger.no_recipe no_float worker.

Lemma demo_runs : runs (B := demo_backend) maximum_attempts (PublishTargetWorkflow demo_input demo_workflow)
  (start_world approved_db) demo_trace (Some demo_outcome) demo_end.
Proof. exact (simulated_run Claim.no_builtin [] ActionLedger.no_recipe no_float worker _ _ _ _ _ _ _ demo_result_Some). Qed.

Lemma demo_commit : exists e, e ∈ demo_trace /\ commit_of e = Some (demo_lease, demo_intent).
Proof.
  assert ((demo_lease, demo_intent) ∈ commits demo_trace) as H
    by (assert (commits demo_trace = [(demo_lease, demo_intent)]) as -> by (vm_compute; reflexivity); by left).
  by apply list_elem_of_omap in H as (e & ? & ?); exists e.
Qed.

Lemma commits_share_one_intent_witness : exists c row, backed worker demo_input demo_workflow demo_lease demo_intent c row.
Proof.
  destruct demo_commit as (e & He & Hc). exists (w_store (ev_world e)).
  exact (proj1 (commits_share_one_intent Claim.no_builtin [] ActionLedger.no_recipe no_float worker demo_input demo_workflow (start_world approved_db)
    demo_trace (Some demo_outcome) demo_end e demo_lease demo_intent approved_db_well_formed demo_runs He Hc)).
Defined.

Lemma outcome_is_recorded_witness : exists c t, target worker "target0" c = Ok t /\ pt_state t = SUCCEEDED.
Proof.
  destruct (outcome_is_recorded Claim.no_builtin [] ActionLedger.no_recipe no_float worker demo_input demo_workflow _ _ _ _ demo_runs)
    as (c & t & _ & _ & _ & _ & H1 & H2). exists c, t. exact (conj H1 H2).
Defined.
End Demo.

(** ** What the workflow does not survive *)

(** The outcome of a computed run, and the states and live leases it leaves. *)
Definition left_behind (r : option (list (trial reply signals control_db) * option TargetOutcome * world signals control_db)) :=
  match r with
  | Some (tr, o, w) => Some (o, commits tr, pt_state <$> targets (w_store w),
                             l_canceled_at <$> leases (core (w_store w)) !! "device")
  | None => None
  end.

(** A target that fails its validation is SCHEDULED, and no transition leads
    from SCHEDULED to FAILED: the mark is refused, the workflow fails and the
    target stays SCHEDULED. *)
Lemma failed_validation_is_not_recorded :
  left_behind (demo_run 1 demo_edge (mkTargetInput "tenant" "plan" "target0" "other" "device" false) approved_db)
  = Some (None, [], [SCHEDULED], None).
Proof. vm_compute. reflexivity. Qed.

(** The lease is taken for a minute and never renewed: a target whose
    preparation takes longer is refused its intent on every attempt. *)
Lemma lease_outlived :
  match left_behind (demo_run 13 demo_edge demo_input approved_db) with
  | Some (Some out, commits, states, _) => ot_state out = FAILED /\ commits = [] /\ states = [FAILED]
  | _ => False
  end.
Proof. vm_compute. done. Qed.

(** A clean-up that fails loses the outcome and keeps the lease. *)
Definition failing_cleanup (x : edge_activity) : option (edge_reply x) :=
  match x with cleanup _ _ => None | x => demo_edge x end.
Lemma failed_cleanup_keeps_lease :
  left_behind (demo_run 1 failing_cleanup demo_input approved_db)
  = Some (None, [(demo_lease, demo_intent)], [SUCCEEDED], Some None).
Proof. vm_compute. reflexivity. Qed.
