(* ===== verification/DebugSessions.v ===== *)
(** * Debug sessions of the control plane: debug_service.py, debug_repository.py

    A debug session borrows a device in maintenance: it takes the device
    lease, hands out a launch code, exchanges the code once for a relay token,
    and ends by revocation, expiry or the loss of its lease. The tables of the
    sessions and their evidence stand beside those of the service. Launch
    codes, tokens and identifiers are drawn by the caller; a handler that
    reads the clock several times takes one instant per reading. *)

From stdpp Require Import base gmap strings list.
From Stdlib Require Import ZArith QArith_base Lia Ascii.
From S2P Require Import Prelude PyStd Domain Rows PyJson PyUrl ControlledActions FleetIdentity FrozenShapes TaskOps ControlDb Accounts.

Open Scope Z_scope.

(** ** Rows *)

Inductive DebugStatus : Type := PENDING_EXCHANGE | ACTIVE | DBG_REVOKED | EXPIRED.
#[export] Instance DebugStatus_eq_dec : EqDecision DebugStatus.
Proof. solve_decision. Defined.
Definition debug_status_value (s : DebugStatus) : string :=
  match s with PENDING_EXCHANGE => "PENDING_EXCHANGE" | ACTIVE => "ACTIVE" | DBG_REVOKED => "REVOKED" | EXPIRED => "EXPIRED" end.
Definition TERMINAL_DEBUG_STATES : list DebugStatus := [DBG_REVOKED; EXPIRED].

Record DebugSessionRow := mkDebugSession {
  dbg_id : string;
  dbg_tenant_id : string;
  dbg_edge_id : string;
  dbg_device_id : string;
  dbg_lease_id : option string;
  dbg_fencing_token : option Z;
  dbg_created_by : string;
  dbg_purpose : string;
  dbg_capabilities : list string;
  dbg_status : DebugStatus;
  dbg_expires_at : Z;
  dbg_launch_code_hash : string;
  dbg_launch_code_used_at : option Z;
  dbg_relay_token_hash : option string;
  dbg_relay_token_expires_at : option Z;
  dbg_exchanged_at : option Z;
  dbg_last_heartbeat_at : option Z;
  dbg_stage : option string;
  dbg_last_event : option string;
  dbg_detail : option string;
  dbg_return_url : option string;
  dbg_revoked_at : option Z;
  dbg_revoked_by : option string;
  dbg_revoke_reason : option string;
  dbg_created_at : Z;
}.
#[export] Instance DebugSessionRow_eta : Eta DebugSessionRow := fun r => mkDebugSession
  (dbg_id r) (dbg_tenant_id r) (dbg_edge_id r) (dbg_device_id r) (dbg_lease_id r) (dbg_fencing_token r)
  (dbg_created_by r) (dbg_purpose r) (dbg_capabilities r) (dbg_status r) (dbg_expires_at r)
  (dbg_launch_code_hash r) (dbg_launch_code_used_at r) (dbg_relay_token_hash r) (dbg_relay_token_expires_at r)
  (dbg_exchanged_at r) (dbg_last_heartbeat_at r) (dbg_stage r) (dbg_last_event r) (dbg_detail r)
  (dbg_return_url r) (dbg_revoked_at r) (dbg_revoked_by r) (dbg_revoke_reason r) (dbg_created_at r).

Record DebugEvidenceRow := mkDebugEvidence {
  de_id : string;
  de_tenant_id : string;
  de_session_id : string;
  de_kind : string;
  de_sha256 : string;
  de_object_ref : string;
  de_metadata_json : list (string * json);
  de_created_at : Z;
}.

Record debug_db := mkDebugDb {
  ctl : control_db;
  debug_sessions : list DebugSessionRow;
  debug_evidence : list DebugEvidenceRow;
}.
#[export] Instance debug_db_eta : Eta debug_db := fun c => mkDebugDb (ctl c) (debug_sessions c) (debug_evidence c).

Definition with_ctl (f : control_db -> control_db) (c : debug_db) : debug_db := c <| ctl := f (ctl c) |>.
Definition put_session (r : DebugSessionRow) (c : debug_db) : debug_db :=
  c <| debug_sessions := tput dbg_id r (debug_sessions c) |>.

Definition evidence_key (e : DebugEvidenceRow) : string * string := (de_session_id e, de_sha256 e).
(** The primary keys and the unique columns; NULLs are not compared. *)
Definition debug_indexes (c : debug_db) : Prop :=
  NoDup (dbg_id <$> debug_sessions c) /\ NoDup (omap dbg_lease_id (debug_sessions c))
  /\ NoDup (dbg_launch_code_hash <$> debug_sessions c) /\ NoDup (omap dbg_relay_token_hash (debug_sessions c))
  /\ NoDup (de_id <$> debug_evidence c) /\ NoDup (evidence_key <$> debug_evidence c).
#[export] Instance debug_indexes_dec c : Decision (debug_indexes c).
Proof. unfold debug_indexes. apply _. Defined.

Definition debug_unit_of_work {A} (body : debug_db -> result error (A * debug_db)) (c : debug_db) : result error (A * debug_db) :=
  match body c with
  | Ok (a, c') =>
      raise_if ~ (unique_indexes (core (ctl c')) /\ control_indexes (ctl c') /\ debug_indexes c')
        with IntegrityError "UNIQUE constraint failed" in Ok (a, c')
  | Err e => Err e
  end.

(** ** DebugRepository *)

Definition session (actor : Actor) (session_id : string) (c : debug_db) : result error DebugSessionRow :=
  one_for_tenant (tget dbg_id session_id (debug_sessions c)) dbg_tenant_id actor "debug session".
Definition session_by_launch_hash (actor : Actor) (hash : string) (c : debug_db) : result error DebugSessionRow :=
  need r := List.find (fun r => bool_decide (dbg_tenant_id r = actor_tenant_id actor /\ dbg_launch_code_hash r = hash))
              (debug_sessions c)
    orelse NotFoundError "debug launch code was not found" in Ok r.
Definition evidence_by_hash (actor : Actor) (session_id sha256 : string) (c : debug_db) : option DebugEvidenceRow :=
  List.find (fun e => bool_decide (de_tenant_id e = actor_tenant_id actor /\ de_session_id e = session_id /\ de_sha256 e = sha256))
    (debug_evidence c).
Definition by_id (a b : DebugEvidenceRow) : bool := str_leb (de_id a) (de_id b).
Definition evidence_of (actor : Actor) (session_id : string) (c : debug_db) : list DebugEvidenceRow :=
  isort by_id (filter (fun e => de_tenant_id e = actor_tenant_id actor /\ de_session_id e = session_id) (debug_evidence c)).

(** ** Requests: debug_schemas.py *)

Record DebugSessionCreate := mkDebugCreate {
  dc_device_id : string;
  dc_capabilities : list string;
  dc_ttl_seconds : Z;
  dc_purpose : string;
  dc_return_url : option string;
}.
#[export] Instance DebugSessionCreate_eta : Eta DebugSessionCreate := fun b => mkDebugCreate
  (dc_device_id b) (dc_capabilities b) (dc_ttl_seconds b) (dc_purpose b) (dc_return_url b).

Definition len_in (lo hi : Z) (s : string) : Prop := lo <= str_len s <= hi.
#[export] Instance len_in_dec lo hi s : Decision (len_in lo hi s).
Proof. unfold len_in. apply _. Defined.

(** The validators of the body; the capabilities come out stripped. *)
Definition parse_create (b : DebugSessionCreate) : option DebugSessionCreate :=
  let normalized := py_strip <$> dc_capabilities b in
  if decide (len_in 1 36 (dc_device_id b) /\ (1 <= length (dc_capabilities b) <= 16)%nat
             /\ 60 <= dc_ttl_seconds b <= 900 /\ len_in 2 1000 (dc_purpose b)
             /\ default 0 (str_len <$> dc_return_url b) <= 1024
             /\ ("" ∉ normalized) /\ NoDup normalized)
  then Some (b <| dc_capabilities := normalized |>) else None.

Record DebugHeartbeat := mkDebugHeartbeat {
  dh_stage : string;
  dh_event : string;
  dh_detail : option string;
  dh_evidence_refs : list string;
}.
Record DebugEvidenceCreate := mkEvidenceCreate {
  ec_kind : string;
  ec_sha256 : string;
  ec_object_ref : string;
  ec_metadata : list (string * json);
}.

(** The settings of the service the handlers read. *)
Record debug_settings := mkDebugSettings { cors_allowed_origins : list string; debug_relay_url : string }.

(** ** Guards *)

Definition ALLOWED_DEBUG_CAPABILITIES : list string :=
  ["view.frame"; "view.layout"; "input.tap"; "input.swipe"; "input.text"; "debug.steps"; "debug.variables"; "evidence.capture"].
Definition PROHIBITED_FRAGMENTS : list string :=
  ["adb"; "captcha"; "command"; "credential"; "frida"; "mitm"; "password"; "pem"; "privatekey"; "proxy"; "script";
   "secret"; "shell"; "token"].

Definition token_digest (secret_value : string) : string := hexdigest secret_value.

Definition require_debug_actor (actor : Actor) : result error () :=
  let? _ := require_permissions (actor_roles actor) [DEBUG_SESSION_MANAGE] in
  raise_if actor_mfa actor = false with ForbiddenError "MFA is required for debug sessions" in Ok tt.

Definition validated_capabilities (capabilities : list string) : result error (list string) :=
  let requested := remove_dups capabilities in
  let prohibited := filter (fun v => v ∉ ALLOWED_DEBUG_CAPABILITIES) requested in
  raise_if prohibited <> []
    with ForbiddenError ("debug capabilities are not allowed: " +:+ str_join ", " (str_sorted prohibited)) in
  Ok (str_sorted requested).

Definition normalize_key (key : string) : string := str_remove "-" (str_remove "_" (lower_seen key)).
Definition unsafe_key (key : string) : Prop := Exists (fun fragment => str_in fragment (normalize_key key) = true) PROHIBITED_FRAGMENTS.
#[export] Instance unsafe_key_dec key : Decision (unsafe_key key).
Proof. unfold unsafe_key. apply _. Defined.

(** [_inspect_safe_metadata]: the first unsafe key met on the way down is
    reported; a list is inspected under the key it stands at. *)
Fixpoint inspect_safe_metadata (value : json) (key : string) : result error () :=
  raise_if unsafe_key key
    with ValidationError ("unsafe evidence metadata field is prohibited: " +:+ key) in
  match value with
  | JObj o => (fix each o := match o with
                             | [] => Ok tt
                             | (k, v) :: o => let? _ := inspect_safe_metadata v k in each o
                             end) o
  | JArr l => (fix each l := match l with
                             | [] => Ok tt
                             | v :: l => let? _ := inspect_safe_metadata v key in each l
                             end) l
  | _ => Ok tt
  end.

Section Service.
Context (netloc_accepted : string -> bool) (float_repr : Q -> string) (settings : debug_settings).
Abbreviation urlsplit := (urlsplit netloc_accepted).

Definition validate_return_url (return_url : option string) : result error () :=
  match return_url with
  | None => Ok tt
  | Some url =>
      need parsed := urlsplit url orelse ValueError "urlsplit" in
      raise_if url_scheme parsed ∉ ["http"; "https"] \/ url_netloc parsed = ""
        with ValidationError "returnUrl must be an absolute HTTP(S) URL" in
      raise_if (url_scheme parsed +:+ "://" +:+ url_netloc parsed) ∉ cors_allowed_origins settings
        with ForbiddenError "returnUrl origin is not allowed" in
      Ok tt
  end.

(** [safe_references] of the heartbeat's schema. *)
Definition safe_reference (value : string) : Prop :=
  str_len value <= 1024
  /\ match urlsplit value with
     | Some u => url_scheme u ∈ ["s3"; "https"] /\ url_netloc u <> "" /\ has_userinfo (url_netloc u) = false
     | None => False
     end.
#[export] Instance safe_reference_dec value : Decision (safe_reference value).
Proof. unfold safe_reference. case_match; apply _. Defined.

(** The validators of the heartbeat. *)
Definition parse_heartbeat (b : DebugHeartbeat) : option DebugHeartbeat :=
  if decide (len_in 1 80 (dh_stage b) /\ len_in 1 160 (dh_event b) /\ default 0 (str_len <$> dh_detail b) <= 2000
             /\ (length (dh_evidence_refs b) <= 50)%nat /\ Forall safe_reference (dh_evidence_refs b))
  then Some b else None.

Definition DebugEvidenceKind : list string := ["SCREENSHOT"; "UI_TREE"; "STEP"; "RESULT"; "DIAGNOSTIC"].
(** The validators of evidence. *)
Definition parse_evidence (b : DebugEvidenceCreate) : option DebugEvidenceCreate :=
  if decide (ec_kind b ∈ DebugEvidenceKind /\ match_digest (ec_sha256 b) = true /\ len_in 6 1024 (ec_object_ref b))
  then Some b else None.

Definition validate_evidence (body : DebugEvidenceCreate) : result error () :=
  need parsed := urlsplit (ec_object_ref body) orelse ValueError "urlsplit" in
  raise_if url_scheme parsed ∉ ["s3"; "https"] \/ url_netloc parsed = ""
    with ValidationError "evidence objectRef must use an absolute s3:// or https:// URL" in
  raise_if has_userinfo (url_netloc parsed) = true
    with ValidationError "evidence objectRef cannot contain URL credentials" in
  raise_if ascii_size float_repr (JObj (ec_metadata body)) > 8192 with ValidationError "evidence metadata exceeds 8 KiB" in
  inspect_safe_metadata (JObj (ec_metadata body)) "".

(** ** What handlers share *)

Definition debug_owner (session_id : string) : string := "debug-session/" +:+ session_id.

(** [audit] with a result of its own. *)
Definition audit_result (result : string) (actor : Actor) (action resource_type resource_id : string)
    (device_id : option string) (metadata : list (string * json)) (at_ : Z) : control_db -> control_db :=
  with_core (add_audit {| au_tenant_id := actor_tenant_id actor; au_actor_type := actor_type actor;
    au_actor_id := actor_user_id actor; au_action := action; au_resource_type := resource_type;
    au_resource_id := resource_id; au_device_id := device_id; au_result := result; au_metadata := metadata;
    au_occurred_at := at_ |}).

Definition session_audit (actor : Actor) (action : string) (row : DebugSessionRow) (metadata : list (string * json))
    (st : stamps) : control_db -> control_db :=
  audit actor action "debug_session" (dbg_id row) (Some (dbg_device_id row)) metadata (st_audited_at st).
Definition session_event (actor : Actor) (event_type : string) (row : DebugSessionRow) (payload : list (string * json))
    (st : stamps) : control_db -> control_db :=
  emit actor (st_event_id st) (st_event_at st) "debug_session" (dbg_id row) event_type payload.

Definition json_str_opt (o : option string) : json := match o with Some s => JStr s | None => JNull end.
Definition json_int_opt (o : option Z) : json := match o with Some n => JInt n | None => JNull end.
Definition ending_payload (row : DebugSessionRow) : list (string * json) :=
  [("sessionId", JStr (dbg_id row)); ("deviceId", JStr (dbg_device_id row));
   ("leaseId", json_str_opt (dbg_lease_id row)); ("fencingToken", json_int_opt (dbg_fencing_token row))].

Definition own_lease (row : DebugSessionRow) (l : DeviceLeaseRow) : Prop :=
  dbg_lease_id row = Some (l_lease_id l) /\ dbg_fencing_token row = Some (l_fencing_token l)
  /\ l_owner_workflow_id l = debug_owner (dbg_id row).
#[export] Instance own_lease_dec row l : Decision (own_lease row l).
Proof. unfold own_lease. apply _. Defined.

Definition require_active_lease (actor : Actor) (row : DebugSessionRow) (now : Z) (c : debug_db) : result error DeviceLeaseRow :=
  raise_if dbg_lease_id row = None \/ dbg_fencing_token row = None
    with ConflictError "debug session has no valid device lease" in
  let lost := ConflictError "debug session device lease is no longer active" in
  need lease := lease_for_device actor (dbg_device_id row) (ctl c) orelse lost in
  raise_if ~ (own_lease row lease /\ Accounts.lease_live lease now) with lost in
  Ok lease.

Definition release_device_lease (actor : Actor) (row : DebugSessionRow) (now audited_at : Z) (c : debug_db) : debug_db :=
  match dbg_lease_id row, lease_for_device actor (dbg_device_id row) (ctl c) with
  | Some lease_id, Some lease =>
      if decide (l_lease_id lease <> lease_id \/ is_Some (l_canceled_at lease)) then c
      else with_ctl (fun c => audit actor "device.lease.released" "device_lease" lease_id (Some (dbg_device_id row)) [] audited_at
                                (with_core (put_lease (dbg_device_id row) (lease <| l_canceled_at := Some now |>)) c)) c
  | _, _ => c
  end.

(** The clocks of [_expire_if_needed]: the check, the cancellation of the
    lease, its audit row, and the row and event of the expiry. *)
Record expiry_clocks := mkExpiryClocks { xc_now : Z; xc_released_at : Z; xc_lease_audited_at : Z; xc_stamps : stamps }.

Definition expired_row (row : DebugSessionRow) : DebugSessionRow :=
  row <| dbg_status := EXPIRED |> <| dbg_relay_token_hash := None |> <| dbg_relay_token_expires_at := None |>.

Definition expire_if_needed (actor : Actor) (row : DebugSessionRow) (x : expiry_clocks) (c : debug_db) : DebugSessionRow * debug_db :=
  if decide ((dbg_status row ∉ TERMINAL_DEBUG_STATES) /\ dbg_expires_at row <= xc_now x) then
    let row := expired_row row in
    let c := release_device_lease actor row (xc_released_at x) (xc_lease_audited_at x) (put_session row c) in
    (row, with_ctl (fun c => session_event actor "debug.session.expired" row (ending_payload row) (xc_stamps x)
                               (session_audit actor "debug.session.expired" row [] (xc_stamps x) c)) c)
  else (row, c).

(** The three readings of the clock after the expiry check. *)
Record relay_clocks := mkRelayClocks { rc_expiry : expiry_clocks; rc_token_at : Z; rc_lease_at : Z }.

Definition token_live (row : DebugSessionRow) (now : Z) : Prop := from_option (fun e => now < e) False (dbg_relay_token_expires_at row).
#[export] Instance token_live_dec row now : Decision (token_live row now).
Proof. unfold token_live. destruct (dbg_relay_token_expires_at row); cbn; apply _. Defined.

Definition authorize_relay (actor : Actor) (row : DebugSessionRow) (relay_token : string) (x : relay_clocks) (c : debug_db)
    : result error (DebugSessionRow * debug_db) :=
  let '(row, c) := expire_if_needed actor row (rc_expiry x) c in
  let unavailable := ConflictError ("debug relay is unavailable while session is " +:+ debug_status_value (dbg_status row)) in
  raise_if dbg_status row <> ACTIVE with unavailable in
  need hash := dbg_relay_token_hash row orelse unavailable in
  raise_if ~ token_live row (rc_token_at x)
    with ConflictError "debug relay token expired" in
  raise_if hash <> token_digest relay_token with ForbiddenError "invalid debug relay token" in
  let? _ := require_active_lease actor row (rc_lease_at x) c in
  Ok (row, c).

Definition lost_row (now : Z) (row : DebugSessionRow) : DebugSessionRow :=
  row <| dbg_status := DBG_REVOKED |> <| dbg_revoked_at := Some now |> <| dbg_revoked_by := None |>
      <| dbg_revoke_reason := Some "device lease lost" |> <| dbg_relay_token_hash := None |>
      <| dbg_relay_token_expires_at := None |>.

Definition revoke_if_lease_lost (actor : Actor) (row : DebugSessionRow) (lease_at now : Z) (st : stamps) (c : debug_db)
    : DebugSessionRow * debug_db :=
  if decide (dbg_status row ∈ TERMINAL_DEBUG_STATES) then (row, c)
  else match require_active_lease actor row lease_at c with
       | Ok _ => (row, c)
       | Err _ =>
           let row := lost_row now row in
           (row, with_ctl (fun c =>
              session_event actor "debug.session.revoked" row
                (ending_payload row ++ [("reason", JStr "device lease lost")]) st
                (audit_result "REVOKED" actor "debug.session.lease_lost" "debug_session" (dbg_id row)
                   (Some (dbg_device_id row)) [] (st_audited_at st) c)) (put_session row c))
       end.
(** ** The handlers of [DebugSessionService] *)

(** What a creation draws and reads: the launch code, the two identifiers,
    the clock, the audit of the lease and the row and event of the session. *)
Record create_inputs := mkCreateInputs {
  cr_launch_code : string;
  cr_session_id : string;
  cr_lease_id : string;
  cr_now : Z;
  cr_lease_audited_at : Z;
  cr_stamps : stamps;
}.

Definition new_lease (actor : Actor) (i : create_inputs) (token expires_at : Z) : DeviceLeaseRow :=
  mkLease (actor_tenant_id actor) (cr_lease_id i) (debug_owner (cr_session_id i)) token expires_at None AUTO.
Definition new_session (actor : Actor) (body : DebugSessionCreate) (capabilities : list string) (i : create_inputs)
    (edge_id : string) (token expires_at : Z) : DebugSessionRow :=
  mkDebugSession (cr_session_id i) (actor_tenant_id actor) edge_id (dc_device_id body) (Some (cr_lease_id i)) (Some token)
    (actor_user_id actor) (dc_purpose body) capabilities PENDING_EXCHANGE expires_at (token_digest (cr_launch_code i))
    None None None None None None None None (dc_return_url body) None None None (cr_now i).

Definition grant_payload (row : DebugSessionRow) : list (string * json) :=
  [("sessionId", JStr (dbg_id row)); ("deviceId", JStr (dbg_device_id row)); ("edgeId", JStr (dbg_edge_id row));
   ("leaseId", json_str_opt (dbg_lease_id row)); ("fencingToken", json_int_opt (dbg_fencing_token row));
   ("capabilities", JArr (JStr <$> dbg_capabilities row)); ("expiresAt", json_time (dbg_expires_at row))].

(** The answer is the session and the launch code. [edge_id] of the session
    is not nullable: a device without edge fails the insert. *)
Definition create (actor : Actor) (body : DebugSessionCreate) (i : create_inputs) (c : debug_db)
    : result error ((DebugSessionRow * string) * debug_db) :=
  let? _ := require_debug_actor actor in
  let? capabilities := validated_capabilities (dc_capabilities body) in
  let? _ := validate_return_url (dc_return_url body) in
  debug_unit_of_work (fun c =>
    let? dev := device actor (dc_device_id body) (ctl c) in
    raise_if d_maintenance dev = false
      with ConflictError "device must be in maintenance before a debug session starts" in
    let existing := lease_for_device actor (dc_device_id body) (ctl c) in
    raise_if leased existing (cr_now i) with ConflictError "device already has an active runner lease" in
    (* a row of another tenant would still hold the primary key *)
    raise_if existing = None /\ is_Some (leases (core (ctl c)) !! dc_device_id body)
      with IntegrityError "UNIQUE constraint failed" in
    need edge_id := d_edge_id dev orelse IntegrityError "NOT NULL constraint failed" in
    let token := d_fencing_counter dev + 1 in
    let expires_at := cr_now i + seconds (dc_ttl_seconds body) in
    let row := new_session actor body capabilities i edge_id token expires_at in
    let c := with_ctl (fun c =>
      let c := with_core (put_device (dc_device_id body) (dev <| d_fencing_counter := token |>)) c in
      let c := with_core (put_lease (dc_device_id body) (new_lease actor i token expires_at)) c in
      let c := audit actor "device.lease.acquired" "device_lease" (cr_lease_id i) (Some (dc_device_id body)) []
                 (cr_lease_audited_at i) c in
      let c := session_audit actor "debug.session.created" row [("purpose_sha256", JStr (token_digest (dc_purpose body)))]
                 (cr_stamps i) c in
      session_event actor "debug.session.created" row (grant_payload row) (cr_stamps i) c) c in
    Ok ((row, cr_launch_code i), c <| debug_sessions := debug_sessions c ++ [row] |>)) c.

(** The readings of [get]: the expiry check, the lease check, the revocation. *)
Record get_clocks := mkGetClocks { gc_expiry : expiry_clocks; gc_lease_at : Z; gc_revoked_at : Z; gc_stamps : stamps }.

Definition get (actor : Actor) (session_id : string) (x : get_clocks) (c : debug_db)
    : result error ((DebugSessionRow * list DebugEvidenceRow) * debug_db) :=
  let? _ := require_debug_actor actor in
  debug_unit_of_work (fun c =>
    let? row := session actor session_id c in
    let '(row, c) := expire_if_needed actor row (gc_expiry x) c in
    let '(row, c) := revoke_if_lease_lost actor row (gc_lease_at x) (gc_revoked_at x) (gc_stamps x) c in
    Ok ((row, evidence_of actor (dbg_id row) c), c)) c.

Definition may_act (actor : Actor) (row : DebugSessionRow) : Prop :=
  dbg_created_by row = actor_user_id actor \/ SECURITY_ADMIN ∈ actor_roles actor.
#[export] Instance may_act_dec actor row : Decision (may_act actor row).
Proof. unfold may_act. apply _. Defined.

Definition exchanged_row (relay_token : string) (now : Z) (row : DebugSessionRow) : DebugSessionRow :=
  row <| dbg_launch_code_used_at := Some now |> <| dbg_relay_token_hash := Some (token_digest relay_token) |>
      <| dbg_relay_token_expires_at := Some (dbg_expires_at row) |> <| dbg_exchanged_at := Some now |>
      <| dbg_status := ACTIVE |>.

(** The answer is the session, the relay token and where to use it. *)
Definition exchange (actor : Actor) (launch_code relay_token : string) (x : expiry_clocks) (lease_at now : Z) (st : stamps)
    (c : debug_db) : result error ((DebugSessionRow * string * string) * debug_db) :=
  let? _ := require_debug_actor actor in
  debug_unit_of_work (fun c =>
    let? row := session_by_launch_hash actor (token_digest launch_code) c in
    let '(row, c) := expire_if_needed actor row x c in
    raise_if dbg_status row <> PENDING_EXCHANGE
      with ConflictError ("debug session cannot be exchanged while " +:+ debug_status_value (dbg_status row)) in
    raise_if is_Some (dbg_launch_code_used_at row) with ConflictError "debug launch code was already consumed" in
    raise_if ~ may_act actor row
      with ForbiddenError "only the creator or SecurityAdmin may exchange this launch code" in
    let? _ := require_active_lease actor row lease_at c in
    let row := exchanged_row relay_token now row in
    let c := with_ctl (fun c =>
      session_event actor "debug.session.grant_requested" row (grant_payload row ++ [("relayToken", JStr relay_token)]) st
        (session_audit actor "debug.session.exchanged" row [] st c)) (put_session row c) in
    Ok ((row, relay_token, debug_relay_url settings), c)) c.

Definition heartbeat_row (body : DebugHeartbeat) (now : Z) (row : DebugSessionRow) : DebugSessionRow :=
  row <| dbg_last_heartbeat_at := Some now |> <| dbg_stage := Some (dh_stage body) |>
      <| dbg_last_event := Some (dh_event body) |> <| dbg_detail := dh_detail body |>.

Definition heartbeat (actor : Actor) (session_id relay_token : string) (body : DebugHeartbeat) (x : relay_clocks) (now : Z)
    (st : stamps) (c : debug_db) : result error (DebugSessionRow * debug_db) :=
  let? _ := require_debug_actor actor in
  debug_unit_of_work (fun c =>
    let? row := session actor session_id c in
    let? (row, c) := authorize_relay actor row relay_token x c in
    let row := heartbeat_row body now row in
    Ok (row, with_ctl (fun c =>
      session_event actor "debug.session.heartbeat" row
        [("sessionId", JStr (dbg_id row)); ("stage", JStr (dh_stage body)); ("event", JStr (dh_event body));
         ("evidenceRefs", JArr (JStr <$> dh_evidence_refs body))] st
        (session_audit actor "debug.session.heartbeat" row
           [("evidence_count", JInt (Z.of_nat (length (dh_evidence_refs body))))] st c)) (put_session row c))) c.

Definition new_evidence (actor : Actor) (session_id new_id : string) (now : Z) (body : DebugEvidenceCreate) : DebugEvidenceRow :=
  mkDebugEvidence new_id (actor_tenant_id actor) session_id (ec_kind body) (ec_sha256 body) (ec_object_ref body)
    (ec_metadata body) now.

(** The flag tells whether the evidence is new. *)
Definition add_evidence (actor : Actor) (session_id relay_token : string) (body : DebugEvidenceCreate) (new_id : string)
    (x : relay_clocks) (now : Z) (st : stamps) (c : debug_db) : result error ((DebugEvidenceRow * bool) * debug_db) :=
  let? _ := require_debug_actor actor in
  let? _ := validate_evidence body in
  debug_unit_of_work (fun c =>
    let? row := session actor session_id c in
    let? (row, c) := authorize_relay actor row relay_token x c in
    match evidence_by_hash actor (dbg_id row) (ec_sha256 body) c with
    | Some existing =>
        raise_if de_kind existing <> ec_kind body \/ de_object_ref existing <> ec_object_ref body
                 \/ payload_eqb (de_metadata_json existing) (ec_metadata body) = false
          with ConflictError "evidence hash already exists with different metadata" in
        Ok ((existing, false), c)
    | None =>
        let evidence := new_evidence actor (dbg_id row) new_id now body in
        let c := c <| debug_evidence := debug_evidence c ++ [evidence] |> in
        Ok ((evidence, true), with_ctl (fun c =>
          session_event actor "debug.session.evidence_registered" row
            [("sessionId", JStr (dbg_id row)); ("evidenceId", JStr new_id); ("kind", JStr (ec_kind body))] st
            (session_audit actor "debug.session.evidence_registered" row [] st c)) c)
    end) c.

Definition revoked_row (actor : Actor) (reason : string) (now : Z) (row : DebugSessionRow) : DebugSessionRow :=
  row <| dbg_status := DBG_REVOKED |> <| dbg_revoked_at := Some now |> <| dbg_revoked_by := Some (actor_user_id actor) |>
      <| dbg_revoke_reason := Some reason |> <| dbg_relay_token_hash := None |> <| dbg_relay_token_expires_at := None |>.

Definition revoke (actor : Actor) (session_id reason : string) (now released_at lease_audited_at : Z) (st : stamps)
    (c : debug_db) : result error (DebugSessionRow * debug_db) :=
  let? _ := require_debug_actor actor in
  debug_unit_of_work (fun c =>
    let? row := session actor session_id c in
    raise_if ~ may_act actor row with ForbiddenError "only the creator or SecurityAdmin may revoke this session" in
    if decide (dbg_status row ∈ TERMINAL_DEBUG_STATES) then
      raise_if ~ (dbg_status row = DBG_REVOKED /\ dbg_revoke_reason row = Some reason)
        with ConflictError ("debug session is already " +:+ debug_status_value (dbg_status row)) in
      Ok (row, c)
    else
      let row := revoked_row actor reason now row in
      let c := release_device_lease actor row released_at lease_audited_at (put_session row c) in
      Ok (row, with_ctl (fun c =>
        session_event actor "debug.session.revoked" row (ending_payload row ++ [("reason", JStr reason)]) st
          (session_audit actor "debug.session.revoked" row [("reason", JStr reason)] st c)) c)) c.
End Service.
