(* ===== verification/DebugRules.v ===== *)
(** * What debug sessions promise

    [row_step] says how one step may change the row of a session; the label of
    a step tells what it granted. The machine interleaves the handlers of
    debug_service.py freely with every step of the control service. *)

From stdpp Require Import base gmap strings list.
From Stdlib Require Import ZArith QArith_base Lia.
From S2P Require Import Prelude PyStd Domain Rows PyJson PyUrl ControlledActions FleetIdentity FrozenShapes TaskOps ControlDb Accounts ControlHistory PublishRules History ControlPlane Claim Companion ActionLedger Fencing TaskMachine DebugSessions.

Open Scope Z_scope.

(** ** Rows *)

Definition over (r : DebugSessionRow) : Prop := dbg_status r ∈ TERMINAL_DEBUG_STATES.
#[export] Instance over_dec r : Decision (over r).
Proof. unfold over. apply _. Defined.

Lemma over_alt r : over r <-> dbg_status r = DBG_REVOKED \/ dbg_status r = EXPIRED.
Proof. unfold over, TERMINAL_DEBUG_STATES. rewrite !elem_of_cons, elem_of_nil. tauto. Qed.

Definition session_frozen (r : DebugSessionRow) :=
  (dbg_id r, dbg_tenant_id r, dbg_edge_id r, dbg_device_id r, dbg_lease_id r, dbg_fencing_token r, dbg_created_by r,
   dbg_purpose r, dbg_capabilities r, dbg_expires_at r, dbg_launch_code_hash r, dbg_return_url r, dbg_created_at r).

(** What a step granted or did to the session it names. *)
Inductive dlabel : Type :=
| L_service
| L_created (session_id : string)
| L_read
| L_exchanged (session_id relay_token : string)
| L_relayed (session_id relay_token : string) (at_ : Z)
| L_revoked (session_id : string).

Inductive row_step : dlabel -> DebugSessionRow -> DebugSessionRow -> Prop :=
| row_read r : row_step L_read r r
| row_end r r' : ~ over r -> over r' -> session_frozen r' = session_frozen r -> dbg_relay_token_hash r' = None ->
    row_step L_read r r'
| row_exchange r token now : dbg_status r = PENDING_EXCHANGE -> row_step (L_exchanged (dbg_id r) token) r (exchanged_row token now r)
| row_relay r r' token at_ : dbg_status r = ACTIVE -> dbg_relay_token_hash r = Some (token_digest token) ->
    session_frozen r' = session_frozen r -> dbg_status r' = dbg_status r -> dbg_relay_token_hash r' = dbg_relay_token_hash r ->
    row_step (L_relayed (dbg_id r) token at_) r r'
| row_revoke r r' : ~ over r -> over r' -> session_frozen r' = session_frozen r -> dbg_relay_token_hash r' = None ->
    row_step (L_revoked (dbg_id r)) r r'
| row_revoked_before r : over r -> row_step (L_revoked (dbg_id r)) r r.

Lemma row_step_frozen l r r' : row_step l r r' -> session_frozen r' = session_frozen r.
Proof. by destruct 1. Qed.
Lemma session_frozen_id r r' : session_frozen r' = session_frozen r -> dbg_id r' = dbg_id r.
Proof. unfold session_frozen. congruence. Qed.

(** ** What the handlers leave of the service *)

Record service_le (c c' : control_db) : Prop := mkServiceLe {
  sl_control : control_le c c';
  sl_leases : leases_from (core c) (core c');
  sl_plans : plans c' = plans c;
}.
#[export] Instance service_le_preorder : PreOrder service_le.
Proof.
  split; [intros c; split; [reflexivity|by apply leases_from_same|done]|].
  intros c1 c2 c3 [A B C] [A' B' C']. split; [by etransitivity| |congruence].
  eapply leases_from_trans; [apply A|apply A'|done..].
Qed.

Lemma audit_service_le result actor action rt ri dev m at_ c : service_le c (audit_result result actor action rt ri dev m at_ c).
Proof.
  split; [|by apply leases_from_same|done]. apply with_core_le; [|by apply accounts_same].
  split; cbn; first [apply grows_refl, _|reflexivity|idtac]. apply grows_snoc; [apply _|done].
Qed.
Lemma session_audit_le actor action row m st c : service_le c (session_audit actor action row m st c).
Proof. apply (audit_service_le "SUCCEEDED"). Qed.
Lemma session_event_le actor ty row p st c : service_le c (session_event actor ty row p st c).
Proof. split; [apply emit_control_le|by apply leases_from_same|done]. Qed.

(** A row and an event after another write. *)
Lemma session_reported_le actor action ty row m p st c c' : service_le c c' ->
  service_le c (session_event actor ty row p st (session_audit actor action row m st c')).
Proof. intros H. etransitivity; [exact H|]. etransitivity; [apply session_audit_le|apply session_event_le]. Qed.

Lemma release_device_lease_le actor row now at_ c :
  let c' := release_device_lease actor row now at_ c in
  service_le (ctl c) (ctl c') /\ debug_sessions c' = debug_sessions c /\ debug_evidence c' = debug_evidence c.
Proof.
  cbv zeta. unfold release_device_lease. destruct (dbg_lease_id row); [|done].
  destruct (lease_for_device _ _ _) as [l|] eqn:E; [|done]. case_decide; [done|]. apply lease_row in E as [E _].
  split; [|done]. cbn. etransitivity; [|apply (audit_service_le "SUCCEEDED")].
  split; [apply put_lease_control_le|by eapply leases_from_update|done].
Qed.

(** ** The handlers, inverted *)

(** A guard that passed. *)
Ltac debug_ok H :=
  let P := fresh "P" in
  match type of H with (match ?e with Ok _ => _ | Err _ => _ end) = _ => destruct e as [P|P]; [|discriminate H] end.
(** A guard that did not fire. *)
Ltac stable_all := repeat match goal with D : ~ ~ _ |- _ => apply dec_stable in D end.

Lemma tput_self {R} (key : R -> string) r l : NoDup (key <$> l) -> tget key (key r) l = Some r -> tput key r l = l.
Proof.
  intros Hnd Hg. unfold tput. rewrite <- (list_fmap_id l) at 2. apply map_ext_in. intros x Hx%list_elem_of_In.
  case_decide as E; [|done]. pose proof (tget_In key l x Hnd Hx) as H. rewrite E in H. rewrite Hg in H. by injection H as ->.
Qed.

Section Handlers.
Context (netloc_accepted : string -> bool) (float_repr : Q -> string) (settings : debug_settings).
Abbreviation create := (create netloc_accepted settings).
Abbreviation exchange := (exchange settings).
Abbreviation add_evidence := (add_evidence netloc_accepted float_repr).

(** What a handler did to the tables: one session written, the service
    continued. *)
Record effect (l : dlabel) (c c' : debug_db) (r r' : DebugSessionRow) : Prop := mkEffect {
  ef_row : tget dbg_id (dbg_id r) (debug_sessions c) = Some r;
  ef_step : row_step l r r';
  ef_sessions : debug_sessions c' = tput dbg_id r' (debug_sessions c);
  ef_service : service_le (ctl c) (ctl c');
}.

Lemma debug_unit_of_work_Ok {A} (body : debug_db -> result error (A * debug_db)) c a c' :
  debug_unit_of_work body c = Ok (a, c') ->
  body c = Ok (a, c') /\ unique_indexes (core (ctl c')) /\ control_indexes (ctl c') /\ debug_indexes c'.
Proof.
  unfold debug_unit_of_work. destruct (body c) as [[a0 c0]|]; [|done]. case_decide as D; [done|]. intros [= <- <-].
  split; [done|]. destruct (decide (unique_indexes (core (ctl c0)) /\ control_indexes (ctl c0) /\ debug_indexes c0)); tauto.
Qed.
Lemma debug_unit_of_work_intro {A} (body : debug_db -> result error (A * debug_db)) c a c' : body c = Ok (a, c') ->
  unique_indexes (core (ctl c')) -> control_indexes (ctl c') -> debug_indexes c' -> debug_unit_of_work body c = Ok (a, c').
Proof. intros H H1 H2 H3. unfold debug_unit_of_work. rewrite H. by rewrite decide_False by tauto. Qed.

Lemma session_Ok actor k c r : session actor k c = Ok r ->
  tget dbg_id k (debug_sessions c) = Some r /\ dbg_id r = k /\ dbg_tenant_id r = actor_tenant_id actor.
Proof. intros [H Ht]%one_for_tenant_Ok. split; [done|]. by apply tget_Some in H as [_ ?]. Qed.

Lemma session_by_launch_hash_Ok actor h c r : NoDup (dbg_id <$> debug_sessions c) -> session_by_launch_hash actor h c = Ok r ->
  tget dbg_id (dbg_id r) (debug_sessions c) = Some r /\ dbg_launch_code_hash r = h /\ dbg_tenant_id r = actor_tenant_id actor.
Proof.
  unfold session_by_launch_hash. intros Hnd H. destruct (List.find _ _) as [r0|] eqn:E; [|done]. injection H as ->.
  apply find_some in E as [Hin [Ht Hh]%bool_decide_eq_true]. split; [|done]. apply tget_In; [done|]. by apply list_elem_of_In.
Qed.

Lemma expire_if_needed_cases actor r x c :
  expire_if_needed actor r x c = (r, c)
  \/ ~ over r /\ dbg_expires_at r <= xc_now x /\ exists c', expire_if_needed actor r x c = (expired_row r, c')
     /\ debug_sessions c' = tput dbg_id (expired_row r) (debug_sessions c) /\ debug_evidence c' = debug_evidence c
     /\ service_le (ctl c) (ctl c').
Proof.
  unfold expire_if_needed. case_decide as D; [right|by left]. destruct D as [D1 D2]. split; [done|]. split; [done|].
  eexists. split; [reflexivity|].
  destruct (release_device_lease_le actor (expired_row r) (xc_released_at x) (xc_lease_audited_at x) (put_session (expired_row r) c)) as (L & S & E).
  split; [exact S|]. split; [exact E|]. cbn. by apply session_reported_le.
Qed.

Lemma expired_over r : over (expired_row r).
Proof. unfold over. cbn. right. by left. Qed.

(** A session that is not over after the check was not expired. *)
Lemma not_expired actor r x c r' c' : expire_if_needed actor r x c = (r', c') -> ~ over r' ->
  r' = r /\ c' = c /\ xc_now x < dbg_expires_at r.
Proof.
  intros H Ho. destruct (expire_if_needed_cases actor r x c) as [E|(_ & _ & c1 & E & _)]; rewrite E in H; injection H as <- <-.
  - split; [done|]. split; [done|]. unfold expire_if_needed in E. case_decide as D; [|unfold over in Ho; destruct (decide (dbg_expires_at r <= xc_now x)); [tauto|lia]].
    exfalso. apply (f_equal fst) in E. cbn [fst] in E. pose proof (expired_over r) as Hx. by rewrite E in Hx.
  - destruct Ho. apply expired_over.
Qed.

Definition holds_lease (row : DebugSessionRow) (now : Z) (c : debug_db) : Prop :=
  exists l, leases (core (ctl c)) !! dbg_device_id row = Some l /\ own_lease row l /\ Accounts.lease_live l now.

Lemma require_active_lease_Ok actor row now c l : require_active_lease actor row now c = Ok l ->
  leases (core (ctl c)) !! dbg_device_id row = Some l /\ own_lease row l /\ Accounts.lease_live l now.
Proof.
  unfold require_active_lease. intros H. ok_inv H. match goal with E : lease_for_device _ _ _ = _ |- _ => apply lease_row in E as [E _] end.
  split; [done|]. by destruct (decide (own_lease row l /\ Accounts.lease_live l now)).
Qed.

Lemma require_active_lease_intro actor row now c l : leases (core (ctl c)) !! dbg_device_id row = Some l ->
  l_tenant_id l = actor_tenant_id actor -> own_lease row l -> Accounts.lease_live l now -> require_active_lease actor row now c = Ok l.
Proof.
  intros Hl Ht Ho Hv. unfold require_active_lease. destruct Ho as (O1 & O2 & O3).
  rewrite decide_False by (rewrite O1, O2; naive_solver). unfold lease_for_device. rewrite Hl, decide_True by done.
  by rewrite decide_False by (unfold own_lease; tauto).
Qed.

Lemma authorize_relay_Ok actor row token x c r' c' : authorize_relay actor row token x c = Ok (r', c') ->
  r' = row /\ c' = c /\ dbg_status row = ACTIVE /\ dbg_relay_token_hash row = Some (token_digest token)
  /\ xc_now (rc_expiry x) < dbg_expires_at row /\ token_live row (rc_token_at x) /\ holds_lease row (rc_lease_at x) c.
Proof.
  unfold authorize_relay. intros H. destruct (expire_if_needed _ _ _ _) as [r1 c1] eqn:E. cbn beta iota zeta in H.
  ok_inv H. stable_all. match goal with E1 : require_active_lease _ _ _ _ = _ |- _ => apply require_active_lease_Ok in E1 end.
  apply not_expired in E as (-> & -> & Hx); [|rewrite over_alt; intros [?|?]; congruence].
  do 2 (split; [done|]). split; [done|]. split; [congruence|]. do 2 (split; [done|]). by eexists.
Qed.

Lemma expired_step r : ~ over r -> row_step L_read r (expired_row r).
Proof. intros H. apply row_end; [done|apply expired_over|done|done]. Qed.

(** ** Each handler that returned, as an effect *)

Lemma effect_same l c r : NoDup (dbg_id <$> debug_sessions c) -> tget dbg_id (dbg_id r) (debug_sessions c) = Some r ->
  row_step l r r -> effect l c c r r.
Proof. intros Hn Hr Hs. split; [done|done|by rewrite tput_self|reflexivity]. Qed.

(** The two ends a reader may bring about. *)
Definition reads (c c' : debug_db) (r r' : DebugSessionRow) : Prop := effect L_read c c' r r' /\ debug_evidence c' = debug_evidence c.

Lemma expire_if_needed_reads actor r x c r' c' : NoDup (dbg_id <$> debug_sessions c) ->
  tget dbg_id (dbg_id r) (debug_sessions c) = Some r -> expire_if_needed actor r x c = (r', c') ->
  reads c c' r r' /\ (r' = r /\ c' = c \/ over r').
Proof.
  intros Hn Hr H. destruct (expire_if_needed_cases actor r x c) as [E|(Ho & _ & c1 & E & S & V & L)]; rewrite E in H; injection H as <- <-.
  - split; [split; [|done]|by left]. apply effect_same; [done..|constructor].
  - split; [|right; apply expired_over]. split; [|done]. split; [done|by apply expired_step|done|done].
Qed.

Lemma revoke_if_lease_lost_reads actor r at_ now st c r' c' : NoDup (dbg_id <$> debug_sessions c) ->
  tget dbg_id (dbg_id r) (debug_sessions c) = Some r -> revoke_if_lease_lost actor r at_ now st c = (r', c') ->
  reads c c' r r' /\ (over r' \/ holds_lease r' at_ c') /\ (over r -> r' = r /\ c' = c).
Proof.
  unfold revoke_if_lease_lost. intros Hn Hr H. case_decide as D.
  { injection H as <- <-. split; [split; [|done]|split; [by left|done]]. apply effect_same; [done..|constructor]. }
  destruct (require_active_lease actor r at_ c) as [l|] eqn:E.
  { injection H as <- <-. split; [split; [apply effect_same; [done..|constructor]|done]|]. split; [|done].
    right. apply require_active_lease_Ok in E. by eexists. }
  injection H as <- <-. assert (over (lost_row now r)) as Ho by (unfold over; cbn; by left).
  split; [split; [|done]|split; [by left|done]]. split; [done|by apply row_end|done|]. cbn.
  etransitivity; [apply (audit_service_le "REVOKED")|apply session_event_le].
Qed.

Lemma reads_trans c c1 c2 r r1 r2 : NoDup (dbg_id <$> debug_sessions c) -> reads c c1 r r1 -> reads c1 c2 r1 r2 ->
  (r1 = r /\ c1 = c \/ r2 = r1 /\ c2 = c1) -> reads c c2 r r2.
Proof. intros Hn H1 H2 [[-> ->]|[-> ->]]; done. Qed.

Lemma effect_keys l c c' r r' : effect l c c' r r' -> dbg_id <$> debug_sessions c' = dbg_id <$> debug_sessions c.
Proof. intros [_ _ -> _]. apply tput_keys. Qed.

Lemma effect_row l c c' r r' : effect l c c' r r' -> tget dbg_id (dbg_id r') (debug_sessions c') = Some r' /\ dbg_id r' = dbg_id r.
Proof.
  intros [Hr Hs -> _]. apply row_step_frozen, session_frozen_id in Hs. split; [|done]. apply tget_tput_same. rewrite Hs.
  pose proof (tget_key_In _ _ _ _ Hr). done.
Qed.

Lemma get_effect actor k x c r ev c' : NoDup (dbg_id <$> debug_sessions c) -> get actor k x c = Ok ((r, ev), c') ->
  exists r0, reads c c' r0 r /\ dbg_id r0 = k /\ (over r \/ holds_lease r (gc_lease_at x) c').
Proof.
  unfold get. intros Hnd H. debug_ok H. apply debug_unit_of_work_Ok in H as [H _].
  destruct (session actor k c) as [r0|] eqn:E; [|done]. apply session_Ok in E as (E & Hk & _). rewrite <- Hk in E.
  destruct (expire_if_needed _ _ _ _) as [r1 c1] eqn:E1. destruct (expire_if_needed_reads _ _ _ _ _ _ Hnd E E1) as [H1 Hx].
  destruct (revoke_if_lease_lost _ _ _ _ _ _) as [r2 c2] eqn:E2. injection H as -> _ ->.
  pose proof (proj1 H1) as He. pose proof (effect_keys _ _ _ _ _ He) as Hk1. apply effect_row in He as [Hr1 _].
  destruct (revoke_if_lease_lost_reads _ _ _ _ _ _ _ _ ltac:(by rewrite Hk1) Hr1 E2) as (H2 & Hend & Ho).
  exists r0. split; [|done]. eapply reads_trans; [done|exact H1|exact H2|]. destruct Hx as [?|?]; [by left|right; auto].
Qed.

Lemma exchange_effect actor code token x at_ now st c r t url c' : NoDup (dbg_id <$> debug_sessions c) ->
  exchange actor code token x at_ now st c = Ok ((r, t, url), c') ->
  exists r0, effect (L_exchanged (dbg_id r0) token) c c' r0 r /\ t = token /\ debug_evidence c' = debug_evidence c
    /\ dbg_launch_code_hash r0 = token_digest code /\ dbg_tenant_id r0 = actor_tenant_id actor /\ may_act actor r0
    /\ r = exchanged_row token now r0 /\ dbg_launch_code_used_at r0 = None /\ xc_now x < dbg_expires_at r0 /\ holds_lease r0 at_ c.
Proof.
  unfold DebugSessions.exchange. intros Hnd H. debug_ok H. apply debug_unit_of_work_Ok in H as [H _].
  destruct (session_by_launch_hash _ _ _) as [r0|] eqn:E; [|done].
  destruct (session_by_launch_hash_Ok _ _ _ _ Hnd E) as (Hr & Hh & Ht).
  destruct (expire_if_needed _ _ _ _) as [r1 c1] eqn:E1. ok_inv H. stable_all.
  apply not_expired in E1 as (-> & -> & Hx); [|rewrite over_alt; intros [?|?]; congruence].
  match goal with A : require_active_lease _ _ _ _ = _ |- _ => apply require_active_lease_Ok in A end.
  exists r0. split; [split; [done|by constructor|done|by apply session_reported_le]|]. do 4 (split; [done|]). split; [done|].
  split; [done|]. split; [by apply eq_None_not_Some|]. split; [done|by eexists].
Qed.

Lemma heartbeat_effect actor k token body x now st c r c' : NoDup (dbg_id <$> debug_sessions c) ->
  heartbeat actor k token body x now st c = Ok (r, c') ->
  exists r0, effect (L_relayed k token (rc_lease_at x)) c c' r0 r /\ dbg_id r0 = k /\ debug_evidence c' = debug_evidence c
    /\ r = heartbeat_row body now r0 /\ dbg_tenant_id r0 = actor_tenant_id actor /\ holds_lease r0 (rc_lease_at x) c.
Proof.
  unfold heartbeat. intros Hnd H. debug_ok H. apply debug_unit_of_work_Ok in H as [H _].
  destruct (session actor k c) as [r0|] eqn:E; [|done]. apply session_Ok in E as (E & Hk & Ht).
  destruct (authorize_relay _ _ _ _ _) as [[r1 c1]|] eqn:E1; [|done]. injection H as <- <-.
  apply authorize_relay_Ok in E1 as (-> & -> & Ha & Hh & _ & _ & Hl). exists r0. rewrite <- Hk in E |- *.
  split; [split; [done|by apply row_relay|done|by apply session_reported_le]|done].
Qed.

Lemma add_evidence_effect actor k token body i x now st c e new c' : NoDup (dbg_id <$> debug_sessions c) ->
  add_evidence actor k token body i x now st c = Ok ((e, new), c') ->
  exists r0, effect (L_relayed k token (rc_lease_at x)) c c' r0 r0 /\ dbg_id r0 = k /\ dbg_tenant_id r0 = actor_tenant_id actor
    /\ holds_lease r0 (rc_lease_at x) c /\ validate_evidence netloc_accepted float_repr body = Ok tt
    /\ (if new : bool then e = new_evidence actor k i now body /\ debug_evidence c' = debug_evidence c ++ [e]
                          /\ evidence_by_hash actor k (ec_sha256 body) c = None
        else c' = c /\ evidence_by_hash actor k (ec_sha256 body) c = Some e /\ de_kind e = ec_kind body
             /\ de_object_ref e = ec_object_ref body /\ payload_eqb (de_metadata_json e) (ec_metadata body) = true).
Proof.
  unfold DebugSessions.add_evidence. intros Hnd H. debug_ok H.
  destruct (validate_evidence _ _ _) as [[]|] eqn:Ev; [|done]. apply debug_unit_of_work_Ok in H as [H _].
  destruct (session actor k c) as [r0|] eqn:E; [|done]. apply session_Ok in E as (E & Hk & Ht).
  destruct (authorize_relay _ _ _ _ _) as [[r1 c1]|] eqn:E1; [|done].
  apply authorize_relay_Ok in E1 as (-> & -> & Ha & Hh & _ & _ & Hl). exists r0. rewrite <- Hk in E |- *.
  assert (row_step (L_relayed (dbg_id r0) token (rc_lease_at x)) r0 r0) as Hs by by apply row_relay.
  destruct (evidence_by_hash _ _ _ _) as [e0|] eqn:Eh.
  - ok_inv H. split; [by apply effect_same|]. repeat (split; [done|]).
    assert (de_kind e = ec_kind body /\ de_object_ref e = ec_object_ref body /\ payload_eqb (de_metadata_json e) (ec_metadata body) = true) as (? & ? & ?).
    { destruct (payload_eqb _ _) eqn:Ep; [|by exfalso; apply D; right; right].
      split; [apply dec_stable; intros ?; apply D; by left|]. split; [apply dec_stable; intros ?; apply D; right; by left|done]. }
    done.
  - injection H as <- <- <-. split; [|done]. split; [done|done|by rewrite tput_self|by apply session_reported_le].
Qed.

Lemma revoke_effect actor k reason now at1 at2 st c r c' : NoDup (dbg_id <$> debug_sessions c) ->
  revoke actor k reason now at1 at2 st c = Ok (r, c') ->
  exists r0, effect (L_revoked k) c c' r0 r /\ dbg_id r0 = k /\ debug_evidence c' = debug_evidence c /\ may_act actor r0
    /\ (over r0 /\ c' = c \/ ~ over r0 /\ r = revoked_row actor reason now r0).
Proof.
  unfold revoke. intros Hnd H. debug_ok H. apply debug_unit_of_work_Ok in H as [H _].
  destruct (session actor k c) as [r0|] eqn:E; [|done]. apply session_Ok in E as (E & Hk & Ht). rewrite <- Hk in E |- *.
  destruct (decide (~ may_act actor r0)) as [Dm|Dm]; [discriminate H|]. apply dec_stable in Dm.
  destruct (decide (dbg_status r0 ∈ TERMINAL_DEBUG_STATES)) as [Do|Do].
  - destruct (decide (~ _)); [discriminate H|]. injection H as <- <-. exists r0.
    split; [apply effect_same; [done..|by apply row_revoked_before]|]. do 3 (split; [done|]). by left.
  - pose proof (release_device_lease_le actor (revoked_row actor reason now r0) at1 at2 (put_session (revoked_row actor reason now r0) c)) as Hl.
    cbv zeta in H. set (c1 := release_device_lease _ _ _ _ _) in *. clearbody c1. destruct Hl as (L & S & V).
    injection H as <- <-. exists r0. split; [|by split; [|split; [|split; [|right]]]].
    split; [done| |done|by apply session_reported_le]. apply row_revoke; [done| |done..]. unfold over; cbn; by left.
Qed.

(** The device and session a creation leaves. *)
Record created (actor : Actor) (body : DebugSessionCreate) (i : create_inputs) (c c' : debug_db) (r : DebugSessionRow)
    (dev : DeviceRow) (edge_id : string) (capabilities : list string) : Prop := mkCreated {
  cd_device : devices (core (ctl c)) !! dc_device_id body = Some dev;
  cd_tenant : d_tenant_id dev = actor_tenant_id actor;
  cd_edge : d_edge_id dev = Some edge_id;
  cd_maintenance : d_maintenance dev = true;
  cd_free : ~ leased (lease_for_device actor (dc_device_id body) (ctl c)) (cr_now i);
  cd_held : forall l, leases (core (ctl c)) !! dc_device_id body = Some l -> l_tenant_id l = actor_tenant_id actor;
  cd_capabilities : validated_capabilities (dc_capabilities body) = Ok capabilities;
  cd_row : r = new_session actor body capabilities i edge_id (d_fencing_counter dev + 1) (cr_now i + seconds (dc_ttl_seconds body));
  cd_sessions : debug_sessions c' = debug_sessions c ++ [r];
  cd_evidence : debug_evidence c' = debug_evidence c;
  cd_devices : devices (core (ctl c')) = <[dc_device_id body := dev <| d_fencing_counter := d_fencing_counter dev + 1 |>]> (devices (core (ctl c)));
  cd_leases : leases (core (ctl c')) = <[dc_device_id body := new_lease actor i (d_fencing_counter dev + 1)
                                          (cr_now i + seconds (dc_ttl_seconds body))]> (leases (core (ctl c)));
  cd_service : service_le (ctl c) (ctl c');
}.

Lemma create_created actor body i c r code c' : create actor body i c = Ok ((r, code), c') ->
  code = cr_launch_code i /\ exists dev edge_id capabilities, created actor body i c c' r dev edge_id capabilities.
Proof.
  unfold DebugSessions.create. intros H. debug_ok H. destruct (validated_capabilities _) as [caps|] eqn:Ec; [|done].
  destruct (validate_return_url _ _ _) as [u|]; [|done]. apply debug_unit_of_work_Ok in H as [H _].
  destruct (device _ _ _) as [dev|] eqn:Ed; [|done]. pose proof Ed as [_ Ht]%one_for_tenant_Ok. apply device_row in Ed.
  cbv zeta in H. destruct (decide (d_maintenance dev = false)) as [|Dm]; [done|]. destruct (decide (leased _ _)) as [|Dl]; [done|].
  destruct (decide (_ /\ _)) as [|Dh]; [done|]. destruct (d_edge_id dev) as [edge_id|] eqn:Ee; [|done]. injection H as <- <- <-.
  split; [done|]. exists dev, edge_id, caps. split; try done; [by destruct (d_maintenance dev)| |].
  { intros l Hl. unfold lease_for_device in Dh. rewrite Hl in Dh. case_decide; [done|]. destruct Dh. by eauto. }
  cbn. etransitivity; [|by apply session_reported_le]. etransitivity; [|apply (audit_service_le "SUCCEEDED")].
  split; [|apply (leases_from_grant _ _ (dc_device_id body) dev (d_fencing_counter dev + 1) (new_lease actor i (d_fencing_counter dev + 1) (cr_now i + seconds (dc_ttl_seconds body)))); [done|lia|reflexivity|reflexivity|]|done].
  - etransitivity; [eapply put_device_control_le; [exact Ed|]|apply put_lease_control_le]. split; cbn; [done|lia|done].
  - eexists. split; [apply lookup_insert_eq|]. cbn. lia.
Qed.
End Handlers.

(** ** The machine *)

Section Machine.
Context (builtin_recipe_ref : string -> option json) (public_keys : list (string * string))
        (validate_recipe_package : list (string * json) -> string -> option parsed_recipe)
        (netloc_accepted : string -> bool) (float_repr : Q -> string) (settings : debug_settings).
Abbreviation create := (create netloc_accepted settings).
Abbreviation exchange := (exchange settings).
Abbreviation add_evidence := (add_evidence netloc_accepted float_repr).
Abbreviation service_step := (TaskMachine.step builtin_recipe_ref public_keys validate_recipe_package float_repr).

(** One transaction: of the service, or of a handler of debug_service.py. *)
Inductive debug_step : dlabel -> debug_db -> debug_db -> Prop :=
| dstep_service l c s : service_step l (ctl c) s -> debug_step L_service c (c <| ctl := s |>)
| dstep_create actor body i c r code c' :
    create actor body i c = Ok ((r, code), c') -> debug_step (L_created (dbg_id r)) c c'
| dstep_get actor k x c r c' : get actor k x c = Ok (r, c') -> debug_step L_read c c'
| dstep_exchange actor code token x at_ now st c r c' t url :
    exchange actor code token x at_ now st c = Ok ((r, t, url), c') -> debug_step (L_exchanged (dbg_id r) t) c c'
| dstep_heartbeat actor k token body x now st c r c' :
    heartbeat actor k token body x now st c = Ok (r, c') -> debug_step (L_relayed k token (rc_lease_at x)) c c'
| dstep_evidence actor k token body i x now st c r c' :
    add_evidence actor k token body i x now st c = Ok (r, c') -> debug_step (L_relayed k token (rc_lease_at x)) c c'
| dstep_revoke actor k reason now at1 at2 st c r c' :
    revoke actor k reason now at1 at2 st c = Ok (r, c') -> debug_step (L_revoked k) c c'.

Inductive debug_execution : debug_db -> list dlabel -> debug_db -> Prop :=
| debug_nil c : debug_execution c [] c
| debug_snoc c ls c1 l c2 : debug_execution c ls c1 -> debug_step l c1 c2 -> debug_execution c (ls ++ [l]) c2.

Record debug_wf (c : debug_db) : Prop := mkDebugWf { dwf_service : well_formed (ctl c); dwf_indexes : debug_indexes c }.

(** What a step does to the sessions, and to the service. *)
Inductive moved (l : dlabel) (c c' : debug_db) : Prop :=
| moved_service : l = L_service -> debug_sessions c' = debug_sessions c -> debug_evidence c' = debug_evidence c -> moved l c c'
| moved_created actor body i r dev edge_id caps : l = L_created (dbg_id r) -> created actor body i c c' r dev edge_id caps -> moved l c c'
| moved_row r r' : effect l c c' r r' -> moved l c c'.

Lemma debug_step_moved l c c' : debug_step l c c' -> NoDup (dbg_id <$> debug_sessions c) -> moved l c c'.
Proof.
  intros Hs Hn. destruct Hs as [l c s Hs|? ? ? ? ? ? ? H|? ? ? ? [? ?] ? H|? ? ? ? ? ? ? ? ? ? ? ? H|? ? ? ? ? ? ? ? ? ? H|? ? ? ? ? ? ? ? ? [? ?] ? H|? ? ? ? ? ? ? ? ? ? H].
  - by apply moved_service.
  - apply create_created in H as (_ & dev & e & caps & H). by eapply moved_created.
  - apply get_effect in H as (r0 & [H _] & _); [|done]. by eapply moved_row.
  - apply exchange_effect in H as (r0 & H & -> & _ & _ & _ & _ & -> & _); [|done]. by eapply moved_row.
  - apply heartbeat_effect in H as (r0 & H & _); [|done]. by eapply moved_row.
  - apply add_evidence_effect in H as (r0 & H & _); [|done]. by eapply moved_row.
  - apply revoke_effect in H as (r0 & H & _); [|done]. by eapply moved_row.
Qed.

(** What any step leaves of the service. *)
Lemma debug_step_indexes l c c' : debug_step l c c' -> debug_wf c ->
  unique_indexes (core (ctl c')) /\ control_indexes (ctl c') /\ debug_indexes c'.
Proof.
  intros Hs [[Hu Hi _ _ _ _] Hd]. destruct Hs as [l c s Hs|? ? ? ? ? ? ? H|? ? ? ? ? ? H|? ? ? ? ? ? ? ? ? ? ? ? H|? ? ? ? ? ? ? ? ? ? H|? ? ? ? ? ? ? ? ? ? ? H|? ? ? ? ? ? ? ? ? ? H].
  { destruct (step_indexes _ _ _ _ _ _ _ Hs Hu). done. }
  all: unfold DebugSessions.create, get, DebugSessions.exchange, heartbeat, DebugSessions.add_evidence, revoke in H.
  all: repeat (debug_ok H). all: by apply debug_unit_of_work_Ok in H as [_ H].
Qed.

Lemma debug_step_service l c c' : debug_step l c c' -> debug_wf c ->
  control_le (ctl c) (ctl c') /\ leases_from (core (ctl c)) (core (ctl c')) /\ plans_evolve (ctl c) (ctl c').
Proof.
  intros Hs [[Hu Hi _ _ _ _] Hd]. destruct (debug_step_moved _ _ _ Hs (proj1 Hd)) as [-> E1 E2|actor body i r dev e caps -> H|r r' H].
  - inversion Hs as [l c0 s Hs'| | | | | |]; subst. cbn. split; [by eapply step_le|]. split; [by eapply step_leases|by eapply step_evolves].
  - destruct (cd_service _ _ _ _ _ _ _ _ _ H) as [A B C]. split; [done|]. split; [done|by apply plans_evolve_same].
  - destruct (ef_service _ _ _ _ _ H) as [A B C]. split; [done|]. split; [done|by apply plans_evolve_same].
Qed.

Lemma debug_step_wf l c c' : debug_step l c c' -> debug_wf c -> debug_wf c'.
Proof.
  intros Hs Hw. destruct (debug_step_indexes _ _ _ Hs Hw) as (Hu & Hi & Hd). split; [|done].
  destruct (debug_step_service _ _ _ Hs Hw) as (Hle & Hl & Hp). destruct Hw as [Hw _].
  by eapply control_le_well_formed.
Qed.

(** ** Histories *)

Definition exchanged (ls : list dlabel) : list string :=
  omap (fun l => match l with L_exchanged k _ => Some k | _ => None end) ls.
Definition label_id (l : dlabel) : option string :=
  match l with L_exchanged k _ | L_relayed k _ _ | L_revoked k => Some k | _ => None end.

(** What the labels so far tell about a session. *)
Record session_ok (ls : list dlabel) (c : debug_db) (r : DebugSessionRow) : Prop := mkSessionOk {
  so_fence : exists x n, devices (core (ctl c)) !! dbg_device_id r = Some x /\ dbg_fencing_token r = Some n /\ n <= d_fencing_counter x;
  so_pending : dbg_status r = PENDING_EXCHANGE -> dbg_relay_token_hash r = None /\ dbg_id r ∉ exchanged ls;
  so_hash : forall h, dbg_relay_token_hash r = Some h ->
    dbg_status r = ACTIVE /\ exists t, L_exchanged (dbg_id r) t ∈ ls /\ h = token_digest t;
  so_revoked : L_revoked (dbg_id r) ∈ ls -> over r;
}.

Record trace_ok (ls : list dlabel) (c : debug_db) : Prop := mkTraceOk {
  tr_wf : debug_wf c;
  tr_once : NoDup (exchanged ls);
  tr_sessions : forall r, r ∈ debug_sessions c -> session_ok ls c r;
  tr_known : forall l k, l ∈ ls -> label_id l = Some k -> k ∈ dbg_id <$> debug_sessions c;
}.

Lemma elem_of_exchanged k ls : k ∈ exchanged ls <-> exists t, L_exchanged k t ∈ ls.
Proof.
  unfold exchanged. rewrite list_elem_of_omap. split.
  - intros ([] & Hin & E); try discriminate E. injection E as <-. by eexists.
  - intros [t H]. by eexists.
Qed.

Lemma exchanged_snoc ls l k : k ∈ exchanged (ls ++ [l]) <-> k ∈ exchanged ls \/ exists t, l = L_exchanged k t.
Proof.
  rewrite !elem_of_exchanged. setoid_rewrite elem_of_app. setoid_rewrite list_elem_of_singleton. naive_solver.
Qed.

(** A session the step does not name. *)
Lemma session_ok_other ls l c c' r : session_ok ls c r -> devices_le (devices (core (ctl c))) (devices (core (ctl c'))) ->
  label_id l <> Some (dbg_id r) -> session_ok (ls ++ [l]) c' r.
Proof.
  intros [(x & n & Hx & Hn & Hle) P H V] Hd Hl. split.
  - destruct (Hd _ _ Hx) as (y & Hy & [_ Hxy _]). exists y, n. split; [done|]. split; [done|lia].
  - intros Hp. destruct (P Hp) as [? ?]. split; [done|]. rewrite exchanged_snoc. intros [?|[t ->]]; [done|]. by destruct Hl.
  - intros h Hh. destruct (H h Hh) as (? & t & ? & ?). split; [done|]. exists t. split; [by apply elem_of_app; left|done].
  - intros [?|E%list_elem_of_singleton]%elem_of_app; [by apply V|]. subst l. by destruct Hl.
Qed.

Lemma row_step_label l r r' : row_step l r r' -> label_id l = None \/ label_id l = Some (dbg_id r).
Proof. destruct 1; auto. Qed.

(** The session the step names. *)
Lemma session_ok_step ls l c c' r r' : session_ok ls c r -> devices_le (devices (core (ctl c))) (devices (core (ctl c'))) ->
  row_step l r r' -> session_ok (ls ++ [l]) c' r'.
Proof.
  intros Ho Hd Hs. pose proof (row_step_frozen _ _ _ Hs) as Hf. pose proof (session_frozen_id _ _ Hf) as Hid.
  assert (exists x n, devices (core (ctl c')) !! dbg_device_id r' = Some x /\ dbg_fencing_token r' = Some n /\ n <= d_fencing_counter x) as Hfence.
  { destruct (so_fence _ _ _ Ho) as (x & n & Hx & Hn & Hle). destruct (Hd _ _ Hx) as (y & Hy & [_ Hxy _]).
    unfold session_frozen in Hf. injection Hf as _ _ _ -> _ -> _ _ _ _ _ _ _. exists y, n. split; [done|]. split; [done|lia]. }
  destruct Hs as [r|r r' N O F H|r token now P|r r' token at_ A H F S H2|r r' N O F H|r O].
  - by apply (session_ok_other _ _ c).
  - split; [done| | |done]; [|by rewrite H]. intros P. rewrite over_alt, P in O. by destruct O.
  - split; [done|done| |].
    + cbn. intros h [= <-]. split; [done|]. exists token. split; [apply elem_of_app; right; by left|done].
    + cbn. intros [V|V%list_elem_of_singleton]%elem_of_app; [|done]. apply (so_revoked _ _ _ Ho), over_alt in V. rewrite P in V. by destruct V.
  - split; [done| | |].
    + intros P. rewrite S, A in P. done.
    + intros h. rewrite H2, S, Hid. intros Hh. destruct (so_hash _ _ _ Ho h Hh) as (? & t & ? & ?). split; [done|].
      exists t. split; [apply elem_of_app; by left|done].
    + rewrite Hid. intros [V|V%list_elem_of_singleton]%elem_of_app; [|done]. apply (so_revoked _ _ _ Ho), over_alt in V. rewrite A in V. by destruct V.
  - split; [done| | |done]; [|by rewrite H]. intros P. rewrite over_alt, P in O. by destruct O.
  - split; [done| | |done].
    + intros P. rewrite over_alt, P in O. by destruct O.
    + intros h Hh. destruct (so_hash _ _ _ Ho h Hh) as (A & _). rewrite over_alt, A in O. by destruct O.
Qed.

Lemma moved_sessions l c c' r' : moved l c c' -> r' ∈ debug_sessions c' ->
  (r' ∈ debug_sessions c /\ label_id l <> Some (dbg_id r'))
  \/ (exists r, r ∈ debug_sessions c /\ row_step l r r')
  \/ (exists actor body i dev e caps, created actor body i c c' r' dev e caps /\ l = L_created (dbg_id r')).
Proof.
  intros [-> E _|actor body i r dev e caps -> H|r r0 H] Hin.
  - left. by rewrite E in Hin.
  - rewrite (cd_sessions _ _ _ _ _ _ _ _ _ H) in Hin. apply elem_of_app in Hin as [?|Hx%list_elem_of_singleton]; [by left|].
    subst r'. do 2 right. by exists actor, body, i, dev, e, caps.
  - destruct H as [Hr Hs Es _]. rewrite Es in Hin. pose proof (session_frozen_id _ _ (row_step_frozen _ _ _ Hs)) as Hid.
    apply elem_of_tput in Hin as [[-> _]|[Hin Hne]].
    + right; left. exists r. split; [|done]. by apply tget_Some in Hr as [? _].
    + left. split; [done|]. destruct (row_step_label _ _ _ Hs) as [->| ->]; [done|]. rewrite <- Hid. congruence.
Qed.

Lemma trace_step ls c l c' : trace_ok ls c -> debug_step l c c' -> trace_ok (ls ++ [l]) c'.
Proof.
  intros [Hw Ho Hr Hk] Hs. pose proof (debug_step_wf _ _ _ Hs Hw) as Hw'.
  pose proof (debug_step_service _ _ _ Hs Hw) as ([[_ _ _ _ Hd] _ _ _ _ _ _ _] & _).
  pose proof (debug_step_moved _ _ _ Hs (proj1 (dwf_indexes _ Hw))) as Hm.
  assert (forall k, label_id l = Some k -> k ∈ dbg_id <$> debug_sessions c) as Hl.
  { intros k Hk'. destruct Hm as [-> _ _|? ? ? ? ? ? ? -> _|r r' [Hg Hst _ _]]; [done..|].
    destruct (row_step_label _ _ _ Hst) as [E|E]; rewrite E in Hk'; [done|]. injection Hk' as <-. by eapply tget_key_In. }
  assert (forall k, k ∈ dbg_id <$> debug_sessions c -> k ∈ dbg_id <$> debug_sessions c') as Hkeys.
  { destruct Hm as [_ -> _|? ? ? ? ? ? ? _ H|r r' [_ _ -> _]]; [done| |by rewrite tput_keys].
    rewrite (cd_sessions _ _ _ _ _ _ _ _ _ H), fmap_app. intros k Hin. apply elem_of_app. by left. }
  split; [done|..].
  - unfold exchanged. rewrite omap_app. fold (exchanged ls). destruct l as [| | |k t| |]; cbn; rewrite ?app_nil_r; try done.
    apply NoDup_app. split; [done|]. split; [|apply NoDup_singleton]. intros k' Hin ->%list_elem_of_singleton.
    destruct Hm as [E|? ? ? ? ? ? ? E|r r' [Hg Hst _ _]]; [discriminate E..|]. inversion Hst; subst.
    apply tget_Some in Hg as [Hg _]. by apply (so_pending _ _ _ (Hr r Hg)).
  - intros r' Hin. destruct (moved_sessions _ _ _ _ Hm Hin) as [[H1 H2]|[(r & H1 & H2)|(actor & body & i & dev & e & caps & H & ->)]].
    + by apply (session_ok_other _ _ c); [apply Hr|..].
    + by apply (session_ok_step _ _ c _ r); [apply Hr|..].
    + pose proof (cd_row _ _ _ _ _ _ _ _ _ H) as E.
      assert (dbg_id r' ∉ dbg_id <$> debug_sessions c) as Hfresh.
      { pose proof (proj1 (dwf_indexes _ Hw')) as Hn. rewrite (cd_sessions _ _ _ _ _ _ _ _ _ H), fmap_app in Hn.
        apply NoDup_app in Hn as (_ & Hn & _). intros Hx. apply (Hn _ Hx). by left. }
      split; [|intros _; split; [by rewrite E|]|by rewrite E|].
      * rewrite (cd_devices _ _ _ _ _ _ _ _ _ H), E. cbn. do 2 eexists. split; [apply lookup_insert_eq|]. split; [done|]. cbn. lia.
      * rewrite exchanged_snoc. intros [[t Hx]%elem_of_exchanged|[? [=]]]. apply Hfresh. by eapply Hk.
      * intros [Hx|Hx%list_elem_of_singleton]%elem_of_app; [|done]. destruct Hfresh. by eapply Hk.
  - intros l0 k [Hin| ->%list_elem_of_singleton]%elem_of_app E; apply Hkeys; [by eapply Hk|by apply Hl].
Qed.

Lemma trace_execution c0 ls c : debug_execution c0 ls c -> debug_wf c0 -> debug_sessions c0 = [] -> trace_ok ls c.
Proof.
  intros He Hw Hn. induction He as [c|c ls c1 l c2 _ IH Hs]; [|by eapply trace_step; [apply IH|]].
  split; [done|constructor|by rewrite Hn; intros ? ?%elem_of_nil|by intros ? ? ?%elem_of_nil].
Qed.

Lemma relayed_inv k t at_ c c' : debug_step (L_relayed k t at_) c c' -> NoDup (dbg_id <$> debug_sessions c) ->
  exists r, tget dbg_id k (debug_sessions c) = Some r /\ dbg_status r = ACTIVE
    /\ dbg_relay_token_hash r = Some (token_digest t) /\ holds_lease r at_ c.
Proof.
  intros Hs Hn. inversion Hs as [| | | |actor k0 t0 body x now st c0 r c1 H|actor k0 t0 body i x now st c0 [e b] c1 H|]; subst.
  - apply heartbeat_effect in H as (r0 & [Hr Hst _ _] & <- & _ & _ & _ & Hl); [|done]. inversion Hst; subst. by exists r0.
  - apply add_evidence_effect in H as (r0 & [Hr Hst _ _] & <- & _ & Hl & _); [|done]. inversion Hst; subst. by exists r0.
Qed.

(** C19. The relay answers only to its own session. Whatever the service and
    the debug handlers do, in any order, every heartbeat or evidence taken at
    a time [at_] for a session comes with the token one earlier exchange of
    that session handed out, the only exchange it ever had; the session was
    never revoked; and at that time the device lease is the session's own,
    uncanceled and unexpired. *)
Theorem relay_needs_its_exchange c0 ls c k t at_ c'
    (Hw : debug_wf c0) (Hnone : debug_sessions c0 = []) (He : debug_execution c0 ls c)
    (Hs : debug_step (L_relayed k t at_) c c') :
  NoDup (exchanged ls)
  /\ (exists t0, L_exchanged k t0 ∈ ls /\ token_digest t = token_digest t0)
  /\ (L_revoked k ∉ ls)
  /\ exists r l, tget dbg_id k (debug_sessions c) = Some r /\ dbg_status r = ACTIVE
       /\ leases (core (ctl c)) !! dbg_device_id r = Some l /\ own_lease r l /\ Accounts.lease_live l at_.
Proof.
  pose proof (trace_execution _ _ _ He Hw Hnone) as [Hwc Ho Hr _].
  destruct (relayed_inv _ _ _ _ _ Hs (proj1 (dwf_indexes _ Hwc))) as (r & Hg & Ha & Hh & (l & Hl & Hown & Hlive)).
  pose proof Hg as [Hin Hid]%tget_Some. destruct (Hr r Hin) as [_ _ H V]. destruct (H _ Hh) as (_ & t0 & H1 & H2).
  rewrite Hid in *. split; [done|]. split; [by exists t0|]. split; [|by exists r, l].
  intros Hx%V%over_alt. rewrite Ha in Hx. by destruct Hx.
Qed.

(** ** Sessions that are over *)

(** The session ended, or the lease of its device is gone or another's. *)
Definition dead (k : string) (c : debug_db) : Prop :=
  exists r, tget dbg_id k (debug_sessions c) = Some r
    /\ (over r \/ forall l, leases (core (ctl c)) !! dbg_device_id r = Some l -> ~ own_lease r l).

Lemma row_step_over l r r' : row_step l r r' -> over r -> r' = r.
Proof.
  rewrite over_alt. intros [] O; try done; exfalso.
  all: match goal with H : ~ over _ |- _ => apply H; by apply over_alt | H : dbg_status _ = _ |- _ => rewrite H in O; by destruct O end.
Qed.

Lemma lease_stays_lost ls c c' r l : session_ok ls c r -> leases_from (core (ctl c)) (core (ctl c')) ->
  (forall l, leases (core (ctl c)) !! dbg_device_id r = Some l -> ~ own_lease r l) ->
  leases (core (ctl c')) !! dbg_device_id r = Some l -> ~ own_lease r l.
Proof.
  intros [(x & n & Hx & Hn & Hle) _ _ _] Hl Hlost Hk Ho. destruct (Hl _ _ Hk) as [(l0 & Hl0 & E)|[_ Hnew]].
  - apply (Hlost l0 Hl0). unfold own_lease in *. unfold lease_frozen in E. injection E as E1 E2 E3 E4 E5.
    by rewrite <- E2, <- E3, <- E4.
  - specialize (Hnew _ Hx). destruct Ho as (_ & Ho & _). rewrite Hn in Ho. injection Ho as ->. lia.
Qed.

Lemma dead_step ls l c c' k : trace_ok ls c -> debug_step l c c' -> dead k c ->
  dead k c' /\ (forall t, l <> L_exchanged k t) /\ (forall t at_, l <> L_relayed k t at_)
  /\ (forall r, tget dbg_id k (debug_sessions c) = Some r -> over r -> tget dbg_id k (debug_sessions c') = Some r).
Proof.
  intros [Hw _ Hr _] Hs (r & Hg & Hd). pose proof (proj1 (dwf_indexes _ Hw)) as Hn. pose proof Hg as [Hin Hid]%tget_Some.
  pose proof (debug_step_service _ _ _ Hs Hw) as (_ & Hl & _).
  assert (forall r', session_frozen r' = session_frozen r ->
    (forall l, leases (core (ctl c)) !! dbg_device_id r = Some l -> ~ own_lease r l) ->
    forall l, leases (core (ctl c')) !! dbg_device_id r' = Some l -> ~ own_lease r' l) as Hlost.
  { intros r' F Hx l0. unfold session_frozen in F. injection F as F1 _ _ F4 F5 F6 _ _ _ _ _ _ _. unfold own_lease.
    rewrite F1, F4, F5, F6. by eapply lease_stays_lost; [apply Hr|..]. }
  split; [|split; [|split]].
  - destruct (debug_step_moved _ _ _ Hs Hn) as [_ E _|? ? ? ? ? ? ? _ H|r0 r0' [Hg0 Hst E _]].
    + exists r. rewrite E. split; [done|]. destruct Hd as [?|?]; [by left|right; by apply Hlost].
    + exists r. rewrite (cd_sessions _ _ _ _ _ _ _ _ _ H), tget_app, Hg. split; [done|]. destruct Hd as [?|?]; [by left|right; by apply Hlost].
    + pose proof (row_step_frozen _ _ _ Hst) as F. pose proof (session_frozen_id _ _ F) as Hid0. unfold dead. rewrite E. setoid_rewrite tget_tput.
      destruct (decide (dbg_id r0' = k)) as [Ek|Ek].
      * assert (r0 = r) as -> by (rewrite <- Hid0, Ek in Hg0; congruence). exists r0'. rewrite decide_True.
        2:{ rewrite <- Hid. by apply list_elem_of_fmap_2. }
        split; [done|]. destruct Hd as [O|?]; [left; by rewrite (row_step_over _ _ _ Hst O)|right; by apply Hlost].
      * exists r. split; [done|]. destruct Hd as [?|?]; [by left|right; by apply Hlost].
  - intros t ->. inversion Hs as [| | |actor code token x a now st c0 r0 c1 t0 url H| | |]; subst.
    apply exchange_effect in H as (r1 & [Hg1 Hst _ _] & _ & _ & _ & _ & _ & -> & _ & _ & (l & Hl1 & Ho & _)); [|done].
    cbn in *. assert (r1 = r) as -> by congruence. destruct Hd as [O|O]; [|by eapply O].
    inversion Hst as [| |? ? ? P| | |]; subst. apply over_alt in O. rewrite P in O. by destruct O.
  - intros t at_ ->. destruct (relayed_inv _ _ _ _ _ Hs Hn) as (r1 & Hg1 & Ha & _ & (l & Hl1 & Ho & _)).
    assert (r1 = r) as -> by congruence. destruct Hd as [O|O]; [|by eapply O]. apply over_alt in O. rewrite Ha in O. by destruct O.
  - intros r1 Hg1 O. assert (r1 = r) as -> by congruence. clear Hg1.
    destruct (debug_step_moved _ _ _ Hs Hn) as [_ E _|? ? ? ? ? ? ? _ H|r0 r0' [Hg0 Hst E _]]; [by rewrite E|by rewrite (cd_sessions _ _ _ _ _ _ _ _ _ H), tget_app, Hg|].
    rewrite E, tget_tput. pose proof (session_frozen_id _ _ (row_step_frozen _ _ _ Hst)) as Hid0. case_decide as Ek; [|done].
    assert (r0 = r) as -> by (rewrite <- Hid0, Ek in Hg0; congruence). rewrite (row_step_over _ _ _ Hst O).
    rewrite decide_True; [done|]. rewrite <- Hid. by apply list_elem_of_fmap_2.
Qed.


(** ** Evidence *)

(** The keys of a document, at any depth. *)
Inductive key_in (key : string) : json -> Prop :=
| key_here o v : (key, v) ∈ o -> key_in key (JObj o)
| key_below o k v : (k, v) ∈ o -> key_in key v -> key_in key (JObj o)
| key_among l v : v ∈ l -> key_in key v -> key_in key (JArr l).

Fixpoint inspected_keys (v : json) (k : string) {struct v} : inspect_safe_metadata v k = Ok tt ->
  ~ unsafe_key k /\ forall key, key_in key v -> ~ unsafe_key key.
Proof.
  destruct v as [| | | | |l|o]; cbn [inspect_safe_metadata]; intros H; case_decide as Hk; try discriminate H; split; try done.
  1-5: intros key Hi; inversion Hi.
  - intros key Hi. inversion Hi as [| |l0 v Hin Hv]; subst. clear Hi. induction l as [|a l IH]; [by apply elem_of_nil in Hin|].
    cbn in H. destruct (inspect_safe_metadata a k) as [[]|] eqn:E; [|discriminate H].
    apply elem_of_cons in Hin as [->|Hin]; [|by apply IH]. by apply (inspected_keys _ _ E).
  - intros key Hi. assert (exists k' v, (k', v) ∈ o /\ (key = k' \/ key_in key v)) as (k' & v & Hin & Hv).
    { inversion Hi as [o0 v Hin|o0 k' v Hin Hv|]; subst; [exists key, v|exists k', v]; auto. }
    clear Hi. induction o as [|[k0 a] o IH]; [by apply elem_of_nil in Hin|].
    cbn in H. destruct (inspect_safe_metadata a k0) as [[]|] eqn:E; [|discriminate H].
    apply elem_of_cons in Hin as [[= -> ->]|Hin]; [|by apply IH]. destruct (inspected_keys _ _ E) as [H1 H2].
    destruct Hv as [->|Hv]; [done|by apply H2].
Qed.

Definition safe_evidence (e : DebugEvidenceRow) : Prop :=
  (exists u, urlsplit netloc_accepted (de_object_ref e) = Some u /\ url_scheme u ∈ ["s3"; "https"] /\ url_netloc u <> ""
             /\ has_userinfo (url_netloc u) = false)
  /\ ascii_size float_repr (JObj (de_metadata_json e)) <= 8192
  /\ forall key, key_in key (JObj (de_metadata_json e)) -> ~ unsafe_key key.

Lemma validated_evidence actor k i now body : validate_evidence netloc_accepted float_repr body = Ok tt ->
  safe_evidence (new_evidence actor k i now body).
Proof.
  unfold validate_evidence. intros H. destruct (urlsplit _ _) as [u|] eqn:E; [|done].
  destruct (decide (_ \/ _)) as [|D1]; [done|]. destruct (decide (has_userinfo _ = true)) as [|D2]; [done|].
  destruct (decide (_ > _)) as [|D3]; [done|].
  assert (ascii_size float_repr (JObj (ec_metadata body)) <= 8192) as Hsize by lia.
  split; [exists u|split; [exact Hsize|by apply (inspected_keys _ _ H)]].
  split; [done|]. split; [by apply dec_stable; intros ?; apply D1; left|]. split; [by intros ?; apply D1; right|by apply not_true_is_false].
Qed.

Lemma evidence_step l c c' : debug_step l c c' -> debug_wf c ->
  debug_evidence c' = debug_evidence c \/ exists e, debug_evidence c' = debug_evidence c ++ [e] /\ safe_evidence e
    /\ de_session_id e ∈ dbg_id <$> debug_sessions c.
Proof.
  intros Hs [_ [Hn _]]. destruct Hs as [l c s Hs|? ? ? ? ? ? ? H|? ? ? ? [? ?] ? H|? ? ? ? ? ? ? ? ? ? ? ? H|? ? ? ? ? ? ? ? ? ? H|actor k ? body i ? now ? ? [e b] ? H|? ? ? ? ? ? ? ? ? ? H].
  - by left.
  - apply create_created in H as (_ & dev & e & caps & H). left. exact (cd_evidence _ _ _ _ _ _ _ _ _ H).
  - apply get_effect in H as (r0 & [_ H] & _); [|done]. by left.
  - apply exchange_effect in H as (r0 & _ & _ & H & _); [|done]. by left.
  - apply heartbeat_effect in H as (r0 & _ & _ & H & _); [|done]. by left.
  - apply add_evidence_effect in H as (r0 & [Hr _ _ _] & <- & _ & _ & Hv & H); [|done].
    destruct b; [destruct H as (-> & H & _)|destruct H as (-> & _); by left]. right. eexists. split; [exact H|].
    split; [by apply validated_evidence|]. cbn. by eapply tget_key_In.
  - apply revoke_effect in H as (r0 & _ & _ & H & _); [|done]. by left.
Qed.

(** Evidence is safe and stays. In every reachable state a stored piece of
    evidence points at an absolute s3 or https object without credentials,
    carries at most 8 KiB of metadata with no prohibited word in any key at
    any depth, is the only one of its session with its digest, and is still
    there, unchanged, in every later state. *)
Theorem evidence_is_safe c0 ls c (Hw : debug_wf c0) (Hnone : debug_evidence c0 = []) (He : debug_execution c0 ls c) :
  Forall safe_evidence (debug_evidence c) /\ NoDup (evidence_key <$> debug_evidence c)
  /\ forall ls' c', debug_execution c ls' c' -> exists new, debug_evidence c' = debug_evidence c ++ new.
Proof.
  assert (debug_wf c /\ Forall safe_evidence (debug_evidence c)) as [Hwc Hf].
  { induction He as [c|c ls c1 l c2 _ IH Hs]; [by rewrite Hnone|]. destruct (IH Hw Hnone) as [H1 H2].
    split; [by eapply debug_step_wf|]. destruct (evidence_step _ _ _ Hs H1) as [->|(e & -> & He & _)]; [done|].
    apply Forall_app. split; [done|]. by apply Forall_singleton. }
  split; [done|]. split; [apply (dwf_indexes _ Hwc)|]. clear He Hf Hnone. intros ls' c' He.
  enough (debug_wf c' /\ exists new, debug_evidence c' = debug_evidence c ++ new) by tauto.
  induction He as [c|c ls' c1 l c2 _ IH Hs]; [split; [done|]; exists []; by rewrite app_nil_r|].
  destruct (IH Hwc) as (H1 & new & H2). split; [by eapply debug_step_wf|].
  destruct (evidence_step _ _ _ Hs H1) as [->|(e & -> & _)]; [by exists new|]. exists (new ++ [e]). by rewrite H2, app_assoc.
Qed.

(** ** Creation *)

Lemma validated_capabilities_Ok caps v : validated_capabilities caps = Ok v ->
  NoDup v /\ (forall x, x ∈ v <-> x ∈ caps) /\ forall x, x ∈ v -> x ∈ ALLOWED_DEBUG_CAPABILITIES.
Proof.
  unfold validated_capabilities. case_decide as D; [done|]. intros [= <-].
  assert (forall x, x ∈ str_sorted (remove_dups caps) <-> x ∈ caps) as Hi.
  { intros x. unfold str_sorted. by rewrite elem_of_isort, elem_of_remove_dups. }
  split; [unfold str_sorted; rewrite isort_Permutation; apply NoDup_remove_dups|]. split; [done|]. intros x Hx%Hi.
  apply dec_stable. intros Hn. assert (x ∈ filter (fun v => v ∉ ALLOWED_DEBUG_CAPABILITIES) (remove_dups caps)) as Hf.
  { apply list_elem_of_filter. by rewrite elem_of_remove_dups. }
  rewrite D in Hf. by apply elem_of_nil in Hf.
Qed.

(** A session borrows a free device in maintenance. A creation that
    returns found the device of the caller's tenant in maintenance and without
    a live lease; it puts the session's own lease there, with a token above
    every lease the device had and live until the session expires, at most a
    quarter of an hour later; and it grants exactly the capabilities asked
    for, all of them allowed ones. *)
Theorem create_borrows_the_device actor body i c r code c' b0
    (Hb : parse_create b0 = Some body) (Hw : debug_wf c) (H : create actor body i c = Ok ((r, code), c')) :
  (exists dev, devices (core (ctl c)) !! dc_device_id body = Some dev /\ d_tenant_id dev = actor_tenant_id actor
     /\ d_maintenance dev = true /\ d_edge_id dev = Some (dbg_edge_id r))
  /\ (forall l, leases (core (ctl c)) !! dbg_device_id r = Some l -> ~ Accounts.lease_live l (cr_now i)
        /\ forall n, dbg_fencing_token r = Some n -> l_fencing_token l < n)
  /\ (forall at_, at_ < dbg_expires_at r -> holds_lease r at_ c')
  /\ cr_now i < dbg_expires_at r <= cr_now i + 15 * 60 * 1000000
  /\ NoDup (dbg_capabilities r) /\ (forall x, x ∈ dbg_capabilities r <-> x ∈ dc_capabilities body)
  /\ (forall x, x ∈ dbg_capabilities r -> x ∈ ALLOWED_DEBUG_CAPABILITIES)
  /\ dbg_status r = PENDING_EXCHANGE /\ debug_sessions c' = debug_sessions c ++ [r].
Proof.
  apply create_created in H as (_ & dev & e & caps & [H1 H2 H3 H4 H5 H6 H7 -> H8 _ _ H11 _]). cbn.
  apply validated_capabilities_Ok in H7 as (C1 & C2 & C3).
  assert (60 <= dc_ttl_seconds body <= 900) as Httl.
  { unfold parse_create in Hb. case_decide as D; [|done]. injection Hb as <-. cbn. tauto. }
  split; [by exists dev|]. split.
  { intros l Hl. split.
    - intros Hlive. apply H5. unfold lease_for_device. rewrite Hl, decide_True by by apply H6. done.
    - intros n [= <-]. destruct (wf_fences _ (dwf_service _ Hw) _ _ Hl) as (x & Hx & Hle). rewrite H1 in Hx. injection Hx as <-. lia. }
  split; [|split; [unfold seconds; lia|done]]. intros at_ Hat. eexists. cbn. rewrite H11. split; [apply lookup_insert_eq|]. split; [done|].
  split; [done|]. cbn. lia.
Qed.

(** ** A session at work *)

Lemma tput_split {R} (key : R -> string) (r r' : R) l : NoDup (key <$> l) -> tget key (key r) l = Some r -> key r' = key r ->
  exists l1 l2, l = l1 ++ r :: l2 /\ tput key r' l = l1 ++ r' :: l2.
Proof.
  intros Hn Hg Hk. pose proof Hg as [(l1 & l2 & ->)%list_elem_of_split _]%tget_Some. exists l1, l2. split; [done|].
  rewrite fmap_app in Hn. cbn in Hn. apply NoDup_app in Hn as (_ & H1 & [H2 _]%NoDup_cons).
  unfold tput. rewrite map_app. cbn. rewrite decide_True by done. fold (tput key r' l1) (tput key r' l2).
  rewrite !tput_absent; [done|by rewrite Hk|]. rewrite Hk. intros Hx. apply (H1 _ Hx). by left.
Qed.

(** Every index survives a write that changes at most the token of a session. *)
Lemma put_session_indexes c c' r r' : debug_indexes c -> tget dbg_id (dbg_id r) (debug_sessions c) = Some r ->
  session_frozen r' = session_frozen r ->
  (dbg_relay_token_hash r' = dbg_relay_token_hash r
   \/ exists h, dbg_relay_token_hash r' = Some h /\ h ∉ omap dbg_relay_token_hash (debug_sessions c)) ->
  debug_sessions c' = tput dbg_id r' (debug_sessions c) -> debug_evidence c' = debug_evidence c -> debug_indexes c'.
Proof.
  intros (I1 & I2 & I3 & I4 & I5 & I6) Hg Hf Hh Es Ee. pose proof (session_frozen_id _ _ Hf) as Hid.
  destruct (tput_split dbg_id r r' (debug_sessions c) I1 Hg Hid) as (l1 & l2 & E & Et).
  unfold debug_indexes. rewrite Es, Ee, Et, E in *. unfold session_frozen in Hf. injection Hf as F1 _ _ _ F5 _ _ _ _ _ F11 _ _.
  rewrite !fmap_app, !omap_app, !fmap_cons in *. cbn in *. rewrite F1, F5, F11.
  do 3 (split; [done|]). split; [|done]. destruct Hh as [->|(h & -> & Hn)]; [done|]. cbn in Hn |- *.
  destruct (dbg_relay_token_hash r) as [h0|]; cbn in *.
  all: rewrite ?elem_of_app, ?elem_of_cons in Hn; apply NoDup_app in I4 as (N1 & N2 & N3); rewrite ?NoDup_cons in *.
  all: apply NoDup_app; split; [done|]; split; [|apply NoDup_cons; split; [naive_solver|by (apply N3 || destruct N3)]].
  all: intros x Hx [->|Hx2]%elem_of_cons; [naive_solver|]; apply (N2 _ Hx); rewrite ?elem_of_cons; auto.
Qed.

(** An audit row and an event under a new identifier break no index. *)
Lemma reported_indexes actor action ty row m p st c : unique_indexes (core c) -> control_indexes c ->
  st_event_id st ∉ oe_id <$> outbox c ->
  let c' := session_event actor ty row p st (session_audit actor action row m st c) in
  unique_indexes (core c') /\ control_indexes c'.
Proof.
  intros Hu [] Hn. split; [done|]. split; try done. cbn. rewrite fmap_app. apply NoDup_app. split; [done|].
  split; [|apply NoDup_singleton]. intros x Hx ->%list_elem_of_singleton. done.
Qed.

Lemma find_Some_unique {A} (f : A -> bool) l x : x ∈ l -> f x = true -> (forall y, y ∈ l -> f y = true -> y = x) -> List.find f l = Some x.
Proof.
  intros Hx Hf Hu. destruct (List.find f l) as [y|] eqn:E.
  - apply find_some in E as [Hy Hfy]. f_equal. apply Hu; [by apply list_elem_of_In|done].
  - apply list_elem_of_In in Hx. pose proof (find_none f l E x Hx) as H. by rewrite H in Hf.
Qed.

Lemma launch_code_found actor c r code : debug_indexes c -> r ∈ debug_sessions c -> dbg_tenant_id r = actor_tenant_id actor ->
  dbg_launch_code_hash r = token_digest code -> session_by_launch_hash actor (token_digest code) c = Ok r.
Proof.
  intros (_ & _ & I & _) Hr Ht Hh. unfold session_by_launch_hash. rewrite (find_Some_unique _ _ r); [done|done|by rewrite bool_decide_true|].
  intros y Hy [_ Ey]%bool_decide_eq_true. apply (NoDup_fmap_eq dbg_launch_code_hash (debug_sessions c)); [done|done|done|congruence].
Qed.

Lemma expiry_not_reached actor r x c : xc_now x < dbg_expires_at r -> expire_if_needed actor r x c = (r, c).
Proof. intros H. unfold expire_if_needed. rewrite decide_False by (intros [_ ?]; lia). done. Qed.

Definition fresh_event (st : stamps) (c : debug_db) : Prop := st_event_id st ∉ oe_id <$> outbox (ctl c).

(** The exchange of a session whose lease is its own goes through. *)
Lemma exchange_works actor code token x lease_at now st c r : debug_wf c -> require_debug_actor actor = Ok tt ->
  tget dbg_id (dbg_id r) (debug_sessions c) = Some r -> dbg_tenant_id r = actor_tenant_id actor ->
  dbg_launch_code_hash r = token_digest code -> dbg_status r = PENDING_EXCHANGE -> dbg_launch_code_used_at r = None ->
  may_act actor r -> (exists l, require_active_lease actor r lease_at c = Ok l) -> xc_now x < dbg_expires_at r -> fresh_event st c ->
  token_digest token ∉ omap dbg_relay_token_hash (debug_sessions c) ->
  exists c', exchange actor code token x lease_at now st c = Ok ((exchanged_row token now r, token, debug_relay_url settings), c')
    /\ debug_wf c' /\ debug_sessions c' = tput dbg_id (exchanged_row token now r) (debug_sessions c)
    /\ leases (core (ctl c')) = leases (core (ctl c)).
Proof.
  intros Hw Ha Hg Ht Hh Hp Hu Hm [l Hl] Hx Hev Htok. pose proof Hg as [Hin _]%tget_Some. pose proof Hw as [Hws Hwd].
  set (row := exchanged_row token now r).
  set (c2 := with_ctl (fun c => session_event actor "debug.session.grant_requested" row
                         (grant_payload row ++ [("relayToken", JStr token)]) st
                         (session_audit actor "debug.session.exchanged" row [] st c)) (put_session row c)).
  assert (exchange actor code token x lease_at now st c = Ok ((row, token, debug_relay_url settings), c2)) as He.
  { unfold DebugSessions.exchange. rewrite Ha. destruct (reported_indexes actor "debug.session.exchanged" "debug.session.grant_requested" row []
      (grant_payload row ++ [("relayToken", JStr token)]) st (ctl c)) as [I1 I2]; [apply Hws..|done|].
    apply debug_unit_of_work_intro; [|done|done|].
    - rewrite (launch_code_found actor c r code) by done. rewrite expiry_not_reached by done.
      rewrite decide_False by (rewrite Hp; auto). rewrite decide_False by (rewrite Hu; by intros []). rewrite decide_False by auto.
      by rewrite Hl.
    - apply (put_session_indexes c _ r row); [done|done|done| |done|done]. right. by exists (token_digest token). }
  exists c2. split; [exact He|]. split; [|done]. by eapply debug_step_wf; [eapply dstep_exchange|].
Qed.

Lemma heartbeat_works actor k token body x now st c r : debug_wf c -> require_debug_actor actor = Ok tt ->
  tget dbg_id k (debug_sessions c) = Some r -> dbg_tenant_id r = actor_tenant_id actor ->
  dbg_status r = ACTIVE -> dbg_relay_token_hash r = Some (token_digest token) -> token_live r (rc_token_at x) ->
  (exists l, require_active_lease actor r (rc_lease_at x) c = Ok l) -> xc_now (rc_expiry x) < dbg_expires_at r -> fresh_event st c ->
  exists c', heartbeat actor k token body x now st c = Ok (heartbeat_row body now r, c').
Proof.
  intros [Hws Hwd] Ha Hg Ht Hact Hh Hlive [l Hl] Hx Hev. pose proof Hg as [_ Hid]%tget_Some. set (row := heartbeat_row body now r).
  set (payload := [("sessionId", JStr (dbg_id row)); ("stage", JStr (dh_stage body)); ("event", JStr (dh_event body));
                   ("evidenceRefs", JArr (JStr <$> dh_evidence_refs body))]).
  set (metadata := [("evidence_count", JInt (Z.of_nat (length (dh_evidence_refs body))))]).
  exists (with_ctl (fun c => session_event actor "debug.session.heartbeat" row payload st
                       (session_audit actor "debug.session.heartbeat" row metadata st c)) (put_session row c)).
  destruct (reported_indexes actor "debug.session.heartbeat" "debug.session.heartbeat" row metadata payload st (ctl c)) as [I1 I2];
    [apply Hws..|done|]. unfold heartbeat. rewrite Ha. apply debug_unit_of_work_intro; [|done|done|].
  - unfold session, one_for_tenant. rewrite Hg, decide_False by auto. unfold authorize_relay. rewrite expiry_not_reached by done.
    rewrite decide_False by auto. rewrite Hh. rewrite decide_False by tauto. rewrite decide_False by tauto. by rewrite Hl.
  - apply (put_session_indexes c _ r row); [done|by rewrite Hid|done|by left|done|done].
Qed.

(** C21. A created session works. Its creator can exchange the launch code and
    then use the relay token for heartbeats, until the session expires; all it
    takes is new event identifiers and a token whose digest is not in use. *)
Theorem created_session_works actor body i c r code c' token x lease_at now st
    (Hw : debug_wf c) (H : create actor body i c = Ok ((r, code), c'))
    (Hx : xc_now x < dbg_expires_at r) (Hl : lease_at < dbg_expires_at r) (Hev : fresh_event st c')
    (Htok : token_digest token ∉ omap dbg_relay_token_hash (debug_sessions c')) :
  exists c2, exchange actor code token x lease_at now st c' = Ok ((exchanged_row token now r, token, debug_relay_url settings), c2)
    /\ forall report y now2 st2, xc_now (rc_expiry y) < dbg_expires_at r -> rc_token_at y < dbg_expires_at r ->
         rc_lease_at y < dbg_expires_at r -> fresh_event st2 c2 ->
         exists c3, heartbeat actor (dbg_id r) token report y now2 st2 c2 = Ok (heartbeat_row report now2 (exchanged_row token now r), c3).
Proof.
  assert (debug_wf c') as Hw' by (by eapply debug_step_wf; [eapply dstep_create|]).
  assert (require_debug_actor actor = Ok tt) as Ha.
  { unfold DebugSessions.create in H. by destruct (require_debug_actor actor) as [[]|]. }
  apply create_created in H as (-> & dev & e & caps & [H1 H2 H3 H4 H5 H6 H7 Er H8 _ _ H11 _]).
  assert (r ∈ debug_sessions c') as Hin by (rewrite H8; apply elem_of_app; right; by left).
  assert (tget dbg_id (dbg_id r) (debug_sessions c') = Some r) as Hg by (by apply tget_In; [apply (dwf_indexes _ Hw')|]).
  assert (forall c1 at_ r', leases (core (ctl c1)) = leases (core (ctl c')) -> session_frozen r' = session_frozen r ->
    at_ < dbg_expires_at r -> exists l, require_active_lease actor r' at_ c1 = Ok l) as Hlease.
  { intros c1 at_ r' E F Hat. eexists. unfold session_frozen in F. injection F as F1 _ _ F4 F5 F6 _ _ _ _ _ _ _.
    apply require_active_lease_intro; [rewrite F4, E, H11, Er; apply lookup_insert_eq|done| |].
    - unfold own_lease. rewrite F1, F5, F6, Er. done.
    - split; [done|]. cbn. rewrite Er in Hat. exact Hat. }
  destruct (exchange_works actor (cr_launch_code i) token x lease_at now st c' r) as (c2 & E & Hw2 & Es & El); 
    [done|done|done|by rewrite Er|by rewrite Er|by rewrite Er|by rewrite Er|by rewrite Er; left|by apply Hlease|done|done|done|].
  exists c2. split; [exact E|]. intros report y now2 st2 Y1 Y2 Y3 Hev2.
  apply heartbeat_works; try done; [|by rewrite Er|by apply Hlease].
  rewrite Es. change (dbg_id r) with (dbg_id (exchanged_row token now r)). apply tget_tput_same.
  exact (tget_key_In dbg_id _ _ _ Hg).
Qed.
End Machine.

(** ** Late use

    A handler that raises leaves the database as it was, so an expiry that
    [exchange], [heartbeat] or [add_evidence] notices is not recorded: the
    session keeps its status, its lease stays and no event tells the hub. *)
Lemma late_exchange_is_rolled_back settings actor code token x lease_at now st c r :
  require_debug_actor actor = Ok tt -> session_by_launch_hash actor (token_digest code) c = Ok r ->
  dbg_expires_at r <= xc_now x -> ~ over r ->
  let answer := exchange settings actor code token x lease_at now st c in
  answer = Err (ConflictError "debug session cannot be exchanged while EXPIRED") /\ committed c answer = c.
Proof.
  intros Ha Hr Hx Ho. cbv zeta. enough (exchange settings actor code token x lease_at now st c
    = Err (ConflictError "debug session cannot be exchanged while EXPIRED")) as -> by done.
  unfold exchange, debug_unit_of_work. rewrite Ha, Hr.
  destruct (expire_if_needed_cases actor r x c) as [E|(_ & _ & c1 & -> & _)]; [exfalso|by rewrite decide_True].
  unfold expire_if_needed in E. rewrite decide_True in E by done. apply (f_equal fst) in E. cbn [fst] in E. apply Ho. rewrite <- E. apply expired_over.
Qed.

Lemma late_heartbeat_is_rolled_back actor k token body x now st c r :
  require_debug_actor actor = Ok tt -> session actor k c = Ok r -> dbg_expires_at r <= xc_now (rc_expiry x) -> ~ over r ->
  let answer := heartbeat actor k token body x now st c in
  answer = Err (ConflictError "debug relay is unavailable while session is EXPIRED") /\ committed c answer = c.
Proof.
  intros Ha Hr Hx Ho. cbv zeta. enough (heartbeat actor k token body x now st c
    = Err (ConflictError "debug relay is unavailable while session is EXPIRED")) as -> by done.
  unfold heartbeat, debug_unit_of_work. rewrite Ha, Hr. unfold authorize_relay.
  destruct (expire_if_needed_cases actor r (rc_expiry x) c) as [E|(_ & _ & c1 & -> & _)]; [exfalso|by rewrite decide_True].
  unfold expire_if_needed in E. rewrite decide_True in E by done. apply (f_equal fst) in E. cbn [fst] in E. apply Ho. rewrite <- E. apply expired_over.
Qed.

(** ** A session from creation to revocation *)

Definition demo_settings : debug_settings := mkDebugSettings ["https://studio.example"] "wss://hub.example/debug".
Definition demo_request : DebugSessionCreate :=
  mkDebugCreate "device" ["view.frame"; "input.tap"] 600 "look at the login screen" (Some "https://studio.example/back").
Definition debug_stamp (n : string) : stamps := mkStamps n 100 100.
Definition demo_inputs : create_inputs := mkCreateInputs "launch-code-0123456789" "session" "lease" 100 100 (debug_stamp "e1").
Definition early : expiry_clocks := mkExpiryClocks 200 200 200 (debug_stamp "x").
Definition early_relay : relay_clocks := mkRelayClocks early 200 200.
Definition idle_db : debug_db :=
  mkDebugDb (service (empty_db <| devices := {["device" := sample_device <| d_maintenance := true |>]} |>)) [] [].

Definition after {A} (r : result error (A * debug_db)) : debug_db := committed idle_db r.
Definition any_netloc : string -> bool := fun _ => true.
Definition run_create := create any_netloc demo_settings sample_operator demo_request demo_inputs idle_db.
Definition run_exchange :=
  exchange demo_settings sample_operator "launch-code-0123456789" "relay-token" early 200 200 (debug_stamp "e2") (after run_create).
Definition demo_heartbeat : DebugHeartbeat := mkDebugHeartbeat "login" "tapped" None [].
Definition run_heartbeat :=
  heartbeat sample_operator "session" "relay-token" demo_heartbeat early_relay 200 (debug_stamp "e3") (after run_exchange).
Definition demo_evidence : DebugEvidenceCreate :=
  mkEvidenceCreate "SCREENSHOT" (hexdigest "picture") "s3://bucket/picture" [("screen", JObj [("width", JInt 1080)])].
Definition run_evidence :=
  add_evidence any_netloc no_float sample_operator "session" "relay-token" demo_evidence "evidence" early_relay 200 (debug_stamp "e4") (after run_heartbeat).
Definition run_revoke := revoke sample_operator "session" "done" 300 300 300 (debug_stamp "e5") (after run_evidence).

Definition demo_created : debug_db := Eval vm_compute in after run_create.
Definition demo_exchanged : debug_db := Eval vm_compute in after run_exchange.
Definition demo_heard : debug_db := Eval vm_compute in after run_heartbeat.
Definition demo_proved : debug_db := Eval vm_compute in after run_evidence.
Definition demo_revoked : debug_db := Eval vm_compute in after run_revoke.

(** Metadata with a prohibited word below a list is refused. *)
Example unsafe_metadata_refused :
  inspect_safe_metadata (JObj [("steps", JArr [JObj [("Pass_Word", JNull)]])]) "" = Err (ValidationError "unsafe evidence metadata field is prohibited: Pass_Word").
Proof. vm_compute. reflexivity. Qed.

Definition state_of {A} (r : result error (A * debug_db)) : option debug_db := match r with Ok (_, c) => Some c | Err _ => None end.
Lemma state_of_Ok {A} (r : result error (A * debug_db)) c : state_of r = Some c -> exists a, r = Ok (a, c).
Proof. destruct r as [[a c0]|]; cbn; [intros [= ->]; by exists a|done]. Qed.

Lemma demo_create_Ok : exists r code, run_create = Ok ((r, code), demo_created) /\ dbg_id r = "session".
Proof. eexists _, _. split; vm_compute; reflexivity. Qed.
Lemma demo_exchange_Ok : exists r url, exchange demo_settings sample_operator "launch-code-0123456789" "relay-token" early 200 200 (debug_stamp "e2") demo_created
  = Ok ((r, "relay-token", url), demo_exchanged) /\ dbg_id r = "session".
Proof. eexists _, _. split; vm_compute; reflexivity. Qed.
Lemma demo_heartbeat_Ok : exists r,
  heartbeat sample_operator "session" "relay-token" demo_heartbeat early_relay 200 (debug_stamp "e3") demo_exchanged = Ok (r, demo_heard).
Proof. apply state_of_Ok. vm_compute. reflexivity. Qed.
Lemma demo_evidence_Ok : exists r,
  add_evidence any_netloc no_float sample_operator "session" "relay-token" demo_evidence "evidence" early_relay 200 (debug_stamp "e4") demo_heard = Ok (r, demo_proved).
Proof. apply state_of_Ok. vm_compute. reflexivity. Qed.
Lemma demo_revoke_Ok : exists r, revoke sample_operator "session" "done" 300 300 300 (debug_stamp "e5") demo_proved = Ok (r, demo_revoked).
Proof. apply state_of_Ok. vm_compute. reflexivity. Qed.

Lemma idle_db_wf : debug_wf idle_db.
Proof. split; [compute_well_formed|apply (bool_decide_unpack _); vm_compute; exact I]. Qed.

Section Runs.
Abbreviation execution := (debug_execution no_builtin [] no_recipe any_netloc no_float demo_settings).
Abbreviation step := (debug_step no_builtin [] no_recipe any_netloc no_float demo_settings).

Lemma step_created : step (L_created "session") idle_db demo_created.
Proof. destruct demo_create_Ok as (r & code & H & E). rewrite <- E. by eapply dstep_create. Qed.
Lemma step_exchanged : step (L_exchanged "session" "relay-token") demo_created demo_exchanged.
Proof. destruct demo_exchange_Ok as (r & url & H & E). rewrite <- E. by eapply dstep_exchange. Qed.
Lemma step_heard : step (L_relayed "session" "relay-token" 200) demo_exchanged demo_heard.
Proof. destruct demo_heartbeat_Ok as (r & H). exact (dstep_heartbeat _ _ _ _ _ _ _ _ _ _ _ _ _ _ _ _ H). Qed.
Lemma step_proved : step (L_relayed "session" "relay-token" 200) demo_heard demo_proved.
Proof. destruct demo_evidence_Ok as (r & H). exact (dstep_evidence _ _ _ _ _ _ _ _ _ _ _ _ _ _ _ _ _ H). Qed.
Lemma step_revoked : step (L_revoked "session") demo_proved demo_revoked.
Proof. destruct demo_revoke_Ok as (r & H). exact (dstep_revoke _ _ _ _ _ _ _ _ _ _ _ _ _ _ _ _ H). Qed.

Lemma run_to_exchanged : execution idle_db [L_created "session"; L_exchanged "session" "relay-token"] demo_exchanged.
Proof.
  apply (debug_snoc _ _ _ _ _ _ _ [L_created "session"] demo_created); [|exact step_exchanged].
  apply (debug_snoc _ _ _ _ _ _ _ [] idle_db); [constructor|exact step_created].
Qed.
Definition whole_run : list dlabel :=
  [L_created "session"; L_exchanged "session" "relay-token"; L_relayed "session" "relay-token" 200;
   L_relayed "session" "relay-token" 200; L_revoked "session"].
Lemma run_to_revoked : execution idle_db whole_run demo_revoked.
Proof.
  apply (debug_snoc _ _ _ _ _ _ _ (take 4 whole_run) demo_proved); [|exact step_revoked].
  apply (debug_snoc _ _ _ _ _ _ _ (take 3 whole_run) demo_heard); [|exact step_proved].
  apply (debug_snoc _ _ _ _ _ _ _ (take 2 whole_run) demo_exchanged); [|exact step_heard]. exact run_to_exchanged.
Qed.

Lemma relay_needs_its_exchange_witness : exists t0, L_exchanged "session" t0 ∈ take 2 whole_run /\ token_digest "relay-token" = token_digest t0.
Proof. exact (proj1 (proj2 (relay_needs_its_exchange _ _ _ _ _ _ _ _ _ _ _ _ _ idle_db_wf eq_refl run_to_exchanged step_heard))). Defined.


Lemma evidence_is_safe_witness : debug_evidence demo_revoked <> [] /\ Forall (safe_evidence any_netloc no_float) (debug_evidence demo_revoked).
Proof. split; [done|]. exact (proj1 (evidence_is_safe _ _ _ _ _ _ _ _ _ idle_db_wf eq_refl run_to_revoked)). Defined.

Lemma create_borrows_the_device_witness : exists r, debug_sessions demo_created = [r] /\ holds_lease r 150 demo_created.
Proof.
  destruct demo_create_Ok as (r & code & H & _).
  assert (parse_create demo_request = Some demo_request) as Hp by (vm_compute; reflexivity).
  destruct (create_borrows_the_device no_builtin any_netloc demo_settings sample_operator demo_request demo_inputs idle_db r code demo_created
    demo_request Hp idle_db_wf H) as (_ & _ & Hl & Hx & _ & _ & _ & _ & Hs).
  exists r. split; [exact Hs|]. apply Hl. assert (cr_now demo_inputs < dbg_expires_at r) as He by apply Hx. revert He. change (cr_now demo_inputs) with 100.
  assert (debug_sessions demo_created = [r]) as E by exact Hs. vm_compute in E. injection E as <-. cbn. lia.
Defined.

Lemma demo_event_fresh : "e2" ∉ oe_id <$> outbox (ctl demo_created).
Proof. apply not_in_computed. vm_compute. reflexivity. Qed.
Lemma demo_token_fresh : token_digest "relay-token" ∉ omap dbg_relay_token_hash (debug_sessions demo_created).
Proof. apply not_in_computed. vm_compute. reflexivity. Qed.

Lemma created_session_works_witness : exists r c2, debug_sessions demo_created = [r]
  /\ exchange demo_settings sample_operator (cr_launch_code demo_inputs) "relay-token" early 200 200 (debug_stamp "e2") demo_created
     = Ok ((exchanged_row "relay-token" 200 r, "relay-token", debug_relay_url demo_settings), c2).
Proof.
  destruct demo_create_Ok as (r & code & H & _). pose proof H as [-> _]%create_created.
  assert (debug_sessions demo_created = [r]) as E.
  { pose proof H as (_ & dev & e & caps & Hc)%create_created. exact (cd_sessions _ _ _ _ _ _ _ _ _ Hc). }
  assert (100 + 600 * 1000000 = dbg_expires_at r) as Ex by (vm_compute in E; injection E as <-; reflexivity).
  destruct (created_session_works no_builtin [] no_recipe any_netloc no_float demo_settings sample_operator demo_request demo_inputs idle_db r
    (cr_launch_code demo_inputs) demo_created "relay-token" early 200 200 (debug_stamp "e2") idle_db_wf H) as (c2 & Hc2 & _).
  - rewrite <- Ex. cbn. lia.
  - rewrite <- Ex. lia.
  - exact demo_event_fresh.
  - exact demo_token_fresh.
  - exists r, c2. split; [exact E|exact Hc2].
Defined.
End Runs.
