(* ===== verification/EdgeMessages.v ===== *)
(** * The edge protocol: edge-control.proto

    The messages an edge and the hub exchange, with the fields the code reads;
    [rest] stands for the others. A message is compared as a value: two
    messages serialize alike exactly when they are equal. [EdgeToCloud] and
    [CloudToEdge] are a sequence and the body that is set, if any. *)

From stdpp Require Import base gmap strings list.
From Stdlib Require Import ZArith.
From S2P Require Import Prelude.

Open Scope Z_scope.

Record artifact := mkArtifact {
  art_kind : string; art_sha256 : string; art_size : Z; art_object_key : string; art_file_name : string;
}.
#[export] Instance artifact_eq_dec : EqDecision artifact.
Proof. solve_decision. Defined.

Record start_command := mkStart {
  sc_command_id : string; sc_task_run_id : string; sc_device_id : string; sc_lease_id : string;
  sc_fencing_token : Z; sc_command_type : string; sc_artifacts : list artifact; sc_deadline : option Z;
  sc_rest : string;
}.
#[export] Instance start_command_eq_dec : EqDecision start_command.
Proof. solve_decision. Defined.

Record command_ack := mkCommandAck { ack_command_id : string; ack_state : string; ack_error_code : string; ack_detail : string }.
#[export] Instance command_ack_eq_dec : EqDecision command_ack.
Proof. solve_decision. Defined.

Record debug_grant := mkDebugGrant {
  dg_session_id : string; dg_device_id : string; dg_expires_at : Z; dg_capabilities : list string;
  dg_lease_id : string; dg_fencing_token : Z; dg_relay_token : string;
}.
#[export] Instance debug_grant_eq_dec : EqDecision debug_grant.
Proof. solve_decision. Defined.

Record relay_frame := mkRelayFrame {
  rf_session_id : string; rf_device_id : string; rf_request_id : string; rf_capability : string; rf_kind : string;
  rf_payload : string; rf_end : bool;
}.
#[export] Instance relay_frame_eq_dec : EqDecision relay_frame.
Proof. solve_decision. Defined.

Record confirmation_required := mkConfirmation {
  cf_confirmation_id : string; cf_command_id : string; cf_task_run_id : string; cf_device_id : string;
  cf_title : string; cf_risk_level : string; cf_expires_at : Z; cf_rest : string;
}.
#[export] Instance confirmation_required_eq_dec : EqDecision confirmation_required.
Proof. solve_decision. Defined.

(** The bodies of [EdgeToCloud]; [EB_other] names the field that is set
    (heartbeat, artifact_delivery). *)
Inductive edge_body : Type :=
| EB_hello (edge_id : string) (last_cloud_sequence_acked : Z)
| EB_command_ack (ack : command_ack)
| EB_task_event (command_id task_run_id step state : string)
| EB_confirmation_required (required : confirmation_required)
| EB_operator_action (action_id device_id command_id confirmation_id action : string)
| EB_relay_frame (frame : relay_frame)
| EB_evidence_ready (command_id evidence_id kind sha256 : string) (size : Z)
| EB_other (field : string) (payload : string).
#[export] Instance edge_body_eq_dec : EqDecision edge_body.
Proof. solve_decision. Defined.

Inductive cloud_body : Type :=
| CB_hello (last_edge_sequence_acked : Z)
| CB_start (command : start_command)
| CB_cancel (command_id : string)
| CB_debug_grant (grant : debug_grant)
| CB_revocations (revoked_fingerprints : list string)
| CB_confirmation_resolution (confirmation_id command_id : string) (approved : bool)
| CB_debug_revoke (session_id device_id reason : string)
| CB_relay_frame (frame : relay_frame).
#[export] Instance cloud_body_eq_dec : EqDecision cloud_body.
Proof. solve_decision. Defined.

Abbreviation EdgeToCloud := (Z * option edge_body)%type.
Abbreviation CloudToEdge := (Z * option cloud_body)%type.
