(* ===== verification/EdgeSpool.v ===== *)
(** * The edge spool: spool.py of the edge gateway

    The durable replay state of an edge: a SQLite database whose every write
    is one transaction. A table is the list of its rows in rowid order; an
    operation that raises leaves the spool as it was. A serialized protobuf
    message is the message itself: two messages serialize alike exactly when
    they are equal. [at_] is the clock. *)

From stdpp Require Import base gmap strings list.
From Stdlib Require Import ZArith Lia.
From S2P Require Import Prelude PyStd EdgeMessages.

Open Scope Z_scope.

(** ** The stored messages *)

(** A stored message: its sequence and its body. *)
Abbreviation edge_message := (Z * edge_body)%type.

(** ** The tables *)

Inductive command_state : Type := RECEIVED | STARTED | CMD_SUCCEEDED | CMD_FAILED | CMD_CANCELED | BLOCKED_HARDWARE.
#[export] Instance command_state_eq_dec : EqDecision command_state.
Proof. solve_decision. Defined.

Definition command_state_value (s : command_state) : string :=
  match s with
  | RECEIVED => "RECEIVED" | STARTED => "STARTED" | CMD_SUCCEEDED => "SUCCEEDED" | CMD_FAILED => "FAILED"
  | CMD_CANCELED => "CANCELED" | BLOCKED_HARDWARE => "BLOCKED_HARDWARE"
  end.
Definition all_command_states : list command_state :=
  [RECEIVED; STARTED; CMD_SUCCEEDED; CMD_FAILED; CMD_CANCELED; BLOCKED_HARDWARE].
Definition command_state_of (v : string) : option command_state :=
  head (filter (fun s => command_state_value s = v) all_command_states).

Record command_row := mkCommandRow { cr_serialized : start_command; cr_state : command_state }.
#[export] Instance command_row_eta : Eta command_row := fun r => mkCommandRow (cr_serialized r) (cr_state r).
Definition cr_id (r : command_row) : string := sc_command_id (cr_serialized r).

Record outbound_row := mkOutbound { ob_sequence : Z; ob_payload : edge_body; ob_priority : Z; ob_acked : bool }.
#[export] Instance outbound_row_eta : Eta outbound_row :=
  fun r => mkOutbound (ob_sequence r) (ob_payload r) (ob_priority r) (ob_acked r).

Record grant_row := mkGrantRow { gr_payload : debug_grant; gr_created_at : Z; gr_revoked_at : option Z }.
#[export] Instance grant_row_eta : Eta grant_row :=
  fun r => mkGrantRow (gr_payload r) (gr_created_at r) (gr_revoked_at r).
Definition gr_session_id (r : grant_row) : string := dg_session_id (gr_payload r).

Inductive evidence_state : Type := EV_PENDING | EV_RETRY | EV_UPLOADED.
#[export] Instance evidence_state_eq_dec : EqDecision evidence_state.
Proof. solve_decision. Defined.
Record evidence_row := mkEvidenceRow {
  er_evidence_id : string; er_command_id : string; er_kind : string; er_path : string; er_sha256 : string;
  er_size : Z; er_priority : Z; er_state : evidence_state; er_attempts : Z;
}.
#[export] Instance evidence_row_eta : Eta evidence_row := fun r => mkEvidenceRow (er_evidence_id r)
  (er_command_id r) (er_kind r) (er_path r) (er_sha256 r) (er_size r) (er_priority r) (er_state r) (er_attempts r).

Record enrollment_row := mkEnrollmentRow {
  en_code_digest : string; en_device_id : string; en_tenant_name : string; en_site_name : string;
  en_consumed_at : option Z;
}.
#[export] Instance enrollment_row_eta : Eta enrollment_row := fun r => mkEnrollmentRow (en_code_digest r)
  (en_device_id r) (en_tenant_name r) (en_site_name r) (en_consumed_at r).

Record binding_row := mkBindingRow { br_token_digest : string; br_device_id : string; br_revoked_at : option Z }.
#[export] Instance binding_row_eta : Eta binding_row :=
  fun r => mkBindingRow (br_token_digest r) (br_device_id r) (br_revoked_at r).

Record delivery_row := mkDeliveryRow {
  dr_command_id : string; dr_task_run_id : string; dr_device_id : string; dr_artifact_id : string; dr_kind : string; dr_state : string;
  dr_bytes_received : Z; dr_size_bytes : Z; dr_error_code : string; dr_observed_at : Z;
}.
#[export] Instance delivery_row_eta : Eta delivery_row := fun r => mkDeliveryRow (dr_command_id r) (dr_task_run_id r) (dr_device_id r)
  (dr_artifact_id r) (dr_kind r) (dr_state r) (dr_bytes_received r) (dr_size_bytes r) (dr_error_code r) (dr_observed_at r).

Record spool := mkSpool {
  sp_commands : list command_row;
  sp_fences : gmap string (Z * string);
  sp_outbound : list outbound_row;
  sp_last_edge : Z;
  sp_last_edge_acked : Z;
  sp_last_cloud : Z;
  sp_grants : list grant_row;
  sp_evidence : list evidence_row;
  sp_enrollments : list enrollment_row;
  sp_bindings : list binding_row;
  sp_deliveries : list delivery_row;
}.
#[export] Instance spool_eta : Eta spool := fun s => mkSpool (sp_commands s) (sp_fences s) (sp_outbound s)
  (sp_last_edge s) (sp_last_edge_acked s) (sp_last_cloud s) (sp_grants s) (sp_evidence s) (sp_enrollments s)
  (sp_bindings s) (sp_deliveries s).

(** [_create_schema] on a new file. *)
Definition new_spool : spool := mkSpool [] ∅ [] 0 0 0 [] [] [] [] [].

Inductive spool_error : Type :=
| SpoolError (detail : string)
| StaleFencingToken (detail : string)
| SqliteIntegrityError.

(** ** Commands and fences *)

Definition find_command (command_id : string) (s : spool) : option command_row := tget cr_id command_id (sp_commands s).

Definition below_fence (token current : Z) : string :=
  "fencing token " +:+ py_str_int token +:+ " is below current token " +:+ py_str_int current.

(** The fence check of [accept_command]. *)
Definition fence_error (command : start_command) (fence : option (Z * string)) : option spool_error :=
  match fence with
  | None => None
  | Some (current, lease_id) =>
      if decide (sc_fencing_token command < current)
      then Some (StaleFencingToken (below_fence (sc_fencing_token command) current))
      else if decide (sc_fencing_token command = current /\ sc_lease_id command <> lease_id)
      then Some (StaleFencingToken "current fencing token belongs to another lease")
      else None
  end.

Definition raised_fence (command : start_command) (fence : option (Z * string)) : Z * string :=
  match fence with
  | Some (current, lease_id) =>
      if decide (sc_fencing_token command > current) then (sc_fencing_token command, sc_lease_id command)
      else (current, lease_id)
  | None => (sc_fencing_token command, sc_lease_id command)
  end.

(** [AcceptedCommand]: whether it was inserted, and its state. *)
Definition accept_command (command : start_command) (s : spool) : result spool_error ((bool * command_state) * spool) :=
  match find_command (sc_command_id command) s with
  | Some existing =>
      if decide (cr_serialized existing <> command)
      then Err (SpoolError "command_id was reused with different content")
      else Ok ((false, cr_state existing), s)
  | None =>
      let fence := sp_fences s !! sc_device_id command in
      match fence_error command fence with
      | Some e => Err e
      | None =>
          Ok ((true, RECEIVED),
              s <| sp_fences := <[sc_device_id command := raised_fence command fence]> (sp_fences s) |>
                <| sp_commands := sp_commands s ++ [mkCommandRow command RECEIVED] |>)
      end
  end.

Definition assert_current_fence (device_id lease_id : string) (fencing_token : Z) (s : spool) : result spool_error () :=
  if decide (sp_fences s !! device_id = Some (fencing_token, lease_id)) then Ok tt
  else Err (StaleFencingToken "command no longer owns the current device fence").

Definition get_command_state (command_id : string) (s : spool) : option command_state :=
  cr_state <$> find_command command_id s.

Definition set_command_state (command_id state : string) (s : spool) : result spool_error spool :=
  match command_state_of state with
  | None => Err (SpoolError ("unsupported command state: " +:+ state))
  | Some st =>
      match find_command command_id s with
      | None => Err (SpoolError "unknown command")
      | Some row => Ok (s <| sp_commands := tput cr_id (row <| cr_state := st |>) (sp_commands s) |>)
      end
  end.

(** The newest command of a device. *)
Definition command_for_device (device_id : string) (s : spool) : option (start_command * command_state) :=
  (fun r => (cr_serialized r, cr_state r))
    <$> last (filter (fun r => sc_device_id (cr_serialized r) = device_id) (sp_commands s)).

(** ** The outbound queue *)

(** [message.WhichOneof("body") in {None, "hello"}]. *)
Definition is_sequenced (body : option edge_body) : option edge_body :=
  match body with Some (EB_hello _ _) | None => None | Some b => Some b end.

Definition append_outbound (body : edge_body) (priority : Z) (s : spool) : Z * spool :=
  let sequence := sp_last_edge s + 1 in
  (sequence, s <| sp_outbound := sp_outbound s ++ [mkOutbound sequence body priority false] |> <| sp_last_edge := sequence |>).

Definition enqueue_edge_message (body : option edge_body) (priority : Z) (s : spool) : result spool_error (Z * spool) :=
  match is_sequenced body with
  | None => Err (SpoolError "only sequenced Edge events may enter the spool")
  | Some b => Ok (append_outbound b priority s)
  end.

Definition cloud_gap (expected got : Z) : spool_error :=
  SpoolError ("cloud sequence gap: expected " +:+ py_str_int expected +:+ ", got " +:+ py_str_int got).

(** Consuming a cloud message and queueing its answer is one transaction. *)
Definition record_cloud_with_edge_message (cloud_sequence : Z) (body : option edge_body) (priority : Z) (s : spool)
    : result spool_error (Z * spool) :=
  match is_sequenced body with
  | None => Err (SpoolError "only sequenced Edge events may enter the spool")
  | Some b =>
      if decide (cloud_sequence <> sp_last_cloud s + 1) then Err (cloud_gap (sp_last_cloud s + 1) cloud_sequence)
      else let '(edge_sequence, s') := append_outbound b priority s in
           Ok (edge_sequence, s' <| sp_last_cloud := cloud_sequence |>)
  end.

Definition record_cloud_sequence (sequence : Z) (s : spool) : result spool_error (bool * spool) :=
  if decide (sequence < 1) then Err (SpoolError "cloud sequence must be positive")
  else if decide (sequence <= sp_last_cloud s) then Ok (false, s)
  else if decide (sequence <> sp_last_cloud s + 1) then Err (cloud_gap (sp_last_cloud s + 1) sequence)
  else Ok (true, s <| sp_last_cloud := sequence |>).

Definition replay_edge_messages (after_sequence : Z) (s : spool) : list edge_message :=
  (fun r => (ob_sequence r, ob_payload r))
    <$> filter (fun r => ob_sequence r > after_sequence /\ ob_acked r = false) (sp_outbound s).

Definition ack_row (through : Z) (r : outbound_row) : outbound_row :=
  if decide (ob_sequence r <= through) then r <| ob_acked := true |> else r.

Definition acknowledge_edge_sequence (through : Z) (s : spool) : result spool_error spool :=
  if decide (through > sp_last_edge s) then Err (SpoolError "cloud acknowledged an Edge sequence that was never emitted")
  else if decide (through <= sp_last_edge_acked s) then Ok s
  else Ok (s <| sp_outbound := ack_row through <$> sp_outbound s |> <| sp_last_edge_acked := through |>).

(** ** Debug grants *)

Definition put_debug_grant (grant : debug_grant) (at_ : Z) (s : spool) : result spool_error spool :=
  match tget gr_session_id (dg_session_id grant) (sp_grants s) with
  | Some existing =>
      if decide (gr_payload existing <> grant)
      then Err (SpoolError "debug session ID was reused with different grant content")
      else if decide (gr_revoked_at existing <> None)
      then Err (SpoolError "revoked debug session cannot be granted again")
      else Ok s
  | None => Ok (s <| sp_grants := sp_grants s ++ [mkGrantRow grant at_ None] |>)
  end.

Definition revoke_grant_row (session_id : string) (at_ : Z) (r : grant_row) : grant_row :=
  if decide (gr_session_id r = session_id)
  then r <| gr_revoked_at := Some (default at_ (gr_revoked_at r)) |> else r.
Definition revoke_debug_grant (session_id : string) (at_ : Z) (s : spool) : spool :=
  s <| sp_grants := revoke_grant_row session_id at_ <$> sp_grants s |>.

Definition older_grant (a b : grant_row) : bool := bool_decide (gr_created_at a <= gr_created_at b).
Definition active_debug_grants (s : spool) : list debug_grant :=
  gr_payload
    <$> isort older_grant (filter (fun r => gr_revoked_at r = None) (sp_grants s)).

(** ** Evidence *)

Definition add_evidence (record : evidence_row) (s : spool) : result spool_error spool :=
  match tget er_evidence_id (er_evidence_id record) (sp_evidence s) with
  | Some _ => Err SqliteIntegrityError
  | None => Ok (s <| sp_evidence := sp_evidence s ++ [record <| er_state := EV_PENDING |>] |>)
  end.

Definition evidence_first (a b : evidence_row) : bool := bool_decide (er_priority a <= er_priority b).
Definition pending_evidence (limit : nat) (s : spool) : list evidence_row :=
  take limit (isort evidence_first (filter (fun r => er_state r = EV_PENDING \/ er_state r = EV_RETRY) (sp_evidence s))).

Definition on_evidence (evidence_id : string) (f : evidence_row -> evidence_row) (s : spool) : spool :=
  s <| sp_evidence := (fun r => if decide (er_evidence_id r = evidence_id) then f r else r) <$> sp_evidence s |>.
Definition mark_evidence_uploaded (evidence_id : string) : spool -> spool :=
  on_evidence evidence_id (fun r => r <| er_state := EV_UPLOADED |>).
Definition mark_evidence_retry (evidence_id : string) : spool -> spool :=
  on_evidence evidence_id (fun r => r <| er_state := EV_RETRY |> <| er_attempts := er_attempts r + 1 |>).

(** ** Companion enrollment *)

(** [INSERT OR IGNORE]. *)
Definition issue_companion_enrollment (code_digest device_id tenant_name site_name : string) (s : spool) : spool :=
  match tget en_code_digest code_digest (sp_enrollments s) with
  | Some _ => s
  | None => s <| sp_enrollments := sp_enrollments s ++ [mkEnrollmentRow code_digest device_id tenant_name site_name None] |>
  end.

(** The upsert of a binding on its device; the token digest is the primary
    key, so a digest another device holds fails the statement. *)
Definition bind_device (token_digest device_id : string) (s : spool) : result spool_error spool :=
  if decide (Exists (fun r => br_token_digest r = token_digest /\ br_device_id r <> device_id) (sp_bindings s))
  then Err SqliteIntegrityError
  else match tget br_device_id device_id (sp_bindings s) with
       | Some _ => Ok (s <| sp_bindings := tput br_device_id (mkBindingRow token_digest device_id None) (sp_bindings s) |>)
       | None => Ok (s <| sp_bindings := sp_bindings s ++ [mkBindingRow token_digest device_id None] |>)
       end.

Definition consume_companion_enrollment (code_digest token_digest : string) (now : Z) (s : spool)
    : result spool_error (option (string * string * string) * spool) :=
  match tget en_code_digest code_digest (sp_enrollments s) with
  | None => Ok (None, s)
  | Some row =>
      if decide (en_consumed_at row <> None) then Ok (None, s)
      else
        let s := s <| sp_enrollments := tput en_code_digest (row <| en_consumed_at := Some now |>) (sp_enrollments s) |> in
        let? s := bind_device token_digest (en_device_id row) s in
        Ok (Some (en_device_id row, en_tenant_name row, en_site_name row), s)
  end.

Definition companion_binding_device (token_digest : string) (s : spool) : option string :=
  br_device_id <$> head (filter (fun r => br_token_digest r = token_digest /\ br_revoked_at r = None) (sp_bindings s)).

Definition revoke_companion_binding (token_digest device_id : string) (at_ : Z) (s : spool) : bool * spool :=
  let hit r := bool_decide (br_token_digest r = token_digest /\ br_device_id r = device_id /\ br_revoked_at r = None) in
  (Nat.eqb (length (filter (fun r => hit r = true) (sp_bindings s))) 1,
   s <| sp_bindings := (fun r => if hit r then r <| br_revoked_at := Some at_ |> else r) <$> sp_bindings s |>).

(** ** Artifact deliveries *)

Record delivery_event := mkDeliveryEvent {
  de_command_id : string; de_task_run_id : string; de_device_id : string; de_artifact : artifact; de_state : string;
  de_bytes_received : Z; de_error_code : string;
}.
(** [event.artifact.sha256 or event.artifact.object_key]. *)
Definition artifact_id (a : artifact) : string := str_or (Some (art_sha256 a)) (art_object_key a).

Definition put_artifact_delivery (e : delivery_event) (at_ : Z) (s : spool) : spool :=
  let id := artifact_id (de_artifact e) in
  if decide (Exists (fun r => dr_command_id r = de_command_id e /\ dr_artifact_id r = id) (sp_deliveries s))
  then s <| sp_deliveries := (fun r => if decide (dr_command_id r = de_command_id e /\ dr_artifact_id r = id)
             then r <| dr_state := de_state e |> <| dr_bytes_received := de_bytes_received e |>
                    <| dr_error_code := de_error_code e |> <| dr_observed_at := at_ |>
             else r) <$> sp_deliveries s |>
  else s <| sp_deliveries := sp_deliveries s ++
             [mkDeliveryRow (de_command_id e) (de_task_run_id e) (de_device_id e) id (art_kind (de_artifact e)) (de_state e)
                (de_bytes_received e) (art_size (de_artifact e)) (de_error_code e) at_] |>.

Definition progress_percent (r : delivery_row) : Z :=
  if decide (dr_size_bytes r = 0 /\ dr_state r = "DELIVERED") then 100
  else if decide (dr_size_bytes r = 0) then 0
  else Z.min 100 (dr_bytes_received r * 100 / dr_size_bytes r).

(** [ORDER BY observed_at DESC, rowid DESC]. *)
Definition newer_delivery (a b : delivery_row) : bool := bool_decide (dr_observed_at b <= dr_observed_at a).
Definition artifact_deliveries (device_id : string) (s : spool) : list (delivery_row * Z) :=
  (fun r => (r, progress_percent r))
    <$> isort newer_delivery (reverse (filter (fun r => dr_device_id r = device_id) (sp_deliveries s))).

(** ** Well-formed spools *)

(** Every command is at or below the fence of its device. *)
Definition fenced (fences : gmap string (Z * string)) (r : command_row) : Prop :=
  exists token lease, fences !! sc_device_id (cr_serialized r) = Some (token, lease)
    /\ sc_fencing_token (cr_serialized r) <= token
    /\ (sc_fencing_token (cr_serialized r) = token -> sc_lease_id (cr_serialized r) = lease).

Record commands_ok (s : spool) : Prop := mkCommandsOk {
  ok_ids : NoDup (cr_id <$> sp_commands s);
  ok_fenced : Forall (fenced (sp_fences s)) (sp_commands s);
}.

(** The queue holds 1, 2, ..., [sp_last_edge], acknowledged up to a point. *)
Record outbound_ok (s : spool) : Prop := mkOutboundOk {
  ok_numbered : ob_sequence <$> sp_outbound s = seqZ 1 (sp_last_edge s);
  ok_last_edge : 0 <= sp_last_edge_acked s <= sp_last_edge s;
  ok_acked : Forall (fun r => ob_acked r = bool_decide (ob_sequence r <= sp_last_edge_acked s)) (sp_outbound s);
  ok_last_cloud : 0 <= sp_last_cloud s;
}.

Record companions_ok (s : spool) : Prop := mkCompanionsOk {
  ok_grants : NoDup (gr_session_id <$> sp_grants s);
  ok_codes : NoDup (en_code_digest <$> sp_enrollments s);
  ok_devices : NoDup (br_device_id <$> sp_bindings s);
  ok_tokens : NoDup (br_token_digest <$> sp_bindings s);
}.

Record spool_ok (s : spool) : Prop := mkSpoolOk {
  ok_commands : commands_ok s; ok_outbound : outbound_ok s; ok_companions : companions_ok s;
}.

(** ** The history of a spool *)

Definition fence_le (x y : Z * string) : Prop := x.1 <= y.1 /\ (x.1 = y.1 -> x.2 = y.2).

#[export] Instance fence_le_refl : Reflexive fence_le.
Proof. intros x. by split. Qed.
#[export] Instance fence_le_trans : Transitive fence_le.
Proof. intros x y z [H1 E1] [H2 E2]. split; [lia|]. intros E. rewrite E1, E2 by lia. done. Qed.

(** Old rows stay, evolved by [R]; new rows come after them. *)
Definition extends {A} (R : A -> A -> Prop) (l l' : list A) : Prop := exists l1 new, l' = l1 ++ new /\ Forall2 R l l1.

#[export] Instance extends_refl {A} (R : A -> A -> Prop) `{!Reflexive R} : Reflexive (extends R).
Proof. intros l. exists l, []. by rewrite app_nil_r. Qed.
#[export] Instance extends_trans {A} (R : A -> A -> Prop) `{!Transitive R} : Transitive (extends R).
Proof.
  intros l m n (l1 & new1 & -> & H1) (l2 & new2 & -> & H2).
  apply Forall2_app_inv_l in H2 as (k1 & k2 & Hk1 & Hk2 & ->).
  exists k1, (k2 ++ new2). split; [by rewrite app_assoc|by transitivity l1].
Qed.
Lemma extends_snoc {A} (R : A -> A -> Prop) `{!Reflexive R} l x : extends R l (l ++ [x]).
Proof. by exists l, [x]. Qed.
Lemma extends_fmap {A} (R : A -> A -> Prop) (f : A -> A) l : (forall x, R x (f x)) -> extends R l (f <$> l).
Proof.
  intros H. exists (f <$> l), []. rewrite app_nil_r. split; [done|].
  by apply Forall2_fmap_r, Forall_Forall2_diag, Forall_true.
Qed.
Lemma extends_In {A} (R : A -> A -> Prop) l l' x : extends R l l' -> x ∈ l -> exists y, y ∈ l' /\ R x y.
Proof.
  intros (l1 & new & -> & HF) Hx. apply list_elem_of_lookup in Hx as [i Hi].
  destruct (Forall2_lookup_l _ _ _ _ _ HF Hi) as (y & Hy & Hr). exists y. split; [|done].
  apply elem_of_app. left. by eapply list_elem_of_lookup_2.
Qed.

Definition command_le (r r' : command_row) : Prop := cr_serialized r' = cr_serialized r.
Definition outbound_le (r r' : outbound_row) : Prop :=
  (ob_sequence r', ob_payload r') = (ob_sequence r, ob_payload r) /\ (ob_acked r = true -> ob_acked r' = true).
Definition grant_le (r r' : grant_row) : Prop :=
  gr_payload r' = gr_payload r
  /\ (gr_revoked_at r <> None -> gr_revoked_at r' = gr_revoked_at r).
Definition enrollment_le (r r' : enrollment_row) : Prop :=
  (en_code_digest r', en_device_id r') = (en_code_digest r, en_device_id r)
  /\ (en_consumed_at r <> None -> en_consumed_at r' = en_consumed_at r).

#[export] Instance command_le_preorder : PreOrder command_le.
Proof. unfold command_le. split; [by intros r|]. intros x y z H1 H2. congruence. Qed.
#[export] Instance outbound_le_preorder : PreOrder outbound_le.
Proof. unfold outbound_le. split; [by intros r|]. intros x y z [H1 E1] [H2 E2]. split; [congruence|auto]. Qed.
#[export] Instance grant_le_preorder : PreOrder grant_le.
Proof.
  unfold grant_le. split; [by intros r|]. intros x y z [H1 E1] [H2 E2]. split; [congruence|].
  intros H. rewrite E2; [by apply E1|]. by rewrite E1.
Qed.
#[export] Instance enrollment_le_preorder : PreOrder enrollment_le.
Proof.
  unfold enrollment_le. split; [by intros r|]. intros x y z [H1 E1] [H2 E2]. split; [congruence|].
  intros H. rewrite E2; [by apply E1|]. by rewrite E1.
Qed.

Definition fences_le (m m' : gmap string (Z * string)) : Prop :=
  forall k x, m !! k = Some x -> exists y, m' !! k = Some y /\ fence_le x y.
#[export] Instance fences_le_preorder : PreOrder fences_le.
Proof.
  split; [intros m k x H; by exists x|]. intros m n o H1 H2 k x Hx.
  destruct (H1 k x Hx) as (y & Hy & L1). destruct (H2 k y Hy) as (z & Hz & L2).
  exists z. split; [done|by transitivity y].
Qed.

Record spool_le (s s' : spool) : Prop := mkSpoolLe {
  le_fences : fences_le (sp_fences s) (sp_fences s');
  le_commands : extends command_le (sp_commands s) (sp_commands s');
  le_outbound : extends outbound_le (sp_outbound s) (sp_outbound s');
  le_edge : sp_last_edge s <= sp_last_edge s';
  le_acked : sp_last_edge_acked s <= sp_last_edge_acked s';
  le_cloud : sp_last_cloud s <= sp_last_cloud s';
  le_grants : extends grant_le (sp_grants s) (sp_grants s');
  le_enrollments : extends enrollment_le (sp_enrollments s) (sp_enrollments s');
}.
#[export] Instance spool_le_preorder : PreOrder spool_le.
Proof.
  split; [intros s; split; (reflexivity || lia)|].
  intros s t u [] []. split; try lia; etransitivity; eassumption.
Qed.


(** ** Runs: the operations, one transaction each *)

Inductive spool_op : Type :=
| OpAccept (command : start_command)
| OpSetState (command_id state : string)
| OpEnqueue (body : option edge_body) (priority : Z)
| OpRecordWith (cloud_sequence : Z) (body : option edge_body) (priority : Z)
| OpRecord (cloud_sequence : Z)
| OpAcknowledge (through : Z)
| OpPutGrant (grant : debug_grant) (at_ : Z)
| OpRevokeGrant (session_id : string) (at_ : Z)
| OpAddEvidence (record : evidence_row)
| OpEvidenceUploaded (evidence_id : string)
| OpEvidenceRetry (evidence_id : string)
| OpIssue (code_digest device_id tenant_name site_name : string)
| OpConsume (code_digest token_digest : string) (now : Z)
| OpRevokeBinding (token_digest device_id : string) (at_ : Z)
| OpPutDelivery (event : delivery_event) (at_ : Z).

Definition returning {A} (r : result spool_error (A * spool)) : result spool_error spool :=
  match r with Ok (_, s) => Ok s | Err e => Err e end.

Definition apply_op (op : spool_op) (s : spool) : result spool_error spool :=
  match op with
  | OpAccept c => returning (accept_command c s)
  | OpSetState id st => set_command_state id st s
  | OpEnqueue b p => returning (enqueue_edge_message b p s)
  | OpRecordWith n b p => returning (record_cloud_with_edge_message n b p s)
  | OpRecord n => returning (record_cloud_sequence n s)
  | OpAcknowledge n => acknowledge_edge_sequence n s
  | OpPutGrant g t => put_debug_grant g t s
  | OpRevokeGrant id t => Ok (revoke_debug_grant id t s)
  | OpAddEvidence r => add_evidence r s
  | OpEvidenceUploaded id => Ok (mark_evidence_uploaded id s)
  | OpEvidenceRetry id => Ok (mark_evidence_retry id s)
  | OpIssue c d t n => Ok (issue_companion_enrollment c d t n s)
  | OpConsume c t n => returning (consume_companion_enrollment c t n s)
  | OpRevokeBinding t d n => Ok (revoke_companion_binding t d n s).2
  | OpPutDelivery e t => Ok (put_artifact_delivery e t s)
  end.

(** A transaction that raises is rolled back. *)
Definition run_op (s : spool) (op : spool_op) : spool :=
  match apply_op op s with Ok s' => s' | Err _ => s end.
Definition run_ops (ops : list spool_op) (s : spool) : spool := foldl run_op s ops.

(** *** Each operation keeps the tables well formed *)

Lemma keyed_fmap {A} (key : A -> string) (f : A -> A) (l : list A) : (forall x, key (f x) = key x) -> key <$> (f <$> l) = key <$> l.
Proof. intros H. rewrite <- list_fmap_compose. apply list_fmap_ext. by intros i x _; apply H. Qed.

Lemma keyed_snoc {A} (key : A -> string) (l : list A) x : tget key (key x) l = None -> NoDup (key <$> l) -> NoDup (key <$> (l ++ [x])).
Proof.
  rewrite tget_None. intros Hn Hd. rewrite fmap_app. apply NoDup_app. split; [done|].
  split; [|apply NoDup_singleton]. intros k Hk ->%list_elem_of_singleton. by apply Hn.
Qed.

Lemma raised_fence_le c x : fence_error c (Some x) = None -> fence_le x (raised_fence c (Some x)).
Proof.
  destruct x as [token lease]. cbn. intros H. by_cases; split; cbn; try lia; done.
Qed.

Lemma fenced_le m m' r : fences_le m m' -> fenced m r -> fenced m' r.
Proof.
  intros Hle (t & l & Hl & Ht & He). destruct (Hle _ _ Hl) as ([t' l'] & Hl' & H1 & H2); cbn in *.
  exists t', l'. split; [done|]. split; [lia|]. intros E. rewrite <- H2 by lia. apply He. lia.
Qed.

Lemma fences_le_insert m k x : (forall y, m !! k = Some y -> fence_le y x) -> fences_le m (<[k := x]> m).
Proof.
  intros H j y Hy. destruct (decide (j = k)) as [->|N].
  - exists x. rewrite lookup_insert_eq. auto.
  - exists y. by rewrite lookup_insert_ne.
Qed.

Lemma accept_fences_le c m :
  fence_error c (m !! sc_device_id c) = None ->
  fences_le m (<[sc_device_id c := raised_fence c (m !! sc_device_id c)]> m).
Proof. intros H. apply fences_le_insert. intros y Hy. rewrite Hy in *. by apply raised_fence_le. Qed.

Lemma raised_fence_covers c x : fence_error c x = None ->
  sc_fencing_token c <= (raised_fence c x).1 /\ (sc_fencing_token c = (raised_fence c x).1 -> sc_lease_id c = (raised_fence c x).2).
Proof.
  destruct x as [[t l]|]; cbn; [|done]. intros H.
  repeat case_decide; simplify_eq/=; split; try lia; try done.
  intros E. destruct (decide (sc_lease_id c = l)); [done|]. exfalso. naive_solver.
Qed.

Lemma accept_command_ok c s r s' : accept_command c s = Ok (r, s') -> commands_ok s -> commands_ok s'.
Proof.
  unfold accept_command, find_command. intros H [Hid Hf]. ok_inv H; [done|]. split; cbn.
  - apply (keyed_snoc cr_id); done.
  - apply Forall_app. split.
    + eapply Forall_impl; [exact Hf|]. intros x. by apply fenced_le, accept_fences_le.
    + apply Forall_singleton. exists (raised_fence c (sp_fences s !! sc_device_id c)).1, (raised_fence c (sp_fences s !! sc_device_id c)).2.
      cbn. rewrite lookup_insert_eq, <- surjective_pairing. split; [done|]. by apply raised_fence_covers.
Qed.

Lemma set_command_state_ok id st s s' : set_command_state id st s = Ok s' -> commands_ok s -> commands_ok s'.
Proof.
  unfold set_command_state. intros H [Hid Hf]. ok_inv H. unfold find_command in *. split; cbn.
  - by rewrite (tput_keys cr_id).
  - apply Forall_tput; [done|]. apply tget_Some in E0 as [Hin _].
    rewrite Forall_forall in Hf. exact (Hf _ Hin).
Qed.

Lemma append_outbound_ok b p s : outbound_ok s -> outbound_ok (append_outbound b p s).2.
Proof.
  intros [Hn Hl Ha Hc]. split; cbn; [|lia| |done].
  - rewrite fmap_app, Hn. cbn. rewrite seqZ_snoc, Z.add_comm by lia. done.
  - apply Forall_app. split; [done|]. apply Forall_singleton. cbn. symmetry. apply bool_decide_eq_false. lia.
Qed.

Lemma acknowledge_ok n s s' : acknowledge_edge_sequence n s = Ok s' -> outbound_ok s -> outbound_ok s'.
Proof.
  unfold acknowledge_edge_sequence. intros H [Hn Hl Ha Hc]. ok_inv H; [done|]. split; cbn; [|lia| |done].
  - rewrite <- Hn, <- list_fmap_compose. apply list_fmap_ext. intros i r _. cbn. unfold ack_row. by case_decide.
  - rewrite Forall_fmap. eapply Forall_impl; [exact Ha|]. intros r Hr. cbn. unfold ack_row.
    destruct (decide (ob_sequence r <= n)); cbn.
    + by rewrite bool_decide_eq_true_2.
    + rewrite Hr. apply bool_decide_ext. lia.
Qed.

Lemma bind_device_ok t d s s' : bind_device t d s = Ok s' -> companions_ok s -> companions_ok s'.
Proof.
  unfold bind_device. intros H [Hg Hc Hd Ht]. destruct (decide _) as [|Hfree]; [done|].
  rewrite <- Forall_Exists_neg, Forall_forall in Hfree. ok_inv H; split; cbn; try done.
  - by rewrite (tput_keys br_device_id).
  - unfold tput. assert (forall x, x ∈ sp_bindings s -> br_token_digest x = t -> br_device_id x = d) as Huniq.
    { intros x Hx E1. destruct (decide (br_device_id x = d)); [done|]. destruct (Hfree x Hx). done. }
    clear Hfree E. revert Hd Ht Huniq. induction (sp_bindings s) as [|x l IH]; cbn; [done|].
    intros [Hxd Hd]%NoDup_cons [Hxt Ht]%NoDup_cons Huniq. apply NoDup_cons. split.
    + intros (y & Hy & Hin)%list_elem_of_fmap. apply list_elem_of_fmap in Hin as (z & -> & Hz).
      assert (br_device_id z <> br_device_id x) as N by (intros E; apply Hxd; rewrite <- E; by apply list_elem_of_fmap_2).
      assert (br_token_digest z <> br_token_digest x) as N' by (intros E; apply Hxt; rewrite <- E; by apply list_elem_of_fmap_2).
      repeat case_decide; simplify_eq/=; try congruence.
      * apply N. rewrite (Huniq z); [done|by right|done].
      * apply N. rewrite (Huniq x); [done|by left|done].
    + apply IH; try done. intros y Hy. apply Huniq. by right.
  - by apply (keyed_snoc br_device_id).
  - apply (keyed_snoc br_token_digest); [|done]. cbn. apply tget_None. intros (x & -> & Hx)%list_elem_of_fmap.
    apply tget_None in E. destruct (Hfree x Hx). split; [done|]. intros <-. apply E. by apply list_elem_of_fmap_2.
Qed.

(** An operation that leaves the tables of an invariant alone keeps it. *)
Lemma commands_ok_same s s' : sp_commands s' = sp_commands s -> sp_fences s' = sp_fences s -> commands_ok s -> commands_ok s'.
Proof. intros E1 E2 []. split; rewrite ?E1, ?E2; done. Qed.

Lemma outbound_ok_same s s' :
  sp_outbound s' = sp_outbound s -> sp_last_edge s' = sp_last_edge s -> sp_last_edge_acked s' = sp_last_edge_acked s ->
  0 <= sp_last_cloud s' -> outbound_ok s -> outbound_ok s'.
Proof. intros E1 E2 E3 H []. split; rewrite ?E1, ?E2, ?E3; done. Qed.

Lemma companions_ok_same s s' :
  gr_session_id <$> sp_grants s' = gr_session_id <$> sp_grants s ->
  en_code_digest <$> sp_enrollments s' = en_code_digest <$> sp_enrollments s ->
  br_device_id <$> sp_bindings s' = br_device_id <$> sp_bindings s ->
  br_token_digest <$> sp_bindings s' = br_token_digest <$> sp_bindings s -> companions_ok s -> companions_ok s'.
Proof. intros E1 E2 E3 E4 []. split; rewrite ?E1, ?E2, ?E3, ?E4; done. Qed.

Lemma apply_op_commands op s s' : apply_op op s = Ok s' -> commands_ok s -> commands_ok s'.
Proof.
  destruct op; cbn; intros H Hs;
     try (cbv delta [append_outbound enqueue_edge_message record_cloud_with_edge_message record_cloud_sequence
          acknowledge_edge_sequence put_debug_grant add_evidence consume_companion_enrollment bind_device
          issue_companion_enrollment put_artifact_delivery returning] in H;
         ok_inv H; by_cases; exact Hs || by (eapply commands_ok_same, Hs; done)).
  - unfold returning in H. destruct (accept_command command s) as [[]|] eqn:E; simplify_eq. by eapply accept_command_ok.
  - by eapply set_command_state_ok.
Qed.

Lemma apply_op_outbound op s s' : apply_op op s = Ok s' -> outbound_ok s -> outbound_ok s'.
Proof.
  destruct op; cbn; intros H Hs;
     try (cbv delta [accept_command set_command_state put_debug_grant add_evidence consume_companion_enrollment
          bind_device issue_companion_enrollment put_artifact_delivery returning] in H;
         ok_inv H; by_cases; exact Hs || by (eapply outbound_ok_same, Hs; first [done|exact (ok_last_cloud _ Hs)])).
  - unfold enqueue_edge_message in H. destruct (is_sequenced body) as [b|]; simplify_eq/=.
    by apply (append_outbound_ok b priority).
  - unfold record_cloud_with_edge_message in H. destruct (is_sequenced body) as [b|]; [|done]. case_decide as D; [done|].
    simplify_eq/=. pose proof (ok_last_cloud _ Hs).
    eapply outbound_ok_same, (append_outbound_ok b priority _ Hs); try done. cbn. lia.
  - unfold record_cloud_sequence, returning in H. ok_inv H; [done|].
    pose proof (ok_last_cloud _ Hs). eapply outbound_ok_same, Hs; try done. cbn. lia.
  - by eapply acknowledge_ok.
Qed.

Lemma apply_op_companions op s s' : apply_op op s = Ok s' -> companions_ok s -> companions_ok s'.
Proof.
  destruct op; cbn; intros H Hs;
     try (cbv delta [append_outbound accept_command set_command_state enqueue_edge_message record_cloud_with_edge_message
          record_cloud_sequence acknowledge_edge_sequence add_evidence put_artifact_delivery returning] in H;
         ok_inv H; by_cases; exact Hs || by (eapply companions_ok_same, Hs; done)).
  - unfold put_debug_grant in H. ok_inv H; [done|]. destruct Hs. split; cbn; try done. by apply (keyed_snoc gr_session_id).
  - ok_inv H. eapply companions_ok_same, Hs; try done. apply (keyed_fmap gr_session_id).
    intros x. unfold revoke_grant_row. by case_decide.
  - ok_inv H. unfold issue_companion_enrollment. case_match; [done|].
    destruct Hs. split; cbn; try done. by apply (keyed_snoc en_code_digest).
  - unfold consume_companion_enrollment in H. destruct (tget _ _ _) as [row|]; [|by simplify_eq/=].
    case_decide as D; [by simplify_eq/=|]. cbv zeta in H. destruct (bind_device _ _ _) as [s1|] eqn:E; simplify_eq/=.
    eapply bind_device_ok; [exact E|]. eapply companions_ok_same, Hs; try done. apply (tput_keys en_code_digest).
  - ok_inv H. eapply companions_ok_same, Hs; try done; [apply (keyed_fmap br_device_id)|apply (keyed_fmap br_token_digest)];
      intros x; by case_match.
Qed.

Lemma run_op_ok op s : spool_ok s -> spool_ok (run_op s op).
Proof.
  unfold run_op. destruct (apply_op op s) as [s'|] eqn:E; [|done].
  intros [H1 H2 H3]. split; by eauto using apply_op_commands, apply_op_outbound, apply_op_companions.
Qed.

Lemma new_spool_ok : spool_ok new_spool.
Proof.
  split; split; cbn; try done; try constructor.
Qed.

(** *** Each operation only adds to the history *)

Lemma extends_tput {A} (R : A -> A -> Prop) `{!Reflexive R} (key : A -> string) l r r' :
  tget key (key r') l = Some r -> NoDup (key <$> l) -> R r r' -> extends R l (tput key r' l).
Proof.
  intros Hg Hd Hr. exists (tput key r' l), []. rewrite app_nil_r. split; [done|].
  apply Forall2_fmap_r. apply Forall_Forall2_diag, Forall_forall. intros x Hx. cbn. case_decide as E; [|done].
  apply (tget_In key _ _ Hd) in Hx. rewrite E, Hg in Hx. by simplify_eq.
Qed.

Ltac same_history := split; cbn; first [reflexivity | lia | done | idtac].

Lemma append_outbound_le b p s : spool_le s (append_outbound b p s).2.
Proof. same_history. apply extends_snoc, _. Qed.

Lemma accept_command_le c s r s' : accept_command c s = Ok (r, s') -> spool_le s s'.
Proof.
  unfold accept_command. intros H. ok_inv H; [done|]. same_history; [by apply accept_fences_le|apply extends_snoc, _].
Qed.

Lemma consume_enrollment_le c t n s r s' : companions_ok s -> consume_companion_enrollment c t n s = Ok (r, s') -> spool_le s s'.
Proof.
  unfold consume_companion_enrollment. intros Hs H. destruct (tget _ _ _) as [row|] eqn:Eg; [|by simplify_eq/=].
  case_decide as D; [by simplify_eq/=|]. cbv zeta in H. destruct (bind_device _ _ _) as [s1|] eqn:E; simplify_eq/=.
  assert (en_consumed_at row = None) as Hnew by (destruct (en_consumed_at row); [by destruct D|done]).
  transitivity (s <| sp_enrollments := tput en_code_digest (row <| en_consumed_at := Some n |>) (sp_enrollments s) |>).
  - same_history. pose proof Eg as Ek. apply tget_Some in Ek as [_ Ek].
    eapply (extends_tput _ _ _ row); [by cbn; rewrite Ek| |split; cbn; congruence]. apply Hs.
  - unfold bind_device in E. repeat case_match; simplify_eq; same_history.
Qed.

Lemma apply_op_le op s s' : spool_ok s -> apply_op op s = Ok s' -> spool_le s s'.
Proof.
  intros Hs. destruct op; cbn; intros H.
  - destruct (accept_command command s) as [[]|] eqn:E; simplify_eq/=. by eapply accept_command_le.
  - unfold set_command_state, find_command in H. ok_inv H. same_history.
    pose proof E0 as Ek. apply tget_Some in Ek as [_ <-].
    apply (extends_tput _ cr_id _ c0); [done|apply Hs|done].
  - unfold enqueue_edge_message in H. destruct (is_sequenced body) as [b|]; simplify_eq/=. apply append_outbound_le.
  - unfold record_cloud_with_edge_message in H. destruct (is_sequenced body) as [b|]; [|done]. case_decide as D; [done|].
    simplify_eq/=. transitivity (append_outbound b priority s).2; [apply append_outbound_le|same_history].
  - unfold record_cloud_sequence, returning in H. ok_inv H; [done|same_history].
  - unfold acknowledge_edge_sequence in H. ok_inv H; [done|same_history].
    apply extends_fmap. intros r. unfold ack_row. by case_decide.
  - unfold put_debug_grant in H. ok_inv H; [done|same_history]. apply extends_snoc, _.
  - simplify_eq. same_history. apply extends_fmap. intros r. unfold revoke_grant_row, grant_le. case_decide; [|done].
    split; [done|]. cbn. by destruct (gr_revoked_at r).
  - unfold add_evidence in H. ok_inv H. same_history.
  - simplify_eq. same_history.
  - simplify_eq. same_history.
  - simplify_eq. unfold issue_companion_enrollment. case_match; [done|]. same_history. apply extends_snoc, _.
  - destruct (consume_companion_enrollment _ _ _ s) as [[]|] eqn:E; simplify_eq/=. eapply consume_enrollment_le, E. apply Hs.
  - simplify_eq. same_history.
  - simplify_eq. unfold put_artifact_delivery. case_decide; same_history.
Qed.

Lemma run_ops_invariant ops s : spool_ok s -> spool_ok (run_ops ops s) /\ spool_le s (run_ops ops s).
Proof.
  revert s. induction ops as [|op ops IH]; intros s Hs; [done|]. cbn.
  destruct (IH (run_op s op)) as [Ho Hl]; [by apply run_op_ok|]. split; [done|]. etransitivity; [|exact Hl].
  unfold run_op. destruct (apply_op op s) eqn:E; [by eapply apply_op_le|done].
Qed.

Lemma extends_lookup {A} (R : A -> A -> Prop) l l' i x : extends R l l' -> l !! i = Some x -> exists y, l' !! i = Some y /\ R x y.
Proof.
  intros (l1 & new & -> & HF) Hi. destruct (Forall2_lookup_l _ _ _ _ _ HF Hi) as (y & Hy & Hr).
  exists y. split; [by apply lookup_app_l_Some|done].
Qed.

(** ** Properties *)

Definition reachable_spool (ops : list spool_op) : spool := run_ops ops new_spool.

(** C35. Whatever operations have run, in whatever order and however many of them
    raised: the tables keep their keys, every command is within the fence of
    its device and the outbound queue holds exactly 1, 2, ..., n; and every
    later state extends the earlier one: fences and the three cursors only
    rise, no command, message, grant or enrollment disappears or is rewritten. *)
Theorem spool_keeps_history (before later : list spool_op) :
  let s := reachable_spool before in spool_ok s /\ spool_le s (run_ops later s).
Proof.
  cbv zeta. destruct (run_ops_invariant before new_spool new_spool_ok) as [Hs _].
  split; [done|]. by apply run_ops_invariant.
Qed.

Lemma reachable_spool_ok ops : spool_ok (reachable_spool ops).
Proof. by apply run_ops_invariant, new_spool_ok. Qed.

Lemma accepted_fence c s s' st later :
  spool_ok s -> accept_command c s = Ok ((true, st), s') ->
  exists token lease, sp_fences (run_ops later s') !! sc_device_id c = Some (token, lease)
    /\ sc_fencing_token c <= token /\ (sc_fencing_token c = token -> sc_lease_id c = lease).
Proof.
  intros Hs H. assert (spool_ok s') as Hs'.
  { pose proof (run_op_ok (OpAccept c) s Hs) as R. unfold run_op in R. cbn in R. by rewrite H in R. }
  destruct (run_ops_invariant later s' Hs') as [_ Hle]. unfold accept_command in H. destruct (find_command _ s); [by ok_inv H|].
  destruct (fence_error c _) eqn:Ee; [done|]. injection H as <- <-. destruct (raised_fence_covers _ _ Ee) as [H1 H2]. destruct (raised_fence c _) as [t l] eqn:Er.
  destruct (le_fences _ _ Hle (sc_device_id c) (t, l)) as ([t' l'] & Hf & H3 & H4); cbn in *.
  - by rewrite lookup_insert_eq.
  - exists t', l'. split; [exact Hf|]. split; [lia|]. intros E'. rewrite <- H4 by lia. apply H2. lia.
Qed.

(** C31. Once an edge has accepted a command, whatever happens afterwards no
    holder of a lower fencing token, nor of the same token under another
    lease, owns the device: its execution check fails and its new commands
    are refused with [StaleFencingToken]. *)
Theorem superseded_lease_is_fenced_off before c st s' later
    (H : accept_command c (reachable_spool before) = Ok ((true, st), s')) :
  let s := run_ops later s' in
  forall token lease,
    token < sc_fencing_token c \/ (token = sc_fencing_token c /\ lease <> sc_lease_id c) ->
    (exists e, assert_current_fence (sc_device_id c) lease token s = Err (StaleFencingToken e))
    /\ forall c', sc_device_id c' = sc_device_id c -> sc_fencing_token c' = token -> sc_lease_id c' = lease ->
         find_command (sc_command_id c') s = None -> exists e, accept_command c' s = Err (StaleFencingToken e).
Proof.
  cbv zeta. intros token lease Hlow.
  destruct (accepted_fence _ _ _ _ later (reachable_spool_ok before) H) as (t & l & Hf & Ht & Hl). split.
  - unfold assert_current_fence. rewrite Hf, decide_False; [eauto|]. intros [= <- <-].
    destruct Hlow as [|[-> N]]; [lia|]. apply N. symmetry. by apply Hl.
  - intros c' Ed <- <- Hn. unfold accept_command. rewrite Hn, Ed, Hf. cbn [fence_error].
    destruct (decide (sc_fencing_token c' < t)); [eauto|]. rewrite decide_True; [eauto|].
    destruct Hlow as [|[E N]]; [lia|]. split; [lia|]. rewrite <- Hl by lia. done.
Qed.

Definition demo_start (id lease : string) (token : Z) : start_command :=
  mkStart id "run-1" "device-1" lease token "RUN_RECIPE" [] None "".

Lemma superseded_lease_is_fenced_off_witness :
  exists s', accept_command (demo_start "c-2" "lease-b" 8) (reachable_spool [OpAccept (demo_start "c-1" "lease-a" 7)])
             = Ok ((true, RECEIVED), s')
    /\ exists e, accept_command (demo_start "c-3" "lease-a" 7) (run_ops [OpSetState "c-2" "STARTED"] s') = Err (StaleFencingToken e).
Proof.
  eexists. split; [vm_compute; reflexivity|].
  refine (proj2 (superseded_lease_is_fenced_off [OpAccept (demo_start "c-1" "lease-a" 7)] (demo_start "c-2" "lease-b" 8)
            RECEIVED _ [OpSetState "c-2" "STARTED"] _ 7 "lease-a" (or_introl _)) (demo_start "c-3" "lease-a" 7) eq_refl eq_refl eq_refl _);
    vm_compute; reflexivity.
Defined.

Lemma replay_tail s after : spool_ok s ->
  let from := Z.max after (sp_last_edge_acked s) in
  (replay_edge_messages after s).*1 = seqZ (Z.max 0 from + 1) (sp_last_edge s - Z.max 0 from)
  /\ forall n b, (n, b) ∈ replay_edge_messages after s <->
       exists r, r ∈ sp_outbound s /\ ob_sequence r = n /\ ob_payload r = b /\ from < n.
Proof.
  cbv zeta. intros [_ [Hn Hl Ha _] _].
  assert (filter (fun r => ob_sequence r > after /\ ob_acked r = false) (sp_outbound s)
          = filter (fun r => Z.max after (sp_last_edge_acked s) < ob_sequence r) (sp_outbound s)) as Ef.
  { apply filter_ext_In. intros r Hr. rewrite Forall_forall in Ha. rewrite (Ha r Hr), bool_decide_eq_false. lia. }
  unfold replay_edge_messages. rewrite Ef. split.
  - rewrite <- list_fmap_compose. change (fst ∘ (fun r => (ob_sequence r, ob_payload r))) with ob_sequence.
    rewrite (fmap_filter_key ob_sequence (fun n => Z.max after (sp_last_edge_acked s) < n)), Hn. apply filter_seqZ_above. lia.
  - intros n b. rewrite list_elem_of_fmap. setoid_rewrite list_elem_of_filter. naive_solver.
Qed.

(** The replay of a reconnecting edge is the whole unacknowledged tail of its
    queue, in order, without a gap: a hub that has everything up to [after]
    receives exactly the sequences that follow. *)
Theorem replay_is_the_unacknowledged_tail before (after : Z) :
  let s := reachable_spool before in
  let from := Z.max after (sp_last_edge_acked s) in
  (replay_edge_messages after s).*1 = seqZ (Z.max 0 from + 1) (sp_last_edge s - Z.max 0 from)
  /\ forall n b, (n, b) ∈ replay_edge_messages after s <->
       exists r, r ∈ sp_outbound s /\ ob_sequence r = n /\ ob_payload r = b /\ from < n.
Proof. apply replay_tail, reachable_spool_ok. Qed.

Lemma tget_extends {A} (R : A -> A -> Prop) (key : A -> string) k l l' r :
  (forall x y, R x y -> key y = key x) -> NoDup (key <$> l') -> extends R l l' -> tget key k l = Some r ->
  exists r', tget key k l' = Some r' /\ R r r'.
Proof.
  intros HR Hd He [Hr <-]%tget_Some. destruct (extends_In _ _ _ _ He Hr) as (r' & Hr' & Hle).
  exists r'. split; [|done]. rewrite <- (HR _ _ Hle). by apply tget_In.
Qed.

Lemma keyed_eq {A} (key : A -> string) (l : list A) x y : NoDup (key <$> l) -> x ∈ l -> y ∈ l -> key x = key y -> x = y.
Proof.
  intros Hd Hx Hy E. apply (tget_In key _ _ Hd) in Hx, Hy. rewrite E in Hx. congruence.
Qed.

Lemma bind_device_live t d s s' : bind_device t d s = Ok s' ->
  sp_enrollments s' = sp_enrollments s /\ mkBindingRow t d None ∈ sp_bindings s'.
Proof.
  unfold bind_device. intros H. destruct (decide _); [done|].
  destruct (tget br_device_id d _) as [r|] eqn:Et; simplify_eq; (split; [done|]); cbn.
  - apply (elem_of_tput_self br_device_id). pose proof (tget_key_In br_device_id _ _ _ Et) as Hk.
    by apply tget_Some in Et as [_ <-].
  - apply elem_of_app. right. by left.
Qed.

(** After an upsert the new row is the only one of its device and of its token. *)
Lemma bind_device_only t d s s' r : companions_ok s -> bind_device t d s = Ok s' ->
  r ∈ sp_bindings s' -> br_device_id r = d \/ br_token_digest r = t -> r = mkBindingRow t d None.
Proof.
  intros Hs H Hr [E|E]; pose proof (bind_device_ok _ _ _ _ H Hs) as []; destruct (bind_device_live _ _ _ _ H) as [_ Hin].
  - by apply (keyed_eq br_device_id (sp_bindings s')).
  - by apply (keyed_eq br_token_digest (sp_bindings s')).
Qed.

Lemma binding_device_iff t s d : NoDup (br_token_digest <$> sp_bindings s) ->
  companion_binding_device t s = Some d <-> mkBindingRow t d None ∈ sp_bindings s.
Proof.
  intros Hd. unfold companion_binding_device. split.
  - intros (r & Hr & ->)%fmap_Some. apply scalar_filter_Some in Hr as [[<- E] Hr]. destruct r. cbn in *. by subst.
  - intros Hr. destruct (head (filter _ _)) as [r|] eqn:E.
    + apply scalar_filter_Some in E as [[Et _] Hin]. cbn.
      by rewrite (keyed_eq br_token_digest _ r (mkBindingRow t d None) Hd).
    + by destruct (scalar_filter_None _ _ E _ Hr).
Qed.

Lemma consumed_stays_consumed later s row code token now :
  spool_ok s -> tget en_code_digest code (sp_enrollments s) = Some row -> en_consumed_at row <> None ->
  consume_companion_enrollment code token now (run_ops later s) = Ok (None, run_ops later s).
Proof.
  intros Hs Hg Hc. destruct (run_ops_invariant later s Hs) as [[_ _ Ho] Hle]. unfold consume_companion_enrollment.
  destruct (tget_extends enrollment_le en_code_digest code _ _ row (fun x y H => f_equal fst (proj1 H)) (ok_codes _ Ho)
              (le_enrollments _ _ Hle) Hg) as (row' & -> & _ & Hr).
  rewrite decide_True; [done|]. by rewrite Hr.
Qed.

(** An enrollment code binds a device once: when a code has been consumed the
    new token is the device's binding, every other token of that device has
    stopped working, and the code never yields anything again. *)
Theorem enrollment_code_binds_once before code token now device tenant site s'
    (H : consume_companion_enrollment code token now (reachable_spool before) = Ok (Some (device, tenant, site), s')) :
  companion_binding_device token s' = Some device
  /\ (forall other, other <> token -> companion_binding_device other s' <> Some device)
  /\ forall later token' now', let s := run_ops later s' in
       consume_companion_enrollment code token' now' s = Ok (None, s).
Proof.
  pose proof (run_op_ok (OpConsume code token now) _ (reachable_spool_ok before)) as Hs'. unfold run_op in Hs'. cbn in Hs'.
  rewrite H in Hs'. cbn in Hs'. destruct (reachable_spool_ok before) as [_ _ Hs]. set (s := reachable_spool before) in *.
  unfold consume_companion_enrollment in H. destruct (tget _ _ _) as [row|] eqn:Eg; [|done].
  case_decide as D; [done|]. cbv zeta in H. destruct (bind_device _ _ _) as [s1|] eqn:E; simplify_eq/=.
  destruct (bind_device_live _ _ _ _ E) as [He Hin]. cbn in He.
  split; [by apply (binding_device_iff _ _ _ (ok_tokens _ (ok_companions _ Hs')))|split].
  - intros other N Ho%(binding_device_iff _ _ _ (ok_tokens _ (ok_companions _ Hs'))).
    apply bind_device_only with (r := mkBindingRow other (en_device_id row) None) in E; [by injection E| |done|by left].
    eapply companions_ok_same, Hs; try done. apply (tput_keys en_code_digest).
  - intros later token' now'. cbv zeta. eapply consumed_stays_consumed; [done|rewrite He|].
    + pose proof Eg as Ek. apply tget_Some in Ek as [Hrow <-].
      rewrite (tget_tput en_code_digest), !decide_True; [done|by apply list_elem_of_fmap_2|done].
    + done.
Qed.

Lemma enrollment_code_binds_once_witness :
  exists s', consume_companion_enrollment "code" "token-2" 9
      (reachable_spool [OpIssue "old" "device-1" "T" "S"; OpConsume "old" "token-1" 5; OpIssue "code" "device-1" "T" "S"])
      = Ok (Some ("device-1", "T", "S"), s')
    /\ companion_binding_device "token-2" s' = Some "device-1".
Proof.
  eexists. split; [vm_compute; reflexivity|].
  eapply (enrollment_code_binds_once
    [OpIssue "old" "device-1" "T" "S"; OpConsume "old" "token-1" 5; OpIssue "code" "device-1" "T" "S"] "code" "token-2" 9).
  vm_compute; reflexivity.
Defined.

Lemma tget_fmap {A} (key : A -> string) (f : A -> A) (l : list A) k r :
  (forall x, key (f x) = key x) -> tget key k l = Some r -> tget key k (f <$> l) = Some (f r).
Proof.
  intros Hk. induction l as [|x l IH]; cbn; [done|]. rewrite Hk. case_decide; [by intros [= ->]|done].
Qed.

Lemma put_debug_grant_held g at_ s s' : put_debug_grant g at_ s = Ok s' ->
  exists r, tget gr_session_id (dg_session_id g) (sp_grants s') = Some r.
Proof.
  unfold put_debug_grant. intros H. destruct (tget gr_session_id _ _) as [x|] eqn:E.
  - repeat case_decide; simplify_eq. by exists x.
  - simplify_eq. eexists. cbn. rewrite tget_app, E. cbn. by rewrite decide_True.
Qed.

Lemma revoke_grant_row_key session n r : gr_session_id (revoke_grant_row session n r) = gr_session_id r.
Proof. unfold revoke_grant_row. by case_decide. Qed.

(** A revoked debug session is never granted again. *)
Theorem revoked_grant_stays_revoked before later grant at_ s'
    (H : put_debug_grant grant at_ (reachable_spool before) = Ok s') :
  forall revoked_at grant', dg_session_id grant' = dg_session_id grant ->
    let s := run_ops later (revoke_debug_grant (dg_session_id grant) revoked_at s') in
    (grant' ∉ active_debug_grants s) /\ exists e, put_debug_grant grant' at_ s = Err e.
Proof.
  intros n grant' Es. cbv zeta. destruct (put_debug_grant_held _ _ _ _ H) as [r Hg].
  pose proof (run_op_ok (OpPutGrant grant at_) _ (reachable_spool_ok before)) as Hs. unfold run_op in Hs. cbn in Hs.
  rewrite H in Hs. pose proof (run_op_ok (OpRevokeGrant (dg_session_id grant) n) _ Hs) as Hr. unfold run_op in Hr. cbn in Hr.
  apply (tget_fmap gr_session_id _ _ _ _ (revoke_grant_row_key (dg_session_id grant) n)) in Hg as Hg'.
  destruct (run_ops_invariant later _ Hr) as [[_ _ Ho] Hle].
  destruct (tget_extends grant_le gr_session_id _ _ _ _ (fun x y H => f_equal dg_session_id (proj1 H)) (ok_grants _ Ho)
              (le_grants _ _ Hle) Hg') as (r' & Er & _ & Hrev).
  assert (gr_revoked_at r' <> None) as Hrevoked.
  { apply tget_Some in Hg as [_ Hk]. unfold revoke_grant_row in Hrev. rewrite decide_True in Hrev by done. by rewrite Hrev. }
  split.
  - unfold active_debug_grants. intros (y & -> & Hy)%list_elem_of_fmap.
    apply elem_of_isort, list_elem_of_filter in Hy as [Hn Hy].
    apply (tget_In gr_session_id _ _ (ok_grants _ Ho)) in Hy. unfold gr_session_id in Hy at 2. rewrite Es, Er in Hy. by simplify_eq.
  - unfold put_debug_grant. rewrite Es, Er. case_decide; [eauto|]. rewrite decide_True by done. eauto.
Qed.

Definition demo_grant : debug_grant := mkDebugGrant "d-1" "device-1" 900 ["view.frame"] "lease" 1 "token".

Lemma revoked_grant_stays_revoked_witness :
  exists s', put_debug_grant demo_grant 5 (reachable_spool []) = Ok s'
    /\ demo_grant ∉ active_debug_grants (run_ops [OpRevokeGrant "d-1" 9] (revoke_debug_grant "d-1" 7 s')).
Proof.
  eexists. split; [vm_compute; reflexivity|].
  eapply (revoked_grant_stays_revoked [] [OpRevokeGrant "d-1" 9] demo_grant 5 _ eq_refl 7 demo_grant eq_refl).
Defined.

(** A delivery is shown with a percentage: never outside 0..100, and 100 for
    a non-empty artifact exactly when all its bytes have arrived. *)
Theorem delivery_progress_in_bounds (r : delivery_row) (Hb : 0 <= dr_bytes_received r) (Hs : 0 <= dr_size_bytes r) :
  0 <= progress_percent r <= 100
  /\ (progress_percent r = 100 <->
        (dr_size_bytes r = 0 /\ dr_state r = "DELIVERED") \/ (0 < dr_size_bytes r /\ dr_size_bytes r <= dr_bytes_received r)).
Proof.
  unfold progress_percent. case_decide as D1; [naive_solver lia|]. case_decide as D2; [naive_solver lia|].
  assert (0 < dr_size_bytes r) as Hp by lia.
  pose proof (Z.div_pos (dr_bytes_received r * 100) _ ltac:(lia) Hp) as H0.
  pose proof (Z.mul_div_le (dr_bytes_received r * 100) _ Hp) as H1.
  pose proof (Z.mul_succ_div_gt (dr_bytes_received r * 100) _ Hp) as H2.
  set (q := dr_bytes_received r * 100 / dr_size_bytes r) in *. clearbody q.
  split; [lia|]. split; [intros Hq; right; assert (100 <= q) by lia; nia|].
  intros [[]|[_ Hle]]; [done|]. assert (100 <= q); [nia|lia].
Qed.

Lemma delivery_progress_in_bounds_witness :
  0 <= progress_percent (mkDeliveryRow "c" "r" "d" "a" "apk" "DOWNLOADING" 1 3 "" 0) <= 100
  /\ progress_percent (mkDeliveryRow "c" "r" "d" "a" "apk" "DOWNLOADING" 1 3 "" 0) = 33.
Proof.
  split; [|vm_compute; reflexivity].
  apply (delivery_progress_in_bounds (mkDeliveryRow "c" "r" "d" "a" "apk" "DOWNLOADING" 1 3 "" 0)); vm_compute; discriminate.
Defined.
