(* ===== verification/EdgeHub.v ===== *)
(** * The edge hub: session.py and sqlite_hub_store.py

    Two stores keep the stream state of every edge: the in-memory one and the
    SQLite one, which survives a restart. [HubStore] is the protocol class of
    session.py; [HubStoreSpec] is what a store promises, stated on an abstract
    view of one edge's stream; both stores are instances. A queue of
    [live_queue] is a number and its contents, kept by the store as long as it
    is subscribed: the generator that reads it unsubscribes when it ends. *)

From stdpp Require Import base gmap strings list.
From Stdlib Require Import ZArith Lia Sorting.Sorted.
From S2P Require Import Prelude PyStd EdgeMessages.

Open Scope Z_scope.

(** What the hub's coroutines raise; [HubIntegrityError] and [HubOverflowError]
    are those of sqlite3. [SessionError] and [DebugRelayError] are [ValueError]s, as
    is [HubValueError], raised by the libraries. *)
Inductive hub_error : Type :=
| HubIntegrityError
| HubOverflowError
| ConnectionClosedOK
| ConnectionClosedError
| WaitTimeout
| SessionError (detail : string)
| DebugRelayError (detail : string)
| HubValueError (detail : string).

(** ** The protocol [HubStore] *)

Class HubStore (S : Type) := mkHubStore {
  append_cloud : string -> option cloud_body -> S -> result hub_error (CloudToEdge * S);
  acknowledge_cloud : string -> Z -> S -> result hub_error (unit * S);
  replay_cloud : string -> Z -> S -> result hub_error (list CloudToEdge);
  record_edge : string -> EdgeToCloud -> S -> result hub_error (bool * S);
  last_edge_sequence : string -> S -> Z;
  last_cloud_sequence : string -> S -> Z;
  live_queue : string -> nat -> S -> S;
  remove_live_queue : string -> nat -> S -> S;
  queue_get : string -> nat -> S -> option (CloudToEdge * S);
}.

Definition moved_behind : hub_error := SessionError "Edge cloud acknowledgement moved behind durable watermark".
Definition never_emitted : hub_error := SessionError "Edge acknowledged a cloud sequence that was never emitted".
Definition not_positive : hub_error := SessionError "Edge sequence must be positive".
Definition edge_reused : hub_error := SessionError "same Edge sequence was reused with different content".
Definition edge_gap (expected got : Z) : hub_error :=
  SessionError ("Edge sequence gap: expected " +:+ py_str_int expected +:+ ", got " +:+ py_str_int got).

(** ** The live queues of an edge *)

Abbreviation queues := (gmap nat (list CloudToEdge)).
Definition put_all (message : CloudToEdge) (qs : queues) : queues := (fun q => q ++ [message]) <$> qs.
Definition get_from (queue : nat) (qs : queues) : option (CloudToEdge * queues) :=
  match qs !! queue with
  | Some (message :: rest) => Some (message, <[queue := rest]> qs)
  | _ => None
  end.

(** ** [InMemoryHubStore] *)

Module Memory.

Record edge_state := mkEdgeState {
  es_cloud_messages : list CloudToEdge;
  es_edge_messages : gmap Z EdgeToCloud;
  es_last_cloud_sequence : Z;
  es_cloud_ack_watermark : Z;
  es_subscribers : queues;
}.
#[export] Instance edge_state_eta : Eta edge_state := fun s => mkEdgeState (es_cloud_messages s)
  (es_edge_messages s) (es_last_cloud_sequence s) (es_cloud_ack_watermark s) (es_subscribers s).
Definition new_edge_state : edge_state := mkEdgeState [] ∅ 0 0 ∅.

(** [defaultdict(_EdgeState)]. *)
Abbreviation store := (gmap string edge_state).
Definition state_of (edge_id : string) (s : store) : edge_state := default new_edge_state (s !! edge_id).

Definition append_cloud (edge_id : string) (body : option cloud_body) (s : store) : CloudToEdge * store :=
  let state := state_of edge_id s in
  let sequence := es_last_cloud_sequence state + 1 in
  let stored := (sequence, body) in
  (stored, <[edge_id := state <| es_last_cloud_sequence := sequence |>
                              <| es_cloud_messages := es_cloud_messages state ++ [stored] |>
                              <| es_subscribers := put_all stored (es_subscribers state) |>]> s).

Definition acknowledge_cloud (edge_id : string) (through_sequence : Z) (s : store) : result hub_error (unit * store) :=
  let state := state_of edge_id s in
  if decide (through_sequence < es_cloud_ack_watermark state) then Err moved_behind
  else if decide (through_sequence > es_last_cloud_sequence state) then Err never_emitted
  else Ok (tt, <[edge_id := state <| es_cloud_ack_watermark := through_sequence |>
             <| es_cloud_messages := filter (fun m : CloudToEdge => m.1 > through_sequence) (es_cloud_messages state) |>]> s).

Definition replay_cloud (edge_id : string) (after_sequence : Z) (s : store) : result hub_error (list CloudToEdge) :=
  Ok (filter (fun m : CloudToEdge => m.1 > after_sequence) (es_cloud_messages (state_of edge_id s))).

Definition record_edge (edge_id : string) (message : EdgeToCloud) (s : store) : result hub_error (bool * store) :=
  if decide (message.1 < 1) then Err not_positive
  else
    let state := state_of edge_id s in
    match es_edge_messages state !! message.1 with
    | Some existing => if decide (existing <> message) then Err edge_reused else Ok (false, s)
    | None =>
        let expected := Z.of_nat (size (es_edge_messages state)) + 1 in
        if decide (message.1 <> expected) then Err (edge_gap expected message.1)
        else Ok (true, <[edge_id := state <| es_edge_messages := <[message.1 := message]> (es_edge_messages state) |>]> s)
    end.

Definition last_edge_sequence (edge_id : string) (s : store) : Z := Z.of_nat (size (es_edge_messages (state_of edge_id s))).
Definition last_cloud_sequence (edge_id : string) (s : store) : Z := es_last_cloud_sequence (state_of edge_id s).

Definition on_queues (edge_id : string) (f : queues -> queues) (s : store) : store :=
  let state := state_of edge_id s in <[edge_id := state <| es_subscribers := f (es_subscribers state) |>]> s.
Definition live_queue (edge_id : string) (queue : nat) : store -> store := on_queues edge_id (<[queue := []]>).
Definition remove_live_queue (edge_id : string) (queue : nat) : store -> store := on_queues edge_id (delete queue).
Definition queue_get (edge_id : string) (queue : nat) (s : store) : option (CloudToEdge * store) :=
  (fun '(m, qs) => (m, on_queues edge_id (fun _ => qs) s)) <$> get_from queue (es_subscribers (state_of edge_id s)).

#[export] Instance hub_store : HubStore store := {|
  EdgeHub.append_cloud e b s := Ok (append_cloud e b s); EdgeHub.acknowledge_cloud := acknowledge_cloud;
  EdgeHub.replay_cloud := replay_cloud; EdgeHub.record_edge := record_edge;
  EdgeHub.last_edge_sequence := last_edge_sequence; EdgeHub.last_cloud_sequence := last_cloud_sequence;
  EdgeHub.live_queue := live_queue; EdgeHub.remove_live_queue := remove_live_queue; EdgeHub.queue_get := queue_get;
|}.

End Memory.

(** ** [SqliteHubStore] *)

Module Sqlite.

(** SQLite's integers have 64 bits: binding a larger one (a sequence of the
    wire is a uint64) raises OverflowError, and the transaction is undone. *)
Definition max_integer : Z := 2 ^ 63 - 1.

(** A row of hub_edge_state. *)
Record state_row := mkStateRow { sr_last_cloud : Z; sr_watermark : Z; sr_last_edge : Z }.
#[export] Instance state_row_eta : Eta state_row := fun r => mkStateRow (sr_last_cloud r) (sr_watermark r) (sr_last_edge r).

(** A row of hub_cloud_message: the payload is the stored message. *)
Record cloud_row := mkCloudRow { cr_edge_id : string; cr_sequence : Z; cr_payload : CloudToEdge }.

(** The three tables, and the subscribers, which live in the process. *)
Record store := mkStore {
  st_state : gmap string state_row;
  st_cloud : list cloud_row;
  st_edge : gmap (string * Z) EdgeToCloud;
  st_subscribers : gmap string queues;
}.
#[export] Instance store_eta : Eta store := fun s => mkStore (st_state s) (st_cloud s) (st_edge s) (st_subscribers s).
Definition new_store : store := mkStore ∅ [] ∅ ∅.

(** [_state]: the row, inserted with zeros when missing. *)
Definition state_of (edge_id : string) (s : store) : state_row := default (mkStateRow 0 0 0) (st_state s !! edge_id).
Definition set_state (edge_id : string) (r : state_row) (s : store) : store := s <| st_state := <[edge_id := r]> (st_state s) |>.
Definition queues_of (edge_id : string) (s : store) : queues := default ∅ (st_subscribers s !! edge_id).
Definition on_queues (edge_id : string) (f : queues -> queues) (s : store) : store :=
  s <| st_subscribers := <[edge_id := f (queues_of edge_id s)]> (st_subscribers s) |>.

Definition append_cloud (edge_id : string) (body : option cloud_body) (s : store) : result hub_error (CloudToEdge * store) :=
  let state := state_of edge_id s in
  let sequence := sr_last_cloud state + 1 in
  let stored := (sequence, body) in
  if decide (sequence > max_integer) then Err HubOverflowError
  else if decide (Exists (fun r => cr_edge_id r = edge_id /\ cr_sequence r = sequence) (st_cloud s)) then Err HubIntegrityError
  else
    let s := s <| st_cloud := st_cloud s ++ [mkCloudRow edge_id sequence stored] |> in
    let s := set_state edge_id (state <| sr_last_cloud := sequence |>) s in
    Ok (stored, on_queues edge_id (put_all stored) s).

Definition acknowledge_cloud (edge_id : string) (through_sequence : Z) (s : store) : result hub_error (unit * store) :=
  if decide (through_sequence < 0) then Err (SessionError "Edge cloud acknowledgement cannot be negative")
  else
    let state := state_of edge_id s in
    if decide (through_sequence < sr_watermark state) then Err moved_behind
    else if decide (through_sequence > sr_last_cloud state) then
      if decide (sr_last_cloud state <> 0 \/ sr_watermark state <> 0) then Err never_emitted
      else if decide (through_sequence > max_integer) then Err HubOverflowError
      else Ok (tt, set_state edge_id (state <| sr_last_cloud := through_sequence |> <| sr_watermark := through_sequence |>) s)
    else
      let s := set_state edge_id (state <| sr_watermark := through_sequence |>) s in
      Ok (tt, s <| st_cloud := filter (fun r => ~ (cr_edge_id r = edge_id /\ cr_sequence r <= through_sequence)) (st_cloud s) |>).

Definition in_order (a b : cloud_row) : bool := bool_decide (cr_sequence a <= cr_sequence b).
Definition replay_cloud (edge_id : string) (after_sequence : Z) (s : store) : result hub_error (list CloudToEdge) :=
  if decide (after_sequence > max_integer) then Err HubOverflowError
  else Ok (cr_payload <$> isort in_order
    (filter (fun r => cr_edge_id r = edge_id /\ cr_sequence r > after_sequence) (st_cloud s))).

Definition record_edge (edge_id : string) (message : EdgeToCloud) (s : store) : result hub_error (bool * store) :=
  if decide (message.1 < 1) then Err not_positive
  else if decide (message.1 > max_integer) then Err HubOverflowError
  else
    let state := state_of edge_id s in
    match st_edge s !! (edge_id, message.1) with
    | Some existing => if decide (existing <> message) then Err edge_reused else Ok (false, s)
    | None =>
        let expected := sr_last_edge state + 1 in
        if decide (message.1 <> expected) then Err (edge_gap expected message.1)
        else
          let s := s <| st_edge := <[(edge_id, message.1) := message]> (st_edge s) |> in
          Ok (true, set_state edge_id (state <| sr_last_edge := message.1 |>) s)
    end.

Definition last_edge_sequence (edge_id : string) (s : store) : Z := sr_last_edge (state_of edge_id s).
Definition last_cloud_sequence (edge_id : string) (s : store) : Z := sr_last_cloud (state_of edge_id s).

Definition live_queue (edge_id : string) (queue : nat) : store -> store := on_queues edge_id (<[queue := []]>).
Definition remove_live_queue (edge_id : string) (queue : nat) : store -> store := on_queues edge_id (delete queue).
Definition queue_get (edge_id : string) (queue : nat) (s : store) : option (CloudToEdge * store) :=
  (fun '(m, qs) => (m, on_queues edge_id (fun _ => qs) s)) <$> get_from queue (queues_of edge_id s).

(** A new process on the same file. *)
Definition restarted (s : store) : store := s <| st_subscribers := ∅ |>.

#[export] Instance hub_store : HubStore store := {|
  EdgeHub.append_cloud := append_cloud; EdgeHub.acknowledge_cloud := acknowledge_cloud;
  EdgeHub.replay_cloud := replay_cloud; EdgeHub.record_edge := record_edge;
  EdgeHub.last_edge_sequence := last_edge_sequence; EdgeHub.last_cloud_sequence := last_cloud_sequence;
  EdgeHub.live_queue := live_queue; EdgeHub.remove_live_queue := remove_live_queue; EdgeHub.queue_get := queue_get;
|}.

End Sqlite.

(** ** What a store promises: the stream of one edge

    The pending cloud messages, the messages received from the edge in order
    (message [n] is the [n]-th), and the live queues. *)

Record edge_view := mkView {
  v_last_cloud : Z;
  v_watermark : Z;
  v_pending : list CloudToEdge;
  v_received : list (option edge_body);
  v_queues : queues;
}.
#[export] Instance edge_view_eta : Eta edge_view :=
  fun v => mkView (v_last_cloud v) (v_watermark v) (v_pending v) (v_received v) (v_queues v).
Definition new_view : edge_view := mkView 0 0 [] [] ∅.

Definition spec_append (body : option cloud_body) (v : edge_view) : CloudToEdge * edge_view :=
  let stored := (v_last_cloud v + 1, body) in
  (stored, v <| v_last_cloud := v_last_cloud v + 1 |> <| v_pending := v_pending v ++ [stored] |>
             <| v_queues := put_all stored (v_queues v) |>).

Definition spec_acknowledge (through : Z) (v : edge_view) : result hub_error (unit * edge_view) :=
  if decide (through < v_watermark v) then Err moved_behind
  else if decide (through > v_last_cloud v) then Err never_emitted
  else Ok (tt, v <| v_watermark := through |> <| v_pending := filter (fun m : CloudToEdge => m.1 > through) (v_pending v) |>).

Definition spec_replay (after : Z) (v : edge_view) : list CloudToEdge :=
  filter (fun m : CloudToEdge => m.1 > after) (v_pending v).

Definition spec_record (message : EdgeToCloud) (v : edge_view) : result hub_error (bool * edge_view) :=
  if decide (message.1 < 1) then Err not_positive
  else match v_received v !! Z.to_nat (message.1 - 1) with
       | Some body => if decide (body <> message.2) then Err edge_reused else Ok (false, v)
       | None =>
           let expected := Z.of_nat (length (v_received v)) + 1 in
           if decide (message.1 <> expected) then Err (edge_gap expected message.1)
           else Ok (true, v <| v_received := v_received v ++ [message.2] |>)
       end.

Definition spec_queue_get (queue : nat) (v : edge_view) : option (CloudToEdge * edge_view) :=
  (fun '(m, qs) => (m, v <| v_queues := qs |>)) <$> get_from queue (v_queues v).

(** Acknowledging past the end of a stream that was never used: the SQLite
    store takes the edge's word for it. *)
Definition bootstraps (through : Z) (v : edge_view) : Prop :=
  v_last_cloud v = 0 /\ v_watermark v = 0 /\ through > 0.

Section Implements.
Context {S : Type} (view : S -> string -> edge_view) (ok : S -> Prop).

(** [s'] is [s] with the stream of [e] replaced by [v]. *)
Definition advances (s : S) (e : string) (s' : S) (v : edge_view) : Prop :=
  ok s' /\ forall e', view s' e' = if decide (e' = e) then v else view s e'.

Definition implements {A} (s : S) (e : string) (r : result hub_error (A * S)) (rv : result hub_error (A * edge_view)) : Prop :=
  match r, rv with
  | Ok (a, s'), Ok (a', v) => a = a' /\ advances s e s' v
  | Err x, Err y => x = y
  | _, _ => False
  end.
End Implements.

(** The largest number a store can hold, when there is one. *)
Definition fits (limit : option Z) (n : Z) : Prop := from_option (fun l => n <= l) True limit.
#[export] Instance fits_dec limit n : Decision (fits limit n).
Proof. destruct limit; cbn; apply _. Defined.
Lemma fits_le limit n m : m <= n -> fits limit n -> fits limit m.
Proof. destruct limit; cbn; lia. Qed.

Class HubStoreSpec (S : Type) `{HubStore S} := mkHubStoreSpec {
  view : S -> string -> edge_view;
  store_ok : S -> Prop;
  empty_store : S;
  limit : option Z;
  empty_ok : store_ok empty_store;
  empty_view e : view empty_store e = new_view;
  append_spec s e body : store_ok s ->
    implements view store_ok s e (append_cloud e body s)
      (if decide (fits limit (v_last_cloud (view s e) + 1)) then Ok (spec_append body (view s e)) else Err HubOverflowError);
  acknowledge_spec s e n : store_ok s -> 0 <= n -> ~ bootstraps n (view s e) ->
    implements view store_ok s e (acknowledge_cloud e n s) (spec_acknowledge n (view s e));
  replay_spec s e n : store_ok s ->
    replay_cloud e n s = if decide (fits limit n) then Ok (spec_replay n (view s e)) else Err HubOverflowError;
  record_spec s e m : store_ok s ->
    implements view store_ok s e (record_edge e m s)
      (if decide (fits limit m.1) then spec_record m (view s e) else Err HubOverflowError);
  last_cloud_fits s e : store_ok s -> fits limit (v_last_cloud (view s e));
  last_edge_spec s e : store_ok s -> last_edge_sequence e s = Z.of_nat (length (v_received (view s e)));
  last_cloud_spec s e : store_ok s -> last_cloud_sequence e s = v_last_cloud (view s e);
  live_queue_spec s e q : store_ok s ->
    advances view store_ok s e (live_queue e q s) ((view s e) <| v_queues := <[q := []]> (v_queues (view s e)) |>);
  remove_queue_spec s e q : store_ok s ->
    advances view store_ok s e (remove_live_queue e q s) ((view s e) <| v_queues := delete q (v_queues (view s e)) |>);
  queue_get_spec s e q : store_ok s ->
    match queue_get e q s, spec_queue_get q (view s e) with
    | Some (m, s'), Some (m', v) => m = m' /\ advances view store_ok s e s' v
    | None, None => True
    | _, _ => False
    end;
}.

(** ** Logs numbered 1, 2, ..., n *)

Section Log.
Context (get : Z -> option EdgeToCloud) (n : Z).

Definition log_ok : Prop :=
  0 <= n /\ (forall i, is_Some (get i) <-> 1 <= i <= n) /\ (forall i m, get i = Some m -> m.1 = i).
Definition log_view : list (option edge_body) := (fun i => default None (snd <$> get i)) <$> seqZ 1 n.

Lemma log_view_length : log_ok -> Z.of_nat (length log_view) = n.
Proof. intros [Hn _]. unfold log_view. rewrite length_fmap, length_seqZ. lia. Qed.

Lemma log_view_lookup i : log_ok -> 1 <= i -> log_view !! Z.to_nat (i - 1) = snd <$> get i.
Proof.
  intros (Hn & Hd & _) Hi. unfold log_view. rewrite list_lookup_fmap. destruct (decide (i <= n)).
  - rewrite lookup_seqZ_lt by lia. cbn. replace (1 + Z.of_nat (Z.to_nat (i - 1))) with i by lia.
    destruct (proj2 (Hd i)) as [m ->]; [lia|done].
  - rewrite lookup_seqZ_ge by lia. cbn. destruct (get i) eqn:E; [|done].
    assert (is_Some (get i)) as Hs by by rewrite E. apply Hd in Hs. lia.
Qed.
End Log.

Lemma log_snoc get get' n b :
  log_ok get n -> (forall i, get' i = if decide (i = n + 1) then Some (n + 1, b) else get i) ->
  log_ok get' (n + 1) /\ log_view get' (n + 1) = log_view get n ++ [b].
Proof.
  intros (Hn & Hd & Hk) Hg. split.
  - split; [lia|]. split.
    + intros i. rewrite Hg. case_decide as D; [split; [lia|by eauto]|]. rewrite Hd. lia.
    + intros i m. rewrite Hg. case_decide as D; [intros [= <-]; done|apply Hk].
  - unfold log_view. rewrite seqZ_snoc, fmap_app by lia. cbn. rewrite Hg, decide_True by lia. cbn. f_equal.
    apply list_fmap_ext. intros j i Hi. apply lookup_seqZ in Hi as [-> ?]. by rewrite Hg, decide_False by lia.
Qed.

(** Both stores record an edge message the same way, from a log of their own. *)
Lemma spec_record_log get n m v : log_ok get n -> v_received v = log_view get n ->
  spec_record m v =
    if decide (m.1 < 1) then Err not_positive
    else match get m.1 with
         | Some existing => if decide (existing <> m) then Err edge_reused else Ok (false, v)
         | None => if decide (m.1 <> n + 1) then Err (edge_gap (n + 1) m.1)
                   else Ok (true, v <| v_received := log_view get n ++ [m.2] |>)
         end.
Proof.
  intros Hl Hv. unfold spec_record. case_decide as D; [done|]. rewrite Hv, (log_view_lookup get n) by (done || lia).
  rewrite log_view_length by done. destruct (get m.1) as [x|] eqn:E; cbn; [|done].
  apply decide_ext. destruct Hl as (_ & _ & Hk). apply Hk in E. destruct x as [i b], m as [j c]. cbn in *. subst. naive_solver.
Qed.

(** ** The in-memory store keeps the promise *)

Module MemorySpec.
Import Memory.

Definition get (st : edge_state) (i : Z) : option EdgeToCloud := es_edge_messages st !! i.
Definition len (st : edge_state) : Z := Z.of_nat (size (es_edge_messages st)).
Definition view_of (st : edge_state) : edge_view :=
  mkView (es_last_cloud_sequence st) (es_cloud_ack_watermark st) (es_cloud_messages st) (log_view (get st) (len st))
    (es_subscribers st).
Definition view (s : store) (e : string) : edge_view := view_of (state_of e s).
Definition ok (s : store) : Prop := forall e, log_ok (get (state_of e s)) (len (state_of e s)).

Lemma state_of_insert e st s e' : state_of e' (<[e := st]> s) = if decide (e' = e) then st else state_of e' s.
Proof.
  unfold state_of. case_decide as D; [subst; by rewrite lookup_insert_eq|by rewrite lookup_insert_ne].
Qed.

Lemma state_of_empty e : state_of e ∅ = new_edge_state.
Proof. unfold state_of. by rewrite lookup_empty. Qed.

Lemma advances_insert s e st : ok s -> log_ok (get st) (len st) -> advances view ok s e (<[e := st]> s) (view_of st).
Proof.
  intros Hs Hl. split.
  - intros e'. rewrite !state_of_insert. by case_decide.
  - intros e'. unfold view. rewrite state_of_insert. by case_decide.
Qed.

Lemma advances_refl s e : ok s -> advances view ok s e s (view s e).
Proof. intros Hs. split; [done|]. intros e'. case_decide; by subst. Qed.

Lemma record_ok s e m : ok s -> implements view ok s e (record_edge e m s)
  (if decide (fits None m.1) then spec_record m (view s e) else Err HubOverflowError).
Proof.
  intros Hs. rewrite decide_True by done. unfold record_edge. set (st := state_of e s).
  rewrite (spec_record_log (get st) (len st) m (view s e) (Hs e) eq_refl).
  case_decide; [done|]. change (es_edge_messages st !! m.1) with (get st m.1). destruct (get st m.1) as [x|] eqn:Eg.
  { case_decide; [done|]. split; [done|]. by apply advances_refl. }
  change (Z.of_nat (size (es_edge_messages st)) + 1) with (len st + 1). case_decide as D; [done|].
  assert (m.1 = len st + 1) as Em by (destruct (decide (m.1 = len st + 1)); [done|by destruct D]).
  split; [done|]. set (st' := st <| es_edge_messages := <[m.1 := m]> (es_edge_messages st) |>).
  assert (len st' = len st + 1) as El.
  { unfold len. cbn. rewrite map_size_insert. unfold get in Eg. rewrite Eg. lia. }
  destruct (log_snoc (get st) (get st') (len st) m.2 (Hs e)) as [Hok Hv].
  - intros i. unfold get. cbn. case_decide as Di.
    + rewrite Di, <- Em, lookup_insert_eq. by rewrite <- surjective_pairing.
    + rewrite lookup_insert_ne; [done|congruence].
  - rewrite <- El in Hok, Hv. rewrite <- Hv. by apply advances_insert.
Qed.

#[export] Instance spec : HubStoreSpec store.
Proof.
  refine (mkHubStoreSpec store _ view ok ∅ None _ _ _ _ _ record_ok _ _ _ _ _ _).
  - intros e. rewrite state_of_empty. split; [done|]. split; [|done]. intros i. split; [by intros []|change (len new_edge_state) with 0; lia].
  - intros e. unfold view. by rewrite state_of_empty.
  - intros s e body Hs. rewrite decide_True by done. split; [done|]. apply advances_insert; [done|exact (Hs e)].
  - intros s e n Hs Hn _. cbn. unfold acknowledge_cloud, spec_acknowledge. cbn.
    case_decide; [done|]. case_decide; [done|]. split; [done|]. apply advances_insert; [done|exact (Hs e)].
  - intros s e n Hs. by rewrite decide_True.
  - done.
  - intros s e Hs. symmetry. apply log_view_length, (Hs e).
  - done.
  - intros s e q Hs. apply advances_insert; [done|exact (Hs e)].
  - intros s e q Hs. apply advances_insert; [done|exact (Hs e)].
  - intros s e q Hs. cbn. unfold queue_get, spec_queue_get. cbn. destruct (get_from q _) as [[m qs]|]; cbn; [|done].
    split; [done|]. apply advances_insert; [done|exact (Hs e)].
Defined.

End MemorySpec.

(** ** The SQLite store keeps the promise *)

Module SqliteSpec.
Import Sqlite.

Definition get (e : string) (s : store) (i : Z) : option EdgeToCloud := st_edge s !! (e, i).
Definition rows (e : string) (s : store) : list cloud_row := filter (fun r => cr_edge_id r = e) (st_cloud s).
Definition view (s : store) (e : string) : edge_view :=
  let r := state_of e s in
  mkView (sr_last_cloud r) (sr_watermark r) (cr_payload <$> rows e s) (log_view (get e s) (sr_last_edge r)) (queues_of e s).

Definition before (a b : cloud_row) : Prop := cr_sequence a < cr_sequence b.
Definition row_ok (r : state_row) (c : cloud_row) : Prop := cr_sequence c <= sr_last_cloud r /\ (cr_payload c).1 = cr_sequence c.
(** The message rows of [e]: in sequence order, none past the end. *)
Record edge_ok (r : state_row) (l : list cloud_row) (g : Z -> option EdgeToCloud) : Prop := mkEdgeOk {
  ok_log : log_ok g (sr_last_edge r);
  ok_sorted : StronglySorted before l;
  ok_rows : Forall (row_ok r) l;
  ok_fits : sr_last_cloud r <= max_integer;
}.
Definition ok (s : store) : Prop := forall e, edge_ok (state_of e s) (rows e s) (get e s).

Lemma log_ext g g' n : (forall i, g i = g' i) -> log_view g n = log_view g' n.
Proof. intros H. apply list_fmap_ext. intros j i _. by rewrite H. Qed.

Lemma edge_ok_ext r l g g' : (forall i, g i = g' i) -> edge_ok r l g' -> edge_ok r l g.
Proof. intros H [(H1 & H2 & H3) H4 H5 H6]. split; try done. split; [done|]. split; intros i; rewrite H; auto. Qed.

(** An operation on [e] that leaves the tables of [e] as [r], [l], [g], [q]
    and those of the other edges alone. *)
Lemma advances_tables s e s' r l g q :
  ok s -> edge_ok r l g ->
  (forall e', state_of e' s' = if decide (e' = e) then r else state_of e' s) ->
  (forall e', rows e' s' = if decide (e' = e) then l else rows e' s) ->
  (forall e' i, get e' s' i = if decide (e' = e) then g i else get e' s i) ->
  (forall e', queues_of e' s' = if decide (e' = e) then q else queues_of e' s) ->
  advances view ok s e s' (mkView (sr_last_cloud r) (sr_watermark r) (cr_payload <$> l) (log_view g (sr_last_edge r)) q).
Proof.
  intros Hs Hok H1 H2 H3 H4. split; intros e'; unfold view; rewrite H1, H2, ?H4; specialize (H3 e'); case_decide.
  - by eapply edge_ok_ext.
  - by eapply edge_ok_ext.
  - f_equal. by apply log_ext.
  - f_equal. by apply log_ext.
Qed.

Lemma same_table {A} (f : string -> A) e e' : f e' = if decide (e' = e) then f e else f e'.
Proof. by case_decide as D; [rewrite D|]. Qed.

Lemma state_of_set e r s e' : state_of e' (set_state e r s) = if decide (e' = e) then r else state_of e' s.
Proof.
  unfold state_of, set_state. cbn. case_decide as D; [subst; by rewrite lookup_insert_eq|by rewrite lookup_insert_ne].
Qed.
Lemma queues_of_on e f s e' : queues_of e' (on_queues e f s) = if decide (e' = e) then f (queues_of e s) else queues_of e' s.
Proof.
  unfold queues_of at 1, on_queues. cbn. case_decide as D; [subst; by rewrite lookup_insert_eq|by rewrite lookup_insert_ne].
Qed.
Lemma rows_append e n m s e' :
  filter (fun r => cr_edge_id r = e') (st_cloud s ++ [mkCloudRow e n m])
  = if decide (e' = e) then rows e s ++ [mkCloudRow e n m] else rows e' s.
Proof.
  rewrite filter_app, filter_cons, filter_nil. cbn. case_decide as D.
  - by rewrite decide_True by done; subst.
  - rewrite decide_False by congruence. by rewrite app_nil_r.
Qed.
Lemma rows_compact e n s e' :
  filter (fun r => cr_edge_id r = e') (filter (fun r => ~ (cr_edge_id r = e /\ cr_sequence r <= n)) (st_cloud s))
  = if decide (e' = e) then filter (fun r => cr_sequence r > n) (rows e s) else rows e' s.
Proof.
  unfold rows. case_decide as D; [subst|]; rewrite ?list_filter_filter; apply filter_ext_In; intros r _; split; intros H; try lia.
  - split; [|tauto]. destruct (decide (cr_sequence r <= n)); [|lia]. tauto.
  - split; [tauto|]. intros [_ ?]. lia.
  - tauto.
  - split; [done|]. intros [? _]. congruence.
Qed.

Lemma advances_queues s e f : ok s ->
  advances view ok s e (on_queues e f s) ((view s e) <| v_queues := f (v_queues (view s e)) |>).
Proof.
  intros Hs. apply (advances_tables s e _ (state_of e s) (rows e s) (get e s)); [done|apply Hs|..].
  - apply (same_table (fun e' => state_of e' s)).
  - apply (same_table (fun e' => rows e' s)).
  - intros e' i. apply (same_table (fun e' => get e' s i)).
  - apply queues_of_on.
Qed.

Lemma sqlite_advances_refl s e : ok s -> advances view ok s e s (view s e).
Proof. intros Hs. split; [done|]. intros e'. by case_decide as D; [rewrite D|]. Qed.

Lemma append_ok s e body : ok s -> implements view ok s e (append_cloud e body s)
  (if decide (fits (Some max_integer) (v_last_cloud (view s e) + 1)) then Ok (spec_append body (view s e)) else Err HubOverflowError).
Proof.
  intros Hs. destruct (Hs e) as [Hlog Hsort Hrows _]. unfold append_cloud. rewrite Forall_forall in Hrows. cbn [fits from_option].
  change (v_last_cloud (view s e)) with (sr_last_cloud (state_of e s)).
  destruct (decide (sr_last_cloud (state_of e s) + 1 <= max_integer)) as [Df|Df]; [|by rewrite decide_True by lia].
  rewrite decide_False by lia. rewrite decide_False.
  2: { rewrite <- Forall_Exists_neg. apply Forall_forall. intros r Hr [E1 E2].
       destruct (Hrows r) as [Hle _]; [by apply list_elem_of_filter|lia]. }
  split; [done|]. set (r := state_of e s) in *. set (n := sr_last_cloud r + 1).
  assert (edge_ok (r <| sr_last_cloud := n |>) (rows e s ++ [mkCloudRow e n (n, body)]) (get e s)) as Hok.
  { split; [done| | |].
    - apply StronglySorted_snoc; [done|]. apply Forall_forall. intros x Hx. destruct (Hrows x Hx). unfold before. cbn. lia.
    - apply Forall_app. split; [|by apply Forall_singleton]. apply Forall_forall. intros x Hx. destruct (Hrows x Hx).
      split; cbn; [lia|done].
    - exact Df. }
  set (s1 := s <| st_cloud := st_cloud s ++ [mkCloudRow e n (n, body)] |>).
  set (s2 := set_state e (r <| sr_last_cloud := n |>) s1).
  pose proof (advances_tables s e (on_queues e (put_all (n, body)) s2) _ _ _ (put_all (n, body) (queues_of e s)) Hs Hok) as Ha.
  rewrite fmap_app in Ha. apply Ha.
  - exact (state_of_set e _ s1).
  - apply rows_append.
  - intros e' i. apply (same_table (fun e' => get e' s i)).
  - exact (queues_of_on e _ s2).
Qed.

Lemma compact_ok s e n : ok s ->
  let r := (state_of e s) <| sr_watermark := n |> in
  edge_ok r (filter (fun c => cr_sequence c > n) (rows e s)) (get e s).
Proof.
  intros Hs. destruct (Hs e) as [Hlog Hsort Hrows Hfits]. split; [done|by apply StronglySorted_filter| |exact Hfits].
  rewrite Forall_forall in *. intros c [_ Hc]%list_elem_of_filter. by apply Hrows.
Qed.

Lemma payloads_above s e n : ok s ->
  cr_payload <$> filter (fun c => cr_sequence c > n) (rows e s)
  = filter (fun m : CloudToEdge => m.1 > n) (cr_payload <$> rows e s).
Proof.
  intros Hs. destruct (Hs e) as [_ _ Hrows _]. rewrite Forall_forall in Hrows.
  rewrite <- (fmap_filter_key cr_payload (fun m : CloudToEdge => m.1 > n)).
  f_equal. apply filter_ext_In. intros c Hc. destruct (Hrows c Hc) as [_ ->]. done.
Qed.

Lemma sqlite_acknowledge_ok s e n : ok s -> 0 <= n -> ~ bootstraps n (view s e) ->
  implements view ok s e (acknowledge_cloud e n s) (spec_acknowledge n (view s e)).
Proof.
  intros Hs Hn Hb. unfold acknowledge_cloud, spec_acknowledge. rewrite decide_False by lia. cbn.
  case_decide; [done|]. case_decide as Dl.
  { rewrite decide_True; [done|]. unfold bootstraps in Hb. cbn in Hb.
    destruct (decide (sr_last_cloud (state_of e s) = 0)), (decide (sr_watermark (state_of e s) = 0)); try tauto. lia. }
  split; [done|]. rewrite <- payloads_above by done. set (r := (state_of e s) <| sr_watermark := n |>).
  apply (advances_tables s e _ r _ (get e s) (queues_of e s) Hs (compact_ok s e n Hs)).
  - exact (state_of_set e r s).
  - apply rows_compact.
  - intros e' i. apply (same_table (fun e' => get e' s i)).
  - apply (same_table (fun e' => queues_of e' s)).
Qed.

Lemma replay_ok s e n : ok s ->
  replay_cloud e n s = if decide (fits (Some max_integer) n) then Ok (spec_replay n (view s e)) else Err HubOverflowError.
Proof.
  intros Hs. unfold replay_cloud, spec_replay. cbn. destruct (decide (n <= max_integer)) as [D|D]; [|by rewrite decide_True by lia].
  rewrite decide_False by lia. rewrite <- payloads_above by done. do 2 f_equal.
  rewrite isort_sorted_id.
  - unfold rows. rewrite list_filter_filter. apply filter_ext_In. tauto.
  - destruct (Hs e) as [_ Hsort _ _]. rewrite (filter_ext_In _ (fun r => cr_sequence r > n /\ cr_edge_id r = e)) by tauto.
    rewrite <- list_filter_filter. apply StronglySorted_filter. eapply StronglySorted_impl; [|exact Hsort].
    unfold before, in_order. intros x y Hxy. apply bool_decide_eq_true_2. lia.
Qed.

Lemma sqlite_record_ok s e m : ok s -> implements view ok s e (record_edge e m s)
  (if decide (fits (Some max_integer) m.1) then spec_record m (view s e) else Err HubOverflowError).
Proof.
  intros Hs. unfold record_edge. cbn [fits from_option]. destruct (decide (m.1 <= max_integer)) as [Df|Df].
  2: { unfold max_integer in Df. by rewrite decide_False, decide_True by (unfold max_integer; lia). }
  set (r := state_of e s). destruct (Hs e) as [Hlog Hsort Hrows Hfits].
  rewrite (decide_False (P := m.1 > max_integer)) by lia.
  rewrite (spec_record_log (get e s) (sr_last_edge r) m (view s e) Hlog eq_refl).
  case_decide; [done|]. change (st_edge s !! (e, m.1)) with (get e s m.1). destruct (get e s m.1) as [x|] eqn:Eg.
  { case_decide; [done|]. split; [done|]. by apply sqlite_advances_refl. }
  case_decide as D; [done|]. assert (m.1 = sr_last_edge r + 1) as Em by lia. split; [done|].
  set (s1 := s <| st_edge := <[(e, m.1) := m]> (st_edge s) |>).
  assert (forall e' i, get e' s1 i = if decide (e' = e) then if decide (i = sr_last_edge r + 1) then Some (sr_last_edge r + 1, m.2)
            else get e s i else get e' s i) as Hget.
  { intros e' i. unfold get. cbn. case_decide as De; [subst e'; case_decide as Di|].
    - rewrite Di, <- Em, lookup_insert_eq. by rewrite <- surjective_pairing.
    - rewrite lookup_insert_ne; congruence.
    - rewrite lookup_insert_ne; congruence. }
  destruct (log_snoc (get e s) (get e s1) (sr_last_edge r) m.2 Hlog) as [Hok Hv].
  { intros i. by rewrite Hget, decide_True. }
  rewrite <- Hv, <- Em. rewrite <- Em in Hok. set (r' := r <| sr_last_edge := m.1 |>).
  apply (advances_tables s e (set_state e r' s1) r' (rows e s) (get e s1) (queues_of e s) Hs).
  - by split.
  - exact (state_of_set e r' s1).
  - apply (same_table (fun e' => rows e' s)).
  - intros e' i. change (get e' (set_state e r' s1) i) with (get e' s1 i). rewrite (Hget e' i), (Hget e i), (decide_True (P := e = e)) by done.
    by destruct (decide (e' = e)).
  - apply (same_table (fun e' => queues_of e' s)).
Qed.

#[export] Instance spec : HubStoreSpec store.
Proof.
  refine (mkHubStoreSpec store _ view ok new_store (Some max_integer) _ _ append_ok sqlite_acknowledge_ok replay_ok sqlite_record_ok _ _ _ _ _ _).
  - intros e. split; [|constructor|constructor|done]. split; [done|]. split; [|done].
    intros i. unfold get. cbn. rewrite lookup_empty. split; [by intros []|]. change (sr_last_edge (state_of e new_store)) with 0. lia.
  - done.
  - intros s e Hs. apply (Hs e).
  - intros s e Hs. destruct (Hs e) as [Hl _ _ _]. symmetry. by apply log_view_length.
  - done.
  - intros s e q Hs. by apply (advances_queues s e (<[q := []]>)).
  - intros s e q Hs. by apply (advances_queues s e (delete q)).
  - intros s e q Hs. cbn. unfold queue_get, spec_queue_get. cbn. destruct (get_from q _) as [[m qs]|]; cbn; [|done].
    split; [done|]. by apply (advances_queues s e (fun _ => qs)).
Defined.

End SqliteSpec.

#[export] Existing Instances Memory.hub_store Sqlite.hub_store MemorySpec.spec SqliteSpec.spec.

(** ** The two stores cannot be told apart *)

Inductive hub_op : Type :=
| HAppend (e : string) (body : option cloud_body)
| HAcknowledge (e : string) (through : Z)
| HReplay (e : string) (after : Z)
| HRecord (e : string) (message : EdgeToCloud)
| HLastEdge (e : string)
| HLastCloud (e : string)
| HLive (e : string) (queue : nat)
| HRemove (e : string) (queue : nat)
| HGet (e : string) (queue : nat).

Inductive hub_answer : Type :=
| AMessage (message : CloudToEdge)
| AMessages (messages : list CloudToEdge)
| AInserted (inserted : bool)
| ANumber (n : Z)
| ADone
| ABlocked
| AError (error : hub_error).

Definition answer {A S} (s : S) (f : A -> hub_answer) (r : result hub_error (A * S)) : hub_answer * S :=
  match r with Ok (a, s') => (f a, s') | Err e => (AError e, s) end.

Section Do.
Context {S : Type} `{HubStore S}.

Definition do_op (op : hub_op) (s : S) : hub_answer * S :=
  match op with
  | HAppend e b => answer s AMessage (append_cloud e b s)
  | HAcknowledge e n => answer s (fun _ => ADone) (acknowledge_cloud e n s)
  | HReplay e n => (match replay_cloud e n s with Ok l => AMessages l | Err x => AError x end, s)
  | HRecord e m => answer s AInserted (record_edge e m s)
  | HLastEdge e => (ANumber (last_edge_sequence e s), s)
  | HLastCloud e => (ANumber (last_cloud_sequence e s), s)
  | HLive e q => (ADone, live_queue e q s)
  | HRemove e q => (ADone, remove_live_queue e q s)
  | HGet e q => match queue_get e q s with Some (m, s') => (AMessage m, s') | None => (ABlocked, s) end
  end.

Fixpoint run_hub (ops : list hub_op) (s : S) : list hub_answer * S :=
  match ops with
  | [] => ([], s)
  | op :: ops => let '(a, s) := do_op op s in let '(l, s) := run_hub ops s in (a :: l, s)
  end.
End Do.

(** The same on views: one stream per edge. *)
Definition streams : Type := string -> edge_view.
Definition set_stream (e : string) (v : edge_view) (vs : streams) : streams := fun e' => if decide (e' = e) then v else vs e'.
Definition with_stream {A} (vs : streams) (e : string) (r : result hub_error (A * edge_view)) : result hub_error (A * streams) :=
  match r with Ok (a, v) => Ok (a, set_stream e v vs) | Err x => Err x end.

#[export] Instance spec_store : HubStore streams := {|
  append_cloud e b vs := with_stream vs e (Ok (spec_append b (vs e)));
  acknowledge_cloud e n vs := with_stream vs e (spec_acknowledge n (vs e));
  replay_cloud e n vs := Ok (spec_replay n (vs e));
  record_edge e m vs := with_stream vs e (spec_record m (vs e));
  last_edge_sequence e vs := Z.of_nat (length (v_received (vs e)));
  last_cloud_sequence e vs := v_last_cloud (vs e);
  live_queue e q vs := set_stream e ((vs e) <| v_queues := <[q := []]> (v_queues (vs e)) |>) vs;
  remove_live_queue e q vs := set_stream e ((vs e) <| v_queues := delete q (v_queues (vs e)) |>) vs;
  queue_get e q vs := (fun '(m, v) => (m, set_stream e v vs)) <$> spec_queue_get q (vs e);
|}.
Definition new_streams : streams := fun _ => new_view.

(** No acknowledgement is negative or bootstraps a stream. *)
Definition tame_op (op : hub_op) (vs : streams) : Prop :=
  match op with HAcknowledge e n => 0 <= n /\ ~ bootstraps n (vs e) | _ => True end.
#[export] Instance tame_op_dec op vs : Decision (tame_op op vs).
Proof. destruct op; cbn; unfold bootstraps; apply _. Defined.

(** The numbers an operation hands to the store fit. *)
Definition op_fits (limit : option Z) (op : hub_op) (vs : streams) : Prop :=
  match op with
  | HAppend e _ => fits limit (v_last_cloud (vs e) + 1)
  | HReplay _ n => fits limit n
  | HRecord _ m => fits limit m.1
  | _ => True
  end.
#[export] Instance op_fits_dec limit op vs : Decision (op_fits limit op vs).
Proof. destruct op; cbn -[fits]; apply _. Defined.
Fixpoint tame (limit : option Z) (ops : list hub_op) (vs : streams) : bool :=
  match ops with
  | [] => true
  | op :: ops => bool_decide (tame_op op vs) && bool_decide (op_fits limit op vs) && tame limit ops (do_op op vs).2
  end.

Lemma tame_unlimited limit ops : forall vs, tame limit ops vs = true -> tame None ops vs = true.
Proof.
  induction ops as [|op ops IH]; intros vs; [done|]. cbn. intros [[H _]%andb_true_iff Hs]%andb_true_iff.
  rewrite H, (IH _ Hs), bool_decide_eq_true_2; [done|]. by destruct op.
Qed.

Section Refines.
Context {S : Type} `{HubStoreSpec S}.

Definition simulates (s : S) (vs : streams) : Prop := store_ok s /\ forall e, view s e = vs e.

Lemma simulates_empty : simulates empty_store new_streams.
Proof. split; [apply empty_ok|apply empty_view]. Qed.

Lemma simulates_advances s vs e s' v : simulates s vs -> advances view store_ok s e s' v -> simulates s' (set_stream e v vs).
Proof. intros [_ Hv] [Hok Ha]. split; [done|]. intros e'. rewrite Ha. unfold set_stream. by case_decide. Qed.

Lemma answer_simulates {A} s vs e (f : A -> hub_answer) r rv : simulates s vs -> implements view store_ok s e r rv ->
  (answer s f r).1 = (answer vs f (with_stream vs e rv)).1
  /\ simulates (answer s f r).2 (answer vs f (with_stream vs e rv)).2.
Proof.
  intros Hs Hi. destruct r as [[a s']|x], rv as [[a' v]|y]; cbn in *; [|done|done|by subst].
  destruct Hi as [<- Ha]. split; [done|]. by eapply simulates_advances.
Qed.

Lemma do_op_simulates op s vs : simulates s vs -> tame_op op vs -> op_fits limit op vs ->
  (do_op op s).1 = (do_op op vs).1 /\ simulates (do_op op s).2 (do_op op vs).2.
Proof.
  intros Hs Ht Hf. destruct (Hs) as [Hok Hv]. destruct op; cbn in Ht, Hf |- *.
  - apply (answer_simulates _ _ _ _ _ (Ok (spec_append body (vs e))) Hs). rewrite <- Hv in *.
    pose proof (append_spec s e body Hok) as Ha. by rewrite decide_True in Ha.
  - destruct Ht as [Hn Hb]. apply (answer_simulates _ _ _ _ _ _ Hs). rewrite <- Hv in *. by apply acknowledge_spec.
  - split; [|done]. by rewrite replay_spec, decide_True, Hv.
  - apply (answer_simulates _ _ _ _ _ _ Hs). rewrite <- Hv.
    pose proof (record_spec s e message Hok) as Ha. by rewrite decide_True in Ha.
  - split; [|done]. by rewrite last_edge_spec, Hv.
  - split; [|done]. by rewrite last_cloud_spec, Hv.
  - split; [done|]. rewrite <- Hv. eapply simulates_advances; [done|by apply live_queue_spec].
  - split; [done|]. rewrite <- Hv. eapply simulates_advances; [done|by apply remove_queue_spec].
  - pose proof (queue_get_spec s e queue Hok) as Hg. rewrite Hv in Hg.
    destruct (queue_get e queue s) as [[m s']|], (spec_queue_get queue (vs e)) as [[m' v]|]; cbn; try done.
    destruct Hg as [<- Ha]. split; [done|]. by eapply simulates_advances.
Qed.

Lemma run_simulates ops : forall s vs, simulates s vs -> tame limit ops vs = true -> (run_hub ops s).1 = (run_hub ops vs).1.
Proof.
  induction ops as [|op ops IH]; intros s vs Hs Ht; [done|]. cbn in *.
  apply andb_true_iff in Ht as [[Ht%bool_decide_eq_true Hf%bool_decide_eq_true]%andb_true_iff Hts].
  destruct (do_op_simulates op s vs Hs Ht Hf) as [Ha Hs']. specialize (IH _ _ Hs' Hts).
  destruct (do_op op s) as [a s'], (do_op op vs) as [a' vs']. cbn in *. subst a'.
  destruct (run_hub ops s'), (run_hub ops vs'). cbn in *. by subst.
Qed.
End Refines.

(** C27. Any sequence of store operations, over any number of edges and live
    queues, gets the same answers, errors included, from the in-memory store,
    from the SQLite store and from the abstract streams both are meant to
    implement, as long as no edge acknowledges past the end of a stream that
    was never used and no sequence number leaves the 64 bits of SQLite's
    integers. *)
Theorem stores_agree (ops : list hub_op) (H : tame (Some Sqlite.max_integer) ops new_streams = true) :
  (run_hub ops (∅ : Memory.store)).1 = (run_hub ops new_streams).1
  /\ (run_hub ops Sqlite.new_store).1 = (run_hub ops new_streams).1.
Proof.
  split; apply run_simulates.
  - exact (simulates_empty (S := Memory.store)).
  - by eapply tame_unlimited.
  - exact (simulates_empty (S := Sqlite.store)).
  - exact H.
Qed.

Lemma stores_agree_witness :
  (run_hub [HLive "e" 0; HAppend "e" (Some (CB_cancel "c")); HAcknowledge "e" 2; HRecord "e" (2, None); HGet "e" 0]
     Sqlite.new_store).1
  = [ADone; AMessage (1, Some (CB_cancel "c")); AError never_emitted; AError (edge_gap 1 2); AMessage (1, Some (CB_cancel "c"))].
Proof.
  transitivity (run_hub [HLive "e" 0; HAppend "e" (Some (CB_cancel "c")); HAcknowledge "e" 2; HRecord "e" (2, None); HGet "e" 0]
     new_streams).1; [|vm_compute; reflexivity].
  apply stores_agree. vm_compute; reflexivity.
Defined.

(** Where they differ, first: a sequence of 2^63 or more, which the wire's
    uint64 allows, is a gap to the in-memory store, an error of the protocol;
    the SQLite store raises OverflowError, which no caller expects. *)
Theorem large_sequence_overflows e n body :
  Sqlite.max_integer < n ->
  Memory.record_edge e (n, body) ∅ = Err (edge_gap 1 n)
  /\ Sqlite.record_edge e (n, body) Sqlite.new_store = Err HubOverflowError
  /\ Memory.replay_cloud e n ∅ = Ok [] /\ Sqlite.replay_cloud e n Sqlite.new_store = Err HubOverflowError.
Proof.
  unfold Sqlite.max_integer. intros Hn. unfold Memory.record_edge, Memory.replay_cloud, Sqlite.record_edge, Sqlite.replay_cloud.
  rewrite MemorySpec.state_of_empty. cbn [fst snd]. rewrite !(decide_False (P := n < 1)) by lia.
  rewrite !(decide_True (P := n > Sqlite.max_integer)) by (unfold Sqlite.max_integer; lia). split; [|done].
  change (Memory.es_edge_messages Memory.new_edge_state) with (∅ : gmap Z EdgeToCloud). rewrite lookup_empty, map_size_empty.
  rewrite decide_True by lia. done.
Qed.

Lemma large_sequence_overflows_witness :
  Sqlite.record_edge "edge" (2 ^ 63, Some (EB_other "heartbeat" "a")) Sqlite.new_store = Err HubOverflowError.
Proof. by apply large_sequence_overflows. Defined.

(** Second: the SQLite store adopts the position of an edge whose
    stream it has never seen, the in-memory store refuses it. *)
Theorem bootstrap_adopts_the_edge_position e n body :
  0 < n < Sqlite.max_integer ->
  Memory.acknowledge_cloud e n ∅ = Err never_emitted
  /\ exists s, Sqlite.acknowledge_cloud e n Sqlite.new_store = Ok (tt, s)
       /\ Sqlite.last_cloud_sequence e s = n /\ Sqlite.replay_cloud e 0 s = Ok []
       /\ exists s', Sqlite.append_cloud e body s = Ok ((n + 1, body), s') /\ Sqlite.replay_cloud e n s' = Ok [(n + 1, body)].
Proof.
  intros Hn. split.
  - unfold Memory.acknowledge_cloud. rewrite MemorySpec.state_of_empty. cbn. by rewrite decide_False, decide_True by lia.
  - unfold Sqlite.acknowledge_cloud. rewrite decide_False by lia. change (Sqlite.state_of e Sqlite.new_store) with (Sqlite.mkStateRow 0 0 0).
    cbn [Sqlite.sr_last_cloud Sqlite.sr_watermark]. rewrite decide_False by lia. rewrite decide_True by lia. rewrite decide_False by lia.
    rewrite decide_False by lia. eexists. split; [done|].
    unfold Sqlite.last_cloud_sequence, Sqlite.append_cloud, Sqlite.replay_cloud.
    rewrite SqliteSpec.state_of_set, decide_True by done. split; [done|]. split; [done|].
    cbn [Sqlite.sr_last_cloud set_with]. rewrite decide_False by (cbn; lia). rewrite decide_False by (intros Hx; inversion Hx).
    eexists. split; [done|]. rewrite decide_False by lia. cbn. by rewrite decide_True by (split; [done|lia]).
Qed.

Lemma bootstrap_adopts_the_edge_position_witness :
  Memory.acknowledge_cloud "edge-upgraded" 41 ∅ = Err never_emitted.
Proof. apply (bootstrap_adopts_the_edge_position "edge-upgraded" 41 None). done. Defined.

(** ** [EdgeHub] over a store *)

(** [EdgeMessageHandler]. *)
Abbreviation edge_handler W := (string -> EdgeToCloud -> W -> result hub_error () * W).

Section Hub.
Context {S W : Type} `{HubStore S}.

(** [EdgeHub.queue]. *)
Definition queue (edge_id : string) (body : option cloud_body) (s : S) : result hub_error (CloudToEdge * S) :=
  if decide (edge_id = "") then Err (SessionError "edge_id is required")
  else match body with
       | None => Err (SessionError "cloud message body is required")
       | Some _ => append_cloud edge_id body s
       end.

(** The registered handlers work on a state of their own. *)
Fixpoint run_handlers (handlers : list (edge_handler W)) (edge_id : string) (message : EdgeToCloud) (w : W)
    : result hub_error () * W :=
  match handlers with
  | [] => (Ok (), w)
  | h :: hs => match h edge_id message w with
               | (Ok _, w) => run_handlers hs edge_id message w
               | (Err e, w) => (Err e, w)
               end
  end.

(** [EdgeHub.accept]: the message is recorded before the handlers run; one
    that raises leaves it recorded. *)
Definition accept (handlers : list (edge_handler W)) (edge_id : string) (message : EdgeToCloud) (s : S) (w : W) : result hub_error bool * (S * W) :=
  match message.2 with
  | Some (EB_hello _ _) => (Err (SessionError "Edge hello is session metadata, not a sequenced event"), (s, w))
  | _ =>
      match record_edge edge_id message s with
      | Err e => (Err e, (s, w))
      | Ok (false, s) => (Ok false, (s, w))
      | Ok (true, s) =>
          let '(r, w) := run_handlers handlers edge_id message w in
          (match r with Ok _ => Ok true | Err e => Err e end, (s, w))
      end
  end.

(** The generator [EdgeHub.open], between its yields: its edge, its queue, the
    last sequence it yielded and what is left of the replay; [None] before
    the replay has been read. *)
Record session := mkSession { ss_edge_id : string; ss_queue : nat; ss_cursor : Z; ss_replay : option (list CloudToEdge) }.

(** Up to the first yield, the hello of the cloud. *)
Definition open (edge_id : string) (q : nat) (last_cloud_sequence_acked : Z) (s : S)
    : result hub_error (CloudToEdge * session) * S :=
  let s := live_queue edge_id q s in
  match acknowledge_cloud edge_id last_cloud_sequence_acked s with
  | Err e => (Err e, remove_live_queue edge_id q s)
  | Ok (_, s) =>
      (Ok ((0, Some (CB_hello (last_edge_sequence edge_id s))), mkSession edge_id q last_cloud_sequence_acked None), s)
  end.

(** One step towards the next yield: the message yielded, if any. *)
Definition open_next (ss : session) (s : S) : result hub_error (option CloudToEdge * session * S) :=
  match ss_replay ss with
  | None =>
      match replay_cloud (ss_edge_id ss) (ss_cursor ss) s with
      | Err e => Err e
      | Ok messages => Ok (None, mkSession (ss_edge_id ss) (ss_queue ss) (ss_cursor ss) (Some messages), s)
      end
  | Some (m :: rest) => Ok (Some m, mkSession (ss_edge_id ss) (ss_queue ss) m.1 (Some rest), s)
  | Some [] =>
      match queue_get (ss_edge_id ss) (ss_queue ss) s with
      | None => Ok (None, ss, s)
      | Some (m, s) =>
          if decide (m.1 > ss_cursor ss) then Ok (Some m, mkSession (ss_edge_id ss) (ss_queue ss) m.1 (Some []), s)
          else Ok (None, ss, s)
      end
  end.

(** The generator is closed. *)
Definition open_close (ss : session) (s : S) : S := remove_live_queue (ss_edge_id ss) (ss_queue ss) s.
End Hub.
