(* ===== verification/EdgeRunner.v ===== *)
(** * The edge scheduler and its runners: scheduler.py and runner.py

    A node is the spool and the active runners. A runner's task is in
    [nd_active] from [start] until [_run] pops it: it waits until its first
    step, which checks the fence, and ends with an outcome of the executor.
    Between two awaits a coroutine runs alone, and no lock is held across
    one, so each step below is atomic. *)

From stdpp Require Import base gmap strings list.
From Stdlib Require Import ZArith Lia Ascii.
From S2P Require Import Prelude PyStd EdgeMessages EdgeSpool.

Open Scope Z_scope.

Record runner := mkRunner { ru_command : start_command; ru_cancel : bool; ru_started : bool }.
#[export] Instance runner_eta : Eta runner := fun r => mkRunner (ru_command r) (ru_cancel r) (ru_started r).
Definition ru_device (r : runner) : string := sc_device_id (ru_command r).

Record node := mkNode { nd_spool : spool; nd_active : list runner }.
#[export] Instance node_eta : Eta node := fun n => mkNode (nd_spool n) (nd_active n).

(** ** [RunnerSupervisor] *)

Definition start (command : start_command) (n : node) : result string node :=
  match tget ru_device (sc_device_id command) (nd_active n) with
  | Some _ => Err ("device " +:+ sc_device_id command +:+ " already has an active runner")
  | None => Ok (n <| nd_active := nd_active n ++ [mkRunner command false false] |>)
  end.

Fixpoint cancel_first (command_id : string) (l : list runner) : option (list runner) :=
  match l with
  | [] => None
  | r :: l => if decide (sc_command_id (ru_command r) = command_id) then Some (r <| ru_cancel := true |> :: l)
              else cons r <$> cancel_first command_id l
  end.
Definition cancel (command_id : string) (n : node) : bool * node :=
  match cancel_first command_id (nd_active n) with
  | Some l => (true, n <| nd_active := l |>)
  | None => (false, n)
  end.

Definition active_command (device_id : string) (n : node) : option string :=
  sc_command_id ∘ ru_command <$> tget ru_device device_id (nd_active n).

Definition cancel_stale (device_id : string) (current_fencing_token : Z) (n : node) : node :=
  n <| nd_active := (fun r => if decide (ru_device r = device_id /\ sc_fencing_token (ru_command r) < current_fencing_token)
                             then r <| ru_cancel := true |> else r) <$> nd_active n |>.

Definition runner_event (command : start_command) (state : string) : edge_body :=
  EB_task_event (sc_command_id command) (sc_task_run_id command) "runner" state.

(** [emit_task_event]. *)
Definition emit_task_event (event : edge_body) (n : node) : node := n <| nd_spool := (append_outbound event 10 (nd_spool n)).2 |>.

Definition pop (device_id : string) (n : node) : node :=
  n <| nd_active := filter (fun r => ru_device r <> device_id) (nd_active n) |>.

(** The [finally] of [_run]. *)
Definition run_final (r : runner) (state : string) (n : node) : node :=
  pop (ru_device r)
    match set_command_state (sc_command_id (ru_command r)) state (nd_spool n) with
    | Err _ => n
    | Ok s => emit_task_event (runner_event (ru_command r) state) (n <| nd_spool := s |>)
    end.

(** [_run] up to the call of the executor. *)
Definition run_begin (r : runner) (n : node) : node :=
  let c := ru_command r in
  match assert_current_fence (sc_device_id c) (sc_lease_id c) (sc_fencing_token c) (nd_spool n) with
  | Err _ => run_final r (if ru_cancel r then "CANCELED" else "FAILED") n
  | Ok _ =>
      match set_command_state (sc_command_id c) "STARTED" (nd_spool n) with
      | Err _ => run_final r "FAILED" n
      | Ok s =>
          emit_task_event (runner_event c "STARTED")
            (n <| nd_spool := s |> <| nd_active := tput ru_device (r <| ru_started := true |>) (nd_active n) |>)
      end
  end.

(** How [execute] ends. *)
Inductive outcome : Type := Completed | TaskCancelled | HardwareBlocked | StaleToken | Raised.
Definition final_state (o : outcome) (canceled : bool) : string :=
  match o with
  | Completed => if canceled then "CANCELED" else "SUCCEEDED"
  | TaskCancelled => "CANCELED"
  | HardwareBlocked => "BLOCKED_HARDWARE"
  | StaleToken => if canceled then "CANCELED" else "FAILED"
  | Raised => "FAILED"
  end.
Definition run_end (r : runner) (o : outcome) (n : node) : node := run_final r (final_state o (ru_cancel r)) n.

(** ** [CommandScheduler] *)

Definition ALLOWED_COMMAND_TYPES : list string :=
  ["RUN_AUTOMATION"; "INSTALL_APK"; "PREFETCH_ARTIFACTS"; "PUSH_MEDIA"; "COLLECT_HEALTH"; "STOP_AUTOMATION"].
Definition ARTIFACT_KINDS : list string := ["APK"; "APK_SPLIT"; "MEDIA"; "AUTOMATION_PACKAGE"].

(** [ID_PATTERN.fullmatch]: a letter or digit, then at most 127 of
    [A-Za-z0-9._:-]; such a text is ASCII. *)
Definition node_id_char (c : ascii) : bool := is_alnum c || Ascii.eqb c "." || Ascii.eqb c "_" || Ascii.eqb c ":" || Ascii.eqb c "-".
Definition match_id (v : string) : bool :=
  match v with
  | "" => false
  | String c rest => is_alnum c && str_all node_id_char rest && Nat.leb (String.length rest) 127
  end%string.

(** [value.split("/")], "\" read as "/". *)
Fixpoint key_parts (part : string) (s : string) : list string :=
  match s with
  | "" => [part]
  | String c s => if Ascii.eqb c "/" || Ascii.eqb c "\" then part :: key_parts "" s else key_parts (part +:+ String c "") s
  end%string.

Definition allowed_kinds (command_type : string) : list string :=
  if decide (command_type = "INSTALL_APK") then ["APK"; "APK_SPLIT"]
  else if decide (command_type = "PUSH_MEDIA") then ["MEDIA"]
  else if decide (command_type = "PREFETCH_ARTIFACTS") then ARTIFACT_KINDS
  else if decide (command_type = "RUN_AUTOMATION") then ["MEDIA"; "AUTOMATION_PACKAGE"]
  else [].

Definition artifact_error (command_type : string) (a : artifact) : option (string * string) :=
  let digest := str_lower (art_sha256 a) in (* no character outside ASCII lowers to a hex digit *)
  if decide (art_kind a ∉ ARTIFACT_KINDS \/ art_kind a ∉ allowed_kinds command_type)
  then Some ("EDGE_ARTIFACT_KIND_DENIED", "artifact kind is not allowed for command")
  else if decide (str_len digest <> 64 \/ str_all is_hex digest = false)
  then Some ("EDGE_ARTIFACT_INVALID", "artifact SHA256 is invalid")
  else if decide (art_size a < 0 \/ art_object_key a = "")
  then Some ("EDGE_ARTIFACT_INVALID", "artifact object key and size are required")
  else if decide (Exists (fun part => part ∈ [""; "."; ".."]) (key_parts "" (art_object_key a)))
  then Some ("EDGE_ARTIFACT_INVALID", "artifact object key is not canonical")
  else if decide (art_file_name a <> "" /\ (str_contains_char "/" (art_file_name a) = true
                    \/ str_contains_char "\" (art_file_name a) = true \/ art_file_name a ∈ ["."; ".."]))
  then Some ("EDGE_ARTIFACT_INVALID", "artifact file name cannot contain a path")
  else None.

Definition _validate_artifacts (command : start_command) : option (string * string) :=
  if decide (sc_command_type command ∈ ["INSTALL_APK"; "PREFETCH_ARTIFACTS"; "PUSH_MEDIA"] /\ sc_artifacts command = [])
  then Some ("EDGE_ARTIFACT_REQUIRED", "command requires at least one approved artifact")
  else head (omap (artifact_error (sc_command_type command)) (sc_artifacts command)).

Definition _validate (command : start_command) (now : Z) : option (string * string) :=
  if decide (forallb match_id [sc_command_id command; sc_task_run_id command; sc_device_id command; sc_lease_id command] = false)
  then Some ("EDGE_INVALID_COMMAND", "command, task run and device identifiers are required")
  else if decide (sc_fencing_token command < 1 \/ sc_fencing_token command > 2 ^ 63 - 1)
  then Some ("EDGE_INVALID_LEASE", "lease_id and positive fencing_token are required")
  else if decide (sc_command_type command ∉ ALLOWED_COMMAND_TYPES)
  then Some ("EDGE_CAPABILITY_DENIED", "command type is not on the Edge allowlist")
  else match _validate_artifacts command with
       | Some e => Some e
       | None =>
           match sc_deadline command with
           | None => Some ("EDGE_DEADLINE_REQUIRED", "command deadline is required")
           | Some deadline =>
               if decide (deadline <= now) then Some ("EDGE_DEADLINE_EXPIRED", "command deadline has expired") else None
           end
       end.

Definition rejected (command : start_command) (error_code detail : string) : command_ack :=
  mkCommandAck (sc_command_id command) "REJECTED" error_code detail.
Definition spool_detail (e : spool_error) : string :=
  match e with SpoolError d | StaleFencingToken d => d | SqliteIntegrityError => "" end.

Definition receive (command : start_command) (now : Z) (n : node) : command_ack * node :=
  match _validate command now with
  | Some (code, detail) => (rejected command code detail, n)
  | None =>
      match accept_command command (nd_spool n) with
      | Err (StaleFencingToken d) => (rejected command "EDGE_STALE_FENCE" d, n)
      | Err e => (rejected command "EDGE_COMMAND_CONFLICT" (spool_detail e), n)
      | Ok ((inserted, state), s) =>
          let n := n <| nd_spool := s |> in
          let n := if (inserted : bool) then cancel_stale (sc_device_id command) (sc_fencing_token command) n else n in
          (mkCommandAck (sc_command_id command) (command_state_value state) "" "", n)
      end
  end.

Definition dispatch (command : start_command) (n : node) : command_ack * node :=
  if decide (get_command_state (sc_command_id command) (nd_spool n) <> Some RECEIVED)
  then (rejected command "EDGE_COMMAND_STATE" "command is not dispatchable", n)
  else match start command n with
       | Err busy => (rejected command "EDGE_DEVICE_BUSY" busy, n)
       | Ok n => (mkCommandAck (sc_command_id command) "STARTED" "" "", n)
       end.

(** ** Well-formed nodes *)

(** A runner that has started holds the current fence of its device, or has
    been told to stop. *)
Definition current_or_canceled (fence : option (Z * string)) (r : runner) : Prop :=
  exists token lease, fence = Some (token, lease)
    /\ ((token = sc_fencing_token (ru_command r) /\ lease = sc_lease_id (ru_command r))
        \/ (sc_fencing_token (ru_command r) < token /\ ru_cancel r = true)).

Definition runner_ok (s : spool) (r : runner) : Prop :=
  find_command (sc_command_id (ru_command r)) s
    = Some (mkCommandRow (ru_command r) (if ru_started r then STARTED else RECEIVED))
  /\ (ru_started r = true -> current_or_canceled (sp_fences s !! ru_device r) r).

Record node_ok (n : node) : Prop := mkNodeOk {
  ok_spool : spool_ok (nd_spool n);
  ok_one_runner : NoDup (ru_device <$> nd_active n);
  ok_runners : Forall (runner_ok (nd_spool n)) (nd_active n);
}.

(** Changing the spool elsewhere than in its commands and fences. *)
Lemma node_ok_spool n s : node_ok n -> spool_ok s ->
  sp_commands s = sp_commands (nd_spool n) -> sp_fences s = sp_fences (nd_spool n) -> node_ok (n <| nd_spool := s |>).
Proof.
  intros [Hs Hd Hr] Ho E1 E2. split; [done|done|]. cbn. eapply Forall_impl; [exact Hr|].
  intros r. unfold runner_ok, find_command. by rewrite E1, E2.
Qed.

Lemma spool_op_ok op s s' : spool_ok s -> apply_op op s = Ok s' -> spool_ok s'.
Proof. intros Hs H. pose proof (run_op_ok op s Hs) as R. unfold run_op in R. by rewrite H in R. Qed.

Lemma emit_ok b p n : node_ok n -> node_ok (n <| nd_spool := (append_outbound b p (nd_spool n)).2 |>).
Proof.
  intros Hn. apply node_ok_spool; [done| |done|done]. destruct (ok_spool n Hn) as [H1 H2 H3]. split.
  - by eapply commands_ok_same, H1.
  - by apply append_outbound_ok.
  - by eapply companions_ok_same, H3.
Qed.

Lemma same_command n r r' : node_ok n -> r ∈ nd_active n -> r' ∈ nd_active n ->
  sc_command_id (ru_command r) = sc_command_id (ru_command r') -> r = r'.
Proof.
  intros [_ Hd Hr] Hin Hin' E. rewrite Forall_forall in Hr. destruct (Hr r Hin) as [H1 _], (Hr r' Hin') as [H2 _].
  apply (keyed_eq ru_device (nd_active n)); [done..|]. unfold ru_device. rewrite E, H2 in H1. by injection H1 as -> _.
Qed.

(** *** Starting and stopping runners *)

Lemma find_set_state c st s s' id :
  set_command_state c (command_state_value st) s = Ok s' ->
  find_command id s' = if decide (id = c) then (fun row => row <| cr_state := st |>) <$> find_command id s else find_command id s.
Proof.
  unfold set_command_state, find_command. replace (command_state_of (command_state_value st)) with (Some st) by by destruct st.
  destruct (tget cr_id c (sp_commands s)) as [row|] eqn:E; [|done]. intros [= <-]. cbn.
  pose proof E as Ek. apply tget_Some in Ek as [Hin Hk]. case_decide as D.
  - subst id. rewrite E. rewrite (tget_tput cr_id). cbn. unfold cr_id in Hk |- *. cbn. rewrite Hk.
    rewrite !decide_True; [done|by apply (tget_key_In cr_id) in E as E'; rewrite <- Hk|done].
  - apply (tget_tput_ne cr_id). unfold cr_id in *. cbn. congruence.
Qed.

Lemma start_ok c n n' : node_ok n -> find_command (sc_command_id c) (nd_spool n) = Some (mkCommandRow c RECEIVED) ->
  start c n = Ok n' -> node_ok n'.
Proof.
  unfold start. intros [Hs Hd Hr] Hc H. destruct (tget _ _ _) eqn:E; [done|]. injection H as <-. split; cbn; [done| |].
  - by apply (keyed_snoc ru_device).
  - apply Forall_app. split; [done|]. by apply Forall_singleton.
Qed.

(** Rows and fences that a runner's condition reads. *)
Lemma runner_ok_same s s' r : sp_commands s' = sp_commands s -> sp_fences s' = sp_fences s -> runner_ok s r -> runner_ok s' r.
Proof. unfold runner_ok, find_command. by intros -> ->. Qed.

Lemma set_state_fences c st s s' : set_command_state c st s = Ok s' -> sp_fences s' = sp_fences s.
Proof. unfold set_command_state. intros H. by ok_inv H. Qed.

Lemma set_state_others c st s s' x :
  set_command_state c (command_state_value st) s = Ok s' -> runner_ok s x -> sc_command_id (ru_command x) <> c ->
  runner_ok s' x.
Proof.
  intros H [Hf Hc] N. split; [by rewrite (find_set_state _ _ _ _ _ H), decide_False|].
  by rewrite (set_state_fences _ _ _ _ H).
Qed.

Lemma others_ok n r st s' : node_ok n -> r ∈ nd_active n ->
  set_command_state (sc_command_id (ru_command r)) (command_state_value st) (nd_spool n) = Ok s' ->
  forall x, x ∈ nd_active n -> ru_device x <> ru_device r -> runner_ok s' x.
Proof.
  intros Hn Hin H x Hx N. destruct (Hn) as [_ _ Hr]. rewrite Forall_forall in Hr.
  eapply set_state_others; [exact H|by apply Hr|]. intros E. apply N. by rewrite (same_command n x r).
Qed.

Lemma pop_ok d s l : spool_ok s -> NoDup (ru_device <$> l) -> (forall x, x ∈ l -> ru_device x <> d -> runner_ok s x) ->
  node_ok (pop d (mkNode s l)).
Proof.
  intros Hs Hd Hr. split; cbn; [done|eapply sublist_NoDup, fmap_sublist, sublist_filter; done|].
  apply Forall_forall. intros x [N Hx]%list_elem_of_filter. by apply Hr.
Qed.

Lemma append_outbound_spool_ok b p s : spool_ok s -> spool_ok (append_outbound b p s).2.
Proof.
  intros [H1 H2 H3]. split; [by eapply commands_ok_same, H1|by apply append_outbound_ok|by eapply companions_ok_same, H3].
Qed.

Lemma run_final_ok r st n : node_ok n -> r ∈ nd_active n -> node_ok (run_final r (command_state_value st) n).
Proof.
  intros Hn Hin. unfold run_final. destruct Hn as [Hs Hd Hr] eqn:En. clear En. destruct (set_command_state _ _ _) as [s'|] eqn:E.
  - apply pop_ok; [|done|].
    + apply append_outbound_spool_ok. by apply (spool_op_ok (OpSetState _ _) _ _ Hs) in E.
    + intros x Hx N. by apply (runner_ok_same s'), (others_ok n r st s').
  - destruct n. apply pop_ok; [done|done|]. intros x Hx _. rewrite Forall_forall in Hr. by apply Hr.
Qed.

Lemma final_state_value o c : exists st, final_state o c = command_state_value st.
Proof.
  destruct o, c; cbn; [by exists CMD_CANCELED|by exists CMD_SUCCEEDED|by exists CMD_CANCELED|by exists CMD_CANCELED
    |by exists BLOCKED_HARDWARE|by exists BLOCKED_HARDWARE|by exists CMD_CANCELED|by exists CMD_FAILED|by exists CMD_FAILED|by exists CMD_FAILED].
Qed.

Lemma run_end_ok r o n : node_ok n -> r ∈ nd_active n -> node_ok (run_end r o n).
Proof. intros Hn Hin. unfold run_end. destruct (final_state_value o (ru_cancel r)) as [st ->]. by apply run_final_ok. Qed.

Lemma run_begin_ok r n : node_ok n -> r ∈ nd_active n -> node_ok (run_begin r n).
Proof.
  intros Hn Hin. unfold run_begin. destruct (assert_current_fence _ _ _ _) eqn:Ef.
  2: { replace (if ru_cancel r then "CANCELED" else "FAILED")%string
         with (command_state_value (if ru_cancel r then CMD_CANCELED else CMD_FAILED)) by by destruct (ru_cancel r).
       by apply run_final_ok. }
  destruct (set_command_state _ "STARTED" _) as [s'|] eqn:E; [|by apply (run_final_ok r CMD_FAILED)].
  apply (emit_ok _ 10 (mkNode s' (tput ru_device (r <| ru_started := true |>) (nd_active n)))).
  destruct (Hn) as [Hs Hd Hr]. rewrite Forall_forall in Hr. destruct (Hr r Hin) as [Hf _]. split; cbn.
  - by apply (spool_op_ok (OpSetState _ _) _ _ Hs) in E.
  - by rewrite (tput_keys ru_device).
  - apply Forall_forall. intros x [[-> _]|[Hx N]]%elem_of_tput; [|by apply (others_ok n r STARTED s')].
    split; cbn.
    + by rewrite (find_set_state _ STARTED _ _ _ E), decide_True, Hf.
    + intros _. rewrite (set_state_fences _ _ _ _ E). unfold assert_current_fence in Ef. case_decide as Dd; [|done].
      unfold ru_device. cbn. rewrite Dd. exists (sc_fencing_token (ru_command r)), (sc_lease_id (ru_command r)). auto.
Qed.

(** Telling runners to stop. *)
Definition told (r r' : runner) : Prop := r' = r \/ r' = r <| ru_cancel := true |>.

Lemma told_device r r' : told r r' -> ru_device r' = ru_device r.
Proof. by intros [-> | ->]. Qed.

Lemma told_runner_ok s r r' : told r r' -> runner_ok s r -> runner_ok s r'.
Proof.
  intros [-> | ->]; [done|]. intros [H1 H2]. split; [done|]. cbn. intros Hst.
  destruct (H2 Hst) as (t & l & E & Hc). exists t, l. split; [done|]. cbn. tauto.
Qed.

Lemma told_devices l l' : Forall2 told l l' -> ru_device <$> l' = ru_device <$> l.
Proof. induction 1 as [|r r' l l' Hr Hl IH]; [done|]. cbn. by rewrite (told_device r r'), IH. Qed.

Lemma told_ok n l : node_ok n -> Forall2 told (nd_active n) l -> node_ok (n <| nd_active := l |>).
Proof.
  intros [Hs Hd Hr] Hl. split; cbn; [done|by rewrite (told_devices _ _ Hl)|].
  rewrite Forall_forall in *. intros r' Hin. apply list_elem_of_lookup in Hin as [i Hi].
  destruct (Forall2_lookup_r _ _ _ _ _ Hl Hi) as (r & Hir & Ht). eapply told_runner_ok; [exact Ht|].
  apply Hr. by eapply list_elem_of_lookup_2.
Qed.

Lemma told_refl l : Forall2 told l l.
Proof. apply Forall_Forall2_diag, Forall_forall. by left. Qed.

Lemma cancel_first_told id l l' : cancel_first id l = Some l' -> Forall2 told l l'.
Proof.
  revert l'. induction l as [|r l IH]; cbn; [done|]. intros l'. case_decide.
  - intros [= <-]. constructor; [by right|apply told_refl].
  - destruct (cancel_first id l) as [k|]; [|done]. intros [= <-]. constructor; [by left|by apply IH].
Qed.

Lemma cancel_ok id n : node_ok n -> node_ok (cancel id n).2.
Proof.
  intros Hn. unfold cancel. destruct (cancel_first id _) eqn:E; [|done]. by apply told_ok, (cancel_first_told id).
Qed.

(** A new command that raises the fence cancels the runner it supersedes. *)
Lemma accept_runner_ok c s st s' r : accept_command c s = Ok ((true, st), s') -> runner_ok s r ->
  runner_ok s' (if decide (ru_device r = sc_device_id c /\ sc_fencing_token (ru_command r) < sc_fencing_token c)
                then r <| ru_cancel := true |> else r).
Proof.
  unfold accept_command. intros H [Hf Hst]. destruct (find_command (sc_command_id c) s) as [x|] eqn:Ec; [by ok_inv H|].
  destruct (fence_error c _) eqn:Ee; [done|]. injection H as <- <-.
  assert (forall id row, find_command id s = Some row ->
            tget cr_id id (sp_commands s ++ [mkCommandRow c RECEIVED]) = Some row) as Hfind.
  { intros id row E. unfold find_command in E. by rewrite tget_app, E. }
  split; [case_decide; by apply Hfind|]. cbn [sp_fences set_with]. 
  destruct (decide (ru_device r = sc_device_id c)) as [Ed|Nd].
  - intros Hstarted. assert (ru_started r = true) as Hs by by case_decide.
    destruct (Hst Hs) as (t & l & E & Hc). rewrite Ed in E. rewrite E in Ee |- *.
    assert (ru_device (if decide (ru_device r = sc_device_id c /\ sc_fencing_token (ru_command r) < sc_fencing_token c)
                       then r <| ru_cancel := true |> else r) = sc_device_id c) as -> by by case_decide.
    cbn. rewrite lookup_insert_eq. cbn in Ee |- *. destruct (decide (sc_fencing_token c < t)) as [D1|D1]; [done|].
    destruct (decide (sc_fencing_token c > t)) as [D2|D2].
    + exists (sc_fencing_token c), (sc_lease_id c). split; [done|]. right. rewrite decide_True by (split; [done|lia]). cbn.
      split; [lia|done].
    + exists t, l. split; [done|]. case_decide; cbn; [|done]. destruct Hc as [[-> ->]|[Hlt Hcan]]; [lia|right; split; [lia|done]].
  - rewrite decide_False by tauto. intros Hs. destruct (Hst Hs) as (t & l & E & Hc). exists t, l.
    split; [|done]. cbn. by rewrite lookup_insert_ne by congruence.
Qed.

Lemma receive_ok c now n : node_ok n -> node_ok (receive c now n).2.
Proof.
  intros Hn. unfold receive. destruct (_validate c now) as [[]|]; [done|].
  destruct (accept_command c (nd_spool n)) as [[[inserted st] s']|e] eqn:E; [|by destruct e].
  destruct (Hn) as [Hs Hd Hr]. assert (spool_ok s') as Hs'.
  { apply (spool_op_ok (OpAccept c) (nd_spool n)); [done|]. cbn. by rewrite E. }
  destruct inserted; cbn.
  - split; [done| |]; cbn.
    + rewrite (keyed_fmap ru_device); [done|]. intros r. by case_decide.
    + apply Forall_fmap. eapply Forall_impl; [exact Hr|]. intros r. cbn. by apply (accept_runner_ok c (nd_spool n) st).
  - assert (s' = nd_spool n) as -> by (unfold accept_command in E; by ok_inv E). by destruct n.
Qed.

Lemma receive_received c now n ack n' : node_ok n -> receive c now n = (ack, n') -> ack_state ack = "RECEIVED" ->
  find_command (sc_command_id c) (nd_spool n') = Some (mkCommandRow c RECEIVED).
Proof.
  unfold receive. intros Hn H Hack. destruct (_validate c now) as [[]|]; [by simplify_eq/=|].
  unfold accept_command in H. destruct (find_command (sc_command_id c) (nd_spool n)) as [[c' st]|] eqn:Ec.
  - case_decide as D; simplify_eq/=. by destruct st.
  - destruct (fence_error c _) as [[]|]; simplify_eq/=. unfold find_command in *. cbn. rewrite tget_app, Ec. cbn.
    unfold cr_id. cbn. by rewrite decide_True.
Qed.

Lemma dispatch_ok c n : node_ok n ->
  (forall row, find_command (sc_command_id c) (nd_spool n) = Some row -> cr_serialized row = c) ->
  node_ok (dispatch c n).2.
Proof.
  intros Hn Hc. unfold dispatch. case_decide as D; [done|]. destruct (start c n) as [n'|] eqn:E; [|done].
  cbn. eapply start_ok; [done| |exact E]. unfold get_command_state in D.
  destruct (find_command _ _) as [[c' st]|]; [|done]. rewrite <- (Hc _ eq_refl). cbn in *. congruence.
Qed.

(** ** Properties *)

(** [receive] on every path: a rejected command changes nothing; any other
    command passed every check (identifiers, a token SQLite can hold, the
    allowlist, its artifacts, a deadline in the future) and is durably the
    command of its identifier, within the fence of its device. *)
Theorem receive_accepts_only_valid_commands c now n (Hn : node_ok n) :
  let '(ack, n') := receive c now n in
  (ack_state ack = "REJECTED" /\ n' = n)
  \/ (ack_state ack <> "REJECTED" /\ _validate c now = None
      /\ 1 <= sc_fencing_token c <= 2 ^ 63 - 1 /\ (exists deadline, sc_deadline c = Some deadline /\ now < deadline)
      /\ (exists st, find_command (sc_command_id c) (nd_spool n') = Some (mkCommandRow c st) /\ ack_state ack = command_state_value st)
      /\ fenced (sp_fences (nd_spool n')) (mkCommandRow c RECEIVED)).
Proof.
  pose proof (receive_ok c now n Hn) as Hok. destruct (receive c now n) as [ack n'] eqn:E. cbn in Hok. unfold receive in E.
  destruct (_validate c now) as [[]|] eqn:Ev; [left; by simplify_eq/=|].
  destruct (accept_command c (nd_spool n)) as [[[inserted st] s']|[]] eqn:Ea; simplify_eq/=; [|by left..].
  right. split; [by destruct st|]. split; [done|].
  unfold _validate in Ev. case_decide; [done|]. case_decide as D2; [done|]. case_decide; [done|].
  destruct (_validate_artifacts c); [done|]. destruct (sc_deadline c) as [dl|]; [|done]. case_decide as D4; [done|].
  split; [lia|]. split; [exists dl; split; [done|lia]|].
  assert (exists st', find_command (sc_command_id c) s' = Some (mkCommandRow c st') /\ st' = st) as (st' & Hf & ->).
  { unfold accept_command in Ea. destruct (find_command (sc_command_id c) (nd_spool n)) as [[c' st0]|] eqn:Ec.
    - case_decide as D; simplify_eq/=. eauto.
    - destruct (fence_error c _); simplify_eq/=. exists RECEIVED. split; [|done]. unfold find_command in *. cbn.
      rewrite tget_app, Ec. cbn. unfold cr_id. cbn. by rewrite decide_True. }
  assert (nd_spool (if inserted then cancel_stale (sc_device_id c) (sc_fencing_token c) (n <| nd_spool := s' |>)
                    else n <| nd_spool := s' |>) = s') as Es by by destruct inserted.
  rewrite Es in *. split; [eauto|]. destruct (ok_spool _ Hok) as [[_ Hfen] _ _]. rewrite Es, Forall_forall in Hfen.
  apply tget_Some in Hf as [Hin _]. exact (Hfen _ Hin).
Qed.

Definition demo_command (id lease : string) (token : Z) : start_command :=
  mkStart id "run-1" "device-1" lease token "COLLECT_HEALTH" [] (Some 100) "".
Definition new_node : node := mkNode new_spool [].

Lemma new_node_ok : node_ok new_node.
Proof. split; [apply new_spool_ok|constructor|constructor]. Qed.

Lemma receive_accepts_only_valid_commands_witness :
  let '(ack, n') := receive (demo_command "c-1" "lease" 7) 5 new_node in
  (ack_state ack = "REJECTED" /\ n' = new_node)
  \/ (ack_state ack <> "REJECTED" /\ _validate (demo_command "c-1" "lease" 7) 5 = None
      /\ 1 <= 7 <= 2 ^ 63 - 1 /\ (exists deadline, Some 100 = Some deadline /\ 5 < deadline)
      /\ (exists st, find_command "c-1" (nd_spool n') = Some (mkCommandRow (demo_command "c-1" "lease" 7) st)
                     /\ ack_state ack = command_state_value st)
      /\ fenced (sp_fences (nd_spool n')) (mkCommandRow (demo_command "c-1" "lease" 7) RECEIVED)).
Proof. apply (receive_accepts_only_valid_commands (demo_command "c-1" "lease" 7) 5 new_node). exact new_node_ok. Defined.

(** The text that [key_parts] cuts, with "/" for "\". *)
Fixpoint slashed (s : string) : string :=
  match s with "" => "" | String c s => String (if Ascii.eqb c "\" then "/" else c) (slashed s) end%string.

Lemma append_nil_r s : s +:+ "" = s.
Proof. induction s as [|c s IH]; [done|]. by rewrite append_String, IH. Qed.

Lemma key_parts_join part s : str_contains_char "/" part = false -> str_contains_char "\" part = false ->
  str_join "/" (key_parts part s) = part +:+ slashed s
  /\ Forall (fun p => str_contains_char "/" p = false /\ str_contains_char "\" p = false) (key_parts part s).
Proof.
  revert part. induction s as [|c s IH]; intros part H1 H2; cbn.
  { rewrite append_nil_r. by repeat constructor. }
  destruct (Ascii.eqb c "/" || Ascii.eqb c "\") eqn:Ec.
  - destruct (IH "") as [Hj Hf]; [done|done|]. split; [|by constructor]. cbn.
    assert ((if Ascii.eqb c "\" then "/"%char else c) = "/"%char) as ->.
    { apply orb_true_iff in Ec as [->%Ascii.eqb_eq | ->]; done. }
    rewrite append_nil in Hj. destruct (key_parts "" s) as [|p l] eqn:Ek; [by destruct s as [|? s]; cbn in Ek; try case_match|].
    rewrite <- Hj. by destruct part.
  - apply orb_false_iff in Ec as [E1 E2]. destruct (IH (part +:+ String c "")) as [Hj Hf].
    + rewrite str_contains_char_app, H1. change (Ascii.eqb "/" c || false = false). by rewrite Ascii.eqb_sym, E1.
    + rewrite str_contains_char_app, H2. change (Ascii.eqb "\" c || false = false). by rewrite Ascii.eqb_sym, E2.
    + split; [|done]. rewrite Hj, append_assoc, E2. done.
Qed.

(** An accepted command never names an object outside its prefix: each of its
    artifacts' object keys, read with either separator, is a sequence of
    names none of which is empty, "." or "..", and its file name, if any, is
    a plain name. *)
Theorem accepted_artifacts_stay_inside c now (H : _validate c now = None) :
  forall a, a ∈ sc_artifacts c ->
    let parts := key_parts "" (art_object_key a) in
    str_join "/" parts = slashed (art_object_key a)
    /\ Forall (fun p => (p ∉ [""; "."; ".."]) /\ str_contains_char "/" p = false /\ str_contains_char "\" p = false) parts
    /\ str_contains_char "/" (art_file_name a) = false /\ str_contains_char "\" (art_file_name a) = false
    /\ (art_file_name a ∉ ["."; ".."]) /\ 0 <= art_size a /\ str_len (str_lower (art_sha256 a)) = 64.
Proof.
  intros a Ha. cbv zeta. unfold _validate in H. repeat (case_decide; [done|]).
  destruct (_validate_artifacts c) eqn:Ev; [done|]. clear H. unfold _validate_artifacts in Ev. case_decide; [done|].
  assert (artifact_error (sc_command_type c) a = None) as Hn.
  { destruct (artifact_error _ a) as [e|] eqn:E; [|done]. exfalso.
    assert (e ∈ omap (artifact_error (sc_command_type c)) (sc_artifacts c)) as Hin by (apply list_elem_of_omap; eauto).
    destruct (omap _ _); [by apply elem_of_nil in Hin|done]. }
  unfold artifact_error in Hn. case_decide; [done|]. case_decide as D2; [done|]. case_decide as D3; [done|].
  case_decide as D4; [done|]. case_decide as D5; [done|].
  destruct (key_parts_join "" (art_object_key a)) as [Hj Hf]; [done|done|]. rewrite append_nil in Hj.
  rewrite <- Forall_Exists_neg in D4. split; [done|]. split.
  { rewrite Forall_forall in *. auto. }
  assert (str_len (str_lower (art_sha256 a)) = 64) as Hl by (destruct (decide (str_len (str_lower (art_sha256 a)) = 64)); tauto).
  assert (0 <= art_size a) by lia.
  destruct (decide (art_file_name a = "")) as [E|N]; [rewrite E; repeat split; try done; set_solver|].
  destruct (str_contains_char "/" (art_file_name a)), (str_contains_char "\" (art_file_name a)); tauto.
Qed.

Definition sha_of_zeros : string := "0000000000000000000000000000000000000000000000000000000000000000".
Definition install (key : string) : start_command :=
  mkStart "c-1" "run-1" "device-1" "lease" 7 "INSTALL_APK" [mkArtifact "APK" sha_of_zeros 5 key "app.apk"] (Some 100) "".

Lemma accepted_artifacts_stay_inside_witness :
  _validate (install "apks/../secret") 5 = Some ("EDGE_ARTIFACT_INVALID", "artifact object key is not canonical")
  /\ str_join "/" (key_parts "" "apks/1/app.apk") = "apks/1/app.apk".
Proof.
  split; [vm_compute; reflexivity|].
  apply (accepted_artifacts_stay_inside (install "apks/1/app.apk") 5 (ltac:(vm_compute; reflexivity))
           (mkArtifact "APK" sha_of_zeros 5 "apks/1/app.apk" "app.apk") (list_elem_of_here _ _)).
Defined.
