(* ===== verification/EdgeControl.v ===== *)
(** * The edge control stream: control_stream.py, remote_proxy.py, operator_actions.py

    What an edge does with a message of the cloud, over its node (the spool
    and the runners), its debug sessions and its operator confirmations, and
    the restart of the gateway (runtime.py). [handle_cloud] returns the state
    it leaves behind also when it raises: what it wrote to the spool stays. *)

From stdpp Require Import base gmap strings list.
From Stdlib Require Import ZArith Lia Ascii.
From S2P Require Import Prelude PyStd PyJson EdgeMessages EdgeSpool EdgeRunner.

Open Scope Z_scope.

Inductive edge_error : Type :=
| ControlStreamError (detail : string)
| DebugSessionError (detail : string)
| OperatorActionError (detail : string)
| SettingsError (detail : string)
| EdgeSpoolError (error : spool_error).

(** ** Debug sessions: [DebugSessionManager] *)

Definition ALLOWED_CAPABILITIES : gset string :=
  {["view.frame"; "view.layout"; "input.tap"; "input.swipe"; "input.text"; "debug.steps"; "debug.variables"; "evidence.capture"]}.
Definition MAX_TTL : Z := 15 * 60 * 1000000.
(** [_COMPAT_ALIASES.get(value, value)]. *)
Definition compat (value : string) : string :=
  if decide (value = "view") then "view.frame" else if decide (value = "layout") then "view.layout"
  else if decide (value = "input") then "input.tap" else value.

Record dsession := mkDsession {
  ds_session_id : string; ds_device_id : string; ds_expires_at : Z; ds_capabilities : gset string;
  ds_token_digest : string; ds_target : string; ds_lease_id : option string; ds_fencing_token : option Z; ds_revoked : bool;
}.
#[export] Instance dsession_eq_dec : EqDecision dsession.
Proof. solve_decision. Defined.
#[export] Instance dsession_eta : Eta dsession := fun s => mkDsession (ds_session_id s) (ds_device_id s) (ds_expires_at s)
  (ds_capabilities s) (ds_token_digest s) (ds_target s) (ds_lease_id s) (ds_fencing_token s) (ds_revoked s).

Abbreviation sessions := (gmap string dsession).

(** [grant]; [fresh] is the token drawn when none is given. *)
Definition grant (session_id device_id : string) (expires_at : Z) (capabilities : list string) (target : string)
    (bearer_token : option string) (fresh : string) (lease_id : option string) (fencing_token : option Z) (now : Z)
    (m : sessions) : result edge_error (string * sessions) :=
  let normalized : gset string := list_to_set (compat <$> capabilities) in
  let token := str_or bearer_token fresh in
  raise_if expires_at <= now \/ expires_at - now > MAX_TTL with DebugSessionError "debug grant lifetime is invalid" in
  raise_if normalized = ∅ \/ ~ normalized ⊆ ALLOWED_CAPABILITIES
    with DebugSessionError "debug grant contains a prohibited capability" in
  raise_if str_len token < 32 with DebugSessionError "debug bearer token does not have enough entropy" in
  raise_if lease_id = Some "" with DebugSessionError "debug lease_id cannot be empty" in
  raise_if default 1 fencing_token < 1 with DebugSessionError "debug fencing token must be positive" in
  let session := mkDsession session_id device_id expires_at normalized (Sha256.hexdigest token) target lease_id fencing_token false in
  match m !! session_id with
  | Some existing =>
      if decide (existing = session) then Ok (token, m)
      else Err (DebugSessionError "debug session already exists with different content")
  | None => Ok (token, <[session_id := session]> m)
  end.

Definition expire_session (s : dsession) : dsession := s <| ds_revoked := true |>.

(** The checks [authorize] and [validate_frame] share; an expired session is
    marked as revoked. *)
Definition check_session (session_id device_id capability other_device : string) (now : Z) (m : sessions)
    : result edge_error dsession * sessions :=
  match m !! session_id with
  | None => (Err (DebugSessionError "debug session is not active"), m)
  | Some s =>
      if ds_revoked s then (Err (DebugSessionError "debug session is not active"), m)
      else if decide (ds_device_id s <> device_id) then (Err (DebugSessionError other_device), m)
      else if decide (now >= ds_expires_at s)
      then (Err (DebugSessionError "debug session expired"), <[session_id := expire_session s]> m)
      else if decide (compat capability ∉ ds_capabilities s) then (Err (DebugSessionError "capability was not granted"), m)
      else (Ok s, m)
  end.

Definition authorize (session_id device_id token capability : string) (now : Z) (m : sessions)
    : result edge_error string * sessions :=
  match check_session session_id device_id capability "debug session belongs to another device" now m with
  | (Err e, m) => (Err e, m)
  | (Ok s, m) =>
      if decide (ds_token_digest s = Sha256.hexdigest token) then (Ok (ds_target s), m)
      else (Err (DebugSessionError "invalid debug token"), m)
  end.

Definition frame_kinds : list string := ["tap"; "swipe"; "text"; "evidence.request"; "ack"; "frame"; "layout"; "ready"; "error"].
Definition max_payload : Z := 256 * 1024.

Definition validate_frame (frame : relay_frame) (device_id : string) (now : Z) (m : sessions) : result edge_error () * sessions :=
  match check_session (rf_session_id frame) device_id (rf_capability frame) "debug frame belongs to another device" now m with
  | (Err e, m) => (Err e, m)
  | (Ok _, m) =>
      if decide (rf_kind frame ∉ frame_kinds) then (Err (DebugSessionError "debug frame kind is not allowed"), m)
      else if decide (Z.of_nat (String.length (rf_payload frame)) > max_payload)
      then (Err (DebugSessionError "debug frame payload exceeds limit"), m)
      else (Ok tt, m)
  end.

Definition revoke (session_id : string) (m : sessions) : sessions :=
  match m !! session_id with Some s => <[session_id := expire_session s]> m | None => m end.

Definition expire (now : Z) (m : sessions) : nat * sessions :=
  let elapsed s := negb (ds_revoked s) && bool_decide (now >= ds_expires_at s) in
  (length (filter (fun kv : string * dsession => elapsed kv.2 = true) (map_to_list m)),
   (fun s => if elapsed s then expire_session s else s) <$> m).

(** ** Operator confirmations: [OperatorActionCoordinator] *)

(** A future of [_resolutions]: awaited, or done with its value. *)
Inductive future : Type := FPending | FDone (approved : bool).

Record actions := mkActions {
  ac_confirmations : list confirmation_required;
  ac_resolutions : gmap string future;
  ac_resolved : gmap string bool;
}.
#[export] Instance actions_eta : Eta actions := fun a => mkActions (ac_confirmations a) (ac_resolutions a) (ac_resolved a).
Definition no_actions : actions := mkActions [] ∅ ∅.

Definition confirmation (id : string) (a : actions) : option confirmation_required := tget cf_confirmation_id id (ac_confirmations a).
Definition remove_confirmation (id : string) (a : actions) : actions :=
  a <| ac_confirmations := filter (fun c => cf_confirmation_id c <> id) (ac_confirmations a) |>.

(** A pending future is cancelled: whoever awaits it is interrupted. *)
Definition discard_confirmation (id : string) (a : actions) : actions :=
  remove_confirmation id (a <| ac_resolutions := delete id (ac_resolutions a) |> <| ac_resolved := delete id (ac_resolved a) |>).

Definition RISK_LEVELS : list string := ["LOW"; "MEDIUM"; "HIGH"; "CRITICAL"].

(** The message queued on the spool, if the confirmation is new. *)
Definition require_confirmation (required : confirmation_required) (now : Z) (a : actions)
    : result edge_error (option edge_body * actions) :=
  raise_if (cf_confirmation_id required = "" \/ cf_command_id required = "" \/ cf_task_run_id required = ""
            \/ cf_device_id required = "" \/ cf_title required = "")
    with OperatorActionError "confirmation identifiers and title are required" in
  raise_if cf_expires_at required <= now with OperatorActionError "confirmation already expired" in
  raise_if cf_risk_level required ∉ RISK_LEVELS with OperatorActionError "confirmation risk level is invalid" in
  match confirmation (cf_confirmation_id required) a with
  | Some existing =>
      if decide (existing <> required) then Err (OperatorActionError "confirmation identifier was reused") else Ok (None, a)
  | None => Ok (Some (EB_confirmation_required required), a <| ac_confirmations := ac_confirmations a ++ [required] |>)
  end.

Definition resolve_from_cloud (id command_id : string) (approved : bool) (now : Z) (a : actions) : result edge_error () * actions :=
  match confirmation id a with
  | None => (Err (OperatorActionError "confirmation resolution does not match an active request"), a)
  | Some required =>
      if decide (cf_command_id required <> command_id)
      then (Err (OperatorActionError "confirmation resolution does not match an active request"), a)
      else if decide (cf_expires_at required <= now)
      then (Err (OperatorActionError "confirmation expired"), discard_confirmation id a)
      else match ac_resolutions a !! id with
           | None => (Ok tt, a <| ac_resolved := <[id := approved]> (ac_resolved a) |>)
           | Some FPending => (Ok tt, a <| ac_resolutions := <[id := FDone approved]> (ac_resolutions a) |>)
           | Some (FDone _) => (Ok tt, a)
           end
  end.

(** [wait_for_resolution] up to its await: the answer if it is already there. *)
Definition wait_begin (id : string) (a : actions) : result edge_error (option bool * actions) :=
  match confirmation id a with
  | None => Err (OperatorActionError "confirmation is not active")
  | Some _ =>
      match ac_resolved a !! id with
      | Some approved => Ok (Some approved, remove_confirmation id (a <| ac_resolved := delete id (ac_resolved a) |>))
      | None => Ok (None, a <| ac_resolutions := <[id := default FPending (ac_resolutions a !! id)]> (ac_resolutions a) |>)
      end
  end.
(** The await returns once the future is done. *)
Definition wait_end (id : string) (a : actions) : option (bool * actions) :=
  match ac_resolutions a !! id with Some (FDone approved) => Some (approved, discard_confirmation id a) | _ => None end.

Definition active_confirmation (device_id : string) (now : Z) (a : actions) : option confirmation_required * actions :=
  fold_left (fun '(found, a) c =>
      match found with
      | Some _ => (found, a)
      | None => if decide (cf_expires_at c <= now) then (None, discard_confirmation (cf_confirmation_id c) a)
                else if decide (cf_device_id c = device_id) then (Some c, a) else (None, a)
      end) (ac_confirmations a) (None, a).

(** ** The gateway *)

(** What the stream was composed with: a debug plane, the resolver of a
    device's proxy target ([None] of a device without profile), the lab
    driver of relay frames ([None] of a frame it refuses), the fingerprint of
    the edge's certificate and operator actions. *)
Record config := mkConfig {
  cfg_debug : bool;
  cfg_target : option (string -> option string);
  cfg_driver : option (relay_frame -> option relay_frame);
  cfg_fingerprint : option string;
  cfg_actions : bool;
}.

Record edge := mkEdge { ed_node : node; ed_sessions : sessions; ed_actions : actions }.
#[export] Instance edge_eta : Eta edge := fun e => mkEdge (ed_node e) (ed_sessions e) (ed_actions e).
Definition ed_spool (e : edge) : spool := nd_spool (ed_node e).
Definition with_spool (s : spool) (e : edge) : edge := e <| ed_node := (ed_node e) <| nd_spool := s |> |>.

(** [emit_debug_frame]. *)
Definition emit_debug_frame (frame : relay_frame) (e : edge) : result edge_error () * edge :=
  if decide (rf_session_id frame = "" \/ rf_device_id frame = "")
  then (Err (ControlStreamError "debug response session and device binding are required"), e)
  else if decide (Z.of_nat (String.length (rf_payload frame)) > max_payload)
  then (Err (ControlStreamError "debug response payload exceeds limit"), e)
  else (Ok tt, with_spool (append_outbound (EB_relay_frame frame) 0 (ed_spool e)).2 e).

(** The "debug.ack" that answers a frame that failed. *)
Definition failed_frame (error_code : string) (frame : relay_frame) : relay_frame :=
  mkRelayFrame (rf_session_id frame) (rf_device_id frame) (rf_request_id frame) "debug.ack" "debug.ack"
    ("{" +:+ dump_string "state" +:+ ":" +:+ dump_string "FAILED" +:+ "," +:+ dump_string "errorCode" +:+ ":"
       +:+ dump_string error_code +:+ "}") true.

(** [debug_frame_handler] of runtime.py. *)
Definition debug_frame_handler (driver : relay_frame -> option relay_frame) (frame : relay_frame) (e : edge)
    : result edge_error () * edge :=
  emit_debug_frame (default (failed_frame "LAB_ADB_OPERATION_FAILED" frame) (driver frame)) e.

(** [record_cloud_sequence] after a handler that returned. *)
Definition then_record (sequence : Z) (r : result edge_error () * edge) : result edge_error () * edge :=
  match r with
  | (Err x, e) => (Err x, e)
  | (Ok _, e) =>
      match record_cloud_sequence sequence (ed_spool e) with
      | Ok (_, s) => (Ok tt, with_spool s e)
      | Err x => (Err (EdgeSpoolError x), e)
      end
  end.

(** [_enqueue_ack] with the cloud sequence it answers. *)
Definition enqueue_ack_at (sequence : Z) (ack : command_ack) (e : edge) : result edge_error () * edge :=
  match record_cloud_with_edge_message sequence (Some (EB_command_ack ack)) 0 (ed_spool e) with
  | Ok (_, s) => (Ok tt, with_spool s e)
  | Err x => (Err (EdgeSpoolError x), e)
  end.
Definition enqueue_ack (ack : command_ack) (e : edge) : edge :=
  with_spool (append_outbound (EB_command_ack ack) 0 (ed_spool e)).2 e.

Definition handle_start (sequence : Z) (command : start_command) (now : Z) (e : edge) : result edge_error () * edge :=
  let '(received, n) := receive command now (ed_node e) in
  match enqueue_ack_at sequence received (e <| ed_node := n |>) with
  | (Err x, e) => (Err x, e)
  | (Ok _, e) =>
      if decide (ack_state received = "RECEIVED") then
        let '(started, n) := dispatch command (ed_node e) in
        (Ok tt, enqueue_ack started (e <| ed_node := n |>))
      else (Ok tt, e)
  end.

Definition handle_cancel (sequence : Z) (command_id : string) (e : edge) : result edge_error () * edge :=
  let '(canceled, n) := cancel command_id (ed_node e) in
  enqueue_ack_at sequence
    (mkCommandAck command_id (if canceled : bool then "STARTED" else "REJECTED")
       (if canceled : bool then "" else "EDGE_COMMAND_NOT_ACTIVE") "") (e <| ed_node := n |>).

Definition handle_grant (cfg : config) (g : debug_grant) (now : Z) (e : edge) : result edge_error () * edge :=
  match cfg_target cfg with
  | Some resolve =>
      if decide (cfg_debug cfg = false) then (Err (ControlStreamError "debug proxy is not configured on this Edge"), e)
      else if decide (str_len (dg_relay_token g) < 32)
      then (Err (ControlStreamError "debug grant relay token is missing or too short"), e)
      else if decide (dg_lease_id g = "" \/ dg_fencing_token g < 1)
      then (Err (ControlStreamError "debug grant lease fence is missing"), e)
      else match resolve (dg_device_id g) with
           | None => (Err (SettingsError "authorized debug device profile is unavailable"), e)
           | Some target =>
               match grant (dg_session_id g) (dg_device_id g) (dg_expires_at g) (dg_capabilities g) target
                       (Some (dg_relay_token g)) "" (Some (dg_lease_id g)) (Some (dg_fencing_token g)) now (ed_sessions e) with
               | Err x => (Err x, e)
               | Ok (_, m) =>
                   let e := e <| ed_sessions := m |> in
                   match put_debug_grant g now (ed_spool e) with
                   | Err x => (Err (EdgeSpoolError x), e)
                   | Ok s => (Ok tt, with_spool s e)
                   end
               end
           end
  | None => (Err (ControlStreamError "debug proxy is not configured on this Edge"), e)
  end.

Definition handle_frame (cfg : config) (frame : relay_frame) (now : Z) (e : edge) : result edge_error () * edge :=
  if cfg_debug cfg then
    if decide (rf_device_id frame = "") then (Err (ControlStreamError "debug relay frame device binding is required"), e)
    else match validate_frame frame (rf_device_id frame) now (ed_sessions e) with
         | (Err _, m) => emit_debug_frame (failed_frame "DEBUG_SESSION_NOT_ACTIVE" frame) (e <| ed_sessions := m |>)
         | (Ok _, m) =>
             match cfg_driver cfg with
             | None => (Err (ControlStreamError "debug relay frame handler is not configured"), e <| ed_sessions := m |>)
             | Some driver => debug_frame_handler driver frame (e <| ed_sessions := m |>)
             end
         end
  else (Err (ControlStreamError "debug proxy is not configured on this Edge"), e).

Definition handle_revoke (cfg : config) (session_id : string) (now : Z) (e : edge) : result edge_error () * edge :=
  if cfg_debug cfg then
    if decide (session_id = "") then (Err (ControlStreamError "debug revoke session id is required"), e)
    else (Ok tt, with_spool (revoke_debug_grant session_id now (ed_spool e)) (e <| ed_sessions := revoke session_id (ed_sessions e) |>))
  else (Err (ControlStreamError "debug proxy is not configured on this Edge"), e).

(** [(fingerprint or "").lower() in {value.lower() for value in revoked}]. *)
Definition revoked_here (cfg : config) (revoked_fingerprints : list string) : Prop :=
  let fingerprint := str_lower (default "" (cfg_fingerprint cfg)) in
  fingerprint <> "" /\ fingerprint ∈ (str_lower <$> revoked_fingerprints).

Definition handle_cloud (cfg : config) (now : Z) (message : CloudToEdge) (e : edge) : result edge_error () * edge :=
  let sequence := message.1 in
  match message.2 with
  | Some (CB_hello last_edge_sequence_acked) =>
      if decide (sequence <> 0) then (Err (ControlStreamError "Cloud hello must have sequence zero"), e)
      else match acknowledge_edge_sequence last_edge_sequence_acked (ed_spool e) with
           | Ok s => (Ok tt, with_spool s e)
           | Err x => (Err (EdgeSpoolError x), e)
           end
  | None => (Err (ControlStreamError "cloud message body is required"), e)
  | Some body =>
      let current_sequence := sp_last_cloud (ed_spool e) in
      if decide (sequence <= current_sequence) then (Ok tt, e)
      else if decide (sequence <> current_sequence + 1)
      then (Err (ControlStreamError ("cloud sequence gap: expected " +:+ py_str_int (current_sequence + 1) +:+ ", got "
                                       +:+ py_str_int sequence)), e)
      else match body with
           | CB_hello _ => (Ok tt, e)
           | CB_start command => handle_start sequence command now e
           | CB_cancel command_id => handle_cancel sequence command_id e
           | CB_debug_grant g => then_record sequence (handle_grant cfg g now e)
           | CB_revocations revoked =>
               if decide (revoked_here cfg revoked) then (Err (ControlStreamError "Edge certificate was revoked"), e)
               else then_record sequence (Ok tt, e)
           | CB_confirmation_resolution id command_id approved =>
               if cfg_actions cfg then
                 let '(r, a) := resolve_from_cloud id command_id approved now (ed_actions e) in
                 then_record sequence (r, e <| ed_actions := a |>)
               else (Err (ControlStreamError "operator action coordination is not configured"), e)
           | CB_debug_revoke session_id _ _ => then_record sequence (handle_revoke cfg session_id now e)
           | CB_relay_frame frame => then_record sequence (handle_frame cfg frame now e)
           end
  end.

(** [record_local_action]; [action] is CONFIRM, REJECT or STOP_AUTOMATION. *)
Inductive operator_action_type : Type := CONFIRM | REJECT | STOP_AUTOMATION.
#[export] Instance operator_action_type_eq_dec : EqDecision operator_action_type.
Proof. solve_decision. Defined.
Definition action_value (a : operator_action_type) : string :=
  match a with CONFIRM => "CONFIRM" | REJECT => "REJECT" | STOP_AUTOMATION => "STOP_AUTOMATION" end.

Definition record_local_action (action : operator_action_type) (device_id command_id confirmation_id action_id : string)
    (now : Z) (e : edge) : result edge_error () * edge :=
  let record e := (Ok tt, with_spool (append_outbound
      (EB_operator_action action_id device_id command_id confirmation_id (action_value action)) 0 (ed_spool e)).2 e) in
  if decide (match_id device_id = false \/ match_id command_id = false)
  then (Err (OperatorActionError "device and command identifiers are invalid"), e)
  else if decide (action = STOP_AUTOMATION) then
    if decide (confirmation_id <> "") then (Err (OperatorActionError "stop action cannot carry a confirmation identifier"), e)
    else record (e <| ed_node := (cancel command_id (ed_node e)).2 |>)
  else if decide (match_id confirmation_id = false)
  then (Err (OperatorActionError "confirmation identifier is invalid"), e)
  else match confirmation confirmation_id (ed_actions e) with
       | None => (Err (OperatorActionError "confirmation is not active for this command"), e)
       | Some required =>
           if decide (cf_command_id required <> command_id \/ cf_device_id required <> device_id)
           then (Err (OperatorActionError "confirmation is not active for this command"), e)
           else if decide (cf_expires_at required <= now)
           then (Err (OperatorActionError "confirmation expired"),
                 e <| ed_actions := discard_confirmation confirmation_id (ed_actions e) |>)
           else record e
       end.

(** [compose_gateway]: a process that starts on the spool it finds. Grants
    that have expired are revoked, the others granted again; a grant that is
    refused keeps the gateway from starting. *)
Fixpoint regrant (resolve : string -> option string) (fresh : string) (now : Z) (grants : list debug_grant) (s : spool) (m : sessions)
    : result edge_error sessions * spool :=
  match grants with
  | [] => (Ok m, s)
  | g :: grants =>
      if decide (dg_expires_at g <= now) then regrant resolve fresh now grants (revoke_debug_grant (dg_session_id g) now s) m
      else match resolve (dg_device_id g) with
           | None => (Err (SettingsError "authorized debug device profile is unavailable"), s)
           | Some target =>
               match grant (dg_session_id g) (dg_device_id g) (dg_expires_at g) (dg_capabilities g) target
                       (Some (dg_relay_token g)) fresh (Some (dg_lease_id g)) (Some (dg_fencing_token g)) now m with
               | Err x => (Err x, s)
               | Ok (_, m) => regrant resolve fresh now grants s m
               end
           end
  end.
Definition restart (resolve : string -> option string) (fresh : string) (now : Z) (s : spool) : result edge_error () * edge :=
  match regrant resolve fresh now (active_debug_grants s) s ∅ with
  | (Ok m, s) => (Ok tt, mkEdge (mkNode s []) m no_actions)
  | (Err x, s) => (Err x, mkEdge (mkNode s []) ∅ no_actions)
  end.

(** ** What a message does to the spool *)

(** [s'] is reached from [s] by operations of the spool. *)
Definition evolves (s s' : spool) : Prop := exists ops, s' = run_ops ops s.

#[export] Instance evolves_preorder : PreOrder evolves.
Proof.
  split; [by exists []|]. intros s1 s2 s3 [ops ->] [ops' ->]. exists (ops ++ ops'). unfold run_ops. by rewrite foldl_app.
Qed.

Lemma evolves_op op s s' : apply_op op s = Ok s' -> evolves s s'.
Proof. intros H. exists [op]. cbn. unfold run_op. by rewrite H. Qed.

Lemma evolves_ok s s' : evolves s s' -> spool_ok s -> spool_ok s' /\ spool_le s s'.
Proof. intros [ops ->] Hs. by apply run_ops_invariant. Qed.

(** The spool evolves, its commands, fences and cursors untouched. *)
Record aside (s s' : spool) : Prop := mkAside {
  as_evolves : evolves s s';
  as_commands : sp_commands s' = sp_commands s;
  as_fences : sp_fences s' = sp_fences s;
  as_cloud : sp_last_cloud s' = sp_last_cloud s;
  as_acked : sp_last_edge_acked s' = sp_last_edge_acked s;
}.
#[export] Instance aside_preorder : PreOrder aside.
Proof. split; [by intros s|]. intros s1 s2 s3 [] []. split; [by etransitivity|congruence..]. Qed.

Lemma aside_emit b p s : is_sequenced (Some b) = Some b -> aside s (append_outbound b p s).2.
Proof.
  intros Hb. split; [|done..]. apply (evolves_op (OpEnqueue (Some b) p)). cbn. unfold enqueue_edge_message. by rewrite Hb.
Qed.

Lemma aside_put_grant g now s s' : put_debug_grant g now s = Ok s' -> aside s s'.
Proof.
  intros H. split; [by apply (evolves_op (OpPutGrant g now))|..]; unfold put_debug_grant in H; by ok_inv H.
Qed.

Lemma aside_revoke id now s : aside s (revoke_debug_grant id now s).
Proof. split; [by apply (evolves_op (OpRevokeGrant id now))|done..]. Qed.

(** A handler that leaves the runners alone. *)
Definition beside (e e' : edge) : Prop := aside (ed_spool e) (ed_spool e') /\ nd_active (ed_node e') = nd_active (ed_node e).
#[export] Instance beside_preorder : PreOrder beside.
Proof. split; [by intros e|]. intros e1 e2 e3 [H1 E1] [H2 E2]. split; [by etransitivity|congruence]. Qed.

Lemma beside_spool s e : aside (ed_spool e) s -> beside e (with_spool s e).
Proof. by intros H. Qed.

Lemma emit_frame_beside f e r e' : emit_debug_frame f e = (r, e') -> beside e e'.
Proof. unfold emit_debug_frame. intros H. repeat case_decide; simplify_eq; try done. by apply beside_spool, aside_emit. Qed.

Lemma handle_grant_beside cfg g now e r e' : handle_grant cfg g now e = (r, e') -> beside e e'.
Proof.
  unfold handle_grant. intros H. destruct (cfg_target cfg) as [resolve|]; [|by simplify_eq].
  repeat (case_decide; [by simplify_eq|]). destruct (resolve _) as [target|]; [|by simplify_eq].
  destruct (grant _ _ _ _ _ _ _ _ _ _ _) as [[token m]|]; [|by simplify_eq]. cbv zeta in H.
  destruct (put_debug_grant _ _ _) as [s1|] eqn:E; simplify_eq; [|done]. exact (conj (aside_put_grant g now _ _ E) eq_refl).
Qed.

Lemma handle_frame_beside cfg f now e r e' : handle_frame cfg f now e = (r, e') -> beside e e'.
Proof.
  unfold handle_frame. intros H. destruct (cfg_debug cfg); [|by simplify_eq]. case_decide; [by simplify_eq|].
  destruct (validate_frame _ _ _ _) as [[|] m]; [destruct (cfg_driver cfg); [|by simplify_eq]|];
    apply emit_frame_beside in H; exact H.
Qed.

Lemma handle_revoke_beside cfg id now e r e' : handle_revoke cfg id now e = (r, e') -> beside e e'.
Proof.
  unfold handle_revoke. intros H. destruct (cfg_debug cfg); [|by simplify_eq]. case_decide; simplify_eq; [done|].
  exact (conj (aside_revoke id now _) eq_refl).
Qed.

(** The message's sequence is consumed when the handler returns, and only then. *)
Record consumed (n : Z) (e : edge) (r : result edge_error ()) (e' : edge) : Prop := mkConsumed {
  co_evolves : evolves (ed_spool e) (ed_spool e');
  co_cloud : sp_last_cloud (ed_spool e') = if is_ok r then n else sp_last_cloud (ed_spool e);
  co_acked : sp_last_edge_acked (ed_spool e') = sp_last_edge_acked (ed_spool e);
}.

Lemma then_record_consumed n e r0 e1 r e' : n = sp_last_cloud (ed_spool e) + 1 -> 0 <= sp_last_cloud (ed_spool e) ->
  beside e e1 -> then_record n (r0, e1) = (r, e') -> consumed n e r e' /\ nd_active (ed_node e') = nd_active (ed_node e)
    /\ sp_commands (ed_spool e') = sp_commands (ed_spool e) /\ sp_fences (ed_spool e') = sp_fences (ed_spool e).
Proof.
  intros Hn H0 [[H1 H2 H3 H4 H5] Ha] H. cbn in H. destruct r0 as [|x]; [|simplify_eq; by split].
  unfold record_cloud_sequence in H. rewrite H4 in H. rewrite !decide_False in H by lia. simplify_eq. split; [|done].
  split; [|done|done]. etransitivity; [exact H1|]. apply (evolves_op (OpRecord (sp_last_cloud (ed_spool e) + 1))).
  cbn. unfold record_cloud_sequence. rewrite H4, !decide_False by lia. done.
Qed.

Lemma enqueue_at_consumed n ack e r e' : n = sp_last_cloud (ed_spool e) + 1 -> enqueue_ack_at n ack e = (r, e') ->
  consumed n e r e' /\ r = Ok tt /\ nd_active (ed_node e') = nd_active (ed_node e)
    /\ sp_commands (ed_spool e') = sp_commands (ed_spool e) /\ sp_fences (ed_spool e') = sp_fences (ed_spool e).
Proof.
  intros Hn H. unfold enqueue_ack_at in H.
  assert (record_cloud_with_edge_message n (Some (EB_command_ack ack)) 0 (ed_spool e)
          = Ok (sp_last_edge (ed_spool e) + 1,
                (append_outbound (EB_command_ack ack) 0 (ed_spool e)).2 <| sp_last_cloud := n |>)) as E.
  { unfold record_cloud_with_edge_message. cbn. by rewrite decide_False by lia. }
  rewrite E in H. simplify_eq. split; [|done]. split; [|done|done].
  apply (evolves_op (OpRecordWith (sp_last_cloud (ed_spool e) + 1) (Some (EB_command_ack ack)) 0)).
  change (returning (record_cloud_with_edge_message (sp_last_cloud (ed_spool e) + 1) (Some (EB_command_ack ack)) 0 (ed_spool e))
          = Ok (ed_spool (with_spool ((append_outbound (EB_command_ack ack) 0 (ed_spool e)).2
                  <| sp_last_cloud := sp_last_cloud (ed_spool e) + 1 |>) e))).
  by rewrite E.
Qed.

Lemma dispatch_spool c n : nd_spool (dispatch c n).2 = nd_spool n.
Proof. unfold dispatch, start. by_cases; done. Qed.

Lemma cancel_spool id n : nd_spool (cancel id n).2 = nd_spool n.
Proof. unfold cancel. by case_match. Qed.

Lemma receive_spool c now n :
  evolves (nd_spool n) (nd_spool (receive c now n).2)
  /\ sp_last_cloud (nd_spool (receive c now n).2) = sp_last_cloud (nd_spool n)
  /\ sp_last_edge_acked (nd_spool (receive c now n).2) = sp_last_edge_acked (nd_spool n).
Proof.
  unfold receive. destruct (_validate c now) as [[]|]; [done|].
  destruct (accept_command c (nd_spool n)) as [[[inserted st] s']|e] eqn:E; [|by destruct e].
  assert (evolves (nd_spool n) s') as He by (apply (evolves_op (OpAccept c)); cbn; by rewrite E).
  unfold accept_command in E. destruct inserted; cbn; (split; [done|]); ok_inv E; done.
Qed.

Lemma handle_start_consumed n c now e r e' : n = sp_last_cloud (ed_spool e) + 1 -> node_ok (ed_node e) ->
  handle_start n c now e = (r, e') -> consumed n e r e' /\ r = Ok tt /\ node_ok (ed_node e').
Proof.
  intros Hn Hok H. unfold handle_start in H. destruct (receive_spool c now (ed_node e)) as (H1 & H2 & H3).
  pose proof (receive_ok c now _ Hok) as Hrok. pose proof (receive_received c now (ed_node e)) as Hrec.
  destruct (receive c now (ed_node e)) as [received n1]. cbn in H1, H2, H3, Hrok.
  specialize (Hrec received n1 Hok eq_refl).
  destruct (enqueue_ack_at n received (e <| ed_node := n1 |>)) as [r2 e2] eqn:E2.
  destruct (enqueue_at_consumed n received (e <| ed_node := n1 |>) r2 e2) as ([C1 C2 C3] & -> & Ha & Hc & Hf);
    [unfold ed_spool in *; cbn; congruence|done|]. cbn in C1, C2, C3, Ha, Hc, Hf.
  assert (consumed n e (Ok tt) e2) as Hco by (split; [by etransitivity|done|etrans; [exact C3|exact H3]]).
  assert (node_ok (ed_node e2)) as Hok2.
  { destruct (evolves_ok _ _ C1 (ok_spool _ Hrok)) as [Hs _].
    pose proof (node_ok_spool n1 (ed_spool e2) Hrok Hs Hc Hf) as Hk. destruct (ed_node e2) as [s a] eqn:Ee. cbn in Ha. subst a.
    unfold ed_spool in Hk. by rewrite Ee in Hk. }
  case_decide as D; simplify_eq; [|done].
  assert (forall row, find_command (sc_command_id c) (nd_spool (ed_node e2)) = Some row -> cr_serialized row = c) as Hrow.
  { intros row. change (sp_commands (nd_spool (ed_node e2)) = sp_commands (nd_spool n1)) in Hc. specialize (Hrec D).
    unfold find_command in *. rewrite Hc, Hrec. by intros [= <-]. }
  pose proof (dispatch_ok c (ed_node e2) Hok2 Hrow) as Hd. pose proof (dispatch_spool c (ed_node e2)) as Hs.
  destruct (dispatch c (ed_node e2)) as [started n3]. cbn in Hd, Hs. simplify_eq. split; [|split; [done|]].
  - destruct Hco as [O1 O2 O3]. destruct (aside_emit (EB_command_ack started) 0 (nd_spool n3) eq_refl) as [G1 _ _ G4 G5].
    split; cbn; unfold ed_spool in *; cbn; rewrite Hs in *; [by etransitivity|done|done].
  - apply (emit_ok (EB_command_ack started) 0 n3 Hd).
Qed.

Lemma handle_cancel_consumed n id e r e' : n = sp_last_cloud (ed_spool e) + 1 -> node_ok (ed_node e) ->
  handle_cancel n id e = (r, e') -> consumed n e r e' /\ r = Ok tt /\ node_ok (ed_node e').
Proof.
  intros Hn Hok H. unfold handle_cancel in H. pose proof (cancel_ok id _ Hok) as Hc. pose proof (cancel_spool id (ed_node e)) as Hs.
  destruct (cancel id (ed_node e)) as [canceled n1]. cbn in Hc, Hs.
  apply enqueue_at_consumed in H as ([C1 C2 C3] & -> & Ha & Hcm & Hf); [|unfold ed_spool in *; cbn; congruence].
  unfold ed_spool in C1, C2, C3, Hcm, Hf. cbn in C1, C2, C3, Ha, Hcm, Hf. rewrite Hs in C1, C3.
  split; [by split|]. split; [done|]. rewrite <- Hs in C1. destruct (evolves_ok _ _ C1 (ok_spool _ Hc)) as [Ho _].
  pose proof (node_ok_spool n1 _ Hc Ho Hcm Hf) as Hk. destruct (ed_node e') as [s a]. cbn in *. by subst a.
Qed.

Definition is_hello (m : CloudToEdge) : bool := match m.2 with Some (CB_hello _) => true | _ => false end.

Record handled (m : CloudToEdge) (e : edge) (r : result edge_error ()) (e' : edge) : Prop := mkHandled {
  ha_node : node_ok (ed_node e');
  ha_evolves : evolves (ed_spool e) (ed_spool e');
  ha_cloud : sp_last_cloud (ed_spool e')
             = if is_ok r && bool_decide (m.1 = sp_last_cloud (ed_spool e) + 1) then m.1 else sp_last_cloud (ed_spool e);
  ha_acked : is_hello m = false -> sp_last_edge_acked (ed_spool e') = sp_last_edge_acked (ed_spool e);
}.

Lemma handled_consumed m e r e' : m.1 = sp_last_cloud (ed_spool e) + 1 -> consumed m.1 e r e' -> node_ok (ed_node e') ->
  handled m e r e'.
Proof. intros Hm [H1 H2 H3] Hn. split; try done. by rewrite bool_decide_true, andb_true_r. Qed.

Lemma handled_same m e r : node_ok (ed_node e) -> is_ok r = false \/ m.1 <> sp_last_cloud (ed_spool e) + 1 -> handled m e r e.
Proof.
  intros Hn H. split; try done. destruct (is_ok r); [|done]. rewrite bool_decide_false; [done|]. by destruct H.
Qed.

Lemma handled_recorded m e r0 e1 r e' : node_ok (ed_node e) -> m.1 = sp_last_cloud (ed_spool e) + 1 -> beside e e1 ->
  then_record m.1 (r0, e1) = (r, e') -> handled m e r e'.
Proof.
  intros Hn Hm Hb H. pose proof (ok_last_cloud _ (ok_outbound _ (ok_spool _ Hn))) as H0.
  apply (then_record_consumed m.1 e) in H as (Hc & Ha & Hcm & Hf); [|done|done|done].
  apply handled_consumed; [done|done|]. destruct (evolves_ok _ _ (co_evolves _ _ _ _ Hc) (ok_spool _ Hn)) as [Ho _].
  pose proof (node_ok_spool _ _ Hn Ho Hcm Hf) as Hk. unfold ed_spool in Hk. destruct (ed_node e') as [s a], (ed_node e) as [s0 a0].
  cbn in *. by subst a.
Qed.

Lemma hello_handled k e r e' : node_ok (ed_node e) ->
  (match acknowledge_edge_sequence k (ed_spool e) with
   | Ok s => (Ok tt, with_spool s e) | Err x => (Err (EdgeSpoolError x), e) end) = (r, e') ->
  handled (0, Some (CB_hello k)) e r e'.
Proof.
  intros Hn H. pose proof (ok_last_cloud _ (ok_outbound _ (ok_spool _ Hn))) as H0.
  destruct (acknowledge_edge_sequence k (ed_spool e)) as [s|] eqn:E; simplify_eq.
  2: { apply handled_same; [done|by left]. }
  assert (evolves (ed_spool e) s) as He by by apply (evolves_op (OpAcknowledge k)).
  split; cbn.
  - apply node_ok_spool; [done|by apply (evolves_ok _ _ He), Hn|..]; unfold acknowledge_edge_sequence in E; by ok_inv E.
  - done.
  - change (0 <= sp_last_cloud (ed_spool e)) in H0. rewrite bool_decide_false by lia.
    unfold acknowledge_edge_sequence in E. by ok_inv E.
  - done.
Qed.

Lemma handle_cloud_handled cfg now m e r e' : node_ok (ed_node e) -> handle_cloud cfg now m e = (r, e') -> handled m e r e'.
Proof.
  intros Hn H. unfold handle_cloud in H. destruct m as [n [b|]]; cbn [fst snd] in H.
  2: { simplify_eq. apply handled_same; [done|by left]. }
  destruct (decide (is_hello (n, Some b) = true)) as [Hh|Hh].
  { destruct b; try done. case_decide as D; [simplify_eq; apply handled_same; [done|by left]|].
    assert (n = 0) as -> by lia. by apply hello_handled. }
  assert (H' : (if decide (n <= sp_last_cloud (ed_spool e)) then (Ok tt, e) else
     if decide (n <> sp_last_cloud (ed_spool e) + 1) then (Err (ControlStreamError ("cloud sequence gap: expected "
        +:+ py_str_int (sp_last_cloud (ed_spool e) + 1) +:+ ", got " +:+ py_str_int n)), e) else (r, e')) = (r, e')).
  { destruct b; try done; by_cases; done. }
  destruct (decide (n <= sp_last_cloud (ed_spool e))) as [D|D].
  { simplify_eq. apply handled_same; [done|]. right. cbn. lia. }
  destruct (decide (n <> sp_last_cloud (ed_spool e) + 1)) as [D2|D2].
  { simplify_eq. apply handled_same; [done|by left]. }
  assert (n = sp_last_cloud (ed_spool e) + 1) as Hm by lia. clear D D2 H'.
  destruct b as [k|c|id|g|fs|id cid ap|id|f]; [done|..].
  - destruct (handle_start_consumed _ _ _ _ _ _ Hm Hn H) as (Hc & _ & Hk). by apply handled_consumed.
  - destruct (handle_cancel_consumed _ _ _ _ _ Hm Hn H) as (Hc & _ & Hk). by apply handled_consumed.
  - destruct (handle_grant cfg g now e) as [r0 e1] eqn:E. eapply handled_recorded; [done|done| |exact H]. by eapply handle_grant_beside.
  - case_decide; [simplify_eq; apply handled_same; [done|by left]|]. eapply handled_recorded; [done|done| |exact H]. done.
  - destruct (cfg_actions cfg); [|simplify_eq; apply handled_same; [done|by left]].
    destruct (resolve_from_cloud _ _ _ _ _) as [r0 a]. eapply handled_recorded; [done|done| |exact H]. done.
  - destruct (handle_revoke cfg id now e) as [r0 e1] eqn:E. eapply handled_recorded; [done|done| |exact H]. by eapply handle_revoke_beside.
  - destruct (handle_frame cfg f now e) as [r0 e1] eqn:E. eapply handled_recorded; [done|done| |exact H]. by eapply handle_frame_beside.
Qed.

(** ** The gateway as a state machine *)

(** What the companion API and the executor write to the spool. *)
Definition side_op (op : spool_op) : Prop :=
  match op with
  | OpAddEvidence _ | OpEvidenceUploaded _ | OpEvidenceRetry _ | OpIssue _ _ _ _ | OpConsume _ _ _ | OpRevokeBinding _ _ _
  | OpPutDelivery _ _ => True
  | _ => False
  end.

Inductive edge_label : Type :=
| EL_cloud (message : CloudToEdge) (now : Z)
| EL_restart (now : Z)
| EL_local.

(** An exception that escapes [handle_cloud] ends the gateway: the next state
    is the one it restarts in. *)
Inductive edge_step (cfg : config) : edge_label -> edge -> edge -> Prop :=
| ES_cloud m now e e' : handle_cloud cfg now m e = (Ok tt, e') -> edge_step cfg (EL_cloud m now) e e'
| ES_crash m now x resolve fresh e e1 e' :
    handle_cloud cfg now m e = (Err x, e1) -> restart resolve fresh now (ed_spool e1) = (Ok tt, e') ->
    edge_step cfg (EL_cloud m now) e e'
| ES_restart resolve fresh now e e' : restart resolve fresh now (ed_spool e) = (Ok tt, e') -> edge_step cfg (EL_restart now) e e'
| ES_begin r e : r ∈ nd_active (ed_node e) -> ru_started r = false ->
    edge_step cfg EL_local e (e <| ed_node := run_begin r (ed_node e) |>)
| ES_end r o e : r ∈ nd_active (ed_node e) -> ru_started r = true ->
    edge_step cfg EL_local e (e <| ed_node := run_end r o (ed_node e) |>)
| ES_emit b p e : is_sequenced (Some b) = Some b -> edge_step cfg EL_local e (with_spool (append_outbound b p (ed_spool e)).2 e)
| ES_side op s e : side_op op -> apply_op op (ed_spool e) = Ok s -> edge_step cfg EL_local e (with_spool s e)
| ES_require c now b a e : require_confirmation c now (ed_actions e) = Ok (b, a) ->
    edge_step cfg EL_local e
      (match b with
       | Some b => with_spool (append_outbound b 0 (ed_spool e)).2 (e <| ed_actions := a |>)
       | None => e <| ed_actions := a |>
       end)
| ES_action action device_id command_id confirmation_id action_id now r e e' :
    record_local_action action device_id command_id confirmation_id action_id now e = (r, e') -> edge_step cfg EL_local e e'
| ES_wait_begin id b a e : wait_begin id (ed_actions e) = Ok (b, a) -> edge_step cfg EL_local e (e <| ed_actions := a |>)
| ES_wait_end id b a e : wait_end id (ed_actions e) = Some (b, a) -> edge_step cfg EL_local e (e <| ed_actions := a |>)
| ES_show device_id now e : edge_step cfg EL_local e (e <| ed_actions := (active_confirmation device_id now (ed_actions e)).2 |>)
| ES_authorize id device_id token capability now e :
    edge_step cfg EL_local e (e <| ed_sessions := (authorize id device_id token capability now (ed_sessions e)).2 |>)
| ES_expire now e : edge_step cfg EL_local e (e <| ed_sessions := (expire now (ed_sessions e)).2 |>).

Definition new_edge : edge := mkEdge new_node ∅ no_actions.
Definition reachable_edge (cfg : config) (e : edge) : Prop := rtc (fun e e' => exists l, edge_step cfg l e e') new_edge e.

(** *** Every step keeps the node well formed and extends the spool *)

Lemma side_op_aside op s s' : side_op op -> apply_op op s = Ok s' -> aside s s'.
Proof.
  intros Ho H. split; [by apply (evolves_op op)|..]; destruct op; try done; cbn in H;
    unfold add_evidence, issue_companion_enrollment, put_artifact_delivery, consume_companion_enrollment, bind_device in H;
    by_cases; done.
Qed.

Lemma node_ok_aside n s : node_ok n -> aside (nd_spool n) s -> node_ok (n <| nd_spool := s |>).
Proof. intros Hn [H1 H2 H3 _ _]. apply node_ok_spool; [done|by apply (evolves_ok _ _ H1), Hn|done|done]. Qed.

(** What a step does to the node: runs, spool writes, a restart. *)
Record progresses (e e' : edge) : Prop := mkProgresses {
  pr_node : node_ok (ed_node e');
  pr_evolves : evolves (ed_spool e) (ed_spool e');
  pr_cloud : sp_last_cloud (ed_spool e') = sp_last_cloud (ed_spool e);
  pr_acked : sp_last_edge_acked (ed_spool e') = sp_last_edge_acked (ed_spool e);
}.

Lemma progresses_aside s e : node_ok (ed_node e) -> aside (ed_spool e) s -> progresses e (with_spool s e).
Proof. intros Hn Ha. split; [by apply node_ok_aside|apply Ha..]. Qed.

Lemma progresses_same e e' : node_ok (ed_node e) -> ed_node e' = ed_node e -> progresses e e'.
Proof. intros Hn E. unfold ed_spool. split; unfold ed_spool; by rewrite E. Qed.

Lemma regrant_aside resolve fresh now gs s m r s' : regrant resolve fresh now gs s m = (r, s') -> aside s s'.
Proof.
  revert s m. induction gs as [|g gs IH]; intros s m H; cbn in H; [by simplify_eq|].
  case_decide; [etransitivity; [apply aside_revoke|by eapply IH]|].
  destruct (resolve _); [|by simplify_eq]. destruct (grant _ _ _ _ _ _ _ _ _ _ _) as [[]|]; [by eapply IH|by simplify_eq].
Qed.

Lemma restart_progresses resolve fresh now e e' : node_ok (ed_node e) ->
  restart resolve fresh now (ed_spool e) = (Ok tt, e') -> progresses e e'.
Proof.
  unfold restart. intros Hn H. destruct (regrant _ _ _ _ _ _) as [[m|] s] eqn:E; simplify_eq.
  apply regrant_aside in E as [H1 H2 H3 H4 H5]. split; try done. cbn.
  split; [by apply (evolves_ok _ _ H1), Hn|constructor|constructor].
Qed.

Lemma evolves_set_state c st s s' : set_command_state c st s = Ok s' -> evolves s s' /\ sp_last_cloud s' = sp_last_cloud s
  /\ sp_last_edge_acked s' = sp_last_edge_acked s.
Proof.
  intros H. split; [by apply (evolves_op (OpSetState c st))|]. unfold set_command_state in H. by ok_inv H.
Qed.

Lemma run_final_spool r st n : let s := nd_spool n in let s' := nd_spool (run_final r st n) in
  evolves s s' /\ sp_last_cloud s' = sp_last_cloud s /\ sp_last_edge_acked s' = sp_last_edge_acked s.
Proof.
  cbv zeta. unfold run_final. destruct (set_command_state _ _ _) as [s1|] eqn:E; [|done]. cbn.
  apply evolves_set_state in E as (H1 & H2 & H3). split; [|done]. etransitivity; [exact H1|].
  by apply (aside_emit (runner_event (ru_command r) st) 10 s1).
Qed.

Lemma run_begin_spool r n : let s := nd_spool n in let s' := nd_spool (run_begin r n) in
  evolves s s' /\ sp_last_cloud s' = sp_last_cloud s /\ sp_last_edge_acked s' = sp_last_edge_acked s.
Proof.
  cbv zeta. unfold run_begin. destruct (assert_current_fence _ _ _ _); [|apply run_final_spool].
  destruct (set_command_state _ _ _) as [s1|] eqn:E; [|apply run_final_spool]. cbn.
  apply evolves_set_state in E as (H1 & H2 & H3). split; [|done]. etransitivity; [exact H1|].
  by apply (aside_emit (runner_event (ru_command r) "STARTED") 10 s1).
Qed.

Lemma progresses_node e n : node_ok n ->
  (evolves (ed_spool e) (nd_spool n) /\ sp_last_cloud (nd_spool n) = sp_last_cloud (ed_spool e)
   /\ sp_last_edge_acked (nd_spool n) = sp_last_edge_acked (ed_spool e)) -> progresses e (e <| ed_node := n |>).
Proof. intros Hn (H1 & H2 & H3). by split. Qed.

Lemma progresses_trans e1 e2 e3 : progresses e1 e2 -> progresses e2 e3 -> progresses e1 e3.
Proof. intros [] []. split; [done|by etransitivity|congruence|congruence]. Qed.

Lemma local_action_progresses action d c cf id now e r e' : node_ok (ed_node e) ->
  record_local_action action d c cf id now e = (r, e') -> progresses e e'.
Proof.
  intros Hn H. unfold record_local_action in H. cbv zeta in H.
  case_decide; [simplify_eq; by apply progresses_same|].
  case_decide; [case_decide; simplify_eq; [by apply progresses_same|]|].
  { apply (progresses_trans _ (e <| ed_node := (cancel c (ed_node e)).2 |>)).
    - apply progresses_node; [by apply cancel_ok|]. by rewrite cancel_spool.
    - apply progresses_aside; [by apply cancel_ok|by apply aside_emit]. }
  case_decide; [simplify_eq; by apply progresses_same|]. destruct (confirmation _ _); [|simplify_eq; by apply progresses_same].
  repeat (case_decide; [simplify_eq; by apply progresses_same|]). simplify_eq. by apply progresses_aside, aside_emit.
Qed.

Lemma local_progresses cfg e e' : edge_step cfg EL_local e e' -> node_ok (ed_node e) -> progresses e e'.
Proof.
  intros H Hn. inversion H; subst.
  - apply progresses_node; [by apply run_begin_ok|]. apply run_begin_spool.
  - apply progresses_node; [by apply run_end_ok|]. apply run_final_spool.
  - by apply progresses_aside, aside_emit.
  - by eapply progresses_aside, side_op_aside.
  - destruct b as [b|]; [|by apply progresses_same].
    apply (progresses_trans _ (e <| ed_actions := a |>)); [by apply progresses_same|].
    apply progresses_aside; [done|]. apply aside_emit. unfold require_confirmation in H0. by ok_inv H0.
  - by eapply local_action_progresses.
  - by apply progresses_same.
  - by apply progresses_same.
  - by apply progresses_same.
  - by apply progresses_same.
  - by apply progresses_same.
Qed.

Lemma edge_step_ok cfg l e e' : edge_step cfg l e e' -> node_ok (ed_node e) ->
  node_ok (ed_node e') /\ evolves (ed_spool e) (ed_spool e').
Proof.
  intros H Hn. destruct l as [m now|now|].
  - inversion H as [? ? ? ? Hc|? ? x res fr ? e1 ? Hc Hr| | | | | | | | | | | |]; subst.
    + by apply handle_cloud_handled in Hc as [].
    + apply handle_cloud_handled in Hc as []; [|done]. apply restart_progresses in Hr as []; [|done].
      split; [done|by etransitivity].
  - inversion H; subst. by eapply restart_progresses in H1 as [].
  - by apply (local_progresses cfg e e') in H as [].
Qed.

Lemma edge_steps_ok cfg e e' : rtc (fun e e' => exists l, edge_step cfg l e e') e e' -> node_ok (ed_node e) ->
  node_ok (ed_node e') /\ evolves (ed_spool e) (ed_spool e').
Proof.
  induction 1 as [e|e e1 e' [l Hl] _ IH]; intros Hn; [done|]. destruct (edge_step_ok _ _ _ _ Hl Hn) as [H1 H2].
  destruct (IH H1) as [H3 H4]. split; [done|by etransitivity].
Qed.

Lemma reachable_node_ok cfg e : reachable_edge cfg e -> node_ok (ed_node e).
Proof. intros H. by apply (edge_steps_ok cfg new_edge e H), new_node_ok. Qed.

(** ** Properties *)

Lemma find_row_eq s r id : spool_ok s -> r ∈ sp_commands s -> cr_id r = id -> find_command id s = Some r.
Proof. intros [[Hd _] _ _] Hr <-. by apply tget_In. Qed.

Lemma run_final_leaves r state n : ru_device r ∉ ru_device <$> nd_active (run_final r state n).
Proof.
  unfold run_final, pop. cbn. intros (x & Ex & [Hx _]%list_elem_of_filter)%list_elem_of_fmap. by apply Hx.
Qed.

(** C5. Whatever messages, runs, local actions, crashes and restarts a gateway
    went through: a device has at most one runner. A runner whose command has
    reached the executor is durably STARTED, and it holds the current fence of
    the device or has been told to stop: no superseded lease goes on unaware.
    A runner that has not reached it yet is durably RECEIVED; when its lease
    has been superseded meanwhile, its first step ends it without the
    executor. *)
Theorem runners_hold_the_fence cfg e (H : reachable_edge cfg e) :
  NoDup (ru_device <$> nd_active (ed_node e))
  /\ forall r, r ∈ nd_active (ed_node e) ->
       get_command_state (sc_command_id (ru_command r)) (ed_spool e) = Some (if ru_started r then STARTED else RECEIVED)
       /\ (ru_started r = true -> current_or_canceled (sp_fences (ed_spool e) !! ru_device r) r)
       /\ (ru_started r = false ->
           sp_fences (ed_spool e) !! ru_device r <> Some (sc_fencing_token (ru_command r), sc_lease_id (ru_command r)) ->
           ru_device r ∉ ru_device <$> nd_active (run_begin r (ed_node e))).
Proof.
  destruct (reachable_node_ok cfg e H) as [Hs Hd Hr]. split; [done|]. intros r Hin. rewrite Forall_forall in Hr.
  destruct (Hr r Hin) as [Hf Hc]. split; [|split; [exact Hc|]].
  - unfold get_command_state, ed_spool. by rewrite Hf.
  - intros _ Hne. unfold run_begin, assert_current_fence. rewrite decide_False by exact Hne. apply run_final_leaves.
Qed.

Definition no_debug : config := mkConfig false None None None false.
Definition started_edge : edge :=
  let e := (handle_cloud no_debug 5 (1, Some (CB_start (demo_command "c-1" "lease-a" 7))) new_edge).2 in
  e <| ed_node := run_begin (mkRunner (demo_command "c-1" "lease-a" 7) false false) (ed_node e) |>.

Lemma started_edge_reachable : reachable_edge no_debug started_edge.
Proof.
  eapply rtc_l; [exists (EL_cloud (1, Some (CB_start (demo_command "c-1" "lease-a" 7))) 5)|].
  - eapply ES_cloud. vm_compute. reflexivity.
  - apply rtc_once. exists EL_local. unfold started_edge.
    match goal with |- edge_step _ _ ?e _ => change e with (handle_cloud no_debug 5 (1, Some (CB_start (demo_command "c-1" "lease-a" 7))) new_edge).2 end.
    apply ES_begin; [|done]. by left.
Qed.

(** A command that waits for its runner while a newer lease of the same device
    is announced with another command. *)
Definition superseded_edge : edge :=
  let e := (handle_cloud no_debug 5 (1, Some (CB_start (demo_command "c-1" "lease-a" 7))) new_edge).2 in
  (handle_cloud no_debug 6 (2, Some (CB_start (demo_command "c-2" "lease-b" 8))) e).2.

Lemma superseded_edge_reachable : reachable_edge no_debug superseded_edge.
Proof.
  eapply rtc_l; [exists (EL_cloud (1, Some (CB_start (demo_command "c-1" "lease-a" 7))) 5); eapply ES_cloud; vm_compute; reflexivity|].
  apply rtc_once. exists (EL_cloud (2, Some (CB_start (demo_command "c-2" "lease-b" 8))) 6). eapply ES_cloud. vm_compute. reflexivity.
Qed.

Lemma runners_hold_the_fence_witness :
  (exists r, r ∈ nd_active (ed_node started_edge) /\ ru_started r = true
     /\ current_or_canceled (sp_fences (ed_spool started_edge) !! ru_device r) r)
  /\ exists r, r ∈ nd_active (ed_node superseded_edge) /\ ru_started r = false
     /\ ru_device r ∉ ru_device <$> nd_active (run_begin r (ed_node superseded_edge)).
Proof.
  split.
  - exists (mkRunner (demo_command "c-1" "lease-a" 7) false true). split; [by left|]. split; [done|].
    apply (runners_hold_the_fence no_debug started_edge started_edge_reachable); [by left|done].
  - exists (mkRunner (demo_command "c-1" "lease-a" 7) true false).
    assert (mkRunner (demo_command "c-1" "lease-a" 7) true false ∈ nd_active (ed_node superseded_edge)) as Hin by by left.
    split; [done|]. split; [done|].
    apply (runners_hold_the_fence no_debug superseded_edge superseded_edge_reachable); [done|done|vm_compute; congruence].
Defined.

(** Messages of the cloud are consumed in order and once: one that was
    consumed before changes nothing, one past the next is refused and changes
    nothing, and the next one moves the cursor exactly when its handler
    returns; only a hello moves the acknowledgement of the edge's messages. *)
Theorem cloud_messages_in_order cfg now n b e r e'
    (Hn : node_ok (ed_node e)) (Hb : is_hello (n, Some b) = false) (H : handle_cloud cfg now (n, Some b) e = (r, e')) :
  let last := sp_last_cloud (ed_spool e) in
  (n <= last -> r = Ok tt /\ e' = e) /\ (n > last + 1 -> is_ok r = false /\ e' = e)
  /\ (n = last + 1 -> sp_last_cloud (ed_spool e') = if is_ok r then n else last)
  /\ sp_last_edge_acked (ed_spool e') = sp_last_edge_acked (ed_spool e)
  /\ spool_le (ed_spool e) (ed_spool e').
Proof.
  cbv zeta. pose proof (handle_cloud_handled _ _ _ _ _ _ Hn H) as [H1 H2 H3 H4].
  assert (n <= sp_last_cloud (ed_spool e) -> r = Ok tt /\ e' = e) as Hold.
  { intros D. destruct b; try done; cbn in H; rewrite decide_True in H by done; by simplify_eq. }
  assert (n > sp_last_cloud (ed_spool e) + 1 -> is_ok r = false /\ e' = e) as Hgap.
  { intros D. destruct b; try done; cbn in H; rewrite decide_False, decide_True in H by lia; by simplify_eq. }
  split; [done|]. split; [done|]. split; [|split; [by apply H4|by apply (evolves_ok _ _ H2), Hn]].
  intros D. rewrite H3. cbn. by rewrite bool_decide_true, andb_true_r.
Qed.

Lemma cloud_messages_in_order_witness :
  (handle_cloud no_debug 9 (1, Some (CB_start (demo_command "c-1" "lease-a" 7))) started_edge).2 = started_edge.
Proof.
  refine (proj2 (proj1 (cloud_messages_in_order no_debug 9 1 (CB_start (demo_command "c-1" "lease-a" 7)) started_edge
    (Ok tt) _ (reachable_node_ok _ _ started_edge_reachable) eq_refl _) _)); vm_compute; done.
Defined.

(** A grant that has expired, delivered as the edge's next message: *)
Definition expired_grant (e : edge) (g : debug_grant) : CloudToEdge := (sp_last_cloud (ed_spool e) + 1, Some (CB_debug_grant g)).

(** The times and messages of a step, once that grant is the next message. *)
Definition label_after (t : Z) (m : CloudToEdge) (l : edge_label) : Prop :=
  match l with
  | EL_cloud m' now => t <= now /\ (m'.1 = m.1 -> m' = m)
  | EL_restart now => t <= now
  | EL_local => True
  end.

Lemma expired_grant_raises cfg now n g e : dg_expires_at g <= now -> is_ok (handle_cloud cfg now (n, Some (CB_debug_grant g)) e).1 = false
  \/ n <= sp_last_cloud (ed_spool e).
Proof.
  intros Ht. cbn. destruct (decide (n <= sp_last_cloud (ed_spool e))); [by right|left]. case_decide; [done|].
  unfold handle_grant. destruct (cfg_target cfg) as [resolve|]; [|done].
  repeat (case_decide; [done|]). destruct (resolve _); [|done]. unfold grant. by rewrite decide_True by (by left).
Qed.

Definition step_after (cfg : config) (t : Z) (m : CloudToEdge) (e e' : edge) : Prop :=
  exists l, edge_step cfg l e e' /\ label_after t m l.

Lemma wedged_step cfg t m g e e' :
  m = (sp_last_cloud (ed_spool e) + 1, Some (CB_debug_grant g)) -> dg_expires_at g <= t -> node_ok (ed_node e) ->
  step_after cfg t m e e' -> node_ok (ed_node e') /\ sp_last_cloud (ed_spool e') = sp_last_cloud (ed_spool e).
Proof.
  intros Hm Hg Hn ([m' now|now|] & Hs & Hl).
  - destruct Hl as [Hnow Hsame]. destruct (edge_step_ok _ _ _ _ Hs Hn) as [Hn' _]. split; [done|].
    assert (forall r e1, handle_cloud cfg now m' e = (r, e1) ->
              sp_last_cloud (ed_spool e1) = sp_last_cloud (ed_spool e) /\ node_ok (ed_node e1)) as Hc.
    { intros r e1 H. pose proof (handle_cloud_handled _ _ _ _ _ _ Hn H) as [H1 _ H2 _]. split; [|done].
      rewrite H2. destruct (bool_decide_reflect (m'.1 = sp_last_cloud (ed_spool e) + 1)) as [E|E]; [|by rewrite andb_false_r].
      rewrite andb_true_r. rewrite Hsame, Hm in H by by rewrite E, Hm.
      destruct (expired_grant_raises cfg now (sp_last_cloud (ed_spool e) + 1) g e ltac:(lia)) as [Hr|?]; [|lia].
      rewrite H in Hr. cbn in Hr. by rewrite Hr. }
    inversion Hs as [? ? ? ? H|? ? x res fr ? e1 ? H Hr| | | | | | | | | | | |]; subst; [by apply Hc in H as []|].
    apply Hc in H as [<- Hn1]. by apply restart_progresses in Hr as [].
  - destruct (edge_step_ok _ _ _ _ Hs Hn) as [Hn' _]. split; [done|]. inversion Hs; subst. by eapply restart_progresses in H0 as [].
  - by apply local_progresses in Hs as [].
Qed.

(** An edge that is offline for longer than a debug grant lives never
    consumes another message: the expired grant raises, the gateway ends, and
    after every restart the hub replays the same message. Nothing that comes
    later in the stream, a revocation or a cancellation included, is reached. *)
Theorem expired_grant_wedges_the_edge cfg e g t e'
    (Hn : node_ok (ed_node e)) (Ht : dg_expires_at g <= t) (H : rtc (step_after cfg t (expired_grant e g)) e e') :
  sp_last_cloud (ed_spool e') = sp_last_cloud (ed_spool e).
Proof.
  unfold expired_grant in H. remember (sp_last_cloud (ed_spool e)) as n eqn:En.
  assert (node_ok (ed_node e') /\ sp_last_cloud (ed_spool e') = n) as [_ ?]; [|done].
  induction H as [e|e e1 e' Hs _ IH]; [done|]. destruct (wedged_step cfg t (n + 1, Some (CB_debug_grant g)) g e e1) as [Hn1 E1]; [by subst|done..|].
  apply IH; [done|congruence].
Qed.

Definition debug_config : config := mkConfig true (Some (fun _ => Some "10.0.0.2")) None None true.
Definition stale_grant : debug_grant :=
  mkDebugGrant "d-1" "device-1" 100 ["view.frame"] "lease" 1 "0123456789abcdef0123456789abcdef".

Lemma expired_grant_wedges_the_edge_witness :
  exists e', edge_step debug_config (EL_cloud (expired_grant new_edge stale_grant) 200) new_edge e'
    /\ sp_last_cloud (ed_spool e') = 0.
Proof.
  exists new_edge. assert (edge_step debug_config (EL_cloud (expired_grant new_edge stale_grant) 200) new_edge new_edge) as Hs.
  { refine (ES_crash _ _ 200 (DebugSessionError "debug grant lifetime is invalid") (fun _ => Some "10.0.0.2") "" _ new_edge _ _ _);
      reflexivity. }
  split; [exact Hs|].
  apply (expired_grant_wedges_the_edge debug_config new_edge stale_grant 200 new_edge new_node_ok); [vm_compute; discriminate|].
  apply rtc_once. exists (EL_cloud (expired_grant new_edge stale_grant) 200). split; [exact Hs|]. split; [done|]. by intros.
Defined.

(** *** A command whose runner is gone *)

Definition abandoned (id : string) (row : command_row) (n : node) : Prop :=
  find_command id (nd_spool n) = Some row /\ forall r, r ∈ nd_active n -> sc_command_id (ru_command r) <> id.

Lemma abandoned_told id row s l l' : Forall2 told l l' -> abandoned id row (mkNode s l) -> abandoned id row (mkNode s l').
Proof.
  intros Hl [Hf Ha]. split; [done|]. intros r' Hin. apply list_elem_of_lookup in Hin as [i Hi].
  destruct (Forall2_lookup_r _ _ _ _ _ Hl Hi) as (r & Hir & Ht). apply list_elem_of_lookup_2 in Hir.
  destruct Ht as [-> | ->]; exact (Ha r Hir).
Qed.

Lemma abandoned_same id row n n' : sp_commands (nd_spool n') = sp_commands (nd_spool n) -> nd_active n' = nd_active n ->
  abandoned id row n -> abandoned id row n'.
Proof. unfold abandoned, find_command. by intros -> ->. Qed.

Lemma abandoned_cancel id row c n : abandoned id row n -> abandoned id row (cancel c n).2.
Proof.
  intros H. unfold cancel. destruct (cancel_first c (nd_active n)) as [l|] eqn:E; [|done]. destruct n as [s a].
  by apply (abandoned_told _ _ _ _ _ (cancel_first_told c a l E)).
Qed.

Lemma abandoned_receive id row c now n : abandoned id row n -> abandoned id row (receive c now n).2.
Proof.
  intros H. unfold receive. destruct (_validate c now) as [[]|]; [done|].
  destruct (accept_command c (nd_spool n)) as [[[inserted st] s']|e] eqn:E; [|by destruct e].
  assert (abandoned id row (mkNode s' (nd_active n))) as Hs.
  { destruct H as [Hf Ha]. split; [|done]. unfold accept_command, find_command in *. cbn.
    destruct (tget cr_id (sc_command_id c) (sp_commands (nd_spool n))); [by ok_inv E|].
    destruct (fence_error c _); [done|]. simplify_eq. cbn. by rewrite tget_app, Hf. }
  destruct inserted; [|done]. eapply abandoned_told, Hs. apply Forall2_fmap_r, Forall_Forall2_diag, Forall_forall.
  intros r _. cbn. case_decide; [by right|by left].
Qed.

Lemma abandoned_dispatch id row c n : abandoned id row n -> cr_state row <> RECEIVED \/ sc_command_id c <> id ->
  abandoned id row (dispatch c n).2.
Proof.
  intros H Hc. unfold dispatch. case_decide as D; [done|]. unfold start. destruct (tget _ _ _); [done|]. cbn.
  destruct H as [Hf Ha]. split; [done|]. intros r [Hr|Hr]%elem_of_app; [by apply Ha|].
  apply list_elem_of_singleton in Hr as ->. cbn. destruct Hc as [Hc|Hc]; [|done]. intros E. rewrite E in D.
  unfold get_command_state in D. rewrite Hf in D. cbn in D. congruence.
Qed.

Lemma abandoned_final id row r st n : abandoned id row n -> sc_command_id (ru_command r) <> id ->
  abandoned id row (run_final r (command_state_value st) n).
Proof.
  intros [Hf Ha] N. unfold run_final. split.
  - destruct (set_command_state _ _ _) as [s'|] eqn:E; [|done]. cbn.
    change (find_command id s' = Some row). by rewrite (find_set_state _ _ _ _ _ E), decide_False by congruence.
  - intros x Hx. destruct (set_command_state _ _ _); cbn in Hx; apply list_elem_of_filter in Hx as [_ Hx]; by apply Ha.
Qed.

Lemma abandoned_begin id row r n : abandoned id row n -> r ∈ nd_active n -> abandoned id row (run_begin r n).
Proof.
  intros H Hin. destruct (H) as [Hf Ha]. pose proof (Ha r Hin) as N. unfold run_begin.
  destruct (assert_current_fence _ _ _ _).
  2: { replace (if ru_cancel r then "CANCELED" else "FAILED")%string
         with (command_state_value (if ru_cancel r then CMD_CANCELED else CMD_FAILED)) by by destruct (ru_cancel r).
       by apply abandoned_final. }
  destruct (set_command_state _ "STARTED" _) as [s'|] eqn:E; [|by apply (abandoned_final _ _ _ CMD_FAILED)]. split; cbn.
  - change (find_command id s' = Some row). by rewrite (find_set_state _ STARTED _ _ _ E), decide_False by congruence.
  - intros x [[-> _]|[Hx _]]%elem_of_tput; [done|by apply Ha].
Qed.

(** The message is not a start of that command. *)
Definition not_start (id : string) (l : edge_label) : Prop :=
  match l with EL_cloud (_, Some (CB_start c)) _ => sc_command_id c <> id | _ => True end.

Lemma abandoned_beside id row e e' : beside e e' -> abandoned id row (ed_node e) -> abandoned id row (ed_node e').
Proof. intros [[_ H _ _ _] Ha]. by apply abandoned_same. Qed.

Lemma abandoned_enqueue id row n ack e : abandoned id row (ed_node e) -> abandoned id row (ed_node (enqueue_ack_at n ack e).2).
Proof.
  intros H. unfold enqueue_ack_at. destruct (record_cloud_with_edge_message _ _ _ _) as [[k s]|] eqn:E; [|done].
  eapply abandoned_same, H; [|done]. unfold record_cloud_with_edge_message in E. cbn in E. case_decide; by simplify_eq.
Qed.

Lemma abandoned_then_record id row n r e : abandoned id row (ed_node e) -> abandoned id row (ed_node (then_record n (r, e)).2).
Proof.
  intros H. cbn. destruct r; [|done]. destruct (record_cloud_sequence _ _) as [[k s]|] eqn:E; [|done].
  eapply abandoned_same, H; [|done]. unfold record_cloud_sequence in E. by ok_inv E.
Qed.

Lemma abandoned_cloud cfg now m id row e : abandoned id row (ed_node e) ->
  cr_state row <> RECEIVED \/ not_start id (EL_cloud m now) -> abandoned id row (ed_node (handle_cloud cfg now m e).2).
Proof.
  intros H Hc. unfold handle_cloud. destruct m as [n [b|]]; cbn [fst snd]; [|done].
  destruct b as [k|c|c|g|fs|cf cid ap|ss|f].
  { case_decide; [done|]. destruct (acknowledge_edge_sequence _ _) eqn:E; [|done]. eapply abandoned_same, H; [|done].
    unfold acknowledge_edge_sequence in E. by ok_inv E. }
  all: case_decide; [done|]; case_decide; [done|].
  - unfold handle_start. pose proof (abandoned_receive id row c now _ H) as Hr. destruct (receive c now (ed_node e)) as [ack n1].
    pose proof (abandoned_enqueue id row n ack (e <| ed_node := n1 |>) Hr) as He.
    destruct (enqueue_ack_at n ack (e <| ed_node := n1 |>)) as [[|] e2]; [|done]. case_decide; [|done].
    assert (abandoned id row (dispatch c (ed_node e2)).2) as Hd by (apply abandoned_dispatch; [done|]; destruct Hc; auto).
    destruct (dispatch c (ed_node e2)) as [started n3]. by eapply abandoned_same, Hd.
  - unfold handle_cancel. pose proof (abandoned_cancel id row c _ H) as Hcn. destruct (cancel c (ed_node e)) as [canceled n1].
    by apply abandoned_enqueue.
  - destruct (handle_grant cfg g now e) as [r e1] eqn:E. eapply abandoned_then_record, abandoned_beside, H. by eapply handle_grant_beside.
  - case_decide; [done|]. by apply abandoned_then_record.
  - destruct (cfg_actions cfg); [|done]. destruct (resolve_from_cloud _ _ _ _ _). by apply abandoned_then_record.
  - destruct (handle_revoke cfg ss now e) as [r e1] eqn:E. eapply abandoned_then_record, abandoned_beside, H. by eapply handle_revoke_beside.
  - destruct (handle_frame cfg f now e) as [r e1] eqn:E. eapply abandoned_then_record, abandoned_beside, H. by eapply handle_frame_beside.
Qed.

Lemma abandoned_restart id row resolve fresh now e e' : abandoned id row (ed_node e) ->
  restart resolve fresh now (ed_spool e) = (Ok tt, e') -> abandoned id row (ed_node e').
Proof.
  intros [Hf _] H. unfold restart in H. destruct (regrant _ _ _ _ _ _) as [[m|] s] eqn:E; simplify_eq.
  apply regrant_aside in E as [_ E _ _ _]. split; cbn; [unfold find_command in *; by rewrite E|]. intros r Hr. by apply elem_of_nil in Hr.
Qed.

Lemma abandoned_local_action id row action d c cf aid now e : abandoned id row (ed_node e) ->
  abandoned id row (ed_node (record_local_action action d c cf aid now e).2).
Proof.
  intros H. unfold record_local_action. cbv zeta. case_decide; [done|]. case_decide; [case_decide; [done|]|].
  - pose proof (abandoned_cancel id row c _ H) as Hc. by eapply abandoned_same, Hc.
  - case_decide; [done|]. destruct (confirmation _ _); [|done]. repeat (case_decide; [done|]). by eapply abandoned_same, H.
Qed.

Lemma abandoned_step cfg id row l e e' : edge_step cfg l e e' -> cr_state row <> RECEIVED \/ not_start id l ->
  abandoned id row (ed_node e) -> abandoned id row (ed_node e').
Proof.
  intros Hs Hl H. destruct Hs as [m now e e' Hc|m now x res fr e e1 e' Hc Hr|res fr now e e' Hr|r e Hin Hst|r o e Hin Hst|b p e Hb
    |op s e Hop Ha|c now b a e Hb|ac d c cf aid now r e e' Ha|i b a e Ha|i b a e Ha|d now e|i d tk cp now e|now e].
  - pose proof (abandoned_cloud cfg now m id row e H Hl) as Hx. by rewrite Hc in Hx.
  - pose proof (abandoned_cloud cfg now m id row e H Hl) as Hx. rewrite Hc in Hx. by eapply abandoned_restart.
  - by eapply abandoned_restart.
  - by apply abandoned_begin.
  - cbn. unfold run_end. destruct (final_state_value o (ru_cancel r)) as [st ->]. apply abandoned_final; [done|]. by apply H.
  - by eapply abandoned_same, H.
  - eapply abandoned_same, H; [|done]. by eapply side_op_aside in Ha as [].
  - destruct b; by eapply abandoned_same, H.
  - pose proof (abandoned_local_action id row ac d c cf aid now e H) as Hx. by rewrite Ha in Hx.
  - done.
  - done.
  - done.
  - done.
  - done.
Qed.

(** A gateway that restarts does not pick up the commands it was working on:
    a command left in STARTED (or in RECEIVED, when the process ended between
    its acknowledgement and its dispatch) keeps that state through every
    later step, unless, for RECEIVED, the cloud sends the command again. *)
Theorem interrupted_command_is_never_resumed cfg id row resolve fresh now e e1 e2
    (Hf : find_command id (ed_spool e) = Some row) (Hr : restart resolve fresh now (ed_spool e) = (Ok tt, e1))
    (Hs : rtc (fun e e' => exists l, edge_step cfg l e e' /\ (cr_state row <> RECEIVED \/ not_start id l)) e1 e2) :
  find_command id (ed_spool e2) = Some row /\ forall r, r ∈ nd_active (ed_node e2) -> sc_command_id (ru_command r) <> id.
Proof.
  assert (abandoned id row (ed_node e1)) as H1.
  { apply (abandoned_restart id row resolve fresh now (e <| ed_node := mkNode (ed_spool e) [] |>)); [|done].
    split; [done|]. intros r Hin. by apply elem_of_nil in Hin. }
  clear Hr. change (abandoned id row (ed_node e2)). induction Hs as [e'|e' e'' e2 [l [Hl Hc]] _ IH]; [done|].
  apply IH. by eapply abandoned_step.
Qed.

Definition restarted_edge : edge := mkEdge (mkNode (ed_spool started_edge) []) ∅ no_actions.

Lemma interrupted_command_is_never_resumed_witness :
  find_command "c-1" (ed_spool restarted_edge) = Some (mkCommandRow (demo_command "c-1" "lease-a" 7) STARTED).
Proof.
  refine (proj1 (interrupted_command_is_never_resumed no_debug "c-1" _ (fun _ => None) "" 9 started_edge restarted_edge
    restarted_edge _ _ (rtc_refl _ _))); vm_compute; reflexivity.
Defined.

(** *** A revoked debug session *)

Definition revoked_row (id : string) (s : spool) : Prop :=
  exists row, tget gr_session_id id (sp_grants s) = Some row /\ gr_revoked_at row <> None.
Definition no_open (id : string) (m : sessions) : Prop := forall s, m !! id = Some s -> ds_revoked s = true.

Lemma revoked_row_evolves id s s' : spool_ok s -> evolves s s' -> revoked_row id s -> revoked_row id s'.
Proof.
  intros Hs He (row & Hg & Hr). destruct (evolves_ok _ _ He Hs) as [[_ _ Ho] Hle].
  destruct (tget_extends grant_le gr_session_id _ _ _ _ (fun x y H => f_equal dg_session_id (proj1 H)) (ok_grants _ Ho)
              (le_grants _ _ Hle) Hg) as (row' & Hg' & _ & Hk).
  exists row'. split; [done|]. by rewrite Hk.
Qed.

Lemma no_open_expire id k s m : m !! k = Some s -> no_open id m -> no_open id (<[k := expire_session s]> m).
Proof.
  intros Hk H x. destruct (decide (k = id)) as [->|N].
  - rewrite lookup_insert_eq. by intros [= <-].
  - rewrite lookup_insert_ne by done. apply H.
Qed.

Lemma no_open_check id k d cp msg now m : no_open id m -> no_open id (check_session k d cp msg now m).2.
Proof.
  intros H. unfold check_session. destruct (m !! k) as [s|] eqn:E; [|done]. destruct (ds_revoked s); [done|].
  case_decide; [done|]. case_decide; [by apply no_open_expire|]. by case_decide.
Qed.

Lemma no_open_frame id f d now m : no_open id m -> no_open id (validate_frame f d now m).2.
Proof.
  intros H. unfold validate_frame. pose proof (no_open_check id (rf_session_id f) d (rf_capability f)
    "debug frame belongs to another device" now m H) as Hc.
  destruct (check_session _ _ _ _ _ _) as [[s|] m1]; [|done]. by repeat case_decide.
Qed.

Lemma no_open_grant id k d t cs tg b f l fe now m tok m' : k <> id ->
  grant k d t cs tg b f l fe now m = Ok (tok, m') -> no_open id m -> no_open id m'.
Proof.
  unfold grant. cbv zeta. intros N H Hm. repeat (case_decide; [done|]). destruct (m !! k) as [s|] eqn:E.
  - case_decide; by simplify_eq.
  - simplify_eq. intros x. rewrite lookup_insert_ne by done. apply Hm.
Qed.

Lemma no_open_regrant id resolve fresh now gs s m m' s' : Forall (fun g => dg_session_id g <> id) gs ->
  regrant resolve fresh now gs s m = (Ok m', s') -> no_open id m -> no_open id m'.
Proof.
  intros Hg. revert s m. induction Hg as [|g gs Hg _ IH]; intros s m H Hm; cbn in H; [by simplify_eq|].
  case_decide; [by eapply IH|]. destruct (resolve _); [|done].
  destruct (grant _ _ _ _ _ _ _ _ _ _ _) as [[tok m1]|] eqn:E; [|done]. eapply IH; [exact H|]. by eapply no_open_grant.
Qed.

Lemma revoked_not_active id s : spool_ok s -> revoked_row id s -> Forall (fun g => dg_session_id g <> id) (active_debug_grants s).
Proof.
  intros [_ _ Ho] (row & Hg & Hr). apply Forall_forall. unfold active_debug_grants. intros g (r & -> & Hin)%list_elem_of_fmap <-.
  apply elem_of_isort, list_elem_of_filter in Hin as [Hn Hin]. apply (tget_In gr_session_id _ _ (ok_grants _ Ho)) in Hin.
  unfold gr_session_id in Hin at 2. congruence.
Qed.

Definition closed (id : string) (e : edge) : Prop := revoked_row id (ed_spool e) /\ no_open id (ed_sessions e).

Lemma closed_restart id resolve fresh now s e' : spool_ok s -> revoked_row id s -> restart resolve fresh now s = (Ok tt, e') -> closed id e'.
Proof.
  unfold restart. intros Hs Hr H. destruct (regrant _ _ _ _ _ _) as [[m|] s'] eqn:E; simplify_eq.
  pose proof (regrant_aside _ _ _ _ _ _ _ _ E) as [He _ _ _ _]. split; [by eapply revoked_row_evolves|].
  eapply no_open_regrant; [by apply revoked_not_active|exact E|done].
Qed.

Lemma put_revoked_fails g now s s' : revoked_row (dg_session_id g) s -> put_debug_grant g now s = Ok s' -> False.
Proof.
  unfold put_debug_grant. intros (row & Hg & Hr) H. rewrite Hg in H. case_decide; [done|]. by rewrite decide_True in H.
Qed.

Lemma emit_frame_sessions f e : ed_sessions (emit_debug_frame f e).2 = ed_sessions e.
Proof. unfold emit_debug_frame. by repeat case_decide. Qed.

Lemma then_record_sessions n r e : ed_sessions (then_record n (r, e)).2 = ed_sessions e.
Proof. cbn. destruct r; [|done]. by destruct (record_cloud_sequence _ _) as [[]|]. Qed.

Lemma enqueue_at_sessions n ack e : ed_sessions (enqueue_ack_at n ack e).2 = ed_sessions e.
Proof. unfold enqueue_ack_at. by destruct (record_cloud_with_edge_message _ _ _ _) as [[]|]. Qed.

Lemma no_open_cloud cfg now m id e e' : closed id e -> handle_cloud cfg now m e = (Ok tt, e') -> no_open id (ed_sessions e').
Proof.
  intros [Hr Hm] H. unfold handle_cloud in H. destruct m as [n [b|]]; cbn [fst snd] in H; [|done].
  destruct b as [k|c|c|g|fs|cf cid ap|ss|f].
  { case_decide; [done|]. destruct (acknowledge_edge_sequence _ _); by simplify_eq. }
  all: case_decide; [by simplify_eq|]; case_decide; [done|].
  - unfold handle_start in H. destruct (receive c now (ed_node e)) as [ack n1].
    pose proof (enqueue_at_sessions n ack (e <| ed_node := n1 |>)) as Es.
    destruct (enqueue_ack_at _ _ _) as [[|] e2]; [|done]. cbn in Es. rewrite <- Es in Hm.
    case_decide; [|by simplify_eq]. destruct (dispatch c (ed_node e2)); by simplify_eq.
  - unfold handle_cancel in H. destruct (cancel c (ed_node e)) as [canceled n1].
    match type of H with enqueue_ack_at ?n ?a ?x = _ => pose proof (enqueue_at_sessions n a x) as Es end. rewrite H in Es. cbn in Es.
    by rewrite Es.
  - destruct (handle_grant cfg g now e) as [r e1] eqn:E. pose proof (then_record_sessions n r e1) as Es. rewrite H in Es.
    cbn in Es. rewrite Es. destruct r; [|done]. unfold handle_grant in E. destruct (cfg_target cfg) as [resolve|]; [|done].
    repeat (case_decide; [done|]). destruct (resolve _); [|done].
    destruct (grant _ _ _ _ _ _ _ _ _ _ _) as [[tok m1]|] eqn:Eg; [|done]. cbv zeta in E.
    destruct (put_debug_grant _ _ _) as [s1|] eqn:Ep; [|done]. simplify_eq. eapply no_open_grant; [|exact Eg|done].
    intros <-. by apply put_revoked_fails in Ep.
  - case_decide; [done|]. pose proof (then_record_sessions n (Ok tt) e) as Es. rewrite H in Es. cbn in Es. by rewrite Es.
  - destruct (cfg_actions cfg); [|done]. destruct (resolve_from_cloud _ _ _ _ _) as [r a].
    pose proof (then_record_sessions n r (e <| ed_actions := a |>)) as Es. rewrite H in Es. cbn in Es. by rewrite Es.
  - destruct (handle_revoke cfg ss now e) as [r e1] eqn:E. pose proof (then_record_sessions n r e1) as Es. rewrite H in Es.
    cbn in Es. rewrite Es. unfold handle_revoke in E. destruct (cfg_debug cfg); [|by simplify_eq]. case_decide; [by simplify_eq|simplify_eq].
    cbn. unfold revoke. destruct (ed_sessions e !! ss) eqn:Ek; [by apply no_open_expire|done].
  - destruct (handle_frame cfg f now e) as [r e1] eqn:E. pose proof (then_record_sessions n r e1) as Es. rewrite H in Es.
    cbn in Es. rewrite Es. unfold handle_frame in E. destruct (cfg_debug cfg); [|by simplify_eq].
    case_decide; [by simplify_eq|]. pose proof (no_open_frame id f (rf_device_id f) now _ Hm) as Hc.
    destruct (validate_frame _ _ _ _) as [[|] m1]; cbn in Hc; [destruct (cfg_driver cfg); [|by simplify_eq]|];
      match type of E with ?x = _ => assert (ed_sessions x.2 = m1) as Ef by apply emit_frame_sessions end;
      rewrite E in Ef; by cbn in Ef; subst m1.
Qed.

Lemma closed_step cfg id l e e' : node_ok (ed_node e) -> edge_step cfg l e e' -> closed id e -> closed id e'.
Proof.
  intros Hn Hs Hc. destruct (edge_step_ok _ _ _ _ Hs Hn) as [_ He]. destruct (Hc) as [Hr Hm].
  assert (revoked_row id (ed_spool e')) as Hr' by (eapply revoked_row_evolves; [apply Hn|done..]).
  destruct Hs as [m now e e' Ho|m now x res fr e e1 e' Ho Hrs|res fr now e e' Hrs|r e Hin Hst|r o e Hin Hst|b p e Hb
    |op s e Hop Ha|c now b a e Hb|ac d c cf aid now r e e' Ha|i b a e Ha|i b a e Ha|d now e|i d tk cp now e|now e].
  - split; [done|]. by eapply no_open_cloud.
  - apply handle_cloud_handled in Ho as [H1 H2 _ _]; [|done]. eapply closed_restart, Hrs; [apply H1|].
    eapply revoked_row_evolves; [apply Hn|done..].
  - eapply closed_restart, Hrs; [apply Hn|done].
  - by split.
  - by split.
  - by split.
  - by split.
  - destruct b; by split.
  - split; [done|]. unfold record_local_action in Ha. cbv zeta in Ha. repeat case_decide; simplify_eq; try done.
    destruct (confirmation _ _); repeat case_decide; by simplify_eq.
  - by split.
  - by split.
  - by split.
  - split; [done|]. cbn. unfold authorize. pose proof (no_open_check id i d cp "debug session belongs to another device" now _ Hm) as Hk.
    destruct (check_session _ _ _ _ _ _) as [[s|] m1]; [by case_decide|done].
  - split; [done|]. cbn. intros s. rewrite lookup_fmap. destruct (ed_sessions e !! id) as [s0|] eqn:E; [|done].
    intros [= <-]. pose proof (Hm s0 E) as Hs0. by rewrite Hs0.
Qed.

(** C32. Once an edge has consumed the revocation of a debug session whose grant
    it had stored before, no token opens that session again and no frame of it
    is let through: not for another capability, not after a replayed or a new
    grant of the same session, not after any number of crashes and restarts. *)
Theorem revoked_session_stays_closed cfg id device reason n now e e1 e2
    (Hn : node_ok (ed_node e)) (Hnext : n = sp_last_cloud (ed_spool e) + 1)
    (Hg : is_Some (tget gr_session_id id (sp_grants (ed_spool e))))
    (H : handle_cloud cfg now (n, Some (CB_debug_revoke id device reason)) e = (Ok tt, e1))
    (Hs : rtc (fun e e' => exists l, edge_step cfg l e e') e1 e2) :
  (forall device_id token capability later, is_ok (authorize id device_id token capability later (ed_sessions e2)).1 = false)
  /\ (forall frame device_id later, rf_session_id frame = id -> is_ok (validate_frame frame device_id later (ed_sessions e2)).1 = false).
Proof.
  assert (node_ok (ed_node e1)) as Hn1 by by apply handle_cloud_handled in H as [].
  assert (closed id e1) as H1.
  { destruct Hg as [row Hg]. cbn in H. rewrite decide_False, decide_False in H by lia.
    unfold handle_revoke in H. destruct (cfg_debug cfg); [|done]. case_decide; [done|]. unfold then_record in H. subst n.
    unfold record_cloud_sequence in H. pose proof (ok_last_cloud _ (ok_outbound _ (ok_spool _ Hn))) as Hpos.
    change (0 <= sp_last_cloud (ed_spool e)) in Hpos. cbn in H. unfold ed_spool in H, Hpos. rewrite !decide_False in H by lia.
    simplify_eq. split; cbn.
    - exists (revoke_grant_row id now row).
      split; [apply (tget_fmap gr_session_id _ _ _ _ (revoke_grant_row_key id now) Hg)|].
      apply tget_Some in Hg as [_ Hk]. unfold revoke_grant_row. by rewrite decide_True.
    - unfold revoke. destruct (ed_sessions e !! id) eqn:Ek; [|by intros s; rewrite Ek].
      intros s. rewrite lookup_insert_eq. by intros [= <-]. }
  assert (closed id e2) as [_ Hm].
  { clear H. induction Hs as [e'|e' e'' e2 [l Hl] _ IH]; [done|]. apply IH; [by eapply edge_step_ok|by eapply closed_step]. }
  split; [intros device_id token capability later; unfold authorize, check_session
         |intros frame device_id later Ef; unfold validate_frame, check_session; rewrite Ef];
    (destruct (ed_sessions e2 !! id) as [s|] eqn:E; [by rewrite (Hm s E)|done]).
Qed.

Definition granted_edge : edge := (handle_cloud debug_config 50 (1, Some (CB_debug_grant stale_grant)) new_edge).2.
Definition revoked_edge : edge := (handle_cloud debug_config 60 (2, Some (CB_debug_revoke "d-1" "device-1" "revoked")) granted_edge).2.

Lemma granted_edge_ok : node_ok (ed_node granted_edge).
Proof.
  apply (handle_cloud_handled debug_config 50 (1, Some (CB_debug_grant stale_grant)) new_edge
           (handle_cloud debug_config 50 (1, Some (CB_debug_grant stale_grant)) new_edge).1); [exact new_node_ok|].
  apply surjective_pairing.
Qed.

Definition demo_frame : relay_frame := mkRelayFrame "d-1" "device-1" "r-1" "view.frame" "frame" "" false.

Lemma revoked_session_stays_closed_witness :
  is_ok (validate_frame demo_frame "device-1" 70 (ed_sessions granted_edge)).1 = true
  /\ is_ok (validate_frame demo_frame "device-1" 70 (ed_sessions revoked_edge)).1 = false
  /\ is_ok (authorize "d-1" "device-1" (dg_relay_token stale_grant) "view.frame" 70 (ed_sessions granted_edge)).1 = true
  /\ is_ok (authorize "d-1" "device-1" (dg_relay_token stale_grant) "view.frame" 70 (ed_sessions revoked_edge)).1 = false.
Proof.
  destruct (revoked_session_stays_closed debug_config "d-1" "device-1" "revoked" 2 60 granted_edge revoked_edge revoked_edge granted_edge_ok)
    as [Ha Hf]; [vm_compute; reflexivity|vm_compute; by eexists|vm_compute; reflexivity|apply rtc_refl|].
  split; [vm_compute; reflexivity|]. split; [by apply Hf|]. split; [vm_compute; reflexivity|]. apply Ha.
Defined.
