(* ===== verification/EdgeLink.v ===== *)
(** * An edge and the hub: the control stream end to end

    The composition of the hub (EdgeHub), any store that keeps its promise,
    and one edge gateway (EdgeControl) over connections that fail at any
    moment: grpc_service.py and the loops of control_stream.py. A connection
    is what is in flight each way, the hub's generator and the edge's sender.
    The edge reads and writes its current connection only; older ones may
    still deliver what is in flight to the hub. *)

From stdpp Require Import base gmap strings list.
From Stdlib Require Import ZArith Lia.
From S2P Require Import Prelude PyStd EdgeMessages EdgeSpool EdgeHub EdgeRunner EdgeControl.

Open Scope Z_scope.

(** ** Numbered logs *)

(** [m] is entry number [m.1] of the log. *)
Definition from_log {B} (l : list B) (m : Z * B) : Prop := 1 <= m.1 /\ l !! Z.to_nat (m.1 - 1) = Some m.2.
(** The messages numbered from [a + 1] on. *)
Definition contig {B} (a : Z) (ms : list (Z * B)) : Prop := ms.*1 = seqZ (a + 1) (Z.of_nat (length ms)).

Lemma contig_nil {B} a : contig (B := B) a [].
Proof. done. Qed.

Lemma contig_cons {B} a (m : Z * B) ms : contig a (m :: ms) <-> m.1 = a + 1 /\ contig (a + 1) ms.
Proof.
  unfold contig. rewrite length_cons, fmap_cons, seqZ_cons by lia.
  replace (Z.succ (a + 1)) with (a + 1 + 1) by lia. replace (Z.pred (Z.of_nat (S (length ms)))) with (Z.of_nat (length ms)) by lia.
  split; [by intros [= -> ->]|by intros [-> ->]].
Qed.

Lemma contig_app {B} a (ms ms' : list (Z * B)) : contig a (ms ++ ms') <-> contig a ms /\ contig (a + Z.of_nat (length ms)) ms'.
Proof.
  revert a. induction ms as [|m ms IH]; intros a; cbn.
  - rewrite Z.add_0_r. split; [done|by intros []].
  - rewrite !contig_cons, IH. replace (a + 1 + Z.of_nat (length ms)) with (a + Z.of_nat (S (length ms))) by lia. tauto.
Qed.

Lemma contig_above {B} a n (ms : list (Z * B)) : contig a ms ->
  filter (fun m => m.1 > n) ms = drop (Z.to_nat (n - a)) ms.
Proof.
  revert a. induction ms as [|m ms IH]; intros a; [by rewrite drop_nil|]. rewrite contig_cons. intros [Hm Hc].
  rewrite filter_cons. case_decide as D.
  - replace (Z.to_nat (n - a)) with 0%nat by lia. rewrite drop_0. f_equal.
    rewrite (IH (a + 1)) by done. replace (Z.to_nat (n - (a + 1))) with 0%nat by lia. apply drop_0.
  - rewrite (IH (a + 1)) by done. replace (Z.to_nat (n - a)) with (S (Z.to_nat (n - (a + 1)))) by lia. done.
Qed.

Lemma contig_drop {B} a k (ms : list (Z * B)) : contig a ms -> (k <= length ms)%nat -> contig (a + Z.of_nat k) (drop k ms).
Proof.
  intros Hc Hk. rewrite <- (take_drop k ms) in Hc. apply contig_app in Hc as [_ Hc]. by rewrite length_take_le in Hc.
Qed.

Lemma from_log_app {B} (l l' : list B) m : from_log l m -> from_log (l ++ l') m.
Proof. intros [H1 H2]. split; [done|]. by apply lookup_app_l_Some. Qed.

Lemma from_log_snoc {B} (l : list B) b : from_log (l ++ [b]) (Z.of_nat (length l) + 1, b).
Proof. split; cbn; [lia|]. replace (Z.to_nat (Z.of_nat (length l) + 1 - 1)) with (length l) by lia. by apply list_lookup_middle. Qed.

Lemma from_log_le {B} (l : list B) m : from_log l m -> 1 <= m.1 <= Z.of_nat (length l).
Proof. intros [H1 H2]. apply lookup_lt_Some in H2. lia. Qed.

(** Numbers that extend a prefix of length [b] one by one, or repeat it. *)
Fixpoint chained (b : Z) (ns : list Z) : Prop :=
  match ns with [] => True | n :: ns => 1 <= n <= b + 1 /\ chained (Z.max b n) ns end.
Definition highest (b : Z) (ns : list Z) : Z := foldl Z.max b ns.

Lemma chained_mono b b' ns : b <= b' -> chained b ns -> chained b' ns.
Proof.
  revert b b'. induction ns as [|n ns IH]; intros b b' Hb; [done|]. cbn. intros [Hn Hc]. split; [lia|].
  eapply IH; [|exact Hc]. lia.
Qed.
Lemma highest_mono b b' ns : b <= b' -> highest b ns <= highest b' ns.
Proof. unfold highest. revert b b'. induction ns as [|n ns IH]; intros b b' Hb; cbn; [done|]. apply IH. lia. Qed.
Lemma highest_ge b ns : b <= highest b ns.
Proof. revert b. induction ns as [|n ns IH]; intros b; cbn; [lia|]. specialize (IH (Z.max b n)). unfold highest in *. lia. Qed.
Lemma highest_app b ns ns' : highest b (ns ++ ns') = highest (highest b ns) ns'.
Proof. unfold highest. apply foldl_app. Qed.
Lemma chained_app b ns ns' : chained b (ns ++ ns') <-> chained b ns /\ chained (highest b ns) ns'.
Proof. revert b. induction ns as [|n ns IH]; intros b; cbn; [tauto|]. rewrite IH. unfold highest. cbn. tauto. Qed.
Lemma chained_seqZ a k b : 0 <= a <= b -> chained b (seqZ (a + 1) (Z.of_nat k)).
Proof.
  revert a b. induction k as [|k IH]; intros a b H; [done|].
  rewrite seqZ_cons by lia. cbn. split; [lia|]. replace (Z.succ (a + 1)) with (a + 1 + 1) by lia.
  replace (Z.pred (Z.of_nat (S k))) with (Z.of_nat k) by lia. apply IH. lia.
Qed.

Lemma highest_elem b ns n : n ∈ ns -> n <= highest b ns.
Proof.
  revert b. induction ns as [|x ns IH]; intros b; [by intros ?%elem_of_nil|]. intros [->|Hn]%elem_of_cons; cbn; [|by apply IH].
  pose proof (highest_ge (Z.max b x) ns). unfold highest in *. lia.
Qed.

Lemma chained_range a n b : 0 <= a <= b -> chained b (seqZ (a + 1) n).
Proof.
  intros Ha. destruct (decide (0 <= n)) as [D|D]; [|by rewrite seqZ_nil by lia].
  rewrite <- (Z2Nat.id _ D). by apply chained_seqZ.
Qed.

(** ** The link *)

Section Link.
(** [handlers] are the edge-message handlers the hub's process registers
    (main.py: the grant delivery and the debug relay): they run on a state [W]
    of their own, after the message is recorded, and may raise. *)
Context {S W : Type} `{HubStoreSpec S} (cfg : config) (edge_id : string) (handlers : list (edge_handler W)).

(** One connection: what is in flight to the hub and to the edge, the hub's
    generator once it has read the hello, and the edge's sender: the part of
    its replay still to send and the last sequence sent. *)
Record conn := mkConn {
  cn_up : list EdgeToCloud;
  cn_down : list CloudToEdge;
  cn_session : option session;
  cn_batch : list EdgeToCloud;
  cn_last_sent : Z;
}.
#[export] Instance conn_eta : Eta conn := fun c => mkConn (cn_up c) (cn_down c) (cn_session c) (cn_batch c) (cn_last_sent c).

(** [lk_sent] and [lk_taken] are histories: the bodies queued for this edge
    and those the edge consumed. *)
Record link := mkLink {
  lk_hub : S;
  lk_edge : edge;
  lk_conns : gmap nat conn;
  lk_current : option nat;
  lk_next : nat;
  lk_sent : list (option cloud_body);
  lk_taken : list (option cloud_body);
}.
#[export] Instance link_eta : Eta link := fun k => mkLink (lk_hub k) (lk_edge k) (lk_conns k) (lk_current k) (lk_next k)
  (lk_sent k) (lk_taken k).

Definition new_link : link := mkLink empty_store new_edge ∅ None 0 [] [].

Definition cursor (k : link) : Z := sp_last_cloud (ed_spool (lk_edge k)).
Definition emitted (k : link) : list (option edge_body) := (fun r => Some (ob_payload r)) <$> sp_outbound (ed_spool (lk_edge k)).
Definition hub_view (k : link) : edge_view := view (lk_hub k) edge_id.
Definition received (k : link) : list (option edge_body) := v_received (hub_view k).

Definition set_conn (i : nat) (c : conn) (k : link) : link := k <| lk_conns := <[i := c]> (lk_conns k) |>.

(** The hub ends the call: its generator unsubscribes, the connection is gone. *)
Definition hang_up (i : nat) (c : conn) (k : link) : link :=
  k <| lk_hub := match cn_session c with Some ss => open_close ss (lk_hub k) | None => lk_hub k end |>
    <| lk_conns := delete i (lk_conns k) |>
    <| lk_current := if decide (lk_current k = Some i) then None else lk_current k |>.

(** The message the edge has just consumed. *)
Definition take_message (m : CloudToEdge) (k : link) : list (option cloud_body) :=
  if decide (m.1 = cursor k + 1) then lk_taken k ++ [m.2] else lk_taken k.

(** What the link does by itself, once a connection is tried: the handlers
    find their state as the rest of the process has left it. *)
Inductive calm_step : link -> link -> Prop :=
(* the edge gives its connection up and opens another: its hello carries its cursor *)
| CS_give_up k : calm_step k (k <| lk_current := None |>)
| CS_connect k : lk_current k = None ->
    calm_step k (k <| lk_conns := <[lk_next k := mkConn [(0, Some (EB_hello edge_id (cursor k)))] [] None [] 0]> (lk_conns k) |>
                   <| lk_current := Some (lk_next k) |> <| lk_next := Datatypes.S (lk_next k) |>)
(* [Connect] reads the hello and opens the generator *)
| CS_open i c e n up m ss hub' k :
    lk_conns k !! i = Some c -> cn_session c = None -> cn_up c = (0, Some (EB_hello e n)) :: up ->
    open e i n (lk_hub k) = (Ok (m, ss), hub') ->
    calm_step k (set_conn i (c <| cn_up := up |> <| cn_session := Some ss |> <| cn_down := cn_down c ++ [m] |>) (k <| lk_hub := hub' |>))
| CS_refuse i c e n up x hub' k :
    lk_conns k !! i = Some c -> cn_session c = None -> cn_up c = (0, Some (EB_hello e n)) :: up ->
    open e i n (lk_hub k) = (Err x, hub') ->
    calm_step k (hang_up i c (k <| lk_hub := hub' |>))
(* the generator moves on, or raises *)
| CS_next i c ss o ss' hub' k :
    lk_conns k !! i = Some c -> cn_session c = Some ss -> open_next ss (lk_hub k) = Ok (o, ss', hub') ->
    calm_step k (set_conn i (c <| cn_session := Some ss' |> <| cn_down := cn_down c ++ option_list o |>) (k <| lk_hub := hub' |>))
| CS_raise i c ss x k :
    lk_conns k !! i = Some c -> cn_session c = Some ss -> open_next ss (lk_hub k) = Err x -> calm_step k (hang_up i c k)
(* [_receive] accepts a message of the edge, or aborts the call *)
| CS_accept i c ss m up w b hub' w' k :
    lk_conns k !! i = Some c -> cn_session c = Some ss -> cn_up c = m :: up ->
    accept handlers edge_id m (lk_hub k) w = (Ok b, (hub', w')) ->
    calm_step k (set_conn i (c <| cn_up := up |>) (k <| lk_hub := hub' |>))
| CS_abort i c ss m up w x hub' w' k :
    lk_conns k !! i = Some c -> cn_session c = Some ss -> cn_up c = m :: up ->
    accept handlers edge_id m (lk_hub k) w = (Err x, (hub', w')) ->
    calm_step k (hang_up i c (k <| lk_hub := hub' |>))
(* [_outbound] reads the spool, then sends what it read *)
| CS_read i c k :
    lk_current k = Some i -> lk_conns k !! i = Some c -> cn_batch c = [] ->
    calm_step k (set_conn i (c <| cn_batch := (fun m : edge_message => (m.1, Some m.2))
                                  <$> replay_edge_messages (cn_last_sent c) (ed_spool (lk_edge k)) |>) k)
| CS_send i c m batch k :
    lk_current k = Some i -> lk_conns k !! i = Some c -> cn_batch c = m :: batch ->
    calm_step k (set_conn i (c <| cn_batch := batch |> <| cn_up := cn_up c ++ [m] |> <| cn_last_sent := m.1 |>) k)
(* the edge handles a message *)
| CS_handle i c m down now e' k :
    lk_current k = Some i -> lk_conns k !! i = Some c -> cn_down c = m :: down ->
    handle_cloud cfg now m (lk_edge k) = (Ok tt, e') ->
    calm_step k (set_conn i (c <| cn_down := down |>) (k <| lk_edge := e' |> <| lk_taken := take_message m k |>)).

(** Everything that can happen. *)
Inductive link_step : link -> link -> Prop :=
| LS_calm k k' : calm_step k k' -> link_step k k'
(* the control plane queues a message for the edge *)
| LS_queue b m hub' k : is_hello (0, Some b) = false -> queue edge_id (Some b) (lk_hub k) = Ok (m, hub') ->
    link_step k (k <| lk_hub := hub' |> <| lk_sent := lk_sent k ++ [Some b] |>)
(* the edge works on its own, or restarts *)
| LS_local e' k : edge_step cfg EL_local (lk_edge k) e' -> link_step k (k <| lk_edge := e' |>)
| LS_restart now e' k : edge_step cfg (EL_restart now) (lk_edge k) e' ->
    link_step k (k <| lk_edge := e' |> <| lk_current := None |>)
(* the hub loses a connection *)
| LS_hang_up i c k : lk_conns k !! i = Some c -> link_step k (hang_up i c k)
(* the edge dies of a message and restarts *)
| LS_crash i c m down now x resolve fresh e1 e' k :
    lk_current k = Some i -> lk_conns k !! i = Some c -> cn_down c = m :: down ->
    handle_cloud cfg now m (lk_edge k) = (Err x, e1) -> restart resolve fresh now (ed_spool e1) = (Ok tt, e') ->
    link_step k (k <| lk_edge := e' |> <| lk_current := None |>).

(** ** The invariant *)

(** The hub's stream of this edge: what is pending is the queued messages
    above the watermark, and every live queue holds a tail of them. *)
Record stream_ok (sent : list (option cloud_body)) (v : edge_view) : Prop := mkStreamOk {
  so_last : v_last_cloud v = Z.of_nat (length sent);
  so_watermark : 0 <= v_watermark v;
  so_pending : contig (v_watermark v) (v_pending v);
  so_length : v_watermark v + Z.of_nat (length (v_pending v)) = v_last_cloud v;
  so_from : Forall (from_log sent) (v_pending v);
  so_queues : forall q l, v_queues v !! q = Some l ->
    Forall (from_log sent) l /\ contig (v_last_cloud v - Z.of_nat (length l)) l;
}.

(** A message on its way to the hub. *)
Definition up_ok (em : list (option edge_body)) (m : EdgeToCloud) : Prop :=
  from_log em m /\ exists b, m.2 = Some b /\ is_sequenced (Some b) = Some b.
Definition hello_up (at_most : Z) (m : EdgeToCloud) : Prop := exists n, m = (0, Some (EB_hello edge_id n)) /\ 0 <= n <= at_most.

(** A message on its way to the edge. *)
Definition down_ok (sent : list (option cloud_body)) (received : Z) (m : CloudToEdge) : Prop :=
  (exists n, m = (0, Some (CB_hello n)) /\ n <= received) \/ from_log sent m.
Definition numbers (l : list CloudToEdge) : list CloudToEdge := filter (fun m => is_hello m = false) l.

(** Any connection, current or not. *)
Record conn_ok (k : link) (i : nat) (c : conn) : Prop := mkConnOk {
  co_number : (i < lk_next k)%nat;
  co_up : match cn_session c with
          | Some _ => Forall (up_ok (emitted k)) (cn_up c)
          | None => exists h up, cn_up c = h :: up /\ hello_up (cursor k) h /\ Forall (up_ok (emitted k)) up
          end;
  co_batch : Forall (up_ok (emitted k)) (cn_batch c);
  co_chain : chained (Z.of_nat (length (received k)))
               ((filter (fun m : EdgeToCloud => m.1 <> 0) (cn_up c)).*1 ++ (cn_batch c).*1);
  co_sent : 0 <= cn_last_sent c
            <= highest (Z.of_nat (length (received k))) (filter (fun m : EdgeToCloud => m.1 <> 0) (cn_up c)).*1;
  co_down : Forall (down_ok (lk_sent k) (Z.of_nat (length (received k)))) (cn_down c);
  co_session : forall ss, cn_session c = Some ss ->
    ss_edge_id ss = edge_id /\ ss_queue ss = i /\ is_Some (v_queues (hub_view k) !! i)
    /\ Forall (from_log (lk_sent k)) (default [] (ss_replay ss));
}.

(** The current connection: what it has in flight to the edge, then what its
    generator still holds, are the messages after the edge's cursor. *)
Definition generator_ok (k : link) (i : nat) (ss : session) : Prop :=
  cursor k <= ss_cursor ss <= Z.of_nat (length (lk_sent k))
  /\ match ss_replay ss with
     | None => True
     | Some r => contig (ss_cursor ss) r
                 /\ exists l, v_queues (hub_view k) !! i = Some l
                      /\ Z.of_nat (length (lk_sent k)) - Z.of_nat (length l)
                         <= ss_cursor ss + Z.of_nat (length r) <= Z.of_nat (length (lk_sent k))
     end.
Definition current_ok (k : link) (i : nat) (c : conn) : Prop :=
  match cn_session c with
  | None => cn_down c = [] /\ head (cn_up c) = Some (0, Some (EB_hello edge_id (cursor k)))
  | Some ss => generator_ok k i ss /\ contig (cursor k) (numbers (cn_down c))
               /\ ss_cursor ss = cursor k + Z.of_nat (length (numbers (cn_down c)))
  end.

Record link_ok (k : link) : Prop := mkLinkOk {
  ok_hub : store_ok (lk_hub k);
  ok_node : node_ok (ed_node (lk_edge k));
  ok_stream : stream_ok (lk_sent k) (hub_view k);
  ok_watermark : v_watermark (hub_view k) <= cursor k;
  ok_bodies : Forall (fun b => is_hello (0, b) = false) (lk_sent k);
  ok_taken : lk_taken k = take (Z.to_nat (cursor k)) (lk_sent k);
  ok_cursor : cursor k <= Z.of_nat (length (lk_sent k));
  ok_received : received k `prefix_of` emitted k;
  ok_acked_ : sp_last_edge_acked (ed_spool (lk_edge k)) <= Z.of_nat (length (received k));
  ok_sequenced : Forall (fun r => is_sequenced (Some (ob_payload r)) = Some (ob_payload r)) (sp_outbound (ed_spool (lk_edge k)));
  ok_conns : forall i c, lk_conns k !! i = Some c -> conn_ok k i c;
  ok_current : forall i c, lk_current k = Some i -> lk_conns k !! i = Some c -> current_ok k i c;
}.

(** *** Framing *)

Record grows_to (k k' : link) : Prop := mkGrowsTo {
  gr_next : (lk_next k <= lk_next k')%nat;
  gr_cursor : cursor k <= cursor k';
  gr_emitted : emitted k `prefix_of` emitted k';
  gr_sent : lk_sent k `prefix_of` lk_sent k';
  gr_received : Z.of_nat (length (received k)) <= Z.of_nat (length (received k'));
}.
#[export] Instance grows_to_preorder : PreOrder grows_to.
Proof.
  split; [intros k; by split|]. intros k1 k2 k3 [A1 A2 A3 A4 A5] [B1 B2 B3 B4 B5].
  split; try lia; by etransitivity.
Qed.

Lemma from_log_prefix {B} (l l' : list B) m : l `prefix_of` l' -> from_log l m -> from_log l' m.
Proof. intros [r ->]. apply from_log_app. Qed.

Lemma conn_ok_mono k k' i c : grows_to k k' -> (is_Some (v_queues (hub_view k) !! i) -> is_Some (v_queues (hub_view k') !! i)) ->
  conn_ok k i c -> conn_ok k' i c.
Proof.
  intros [G1 G2 G3 G4 G5] Hq [C1 C2 C3 C4 C5 C6 C7].
  assert (forall m, up_ok (emitted k) m -> up_ok (emitted k') m) as Hup.
  { intros m [Hm Hb]. split; [|done]. by eapply from_log_prefix. }
  split.
  - lia.
  - destruct (cn_session c); [by eapply Forall_impl|]. destruct C2 as (h & up & -> & (n & -> & Hn) & Hf).
    eexists _, up. split; [done|]. split; [exists n; split; [done|lia]|by eapply Forall_impl].
  - by eapply Forall_impl.
  - by eapply chained_mono.
  - pose proof (highest_mono _ _ (filter (fun m : EdgeToCloud => m.1 <> 0) (cn_up c)).*1 G5). lia.
  - eapply Forall_impl; [exact C6|]. intros m [(n & -> & Hn)|Hm]; [left; exists n; split; [done|lia]|right].
    by eapply from_log_prefix.
  - intros ss Hss. destruct (C7 ss Hss) as (H1 & H2 & H3 & H4). split; [done|]. split; [done|]. split; [by apply Hq|].
    eapply Forall_impl; [exact H4|]. intros m. by apply from_log_prefix.
Qed.

Lemma current_ok_same k k' i c : cursor k' = cursor k -> lk_sent k' = lk_sent k ->
  v_queues (hub_view k') !! i = v_queues (hub_view k) !! i -> current_ok k i c -> current_ok k' i c.
Proof. unfold current_ok, generator_ok. by intros -> -> ->. Qed.

(** Changing the edge, its stream position and what it has emitted. *)
Lemma sequenced_evolves s s' : evolves s s' ->
  Forall (fun r => is_sequenced (Some (ob_payload r)) = Some (ob_payload r)) (sp_outbound s) ->
  Forall (fun r => is_sequenced (Some (ob_payload r)) = Some (ob_payload r)) (sp_outbound s').
Proof.
  intros [ops ->]. revert s. induction ops as [|op ops IH]; intros s Hs; [done|]. cbn. apply IH. clear IH.
  unfold run_op. destruct (apply_op op s) as [s'|] eqn:E; [|done].
  assert (forall b body p, is_sequenced body = Some b ->
            Forall (fun r => is_sequenced (Some (ob_payload r)) = Some (ob_payload r)) (sp_outbound (append_outbound b p s).2)) as Ha.
  { intros b body p Hb. cbn. apply Forall_app. split; [done|]. apply Forall_singleton. cbn. destruct body as [[]|]; by simplify_eq/=. }
  destruct op; cbn in E;
    try (cbv delta [append_outbound accept_command set_command_state record_cloud_sequence put_debug_grant add_evidence
           consume_companion_enrollment bind_device issue_companion_enrollment put_artifact_delivery returning] in E;
         ok_inv E; by_cases; exact Hs).
  - unfold enqueue_edge_message in E. destruct (is_sequenced body) as [b|] eqn:Eb; simplify_eq/=. by apply (Ha b body priority).
  - unfold record_cloud_with_edge_message in E. destruct (is_sequenced body) as [b|] eqn:Eb; [|done]. case_decide; [done|].
    simplify_eq/=. by apply (Ha b body priority).
  - unfold acknowledge_edge_sequence in E. ok_inv E; [done|]. cbn. apply Forall_fmap. eapply Forall_impl; [exact Hs|].
    intros r. cbn. unfold ack_row. by case_decide.
Qed.

Lemma emitted_evolves s s' : spool_le s s' ->
  ((fun r => Some (ob_payload r)) <$> sp_outbound s) `prefix_of` ((fun r => Some (ob_payload r)) <$> sp_outbound s').
Proof.
  intros [_ _ (l1 & new & E & HF) _ _ _ _ _]. exists ((fun r => Some (ob_payload r)) <$> new). rewrite E, fmap_app. f_equal.
  clear E. induction HF as [|r r' l l' [[= _ Hr] _] _ IH]; [done|]. cbn. by rewrite Hr, IH.
Qed.

Lemma edge_grows k e' : spool_le (ed_spool (lk_edge k)) (ed_spool e') -> grows_to k (k <| lk_edge := e' |>).
Proof. intros Hle. split; cbn; try done; [apply Hle|by apply emitted_evolves]. Qed.

Lemma link_ok_edge k e' : link_ok k -> node_ok (ed_node e') -> evolves (ed_spool (lk_edge k)) (ed_spool e') ->
  sp_last_cloud (ed_spool e') = cursor k -> sp_last_edge_acked (ed_spool e') <= Z.of_nat (length (received k)) ->
  link_ok (k <| lk_edge := e' |>).
Proof.
  intros [O1 O2 O3 O4 O5 O6 O7 O8 O9 O10 O11 O12] Hn He Hc Ha.
  destruct (evolves_ok _ _ He (ok_spool _ O2)) as [_ Hle]. pose proof (edge_grows k e' Hle) as G.
  assert (cursor (k <| lk_edge := e' |>) = cursor k) as Ec by done.
  split; try done.
  - by rewrite Ec.
  - by rewrite Ec.
  - by rewrite Ec.
  - etransitivity; [exact O8|apply G].
  - by eapply sequenced_evolves.
  - intros i c Hi. by apply (conn_ok_mono k); [..|apply O11].
  - intros i c Hcur Hi. by apply (current_ok_same k); [..|apply O12].
Qed.

Lemma link_ok_no_current k : link_ok k -> link_ok (k <| lk_current := None |>).
Proof.
  intros [O1 O2 O3 O4 O5 O6 O7 O8 O9 O10 O11 O12]. split; try done.
  intros i c Hi. by apply (conn_ok_mono k); [..|apply O11].
Qed.

(** Changing the hub and one connection. *)
Lemma link_ok_step k hub' i c c' : link_ok k -> lk_conns k !! i = Some c -> store_ok hub' ->
  let k' := k <| lk_hub := hub' |> in
  stream_ok (lk_sent k) (hub_view k') -> v_watermark (hub_view k') <= cursor k ->
  received k `prefix_of` received k' -> received k' `prefix_of` emitted k ->
  (forall j, j <> i -> v_queues (hub_view k') !! j = v_queues (hub_view k) !! j) ->
  conn_ok k' i c' -> (lk_current k = Some i -> current_ok k' i c') -> link_ok (set_conn i c' k').
Proof.
  intros [O1 O2 O3 O4 O5 O6 O7 O8 O9 O10 O11 O12] Hi Ho k' Hs Hw Hr He Hq Hc Hcur.
  assert (Z.of_nat (length (received k)) <= Z.of_nat (length (received k'))) as Hlen by (apply prefix_length in Hr; lia).
  assert (grows_to k k') as G by by split.
  split; try done.
  - change (sp_last_edge_acked (ed_spool (lk_edge k)) <= Z.of_nat (length (received k'))). lia.
  - intros j d. cbn. destruct (decide (i = j)) as [<-|N]; [rewrite lookup_insert_eq; intros [= <-]|].
    + by apply (conn_ok_mono k'); [split|..].
    + rewrite lookup_insert_ne by done. intros Hj. apply (conn_ok_mono k); [by split|by rewrite <- Hq|by apply O11].
  - intros j d Hj. cbn. destruct (decide (i = j)) as [<-|N]; [rewrite lookup_insert_eq; intros [= <-]; by apply Hcur|].
    rewrite lookup_insert_ne by done. intros Hd. by apply (current_ok_same k); [..|apply Hq|apply O12].
Qed.

Lemma link_ok_conn k i c c' : link_ok k -> lk_conns k !! i = Some c -> conn_ok k i c' ->
  (lk_current k = Some i -> current_ok k i c') -> link_ok (set_conn i c' k).
Proof.
  intros Hk Hi Hc Hcur. pose proof (link_ok_step k (lk_hub k) i c c' Hk Hi (ok_hub k Hk)) as Hl.
  destruct k as [hub e cs cur nx sent taken]. cbn in Hl. apply Hl; try done; apply Hk.
Qed.

(** A connection that is gone, its queue with it. *)
Lemma link_ok_delete k k' i : link_ok k -> store_ok (lk_hub k') -> lk_edge k' = lk_edge k -> lk_sent k' = lk_sent k ->
  lk_taken k' = lk_taken k -> lk_next k' = lk_next k -> lk_conns k' = delete i (lk_conns k) ->
  lk_current k' = (if decide (lk_current k = Some i) then None else lk_current k) ->
  (exists qs, hub_view k' = (hub_view k) <| v_queues := qs |> /\ forall j, j <> i -> qs !! j = v_queues (hub_view k) !! j) ->
  (forall l, v_queues (hub_view k') !! i = Some l -> v_queues (hub_view k) !! i = Some l \/ l = []) ->
  link_ok k'.
Proof.
  intros [O1 O2 O3 O4 O5 O6 O7 O8 O9 O10 O11 O12] Ho E1 E2 E3 E4 E5 E6 (qs & Ev & Hq) Hqi.
  assert (cursor k' = cursor k) as Ec by (unfold cursor; by rewrite E1).
  assert (emitted k' = emitted k) as Ee by (unfold emitted; by rewrite E1).
  assert (received k' = received k) as Er by (unfold received; by rewrite Ev).
  assert (grows_to k k') as G by (split; rewrite ?E4, ?Ec, ?Ee, ?E2, ?Er; done).
  assert (forall j, j <> i -> v_queues (hub_view k') !! j = v_queues (hub_view k) !! j) as Hq' by (intros j N; rewrite Ev; by apply Hq).
  destruct O3 as [S1 S2 S3 S4 S5 S6]. split; rewrite ?E1, ?E2, ?E3, ?Ec, ?Ee, ?Er; try done.
  - split; rewrite ?Ev; try done. intros q l Hl. destruct (decide (q = i)) as [->|N].
    + destruct (Hqi l) as [Hl0| ->]; [by rewrite Ev|by apply S6 in Hl0|]. split; [constructor|apply contig_nil].
    + rewrite <- Ev, Hq' in Hl by done. by apply S6 in Hl.
  - by rewrite Ev.
  - intros j c. rewrite E5. intros [N Hj]%lookup_delete_Some. apply (conn_ok_mono k); [done|by rewrite Hq'|by apply O11].
  - intros j c Hj. rewrite E6 in Hj. rewrite E5. intros [N Hc]%lookup_delete_Some. case_decide; [done|].
    apply (current_ok_same k); [done..|by apply Hq'|by apply O12].
Qed.

(** *** The hub's operations on the stream *)

Lemma hub_view_advances k hub' v : advances view store_ok (lk_hub k) edge_id hub' v ->
  store_ok hub' /\ forall k', lk_hub k' = hub' -> hub_view k' = v.
Proof. intros [Ho Ha]. split; [done|]. intros k' <-. unfold hub_view. by rewrite Ha, decide_True. Qed.

Lemma stream_append sent b v : stream_ok sent v -> stream_ok (sent ++ [b]) (spec_append b v).2.
Proof.
  intros [S1 S2 S3 S4 S5 S6]. unfold spec_append. cbn.
  assert (forall l, Forall (from_log sent) l -> Forall (from_log (sent ++ [b])) (l ++ [(v_last_cloud v + 1, b)])) as Hf.
  { intros l Hl. apply Forall_app. split; [eapply Forall_impl; [exact Hl|intros m; apply from_log_app]|].
    apply Forall_singleton. rewrite S1. apply from_log_snoc. }
  split; cbn; rewrite ?length_app; cbn.
  - lia.
  - done.
  - apply contig_app. split; [done|]. apply contig_cons. split; [cbn; lia|apply contig_nil].
  - lia.
  - by apply Hf.
  - intros q l. unfold put_all. rewrite lookup_fmap. destruct (v_queues v !! q) as [l0|] eqn:E; [|done]. intros [= <-].
    destruct (S6 q l0 E) as [H1 H2]. split; [by apply Hf|]. rewrite length_app. cbn. apply contig_app.
    replace (v_last_cloud v + 1 - Z.of_nat (length l0 + 1)) with (v_last_cloud v - Z.of_nat (length l0)) by lia.
    split; [done|]. apply contig_cons. split; [cbn; lia|apply contig_nil].
Qed.

Lemma link_ok_queue b m hub' k : link_ok k -> is_hello (0, b) = false -> append_cloud edge_id b (lk_hub k) = Ok (m, hub') ->
  link_ok (k <| lk_hub := hub' |> <| lk_sent := lk_sent k ++ [b] |>).
Proof.
  intros [O1 O2 O3 O4 O5 O6 O7 O8 O9 O10 O11 O12] Hb Hq. pose proof (append_spec (lk_hub k) edge_id b O1) as Hs. rewrite Hq in Hs.
  case_decide; [|done].
  destruct Hs as [_ Ha]. apply hub_view_advances in Ha as [Ho Hv]. set (k' := k <| lk_hub := hub' |> <| lk_sent := lk_sent k ++ [b] |>).
  specialize (Hv k' eq_refl). fold (hub_view k) in Hv.
  assert (received k' = received k) as Er by (unfold received; by rewrite Hv).
  assert (grows_to k k') as G by (split; rewrite ?Er; try done; by eexists).
  assert (forall i, is_Some (v_queues (hub_view k) !! i) -> is_Some (v_queues (hub_view k') !! i)) as Hqs.
  { intros i [l Hl]. rewrite Hv. cbn. unfold put_all. rewrite lookup_fmap. fold (hub_view k). rewrite Hl. by eexists. }
  split; rewrite ?Er; try done.
  - rewrite Hv. by apply stream_append.
  - by rewrite Hv.
  - apply Forall_app. by split; [|apply Forall_singleton].
  - change (lk_taken k = take (Z.to_nat (cursor k)) (lk_sent k ++ [b])). rewrite take_app_le; [done|lia].
  - change (cursor k <= Z.of_nat (length (lk_sent k ++ [b]))). rewrite length_app. lia.
  - intros i c Hi. apply (conn_ok_mono k); [done|by apply Hqs|by apply O11].
  - intros i c Hcur Hi. pose proof (O12 i c Hcur Hi) as Hc. unfold current_ok in *. destruct (cn_session c) as [ss|]; [|done].
    destruct Hc as ((Hcs & Hr) & Hn & Hl). split; [|by split]. split.
    + change (cursor k <= ss_cursor ss <= Z.of_nat (length (lk_sent k ++ [b]))). rewrite length_app. lia.
    + destruct (ss_replay ss) as [r|]; [|done]. destruct Hr as (Hr & l & Hq0 & Hb1). split; [done|].
      exists (l ++ [(v_last_cloud (hub_view k) + 1, b)]). split.
      * rewrite Hv. cbn. unfold put_all. rewrite lookup_fmap. fold (hub_view k). by rewrite Hq0.
      * change (lk_sent k') with (lk_sent k ++ [b]). rewrite !length_app. cbn. lia.
Qed.

Lemma filter_pending sent v n : stream_ok sent v -> v_watermark v <= n <= v_last_cloud v ->
  let p := filter (fun m : CloudToEdge => m.1 > n) (v_pending v) in
  contig n p /\ n + Z.of_nat (length p) = v_last_cloud v /\ Forall (from_log sent) p.
Proof.
  intros [S1 S2 S3 S4 S5 S6] Hn p. unfold p. rewrite (contig_above (v_watermark v)) by done. split; [|split].
  - replace n with (v_watermark v + Z.of_nat (Z.to_nat (n - v_watermark v))) at 1 by lia. apply contig_drop; [done|lia].
  - rewrite length_drop. lia.
  - by apply Forall_drop.
Qed.

Lemma stream_queues sent v qs : stream_ok sent v ->
  (forall q l, qs !! q = Some l -> Forall (from_log sent) l /\ contig (v_last_cloud v - Z.of_nat (length l)) l) ->
  stream_ok sent (v <| v_queues := qs |>).
Proof. intros [] Hq. by split. Qed.

(** The generator's opening: a hello at or above the watermark is accepted,
    an older one is refused and leaves no queue behind. *)
Lemma open_ok q n k : store_ok (lk_hub k) -> stream_ok (lk_sent k) (hub_view k) -> 0 <= n <= v_last_cloud (hub_view k) ->
  let '(r, hub') := open edge_id q n (lk_hub k) in
  store_ok hub' /\
  if decide (n < v_watermark (hub_view k))
  then r = Err moved_behind /\ view hub' edge_id = (hub_view k) <| v_queues := delete q (v_queues (hub_view k)) |>
  else r = Ok ((0, Some (CB_hello (Z.of_nat (length (received k))))), mkSession edge_id q n None)
       /\ stream_ok (lk_sent k) (view hub' edge_id) /\ v_watermark (view hub' edge_id) = n
       /\ v_received (view hub' edge_id) = received k
       /\ v_queues (view hub' edge_id) = <[q := []]> (v_queues (hub_view k)).
Proof.
  intros Ho Hs Hn. unfold open. pose proof (live_queue_spec (lk_hub k) edge_id q Ho) as [Ho1 Hv1].
  specialize (Hv1 edge_id). rewrite decide_True in Hv1 by done. fold (hub_view k) in Hv1.
  set (hub1 := live_queue edge_id q (lk_hub k)) in *.
  pose proof (acknowledge_spec hub1 edge_id n Ho1 (proj1 Hn)) as Ha. rewrite Hv1 in Ha.
  unfold bootstraps, spec_acknowledge in Ha. cbn in Ha. specialize (Ha ltac:(lia)).
  destruct (acknowledge_cloud edge_id n hub1) as [[[] hub2]|x] eqn:Ea.
  - case_decide as D; [done|]. rewrite decide_False in Ha by lia. destruct Ha as [_ [Ho2 Hv2]]. specialize (Hv2 edge_id).
    rewrite decide_True in Hv2 by done. split; [done|]. rewrite last_edge_spec by done.
    destruct (filter_pending _ _ n Hs ltac:(lia)) as (P1 & P2 & P3). destruct Hs as [S1 S2 S3 S4 S5 S6].
    rewrite Hv2. cbn. split; [done|]. split; [|done]. split; cbn; try done; try lia.
    intros q' l. destruct (decide (q' = q)) as [->|N].
    + rewrite lookup_insert_eq. intros [= <-]. split; [constructor|apply contig_nil].
    + rewrite lookup_insert_ne by done. apply S6.
  - pose proof (remove_queue_spec hub1 edge_id q Ho1) as [Ho2 Hv2]. specialize (Hv2 edge_id). rewrite decide_True in Hv2 by done.
    split; [done|]. case_decide as D; [|by rewrite decide_False in Ha by lia]. cbn in Ha. split; [by subst x|].
    rewrite Hv2, Hv1. cbn. unfold set_with. cbn. f_equal. by rewrite delete_insert_eq.
Qed.

(** *** Every step keeps the invariant *)

Lemma cursor_nonneg k : link_ok k -> 0 <= cursor k.
Proof. intros [_ O2 _ _ _ _ _ _ _ _ _ _]. apply (ok_last_cloud _ (ok_outbound _ (ok_spool _ O2))). Qed.

Lemma new_link_ok : link_ok new_link.
Proof.
  assert (hub_view new_link = new_view) as Ev by apply empty_view.
  split; unfold received, cursor, emitted; rewrite ?Ev; cbn; try done.
  - apply empty_ok.
  - apply new_node_ok.
Qed.

Lemma connect_ok k : link_ok k -> lk_current k = None ->
  link_ok (k <| lk_conns := <[lk_next k := mkConn [(0, Some (EB_hello edge_id (cursor k)))] [] None [] 0]> (lk_conns k) |>
             <| lk_current := Some (lk_next k) |> <| lk_next := Datatypes.S (lk_next k) |>).
Proof.
  intros Hk Hn. pose proof (cursor_nonneg k Hk) as Hc0. destruct Hk as [O1 O2 O3 O4 O5 O6 O7 O8 O9 O10 O11 O12].
  set (c0 := mkConn _ _ _ _ _). set (k' := k <| lk_conns := _ |> <| lk_current := _ |> <| lk_next := _ |>).
  assert (grows_to k k') as G by (split; cbn; try done; lia).
  split; try done.
  - intros i c. cbn. destruct (decide (lk_next k = i)) as [<-|N].
    + rewrite lookup_insert_eq. intros [= <-]. split; cbn; try done; try lia.
      * eexists _, []. split; [done|]. split; [|constructor]. exists (cursor k). split; [done|]. by split.
      * split; [done|]. rewrite decide_False by lia. cbn. lia.
    + rewrite lookup_insert_ne by done. intros Hi. by apply (conn_ok_mono k); [..|apply O11].
  - intros i c. cbn. intros [= <-]. rewrite lookup_insert_eq. by intros [= <-].
Qed.

(** The queue of the generator is forgotten. *)
Lemma hang_up_ok i c k : link_ok k -> lk_conns k !! i = Some c -> link_ok (hang_up i c k).
Proof.
  intros Hk Hi. pose proof (ok_conns k Hk i c Hi) as Hc. unfold hang_up. destruct (cn_session c) as [ss|] eqn:Es.
  - destruct (co_session _ _ _ Hc ss Es) as (E1 & E2 & _ & _). unfold open_close. rewrite E1, E2.
    pose proof (remove_queue_spec (lk_hub k) edge_id i (ok_hub k Hk)) as Ha. apply hub_view_advances in Ha as [Ho Hv].
    eapply (link_ok_delete k _ i); try done.
    + eexists. split; [by apply Hv|]. intros j N. fold (hub_view k). by rewrite lookup_delete_ne.
    + intros l. erewrite Hv by done. cbn. by rewrite lookup_delete_eq.
  - apply (link_ok_delete k _ i); try done; [apply Hk| |by left]. exists (v_queues (hub_view k)). split; [|done].
    unfold hub_view. cbn. by destruct (view (lk_hub k) edge_id).
Qed.

Lemma conn_hello k i c e n up : conn_ok k i c -> cn_session c = None -> cn_up c = (0, Some (EB_hello e n)) :: up ->
  e = edge_id /\ 0 <= n <= cursor k /\ Forall (up_ok (emitted k)) up.
Proof.
  intros [_ C2 _ _ _ _ _] Es Eu. rewrite Es in C2. destruct C2 as (h & up' & E & (n' & -> & Hn) & Hf).
  rewrite E in Eu. by simplify_eq.
Qed.

Lemma refuse_ok i c e n up x hub' k : link_ok k -> lk_conns k !! i = Some c -> cn_session c = None ->
  cn_up c = (0, Some (EB_hello e n)) :: up -> open e i n (lk_hub k) = (Err x, hub') ->
  link_ok (hang_up i c (k <| lk_hub := hub' |>)) /\ n < v_watermark (hub_view k).
Proof.
  intros Hk Hi Es Eu Hop. destruct (conn_hello k i c e n up (ok_conns k Hk i c Hi) Es Eu) as (-> & Hn & _).
  pose proof (open_ok i n k (ok_hub k Hk) (ok_stream k Hk)) as Ho. rewrite Hop in Ho.
  rewrite (so_last _ _ (ok_stream k Hk)) in Ho. pose proof (ok_cursor k Hk) as Hcu. destruct Ho as [Hst Ho]; [lia|].
  case_decide as D; [|by destruct Ho]. destruct Ho as [_ Hv]. split; [|done].
  unfold hang_up. rewrite Es. eapply (link_ok_delete k _ i); try done.
  - eexists. split; [exact Hv|]. intros j N. by rewrite lookup_delete_ne.
  - intros l. unfold hub_view at 1. cbn. rewrite Hv. cbn. by rewrite lookup_delete_eq.
Qed.

(** The current hello is never refused: it is the edge's cursor itself. *)
Lemma current_hello k i c e n up : link_ok k -> lk_current k = Some i -> lk_conns k !! i = Some c -> cn_session c = None ->
  cn_up c = (0, Some (EB_hello e n)) :: up -> n = cursor k.
Proof.
  intros Hk Hcur Hi Es Eu. pose proof (ok_current k Hk i c Hcur Hi) as Hc. unfold current_ok in Hc. rewrite Es, Eu in Hc.
  destruct Hc as [_ Hc]. cbn in Hc. by simplify_eq.
Qed.

Lemma link_open_ok i c e n up m ss hub' k : link_ok k -> lk_conns k !! i = Some c -> cn_session c = None ->
  cn_up c = (0, Some (EB_hello e n)) :: up -> open e i n (lk_hub k) = (Ok (m, ss), hub') ->
  link_ok (set_conn i (c <| cn_up := up |> <| cn_session := Some ss |> <| cn_down := cn_down c ++ [m] |>) (k <| lk_hub := hub' |>)).
Proof.
  intros Hk Hi Es Eu Hop. pose proof (ok_conns k Hk i c Hi) as Hc. destruct (conn_hello k i c e n up Hc Es Eu) as (-> & Hn & Hup).
  pose proof (open_ok i n k (ok_hub k Hk) (ok_stream k Hk)) as Ho. rewrite Hop in Ho.
  pose proof (so_last _ _ (ok_stream k Hk)) as Hlast. pose proof (ok_cursor k Hk) as Hcu. destruct Ho as [Hst Ho]; [lia|].
  case_decide as D; [by destruct Ho|]. destruct Ho as (Em & Hs & Hw & Hr & Hq). injection Em as -> ->.
  set (k1 := k <| lk_hub := hub' |>) in *. change (view hub' edge_id) with (hub_view k1) in *.
  assert (received k1 = received k) as Er by exact Hr. assert (grows_to k k1) as G by (split; rewrite ?Er; done).
  assert (forall j, is_Some (v_queues (hub_view k) !! j) -> is_Some (v_queues (hub_view k1) !! j)) as Hqs.
  { intros j Hj. rewrite Hq. destruct (decide (i = j)) as [<-|N]; [rewrite lookup_insert_eq; by eexists|by rewrite lookup_insert_ne]. }
  set (c' := c <| cn_up := up |> <| cn_session := _ |> <| cn_down := _ |>).
  assert (conn_ok k1 i c') as Hc'.
  { apply (conn_ok_mono k k1 i c G (Hqs i)) in Hc as [C1 C2 C3 C4 C5 C6 C7]. rewrite Eu in C4, C5.
    rewrite filter_cons, decide_False in C4, C5 by (cbn; lia). split; cbn; try done.
    - apply Forall_app. split; [done|]. apply Forall_singleton. left. eexists. split; [done|]. by rewrite Er.
    - intros ss0 [= <-]. cbn. rewrite Hq, lookup_insert_eq. by repeat split; try constructor. }
  apply (link_ok_step k hub' i c c'); try done.
  - change (v_watermark (hub_view k1) <= cursor k). rewrite Hw. lia.
  - change (received k `prefix_of` received k1). by rewrite Er.
  - change (received k1 `prefix_of` emitted k). rewrite Er. apply Hk.
  - intros j N. change (v_queues (hub_view k1) !! j = v_queues (hub_view k) !! j). by rewrite Hq, lookup_insert_ne.
  - intros Hcur. pose proof (current_hello k i c edge_id n up Hk Hcur Hi Es Eu) as ->.
    pose proof (ok_current k Hk i c Hcur Hi) as Hcu0. unfold current_ok in Hcu0. rewrite Es in Hcu0. destruct Hcu0 as [Ed _].
    unfold current_ok. cbn. rewrite Ed. cbn. split; [split; [split; [done|exact Hcu]|done]|]. split; [apply contig_nil|].
    change (cursor k = cursor k + 0). lia.
Qed.

(** The edge's queue at the hub, by number. *)
Lemma queue_next k i : store_ok (lk_hub k) -> match queue_get edge_id i (lk_hub k) with
  | Some (m, hub') => store_ok hub' /\ exists l, v_queues (hub_view k) !! i = Some (m :: l)
      /\ view hub' edge_id = (hub_view k) <| v_queues := <[i := l]> (v_queues (hub_view k)) |>
  | None => v_queues (hub_view k) !! i = None \/ v_queues (hub_view k) !! i = Some []
  end.
Proof.
  intros Ho. pose proof (queue_get_spec (lk_hub k) edge_id i Ho) as Hg. fold (hub_view k) in Hg.
  unfold spec_queue_get, get_from in Hg. destruct (queue_get edge_id i (lk_hub k)) as [[m hub']|].
  - destruct (v_queues (hub_view k) !! i) as [[|m' l]|] eqn:E; cbn in Hg; [done| |done]. destruct Hg as [<- [Ho' Hv]].
    split; [done|]. exists l. split; [done|]. specialize (Hv edge_id). by rewrite decide_True in Hv.
  - destruct (v_queues (hub_view k) !! i) as [[|m' l]|]; cbn in Hg; [by right|done|by left].
Qed.

Lemma from_log_no_hello (sent : list (option cloud_body)) m : Forall (fun b => is_hello (0, b) = false) sent ->
  from_log sent m -> is_hello m = false.
Proof. intros Hb [_ Hm]. rewrite Forall_forall in Hb. apply list_elem_of_lookup_2, Hb in Hm. by destruct m. Qed.

Lemma numbers_snoc l m : is_hello m = false -> numbers (l ++ [m]) = numbers l ++ [m].
Proof. intros Hm. unfold numbers. rewrite filter_app, filter_cons, filter_nil. by rewrite decide_True. Qed.

(** The generator moves while the hub's stream stays: what changes is its
    position, what it yields and what it has left. *)
Lemma conn_ok_move k i c ss ss' o : conn_ok k i c -> cn_session c = Some ss ->
  ss_edge_id ss' = ss_edge_id ss -> ss_queue ss' = ss_queue ss ->
  Forall (from_log (lk_sent k)) (option_list o ++ default [] (ss_replay ss')) ->
  conn_ok k i (c <| cn_session := Some ss' |> <| cn_down := cn_down c ++ option_list o |>).
Proof.
  intros [C1 C2 C3 C4 C5 C6 C7] Es E1 E2 [Ho Hr]%Forall_app. rewrite Es in C2. split; cbn; try done.
  - apply Forall_app. split; [done|]. eapply Forall_impl; [exact Ho|]. intros m Hm. by right.
  - intros s [= <-]. destruct (C7 ss Es) as (D1 & D2 & D3 & _). by rewrite E1, E2.
Qed.

Lemma current_session k i c ss : current_ok k i c -> cn_session c = Some ss ->
  generator_ok k i ss /\ contig (cursor k) (numbers (cn_down c)) /\ ss_cursor ss = cursor k + Z.of_nat (length (numbers (cn_down c))).
Proof. unfold current_ok. intros H1 E. by rewrite E in H1. Qed.

(** Yielding the message after the cursor keeps the edge's view in order. *)
Lemma current_ok_yield k i c cur m r : Forall (fun b => is_hello (0, b) = false) (lk_sent k) ->
  contig (cursor k) (numbers (cn_down c)) -> cur = cursor k + Z.of_nat (length (numbers (cn_down c))) ->
  from_log (lk_sent k) m -> m.1 = cur + 1 -> generator_ok k i (mkSession edge_id i m.1 r) ->
  current_ok k i (c <| cn_session := Some (mkSession edge_id i m.1 r) |> <| cn_down := cn_down c ++ [m] |>).
Proof.
  intros Hb Hn Hl Hm E Hg. unfold current_ok. cbn.
  rewrite numbers_snoc by by apply (from_log_no_hello (lk_sent k)). split; [done|]. rewrite length_app. cbn. split; [|lia].
  apply contig_app. split; [done|]. apply contig_cons. split; [lia|apply contig_nil].
Qed.

Lemma link_next_ok i c ss o ss' hub' k : link_ok k -> lk_conns k !! i = Some c -> cn_session c = Some ss ->
  open_next ss (lk_hub k) = Ok (o, ss', hub') ->
  link_ok (set_conn i (c <| cn_session := Some ss' |> <| cn_down := cn_down c ++ option_list o |>) (k <| lk_hub := hub' |>)).
Proof.
  intros Hk Hi Es Hn. pose proof (ok_conns k Hk i c Hi) as Hc. destruct (co_session _ _ _ Hc ss Es) as (E1 & E2 & [l Hl] & Hf).
  destruct ss as [e q cur rep]. cbn in E1, E2. subst e q. unfold open_next in Hn. cbn [ss_replay ss_edge_id ss_queue ss_cursor] in Hn.
  pose proof (ok_stream k Hk) as Hst. pose proof (so_last _ _ Hst) as Hlast. pose proof (ok_watermark k Hk) as Hwm.
  assert (forall c', k <| lk_hub := lk_hub k |> = k -> link_ok (set_conn i c' k) -> link_ok (set_conn i c' (k <| lk_hub := lk_hub k |>))) as Hsame.
  { by intros c' ->. }
  assert (k <| lk_hub := lk_hub k |> = k) as Ek by by destruct k.
  destruct rep as [[|m rest]|]; cbn in Hf.
  - pose proof (queue_next k i (ok_hub k Hk)) as Hq. destruct (queue_get edge_id i (lk_hub k)) as [[m hub1]|].
    2: { simplify_eq. apply Hsame; [done|]. rewrite app_nil_r. replace (c <| cn_session := _ |> <| cn_down := cn_down c |>) with c
           by by destruct c; cbn in *; subst. apply (link_ok_conn k i c); try done. intros. by apply (ok_current k Hk). }
    destruct Hq as (Ho1 & l' & Hl' & Hv). rewrite Hl in Hl'. injection Hl' as ->.
    destruct (so_queues _ _ Hst i _ Hl) as [Hlf Hlc]. apply Forall_cons in Hlf as [Hm Hl'].
    apply contig_cons in Hlc as [Em Hlc]. cbn [length] in Em, Hlc.
    set (k1 := k <| lk_hub := hub1 |>). change (view hub1 edge_id) with (hub_view k1) in Hv.
    assert (stream_ok (lk_sent k) (hub_view k1)) as Hst1.
    { rewrite Hv. apply stream_queues; [done|]. intros q0 l0. destruct (decide (q0 = i)) as [->|N].
      - rewrite lookup_insert_eq. intros [= <-]. split; [done|].
        by replace (v_last_cloud (hub_view k) - Z.of_nat (length l')) with (v_last_cloud (hub_view k) - Z.of_nat (Datatypes.S (length l')) + 1) by lia.
      - rewrite lookup_insert_ne by done. apply Hst. }
    assert (received k1 = received k) as Er by (unfold received; by rewrite Hv).
    assert (conn_ok k1 i c) as Hc1.
    { apply (conn_ok_mono k); [split; rewrite ?Er; done| |done]. intros _. rewrite Hv. cbn. rewrite lookup_insert_eq. by eexists. }
    assert (hub' = hub1) as -> by (case_decide; by simplify_eq).
    apply (link_ok_step k hub1 i c); try done.
    + change (v_watermark (hub_view k1) <= cursor k). by rewrite Hv.
    + change (received k `prefix_of` received k1). by rewrite Er.
    + change (received k1 `prefix_of` emitted k). rewrite Er. apply Hk.
    + intros j N. change (v_queues (hub_view k1) !! j = v_queues (hub_view k) !! j). rewrite Hv. cbn. by rewrite lookup_insert_ne.
    + fold k1. case_decide; simplify_eq; apply (conn_ok_move k1 i c _ _ _ Hc1 Es); cbn; rewrite ?Forall_cons; auto using List.Forall_nil.
    + fold k1. intros Hcur. pose proof (ok_current k Hk i c Hcur Hi) as Hcu.
      destruct (current_session k i c _ Hcu Es) as ((Hb & _ & l0 & Hl0 & Hb0) & Hd & Hdl). cbn in Hb, Hb0, Hdl.
      rewrite Hl in Hl0. injection Hl0 as <-. cbn [length] in Hb0.
      pose proof (from_log_le _ _ Hm) as Hmle.
      case_decide as D; simplify_eq.
      * apply (current_ok_yield k1 i c (cursor k + Z.of_nat (length (numbers (cn_down c))))); [apply Hk|done|done|done|lia|]. split; [change (cursor k <= m.1 <= Z.of_nat (length (lk_sent k))); lia|].
        cbn. split; [apply contig_nil|]. exists l'. split; [rewrite Hv; cbn; by rewrite lookup_insert_eq|]. lia.
      * unfold current_ok. cbn. rewrite app_nil_r. split; [|done]. split; [exact Hb|]. cbn. split; [apply contig_nil|].
        exists l'. split; [rewrite Hv; cbn; by rewrite lookup_insert_eq|]. lia.
  - simplify_eq. apply Hsame; [done|]. apply Forall_cons in Hf as [Hm Hrest]. apply (link_ok_conn k i c); try done.
    + apply (conn_ok_move k i c _ _ _ Hc Es); cbn; [done|done|by constructor].
    + intros Hcur. destruct (current_session k i c _ (ok_current k Hk i c Hcur Hi) Es) as ((Hb & Hr & l0 & Hl0 & Hb0) & Hd & Hdl).
      cbn in Hb, Hr, Hb0, Hdl. apply contig_cons in Hr as [Em Hr]. pose proof (from_log_le _ _ Hm) as Hmle.
      apply (current_ok_yield k i c cur); [apply Hk|done|done|done|done|]. split; [cbn; lia|]. cbn. rewrite Em.
      split; [done|]. exists l0. split; [done|lia].
  - rewrite (replay_spec (lk_hub k) edge_id cur (ok_hub k Hk)) in Hn. case_decide; [|done].
    simplify_eq. apply Hsame; [done|]. fold (hub_view k).
    apply (link_ok_conn k i c); try done.
    + apply (conn_ok_move k i c _ _ _ Hc Es); cbn; [done|done|]. pose proof (so_from _ _ Hst) as Hsf. rewrite Forall_forall in *.
      intros x [_ Hx]%list_elem_of_filter. by apply Hsf.
    + intros Hcur. destruct (current_session k i c _ (ok_current k Hk i c Hcur Hi) Es) as ((Hb & _) & Hd & Hdl). cbn in Hb, Hdl.
      destruct (filter_pending _ _ cur Hst ltac:(lia)) as (P1 & P2 & P3).
      unfold current_ok. cbn. rewrite app_nil_r. split; [|done]. split; [exact Hb|]. cbn. split; [exact P1|].
      exists l. split; [done|]. unfold spec_replay. lia.
Qed.

(** The hub accepts every message that is next or older, and never with other
    content. What can end the stream is a number the store cannot hold, or a
    handler's own error, raised over a message that is new and recorded by
    then. *)
Lemma hub_accepts k m w r hub' w' : store_ok (lk_hub k) -> received k `prefix_of` emitted k -> up_ok (emitted k) m ->
  m.1 <= Z.of_nat (length (received k)) + 1 -> accept handlers edge_id m (lk_hub k) w = (r, (hub', w')) ->
  store_ok hub'
  /\ (exists rc, view hub' edge_id = (hub_view k) <| v_received := rc |> /\ received k `prefix_of` rc /\ rc `prefix_of` emitted k
        /\ (fits limit m.1 -> Z.of_nat (length rc) = Z.max (Z.of_nat (length (received k))) m.1))
  /\ (~ fits limit m.1 -> is_ok r = false /\ hub' = lk_hub k)
  /\ forall x, r = Err x -> fits limit m.1 ->
       run_handlers handlers edge_id m w = (Err x, w') /\ v_received (view hub' edge_id) = received k ++ [m.2].
Proof.
  intros Ho Hp [[H1 Hm] (body & Eb & Hb)] Hn Ha. pose proof (record_spec (lk_hub k) edge_id m Ho) as Hr. fold (hub_view k) in Hr.
  assert (Hac : accept handlers edge_id m (lk_hub k) w = match record_edge edge_id m (lk_hub k) with
    | Err e => (Err e, (lk_hub k, w)) | Ok (false, s) => (Ok false, (s, w))
    | Ok (true, s) => let '(r, w) := run_handlers handlers edge_id m w in (match r with Ok _ => Ok true | Err e => Err e end, (s, w)) end).
  { unfold accept. rewrite Eb. by destruct body. }
  rewrite Hac in Ha. clear Hac. destruct (decide (fits limit m.1)) as [Df|Df].
  2: { destruct (record_edge edge_id m (lk_hub k)) as [[b s']|]; [done|]. simplify_eq. split; [done|]. split; [|by split; [done|]].
       exists (received k). split; [unfold received, hub_view; by destruct (view (lk_hub k) edge_id)|]. by repeat split. }
  assert (store_ok hub' /\ (exists rc, view hub' edge_id = (hub_view k) <| v_received := rc |> /\ received k `prefix_of` rc
      /\ rc `prefix_of` emitted k /\ Z.of_nat (length rc) = Z.max (Z.of_nat (length (received k))) m.1)
    /\ forall x, r = Err x -> run_handlers handlers edge_id m w = (Err x, w') /\ v_received (view hub' edge_id) = received k ++ [m.2])
    as (G1 & (rc & G2 & G3 & G4 & G5) & G6).
  2: { split; [done|]. split; [by exists rc|]. split; [done|]. intros x E _. by apply G6. }
  unfold spec_record in Hr. rewrite decide_False in Hr by lia. fold (received k) in Hr.
  destruct (received k !! Z.to_nat (m.1 - 1)) as [x|] eqn:Ex.
  - assert (x = m.2) as -> by (eapply prefix_lookup_Some in Ex; [|exact Hp]; congruence).
    rewrite decide_False in Hr by (intros N; by apply N). destruct (record_edge edge_id m (lk_hub k)) as [[b s']|]; [|done].
    destruct Hr as [-> [Ho' Hv]]. specialize (Hv edge_id). rewrite decide_True in Hv by done. simplify_eq.
    split; [done|]. split; [|done]. exists (received k). rewrite Hv.
    apply lookup_lt_Some in Ex. split; [unfold received; by destruct (hub_view k)|]. split; [done|]. split; [done|]. lia.
  - apply lookup_ge_None in Ex. rewrite decide_False in Hr by lia.
    destruct (record_edge edge_id m (lk_hub k)) as [[b s']|]; [|done].
    destruct Hr as [-> [Ho' Hv]]. specialize (Hv edge_id). rewrite decide_True in Hv by done.
    assert (hub' = s' /\ (forall x, r = Err x -> run_handlers handlers edge_id m w = (Err x, w'))) as [-> Hx].
    { destruct (run_handlers handlers edge_id m w) as [[] w1]; simplify_eq/=; (split; [done|intros x; congruence]). }
    split; [done|]. split; [|intros x E; split; [by apply Hx|by rewrite Hv]]. exists (received k ++ [m.2]). split; [done|].
    split; [by eexists|]. rewrite length_app. cbn. split; [|lia]. destruct Hp as [r' Hp]. rewrite Hp in Hm |- *.
    rewrite lookup_app_r in Hm by done. replace (Z.to_nat (m.1 - 1) - length (received k))%nat with 0%nat in Hm by lia.
    destruct r' as [|y r']; [done|]. cbn in Hm. simplify_eq. exists r'. by rewrite <- app_assoc.
Qed.

Lemma session_up k i c ss m up : conn_ok k i c -> cn_session c = Some ss -> cn_up c = m :: up ->
  up_ok (emitted k) m /\ m.1 <= Z.of_nat (length (received k)) + 1.
Proof.
  intros [_ C2 _ C4 _ _ _] Es Eu. rewrite Es, Eu in C2. apply Forall_cons in C2 as [Hm _]. split; [done|].
  rewrite Eu, filter_cons, decide_True in C4 by (destruct Hm as [[? _] _]; lia). cbn in C4. tauto || lia.
Qed.

Lemma link_accept_ok i c ss m up w r hub' w' k : link_ok k -> lk_conns k !! i = Some c -> cn_session c = Some ss -> cn_up c = m :: up ->
  accept handlers edge_id m (lk_hub k) w = (r, (hub', w')) -> fits limit m.1 ->
  link_ok (set_conn i (c <| cn_up := up |>) (k <| lk_hub := hub' |>)).
Proof.
  intros Hk Hi Es Eu Ha Hfit. pose proof (ok_conns k Hk i c Hi) as Hc. destruct (session_up k i c ss m up Hc Es Eu) as [Hm Hn].
  destruct (hub_accepts k m w r hub' w' (ok_hub k Hk) (ok_received k Hk) Hm Hn Ha) as (Ho & (rc & Hv & P1 & P2 & Hl) & _). specialize (Hl Hfit).
  set (k1 := k <| lk_hub := hub' |>). change (view hub' edge_id) with (hub_view k1) in Hv.
  assert (received k1 = rc) as Er by (unfold received; by rewrite Hv).
  apply (link_ok_step k hub' i c); try done.
  - change (stream_ok (lk_sent k) (hub_view k1)). rewrite Hv. by destruct (ok_stream k Hk).
  - change (v_watermark (hub_view k1) <= cursor k). rewrite Hv. apply Hk.
  - change (received k `prefix_of` received k1). by rewrite Er.
  - change (received k1 `prefix_of` emitted k). by rewrite Er.
  - intros j N. change (v_queues (hub_view k1) !! j = v_queues (hub_view k) !! j). by rewrite Hv.
  - fold k1. assert (grows_to k k1) as G by (split; rewrite ?Er; try done; lia).
    assert (conn_ok k1 i c) as [C1 C2 C3 C4 C5 C6 C7] by (apply (conn_ok_mono k); [done|by rewrite Hv|done]).
    destruct Hc as [_ _ _ D4 D5 _ _]. rewrite Es, Eu in C2. apply Forall_cons in C2 as [_ C2].
    rewrite Eu, filter_cons, decide_True in D4, D5 by (destruct Hm as [[? _] _]; lia). cbn in D4, D5. rewrite <- Hl in D4, D5.
    split; cbn; [exact C1|by rewrite Es|exact C3|rewrite Er; apply D4|rewrite Er; exact D5|exact C6|exact C7].
  - fold k1. intros Hcur. pose proof (ok_current k Hk i c Hcur Hi) as Hcu. apply (current_ok_same k k1) in Hcu; [|done|done|by rewrite Hv].
    unfold current_ok in *. cbn. by rewrite Es in *.
Qed.

Lemma accepted_fits i c ss m up w b hub' w' k : link_ok k -> lk_conns k !! i = Some c -> cn_session c = Some ss -> cn_up c = m :: up ->
  accept handlers edge_id m (lk_hub k) w = (Ok b, (hub', w')) -> fits limit m.1.
Proof.
  intros Hk Hi Es Eu Ha. destruct (session_up k i c ss m up (ok_conns k Hk i c Hi) Es Eu) as [Hm Hn].
  destruct (hub_accepts k m w _ hub' w' (ok_hub k Hk) (ok_received k Hk) Hm Hn Ha) as (_ & _ & Hx & _).
  destruct (decide (fits limit m.1)) as [|Df]; [done|]. by destruct (Hx Df).
Qed.

(** Aborting the call over a message is accepting it, then hanging up. *)
Lemma abort_is_accept_and_hang_up i c up hub' k :
  hang_up i c (k <| lk_hub := hub' |>) = hang_up i (c <| cn_up := up |>) (set_conn i (c <| cn_up := up |>) (k <| lk_hub := hub' |>)).
Proof. unfold hang_up. destruct k, c; cbn. by rewrite delete_insert_eq. Qed.

Lemma link_abort_ok i c ss m up w r hub' w' k : link_ok k -> lk_conns k !! i = Some c -> cn_session c = Some ss -> cn_up c = m :: up ->
  accept handlers edge_id m (lk_hub k) w = (r, (hub', w')) -> link_ok (hang_up i c (k <| lk_hub := hub' |>)).
Proof.
  intros Hk Hi Es Eu Ha. destruct (decide (fits limit m.1)) as [Df|Df].
  - rewrite (abort_is_accept_and_hang_up i c up). apply hang_up_ok; [by eapply link_accept_ok|]. apply lookup_insert_eq.
  - destruct (session_up k i c ss m up (ok_conns k Hk i c Hi) Es Eu) as [Hm Hn].
    destruct (hub_accepts k m w r hub' w' (ok_hub k Hk) (ok_received k Hk) Hm Hn Ha) as (_ & _ & Hx & _).
    destruct (Hx Df) as [_ ->]. assert (k <| lk_hub := lk_hub k |> = k) as -> by (by destruct k). by apply hang_up_ok.
Qed.

(** *** The edge's side *)

Lemma outbound_from_log k r : link_ok k -> r ∈ sp_outbound (ed_spool (lk_edge k)) -> from_log (emitted k) (ob_sequence r, Some (ob_payload r)).
Proof.
  intros Hk Hr. destruct (ok_spool _ (ok_node k Hk)) as [_ [Hn _ _ _] _]. apply list_elem_of_lookup in Hr as [j Hj].
  assert (seqZ 1 (sp_last_edge (ed_spool (lk_edge k))) !! j = Some (ob_sequence r)) as Hs.
  { unfold ed_spool. rewrite <- Hn, list_lookup_fmap. unfold ed_spool in Hj. by rewrite Hj. }
  apply lookup_seqZ in Hs as [-> _]. split; cbn; [lia|]. replace (Z.to_nat (1 + Z.of_nat j - 1)) with j by lia.
  unfold emitted. rewrite list_lookup_fmap. by rewrite Hj.
Qed.

Lemma emitted_length k : link_ok k -> Z.of_nat (length (emitted k)) = sp_last_edge (ed_spool (lk_edge k)).
Proof.
  intros Hk. destruct (ok_spool _ (ok_node k Hk)) as [_ [Hn Hl _ _] _]. apply (f_equal length) in Hn.
  rewrite length_fmap, length_seqZ in Hn. unfold emitted. rewrite length_fmap. unfold ed_spool. lia.
Qed.

Lemma link_read_ok i c k : link_ok k -> lk_current k = Some i -> lk_conns k !! i = Some c -> cn_batch c = [] ->
  link_ok (set_conn i (c <| cn_batch := (fun m : edge_message => (m.1, Some m.2))
                              <$> replay_edge_messages (cn_last_sent c) (ed_spool (lk_edge k)) |>) k).
Proof.
  intros Hk Hcur Hi Eb. pose proof (ok_conns k Hk i c Hi) as [C1 C2 C3 C4 C5 C6 C7].
  destruct (replay_tail (ed_spool (lk_edge k)) (cn_last_sent c) (ok_spool _ (ok_node k Hk))) as [Hseq Hin].
  apply (link_ok_conn k i c); [done|done| |intros _; exact (ok_current k Hk i c Hcur Hi)].
  split; cbn; try done.
  - apply Forall_fmap, Forall_forall. intros [n b] Hm. apply Hin in Hm as (r & Hr & <- & <- & _). cbn.
    split; [by apply outbound_from_log|]. exists (ob_payload r). split; [done|].
    pose proof (ok_sequenced k Hk) as Hs. rewrite Forall_forall in Hs. by apply Hs.
  - rewrite Eb in C4. cbn in C4. rewrite app_nil_r in C4. apply chained_app. split; [done|].
    rewrite <- list_fmap_compose. change (fst ∘ (fun m : edge_message => (m.1, Some m.2))) with (fst (A := Z) (B := edge_body)).
    rewrite Hseq. set (from := Z.max _ _). pose proof (ok_acked_ k Hk) as Ha. pose proof (highest_ge (Z.of_nat (length (received k)))
      (filter (fun m : EdgeToCloud => m.1 <> 0) (cn_up c)).*1) as Hg.
    apply chained_range. unfold from. lia.
Qed.

Lemma link_send_ok i c m batch k : link_ok k -> lk_current k = Some i -> lk_conns k !! i = Some c -> cn_batch c = m :: batch ->
  link_ok (set_conn i (c <| cn_batch := batch |> <| cn_up := cn_up c ++ [m] |> <| cn_last_sent := m.1 |>) k).
Proof.
  intros Hk Hcur Hi Eb. pose proof (ok_conns k Hk i c Hi) as [C1 C2 C3 C4 C5 C6 C7]. rewrite Eb in C3, C4.
  apply Forall_cons in C3 as [Hm C3]. assert (1 <= m.1) as H1 by apply Hm.
  assert (filter (fun m : EdgeToCloud => m.1 <> 0) (cn_up c ++ [m]) = filter (fun m : EdgeToCloud => m.1 <> 0) (cn_up c) ++ [m]) as Ef.
  { rewrite filter_app, filter_cons, filter_nil. by rewrite decide_True by lia. }
  apply (link_ok_conn k i c); [done|done| |intros _].
  - split; cbn; try done.
    + destruct (cn_session c); [apply Forall_app; split; [done|by apply Forall_singleton]|].
      destruct C2 as (h & up & -> & Hh & Hf). exists h, (up ++ [m]). split; [done|]. split; [done|].
      apply Forall_app. split; [done|by apply Forall_singleton].
    + rewrite Ef, fmap_app, <- app_assoc. exact C4.
    + rewrite Ef, fmap_app, highest_app. unfold highest at 1. cbn. lia.
  - pose proof (ok_current k Hk i c Hcur Hi) as Hcu. unfold current_ok in *. cbn. destruct (cn_session c); [done|].
    destruct Hcu as [Hd Hh]. split; [done|]. by destruct (cn_up c).
Qed.

(** What the edge is about to handle: the hello of its connection, or the
    message after its cursor. *)
Lemma current_head k i c m down : link_ok k -> lk_current k = Some i -> lk_conns k !! i = Some c -> cn_down c = m :: down ->
  (exists n, m = (0, Some (CB_hello n)) /\ n <= Z.of_nat (length (received k)))
  \/ (from_log (lk_sent k) m /\ is_hello m = false /\ m.1 = cursor k + 1).
Proof.
  intros Hk Hcur Hi Ed. destruct (ok_conns k Hk i c Hi) as [_ _ _ _ _ C6 _]. rewrite Ed in C6. apply Forall_cons in C6 as [[Hm|Hm] _]; [by left|].
  right. pose proof (from_log_no_hello _ _ (ok_bodies k Hk) Hm) as Hh. split; [done|]. split; [done|].
  pose proof (ok_current k Hk i c Hcur Hi) as Hcu. unfold current_ok in Hcu. destruct (cn_session c) as [ss|].
  - destruct Hcu as (_ & Hn & _). rewrite Ed in Hn. unfold numbers in Hn. rewrite filter_cons, decide_True in Hn by done.
    by apply contig_cons in Hn as [-> _].
  - destruct Hcu as [Hd _]. by rewrite Ed in Hd.
Qed.

Lemma hello_accepted k n now r e' : link_ok k -> n <= Z.of_nat (length (received k)) ->
  handle_cloud cfg now (0, Some (CB_hello n)) (lk_edge k) = (r, e') ->
  r = Ok tt /\ sp_last_edge_acked (ed_spool e') <= Z.of_nat (length (received k)).
Proof.
  intros Hk Hn H1. pose proof (prefix_length _ _ (ok_received k Hk)) as Hp. pose proof (emitted_length k Hk) as He.
  cbn in H1. unfold acknowledge_edge_sequence in H1. do 2 (rewrite decide_False in H1 by lia).
  pose proof (ok_acked_ k Hk). case_decide; simplify_eq; (split; [done|]); cbn; lia.
Qed.

Lemma link_handle_ok i c m down now e' k : link_ok k -> lk_current k = Some i -> lk_conns k !! i = Some c -> cn_down c = m :: down ->
  handle_cloud cfg now m (lk_edge k) = (Ok tt, e') ->
  link_ok (set_conn i (c <| cn_down := down |>) (k <| lk_edge := e' |> <| lk_taken := take_message m k |>)).
Proof.
  intros Hk Hcur Hi Ed Hm. pose proof (handle_cloud_handled _ _ _ _ _ _ (ok_node k Hk) Hm) as [A1 A2 A3 A4].
  destruct (current_head k i c m down Hk Hcur Hi Ed) as [(n & -> & Hn)|(Hf & Hh & Em)].
  - destruct (hello_accepted k n now _ e' Hk Hn Hm) as [_ Hack]. unfold take_message. cbn in A3.
    pose proof (cursor_nonneg k Hk) as Hc0. rewrite bool_decide_false in A3 by (unfold cursor in Hc0; lia).
    rewrite decide_False by (cbn; lia). pose proof (link_ok_edge k e' Hk A1 A2 A3 Hack) as Hk1.
    assert (k <| lk_edge := e' |> <| lk_taken := lk_taken k |> = k <| lk_edge := e' |>) as -> by by destruct k.
    pose proof (ok_conns _ Hk1 i c Hi) as [C1 C2 C3 C4 C5 C6 C7].
    apply (link_ok_conn _ i c _ Hk1 Hi); [split; cbn; try done; rewrite Ed in C6; by apply Forall_cons in C6 as []|].
    intros _. pose proof (ok_current _ Hk1 i c Hcur Hi) as Hcu. unfold current_ok in *. cbn. rewrite Ed in Hcu.
    destruct (cn_session c); [exact Hcu|by destruct Hcu].
  - cbn in A3. rewrite bool_decide_true in A3 by done. specialize (A4 Hh).
    set (k1 := k <| lk_edge := e' |> <| lk_taken := take_message m k |>).
    assert (cursor k1 = cursor k + 1) as Ec by (unfold cursor; cbn; by rewrite A3).
    destruct (evolves_ok _ _ A2 (ok_spool _ (ok_node k Hk))) as [_ Hle].
    assert (grows_to k k1) as G by (split; rewrite ?Ec; try done; [lia|by apply emitted_evolves]).
    pose proof (cursor_nonneg k Hk) as Hc0. pose proof (from_log_le _ _ Hf) as Hfl.
    pose proof (ok_conns k Hk i c Hi) as Hc. apply (conn_ok_mono k k1 i c G) in Hc as [C1 C2 C3 C4 C5 C6 C7]; [|done].
    pose proof (ok_current k Hk i c Hcur Hi) as Hcu. unfold current_ok in Hcu.
    assert (numbers (m :: down) = m :: numbers down) as En by (unfold numbers; by rewrite filter_cons, decide_True).
    destruct Hk as [O1 O2 O3 O4 O5 O6 O7 O8 O9 O10 O11 O12].
    set (c' := c <| cn_down := down |>). assert (conn_ok k1 i c') as Hc'.
    { split; try done. rewrite Ed in C6. by apply Forall_cons in C6 as []. }
    split; try done.
    + change (v_watermark (hub_view k) <= cursor k1). lia.
    + change (take_message m k = take (Z.to_nat (cursor k1)) (lk_sent k)). unfold take_message. rewrite decide_True, O6, Ec by done.
      replace (Z.to_nat (cursor k + 1)) with (Datatypes.S (Z.to_nat (cursor k))) by lia. symmetry. apply take_S_r.
      destruct Hf as [_ Hf]. replace (Z.to_nat (cursor k)) with (Z.to_nat (m.1 - 1)) by lia. exact Hf.
    + change (cursor k1 <= Z.of_nat (length (lk_sent k))). lia.
    + etransitivity; [exact O8|apply G].
    + change (sp_last_edge_acked (ed_spool e') <= Z.of_nat (length (received k))). lia.
    + by eapply sequenced_evolves.
    + intros j d. cbn. destruct (decide (i = j)) as [<-|N]; [rewrite lookup_insert_eq; intros [= <-]|].
      * by apply (conn_ok_mono k1); [split|..].
      * rewrite lookup_insert_ne by done. intros Hj. apply (conn_ok_mono k1); [by split|done|].
        by apply (conn_ok_mono k); [..|apply O11].
    + intros j d. cbn. rewrite Hcur. intros [= <-]. rewrite lookup_insert_eq. intros [= <-].
      destruct (cn_session c) as [ss|] eqn:Es; [|destruct Hcu as [Hd _]; by rewrite Ed in Hd].
      unfold current_ok, c'. cbn [cn_session cn_down set_with]. rewrite Es.
      change (generator_ok k1 i ss /\ contig (cursor k1) (numbers down) /\ ss_cursor ss = cursor k1 + Z.of_nat (length (numbers down))).
      rewrite Ed, En in Hcu. destruct Hcu as (Hg & Hn & Hl). apply contig_cons in Hn as [_ Hn]. cbn [length] in Hl.
      rewrite Ec. split; [|split; [done|lia]]. destruct Hg as [Hg1 Hg2]. split; [rewrite Ec; cbn; lia|exact Hg2].
Qed.

(** An exception of the edge is never about the protocol: it was handling the
    next message of the stream. *)
Lemma crash_on_next i c m down now x e1 k : link_ok k -> lk_current k = Some i -> lk_conns k !! i = Some c -> cn_down c = m :: down ->
  handle_cloud cfg now m (lk_edge k) = (Err x, e1) -> m.1 = cursor k + 1 /\ from_log (lk_sent k) m /\ is_hello m = false.
Proof.
  intros Hk Hcur Hi Ed Hm. destruct (current_head k i c m down Hk Hcur Hi Ed) as [(n & -> & Hn)|(Hf & Hh & Em)]; [|done].
  by destruct (hello_accepted k n now _ e1 Hk Hn Hm).
Qed.

Lemma link_crash_ok i c m down now x resolve fresh e1 e' k : link_ok k -> lk_current k = Some i -> lk_conns k !! i = Some c ->
  cn_down c = m :: down -> handle_cloud cfg now m (lk_edge k) = (Err x, e1) ->
  restart resolve fresh now (ed_spool e1) = (Ok tt, e') -> link_ok (k <| lk_edge := e' |> <| lk_current := None |>).
Proof.
  intros Hk Hcur Hi Ed Hm Hr. destruct (crash_on_next i c m down now x e1 k Hk Hcur Hi Ed Hm) as (Em & _ & Hh).
  pose proof (handle_cloud_handled _ _ _ _ _ _ (ok_node k Hk) Hm) as [A1 A2 A3 A4]. specialize (A4 Hh).
  destruct (restart_progresses _ _ _ _ _ A1 Hr) as [B1 B2 B3 B4].
  apply link_ok_no_current, link_ok_edge; [done|done|by etransitivity|by rewrite B3, A3|]. rewrite B4, A4. apply Hk.
Qed.

Lemma calm_step_ok k k' : calm_step k k' -> link_ok k -> link_ok k'.
Proof.
  intros Hs Hk. destruct Hs as [k|k Hc|i c e n up m ss hub' k Hi Es Eu Ho|i c e n up x hub' k Hi Es Eu Ho|i c ss o ss' hub' k Hi Es Hn
    |i c ss x k Hi Es Hn|i c ss m up w b hub' w' k Hi Es Eu Ha|i c ss m up w x hub' w' k Hi Es Eu Ha
    |i c k Hcur Hi Eb|i c m batch k Hcur Hi Eb|i c m down now e' k Hcur Hi Ed Hh].
  - by apply link_ok_no_current.
  - by apply connect_ok.
  - by eapply link_open_ok.
  - by eapply refuse_ok in Ho as [].
  - by eapply link_next_ok.
  - by apply hang_up_ok.
  - eapply link_accept_ok; [done..|exact Ha|by eapply accepted_fits].
  - by eapply link_abort_ok.
  - by apply link_read_ok.
  - by apply link_send_ok.
  - by eapply link_handle_ok.
Qed.

Lemma link_step_ok k k' : link_step k k' -> link_ok k -> link_ok k'.
Proof.
  intros Hs Hk. destruct Hs as [k k' Hs|b m hub' k Hb Hq|e' k He|now e' k He|i c k Hi|i c m down now x rs fr e1 e' k Hcur Hi Ed Hh Hr].
  - by eapply calm_step_ok.
  - eapply link_ok_queue; [done|done|]. unfold queue in Hq. by case_decide.
  - apply local_progresses in He as [P1 P2 P3 P4]; [|apply Hk]. apply link_ok_edge; try done. rewrite P4. apply Hk.
  - inversion He as [| |? ? ? ? ? Hr| | | | | | | | | | |]; subst. apply restart_progresses in Hr as [P1 P2 P3 P4]; [|apply Hk].
    apply link_ok_no_current, link_ok_edge; try done. rewrite P4. apply Hk.
  - by apply hang_up_ok.
  - by eapply link_crash_ok.
Qed.

Lemma link_steps_ok k k' : rtc link_step k k' -> link_ok k -> link_ok k'.
Proof. induction 1; [done|]. eauto using link_step_ok. Qed.

Lemma reachable_link_ok k : rtc link_step new_link k -> link_ok k.
Proof. intros Hr. by apply (link_steps_ok new_link), new_link_ok. Qed.

(** *** Every step only adds to the histories *)

Lemma advances_received k hub' v : advances view store_ok (lk_hub k) edge_id hub' v -> v_received v = received k ->
  forall k', lk_hub k' = hub' -> received k' = received k.
Proof. intros Ha Hv k' E. apply hub_view_advances in Ha as [_ H1]. unfold received at 1. by rewrite (H1 k' E). Qed.

Lemma close_received k i c ss : link_ok k -> lk_conns k !! i = Some c -> cn_session c = Some ss ->
  forall k', lk_hub k' = open_close ss (lk_hub k) -> received k' = received k.
Proof.
  intros Hk Hi Es k' E. destruct (co_session _ _ _ (ok_conns k Hk i c Hi) ss Es) as (E1 & E2 & _).
  unfold open_close in E. rewrite E1, E2 in E. by eapply advances_received; [apply remove_queue_spec, Hk| |exact E].
Qed.

Lemma next_received k i c ss o ss' hub' : link_ok k -> lk_conns k !! i = Some c -> cn_session c = Some ss ->
  open_next ss (lk_hub k) = Ok (o, ss', hub') -> forall k', lk_hub k' = hub' -> received k' = received k.
Proof.
  intros Hk Hi Es Hn k' E. destruct (co_session _ _ _ (ok_conns k Hk i c Hi) ss Es) as (E1 & E2 & _).
  unfold open_next in Hn. rewrite E1, E2 in Hn. destruct (ss_replay ss) as [[|m rest]|]; [| |destruct (replay_cloud _ _ _); [|done]]; [|assert (hub' = lk_hub k) as Eh by congruence; unfold received, hub_view; by rewrite E, Eh..].
  pose proof (queue_next k i (ok_hub k Hk)) as Hq. destruct (queue_get edge_id i (lk_hub k)) as [[m hub1]|].
  - destruct Hq as (_ & l & _ & Hv). assert (hub' = hub1) as -> by (case_decide; by simplify_eq).
    unfold received, hub_view. rewrite E, Hv. done.
  - assert (hub' = lk_hub k) as Eh by congruence. unfold received, hub_view. by rewrite E, Eh.
Qed.

Lemma grows_from k k' : lk_next k' = lk_next k -> lk_edge k' = lk_edge k -> lk_sent k' = lk_sent k -> received k' = received k -> grows_to k k'.
Proof. intros E1 E2 E3 E4. split; unfold cursor, emitted; rewrite ?E1, ?E2, ?E3, ?E4; done. Qed.

Lemma hang_up_grows i c k : link_ok k -> lk_conns k !! i = Some c -> grows_to k (hang_up i c k).
Proof.
  intros Hk Hi. apply grows_from; try done. unfold hang_up. destruct (cn_session c) as [ss|] eqn:Es; [|done]. by eapply close_received.
Qed.

Lemma accept_grows i c ss m up w r hub' w' c' k : link_ok k -> lk_conns k !! i = Some c -> cn_session c = Some ss -> cn_up c = m :: up ->
  accept handlers edge_id m (lk_hub k) w = (r, (hub', w')) -> grows_to k (set_conn i c' (k <| lk_hub := hub' |>)).
Proof.
  intros Hk Hi Es Eu Ha. destruct (session_up k i c ss m up (ok_conns k Hk i c Hi) Es Eu) as [Hm Hn].
  destruct (hub_accepts k m w r hub' w' (ok_hub k Hk) (ok_received k Hk) Hm Hn Ha) as (_ & (rc & Hv & Hl%prefix_length & _) & _).
  split; try done. unfold received at 2, hub_view. cbn. rewrite Hv. cbn. lia.
Qed.

Lemma abort_grows i c ss m up w r hub' w' k : link_ok k -> lk_conns k !! i = Some c -> cn_session c = Some ss -> cn_up c = m :: up ->
  accept handlers edge_id m (lk_hub k) w = (r, (hub', w')) -> grows_to k (hang_up i c (k <| lk_hub := hub' |>)).
Proof.
  intros Hk Hi Es Eu Ha. destruct (decide (fits limit m.1)) as [Df|Df].
  - rewrite (abort_is_accept_and_hang_up i c up). etransitivity; [by eapply (accept_grows i c)|].
    apply hang_up_grows; [by eapply link_accept_ok|]. apply lookup_insert_eq.
  - destruct (session_up k i c ss m up (ok_conns k Hk i c Hi) Es Eu) as [Hm Hn].
    destruct (hub_accepts k m w r hub' w' (ok_hub k Hk) (ok_received k Hk) Hm Hn Ha) as (_ & _ & Hx & _).
    destruct (Hx Df) as [_ ->]. assert (k <| lk_hub := lk_hub k |> = k) as -> by (by destruct k). by apply hang_up_grows.
Qed.

Lemma calm_step_grows k k' : link_ok k -> calm_step k k' -> grows_to k k'.
Proof.
  intros Hk Hs. destruct Hs as [k|k Hc|i c e n up m ss hub' k Hi Es Eu Ho|i c e n up x hub' k Hi Es Eu Ho|i c ss o ss' hub' k Hi Es Hn
    |i c ss x k Hi Es Hn|i c ss m up w b hub' w' k Hi Es Eu Ha|i c ss m up w x hub' w' k Hi Es Eu Ha
    |i c k Hcur Hi Eb|i c m batch k Hcur Hi Eb|i c m down now e' k Hcur Hi Ed Hh].
  - by split.
  - split; try done. cbn. lia.
  - destruct (conn_hello k i c e n up (ok_conns k Hk i c Hi) Es Eu) as (-> & Hn & _).
    pose proof (open_ok i n k (ok_hub k Hk) (ok_stream k Hk)) as Hop. rewrite Ho, (so_last _ _ (ok_stream k Hk)) in Hop.
    pose proof (ok_cursor k Hk). destruct Hop as [_ Hop]; [lia|]. apply grows_from; try done.
    case_decide; [by destruct Hop|]. destruct Hop as (_ & _ & _ & Hr & _). exact Hr.
  - destruct (conn_hello k i c e n up (ok_conns k Hk i c Hi) Es Eu) as (-> & Hn & _).
    pose proof (open_ok i n k (ok_hub k Hk) (ok_stream k Hk)) as Hop. rewrite Ho, (so_last _ _ (ok_stream k Hk)) in Hop.
    pose proof (ok_cursor k Hk). destruct Hop as [_ Hop]; [lia|]. apply grows_from; try done. unfold hang_up. rewrite Es.
    case_decide; [|by destruct Hop]. destruct Hop as [_ Hv]. unfold received, hub_view. cbn. by rewrite Hv.
  - apply grows_from; try done. by eapply next_received.
  - by apply hang_up_grows.
  - by eapply accept_grows.
  - by eapply abort_grows.
  - by apply grows_from.
  - by apply grows_from.
  - apply handle_cloud_handled in Hh as [A1 A2 A3 A4]; [|apply Hk]. destruct (evolves_ok _ _ A2 (ok_spool _ (ok_node k Hk))) as [_ Hle].
    by destruct (edge_grows k e' Hle).
Qed.

Lemma link_step_grows k k' : link_ok k -> link_step k k' -> grows_to k k'.
Proof.
  intros Hk Hs. assert (forall e', evolves (ed_spool (lk_edge k)) (ed_spool e') -> spool_le (ed_spool (lk_edge k)) (ed_spool e')) as Hev.
  { intros e' He. by apply (evolves_ok _ _ He), Hk. }
  destruct Hs as [k k' Hs|b m hub' k Hb Hq|e' k He|now e' k He|i c k Hi|i c m down now x rs fr e1 e' k Hcur Hi Ed Hh Hr].
  - by apply calm_step_grows.
  - assert (received (k <| lk_hub := hub' |> <| lk_sent := lk_sent k ++ [Some b] |>) = received k) as Er.
    { unfold queue in Hq. case_decide; [done|]. pose proof (append_spec (lk_hub k) edge_id (Some b) (ok_hub k Hk)) as Ha.
      rewrite Hq in Ha. case_decide; [|done]. destruct Ha as [_ Ha]. by eapply advances_received. }
    split; rewrite ?Er; try done. by eexists.
  - apply local_progresses in He as []; [|apply Hk]. by apply edge_grows, Hev.
  - inversion He as [| |? ? ? ? ? Hr| | | | | | | | | | |]; subst. apply restart_progresses in Hr as [P1 P2 P3 P4]; [|apply Hk].
    by destruct (edge_grows k e' (Hev e' P2)).
  - by apply hang_up_grows.
  - apply handle_cloud_handled in Hh as [A1 A2 A3 A4]; [|apply Hk]. destruct (restart_progresses _ _ _ _ _ A1 Hr) as [B1 B2 B3 B4].
    by destruct (edge_grows k e' (Hev e' (transitivity A2 B2))).
Qed.
End Link.

(** ** The specification: two reliable first-in first-out channels *)

Record exchange := mkExchange {
  x_sent : list (option cloud_body); x_taken : list (option cloud_body);
  x_emitted : list (option edge_body); x_received : list (option edge_body);
}.
#[export] Instance exchange_eta : Eta exchange := fun x => mkExchange (x_sent x) (x_taken x) (x_emitted x) (x_received x).

(** What has been taken is what was sent, in order; the next message to be
    taken is the next one sent. *)
Inductive exchange_step : exchange -> exchange -> Prop :=
| XS_send b x : exchange_step x (x <| x_sent := x_sent x ++ [b] |>)
| XS_take b x : x_sent x !! length (x_taken x) = Some b -> exchange_step x (x <| x_taken := x_taken x ++ [b] |>)
| XS_emit b x : exchange_step x (x <| x_emitted := x_emitted x ++ [b] |>)
| XS_receive b x : x_emitted x !! length (x_received x) = Some b -> exchange_step x (x <| x_received := x_received x ++ [b] |>).

Lemma exchange_sends l x : rtc exchange_step x (x <| x_sent := x_sent x ++ l |>).
Proof.
  revert x. induction l as [|b l IH]; intros x; [rewrite app_nil_r; by destruct x|].
  eapply rtc_l; [by apply (XS_send b)|]. specialize (IH (x <| x_sent := x_sent x ++ [b] |>)). cbn in IH. by rewrite <- app_assoc in IH.
Qed.
Lemma exchange_emits l x : rtc exchange_step x (x <| x_emitted := x_emitted x ++ l |>).
Proof.
  revert x. induction l as [|b l IH]; intros x; [rewrite app_nil_r; by destruct x|].
  eapply rtc_l; [by apply (XS_emit b)|]. specialize (IH (x <| x_emitted := x_emitted x ++ [b] |>)). cbn in IH. by rewrite <- app_assoc in IH.
Qed.
Lemma exchange_takes l x : x_taken x ++ l `prefix_of` x_sent x -> rtc exchange_step x (x <| x_taken := x_taken x ++ l |>).
Proof.
  revert x. induction l as [|b l IH]; intros x [r Hp]; [rewrite app_nil_r; by destruct x|].
  rewrite <- app_assoc in Hp. cbn in Hp. eapply rtc_l; [apply (XS_take b); rewrite Hp; by apply list_lookup_middle|].
  specialize (IH (x <| x_taken := x_taken x ++ [b] |>)). cbn in IH. rewrite <- app_assoc in IH. apply IH.
  exists r. rewrite Hp. by rewrite <- app_assoc.
Qed.
Lemma exchange_receives l x : x_received x ++ l `prefix_of` x_emitted x -> rtc exchange_step x (x <| x_received := x_received x ++ l |>).
Proof.
  revert x. induction l as [|b l IH]; intros x [r Hp]; [rewrite app_nil_r; by destruct x|].
  rewrite <- app_assoc in Hp. cbn in Hp. eapply rtc_l; [apply (XS_receive b); rewrite Hp; by apply list_lookup_middle|].
  specialize (IH (x <| x_received := x_received x ++ [b] |>)). cbn in IH. rewrite <- app_assoc in IH. apply IH.
  exists r. rewrite Hp. by rewrite <- app_assoc.
Qed.

(** Histories that only grow, and stay prefixes of what was sent, are runs of
    the channels. *)
Lemma exchange_run x y :
  x_sent x `prefix_of` x_sent y -> x_taken x `prefix_of` x_taken y -> x_emitted x `prefix_of` x_emitted y ->
  x_received x `prefix_of` x_received y -> x_taken y `prefix_of` x_sent y -> x_received y `prefix_of` x_emitted y ->
  rtc exchange_step x y.
Proof.
  intros [l1 E1] [l2 E2] [l3 E3] [l4 E4] P1 P2. destruct x as [s t e r], y as [s' t' e' r']. cbn in *. subst.
  etransitivity; [apply (exchange_sends l1)|]. etransitivity; [apply (exchange_emits l3)|].
  etransitivity; [apply (exchange_takes l2); done|]. apply (exchange_receives l4). done.
Qed.

Section Properties.
Context {S W : Type} `{HubStoreSpec S} (cfg : config) (edge_id : string) (handlers : list (edge_handler W)).

Definition exchange_of (k : link) : exchange := mkExchange (lk_sent k) (lk_taken k) (emitted k) (received edge_id k).

Lemma taken_prefix (k k' : link) : link_ok edge_id k -> link_ok edge_id k' -> grows_to edge_id k k' -> lk_taken k `prefix_of` lk_taken k'.
Proof.
  intros Hk Hk' G. rewrite (ok_taken _ k Hk), (ok_taken _ k' Hk'). pose proof (ok_cursor _ k Hk) as Hc.
  destruct (gr_sent _ _ _ G) as [r ->]. pose proof (gr_cursor _ _ _ G) as Hle.
  replace (take (Z.to_nat (cursor k)) (lk_sent k)) with (take (Z.to_nat (cursor k)) (lk_sent k ++ r)) by (apply take_app_le; lia).
  replace (Z.to_nat (cursor k)) with (Z.to_nat (cursor k) `min` Z.to_nat (cursor k'))%nat by lia.
  rewrite <- take_take. apply prefix_take.
Qed.

Lemma received_prefix (k k' : link) : link_ok edge_id k -> link_ok edge_id k' -> grows_to edge_id k k' ->
  received edge_id k `prefix_of` received edge_id k'.
Proof.
  intros Hk Hk' G. pose proof (ok_received _ k Hk) as P1. pose proof (ok_received _ k' Hk') as P2.
  assert (received edge_id k `prefix_of` emitted k') as P3 by (etransitivity; [exact P1|apply G]).
  destruct (prefix_weak_total _ _ _ P3 P2) as [P|P]; [exact P|].
  pose proof (gr_received _ _ _ G) as Hl. apply prefix_length_eq in P; [by rewrite P|lia].
Qed.

(** C2. The control stream refines two reliable channels. From the first
    connection on, through any losses, reconnections, restarts, replays and
    stale connections, every step of the system is a run of the channels:
    what the edge consumes is what the cloud queued, each message once, in
    order and without a gap, and what the hub records of the edge is what the
    edge emitted, likewise. *)
Theorem link_refines_reliable_channels (k k' : link) (Hr : rtc (link_step cfg edge_id handlers) new_link k) (Hs : link_step cfg edge_id handlers k k') :
  rtc exchange_step (exchange_of k) (exchange_of k')
  /\ lk_taken k' `prefix_of` lk_sent k' /\ received edge_id k' `prefix_of` emitted k'.
Proof.
  pose proof (reachable_link_ok cfg edge_id handlers k Hr) as Hk. pose proof (link_step_ok cfg edge_id handlers k k' Hs Hk) as Hk'.
  pose proof (link_step_grows cfg edge_id handlers k k' Hk Hs) as G.
  assert (lk_taken k' `prefix_of` lk_sent k') as P1 by (rewrite (ok_taken _ k' Hk'); apply prefix_take).
  pose proof (ok_received _ k' Hk') as P2. split; [|by split].
  apply exchange_run; cbn; [apply G|by apply taken_prefix|apply G|by apply received_prefix|done|done].
Qed.

(** C36. No protocol error can happen: the hub never refuses the hello of the
    current connection, and its generator never raises; accepting a message
    of the edge never meets a gap or a reused sequence: unless its number is
    one the store cannot hold (2^63 in SQLite), the only error that ends a
    stream is a registered handler's own, raised over a message that is new
    and recorded by then, so that no later connection meets it again; and what
    the edge handles is the hello, which it accepts, or exactly the message
    after its cursor: its errors are never about the order of the stream. *)
Theorem no_protocol_error (k : link) (Hr : rtc (link_step cfg edge_id handlers) new_link k) :
  (forall i c e n up x hub', lk_current k = Some i -> lk_conns k !! i = Some c -> cn_session c = None ->
     cn_up c = (0, Some (EB_hello e n)) :: up -> open e i n (lk_hub k) <> (Err x, hub'))
  /\ (forall i c ss x, lk_current k = Some i -> lk_conns k !! i = Some c -> cn_session c = Some ss ->
        open_next ss (lk_hub k) <> Err x)
  /\ (forall i c ss m up w x hub' w', lk_conns k !! i = Some c -> cn_session c = Some ss -> cn_up c = m :: up ->
        accept handlers edge_id m (lk_hub k) w = (Err x, (hub', w')) -> fits limit m.1 ->
        run_handlers handlers edge_id m w = (Err x, w') /\ v_received (view hub' edge_id) = received edge_id k ++ [m.2])
  /\ (forall i c m down now, lk_current k = Some i -> lk_conns k !! i = Some c -> cn_down c = m :: down ->
        if is_hello m then is_ok (handle_cloud cfg now m (lk_edge k)).1 = true else m.1 = cursor k + 1).
Proof.
  pose proof (reachable_link_ok cfg edge_id handlers k Hr) as Hk. split; [|split; [|split]].
  - intros i c e n up x hub' Hcur Hi Es Eu Ho. pose proof (current_hello edge_id k i c e n up Hk Hcur Hi Es Eu) as ->.
    destruct (refuse_ok edge_id i c e _ up x hub' k Hk Hi Es Eu Ho) as [_ Hlt]. pose proof (ok_watermark _ k Hk). lia.
  - intros i c ss x Hcur Hi Es Hx. destruct (current_session edge_id k i c ss (ok_current _ k Hk i c Hcur Hi) Es) as ((Hc & _) & _).
    destruct (co_session _ _ _ _ (ok_conns _ k Hk i c Hi) ss Es) as (E1 & _). unfold open_next in Hx.
    destruct (ss_replay ss) as [[|m rest]|]; [|done|].
    + destruct (queue_get _ _ _) as [[m s]|]; [by case_decide|done].
    + rewrite (replay_spec (lk_hub k) _ (ss_cursor ss) (ok_hub _ k Hk)) in Hx. rewrite decide_True in Hx; [done|].
      apply (fits_le _ (v_last_cloud (hub_view edge_id k))); [rewrite (so_last _ _ (ok_stream _ k Hk)); lia|]. apply last_cloud_fits, Hk.
  - intros i c ss m up w x hub' w' Hi Es Eu Ha Hfit. destruct (session_up edge_id k i c ss m up (ok_conns _ k Hk i c Hi) Es Eu) as [Hm Hn].
    destruct (hub_accepts edge_id handlers k m w _ hub' w' (ok_hub _ k Hk) (ok_received _ k Hk) Hm Hn Ha) as (_ & _ & _ & Hx). by apply Hx.
  - intros i c m down now Hcur Hi Ed. destruct (current_head edge_id k i c m down Hk Hcur Hi Ed) as [(n & -> & Hn)|(_ & Hh & Em)].
    + cbn. destruct (handle_cloud cfg now (0, Some (CB_hello n)) (lk_edge k)) as [r e'] eqn:E. cbn in E |- *. rewrite E.
      by destruct (hello_accepted cfg edge_id k n now r e' Hk Hn E) as [-> _].
    + by rewrite Hh.
Qed.
End Properties.

(** ** Delivery: a session that is left alone *)

Section Delivery.
Context {S W : Type} `{HubStoreSpec S} (cfg : config) (edge_id : string) (handlers : list (edge_handler W)).

(** The link left to itself. *)
Definition quiet : @link S -> @link S -> Prop := rtc (calm_step cfg edge_id handlers).
#[local] Instance quiet_preorder : PreOrder quiet.
Proof. unfold quiet. apply _. Qed.
Lemma quiet_step k k' : calm_step cfg edge_id handlers k k' -> quiet k k'.
Proof. apply rtc_once. Qed.
Lemma quiet_ok k k' : quiet k k' -> link_ok edge_id k -> link_ok edge_id k'.
Proof. induction 1; eauto using calm_step_ok. Qed.
Lemma calm_grows k k' : quiet k k' -> link_ok edge_id k -> grows_to edge_id k k'.
Proof.
  induction 1 as [|k1 k2 k3 Hs _ IH]; intros Hk; [reflexivity|]. pose proof (calm_step_ok _ _ _ _ _ Hs Hk) as Hk2.
  etransitivity; [by eapply calm_step_grows|by apply IH].
Qed.
Lemma quiet_sent k k' : quiet k k' -> lk_sent k' = lk_sent k.
Proof. induction 1 as [|k1 k2 k3 Hs _ IH]; [done|]. rewrite IH. by destruct Hs. Qed.

(** A body whose handler returns, whatever the state of the edge. *)
Definition digestible (b : option cloud_body) : Prop :=
  is_hello (0, b) = false /\
  forall e, node_ok (ed_node e) ->
    exists now e', handle_cloud cfg now (sp_last_cloud (ed_spool e) + 1, b) e = (Ok tt, e').

Lemma start_digestible c : digestible (Some (CB_start c)).
Proof.
  split; [done|]. intros e Hn. destruct (handle_start (sp_last_cloud (ed_spool e) + 1) c 0 e) as [r e'] eqn:E.
  destruct (handle_start_consumed _ _ _ _ _ _ eq_refl Hn E) as (_ & -> & _). exists 0, e'. cbn.
  rewrite decide_False, decide_False by lia. exact E.
Qed.
Lemma cancel_digestible id : digestible (Some (CB_cancel id)).
Proof.
  split; [done|]. intros e Hn. destruct (handle_cancel (sp_last_cloud (ed_spool e) + 1) id e) as [r e'] eqn:E.
  destruct (handle_cancel_consumed _ _ _ _ _ eq_refl Hn E) as (_ & -> & _). exists 0, e'. cbn.
  rewrite decide_False, decide_False by lia. exact E.
Qed.

(** The current connection, where it is at. *)
Record at_conn (k : @link S) (i : nat) (c : conn) : Prop := mkAtConn { at_current : lk_current k = Some i; at_here : lk_conns k !! i = Some c }.

(** The edge reads everything in flight to it. *)
Lemma drain_down l : forall k i c ss, link_ok edge_id k -> at_conn k i c -> cn_session c = Some ss -> cn_down c = l ->
  Forall digestible (drop (Z.to_nat (cursor k)) (lk_sent k)) ->
  exists k', quiet k k' /\ at_conn k' i (c <| cn_down := [] |>) /\ cursor k' = cursor k + Z.of_nat (length (numbers l))
    /\ lk_hub k' = lk_hub k.
Proof.
  induction l as [|m l IH]; intros k i c ss Hk [Hcur Hi] Es Ed Hd.
  { exists k. split; [done|]. split; [split; [done|]; by destruct c; cbn in *; subst|]. split; [cbn; lia|done]. }
  assert (exists now e', handle_cloud cfg now m (lk_edge k) = (Ok tt, e')) as (now & e' & Hm).
  { destruct (current_head edge_id k i c m l Hk Hcur Hi Ed) as [(n & -> & Hn)|(Hf & Hh & Em)].
    - exists 0. destruct (handle_cloud cfg 0 (0, Some (CB_hello n)) (lk_edge k)) as [r e'] eqn:E. exists e'.
      by destruct (hello_accepted cfg edge_id k n 0 r e' Hk Hn E) as [-> _].
    - assert (digestible m.2) as [_ Hdig].
      { rewrite Forall_forall in Hd. apply Hd. apply list_elem_of_lookup. exists 0%nat. rewrite lookup_drop.
        destruct Hf as [_ Hf]. replace (Z.to_nat (cursor k) + 0)%nat with (Z.to_nat (m.1 - 1)) by lia. done. }
      destruct (Hdig (lk_edge k) (ok_node _ k Hk)) as (now & e' & E). exists now, e'. rewrite <- E. f_equal.
      destruct m as [n b]. cbn in Em |- *. by rewrite Em. }
  pose proof (CS_handle cfg edge_id handlers i c m l now e' k Hcur Hi Ed Hm) as Hs. set (k1 := set_conn _ _ _) in Hs.
  pose proof (calm_step_ok cfg edge_id handlers _ _ Hs Hk) as Hk1.
  assert (cursor k1 = cursor k + Z.of_nat (length (numbers [m]))) as Ec.
  { apply handle_cloud_handled in Hm as [_ _ A3 _]; [|apply Hk]. change (cursor k1) with (sp_last_cloud (ed_spool e')). rewrite A3. cbn [is_ok andb].
    pose proof (cursor_nonneg edge_id k Hk) as Hc0. change (sp_last_cloud (ed_spool (lk_edge k))) with (cursor k).
    destruct (current_head edge_id k i c m l Hk Hcur Hi Ed) as [(n & -> & Hn)|(Hf & Hh & Em)].
    - rewrite bool_decide_false by (clear -Hc0; cbn [fst]; lia). change (cursor k = cursor k + 0). lia.
    - rewrite bool_decide_true by done. assert (numbers [m] = [m]) as -> by (unfold numbers; by rewrite filter_cons, decide_True). exact Em. }
  destruct (IH k1 i (c <| cn_down := l |>) ss Hk1) as (k' & Hq & Hat & Hcur' & Hhub); [split; [done|apply lookup_insert_eq]|done|done| |].
  { rewrite Ec. change (lk_sent k1) with (lk_sent k). pose proof (cursor_nonneg edge_id k Hk) as Hc0.
    replace (Z.to_nat (cursor k + Z.of_nat (length (numbers [m])))) with (Z.to_nat (cursor k) + length (numbers [m]))%nat by lia.
    rewrite <- drop_drop. by apply Forall_drop. }
  exists k'. split; [etransitivity; [by apply quiet_step|done]|]. split; [exact Hat|]. split; [|done].
  rewrite Hcur', Ec. change (m :: l) with ([m] ++ l). unfold numbers. rewrite filter_app, length_app. lia.
Qed.

(** The edge sends what it has read and the hub records it, all of it unless a
    handler raises over a message that is new to the hub. *)
Lemma drain_batch (w : W) l : forall k i c ss, link_ok edge_id k -> at_conn k i c -> cn_session c = Some ss -> cn_up c = [] -> cn_batch c = l ->
  exists k', quiet k k' /\ lk_edge k' = lk_edge k
    /\ (~ Forall (fun m : EdgeToCloud => fits limit m.1) l \/ highest (Z.of_nat (length (received edge_id k))) l.*1 <= Z.of_nat (length (received edge_id k'))
         \/ (length (received edge_id k) < length (received edge_id k'))%nat).
Proof.
  induction l as [|m l IH]; intros k i c ss Hk [Hcur Hi] Es Eu Eb; [exists k; split; [done|]; split; [done|by right; left]|].
  pose proof (CS_send cfg edge_id handlers i c m l k Hcur Hi Eb) as Hs. set (c1 := c <| cn_batch := _ |> <| cn_up := _ |> <| cn_last_sent := _ |>) in Hs.
  set (k1 := set_conn i c1 k) in Hs. pose proof (calm_step_ok cfg edge_id handlers _ _ Hs Hk) as Hk1.
  assert (lk_conns k1 !! i = Some c1) as Hi1 by apply lookup_insert_eq.
  assert (cn_up c1 = [m]) as Eu1 by (cbn; by rewrite Eu).
  destruct (session_up edge_id k1 i c1 ss m [] (ok_conns _ k1 Hk1 i c1 Hi1) Es Eu1) as [Hm Hn].
  destruct (accept handlers edge_id m (lk_hub k1) w) as [r [hub' w']] eqn:Ha.
  destruct (hub_accepts edge_id handlers k1 m w r hub' w' (ok_hub _ k1 Hk1) (ok_received _ k1 Hk1) Hm Hn Ha) as (_ & (rc & Hv & _ & _ & Hl) & _ & Hx).
  destruct (decide (fits limit m.1)) as [Df|Df].
  2: { exists k1. split; [by apply quiet_step|]. split; [done|]. left. by intros [? _]%Forall_cons. }
  specialize (Hl Df). assert (forall k', lk_hub k' = hub' -> Z.of_nat (length (received edge_id k')) = Z.max (Z.of_nat (length (received edge_id k))) m.1) as Hrc.
  { intros k' E. unfold received at 1, hub_view. rewrite E, Hv. exact Hl. }
  destruct r as [b|x].
  - pose proof (CS_accept cfg edge_id handlers i c1 ss m [] w b hub' w' k1 Hi1 Es Eu1 Ha) as Hs2. set (k2 := set_conn _ _ _) in Hs2.
    pose proof (calm_step_ok cfg edge_id handlers _ _ Hs2 Hk1) as Hk2.
    destruct (IH k2 i (c1 <| cn_up := [] |>) ss Hk2) as (k' & Hq & He & Hle); [split; [done|apply lookup_insert_eq]|done|done|done|].
    rewrite (Hrc k2 eq_refl) in Hle. exists k'. split; [|split; [by rewrite He|]].
    + etransitivity; [by apply quiet_step|]. etransitivity; [by apply quiet_step|done].
    + destruct Hle as [Hle|[Hle|Hle]]; [left; intros [_ ?]%Forall_cons; done|by right; left|right; right]. pose proof (Hrc k2 eq_refl). lia.
  - pose proof (CS_abort cfg edge_id handlers i c1 ss m [] w x hub' w' k1 Hi1 Es Eu1 Ha) as Hs2. eexists.
    split; [etransitivity; [by apply quiet_step|by apply quiet_step]|]. split; [done|]. right; right.
    pose proof (calm_step_ok cfg edge_id handlers _ _ Hs2 Hk1) as Hk2. destruct (Hx x eq_refl Df) as [_ Ev].
    rewrite (abort_is_accept_and_hang_up i c1 []) in Hs2, Hk2 |- *. set (k2 := set_conn i _ _).
    assert (link_ok edge_id k2) as Hk2' by (by eapply link_accept_ok).
    pose proof (hang_up_grows edge_id i (c1 <| cn_up := [] |>) k2 Hk2' (lookup_insert_eq _ _ _)) as [_ _ _ _ G].
    assert (received edge_id k2 = received edge_id k ++ [m.2]) as Er by exact Ev. rewrite Er, length_app in G. cbn [length] in G. lia.
Qed.

(** The generator yields its whole replay. *)
Lemma drain_replay l : forall k i c n, link_ok edge_id k -> at_conn k i c -> cn_session c = Some (mkSession edge_id i n (Some l)) ->
  exists k', quiet k k' /\ lk_edge k' = lk_edge k
    /\ at_conn k' i (c <| cn_session := Some (mkSession edge_id i (n + Z.of_nat (length l)) (Some [])) |> <| cn_down := cn_down c ++ l |>).
Proof.
  induction l as [|m l IH]; intros k i c n Hk [Hcur Hi] Es.
  { exists k. split; [done|]. split; [done|]. split; [done|]. rewrite app_nil_r. cbn. rewrite Z.add_0_r. by destruct c; cbn in *; subst. }
  destruct (current_session edge_id k i c _ (ok_current _ k Hk i c Hcur Hi) Es) as ((_ & Hc & _) & _ & _).
  cbn in Hc. apply contig_cons in Hc as [Em _].
  pose proof (CS_next cfg edge_id handlers i c _ (Some m) (mkSession edge_id i m.1 (Some l)) (lk_hub k) k Hi Es eq_refl) as Hs.
  set (k1 := set_conn _ _ _) in Hs. pose proof (calm_step_ok cfg edge_id handlers _ _ Hs Hk) as Hk1.
  set (c1 := c <| cn_session := _ |> <| cn_down := _ |>) in k1.
  destruct (IH k1 i c1 m.1 Hk1) as (k' & Hq & He & Hat); [split; [done|apply lookup_insert_eq]|done|].
  exists k'. split; [etransitivity; [by apply quiet_step|done]|]. split; [done|].
  replace (n + Z.of_nat (length (m :: l))) with (m.1 + Z.of_nat (length l)) by (cbn [length]; lia).
  replace (cn_down c ++ m :: l) with (cn_down c1 ++ l) by (cbn; by rewrite <- app_assoc). exact Hat.
Qed.

(** Connecting again, up to the replay the hub's generator has read. *)
Lemma reconnect k : link_ok edge_id k -> exists k' i c n r, quiet k k' /\ lk_edge k' = lk_edge k /\ at_conn k' i c
  /\ cn_session c = Some (mkSession edge_id i n (Some r)) /\ cn_up c = [] /\ cn_batch c = [] /\ cn_last_sent c = 0
  /\ n + Z.of_nat (length r) = Z.of_nat (length (lk_sent k)).
Proof.
  intros Hk. pose proof (CS_give_up cfg edge_id handlers k) as S0. pose proof (calm_step_ok _ _ _ _ _ S0 Hk) as Hk0.
  set (k0 := k <| lk_current := None |>) in *. pose proof (CS_connect cfg edge_id handlers k0 eq_refl) as S1.
  pose proof (calm_step_ok _ _ _ _ _ S1 Hk0) as Hk1. set (k1 := _ <| lk_next := _ |>) in S1, Hk1.
  set (i := lk_next k0) in *. set (c1 := mkConn _ _ _ _ _) in k1.
  assert (lk_conns k1 !! i = Some c1) as Hi1 by apply lookup_insert_eq.
  pose proof (open_ok edge_id i (cursor k0) k1 (ok_hub _ _ Hk1) (ok_stream _ _ Hk1)) as Ho.
  rewrite (so_last _ _ (ok_stream _ _ Hk1)) in Ho. pose proof (ok_cursor _ _ Hk1) as Hc. pose proof (cursor_nonneg _ _ Hk1) as Hc0.
  pose proof (ok_watermark _ _ Hk1) as Hw. change (cursor k1) with (cursor k0) in *. specialize (Ho ltac:(lia)).
  destruct (open edge_id i (cursor k0) (lk_hub k1)) as [r hub2] eqn:Eo. destruct Ho as [_ Ho]. rewrite decide_False in Ho by lia.
  destruct Ho as [-> _]. pose proof (CS_open cfg edge_id handlers i c1 edge_id (cursor k0) [] _ _ hub2 k1 Hi1 eq_refl eq_refl Eo) as S2.
  pose proof (calm_step_ok _ _ _ _ _ S2 Hk1) as Hk2. set (k2 := set_conn _ _ _) in S2, Hk2.
  set (c2 := c1 <| cn_up := _ |> <| cn_session := _ |> <| cn_down := _ |>) in k2.
  assert (lk_conns k2 !! i = Some c2) as Hi2 by apply lookup_insert_eq.
  assert (open_next (mkSession edge_id i (cursor k0) None) (lk_hub k2)
            = Ok (None, mkSession edge_id i (cursor k0) (Some (spec_replay (cursor k0) (hub_view edge_id k2))), lk_hub k2)) as En.
  { unfold open_next. cbn [ss_replay ss_edge_id ss_cursor ss_queue]. rewrite (replay_spec (lk_hub k2) edge_id (cursor k0) (ok_hub _ _ Hk2)).
    rewrite decide_True; [done|]. apply (fits_le _ (v_last_cloud (hub_view edge_id k2))); [|apply last_cloud_fits, Hk2].
    rewrite (so_last _ _ (ok_stream _ _ Hk2)). exact Hc. }
  pose proof (CS_next cfg edge_id handlers i c2 _ None _ _ k2 Hi2 eq_refl En) as S3. set (k3 := set_conn _ _ _) in S3.
  eexists k3, i, _, (cursor k0), _. split; [|split; [done|]].
  - etransitivity; [by apply quiet_step|]. etransitivity; [by apply quiet_step|]. etransitivity; by apply quiet_step.
  - split; [split; [done|apply lookup_insert_eq]|]. do 4 (split; [done|]).
    pose proof (ok_stream _ _ Hk2) as Hst. pose proof (so_last _ _ Hst) as Hlast. pose proof (ok_watermark _ _ Hk2) as Hwm.
    pose proof (ok_cursor _ _ Hk2) as Hc2. change (cursor k2) with (cursor k0) in *.
    destruct (filter_pending _ _ (cursor k0) Hst ltac:(lia)) as (_ & P2 & _). unfold spec_replay.
    change (lk_sent k2) with (lk_sent k) in Hlast. lia.
Qed.

(** One reconnection after the other, as often as handlers end the stream, the
    hub records all that the edge has emitted. *)
Lemma deliver_up (w : W) n : forall k, link_ok edge_id k -> (length (emitted k) - length (received edge_id k) <= n)%nat ->
  fits limit (Z.of_nat (length (emitted k))) -> exists k', quiet k k' /\ lk_edge k' = lk_edge k /\ received edge_id k' = emitted k'.
Proof.
  induction n as [|n IH]; intros k Hk Hle Hfit.
  { exists k. split; [done|]. split; [done|]. apply prefix_length_eq; [apply Hk|lia]. }
  destruct (reconnect k Hk) as (k1 & i & c1 & a & r & Q1 & E1 & [A1c A1i] & Es & Eu & Eb & El & _).
  pose proof (quiet_ok _ _ Q1 Hk) as Hk1.
  pose proof (CS_read cfg edge_id handlers i c1 k1 A1c A1i Eb) as S2. set (k2 := set_conn _ _ _) in S2. set (c2 := c1 <| cn_batch := _ |>) in k2.
  pose proof (calm_step_ok _ _ _ _ _ S2 Hk1) as Hk2.
  destruct (drain_batch w (cn_batch c2) k2 i c2 (mkSession edge_id i a (Some r)) Hk2) as (k3 & Q3 & E3 & Hh); [split; [done|apply lookup_insert_eq]|exact Es|exact Eu|done|].
  pose proof (quiet_ok _ _ Q3 Hk2) as Hk3. assert (lk_edge k3 = lk_edge k) as Ek by (by rewrite E3, <- E1).
  assert (quiet k k3) as Q by (etransitivity; [exact Q1|etransitivity; [by apply quiet_step|exact Q3]]).
  assert (emitted k3 = emitted k) as Ee by (unfold emitted; by rewrite Ek).
  assert (length (received edge_id k) <= length (received edge_id k2))%nat as Hmono.
  { pose proof (calm_grows _ _ Q1 Hk) as [_ _ _ _ G]. change (received edge_id k2) with (received edge_id k1). lia. }
  destruct Hh as [Hh|[Hh|Hh]].
  - destruct Hh. pose proof (co_batch _ _ _ _ (ok_conns _ k2 Hk2 i c2 (lookup_insert_eq _ _ _))) as Hb.
    eapply Forall_impl; [exact Hb|]. intros m [Hm _]. apply from_log_le in Hm. eapply fits_le; [|exact Hfit].
    change (emitted k2) with (emitted k1) in Hm. unfold emitted in Hm. rewrite E1 in Hm. apply Hm.
  - exists k3. split; [done|]. split; [done|]. apply prefix_length_eq; [apply Hk3|]. rewrite Ee.
    pose proof (emitted_length _ k Hk) as Hel.
    destruct (replay_tail (ed_spool (lk_edge k1)) 0 (ok_spool _ (ok_node _ k1 Hk1))) as [Hseq _].
    assert ((cn_batch c2).*1 = (replay_edge_messages 0 (ed_spool (lk_edge k1))).*1) as Eb2.
    { cbn. rewrite El, <- list_fmap_compose. done. }
    rewrite Eb2, Hseq, E1 in Hh. set (from := Z.max 0 (Z.max 0 (sp_last_edge_acked (ed_spool (lk_edge k))))) in Hh.
    set (last := sp_last_edge (ed_spool (lk_edge k))) in *.
    pose proof (highest_ge (Z.of_nat (length (received edge_id k2))) (seqZ (from + 1) (last - from))) as Hge.
    pose proof (ok_acked_ _ k Hk) as Hack.
    destruct (decide (from < last)) as [D|D]; [|lia].
    pose proof (highest_elem (Z.of_nat (length (received edge_id k2))) (seqZ (from + 1) (last - from)) last ltac:(apply elem_of_seqZ; lia)). lia.
  - destruct (IH k3 Hk3) as (k4 & Q4 & E4 & Hr); [rewrite Ee; lia|by rewrite Ee|].
    exists k4. split; [by etransitivity|]. split; [by rewrite E4|done].
Qed.

End Delivery.


(** ** A hub that lost its database *)

(** The SQLite store adopts the cloud position of an edge it has never seen,
    but not the position of the edge's own messages: when the edge has had any
    of them acknowledged, every message it replays or emits from then on is
    refused as a gap, and the hub can never record another one. *)
Theorem rebuilt_hub_refuses_the_edge edge_id s hub
    (Hs : spool_ok s) (Hacked : 1 <= sp_last_edge_acked s)
    (Ha : Sqlite.acknowledge_cloud edge_id (sp_last_cloud s) Sqlite.new_store = Ok (tt, hub)) :
  forall after n b, (n, b) ∈ replay_edge_messages after s ->
    Sqlite.record_edge edge_id (n, Some b) hub = Err (if decide (n > Sqlite.max_integer) then HubOverflowError else edge_gap 1 n).
Proof.
  intros after n b Hin. destruct (replay_tail s after Hs) as [_ Hr]. apply Hr in Hin as (r & _ & _ & _ & Hn).
  assert (Sqlite.st_edge hub = ∅ /\ Sqlite.sr_last_edge (Sqlite.state_of edge_id hub) = 0) as [E1 E2].
  { unfold Sqlite.acknowledge_cloud in Ha. repeat case_decide; simplify_eq; split; try done;
      change (Sqlite.sr_last_edge (default (Sqlite.mkStateRow 0 0 0) (<[edge_id := ?x]> (∅ : gmap string Sqlite.state_row) !! edge_id)) = 0) || idtac;
      unfold Sqlite.state_of; cbn; by rewrite lookup_insert_eq. }
  unfold Sqlite.record_edge. cbn [fst snd]. rewrite decide_False by lia. destruct (decide (n > Sqlite.max_integer)); [done|].
  rewrite E1, E2, lookup_empty, decide_True by lia. done.
Qed.

Lemma rebuilt_hub_refuses_the_edge_witness :
  exists hub, Sqlite.acknowledge_cloud "edge" 0 Sqlite.new_store = Ok (tt, hub)
    /\ Sqlite.record_edge "edge" (2, Some (EB_other "heartbeat" "b")) hub = Err (edge_gap 1 2).
Proof.
  eexists. split; [reflexivity|].
  refine (rebuilt_hub_refuses_the_edge "edge"
    (reachable_spool [OpEnqueue (Some (EB_other "heartbeat" "a")) 20; OpAcknowledge 1; OpEnqueue (Some (EB_other "heartbeat" "b")) 20])
    _ (reachable_spool_ok _) _ _ 0 2 _ _); [vm_compute; discriminate|reflexivity|by left].
Defined.

(** ** A concrete run on the in-memory store *)

Definition demo_link : link (S := Memory.store) := new_link.
Definition queued_link : link :=
  demo_link <| lk_hub := (Memory.append_cloud "edge" (Some (CB_cancel "c-1")) (lk_hub demo_link)).2 |>
            <| lk_sent := [Some (CB_cancel "c-1")] |>.

(** A registered handler that always raises. *)
Definition raising : list (edge_handler ()) := [fun _ _ w => (Err (SessionError "relay has gone"), w)].

Lemma queued_step : link_step no_debug "edge" raising demo_link queued_link.
Proof. by apply (LS_queue no_debug "edge" raising (CB_cancel "c-1") (1, Some (CB_cancel "c-1"))). Qed.
Lemma queued_reachable : rtc (link_step no_debug "edge" raising) demo_link queued_link.
Proof. apply rtc_once, queued_step. Qed.

Lemma link_refines_reliable_channels_witness :
  rtc exchange_step (exchange_of "edge" demo_link) (exchange_of "edge" queued_link).
Proof. apply (link_refines_reliable_channels no_debug "edge" raising demo_link queued_link); [constructor|exact queued_step]. Defined.

(** The edge emits a heartbeat and connects; the message is on its way to a hub
    whose handler raises. *)
Lemma heartbeat_on_its_way : exists k i c ss m hub', rtc (link_step no_debug "edge" raising) demo_link k
  /\ lk_conns k !! i = Some c /\ cn_session c = Some ss /\ cn_up c = [m]
  /\ accept raising "edge" m (lk_hub k) () = (Err (SessionError "relay has gone"), (hub', ()))
  /\ received "edge" k = [] /\ emitted k = [m.2].
Proof.
  eexists _, 0%nat, _, _, _, _. split.
  { eapply rtc_l; [apply LS_local; by apply (ES_emit _ (EB_other "heartbeat" "a") 0)|].
    eapply rtc_l; [apply LS_calm, CS_connect; reflexivity|].
    eapply rtc_l; [apply LS_calm; eapply (CS_open _ _ _ 0); reflexivity|].
    eapply rtc_l; [apply LS_calm; eapply (CS_read _ _ _ 0); reflexivity|].
    eapply rtc_l; [apply LS_calm; eapply (CS_send _ _ _ 0); reflexivity|].
    apply rtc_refl. }
  repeat split; reflexivity.
Qed.

Lemma no_protocol_error_witness : exists k i c ss m hub', rtc (link_step no_debug "edge" raising) demo_link k
  /\ lk_conns k !! i = Some c /\ cn_session c = Some ss /\ cn_up c = [m]
  /\ accept raising "edge" m (lk_hub k) () = (Err (SessionError "relay has gone"), (hub', ()))
  /\ v_received (view hub' "edge") = [m.2].
Proof.
  destruct heartbeat_on_its_way as (k & i & c & ss & m & hub' & Hr & Hi & Es & Eu & Ha & Er & _). exists k, i, c, ss, m, hub'.
  destruct (no_protocol_error no_debug "edge" raising k Hr) as (_ & _ & Hacc & _). repeat (split; [done|]).
  destruct (Hacc i c ss m [] () _ hub' () Hi Es Eu Ha I) as [_ ->]. by rewrite Er.
Defined.

