(* ===== verification/DebugDelivery.v ===== *)
(** * Debug grants at the edge hub: debug_delivery.py, sqlite_debug_store.py, relay.py

    [DebugGrantDelivery] turns events of the control service into messages for
    an edge and keeps a record per session, in memory or in SQLite:
    [DeliveryStore] is the protocol class, both stores are instances. [RelayRouter] hands frames of in-process browser handles to an
    edge. A coroutine is an [act]: a function that raises returns the state it
    leaves. The locks are never contended between two awaits that suspend, so
    a coroutine of this file is atomic. [in_history] is a history the code
    does not keep; [in_now] is the wall clock.

    [py_repr] is [str] of a float, list or dict and [fromisoformat] is
    [datetime.fromisoformat] read as an instant, a naive time as UTC; instants
    are microseconds. *)

From stdpp Require Import base gmap strings list.
From Stdlib Require Import ZArith QArith_base Qreduction Lia Ascii.
From S2P Require Import Prelude PyStd Rows PyJson EdgeMessages EdgeHub.

Open Scope Z_scope.

(** ** Coroutines that run to their end *)

Definition act (W A : Type) : Type := W -> result hub_error A * W.

Section Act.
Context {W : Type}.
Definition ret {A} (a : A) : act W A := fun w => (Ok a, w).
Definition raise {A} (e : hub_error) : act W A := fun w => (Err e, w).
Definition bind {A B} (m : act W A) (k : A -> act W B) : act W B :=
  fun w => match m w with (Ok a, w) => k a w | (Err e, w) => (Err e, w) end.
Definition reads {A} (f : W -> A) : act W A := fun w => (Ok (f w), w).
Definition writes (f : W -> W) : act W () := fun w => (Ok tt, f w).
Definition of_result {A} (r : result hub_error A) : act W A := fun w => (r, w).

(** [except (KeyError, TypeError, ValueError) as exc: raise e from exc]. *)
Definition is_value_error (e : hub_error) : bool :=
  match e with SessionError _ | DebugRelayError _ | HubValueError _ => true | _ => false end.
Definition value_errors_as {A} (e : hub_error) (m : act W A) : act W A :=
  fun w => match m w with
           | (Err x, w) => (Err (if is_value_error x then e else x), w)
           | r => r
           end.

(** A coroutine that works on a part of the state. *)
Definition on_part {V A} (get : W -> V) (set : V -> W -> W) (m : act V A) : act W A :=
  fun w => let '(r, v) := m (get w) in (r, set v w).
End Act.

Declare Scope act_scope.
Delimit Scope act_scope with act.
Notation "x <-- m ;; k" := (bind m (fun x => k)) (at level 100, m at next level, right associativity) : act_scope.
Notation "m ;;; k" := (bind m (fun _ => k)) (at level 100, right associativity) : act_scope.
Notation "'fail_if' c 'with' e ;; k" := (if decide c then raise e else k)
  (at level 100, c at level 99, e at level 99, k at level 200) : act_scope.
Open Scope act_scope.

Lemma bind_reads {W A B} (f : W -> A) (k : A -> act W B) w : bind (reads f) k w = k (f w) w.
Proof. done. Qed.
Lemma bind_writes {W B} (f : W -> W) (k : () -> act W B) w : bind (writes f) k w = k tt (f w).
Proof. done. Qed.
Lemma bind_ok {W A B} (m : act W A) (k : A -> act W B) w a w' : m w = (Ok a, w') -> bind m k w = k a w'.
Proof. unfold bind. by intros ->. Qed.
Lemma bind_err {W A B} (m : act W A) (k : A -> act W B) w e w' : m w = (Err e, w') -> bind m k w = (Err e, w').
Proof. unfold bind. by intros ->. Qed.
Lemma bind_of_result {W A B} (r : result hub_error A) (k : A -> act W B) w :
  bind (of_result r) k w = match r with Ok a => k a w | Err e => (Err e, w) end.
Proof. by destruct r. Qed.

(** A coroutine keeps [P], whatever it returns or raises. *)
Definition keeps {W A} (P : W -> Prop) (m : act W A) : Prop := forall w, P w -> P (m w).2.

Section Keeps.
Context {W : Type} (P : W -> Prop).
Lemma keeps_ret {A} (a : A) : keeps P (ret a).
Proof. by intros w Hw. Qed.
Lemma keeps_raise {A} e : keeps (A := A) P (raise e).
Proof. by intros w Hw. Qed.
Lemma keeps_reads {A} (f : W -> A) : keeps P (reads f).
Proof. by intros w Hw. Qed.
Lemma keeps_of_result {A} (r : result hub_error A) : keeps P (of_result r).
Proof. by intros w Hw. Qed.
Lemma keeps_bind {A B} (m : act W A) (k : A -> act W B) : keeps P m -> (forall a, keeps P (k a)) -> keeps P (bind m k).
Proof. intros Hm Hk w Hw. unfold bind. specialize (Hm w Hw). destruct (m w) as [[a|e] w']; [by apply Hk|done]. Qed.
Lemma keeps_fail_if {A} (c : Prop) `{Decision c} e (k : act W A) : keeps P k -> keeps P (if decide c then raise e else k).
Proof. intros Hk. case_decide; [apply keeps_raise|done]. Qed.
Lemma keeps_value_errors {A} e (m : act W A) : keeps P m -> keeps P (value_errors_as e m).
Proof. intros Hm w Hw. specialize (Hm w Hw). unfold value_errors_as. by destruct (m w) as [[a|x] w']. Qed.
End Keeps.
Create HintDb act.
#[export] Hint Resolve keeps_ret keeps_raise keeps_reads keeps_of_result : act.
Ltac act_keeps := repeat first
  [ solve [auto with act] | apply keeps_bind; [|intros ?] | apply keeps_fail_if | apply keeps_value_errors | case_match ].

(** ** Records and their stores *)

Record DebugDeliveryRecord := mkDelivery {
  dd_session_id : string;
  dd_edge_id : string;
  dd_device_id : string;
  dd_capabilities : list string;
  dd_expires_at : Z;
  dd_state : string;
  dd_error_code : option string;
  dd_detail : option string;
  dd_cloud_sequence : option Z;
  dd_lease_id : option string;
  dd_fencing_token : option Z;
  dd_relay_token_digest : option string;
}.
#[export] Instance DebugDeliveryRecord_eta : Eta DebugDeliveryRecord := fun r => mkDelivery
  (dd_session_id r) (dd_edge_id r) (dd_device_id r) (dd_capabilities r) (dd_expires_at r) (dd_state r) (dd_error_code r)
  (dd_detail r) (dd_cloud_sequence r) (dd_lease_id r) (dd_fencing_token r) (dd_relay_token_digest r).
#[export] Instance DebugDeliveryRecord_eq_dec : EqDecision DebugDeliveryRecord.
Proof. solve_decision. Defined.

(** [x or y] on an optional integer. *)
Definition int_or (x y : option Z) : option Z :=
  match x with Some n => if decide (n = 0) then y else Some n | None => y end.
Definition updated (state : string) (error_code detail : option string) (cloud_sequence : option Z) (r : DebugDeliveryRecord)
    : DebugDeliveryRecord :=
  r <| dd_state := state |> <| dd_error_code := error_code |> <| dd_detail := detail |>
    <| dd_cloud_sequence := int_or cloud_sequence (dd_cloud_sequence r) |>.

Class DeliveryStore (D : Type) := mkDeliveryStore {
  create_delivery : DebugDeliveryRecord -> D -> result hub_error (() * D);
  update_delivery : string -> string -> option string -> option string -> option Z -> D ->
    result hub_error (DebugDeliveryRecord * D);
  get_delivery : string -> D -> option DebugDeliveryRecord;
}.

Definition different_input : hub_error := SessionError "debug session delivery already exists with different input".
Definition unknown_delivery (session_id : string) : hub_error := SessionError ("unknown debug session delivery " +:+ session_id).

(** [InMemoryDebugDeliveryStore]. *)
Module MemoryDelivery.
Abbreviation store := (gmap string DebugDeliveryRecord).
Definition create (record : DebugDeliveryRecord) (s : store) : result hub_error (() * store) :=
  let write := Ok (tt, <[dd_session_id record := record]> s) in
  match s !! dd_session_id record with
  | Some existing => raise_if existing <> record with different_input in write
  | None => write
  end.
Definition update (session_id state : string) (error_code detail : option string) (cloud_sequence : option Z) (s : store)
    : result hub_error (DebugDeliveryRecord * store) :=
  need existing := s !! session_id orelse unknown_delivery session_id in
  let record := updated state error_code detail cloud_sequence existing in
  Ok (record, <[session_id := record]> s).
Definition get (session_id : string) (s : store) : option DebugDeliveryRecord := s !! session_id.
#[global] Instance delivery_store : DeliveryStore store := {|
  create_delivery := create; update_delivery := update; get_delivery := get |}.
End MemoryDelivery.

(** [SqliteDebugDeliveryStore]. *)
Module SqliteDelivery.

(** A row of debug_delivery. *)
Record row := mkRow {
  w_session_id : string; w_edge_id : string; w_device_id : string; w_capabilities : string; w_expires_at : Z;
  w_state : string; w_error_code : option string; w_detail : option string; w_cloud_sequence : option Z;
  w_lease_id : option string; w_fencing_token : option Z; w_relay_token_digest : option string;
}.
#[export] Instance row_eta : Eta row := fun r => mkRow (w_session_id r) (w_edge_id r) (w_device_id r) (w_capabilities r)
  (w_expires_at r) (w_state r) (w_error_code r) (w_detail r) (w_cloud_sequence r) (w_lease_id r) (w_fencing_token r)
  (w_relay_token_digest r).
Abbreviation store := (list row).

(** An INTEGER has 64 bits. *)
Definition int64 (x : option Z) : bool :=
  match x with Some n => bool_decide (- 2 ^ 63 <= n < 2 ^ 63) | None => true end.

Definition row_of (r : DebugDeliveryRecord) : row := mkRow (dd_session_id r) (dd_edge_id r) (dd_device_id r)
  (str_join "," (dd_capabilities r)) (dd_expires_at r) (dd_state r) (dd_error_code r) (dd_detail r) (dd_cloud_sequence r)
  (dd_lease_id r) (dd_fencing_token r) (dd_relay_token_digest r).
(** [_record]. *)
Definition record_of (w : row) : DebugDeliveryRecord := mkDelivery (w_session_id w) (w_edge_id w) (w_device_id w)
  (py_split "," (w_capabilities w)) (w_expires_at w) (w_state w) (w_error_code w) (w_detail w) (w_cloud_sequence w)
  (w_lease_id w) (w_fencing_token w) (w_relay_token_digest w).

Definition create (record : DebugDeliveryRecord) (s : store) : result hub_error (() * store) :=
  match tget w_session_id (dd_session_id record) s with
  | Some existing => raise_if record_of existing <> record with different_input in Ok (tt, s)
  | None =>
      raise_if int64 (dd_cloud_sequence record) && int64 (dd_fencing_token record) = false with HubOverflowError in
      Ok (tt, s ++ [row_of record])
  end.

Definition update (session_id state : string) (error_code detail : option string) (cloud_sequence : option Z) (s : store)
    : result hub_error (DebugDeliveryRecord * store) :=
  need row := tget w_session_id session_id s orelse unknown_delivery session_id in
  let record := updated state error_code detail cloud_sequence (record_of row) in
  raise_if int64 (dd_cloud_sequence record) = false with HubOverflowError in
  Ok (record, tput w_session_id (row <| w_state := dd_state record |> <| w_error_code := dd_error_code record |>
                                     <| w_detail := dd_detail record |> <| w_cloud_sequence := dd_cloud_sequence record |>) s).

Definition get (session_id : string) (s : store) : option DebugDeliveryRecord :=
  record_of <$> tget w_session_id session_id s.

#[global] Instance delivery_store : DeliveryStore store := {|
  create_delivery := create; update_delivery := update; get_delivery := get |}.
End SqliteDelivery.

(** ** Browser handles: relay.py *)

Record RelayGrant := mkRelayGrant {
  rg_session_id : string; rg_edge_id : string; rg_device_id : string; rg_capabilities : gset string; rg_expires_at : Z;
  rg_token_digest : string; rg_revoked : bool;
}.
#[export] Instance RelayGrant_eta : Eta RelayGrant := fun g => mkRelayGrant (rg_session_id g) (rg_edge_id g) (rg_device_id g)
  (rg_capabilities g) (rg_expires_at g) (rg_token_digest g) (rg_revoked g).
#[export] Instance RelayGrant_eq_dec : EqDecision RelayGrant.
Proof. solve_decision. Defined.

Record RelayConnection := mkConnection { rc_grant : RelayGrant; rc_incoming : list relay_frame; rc_closed : bool }.
#[export] Instance RelayConnection_eta : Eta RelayConnection := fun c => mkConnection (rc_grant c) (rc_incoming c) (rc_closed c).

(** [RelayRouter]; a connection is an object, its number is its place in
    [rt_objects]. *)
Record router := mkRouter {
  rt_grants : gmap string RelayGrant;
  rt_connections : gmap string nat;
  rt_objects : list RelayConnection;
}.
#[export] Instance router_eta : Eta router := fun r => mkRouter (rt_grants r) (rt_connections r) (rt_objects r).
Definition new_router : router := mkRouter ∅ ∅ [].

Definition MAX_PAYLOAD : Z := 256 * 1024.
Definition ALLOWED_KINDS : list string :=
  ["tap"; "swipe"; "text"; "evidence.request"; "ack"; "frame"; "layout"; "ready"; "error"]%string.
Definition ALLOWED_CAPABILITIES : gset string :=
  {["input.tap"; "input.swipe"; "input.text"; "evidence.capture"; "view.frame"; "view.layout"]}.
(** [len] of bytes. *)
Definition byte_len (s : string) : Z := Z.of_nat (String.length s).

Definition relay_grant_from_token (session_id edge_id device_id : string) (capabilities : list string) (expires_at : Z)
    (token : string) : result hub_error RelayGrant :=
  raise_if token = "" with SessionError "relay token is required" in
  Ok (mkRelayGrant session_id edge_id device_id (list_to_set capabilities) expires_at (hexdigest token) false).

Definition _validate_frame (frame : relay_frame) (grant : RelayGrant) : result hub_error () :=
  raise_if rf_session_id frame <> rg_session_id grant with SessionError "relay frame session binding mismatch" in
  raise_if rf_request_id frame = "" \/ str_len (rf_request_id frame) > 128 with SessionError "relay request id is invalid" in
  raise_if rf_kind frame ∉ ALLOWED_KINDS with SessionError "relay frame kind is not allowed" in
  raise_if rf_capability frame ∉ rg_capabilities grant with SessionError "relay frame capability was not granted" in
  raise_if byte_len (rf_payload frame) > MAX_PAYLOAD with SessionError "relay frame payload exceeds limit" in
  Ok tt.

Definition register (now : Z) (grant : RelayGrant) : act router () := fun r =>
  (fail_if rg_session_id grant = "" \/ rg_edge_id grant = "" \/ rg_device_id grant = ""
     with SessionError "relay grant binding is incomplete";;
   fail_if ~ rg_capabilities grant ⊆ ALLOWED_CAPABILITIES with SessionError "relay grant contains a prohibited capability";;
   fail_if rg_expires_at grant <= now with SessionError "relay grant is expired";;
   let write := writes (fun r => r <| rt_grants := <[rg_session_id grant := grant]> (rt_grants r) |>) in
   match rt_grants r !! rg_session_id grant with
   | Some existing => fail_if existing <> grant with SessionError "relay grant already exists with different binding";; write
   | None => write
   end) r.

(** [connection.close()] on the object with this number. *)
Definition close_connection (i : nat) (r : router) : router :=
  r <| rt_objects := alter (fun c => c <| rc_closed := true |>) i (rt_objects r) |>.

Definition authenticate (now : Z) (session_id token : string) : act router nat := fun r =>
  (fail_if str_len token < 32 \/ str_len token > 256 with SessionError "relay token has invalid length";;
   match rt_grants r !! session_id with
   | None => raise (SessionError "relay session is not active")
   | Some grant =>
       fail_if rg_revoked grant = true \/ rg_expires_at grant <= now with SessionError "relay session is not active";;
       fail_if rg_token_digest grant <> hexdigest token with SessionError "invalid relay token";;
       let i := length (rt_objects r) in
       writes (fun r => r <| rt_objects := rt_objects r ++ [mkConnection grant [] false] |>);;;
       writes (fun r => match rt_connections r !! session_id with Some old => close_connection old r | None => r end);;;
       writes (fun r => r <| rt_connections := <[session_id := i]> (rt_connections r) |>);;;
       ret i
   end) r.

Definition revoke_relay (session_id : string) (r : router) : router :=
  let r := match rt_grants r !! session_id with
           | Some grant => r <| rt_grants := <[session_id := grant <| rg_revoked := true |>]> (rt_grants r) |>
           | None => r
           end in
  match rt_connections r !! session_id with
  | Some i => close_connection i (r <| rt_connections := delete session_id (rt_connections r) |>)
  | None => r
  end.

(** [RelayRouter._on_edge_message]; [put_nowait] on a queue of 64. *)
Definition on_edge_message (now : Z) (edge_id : string) (message : EdgeToCloud) : act router () := fun r =>
  match message.2 with
  | Some (EB_relay_frame frame) =>
      match rt_grants r !! rf_session_id frame, rt_connections r !! rf_session_id frame ≫= fun i => (i,.) <$> rt_objects r !! i with
      | Some grant, Some (i, connection) =>
          if decide (rc_closed connection = true \/ rg_revoked grant = true \/ rg_edge_id grant <> edge_id \/ rg_expires_at grant <= now)
          then ret tt r
          else (of_result (_validate_frame frame grant);;;
                if decide (64 <= length (rc_incoming connection))%nat
                then writes (close_connection i);;; raise (SessionError "relay browser queue is full")
                else writes (fun r =>
                  r <| rt_objects := alter (fun c => c <| rc_incoming := rc_incoming c ++ [frame] |>) i (rt_objects r) |>)) r
      | _, _ => ret tt r
      end
  | _ => ret tt r
  end.

(** [RelayConnection.receive], when it does not wait. *)
Definition receive (i : nat) : act router (option relay_frame) := fun r =>
  match rt_objects r !! i with
  | None => ret None r
  | Some c =>
      (fail_if rc_closed c = true with SessionError "relay connection is closed";;
       match rc_incoming c with
       | [] => ret None
       | frame :: rest =>
           writes (fun r => r <| rt_objects := alter (fun c => c <| rc_incoming := rest |>) i (rt_objects r) |>);;; ret (Some frame)
       end) r
  end.

(** ** The hub, its delivery store and its router *)

(** [Presented ws session_id token] is a token the ingress accepted from the
    websocket [ws] (debug_relay.py). *)
Inductive hub_event : Type :=
| Queued (at_ : Z) (edge_id : string) (message : CloudToEdge)
| Presented (ws : nat) (session_id token : string).

Section Ingress.
Context {S D : Type} `{HubStore S, DeliveryStore D}.
Context (py_repr : json -> string) (fromisoformat : string -> option Z) (float_repr : Q -> string).

Record ingress := mkIngress {
  in_hub : S;
  in_delivery : D;
  in_router : option router;
  in_now : Z;
  in_history : list hub_event;
}.
#[export] Instance ingress_eta : Eta ingress :=
  fun w => mkIngress (in_hub w) (in_delivery w) (in_router w) (in_now w) (in_history w).

Definition on_delivery {A} (f : D -> result hub_error (A * D)) : act ingress A := fun w =>
  match f (in_delivery w) with Ok (a, d) => (Ok a, w <| in_delivery := d |>) | Err e => (Err e, w) end.

(** Nothing where there is no router. *)
Definition on_router (m : act router ()) : act ingress () := fun w =>
  match in_router w with
  | None => (Ok tt, w)
  | Some r => let '(x, r) := m r in (x, w <| in_router := Some r |>)
  end.

(** [EdgeHub.queue]. *)
Definition hub_queue (edge_id : string) (body : cloud_body) : act ingress CloudToEdge := fun w =>
  match queue edge_id (Some body) (in_hub w) with
  | Ok (m, s) => (Ok m, w <| in_hub := s |> <| in_history := in_history w ++ [Queued (in_now w) edge_id m] |>)
  | Err e => (Err e, w)
  end.

(** [RelayRouter.from_browser]. *)
Definition from_browser (grant : RelayGrant) (frame : relay_frame) : act ingress () :=
  of_result (_validate_frame frame grant);;;
  w <-- reads id;;
  match in_router w with
  | None => ret tt
  | Some r =>
      fail_if rt_grants r !! rg_session_id grant <> Some grant \/ rg_revoked grant = true \/ rg_expires_at grant <= in_now w
        with SessionError "relay session is no longer active";;
      hub_queue (rg_edge_id grant) (CB_relay_frame frame);;; ret tt
  end.

Definition _encode_payload (payload : json) : result hub_error string :=
  let encoded := json_text float_repr payload in
  raise_if byte_len encoded > MAX_PAYLOAD with SessionError "relay frame payload exceeds limit" in Ok encoded.

(** [RelayConnection.send]. *)
Definition send (i : nat) (request_id kind capability : string) (payload : json) : act ingress () :=
  w <-- reads id;;
  match in_router w ≫= fun r => rt_objects r !! i with
  | None => ret tt
  | Some c =>
      fail_if rc_closed c = true with SessionError "relay connection is closed";;
      encoded <-- of_result (_encode_payload payload);;
      from_browser (rc_grant c) (mkRelayFrame (rg_session_id (rc_grant c)) (rg_device_id (rc_grant c)) request_id capability kind
                                   encoded false)
  end.

(** ** [DebugGrantDelivery] *)

Definition ACK_STATES : list string := ["RECEIVED"; "ACCEPTED"; "REJECTED"; "FAILED"]%string.
Definition ALLOWED_DEBUG_CAPABILITIES : list string :=
  ["view.frame"; "view.layout"; "input.tap"; "input.swipe"; "input.text"; "debug.steps"; "debug.variables";
   "evidence.capture"]%string.

(** The arguments of [queue]. *)
Record grant_request := mkGrantRequest {
  gq_session_id : string; gq_edge_id : string; gq_device_id : string; gq_capabilities : list string; gq_expires_at : Z;
  gq_relay_token : option string; gq_lease_id : option string; gq_fencing_token : option Z;
}.

Definition pending_record (q : grant_request) (token : string) : DebugDeliveryRecord :=
  mkDelivery (gq_session_id q) (gq_edge_id q) (gq_device_id q) (str_sorted (remove_dups (gq_capabilities q))) (gq_expires_at q)
    "PENDING" None None None (Some (str_or (gq_lease_id q) ("debug-lease/" +:+ gq_session_id q)))
    (Some (default 1 (int_or (gq_fencing_token q) None))) (Some (hexdigest token)).

(** The protobuf message; an integer that is no uint64 is refused. *)
Definition grant_message (record : DebugDeliveryRecord) (token : string) : result hub_error debug_grant :=
  let fence := default 0 (dd_fencing_token record) in
  raise_if fence < 0 \/ 2 ^ 64 <= fence with HubValueError "Value out of range" in
  Ok (mkDebugGrant (dd_session_id record) (dd_device_id record) (dd_expires_at record) (dd_capabilities record)
        (str_or (dd_lease_id record) "") fence token).

(** [queue]; [fresh] is the token drawn when none is given. *)
Definition queue_grant (q : grant_request) (fresh : string) : act ingress DebugDeliveryRecord :=
  fail_if gq_session_id q = "" \/ gq_edge_id q = "" \/ gq_device_id q = ""
    with SessionError "session_id, edge_id and device_id are required";;
  fail_if gq_capabilities q = [] with SessionError "debug grant capabilities are required";;
  fail_if ~ gq_capabilities q ⊆ ALLOWED_DEBUG_CAPABILITIES with SessionError "debug grant contains a prohibited capability";;
  let token := str_or (gq_relay_token q) fresh in
  fail_if str_len token < 32 with SessionError "debug grant relay token is too short";;
  now <-- reads in_now;;
  fail_if gq_expires_at q <= now with SessionError "debug grant already expired";;
  let record := pending_record q token in
  on_delivery (create_delivery record);;;
  on_router (grant <-- of_result (relay_grant_from_token (gq_session_id q) (gq_edge_id q) (gq_device_id q)
                                    (dd_capabilities record) (gq_expires_at q) token);;
             register now grant);;;
  message <-- of_result (grant_message record token);;
  stored <-- hub_queue (gq_edge_id q) (CB_debug_grant message);;
  on_delivery (update_delivery (gq_session_id q) "QUEUED" None None (Some stored.1)).

(** [str(value)]. *)
Definition py_str (v : json) : string :=
  match v with
  | JStr s => s
  | JNull => "None"
  | JBool b => if b then "True" else "False"
  | JInt n => py_str_int n
  | _ => py_repr v
  end.
(** [str(value) if value is not None else None]. *)
Definition opt_str (v : option json) : option string :=
  match v with Some JNull | None => None | Some v => Some (py_str v) end.

(** [None] where it raises. *)
Definition _optional_positive_int (value : option json) : option (option Z) :=
  let positive n := if decide (n < 1) then None else Some (Some n) in
  match value with
  | None | Some JNull => Some None
  | Some (JInt n) => positive n
  | Some (JFloat q) => if decide (Qden (Qred q) = 1%positive) then positive (Qnum (Qred q)) else None
  | Some _ => None
  end.

Definition as_str (v : json) : option string := match v with JStr s => Some s | _ => None end.

(** The arguments read from the payload; [None] where reading them raises. *)
Definition grant_of_payload (payload : list (string * json)) : option grant_request :=
  capabilities ← match jget "capabilities" payload with Some (JArr l) => mapM as_str l | _ => None end;
  session_id ← py_str <$> jget "sessionId" payload;
  edge_id ← py_str <$> jget "edgeId" payload;
  device_id ← py_str <$> jget "deviceId" payload;
  expires_at ← (py_str <$> jget "expiresAt" payload) ≫= fromisoformat;
  fencing_token ← _optional_positive_int (jget "fencingToken" payload);
  Some (mkGrantRequest session_id edge_id device_id capabilities expires_at (opt_str (jget "relayToken" payload))
          (opt_str (jget "leaseId" payload)) fencing_token).

Definition invalid_grant_event : hub_error := SessionError "invalid debug grant event payload".
Definition queue_from_event (payload : list (string * json)) (fresh : string) : act ingress DebugDeliveryRecord :=
  match grant_of_payload payload with
  | None => raise invalid_grant_event
  | Some q => value_errors_as invalid_grant_event (queue_grant q fresh)
  end.

Definition invalid_revoke_event : hub_error := SessionError "invalid debug revoke event payload".
Definition revoke_reason (payload : list (string * json)) : string :=
  str_take 1000 (default "revoked" (py_str <$> jget "reason" payload)).
Definition revoke_from_event (payload : list (string * json)) : act ingress CloudToEdge :=
  match py_str <$> jget "sessionId" payload, py_str <$> jget "deviceId" payload with
  | Some session_id, Some device_id =>
      fail_if session_id = "" \/ device_id = "" with invalid_revoke_event;;
      on_router (writes (revoke_relay session_id));;;
      match py_str <$> jget "edgeId" payload with
      | None => raise invalid_revoke_event
      | Some edge_id =>
          value_errors_as invalid_revoke_event (
            queued <-- hub_queue edge_id (CB_debug_revoke session_id device_id (revoke_reason payload));;
            existing <-- reads (fun w => get_delivery session_id (in_delivery w));;
            match existing with
            | None => ret queued
            | Some _ =>
                on_delivery (update_delivery session_id "REVOKED" (Some "REVOKED") (Some (revoke_reason payload)) (Some queued.1));;;
                ret queued
            end)
      end
  | _, _ => raise invalid_revoke_event
  end.

(** [x or None] on a text. *)
Definition or_none (x : string) : option string := if decide (x = "") then None else Some x.
Definition accept_edge_message (edge_id : string) (message : EdgeToCloud) : act ingress () := fun w =>
  match message.2 with
  | Some (EB_command_ack ack) =>
      match get_delivery (ack_command_id ack) (in_delivery w) with
      | None => ret tt w
      | Some record =>
          (fail_if dd_edge_id record <> edge_id with SessionError "debug grant ACK came from a different Edge";;
           fail_if ack_state ack ∉ ACK_STATES with SessionError ("invalid debug grant ACK state " +:+ ack_state ack);;
           on_delivery (update_delivery (dd_session_id record) (ack_state ack) (or_none (ack_error_code ack))
                          (or_none (ack_detail ack)) None);;; ret tt) w
      end
  | _ => ret tt w
  end.

(** main.py; the payload of a [DeliverDebugEvent] is always an object. *)
Definition handle_debug_event (event_type : string) (payload : list (string * json)) (fresh : string) : act ingress () :=
  if decide (event_type = "debug.session.grant_requested") then queue_from_event payload fresh;;; ret tt
  else revoke_from_event payload;;; ret tt.

(** grpc_service.py: [EdgeControlService.DeliverDebugEvent]. [identity] is the
    [IdentityError] of [verify_control_plane], if any; [enabled] tells whether
    a handler was given; [Raised] is an exception gRPC reports as UNKNOWN. *)
Inductive grpc_answer : Type :=
| Accepted
| Aborted (code detail : string)
| Raised (e : hub_error).
Definition DeliverDebugEvent (identity : option string) (enabled : bool) (event_id aggregate_id event_type : string)
    (payload : list (string * json)) (fresh : string) (w : ingress) : grpc_answer * ingress :=
  match identity with
  | Some detail => (Aborted "UNAUTHENTICATED" detail, w)
  | None =>
      if decide (enabled = false) then (Aborted "UNIMPLEMENTED" "debug event delivery is disabled", w)
      else if decide (event_id = "" \/ aggregate_id = "" \/ event_type = "")
      then (Aborted "INVALID_ARGUMENT" "event identity is required", w)
      else if decide (event_type ∉ ["debug.session.grant_requested"; "debug.session.revoked"]%string)
      then (Aborted "INVALID_ARGUMENT" "event type is not allowed", w)
      else match handle_debug_event event_type payload fresh w with
           | (Ok _, w) => (Accepted, w)
           | (Err (SessionError detail), w) => (Aborted "FAILED_PRECONDITION" detail, w)
           | (Err e, w) => (Raised e, w)
           end
  end.
End Ingress.
Arguments ingress : clear implicits.

(** ** Both stores keep the records they were given *)

Lemma py_split_some sep s : py_split sep s <> [].
Proof. induction s as [|c s IH]; [done|]. cbn -[Ascii.eqb]. destruct (py_split sep s); [done|]. by case_match. Qed.
Lemma split_comma x : str_contains_char "," x = false -> py_split "," x = [x].
Proof.
  induction x as [|c x IH]; [done|]. cbn -[Ascii.eqb]. intros [Hc Hx]%orb_false_iff. by rewrite (IH Hx), Ascii.eqb_sym, Hc.
Qed.
Lemma split_comma_app x y : str_contains_char "," x = false -> py_split "," (x +:+ "," +:+ y) = x :: py_split "," y.
Proof.
  induction x as [|c x IH].
  - intros _. rewrite append_nil. change ("," +:+ y) with (String "," y). cbn -[Ascii.eqb]. rewrite Ascii.eqb_refl.
    destruct (py_split "," y) eqn:E; [by apply py_split_some in E|done].
  - rewrite append_String. cbn -[Ascii.eqb]. intros [Hc Hx]%orb_false_iff. by rewrite (IH Hx), Ascii.eqb_sym, Hc.
Qed.
Lemma split_join l : l <> [] -> Forall (fun x => str_contains_char "," x = false) l -> py_split "," (str_join "," l) = l.
Proof.
  induction l as [|x [|y l] IH]; intros Hn Hl; [done| |]; apply Forall_cons in Hl as [Hx Hl]; cbn.
  - by apply split_comma.
  - rewrite split_comma_app by done. f_equal. by apply IH.
Qed.

(** A record that SQLite gives back as it was. *)
Definition storable (r : DebugDeliveryRecord) : Prop :=
  dd_capabilities r <> [] /\ Forall (fun x => str_contains_char "," x = false) (dd_capabilities r)
  /\ SqliteDelivery.int64 (dd_cloud_sequence r) = true /\ SqliteDelivery.int64 (dd_fencing_token r) = true.
#[export] Instance storable_dec r : Decision (storable r).
Proof. unfold storable. apply _. Defined.

Lemma record_of_row r : storable r -> SqliteDelivery.record_of (SqliteDelivery.row_of r) = r.
Proof. intros (Hn & Hl & _). unfold SqliteDelivery.record_of. cbn. rewrite split_join by done. by destruct r. Qed.

Module SqliteDeliverySpec.
Import SqliteDelivery.

Lemma create_spec r s u s' : storable r -> create r s = Ok (u, s') ->
  forall id, get id s' = if decide (id = dd_session_id r) then Some r else get id s.
Proof.
  intros Hr. unfold create, get. destruct (tget w_session_id (dd_session_id r) s) as [row|] eqn:E.
  - destruct (decide _) as [|Hn]; [done|]. apply dec_stable in Hn. intros [= <- <-] id. case_decide; [subst id|done].
    by rewrite E, <- Hn.
  - destruct (decide _) as [|_]; [done|]. intros [= <- <-] id. rewrite tget_app. case_decide as D.
    + subst id. rewrite E. cbn. rewrite decide_True by done. cbn. by rewrite record_of_row.
    + destruct (tget w_session_id id s); [done|]. cbn. by rewrite decide_False by done.
Qed.

Lemma update_spec id state e d n s r s' : update id state e d n s = Ok (r, s') ->
  (exists r0, get id s = Some r0 /\ r = updated state e d n r0)
  /\ forall id', get id' s' = if decide (id' = id) then Some r else get id' s.
Proof.
  unfold update, get. destruct (tget w_session_id id s) as [row|] eqn:E; [|done]. cbv zeta.
  set (r1 := updated state e d n (record_of row)). set (row1 := set_with _ _). case_decide; [done|]. intros Heq.
  assert (r = r1 /\ s' = tput w_session_id row1 s) as [-> ->] by (split; congruence). clear Heq. apply tget_Some in E as Hk. destruct Hk as [Hin Hk].
  split; [by eexists|]. intros id'.
  assert (w_session_id row1 = id) as Hk1 by exact Hk.
  rewrite tget_tput, Hk1. destruct (decide (id = id')) as [<-|D]; [|by rewrite decide_False by congruence].
  rewrite decide_True, decide_True; [reflexivity|reflexivity|]. rewrite <- Hk. by apply list_elem_of_fmap_2.
Qed.

(** What the in-memory store does, on a table with the same records. *)
Definition same (m : MemoryDelivery.store) (s : store) : Prop := forall id, m !! id = get id s.

Lemma same_put m s s' k r : same m s -> (forall id, get id s' = if decide (id = k) then Some r else get id s) ->
  same (<[k := r]> m) s'.
Proof.
  intros Hs Hg id. rewrite Hg. destruct (decide (id = k)) as [->|D]; [by rewrite lookup_insert_eq|]. rewrite lookup_insert_ne by done. apply Hs.
Qed.

Lemma create_same m s r : same m s -> storable r ->
  match MemoryDelivery.create r m, create r s with
  | Ok (_, m'), Ok (_, s') => same m' s'
  | Err x, Err y => x = y
  | _, _ => False
  end.
Proof.
  intros Hs Hr. pose proof (fun u s' => create_spec r s u s' Hr) as Hc. unfold MemoryDelivery.create.
  pose proof (Hs (dd_session_id r)) as Hk. unfold get in Hk. rewrite Hk. clear Hk. unfold create in *.
  destruct (tget w_session_id (dd_session_id r) s) as [row|]; cbn in *.
  - destruct (decide (record_of row <> r)); [done|]. eapply same_put; [done|]. by apply (Hc tt).
  - destruct Hr as (_ & _ & Hq & Hf). rewrite Hq, Hf in *. cbn in *. eapply same_put; [done|]. by apply (Hc tt).
Qed.

Lemma update_same m s id state e d n : same m s -> int64 n = true -> (forall r, m !! id = Some r -> int64 (dd_cloud_sequence r) = true) ->
  match MemoryDelivery.update id state e d n m, update id state e d n s with
  | Ok (r, m'), Ok (r', s') => r = r' /\ same m' s' /\ int64 (dd_cloud_sequence r) = true
  | Err x, Err y => x = y
  | _, _ => False
  end.
Proof.
  intros Hs Hn Hr. unfold MemoryDelivery.update. rewrite (Hs id) in *. pose proof (update_spec id state e d n s) as Hu.
  destruct (update id state e d n s) as [[r' s']|x] eqn:E.
  - destruct (Hu _ _ eq_refl) as [(r0 & Hg & ->) Hg']. rewrite Hg in *. split; [done|]. split; [by eapply same_put|].
    cbn. unfold int_or. destruct n; [case_decide|]; first [done|by apply Hr].
  - unfold get in *. unfold update in E. destruct (tget w_session_id id s) as [row|]; cbn in *; [|by simplify_eq].
    specialize (Hr _ eq_refl). case_decide as Hd; [|done]. exfalso. cbn in Hd, Hr. unfold int_or in Hd.
    destruct n; [case_decide|]; congruence.
Qed.
End SqliteDeliverySpec.

(** ** The stores side by side *)

Inductive delivery_op : Type :=
| DCreate (r : DebugDeliveryRecord)
| DUpdate (session_id state : string) (error_code detail : option string) (cloud_sequence : option Z)
| DGet (session_id : string).
Inductive delivery_answer : Type :=
| DDone
| DRecord (r : option DebugDeliveryRecord)
| DError (e : hub_error).

Definition do_delivery {D} `{DeliveryStore D} (op : delivery_op) (s : D) : delivery_answer * D :=
  match op with
  | DCreate r => match create_delivery r s with Ok (_, s) => (DDone, s) | Err e => (DError e, s) end
  | DUpdate id state e d n =>
      match update_delivery id state e d n s with Ok (r, s) => (DRecord (Some r), s) | Err e => (DError e, s) end
  | DGet id => (DRecord (get_delivery id s), s)
  end.
Fixpoint run_delivery {D} `{DeliveryStore D} (ops : list delivery_op) (s : D) : list delivery_answer * D :=
  match ops with
  | [] => ([], s)
  | op :: ops => let '(a, s) := do_delivery op s in let '(l, s) := run_delivery ops s in (a :: l, s)
  end.

(** No capability holds the separator and integers have 64 bits. *)
Definition storable_op (op : delivery_op) : Prop :=
  match op with
  | DCreate r => storable r
  | DUpdate _ _ _ _ n => SqliteDelivery.int64 n = true
  | DGet _ => True
  end.
#[export] Instance storable_op_dec op : Decision (storable_op op).
Proof. destruct op; apply _. Defined.

Definition twins (m : MemoryDelivery.store) (s : SqliteDelivery.store) : Prop :=
  SqliteDeliverySpec.same m s /\ forall id r, m !! id = Some r -> SqliteDelivery.int64 (dd_cloud_sequence r) = true.

Lemma do_delivery_twins op m s : twins m s -> storable_op op ->
  (do_delivery op s).1 = (do_delivery op m).1 /\ twins (do_delivery op m).2 (do_delivery op s).2.
Proof.
  intros [Hs Hi] Hop. destruct op as [r|id state e d n|id]; cbn -[MemoryDelivery.create SqliteDelivery.create MemoryDelivery.update SqliteDelivery.update] in *.
  - pose proof (SqliteDeliverySpec.create_same m s r Hs Hop) as Hc. destruct (MemoryDelivery.create r m) as [[u m']|x] eqn:Em,
      (SqliteDelivery.create r s) as [[u' s']|y]; try done; [|by subst]. split; [done|]. split; [done|]. cbn.
    unfold MemoryDelivery.create in Em.
    assert (m' = <[dd_session_id r := r]> m) as -> by (destruct (m !! dd_session_id r); [case_decide|]; congruence).
    intros id r0 [[_ <-]|[_ Hr]]%lookup_insert_Some; [apply Hop|by eapply Hi].
  - pose proof (SqliteDeliverySpec.update_same m s id state e d n Hs Hop (Hi id)) as Hc.
    destruct (MemoryDelivery.update id state e d n m) as [[r m']|x] eqn:Em, (SqliteDelivery.update id state e d n s) as [[r' s']|y];
      try done; [|by subst]. destruct Hc as (<- & Hs' & Hr). split; [done|]. split; [done|]. cbn.
    unfold MemoryDelivery.update in Em. destruct (m !! id) as [r1|]; [|done].
    assert (m' = <[id := r]> m) as -> by congruence. intros id' r0 [[_ <-]|[_ Hr0]]%lookup_insert_Some; [done|by eapply Hi].
  - split; [|done]. unfold MemoryDelivery.get. by rewrite (Hs id).
Qed.

Lemma run_delivery_twins ops : forall m s, twins m s -> Forall storable_op ops ->
  (run_delivery ops s).1 = (run_delivery ops m).1 /\ twins (run_delivery ops m).2 (run_delivery ops s).2.
Proof.
  induction ops as [|op ops IH]; intros m s Ht Hops; [done|]. apply Forall_cons in Hops as [Hop Hops]. cbn [run_delivery].
  destruct (do_delivery_twins op m s Ht Hop) as [Ha Ht']. destruct (do_delivery op s) as [a s'], (do_delivery op m) as [a' m'].
  cbn in Ha, Ht'. subst a'. destruct (IH m' s' Ht' Hops) as [Hl Hf]. destruct (run_delivery ops s'), (run_delivery ops m').
  cbn in *. by subst.
Qed.

(** Whatever records are created, updated and looked up, in any order and
    any number of times, the SQLite delivery store and the in-memory one give
    the same answers, errors included, and hold the same records afterwards,
    although SQLite keeps the capabilities of a record as one text. *)
Theorem delivery_stores_agree (ops : list delivery_op) (H : Forall storable_op ops) :
  (run_delivery ops ([] : SqliteDelivery.store)).1 = (run_delivery ops (∅ : MemoryDelivery.store)).1
  /\ forall id, get_delivery id (run_delivery ops ([] : SqliteDelivery.store)).2
                = get_delivery id (run_delivery ops (∅ : MemoryDelivery.store)).2.
Proof.
  destruct (run_delivery_twins ops (∅ : MemoryDelivery.store) ([] : SqliteDelivery.store)) as [Ha [Hs _]]; [|done|].
  - split; [intros id; by rewrite lookup_empty|intros id r; by rewrite lookup_empty].
  - split; [done|]. intros id. symmetry. exact (Hs id).
Qed.

Definition sample_delivery : DebugDeliveryRecord := mkDelivery "s-1" "edge" "device-1" ["input.tap"; "view.frame"]%string 100
  "PENDING" None None None (Some "lease-1") (Some 7) (Some "digest").

Lemma delivery_stores_agree_witness :
  (run_delivery [DCreate sample_delivery; DUpdate "s-1" "QUEUED" None None (Some 4); DCreate sample_delivery; DUpdate "s-2" "X" None None None;
                 DUpdate "s-1" "ACCEPTED" None None None; DGet "s-1"] ([] : SqliteDelivery.store)).1
  = [DDone; DRecord (Some (updated "QUEUED" None None (Some 4) sample_delivery)); DError different_input; DError (unknown_delivery "s-2");
     DRecord (Some (updated "ACCEPTED" None None (Some 4) sample_delivery)); DRecord (Some (updated "ACCEPTED" None None (Some 4) sample_delivery))].
Proof.
  set (ops := [_; _; _; _; _; _]). transitivity (run_delivery ops (∅ : MemoryDelivery.store)).1; [|vm_compute; reflexivity].
  apply delivery_stores_agree. apply (bool_decide_unpack _). vm_compute. exact I.
Defined.

(** ** A revoked browser handle *)

Section Router.
Context {S D : Type} `{HubStore S, DeliveryStore D}.
Context (py_repr : json -> string) (fromisoformat : string -> option Z) (float_repr : Q -> string).
Abbreviation ingress := (ingress S D).

(** What happens to the router of a hub, in any order: the calls on the
    router and on its handles, events of the control service, and anything
    else that happens to the rest of the hub. *)
Inductive router_step : ingress -> ingress -> Prop :=
| RS_register g r w : in_router w = Some r -> router_step w (w <| in_router := Some (register (in_now w) g r).2 |>)
| RS_authenticate session_id token r w : in_router w = Some r ->
    router_step w (w <| in_router := Some (authenticate (in_now w) session_id token r).2 |>)
| RS_revoke session_id r w : in_router w = Some r -> router_step w (w <| in_router := Some (revoke_relay session_id r) |>)
| RS_edge edge_id message r w : in_router w = Some r ->
    router_step w (w <| in_router := Some (on_edge_message (in_now w) edge_id message r).2 |>)
| RS_receive i r w : in_router w = Some r -> router_step w (w <| in_router := Some (receive i r).2 |>)
| RS_send i request_id kind capability payload w :
    router_step w (send float_repr i request_id kind capability payload w).2
| RS_event event_type payload fresh w : router_step w (handle_debug_event py_repr fromisoformat event_type payload fresh w).2
| RS_rest hub delivery now history w :
    router_step w (w <| in_hub := hub |> <| in_delivery := delivery |> <| in_now := now |> <| in_history := history |>).

Definition revoked_in (session_id : string) (r : router) : Prop :=
  exists g, rt_grants r !! session_id = Some g /\ rg_revoked g = true.
Definition shut (session_id : string) (w : ingress) : Prop := exists r, in_router w = Some r /\ revoked_in session_id r.

Lemma in_router_keeps {A} (P : option router -> Prop) (m : act ingress A) :
  (forall w, in_router (m w).2 = in_router w) -> keeps (fun w => P (in_router w)) m.
Proof. intros Hm w Hw. by rewrite Hm. Qed.
Lemma on_delivery_router {A} (f : D -> result hub_error (A * D)) (w : ingress) : in_router (on_delivery f w).2 = in_router w.
Proof. unfold on_delivery. by destruct (f _) as [[]|]. Qed.
Lemma hub_queue_router edge_id body (w : ingress) : in_router (hub_queue edge_id body w).2 = in_router w.
Proof. unfold hub_queue. by destruct (queue _ _ _) as [[]|]. Qed.

Lemma keeps_shut_delivery session_id {A} (f : D -> result hub_error (A * D)) : keeps (shut session_id) (on_delivery f).
Proof. intros w (r & Hr & Hg). exists r. by rewrite on_delivery_router. Qed.
Lemma keeps_shut_queue session_id edge_id body : keeps (shut session_id) (hub_queue edge_id body).
Proof. intros w (r & Hr & Hg). exists r. by rewrite hub_queue_router. Qed.
Lemma keeps_shut_router session_id m : keeps (revoked_in session_id) m -> keeps (shut session_id) (on_router m).
Proof.
  intros Hm w (r & Hr & Hg). unfold on_router. rewrite Hr. specialize (Hm r Hg). destruct (m r) as [x r']. by exists r'.
Qed.

Lemma keeps_revoked session_id {A} (m : act router A) : (forall r, rt_grants (m r).2 = rt_grants r) -> keeps (revoked_in session_id) m.
Proof. intros Hm r (g & Hg & Hv). exists g. by rewrite Hm. Qed.
Lemma keeps_register session_id now g : keeps (revoked_in session_id) (register now g).
Proof.
  intros r (g0 & Hg0 & Hv). unfold register. repeat (case_decide; [by exists g0|]). cbv zeta.
  destruct (decide (rg_session_id g = session_id)) as [E|E].
  - rewrite E, Hg0. destruct (decide (g0 <> g)) as [|Eg]; [by exists g0|]. apply dec_stable in Eg as <-. exists g0. cbn. by rewrite lookup_insert_eq.
  - assert (forall r', r' = (writes (fun r => r <| rt_grants := <[rg_session_id g := g]> (rt_grants r) |>) r).2 -> revoked_in session_id r') as Hw.
    { intros r' ->. exists g0. cbn. by rewrite lookup_insert_ne. }
    destruct (rt_grants r !! rg_session_id g); [case_decide; [by exists g0|]|]; by apply Hw.
Qed.
Lemma revoke_relay_grants session_id r : rt_grants (revoke_relay session_id r) =
  match rt_grants r !! session_id with
  | Some g => <[session_id := g <| rg_revoked := true |>]> (rt_grants r)
  | None => rt_grants r
  end.
Proof. unfold revoke_relay. by destruct (rt_grants r !! session_id), (rt_connections _ !! session_id). Qed.
Lemma revoke_relay_revokes session_id r : is_Some (rt_grants r !! session_id) -> revoked_in session_id (revoke_relay session_id r).
Proof. intros [g Hg]. exists (g <| rg_revoked := true |>). by rewrite revoke_relay_grants, Hg, lookup_insert_eq. Qed.
Lemma keeps_revoke session_id other : keeps (revoked_in session_id) (writes (revoke_relay other)).
Proof.
  intros r (g & Hg & Hv). cbn. destruct (decide (other = session_id)) as [->|E]; [by apply revoke_relay_revokes; eexists|].
  exists g. rewrite revoke_relay_grants. destruct (rt_grants r !! other); [by rewrite lookup_insert_ne|done].
Qed.
Lemma authenticate_grants now session_id token r : rt_grants (authenticate now session_id token r).2 = rt_grants r.
Proof. unfold authenticate. repeat (case_match || case_decide); try done. cbn. by destruct (rt_connections r !! session_id). Qed.
Lemma on_edge_message_grants now edge_id message r : rt_grants (on_edge_message now edge_id message r).2 = rt_grants r.
Proof.
  unfold on_edge_message. destruct message.2 as [[| | | | |frame| |]|]; try done. destruct (rt_grants r !! _) as [g|]; [|done].
  destruct (_ ≫= _) as [[i c]|]; [|done]. case_decide; [done|]. unfold bind, of_result. destruct (_validate_frame _ _); [|done].
  by case_decide.
Qed.
Lemma receive_grants i r : rt_grants (receive i r).2 = rt_grants r.
Proof. unfold receive. by repeat (case_match || case_decide). Qed.

#[local] Hint Resolve keeps_shut_delivery keeps_shut_queue keeps_shut_router keeps_register keeps_revoke : act.

Lemma keeps_shut_send session_id i request_id kind capability payload :
  keeps (shut session_id) (send float_repr i request_id kind capability payload).
Proof. unfold send, from_browser. act_keeps. Qed.
Lemma keeps_shut_event session_id event_type payload fresh :
  keeps (shut session_id) (handle_debug_event py_repr fromisoformat event_type payload fresh).
Proof.
  unfold handle_debug_event, queue_from_event, revoke_from_event, queue_grant. act_keeps. apply keeps_shut_router. act_keeps.
Qed.

Lemma shut_step session_id w w' : router_step w w' -> shut session_id w -> shut session_id w'.
Proof.
  intros Hs Hw. destruct Hs as [g r w Hr|id token r w Hr|id r w Hr|e m r w Hr|i r w Hr|i id kind capability payload w|type payload fresh w|
    hub delivery now history w].
  all: try (destruct Hw as (r0 & Hr0 & Hg); assert (r0 = r) as -> by congruence; eexists; split; [reflexivity|]).
  - by apply keeps_register.
  - apply keeps_revoked; [intros r'; apply authenticate_grants|done].
  - by apply (keeps_revoke session_id id r).
  - apply keeps_revoked; [intros r'; apply on_edge_message_grants|done].
  - apply keeps_revoked; [intros r'; apply receive_grants|done].
  - by apply keeps_shut_send.
  - by apply keeps_shut_event.
  - exact Hw.
Qed.

(** Once a debug session known to the router was revoked, its browser
    handles are dead for good: whatever is registered, authenticated, sent,
    received or reported by an edge later, no token opens the session again,
    and a frame sent through a handle that was opened before, however long
    ago, is refused and queues nothing. *)
Theorem router_revocation_is_final (w w' : ingress) (session_id : string) (r : router)
    (Hr : in_router w = Some r) (Hk : is_Some (rt_grants r !! session_id))
    (Hs : rtc router_step (w <| in_router := Some (revoke_relay session_id r) |>) w') :
  exists r', in_router w' = Some r'
    /\ (forall token, is_ok (authenticate (in_now w') session_id token r').1 = false)
    /\ forall i c request_id kind capability payload, rt_objects r' !! i = Some c -> rg_session_id (rc_grant c) = session_id ->
         exists e, send float_repr i request_id kind capability payload w' = (Err e, w').
Proof.
  assert (shut session_id w') as (r' & Hr' & g & Hg & Hv).
  { assert (forall w1 w2, rtc router_step w1 w2 -> shut session_id w1 -> shut session_id w2) as Hi.
    { induction 1; eauto using shut_step. }
    eapply Hi; [exact Hs|]. exists (revoke_relay session_id r). split; [done|by apply revoke_relay_revokes]. }
  exists r'. split; [done|]. split.
  - intros token. unfold authenticate. case_decide; [done|]. rewrite Hg. by rewrite decide_True by by left.
  - intros i c request_id kind capability payload Hc Hi. unfold send, bind at 1. cbn. rewrite Hr'. cbn. rewrite Hc.
    case_decide; [by eexists|]. unfold bind, of_result at 1. destruct (_encode_payload _ _) as [encoded|]; [|by eexists].
    unfold from_browser, bind at 1, of_result. destruct (_validate_frame _ _); [|by eexists]. unfold bind at 1. cbn. rewrite Hr', Hi, Hg.
    rewrite decide_True; [by eexists|]. destruct (decide (rc_grant c = g)) as [->|]; [by right; left|left; congruence].
Qed.

End Router.

(** A browser whose session is revoked between two frames. *)
Definition sample_token : string := "0123456789abcdef0123456789abcdef".
Definition sample_payload : list (string * json) :=
  [("sessionId", JStr "s-1"); ("edgeId", JStr "edge"); ("deviceId", JStr "device-1"); ("capabilities", JArr [JStr "view.frame"; JStr "input.tap"]);
   ("expiresAt", JStr "later"); ("relayToken", JStr sample_token); ("leaseId", JStr "lease-1"); ("fencingToken", JFloat 7)].
Definition sample_clock (s : string) : option Z := if decide (s = "later") then Some 1000 else None.
Definition no_repr : json -> string := fun _ => "".

Definition sample_ingress : ingress Memory.store MemoryDelivery.store := mkIngress ∅ ∅ (Some new_router) 0 [].
Definition granted_ingress : ingress Memory.store MemoryDelivery.store :=
  (handle_debug_event no_repr sample_clock "debug.session.grant_requested" sample_payload "" sample_ingress).2.
Definition opened_router : router := (authenticate 0 "s-1" sample_token (default new_router (in_router granted_ingress))).2.
Definition opened_ingress : ingress Memory.store MemoryDelivery.store := granted_ingress <| in_router := Some opened_router |>.
Definition closed_ingress : ingress Memory.store MemoryDelivery.store :=
  opened_ingress <| in_router := Some (revoke_relay "s-1" opened_router) |>.

Lemma router_revocation_is_final_witness :
  is_ok (send no_float 0 "r-1" "tap" "input.tap" (JObj []) opened_ingress).1 = true
  /\ is_ok (authenticate 0 "s-1" sample_token (revoke_relay "s-1" opened_router)).1 = false.
Proof.
  split; [vm_compute; reflexivity|].
  destruct (router_revocation_is_final no_repr sample_clock no_float opened_ingress closed_ingress "s-1" opened_router) as (r' & Hr' & Ha & _).
  - reflexivity.
  - vm_compute. by eexists.
  - apply rtc_refl.
  - change (in_router closed_ingress) with (Some (revoke_relay "s-1" opened_router)) in Hr'. apply Some_inj in Hr'. rewrite <- Hr' in Ha.
    exact (Ha sample_token).
Defined.
