(* ===== verification/DebugRelay.v ===== *)
(** * The browser's debug WebSocket at the edge hub: debug_relay.py

    [DebugRelay] lets a browser that knows the relay token of a session send
    commands to the session's edge, and sends back what the edge reports.
    [process] is the hub with the delivery store and the relay, as main.py
    wires them. A connection of a browser is a number; [rl_output] is what was
    sent to the browsers. A coroutine is atomic between two reads of a socket:
    sending never waits.

    [json_loads] is [json.loads] of a text or of UTF-8 bytes, [None] where it
    raises; [peers_of] is the order in which a set of sockets is iterated;
    [gone] are the sockets on which sending raises [ConnectionClosedOK] or
    [ConnectionClosedError]. *)

From stdpp Require Import base gmap strings list.
From Stdlib Require Import ZArith QArith_base Lia Ascii.
From S2P Require Import Prelude PyStd Rows PyJson EdgeMessages EdgeHub DebugDelivery.

Open Scope Z_scope.

Definition AUTH_TYPE : string := "debug.auth".
Definition ALLOWED_MESSAGE_TYPES : list string := ALLOWED_DEBUG_CAPABILITIES.
Definition ALLOWED_EDGE_EVENT_TYPES : list string := ["frame"; "layout"; "evidence"; "debug.ack"]%string.
Definition _CLOSE_UNAUTHENTICATED : Z := 4401.
Definition _CLOSE_FORBIDDEN : Z := 4403.
Definition _CLOSE_POLICY : Z := 4408.
Definition _CLOSE_TOO_LARGE : Z := 1009.

(** ** Configuration and state *)

Record DebugRelayConfig := mkRelayConfig {
  rk_origins : list string;
  rk_max_connections : Z;
  rk_max_message_bytes : Z;
  rk_max_inbound_bytes : Z;
  rk_max_outbound_bytes : Z;
  rk_max_messages_per_second : Z;
  rk_idle_timeout : Z;
}.
(** The defaults; the timeout in microseconds. *)
Definition default_relay_config (origins : list string) : DebugRelayConfig :=
  mkRelayConfig origins 32 (256 * 1024) (4 * 1024 * 1024) (16 * 1024 * 1024) 20 90000000.
(** [__post_init__]. *)
Definition check_relay_config (c : DebugRelayConfig) : result hub_error () :=
  raise_if rk_origins c = [] with HubValueError "at least one WebSocket Origin must be allowlisted" in
  raise_if Exists (fun origin => origin = "" \/ origin = "*") (rk_origins c)
    with HubValueError "wildcard or empty WebSocket Origin is forbidden" in
  raise_if rk_max_connections c < 1 \/ rk_max_message_bytes c < 1024 with HubValueError "invalid relay limits" in
  raise_if rk_max_messages_per_second c < 1 \/ rk_idle_timeout c <= 0 with HubValueError "invalid relay rate/idle limits" in
  Ok tt.

Record _Grant := mkGrant {
  gt_session_id : string; gt_device_id : string; gt_edge_id : string; gt_capabilities : gset string; gt_expires_at : Z;
  gt_token_digest : string; gt_lease_id : string; gt_fencing_token : Z;
}.

(** The locals of [_run_messages]. *)
Record loop := mkLoop { lo_grant : _Grant; lo_window_start : Z; lo_count : Z; lo_inbound : Z }.
#[export] Instance loop_eta : Eta loop := fun l => mkLoop (lo_grant l) (lo_window_start l) (lo_count l) (lo_inbound l).

(** The locals of [handle_connection]; without a loop it waits for the first
    message. *)
Record socket := mkSocket { so_session_id : option string; so_loop : option loop }.

Inductive output : Type :=
| Sent (text : string)
| Closed (code : Z) (reason : string).

Record relay := mkRelay {
  rl_free : Z;
  rl_sessions : gmap string (gset nat);
  rl_command_sessions : gmap string string;
  rl_outbound_bytes : gmap nat Z;
  rl_sockets : gmap nat socket;
  rl_output : list (nat * output);
}.
#[export] Instance relay_eta : Eta relay := fun r => mkRelay (rl_free r) (rl_sessions r) (rl_command_sessions r)
  (rl_outbound_bytes r) (rl_sockets r) (rl_output r).
Definition new_relay (config : DebugRelayConfig) : relay := mkRelay (rk_max_connections config) ∅ ∅ ∅ ∅ [].

Inductive incoming : Type :=
| Text (s : string)
| Binary (bytes : string)
| Idle
| HangUp (ok : bool).

(** The wire kind of a capability. *)
Definition command_kind (capability : string) : option string :=
  if decide (capability = "input.tap") then Some "tap"
  else if decide (capability = "input.swipe") then Some "swipe"
  else if decide (capability = "input.text") then Some "text"
  else if decide (capability = "view.frame") then Some "frame"
  else if decide (capability = "view.layout") then Some "layout"
  else if decide (capability = "evidence.capture") then Some "evidence.request"
  else if decide (capability = "debug.steps") then Some "steps"
  else if decide (capability = "debug.variables") then Some "variables"
  else None.

Definition wire_type (capability : string) : option string :=
  if decide (capability = "view.frame") then Some "frame"
  else if decide (capability = "view.layout") then Some "layout"
  else if decide (capability = "evidence.capture") then Some "evidence"
  else if decide (capability = "debug.ack") then Some "debug.ack"
  else None.

Section Relay.
Context (config : DebugRelayConfig) (float_repr : Q -> string) (json_loads : string -> option json)
  (peers_of : gset nat -> list nat).
Abbreviation closings := (nat -> option bool).

(** ** Sending *)

Definition emit (ws : nat) (o : output) (r : relay) : relay := r <| rl_output := rl_output r ++ [(ws, o)] |>.
Definition _close (ws : nat) (code : Z) (reason : string) : act relay () := writes (emit ws (Closed code reason)).

Definition _send_text (gone : closings) (ws : nat) (encoded : string) : act relay () :=
  let size := byte_len encoded in
  fail_if size > rk_max_message_bytes config with DebugRelayError "outbound message too large";;
  before <-- reads (fun r => default 0 (rl_outbound_bytes r !! ws));;
  let total := before + size in
  fail_if total > rk_max_outbound_bytes config with DebugRelayError "outbound budget exceeded";;
  writes (fun r => r <| rl_outbound_bytes := <[ws := total]> (rl_outbound_bytes r) |>);;;
  fail_if size > rk_max_outbound_bytes config with DebugRelayError "outbound budget exceeded";;
  match gone ws with
  | Some ok => raise (if (ok : bool) then ConnectionClosedOK else ConnectionClosedError)
  | None => writes (emit ws (Sent encoded))
  end.
Definition _send_json (gone : closings) (ws : nat) (value : list (string * json)) : act relay () :=
  _send_text gone ws (json_text float_repr (JObj value)).

Fixpoint send_each (gone : closings) (peers : list nat) (encoded : string) : act relay () :=
  match peers with
  | [] => ret tt
  | peer :: peers => _send_text gone peer encoded;;; send_each gone peers encoded
  end.

Definition publish_edge_event (gone : closings) (command_id : string) (event : list (string * json)) : act relay () := fun r =>
  match rl_command_sessions r !! command_id with
  | None => ret tt r
  | Some session_id =>
      match jget "type" event ≫= as_str with
      | None => ret tt r
      | Some event_type =>
          if decide (event_type ∉ ALLOWED_EDGE_EVENT_TYPES) then ret tt r
          else
            let encoded := json_text float_repr (JObj event) in
            if decide (byte_len encoded > rk_max_message_bytes config) then ret tt r
            else send_each gone (peers_of (default ∅ (rl_sessions r !! session_id))) encoded r
      end
  end.

(** ** What the edge reports *)

Definition _accept_edge_message (gone : closings) (edge_id : string) (message : EdgeToCloud) : act relay () :=
  match message.2 with
  | Some (EB_relay_frame frame) =>
      match json_loads (rf_payload frame) with
      | Some (JObj payload) =>
          match wire_type (rf_capability frame) with
          | None => ret tt
          | Some wire_type =>
              publish_edge_event gone (rf_request_id frame)
                (jset "commandId" (JStr (rf_request_id frame)) (jset "type" (JStr wire_type) payload))
          end
      | _ => ret tt
      end
  | Some (EB_command_ack ack) =>
      publish_edge_event gone (ack_command_id ack)
        [("type", JStr "debug.ack"); ("commandId", JStr (ack_command_id ack)); ("state", JStr (ack_state ack));
         ("errorCode", JStr (ack_error_code ack)); ("detail", JStr (ack_detail ack))]
  | Some (EB_evidence_ready command_id evidence_id kind sha256 size) =>
      publish_edge_event gone command_id
        [("type", JStr "evidence"); ("commandId", JStr command_id); ("evidenceId", JStr evidence_id); ("kind", JStr kind);
         ("sha256", JStr sha256); ("size", JInt size)]
  | _ => ret tt
  end.

(** ** What a browser sends *)

Definition _parse_message (raw : incoming) : result hub_error (list (string * json)) :=
  match raw with
  | Text s =>
      match json_loads s with
      | None => Err (DebugRelayError "message must be JSON")
      | Some (JObj o) => Ok o
      | Some _ => Err (DebugRelayError "message must be a JSON object")
      end
  | _ => Err (DebugRelayError "binary messages are not supported")
  end.

(** [await asyncio.wait_for(websocket.recv(), ...)]: the size, or what it raises. *)
Definition received_size (raw : incoming) : result hub_error Z :=
  match raw with
  | Text s | Binary s => Ok (byte_len s)
  | Idle => Err WaitTimeout
  | HangUp ok => Err (if ok then ConnectionClosedOK else ConnectionClosedError)
  end.

(** [_recv_json(websocket, auth=True)]. *)
Definition _recv_json (raw : incoming) : result hub_error (list (string * json)) :=
  let? size := received_size raw in
  raise_if size > rk_max_message_bytes config with DebugRelayError "message too large" in
  let? message := _parse_message raw in
  raise_if jget "type" message ≫= as_str <> Some AUTH_TYPE with DebugRelayError "first message must be debug.auth" in
  Ok message.

Definition invalid_session : hub_error := DebugRelayError "invalid debug session".
Definition expired_session : hub_error := DebugRelayError "debug session is expired or revoked".
Definition closed_states : list string := ["REVOKED"; "EXPIRED"; "FAILED"]%string.

Definition grant_of_record (record : DebugDeliveryRecord) (digest : string) : _Grant :=
  mkGrant (dd_session_id record) (dd_device_id record) (dd_edge_id record) (list_to_set (dd_capabilities record))
    (dd_expires_at record) digest (str_or (dd_lease_id record) "") (default 0 (dd_fencing_token record)).

Definition _authenticate {D} `{DeliveryStore D} (store : D) (now : Z) (message : list (string * json))
    : result hub_error (_Grant * string) :=
  raise_if jget "type" message ≫= as_str <> Some AUTH_TYPE with DebugRelayError "first message must be debug.auth" in
  match jget "sessionId" message ≫= as_str, jget "token" message ≫= as_str with
  | Some session_id, Some token =>
      raise_if session_id = "" with DebugRelayError "sessionId and token are required" in
      need record := get_delivery session_id store orelse invalid_session in
      need digest := dd_relay_token_digest record orelse invalid_session in
      raise_if digest <> hexdigest token with invalid_session in
      raise_if dd_state record ∈ closed_states \/ dd_expires_at record <= now with expired_session in
      Ok (grant_of_record record digest, token)
  | _, _ => Err (DebugRelayError "sessionId and token are required")
  end.

(** ** The process *)

Section Process.
Context {S D : Type} `{HubStore S, DeliveryStore D}.
Context (py_repr : json -> string) (fromisoformat : string -> option Z).

Record process := mkProcess { pr_ingress : ingress S D; pr_relay : relay }.
#[export] Instance process_eta : Eta process := fun p => mkProcess (pr_ingress p) (pr_relay p).

Definition on_relay {A} (m : act relay A) : act process A := on_part pr_relay (fun r p => p <| pr_relay := r |>) m.
Definition on_ingress {A} (m : act (ingress S D) A) : act process A := on_part pr_ingress (fun w p => p <| pr_ingress := w |>) m.

(** [EdgeHubDebugTransport.send_command]; [fresh] is the token drawn. *)
Definition send_command (session_id device_id edge_id capability : string) (payload : list (string * json)) (fresh : string)
    : act process string :=
  let command_id := "debug/" +:+ session_id +:+ "/" +:+ fresh in
  match command_kind capability with
  | None => raise (SessionError "debug capability has no relay mapping")
  | Some kind =>
      on_ingress (hub_queue edge_id (CB_relay_frame (mkRelayFrame session_id device_id command_id capability kind
                                                       (json_text float_repr (JObj payload)) false)));;;
      ret command_id
  end.

Definition session_matches (session_id : string) (message : list (string * json)) : bool :=
  match jget "sessionId" message with
  | None => true
  | Some (JStr s) => bool_decide (s = session_id)
  | Some _ => false
  end.
Definition command_payload (message : list (string * json)) : list (string * json) :=
  filter (fun kv => kv.1 ∉ ["type"; "sessionId"]%string) message.

Definition set_socket (ws : nat) (s : socket) (r : relay) : relay := r <| rl_sockets := <[ws := s]> (rl_sockets r) |>.

(** One round of [_run_messages], answering whether there is another;
    [clock] is [time.monotonic()], in microseconds. *)
Definition run_message (gone : closings) (ws : nat) (raw : incoming) (clock : Z) (fresh : string) (l : loop) : act process bool :=
  size <-- of_result (received_size raw);;
  if decide (size > rk_max_message_bytes config)
  then on_relay (_close ws _CLOSE_TOO_LARGE "message too large");;; ret false
  else
    let inbound := lo_inbound l + size in
    if decide (inbound > rk_max_inbound_bytes config)
    then on_relay (_close ws _CLOSE_POLICY "inbound budget exceeded");;; ret false
    else
      let fresh_window := bool_decide (clock - lo_window_start l >= 1000000) in
      let window_start := if fresh_window then clock else lo_window_start l in
      let count := (if fresh_window then 0 else lo_count l) + 1 in
      if decide (count > rk_max_messages_per_second config)
      then on_relay (_close ws _CLOSE_POLICY "rate limit exceeded");;; ret false
      else
        let grant := lo_grant l in
        message <-- of_result (_parse_message raw);;
        now <-- reads (fun p => in_now (pr_ingress p));;
        fail_if gt_expires_at grant <= now with expired_session;;
        match jget "type" message ≫= as_str with
        | None => raise (DebugRelayError "message type is not allowed")
        | Some message_type =>
            fail_if message_type ∉ ALLOWED_MESSAGE_TYPES with DebugRelayError "message type is not allowed";;
            fail_if session_matches (gt_session_id grant) message = false with DebugRelayError "session does not match grant";;
            fail_if message_type ∉ gt_capabilities grant with DebugRelayError "capability is not granted";;
            command_id <-- send_command (gt_session_id grant) (gt_device_id grant) (gt_edge_id grant) message_type
                             (command_payload message) fresh;;
            on_relay (writes (fun r => r <| rl_command_sessions := <[command_id := gt_session_id grant]> (rl_command_sessions r) |>));;;
            on_relay (_send_json gone ws [("type", JStr "debug.accepted"); ("commandId", JStr command_id)]);;;
            on_relay (writes (set_socket ws (mkSocket (Some (gt_session_id grant)) (Some (mkLoop grant window_start count inbound)))));;;
            ret true
        end.

(** From the first message to the first round of [_run_messages]. *)
Definition first_message (gone : closings) (ws : nat) (raw : incoming) (clock : Z) : act process bool :=
  message <-- of_result (_recv_json raw);;
  p <-- reads id;;
  presented <-- of_result (_authenticate (in_delivery (pr_ingress p)) (in_now (pr_ingress p)) message);;
  let '(grant, token) := presented in
  on_ingress (writes (fun w => w <| in_history := in_history w ++ [Presented ws (gt_session_id grant) token] |>));;;
  on_relay (writes (fun r =>
    set_socket ws (mkSocket (Some (gt_session_id grant)) None)
      (r <| rl_sessions := <[gt_session_id grant := {[ws]} ∪ default ∅ (rl_sessions r !! gt_session_id grant)]> (rl_sessions r) |>)));;;
  on_relay (_send_json gone ws [("type", JStr "ready"); ("sessionId", JStr (gt_session_id grant))]);;;
  on_relay (writes (set_socket ws (mkSocket (Some (gt_session_id grant)) (Some (mkLoop grant clock 0 0)))));;;
  ret true.

(** The [finally] clause. *)
Definition finish_connection (ws : nat) (r : relay) : relay :=
  let r := r <| rl_outbound_bytes := delete ws (rl_outbound_bytes r) |> in
  let r := match rl_sockets r !! ws ≫= so_session_id with
           | None => r
           | Some session_id =>
               match rl_sessions r !! session_id with
               | None => r
               | Some peers =>
                   let peers := peers ∖ {[ws]} in
                   r <| rl_sessions := if decide (peers = ∅) then delete session_id (rl_sessions r)
                                       else <[session_id := peers]> (rl_sessions r) |>
               end
           end in
  r <| rl_free := rl_free r + 1 |> <| rl_sockets := delete ws (rl_sockets r) |>.

(** The [except] clauses, with what still escapes. *)
Definition except_closing (ws : nat) (e : hub_error) : act process () :=
  match e with
  | DebugRelayError detail => on_relay (_close ws _CLOSE_UNAUTHENTICATED detail)
  | WaitTimeout => on_relay (_close ws _CLOSE_POLICY "idle timeout")
  | ConnectionClosedOK => ret tt
  | e => raise e
  end.

(** [handle_connection] up to its first read; [path] is the request's and
    [header] looks a header up. *)
Definition connect (ws : nat) (path : string) (header : string -> option string) : act relay () := fun r =>
  let origin := str_or (header "Origin") (default "" (header "origin")) in
  if decide (path <> "/debug") then _close ws _CLOSE_POLICY "debug endpoint required" r
  else if decide (origin = "" \/ origin ∉ rk_origins config) then _close ws _CLOSE_FORBIDDEN "origin not allowed" r
  else if decide (rl_free r = 0) then _close ws _CLOSE_POLICY "connection limit reached" r
  else (Ok tt, set_socket ws (mkSocket None None) (r <| rl_free := rl_free r - 1 |>)).

(** [handle_connection] from one read to the next, or to its end. *)
Definition receive_message (gone : closings) (ws : nat) (raw : incoming) (clock : Z) (fresh : string) (s : socket)
    : act process () := fun p =>
  let round := match so_loop s with
               | None => first_message gone ws raw clock
               | Some l => run_message gone ws raw clock fresh l
               end in
  match round p with
  | (Ok true, p) => (Ok tt, p)
  | (Ok false, p) => (Ok tt, p <| pr_relay := finish_connection ws (pr_relay p) |>)
  | (Err e, p) => let '(r, p) := except_closing ws e p in (r, p <| pr_relay := finish_connection ws (pr_relay p) |>)
  end.

(** The handlers of the hub, in the order main.py registers them. *)
Definition edge_handlers (gone : closings) : list (edge_handler process) :=
  [ (fun edge_id message => on_ingress (accept_edge_message edge_id message));
    (fun edge_id message => on_relay (_accept_edge_message gone edge_id message)) ].

(** [EdgeHub.accept] on this process. *)
Definition accept_message (gone : closings) (edge_id : string) (message : EdgeToCloud) : act process bool := fun p =>
  let '(r, (s, p)) := accept (edge_handlers gone) edge_id message (in_hub (pr_ingress p)) p in
  (r, p <| pr_ingress := (pr_ingress p) <| in_hub := s |> |>).
End Process.
End Relay.
