(* ===== verification/RelayRules.v ===== *)
(** * What the browser's relay guarantees

    The machine of the hub process of DebugRelay.v: events of the control
    service, messages of edges and browsers in any interleaving, over any
    store of the streams and the SQLite delivery store. Theorems on it: a
    browser's frame follows a grant and a token, a revocation closes the
    ingress, budgets hold; then runs on which it fails its purpose. *)

From stdpp Require Import base gmap strings list.
From Stdlib Require Import ZArith QArith_base Lia Ascii.
From S2P Require Import EdgeControl.
From S2P Require Import Prelude PyStd Rows PyJson EdgeMessages EdgeHub DebugDelivery DebugRelay.

Open Scope Z_scope.

(** ** The machine *)

Section Machine.
Context {S : Type} `{HubStoreSpec S}.
Context (config : DebugRelayConfig) (float_repr : Q -> string) (json_loads : string -> option json)
  (peers_of : gset nat -> list nat) (py_repr : json -> string) (fromisoformat : string -> option Z).
Abbreviation ingress := (ingress S SqliteDelivery.store).
Abbreviation process := (process (S := S) (D := SqliteDelivery.store)).

(** The operations of the store the streams of the edges use: opening,
    reading and closing a generator, and recording what an edge sends. *)
Definition stream_op (op : hub_op) : bool := match op with HAppend _ _ => false | _ => true end.

(** The clock is set; the control service delivers an event; an edge's message
    is accepted, among those that [comes] lets through; a browser connects, or
    something arrives from one; the streams move. *)
Inductive hub_step (comes : EdgeToCloud -> Prop) : process -> process -> Prop :=
| HS_clock now p : hub_step comes p (p <| pr_ingress := (pr_ingress p) <| in_now := now |> |>)
| HS_event identity enabled event_id aggregate_id event_type payload fresh p :
    hub_step comes p (p <| pr_ingress := (DeliverDebugEvent py_repr fromisoformat identity enabled event_id aggregate_id event_type payload
                                      fresh (pr_ingress p)).2 |>)
| HS_edge gone edge_id message p : comes message -> hub_step comes p (accept_message config float_repr json_loads peers_of gone edge_id message p).2
| HS_connect ws path header p : rl_sockets (pr_relay p) !! ws = None -> ws ∉ (rl_output (pr_relay p)).*1 ->
    hub_step comes p (on_relay (connect config ws path header) p).2
| HS_message gone ws raw clock fresh s p : rl_sockets (pr_relay p) !! ws = Some s ->
    hub_step comes p (receive_message config float_repr json_loads gone ws raw clock fresh s p).2
| HS_stream op p : stream_op op = true -> tame_op op (view (in_hub (pr_ingress p))) ->
    hub_step comes p (p <| pr_ingress := (pr_ingress p) <| in_hub := (do_op op (in_hub (pr_ingress p))).2 |> |>).

Definition new_process : process := mkProcess (mkIngress empty_store [] None 0 []) (new_relay config).

(** ** The invariant *)

(** The messages queued for an edge. *)
Definition sent_to (edge_id : string) (h : list hub_event) : list CloudToEdge :=
  omap (fun ev => match ev with Queued _ e m => if decide (e = edge_id) then Some m else None | Presented _ _ _ => None end) h.
(** The store cannot number another message of that edge. *)
Definition exhausted (h : list hub_event) (edge_id : string) : Prop := ~ fits limit (Z.of_nat (length (sent_to edge_id h)) + 1).

(** The grant of the record was queued, or could not be. *)
Definition granted (h : list hub_event) (r : DebugDeliveryRecord) : Prop :=
  exhausted h (dd_edge_id r) \/ exists at_ n g, Queued at_ (dd_edge_id r) (n, Some (CB_debug_grant g)) ∈ h
    /\ dg_session_id g = dd_session_id r /\ dg_device_id g = dd_device_id r /\ dg_capabilities g = dd_capabilities r
    /\ dg_expires_at g = dd_expires_at r /\ dd_relay_token_digest r = Some (hexdigest (dg_relay_token g)).

(** What a frame queued at [at_] for [edge_id] as message [n] needs. *)
Definition authorised (h : list hub_event) (at_ : Z) (edge_id : string) (n : Z) (f : relay_frame) : Prop :=
  exists granted_at m g ws token,
    Queued granted_at edge_id (m, Some (CB_debug_grant g)) ∈ h /\ m < n
    /\ dg_session_id g = rf_session_id f /\ dg_device_id g = rf_device_id f /\ rf_capability f ∈ dg_capabilities g
    /\ command_kind (rf_capability f) = Some (rf_kind f) /\ at_ < dg_expires_at g
    /\ Presented ws (rf_session_id f) token ∈ h /\ hexdigest token = hexdigest (dg_relay_token g).

Definition frames_ok (h : list hub_event) : Prop :=
  forall i at_ e n f, h !! i = Some (Queued at_ e (n, Some (CB_relay_frame f))) -> authorised (take i h) at_ e n f.

Record ingress_ok (w : ingress) : Prop := mkIngressOk {
  io_hub : store_ok (in_hub w);
  io_router : in_router w = None;
  io_sequences : forall at_ e n b, Queued at_ e (n, b) ∈ in_history w -> n <= v_last_cloud (view (in_hub w) e);
  io_records : forall id r, SqliteDelivery.get id (in_delivery w) = Some r -> dd_session_id r = id /\ granted (in_history w) r;
  io_frames : frames_ok (in_history w);
  io_counts : forall e, v_last_cloud (view (in_hub w) e) = Z.of_nat (length (sent_to e (in_history w)));
}.

Definition opened (h : list hub_event) (ws : nat) (g : _Grant) : Prop :=
  exists r token, granted h r /\ g = grant_of_record r (hexdigest token) /\ dd_relay_token_digest r = Some (hexdigest token)
    /\ Presented ws (dd_session_id r) token ∈ h.
Definition sockets_ok (h : list hub_event) (r : relay) : Prop :=
  forall ws s l, rl_sockets r !! ws = Some s -> so_loop s = Some l -> opened h ws (lo_grant l).
Definition process_ok (p : process) : Prop := ingress_ok (pr_ingress p) /\ sockets_ok (in_history (pr_ingress p)) (pr_relay p).

Lemma granted_mono h h' r : h `prefix_of` h' -> granted h r -> granted h' r.
Proof.
  intros [k ->] [Hx|(at_ & n & g & Hg & Hr)]; [left|right].
  - intros Hf. apply Hx. eapply fits_le; [|exact Hf]. unfold sent_to. rewrite omap_app, length_app. lia.
  - exists at_, n, g. split; [|done]. apply elem_of_app. by left.
Qed.
Lemma opened_mono h h' ws g : h `prefix_of` h' -> opened h ws g -> opened h' ws g.
Proof.
  intros Hp (r & token & Hr & Hg & Hd & Ht). exists r, token. split; [by eapply granted_mono|]. split; [done|]. split; [done|].
  destruct Hp as [k ->]. apply elem_of_app. by left.
Qed.
Lemma sockets_mono h h' r : h `prefix_of` h' -> sockets_ok h r -> sockets_ok h' r.
Proof. intros Hp Hs ws s l H1 H2. eapply opened_mono; [done|by eapply Hs]. Qed.

Lemma frames_snoc h ev : frames_ok h ->
  (forall at_ e n f, ev = Queued at_ e (n, Some (CB_relay_frame f)) -> authorised h at_ e n f) -> frames_ok (h ++ [ev]).
Proof.
  intros Hh Hev i at_ e n f Hi. apply lookup_snoc_Some in Hi as [[Hl Hi]|[-> Hi]].
  - rewrite take_app_le by lia. by apply Hh.
  - rewrite take_app_length. by apply Hev.
Qed.

(** Queueing a message. *)
Lemma hub_queue_ok edge_id body w : ingress_ok w ->
  (forall f, body = CB_relay_frame f -> ~ exhausted (in_history w) edge_id -> authorised (in_history w) (in_now w) edge_id (v_last_cloud (view (in_hub w) edge_id) + 1) f) ->
  ingress_ok (hub_queue edge_id body w).2 /\ in_history w `prefix_of` in_history (hub_queue edge_id body w).2.
Proof.
  intros [Hh Hr Hq Hd Hf Hc] Hb. unfold hub_queue, queue. destruct (decide (edge_id = "")) as [|Hne]; [by split; [split|]|].
  pose proof (append_spec (in_hub w) edge_id (Some body) Hh) as Ha. destruct (append_cloud edge_id (Some body) (in_hub w)) as [[m s]|];
    [|by split; [split|]]. case_decide as Dfit; [|done]. rewrite Hc in Dfit. destruct Ha as [-> [Hs Hv]]. cbn. split; [split; cbn|by apply prefix_app_r].
  - done.
  - done.
  - intros at_ e n b [Hin|Hin]%elem_of_app; rewrite Hv; case_decide as D; cbn.
    + subst e. specialize (Hq _ _ _ _ Hin). lia.
    + by eapply Hq.
    + apply list_elem_of_singleton in Hin. simplify_eq. lia.
    + apply list_elem_of_singleton in Hin. simplify_eq.
  - intros id r Hg. destruct (Hd id r Hg) as [? ?]. split; [done|]. eapply granted_mono; [|done]. by apply prefix_app_r.
  - apply frames_snoc; [done|]. intros at_ e n f [= <- <- <- ->]. apply Hb; [done|]. by intros Hx.
  - intros e. unfold sent_to. rewrite Hv, omap_app, length_app. cbn. fold (sent_to e (in_history w)). case_decide as D.
    + rewrite decide_True by done. subst e. cbn. rewrite Hc. lia.
    + rewrite decide_False by congruence. cbn. rewrite Hc. lia.
Qed.

Lemma update_ok id state e d n w : ingress_ok w ->
  ingress_ok (on_delivery (update_delivery id state e d n) w).2
  /\ in_history (on_delivery (update_delivery id state e d n) w).2 = in_history w.
Proof.
  intros [Hh Hr Hq Hd Hf Hc]. unfold on_delivery. cbn [update_delivery SqliteDelivery.delivery_store].
  destruct (SqliteDelivery.update id state e d n (in_delivery w)) as [[r s]|x] eqn:E; [|by split; [split|]].
  apply SqliteDeliverySpec.update_spec in E as [(r0 & Hr0 & ->) Hg]. split; [|done]. split; cbn -[SqliteDelivery.get]; [done..| |done|done].
  intros id' r. rewrite Hg. case_decide as D; [|apply Hd]. intros [= <-]. subst id'. destruct (Hd id r0 Hr0) as [Hid Hgr]. by split.
Qed.

Lemma queue_tail_ok edge_id message id state w : ingress_ok w ->
  let m := (stored <-- hub_queue edge_id (CB_debug_grant message);; on_delivery (update_delivery id state None None (Some stored.1)))%act in
  ingress_ok (m w).2 /\ in_history w `prefix_of` in_history (m w).2.
Proof.
  intros Hw. cbv zeta. unfold bind. destruct (hub_queue_ok edge_id (CB_debug_grant message) w Hw) as [H1 Hp]; [done|].
  destruct (hub_queue edge_id (CB_debug_grant message) w) as [[stored|e] w1]; [|done].
  destruct (update_ok id state None None (Some stored.1) w1 H1) as [H2 E]. split; [done|]. by rewrite E.
Qed.

Lemma allowed_storable q token : gq_capabilities q <> [] -> gq_capabilities q ⊆ ALLOWED_DEBUG_CAPABILITIES ->
  SqliteDelivery.int64 (dd_fencing_token (pending_record q token)) = true -> storable (pending_record q token).
Proof.
  intros Hn Ha Hf. split; [|split; [|done]]; cbn.
  - intros E. destruct (gq_capabilities q) as [|c l] eqn:Eq; [done|]. assert (c ∈ str_sorted (remove_dups (c :: l))) as Hc.
    { unfold str_sorted. apply elem_of_isort, elem_of_remove_dups. by left. } rewrite E in Hc. by apply elem_of_nil in Hc.
  - apply Forall_forall. intros c Hc. unfold str_sorted in Hc. rewrite elem_of_isort, elem_of_remove_dups in Hc. apply Ha in Hc.
    assert (Forall (fun x => str_contains_char "," x = false) ALLOWED_DEBUG_CAPABILITIES) as Hl by (repeat constructor).
    by eapply Forall_forall in Hl.
Qed.

(** A new record is stored with its grant queued, the hub being a working store. *)
Lemma new_record_ok q token d w : ingress_ok w -> gq_edge_id q <> "" -> (forall n, gq_fencing_token q = Some n -> 1 <= n) ->
  let r := pending_record q token in
  SqliteDelivery.int64 (dd_fencing_token r) = true ->
  (forall id, SqliteDelivery.get id d = if decide (id = dd_session_id r) then Some r else SqliteDelivery.get id (in_delivery w)) ->
  exists message, grant_message r token = Ok message
    /\ let w' := (hub_queue (gq_edge_id q) (CB_debug_grant message) (w <| in_delivery := d |>)).2 in
       ingress_ok w' /\ in_history w `prefix_of` in_history w'.
Proof.
  intros Hw He Hn r H64 Hg.
  assert (1 <= default 0 (dd_fencing_token r) < 2 ^ 63) as Hfe.
  { cbn in H64 |- *. apply bool_decide_eq_true in H64. split; [|lia]. unfold int_or. destruct (gq_fencing_token q) as [n|]; [|done].
    case_decide; [done|]. by apply Hn. }
  unfold grant_message. rewrite decide_False by lia. set (message := mkDebugGrant _ _ _ _ _ _ _). exists message.
  destruct (hub_queue_ok (gq_edge_id q) (CB_debug_grant message) w Hw) as [H1 Hp]; [done|].
  unfold hub_queue in *. unfold queue in *. rewrite decide_False in * by done.
  change (in_hub (w <| in_delivery := d |>)) with (in_hub w).
  pose proof (append_spec (in_hub w) (gq_edge_id q) (Some (CB_debug_grant message)) (io_hub w Hw)) as Hap.
  rewrite (io_counts w Hw) in Hap. destruct (append_cloud _ _ (in_hub w)) as [[m s]|].
  2: { split; [done|]. cbn [snd]. case_decide as Dfit; [done|]. split; [|done]. destruct Hw as [I1 I2 I3 I4 I5 I6].
       split; [exact I1|exact I2|exact I3| |exact I5|exact I6]. intros id r0. change (in_delivery (w <| in_delivery := d |>)) with d.
       rewrite Hg. case_decide as D; [|apply I4]. intros [= <-]. split; [done|]. by left. }
  case_decide; [|done]. destruct Hap as [-> _]. split; [done|].
  cbn [snd] in H1, Hp |- *. split; [|exact Hp]. destruct H1 as [I1 I2 I3 I4 I5 I6]. split; [exact I1|exact I2|exact I3| |exact I5|exact I6].
  intros id r0. set (w2 := set_with _ (set_with _ (w <| in_delivery := d |>))). change (in_delivery w2) with d. rewrite Hg.
  case_decide as D; [|apply I4]. intros [= <-]. split; [done|]. right.
  exists (in_now w), (v_last_cloud (view (in_hub w) (gq_edge_id q)) + 1), message. split; [|by repeat split].
  apply elem_of_app. right. by apply list_elem_of_singleton.
Qed.

Lemma queue_grant_ok q fresh w : ingress_ok w -> (forall n, gq_fencing_token q = Some n -> 1 <= n) ->
  ingress_ok (queue_grant q fresh w).2 /\ in_history w `prefix_of` in_history (queue_grant q fresh w).2.
Proof.
  intros Hw Hn. unfold queue_grant. assert (ingress_ok w /\ in_history w `prefix_of` in_history w) as Hsame by done.
  case_decide as De; [done|]. case_decide as Dc; [done|]. case_decide as Da; [done|]. cbv zeta.
  set (token := str_or _ _). case_decide; [done|]. rewrite bind_reads. case_decide; [done|]. set (r := pending_record q token).
  destruct (SqliteDelivery.create r (in_delivery w)) as [[u d]|x] eqn:Ec.
  2: { rewrite (bind_err _ _ w x w) by (unfold on_delivery; cbn -[SqliteDelivery.create]; by rewrite Ec). done. }
  rewrite (bind_ok _ _ w u (w <| in_delivery := d |>)) by (unfold on_delivery; cbn -[SqliteDelivery.create]; by rewrite Ec).
  rewrite (bind_ok _ _ _ tt (w <| in_delivery := d |>)) by (unfold on_router; cbn; by rewrite (io_router w Hw)).
  rewrite bind_of_result. unfold SqliteDelivery.create in Ec.
  destruct (tget SqliteDelivery.w_session_id (dd_session_id r) (in_delivery w)) as [row|] eqn:Et.
  - assert (w <| in_delivery := d |> = w) as ->.
    { case_decide; [done|]. injection Ec as _ <-. by destruct w. }
    destruct (grant_message r token); [|done]. by apply queue_tail_ok.
  - assert (SqliteDelivery.int64 (dd_fencing_token r) = true) as H64.
    { change (SqliteDelivery.int64 (dd_cloud_sequence r)) with true in Ec. by destruct (SqliteDelivery.int64 (dd_fencing_token r)). }
    pose proof (allowed_storable q token Dc Da H64) as Hst.
    assert (SqliteDelivery.create r (in_delivery w) = Ok (u, d)) as Ec' by (unfold SqliteDelivery.create; by rewrite Et).
    destruct (new_record_ok q token d w Hw) as (message & Em & Hw' & Hp);
      [tauto|done|done|exact (SqliteDeliverySpec.create_spec r _ _ _ Hst Ec')|]. cbv zeta in Hw', Hp.
    change (pending_record q token) with r in Em. rewrite Em.
    destruct (hub_queue (gq_edge_id q) (CB_debug_grant message) (w <| in_delivery := d |>)) as [[stored|x] w'] eqn:Eq;
      [|by rewrite (bind_err _ _ _ _ _ Eq)].
    rewrite (bind_ok _ _ _ _ _ Eq). cbn [snd] in Hw', Hp. destruct (update_ok (gq_session_id q) "QUEUED" None None (Some stored.1) w' Hw') as [H3 E].
    split; [done|]. by rewrite E.
Qed.

(** ** Events and edge messages *)

Lemma bind_ret_state {W A} (m : act W A) w : (bind m (fun _ => ret tt) w).2 = (m w).2.
Proof. unfold bind. by destruct (m w) as [[]]. Qed.
Lemma value_errors_state {W A} e (m : act W A) w : (value_errors_as e m w).2 = (m w).2.
Proof. unfold value_errors_as. by destruct (m w) as [[]]. Qed.

Lemma payload_fence payload q n : grant_of_payload py_repr fromisoformat payload = Some q -> gq_fencing_token q = Some n -> 1 <= n.
Proof.
  unfold grant_of_payload. intros Hq Hn. destruct (match jget "capabilities" payload with Some (JArr l) => mapM as_str l | _ => None end);
    [|done]. cbn [mbind option_bind] in Hq.
  destruct (py_str py_repr <$> jget "sessionId" payload); [|done]. destruct (py_str py_repr <$> jget "edgeId" payload); [|done].
  destruct (py_str py_repr <$> jget "deviceId" payload); [|done]. cbn [mbind option_bind] in Hq.
  destruct (_ ≫= fromisoformat); [|done]. cbn [mbind option_bind] in Hq.
  destruct (_optional_positive_int (jget "fencingToken" payload)) as [f|] eqn:Ef; [|done]. cbn [mbind option_bind] in Hq. injection Hq as <-.
  cbn in Hn. subst f. unfold _optional_positive_int in Ef. repeat (case_match || case_decide); simplify_eq; lia.
Qed.

Lemma revoke_from_event_ok payload w : ingress_ok w ->
  ingress_ok (revoke_from_event py_repr payload w).2 /\ in_history w `prefix_of` in_history (revoke_from_event py_repr payload w).2.
Proof.
  intros Hw. assert (ingress_ok w /\ in_history w `prefix_of` in_history w) as Hsame by done. unfold revoke_from_event.
  destruct (py_str py_repr <$> jget "sessionId" payload) as [id|]; [|done].
  destruct (py_str py_repr <$> jget "deviceId" payload) as [device|]; [|done]. case_decide; [done|].
  rewrite (bind_ok _ _ _ tt w) by (unfold on_router; by rewrite (io_router w Hw)).
  destruct (py_str py_repr <$> jget "edgeId" payload) as [e|]; [|done]. rewrite value_errors_state.
  destruct (hub_queue_ok e (CB_debug_revoke id device (revoke_reason py_repr payload)) w Hw) as [Hw1 Hp]; [done|].
  destruct (hub_queue e _ w) as [[m|x] w1] eqn:Eq; [|by rewrite (bind_err _ _ _ _ _ Eq)]. rewrite (bind_ok _ _ _ _ _ Eq), bind_reads.
  destruct (get_delivery id (in_delivery w1)); [|done].
  destruct (update_ok id "REVOKED" (Some "REVOKED") (Some (revoke_reason py_repr payload)) (Some m.1) w1 Hw1) as [Hw2 E].
  unfold bind. destruct (on_delivery _ w1) as [[]]; cbn in *; by rewrite E.
Qed.

Lemma event_ok identity enabled event_id aggregate_id event_type payload fresh w : ingress_ok w ->
  let w' := (DeliverDebugEvent py_repr fromisoformat identity enabled event_id aggregate_id event_type payload fresh w).2 in
  ingress_ok w' /\ in_history w `prefix_of` in_history w'.
Proof.
  intros Hw. assert (ingress_ok w /\ in_history w `prefix_of` in_history w) as Hsame by done. unfold DeliverDebugEvent.
  destruct identity; [done|]. repeat (case_decide; [done|]).
  assert (forall w', w' = (handle_debug_event py_repr fromisoformat event_type payload fresh w).2 ->
    ingress_ok w' /\ in_history w `prefix_of` in_history w') as Hh.
  { intros w' ->. unfold handle_debug_event. case_decide; rewrite bind_ret_state; [|by apply revoke_from_event_ok].
    unfold queue_from_event. destruct (grant_of_payload _ _ payload) as [q|] eqn:Eq; [|done]. rewrite value_errors_state.
    apply queue_grant_ok; [done|]. intros n. by apply (payload_fence payload). }
  destruct (handle_debug_event _ _ event_type payload fresh w) as [[u|[]] w']; by apply Hh.
Qed.

Lemma accept_edge_message_ok edge_id message w : ingress_ok w ->
  let w' := (accept_edge_message edge_id message w).2 in
  ingress_ok w' /\ in_history w' = in_history w /\ in_hub w' = in_hub w.
Proof.
  intros Hw. assert (ingress_ok w /\ in_history w = in_history w /\ in_hub w = in_hub w) as Hsame by done. unfold accept_edge_message.
  destruct message.2 as [[|ack| | | | | |]|]; try done. destruct (get_delivery (ack_command_id ack) (in_delivery w)) as [record|]; [|done].
  case_decide; [done|]. case_decide; [done|]. cbv zeta. rewrite bind_ret_state.
  edestruct update_ok as [Hw1 Hw2]; [exact Hw|]. split; [exact Hw1|]. split; [exact Hw2|].
  unfold on_delivery. by destruct (update_delivery _ _ _ _ _ _) as [[]|].
Qed.

(** The streams move without anything being queued. *)
Lemma same_streams_ok w s : ingress_ok w -> store_ok s ->
  (forall e, v_last_cloud (view s e) = v_last_cloud (view (in_hub w) e)) -> ingress_ok (w <| in_hub := s |>).
Proof.
  intros [Hh Hr Hq Hd Hf Hc] Hs Hv. split; cbn -[SqliteDelivery.get]; [done|done| |exact Hd|done|].
  - intros at_ e n b Hin. rewrite Hv. by eapply Hq.
  - intros e. by rewrite Hv.
Qed.

Lemma implements_last {A} s e (r : result hub_error (A * S)) rv a s' : implements view store_ok s e r rv -> r = Ok (a, s') ->
  (forall a v, rv = Ok (a, v) -> v_last_cloud v = v_last_cloud (view s e)) ->
  store_ok s' /\ forall e', v_last_cloud (view s' e') = v_last_cloud (view s e').
Proof.
  intros Hi -> Hv. destruct rv as [[a' v]|]; [|done]. destruct Hi as (_ & Hs & Hx). split; [done|]. intros e'. rewrite Hx.
  case_decide as D; [subst e'; by eapply Hv|done].
Qed.

Lemma record_last m v a v' : spec_record m v = Ok (a, v') -> v_last_cloud v' = v_last_cloud v.
Proof. unfold spec_record. intros H1. by repeat (case_match || case_decide); simplify_eq. Qed.

Lemma advances_last s e s' v : advances view store_ok s e s' v -> v_last_cloud v = v_last_cloud (view s e) ->
  store_ok s' /\ forall e', v_last_cloud (view s' e') = v_last_cloud (view s e').
Proof. intros [Hs Hx] Hv. split; [done|]. intros e'. rewrite Hx. case_decide as D; [by subst e'|done]. Qed.

Lemma stream_op_last op s : store_ok s -> stream_op op = true -> tame_op op (view s) ->
  store_ok (do_op op s).2 /\ forall e, v_last_cloud (view (do_op op s).2 e) = v_last_cloud (view s e).
Proof.
  intros Hs Hop Ht. assert (store_ok s /\ forall e, v_last_cloud (view s e) = v_last_cloud (view s e)) as Hsame by done.
  destruct op as [e b|e n|e n|e m|e|e|e q|e q|e q]; try done; cbn.
  - destruct Ht as [Hn Hb]. pose proof (acknowledge_spec s e n Hs Hn Hb) as Hi.
    destruct (acknowledge_cloud e n s) as [[u s']|] eqn:E; [|done]. eapply implements_last; [exact Hi|done|].
    intros a v. unfold spec_acknowledge. intros Hv. by repeat case_decide; simplify_eq.
  - pose proof (record_spec s e m Hs) as Hi. destruct (record_edge e m s) as [[u s']|] eqn:E; [|done].
    eapply implements_last; [exact Hi|done|]. intros a v. case_decide; [apply record_last|done].
  - by eapply advances_last; [apply live_queue_spec|].
  - by eapply advances_last; [apply remove_queue_spec|].
  - pose proof (queue_get_spec s e q Hs) as Hg. unfold spec_queue_get in Hg. destruct (queue_get e q s) as [[m s']|]; [|done].
    destruct (get_from q _) as [[m' qs]|]; [|done]. destruct Hg as [_ Ha]. by eapply advances_last.
Qed.

(** ** Sockets *)

Lemma send_text_sockets gone ws text r : rl_sockets (_send_text config gone ws text r).2 = rl_sockets r.
Proof.
  unfold _send_text. case_decide; [done|]. rewrite bind_reads. case_decide; [done|]. rewrite bind_writes.
  case_decide; [done|]. by destruct (gone ws).
Qed.
Lemma keeps_send_each (P : relay -> Prop) gone peers text : (forall ws, keeps P (_send_text config gone ws text)) ->
  keeps P (send_each config gone peers text).
Proof. intros Hk. induction peers as [|ws peers IH]; cbn [send_each]; [apply keeps_ret|]. by apply keeps_bind. Qed.
Lemma keeps_publish (P : relay -> Prop) gone id event : (forall ws text, keeps P (_send_text config gone ws text)) ->
  keeps P (publish_edge_event config float_repr peers_of gone id event).
Proof.
  intros Hk r Hr. unfold publish_edge_event. destruct (rl_command_sessions r !! id); [|done]. destruct (jget _ event ≫= as_str); [|done].
  case_decide; [done|]. cbv zeta. case_decide; [done|]. by apply keeps_send_each.
Qed.
Lemma keeps_accept_edge (P : relay -> Prop) gone edge_id message : (forall ws text, keeps P (_send_text config gone ws text)) ->
  keeps P (_accept_edge_message config float_repr json_loads peers_of gone edge_id message).
Proof.
  intros Hk. pose proof (fun id event => keeps_publish P gone id event Hk) as Hp. unfold _accept_edge_message.
  destruct message.2 as [[| | | | |frame| |]|]; auto with act. destruct (json_loads _) as [[]|]; auto with act.
  destruct (wire_type _); auto with act.
Qed.

Lemma keeps_sockets {A} h (m : act relay A) : (forall r, rl_sockets (m r).2 = rl_sockets r) -> keeps (sockets_ok h) m.
Proof. intros Hm r Hr. unfold sockets_ok. by rewrite Hm. Qed.
Lemma keeps_sockets_send h gone ws text : keeps (sockets_ok h) (_send_text config gone ws text).
Proof. apply keeps_sockets. apply send_text_sockets. Qed.
Lemma keeps_sockets_close h ws code reason : keeps (sockets_ok h) (_close ws code reason).
Proof. by apply keeps_sockets. Qed.
Lemma keeps_sockets_set h ws s : (forall l, so_loop s = Some l -> opened h ws (lo_grant l)) -> keeps (sockets_ok h) (writes (set_socket ws s)).
Proof.
  intros Hs r Hr ws' s' l. cbn. intros [[<- <-]|[_ Hl]]%lookup_insert_Some; [apply Hs|by apply Hr].
Qed.
Lemma finish_sockets h ws r : sockets_ok h r -> sockets_ok h (finish_connection ws r).
Proof.
  intros Hr ws' s l Hl. apply (Hr ws' s l). unfold finish_connection in Hl. cbn in Hl. apply lookup_delete_Some in Hl as [_ Hl].
  revert Hl. destruct (rl_sockets r !! ws ≫= so_session_id); [|done]. cbn. by destruct (rl_sessions r !! _).
Qed.
Lemma connect_sockets h ws path header : keeps (sockets_ok h) (connect config ws path header).
Proof.
  intros r Hr. unfold connect. cbv zeta. repeat (case_decide; [by apply keeps_sockets_close|]). cbn.
  apply (keeps_sockets_set h ws (mkSocket None None)); [done|exact Hr].
Qed.

(** The relay's part of a round keeps the invariant, the ingress staying as it is. *)
Definition serving (ws : nat) (g : _Grant) (p : process) : Prop := process_ok p /\ opened (in_history (pr_ingress p)) ws g.
Lemma keeps_serving {A} ws g (m : act relay A) : (forall h, opened h ws g -> keeps (sockets_ok h) m) -> keeps (serving ws g) (on_relay m).
Proof.
  intros Hm p [[Hi Hs] Ho]. unfold on_relay, on_part. specialize (Hm _ Ho _ Hs). destruct (m (pr_relay p)) as [x r]. by split; [split|].
Qed.
Lemma serving_ok {A} ws g (m : act process A) p : keeps (serving ws g) m -> serving ws g p -> process_ok (m p).2.
Proof. intros Hm Hp. by apply Hm. Qed.
Lemma keeps_process {A} (m : act relay A) : (forall h, keeps (sockets_ok h) m) -> keeps process_ok (on_relay m).
Proof. intros Hm p [Hi Hs]. unfold on_relay, on_part. specialize (Hm _ _ Hs). by destruct (m (pr_relay p)) as [x r]. Qed.
#[local] Hint Resolve keeps_sockets_send keeps_sockets_close : act.

(** What follows an accepted command or authentication. *)
Lemma keeps_answer ws g gone value sid l f : lo_grant l = g -> (forall r, rl_sockets (f r) = rl_sockets r) ->
  keeps (serving ws g) (on_relay (writes f);;; on_relay (_send_json config float_repr gone ws value);;;
                        on_relay (writes (set_socket ws (mkSocket sid (Some l))));;; ret true).
Proof.
  intros Hl Hf. act_keeps; apply keeps_serving; intros h Hh.
  - apply keeps_sockets. apply Hf.
  - apply keeps_sockets_send.
  - apply keeps_sockets_set. intros l'. cbn. intros [= <-]. by rewrite Hl.
Qed.

Lemma first_message_ok gone ws raw clock p : process_ok p ->
  process_ok (first_message config float_repr json_loads gone ws raw clock p).2.
Proof.
  intros Hp. unfold first_message. rewrite bind_of_result. destruct (_recv_json _ _ raw) as [message|]; [|done].
  rewrite bind_reads, bind_of_result. destruct (_authenticate _ _ message) as [[g token]|] eqn:Ea; [|done]. cbn [id] in *.
  set (p1 := p <| pr_ingress := (pr_ingress p) <| in_history := in_history (pr_ingress p) ++ [Presented ws (gt_session_id g) token] |> |>).
  rewrite (bind_ok _ _ _ tt p1) by done. destruct Hp as [Hi Hs]. assert (serving ws g p1) as H1.
  { unfold _authenticate in Ea. destruct (decide _); [done|]. destruct (jget "sessionId" message ≫= as_str) as [id|]; [|done].
    destruct (jget "token" message ≫= as_str) as [t|]; [|done]. destruct (decide _); [done|].
    destruct (get_delivery id (in_delivery (pr_ingress p))) as [record|] eqn:Eg; [|done].
    destruct (dd_relay_token_digest record) as [digest|] eqn:Ed; [|done]. destruct (decide (digest <> _)) as [|Edig]; [done|].
    apply dec_stable in Edig. destruct (decide _); [done|]. injection Ea as <- <-. destruct (io_records _ Hi id record Eg) as [Hid Hg].
    subst p1. unfold serving, process_ok. cbn -[granted]. split; [split|].
    - destruct Hi as [I1 I2 I3 I4 I5 I6]. split; cbn -[SqliteDelivery.get]; [done|done| | | |].
      + intros at_ e m b [Hin|Hin]%elem_of_app; [by eapply I3|]. by apply list_elem_of_singleton in Hin.
      + intros id' r' Hr'. destruct (I4 id' r' Hr'). split; [done|]. eapply granted_mono; [|done]. by apply prefix_app_r.
      + by apply frames_snoc.
      + intros e. unfold sent_to. rewrite omap_app, length_app. cbn. rewrite Nat.add_0_r. apply I6.
    - eapply sockets_mono; [|done]. by apply prefix_app_r.
    - exists record, t. split; [eapply granted_mono; [|done]; by apply prefix_app_r|]. rewrite <- Edig. split; [done|]. split; [done|].
      apply elem_of_app. right. apply list_elem_of_singleton. by rewrite Hid. }
  eapply serving_ok; [|exact H1]. clear.
  act_keeps; apply keeps_serving; intros h Hh.
  - intros r Hr. apply (keeps_sockets_set h ws (mkSocket (Some (gt_session_id g)) None)); [done|exact Hr].
  - apply keeps_sockets_send.
  - apply keeps_sockets_set. cbn. by intros l [= <-].
Qed.

(** A command within the grant is authorised. *)
Lemma opened_authorises h ws g now n command_id capability kind payload rest :
  opened h ws g -> ~ exhausted h (gt_edge_id g) -> (forall at_ e m b, Queued at_ e (m, b) ∈ h -> e = gt_edge_id g -> m < n) ->
  now < gt_expires_at g -> capability ∈ gt_capabilities g -> command_kind capability = Some kind ->
  authorised h now (gt_edge_id g) n (mkRelayFrame (gt_session_id g) (gt_device_id g) command_id capability kind payload rest).
Proof.
  intros (r & token & [Hx|(at_ & m & gr & Hin & Hs & Hd & Hc & He & Ht)] & -> & Hdig & Hp) Hne Hn Hnow Hcap Hk; [done|]. cbn -[Sha256.hexdigest] in *.
  exists at_, m, gr, ws, token. split; [done|]. split; [by eapply Hn|]. split; [done|]. split; [done|].
  split; [rewrite Hc; exact (proj1 (elem_of_list_to_set _ _) Hcap)|]. split; [done|]. split; [by rewrite He|]. split; [done|]. congruence.
Qed.

Lemma send_command_ok ws g capability payload fresh p : serving ws g p -> capability ∈ gt_capabilities g ->
  in_now (pr_ingress p) < gt_expires_at g ->
  serving ws g (send_command float_repr (gt_session_id g) (gt_device_id g) (gt_edge_id g) capability payload fresh p).2.
Proof.
  intros Hp Hc Hnow. unfold send_command. destruct (command_kind capability) as [kind|] eqn:Ek; [|done].
  set (f := mkRelayFrame _ _ _ _ _ _ _). destruct Hp as [[Hi Hs] Ho].
  destruct (hub_queue_ok (gt_edge_id g) (CB_relay_frame f) (pr_ingress p) Hi) as [Hi' Hpre].
  { intros f' [= <-] Hne. eapply opened_authorises; [done|done| |done|done|done]. intros at_ e m b Hin ->.
    pose proof (io_sequences _ Hi _ _ _ _ Hin). lia. }
  unfold bind, on_ingress, on_part. destruct (hub_queue _ _ (pr_ingress p)) as [[stored|x] w]; cbn in Hi', Hpre |- *;
    (split; [split; [done|by eapply sockets_mono]|by eapply opened_mono]).
Qed.

Lemma run_message_ok gone ws raw clock fresh l p : serving ws (lo_grant l) p ->
  process_ok (run_message config float_repr json_loads gone ws raw clock fresh l p).2.
Proof.
  intros Hp. pose proof (proj1 Hp) as Hok.
  assert (forall code reason, process_ok ((on_relay (_close ws code reason);;; ret false) p).2) as Hclose.
  { intros code reason. rewrite (bind_ok _ _ p tt (on_relay (_close ws code reason) p).2) by done. by apply keeps_process; [intros h; apply keeps_sockets_close|]. }
  unfold run_message. rewrite bind_of_result. destruct (received_size raw) as [n|]; [|done].
  case_decide; [apply Hclose|]. cbv zeta. case_decide; [apply Hclose|]. case_decide; [apply Hclose|].
  rewrite bind_of_result. destruct (_parse_message _ raw) as [message|]; [|done]. rewrite bind_reads. destruct (decide (gt_expires_at (lo_grant l) <= _)) as [|Hnow]; [done|].
  destruct (jget "type" message ≫= as_str) as [capability|]; [|done]. destruct (decide (capability ∉ ALLOWED_MESSAGE_TYPES)); [done|].
  destruct (decide (session_matches _ message = false)); [done|]. destruct (decide (capability ∉ gt_capabilities _)) as [|Hc]; [done|].
  apply dec_stable in Hc.
  pose proof (fun Hc Ht => send_command_ok ws (lo_grant l) capability (command_payload message) fresh p Hp Hc Ht) as Hsc.
  specialize (Hsc Hc ltac:(lia)). unfold bind at 1.
  destruct (send_command _ _ _ _ _ _ _ p) as [[id|x] p1]; [|apply Hsc].
  eapply serving_ok; [|exact Hsc]. by apply keeps_answer.
Qed.

Lemma except_closing_ok ws e : keeps process_ok (except_closing (S := S) ws e).
Proof. unfold except_closing. destruct e; auto with act; by apply keeps_process; intros h; apply keeps_sockets_close. Qed.

Lemma receive_message_ok gone ws raw clock fresh s p : rl_sockets (pr_relay p) !! ws = Some s -> process_ok p ->
  process_ok (receive_message config float_repr json_loads gone ws raw clock fresh s p).2.
Proof.
  intros Hs Hp. unfold receive_message. cbv zeta.
  set (round := match so_loop s with
                | None => first_message config float_repr json_loads gone ws raw clock
                | Some l => run_message config float_repr json_loads gone ws raw clock fresh l
                end).
  assert (forall p', process_ok p' -> process_ok (p' <| pr_relay := finish_connection ws (pr_relay p') |>)) as Hf.
  { intros p' [Hi Hk]. split; [done|]. by apply finish_sockets. }
  assert (process_ok (round p).2) as Hr.
  { subst round. destruct (so_loop s) as [l|] eqn:El; [|by apply first_message_ok]. apply run_message_ok. split; [done|].
    by apply (proj2 Hp ws s l). }
  destruct (round p) as [[[]|e] p']; [done|by apply Hf|].
  pose proof (except_closing_ok ws e p' Hr) as He. destruct (except_closing ws e p') as [r p'']. by apply Hf.
Qed.

Abbreviation handlers gone := (edge_handlers (S := S) (D := SqliteDelivery.store) config float_repr json_loads peers_of gone).
Lemma handlers_ok gone edge_id message p : process_ok p ->
  let p' := (run_handlers (handlers gone) edge_id message p).2 in
  process_ok p' /\ in_hub (pr_ingress p') = in_hub (pr_ingress p).
Proof.
  intros [Hi Hs]. unfold edge_handlers. cbn [run_handlers]. unfold on_ingress, on_part.
  destruct (accept_edge_message_ok edge_id message (pr_ingress p) Hi) as (Hi1 & Eh & Eb).
  destruct (accept_edge_message edge_id message (pr_ingress p)) as [[u|x] w]; cbn [snd] in *.
  2: { split; [|done]. split; [done|]. cbn. by rewrite Eh. }
  set (p1 := p <| pr_ingress := w |>). assert (process_ok p1) as Hp1 by (split; [done|]; cbn; by rewrite Eh).
  assert (process_ok (on_relay (_accept_edge_message config float_repr json_loads peers_of gone edge_id message) p1).2) as Hp2.
  { apply keeps_process; [|done]. intros h. apply keeps_accept_edge. intros ws text. apply keeps_sockets_send. }
  unfold on_relay, on_part in *. destruct (_accept_edge_message _ _ _ _ _ _ _ (pr_relay p1)) as [[]]; done.
Qed.

Lemma accept_message_ok gone edge_id message p : process_ok p ->
  process_ok (accept_message config float_repr json_loads peers_of gone edge_id message p).2.
Proof.
  intros [Hi Hs]. pose proof (io_hub _ Hi) as Hh. unfold accept_message.
  assert (forall b s, record_edge edge_id message (in_hub (pr_ingress p)) = Ok (b, s) ->
    store_ok s /\ forall e, v_last_cloud (view s e) = v_last_cloud (view (in_hub (pr_ingress p)) e)) as Hrec.
  { intros b s E. eapply implements_last; [by apply (record_spec _ edge_id message Hh)|exact E|]. intros a v. case_decide; [apply record_last|done]. }
  assert (exists r s p', accept (handlers gone) edge_id message (in_hub (pr_ingress p)) p = (r, (s, p'))
    /\ process_ok p' /\ store_ok s /\ forall e, v_last_cloud (view s e) = v_last_cloud (view (in_hub (pr_ingress p')) e)) as
    (r & s & p' & -> & [Hi' Hs'] & Hok & Hl); [|split; [by apply same_streams_ok|done]].
  unfold accept.
  assert (exists r s p', match record_edge edge_id message (in_hub (pr_ingress p)) with
      | Err e => (Err e, (in_hub (pr_ingress p), p))
      | Ok (false, s) => (Ok false, (s, p))
      | Ok (true, s) => let '(r, w) := run_handlers (handlers gone) edge_id message p in
                        (match r with Ok _ => Ok true | Err e => Err e end, (s, w))
      end = (r, (s, p')) /\ process_ok p' /\ store_ok s
      /\ forall e, v_last_cloud (view s e) = v_last_cloud (view (in_hub (pr_ingress p')) e)) as Hbody.
  { destruct (record_edge _ _ _) as [[b s]|x]; [|by eexists _, _, _]. destruct (Hrec b s eq_refl) as [Hok Hl].
    destruct b; [|by eexists _, _, _]. destruct (handlers_ok gone edge_id message p (conj Hi Hs)) as [Hp' Eh].
    destruct (run_handlers _ edge_id message p) as [r p']. cbn [snd] in *. eexists _, _, _. split; [done|]. split; [done|].
    split; [done|]. by rewrite Eh. }
  destruct message.2 as [[]|]; try exact Hbody. by eexists _, _, _.
Qed.

Lemma hub_step_ok comes p p' : hub_step comes p p' -> process_ok p -> process_ok p'.
Proof.
  intros Hst Hp. destruct Hst.
  - destruct Hp as [[] Hs]. by split; [split|].
  - destruct Hp as [Hi Hs]. edestruct event_ok as [Hi' Hpre]; [exact Hi|]. split; [exact Hi'|]. by eapply sockets_mono.
  - by apply accept_message_ok.
  - apply keeps_process; [|done]. intros h. apply connect_sockets.
  - by apply receive_message_ok.
  - destruct Hp as [Hi Hs]. split; [|done]. edestruct stream_op_last as [Hs1 Hs2]; [exact (io_hub _ Hi)|done|done|].
    by apply same_streams_ok.
Qed.
Lemma hub_steps_ok comes p p' : rtc (hub_step comes) p p' -> process_ok p -> process_ok p'.
Proof. induction 1; eauto using hub_step_ok. Qed.
Lemma new_process_ok : process_ok new_process.
Proof.
  split; [split|].
  - apply empty_ok.
  - done.
  - intros at_ e n b Hin. by apply elem_of_nil in Hin.
  - done.
  - intros i at_ e n f Hi. done.
  - intros e. cbn. by rewrite empty_view.
  - intros ws s l Hl. cbn in Hl. by rewrite lookup_empty in Hl.
Qed.

(** C22. Whatever events, edge messages and browsers do, in any order: before
    the hub queues a frame of a browser for an edge, it has queued for that
    same edge the grant of the frame's session and device, earlier in the
    edge's stream; the grant holds the frame's capability and has not expired
    when the frame is queued; and some browser has presented a token with the
    digest of the token the grant carries. *)
Theorem relay_commands_are_authorised (p : process) (Hp : rtc (hub_step (fun _ => True)) new_process p)
    (before after : list hub_event) (at_ : Z) (edge_id : string) (n : Z) (f : relay_frame)
    (Hh : in_history (pr_ingress p) = before ++ Queued at_ edge_id (n, Some (CB_relay_frame f)) :: after) :
  exists granted_at m g ws token,
    Queued granted_at edge_id (m, Some (CB_debug_grant g)) ∈ before /\ m < n
    /\ dg_session_id g = rf_session_id f /\ dg_device_id g = rf_device_id f /\ rf_capability f ∈ dg_capabilities g
    /\ command_kind (rf_capability f) = Some (rf_kind f) /\ at_ < dg_expires_at g
    /\ Presented ws (rf_session_id f) token ∈ before /\ hexdigest token = hexdigest (dg_relay_token g).
Proof.
  destruct (hub_steps_ok _ _ _ Hp new_process_ok) as [Hi _].
  pose proof (io_frames _ Hi (length before) at_ edge_id n f) as Hf. rewrite Hh, take_app_length in Hf. apply Hf.
  by rewrite list_lookup_middle.
Qed.

(** ** After a revocation *)

(** No acknowledgement names this session. *)
Definition names_other (id : string) (message : EdgeToCloud) : Prop :=
  match message.2 with Some (EB_command_ack ack) => ack_command_id ack <> id | _ => True end.

Definition elsewhere (id : string) (ev : hub_event) : Prop :=
  match ev with Presented _ session_id _ => session_id <> id | Queued _ _ _ => True end.

(** The session's record is closed, and since [h] no token of it was taken. *)
Definition shut_since (id : string) (h : list hub_event) (w : ingress) : Prop :=
  (exists r, SqliteDelivery.get id (in_delivery w) = Some r /\ dd_state r = "REVOKED")
  /\ exists evs, in_history w = h ++ evs /\ Forall (elsewhere id) evs.

Section Shut.
Context (id : string) (h : list hub_event).
Abbreviation shut := (shut_since id h).

Lemma keeps_since_queue edge_id body : keeps shut (hub_queue edge_id body).
Proof.
  intros w [Hr (evs & Hh & He)]. unfold hub_queue. destruct (queue edge_id (Some body) (in_hub w)) as [[m s]|]; [|by split; eauto].
  split; [exact Hr|]. exists (evs ++ [Queued (in_now w) edge_id m]). cbn. rewrite Hh, app_assoc. split; [done|].
  apply Forall_app. by repeat constructor.
Qed.
Lemma keeps_shut_update session_id state e d n : session_id <> id \/ state = "REVOKED" ->
  keeps shut (on_delivery (update_delivery session_id state e d n)).
Proof.
  intros Hc w [(r & Hr & Hs) Hh]. unfold on_delivery. cbn [update_delivery SqliteDelivery.delivery_store].
  destruct (SqliteDelivery.update session_id state e d n (in_delivery w)) as [[r1 s]|x] eqn:E; [|by split; eauto].
  apply SqliteDeliverySpec.update_spec in E as [(r0 & Hr0 & ->) Hg]. split; [|exact Hh]. cbn -[SqliteDelivery.get]. rewrite Hg.
  case_decide as D; [|by eauto]. eexists. split; [done|]. by destruct Hc as [Hc | ->].
Qed.
Lemma keeps_shut_create r : dd_state r = "PENDING" ->
  forall w, shut w -> (dd_session_id r = id -> is_ok (on_delivery (create_delivery r) w).1 = false) /\ shut (on_delivery (create_delivery r) w).2.
Proof.
  intros Hp w [(r0 & Hr0 & Hs) Hh]. unfold on_delivery. cbn [create_delivery SqliteDelivery.delivery_store].
  destruct (SqliteDelivery.create r (in_delivery w)) as [[u s]|x] eqn:E; [|by split; [|split; eauto]].
  unfold SqliteDelivery.create in E. unfold SqliteDelivery.get in Hr0.
  destruct (decide (dd_session_id r = id)) as [Hid|Hid].
  { rewrite Hid in E. destruct (tget SqliteDelivery.w_session_id id (in_delivery w)) as [row|]; [|done]. cbn in Hr0. injection Hr0 as Hr0.
    rewrite Hr0 in E. destruct (decide (r0 <> r)) as [|Heq]; [done|]. apply dec_stable in Heq as ->. congruence. }
  split; [done|]. split; [|exact Hh]. exists r0. split; [|done]. change (SqliteDelivery.get id s = Some r0). unfold SqliteDelivery.get.
  destruct (tget SqliteDelivery.w_session_id (dd_session_id r) (in_delivery w)).
  - destruct (decide _); [done|]. by injection E as _ <-.
  - destruct (decide _); [done|]. injection E as _ <-. rewrite tget_app.
    destruct (tget SqliteDelivery.w_session_id id (in_delivery w)); [done|]. done.
Qed.

Lemma keeps_shut_grant q fresh : keeps shut (queue_grant (S := S) q fresh).
Proof.
  intros w Hw. unfold queue_grant. do 3 (case_decide; [done|]). cbv zeta. set (token := str_or _ _). case_decide; [done|].
  rewrite bind_reads. case_decide; [done|]. set (r := pending_record q token).
  destruct (keeps_shut_create r eq_refl w Hw) as [Hid Hc]. unfold bind at 1.
  destruct (on_delivery (create_delivery r) w) as [[u|x] w1]; [|done]. cbn [fst snd] in *.
  assert (gq_session_id q <> id) as Hne by (intros E; by specialize (Hid E)).
  revert w1 Hc. clear Hid.
  cut (keeps shut (on_router (S := S) (D := SqliteDelivery.store) (grant <-- of_result (relay_grant_from_token (gq_session_id q) (gq_edge_id q) (gq_device_id q)
                     (dd_capabilities r) (gq_expires_at q) token);; register (in_now w) grant);;;
       message <-- of_result (grant_message r token);;
       stored <-- hub_queue (gq_edge_id q) (CB_debug_grant message);;
       on_delivery (update_delivery (gq_session_id q) "QUEUED" None None (Some stored.1)))); [intros Hk w1 Hc; by apply Hk|].
  act_keeps.
  - intros w1 [Hr Hh]. unfold on_router. destruct (in_router w1); [|by split]. by destruct (bind _ _ _).
  - apply keeps_since_queue.
  - apply keeps_shut_update. by left.
Qed.

Lemma keeps_shut_on_router m : keeps shut (on_router (S := S) (D := SqliteDelivery.store) m).
Proof. intros w Hw. unfold on_router. destruct (in_router w) as [r|]; [|done]. by destruct (m r). Qed.
#[local] Hint Resolve keeps_since_queue keeps_shut_grant keeps_shut_on_router : act.

Lemma keeps_since_event identity enabled event_id aggregate_id event_type payload fresh w : shut w ->
  shut (DeliverDebugEvent py_repr fromisoformat identity enabled event_id aggregate_id event_type payload fresh w).2.
Proof.
  intros Hw. unfold DeliverDebugEvent. destruct identity; [done|]. repeat (case_decide; [done|]).
  assert (keeps shut (handle_debug_event (S := S) (D := SqliteDelivery.store) py_repr fromisoformat event_type payload fresh)) as Hk.
  { unfold handle_debug_event, queue_from_event, revoke_from_event. act_keeps; apply keeps_shut_update; by right. }
  specialize (Hk w Hw). by destruct (handle_debug_event _ _ event_type payload fresh w) as [[u|[]] w'].
Qed.

Lemma keeps_shut_ack edge_id message w : ingress_ok w -> names_other id message -> shut w -> shut (accept_edge_message edge_id message w).2.
Proof.
  intros Hi Hn Hw. unfold accept_edge_message. unfold names_other in Hn. destruct message.2 as [[|ack| | | | | |]|]; try done.
  destruct (get_delivery (ack_command_id ack) (in_delivery w)) as [record|] eqn:E; [|done]. destruct (io_records w Hi _ _ E) as [Hid _].
  case_decide; [done|]. case_decide; [done|]. rewrite bind_ret_state. apply keeps_shut_update; [left; congruence|done].
Qed.

Lemma shut_hub w s : shut w -> shut (w <| in_hub := s |>).
Proof. done. Qed.

(** Of a process. *)
Definition quiet (p : process) : Prop := shut (pr_ingress p).
Lemma quiet_relay {A} (m : act relay A) : keeps quiet (on_relay m).
Proof. intros p Hp. unfold on_relay, on_part. by destruct (m (pr_relay p)). Qed.
Lemma quiet_ingress {A} (m : act (DebugDelivery.ingress S SqliteDelivery.store) A) : keeps shut m -> keeps quiet (on_ingress m).
Proof. intros Hm p Hp. unfold on_ingress, on_part. specialize (Hm _ Hp). by destruct (m (pr_ingress p)). Qed.
#[local] Hint Resolve quiet_relay quiet_ingress : act.

Lemma quiet_run gone ws raw clock fresh l : keeps quiet (run_message (S := S) (D := SqliteDelivery.store) config float_repr json_loads gone ws raw clock fresh l).
Proof. unfold run_message, send_command. act_keeps. Qed.

Lemma quiet_first gone ws raw clock p : process_ok p -> quiet p ->
  quiet (first_message config float_repr json_loads gone ws raw clock p).2.
Proof.
  intros [Hi _] Hp. unfold first_message. rewrite bind_of_result. destruct (_recv_json _ _ raw) as [message|]; [|done].
  rewrite bind_reads, bind_of_result. destruct (_authenticate _ _ message) as [[g token]|] eqn:Ea; [|done]. cbn [Datatypes.id] in *.
  assert (gt_session_id g <> id) as Hne.
  { unfold _authenticate in Ea. destruct (decide _); [done|]. destruct (jget "sessionId" message ≫= as_str) as [sid|]; [|done].
    destruct (jget "token" message ≫= as_str) as [t|]; [|done]. destruct (decide _); [done|].
    destruct (get_delivery sid (in_delivery (pr_ingress p))) as [record|] eqn:Eg; [|done].
    destruct (dd_relay_token_digest record); [|done]. destruct (decide _); [done|]. destruct (decide _) as [|Hc]; [done|].
    injection Ea as <- <-. destruct (io_records _ Hi sid record Eg) as [Hid _]. cbn. intros E. destruct Hp as [(r & Hr & Hs) _].
    apply Hc. left. assert (record = r) as ->.
    { assert (SqliteDelivery.get sid (in_delivery (pr_ingress p)) = Some record) as Eg' by exact Eg. congruence. }
    rewrite Hs. by left. }
  match goal with |- quiet (?m p).2 => assert (keeps quiet m) as Hk; [|by apply Hk] end.
  act_keeps. apply quiet_ingress. intros w [Hr (evs & Hh & He)]. split; [exact Hr|].
  exists (evs ++ [Presented ws (gt_session_id g) token]). cbn. rewrite Hh, app_assoc. split; [done|].
  apply Forall_app. by repeat constructor.
Qed.
End Shut.

Lemma quiet_hub_step id h p p' : hub_step (names_other id) p p' -> process_ok p -> quiet id h p -> quiet id h p'.
Proof.
  intros Hst Hp Hq. destruct Hst as [now p|identity enabled event_id aggregate_id event_type payload fresh p|gone edge_id message p Hn|
    ws path header p Hf Ho|gone ws raw clock fresh s p Hs|op p Hop Ht].
  - exact Hq.
  - by apply keeps_since_event.
  - assert (quiet id h (run_handlers (handlers gone) edge_id message p).2) as Hr.
    { unfold edge_handlers. cbn [run_handlers]. unfold on_ingress, on_part. pose proof (keeps_shut_ack id h edge_id message _ (proj1 Hp) Hn Hq) as Ha.
      destruct (accept_edge_message edge_id message (pr_ingress p)) as [[u|x] w]; [|exact Ha].
      assert (quiet id h (p <| pr_ingress := w |>)) as Hw by exact Ha. revert Hw. generalize (p <| pr_ingress := w |>). intros p1 Hp1.
      pose proof (quiet_relay id h (_accept_edge_message config float_repr json_loads peers_of gone edge_id message) p1 Hp1) as Hp2.
      by destruct (on_relay _ p1) as [[]]. }
    unfold accept_message, accept. destruct message.2 as [[]|]; try exact Hq.
    all: destruct (record_edge edge_id message _) as [[[] s]|]; try exact Hq; by destruct (run_handlers _ edge_id message p).
  - by apply quiet_relay.
  - unfold receive_message. cbv zeta.
    set (round := match so_loop s with
                  | None => first_message config float_repr json_loads gone ws raw clock
                  | Some l => run_message config float_repr json_loads gone ws raw clock fresh l
                  end).
    assert (quiet id h (round p).2) as Hr by (subst round; destruct (so_loop s); [by apply quiet_run|by apply quiet_first]).
    destruct (round p) as [[[]|e] p']; [done|done|].
    assert (quiet id h (except_closing ws e p').2) as He by (unfold except_closing; destruct e; try done; by apply quiet_relay).
    by destruct (except_closing ws e p') as [r p''].
  - exact Hq.
Qed.

Lemma quiet_hub_steps id h p p' : rtc (hub_step (names_other id)) p p' -> process_ok p -> quiet id h p -> quiet id h p'.
Proof. induction 1; eauto using quiet_hub_step, hub_step_ok. Qed.

Lemma revoked_record payload session_id w0 w : ingress_ok w0 -> py_str py_repr <$> jget "sessionId" payload = Some session_id ->
  is_Some (SqliteDelivery.get session_id (in_delivery w0)) ->
  (exists m, revoke_from_event py_repr payload w0 = (Ok m, w)) ->
  exists r, SqliteDelivery.get session_id (in_delivery w) = Some r /\ dd_state r = "REVOKED".
Proof.
  intros Hi Hid [r0 Hr0] [m Hm]. unfold revoke_from_event in Hm. rewrite Hid in Hm.
  destruct (py_str py_repr <$> jget "deviceId" payload) as [device|]; [|done]. case_decide; [done|].
  rewrite (bind_ok _ _ _ tt w0) in Hm by (unfold on_router; by rewrite (io_router w0 Hi)).
  destruct (py_str py_repr <$> jget "edgeId" payload) as [e|]; [|done]. unfold value_errors_as in Hm.
  unfold bind at 1 in Hm. unfold hub_queue in Hm.
  destruct (queue e _ (in_hub w0)) as [[stored s]|x]; [|done]. rewrite bind_reads in Hm.
  set (w1 := set_with _ (set_with _ w0)) in Hm. change (get_delivery session_id (in_delivery w1)) with (SqliteDelivery.get session_id (in_delivery w0)) in Hm.
  rewrite Hr0 in Hm. unfold bind, on_delivery in Hm. cbn [update_delivery SqliteDelivery.delivery_store] in Hm.
  destruct (SqliteDelivery.update session_id "REVOKED" _ _ _ (in_delivery w1)) as [[r d]|x] eqn:E; [|done].
  apply SqliteDeliverySpec.update_spec in E as [(r1 & _ & ->) Hg].
  assert (w = w1 <| in_delivery := d |>) as -> by (unfold ret in Hm; congruence). change (in_delivery (w1 <| in_delivery := d |>)) with d.
  eexists. rewrite Hg, decide_True by done. by split.
Qed.

(** C23. A revocation the hub has taken while it holds the delivery record of the
    session closes the session's ingress: as long as no edge acknowledges a
    command of that name, no browser is let in with any token again, not after
    a repeated or a new grant of the session either. A revocation that comes
    before the grant it is about leaves no record
    ([late_grant_outlives_revocation]). *)
Theorem revocation_closes_the_ingress (p p' : process) (event_id aggregate_id fresh session_id : string)
    (payload : list (string * json)) (w : ingress)
    (Hp : rtc (hub_step (fun _ => True)) new_process p)
    (Hid : py_str py_repr <$> jget "sessionId" payload = Some session_id)
    (Hk : is_Some (SqliteDelivery.get session_id (in_delivery (pr_ingress p))))
    (Hr : DeliverDebugEvent py_repr fromisoformat None true event_id aggregate_id "debug.session.revoked" payload fresh (pr_ingress p)
          = (Accepted, w))
    (Hs : rtc (hub_step (names_other session_id)) (p <| pr_ingress := w |>) p') :
  exists later, in_history (pr_ingress p') = in_history w ++ later
    /\ forall ws token, Presented ws session_id token ∉ later.
Proof.
  pose proof (hub_steps_ok _ _ _ Hp new_process_ok) as Hok.
  pose proof (HS_event (names_other session_id) None true event_id aggregate_id "debug.session.revoked" payload fresh p) as Hst.
  rewrite Hr in Hst. cbn [snd] in Hst. pose proof (hub_step_ok _ _ _ Hst Hok) as Hok1.
  assert (quiet session_id (in_history w) (p <| pr_ingress := w |>)) as Hq.
  { split; [|exists []; by rewrite app_nil_r]. eapply revoked_record; [exact (proj1 Hok)|done|done|].
    unfold DeliverDebugEvent in Hr. do 3 (destruct (decide _); [done|]). unfold handle_debug_event in Hr.
    destruct (decide ("debug.session.revoked" = _)); [done|]. unfold bind in Hr.
    destruct (revoke_from_event py_repr payload (pr_ingress p)) as [[m|[]] w1]; try done. exists m. change (pr_ingress (p <| pr_ingress := w |>)) with w. unfold ret in Hr. congruence. }
  destruct (quiet_hub_steps _ _ _ _ Hs Hok1 Hq) as [_ (later & Hh & Hl)]. exists later. split; [done|]. intros ws token Hin.
  rewrite Forall_forall in Hl. by apply (Hl _ Hin).
Qed.

(** ** Budgets *)

Fixpoint sent_bytes (ws : nat) (l : list (nat * output)) : Z :=
  match l with
  | [] => 0
  | (ws', Sent text) :: l => (if decide (ws' = ws) then byte_len text else 0) + sent_bytes ws l
  | _ :: l => sent_bytes ws l
  end.
Lemma sent_bytes_app ws l l' : sent_bytes ws (l ++ l') = sent_bytes ws l + sent_bytes ws l'.
Proof. induction l as [|[ws' [text|]] l IH]; cbn; [done| |done]. rewrite IH. lia. Qed.
Lemma sent_bytes_fresh ws l : ws ∉ l.*1 -> sent_bytes ws l = 0.
Proof.
  induction l as [|[ws' [text|]] l IH]; cbn; [done| |]; rewrite not_elem_of_cons; intros [Hn Hl]; [|by apply IH].
  rewrite decide_False by done. by rewrite IH.
Qed.
Lemma byte_len_nonneg s : 0 <= byte_len s.
Proof. unfold byte_len. lia. Qed.

Definition alive (r : relay) (ws : nat) : Prop := is_Some (rl_sockets r !! ws).

Record relay_ok (r : relay) : Prop := mkRelayOk {
  ro_free : 0 <= rl_free r /\ rl_free r + Z.of_nat (size (rl_sockets r)) = rk_max_connections config;
  ro_bytes : forall ws, sent_bytes ws (rl_output r) <= rk_max_outbound_bytes config;
  ro_each : forall ws text, (ws, Sent text) ∈ rl_output r -> byte_len text <= rk_max_message_bytes config;
  ro_count : forall ws, alive r ws -> sent_bytes ws (rl_output r) <= default 0 (rl_outbound_bytes r !! ws);
  ro_counted : forall ws, is_Some (rl_outbound_bytes r !! ws) -> alive r ws;
  ro_peers : forall id peers ws, rl_sessions r !! id = Some peers -> ws ∈ peers ->
    exists s, rl_sockets r !! ws = Some s /\ so_session_id s = Some id;
  ro_loops : forall ws s l, rl_sockets r !! ws = Some s -> so_loop s = Some l -> so_session_id s = Some (gt_session_id (lo_grant l));
}.

Section Budgets.
Hypothesis Hbudget : 0 <= rk_max_outbound_bytes config.
Hypothesis Hpeers : forall peers ws, ws ∈ peers_of peers -> ws ∈ peers.

Lemma new_relay_ok : 1 <= rk_max_connections config -> relay_ok (new_relay config).
Proof.
  intros Hc. split; cbn.
  - rewrite map_size_empty. lia.
  - done.
  - intros ws text Hin. by apply elem_of_nil in Hin.
  - intros ws [s Hs]. cbn in Hs. by rewrite lookup_empty in Hs.
  - intros ws [n Hn]. by rewrite lookup_empty in Hn.
  - intros id peers ws Hp. by rewrite lookup_empty in Hp.
  - intros ws s l Hs. by rewrite lookup_empty in Hs.
Qed.

Lemma close_relay_ok ws code reason r : relay_ok r -> relay_ok (emit ws (Closed code reason) r).
Proof.
  intros [R1 R2 R3 R4 R5 R6 R7]. split; cbn; try done.
  - intros ws'. rewrite sent_bytes_app. cbn. specialize (R2 ws'). lia.
  - intros ws' text [Hin|Hin]%elem_of_app; [by eapply R3|]. by apply list_elem_of_singleton in Hin.
  - intros ws' Ha. rewrite sent_bytes_app. cbn. specialize (R4 ws' Ha). lia.
Qed.

Lemma send_text_ok gone ws text r : relay_ok r -> alive r ws -> relay_ok (_send_text config gone ws text r).2.
Proof.
  intros Hr Ha. unfold _send_text. case_decide; [done|]. rewrite bind_reads. case_decide; [done|]. rewrite bind_writes.
  set (total := default 0 (rl_outbound_bytes r !! ws) + byte_len text) in *.
  set (r1 := r <| rl_outbound_bytes := <[ws := total]> (rl_outbound_bytes r) |>).
  destruct Hr as [R1 R2 R3 R4 R5 R6 R7]. pose proof (byte_len_nonneg text).
  assert (relay_ok r1) as Hr1.
  { split; cbn; try done.
    - intros ws' Ha'. destruct (decide (ws' = ws)) as [->|D]; [|rewrite lookup_insert_ne by done; by apply R4].
      rewrite lookup_insert_eq. cbn. specialize (R4 ws Ha). lia.
    - intros ws' [n Hn]. destruct (decide (ws' = ws)) as [->|D]; [done|]. rewrite lookup_insert_ne in Hn by done. apply R5. by eexists. }
  case_decide; [done|]. destruct (gone ws); [done|]. unfold writes. cbn [snd]. destruct Hr1 as [Q1 Q2 Q3 Q4 Q5 Q6 Q7].
  assert (forall ws', sent_bytes ws' (rl_output (emit ws (Sent text) r1)) = sent_bytes ws' (rl_output r) + if decide (ws = ws') then byte_len text else 0) as Hsent.
  { intros ws'. cbn. rewrite sent_bytes_app. cbn. case_decide; lia. }
  split; [exact Q1| | | |exact Q5|exact Q6|exact Q7].
  - intros ws'. rewrite Hsent. case_decide as D; [|specialize (R2 ws'); lia]. subst ws'. specialize (R4 ws Ha). lia.
  - intros ws' text' [Hin|Hin]%elem_of_app; [by eapply R3|]. apply list_elem_of_singleton in Hin. simplify_eq. lia.
  - intros ws' Ha'. rewrite Hsent. cbn. case_decide as D.
    + subst ws'. rewrite lookup_insert_eq. cbn. specialize (R4 ws Ha). lia.
    + rewrite lookup_insert_ne by done. specialize (R4 ws' Ha'). lia.
Qed.

Lemma send_text_alive gone ws text r ws' : alive r ws' -> alive (_send_text config gone ws text r).2 ws'.
Proof. unfold alive. by rewrite send_text_sockets. Qed.

Lemma send_each_ok gone peers text r : relay_ok r -> Forall (alive r) peers -> relay_ok (send_each config gone peers text r).2.
Proof.
  revert r. induction peers as [|ws peers IH]; intros r Hr Hp; [done|]. apply Forall_cons in Hp as [Ha Hp]. cbn [send_each].
  pose proof (send_text_ok gone ws text r Hr Ha) as Hr1. pose proof (send_text_alive gone ws text r) as Hl. unfold bind.
  destruct (_send_text config gone ws text r) as [[u|e] r1]; [|done]. apply IH; [done|]. by eapply Forall_impl.
Qed.

Lemma publish_ok gone id event : keeps relay_ok (publish_edge_event config float_repr peers_of gone id event).
Proof.
  intros r Hr. unfold publish_edge_event. destruct (rl_command_sessions r !! id) as [session_id|]; [|done].
  destruct (jget _ event ≫= as_str) as [type|]; [|done]. case_decide; [done|]. cbv zeta. case_decide; [done|]. apply send_each_ok; [done|].
  apply Forall_forall. intros ws Hws%Hpeers. destruct (rl_sessions r !! session_id) as [peers|] eqn:E; cbn in Hws.
  - destruct (ro_peers r Hr _ _ _ E Hws) as (s & Hs & _). by exists s.
  - by apply not_elem_of_empty in Hws.
Qed.
#[local] Hint Resolve publish_ok : act.
Lemma accept_edge_ok gone edge_id message : keeps relay_ok (_accept_edge_message config float_repr json_loads peers_of gone edge_id message).
Proof.
  unfold _accept_edge_message. destruct message.2 as [[| | | | |frame| |]|]; auto with act. destruct (json_loads _) as [[]|]; auto with act.
  destruct (wire_type _); auto with act.
Qed.

(** A socket replaced by one of the same session. *)
Lemma set_socket_ok ws s s' r : relay_ok r -> rl_sockets r !! ws = Some s -> so_session_id s' = so_session_id s ->
  (forall l, so_loop s' = Some l -> so_session_id s' = Some (gt_session_id (lo_grant l))) -> relay_ok (set_socket ws s' r).
Proof.
  intros [R1 R2 R3 R4 R5 R6 R7] Hs Hid Hl.
  assert (forall ws', alive (set_socket ws s' r) ws' <-> alive r ws') as Ha.
  { intros ws'. unfold alive. cbn. destruct (decide (ws' = ws)) as [->|D]; [rewrite lookup_insert_eq, Hs; split; by eexists|].
    by rewrite lookup_insert_ne. }
  split; cbn -[alive]; try done.
  - rewrite map_size_insert_Some by (by eexists). done.
  - intros ws' Hw. apply R4. by apply Ha.
  - intros ws' Hw. apply Ha. by apply R5.
  - intros id peers ws' Hp Hw. destruct (R6 id peers ws' Hp Hw) as (s0 & Hs0 & Hid0). destruct (decide (ws' = ws)) as [->|D].
    + exists s'. rewrite lookup_insert_eq. split; [done|]. congruence.
    + exists s0. by rewrite lookup_insert_ne.
  - intros ws' s0 l [[<- <-]|[_ Hs0]]%lookup_insert_Some; [apply Hl|by eapply R7].
Qed.

Lemma finish_ok ws s r : relay_ok r -> rl_sockets r !! ws = Some s -> relay_ok (finish_connection ws r).
Proof.
  intros [R1 R2 R3 R4 R5 R6 R7] Hs. unfold finish_connection. cbv zeta. set (r1 := r <| rl_outbound_bytes := _ |>).
  change (rl_sockets r1) with (rl_sockets r). rewrite Hs. cbn [mbind option_bind].
  assert (exists sessions, match so_session_id s with
      | Some session_id =>
          match rl_sessions r1 !! session_id with
          | Some peers => r1 <| rl_sessions := if decide (peers ∖ {[ws]} = ∅) then delete session_id (rl_sessions r1)
                                               else <[session_id := peers ∖ {[ws]}]> (rl_sessions r1) |>
          | None => r1
          end
      | None => r1
      end = r1 <| rl_sessions := sessions |>
      /\ forall id peers ws', sessions !! id = Some peers -> ws' ∈ peers -> ws' <> ws /\ exists p, rl_sessions r !! id = Some p /\ ws' ∈ p)
    as (sessions & -> & Hses).
  { assert (forall id peers ws', rl_sessions r !! id = Some peers -> ws' ∈ peers -> so_session_id s <> Some id ->
      ws' <> ws /\ exists p, rl_sessions r !! id = Some p /\ ws' ∈ p) as Hother.
    { intros id peers ws' Hp Hw Hne. split; [|by eexists]. intros ->. destruct (R6 _ _ _ Hp Hw) as (s0 & Hs0 & Hid). congruence. }
    destruct (so_session_id s) as [sid|] eqn:Esid.
    2: { exists (rl_sessions r). split; [by destruct r|]. intros id peers ws' Hp Hw. by apply (Hother id peers). }
    change (rl_sessions r1) with (rl_sessions r). destruct (rl_sessions r !! sid) as [peers0|] eqn:Ep.
    2: { exists (rl_sessions r). split; [by destruct r|]. intros id peers ws' Hp Hw. apply (Hother id peers); congruence. }
    eexists. split; [reflexivity|]. intros id peers ws' Hp Hw. destruct (decide (id = sid)) as [->|D].
    - case_decide; [by rewrite lookup_delete_eq in Hp|]. rewrite lookup_insert_eq in Hp. injection Hp as <-.
      apply elem_of_difference in Hw as [Hw Hn%not_elem_of_singleton]. split; [done|by eexists].
    - apply (Hother id peers); [|done|congruence]. case_decide; [by rewrite lookup_delete_ne in Hp|by rewrite lookup_insert_ne in Hp]. }
  split; cbn.
  - rewrite map_size_delete_Some by (by eexists). assert (size (rl_sockets r) <> 0%nat); [|lia].
    intros E. apply map_size_empty_inv in E. by rewrite E, lookup_empty in Hs.
  - done.
  - done.
  - intros ws' [s0 Hs0]. cbn in Hs0. apply lookup_delete_Some in Hs0 as [Hne Hs0]. rewrite lookup_delete_ne by done. apply R4. by exists s0.
  - intros ws' [n Hn]. apply lookup_delete_Some in Hn as [Hne Hn]. destruct (R5 ws') as [s0 Hs0]; [by exists n|]. exists s0. cbn.
    by rewrite lookup_delete_ne.
  - intros id peers ws' Hp Hw. destruct (Hses id peers ws' Hp Hw) as (Hne & p & Hp' & Hw'). destruct (R6 id p ws' Hp' Hw') as (s0 & Hs0 & Hid).
    exists s0. by rewrite lookup_delete_ne.
  - intros ws' s0 l Hs0. apply lookup_delete_Some in Hs0 as [_ Hs0]. by eapply R7.
Qed.

Lemma connect_within ws path header r : relay_ok r -> rl_sockets r !! ws = None -> ws ∉ (rl_output r).*1 -> relay_ok (connect config ws path header r).2.
Proof.
  intros Hr Hs Ho. unfold connect. cbv zeta. repeat (case_decide; [by apply close_relay_ok|]). cbn [snd].
  destruct Hr as [R1 R2 R3 R4 R5 R6 R7]. split; cbn.
  - rewrite map_size_insert_None by done. lia.
  - done.
  - done.
  - intros ws' [s0 Hs0]. cbn in Hs0. apply lookup_insert_Some in Hs0 as [[<- _]|[Hne Hs0]].
    + rewrite sent_bytes_fresh by done. destruct (rl_outbound_bytes r !! ws) eqn:E; [|done].
      destruct (R5 ws) as [s1 Hs1]; [by eexists|]. congruence.
    + apply R4. by exists s0.
  - intros ws' Hw. destruct (R5 ws' Hw) as [s0 Hs0]. exists s0. cbn. rewrite lookup_insert_ne; [done|]. congruence.
  - intros id peers ws' Hp Hw. destruct (R6 id peers ws' Hp Hw) as (s0 & Hs0 & Hid). exists s0. rewrite lookup_insert_ne; [done|]. congruence.
  - intros ws' s0 l [[<- <-]|[_ Hs0]]%lookup_insert_Some; [done|by eapply R7].
Qed.

(** Between two rounds a socket without a loop has no session. *)
Definition waits (r : relay) : Prop := forall ws s, rl_sockets r !! ws = Some s -> so_loop s = None -> so_session_id s = None.

(** What a round that began in [r0] made of the relay. *)
Definition round_of (ws : nat) (r0 : relay) (r : relay) (s : socket) : Prop :=
  relay_ok r /\ rl_sockets r = <[ws := s]> (rl_sockets r0).
Definition rounds_to (ws : nat) (r0 : relay) (x : result hub_error bool) (p : process) : Prop :=
  exists s, round_of ws r0 (pr_relay p) s /\ (x = Ok true -> is_Some (so_loop s)).

Lemma round_send {A} gone ws r0 text s (k : () -> act process A) (Q : result hub_error A * process -> Prop) p :
  round_of ws r0 (pr_relay p) s ->
  (forall p', round_of ws r0 (pr_relay p') s -> Q (k tt p')) -> (forall e p', round_of ws r0 (pr_relay p') s -> Q (Err e, p')) ->
  Q (bind (on_relay (_send_text config gone ws text)) k p).
Proof.
  intros [Hr Hs] Hok Herr. assert (alive (pr_relay p) ws) as Ha by (exists s; by rewrite Hs, lookup_insert_eq).
  pose proof (send_text_ok gone ws text _ Hr Ha) as Hr'. pose proof (send_text_sockets gone ws text (pr_relay p)) as Es.
  unfold bind, on_relay, on_part. destruct (_send_text config gone ws text (pr_relay p)) as [[[]|e] r]; [apply Hok|apply Herr];
    (split; [exact Hr'|]; cbn in Es |- *; congruence).
Qed.

(** A socket joins the peers of its session. *)
Lemma enter_ok ws id s r : relay_ok r -> rl_sockets r !! ws = Some s -> so_session_id s = None ->
  relay_ok (set_socket ws (mkSocket (Some id) None)
              (r <| rl_sessions := <[id := {[ws]} ∪ default ∅ (rl_sessions r !! id)]> (rl_sessions r) |>)).
Proof.
  intros [R1 R2 R3 R4 R5 R6 R7] Hs Hn.
  assert (forall ws', is_Some (<[ws := mkSocket (Some id) None]> (rl_sockets r) !! ws') <-> alive r ws') as Ha.
  { intros ws'. unfold alive. destruct (decide (ws' = ws)) as [->|D]; [rewrite lookup_insert_eq, Hs; split; by eexists|].
    by rewrite lookup_insert_ne. }
  assert (forall id' peers ws', rl_sessions r !! id' = Some peers -> ws' ∈ peers ->
    exists s0, <[ws := mkSocket (Some id) None]> (rl_sockets r) !! ws' = Some s0 /\ so_session_id s0 = Some id') as Hold.
  { intros id' peers ws' Hp Hw. destruct (R6 id' peers ws' Hp Hw) as (s0 & Hs0 & Hid). exists s0.
    rewrite lookup_insert_ne; [done|]. congruence. }
  split; cbn -[alive]; try done.
  - rewrite map_size_insert_Some by (by eexists). done.
  - intros ws' Hw. apply R4. by apply Ha.
  - intros ws' Hw. apply Ha. by apply R5.
  - intros id' peers ws' [[<- <-]|[_ Hp]]%lookup_insert_Some Hw; [|by eapply Hold].
    apply elem_of_union in Hw as [->%elem_of_singleton|Hw]; [eexists; by rewrite lookup_insert_eq|].
    destruct (rl_sessions r !! id) as [peers0|] eqn:E; [by eapply Hold|]. by apply not_elem_of_empty in Hw.
  - intros ws' s0 l [[<- <-]|[_ Hs0]]%lookup_insert_Some; [done|by eapply R7].
Qed.

Lemma round_set {A} ws r0 s s' (k : () -> act process A) (Q : result hub_error A * process -> Prop) p :
  round_of ws r0 (pr_relay p) s -> so_session_id s' = so_session_id s ->
  (forall l, so_loop s' = Some l -> so_session_id s' = Some (gt_session_id (lo_grant l))) ->
  (forall p', round_of ws r0 (pr_relay p') s' -> Q (k tt p')) -> Q (bind (on_relay (writes (set_socket ws s'))) k p).
Proof.
  intros [Hr Hs] Hid Hl Hk. apply Hk. split.
  - eapply set_socket_ok; [done| |done|done]. cbn. by rewrite Hs, lookup_insert_eq.
  - cbn. by rewrite Hs, insert_insert_eq.
Qed.

Lemma first_round gone ws raw clock s p : relay_ok (pr_relay p) -> rl_sockets (pr_relay p) !! ws = Some s -> so_session_id s = None ->
  let '(x, p') := first_message config float_repr json_loads gone ws raw clock p in rounds_to ws (pr_relay p) x p'.
Proof.
  intros Hr Hs Hn. set (Q := fun xp : result hub_error bool * process => rounds_to ws (pr_relay p) xp.1 xp.2).
  cut (Q (first_message config float_repr json_loads gone ws raw clock p)).
  { unfold Q. by destruct (first_message _ _ _ gone ws raw clock p). }
  assert (forall e, Q (Err e, p)) as Herr by (intros e; exists s; split; [split; [done|cbn; by rewrite insert_id]|done]).
  unfold first_message. rewrite bind_of_result. destruct (_recv_json _ _ raw) as [message|]; [|apply Herr].
  rewrite bind_reads, bind_of_result. destruct (_authenticate _ _ message) as [[g token]|]; [|apply Herr].
  match goal with |- Q (bind (on_ingress ?m) ?k p) => assert (exists p1, bind (on_ingress m) k p = k tt p1 /\ pr_relay p1 = pr_relay p)
    as (p1 & -> & Ep) by (by eexists) end.
  match goal with |- Q (bind (on_relay ?m) ?k p1) => set (kont := k); assert (exists p2, bind (on_relay m) kont p1 = kont tt p2
    /\ round_of ws (pr_relay p) (pr_relay p2) (mkSocket (Some (gt_session_id g)) None)) as (p2 & -> & Hp2) end.
  { eexists. split; [reflexivity|]. cbn [pr_relay]. rewrite <- Ep in *. split; [by eapply enter_ok|done]. }
  subst kont. cbv beta. unfold _send_json. eapply round_send; [exact Hp2| |].
  - intros p3 Hp3. eapply round_set; [exact Hp3|done|by intros l [= <-]|]. intros p4 Hp4. eexists. split; [exact Hp4|]. by eexists.
  - intros e p3 Hp3. eexists. by split; [exact Hp3|].
Qed.

Lemma round_same ws r s x : relay_ok r -> rl_sockets r !! ws = Some s -> x <> Ok true -> forall p, pr_relay p = r -> rounds_to ws r x p.
Proof. intros Hr Hs Hx p <-. exists s. split; [split; [done|by rewrite insert_id]|done]. Qed.

Lemma send_command_relay session_id device_id edge_id capability payload fresh (p : process) :
  pr_relay (send_command float_repr session_id device_id edge_id capability payload fresh p).2 = pr_relay p.
Proof.
  unfold send_command. destruct (command_kind capability); [|done]. unfold bind, on_ingress, on_part.
  by destruct (hub_queue _ _ _) as [[]].
Qed.

Lemma run_round gone ws raw clock fresh s l p : relay_ok (pr_relay p) -> rl_sockets (pr_relay p) !! ws = Some s -> so_loop s = Some l ->
  let '(x, p') := run_message config float_repr json_loads gone ws raw clock fresh l p in rounds_to ws (pr_relay p) x p'.
Proof.
  intros Hr Hs Hl. pose proof (ro_loops _ Hr _ _ _ Hs Hl) as Hid.
  set (Q := fun xp : result hub_error bool * process => rounds_to ws (pr_relay p) xp.1 xp.2).
  cut (Q (run_message config float_repr json_loads gone ws raw clock fresh l p)).
  { unfold Q. by destruct (run_message _ _ _ gone ws raw clock fresh l p). }
  assert (forall e, Q (Err e, p)) as Herr by (intros e; by eapply round_same).
  assert (forall code reason, Q ((on_relay (_close ws code reason);;; ret false) p)) as Hclose.
  { intros code reason. exists s. split; [split; [by apply close_relay_ok|cbn; by rewrite insert_id]|done]. }
  unfold run_message. rewrite bind_of_result. destruct (received_size raw) as [n|]; [|apply Herr].
  destruct (decide (n > _)); [apply Hclose|]. cbv zeta. destruct (decide (lo_inbound l + n > _)); [apply Hclose|].
  destruct (decide (_ > rk_max_messages_per_second config)); [apply Hclose|].
  rewrite bind_of_result. destruct (_parse_message _ raw) as [message|]; [|apply Herr]. rewrite bind_reads.
  destruct (decide (gt_expires_at _ <= _)); [apply Herr|]. destruct (jget "type" message ≫= as_str) as [capability|]; [|apply Herr].
  destruct (decide (capability ∉ ALLOWED_MESSAGE_TYPES)); [apply Herr|]. destruct (decide (session_matches _ message = false)); [apply Herr|].
  destruct (decide (capability ∉ gt_capabilities _)); [apply Herr|].
  match goal with |- Q (bind (send_command ?f ?a ?b ?c ?d ?e ?g) ?k p) =>
    pose proof (send_command_relay a b c d e g p) as Er; set (kont := k); unfold bind;
    destruct (send_command f a b c d e g p) as [[id|x] p1] eqn:Ec end; cbn [snd] in Er.
  2: { by eapply round_same. }
  subst kont. cbv beta.
  match goal with |- Q (bind (on_relay ?m) ?k p1) => set (kont := k); assert (exists p2, bind (on_relay m) kont p1 = kont tt p2
    /\ round_of ws (pr_relay p) (pr_relay p2) s) as (p2 & -> & Hp2) end.
  { eexists. split; [reflexivity|]. cbn [pr_relay]. rewrite Er. destruct Hr. split; [by split|]. cbn. by rewrite insert_id. }
  subst kont. cbv beta. unfold _send_json. eapply round_send; [exact Hp2| |].
  - intros p3 Hp3. eapply round_set; [exact Hp3|by rewrite Hid|by intros l' [= <-]|]. intros p4 Hp4. eexists. split; [exact Hp4|]. by eexists.
  - intros e p3 Hp3. exists s. by split.
Qed.

Definition within_budget (p : process) : Prop := relay_ok (pr_relay p) /\ waits (pr_relay p).

Lemma finish_within ws r0 r s : waits r0 -> round_of ws r0 r s -> relay_ok (finish_connection ws r) /\ waits (finish_connection ws r).
Proof.
  intros Hw [Hr Hs]. split; [eapply finish_ok; [done|]; by rewrite Hs, lookup_insert_eq|]. intros ws' s' Hs' Hl.
  unfold finish_connection in Hs'. cbn in Hs'. apply lookup_delete_Some in Hs' as [Hne Hs']. apply (Hw ws' s'); [|done].
  assert (rl_sockets r !! ws' = Some s') as E by (revert Hs'; destruct (rl_sockets r !! ws ≫= so_session_id); [|done]; cbn; by destruct (rl_sessions r !! _)).
  by rewrite Hs, lookup_insert_ne in E.
Qed.

Lemma receive_within gone ws raw clock fresh s p : within_budget p -> rl_sockets (pr_relay p) !! ws = Some s ->
  within_budget (receive_message config float_repr json_loads gone ws raw clock fresh s p).2.
Proof.
  intros [Hr Hw] Hs. unfold receive_message. cbv zeta.
  set (round := match so_loop s with
                | None => first_message config float_repr json_loads gone ws raw clock
                | Some l => run_message config float_repr json_loads gone ws raw clock fresh l
                end).
  assert (let '(x, p') := round p in rounds_to ws (pr_relay p) x p') as Hround.
  { subst round. destruct (so_loop s) eqn:El; [by eapply run_round|]. eapply first_round; [done..|by eapply Hw]. }
  destruct (round p) as [x p1]. destruct Hround as (s1 & Hp1 & Hx). destruct x as [[]|e]; cbn [snd].
  - destruct Hp1 as [Hr1 Hs1]. split; [done|]. intros ws' s' Hs' Hl'. rewrite Hs1 in Hs'.
    apply lookup_insert_Some in Hs' as [[_ <-]|[_ Hs']]; [|by eapply Hw]. destruct (Hx eq_refl) as [l Hl]. congruence.
  - by eapply finish_within.
  - assert (round_of ws (pr_relay p) (pr_relay (except_closing ws e p1).2) s1) as Hp2.
    { unfold except_closing. destruct Hp1 as [Hr1 Hs1]. destruct e; try done; (split; [by apply close_relay_ok|done]). }
    destruct (except_closing ws e p1) as [r p2]. by eapply finish_within.
Qed.

Lemma within_step comes p p' : hub_step comes p p' -> within_budget p -> within_budget p'.
Proof.
  intros Hst Hp. destruct Hst as [now p|identity enabled event_id aggregate_id event_type payload fresh p|gone edge_id message p Hn|
    ws path header p Hf Ho|gone ws raw clock fresh s p Hs|op p Hop Ht]; try exact Hp.
  - assert (within_budget (run_handlers (handlers gone) edge_id message p).2) as Hr.
    { unfold edge_handlers. cbn [run_handlers]. unfold on_ingress, on_part.
      destruct (accept_edge_message edge_id message (pr_ingress p)) as [[u|x] w]; [|exact Hp].
      destruct Hp as [Hr Hw]. unfold on_relay, on_part. cbn [pr_relay].
      pose proof (accept_edge_ok gone edge_id message (pr_relay p) Hr) as Hr'.
      pose proof (keeps_accept_edge (fun r => rl_sockets r = rl_sockets (pr_relay p)) gone edge_id message) as Hsk.
      specialize (Hsk (fun ws text r E => eq_trans (send_text_sockets gone ws text r) E) (pr_relay p) eq_refl). cbv beta in Hsk.
      cbn -[_accept_edge_message]. destruct (_accept_edge_message _ _ _ _ _ _ _ (pr_relay p)) as [[] r]; cbn in *; (split; [done|]; unfold waits; cbn; by rewrite Hsk). }
    unfold accept_message, accept. destruct message.2 as [[]|]; try exact Hp.
    all: destruct (record_edge edge_id message _) as [[[] s]|]; try exact Hp; by destruct (run_handlers _ edge_id message p).
  - destruct Hp as [Hr Hw]. pose proof (connect_within ws path header _ Hr Hf Ho) as Hr'. unfold on_relay, on_part.
    assert (waits (connect config ws path header (pr_relay p)).2) as Hw'.
    { unfold connect. cbv zeta. repeat (case_decide; [exact Hw|]). cbn. intros ws' s' Hs'. cbn in Hs'. apply lookup_insert_Some in Hs' as [[_ <-]|[_ Hs']]; [done|by eapply Hw]. }
    by destruct (connect config ws path header (pr_relay p)).
  - by apply receive_within.
Qed.

(** C24. However many browsers connect and whatever edges report: at most
    [max_connections] sockets are served at once, no text sent to a browser
    is longer than [max_message_bytes], and all that one connection is sent,
    answers and edge events together, stays within [max_outbound_bytes]. *)
Theorem relay_stays_within_budget (p : process) (Hc : is_ok (check_relay_config config) = true)
    (Hp : rtc (hub_step (fun _ => True)) new_process p) :
  Z.of_nat (size (rl_sockets (pr_relay p))) <= rk_max_connections config
  /\ (forall ws text, (ws, Sent text) ∈ rl_output (pr_relay p) -> byte_len text <= rk_max_message_bytes config)
  /\ forall ws, sent_bytes ws (rl_output (pr_relay p)) <= rk_max_outbound_bytes config.
Proof.
  assert (within_budget new_process) as Hnew.
  { split; [|intros ws s Hs; cbn in Hs; by rewrite lookup_empty in Hs]. apply new_relay_ok. unfold check_relay_config in Hc.
    destruct (decide _); [done|]. destruct (decide _); [done|]. destruct (decide _) as [|Hlimits]; [done|]. lia. }
  assert (forall p1 p2, rtc (hub_step (fun _ => True)) p1 p2 -> within_budget p1 -> within_budget p2) as Hi.
  { induction 1; eauto using within_step. }
  destruct (Hi _ _ Hp Hnew) as [[[R0 R1] R2 R3 _ _ _ _] _]. split; [lia|]. by split.
Qed.
End Budgets.
End Machine.

(** ** A session from its grant to its revocation *)

Section Demo.
Local Abbreviation hub := (process (S := Sqlite.store) (D := SqliteDelivery.store)).

Definition demo_config : DebugRelayConfig := default_relay_config ["https://studio"].
Definition demo_loads (s : string) : option json :=
  if decide (s = "auth") then Some (JObj [("type", JStr "debug.auth"); ("sessionId", JStr "s-1"); ("token", JStr sample_token)])
  else if decide (s = "tap") then Some (JObj [("type", JStr "input.tap"); ("x", JInt 3)])
  else if decide (s = "picture") then Some (JObj [("frame", JInt 1)])
  else None.
Definition all_open : nat -> option bool := fun _ => None.
Definition studio (name : string) : option string := if decide (name = "Origin") then Some "https://studio" else None.

Definition demo_event (event_type : string) (p : hub) : grpc_answer * hub :=
  let '(a, w) := DeliverDebugEvent no_repr sample_clock None true "event" "s-1" event_type sample_payload "" (pr_ingress p) in
  (a, p <| pr_ingress := w |>).
Definition demo_grant : hub -> grpc_answer * hub := demo_event "debug.session.grant_requested".
Definition demo_revoke : hub -> grpc_answer * hub := demo_event "debug.session.revoked".
Definition demo_connect (ws : nat) (p : hub) : hub := (on_relay (connect demo_config ws "/debug" studio) p).2.
Definition demo_says (ws : nat) (text : string) (p : hub) : hub :=
  match rl_sockets (pr_relay p) !! ws with
  | Some s => (receive_message demo_config no_float demo_loads all_open ws (Text text) 0 (py_str_int (Z.of_nat ws)) s p).2
  | None => p
  end.
Definition demo_accept (config : DebugRelayConfig) (m : EdgeToCloud) : hub -> result hub_error bool * hub :=
  accept_message config no_float demo_loads elements all_open "edge" m.

Definition granted_hub : hub := (demo_grant (new_process (S := Sqlite.store) demo_config)).2.
Definition tapped_hub : hub := demo_says 0 "tap" (demo_says 0 "auth" (demo_connect 0 granted_hub)).
Definition revoked_ingress : ingress Sqlite.store SqliteDelivery.store := pr_ingress (demo_revoke tapped_hub).2.
Definition revoked_hub : hub := tapped_hub <| pr_ingress := revoked_ingress |>.

Abbreviation demo_step := (hub_step (S := Sqlite.store) demo_config no_float demo_loads elements no_repr sample_clock).
Lemma demo_event_step comes event_type p : demo_step comes p (demo_event event_type p).2.
Proof.
  pose proof (HS_event demo_config no_float demo_loads elements no_repr sample_clock comes None true "event" "s-1" event_type
                sample_payload "" p) as Hs.
  unfold demo_event. by destruct (DeliverDebugEvent _ _ _ _ _ _ _ _ _ _) as [a w].
Qed.
Lemma demo_says_step comes ws text p : is_Some (rl_sockets (pr_relay p) !! ws) -> demo_step comes p (demo_says ws text p).
Proof. intros [s Hs]. unfold demo_says. rewrite Hs. by apply HS_message. Qed.

Lemma demo_connect_step comes ws p : rl_sockets (pr_relay p) !! ws = None -> ws ∉ (rl_output (pr_relay p)).*1 ->
  demo_step comes p (demo_connect ws p).
Proof. intros Hs Ho. by apply (HS_connect demo_config). Qed.

(** A browser connects and presents the token. *)
Lemma demo_visit_steps comes ws p : rl_sockets (pr_relay p) !! ws = None -> ws ∉ (rl_output (pr_relay p)).*1 ->
  is_Some (rl_sockets (pr_relay (demo_connect ws p)) !! ws) -> rtc (demo_step comes) p (demo_says ws "auth" (demo_connect ws p)).
Proof.
  intros H1 H2 H3. apply (rtc_l _ _ (demo_connect ws p)); [by apply demo_connect_step|].
  apply (rtc_l _ _ (demo_says ws "auth" (demo_connect ws p))); [by apply demo_says_step|apply rtc_refl].
Qed.
Lemma tapped_reachable : rtc (demo_step (fun _ => True)) (new_process demo_config) tapped_hub.
Proof.
  apply (rtc_l _ _ granted_hub); [apply demo_event_step|].
  transitivity (demo_says 0 "auth" (demo_connect 0 granted_hub)).
  - apply demo_visit_steps; [apply none_computed|apply not_in_computed|apply some_computed]; vm_compute; reflexivity.
  - apply (rtc_l _ _ tapped_hub); [|apply rtc_refl]. apply demo_says_step. apply some_computed. vm_compute. reflexivity.
Qed.

Definition tap_frame : relay_frame := mkRelayFrame "s-1" "device-1" "debug/s-1/0" "input.tap" "tap"
  (json_text no_float (JObj [("x", JInt 3)])) false.

Lemma relay_commands_are_authorised_witness :
  exists granted_at m g ws token,
    Queued granted_at "edge" (m, Some (CB_debug_grant g)) ∈ take 2 (in_history (pr_ingress tapped_hub)) /\ m < 2
    /\ dg_session_id g = "s-1" /\ dg_device_id g = "device-1" /\ "input.tap" ∈ dg_capabilities g
    /\ command_kind "input.tap" = Some "tap" /\ 0 < dg_expires_at g
    /\ Presented ws "s-1" token ∈ take 2 (in_history (pr_ingress tapped_hub)) /\ Sha256.hexdigest token = Sha256.hexdigest (dg_relay_token g).
Proof.
  apply (relay_commands_are_authorised demo_config no_float demo_loads elements no_repr sample_clock tapped_hub tapped_reachable
           (take 2 (in_history (pr_ingress tapped_hub))) [] 0 "edge" 2 tap_frame).
  vm_compute. reflexivity.
Defined.

Lemma revocation_closes_the_ingress_witness :
  rl_sockets (pr_relay (demo_says 1 "auth" (demo_connect 1 granted_hub))) !! 1%nat <> None
  /\ exists later, in_history (pr_ingress (demo_says 1 "auth" (demo_connect 1 revoked_hub))) = in_history revoked_ingress ++ later
       /\ forall ws token, Presented ws "s-1" token ∉ later.
Proof.
  split; [vm_compute; discriminate|].
  eapply (revocation_closes_the_ingress demo_config no_float demo_loads elements no_repr sample_clock tapped_hub _ "event" "s-1" "" "s-1"
            sample_payload revoked_ingress tapped_reachable).
  - reflexivity.
  - vm_compute. by eexists.
  - vm_compute. reflexivity.
  - apply (demo_visit_steps (names_other "s-1") 1 revoked_hub); [apply none_computed|apply not_in_computed|apply some_computed];
      vm_compute; reflexivity.
Defined.

Lemma relay_stays_within_budget_witness :
  sent_bytes 0 (rl_output (pr_relay tapped_hub)) <= 16777216.
Proof.
  refine (proj2 (proj2 (relay_stays_within_budget demo_config no_float demo_loads elements no_repr sample_clock _ _ tapped_hub _ tapped_reachable)) 0%nat).
  - vm_compute. discriminate.
  - intros peers ws. apply elem_of_elements.
  - vm_compute. reflexivity.
Defined.

(** ** Where it does not hold what it promises *)

(** The connection keeps the grant it read when it was opened: frames pass
    after the hub took the revocation. *)
Lemma open_socket_outlives_revocation :
  (demo_revoke tapped_hub).1 = Accepted
  /\ dd_state <$> SqliteDelivery.get "s-1" (in_delivery revoked_ingress) = Some "REVOKED"
  /\ exists at_ n, in_history (pr_ingress (demo_says 0 "tap" revoked_hub))
                   = in_history revoked_ingress ++ [Queued at_ "edge" (n, Some (CB_relay_frame tap_frame))].
Proof. split; [vm_compute; reflexivity|]. split; [vm_compute; reflexivity|]. eexists _, _. vm_compute. reflexivity. Qed.

(** A revocation that arrives before its grant is forgotten: the grant is
    queued afterwards and the session opens. *)
Lemma late_grant_outlives_revocation :
  let '(a, p) := demo_revoke (new_process demo_config) in let '(a', p') := demo_grant p in
  a = Accepted /\ a' = Accepted /\ is_Some (rl_sockets (pr_relay (demo_says 1 "auth" (demo_connect 1 p'))) !! 1%nat).
Proof. vm_compute. split; [done|]. split; [done|]. by eexists. Qed.

(** A grant event that is delivered again is refused, for ever: the stored
    record is no longer PENDING. *)
Lemma redelivered_grant_is_refused :
  (demo_grant (new_process demo_config)).1 = Accepted
  /\ (demo_grant granted_hub).1 = Aborted "FAILED_PRECONDITION" "invalid debug grant event payload".
Proof. vm_compute. done. Qed.

(** An acknowledgement of the edge overwrites REVOKED. *)
Lemma late_ack_reopens :
  let p := (demo_accept demo_config (1, Some (EB_command_ack (mkCommandAck "s-1" "ACCEPTED" "" ""))) revoked_hub).2 in
  rl_sockets (pr_relay (demo_says 1 "auth" (demo_connect 1 revoked_hub))) !! 1%nat = None
  /\ is_Some (rl_sockets (pr_relay (demo_says 1 "auth" (demo_connect 1 p))) !! 1%nat).
Proof. vm_compute. by split; [|eexists]. Qed.

(** A browser that has used its budget up makes [EdgeHub.accept] raise
    something that is no [SessionError]: the edge's stream breaks. *)
Definition small_config : DebugRelayConfig := mkRelayConfig ["https://studio"] 32 (256 * 1024) (4 * 1024 * 1024) 90 20 90000000.
Lemma spent_budget_breaks_the_stream :
  (demo_accept small_config (1, Some (EB_relay_frame (mkRelayFrame "s-1" "device-1" "debug/s-1/0" "view.frame" "frame" "picture" true)))
     tapped_hub).1 = Err (DebugRelayError "outbound budget exceeded").
Proof. vm_compute. reflexivity. Qed.

(** Two capabilities can be granted and asked for whose frames the edge refuses. *)
Lemma granted_steps_are_refused capability kind frame device_id now m : 
  capability = "debug.steps" \/ capability = "debug.variables" -> command_kind capability = Some kind -> rf_kind frame = kind ->
  capability ∈ ALLOWED_DEBUG_CAPABILITIES /\ is_ok (EdgeControl.validate_frame frame device_id now m).1 = false.
Proof.
  intros Hc Hk Hf. split; [destruct Hc as [-> | ->]; by apply (bool_decide_unpack _)|].
  unfold EdgeControl.validate_frame. destruct (EdgeControl.check_session _ _ _ _ _ _) as [[s|] m']; [|done].
  rewrite decide_True; [done|]. rewrite Hf. destruct Hc as [-> | ->]; injection Hk as <-; by apply not_in_computed.
Qed.
Lemma granted_steps_are_refused_witness :
  "debug.steps" ∈ ALLOWED_DEBUG_CAPABILITIES
  /\ is_ok (EdgeControl.validate_frame (mkRelayFrame "s-1" "device-1" "r" "debug.steps" "steps" "" false) "device-1" 0 ∅).1 = false.
Proof. by apply (granted_steps_are_refused "debug.steps" "steps"); [left|..]. Defined.
End Demo.
