(* ===== verification/DeviceLock.v ===== *)
(** * The device acceptance lock: scripts/device_lock.py

    A lock table with one row per held device serial, in a database all
    worktrees of a repository share. A lock is taken only when the serial is
    free, however long its last lock has expired; a stale lock is removed by
    an explicit break of the fencing number that was observed. *)

From stdpp Require Import base gmap strings list.
From Stdlib Require Import ZArith Ascii Lia.
From S2P Require Import Prelude PyStd Rows PyJson FleetIdentity.

Open Scope Z_scope.

(** ** Constants and checks *)

Definition EXIT_OK : Z := 0.
Definition EXIT_CONFLICT : Z := 3.
Definition EXIT_OWNERSHIP : Z := 4.
Definition EXIT_USAGE : Z := 5.
Definition MIN_TTL_SECONDS : Z := 60.
Definition MAX_TTL_SECONDS : Z := 8 * 60 * 60.
Definition SCHEMA_VERSION : Z := 1.

Record LockError := mkLockError { le_message : string; le_code : Z; le_details : list (string * json) }.
Definition usage (message : string) : LockError := mkLockError message EXIT_USAGE [].

(** A stored time is its text with seconds; a [datetime] has microseconds. *)
Definition iso (moment : Z) : Z := moment / 1000000.
Definition parse_iso (text : Z) : Z := text * 1000000.
Definition token_hash (token : string) : string := hexdigest token.
Definition hashes_equal (stored presented : string) : bool :=
  if decide (String.length stored <> String.length presented) then false else String.eqb stored presented.

Definition SECRET_KEYS : list string := ["owner_token"; "owner_token_sha256"; "token"; "token_hash"; "secret"].
Definition public_view (payload : list (string * json)) : list (string * json) :=
  filter (fun kv => kv.1 ∉ SECRET_KEYS) payload.

Definition serial_char (c : ascii) : bool :=
  is_alnum c || Ascii.eqb c "." || Ascii.eqb c "_" || Ascii.eqb c ":" || Ascii.eqb c "-".
Definition validate_serial (serial : string) : result LockError string :=
  raise_if serial = "" \/ 128 < str_len serial with usage "serial must be 1..128 characters" in
  raise_if str_all serial_char serial = false with usage "serial contains unsupported characters" in
  raise_if serial = "." \/ serial = ".." \/ ".." ∈ py_split ":" serial
    with usage "serial must be an exact device serial, not a path" in
  Ok serial.
Definition printable (c : ascii) : bool := Nat.leb 32 (nat_of_ascii c).
Definition validate_identity (value field : string) : result LockError string :=
  let text := py_strip value in
  raise_if text = "" \/ 200 < str_len text with usage (field +:+ " must be 1..200 non-blank characters") in
  raise_if str_all printable text = false with usage (field +:+ " must not contain control characters") in
  Ok text.
Definition validate_reason (value : string) : result LockError string :=
  let? text := validate_identity value "reason" in
  raise_if str_len text < 8 with usage "reason must be at least 8 characters" in Ok text.
Definition validate_ttl (ttl : Z) : result LockError Z :=
  raise_if ttl < MIN_TTL_SECONDS \/ MAX_TTL_SECONDS < ttl
    with usage ("ttl must be " +:+ py_str_int MIN_TTL_SECONDS +:+ ".." +:+ py_str_int MAX_TTL_SECONDS +:+ " seconds") in Ok ttl.
Definition validate_fencing (token : Z) : result LockError Z :=
  raise_if token < 1 with usage "fencing token must be a positive integer" in Ok token.

(** ** The database *)

(** The columns of a lock, but for its key, the serial. *)
Record LockRow := mkLock {
  lk_holder : string;
  lk_purpose : string;
  lk_task_id : option string;
  lk_token_hash : string;
  lk_fencing : Z;
  lk_acquired_at : Z;
  lk_renewed_at : Z;
  lk_expires_at : Z;
}.
#[export] Instance LockRow_eta : Eta LockRow := fun r => mkLock
  (lk_holder r) (lk_purpose r) (lk_task_id r) (lk_token_hash r) (lk_fencing r) (lk_acquired_at r) (lk_renewed_at r) (lk_expires_at r).

(** An audit row; its id is its position. *)
Record LockAudit := mkLockAudit {
  la_serial : string;
  la_action : string;
  la_actor : string;
  la_fencing : Z;
  la_at : Z;
  la_detail : list (string * json);
}.

Record lock_db := mkLockDb {
  lb_version : Z;
  lb_locks : gmap string LockRow;
  lb_counters : gmap string Z;
  lb_audit : list LockAudit;
}.
#[export] Instance lock_db_eta : Eta lock_db := fun d => mkLockDb (lb_version d) (lb_locks d) (lb_counters d) (lb_audit d).
Definition new_lock_db : lock_db := mkLockDb SCHEMA_VERSION ∅ ∅ [].

(** [_connect(write=True)] with [_ensure_schema]; [None]: there is no file yet. *)
Definition ensure_schema (database : option lock_db) : result LockError lock_db :=
  match database with
  | None => Ok new_lock_db
  | Some d =>
      raise_if lb_version d <> SCHEMA_VERSION with usage ("unsupported lock schema version " +:+ py_str_int (lb_version d)) in Ok d
  end.
(** A transaction of a writer: the answer, and the database it leaves. *)
Definition as_writer {A} (body : lock_db -> result LockError A * lock_db) (database : option lock_db)
    : result LockError A * option lock_db :=
  match ensure_schema database with
  | Err e => (Err e, database)
  | Ok d => let '(r, d') := body d in (r, Some d')
  end.

Definition lock_state (row : LockRow) (now : Z) : string := if decide (now < parse_iso (lk_expires_at row)) then "HELD" else "STALE".
Definition json_task (task_id : option string) : json := match task_id with Some t => JStr t | None => JNull end.
(** [_describe] *)
Definition describe (serial : string) (row : option LockRow) (now : Z) : list (string * json) :=
  match row with
  | None => [("state", JStr "FREE")]
  | Some row =>
      [("state", JStr (lock_state row now)); ("serial", JStr serial); ("holder", JStr (lk_holder row));
       ("purpose", JStr (lk_purpose row)); ("task_id", json_task (lk_task_id row)); ("fencing", JInt (lk_fencing row));
       ("acquired_at", JInt (lk_acquired_at row)); ("renewed_at", JInt (lk_renewed_at row)); ("expires_at", JInt (lk_expires_at row))]
  end.

(** [_audit] *)
Definition lock_audit (serial action actor : string) (fencing at_ : Z) (detail : list (string * json)) (d : lock_db) : lock_db :=
  d <| lb_audit := lb_audit d ++ [mkLockAudit serial action actor fencing (iso at_) (public_view detail)] |>.

Definition allocate_fencing (serial : string) (d : lock_db) : Z * lock_db :=
  match lb_counters d !! serial with
  | None => (1, d <| lb_counters := <[serial := 2]> (lb_counters d) |>)
  | Some fencing => (fencing, d <| lb_counters := <[serial := fencing + 1]> (lb_counters d) |>)
  end.

(** ** The operations *)

Definition optional_identity (value : option string) (field : string) : result LockError (option string) :=
  match value with Some v => let? t := validate_identity v field in Ok (Some t) | None => Ok None end.

(** The insertion of a lock on a free serial. *)
Definition grab (serial holder purpose : string) (task_id : option string) (ttl_seconds : Z) (token : string) (now : Z) (d : lock_db)
    : list (string * json) * lock_db :=
  let '(fencing, d) := allocate_fencing serial d in
  let expires := iso (now + seconds ttl_seconds) in
  let d := d <| lb_locks := <[serial := mkLock holder purpose task_id (token_hash token) fencing (iso now) (iso now) expires]> (lb_locks d) |> in
  let d := lock_audit serial "acquire" holder fencing now
             [("purpose", JStr purpose); ("task_id", json_task task_id); ("expires_at", JInt expires)] d in
  ([("state", JStr "HELD"); ("serial", JStr serial); ("holder", JStr holder); ("purpose", JStr purpose);
    ("task_id", json_task task_id); ("fencing", JInt fencing); ("acquired_at", JInt (iso now)); ("expires_at", JInt expires);
    ("ttl_seconds", JInt ttl_seconds); ("owner_token", JStr token)], d).

(** The serial is held or stale: the refusal is committed. *)
Definition refuse (serial holder : string) (row : LockRow) (now : Z) (d : lock_db) : LockError * lock_db :=
  (mkLockError "device is not free; stale locks are not taken over automatically" EXIT_CONFLICT
     [("state", JStr (lock_state row now)); ("holder", JStr (lk_holder row)); ("fencing", JInt (lk_fencing row));
      ("expires_at", JInt (lk_expires_at row))],
   lock_audit serial "acquire_rejected" holder (lk_fencing row) now
     [("state", JStr (lock_state row now)); ("holder", JStr (lk_holder row))] d).

(** [token] is what [secrets.token_urlsafe] returned. *)
Definition acquire (serial holder purpose : string) (task_id : option string) (ttl_seconds : Z) (token : string) (now : Z)
    (database : option lock_db) : result LockError (list (string * json)) * option lock_db :=
  match (let? serial := validate_serial serial in
         let? holder := validate_identity holder "holder" in
         let? purpose := validate_identity purpose "purpose" in
         let? task_id := optional_identity task_id "task_id" in
         let? ttl_seconds := validate_ttl ttl_seconds in
         Ok (serial, holder, purpose, task_id, ttl_seconds)) with
  | Err e => (Err e, database)
  | Ok (serial, holder, purpose, task_id, ttl_seconds) =>
      as_writer (fun d =>
        match lb_locks d !! serial with
        | Some row => let '(e, d) := refuse serial holder row now d in (Err e, d)
        | None => let '(answer, d) := grab serial holder purpose task_id ttl_seconds token now d in (Ok answer, d)
        end) database
  end.

(** A transaction that is rolled back when it raises. *)
Definition rolled_back {A} (body : lock_db -> result LockError (A * lock_db)) (d : lock_db) : result LockError A * lock_db :=
  match body d with Ok (a, d') => (Ok a, d') | Err e => (Err e, d) end.

(** [_require_owner] *)
Definition require_owner (row : option LockRow) (token : string) (fencing now : Z) : result LockError LockRow :=
  match row with
  | None => Err (mkLockError "no active lock" EXIT_CONFLICT [("state", JStr "FREE")])
  | Some row =>
      raise_if lk_fencing row <> fencing
        with mkLockError "fencing token does not match the current owner" EXIT_OWNERSHIP
               [("fencing", JInt (lk_fencing row)); ("state", JStr (lock_state row now))] in
      raise_if hashes_equal (lk_token_hash row) (token_hash token) = false
        with mkLockError "owner token does not match" EXIT_OWNERSHIP [("fencing", JInt (lk_fencing row))] in
      Ok row
  end.

Definition renew (serial token : string) (fencing ttl_seconds now : Z) (database : option lock_db)
    : result LockError (list (string * json)) * option lock_db :=
  match (let? serial := validate_serial serial in
         let? fencing := validate_fencing fencing in
         let? ttl_seconds := validate_ttl ttl_seconds in
         raise_if token = "" with usage "owner token is required" in Ok (serial, fencing, ttl_seconds)) with
  | Err e => (Err e, database)
  | Ok (serial, fencing, ttl_seconds) =>
      as_writer (rolled_back (fun d =>
        let? row := require_owner (lb_locks d !! serial) token fencing now in
        raise_if lock_state row now <> "HELD"
          with mkLockError "stale lock cannot be renewed; break it explicitly after verification" EXIT_CONFLICT
                 [("state", JStr "STALE"); ("fencing", JInt (lk_fencing row)); ("expires_at", JInt (lk_expires_at row))] in
        let expires := iso (now + seconds ttl_seconds) in
        let d := d <| lb_locks := <[serial := row <| lk_renewed_at := iso now |> <| lk_expires_at := expires |>]> (lb_locks d) |> in
        let d := lock_audit serial "renew" (lk_holder row) fencing now [("expires_at", JInt expires); ("ttl_seconds", JInt ttl_seconds)] d in
        Ok ([("state", JStr "HELD"); ("serial", JStr serial); ("holder", JStr (lk_holder row)); ("fencing", JInt fencing);
             ("renewed_at", JInt (iso now)); ("expires_at", JInt expires)], d))) database
  end.

(** The row just read is the one the DELETE of the same transaction names, so
    that it removes exactly one row. *)
Definition release (serial token : string) (fencing now : Z) (database : option lock_db)
    : result LockError (list (string * json)) * option lock_db :=
  match (let? serial := validate_serial serial in
         let? fencing := validate_fencing fencing in
         raise_if token = "" with usage "owner token is required" in Ok (serial, fencing)) with
  | Err e => (Err e, database)
  | Ok (serial, fencing) =>
      as_writer (rolled_back (fun d =>
        let? row := require_owner (lb_locks d !! serial) token fencing now in
        let d := d <| lb_locks := delete serial (lb_locks d) |> in
        let d := lock_audit serial "release" (lk_holder row) fencing now [("previous_state", JStr (lock_state row now))] d in
        Ok ([("state", JStr "FREE"); ("serial", JStr serial); ("released_fencing", JInt fencing); ("at", JInt (iso now))], d))) database
  end.

Definition break_stale (serial : string) (observed_fencing : Z) (reason actor : string) (now : Z) (database : option lock_db)
    : result LockError (list (string * json)) * option lock_db :=
  match (let? serial := validate_serial serial in
         let? observed_fencing := validate_fencing observed_fencing in
         let? reason := validate_reason reason in
         let? actor := validate_identity actor "actor" in Ok (serial, observed_fencing, reason, actor)) with
  | Err e => (Err e, database)
  | Ok (serial, observed_fencing, reason, actor) =>
      as_writer (rolled_back (fun d =>
        need row := lb_locks d !! serial orelse mkLockError "no lock to break" EXIT_CONFLICT [("state", JStr "FREE")] in
        raise_if lk_fencing row <> observed_fencing
          with mkLockError "observed fencing token does not match; refusing break" EXIT_OWNERSHIP
                 [("fencing", JInt (lk_fencing row)); ("state", JStr (lock_state row now))] in
        raise_if lock_state row now <> "STALE"
          with mkLockError "refusing to break a live lock" EXIT_CONFLICT
                 [("state", JStr "HELD"); ("holder", JStr (lk_holder row)); ("fencing", JInt (lk_fencing row));
                  ("expires_at", JInt (lk_expires_at row))] in
        let d := d <| lb_locks := delete serial (lb_locks d) |> in
        let d := lock_audit serial "break_stale" actor observed_fencing now
                   [("reason", JStr reason); ("previous_holder", JStr (lk_holder row)); ("purpose", JStr (lk_purpose row));
                    ("expired_at", JInt (lk_expires_at row))] d in
        Ok ([("state", JStr "FREE"); ("serial", JStr serial); ("broken_fencing", JInt observed_fencing); ("actor", JStr actor);
             ("at", JInt (iso now))], d))) database
  end.

(** Readers: [status] of one serial or of all, in the order of the serials, and [history]. *)
Definition status_of (serial : string) (now : Z) (database : option lock_db) : result LockError (list (string * json)) :=
  let? serial := validate_serial serial in
  Ok match database with
     | None => [("initialized", JBool false); ("serial", JStr serial); ("state", JStr "FREE")]
     | Some d => describe serial (lb_locks d !! serial) now ++ [("initialized", JBool true)]
                 ++ (if decide (is_Some (lb_locks d !! serial)) then [] else [("serial", JStr serial)])
     end.
Definition row_leb (a b : string * LockRow) : bool := str_leb a.1 b.1.
Definition status_all (now : Z) (database : option lock_db) : list (string * json) :=
  match database with
  | None => [("initialized", JBool false); ("locks", JArr [])]
  | Some d =>
      [("initialized", JBool true);
       ("locks", JArr ((fun kr => JObj (describe kr.1 (Some kr.2) now)) <$> isort row_leb (map_to_list (lb_locks d))))]
  end.
Definition audit_view (row : nat * LockAudit) : json :=
  JObj [("id", JInt (Z.of_nat row.1 + 1)); ("serial", JStr (la_serial row.2)); ("action", JStr (la_action row.2));
        ("actor", JStr (la_actor row.2)); ("fencing", JInt (la_fencing row.2)); ("at", JInt (la_at row.2));
        ("detail", JObj (public_view (la_detail row.2)))].
Definition about_serial (serial : option string) (row : nat * LockAudit) : Prop := from_option (fun s => la_serial row.2 = s) True serial.
#[export] Instance about_serial_dec serial row : Decision (about_serial serial row).
Proof. unfold about_serial. destruct serial; cbn; apply _. Defined.
Definition history (serial : option string) (limit : Z) (database : option lock_db) : result LockError (list json) :=
  let? serial := match serial with Some s => let? s := validate_serial s in Ok (Some s) | None => Ok None end in
  raise_if limit < 1 \/ 500 < limit with usage "history limit must be 1..500" in
  match database with
  | None => Ok []
  | Some d =>
      let rows := imap pair (lb_audit d) in
      Ok (audit_view <$> take (Z.to_nat limit) (filter (about_serial serial) (reverse rows)))
  end.

(** ** The command line *)

Definition restricted_token (text : string) : result LockError string :=
  let token := py_strip text in
  raise_if token = "" \/ str_contains_char newline token = true \/ str_contains_char "000"%char token = true
    with usage "token file must contain one secret line" in Ok token.
Definition TOKEN_SOURCES : string :=
  "provide the owner token via CLOUDCTL_DEVICE_LOCK_TOKEN, --token-file, or --token-stdin (exactly one; --token is not accepted)".
(** [resolve_owner_token]: the environment variable, the text of the token
    file or why it was not read, the line of the standard input. *)
Definition resolve_owner_token (env : option string) (file : option (result LockError string)) (stdin : option string)
    : result LockError string :=
  let given (b : bool) : nat := if b then 1%nat else 0%nat in
  raise_if (given (truthy_str env) + given (bool_decide (is_Some file)) + given (bool_decide (is_Some stdin)) <> 1)%nat
    with usage TOKEN_SOURCES in
  let? token := (if truthy_str env then Ok (py_strip (default "" env)) else
                 match file with
                 | Some text => let? text := text in restricted_token text
                 | None => Ok (py_strip (default "" stdin))
                 end) in
  raise_if token = "" \/ str_all printable token = false
    with usage "owner token is empty or contains control characters" in Ok token.

(** A command that writes, with the token it resolved and the clock. *)
Inductive lock_op : Type :=
| L_acquire (serial holder purpose : string) (task_id : option string) (ttl : Z) (token : string) (now : Z)
| L_renew (serial : string) (token : result LockError string) (fencing ttl now : Z)
| L_release (serial : string) (token : result LockError string) (fencing now : Z)
| L_break (serial : string) (observed_fencing : Z) (reason actor : string) (now : Z).

Definition lock_run (op : lock_op) (database : option lock_db) : result LockError (list (string * json)) * option lock_db :=
  match op with
  | L_acquire serial holder purpose task_id ttl token now => acquire serial holder purpose task_id ttl token now database
  | L_renew serial token fencing ttl now =>
      match token with Ok t => renew serial t fencing ttl now database | Err e => (Err e, database) end
  | L_release serial token fencing now =>
      match token with Ok t => release serial t fencing now database | Err e => (Err e, database) end
  | L_break serial observed reason actor now => break_stale serial observed reason actor now database
  end.

(** [main]: what goes to stdout or stderr, and the exit status. *)
Inductive output : Type := Stdout (payload : list (string * json)) | Stderr (payload : list (string * json)).
Definition main (op : lock_op) (database : option lock_db) : output * Z * option lock_db :=
  match lock_run op database with
  | (Ok payload, d) => (Stdout payload, EXIT_OK, d)
  | (Err e, d) => (Stderr (public_view (("error", JStr (le_message e)) :: le_details e)), le_code e, d)
  end.

(** ** What one command does *)

(** The four ways the tables change; [row] is the lock before. *)
Inductive lock_change (d d' : lock_db) : Prop :=
| change_none : d' = d -> lock_change d d'
| change_refused serial holder row now : lb_locks d !! serial = Some row ->
    d' = (refuse serial holder row now d).2 -> lock_change d d'
| change_taken serial holder purpose task_id ttl token now : lb_locks d !! serial = None ->
    d' = (grab serial holder purpose task_id ttl token now d).2 -> lock_change d d'
| change_renewed serial row now ttl : lb_locks d !! serial = Some row -> now < parse_iso (lk_expires_at row) ->
    d' = lock_audit serial "renew" (lk_holder row) (lk_fencing row) now
           [("expires_at", JInt (iso (now + seconds ttl))); ("ttl_seconds", JInt ttl)]
           (d <| lb_locks := <[serial := row <| lk_renewed_at := iso now |> <| lk_expires_at := iso (now + seconds ttl) |>]> (lb_locks d) |>) ->
    lock_change d d'
| change_dropped serial row action actor now detail : lb_locks d !! serial = Some row ->
    action = "release" \/ action = "break_stale" /\ parse_iso (lk_expires_at row) <= now ->
    d' = lock_audit serial action actor (lk_fencing row) now detail (d <| lb_locks := delete serial (lb_locks d) |>) -> lock_change d d'.

Definition opened (database : option lock_db) : lock_db := default new_lock_db database.

Lemma ensure_schema_Ok database d : ensure_schema database = Ok d -> d = opened database.
Proof. unfold ensure_schema. destruct database; intros H; ok_inv H; done. Qed.

Lemma as_writer_inv {A} body database (r : result LockError A) database' : as_writer body database = (r, database') ->
  (exists e, r = Err e /\ database' = database) \/ exists d', database' = Some d' /\ body (opened database) = (r, d').
Proof.
  unfold as_writer. destruct (ensure_schema database) as [d|e] eqn:E.
  - apply ensure_schema_Ok in E as ->. destruct (body (opened database)) as [r0 d']. intros [= <- <-]. right. by exists d'.
  - intros [= <- <-]. left. by exists e.
Qed.

Lemma hashes_equal_iff a b : hashes_equal a b = true <-> a = b.
Proof. unfold hashes_equal. case_decide as D; [split; [done|congruence]|apply String.eqb_eq]. Qed.

Lemma require_owner_Ok row token fencing now r : require_owner row token fencing now = Ok r ->
  row = Some r /\ lk_fencing r = fencing /\ lk_token_hash r = token_hash token.
Proof.
  unfold require_owner. destruct row; [|done]. intros H. ok_inv H. apply dec_stable in D. split; [done|]. split; [done|].
  apply not_false_is_true in D0. by apply hashes_equal_iff in D0.
Qed.

Lemma lock_state_held row now : lock_state row now = "HELD" <-> now < parse_iso (lk_expires_at row).
Proof. unfold lock_state. by case_decide. Qed.
Lemma lock_state_stale row now : lock_state row now = "STALE" <-> parse_iso (lk_expires_at row) <= now.
Proof. unfold lock_state. case_decide; split; try done; lia. Qed.

Lemma rolled_back_inv {A} (body : lock_db -> result LockError (A * lock_db)) d r d' : rolled_back body d = (r, d') ->
  match r with Ok a => body d = Ok (a, d') | Err _ => d' = d end.
Proof. unfold rolled_back. destruct (body d) as [[a x]|e]; by intros [= <- <-]. Qed.

(** A writer behind its argument checks. *)
Ltac open_writer H :=
  match type of H with
  | (match ?m with Ok _ => _ | Err _ => _ end) = _ => let E := fresh "Ev" in destruct m eqn:E; [|injection H as <- <-; by apply change_none]; ok_inv E
  end;
  apply as_writer_inv in H as [(e & -> & ->)|(d' & -> & H)]; [by apply change_none|].

Lemma acquire_change serial holder purpose task ttl token now database r database' :
  acquire serial holder purpose task ttl token now database = (r, database') -> lock_change (opened database) (opened database').
Proof.
  unfold acquire. intros H. open_writer H. destruct (lb_locks (opened database) !! _) as [row|] eqn:Er.
  - destruct (refuse _ _ row now (opened database)) as [e d2] eqn:Ef. injection H as <- <-. eapply change_refused; [exact Er|]. by rewrite Ef.
  - destruct (grab _ _ _ _ _ token now (opened database)) as [a d2] eqn:Eg. injection H as <- <-. eapply change_taken; [exact Er|]. by rewrite Eg.
Qed.

Lemma renew_change serial token fencing ttl now database r database' :
  renew serial token fencing ttl now database = (r, database') -> lock_change (opened database) (opened database').
Proof.
  unfold renew. intros H. open_writer H. apply rolled_back_inv in H. destruct r; [|by apply change_none]. ok_inv H.
  match goal with R : require_owner _ _ _ _ = Ok _ |- _ => apply require_owner_Ok in R as (Hr & <- & _) end.
  match goal with D : ~ lock_state _ _ <> "HELD" |- _ => apply dec_stable, lock_state_held in D end.
  by eapply change_renewed.
Qed.

Lemma release_change serial token fencing now database r database' :
  release serial token fencing now database = (r, database') -> lock_change (opened database) (opened database').
Proof.
  unfold release. intros H. open_writer H. apply rolled_back_inv in H. destruct r; [|by apply change_none]. ok_inv H.
  match goal with R : require_owner _ _ _ _ = Ok _ |- _ => apply require_owner_Ok in R as (Hr & <- & _) end.
  by eapply change_dropped; [|left|].
Qed.

Lemma break_change serial observed reason actor now database r database' :
  break_stale serial observed reason actor now database = (r, database') -> lock_change (opened database) (opened database').
Proof.
  unfold break_stale. intros H. open_writer H. apply rolled_back_inv in H. destruct r; [|by apply change_none]. ok_inv H.
  match goal with D : ~ lock_state _ _ <> "STALE" |- _ => apply dec_stable, lock_state_stale in D end.
  match goal with D : ~ lk_fencing _ <> _ |- _ => apply dec_stable in D as <- end.
  by eapply change_dropped; [|right|].
Qed.

Lemma lock_run_change op database r database' : lock_run op database = (r, database') -> lock_change (opened database) (opened database').
Proof.
  destruct op as [| ? [t|e] | ? [t|e] |]; cbn; intros H; try (injection H as <- <-; by apply change_none).
  - by eapply acquire_change.
  - by eapply renew_change.
  - by eapply release_change.
  - by eapply break_change.
Qed.

(** ** Histories *)

Inductive lock_history : lock_db -> lock_db -> Prop :=
| history_start d : lock_history d d
| history_next database op r database' d : lock_history (opened database') d -> lock_run op database = (r, database') ->
    lock_history (opened database) d.

Lemma lock_history_keeps (P : lock_db -> Prop) d d' : (forall x y, lock_change x y -> P x -> P y) -> lock_history d d' -> P d -> P d'.
Proof. intros Hs H. induction H as [|database op r database' d H IH Hr]; [done|]. intros Hp. by eapply IH, Hs, Hp; eapply lock_run_change. Qed.

(** What identifies a lock; a renewal only moves its times. *)
Definition lock_frozen (row : LockRow) := (lk_holder row, lk_purpose row, lk_task_id row, lk_token_hash row, lk_fencing row, lk_acquired_at row).
Definition next_fencing (serial : string) (d : lock_db) : Z := default 1 (lb_counters d !! serial).

(** The fencing numbers the audit says were given for a serial, in order. *)
Definition acquired (serial : string) (rows : list LockAudit) : list Z :=
  la_fencing <$> filter (fun a => la_serial a = serial /\ la_action a = "acquire") rows.
(** The holder the audit leaves: the last acquisition not ended since. *)
Definition replay_lock (serial : string) (owner : option Z) (a : LockAudit) : option Z :=
  if decide (la_serial a <> serial) then owner
  else if decide (la_action a = "acquire") then Some (la_fencing a)
  else if decide (la_action a = "release" \/ la_action a = "break_stale") then None else owner.
Definition replay_locks (serial : string) (rows : list LockAudit) : option Z := foldl (replay_lock serial) None rows.

Record lock_ok (d : lock_db) : Prop := mkLockOk {
  lo_next : forall serial, 1 <= next_fencing serial d;
  lo_below : forall serial row, lb_locks d !! serial = Some row -> 1 <= lk_fencing row < next_fencing serial d;
  lo_acquired : forall serial, acquired serial (lb_audit d) = seqZ 1 (next_fencing serial d - 1);
  lo_replay : forall serial, replay_locks serial (lb_audit d) = lk_fencing <$> lb_locks d !! serial;
  lo_public : Forall (fun a => Forall (fun kv => kv.1 ∉ SECRET_KEYS) (la_detail a)) (lb_audit d);
}.

Lemma acquired_snoc serial rows a : acquired serial (rows ++ [a])
  = acquired serial rows ++ (if decide (la_serial a = serial /\ la_action a = "acquire") then [la_fencing a] else []).
Proof. unfold acquired. rewrite filter_app, fmap_app. f_equal. rewrite filter_cons, filter_nil. by case_decide. Qed.
Lemma replay_snoc serial rows a : replay_locks serial (rows ++ [a]) = replay_lock serial (replay_locks serial rows) a.
Proof. unfold replay_locks. by rewrite foldl_app. Qed.

Lemma public_view_public detail : Forall (fun kv => kv.1 ∉ SECRET_KEYS) (public_view detail).
Proof. unfold public_view. apply Forall_forall. by intros kv [? _]%list_elem_of_filter. Qed.

Lemma new_lock_db_ok : lock_ok new_lock_db.
Proof. split; try done. Qed.

(** An audit row that is no acquisition and ends no lock. *)
Lemma lock_ok_note d d' serial action actor fencing at_ detail : lock_ok d ->
  action <> "acquire" -> action <> "release" -> action <> "break_stale" ->
  lb_counters d' = lb_counters d -> (forall s, lk_fencing <$> lb_locks d' !! s = lk_fencing <$> lb_locks d !! s) ->
  lb_audit d' = lb_audit (lock_audit serial action actor fencing at_ detail d) -> lock_ok d'.
Proof.
  intros [L1 L2 L3 L4 L5] N1 N2 N3 Ec El Ea. assert (forall s, next_fencing s d' = next_fencing s d) as En by (intros s; unfold next_fencing; by rewrite Ec).
  cbn in Ea. split.
  - intros s. by rewrite En.
  - intros s row Hr. rewrite En. specialize (El s). rewrite Hr in El. cbn in El. destruct (lb_locks d !! s) as [row0|] eqn:E0; [|done].
    injection El as ->. by eapply L2.
  - intros s. rewrite Ea, acquired_snoc, En, L3. rewrite decide_False by (cbn; tauto). apply app_nil_r.
  - intros s. rewrite Ea, replay_snoc, L4, El. unfold replay_lock; cbn. rewrite (decide_False (P := action = "acquire")) by done.
    rewrite (decide_False (P := action = "release" \/ _)) by tauto. by case_decide.
  - rewrite Ea. apply Forall_app. split; [done|]. apply Forall_singleton. apply public_view_public.
Qed.

Lemma allocate_spec serial d f d1 : allocate_fencing serial d = (f, d1) ->
  f = next_fencing serial d /\ lb_counters d1 = <[serial := f + 1]> (lb_counters d) /\ lb_locks d1 = lb_locks d /\ lb_audit d1 = lb_audit d.
Proof. unfold allocate_fencing, next_fencing. destruct (lb_counters d !! serial); intros [= <- <-]; by split_and!. Qed.

(** A lock that is taken gets the next fencing number. *)
Lemma grab_spec serial holder purpose task ttl token now d :
  let d' := (grab serial holder purpose task ttl token now d).2 in
  let n := next_fencing serial d in
  (exists row, lb_locks d' = <[serial := row]> (lb_locks d) /\ lk_fencing row = n /\ lk_token_hash row = token_hash token)
  /\ (exists detail, lb_audit d' = lb_audit d ++ [mkLockAudit serial "acquire" holder n (iso now) (public_view detail)])
  /\ (forall s, next_fencing s d' = if decide (s = serial) then n + 1 else next_fencing s d)
  /\ jget "fencing" (grab serial holder purpose task ttl token now d).1 = Some (JInt n).
Proof.
  unfold grab. destruct (allocate_fencing serial d) as [f d1] eqn:Ef. apply allocate_spec in Ef as (-> & Ec & El & Ea).
  cbn [fst snd]. split; [|split; [|split]].
  - eexists. split; [rewrite <- El; reflexivity|]. by split.
  - eexists. rewrite <- Ea. reflexivity.
  - intros s. unfold next_fencing at 1. match goal with |- default 1 (lb_counters ?x !! s) = _ => change (lb_counters x) with (lb_counters d1) end.
    rewrite Ec. case_decide as D; [subst s; by rewrite lookup_insert_eq|by rewrite lookup_insert_ne by done].
  - reflexivity.
Qed.

Lemma grab_ok serial holder purpose task ttl token now d : lock_ok d -> lb_locks d !! serial = None ->
  lock_ok (grab serial holder purpose task ttl token now d).2.
Proof.
  intros [L1 L2 L3 L4 L5] Hn. destruct (grab_spec serial holder purpose task ttl token now d) as ((row & El & Er & _) & [det Ea] & En & _).
  set (d' := (grab serial holder purpose task ttl token now d).2) in *. clearbody d'. set (n := next_fencing serial d) in *.
  pose proof (L1 serial) as Hn1. fold n in Hn1. split.
  - intros s. rewrite En. case_decide; [lia|apply L1].
  - intros s r. rewrite En, El. case_decide as D.
    + subst s. rewrite lookup_insert_eq. intros [= <-]. lia.
    + rewrite lookup_insert_ne by done. apply L2.
  - intros s. rewrite Ea, acquired_snoc, En, L3. cbn [la_serial la_action la_fencing]. destruct (decide (s = serial)) as [->|D].
    + rewrite decide_True by done. fold n. replace (n + 1 - 1) with ((n - 1) + 1) by lia. rewrite seqZ_snoc by lia. repeat f_equal. lia.
    + rewrite decide_False by (intros []; congruence). by rewrite app_nil_r.
  - intros s. rewrite Ea, El, replay_snoc, L4. unfold replay_lock. cbn [la_serial la_action la_fencing]. destruct (decide (s = serial)) as [->|D].
    + rewrite decide_False by tauto. rewrite lookup_insert_eq. cbn. by rewrite Er.
    + rewrite decide_True by congruence. by rewrite lookup_insert_ne.
  - rewrite Ea. apply Forall_app. split; [done|]. apply Forall_singleton. apply public_view_public.
Qed.

Lemma dropped_ok d serial row action actor now detail : lock_ok d -> lb_locks d !! serial = Some row ->
  action = "release" \/ action = "break_stale" ->
  lock_ok (lock_audit serial action actor (lk_fencing row) now detail (d <| lb_locks := delete serial (lb_locks d) |>)).
Proof.
  intros [L1 L2 L3 L4 L5] Hr Ha. match goal with |- lock_ok ?x => set (d' := x) end.
  assert (lb_locks d' = delete serial (lb_locks d)) as El by done.
  assert (lb_audit d' = lb_audit d ++ [mkLockAudit serial action actor (lk_fencing row) (iso now) (public_view detail)]) as Ea by done.
  assert (forall s, next_fencing s d' = next_fencing s d) as En by done. clearbody d'. split.
  - intros s. by rewrite En.
  - intros s r. rewrite El, En. intros [_ Hs]%lookup_delete_Some. by apply L2.
  - intros s. rewrite Ea, En, acquired_snoc, L3. rewrite decide_False by (cbn; intros [_ E]; destruct Ha; congruence). by rewrite app_nil_r.
  - intros s. rewrite Ea, El, replay_snoc, L4. unfold replay_lock; cbn [la_serial la_action]. destruct (decide (serial <> s)) as [D|D].
    + by rewrite lookup_delete_ne.
    + apply dec_stable in D as <-. rewrite lookup_delete_eq. rewrite decide_False by (intros ->; destruct Ha; done). by rewrite decide_True.
  - rewrite Ea. apply Forall_app. split; [done|]. apply Forall_singleton. apply public_view_public.
Qed.

Lemma lock_change_ok d d' : lock_change d d' -> lock_ok d -> lock_ok d'.
Proof.
  intros Hc Hok. destruct Hc as [->|serial holder row now Hr ->|serial holder purpose task ttl token now Hn ->|serial row now ttl Hr Hl ->
    |serial row action actor now detail Hr Ha ->]; [done| | | |].
  - by eapply (lock_ok_note d _ serial "acquire_rejected" holder (lk_fencing row) now).
  - by apply grab_ok.
  - eapply (lock_ok_note d _ serial "renew" (lk_holder row) (lk_fencing row) now); try done. intros s. cbn. destruct (decide (s = serial)) as [->|D];
      [by rewrite lookup_insert_eq, Hr|by rewrite lookup_insert_ne].
  - apply dropped_ok; [done|done|]. destruct Ha as [->|[-> _]]; [by left|by right].
Qed.

(** The audit tells the locks. In every database the tool can leave, the
    audit trail says for every serial which fencing numbers were given, namely
    1, 2, 3, ..., each once and in order, and replaying it gives the lock
    that is held now, if any; no secret is in it. *)
Theorem audit_tells_the_locks d (H : lock_history new_lock_db d) :
  (forall serial, acquired serial (lb_audit d) = seqZ 1 (next_fencing serial d - 1)
     /\ replay_locks serial (lb_audit d) = lk_fencing <$> lb_locks d !! serial)
  /\ Forall (fun a => Forall (fun kv => kv.1 ∉ SECRET_KEYS) (la_detail a)) (lb_audit d).
Proof.
  apply (lock_history_keeps lock_ok) in H as [_ _ H1 H2 H3]; [|intros; by eapply lock_change_ok|exact new_lock_db_ok]. split; [|done].
  intros s. by split.
Qed.

(** What one change does to the lock of a serial. *)
Lemma lock_change_serial serial d d' : lock_change d d' -> lock_ok d ->
  next_fencing serial d <= next_fencing serial d'
  /\ forall row', lb_locks d' !! serial = Some row' ->
       (exists row, lb_locks d !! serial = Some row /\ lock_frozen row' = lock_frozen row)
       \/ lb_locks d !! serial = None /\ next_fencing serial d <= lk_fencing row'.
Proof.
  intros Hc Hok. destruct Hc as [->|s holder row now Hr ->|s holder purpose task ttl token now Hn ->|s row now ttl Hr Hl ->
    |s row action actor now detail Hr Ha ->].
  - split; [done|]. intros row' E. left. by exists row'.
  - split; [done|]. intros row' E. left. by exists row'.
  - destruct (grab_spec s holder purpose task ttl token now d) as ((row & El & Er & _) & _ & En & _). rewrite En, El. split; [case_decide; [subst s; lia|done]|].
    intros row' E. destruct (decide (serial = s)) as [->|D].
    + rewrite lookup_insert_eq in E. injection E as <-. right. split; [done|lia].
    + rewrite lookup_insert_ne in E by done. left. by exists row'.
  - split; [done|]. intros row' E. cbn in E. left. destruct (decide (s = serial)) as [->|D].
    + rewrite lookup_insert_eq in E. injection E as <-. by exists row.
    + rewrite lookup_insert_ne in E by done. by exists row'.
  - split; [done|]. intros row' E. cbn in E. apply lookup_delete_Some in E as [D E]. left. by exists row'.
Qed.

Lemma lock_history_serial serial d d' : lock_history d d' -> lock_ok d ->
  lock_ok d' /\ next_fencing serial d <= next_fencing serial d'
  /\ forall row', lb_locks d' !! serial = Some row' ->
       (exists row, lb_locks d !! serial = Some row /\ lock_frozen row' = lock_frozen row) \/ next_fencing serial d <= lk_fencing row'.
Proof.
  intros H Hok. revert H Hok. induction 1 as [|database op r database' d H IH Hr]; intros Hok.
  - split; [done|]. split; [done|]. intros row' E. left. by exists row'.
  - apply lock_run_change in Hr. pose proof (lock_change_ok _ _ Hr Hok) as Hok'. destruct (IH Hok') as (Hd & Hn & Hl).
    destruct (lock_change_serial serial _ _ Hr Hok) as [Hn0 Hl0]. split; [done|]. split; [lia|].
    intros row' E. destruct (Hl row' E) as [(row & E1 & F)|?]; [|right; lia].
    destruct (Hl0 row E1) as [(row0 & E0 & F0)|[_ ?]]; [left; exists row0; split; [done|congruence]|right].
    injection F as _ _ _ _ F _. lia.
Qed.

(** The commands that name a lock by its serial and fencing number. *)
Definition names_lock (serial : string) (fencing : Z) (op : lock_op) : Prop :=
  match op with
  | L_acquire _ _ _ _ _ _ _ => False
  | L_renew s _ f _ _ | L_release s _ f _ | L_break s f _ _ _ => s = serial /\ f = fencing
  end.

Lemma validate_serial_Ok s t : validate_serial s = Ok t -> t = s.
Proof. unfold validate_serial. intros H. by ok_inv H. Qed.

(** A writer that answered. *)
Ltac answered H :=
  match type of H with
  | (match ?m with Ok _ => _ | Err _ => _ end) = _ => let E := fresh "Ev" in destruct m eqn:E; [|discriminate H]; ok_inv E
  end;
  repeat match goal with V : validate_serial _ = Ok _ |- _ => apply validate_serial_Ok in V as -> end;
  apply as_writer_inv in H as [(? & ? & _)|(? & -> & H)]; [discriminate|].

Lemma validate_fencing_Ok f g : validate_fencing f = Ok g -> g = f.
Proof. unfold validate_fencing. intros H. by ok_inv H. Qed.

Lemma release_Ok s t f now database answer database' : release s t f now database = (Ok answer, database') ->
  exists row, lb_locks (opened database) !! s = Some row /\ lk_fencing row = f /\ lk_token_hash row = token_hash t
    /\ lb_locks (opened database') = delete s (lb_locks (opened database)).
Proof.
  unfold release. intros H. answered H. apply rolled_back_inv in H. ok_inv H.
  match goal with R : require_owner _ _ _ _ = Ok _, V : validate_fencing _ = Ok _ |- _ =>
    apply require_owner_Ok in R as (Hr & Hf & Ht); apply validate_fencing_Ok in V as -> end.
  by eexists.
Qed.

Lemma break_Ok s f reason actor now database answer database' : break_stale s f reason actor now database = (Ok answer, database') ->
  exists row, lb_locks (opened database) !! s = Some row /\ lk_fencing row = f /\ parse_iso (lk_expires_at row) <= now
    /\ lb_locks (opened database') = delete s (lb_locks (opened database)).
Proof.
  unfold break_stale. intros H. answered H. apply rolled_back_inv in H. ok_inv H.
  match goal with V : validate_fencing _ = Ok _ |- _ => apply validate_fencing_Ok in V as -> end.
  match goal with D : ~ lock_state _ _ <> "STALE" |- _ => apply dec_stable, lock_state_stale in D end.
  match goal with D : ~ lk_fencing _ <> _ |- _ => apply dec_stable in D end. by eexists.
Qed.

Lemma renew_Ok s t f ttl now database answer database' : renew s t f ttl now database = (Ok answer, database') ->
  exists row, lb_locks (opened database) !! s = Some row /\ lk_fencing row = f /\ lk_token_hash row = token_hash t
    /\ now < parse_iso (lk_expires_at row)
    /\ exists row', lb_locks (opened database') = <[s := row']> (lb_locks (opened database)) /\ lock_frozen row' = lock_frozen row.
Proof.
  unfold renew. intros H. answered H. apply rolled_back_inv in H. ok_inv H.
  match goal with R : require_owner _ _ _ _ = Ok _, V : validate_fencing _ = Ok _ |- _ =>
    apply require_owner_Ok in R as (Hr & Hf & Ht); apply validate_fencing_Ok in V as -> end.
  match goal with D : ~ lock_state _ _ <> "HELD" |- _ => apply dec_stable, lock_state_held in D end.
  eexists. do 4 (split; [eassumption || done|]). by eexists.
Qed.

Lemma acquire_Ok s holder purpose task ttl token now database answer database' :
  acquire s holder purpose task ttl token now database = (Ok answer, database') ->
  lb_locks (opened database) !! s = None /\ jget "fencing" answer = Some (JInt (next_fencing s (opened database)))
  /\ exists row, lb_locks (opened database') = <[s := row]> (lb_locks (opened database))
       /\ lk_fencing row = next_fencing s (opened database) /\ lk_token_hash row = token_hash token.
Proof.
  unfold acquire. intros H. answered H. destruct (lb_locks (opened database) !! s) as [row|] eqn:Er.
  - destruct (refuse _ _ row now (opened database)) as [e2 d2]. discriminate H.
  - match type of H with (let '(_, _) := grab ?a ?b ?c ?d ?e ?f ?g ?h in _) = _ =>
      pose proof (grab_spec a b c d e f g h) as ((row & X1 & X2 & X3) & _ & _ & X4); destruct (grab a b c d e f g h) as [a2 d2] end.
    injection H as <- <-. split; [done|]. split; [done|]. by exists row.
Qed.

(** Past the argument checks of a writer. *)
Ltac checked H :=
  match type of H with (match ?m with Ok _ => _ | Err _ => _ end) = _ => destruct m; [|by injection H as _ <-] end;
  repeat match goal with p : (_ * _)%type |- _ => destruct p end.

Lemma run_Err_locks op database e database' : lock_run op database = (Err e, database') ->
  lb_locks (opened database') = lb_locks (opened database).
Proof.
  assert (forall A body (r : result LockError A), as_writer (rolled_back body) database = (r, database') -> r = Err e ->
    lb_locks (opened database') = lb_locks (opened database)) as Hw.
  { intros A body r H ->. apply as_writer_inv in H as [(? & _ & ->)|(d' & -> & H)]; [done|]. by apply rolled_back_inv in H as ->. }
  destruct op as [s holder purpose task ttl token now|s [t|e'] f ttl now|s [t|e'] f now|s f reason actor now]; cbn; intros H;
    try (by injection H as _ <-).
  - unfold acquire in H. checked H. apply as_writer_inv in H as [(? & _ & ->)|(d' & -> & H)]; [done|]. destruct (lb_locks (opened database) !! _); [injection H as _ <-; done|].
    match type of H with (let '(_, _) := ?g in _) = _ => destruct g; discriminate H end.
  - unfold renew in H. checked H. by eapply Hw.
  - unfold release in H. checked H. by eapply Hw.
  - unfold break_stale in H. checked H. by eapply Hw.
Qed.

(** A command that names a lock succeeds only on the lock it names. *)
Lemma named_lock_held serial fencing op database answer database' : names_lock serial fencing op ->
  lock_run op database = (Ok answer, database') -> exists row, lb_locks (opened database) !! serial = Some row /\ lk_fencing row = fencing.
Proof.
  destruct op as [|s [t|e] f ttl now|s [t|e] f now|s f reason actor now]; cbn; try done; intros [-> ->] H; try discriminate H.
  - apply renew_Ok in H as (row & ? & ? & _). by exists row.
  - apply release_Ok in H as (row & ? & ? & _). by exists row.
  - apply break_Ok in H as (row & ? & ? & _). by exists row.
Qed.

(** A lock is held until it is given up. A lock leaves the table only by the
    release of its owner, with its token and fencing number, or by a break
    that named its fencing number after it had expired; until then it stays
    as it was taken, but for renewals, and nobody else can take the serial,
    however long it has expired. *)
Theorem lock_is_kept op database r database' serial row
    (H : lock_run op database = (r, database')) (Hrow : lb_locks (opened database) !! serial = Some row) :
  ((exists row', lb_locks (opened database') !! serial = Some row' /\ lock_frozen row' = lock_frozen row)
   \/ (exists token now, op = L_release serial (Ok token) (lk_fencing row) now /\ token_hash token = lk_token_hash row /\ is_ok r = true)
   \/ (exists reason actor now, op = L_break serial (lk_fencing row) reason actor now /\ parse_iso (lk_expires_at row) <= now /\ is_ok r = true))
  /\ forall holder purpose task ttl token now, is_ok (acquire serial holder purpose task ttl token now database).1 = false.
Proof.
  split.
  - destruct r as [answer|e]; [|left; exists row; by rewrite (run_Err_locks _ _ _ _ H)].
    destruct op as [s holder purpose task ttl token now|s [t|e] f ttl now|s [t|e] f now|s f reason actor now]; cbn in H; try discriminate H.
    + apply acquire_Ok in H as (En & _ & row0 & El & _). left. exists row. rewrite El, lookup_insert_ne by congruence. done.
    + apply renew_Ok in H as (row0 & E & _ & _ & _ & row1 & El & Ef). left. rewrite El. destruct (decide (s = serial)) as [->|D].
      * exists row1. rewrite lookup_insert_eq. split; [done|congruence].
      * exists row. by rewrite lookup_insert_ne.
    + apply release_Ok in H as (row0 & E & <- & Et & El). destruct (decide (s = serial)) as [->|D].
      * rewrite Hrow in E. injection E as <-. right. left. by exists t, now.
      * left. exists row. rewrite El, lookup_delete_ne by done. done.
    + apply break_Ok in H as (row0 & E & <- & Et & El). destruct (decide (s = serial)) as [->|D].
      * rewrite Hrow in E. injection E as <-. right. right. by exists reason, actor, now.
      * left. exists row. rewrite El, lookup_delete_ne by done. done.
  - intros holder purpose task ttl token now. unfold acquire. destruct (let? _ := validate_serial serial in _) as [x|] eqn:Ev; [|done].
    ok_inv Ev. match goal with V : validate_serial _ = Ok _ |- _ => apply validate_serial_Ok in V as -> end.
    unfold as_writer. destruct (ensure_schema database) eqn:Es; [|done]. apply ensure_schema_Ok in Es as ->. rewrite Hrow. done.
Qed.

(** C25. A lost lock is dead. In every database the tool can leave, once the lock of
    a serial with some fencing number has been given up, no command that
    names it, whatever its token, ever succeeds again, and every later lock
    of the serial has a larger number. *)
Theorem lost_lock_is_dead d d' serial row
    (H0 : lock_history new_lock_db d) (Hrow : lb_locks d !! serial = Some row)
    (H1 : lock_history d d') (Hlost : forall row', lb_locks d' !! serial = Some row' -> lock_frozen row' <> lock_frozen row) :
  forall d'', lock_history d' d'' ->
    (forall row'', lb_locks d'' !! serial = Some row'' -> lk_fencing row < lk_fencing row'')
    /\ forall op, names_lock serial (lk_fencing row) op -> is_ok (lock_run op (Some d'')).1 = false.
Proof.
  intros d'' H2. pose proof (lock_history_keeps lock_ok _ _ lock_change_ok H0 new_lock_db_ok) as Hok.
  destruct (lock_history_serial serial _ _ H1 Hok) as (Hok' & Hn & Hl). destruct (lock_history_serial serial _ _ H2 Hok') as (Hok'' & Hn' & Hl').
  pose proof (lo_below _ Hok serial row Hrow) as Hb.
  assert (forall row'', lb_locks d'' !! serial = Some row'' -> lk_fencing row < lk_fencing row'') as Hf.
  { intros row'' E. destruct (Hl' row'' E) as [(row' & E' & F)|?]; [|lia].
    destruct (Hl row' E') as [(row0 & E0 & F0)|?]; [|injection F as _ _ _ _ F _; lia].
    exfalso. rewrite Hrow in E0. injection E0 as <-. by eapply Hlost. }
  split; [exact Hf|]. intros op Hop. destruct (lock_run op (Some d'')) as [[answer|e] db] eqn:E; [|done]. exfalso.
  destruct (named_lock_held _ _ _ _ _ _ Hop E) as (row'' & E'' & Ef). specialize (Hf row'' E''). lia.
Qed.

(** A payload with literal keys, none of them secret. *)
Ltac public_keys := repeat (apply Forall_cons; split; [apply (bool_decide_unpack _); vm_compute; exact I|]); constructor.

(** Neither what goes to the standard error nor the answer of a command other
    than an acquisition holds a secret. *)
Lemma main_hides_secrets op database out code database' : main op database = (out, code, database') ->
  match out with
  | Stderr payload => Forall (fun kv => kv.1 ∉ SECRET_KEYS) payload
  | Stdout payload => code = EXIT_OK /\ (Forall (fun kv => kv.1 ∉ SECRET_KEYS) payload \/ exists s h p k ttl t now, op = L_acquire s h p k ttl t now)
  end.
Proof.
  unfold main. destruct (lock_run op database) as [[p|e] d] eqn:E; intros [= <- <- <-]; [|apply public_view_public].
  split; [done|]. destruct op as [s h q k ttl t now|s [t|e] f ttl now|s [t|e] f now|s f reason actor now]; cbn in E; try discriminate E.
  - right. by exists s, h, q, k, ttl, t, now.
  - left. unfold renew in E. answered E. apply rolled_back_inv in E. ok_inv E. public_keys.
  - left. unfold release in E. answered E. apply rolled_back_inv in E. ok_inv E. public_keys.
  - left. unfold break_stale in E. answered E. apply rolled_back_inv in E. ok_inv E. public_keys.
Qed.

(** ** A lock taken, expired, broken and taken again *)

Definition taken_lock := acquire "emulator-5554" "alice" "acceptance" None 60 "secret-a" 1000000 None.
Definition broken_lock := break_stale "emulator-5554" 1 "owner is gone" "bob" 90000000 taken_lock.2.
Definition retaken_lock := acquire "emulator-5554" "bob" "acceptance" (Some "T-1") 60 "secret-b" 91000000 broken_lock.2.
Definition taken_row : LockRow := mkLock "alice" "acceptance" None (token_hash "secret-a") 1 1 1 61.

Lemma taken_lock_row : lb_locks (opened taken_lock.2) !! "emulator-5554" = Some taken_row.
Proof. vm_compute. reflexivity. Qed.

Lemma lock_run_history op database : lock_history (opened database) (opened (lock_run op database).2).
Proof. destruct (lock_run op database) as [r d'] eqn:E. eapply history_next; [apply history_start|exact E]. Qed.
Lemma lock_history_trans d1 d2 d3 : lock_history d1 d2 -> lock_history d2 d3 -> lock_history d1 d3.
Proof. intros H1 H2. induction H1 as [|database op r database' d H1 IH Hr]; [done|]. eapply history_next; [by apply IH|done]. Qed.

Lemma taken_history : lock_history new_lock_db (opened taken_lock.2).
Proof. exact (lock_run_history (L_acquire "emulator-5554" "alice" "acceptance" None 60 "secret-a" 1000000) None). Qed.
Lemma retaken_history : lock_history (opened taken_lock.2) (opened retaken_lock.2).
Proof.
  eapply lock_history_trans; [exact (lock_run_history (L_break "emulator-5554" 1 "owner is gone" "bob" 90000000) taken_lock.2)|].
  exact (lock_run_history (L_acquire "emulator-5554" "bob" "acceptance" (Some "T-1") 60 "secret-b" 91000000) broken_lock.2).
Qed.

Lemma audit_tells_the_locks_witness : acquired "emulator-5554" (lb_audit (opened retaken_lock.2)) = [1; 2].
Proof.
  rewrite (proj1 (proj1 (audit_tells_the_locks (opened retaken_lock.2) (lock_history_trans _ _ _ taken_history retaken_history)) "emulator-5554")).
  vm_compute. reflexivity.
Defined.

Lemma lock_is_kept_witness :
  is_ok (acquire "emulator-5554" "bob" "acceptance" (Some "T-1") 60 "secret-b" 91000000 taken_lock.2).1 = false.
Proof.
  destruct (lock_run (L_renew "emulator-5554" (Ok "secret-a") 1 60 2000000) taken_lock.2) as [r d] eqn:E.
  exact (proj2 (lock_is_kept (L_renew "emulator-5554" (Ok "secret-a") 1 60 2000000) taken_lock.2 r d "emulator-5554" taken_row E taken_lock_row)
    "bob" "acceptance" (Some "T-1") 60 "secret-b" 91000000).
Defined.

Lemma lost_lock_is_dead_witness :
  is_ok (lock_run (L_release "emulator-5554" (Ok "secret-a") 1 92000000) retaken_lock.2).1 = false.
Proof.
  refine (proj2 (lost_lock_is_dead (opened taken_lock.2) (opened retaken_lock.2) "emulator-5554" taken_row taken_history taken_lock_row
    retaken_history _ (opened retaken_lock.2) (history_start _)) (L_release "emulator-5554" (Ok "secret-a") 1 92000000) (conj eq_refl eq_refl)).
  intros row' E. assert (lk_fencing <$> lb_locks (opened retaken_lock.2) !! "emulator-5554" = Some 2) as F by (vm_compute; reflexivity).
  rewrite E in F. injection F as F. intros G.
  assert (lk_fencing row' = 1) as G' by exact (f_equal (fun x => x.1.2) G). rewrite F in G'. discriminate G'.
Defined.
